(* ===== verification/_CoqProject ===== *)
-Q . S2P
Prelude.v
Doubles.v
Json.v
Instants.v
HashChain.v
Enums.v
Models.v
AuditTrail.v
JobRuns.v
Ledger.v
FinanceRules.v
Posting.v
Scenarios.v
Disputes.v
InternalLedger.v
InternalLedgerFacts.v
Decisions.v
Limits.v
Transactions.v
Captures.v
CardBooks.v
CardHistories.v
CardReports.v
CardFacts.v
Settlements.v
InvoiceMachine.v
Policy.v
BillingPeriods.v
Effects.v
Payouts.v
Summaries.v
Clearing.v
ClearingFacts.v
Finance.v
FinanceFacts.v
PaymentFacts.v
MoneyFlow.v
MoneyReplay.v
MoneyReplayFacts.v
