(* ===== verification/Prelude.v ===== *)
(** * NEFT processing core: a verification development

    The repository is a card and fuel processing platform.  Its largest service,
    src/platform/processing-core, keeps the money: this development models that money core
    (app/services, app/repositories, app/models and the endpoints that drive them, all
    below src/platform/processing-core/app/) and proves what its parts promise.

    ** The parts and how they interact

    Doubles.v     The floats of the code: binary64 of SpecFloat, exact below 2^53.
    Json.v        [json.dumps] with sorted keys and [json.loads], the text every hash is
                  taken of; printing and reading are inverse.
    Instants.v    [datetime.isoformat] and the decimal digits it prints; no two instants
                  have the same text.
    HashChain.v   What a chain of digests promises, as a class: two chains that end in the
                  same digest hold rows of the same content; the audit log and the internal
                  ledger are its instances.
    Enums.v       The Enum classes, a module each, [value] being [.value].
    Models.v      The tables: a record per SQLAlchemy model, [Db] the database, [exn] the
                  exceptions, and the queries [first], [all], [one_or_none].
    AuditTrail.v  services/audit_service.py: sanitised payloads, the chained record,
                  [verify_chain].
    JobRuns.v     services/billing_job_runs.py ([BillingJobRunService]) with the transaction of
                  a job, and services/job_locks.py ([JobLocks]).
    Ledger.v      The accounts, balances and entries repositories and services/ledger.
    FinanceRules.v  services/finance_invariants: [Rules] (rules.py), [Checker] (checker.py).
    Posting.v     services/ledger/posting_engine.py ([PostingEngine]) and the older
                  services/posting_engine.py ([LegacyPosting]).
    Scenarios.v, Disputes.v  services/operations_scenarios with their repositories, and
                  the admin endpoints of refunds, reversals and disputes.
    InternalLedger.v, InternalLedgerFacts.v  services/internal_ledger.py,
                  services/key_normalization.py, and their theorems.
    Decisions.v   What is asked of the decision engine, the unified rules and the risk
                  adapter: the interfaces of these engines.
    Limits.v      services/limits_engine.py with services/limits.py ([LimitsEngine]) and
                  services/limits_service.py ([LimitsService]).
    Transactions.v  services/transactions_service.py: a card operation is authorised, posted,
                  committed, reversed, refunded; services/commission/split.py.
    Captures.v    services/transactions.py: captures, their refunds and reversals
                  ([Lifecycle]), the reported transactions ([Reports]), and the endpoints of
                  api/v1/endpoints/transactions.py.
    CardBooks.v   The families of card operations and their ledger: what every card service
                  keeps.
    CardHistories.v, CardReports.v, CardFacts.v  Histories of card requests, what is reported
                  of them, what an authorisation does.
    Settlements.v services/settlements.py and routers/admin/settlements.py: the clearings of
                  a day settled to merchants, their payout orders and ledger entries.
    InvoiceMachine.v  services/invoice_state_machine.py and the two endpoints of
                  routers/admin/billing.py that move an invoice.
    Policy.v      services/policy: actors, decisions, audited denials.
    BillingPeriods.v  services/billing_periods.py and services/settlement_allocations.py.
    Effects.v     Frames: what each service leaves alone, as relations between sessions.
    Payouts.v     services/payouts_service.py and the endpoints of
                  api/v1/endpoints/payouts.py: a finalized period closed into a batch that
                  is sent, settled and reconciled.
    Summaries.v   The daily billing: services/billing/daily.py ([Daily]),
                  services/reports_billing.py ([SummaryReports]) and their endpoints.
    Clearing.v    services/clearing_service.py, clearing_runs.py, clearing.py,
                  clearing_daily.py and routers/admin/clearing.py.
    ClearingFacts.v  Their theorems, up to the settlements of a day.
    Finance.v     services/finance.py, and the endpoints of routers/admin/finance.py and
                  api/v1/endpoints/billing_invoices.py that post money.
    FinanceFacts.v, PaymentFacts.v  Their theorems.
    MoneyFlow.v   services/money_flow: the state machine of the flows, snapshots and
                  their digests, links, diffs and the explanation of a flow; the snapshot
                  of an invoice issued by services/crm/subscription_billing.py.
    MoneyReplay.v, MoneyReplayFacts.v  The reports on the flows: cfo_explain.py,
                  replay.py, diagnostics.py, and the endpoints of
                  routers/admin/money_flow.py; their theorems.

    An endpoint calls a service; the services call each other (a payment: policy, checks,
    ledger, state machine, settlement period, allocation, audit; an authorisation: decision
    engine, unified rules, limits, risk adapter, contractual limits, accounts and ledger),
    all on one session; a day goes through requests of their own (card operations, their
    summaries, the clearing, settlements and payouts), on what the earlier ones committed.  Components outside the model are classes that the services take:
    [DecisionService], [RulesService] and [RiskService] (the engines), [Timezone] (zoneinfo
    at the billing zone), [DatabaseZone] (func.date), [BillingSettings], [LegalGraph] (the graph of legal
    documents), and a function for the advisory locks.  [allow_all], [no_rules],
    [low_risk], [utc], [database_utc], [default_settings] and [no_graph] are instances of them.

    ** State, effects and errors

    A service call is a function of the session monad [M] below: a session holds the
    tables as this transaction sees them ([live]) and as they are committed ([saved]);
    [commit] and [rollback] are db.commit and db.rollback, an exception is a value of
    [exn] and keeps the changes made so far, and [try_except] is Python's.  The sessions
    of the code do not flush on their own (autoflush=False), so a row is visible from its
    flush on.  The environment [world] gives the clock, [uuid4], the digest, and what other
    sessions commit at each point where this one is between a lookup and the flush of its
    insert ([race], [rivals]); a savepoint is the raise it turns into.  [alone] says that
    there is no other session; the theorems on concurrency do without it.

    ** The theorems

    - Posting: an admissible posting refines its specification, keeps balances equal to the
      journal whoever else posts, is atomic, and is idempotent under its key.
    - Internal ledger: a posting appends one balanced, numbered, chained batch; any history
      verifies; a replay is checked; concurrent postings cannot fork the chain; a change of
      any posting, total or time shows; verification depends on the order of random ids (finding).
    - Audit trail: every history of calls verifies, unless the driver loads IP addresses as
      objects (finding); a change of any of 22 columns shows; two sessions can fork the
      chain (finding).
    - Invoices: the lifecycle and the money identity are invariant under all requests, each
      outcome of a transition is decided, a due invoice can be paid, a locked period
      freezes its invoices.
    - Periods: they only advance, an event finds its settlement period, the summary
      conserves the allocations.
    - Payments: what a new payment writes, replays and conflicts, the reconciliation of
      allocations; what the endpoints post is never committed (finding).
    - Scenarios: caps, holds, lifecycles of refunds, reversals and disputes, from which
      account to which the money goes in an open and in a closed period, and where they
      fail together (findings).
    - Cards: the limit rules decide by the most specific rule, the contractual limits are
      exact below 2^53; every history of requests keeps the families of operations and the
      ledger right; an authorisation declines or transfers its amount after every check; the
      list of transactions shows the columns of the operations and the detail misses the
      refunds of captures (finding); a reversal moves no money (finding); the commission
      split is exact but for one unit.
    - Daily billing and clearing: a finalized summary stands whatever is served; a clearing
      conserves the finalized summaries and is done once; a new day that is billed,
      finalized, cleared and settled conserves what its operations and fuel come to, for
      every merchant and currency; what is billed twice, stale or lost (findings).
    - Settlements and payouts: under every history of requests a settlement is at a stage
      that matches its payout and its events, and the balances have moved by exactly what
      was sent; a batch of payouts goes through its states in order and keeps its totals,
      which a reconciliation compares with the operations.
    - Policy: the engine is the table of demands.
    - Money flows: the state machine is the table and every history is a path in it,
      canonical snapshots are read back and are fixed points, a snapshot is recorded once,
      an ensured link exists once and in its tenant, the verdict on an invoice snapshot is
      decided; the health report and the explanation of a posting, for any entries, say
      whether it balances in one currency, a replay changes no stored row, a comparison
      after a rebuild finds no missing link, the breakdowns of the invoices of a period
      conserve their lines and agree with its replay, the stuck flows are those reported.

    Bounds and fuel: the only fuel is that of the JSON reader, the length of its text plus
    one, which the round trip shows to be enough.

    ** What the model assumes or leaves out

    - Identifiers drawn by uuid4 are distinct where a theorem needs it (a hypothesis); a
      digest may collide, and the theorems that need it not to say so.
    - Amounts are BigInteger columns: their 64-bit bound, the precision of Numeric(18,4)
      and of Decimal, and the lengths of string columns are not modelled.
    - Instants are microseconds in UTC; server-side defaults are drawn from the same clock
      as datetime.now.  An identifier that a flush draws may be drawn where the row is added.
    - Strings are byte strings; [len] counts bytes, and [str.strip], [upper] and [int] are
      those of ASCII.  A token is a record of its typed claims.
    - Unique constraints and the foreign key of balances are checked, other foreign keys
      are not.  Row locks, advisory locks (a parameter), metrics and logs are not modelled.
    - A new credit note is flushed by the first flush of the transition that follows it.
      A row that a service returns before its flush is a [tracked] row of MoneyFlow.v.
    - Card operations: response_message is left out; the quantities of requests are in
      thousandths; the commission rate is a rational; a UUID is 32 hexadecimal digits
      (int(s, 16) also takes underscores and signs).
    - audit_log.ip is an INET column: whether the driver loads it as an ipaddress object
      (psycopg 3 on PostgreSQL) or as the text (SQLite) is the parameter [native_inet] of the
      verification of an audit chain.
    - Litres are a Numeric(18,3) column in thousandths; [float(litres)] is the binary64
      number of SpecFloat nearest to it.
    - The order of the groups of a query is that of its rows; naive instants are in UTC.
    - Of the CRM tables only the columns the reports read are kept.

    ** Not modelled

    The decision engine, the unified rules, the risk adapter and the legal graph
    (interfaces here), billing runs, the generation of invoices and their PDF, the
    files of payouts,
    accounting exports, fleets, the marketplace, cases and documents,
    notifications and reporting, the other routers, migrations, auth-host,
    integration-hub and the front ends: they produce the rows the core takes, call it, or
    do not touch money. *)
From stdpp Require Export base gmap strings list pretty sorting.
From Stdlib Require Export ZArith Lia.

#[global] Open Scope Z_scope.

Declare Scope py_scope.
Delimit Scope py_scope with py.

(** ** Outcomes of a call: a value, or a raised exception *)

Inductive outcome (E A : Type) : Type :=
| Ok (a : A)
| Raise (e : E).
Arguments Ok {E A} a.
Arguments Raise {E A} e.

Definition is_ok {E A} (o : outcome E A) : bool :=
  match o with Ok _ => true | Raise _ => false end.

(** ** The environment of a run

    What a request cannot choose: the instants the clock returns, the values
    [uuid4] returns, the digest function of [hashlib], and what other sessions
    commit while this one is between a lookup and the flush of its insert. *)
Record world (D : Type) : Type := World {
  clock : nat -> Z;
  new_uuid : nat -> string;
  sha256_hex : string -> string;
  rivals : nat -> D -> D;
}.
Arguments World {D} _ _ _ _.
Arguments clock {D} _ _.
Arguments new_uuid {D} _ _.
Arguments sha256_hex {D} _ _.
Arguments rivals {D} _ _ _.

(** [func.date] of an instant in microseconds since the epoch, a day counted from it, in the
    zone of the database session. *)
Class DatabaseZone := { db_date : Z -> Z }.

Definition database_utc : DatabaseZone := {| db_date := fun t => t / 86400000000 |}.

(** ** A database session

    [live] is the state the session sees: the flushed rows, with the attribute
    changes of the objects it has loaded.  [saved] is the committed state a
    rollback returns to.  The counters say how much of the environment's clock,
    uuid supply and rival commits was consumed.  The sessions of db/__init__.py do
    not autoflush: a query whose filter reads an attribute that is changed and not
    yet flushed would see the old value; the modelled code has no such query. *)
Record session (D : Type) : Type := Session {
  live : D;
  saved : D;
  ticks : nat;
  uuids : nat;
  races : nat;
}.
Arguments Session {D} _ _ _ _ _.
Arguments live {D} _.
Arguments saved {D} _.
Arguments ticks {D} _.
Arguments uuids {D} _.
Arguments races {D} _.

(** A session that has just committed. *)
Definition fresh_session {D} (d : D) : session D := Session d d 0 0 0.

(** ** The session monad: state that survives a raised exception *)

Definition M (E D A : Type) : Type := session D -> outcome E A * session D.

#[global] Instance M_ret {E D} : MRet (M E D) := fun A a s => (Ok a, s).
#[global] Instance M_bind {E D} : MBind (M E D) := fun A B f m s =>
  match m s with
  | (Ok a, s') => f a s'
  | (Raise e, s') => (Raise e, s')
  end.

Section Operations.
Context {E D : Type}.
Implicit Types (s : session D) (d : D).

Definition raise {A} (e : E) : M E D A := fun s => (Raise e, s).

(** [try: m except ...: h]; [h] returns [None] for an exception it does not
    catch, which is raised again. *)
Definition try_except {A} (m : M E D A) (h : E -> option (M E D A)) : M E D A :=
  fun s => match m s with
           | (Ok a, s') => (Ok a, s')
           | (Raise e, s') => match h e with
                              | Some k => k s'
                              | None => (Raise e, s')
                              end
           end.

Definition gets {A} (f : D -> A) : M E D A := fun s => (Ok (f (live s)), s).

Definition modify (f : D -> D) : M E D unit := fun s =>
  (Ok tt, Session (f (live s)) (saved s) (ticks s) (uuids s) (races s)).

(** [db.commit()] *)
Definition commit : M E D unit := fun s =>
  (Ok tt, Session (live s) (live s) (ticks s) (uuids s) (races s)).

(** [db.rollback()] *)
Definition rollback : M E D unit := fun s =>
  (Ok tt, Session (saved s) (saved s) (ticks s) (uuids s) (races s)).

Definition when (b : bool) (m : M E D unit) : M E D unit :=
  if b then m else mret tt.

(** A Python [for] loop that builds a list, one step per element. *)
Fixpoint for_each {A B} (l : list A) (f : A -> M E D B) : M E D (list B) :=
  match l with
  | [] => mret []
  | a :: l' => b ← f a; bs ← for_each l' f; mret (b :: bs)
  end.

(** A Python [for] loop that updates a variable. *)
Fixpoint fold_each {A B} (f : B -> A -> M E D B) (b : B) (l : list A) : M E D B :=
  match l with
  | [] => mret b
  | a :: l' => b' ← f b a; fold_each f b' l'
  end.

Context (W : world D).

(** [datetime.now(timezone.utc)], in microseconds since the epoch *)
Definition now : M E D Z := fun s =>
  (Ok (clock W (ticks s)),
   Session (live s) (saved s) (S (ticks s)) (uuids s) (races s)).

(** [str(uuid4())] *)
Definition uuid4 : M E D string := fun s =>
  (Ok (new_uuid W (uuids s)),
   Session (live s) (saved s) (ticks s) (S (uuids s)) (races s)).

(** What other sessions commit before the next flush of this one. *)
Definition race : M E D unit := fun s =>
  (Ok tt, Session (rivals W (races s) (live s)) (rivals W (races s) (saved s))
                  (ticks s) (uuids s) (S (races s))).
End Operations.

Arguments when {E D} !b m.

(** ** Running a call step by step *)

Section Run.
Context {E D : Type}.
Implicit Types (s t : session D).

Lemma bind_ok {A B} (m : M E D A) (f : A -> M E D B) s a t :
  m s = (Ok a, t) -> (m ≫= f) s = f a t.
Proof. unfold mbind, M_bind. by intros ->. Qed.

Lemma bind_raised {A B} (m : M E D A) (f : A -> M E D B) s e t :
  m s = (Raise e, t) -> (m ≫= f) s = (Raise e, t).
Proof. unfold mbind, M_bind. by intros ->. Qed.

(** A loop whose steps change nothing. *)
Lemma for_each_reads {A B} (f : A -> M E D B) (h : A -> B) l s :
  (forall a, In a l -> f a s = (Ok (h a), s)) -> for_each l f s = (Ok (map h l), s).
Proof.
  induction l as [|a l IH]; intros Hf; [done|]. cbn [for_each].
  rewrite (bind_ok _ _ s (h a) s) by (apply Hf; by left).
  rewrite (bind_ok _ _ s (map h l) s); [done|]. apply IH. intros b Hb. apply Hf. by right.
Qed.

Lemma try_ok {A} (m : M E D A) h s a t :
  m s = (Ok a, t) -> try_except m h s = (Ok a, t).
Proof. unfold try_except. by intros ->. Qed.

Lemma try_raised {A} (m : M E D A) h s e t :
  m s = (Raise e, t) ->
  try_except m h s = match h e with Some k => k t | None => (Raise e, t) end.
Proof. unfold try_except. by intros ->. Qed.

Lemma bind_inv_ok {A B} (m : M E D A) (f : A -> M E D B) s b t :
  (m ≫= f) s = (Ok b, t) -> exists a u, m s = (Ok a, u) /\ f a u = (Ok b, t).
Proof. unfold mbind, M_bind. destruct (m s) as [[a|e] u]; [by eauto|done]. Qed.
End Run.

Lemma ok_run {E D A} (m : M E D A) (s : session D) :
  is_ok (m s).1 = true -> exists r, m s = (Ok r, (m s).2).
Proof. destruct (m s) as [[r|e] t]; [by exists r|done]. Qed.

(** Unfold the monad and reduce the session, leaving the calls of the code. *)
Ltac run_steps :=
  unfold mbind, M_bind, mret, M_ret, gets, modify, raise, when, commit, rollback, now, uuid4, race;
  cbn [live saved ticks uuids races fst snd].

(** ** Weakest preconditions *)

Section Wp.
Context {E D : Type}.
Implicit Types (s : session D).

Definition wp {A} (m : M E D A) (Q : A -> session D -> Prop)
    (R : E -> session D -> Prop) (s : session D) : Prop :=
  match m s with
  | (Ok a, s') => Q a s'
  | (Raise e, s') => R e s'
  end.

Lemma wp_mono {A} (m : M E D A) (Q Q' : A -> session D -> Prop)
    (R R' : E -> session D -> Prop) s :
  wp m Q R s -> (forall a t, Q a t -> Q' a t) -> (forall e t, R e t -> R' e t) ->
  wp m Q' R' s.
Proof. unfold wp. destruct (m s) as [[a|e] t]; auto. Qed.

Lemma wp_bind {A B} (m : M E D A) (f : A -> M E D B) Q R s :
  wp (m ≫= f) Q R s <-> wp m (fun a => wp (f a) Q R) R s.
Proof. unfold wp, mbind, M_bind. by destruct (m s) as [[a|e] t]. Qed.

(** A step whose outcome is known. *)
Lemma wp_step {A B} (m : M E D A) (f : A -> M E D B) Q R s a t :
  m s = (Ok a, t) -> wp (f a) Q R t -> wp (m ≫= f) Q R s.
Proof. intros Hm Hf. apply wp_bind. unfold wp at 1. by rewrite Hm. Qed.

Lemma wp_ret {A} (a : A) Q R s : wp (mret a : M E D A) Q R s <-> Q a s.
Proof. done. Qed.

Lemma wp_raise {A} (e : E) (Q : A -> session D -> Prop) R s :
  wp (raise e) Q R s <-> R e s.
Proof. done. Qed.

Lemma wp_try {A} (m : M E D A) h Q R s :
  wp (try_except m h) Q R s <->
  wp m Q (fun e t => match h e with Some k => wp k Q R t | None => R e t end) s.
Proof.
  unfold wp, try_except. destruct (m s) as [[a|e] t]; [done|]. by destruct (h e).
Qed.

Lemma wp_use {A} (m : M E D A) Q R s o t :
  wp m Q R s -> m s = (o, t) ->
  match o with Ok a => Q a t | Raise e => R e t end.
Proof. unfold wp. intros H Hm. rewrite Hm in H. by destruct o. Qed.

(** The rule for loops: an invariant indexed by what is left to process. *)
Lemma wp_for_each {A B} (f : A -> M E D B) (J : list A -> list B -> session D -> Prop)
    (R : E -> session D -> Prop) :
  (forall a l done s, J (a :: l) done s ->
     wp (f a) (fun b => J l (done ++ [b])) R s) ->
  forall l done s, J l done s ->
    wp (for_each l f) (fun bs => J [] (done ++ bs)) R s.
Proof.
  intros Hstep l. induction l as [|a l IH]; intros done s HJ; simpl.
  - apply wp_ret. by rewrite app_nil_r.
  - apply wp_bind. eapply wp_mono; [by apply Hstep| |done].
    intros b t Hb. apply wp_bind. eapply wp_mono; [by apply (IH (done ++ [b]))| |done].
    intros bs u Hbs. apply wp_ret. by rewrite cons_middle, app_assoc.
Qed.
End Wp.

Lemma wp_fold_each {E D A B} (f : B -> A -> M E D B) (J : list A -> B -> session D -> Prop)
    (R : E -> session D -> Prop) :
  (forall a l b s, J (a :: l) b s -> wp (f b a) (fun b' => J l b') R s) ->
  forall l b s, J l b s -> wp (fold_each f b l) (fun b' => J [] b') R s.
Proof.
  intros Hstep l. induction l as [|a l IH]; intros b s HJ; simpl; [by apply wp_ret|].
  apply wp_bind. eapply wp_mono; [by apply Hstep| |done]. intros b' t Ht. by apply IH.
Qed.

(** ** Requests

    A request runs in a session of its own: what it leaves uncommitted is gone when the
    session is closed, whether it returns or raises. *)
Section Serve.
Context {E D : Type}.

Definition serve (m : M E D unit) : M E D unit := try_except m (fun _ => Some (mret tt));; rollback.

Definition serve_all (ms : list (M E D unit)) (s : session D) : session D := (for_each ms serve s).2.

Lemma serve_run (m : M E D unit) s : exists t, serve m s = (Ok tt, t) /\ saved t = saved (m s).2 /\ live t = saved t.
Proof.
  unfold serve, try_except, mbind, M_bind. destruct (m s) as [[[]|e] t]; by eexists.
Qed.

Lemma serve_all_cons m ms s : serve_all (m :: ms) s = serve_all ms (serve m s).2.
Proof.
  unfold serve_all. cbn [for_each]. destruct (serve_run m s) as (t & Hr & _).
  rewrite (bind_ok _ _ s tt t Hr), Hr. cbn [snd].
  destruct (for_each ms serve t) as [[l|e] u] eqn:Hrun.
  - by rewrite (bind_ok _ _ t l u).
  - by rewrite (bind_raised _ _ t e u).
Qed.

(** What every request keeps of the committed state, any history of requests keeps. *)
Lemma serve_all_keeps (I : D -> Prop) (R : relation D) `{!PreOrder R} ms :
  Forall (fun m => forall s, saved s = live s -> I (saved s) -> I (saved (m s).2) /\ R (saved s) (saved (m s).2)) ms ->
  forall s, saved s = live s -> I (saved s) ->
  let t := serve_all ms s in saved t = live t /\ I (saved t) /\ R (saved s) (saved t).
Proof.
  induction 1 as [|m ms Hm _ IH]; intros s Hs Hi; cbv zeta; [done|].
  rewrite serve_all_cons. destruct (Hm s Hs Hi) as [Hi' HR]. destruct (serve_run m s) as (t & -> & Ht & Hl).
  cbn [snd]. rewrite <- Ht in Hi', HR. destruct (IH t) as (H1 & H2 & H3); [done|done|].
  split; [done|]. split; [done|]. by etrans.
Qed.

Lemma serve_all_invariant (I : D -> Prop) ms :
  Forall (fun m => forall s, saved s = live s -> I (saved s) -> I (saved (m s).2)) ms ->
  forall s, saved s = live s -> I (saved s) -> let t := serve_all ms s in saved t = live t /\ I (saved t).
Proof.
  intros Hms s Hs Hi. assert (PreOrder (fun _ _ : D => True)) by (by split).
  destruct (serve_all_keeps I (fun _ _ => True) ms) with (s := s) as (H1 & H2 & _); [|done..].
  eapply Forall_impl; [exact Hms|]. auto.
Qed.
End Serve.

(** ** Invariants of the store that a call keeps, whether it returns or raises *)

Section Keeps.
Context {E D : Type} (I : D -> Prop).

Definition holds (s : session D) : Prop := I (live s) /\ I (saved s).

Definition keeps {A} (m : M E D A) : Prop := forall s, holds s -> holds (m s).2.

Lemma keeps_ret {A} (a : A) : keeps (mret a).
Proof. by intros s H. Qed.

Lemma keeps_raise {A} (e : E) : keeps (raise (A := A) e).
Proof. by intros s H. Qed.

Lemma keeps_gets {A} (f : D -> A) : keeps (gets f).
Proof. by intros s H. Qed.

Lemma keeps_bind {A B} (m : M E D A) (f : A -> M E D B) :
  keeps m -> (forall a, keeps (f a)) -> keeps (m ≫= f).
Proof.
  intros Hm Hf s H. specialize (Hm s H). unfold mbind, M_bind.
  destruct (m s) as [[a|e] t]; simpl in *; [by apply Hf|done].
Qed.

Lemma keeps_modify (f : D -> D) : (forall d, I d -> I (f d)) -> keeps (modify f).
Proof. intros Hf s [Hl Hs]. split; simpl; auto. Qed.

Lemma keeps_commit : keeps (A := unit) commit.
Proof. intros s [Hl Hs]. by split. Qed.

Lemma keeps_rollback : keeps (A := unit) rollback.
Proof. intros s [Hl Hs]. by split. Qed.

Lemma keeps_when b m : keeps m -> keeps (when b m).
Proof. destruct b; [done|]. intros _. apply keeps_ret. Qed.

Lemma keeps_if {A} (b : bool) (m n : M E D A) :
  keeps m -> keeps n -> keeps (if b then m else n).
Proof. by destruct b. Qed.

Lemma keeps_try {A} (m : M E D A) h :
  keeps m -> (forall e k, h e = Some k -> keeps k) -> keeps (try_except m h).
Proof.
  intros Hm Hh s H. specialize (Hm s H). unfold try_except.
  destruct (m s) as [[a|e] t]; simpl in *; [done|].
  destruct (h e) as [k|] eqn:He; [by apply (Hh e)|done].
Qed.

Lemma keeps_for_each {A B} (l : list A) (f : A -> M E D B) :
  (forall a, keeps (f a)) -> keeps (for_each l f).
Proof.
  intros Hf. induction l as [|a l IH]; simpl; [apply keeps_ret|].
  apply keeps_bind; [done|]. intros b. apply keeps_bind; [done|].
  intros bs. apply keeps_ret.
Qed.

Lemma keeps_now W : keeps (A := Z) (now W).
Proof. by intros s H. Qed.

Lemma keeps_uuid4 W : keeps (A := string) (uuid4 W).
Proof. by intros s H. Qed.

Lemma keeps_race W :
  (forall n d, I d -> I (rivals W n d)) -> keeps (A := unit) (race W).
Proof. intros HW s [Hl Hs]. split; simpl; auto. Qed.
End Keeps.

Lemma keeps_wp {E D A} (I : D -> Prop) (m : M E D A) s :
  keeps I m -> holds I s -> wp m (fun _ => holds I) (fun _ => holds I) s.
Proof. intros Hm Hs. specialize (Hm s Hs). unfold wp. by destruct (m s) as [[a|e] t]. Qed.

Lemma wp_keeps {E D A} (I : D -> Prop) (m : M E D A) s : wp m (fun _ => holds I) (fun _ => holds I) s -> holds I (m s).2.
Proof. unfold wp. by destruct (m s) as [[a|e] t]. Qed.

(** The next call of a sequence keeps an invariant. *)
Lemma wp_keeps_bind {E D A B} (I : D -> Prop) (m : M E D A) (f : A -> M E D B) Q R s :
  keeps I m -> holds I s ->
  (forall a t, holds I t -> wp (f a) Q R t) -> (forall e t, holds I t -> R e t) ->
  wp (m ≫= f) Q R s.
Proof.
  intros Hm Hs Hf HR. apply wp_bind. eapply wp_mono; [by apply keeps_wp| |].
  - intros a t Ht. by apply Hf.
  - intros e t Ht. by apply HR.
Qed.

(** Keeping an invariant, and what is known of the value returned. *)
Definition yields {E D A} (I : D -> Prop) (m : M E D A) (Q : A -> Prop) : Prop :=
  forall s, holds I s -> wp m (fun a t => holds I t /\ Q a) (fun _ t => holds I t) s.

Lemma yields_ret {E D A} (I : D -> Prop) (a : A) (Q : A -> Prop) :
  Q a -> yields I (mret a : M E D A) Q.
Proof. intros HQ s Hs. by apply wp_ret. Qed.

Lemma yields_bind {E D A B} (I : D -> Prop) (m : M E D A) (f : A -> M E D B) Q R :
  yields I m Q -> (forall a, Q a -> yields I (f a) R) -> yields I (m ≫= f) R.
Proof.
  intros Hm Hf s Hs. apply wp_bind. eapply wp_mono; [by apply Hm| |done].
  intros a t [Ht HQ]. by apply Hf.
Qed.

Lemma yields_keeps {E D A} (I : D -> Prop) (m : M E D A) : keeps I m <-> yields I m (fun _ => True).
Proof.
  split; intros H s Hs; specialize (H s Hs); unfold wp in *; destruct (m s) as [[a|e] t];
    naive_solver.
Qed.

Lemma yields_forget {E D A} (I : D -> Prop) (m : M E D A) Q : yields I m Q -> keeps I m.
Proof.
  intros H s Hs. specialize (H s Hs). unfold wp in H. destruct (m s) as [[a|e] t]; [by destruct H|done].
Qed.

(** A call that keeps the invariant, then the rest. *)
Lemma yields_after {E D A B} (I : D -> Prop) (m : M E D A) (f : A -> M E D B) R :
  keeps I m -> (forall a, yields I (f a) R) -> yields I (m ≫= f) R.
Proof. intros Hm Hf. eapply yields_bind; [by apply yields_keeps|]. intros a _. apply Hf. Qed.

Create HintDb keeps.
#[export] Hint Resolve keeps_ret keeps_raise keeps_gets keeps_bind keeps_commit
  keeps_rollback keeps_when keeps_if keeps_for_each keeps_now keeps_uuid4 : keeps.

(** ** Calls that commit nothing *)

Section Uncommitted.
Context {E D : Type}.

Definition uncommitted {A} (m : M E D A) : Prop :=
  forall s, saved (m s).2 = saved s /\ races (m s).2 = races s /\
            (uuids s <= uuids (m s).2)%nat.

Lemma uncommitted_ret {A} (a : A) : uncommitted (mret a).
Proof. repeat split; simpl; lia. Qed.

Lemma uncommitted_raise {A} (e : E) : uncommitted (raise (A := A) e).
Proof. repeat split; simpl; lia. Qed.

Lemma uncommitted_gets {A} (f : D -> A) : uncommitted (gets f).
Proof. repeat split; simpl; lia. Qed.

Lemma uncommitted_modify (f : D -> D) : uncommitted (modify f).
Proof. repeat split; simpl; lia. Qed.

Lemma uncommitted_bind {A B} (m : M E D A) (f : A -> M E D B) :
  uncommitted m -> (forall a, uncommitted (f a)) -> uncommitted (m ≫= f).
Proof.
  intros Hm Hf s. destruct (Hm s) as (Hs & Hr & Hu). unfold mbind, M_bind.
  destruct (m s) as [[a|e] t]; simpl in *; [|done]. destruct (Hf a t) as (-> & -> & ?).
  repeat split; [done|done|lia].
Qed.

Lemma uncommitted_when b (m : M E D unit) : uncommitted m -> uncommitted (when b m).
Proof. by destruct b. Qed.

Lemma uncommitted_skip (m : M E D unit) : uncommitted (when false m).
Proof. repeat split; simpl; lia. Qed.

Lemma uncommitted_if {A} (b : bool) (m n : M E D A) :
  uncommitted m -> uncommitted n -> uncommitted (if b then m else n).
Proof. by destruct b. Qed.

Lemma uncommitted_option {A B} (o : option A) (f : A -> M E D B) (n : M E D B) :
  (forall a, uncommitted (f a)) -> uncommitted n ->
  uncommitted (match o with Some a => f a | None => n end).
Proof. by destruct o. Qed.

Lemma uncommitted_for_each {A B} (l : list A) (f : A -> M E D B) :
  (forall a, uncommitted (f a)) -> uncommitted (for_each l f).
Proof.
  intros Hf. induction l as [|a l IH]; simpl; [apply uncommitted_ret|].
  apply uncommitted_bind; [done|]. intros b. apply uncommitted_bind; [done|].
  intros bs. apply uncommitted_ret.
Qed.

Lemma uncommitted_now (W : world D) : uncommitted (now W).
Proof. repeat split; simpl; lia. Qed.

Lemma uncommitted_uuid4 (W : world D) : uncommitted (uuid4 W).
Proof. repeat split; simpl; lia. Qed.
End Uncommitted.

Create HintDb uncommitted.
#[export] Hint Resolve uncommitted_ret uncommitted_raise uncommitted_gets uncommitted_modify
  uncommitted_bind uncommitted_when uncommitted_skip uncommitted_if uncommitted_option uncommitted_for_each
  uncommitted_now uncommitted_uuid4 : uncommitted.

(** ** Python idioms *)

(** [value or dflt] on an optional string: [None] and the empty string are false. *)
Definition str_or (o : option string) (dflt : string) : string :=
  match o with
  | Some (String c r) => String c r
  | _ => dflt
  end.

(** [value or None] *)
Definition str_or_none (o : option string) : option string :=
  match o with
  | Some (String c r) => Some (String c r)
  | _ => None
  end.

Definition truthy_str (o : option string) : bool := bool_decide (is_Some (str_or_none o)).

(** [a or b] on integers *)
Definition int_or (a b : Z) : Z := if a =? 0 then b else a.

(** [sum(...)] *)
Definition sum_of {A} (f : A -> Z) (l : list A) : Z := foldr (fun a acc => f a + acc) 0 l.

(** [order_by] an integer column *)
Section SortOn.
Context {A : Type} (f : A -> Z).

Definition le_on (a b : A) : Prop := f a <= f b.
Definition lt_on (a b : A) : Prop := f a < f b.

#[global] Instance le_on_dec : RelDecision le_on.
Proof. intros a b. unfold le_on. apply _. Defined.
#[global] Instance le_on_trans : Transitive le_on.
Proof. intros a b c. unfold le_on. lia. Qed.
#[global] Instance le_on_total : Total le_on.
Proof. intros a b. unfold le_on. lia. Qed.

Definition sort_on (l : list A) : list A := merge_sort le_on l.

Lemma sort_on_perm l : sort_on l ≡ₚ l.
Proof. apply merge_sort_Permutation. Qed.

Lemma sort_on_sorted l : StronglySorted lt_on l -> sort_on l = l.
Proof.
  intros Hs. apply (StronglySorted_unique_strong le_on).
  - intros a b Ha Hb Hab Hba. unfold sort_on in Ha. rewrite merge_sort_Permutation in Ha.
    assert (f a = f b) as E by (unfold le_on in *; lia). clear Hab Hba.
    induction Hs as [|x l Hs IH Hx]; [by apply not_elem_of_nil in Ha|].
    rewrite Forall_forall in Hx.
    apply elem_of_cons in Ha as [->|Ha], Hb as [->|Hb]; [done| | |by apply IH].
    + specialize (Hx _ Hb). unfold lt_on in Hx. lia.
    + specialize (Hx _ Ha). unfold lt_on in Hx. lia.
  - apply StronglySorted_merge_sort; apply _.
  - induction Hs as [|x l Hs IH Hx]; constructor; [done|].
    eapply Forall_impl; [exact Hx|]. unfold lt_on, le_on. lia.
  - apply sort_on_perm.
Qed.
End SortOn.

Lemma StronglySorted_snoc {A} (R : A -> A -> Prop) l x :
  StronglySorted R l -> Forall (fun y => R y x) l -> StronglySorted R (l ++ [x]).
Proof.
  induction l as [|y l IH]; intros Hs HF; simpl; [repeat constructor|].
  apply StronglySorted_inv in Hs as [Hs Hy]. apply Forall_cons in HF as [Hyx HF].
  constructor; [auto|]. apply Forall_app. split; [done|]. by constructor.
Qed.

Lemma filter_snoc {A} (P : A -> bool) l r :
  List.filter P (l ++ [r]) = List.filter P l ++ (if P r then [r] else []).
Proof. rewrite List.filter_app. simpl. by destruct (P r). Qed.

Lemma filter_and {A} (P Q : A -> bool) l :
  List.filter (fun r => P r && Q r) l = List.filter P (List.filter Q l).
Proof.
  induction l as [|x l IH]; simpl; [done|].
  destruct (Q x) eqn:HQ; destruct (P x) eqn:HP; simpl; rewrite ?HP; by rewrite IH.
Qed.

Lemma filter_all {A} (P : A -> bool) l : Forall (fun x => P x = true) l -> List.filter P l = l.
Proof. induction 1 as [|x l Hx Hl IH]; simpl; [done|]. by rewrite Hx, IH. Qed.

Lemma filter_none {A} (P : A -> bool) l : Forall (fun x => P x = false) l -> List.filter P l = [].
Proof. induction 1 as [|x l Hx Hl IH]; simpl; [done|]. by rewrite Hx. Qed.

(** A column without duplicates identifies its row. *)
Lemma nodup_key {A B} (f : A -> B) l x y :
  List.NoDup (map f l) -> In x l -> In y l -> f x = f y -> x = y.
Proof.
  induction l as [|z l IH]; simpl; intros Hn Hx Hy He; [done|].
  apply List.NoDup_cons_iff in Hn as [Hz Hn].
  destruct Hx as [->|Hx], Hy as [->|Hy]; [done| | |by apply IH].
  - destruct Hz. rewrite He. by apply in_map.
  - destruct Hz. rewrite <- He. by apply in_map.
Qed.

Lemma nodup_snoc {A} (l : list A) a : List.NoDup l -> ~ In a l -> List.NoDup (l ++ [a]).
Proof.
  intros Hl Ha. apply NoDup_ListNoDup, NoDup_app. rewrite NoDup_ListNoDup.
  repeat split; [done| |repeat constructor; set_solver].
  intros x Hx ->%list_elem_of_singleton. apply Ha. by apply list_elem_of_In.
Qed.

Lemma sum_of_app {A} (f : A -> Z) l m : sum_of f (l ++ m) = sum_of f l + sum_of f m.
Proof. induction l as [|a l IH]; simpl; [done|]. rewrite IH. lia. Qed.

Lemma sum_of_map {A B} (f : B -> Z) (g : A -> B) l : sum_of f (map g l) = sum_of (fun a => f (g a)) l.
Proof. induction l as [|a l IH]; simpl; [done|]. by rewrite IH. Qed.

Lemma sum_of_ext {A} (f g : A -> Z) l : Forall (fun a => f a = g a) l -> sum_of f l = sum_of g l.
Proof. induction 1 as [|a l Ha Hl IH]; simpl; [done|]. by rewrite Ha, IH. Qed.

Lemma sum_of_perm {A} (f : A -> Z) l m : l ≡ₚ m -> sum_of f l = sum_of f m.
Proof. induction 1; simpl; lia. Qed.

Lemma sum_of_flat_map {A B} (f : B -> Z) (g : A -> list B) l :
  sum_of f (List.flat_map g l) = sum_of (fun a => sum_of f (g a)) l.
Proof. induction l as [|a l IH]; simpl; [done|]. by rewrite sum_of_app, IH. Qed.

Lemma sum_of_zero {A} (f : A -> Z) l : Forall (fun a => f a = 0) l -> sum_of f l = 0.
Proof. induction 1 as [|a l Ha _ IH]; simpl; lia. Qed.

Lemma sum_of_filter {A} (f : A -> Z) (P : A -> bool) l :
  sum_of f (List.filter P l) = sum_of (fun a => if P a then f a else 0) l.
Proof. induction l as [|a l IH]; simpl; [done|]. destruct (P a); simpl; lia. Qed.

Lemma filter_perm {A} (P : A -> bool) l m : l ≡ₚ m -> List.filter P l ≡ₚ List.filter P m.
Proof.
  intros H. induction H as [|x l m _ IH|x y l|l m n _ IH1 _ IH2]; simpl; [done|..].
  - destruct (P x); [by constructor|done].
  - destruct (P x), (P y); try done. by constructor.
  - by etrans.
Qed.

(** A key that occurs once picks one element. *)
Lemma filter_single {A} (P : A -> bool) (x : A) l : List.NoDup l -> In x l -> P x = true ->
  (forall y, In y l -> P y = true -> y = x) -> List.filter P l = [x].
Proof.
  induction 1 as [|a l Ha Hnd IH]; [done|]. intros [->|Hin] HP Huniq; simpl.
  - rewrite HP. f_equal. apply filter_none, List.Forall_forall. intros y Hy.
    destruct (P y) eqn:E; [|done]. destruct Ha. by rewrite <- (Huniq y (or_intror Hy) E).
  - destruct (P a) eqn:E.
    + destruct Ha. by rewrite (Huniq a (or_introl eq_refl) E).
    + apply IH; auto. intros y Hy. apply Huniq. by right.
Qed.

(** ** Sums over a finite map *)
Section MapSum.
Context {K V : Type} `{Countable K} (f : K -> V -> Z).

Definition map_sum (m : gmap K V) : Z := map_fold (fun k v acc => f k v + acc) 0 m.

Lemma map_sum_insert_new k v m : m !! k = None -> map_sum (<[k:=v]> m) = f k v + map_sum m.
Proof.
  intros Hk. unfold map_sum. rewrite map_fold_insert_L; [done| |done]. intros. lia.
Qed.

Lemma map_sum_delete k v m : m !! k = Some v -> map_sum m = f k v + map_sum (delete k m).
Proof.
  intros Hk. rewrite <- (insert_delete_id m k v Hk) at 1.
  apply map_sum_insert_new, lookup_delete_eq.
Qed.

Lemma map_sum_insert k v m :
  map_sum (<[k:=v]> m) = map_sum m + f k v - from_option (f k) 0 (m !! k).
Proof.
  destruct (m !! k) as [w|] eqn:Hk; simpl.
  - rewrite (map_sum_delete k w m Hk), <- insert_delete_eq.
    rewrite map_sum_insert_new by apply lookup_delete_eq. lia.
  - rewrite map_sum_insert_new by done. lia.
Qed.
End MapSum.
