(* ===== verification/Doubles.v ===== *)
(** * Python floats

    [float] is binary64: the operations of SpecFloat at 53 bits of precision.  The code
    turns integers and [Numeric(18,3)] columns into floats, adds and compares them; up to
    2^53 the integers, their sums and their order are exact. *)
From Stdlib Require Import SpecFloat.
From S2P Require Import Prelude.

(** [float(n)] of an [int]: the nearest double, ties to even. *)
Definition float_of_int (n : Z) : spec_float := binary_normalize 53 1024 n 0 false.

(** [float(d)] of a [Numeric(18,3)] given in thousandths. *)
Definition float_of_thousandths (n : Z) : spec_float :=
  SFdiv 53 1024 (float_of_int n) (float_of_int 1000).

Definition float_add : spec_float -> spec_float -> spec_float := SFadd 53 1024.
Definition float_mul : spec_float -> spec_float -> spec_float := SFmul 53 1024.

(** [x > y] *)
Definition float_gtb (x y : spec_float) : bool := SFltb y x.

(** [int(x)]: the fraction is dropped. *)
Definition truncate (f : spec_float) : Z :=
  match f with
  | S754_finite s m e =>
      let a := if 0 <=? e then Zpos m * 2 ^ e else Zpos m / 2 ^ (- e) in
      if s then - a else a
  | _ => 0
  end.

(** ** Binary digits *)

(** [p * 2 ^ k] *)
Definition shift_left (k : nat) (p : positive) : positive := Nat.iter k xO p.

Definition digits (p : positive) : Z := Zpos (digits2_pos p).

Lemma iter_pos_nat {A} (f : A -> A) n x : SpecFloat.iter_pos f n x = Nat.iter (Pos.to_nat n) f x.
Proof.
  revert x. induction n as [n IH|n IH|]; intros x; cbn [SpecFloat.iter_pos]; [| |done];
    rewrite !IH, <- Nat.iter_add.
  - rewrite <- (Nat.iter_succ_r _ A f). f_equal. lia.
  - f_equal. lia.
Qed.

Lemma shift_left_value k p : Zpos (shift_left k p) = Zpos p * 2 ^ Z.of_nat k.
Proof.
  unfold shift_left. induction k as [|k IH]; [simpl; lia|].
  rewrite Nat.iter_succ, Pos2Z.inj_xO, IH, Nat2Z.inj_succ, Z.pow_succ_r; lia.
Qed.

Lemma shift_left_inj p q k : Zpos q = Zpos p * 2 ^ Z.of_nat k -> q = shift_left k p.
Proof. intros H. apply Pos2Z.inj. by rewrite shift_left_value. Qed.

Lemma digits_shift k p : digits (shift_left k p) = digits p + Z.of_nat k.
Proof.
  unfold digits, shift_left. induction k as [|k IH]; [simpl; lia|].
  rewrite Nat.iter_succ. cbn [digits2_pos]. rewrite Pos2Z.inj_succ, IH. lia.
Qed.

Lemma digits_positive p : 0 < digits p.
Proof. unfold digits. lia. Qed.

(** [2 ^ (digits p - 1) <= p < 2 ^ digits p] *)
Lemma digits_bounds p : 2 ^ (digits p - 1) <= Zpos p < 2 ^ digits p.
Proof.
  assert (digits2_pos p = Pos.size p) as Hs by (induction p; simpl; congruence).
  unfold digits. rewrite Hs. pose proof (Pos.size_gt p) as Hlt. pose proof (Pos.size_le p) as Hle.
  rewrite <- Pos2Z.inj_pow. split; [|exact Hlt].
  apply (Z.mul_le_mono_pos_l _ _ 2); [done|]. rewrite <- Z.pow_succ_r by lia.
  replace (Z.succ (Zpos (Pos.size p) - 1)) with (Zpos (Pos.size p)) by lia.
  rewrite <- Pos2Z.inj_pow. exact Hle.
Qed.

Lemma digits_le p n : Zpos p < 2 ^ n -> 0 <= n -> digits p <= n.
Proof.
  intros Hp Hn. destruct (digits_bounds p) as [Hlo _].
  assert (digits p - 1 < n) by (apply (Z.pow_lt_mono_r_iff 2); lia). lia.
Qed.

(** ** Exact integers *)

(** The double of an integer below 2^53: 53 bits of mantissa. *)
Definition exact_pos (s : bool) (p : positive) : spec_float :=
  S754_finite s (shift_left (Z.to_nat (53 - digits p)) p) (digits p - 53).

Definition exact (n : Z) : spec_float :=
  match n with
  | 0 => S754_zero false
  | Zpos p => exact_pos false p
  | Zneg p => exact_pos true p
  end.

Lemma shr_exact n p : Nat.iter n shr_1 {| shr_m := Zpos (shift_left n p); shr_r := false; shr_s := false |} =
  {| shr_m := Zpos p; shr_r := false; shr_s := false |}.
Proof.
  induction n as [|n IH]; [done|]. rewrite Nat.iter_succ_r. exact IH.
Qed.

Lemma fexp_small d : -1021 <= d -> fexp 53 1024 d = d - 53.
Proof. unfold fexp, emin. intros H. simpl. lia. Qed.

(** A mantissa of 53 bits, or a longer one whose other bits are zero, is not rounded. *)
Lemma round_aux_exact s p (n : nat) e : 0 < digits p <= 53 -> e = digits p - 53 - Z.of_nat n ->
  binary_round_aux 53 1024 s (Zpos (shift_left n (shift_left (Z.to_nat (53 - digits p)) p))) e loc_Exact =
  exact_pos s p.
Proof.
  intros Hp He. set (m := shift_left (Z.to_nat (53 - digits p)) p).
  assert (digits m = 53) as Hm by (unfold m; rewrite digits_shift; lia).
  unfold binary_round_aux, shr_fexp. cbn [shr_record_of_loc Zdigits2].
  change (Zpos (digits2_pos (shift_left n m))) with (digits (shift_left n m)).
  rewrite digits_shift, Hm, fexp_small by lia.
  replace (53 + Z.of_nat n + e - 53 - e) with (Z.of_nat n) by lia.
  assert (shr {| shr_m := Zpos (shift_left n m); shr_r := false; shr_s := false |} e (Z.of_nat n) =
    ({| shr_m := Zpos m; shr_r := false; shr_s := false |}, digits p - 53)) as ->.
  { destruct n as [|n]; [simpl; f_equal; lia|]. unfold shr.
    change (Z.of_nat (S n)) with (Zpos (Pos.of_succ_nat n)). cbv iota.
    rewrite iter_pos_nat, SuccNat2Pos.id_succ, (shr_exact (S n) m). f_equal. lia. }
  cbn [shr_m loc_of_shr_record round_nearest_even Zdigits2].
  change (Zpos (digits2_pos m)) with (digits m). rewrite Hm, fexp_small by lia.
  replace (53 + (digits p - 53) - 53 - (digits p - 53)) with 0 by lia. cbn [shr shr_m].
  replace (digits p - 53 <=? Z.sub 1024 53) with true by (symmetry; apply Z.leb_le; simpl; lia).
  reflexivity.
Qed.

Lemma shift_left_split p k n : k = (n + Z.to_nat (53 - digits p))%nat ->
  shift_left k p = shift_left n (shift_left (Z.to_nat (53 - digits p)) p).
Proof. intros ->. unfold shift_left. by rewrite <- Nat.iter_add. Qed.

(** An integer given with a binary exponent is rounded to itself. *)
Lemma round_exact s p (k : nat) : digits p <= 53 ->
  binary_round 53 1024 s (shift_left k p) (- Z.of_nat k) = exact_pos s p.
Proof.
  intros Hp. pose proof (digits_positive p) as H0. unfold binary_round.
  change (Zpos (digits2_pos (shift_left k p))) with (digits (shift_left k p)).
  rewrite digits_shift. replace (digits p + Z.of_nat k + - Z.of_nat k) with (digits p) by lia.
  rewrite fexp_small by lia. unfold shl_align.
  destruct (Z.sub (digits p - 53) (- Z.of_nat k)) as [|d|d] eqn:Hd.
  - rewrite (shift_left_split p k 0) by lia. apply round_aux_exact; lia.
  - rewrite (shift_left_split p k (Z.to_nat (Zpos d))) by lia. apply round_aux_exact; lia.
  - assert (Pos.iter xO (shift_left k p) d = shift_left 0 (shift_left (Z.to_nat (53 - digits p)) p)) as ->.
    { rewrite Pos2Nat.inj_iter.
      change (shift_left (Pos.to_nat d) (shift_left k p) =
        shift_left 0 (shift_left (Z.to_nat (53 - digits p)) p)).
      unfold shift_left. rewrite <- !Nat.iter_add. f_equal. lia. }
    apply round_aux_exact; lia.
Qed.

Definition fits (n : Z) : Prop := Z.abs n < 2 ^ 53.

Lemma normalize_exact n (k : nat) : fits n ->
  binary_normalize 53 1024 (n * 2 ^ Z.of_nat k) (- Z.of_nat k) false = exact n.
Proof.
  unfold fits. intros Hn. destruct n as [|p|p]; [done| |].
  - rewrite <- shift_left_value. apply round_exact, digits_le; lia.
  - rewrite <- Pos2Z.opp_pos, Z.mul_opp_l, <- shift_left_value. apply round_exact, digits_le; lia.
Qed.

Lemma float_of_int_exact n : fits n -> float_of_int n = exact n.
Proof.
  intros Hn. unfold float_of_int. rewrite <- (normalize_exact n 0 Hn). simpl Z.of_nat.
  by rewrite Z.pow_0_r, Z.mul_1_r.
Qed.

Lemma fits_digits p : fits (Zpos p) -> digits p <= 53.
Proof. unfold fits. intros H. apply digits_le; lia. Qed.

(** The mantissa of a double, aligned to a smaller exponent. *)
Lemma aligned s p (k : nat) : digits p <= 53 -> 53 - digits p <= Z.of_nat k ->
  cond_Zopp s (Zpos (fst (shl_align (shift_left (Z.to_nat (53 - digits p)) p) (digits p - 53) (- Z.of_nat k)))) =
  cond_Zopp s (Zpos p) * 2 ^ Z.of_nat k.
Proof.
  intros Hp Hk.
  assert (Zpos (fst (shl_align (shift_left (Z.to_nat (53 - digits p)) p) (digits p - 53) (- Z.of_nat k))) =
    Zpos p * 2 ^ Z.of_nat k) as ->; [|destruct s; simpl cond_Zopp; lia].
  rewrite <- shift_left_value. f_equal. unfold shl_align.
  destruct (Z.sub (- Z.of_nat k) (digits p - 53)) as [|d|d] eqn:Hd; [|lia|]; cbn [fst].
  - f_equal. lia.
  - rewrite Pos2Nat.inj_iter.
    change (shift_left (Pos.to_nat d) (shift_left (Z.to_nat (53 - digits p)) p) = shift_left k p).
    unfold shift_left. rewrite <- Nat.iter_add. f_equal. lia.
Qed.

Definition signed (s : bool) (p : positive) : Z := cond_Zopp s (Zpos p).

Lemma exact_signed s p : exact (signed s p) = exact_pos s p.
Proof. by destruct s. Qed.

Lemma add_exact_pos s p t q : fits (Zpos p) -> fits (Zpos q) -> fits (signed s p + signed t q) ->
  float_add (exact_pos s p) (exact_pos t q) = exact (signed s p + signed t q).
Proof.
  intros Hp%fits_digits Hq%fits_digits Hn. unfold float_add, exact_pos, SFadd.
  set (k := Z.to_nat (Z.max (53 - digits p) (53 - digits q))).
  replace (Z.min (digits p - 53) (digits q - 53)) with (- Z.of_nat k) by lia.
  rewrite !aligned by lia. rewrite <- Z.mul_add_distr_r. by apply normalize_exact.
Qed.

(** Integers are added exactly as floats while they and their sum fit in 53 bits. *)
Lemma float_add_exact m n : fits m -> fits n -> fits (m + n) ->
  float_add (float_of_int m) (float_of_int n) = float_of_int (m + n).
Proof.
  intros Hm Hn Hs. rewrite !float_of_int_exact by done.
  destruct m as [|p|p]; [by destruct n| |];
    (destruct n as [|q|q]; [by rewrite Z.add_0_r| |]).
  - by apply (add_exact_pos false p false q).
  - by apply (add_exact_pos false p true q).
  - by apply (add_exact_pos true p false q).
  - by apply (add_exact_pos true p true q).
Qed.

(** Doubles of positive integers are compared by exponent, then by mantissa. *)
Lemma compare_exact_pos p q : fits (Zpos p) -> fits (Zpos q) ->
  (match digits p - 53 ?= digits q - 53 with
   | Eq => Pos.compare_cont Eq (shift_left (Z.to_nat (53 - digits p)) p) (shift_left (Z.to_nat (53 - digits q)) q)
   | c => c
   end) = (Zpos p ?= Zpos q).
Proof.
  intros Hp Hq. pose proof (digits_bounds p). pose proof (digits_bounds q).
  assert (forall a b, digits a < digits b -> Zpos a < Zpos b) as Hlt.
  { intros a b Hab. destruct (digits_bounds a) as [_ Ha]. destruct (digits_bounds b) as [Hb _].
    apply (Z.lt_le_trans _ (2 ^ digits a)); [done|]. etrans; [|exact Hb].
    apply Z.pow_le_mono_r; lia. }
  destruct (Z.compare_spec (digits p - 53) (digits q - 53)) as [He|Hl|Hg].
  - change (Pos.compare_cont Eq ?a ?b) with (Zpos a ?= Zpos b). rewrite !shift_left_value.
    replace (digits q) with (digits p) by lia.
    symmetry. apply Zmult_compare_compat_r, Z.lt_gt, Z.pow_pos_nonneg; lia.
  - symmetry. apply Z.compare_lt_iff, Hlt. lia.
  - symmetry. apply Z.compare_gt_iff, Hlt. lia.
Qed.

Lemma float_compare_exact m n : fits m -> fits n ->
  SFcompare (float_of_int m) (float_of_int n) = Some (m ?= n).
Proof.
  intros Hm Hn. rewrite !float_of_int_exact by done.
  destruct m as [|p|p], n as [|q|q]; try reflexivity; cbn [exact exact_pos SFcompare]; f_equal.
  - by apply compare_exact_pos.
  - change (Zneg p ?= Zneg q) with (CompOpp (Zpos p ?= Zpos q)). rewrite <- compare_exact_pos by done.
    by destruct (_ ?= _).
Qed.

(** The comparison of the limits: [used + increment > value]. *)
Lemma float_gtb_exact m n : fits m -> fits n ->
  float_gtb (float_of_int m) (float_of_int n) = (n <? m).
Proof.
  intros Hm Hn. unfold float_gtb, SFltb. rewrite float_compare_exact by done.
  unfold Z.ltb. by destruct (n ?= m).
Qed.
