(* ===== verification/Json.v ===== *)
(** * JSON values and [json.dumps]/[json.loads]

    Hash payloads, audit payloads, metadata columns and invariant snapshots are
    JSON objects.  The four [_canonical_json] helpers of the code all call
    [json.dumps(data, sort_keys=True, separators=(",", ":"), ensure_ascii=False)];
    this file models that call on the values the code passes (no floats), the
    [json.loads] that reads it back, and proves that they are inverse. *)
From stdpp Require Import sorting.
From Stdlib Require Import Ascii String DecimalString DecimalZ DecimalFacts.
From S2P Require Import Prelude.

(** ** Values *)

(** The entries of a dict are kept in insertion order, as Python keeps them. *)
Inductive json : Type :=
| JNull
| JBool (b : bool)
| JInt (z : Z)
| JStr (s : string)
| JList (l : list json)
| JDict (d : list (string * json)).

Definition dict := list (string * json).

Section JsonInd.
Variable P : json -> Prop.
Hypothesis P_null : P JNull.
Hypothesis P_bool : forall b, P (JBool b).
Hypothesis P_int : forall z, P (JInt z).
Hypothesis P_str : forall s, P (JStr s).
Hypothesis P_list : forall l, Forall P l -> P (JList l).
Hypothesis P_dict : forall d, Forall (fun kv => P kv.2) d -> P (JDict d).

Fixpoint json_ind' (v : json) : P v :=
  match v with
  | JNull => P_null
  | JBool b => P_bool b
  | JInt z => P_int z
  | JStr s => P_str s
  | JList l => P_list l ((fix go l : Forall P l :=
      match l with
      | [] => Forall_nil_2 _
      | x :: l' => Forall_cons_2 _ x l' (json_ind' x) (go l')
      end) l)
  | JDict d => P_dict d ((fix go d : Forall (fun kv => P kv.2) d :=
      match d with
      | [] => Forall_nil_2 _
      | kv :: d' => Forall_cons_2 _ kv d' (json_ind' kv.2) (go d')
      end) d)
  end.
End JsonInd.

#[global] Instance json_eq_dec : EqDecision json.
Proof.
  refine (fix go (v w : json) {struct v} : Decision (v = w) :=
    match v, w with
    | JNull, JNull => left _
    | JBool a, JBool b => cast_if (decide (a = b))
    | JInt a, JInt b => cast_if (decide (a = b))
    | JStr a, JStr b => cast_if (decide (a = b))
    | JList a, JList b => cast_if (@list_eq_dec _ go a b)
    | JDict a, JDict b =>
        cast_if (@list_eq_dec _ (@prod_eq_dec _ _ _ go) a b)
    | _, _ => right _
    end); abstract congruence.
Defined.

(** [d.get(key)] *)
Fixpoint dict_get (d : dict) (k : string) : option json :=
  match d with
  | [] => None
  | (k', v) :: d' => if decide (k' = k) then Some v else dict_get d' k
  end.

(** ** [sort_keys=True] *)

Definition key_le {A} (x y : string * A) : Prop := String.le x.1 y.1.

#[global] Instance key_le_dec {A} : RelDecision (@key_le A).
Proof. intros x y. unfold key_le. apply _. Defined.
#[global] Instance key_le_trans {A} : Transitive (@key_le A).
Proof. intros x y z. unfold key_le. apply transitivity. Qed.
#[global] Instance key_le_total {A} : Total (@key_le A).
Proof. intros x y. unfold key_le. apply String.le_total. Qed.

Definition sort_by_key {A} (d : list (string * A)) : list (string * A) :=
  merge_sort key_le d.

Fixpoint sort_keys (v : json) : json :=
  match v with
  | JList l => JList (map sort_keys l)
  | JDict d => JDict (sort_by_key (map (fun kv => (kv.1, sort_keys kv.2)) d))
  | v => v
  end.

(** ** Printing *)

Definition dquote : ascii := "034".
Definition bslash : ascii := "092".

Definition char_str (c : ascii) : string := String c EmptyString.
Definition quote_str : string := char_str dquote.

Definition hex_digit (n : nat) : ascii :=
  if (n <? 10)%nat then ascii_of_nat (48 + n) else ascii_of_nat (87 + n).

Definition short_escapes : list (ascii * ascii) :=
  [ (dquote, dquote); (bslash, bslash); ("008"%char, "b"%char);
    ("012"%char, "f"%char); ("010"%char, "n"%char); ("013"%char, "r"%char);
    ("009"%char, "t"%char) ].

Definition escape_char (c : ascii) : string :=
  match find (fun e => Ascii.eqb e.1 c) short_escapes with
  | Some (_, e) => String bslash (char_str e)
  | None =>
      let n := nat_of_ascii c in
      if (n <? 32)%nat then
        String bslash (String "u" (String "0" (String "0"
          (String (hex_digit (n / 16)%nat) (char_str (hex_digit (n mod 16)%nat))))))
      else char_str c
  end.

Fixpoint escape (s : string) : string :=
  match s with
  | EmptyString => EmptyString
  | String c s' => escape_char c +:+ escape s'
  end.

Definition print_str (s : string) : string := quote_str +:+ escape s +:+ quote_str.

Definition print_int (z : Z) : string := NilZero.string_of_int (Z.to_int z).

Definition join (sep : string) (l : list string) : string := String.concat sep l.

Fixpoint print (v : json) : string :=
  match v with
  | JNull => "null"
  | JBool true => "true"
  | JBool false => "false"
  | JInt z => print_int z
  | JStr s => print_str s
  | JList l => "[" +:+ join "," (map print l) +:+ "]"
  | JDict d => "{" +:+ join "," (map (fun kv => print_str kv.1 +:+ ":" +:+ print kv.2) d) +:+ "}"
  end.

(** The canonical form the code hashes. *)
Definition canonical_json (v : json) : string := print (sort_keys v).

(** ** Parsing *)

Definition hex_value (c : ascii) : option nat :=
  let n := nat_of_ascii c in
  if (48 <=? n)%nat && (n <=? 57)%nat then Some (n - 48)%nat
  else if (97 <=? n)%nat && (n <=? 102)%nat then Some (n - 87)%nat
  else None.

(** One character of a string literal: itself, a short escape, or [\u00XY]
    (the only long escapes [json.dumps] writes with [ensure_ascii=False]). *)
Definition parse_char (s : string) : option (ascii * string) :=
  match s with
  | EmptyString => None
  | String c r =>
      if Ascii.eqb c bslash then
        match r with
        | String e r' =>
            match find (fun p => Ascii.eqb p.2 e) short_escapes with
            | Some (c', _) => Some (c', r')
            | None =>
                match r' with
                | String z1 (String z2 (String h (String l r''))) =>
                    if Ascii.eqb e "u" && Ascii.eqb z1 "0" && Ascii.eqb z2 "0" then
                      a ← hex_value h; b ← hex_value l;
                      Some (ascii_of_nat (16 * a + b)%nat, r'')
                    else None
                | _ => None
                end
            end
        | EmptyString => None
        end
      else if Ascii.eqb c dquote then None
      else Some (c, r)
  end.

(** The characters up to the closing quote. *)
Fixpoint parse_chars (fuel : nat) (s : string) : option (string * string) :=
  match fuel with
  | O => None
  | S fuel' =>
      match s with
      | String c r =>
          if Ascii.eqb c dquote then Some (EmptyString, r)
          else '(c', r') ← parse_char s;
               '(t, r'') ← parse_chars fuel' r';
               Some (String c' t, r'')
      | EmptyString => None
      end
  end.

Definition is_num_char (c : ascii) : bool :=
  Ascii.eqb c "-" || ((48 <=? nat_of_ascii c)%nat && (nat_of_ascii c <=? 57)%nat).

Fixpoint span_num (s : string) : string * string :=
  match s with
  | String c r => if is_num_char c then let (a, b) := span_num r in (String c a, b)
                  else (EmptyString, s)
  | EmptyString => (EmptyString, EmptyString)
  end.

Definition parse_int (s : string) : option (Z * string) :=
  let (a, b) := span_num s in
  i ← NilZero.int_of_string a; Some (Z.of_int i, b).

(** [strip p s] is what follows the prefix [p] of [s]. *)
Fixpoint strip (p s : string) : option string :=
  match p, s with
  | EmptyString, _ => Some s
  | String c p', String d s' => if Ascii.eqb c d then strip p' s' else None
  | _, EmptyString => None
  end.

Section ParseItems.
Context {A : Type} (item : string -> option (A * string)) (close : ascii).

(** Items separated by commas up to the closing bracket. *)
Fixpoint parse_items (fuel : nat) (s : string) : option (list A * string) :=
  match fuel with
  | O => None
  | S fuel' =>
      '(x, r) ← item s;
      match r with
      | String c r' =>
          if Ascii.eqb c "," then
            '(xs, r'') ← parse_items fuel' r'; Some (x :: xs, r'')
          else if Ascii.eqb c close then Some ([x], r')
          else None
      | EmptyString => None
      end
  end.

Definition parse_seq (fuel : nat) (s : string) : option (list A * string) :=
  match s with
  | String c r => if Ascii.eqb c close then Some ([], r) else parse_items fuel s
  | EmptyString => None
  end.
End ParseItems.

Definition parse_member (value : string -> option (json * string)) (fuel : nat)
    (s : string) : option ((string * json) * string) :=
  r ← strip quote_str s;
  '(k, r1) ← parse_chars fuel r;
  r2 ← strip ":" r1;
  '(v, r3) ← value r2;
  Some ((k, v), r3).

Fixpoint parse (fuel : nat) (s : string) : option (json * string) :=
  match fuel with
  | O => None
  | S fuel' =>
      match s with
      | EmptyString => None
      | String c r =>
          if Ascii.eqb c dquote then
            '(t, r') ← parse_chars fuel r; Some (JStr t, r')
          else if Ascii.eqb c "[" then
            '(l, r') ← parse_seq (parse fuel') "]" fuel r; Some (JList l, r')
          else if Ascii.eqb c "{" then
            '(d, r') ← parse_seq (parse_member (parse fuel') fuel) "}" fuel r;
            Some (JDict d, r')
          else if Ascii.eqb c "n" then r' ← strip "null" s; Some (JNull, r')
          else if Ascii.eqb c "t" then r' ← strip "true" s; Some (JBool true, r')
          else if Ascii.eqb c "f" then r' ← strip "false" s; Some (JBool false, r')
          else '(z, r') ← parse_int s; Some (JInt z, r')
      end
  end.

(** [json.loads]; the fuel is the length of the text, which bounds its nesting,
    the members of each of its objects and the characters of each literal. *)
Definition loads (s : string) : option json :=
  '(v, r) ← parse (S (String.length s)) s;
  match r with EmptyString => Some v | _ => None end.

(** ** Lemmas *)

#[local] Arguments String.append !s1 s2 /.

Definition no_num (s : string) : Prop :=
  match s with String c _ => is_num_char c = false | EmptyString => True end.

Lemma string_app_assoc (a b c : string) : (a +:+ b) +:+ c = a +:+ (b +:+ c).
Proof. induction a as [|x a IH]; simpl; [done|]. by rewrite IH. Qed.

Lemma string_app_nil_r (a : string) : a +:+ EmptyString = a.
Proof. induction a as [|x a IH]; simpl; [done|]. by rewrite IH. Qed.

Lemma string_length_app (a b : string) :
  String.length (a +:+ b) = (String.length a + String.length b)%nat.
Proof. induction a as [|x a IH]; simpl; [done|]. by rewrite IH. Qed.

Lemma eqb_char_refl c : Ascii.eqb c c = true.
Proof. apply Ascii.eqb_refl. Qed.

Lemma strip_app p r : strip p (p +:+ r) = Some r.
Proof. induction p as [|c p IH]; simpl; [done|]. by rewrite eqb_char_refl. Qed.

(** One escaped character is read back as one character. *)
Lemma parse_chars_escape n c r :
  parse_chars (S n) (escape_char c +:+ r) =
  ('(t, r') ← parse_chars n r; Some (String c t, r')).
Proof. by destruct c as [[] [] [] [] [] [] [] []]. Qed.

Lemma parse_chars_print s : forall n r, (String.length s < n)%nat ->
  parse_chars n (escape s +:+ String dquote r) = Some (s, r).
Proof.
  induction s as [|c s IH]; intros [|n] r Hn; simpl in Hn; try lia; [done|].
  change (escape (String c s)) with (escape_char c +:+ escape s).
  rewrite string_app_assoc, parse_chars_escape, IH by lia. done.
Qed.

Fixpoint all_num (s : string) : bool :=
  match s with String c r => is_num_char c && all_num r | EmptyString => true end.

Lemma all_num_uint d : all_num (NilEmpty.string_of_uint d) = true.
Proof. induction d; simpl; try done; by rewrite IHd. Qed.

Lemma all_num_int z : all_num (print_int z) = true.
Proof.
  unfold print_int, NilZero.string_of_int, NilZero.string_of_uint.
  destruct (Z.to_int z) as [d|d]; destruct d; simpl; try done; apply all_num_uint.
Qed.

Lemma print_int_cons z : exists c s, print_int z = String c s /\ is_num_char c = true.
Proof.
  unfold print_int, NilZero.string_of_int, NilZero.string_of_uint.
  destruct (Z.to_int z) as [d|d]; destruct d; simpl; eauto.
Qed.

Lemma span_num_app s r : all_num s = true -> no_num r -> span_num (s +:+ r) = (s, r).
Proof.
  intros Hs Hr. induction s as [|c s IH]; simpl in *.
  - destruct r as [|c r]; simpl in *; [done|]. by rewrite Hr.
  - apply andb_prop in Hs as [-> Hs]. by rewrite IH.
Qed.

Lemma to_int_not_nil z : Z.to_int z <> Decimal.Pos Decimal.Nil /\ Z.to_int z <> Decimal.Neg Decimal.Nil.
Proof.
  split; intros H; pose proof (DecimalZ.of_to z) as Hz; rewrite H in Hz;
    simpl in Hz; subst z; discriminate H.
Qed.

Lemma print_int_inj x y : print_int x = print_int y -> x = y.
Proof.
  unfold print_int. intros H. apply (f_equal NilZero.int_of_string) in H.
  destruct (to_int_not_nil x), (to_int_not_nil y). rewrite !NilZero.isi in H by done.
  injection H as H.
  by rewrite <- (DecimalZ.of_to x), <- (DecimalZ.of_to y), H.
Qed.

Lemma parse_int_print z r : no_num r -> parse_int (print_int z +:+ r) = Some (z, r).
Proof.
  intros Hr. unfold parse_int. rewrite span_num_app by auto using all_num_int.
  destruct (to_int_not_nil z) as [Hp Hn].
  unfold print_int. rewrite NilZero.isi by done. simpl. by rewrite DecimalZ.of_to.
Qed.

(** ** Sequences of items *)

Section Items.
Context {A : Type} (item : string -> option (A * string)) (close : ascii) (pr : A -> string).
Hypothesis Hclose : is_num_char close = false.
Hypothesis Hcomma : Ascii.eqb close ","%char = false.

Lemma parse_items_print l : forall x n r,
  (length l < n)%nat ->
  Forall (fun y => forall r, no_num r -> item (pr y +:+ r) = Some (y, r)) (x :: l) ->
  parse_items item close n (join "," (map pr (x :: l)) +:+ String close r) = Some (x :: l, r).
Proof.
  induction l as [|y l IH]; intros x [|n] r Hn HF; simpl in Hn; try lia;
    apply Forall_cons in HF as [Hx HF].
  - simpl. rewrite Hx by done. simpl. by rewrite Hcomma, eqb_char_refl.
  - change (join "," (map pr (x :: y :: l)))
      with (pr x +:+ "," +:+ join "," (map pr (y :: l))).
    specialize (IH y n r ltac:(lia) HF).
    set (t := join "," (map pr (y :: l))) in *.
    rewrite !string_app_assoc. simpl. rewrite Hx by done. simpl. by rewrite IH.
Qed.

Lemma parse_seq_print l n r :
  (length l < n)%nat ->
  Forall (fun y => forall r, no_num r -> item (pr y +:+ r) = Some (y, r)) l ->
  Forall (fun y => exists c s, pr y = String c s /\ Ascii.eqb c close = false) l ->
  parse_seq item close n (join "," (map pr l) +:+ String close r) = Some (l, r).
Proof.
  intros Hn HF Hne. destruct l as [|x l].
  - simpl. by rewrite eqb_char_refl.
  - pose proof (parse_items_print l x n r) as Hgo. simpl in Hn.
    apply Forall_cons in Hne as [(c & s & Hc & Hcl) _].
    unfold parse_seq.
    destruct (join "," (map pr (x :: l)) +:+ String close r) as [|c' s'] eqn:Hs.
    { destruct l; simpl in Hs; rewrite Hc in Hs; discriminate Hs. }
    assert (c' = c) as ->.
    { destruct l; simpl in Hs; rewrite Hc in Hs; by inversion Hs. }
    rewrite Hcl. apply Hgo; [lia|done].
Qed.
End Items.

Lemma join_length {A} (pr : A -> string) l :
  (length l <= String.length (join "," (map pr l)) + 1)%nat /\
  Forall (fun x => (String.length (pr x) <= String.length (join "," (map pr l)))%nat) l.
Proof.
  induction l as [|x [|y l] [IH1 IH2]]; simpl.
  - split; [lia|constructor].
  - split; [lia|]. repeat constructor.
  - rewrite !string_length_app. simpl in *. split; [lia|].
    constructor; [lia|]. eapply Forall_impl; [exact IH2|]. simpl. lia.
Qed.

Lemma print_head v : exists c s, print v = String c s /\
  Ascii.eqb c "]" = false /\ Ascii.eqb c "}" = false.
Proof.
  destruct v as [|[]|z|s|l|d]; try by (do 2 eexists).
  destruct (print_int_cons z) as (c & s & Hs & Hc). exists c, s. split; [done|].
  destruct c as [[] [] [] [] [] [] [] []]; done.
Qed.

Lemma escape_length s : (String.length s <= String.length (escape s))%nat.
Proof.
  induction s as [|c s IH]; [done|]. simpl. rewrite string_length_app.
  assert (1 <= String.length (escape_char c))%nat; [|lia].
  destruct c as [[] [] [] [] [] [] [] []]; vm_compute; lia.
Qed.

Definition print_member (kv : string * json) : string :=
  print_str kv.1 +:+ ":" +:+ print kv.2.

Lemma member_length k v :
  String.length (print_member (k, v)) =
  (String.length (escape k) + String.length (print v) + 3)%nat.
Proof.
  unfold print_member, print_str. cbn [fst snd]. rewrite !string_length_app. simpl. lia.
Qed.

(** What may follow a value: after an integer, no character of a number. *)
Definition may_follow (v : json) (r : string) : Prop :=
  match v with JInt _ => no_num r | _ => True end.

Lemma may_follow_no_num v r : no_num r -> may_follow v r.
Proof. by destruct v. Qed.

(** Reading what was printed gives the value back, and leaves the rest. *)
Lemma parse_print v : forall n r, (String.length (print v) < n)%nat -> may_follow v r ->
  parse n (print v +:+ r) = Some (v, r).
Proof.
  induction v as [|b|z|s|l IH|d IH] using json_ind'; intros [|n] r Hn Hr;
    try (simpl in Hn; lia).
  - reflexivity.
  - by destruct b.
  - change (print (JInt z)) with (print_int z) in *.
    pose proof (parse_int_print z r Hr) as Hp.
    destruct (print_int_cons z) as (c & s & Hs & Hc). rewrite Hs in *.
    revert Hp Hc. destruct c as [[] [] [] [] [] [] [] []]; intros Hp Hc; try discriminate Hc;
      cbn -[parse_int]; change (String ?a s +:+ r) with (String a (s +:+ r)) in Hp;
      by rewrite Hp.
  - change (print (JStr s)) with (print_str s) in *. unfold print_str in *.
    rewrite !string_length_app in Hn. simpl in Hn.
    rewrite !string_app_assoc.
    change (parse (S n) (quote_str +:+ escape s +:+ quote_str +:+ r))
      with ('(t, r') ← parse_chars (S n) (escape s +:+ String dquote r); Some (JStr t, r')).
    rewrite parse_chars_print; [done|].
    pose proof (escape_length s). lia.
  - change (print (JList l)) with ("[" +:+ join "," (map print l) +:+ "]") in *.
    rewrite !string_length_app in Hn. simpl in Hn.
    destruct (join_length print l) as [Hl1 Hl2].
    rewrite !string_app_assoc. change ("]" +:+ r) with (String "]" r).
    cbn -[parse_seq join]. rewrite (parse_seq_print _ _ print); [done|done|done|lia|..].
    + rewrite Forall_forall in *. intros x Hx r' Hr'.
      apply IH; [done| |by apply may_follow_no_num]. specialize (Hl2 x Hx). simpl in Hl2. lia.
    + rewrite Forall_forall. intros x _. destruct (print_head x) as (c & s & ? & ? & ?). eauto.
  - set (pm := print_member).
    change (print (JDict d)) with ("{" +:+ join "," (map pm d) +:+ "}") in *.
    rewrite !string_length_app in Hn. simpl in Hn.
    destruct (join_length pm d) as [Hl1 Hl2].
    rewrite !string_app_assoc. change ("}" +:+ r) with (String "}" r).
    cbn -[parse_seq join parse_member]. rewrite (parse_seq_print _ _ pm); [done|done|done|lia|..].
    + rewrite Forall_forall in *. intros [k v] Hx r' Hr'.
      specialize (Hl2 _ Hx). specialize (IH _ Hx). simpl in IH.
      rewrite member_length in Hl2. pose proof (escape_length k).
      unfold pm, print_member, print_str, parse_member. cbn [fst snd].
      rewrite !string_app_assoc, strip_app. cbn -[parse_chars strip parse].
      change (quote_str +:+ ?x) with (String dquote x).
      rewrite parse_chars_print by lia.
      cbn -[parse print].
      by rewrite IH by (lia || by apply may_follow_no_num).
    + rewrite Forall_forall. intros x _. unfold pm, print_member, print_str. simpl.
      by do 2 eexists.
Qed.

(** ** Round trip, canonical form, and what equal texts say *)

(** [json.loads] reads back every value [json.dumps] writes. *)
Theorem loads_print v : loads (print v) = Some v.
Proof.
  unfold loads. pose proof (parse_print v (S (String.length (print v))) EmptyString) as H.
  rewrite string_app_nil_r in H. by rewrite H by (lia || by apply may_follow_no_num).
Qed.

Lemma print_inj v w : print v = print w -> v = w.
Proof. intros H. pose proof (loads_print v) as Hv. rewrite H, loads_print in Hv. congruence. Qed.

(** The text of a dict ends where it ends: what follows it is determined. *)
Lemma print_dict_app_inj d e r r' :
  print (JDict d) +:+ r = print (JDict e) +:+ r' -> d = e /\ r = r'.
Proof.
  intros H. set (n := S (String.length (print (JDict d)) + String.length (print (JDict e)))).
  assert (parse n (print (JDict d) +:+ r) = Some (JDict d, r)) as Hd
    by (apply parse_print; [lia|done]).
  assert (parse n (print (JDict e) +:+ r') = Some (JDict e, r')) as He
    by (apply parse_print; [lia|done]).
  rewrite H, He in Hd. by simplify_eq.
Qed.

Lemma canonical_json_inj v w : canonical_json v = canonical_json w -> sort_keys v = sort_keys w.
Proof. apply print_inj. Qed.

(** Dicts with the same entries in another order, at any depth. *)
Inductive same_json : json -> json -> Prop :=
| same_refl v : same_json v v
| same_list l m : Forall2 same_json l m -> same_json (JList l) (JList m)
| same_dict d e e' : d ≡ₚ e' -> Forall2 (fun x y => x.1 = y.1 /\ same_json x.2 y.2) e' e ->
    same_json (JDict d) (JDict e).

(** The keys of each dict of the value are distinct, as Python's are. *)
Inductive distinct_keys : json -> Prop :=
| dk_null : distinct_keys JNull
| dk_bool b : distinct_keys (JBool b)
| dk_int z : distinct_keys (JInt z)
| dk_str s : distinct_keys (JStr s)
| dk_list l : Forall distinct_keys l -> distinct_keys (JList l)
| dk_dict d : NoDup (d.*1) -> Forall (fun kv => distinct_keys kv.2) d ->
    distinct_keys (JDict d).

Lemma sort_by_key_perm {A} (d : list (string * A)) : sort_by_key d ≡ₚ d.
Proof. apply merge_sort_Permutation. Qed.

Lemma sort_by_key_unique {A} (d e : list (string * A)) :
  NoDup (d.*1) -> d ≡ₚ e -> sort_by_key d = sort_by_key e.
Proof.
  intros Hnd Hp. eapply (StronglySorted_unique_strong key_le).
  - intros [k1 v1] [k2 v2] H1 H2 L1 L2.
    unfold sort_by_key in *. rewrite merge_sort_Permutation in H1, H2. rewrite <- Hp in H2.
    assert (k1 = k2) as -> by (apply (anti_symm String.le); done).
    apply list_elem_of_lookup in H1 as [i Hi]. apply list_elem_of_lookup in H2 as [j Hj].
    assert (i = j) as ->; [|congruence].
    eapply NoDup_lookup; [exact Hnd| |]; rewrite list_lookup_fmap;
      [by rewrite Hi|by rewrite Hj].
  - apply StronglySorted_merge_sort; apply _.
  - apply StronglySorted_merge_sort; apply _.
  - unfold sort_by_key. by rewrite !merge_sort_Permutation.
Qed.

Lemma same_json_sort_keys v : distinct_keys v -> forall w, same_json v w -> sort_keys v = sort_keys w.
Proof.
  induction v as [|b|z|s|l IH|d IH] using json_ind'; intros Hd w Hw;
    try (by inversion Hw).
  - inversion Hw as [|l' m HF|]; subst; [done|]. simpl. f_equal.
    inversion Hd as [| | | |l' Hdl|]; subst. clear Hw Hd.
    induction HF as [|x y l m Hxy HF IHF]; simpl; [done|].
    apply Forall_cons in IH as [IHx IH], Hdl as [Hx Hdl]. f_equal; auto.
  - inversion Hw as [| |d' e e' Hp HF]; subst; [done|]. simpl. f_equal.
    inversion Hd as [| | | | |d' Hnd Hdd]; subst.
    set (f := fun kv : string * json => (kv.1, sort_keys kv.2)).
    assert (map f e' = map f e) as He.
    { assert (Forall (fun kv => forall w, same_json kv.2 w -> sort_keys kv.2 = sort_keys w) e') as HIH.
      { rewrite <- Hp. rewrite Forall_forall in *. intros kv Hkv. auto. }
      clear -HIH HF. induction HF as [|[k x] [k' y] l m [Hk Hxy] HF IHF]; simpl; [done|].
      apply Forall_cons in HIH as [Hx HIH]. simpl in *. subst k'. unfold f at 1 3. simpl.
      by rewrite (Hx y Hxy), IHF. }
    rewrite <- He. apply sort_by_key_unique.
    + change (map f d).*1 with (fst <$> (f <$> d)). rewrite <- list_fmap_compose.
      erewrite list_fmap_ext; [exact Hnd|]. done.
    + by apply Permutation_map.
Qed.

(** Sorting the keys, even twice, loses nothing but their order. *)
Lemma sorted_twice_same v : forall w, sort_keys (sort_keys v) = sort_keys (sort_keys w) -> same_json v w.
Proof.
  induction v as [|b|z|s|l IH|d IH] using json_ind'; intros [] H; try discriminate H; try (injection H as ->; constructor).
  - constructor.
  - apply same_list. simpl in H. injection H as H. revert l0 H.
    induction IH as [|x l Hx _ IHl]; intros [|y m] H; try discriminate H; [constructor|].
    injection H as Hy Hm. constructor; auto.
  - simpl in H. injection H as H. set (g := fun kv : string * json => (kv.1, sort_keys kv.2)) in H.
    assert (map (fun kv => g (g kv)) d ≡ₚ map (fun kv => g (g kv)) d0) as Hp.
    { rewrite <- !(map_map g g), <- (sort_by_key_perm (map g d)), <- (sort_by_key_perm (map g d0)).
      by rewrite <- (sort_by_key_perm (map g (sort_by_key (map g d)))), H, sort_by_key_perm. }
    symmetry in Hp. apply Permutation_map_inv in Hp as (d' & He & Hd).
    apply (same_dict d d0 d'); [done|]. rewrite Hd in IH. clear H Hd. revert d0 He.
    induction IH as [|[k x] d' Hx _ IHd]; intros [|[k' y] e] He; try discriminate He; [constructor|].
    unfold g in He. simpl in He. injection He as -> Hs He. constructor; [|by apply IHd]. split; [done|]. simpl.
    by apply Hx.
Qed.

Lemma sorted_same v w : sort_keys v = sort_keys w -> same_json v w.
Proof. intros H. apply sorted_twice_same. by rewrite H. Qed.

(** The canonical text does not depend on the order in which the keys of the
    dicts were inserted. *)
Theorem canonical_json_order v w :
  distinct_keys v -> same_json v w -> canonical_json v = canonical_json w.
Proof. intros Hd Hw. unfold canonical_json. by rewrite (same_json_sort_keys v Hd w Hw). Qed.

Lemma loads_canonical v : loads (canonical_json v) = Some (sort_keys v).
Proof. apply loads_print. Qed.

Lemma canonical_json_order_witness :
  canonical_json (JDict [("b", JInt 1); ("a", JDict [("y", JNull); ("x", JStr "q")])]) =
  canonical_json (JDict [("a", JDict [("x", JStr "q"); ("y", JNull)]); ("b", JInt 1)]).
Proof.
  apply canonical_json_order.
  - repeat constructor; set_solver.
  - eapply same_dict with (e' := [("a", JDict [("y", JNull); ("x", JStr "q")]); ("b", JInt 1)]);
      [apply perm_swap|].
    constructor; [|repeat constructor]. split; [done|].
    eapply same_dict with (e' := [("x", JStr "q"); ("y", JNull)]); [apply perm_swap|].
    repeat constructor.
Defined.
