(* ===== verification/Instants.v ===== *)
(** * Instants and their text

    [datetime.isoformat] of a UTC instant in microseconds since 1970, and the calendar
    it goes through.  Two instants have the same text only when they are the same, so a
    digest of the text protects the instant. *)
From Stdlib Require Import Ascii String DecimalString DecimalZ DecimalFacts.
From S2P Require Import Prelude Json.

Fixpoint zeros (n : nat) : string :=
  match n with O => EmptyString | S n' => String "0" (zeros n') end.

Definition pad_left (n : nat) (s : string) : string := zeros (n - String.length s) +:+ s.

Definition digits (n : nat) (z : Z) : string := pad_left n (print_int z).

(** Year, month and day of a day count since 1970-01-01. *)
Definition civil_from_days (days : Z) : Z * Z * Z :=
  let z := days + 719468 in
  let era := z / 146097 in
  let doe := z - era * 146097 in
  let yoe := (doe - doe / 1460 + doe / 36524 - doe / 146096) / 365 in
  let doy := doe - (365 * yoe + yoe / 4 - yoe / 100) in
  let mp := (5 * doy + 2) / 153 in
  let d := doy - (153 * mp + 2) / 5 + 1 in
  let m := if mp <? 10 then mp + 3 else mp - 9 in
  (yoe + era * 400 + (if m <=? 2 then 1 else 0), m, d).

Definition isoformat (t : Z) : string :=
  let us := t mod 1000000 in
  let secs := t / 1000000 in
  let sod := secs mod 86400 in
  let '(y, m, d) := civil_from_days (secs / 86400) in
  digits 4 y +:+ "-" +:+ digits 2 m +:+ "-" +:+ digits 2 d +:+ "T" +:+
  digits 2 (sod / 3600) +:+ ":" +:+ digits 2 (sod / 60 mod 60) +:+ ":" +:+ digits 2 (sod mod 60) +:+
  (if us =? 0 then EmptyString else "." +:+ digits 6 us) +:+ "+00:00".

Example isoformat_ex : isoformat 1709208000000001 = "2024-02-29T12:00:00.000001+00:00".
Proof. reflexivity. Qed.

(** ** The calendar is injective *)

(** The year of its era and the day of its year that a day of an era has. *)
Lemma era_bounds doe : 0 <= doe < 146097 ->
  let yoe := (doe - doe / 1460 + doe / 36524 - doe / 146096) / 365 in
  0 <= yoe < 400 /\ 0 <= doe - (365 * yoe + yoe / 4 - yoe / 100) <= 366.
Proof.
  intros H yoe. assert (0 <= yoe < 400) as Hy by (unfold yoe; Z.to_euclidean_division_equations; lia).
  split; [done|]. unfold yoe in *. Z.to_euclidean_division_equations; lia.
Qed.

(** The days are counted back from the date. *)
Lemma civil_inj a b : civil_from_days a = civil_from_days b -> a = b.
Proof.
  unfold civil_from_days. cbv zeta.
  set (za := a + 719468). set (zb := b + 719468).
  assert (0 <= za - za / 146097 * 146097 < 146097) as Ha by (Z.to_euclidean_division_equations; lia).
  assert (0 <= zb - zb / 146097 * 146097 < 146097) as Hb by (Z.to_euclidean_division_equations; lia).
  apply era_bounds in Ha as [Hya Hda], Hb as [Hyb Hdb]. cbv zeta in *.
  set (ya := (_ - _ + _ - _) / 365) in *. set (yb := (_ - _ + _ - _) / 365) in Hyb, Hdb |- *.
  set (da := _ - (365 * ya + _ - _)) in *. set (db := _ - (365 * yb + _ - _)) in *.
  assert (0 <= (5 * da + 2) / 153 < 12) as Hma by (Z.to_euclidean_division_equations; lia).
  assert (0 <= (5 * db + 2) / 153 < 12) as Hmb by (Z.to_euclidean_division_equations; lia).
  set (ma := (5 * da + 2) / 153) in *. set (mb := (5 * db + 2) / 153) in *.
  intros H. injection H as Hyear Hmonth Hday.
  assert (ma = mb) as Hm by (revert Hmonth; destruct (Z.ltb_spec ma 10), (Z.ltb_spec mb 10); lia).
  rewrite Hm in Hyear, Hday. assert (da = db) as Hd by lia.
  assert (ya + za / 146097 * 400 = yb + zb / 146097 * 400) as Hy by lia.
  assert (za / 146097 = zb / 146097) as He by lia. assert (ya = yb) as Hyy by lia.
  unfold da, db in Hd. rewrite Hyy, He in Hd. unfold za, zb in *. lia.
Qed.

(** ** Runs of digits *)

Definition is_digit (c : ascii) : bool := (48 <=? nat_of_ascii c)%nat && (nat_of_ascii c <=? 57)%nat.

Fixpoint all_digits (s : string) : bool :=
  match s with String c r => is_digit c && all_digits r | EmptyString => true end.

Definition ends_run (s : string) : bool := match s with String c _ => negb (is_digit c) | EmptyString => true end.

(** A text begins with one run of digits. *)
Lemma run_split s s' r r' : all_digits s = true -> all_digits s' = true -> ends_run r = true -> ends_run r' = true ->
  s +:+ r = s' +:+ r' -> s = s' /\ r = r'.
Proof.
  intros Hs Hs' Hr Hr'. revert s' Hs'. induction s as [|c s IH]; intros [|c' s'] Hs' H; cbn [all_digits] in Hs, Hs'.
  - done.
  - change (r = String c' (s' +:+ r')) in H. subst r. cbn [ends_run] in Hr. apply andb_prop in Hs' as [Hc _]. by rewrite Hc in Hr.
  - change (String c (s +:+ r) = r') in H. subst r'. cbn [ends_run] in Hr'. apply andb_prop in Hs as [Hc _]. by rewrite Hc in Hr'.
  - change (String c (s +:+ r) = String c' (s' +:+ r')) in H. injection H as -> H. apply andb_prop in Hs as [_ Hs], Hs' as [_ Hs']. by destruct (IH Hs s' Hs' H) as [-> ->].
Qed.

Lemma digits_uint d : all_digits (NilEmpty.string_of_uint d) = true.
Proof. induction d; simpl; try done; by rewrite IHd. Qed.

Lemma zeros_uint k d : zeros k +:+ NilEmpty.string_of_uint d = NilEmpty.string_of_uint (Nat.iter k Decimal.D0 d).
Proof.
  induction k as [|k IH]; [done|]. change (String "0" (zeros k +:+ NilEmpty.string_of_uint d) =
    String "0" (NilEmpty.string_of_uint (Nat.iter k Decimal.D0 d))). by rewrite IH.
Qed.

Lemma of_uint_zeros k d : Z.of_uint (Nat.iter k Decimal.D0 d) = Z.of_uint d.
Proof. induction k as [|k IH]; simpl; [done|exact IH]. Qed.

Lemma print_nonneg z : 0 <= z -> exists u, print_int z = NilEmpty.string_of_uint u /\ Z.of_uint u = z.
Proof.
  intros Hz. destruct (to_int_not_nil z) as [Hp _]. pose proof (DecimalZ.of_to z) as Ho. unfold print_int.
  destruct (Z.to_int z) as [u|u] eqn:Hu; [|by destruct z].
  exists u. split; [|exact Ho]. by destruct u.
Qed.

Lemma print_negative z : z < 0 -> print_int z = "-" +:+ print_int (- z).
Proof. destruct z as [|p|p]; [done|done|]. intros _. reflexivity. Qed.

Lemma digits_run n z : 0 <= z -> exists u, digits n z = NilEmpty.string_of_uint u /\ Z.of_uint u = z.
Proof.
  intros (u & Hu & Hz)%print_nonneg. unfold digits, pad_left. rewrite Hu, zeros_uint.
  eexists. split; [reflexivity|]. by rewrite of_uint_zeros.
Qed.

Lemma all_digits_digits n z : 0 <= z -> all_digits (digits n z) = true.
Proof. intros (u & -> & _)%(digits_run n). apply digits_uint. Qed.

Lemma uint_string_inj u v : NilEmpty.string_of_uint u = NilEmpty.string_of_uint v -> u = v.
Proof. intros H%(f_equal NilEmpty.uint_of_string). rewrite !NilEmpty.usu in H. by injection H. Qed.

Lemma digits_inj n a b : 0 <= a -> 0 <= b -> digits n a = digits n b -> a = b.
Proof.
  intros (u & -> & <-)%(digits_run n) (v & -> & <-)%(digits_run n) H. by rewrite (uint_string_inj u v H).
Qed.

(** A number and what follows it. *)
Lemma number_split n a b r r' : 0 <= a -> 0 <= b -> ends_run r = true -> ends_run r' = true ->
  digits n a +:+ r = digits n b +:+ r' -> a = b /\ r = r'.
Proof.
  intros Ha Hb Hr Hr' H. apply run_split in H as [H ->]; auto using all_digits_digits.
  split; [by apply (digits_inj n)|done].
Qed.

Lemma char_split c r r' : String c EmptyString +:+ r = String c EmptyString +:+ r' -> r = r'.
Proof. intros H. by injection H. Qed.

(** ** The text is injective *)

(** A year, a month and a day, the first possibly negative, before a "T". *)
Lemma date_split y m d r y' m' d' r' : 0 <= m -> 0 <= d -> 0 <= m' -> 0 <= d' ->
  digits 4 y +:+ "-" +:+ digits 2 m +:+ "-" +:+ digits 2 d +:+ "T" +:+ r =
  digits 4 y' +:+ "-" +:+ digits 2 m' +:+ "-" +:+ digits 2 d' +:+ "T" +:+ r' ->
  (y, m, d) = (y', m', d') /\ r = r'.
Proof.
  intros Hm Hd Hm' Hd'.
  assert (forall y, y < 0 -> exists k, digits 4 y = zeros k +:+ "-" +:+ print_int (- y)) as Hneg.
  { clear. intros y Hy. eexists. unfold digits, pad_left. by rewrite (print_negative y Hy) at 2. }
  assert (forall k, all_digits (zeros k) = true) as Hz by (clear; by induction k).
  assert (forall z, 0 <= z -> all_digits (print_int z) = true) as Hp
    by (clear; intros z (u & -> & _)%print_nonneg; apply digits_uint).
  destruct (Z.lt_ge_cases y 0) as [Hy|Hy], (Z.lt_ge_cases y' 0) as [Hy'|Hy'].
  - destruct (Hneg y Hy) as [k ->], (Hneg y' Hy') as [k' ->]. rewrite !string_app_assoc. intros H.
    apply run_split in H as [_ H]; [|first [done|apply Hz|apply Hp; lia|by apply all_digits_digits]..]. apply char_split in H.
    apply run_split in H as [Hyy H]; [|first [done|apply Hz|apply Hp; lia|by apply all_digits_digits]..]. apply print_int_inj in Hyy. apply char_split in H.
    apply number_split in H as [-> H]; [|done..]. apply char_split in H. apply number_split in H as [-> H]; [|done..].
    apply char_split in H. split; [do 2 f_equal; lia|done].
  - destruct (Hneg y Hy) as [k ->]. rewrite !string_app_assoc. intros H.
    apply run_split in H as [_ H]; [|first [done|apply Hz|apply Hp; lia|by apply all_digits_digits]..]. apply char_split in H.
    apply run_split in H as [_ H]; [|first [done|apply Hz|apply Hp; lia|by apply all_digits_digits]..]. apply char_split in H.
    apply number_split in H as [_ H]; [|done..]. discriminate H.
  - destruct (Hneg y' Hy') as [k ->]. rewrite !string_app_assoc. intros H.
    apply run_split in H as [_ H]; [|first [done|apply Hz|apply Hp; lia|by apply all_digits_digits]..]. apply char_split in H.
    apply run_split in H as [_ H]; [|first [done|apply Hz|apply Hp; lia|by apply all_digits_digits]..]. apply char_split in H.
    apply number_split in H as [_ H]; [|done..]. discriminate H.
  - intros H. apply number_split in H as [-> H]; [|done..]. apply char_split in H.
    apply number_split in H as [-> H]; [|done..]. apply char_split in H. apply number_split in H as [-> H]; [|done..].
    apply char_split in H. done.
Qed.

(** The month and the day of a date are numbers. *)
Lemma civil_nonneg days : let '(_, m, d) := civil_from_days days in 0 <= m /\ 0 <= d.
Proof.
  unfold civil_from_days. cbv zeta. set (z := days + 719468).
  assert (0 <= z - z / 146097 * 146097 < 146097) as Hz by (Z.to_euclidean_division_equations; lia).
  apply era_bounds in Hz as [Hy Hd]. cbv zeta in *. set (y := (_ - _ + _ - _) / 365) in *.
  set (day := _ - (365 * y + _ - _)) in *.
  assert (0 <= (5 * day + 2) / 153 < 12) as Hm by (Z.to_euclidean_division_equations; lia).
  split; [destruct (Z.ltb_spec ((5 * day + 2) / 153) 10); lia|].
  Z.to_euclidean_division_equations; lia.
Qed.

(** The seconds, with their fraction when there is one. *)
Lemma seconds_split a b u v : 0 <= a -> 0 <= b -> 0 <= u -> 0 <= v ->
  digits 2 a +:+ (if u =? 0 then EmptyString else "." +:+ digits 6 u) +:+ "+00:00" =
  digits 2 b +:+ (if v =? 0 then EmptyString else "." +:+ digits 6 v) +:+ "+00:00" -> a = b /\ u = v.
Proof.
  intros Ha Hb Hu Hv H. apply number_split in H as [-> H]; [|done|done|by destruct (u =? 0)|by destruct (v =? 0)].
  split; [done|]. destruct (Z.eqb_spec u 0), (Z.eqb_spec v 0); try congruence; try discriminate H.
  rewrite !string_app_assoc in H. apply char_split, number_split in H as [-> _]; done.
Qed.

Theorem isoformat_inj t t' : isoformat t = isoformat t' -> t = t'.
Proof.
  unfold isoformat. pose proof (civil_nonneg (t / 1000000 / 86400)) as Hn. pose proof (civil_nonneg (t' / 1000000 / 86400)) as Hn'.
  pose proof (civil_inj (t / 1000000 / 86400) (t' / 1000000 / 86400)) as Hinj.
  destruct (civil_from_days (t / 1000000 / 86400)) as [[y m] d], (civil_from_days (t' / 1000000 / 86400)) as [[y' m'] d'].
  assert (forall x, 0 <= x / 1000000 mod 86400 < 86400) as Hsod by (intros; apply Z.mod_pos_bound; lia).
  pose proof (Hsod t) as Hs. pose proof (Hsod t') as Hs'.
  intros H. apply date_split in H as [Hd H]; [|by destruct Hn|by destruct Hn|by destruct Hn'|by destruct Hn'].
  specialize (Hinj Hd). clear Hn Hn' Hd Hsod.
  apply number_split in H as [Hh H]; [|apply Z.div_pos; lia|apply Z.div_pos; lia|done|done]. apply char_split in H.
  apply number_split in H as [Hm H]; [|apply Z.mod_pos_bound; lia|apply Z.mod_pos_bound; lia|done|done]. apply char_split in H.
  apply seconds_split in H as [Hsec Hu]; [|apply Z.mod_pos_bound; lia..].
  revert Hh Hm Hsec Hu Hinj Hs Hs'. clear. Z.to_euclidean_division_equations. lia.
Qed.
