(* ===== verification/HashChain.v ===== *)
(** * Hash chains

    The audit log and the internal ledger are both chains of rows: each row
    stores the digest of a text that contains its own data and the digest of the
    row before it.  What a chain promises is stated here once, against the
    interface [HashChain]; the two components discharge it with their rows. *)
From S2P Require Import Prelude.

(** A row keeps the previous digest and its own; [row_text] is what is digested, and
    two rows with one text have the same previous digest and the [row_same] content. *)
Class HashChain (R : Type) := {
  row_prev : R -> string;
  row_hash : R -> string;
  row_same : relation R;
  row_text : R -> string;
  row_text_inj r r' : row_text r = row_text r' -> row_prev r = row_prev r' /\ row_same r r';
}.

Section Chain.
Context {R : Type} `{HashChain R} (digest : string -> string) (genesis : string).

(** The rows form a chain that starts after the digest [prev]. *)
Fixpoint chained (prev : string) (l : list R) : Prop :=
  match l with
  | [] => True
  | r :: l' => row_prev r = prev /\ row_hash r = digest (row_text r) /\
               chained (row_hash r) l'
  end.

Definition last_hash (prev : string) (l : list R) : string :=
  from_option row_hash prev (last l).

Definition collision : Prop := exists x y, x <> y /\ digest x = digest y.

Lemma last_hash_cons prev r l : last_hash prev (r :: l) = last_hash (row_hash r) l.
Proof. unfold last_hash. rewrite last_cons. by destruct (last l). Qed.

Lemma last_hash_snoc prev l r : last_hash prev (l ++ [r]) = row_hash r.
Proof. unfold last_hash. by rewrite last_snoc. Qed.

Lemma chained_snoc prev l r :
  chained prev (l ++ [r]) <->
  chained prev l /\ row_prev r = last_hash prev l /\ row_hash r = digest (row_text r).
Proof.
  revert prev. induction l as [|x l IH]; intros prev; simpl.
  - unfold last_hash. simpl. naive_solver.
  - rewrite IH, last_hash_cons. naive_solver.
Qed.

Lemma chained_app prev l m :
  chained prev (l ++ m) <-> chained prev l /\ chained (last_hash prev l) m.
Proof.
  revert prev. induction l as [|x l IH]; intros prev; simpl.
  - naive_solver.
  - rewrite IH, last_hash_cons. naive_solver.
Qed.

(** Two chains that end in the same digest have the same content, unless the
    digest function has a collision. *)
Lemma chained_agree l : forall l',
  (forall x, digest x <> genesis) ->
  chained genesis l -> chained genesis l' ->
  last_hash genesis l = last_hash genesis l' ->
  Forall2 row_same l l' \/ (exists x y, x <> y /\ digest x = digest y).
Proof.
  induction l as [|r l IH] using rev_ind; intros l' Hg Hl Hl' Hlast.
  - destruct l' as [|r' l' _] using rev_ind; [by left|].
    apply chained_snoc in Hl' as (_ & _ & Hr'). rewrite last_hash_snoc in Hlast.
    exfalso. apply (Hg (row_text r')). rewrite <- Hr', <- Hlast. done.
  - apply chained_snoc in Hl as (Hl & Hp & Hr).
    destruct l' as [|r' l' _] using rev_ind.
    { rewrite last_hash_snoc in Hlast. exfalso. apply (Hg (row_text r)).
      by rewrite <- Hr, Hlast. }
    apply chained_snoc in Hl' as (Hl' & Hp' & Hr'). rewrite !last_hash_snoc in Hlast.
    destruct (decide (row_text r = row_text r')) as [Ht|Ht].
    + apply row_text_inj in Ht as [Hprev Hsame].
      destruct (IH l' Hg Hl Hl') as [IHl|Hc]; [congruence| |by right].
      left. apply Forall2_app; [done|by repeat constructor].
    + right. exists (row_text r), (row_text r'). split; [done|congruence].
Qed.
End Chain.
