(* ===== verification/Enums.v ===== *)
(** * The enumerations of the data model

    One module per Python [Enum] class, named as the class, with the class's
    members as constructors; [value] is the member's [.value]. *)
From S2P Require Import Prelude.

(** ** The posting ledger *)

Module AccountType.
Inductive AccountType : Set := CLIENT_MAIN | CLIENT_CREDIT | CARD_LIMIT | TECHNICAL.
#[global] Instance eq_dec_AccountType : EqDecision AccountType.
Proof. solve_decision. Defined.
Definition value (x : AccountType) : string :=
  match x with
  | CLIENT_MAIN => "CLIENT_MAIN"
  | CLIENT_CREDIT => "CLIENT_CREDIT"
  | CARD_LIMIT => "CARD_LIMIT"
  | TECHNICAL => "TECHNICAL"
  end.
End AccountType.

Module AccountOwnerType.
Inductive AccountOwnerType : Set := CLIENT | PARTNER | PLATFORM.
#[global] Instance eq_dec_AccountOwnerType : EqDecision AccountOwnerType.
Proof. solve_decision. Defined.
Definition value (x : AccountOwnerType) : string :=
  match x with
  | CLIENT => "CLIENT"
  | PARTNER => "PARTNER"
  | PLATFORM => "PLATFORM"
  end.
End AccountOwnerType.

Module AccountStatus.
Inductive AccountStatus : Set := ACTIVE | FROZEN | CLOSED.
#[global] Instance eq_dec_AccountStatus : EqDecision AccountStatus.
Proof. solve_decision. Defined.
Definition value (x : AccountStatus) : string :=
  match x with
  | ACTIVE => "ACTIVE"
  | FROZEN => "FROZEN"
  | CLOSED => "CLOSED"
  end.
End AccountStatus.

Module LedgerDirection.
Inductive LedgerDirection : Set := DEBIT | CREDIT.
#[global] Instance eq_dec_LedgerDirection : EqDecision LedgerDirection.
Proof. solve_decision. Defined.
Definition value (x : LedgerDirection) : string :=
  match x with
  | DEBIT => "DEBIT"
  | CREDIT => "CREDIT"
  end.
End LedgerDirection.

Module PostingBatchStatus.
Inductive PostingBatchStatus : Set := APPLIED | REVERSED.
#[global] Instance eq_dec_PostingBatchStatus : EqDecision PostingBatchStatus.
Proof. solve_decision. Defined.
Definition value (x : PostingBatchStatus) : string :=
  match x with
  | APPLIED => "APPLIED"
  | REVERSED => "REVERSED"
  end.
End PostingBatchStatus.

Module PostingBatchType.
Inductive PostingBatchType : Set := AUTH | HOLD | COMMIT | CAPTURE | REFUND | REVERSAL |
  DISPUTE_HOLD | DISPUTE_RELEASE | ADJUSTMENT.
#[global] Instance eq_dec_PostingBatchType : EqDecision PostingBatchType.
Proof. solve_decision. Defined.
Definition value (x : PostingBatchType) : string :=
  match x with
  | AUTH => "AUTH"
  | HOLD => "HOLD"
  | COMMIT => "COMMIT"
  | CAPTURE => "CAPTURE"
  | REFUND => "REFUND"
  | REVERSAL => "REVERSAL"
  | DISPUTE_HOLD => "DISPUTE_HOLD"
  | DISPUTE_RELEASE => "DISPUTE_RELEASE"
  | ADJUSTMENT => "ADJUSTMENT"
  end.
End PostingBatchType.

(** ** Refunds, reversals, disputes, adjustments *)

Module RefundRequestStatus.
Inductive RefundRequestStatus : Set := REQUESTED | POSTED | FAILED | CANCELLED.
#[global] Instance eq_dec_RefundRequestStatus : EqDecision RefundRequestStatus.
Proof. solve_decision. Defined.
Definition value (x : RefundRequestStatus) : string :=
  match x with
  | REQUESTED => "REQUESTED"
  | POSTED => "POSTED"
  | FAILED => "FAILED"
  | CANCELLED => "CANCELLED"
  end.
End RefundRequestStatus.

Module SettlementPolicy.
Inductive SettlementPolicy : Set := SAME_PERIOD | ADJUSTMENT_REQUIRED.
#[global] Instance eq_dec_SettlementPolicy : EqDecision SettlementPolicy.
Proof. solve_decision. Defined.
Definition value (x : SettlementPolicy) : string :=
  match x with
  | SAME_PERIOD => "SAME_PERIOD"
  | ADJUSTMENT_REQUIRED => "ADJUSTMENT_REQUIRED"
  end.
End SettlementPolicy.

Module ReversalStatus.
Inductive ReversalStatus : Set := REQUESTED | POSTED | FAILED | CANCELLED.
#[global] Instance eq_dec_ReversalStatus : EqDecision ReversalStatus.
Proof. solve_decision. Defined.
Definition value (x : ReversalStatus) : string :=
  match x with
  | REQUESTED => "REQUESTED"
  | POSTED => "POSTED"
  | FAILED => "FAILED"
  | CANCELLED => "CANCELLED"
  end.
End ReversalStatus.

Module DisputeStatus.
Inductive DisputeStatus : Set := OPEN | UNDER_REVIEW | ACCEPTED | REJECTED | CLOSED.
#[global] Instance eq_dec_DisputeStatus : EqDecision DisputeStatus.
Proof. solve_decision. Defined.
Definition value (x : DisputeStatus) : string :=
  match x with
  | OPEN => "OPEN"
  | UNDER_REVIEW => "UNDER_REVIEW"
  | ACCEPTED => "ACCEPTED"
  | REJECTED => "REJECTED"
  | CLOSED => "CLOSED"
  end.
End DisputeStatus.

Module DisputeEventType.
Inductive DisputeEventType : Set := OPENED | MOVED_TO_REVIEW | ACCEPTED | REJECTED |
  CLOSED | HOLD_PLACED | HOLD_RELEASED | REFUND_POSTED | FEE_POSTED.
#[global] Instance eq_dec_DisputeEventType : EqDecision DisputeEventType.
Proof. solve_decision. Defined.
Definition value (x : DisputeEventType) : string :=
  match x with
  | OPENED => "OPENED"
  | MOVED_TO_REVIEW => "MOVED_TO_REVIEW"
  | ACCEPTED => "ACCEPTED"
  | REJECTED => "REJECTED"
  | CLOSED => "CLOSED"
  | HOLD_PLACED => "HOLD_PLACED"
  | HOLD_RELEASED => "HOLD_RELEASED"
  | REFUND_POSTED => "REFUND_POSTED"
  | FEE_POSTED => "FEE_POSTED"
  end.
End DisputeEventType.

Module FinancialAdjustmentKind.
Inductive FinancialAdjustmentKind : Set := REFUND_ADJUSTMENT | REVERSAL_ADJUSTMENT |
  DISPUTE_ADJUSTMENT | FEE_ADJUSTMENT | CREDIT | DEBIT.
#[global] Instance eq_dec_FinancialAdjustmentKind : EqDecision FinancialAdjustmentKind.
Proof. solve_decision. Defined.
Definition value (x : FinancialAdjustmentKind) : string :=
  match x with
  | REFUND_ADJUSTMENT => "REFUND_ADJUSTMENT"
  | REVERSAL_ADJUSTMENT => "REVERSAL_ADJUSTMENT"
  | DISPUTE_ADJUSTMENT => "DISPUTE_ADJUSTMENT"
  | FEE_ADJUSTMENT => "FEE_ADJUSTMENT"
  | CREDIT => "CREDIT"
  | DEBIT => "DEBIT"
  end.
End FinancialAdjustmentKind.

Module RelatedEntityType.
Inductive RelatedEntityType : Set := REFUND | REVERSAL | DISPUTE | BILLING_PERIOD.
#[global] Instance eq_dec_RelatedEntityType : EqDecision RelatedEntityType.
Proof. solve_decision. Defined.
Definition value (x : RelatedEntityType) : string :=
  match x with
  | REFUND => "REFUND"
  | REVERSAL => "REVERSAL"
  | DISPUTE => "DISPUTE"
  | BILLING_PERIOD => "BILLING_PERIOD"
  end.
End RelatedEntityType.

Module FinancialAdjustmentStatus.
Inductive FinancialAdjustmentStatus : Set := PENDING | POSTED | FAILED.
#[global] Instance eq_dec_FinancialAdjustmentStatus : EqDecision FinancialAdjustmentStatus.
Proof. solve_decision. Defined.
Definition value (x : FinancialAdjustmentStatus) : string :=
  match x with
  | PENDING => "PENDING"
  | POSTED => "POSTED"
  | FAILED => "FAILED"
  end.
End FinancialAdjustmentStatus.

(** ** The internal ledger *)

Module InternalLedgerAccountType.
Inductive InternalLedgerAccountType : Set := CLIENT_AR | CLIENT_CASH | PLATFORM_REVENUE |
  PLATFORM_FEES | TAX_VAT | PROVIDER_PAYABLE | SUSPENSE | SETTLEMENT_CLEARING |
  PARTNER_SETTLEMENT.
#[global] Instance eq_dec_InternalLedgerAccountType : EqDecision InternalLedgerAccountType.
Proof. solve_decision. Defined.
Definition value (x : InternalLedgerAccountType) : string :=
  match x with
  | CLIENT_AR => "CLIENT_AR"
  | CLIENT_CASH => "CLIENT_CASH"
  | PLATFORM_REVENUE => "PLATFORM_REVENUE"
  | PLATFORM_FEES => "PLATFORM_FEES"
  | TAX_VAT => "TAX_VAT"
  | PROVIDER_PAYABLE => "PROVIDER_PAYABLE"
  | SUSPENSE => "SUSPENSE"
  | SETTLEMENT_CLEARING => "SETTLEMENT_CLEARING"
  | PARTNER_SETTLEMENT => "PARTNER_SETTLEMENT"
  end.
End InternalLedgerAccountType.

Module InternalLedgerAccountStatus.
Inductive InternalLedgerAccountStatus : Set := ACTIVE | ARCHIVED.
#[global] Instance eq_dec_InternalLedgerAccountStatus : EqDecision InternalLedgerAccountStatus.
Proof. solve_decision. Defined.
Definition value (x : InternalLedgerAccountStatus) : string :=
  match x with
  | ACTIVE => "ACTIVE"
  | ARCHIVED => "ARCHIVED"
  end.
End InternalLedgerAccountStatus.

Module InternalLedgerTransactionType.
Inductive InternalLedgerTransactionType : Set := INVOICE_ISSUED | PAYMENT_APPLIED |
  CREDIT_NOTE_APPLIED | REFUND_APPLIED | SETTLEMENT_ALLOCATION_CREATED |
  ACCOUNTING_EXPORT_CONFIRMED | FUEL_SETTLEMENT | FUEL_REVERSAL | ADJUSTMENT |
  PARTNER_PAYOUT.
#[global] Instance eq_dec_InternalLedgerTransactionType : EqDecision InternalLedgerTransactionType.
Proof. solve_decision. Defined.
Definition value (x : InternalLedgerTransactionType) : string :=
  match x with
  | INVOICE_ISSUED => "INVOICE_ISSUED"
  | PAYMENT_APPLIED => "PAYMENT_APPLIED"
  | CREDIT_NOTE_APPLIED => "CREDIT_NOTE_APPLIED"
  | REFUND_APPLIED => "REFUND_APPLIED"
  | SETTLEMENT_ALLOCATION_CREATED => "SETTLEMENT_ALLOCATION_CREATED"
  | ACCOUNTING_EXPORT_CONFIRMED => "ACCOUNTING_EXPORT_CONFIRMED"
  | FUEL_SETTLEMENT => "FUEL_SETTLEMENT"
  | FUEL_REVERSAL => "FUEL_REVERSAL"
  | ADJUSTMENT => "ADJUSTMENT"
  | PARTNER_PAYOUT => "PARTNER_PAYOUT"
  end.
End InternalLedgerTransactionType.

Module InternalLedgerEntryDirection.
Inductive InternalLedgerEntryDirection : Set := DEBIT | CREDIT.
#[global] Instance eq_dec_InternalLedgerEntryDirection : EqDecision InternalLedgerEntryDirection.
Proof. solve_decision. Defined.
Definition value (x : InternalLedgerEntryDirection) : string :=
  match x with
  | DEBIT => "DEBIT"
  | CREDIT => "CREDIT"
  end.
End InternalLedgerEntryDirection.

(** ** Invoices, billing periods and settlement *)

Module InvoiceStatus.
Inductive InvoiceStatus : Set := DRAFT | ISSUED | SENT | PARTIALLY_PAID | PAID | OVERDUE
  | CANCELLED | CREDITED.
#[global] Instance eq_dec_InvoiceStatus : EqDecision InvoiceStatus.
Proof. solve_decision. Defined.
Definition value (x : InvoiceStatus) : string :=
  match x with
  | DRAFT => "DRAFT"
  | ISSUED => "ISSUED"
  | SENT => "SENT"
  | PARTIALLY_PAID => "PARTIALLY_PAID"
  | PAID => "PAID"
  | OVERDUE => "OVERDUE"
  | CANCELLED => "CANCELLED"
  | CREDITED => "CREDITED"
  end.
End InvoiceStatus.

Module InvoicePdfStatus.
Inductive InvoicePdfStatus : Set := NONE | QUEUED | GENERATING | READY | FAILED.
#[global] Instance eq_dec_InvoicePdfStatus : EqDecision InvoicePdfStatus.
Proof. solve_decision. Defined.
Definition value (x : InvoicePdfStatus) : string :=
  match x with
  | NONE => "NONE"
  | QUEUED => "QUEUED"
  | GENERATING => "GENERATING"
  | READY => "READY"
  | FAILED => "FAILED"
  end.
End InvoicePdfStatus.

Module BillingPeriodType.
Inductive BillingPeriodType : Set := DAILY | MONTHLY | ADHOC.
#[global] Instance eq_dec_BillingPeriodType : EqDecision BillingPeriodType.
Proof. solve_decision. Defined.
Definition value (x : BillingPeriodType) : string :=
  match x with
  | DAILY => "DAILY"
  | MONTHLY => "MONTHLY"
  | ADHOC => "ADHOC"
  end.
End BillingPeriodType.

Module BillingPeriodStatus.
Inductive BillingPeriodStatus : Set := OPEN | FINALIZED | LOCKED.
#[global] Instance eq_dec_BillingPeriodStatus : EqDecision BillingPeriodStatus.
Proof. solve_decision. Defined.
Definition value (x : BillingPeriodStatus) : string :=
  match x with
  | OPEN => "OPEN"
  | FINALIZED => "FINALIZED"
  | LOCKED => "LOCKED"
  end.
End BillingPeriodStatus.

Module PaymentStatus.
Inductive PaymentStatus : Set := POSTED | FAILED.
#[global] Instance eq_dec_PaymentStatus : EqDecision PaymentStatus.
Proof. solve_decision. Defined.
Definition value (x : PaymentStatus) : string :=
  match x with
  | POSTED => "POSTED"
  | FAILED => "FAILED"
  end.
End PaymentStatus.

Module CreditNoteStatus.
Inductive CreditNoteStatus : Set := POSTED | FAILED | REVERSED.
#[global] Instance eq_dec_CreditNoteStatus : EqDecision CreditNoteStatus.
Proof. solve_decision. Defined.
Definition value (x : CreditNoteStatus) : string :=
  match x with
  | POSTED => "POSTED"
  | FAILED => "FAILED"
  | REVERSED => "REVERSED"
  end.
End CreditNoteStatus.

Module SettlementSourceType.
Inductive SettlementSourceType : Set := PAYMENT | CREDIT_NOTE | REFUND.
#[global] Instance eq_dec_SettlementSourceType : EqDecision SettlementSourceType.
Proof. solve_decision. Defined.
Definition value (x : SettlementSourceType) : string :=
  match x with
  | PAYMENT => "PAYMENT"
  | CREDIT_NOTE => "CREDIT_NOTE"
  | REFUND => "REFUND"
  end.
End SettlementSourceType.

(** ** The audit log *)

Module ActorType.
Inductive ActorType : Set := USER | SERVICE | SYSTEM.
#[global] Instance eq_dec_ActorType : EqDecision ActorType.
Proof. solve_decision. Defined.
Definition value (x : ActorType) : string :=
  match x with
  | USER => "USER"
  | SERVICE => "SERVICE"
  | SYSTEM => "SYSTEM"
  end.
End ActorType.

Module AuditVisibility.
Inductive AuditVisibility : Set := PUBLIC | INTERNAL.
#[global] Instance eq_dec_AuditVisibility : EqDecision AuditVisibility.
Proof. solve_decision. Defined.
Definition value (x : AuditVisibility) : string :=
  match x with
  | PUBLIC => "PUBLIC"
  | INTERNAL => "INTERNAL"
  end.
End AuditVisibility.

(** ** Money flow *)

Module MoneyFlowState.
Inductive MoneyFlowState : Set := DRAFT | AUTHORIZED | PENDING_SETTLEMENT | SETTLED |
  REVERSED | DISPUTED | FAILED | CANCELLED.
#[global] Instance eq_dec_MoneyFlowState : EqDecision MoneyFlowState.
Proof. solve_decision. Defined.
Definition value (x : MoneyFlowState) : string :=
  match x with
  | DRAFT => "DRAFT"
  | AUTHORIZED => "AUTHORIZED"
  | PENDING_SETTLEMENT => "PENDING_SETTLEMENT"
  | SETTLED => "SETTLED"
  | REVERSED => "REVERSED"
  | DISPUTED => "DISPUTED"
  | FAILED => "FAILED"
  | CANCELLED => "CANCELLED"
  end.
End MoneyFlowState.

Module MoneyFlowType.
Inductive MoneyFlowType : Set := FUEL_TX | SUBSCRIPTION_CHARGE | INVOICE_PAYMENT | REFUND
  | PAYOUT.
#[global] Instance eq_dec_MoneyFlowType : EqDecision MoneyFlowType.
Proof. solve_decision. Defined.
Definition value (x : MoneyFlowType) : string :=
  match x with
  | FUEL_TX => "FUEL_TX"
  | SUBSCRIPTION_CHARGE => "SUBSCRIPTION_CHARGE"
  | INVOICE_PAYMENT => "INVOICE_PAYMENT"
  | REFUND => "REFUND"
  | PAYOUT => "PAYOUT"
  end.
End MoneyFlowType.

Module MoneyFlowEventType.
Inductive MoneyFlowEventType : Set := AUTHORIZE | SETTLE | REVERSE | DISPUTE_OPEN |
  DISPUTE_RESOLVE | FAIL | CANCEL.
#[global] Instance eq_dec_MoneyFlowEventType : EqDecision MoneyFlowEventType.
Proof. solve_decision. Defined.
Definition value (x : MoneyFlowEventType) : string :=
  match x with
  | AUTHORIZE => "AUTHORIZE"
  | SETTLE => "SETTLE"
  | REVERSE => "REVERSE"
  | DISPUTE_OPEN => "DISPUTE_OPEN"
  | DISPUTE_RESOLVE => "DISPUTE_RESOLVE"
  | FAIL => "FAIL"
  | CANCEL => "CANCEL"
  end.
End MoneyFlowEventType.

Module MoneyFlowLinkNodeType.
Inductive MoneyFlowLinkNodeType : Set := SUBSCRIPTION | SUBSCRIPTION_SEGMENT |
  SUBSCRIPTION_CHARGE | USAGE_COUNTER | INVOICE | DOCUMENT | PAYMENT | REFUND | FUEL_TX |
  LOGISTICS_ORDER | ACCOUNTING_EXPORT | LEDGER_TX | BILLING_PERIOD.
#[global] Instance eq_dec_MoneyFlowLinkNodeType : EqDecision MoneyFlowLinkNodeType.
Proof. solve_decision. Defined.
Definition value (x : MoneyFlowLinkNodeType) : string :=
  match x with
  | SUBSCRIPTION => "SUBSCRIPTION"
  | SUBSCRIPTION_SEGMENT => "SUBSCRIPTION_SEGMENT"
  | SUBSCRIPTION_CHARGE => "SUBSCRIPTION_CHARGE"
  | USAGE_COUNTER => "USAGE_COUNTER"
  | INVOICE => "INVOICE"
  | DOCUMENT => "DOCUMENT"
  | PAYMENT => "PAYMENT"
  | REFUND => "REFUND"
  | FUEL_TX => "FUEL_TX"
  | LOGISTICS_ORDER => "LOGISTICS_ORDER"
  | ACCOUNTING_EXPORT => "ACCOUNTING_EXPORT"
  | LEDGER_TX => "LEDGER_TX"
  | BILLING_PERIOD => "BILLING_PERIOD"
  end.
End MoneyFlowLinkNodeType.

Module MoneyFlowLinkType.
Inductive MoneyFlowLinkType : Set := GENERATES | SETTLES | POSTS | FEEDS | RELATES.
#[global] Instance eq_dec_MoneyFlowLinkType : EqDecision MoneyFlowLinkType.
Proof. solve_decision. Defined.
Definition value (x : MoneyFlowLinkType) : string :=
  match x with
  | GENERATES => "GENERATES"
  | SETTLES => "SETTLES"
  | POSTS => "POSTS"
  | FEEDS => "FEEDS"
  | RELATES => "RELATES"
  end.
End MoneyFlowLinkType.

Module MoneyInvariantSnapshotPhase.
Inductive MoneyInvariantSnapshotPhase : Set := BEFORE | AFTER.
#[global] Instance eq_dec_MoneyInvariantSnapshotPhase : EqDecision MoneyInvariantSnapshotPhase.
Proof. solve_decision. Defined.
Definition value (x : MoneyInvariantSnapshotPhase) : string :=
  match x with
  | BEFORE => "BEFORE"
  | AFTER => "AFTER"
  end.
End MoneyInvariantSnapshotPhase.

(** ** Fuel transactions, billing jobs and policy actions *)

Module FuelTransactionStatus.
Inductive FuelTransactionStatus : Set := AUTHORIZED | REVIEW_REQUIRED | DECLINED |
  REVERSED | SETTLED.
#[global] Instance eq_dec_FuelTransactionStatus : EqDecision FuelTransactionStatus.
Proof. solve_decision. Defined.
Definition value (x : FuelTransactionStatus) : string :=
  match x with
  | AUTHORIZED => "AUTHORIZED"
  | REVIEW_REQUIRED => "REVIEW_REQUIRED"
  | DECLINED => "DECLINED"
  | REVERSED => "REVERSED"
  | SETTLED => "SETTLED"
  end.
End FuelTransactionStatus.

Module BillingJobType.
Inductive BillingJobType : Set := BILLING_DAILY | BILLING_FINALIZE | SUBSCRIPTION_BILLING
  | INVOICE_MONTHLY | RECONCILIATION | MANUAL_RUN | PDF_GENERATE | INVOICE_SEND |
  CREDIT_NOTE_PDF | FINANCE_EXPORT | BALANCE_REBUILD | CLEARING | CLEARING_RUN |
  FINANCE_PAYMENT | FINANCE_CREDIT_NOTE | BILLING_SEED.
#[global] Instance eq_dec_BillingJobType : EqDecision BillingJobType.
Proof. solve_decision. Defined.
Definition value (x : BillingJobType) : string :=
  match x with
  | BILLING_DAILY => "BILLING_DAILY"
  | BILLING_FINALIZE => "BILLING_FINALIZE"
  | SUBSCRIPTION_BILLING => "SUBSCRIPTION_BILLING"
  | INVOICE_MONTHLY => "INVOICE_MONTHLY"
  | RECONCILIATION => "RECONCILIATION"
  | MANUAL_RUN => "MANUAL_RUN"
  | PDF_GENERATE => "PDF_GENERATE"
  | INVOICE_SEND => "INVOICE_SEND"
  | CREDIT_NOTE_PDF => "CREDIT_NOTE_PDF"
  | FINANCE_EXPORT => "FINANCE_EXPORT"
  | BALANCE_REBUILD => "BALANCE_REBUILD"
  | CLEARING => "CLEARING"
  | CLEARING_RUN => "CLEARING_RUN"
  | FINANCE_PAYMENT => "FINANCE_PAYMENT"
  | FINANCE_CREDIT_NOTE => "FINANCE_CREDIT_NOTE"
  | BILLING_SEED => "BILLING_SEED"
  end.
End BillingJobType.

Module BillingJobStatus.
Inductive BillingJobStatus : Set := STARTED | SUCCESS | FAILED.
#[global] Instance eq_dec_BillingJobStatus : EqDecision BillingJobStatus.
Proof. solve_decision. Defined.
Definition value (x : BillingJobStatus) : string :=
  match x with
  | STARTED => "STARTED"
  | SUCCESS => "SUCCESS"
  | FAILED => "FAILED"
  end.
End BillingJobStatus.

Module Action.
Inductive Action : Set := BILLING_PERIOD_FINALIZE | BILLING_PERIOD_LOCK |
  BILLING_PERIOD_REOPEN | INVOICE_ISSUE | INVOICE_ADJUST | PAYMENT_APPLY |
  CREDIT_NOTE_CREATE | PAYOUT_EXPORT_CREATE | PAYOUT_EXPORT_CONFIRM |
  ACCOUNTING_EXPORT_CREATE | ACCOUNTING_EXPORT_CONFIRM | DOCUMENT_ACKNOWLEDGE |
  DOCUMENT_FINALIZE | DOCUMENT_SIGN_REQUEST | DOCUMENT_SEND_FOR_SIGNING |
  DOCUMENT_FINALIZE_WITH_SIGNATURE | DOCUMENT_VOID_AFTER_SIGNING | CLOSING_PACKAGE_ACK |
  CLOSING_PACKAGE_FINALIZE | CRM_CLIENT_MANAGE | CRM_CONTRACT_MANAGE | CRM_TARIFF_MANAGE
  | CRM_SUBSCRIPTION_MANAGE | CRM_FEATURE_TOGGLE.
#[global] Instance eq_dec_Action : EqDecision Action.
Proof. solve_decision. Defined.
Definition value (x : Action) : string :=
  match x with
  | BILLING_PERIOD_FINALIZE => "BILLING_PERIOD_FINALIZE"
  | BILLING_PERIOD_LOCK => "BILLING_PERIOD_LOCK"
  | BILLING_PERIOD_REOPEN => "BILLING_PERIOD_REOPEN"
  | INVOICE_ISSUE => "INVOICE_ISSUE"
  | INVOICE_ADJUST => "INVOICE_ADJUST"
  | PAYMENT_APPLY => "PAYMENT_APPLY"
  | CREDIT_NOTE_CREATE => "CREDIT_NOTE_CREATE"
  | PAYOUT_EXPORT_CREATE => "PAYOUT_EXPORT_CREATE"
  | PAYOUT_EXPORT_CONFIRM => "PAYOUT_EXPORT_CONFIRM"
  | ACCOUNTING_EXPORT_CREATE => "ACCOUNTING_EXPORT_CREATE"
  | ACCOUNTING_EXPORT_CONFIRM => "ACCOUNTING_EXPORT_CONFIRM"
  | DOCUMENT_ACKNOWLEDGE => "DOCUMENT_ACKNOWLEDGE"
  | DOCUMENT_FINALIZE => "DOCUMENT_FINALIZE"
  | DOCUMENT_SIGN_REQUEST => "DOCUMENT_SIGN_REQUEST"
  | DOCUMENT_SEND_FOR_SIGNING => "DOCUMENT_SEND_FOR_SIGNING"
  | DOCUMENT_FINALIZE_WITH_SIGNATURE => "DOCUMENT_FINALIZE_WITH_SIGNATURE"
  | DOCUMENT_VOID_AFTER_SIGNING => "DOCUMENT_VOID_AFTER_SIGNING"
  | CLOSING_PACKAGE_ACK => "CLOSING_PACKAGE_ACK"
  | CLOSING_PACKAGE_FINALIZE => "CLOSING_PACKAGE_FINALIZE"
  | CRM_CLIENT_MANAGE => "CRM_CLIENT_MANAGE"
  | CRM_CONTRACT_MANAGE => "CRM_CONTRACT_MANAGE"
  | CRM_TARIFF_MANAGE => "CRM_TARIFF_MANAGE"
  | CRM_SUBSCRIPTION_MANAGE => "CRM_SUBSCRIPTION_MANAGE"
  | CRM_FEATURE_TOGGLE => "CRM_FEATURE_TOGGLE"
  end.
End Action.

(** ** Replays of the money flow, risk decisions and feature flags *)

Module MoneyReplayMode.
Inductive MoneyReplayMode : Set := DRY_RUN | COMPARE | REBUILD_LINKS.
#[global] Instance eq_dec_MoneyReplayMode : EqDecision MoneyReplayMode.
Proof. solve_decision. Defined.
Definition value (x : MoneyReplayMode) : string :=
  match x with
  | DRY_RUN => "DRY_RUN"
  | COMPARE => "COMPARE"
  | REBUILD_LINKS => "REBUILD_LINKS"
  end.
End MoneyReplayMode.

Module MoneyReplayScope.
Inductive MoneyReplayScope : Set := SUBSCRIPTIONS | FUEL | ALL.
#[global] Instance eq_dec_MoneyReplayScope : EqDecision MoneyReplayScope.
Proof. solve_decision. Defined.
Definition value (x : MoneyReplayScope) : string :=
  match x with
  | SUBSCRIPTIONS => "SUBSCRIPTIONS"
  | FUEL => "FUEL"
  | ALL => "ALL"
  end.
End MoneyReplayScope.

Module RiskDecisionType.
Inductive RiskDecisionType : Set := ALLOW | ALLOW_WITH_REVIEW | BLOCK | ESCALATE.
#[global] Instance eq_dec_RiskDecisionType : EqDecision RiskDecisionType.
Proof. solve_decision. Defined.
Definition value (x : RiskDecisionType) : string :=
  match x with
  | ALLOW => "ALLOW"
  | ALLOW_WITH_REVIEW => "ALLOW_WITH_REVIEW"
  | BLOCK => "BLOCK"
  | ESCALATE => "ESCALATE"
  end.
End RiskDecisionType.

Module CRMFeatureFlagType.
Inductive CRMFeatureFlagType : Set := FUEL_ENABLED | LOGISTICS_ENABLED |
  DOCUMENTS_ENABLED | RISK_BLOCKING_ENABLED | ACCOUNTING_EXPORT_ENABLED |
  SUBSCRIPTION_METER_FUEL_ENABLED | CASES_ENABLED.
#[global] Instance eq_dec_CRMFeatureFlagType : EqDecision CRMFeatureFlagType.
Proof. solve_decision. Defined.
Definition value (x : CRMFeatureFlagType) : string :=
  match x with
  | FUEL_ENABLED => "FUEL_ENABLED"
  | LOGISTICS_ENABLED => "LOGISTICS_ENABLED"
  | DOCUMENTS_ENABLED => "DOCUMENTS_ENABLED"
  | RISK_BLOCKING_ENABLED => "RISK_BLOCKING_ENABLED"
  | ACCOUNTING_EXPORT_ENABLED => "ACCOUNTING_EXPORT_ENABLED"
  | SUBSCRIPTION_METER_FUEL_ENABLED => "SUBSCRIPTION_METER_FUEL_ENABLED"
  | CASES_ENABLED => "CASES_ENABLED"
  end.
End CRMFeatureFlagType.

(** ** Card operations, their limits and the engines that decide on them *)

Module OperationType.
Inductive OperationType : Set := AUTH | HOLD | COMMIT | REVERSE | REFUND | DECLINE |
  CAPTURE | REVERSAL.
#[global] Instance eq_dec_OperationType : EqDecision OperationType.
Proof. solve_decision. Defined.
Definition value (x : OperationType) : string :=
  match x with
  | AUTH => "AUTH"
  | HOLD => "HOLD"
  | COMMIT => "COMMIT"
  | REVERSE => "REVERSE"
  | REFUND => "REFUND"
  | DECLINE => "DECLINE"
  | CAPTURE => "CAPTURE"
  | REVERSAL => "REVERSAL"
  end.
End OperationType.

Module OperationStatus.
Inductive OperationStatus : Set := PENDING | AUTHORIZED | HELD | COMPLETED | REVERSED |
  REFUNDED | DECLINED | CANCELLED | CAPTURED | OPEN.
#[global] Instance eq_dec_OperationStatus : EqDecision OperationStatus.
Proof. solve_decision. Defined.
Definition value (x : OperationStatus) : string :=
  match x with
  | PENDING => "PENDING"
  | AUTHORIZED => "AUTHORIZED"
  | HELD => "HELD"
  | COMPLETED => "COMPLETED"
  | REVERSED => "REVERSED"
  | REFUNDED => "REFUNDED"
  | DECLINED => "DECLINED"
  | CANCELLED => "CANCELLED"
  | CAPTURED => "CAPTURED"
  | OPEN => "OPEN"
  end.
(** Aliases of the class: other names of the same members. *)
Definition APPROVED := AUTHORIZED.
Definition POSTED := AUTHORIZED.
Definition ERROR := DECLINED.
End OperationStatus.

Module ProductType.
Inductive ProductType : Set := DIESEL | AI92 | AI95 | AI98 | GAS | OTHER.
#[global] Instance eq_dec_ProductType : EqDecision ProductType.
Proof. solve_decision. Defined.
Definition value (x : ProductType) : string :=
  match x with
  | DIESEL => "DIESEL"
  | AI92 => "AI92"
  | AI95 => "AI95"
  | AI98 => "AI98"
  | GAS => "GAS"
  | OTHER => "OTHER"
  end.
End ProductType.

Module RiskResult.
Inductive RiskResult : Set := LOW | MEDIUM | HIGH | BLOCK | MANUAL_REVIEW.
#[global] Instance eq_dec_RiskResult : EqDecision RiskResult.
Proof. solve_decision. Defined.
Definition value (x : RiskResult) : string :=
  match x with
  | LOW => "LOW"
  | MEDIUM => "MEDIUM"
  | HIGH => "HIGH"
  | BLOCK => "BLOCK"
  | MANUAL_REVIEW => "MANUAL_REVIEW"
  end.
End RiskResult.

Module RiskLevel.
Inductive RiskLevel : Set := LOW | MEDIUM | HIGH | VERY_HIGH.
#[global] Instance eq_dec_RiskLevel : EqDecision RiskLevel.
Proof. solve_decision. Defined.
Definition value (x : RiskLevel) : string :=
  match x with
  | LOW => "LOW"
  | MEDIUM => "MEDIUM"
  | HIGH => "HIGH"
  | VERY_HIGH => "VERY_HIGH"
  end.
End RiskLevel.

Module DecisionOutcome.
Inductive DecisionOutcome : Set := ALLOW | DECLINE | MANUAL_REVIEW.
#[global] Instance eq_dec_DecisionOutcome : EqDecision DecisionOutcome.
Proof. solve_decision. Defined.
Definition value (x : DecisionOutcome) : string :=
  match x with
  | ALLOW => "ALLOW"
  | DECLINE => "DECLINE"
  | MANUAL_REVIEW => "MANUAL_REVIEW"
  end.
End DecisionOutcome.

Module RiskDecisionLevel.
Inductive RiskDecisionLevel : Set := LOW | MEDIUM | HIGH | MANUAL_REVIEW | HARD_DECLINE.
#[global] Instance eq_dec_RiskDecisionLevel : EqDecision RiskDecisionLevel.
Proof. solve_decision. Defined.
Definition value (x : RiskDecisionLevel) : string :=
  match x with
  | LOW => "LOW"
  | MEDIUM => "MEDIUM"
  | HIGH => "HIGH"
  | MANUAL_REVIEW => "MANUAL_REVIEW"
  | HARD_DECLINE => "HARD_DECLINE"
  end.
End RiskDecisionLevel.

Module UnifiedRulePolicy.
Inductive UnifiedRulePolicy : Set := ALLOW | HARD_DECLINE | SOFT_DECLINE | REVIEW |
  APPLY_LIMIT | APPLY_DISCOUNT | THROTTLE | STEP_UP_AUTH.
#[global] Instance eq_dec_UnifiedRulePolicy : EqDecision UnifiedRulePolicy.
Proof. solve_decision. Defined.
Definition value (x : UnifiedRulePolicy) : string :=
  match x with
  | ALLOW => "ALLOW"
  | HARD_DECLINE => "HARD_DECLINE"
  | SOFT_DECLINE => "SOFT_DECLINE"
  | REVIEW => "REVIEW"
  | APPLY_LIMIT => "APPLY_LIMIT"
  | APPLY_DISCOUNT => "APPLY_DISCOUNT"
  | THROTTLE => "THROTTLE"
  | STEP_UP_AUTH => "STEP_UP_AUTH"
  end.
End UnifiedRulePolicy.

Module LimitScope.
Inductive LimitScope : Set := PER_TX | DAILY | MONTHLY.
#[global] Instance eq_dec_LimitScope : EqDecision LimitScope.
Proof. solve_decision. Defined.
Definition value (x : LimitScope) : string :=
  match x with
  | PER_TX => "PER_TX"
  | DAILY => "DAILY"
  | MONTHLY => "MONTHLY"
  end.
End LimitScope.

Module FuelProductType.
Inductive FuelProductType : Set := ANY | DIESEL | AI92 | AI95 | AI98 | GAS | OTHER.
#[global] Instance eq_dec_FuelProductType : EqDecision FuelProductType.
Proof. solve_decision. Defined.
Definition value (x : FuelProductType) : string :=
  match x with
  | ANY => "ANY"
  | DIESEL => "DIESEL"
  | AI92 => "AI92"
  | AI95 => "AI95"
  | AI98 => "AI98"
  | GAS => "GAS"
  | OTHER => "OTHER"
  end.
End FuelProductType.

Module LimitConfigScope.
Inductive LimitConfigScope : Set := GLOBAL | CLIENT | CARD | TARIFF.
#[global] Instance eq_dec_LimitConfigScope : EqDecision LimitConfigScope.
Proof. solve_decision. Defined.
Definition value (x : LimitConfigScope) : string :=
  match x with
  | GLOBAL => "GLOBAL"
  | CLIENT => "CLIENT"
  | CARD => "CARD"
  | TARIFF => "TARIFF"
  end.
End LimitConfigScope.

Module LimitType.
Inductive LimitType : Set := DAILY_VOLUME | DAILY_AMOUNT | MONTHLY_AMOUNT | CREDIT_LIMIT.
#[global] Instance eq_dec_LimitType : EqDecision LimitType.
Proof. solve_decision. Defined.
Definition value (x : LimitType) : string :=
  match x with
  | DAILY_VOLUME => "DAILY_VOLUME"
  | DAILY_AMOUNT => "DAILY_AMOUNT"
  | MONTHLY_AMOUNT => "MONTHLY_AMOUNT"
  | CREDIT_LIMIT => "CREDIT_LIMIT"
  end.
End LimitType.

Module LimitWindow.
Inductive LimitWindow : Set := PER_TX | DAILY | MONTHLY.
#[global] Instance eq_dec_LimitWindow : EqDecision LimitWindow.
Proof. solve_decision. Defined.
Definition value (x : LimitWindow) : string :=
  match x with
  | PER_TX => "PER_TX"
  | DAILY => "DAILY"
  | MONTHLY => "MONTHLY"
  end.
End LimitWindow.

(** ** Clearing, settlements and payouts *)

Module SettlementStatus.
Inductive SettlementStatus : Set := DRAFT | APPROVED | SENT | CONFIRMED | FAILED.
#[global] Instance eq_dec_SettlementStatus : EqDecision SettlementStatus.
Proof. solve_decision. Defined.
Definition value (x : SettlementStatus) : string :=
  match x with
  | DRAFT => "DRAFT"
  | APPROVED => "APPROVED"
  | SENT => "SENT"
  | CONFIRMED => "CONFIRMED"
  | FAILED => "FAILED"
  end.
End SettlementStatus.

Module PayoutOrderStatus.
Inductive PayoutOrderStatus : Set := QUEUED | SENT | CONFIRMED | FAILED.
#[global] Instance eq_dec_PayoutOrderStatus : EqDecision PayoutOrderStatus.
Proof. solve_decision. Defined.
Definition value (x : PayoutOrderStatus) : string :=
  match x with
  | QUEUED => "QUEUED"
  | SENT => "SENT"
  | CONFIRMED => "CONFIRMED"
  | FAILED => "FAILED"
  end.
End PayoutOrderStatus.

Module PayoutBatchState.
Inductive PayoutBatchState : Set := DRAFT | READY | SENT | SETTLED | FAILED.
#[global] Instance eq_dec_PayoutBatchState : EqDecision PayoutBatchState.
Proof. solve_decision. Defined.
Definition value (x : PayoutBatchState) : string :=
  match x with
  | DRAFT => "DRAFT"
  | READY => "READY"
  | SENT => "SENT"
  | SETTLED => "SETTLED"
  | FAILED => "FAILED"
  end.
End PayoutBatchState.

Module BillingSummaryStatus.
Inductive BillingSummaryStatus : Set := PENDING | FINALIZED.
#[global] Instance eq_dec_BillingSummaryStatus : EqDecision BillingSummaryStatus.
Proof. solve_decision. Defined.
Definition value (x : BillingSummaryStatus) : string :=
  match x with
  | PENDING => "PENDING"
  | FINALIZED => "FINALIZED"
  end.
End BillingSummaryStatus.

Module FuelType.
Inductive FuelType : Set := DIESEL | AI92 | AI95 | AI98 | GAS | OTHER.
#[global] Instance eq_dec_FuelType : EqDecision FuelType.
Proof. solve_decision. Defined.
Definition value (x : FuelType) : string :=
  match x with
  | DIESEL => "DIESEL"
  | AI92 => "AI-92"
  | AI95 => "AI-95"
  | AI98 => "AI-98"
  | GAS => "GAS"
  | OTHER => "OTHER"
  end.
End FuelType.
