(* ===== verification/Models.v ===== *)
(** * The tables of the database and their rows

    One record per SQLAlchemy model, with the columns the modelled code reads or
    writes (other columns, among them most [created_at]/[updated_at] stamps, are
    left out).  Identifiers and foreign keys are strings, except the
    autoincremented ones.  Instants are microseconds since the epoch.
    [BigInteger] amounts are integers; a [Numeric(18,4)] is the integer number of
    its ten-thousandths, on which the code's decimal [+], [-] and comparisons
    are the integer ones. *)
From Stdlib Require Import SpecFloat QArith.
From S2P Require Import Prelude Json Enums.
#[local] Open Scope Z_scope.

(** A [Decimal] of a [Numeric(18,4)] column, in ten-thousandths. *)
Definition decimal := Z.

(** The [Decimal] of an integer amount. *)
Definition dec_of_int (n : Z) : decimal := n * 10000.

(** ** The posting ledger *)

(** A ledger account; [acc_id] is autoincremented. *)
Record Account := MkAccount {
  acc_id : Z;
  acc_client_id : string;
  acc_owner_type : AccountOwnerType.AccountOwnerType;
  acc_owner_id : option string;
  acc_card_id : option string;
  acc_tariff_id : option string;
  acc_currency : string;
  acc_type : AccountType.AccountType;
  acc_status : AccountStatus.AccountStatus;
}.

Definition set_acc_status (v : AccountStatus.AccountStatus) (r : Account) : Account :=
  MkAccount (acc_id r) (acc_client_id r) (acc_owner_type r) (acc_owner_id r)
    (acc_card_id r) (acc_tariff_id r) (acc_currency r) (acc_type r) v.

(** The balances of an account, keyed by the account id. *)
Record AccountBalance := MkAccountBalance {
  bal_current : decimal;
  bal_available : decimal;
  bal_hold : decimal;
  bal_updated_at : option Z;
}.

Definition set_bal_current (v : decimal) (r : AccountBalance) : AccountBalance :=
  MkAccountBalance v (bal_available r) (bal_hold r) (bal_updated_at r).
Definition set_bal_available (v : decimal) (r : AccountBalance) : AccountBalance :=
  MkAccountBalance (bal_current r) v (bal_hold r) (bal_updated_at r).
Definition set_bal_hold (v : decimal) (r : AccountBalance) : AccountBalance :=
  MkAccountBalance (bal_current r) (bal_available r) v (bal_updated_at r).
Definition set_bal_updated_at (v : option Z) (r : AccountBalance) : AccountBalance :=
  MkAccountBalance (bal_current r) (bal_available r) (bal_hold r) v.

(** A posted movement (append only). *)
Record LedgerEntry := MkLedgerEntry {
  le_id : Z;
  le_entry_id : string;
  le_posting_id : string;
  le_account_id : Z;
  le_operation_id : option string;
  le_direction : LedgerDirection.LedgerDirection;
  le_amount : decimal;
  le_currency : string;
  le_balance_before : option decimal;
  le_balance_after : option decimal;
  le_posted_at : Z;
  le_value_date : option Z;
  le_context : option json;
}.

Definition set_le_context (v : option json) (r : LedgerEntry) : LedgerEntry :=
  MkLedgerEntry (le_id r) (le_entry_id r) (le_posting_id r) (le_account_id r)
    (le_operation_id r) (le_direction r) (le_amount r) (le_currency r)
    (le_balance_before r) (le_balance_after r) (le_posted_at r) (le_value_date r) v.

(** A batch of movements, unique by its idempotency key. *)
Record PostingBatch := MkPostingBatch {
  pb_id : string;
  pb_operation_id : option string;
  pb_posting_type : PostingBatchType.PostingBatchType;
  pb_status : PostingBatchStatus.PostingBatchStatus;
  pb_idempotency_key : string;
}.

(** ** Operations, refunds, reversals, disputes and adjustments *)

(** The answer of the limit rules. *)
Record CheckAndReserveResult := MkCheckAndReserveResult {
  lim_approved : bool;
  lim_response_code : string;
  lim_response_message : string;
  lim_daily_limit : Z;
  lim_limit_per_tx : Z;
  lim_used_today : Z;
  lim_new_used_today : Z;
  lim_applied_rule_id : option Z;
}.

(** A contractual limit: a row of [limit_configs]. *)
Record LimitConfig := MkLimitConfig {
  lc_id : Z;
  lc_scope : LimitConfigScope.LimitConfigScope;
  lc_subject_ref : string;
  lc_limit_type : LimitType.LimitType;
  lc_value : Z;
  lc_window : LimitWindow.LimitWindow;
  lc_enabled : bool;
}.

(** The use of a contractual limit by an operation; the used and projected amounts are
    floats. *)
Record Consumption := MkConsumption {
  con_used : spec_float;
  con_projected : spec_float;
  con_limit : LimitConfig;
  con_window_start : Z;
}.

(** What the column [limit_check_result] holds: the answer of the limit rules, or the
    contractual limits that are exceeded. *)
Inductive limit_payload : Type :=
| RuleCheck (r : CheckAndReserveResult)
| Violations (l : list Consumption).

(** The commission snapshot of an operation ([compute_posting_result]); the constant
    entries of the dict are left out. *)
Record CommissionSplit := MkCommissionSplit {
  cs_currency : string;
  cs_gross_amount : Z;
  cs_base_cost : Z;
  cs_platform_commission : Z;
  cs_commission_rate : Q;
  cs_computed_at : Z;
}.

(** What the column [posting_result] holds: the dict of the posting, of the commission
    snapshot, or both merged. *)
Record PostingResult := MkPostingResult {
  po_accounts : option (list Z);
  po_entries : option (list Z);
  po_balances : option (list (Z * decimal));
  po_split : option CommissionSplit;
}.

(** The answer of the decision engine; the fields its callers read. *)
Record DecisionResult := MkDecisionResult {
  dr_decision_id : string;
  dr_outcome : DecisionOutcome.DecisionOutcome;
  dr_risk_level : option RiskLevel.RiskLevel;
}.

(** The answer of the risk adapter. *)
Record RiskEvaluation := MkRiskEvaluation {
  re_level : RiskDecisionLevel.RiskDecisionLevel;
  re_score : option spec_float;
  re_reason_codes : list string;
  re_source : string;
}.

(** What the column [risk_payload] holds: the payload of the decision engine, of the
    unified rules, or of the risk adapter with or without that of the decision engine. *)
Inductive risk_payload : Type :=
| FromDecision (d : DecisionResult)
| FromRules (policy : UnifiedRulePolicy.UnifiedRulePolicy) (matched : list string)
| FromRisk (e : RiskEvaluation) (d : option DecisionResult).

(** A card operation.  Quantities are a [Numeric(18,3)], in thousandths; the message for
    the card holder is left out. *)
Record Operation := MkOperation {
  op_id : string;
  op_operation_id : string;
  op_created_at : Z;
  op_operation_type : OperationType.OperationType;
  op_status : OperationStatus.OperationStatus;
  op_merchant_id : string;
  op_terminal_id : string;
  op_client_id : string;
  op_card_id : string;
  op_tariff_id : option string;
  op_product_id : option string;
  op_amount : Z;
  op_amount_settled : option Z;
  op_currency : string;
  op_product_type : option string;
  op_quantity : option Z;
  op_unit_price : option Z;
  op_captured_amount : Z;
  op_refunded_amount : Z;
  op_daily_limit : option Z;
  op_limit_per_tx : option Z;
  op_used_today : option Z;
  op_new_used_today : option Z;
  op_limit_profile_id : option Z;
  op_limit_check_result : option limit_payload;
  op_authorized : bool;
  op_response_code : string;
  op_auth_code : option string;
  op_parent_operation_id : option string;
  op_reason : option string;
  op_mcc : option string;
  op_product_code : option string;
  op_product_category : option string;
  op_tx_type : option string;
  op_accounts : option (list Z);
  op_posting_result : option PostingResult;
  op_risk_score : option spec_float;
  op_risk_result : option RiskResult.RiskResult;
  op_risk_payload : option risk_payload;
}.

Definition set_op_operation_type (v : OperationType.OperationType) (r : Operation) : Operation :=
  MkOperation (op_id r) (op_operation_id r) (op_created_at r) v (op_status r)
    (op_merchant_id r) (op_terminal_id r) (op_client_id r) (op_card_id r) (op_tariff_id r)
    (op_product_id r) (op_amount r) (op_amount_settled r) (op_currency r) (op_product_type
    r) (op_quantity r) (op_unit_price r) (op_captured_amount r) (op_refunded_amount r)
    (op_daily_limit r) (op_limit_per_tx r) (op_used_today r) (op_new_used_today r)
    (op_limit_profile_id r) (op_limit_check_result r) (op_authorized r) (op_response_code r)
    (op_auth_code r) (op_parent_operation_id r) (op_reason r) (op_mcc r) (op_product_code r)
    (op_product_category r) (op_tx_type r) (op_accounts r) (op_posting_result r)
    (op_risk_score r) (op_risk_result r) (op_risk_payload r).
Definition set_op_status (v : OperationStatus.OperationStatus) (r : Operation) : Operation :=
  MkOperation (op_id r) (op_operation_id r) (op_created_at r) (op_operation_type r) v
    (op_merchant_id r) (op_terminal_id r) (op_client_id r) (op_card_id r) (op_tariff_id r)
    (op_product_id r) (op_amount r) (op_amount_settled r) (op_currency r) (op_product_type
    r) (op_quantity r) (op_unit_price r) (op_captured_amount r) (op_refunded_amount r)
    (op_daily_limit r) (op_limit_per_tx r) (op_used_today r) (op_new_used_today r)
    (op_limit_profile_id r) (op_limit_check_result r) (op_authorized r) (op_response_code r)
    (op_auth_code r) (op_parent_operation_id r) (op_reason r) (op_mcc r) (op_product_code r)
    (op_product_category r) (op_tx_type r) (op_accounts r) (op_posting_result r)
    (op_risk_score r) (op_risk_result r) (op_risk_payload r).
Definition set_op_amount_settled (v : option Z) (r : Operation) : Operation :=
  MkOperation (op_id r) (op_operation_id r) (op_created_at r) (op_operation_type r)
    (op_status r) (op_merchant_id r) (op_terminal_id r) (op_client_id r) (op_card_id r)
    (op_tariff_id r) (op_product_id r) (op_amount r) v (op_currency r) (op_product_type r)
    (op_quantity r) (op_unit_price r) (op_captured_amount r) (op_refunded_amount r)
    (op_daily_limit r) (op_limit_per_tx r) (op_used_today r) (op_new_used_today r)
    (op_limit_profile_id r) (op_limit_check_result r) (op_authorized r) (op_response_code r)
    (op_auth_code r) (op_parent_operation_id r) (op_reason r) (op_mcc r) (op_product_code r)
    (op_product_category r) (op_tx_type r) (op_accounts r) (op_posting_result r)
    (op_risk_score r) (op_risk_result r) (op_risk_payload r).
Definition set_op_quantity (v : option Z) (r : Operation) : Operation :=
  MkOperation (op_id r) (op_operation_id r) (op_created_at r) (op_operation_type r)
    (op_status r) (op_merchant_id r) (op_terminal_id r) (op_client_id r) (op_card_id r)
    (op_tariff_id r) (op_product_id r) (op_amount r) (op_amount_settled r) (op_currency r)
    (op_product_type r) v (op_unit_price r) (op_captured_amount r) (op_refunded_amount r)
    (op_daily_limit r) (op_limit_per_tx r) (op_used_today r) (op_new_used_today r)
    (op_limit_profile_id r) (op_limit_check_result r) (op_authorized r) (op_response_code r)
    (op_auth_code r) (op_parent_operation_id r) (op_reason r) (op_mcc r) (op_product_code r)
    (op_product_category r) (op_tx_type r) (op_accounts r) (op_posting_result r)
    (op_risk_score r) (op_risk_result r) (op_risk_payload r).
Definition set_op_captured_amount (v : Z) (r : Operation) : Operation :=
  MkOperation (op_id r) (op_operation_id r) (op_created_at r) (op_operation_type r)
    (op_status r) (op_merchant_id r) (op_terminal_id r) (op_client_id r) (op_card_id r)
    (op_tariff_id r) (op_product_id r) (op_amount r) (op_amount_settled r) (op_currency r)
    (op_product_type r) (op_quantity r) (op_unit_price r) v (op_refunded_amount r)
    (op_daily_limit r) (op_limit_per_tx r) (op_used_today r) (op_new_used_today r)
    (op_limit_profile_id r) (op_limit_check_result r) (op_authorized r) (op_response_code r)
    (op_auth_code r) (op_parent_operation_id r) (op_reason r) (op_mcc r) (op_product_code r)
    (op_product_category r) (op_tx_type r) (op_accounts r) (op_posting_result r)
    (op_risk_score r) (op_risk_result r) (op_risk_payload r).
Definition set_op_refunded_amount (v : Z) (r : Operation) : Operation :=
  MkOperation (op_id r) (op_operation_id r) (op_created_at r) (op_operation_type r)
    (op_status r) (op_merchant_id r) (op_terminal_id r) (op_client_id r) (op_card_id r)
    (op_tariff_id r) (op_product_id r) (op_amount r) (op_amount_settled r) (op_currency r)
    (op_product_type r) (op_quantity r) (op_unit_price r) (op_captured_amount r) v
    (op_daily_limit r) (op_limit_per_tx r) (op_used_today r) (op_new_used_today r)
    (op_limit_profile_id r) (op_limit_check_result r) (op_authorized r) (op_response_code r)
    (op_auth_code r) (op_parent_operation_id r) (op_reason r) (op_mcc r) (op_product_code r)
    (op_product_category r) (op_tx_type r) (op_accounts r) (op_posting_result r)
    (op_risk_score r) (op_risk_result r) (op_risk_payload r).
Definition set_op_response_code (v : string) (r : Operation) : Operation :=
  MkOperation (op_id r) (op_operation_id r) (op_created_at r) (op_operation_type r)
    (op_status r) (op_merchant_id r) (op_terminal_id r) (op_client_id r) (op_card_id r)
    (op_tariff_id r) (op_product_id r) (op_amount r) (op_amount_settled r) (op_currency r)
    (op_product_type r) (op_quantity r) (op_unit_price r) (op_captured_amount r)
    (op_refunded_amount r) (op_daily_limit r) (op_limit_per_tx r) (op_used_today r)
    (op_new_used_today r) (op_limit_profile_id r) (op_limit_check_result r) (op_authorized
    r) v (op_auth_code r) (op_parent_operation_id r) (op_reason r) (op_mcc r)
    (op_product_code r) (op_product_category r) (op_tx_type r) (op_accounts r)
    (op_posting_result r) (op_risk_score r) (op_risk_result r) (op_risk_payload r).
Definition set_op_reason (v : option string) (r : Operation) : Operation :=
  MkOperation (op_id r) (op_operation_id r) (op_created_at r) (op_operation_type r)
    (op_status r) (op_merchant_id r) (op_terminal_id r) (op_client_id r) (op_card_id r)
    (op_tariff_id r) (op_product_id r) (op_amount r) (op_amount_settled r) (op_currency r)
    (op_product_type r) (op_quantity r) (op_unit_price r) (op_captured_amount r)
    (op_refunded_amount r) (op_daily_limit r) (op_limit_per_tx r) (op_used_today r)
    (op_new_used_today r) (op_limit_profile_id r) (op_limit_check_result r) (op_authorized
    r) (op_response_code r) (op_auth_code r) (op_parent_operation_id r) v (op_mcc r)
    (op_product_code r) (op_product_category r) (op_tx_type r) (op_accounts r)
    (op_posting_result r) (op_risk_score r) (op_risk_result r) (op_risk_payload r).
Definition set_op_accounts (v : option (list Z)) (r : Operation) : Operation :=
  MkOperation (op_id r) (op_operation_id r) (op_created_at r) (op_operation_type r)
    (op_status r) (op_merchant_id r) (op_terminal_id r) (op_client_id r) (op_card_id r)
    (op_tariff_id r) (op_product_id r) (op_amount r) (op_amount_settled r) (op_currency r)
    (op_product_type r) (op_quantity r) (op_unit_price r) (op_captured_amount r)
    (op_refunded_amount r) (op_daily_limit r) (op_limit_per_tx r) (op_used_today r)
    (op_new_used_today r) (op_limit_profile_id r) (op_limit_check_result r) (op_authorized
    r) (op_response_code r) (op_auth_code r) (op_parent_operation_id r) (op_reason r)
    (op_mcc r) (op_product_code r) (op_product_category r) (op_tx_type r) v
    (op_posting_result r) (op_risk_score r) (op_risk_result r) (op_risk_payload r).
Definition set_op_posting_result (v : option PostingResult) (r : Operation) : Operation :=
  MkOperation (op_id r) (op_operation_id r) (op_created_at r) (op_operation_type r)
    (op_status r) (op_merchant_id r) (op_terminal_id r) (op_client_id r) (op_card_id r)
    (op_tariff_id r) (op_product_id r) (op_amount r) (op_amount_settled r) (op_currency r)
    (op_product_type r) (op_quantity r) (op_unit_price r) (op_captured_amount r)
    (op_refunded_amount r) (op_daily_limit r) (op_limit_per_tx r) (op_used_today r)
    (op_new_used_today r) (op_limit_profile_id r) (op_limit_check_result r) (op_authorized
    r) (op_response_code r) (op_auth_code r) (op_parent_operation_id r) (op_reason r)
    (op_mcc r) (op_product_code r) (op_product_category r) (op_tx_type r) (op_accounts r) v
    (op_risk_score r) (op_risk_result r) (op_risk_payload r).

(** A refund request, unique by its idempotency key. *)
Record RefundRequest := MkRefundRequest {
  rf_id : string;
  rf_operation_id : string;
  rf_operation_business_id : string;
  rf_amount : Z;
  rf_currency : string;
  rf_reason : option string;
  rf_initiator : option string;
  rf_idempotency_key : string;
  rf_status : RefundRequestStatus.RefundRequestStatus;
  rf_posted_posting_id : option string;
  rf_settlement_policy : SettlementPolicy.SettlementPolicy;
  rf_updated_at : option Z;
}.

Definition set_rf_status (v : RefundRequestStatus.RefundRequestStatus) (r : RefundRequest) : RefundRequest :=
  MkRefundRequest (rf_id r) (rf_operation_id r) (rf_operation_business_id r)
    (rf_amount r) (rf_currency r) (rf_reason r) (rf_initiator r) (rf_idempotency_key r)
    v (rf_posted_posting_id r) (rf_settlement_policy r) (rf_updated_at r).
Definition set_rf_posted_posting_id (v : option string) (r : RefundRequest) : RefundRequest :=
  MkRefundRequest (rf_id r) (rf_operation_id r) (rf_operation_business_id r)
    (rf_amount r) (rf_currency r) (rf_reason r) (rf_initiator r) (rf_idempotency_key r)
    (rf_status r) v (rf_settlement_policy r) (rf_updated_at r).
Definition set_rf_updated_at (v : option Z) (r : RefundRequest) : RefundRequest :=
  MkRefundRequest (rf_id r) (rf_operation_id r) (rf_operation_business_id r)
    (rf_amount r) (rf_currency r) (rf_reason r) (rf_initiator r) (rf_idempotency_key r)
    (rf_status r) (rf_posted_posting_id r) (rf_settlement_policy r) v.

(** A reversal of a captured operation, unique by its idempotency key. *)
Record Reversal := MkReversal {
  rv_id : string;
  rv_operation_id : string;
  rv_operation_business_id : string;
  rv_reason : option string;
  rv_initiator : option string;
  rv_idempotency_key : string;
  rv_status : ReversalStatus.ReversalStatus;
  rv_posted_posting_id : option string;
  rv_settlement_policy : SettlementPolicy.SettlementPolicy;
  rv_updated_at : option Z;
}.

Definition set_rv_status (v : ReversalStatus.ReversalStatus) (r : Reversal) : Reversal :=
  MkReversal (rv_id r) (rv_operation_id r) (rv_operation_business_id r) (rv_reason r)
    (rv_initiator r) (rv_idempotency_key r) v (rv_posted_posting_id r)
    (rv_settlement_policy r) (rv_updated_at r).
Definition set_rv_posted_posting_id (v : option string) (r : Reversal) : Reversal :=
  MkReversal (rv_id r) (rv_operation_id r) (rv_operation_business_id r) (rv_reason r)
    (rv_initiator r) (rv_idempotency_key r) (rv_status r) v (rv_settlement_policy r)
    (rv_updated_at r).
Definition set_rv_updated_at (v : option Z) (r : Reversal) : Reversal :=
  MkReversal (rv_id r) (rv_operation_id r) (rv_operation_business_id r) (rv_reason r)
    (rv_initiator r) (rv_idempotency_key r) (rv_status r) (rv_posted_posting_id r)
    (rv_settlement_policy r) v.

(** A dispute on an operation. *)
Record Dispute := MkDispute {
  dp_id : string;
  dp_operation_id : string;
  dp_operation_business_id : string;
  dp_disputed_amount : Z;
  dp_currency : string;
  dp_fee_amount : Z;
  dp_status : DisputeStatus.DisputeStatus;
  dp_hold_placed : bool;
  dp_hold_posting_id : option string;
  dp_resolution_posting_id : option string;
  dp_initiator : option string;
  dp_updated_at : option Z;
}.

Definition set_dp_status (v : DisputeStatus.DisputeStatus) (r : Dispute) : Dispute :=
  MkDispute (dp_id r) (dp_operation_id r) (dp_operation_business_id r)
    (dp_disputed_amount r) (dp_currency r) (dp_fee_amount r) v (dp_hold_placed r)
    (dp_hold_posting_id r) (dp_resolution_posting_id r) (dp_initiator r) (dp_updated_at
    r).
Definition set_dp_hold_placed (v : bool) (r : Dispute) : Dispute :=
  MkDispute (dp_id r) (dp_operation_id r) (dp_operation_business_id r)
    (dp_disputed_amount r) (dp_currency r) (dp_fee_amount r) (dp_status r) v
    (dp_hold_posting_id r) (dp_resolution_posting_id r) (dp_initiator r) (dp_updated_at
    r).
Definition set_dp_hold_posting_id (v : option string) (r : Dispute) : Dispute :=
  MkDispute (dp_id r) (dp_operation_id r) (dp_operation_business_id r)
    (dp_disputed_amount r) (dp_currency r) (dp_fee_amount r) (dp_status r)
    (dp_hold_placed r) v (dp_resolution_posting_id r) (dp_initiator r) (dp_updated_at r).
Definition set_dp_resolution_posting_id (v : option string) (r : Dispute) : Dispute :=
  MkDispute (dp_id r) (dp_operation_id r) (dp_operation_business_id r)
    (dp_disputed_amount r) (dp_currency r) (dp_fee_amount r) (dp_status r)
    (dp_hold_placed r) (dp_hold_posting_id r) v (dp_initiator r) (dp_updated_at r).
Definition set_dp_updated_at (v : option Z) (r : Dispute) : Dispute :=
  MkDispute (dp_id r) (dp_operation_id r) (dp_operation_business_id r)
    (dp_disputed_amount r) (dp_currency r) (dp_fee_amount r) (dp_status r)
    (dp_hold_placed r) (dp_hold_posting_id r) (dp_resolution_posting_id r) (dp_initiator
    r) v.
Definition set_dp_initiator (v : option string) (r : Dispute) : Dispute :=
  MkDispute (dp_id r) (dp_operation_id r) (dp_operation_business_id r)
    (dp_disputed_amount r) (dp_currency r) (dp_fee_amount r) (dp_status r)
    (dp_hold_placed r) (dp_hold_posting_id r) (dp_resolution_posting_id r) v
    (dp_updated_at r).

(** An event of a dispute; [de_id] is autoincremented. *)
Record DisputeEvent := MkDisputeEvent {
  de_id : Z;
  de_dispute_id : string;
  de_event_type : DisputeEventType.DisputeEventType;
  de_payload : option json;
  de_actor : option string;
}.

(** A cross-period adjustment, unique by its idempotency key. *)
Record FinancialAdjustment := MkFinancialAdjustment {
  fa_id : string;
  fa_kind : FinancialAdjustmentKind.FinancialAdjustmentKind;
  fa_related_entity_type : RelatedEntityType.RelatedEntityType;
  fa_related_entity_id : string;
  fa_operation_id : string;
  fa_amount : Z;
  fa_currency : string;
  fa_status : FinancialAdjustmentStatus.FinancialAdjustmentStatus;
  fa_posting_id : option string;
  fa_effective_date : Z;
  fa_idempotency_key : string;
  fa_updated_at : option Z;
}.

Definition set_fa_status (v : FinancialAdjustmentStatus.FinancialAdjustmentStatus) (r : FinancialAdjustment) : FinancialAdjustment :=
  MkFinancialAdjustment (fa_id r) (fa_kind r) (fa_related_entity_type r)
    (fa_related_entity_id r) (fa_operation_id r) (fa_amount r) (fa_currency r) v
    (fa_posting_id r) (fa_effective_date r) (fa_idempotency_key r) (fa_updated_at r).
Definition set_fa_posting_id (v : option string) (r : FinancialAdjustment) : FinancialAdjustment :=
  MkFinancialAdjustment (fa_id r) (fa_kind r) (fa_related_entity_type r)
    (fa_related_entity_id r) (fa_operation_id r) (fa_amount r) (fa_currency r)
    (fa_status r) v (fa_effective_date r) (fa_idempotency_key r) (fa_updated_at r).
Definition set_fa_updated_at (v : option Z) (r : FinancialAdjustment) : FinancialAdjustment :=
  MkFinancialAdjustment (fa_id r) (fa_kind r) (fa_related_entity_type r)
    (fa_related_entity_id r) (fa_operation_id r) (fa_amount r) (fa_currency r)
    (fa_status r) (fa_posting_id r) (fa_effective_date r) (fa_idempotency_key r) v.

(** ** The internal ledger *)

(** An account of the internal ledger, unique by tenant, client, type and currency. *)
Record InternalLedgerAccount := MkInternalLedgerAccount {
  ila_id : string;
  ila_tenant_id : Z;
  ila_client_id : option string;
  ila_account_type : InternalLedgerAccountType.InternalLedgerAccountType;
  ila_currency : string;
  ila_status : InternalLedgerAccountStatus.InternalLedgerAccountStatus;
}.

(** A transaction of the internal ledger: a link of its tenant's hash chain. *)
Record InternalLedgerTransaction := MkInternalLedgerTransaction {
  ilt_id : string;
  ilt_tenant_id : Z;
  ilt_transaction_type : InternalLedgerTransactionType.InternalLedgerTransactionType;
  ilt_external_ref_type : string;
  ilt_external_ref_id : string;
  ilt_idempotency_key : string;
  ilt_total_amount : option Z;
  ilt_total_debit : Z;
  ilt_total_credit : Z;
  ilt_currency : option string;
  ilt_batch_sequence : Z;
  ilt_previous_batch_hash : string;
  ilt_batch_hash : string;
  ilt_posted_at : option Z;
  ilt_created_at : Z;
  ilt_meta : option json;
}.

Definition set_ilt_total_amount (v : option Z) (r : InternalLedgerTransaction) : InternalLedgerTransaction :=
  MkInternalLedgerTransaction (ilt_id r) (ilt_tenant_id r) (ilt_transaction_type r)
    (ilt_external_ref_type r) (ilt_external_ref_id r) (ilt_idempotency_key r) v
    (ilt_total_debit r) (ilt_total_credit r) (ilt_currency r) (ilt_batch_sequence r)
    (ilt_previous_batch_hash r) (ilt_batch_hash r) (ilt_posted_at r) (ilt_created_at r)
    (ilt_meta r).
Definition set_ilt_total_debit (v : Z) (r : InternalLedgerTransaction) : InternalLedgerTransaction :=
  MkInternalLedgerTransaction (ilt_id r) (ilt_tenant_id r) (ilt_transaction_type r)
    (ilt_external_ref_type r) (ilt_external_ref_id r) (ilt_idempotency_key r)
    (ilt_total_amount r) v (ilt_total_credit r) (ilt_currency r) (ilt_batch_sequence r)
    (ilt_previous_batch_hash r) (ilt_batch_hash r) (ilt_posted_at r) (ilt_created_at r)
    (ilt_meta r).
Definition set_ilt_total_credit (v : Z) (r : InternalLedgerTransaction) : InternalLedgerTransaction :=
  MkInternalLedgerTransaction (ilt_id r) (ilt_tenant_id r) (ilt_transaction_type r)
    (ilt_external_ref_type r) (ilt_external_ref_id r) (ilt_idempotency_key r)
    (ilt_total_amount r) (ilt_total_debit r) v (ilt_currency r) (ilt_batch_sequence r)
    (ilt_previous_batch_hash r) (ilt_batch_hash r) (ilt_posted_at r) (ilt_created_at r)
    (ilt_meta r).
Definition set_ilt_batch_hash (v : string) (r : InternalLedgerTransaction) : InternalLedgerTransaction :=
  MkInternalLedgerTransaction (ilt_id r) (ilt_tenant_id r) (ilt_transaction_type r)
    (ilt_external_ref_type r) (ilt_external_ref_id r) (ilt_idempotency_key r)
    (ilt_total_amount r) (ilt_total_debit r) (ilt_total_credit r) (ilt_currency r)
    (ilt_batch_sequence r) (ilt_previous_batch_hash r) v (ilt_posted_at r)
    (ilt_created_at r) (ilt_meta r).
Definition set_ilt_posted_at (v : option Z) (r : InternalLedgerTransaction) : InternalLedgerTransaction :=
  MkInternalLedgerTransaction (ilt_id r) (ilt_tenant_id r) (ilt_transaction_type r)
    (ilt_external_ref_type r) (ilt_external_ref_id r) (ilt_idempotency_key r)
    (ilt_total_amount r) (ilt_total_debit r) (ilt_total_credit r) (ilt_currency r)
    (ilt_batch_sequence r) (ilt_previous_batch_hash r) (ilt_batch_hash r) v
    (ilt_created_at r) (ilt_meta r).

(** An entry of the internal ledger (append only). *)
Record InternalLedgerEntry := MkInternalLedgerEntry {
  ile_id : string;
  ile_tenant_id : Z;
  ile_ledger_transaction_id : string;
  ile_account_id : string;
  ile_direction : InternalLedgerEntryDirection.InternalLedgerEntryDirection;
  ile_amount : Z;
  ile_currency : string;
  ile_entry_hash : string;
  ile_meta : option json;
}.

(** ** Invoices, billing periods and settlement *)

(** A client invoice; the columns the money code reads or writes. *)
Record Invoice := MkInvoice {
  inv_id : string;
  inv_client_id : string;
  inv_currency : string;
  inv_billing_period_id : option string;
  inv_period_from : Z;
  inv_period_to : Z;
  inv_total_amount : Z;
  inv_tax_amount : Z;
  inv_total_with_tax : Z;
  inv_amount_paid : Z;
  inv_amount_due : Z;
  inv_amount_refunded : Z;
  inv_credited_amount : Z;
  inv_status : InvoiceStatus.InvoiceStatus;
  inv_pdf_status : InvoicePdfStatus.InvoicePdfStatus;
  inv_issued_at : option Z;
  inv_sent_at : option Z;
  inv_paid_at : option Z;
  inv_cancelled_at : option Z;
  inv_credited_at : option Z;
}.

Definition set_inv_amount_paid (v : Z) (r : Invoice) : Invoice :=
  MkInvoice (inv_id r) (inv_client_id r) (inv_currency r) (inv_billing_period_id r)
    (inv_period_from r) (inv_period_to r) (inv_total_amount r) (inv_tax_amount r) (inv_total_with_tax r) v (inv_amount_due r)
    (inv_amount_refunded r) (inv_credited_amount r) (inv_status r) (inv_pdf_status r)
    (inv_issued_at r) (inv_sent_at r) (inv_paid_at r) (inv_cancelled_at r)
    (inv_credited_at r).
Definition set_inv_amount_due (v : Z) (r : Invoice) : Invoice :=
  MkInvoice (inv_id r) (inv_client_id r) (inv_currency r) (inv_billing_period_id r)
    (inv_period_from r) (inv_period_to r) (inv_total_amount r) (inv_tax_amount r) (inv_total_with_tax r) (inv_amount_paid r) v
    (inv_amount_refunded r) (inv_credited_amount r) (inv_status r) (inv_pdf_status r)
    (inv_issued_at r) (inv_sent_at r) (inv_paid_at r) (inv_cancelled_at r)
    (inv_credited_at r).
Definition set_inv_amount_refunded (v : Z) (r : Invoice) : Invoice :=
  MkInvoice (inv_id r) (inv_client_id r) (inv_currency r) (inv_billing_period_id r)
    (inv_period_from r) (inv_period_to r) (inv_total_amount r) (inv_tax_amount r) (inv_total_with_tax r) (inv_amount_paid r)
    (inv_amount_due r) v (inv_credited_amount r) (inv_status r) (inv_pdf_status r)
    (inv_issued_at r) (inv_sent_at r) (inv_paid_at r) (inv_cancelled_at r)
    (inv_credited_at r).
Definition set_inv_credited_amount (v : Z) (r : Invoice) : Invoice :=
  MkInvoice (inv_id r) (inv_client_id r) (inv_currency r) (inv_billing_period_id r)
    (inv_period_from r) (inv_period_to r) (inv_total_amount r) (inv_tax_amount r) (inv_total_with_tax r) (inv_amount_paid r)
    (inv_amount_due r) (inv_amount_refunded r) v (inv_status r) (inv_pdf_status r)
    (inv_issued_at r) (inv_sent_at r) (inv_paid_at r) (inv_cancelled_at r)
    (inv_credited_at r).
Definition set_inv_status (v : InvoiceStatus.InvoiceStatus) (r : Invoice) : Invoice :=
  MkInvoice (inv_id r) (inv_client_id r) (inv_currency r) (inv_billing_period_id r)
    (inv_period_from r) (inv_period_to r) (inv_total_amount r) (inv_tax_amount r) (inv_total_with_tax r) (inv_amount_paid r)
    (inv_amount_due r) (inv_amount_refunded r) (inv_credited_amount r) v (inv_pdf_status
    r) (inv_issued_at r) (inv_sent_at r) (inv_paid_at r) (inv_cancelled_at r)
    (inv_credited_at r).
Definition set_inv_issued_at (v : option Z) (r : Invoice) : Invoice :=
  MkInvoice (inv_id r) (inv_client_id r) (inv_currency r) (inv_billing_period_id r)
    (inv_period_from r) (inv_period_to r) (inv_total_amount r) (inv_tax_amount r) (inv_total_with_tax r) (inv_amount_paid r)
    (inv_amount_due r) (inv_amount_refunded r) (inv_credited_amount r) (inv_status r)
    (inv_pdf_status r) v (inv_sent_at r) (inv_paid_at r) (inv_cancelled_at r)
    (inv_credited_at r).
Definition set_inv_sent_at (v : option Z) (r : Invoice) : Invoice :=
  MkInvoice (inv_id r) (inv_client_id r) (inv_currency r) (inv_billing_period_id r)
    (inv_period_from r) (inv_period_to r) (inv_total_amount r) (inv_tax_amount r) (inv_total_with_tax r) (inv_amount_paid r)
    (inv_amount_due r) (inv_amount_refunded r) (inv_credited_amount r) (inv_status r)
    (inv_pdf_status r) (inv_issued_at r) v (inv_paid_at r) (inv_cancelled_at r)
    (inv_credited_at r).
Definition set_inv_paid_at (v : option Z) (r : Invoice) : Invoice :=
  MkInvoice (inv_id r) (inv_client_id r) (inv_currency r) (inv_billing_period_id r)
    (inv_period_from r) (inv_period_to r) (inv_total_amount r) (inv_tax_amount r) (inv_total_with_tax r) (inv_amount_paid r)
    (inv_amount_due r) (inv_amount_refunded r) (inv_credited_amount r) (inv_status r)
    (inv_pdf_status r) (inv_issued_at r) (inv_sent_at r) v (inv_cancelled_at r)
    (inv_credited_at r).
Definition set_inv_cancelled_at (v : option Z) (r : Invoice) : Invoice :=
  MkInvoice (inv_id r) (inv_client_id r) (inv_currency r) (inv_billing_period_id r)
    (inv_period_from r) (inv_period_to r) (inv_total_amount r) (inv_tax_amount r) (inv_total_with_tax r) (inv_amount_paid r)
    (inv_amount_due r) (inv_amount_refunded r) (inv_credited_amount r) (inv_status r)
    (inv_pdf_status r) (inv_issued_at r) (inv_sent_at r) (inv_paid_at r) v
    (inv_credited_at r).
Definition set_inv_credited_at (v : option Z) (r : Invoice) : Invoice :=
  MkInvoice (inv_id r) (inv_client_id r) (inv_currency r) (inv_billing_period_id r)
    (inv_period_from r) (inv_period_to r) (inv_total_amount r) (inv_tax_amount r) (inv_total_with_tax r) (inv_amount_paid r)
    (inv_amount_due r) (inv_amount_refunded r) (inv_credited_amount r) (inv_status r)
    (inv_pdf_status r) (inv_issued_at r) (inv_sent_at r) (inv_paid_at r)
    (inv_cancelled_at r) v.

(** A line of an invoice; litres are a [Numeric(18,3)], in thousandths. *)
Record InvoiceLine := MkInvoiceLine {
  inl_invoice_id : string;
  inl_product_id : string;
  inl_liters : option Z;
  inl_line_amount : Z;
}.

(** The log of invoice status changes. *)
Record InvoiceTransitionLog := MkInvoiceTransitionLog {
  itl_invoice_id : string;
  itl_from_status : InvoiceStatus.InvoiceStatus;
  itl_to_status : InvoiceStatus.InvoiceStatus;
  itl_actor : string;
  itl_reason : string;
  itl_metadata : option json;
}.

(** A billing period, unique by type and bounds. *)
Record BillingPeriod := MkBillingPeriod {
  bp_id : string;
  bp_period_type : BillingPeriodType.BillingPeriodType;
  bp_start_at : Z;
  bp_end_at : Z;
  bp_tz : string;
  bp_status : BillingPeriodStatus.BillingPeriodStatus;
  bp_finalized_at : option Z;
  bp_locked_at : option Z;
}.

Definition set_bp_status (v : BillingPeriodStatus.BillingPeriodStatus) (r : BillingPeriod) : BillingPeriod :=
  MkBillingPeriod (bp_id r) (bp_period_type r) (bp_start_at r) (bp_end_at r) (bp_tz r) v
    (bp_finalized_at r) (bp_locked_at r).
Definition set_bp_finalized_at (v : option Z) (r : BillingPeriod) : BillingPeriod :=
  MkBillingPeriod (bp_id r) (bp_period_type r) (bp_start_at r) (bp_end_at r) (bp_tz r)
    (bp_status r) v (bp_locked_at r).
Definition set_bp_locked_at (v : option Z) (r : BillingPeriod) : BillingPeriod :=
  MkBillingPeriod (bp_id r) (bp_period_type r) (bp_start_at r) (bp_end_at r) (bp_tz r)
    (bp_status r) (bp_finalized_at r) v.

(** A payment of an invoice, unique by its idempotency key. *)
Record InvoicePayment := MkInvoicePayment {
  pay_id : string;
  pay_invoice_id : string;
  pay_amount : Z;
  pay_currency : string;
  pay_provider : option string;
  pay_external_ref : option string;
  pay_idempotency_key : string;
  pay_response_hash : string;
  pay_status : PaymentStatus.PaymentStatus;
  pay_created_at : Z;
}.

(** A credit note, unique by its idempotency key. *)
Record CreditNote := MkCreditNote {
  cn_id : string;
  cn_invoice_id : string;
  cn_amount : Z;
  cn_currency : string;
  cn_provider : option string;
  cn_external_ref : option string;
  cn_reason : option string;
  cn_idempotency_key : string;
  cn_response_hash : string;
  cn_status : CreditNoteStatus.CreditNoteStatus;
  cn_created_at : Z;
}.

(** The allocation of a payment, credit or refund to a settlement period. *)
Record InvoiceSettlementAllocation := MkInvoiceSettlementAllocation {
  al_id : string;
  al_invoice_id : string;
  al_tenant_id : Z;
  al_client_id : string;
  al_settlement_period_id : string;
  al_source_type : SettlementSourceType.SettlementSourceType;
  al_source_id : string;
  al_amount : Z;
  al_currency : string;
  al_applied_at : Z;
  al_meta : option json;
}.

Definition set_al_meta (v : option json) (r : InvoiceSettlementAllocation) : InvoiceSettlementAllocation :=
  MkInvoiceSettlementAllocation (al_id r) (al_invoice_id r) (al_tenant_id r)
    (al_client_id r) (al_settlement_period_id r) (al_source_type r) (al_source_id r)
    (al_amount r) (al_currency r) (al_applied_at r) v.

(** A run of a billing job. *)
Record BillingJobRun := MkBillingJobRun {
  bj_id : string;
  bj_job_type : BillingJobType.BillingJobType;
  bj_params : option json;
  bj_status : BillingJobStatus.BillingJobStatus;
  bj_started_at : Z;
  bj_finished_at : option Z;
  bj_error : option string;
  bj_metrics : option json;
  bj_duration_ms : option Z;
  bj_correlation_id : option string;
  bj_invoice_id : option string;
  bj_updated_at : option Z;
  bj_result_ref : option json;
}.

Definition set_bj_status (v : BillingJobStatus.BillingJobStatus) (r : BillingJobRun) : BillingJobRun :=
  MkBillingJobRun (bj_id r) (bj_job_type r) (bj_params r) v (bj_started_at r)
    (bj_finished_at r) (bj_error r) (bj_metrics r) (bj_duration_ms r) (bj_correlation_id r)
    (bj_invoice_id r) (bj_updated_at r) (bj_result_ref r).
Definition set_bj_finished_at (v : option Z) (r : BillingJobRun) : BillingJobRun :=
  MkBillingJobRun (bj_id r) (bj_job_type r) (bj_params r) (bj_status r) (bj_started_at r) v
    (bj_error r) (bj_metrics r) (bj_duration_ms r) (bj_correlation_id r) (bj_invoice_id r)
    (bj_updated_at r) (bj_result_ref r).
Definition set_bj_error (v : option string) (r : BillingJobRun) : BillingJobRun :=
  MkBillingJobRun (bj_id r) (bj_job_type r) (bj_params r) (bj_status r) (bj_started_at r)
    (bj_finished_at r) v (bj_metrics r) (bj_duration_ms r) (bj_correlation_id r)
    (bj_invoice_id r) (bj_updated_at r) (bj_result_ref r).
Definition set_bj_metrics (v : option json) (r : BillingJobRun) : BillingJobRun :=
  MkBillingJobRun (bj_id r) (bj_job_type r) (bj_params r) (bj_status r) (bj_started_at r)
    (bj_finished_at r) (bj_error r) v (bj_duration_ms r) (bj_correlation_id r)
    (bj_invoice_id r) (bj_updated_at r) (bj_result_ref r).
Definition set_bj_duration_ms (v : option Z) (r : BillingJobRun) : BillingJobRun :=
  MkBillingJobRun (bj_id r) (bj_job_type r) (bj_params r) (bj_status r) (bj_started_at r)
    (bj_finished_at r) (bj_error r) (bj_metrics r) v (bj_correlation_id r) (bj_invoice_id r)
    (bj_updated_at r) (bj_result_ref r).
Definition set_bj_updated_at (v : option Z) (r : BillingJobRun) : BillingJobRun :=
  MkBillingJobRun (bj_id r) (bj_job_type r) (bj_params r) (bj_status r) (bj_started_at r)
    (bj_finished_at r) (bj_error r) (bj_metrics r) (bj_duration_ms r) (bj_correlation_id r)
    (bj_invoice_id r) v (bj_result_ref r).
Definition set_bj_result_ref (v : option json) (r : BillingJobRun) : BillingJobRun :=
  MkBillingJobRun (bj_id r) (bj_job_type r) (bj_params r) (bj_status r) (bj_started_at r)
    (bj_finished_at r) (bj_error r) (bj_metrics r) (bj_duration_ms r) (bj_correlation_id r)
    (bj_invoice_id r) (bj_updated_at r) v.

(** ** Clearing, settlements and payouts *)

(** The operations of one day of a client, merchant, product and currency. *)
Record BillingSummary := MkBillingSummary {
  sm_id : string;
  sm_billing_date : Z;
  sm_billing_period_id : string;
  sm_client_id : option string;
  sm_merchant_id : string;
  sm_product_type : option string;
  sm_currency : option string;
  sm_total_amount : Z;
  sm_total_quantity : option Z;
  sm_operations_count : Z;
  sm_commission_amount : Z;
  sm_status : BillingSummaryStatus.BillingSummaryStatus;
  sm_generated_at : option Z;
  sm_finalized_at : option Z;
  sm_hash : option string;
}.

Definition set_sm_total_amount (v : Z) (r : BillingSummary) : BillingSummary :=
  MkBillingSummary (sm_id r) (sm_billing_date r) (sm_billing_period_id r)
    (sm_client_id r) (sm_merchant_id r) (sm_product_type r) (sm_currency r) v
    (sm_total_quantity r) (sm_operations_count r) (sm_commission_amount r) (sm_status r)
    (sm_generated_at r) (sm_finalized_at r) (sm_hash r).
Definition set_sm_total_quantity (v : option Z) (r : BillingSummary) : BillingSummary :=
  MkBillingSummary (sm_id r) (sm_billing_date r) (sm_billing_period_id r)
    (sm_client_id r) (sm_merchant_id r) (sm_product_type r) (sm_currency r)
    (sm_total_amount r) v (sm_operations_count r) (sm_commission_amount r) (sm_status r)
    (sm_generated_at r) (sm_finalized_at r) (sm_hash r).
Definition set_sm_operations_count (v : Z) (r : BillingSummary) : BillingSummary :=
  MkBillingSummary (sm_id r) (sm_billing_date r) (sm_billing_period_id r)
    (sm_client_id r) (sm_merchant_id r) (sm_product_type r) (sm_currency r)
    (sm_total_amount r) (sm_total_quantity r) v (sm_commission_amount r) (sm_status r)
    (sm_generated_at r) (sm_finalized_at r) (sm_hash r).
Definition set_sm_commission_amount (v : Z) (r : BillingSummary) : BillingSummary :=
  MkBillingSummary (sm_id r) (sm_billing_date r) (sm_billing_period_id r)
    (sm_client_id r) (sm_merchant_id r) (sm_product_type r) (sm_currency r)
    (sm_total_amount r) (sm_total_quantity r) (sm_operations_count r) v (sm_status r)
    (sm_generated_at r) (sm_finalized_at r) (sm_hash r).
Definition set_sm_status (v : BillingSummaryStatus.BillingSummaryStatus) (r : BillingSummary) : BillingSummary :=
  MkBillingSummary (sm_id r) (sm_billing_date r) (sm_billing_period_id r)
    (sm_client_id r) (sm_merchant_id r) (sm_product_type r) (sm_currency r)
    (sm_total_amount r) (sm_total_quantity r) (sm_operations_count r)
    (sm_commission_amount r) v (sm_generated_at r) (sm_finalized_at r) (sm_hash r).
Definition set_sm_generated_at (v : option Z) (r : BillingSummary) : BillingSummary :=
  MkBillingSummary (sm_id r) (sm_billing_date r) (sm_billing_period_id r)
    (sm_client_id r) (sm_merchant_id r) (sm_product_type r) (sm_currency r)
    (sm_total_amount r) (sm_total_quantity r) (sm_operations_count r)
    (sm_commission_amount r) (sm_status r) v (sm_finalized_at r) (sm_hash r).
Definition set_sm_finalized_at (v : option Z) (r : BillingSummary) : BillingSummary :=
  MkBillingSummary (sm_id r) (sm_billing_date r) (sm_billing_period_id r)
    (sm_client_id r) (sm_merchant_id r) (sm_product_type r) (sm_currency r)
    (sm_total_amount r) (sm_total_quantity r) (sm_operations_count r)
    (sm_commission_amount r) (sm_status r) (sm_generated_at r) v (sm_hash r).
Definition set_sm_hash (v : option string) (r : BillingSummary) : BillingSummary :=
  MkBillingSummary (sm_id r) (sm_billing_date r) (sm_billing_period_id r)
    (sm_client_id r) (sm_merchant_id r) (sm_product_type r) (sm_currency r)
    (sm_total_amount r) (sm_total_quantity r) (sm_operations_count r)
    (sm_commission_amount r) (sm_status r) (sm_generated_at r) (sm_finalized_at r) v.

(** An entry of the details of a clearing. *)
Record ClearingDetail := MkClearingDetail {
  cld_id : string;
  cld_client_id : option string;
  cld_product_type : option string;
  cld_currency : option string;
  cld_total_amount : Z;
  cld_total_quantity : option spec_float;
  cld_operations_count : Z;
  cld_commission_amount : Z;
}.

(** The clearing of a merchant and a currency on a day, unique by these. *)
Record Clearing := MkClearing {
  clr_id : string;
  clr_batch_date : Z;
  clr_merchant_id : string;
  clr_currency : string;
  clr_total_amount : Z;
  clr_status : string;
  clr_details : option (list ClearingDetail);
}.

Definition set_clr_total_amount (v : Z) (r : Clearing) : Clearing :=
  MkClearing (clr_id r) (clr_batch_date r) (clr_merchant_id r) (clr_currency r) v
    (clr_status r) (clr_details r).
Definition set_clr_details (v : option (list ClearingDetail)) (r : Clearing) : Clearing :=
  MkClearing (clr_id r) (clr_batch_date r) (clr_merchant_id r) (clr_currency r)
    (clr_total_amount r) (clr_status r) v.

(** A batch of operations of a merchant; unique by its tenant, when it has one, and dates. *)
Record ClearingBatch := MkClearingBatch {
  clb_id : string;
  clb_merchant_id : string;
  clb_tenant_id : option Z;
  clb_date_from : Z;
  clb_date_to : Z;
  clb_total_amount : Z;
  clb_total_qty : option Z;
  clb_operations_count : Z;
  clb_state : string;
  clb_status : string;
  clb_created_at : Z;
  clb_closed_at : option Z;
}.

Definition set_clb_total_amount (v : Z) (r : ClearingBatch) : ClearingBatch :=
  MkClearingBatch (clb_id r) (clb_merchant_id r) (clb_tenant_id r) (clb_date_from r)
    (clb_date_to r) v (clb_total_qty r) (clb_operations_count r) (clb_state r)
    (clb_status r) (clb_created_at r) (clb_closed_at r).
Definition set_clb_operations_count (v : Z) (r : ClearingBatch) : ClearingBatch :=
  MkClearingBatch (clb_id r) (clb_merchant_id r) (clb_tenant_id r) (clb_date_from r)
    (clb_date_to r) (clb_total_amount r) (clb_total_qty r) v (clb_state r) (clb_status
    r) (clb_created_at r) (clb_closed_at r).
Definition set_clb_status (v : string) (r : ClearingBatch) : ClearingBatch :=
  MkClearingBatch (clb_id r) (clb_merchant_id r) (clb_tenant_id r) (clb_date_from r)
    (clb_date_to r) (clb_total_amount r) (clb_total_qty r) (clb_operations_count r)
    (clb_state r) v (clb_created_at r) (clb_closed_at r).

(** An operation in a clearing batch. *)
Record ClearingBatchOperation := MkClearingBatchOperation {
  clo_id : string;
  clo_batch_id : string;
  clo_operation_id : string;
  clo_amount : Z;
}.

(** The settlement of a clearing, unique by merchant, currency and period. *)
Record Settlement := MkSettlement {
  stl_id : string;
  stl_merchant_id : string;
  stl_partner_id : option string;
  stl_period_from : Z;
  stl_period_to : Z;
  stl_currency : string;
  stl_total_amount : Z;
  stl_commission_amount : Z;
  stl_status : SettlementStatus.SettlementStatus;
}.

Definition set_stl_status (v : SettlementStatus.SettlementStatus) (r : Settlement) : Settlement :=
  MkSettlement (stl_id r) (stl_merchant_id r) (stl_partner_id r) (stl_period_from r)
    (stl_period_to r) (stl_currency r) (stl_total_amount r) (stl_commission_amount r) v.

(** The order to pay a settlement out. *)
Record PayoutOrder := MkPayoutOrder {
  pyo_id : string;
  pyo_settlement_id : string;
  pyo_partner_bank_details_ref : option string;
  pyo_amount : Z;
  pyo_currency : string;
  pyo_status : PayoutOrderStatus.PayoutOrderStatus;
  pyo_provider_ref : option string;
  pyo_error : option string;
}.

Definition set_pyo_status (v : PayoutOrderStatus.PayoutOrderStatus) (r : PayoutOrder) : PayoutOrder :=
  MkPayoutOrder (pyo_id r) (pyo_settlement_id r) (pyo_partner_bank_details_ref r)
    (pyo_amount r) (pyo_currency r) v (pyo_provider_ref r) (pyo_error r).
Definition set_pyo_error (v : option string) (r : PayoutOrder) : PayoutOrder :=
  MkPayoutOrder (pyo_id r) (pyo_settlement_id r) (pyo_partner_bank_details_ref r)
    (pyo_amount r) (pyo_currency r) (pyo_status r) (pyo_provider_ref r) v.

(** An event of a payout order. *)
Record PayoutEvent := MkPayoutEvent {
  pev_id : string;
  pev_payout_order_id : string;
  pev_event_type : string;
  pev_payload : option json;
}.

(** A payout of a partner for some dates; quantities are in thousandths. *)
Record PayoutBatch := MkPayoutBatch {
  pbt_id : string;
  pbt_tenant_id : Z;
  pbt_partner_id : string;
  pbt_date_from : Z;
  pbt_date_to : Z;
  pbt_state : PayoutBatchState.PayoutBatchState;
  pbt_total_amount : decimal;
  pbt_total_qty : Z;
  pbt_operations_count : Z;
  pbt_created_at : Z;
  pbt_sent_at : option Z;
  pbt_settled_at : option Z;
  pbt_provider : option string;
  pbt_external_ref : option string;
  pbt_meta : option json;
}.

Definition set_pbt_state (v : PayoutBatchState.PayoutBatchState) (r : PayoutBatch) : PayoutBatch :=
  MkPayoutBatch (pbt_id r) (pbt_tenant_id r) (pbt_partner_id r) (pbt_date_from r)
    (pbt_date_to r) v (pbt_total_amount r) (pbt_total_qty r) (pbt_operations_count r)
    (pbt_created_at r) (pbt_sent_at r) (pbt_settled_at r) (pbt_provider r)
    (pbt_external_ref r) (pbt_meta r).
Definition set_pbt_sent_at (v : option Z) (r : PayoutBatch) : PayoutBatch :=
  MkPayoutBatch (pbt_id r) (pbt_tenant_id r) (pbt_partner_id r) (pbt_date_from r)
    (pbt_date_to r) (pbt_state r) (pbt_total_amount r) (pbt_total_qty r)
    (pbt_operations_count r) (pbt_created_at r) v (pbt_settled_at r) (pbt_provider r)
    (pbt_external_ref r) (pbt_meta r).
Definition set_pbt_settled_at (v : option Z) (r : PayoutBatch) : PayoutBatch :=
  MkPayoutBatch (pbt_id r) (pbt_tenant_id r) (pbt_partner_id r) (pbt_date_from r)
    (pbt_date_to r) (pbt_state r) (pbt_total_amount r) (pbt_total_qty r)
    (pbt_operations_count r) (pbt_created_at r) (pbt_sent_at r) v (pbt_provider r)
    (pbt_external_ref r) (pbt_meta r).
Definition set_pbt_provider (v : option string) (r : PayoutBatch) : PayoutBatch :=
  MkPayoutBatch (pbt_id r) (pbt_tenant_id r) (pbt_partner_id r) (pbt_date_from r)
    (pbt_date_to r) (pbt_state r) (pbt_total_amount r) (pbt_total_qty r)
    (pbt_operations_count r) (pbt_created_at r) (pbt_sent_at r) (pbt_settled_at r) v
    (pbt_external_ref r) (pbt_meta r).
Definition set_pbt_external_ref (v : option string) (r : PayoutBatch) : PayoutBatch :=
  MkPayoutBatch (pbt_id r) (pbt_tenant_id r) (pbt_partner_id r) (pbt_date_from r)
    (pbt_date_to r) (pbt_state r) (pbt_total_amount r) (pbt_total_qty r)
    (pbt_operations_count r) (pbt_created_at r) (pbt_sent_at r) (pbt_settled_at r)
    (pbt_provider r) v (pbt_meta r).

(** An item of a payout batch. *)
Record PayoutItem := MkPayoutItem {
  pit_id : string;
  pit_batch_id : string;
  pit_amount_gross : decimal;
  pit_commission_amount : decimal;
  pit_amount_net : decimal;
  pit_qty : Z;
  pit_operations_count : Z;
}.

(** ** Money flow *)

(** A fuel transaction; the model keeps the columns the money flow reads. *)
Record FuelTransaction := MkFuelTransaction {
  ft_id : string;
  ft_tenant_id : Z;
  ft_client_id : string;
  ft_occurred_at : Z;
  ft_volume_ml : Z;
  ft_amount_total_minor : Z;
  ft_currency : string;
  ft_status : FuelTransactionStatus.FuelTransactionStatus;
  ft_network_id : string;
  ft_fuel_type : FuelType.FuelType;
  ft_ledger_transaction_id : option string;
}.

(** A state change of a money flow. *)
Record MoneyFlowEvent := MkMoneyFlowEvent {
  mfe_id : string;
  mfe_tenant_id : Z;
  mfe_client_id : string;
  mfe_flow_type : MoneyFlowType.MoneyFlowType;
  mfe_flow_ref_id : string;
  mfe_state_from : option MoneyFlowState.MoneyFlowState;
  mfe_state_to : MoneyFlowState.MoneyFlowState;
  mfe_event_type : MoneyFlowEventType.MoneyFlowEventType;
  mfe_idempotency_key : string;
  mfe_ledger_transaction_id : option string;
  mfe_risk_decision_id : option string;
  mfe_created_at : Z;
  mfe_meta : option json;
}.

(** An edge of the money-flow graph. *)
Record MoneyFlowLink := MkMoneyFlowLink {
  mfl_id : string;
  mfl_tenant_id : Z;
  mfl_client_id : string;
  mfl_src_type : MoneyFlowLinkNodeType.MoneyFlowLinkNodeType;
  mfl_src_id : string;
  mfl_dst_type : MoneyFlowLinkNodeType.MoneyFlowLinkNodeType;
  mfl_dst_id : string;
  mfl_link_type : MoneyFlowLinkType.MoneyFlowLinkType;
  mfl_meta : option json;
}.

(** A snapshot of the invariants around an event. *)
Record MoneyInvariantSnapshot := MkMoneyInvariantSnapshot {
  mis_id : string;
  mis_tenant_id : Z;
  mis_client_id : string;
  mis_flow_type : MoneyFlowType.MoneyFlowType;
  mis_flow_ref_id : string;
  mis_event_id : string;
  mis_phase : MoneyInvariantSnapshotPhase.MoneyInvariantSnapshotPhase;
  mis_snapshot_hash : string;
  mis_snapshot_json : json;
  mis_passed : bool;
  mis_violations : option (list string);
}.

(** ** Risk decisions and subscriptions *)

(** A risk decision; the columns the explanation of a flow shows. *)
Record RiskDecision := MkRiskDecision {
  rd_id : string;
  rd_decision_id : string;
  rd_score : Z;
  rd_outcome : RiskDecisionType.RiskDecisionType;
}.

(** A tariff; the metrics it meters are in its definition. *)
Record CRMTariffPlan := MkCRMTariffPlan {
  crt_id : string;
  crt_definition : option json;
}.

(** A subscription of a client to a tariff. *)
Record CRMSubscription := MkCRMSubscription {
  crs_id : string;
  crs_tenant_id : Z;
  crs_client_id : string;
  crs_tariff_plan_id : string;
}.

(** A charge of a subscription in a billing period. *)
Record CRMSubscriptionCharge := MkCRMSubscriptionCharge {
  crc_id : string;
  crc_subscription_id : string;
  crc_billing_period_id : string;
  crc_charge_key : option string;
}.

(** A part of a billing period in which a subscription does not change. *)
Record CRMSubscriptionPeriodSegment := MkCRMSubscriptionPeriodSegment {
  crg_subscription_id : string;
  crg_billing_period_id : string;
  crg_segment_start : Z;
  crg_segment_end : Z;
}.

(** A feature switched on or off for a client, unique by its three columns. *)
Record CRMFeatureFlag := MkCRMFeatureFlag {
  crf_tenant_id : Z;
  crf_client_id : string;
  crf_feature : CRMFeatureFlagType.CRMFeatureFlagType;
  crf_enabled : bool;
}.

(** ** The audit log *)

(** A record of the audit log: a link of its tenant's hash chain. *)
Record AuditLog := MkAuditLog {
  au_id : string;
  au_ts : Z;
  au_tenant_id : option Z;
  au_actor_type : ActorType.ActorType;
  au_actor_id : option string;
  au_actor_email : option string;
  au_actor_roles : option (list string);
  au_ip : option string;
  au_user_agent : option string;
  au_request_id : option string;
  au_trace_id : option string;
  au_event_type : string;
  au_entity_type : string;
  au_entity_id : string;
  au_action : string;
  au_visibility : AuditVisibility.AuditVisibility;
  au_before : option json;
  au_after : option json;
  au_diff : option json;
  au_external_refs : option json;
  au_reason : option string;
  au_attachment_key : option string;
  au_prev_hash : string;
  au_hash : string;
}.

(** ** The parties of a card operation and the limit rules *)

Record Client := MkClient { cl_id : string; cl_status : string }.

Record Card := MkCard { ca_id : string; ca_client_id : string; ca_status : string }.

Record Terminal := MkTerminal { te_id : string; te_merchant_id : string; te_status : string }.

Record Merchant := MkMerchant { me_id : string; me_status : string }.

(** A limit rule: a row of [limits_rules]. *)
Record LimitRule := MkLimitRule {
  lr_id : Z;
  lr_phase : string;
  lr_scope : LimitScope.LimitScope;
  lr_product_type : option FuelProductType.FuelProductType;
  lr_client_id : option string;
  lr_card_id : option string;
  lr_merchant_id : option string;
  lr_terminal_id : option string;
  lr_client_group_id : option string;
  lr_card_group_id : option string;
  lr_product_category : option string;
  lr_mcc : option string;
  lr_tx_type : option string;
  lr_max_amount : option Z;
  lr_daily_limit : option Z;
  lr_limit_per_tx : option Z;
  lr_active : bool;
}.

(** ** The database *)

Record PostingTables := MkPostingTables {
  accounts : list Account;
  balances : gmap Z AccountBalance;
  ledger_entries : list LedgerEntry;
  posting_batches : list PostingBatch;
}.

Record ScenarioTables := MkScenarioTables {
  operations : list Operation;
  refund_requests : list RefundRequest;
  reversals : list Reversal;
  disputes : list Dispute;
  dispute_events : list DisputeEvent;
  adjustments : list FinancialAdjustment;
}.

Record InternalTables := MkInternalTables {
  il_accounts : list InternalLedgerAccount;
  il_transactions : list InternalLedgerTransaction;
  il_entries : list InternalLedgerEntry;
}.

Record BillingTables := MkBillingTables {
  invoices : list Invoice;
  invoice_lines : list InvoiceLine;
  transition_logs : list InvoiceTransitionLog;
  billing_periods : list BillingPeriod;
  payments : list InvoicePayment;
  credit_notes : list CreditNote;
  allocations : list InvoiceSettlementAllocation;
  job_runs : list BillingJobRun;
}.

Record FlowTables := MkFlowTables {
  flow_events : list MoneyFlowEvent;
  flow_links : list MoneyFlowLink;
  snapshots : list MoneyInvariantSnapshot;
  fuel_transactions : list FuelTransaction;
}.

Record CrmTables := MkCrmTables {
  risk_decisions : list RiskDecision;
  tariff_plans : list CRMTariffPlan;
  subscriptions : list CRMSubscription;
  subscription_charges : list CRMSubscriptionCharge;
  period_segments : list CRMSubscriptionPeriodSegment;
  feature_flags : list CRMFeatureFlag;
}.

(** What an authorisation reads: the parties, the limit rules and the contractual limits. *)
Record CardTables := MkCardTables {
  clients : list Client;
  card_rows : list Card;
  terminals : list Terminal;
  merchants : list Merchant;
  limits_rules : list LimitRule;
  limit_configs : list LimitConfig;
}.

(** What is settled with the merchants and the partners. *)
Record SettleTables := MkSettleTables {
  billing_summaries : list BillingSummary;
  clearings : list Clearing;
  clearing_batches : list ClearingBatch;
  clearing_batch_operations : list ClearingBatchOperation;
  settlements : list Settlement;
  payout_orders : list PayoutOrder;
  payout_events : list PayoutEvent;
  payout_batches : list PayoutBatch;
  payout_items : list PayoutItem;
}.

Record AuditTables := MkAuditTables {
  audit_log : list AuditLog;
}.

Record Db := MkDb {
  posting : PostingTables;
  scenario : ScenarioTables;
  internal : InternalTables;
  billing : BillingTables;
  flow : FlowTables;
  crm : CrmTables;
  cards : CardTables;
  settle : SettleTables;
  audit : AuditTables;
}.

Definition empty_db : Db := {|
  posting := {| accounts := []; balances := ∅; ledger_entries := []; posting_batches := [] |};
  scenario := {| operations := []; refund_requests := []; reversals := []; disputes := []; dispute_events := []; adjustments := [] |};
  internal := {| il_accounts := []; il_transactions := []; il_entries := [] |};
  billing := {| invoices := []; invoice_lines := []; transition_logs := []; billing_periods := []; payments := []; credit_notes := []; allocations := []; job_runs := [] |};
  flow := {| flow_events := []; flow_links := []; snapshots := []; fuel_transactions := [] |};
  crm := {| risk_decisions := []; tariff_plans := []; subscriptions := []; subscription_charges := []; period_segments := []; feature_flags := [] |};
  cards := {| clients := []; card_rows := []; terminals := []; merchants := []; limits_rules := []; limit_configs := [] |};
  settle := {| billing_summaries := []; clearings := []; clearing_batches := []; clearing_batch_operations := []; settlements := []; payout_orders := []; payout_events := []; payout_batches := []; payout_items := [] |};
  audit := {| audit_log := [] |}
|}.

(** Updating one table. *)

Definition on_posting (f : PostingTables -> PostingTables) (d : Db) : Db :=
  MkDb (f (posting d)) (scenario d) (internal d) (billing d) (flow d) (crm d) (cards d) (settle d) (audit d).
Definition on_accounts (f : list Account -> list Account) : Db -> Db :=
  on_posting (fun t =>
    MkPostingTables (f (accounts t)) (balances t) (ledger_entries t) (posting_batches t)).
Definition on_balances (f : gmap Z AccountBalance -> gmap Z AccountBalance) : Db -> Db :=
  on_posting (fun t =>
    MkPostingTables (accounts t) (f (balances t)) (ledger_entries t) (posting_batches t)).
Definition on_ledger_entries (f : list LedgerEntry -> list LedgerEntry) : Db -> Db :=
  on_posting (fun t =>
    MkPostingTables (accounts t) (balances t) (f (ledger_entries t)) (posting_batches t)).
Definition on_posting_batches (f : list PostingBatch -> list PostingBatch) : Db -> Db :=
  on_posting (fun t =>
    MkPostingTables (accounts t) (balances t) (ledger_entries t) (f (posting_batches t))).

Definition on_scenario (f : ScenarioTables -> ScenarioTables) (d : Db) : Db :=
  MkDb (posting d) (f (scenario d)) (internal d) (billing d) (flow d) (crm d) (cards d) (settle d) (audit d).
Definition on_operations (f : list Operation -> list Operation) : Db -> Db :=
  on_scenario (fun t =>
    MkScenarioTables (f (operations t)) (refund_requests t) (reversals t) (disputes t)
    (dispute_events t) (adjustments t)).
Definition on_refund_requests (f : list RefundRequest -> list RefundRequest) : Db -> Db :=
  on_scenario (fun t =>
    MkScenarioTables (operations t) (f (refund_requests t)) (reversals t) (disputes t)
    (dispute_events t) (adjustments t)).
Definition on_reversals (f : list Reversal -> list Reversal) : Db -> Db :=
  on_scenario (fun t =>
    MkScenarioTables (operations t) (refund_requests t) (f (reversals t)) (disputes t)
    (dispute_events t) (adjustments t)).
Definition on_disputes (f : list Dispute -> list Dispute) : Db -> Db :=
  on_scenario (fun t =>
    MkScenarioTables (operations t) (refund_requests t) (reversals t) (f (disputes t))
    (dispute_events t) (adjustments t)).
Definition on_dispute_events (f : list DisputeEvent -> list DisputeEvent) : Db -> Db :=
  on_scenario (fun t =>
    MkScenarioTables (operations t) (refund_requests t) (reversals t) (disputes t) (f
    (dispute_events t)) (adjustments t)).
Definition on_adjustments (f : list FinancialAdjustment -> list FinancialAdjustment) : Db -> Db :=
  on_scenario (fun t =>
    MkScenarioTables (operations t) (refund_requests t) (reversals t) (disputes t)
    (dispute_events t) (f (adjustments t))).

Definition on_internal (f : InternalTables -> InternalTables) (d : Db) : Db :=
  MkDb (posting d) (scenario d) (f (internal d)) (billing d) (flow d) (crm d) (cards d) (settle d) (audit d).
Definition on_il_accounts (f : list InternalLedgerAccount -> list InternalLedgerAccount) : Db -> Db :=
  on_internal (fun t =>
    MkInternalTables (f (il_accounts t)) (il_transactions t) (il_entries t)).
Definition on_il_transactions (f : list InternalLedgerTransaction -> list InternalLedgerTransaction) : Db -> Db :=
  on_internal (fun t =>
    MkInternalTables (il_accounts t) (f (il_transactions t)) (il_entries t)).
Definition on_il_entries (f : list InternalLedgerEntry -> list InternalLedgerEntry) : Db -> Db :=
  on_internal (fun t =>
    MkInternalTables (il_accounts t) (il_transactions t) (f (il_entries t))).

Definition on_billing (f : BillingTables -> BillingTables) (d : Db) : Db :=
  MkDb (posting d) (scenario d) (internal d) (f (billing d)) (flow d) (crm d) (cards d) (settle d) (audit d).
Definition on_invoices (f : list Invoice -> list Invoice) : Db -> Db :=
  on_billing (fun t =>
    MkBillingTables (f (invoices t)) (invoice_lines t) (transition_logs t)
    (billing_periods t) (payments t) (credit_notes t) (allocations t) (job_runs t)).
Definition on_invoice_lines (f : list InvoiceLine -> list InvoiceLine) : Db -> Db :=
  on_billing (fun t =>
    MkBillingTables (invoices t) (f (invoice_lines t)) (transition_logs t)
    (billing_periods t) (payments t) (credit_notes t) (allocations t) (job_runs t)).
Definition on_transition_logs (f : list InvoiceTransitionLog -> list InvoiceTransitionLog) : Db -> Db :=
  on_billing (fun t =>
    MkBillingTables (invoices t) (invoice_lines t) (f (transition_logs t))
    (billing_periods t) (payments t) (credit_notes t) (allocations t) (job_runs t)).
Definition on_billing_periods (f : list BillingPeriod -> list BillingPeriod) : Db -> Db :=
  on_billing (fun t =>
    MkBillingTables (invoices t) (invoice_lines t) (transition_logs t) (f (billing_periods
    t)) (payments t) (credit_notes t) (allocations t) (job_runs t)).
Definition on_payments (f : list InvoicePayment -> list InvoicePayment) : Db -> Db :=
  on_billing (fun t =>
    MkBillingTables (invoices t) (invoice_lines t) (transition_logs t) (billing_periods t)
    (f (payments t)) (credit_notes t) (allocations t) (job_runs t)).
Definition on_credit_notes (f : list CreditNote -> list CreditNote) : Db -> Db :=
  on_billing (fun t =>
    MkBillingTables (invoices t) (invoice_lines t) (transition_logs t) (billing_periods t)
    (payments t) (f (credit_notes t)) (allocations t) (job_runs t)).
Definition on_allocations (f : list InvoiceSettlementAllocation -> list InvoiceSettlementAllocation) : Db -> Db :=
  on_billing (fun t =>
    MkBillingTables (invoices t) (invoice_lines t) (transition_logs t) (billing_periods t)
    (payments t) (credit_notes t) (f (allocations t)) (job_runs t)).

Definition on_job_runs (f : list BillingJobRun -> list BillingJobRun) : Db -> Db :=
  on_billing (fun t =>
    MkBillingTables (invoices t) (invoice_lines t) (transition_logs t) (billing_periods t)
    (payments t) (credit_notes t) (allocations t) (f (job_runs t))).

Definition on_flow (f : FlowTables -> FlowTables) (d : Db) : Db :=
  MkDb (posting d) (scenario d) (internal d) (billing d) (f (flow d)) (crm d) (cards d) (settle d) (audit d).
Definition on_flow_events (f : list MoneyFlowEvent -> list MoneyFlowEvent) : Db -> Db :=
  on_flow (fun t =>
    MkFlowTables (f (flow_events t)) (flow_links t) (snapshots t) (fuel_transactions t)).
Definition on_flow_links (f : list MoneyFlowLink -> list MoneyFlowLink) : Db -> Db :=
  on_flow (fun t =>
    MkFlowTables (flow_events t) (f (flow_links t)) (snapshots t) (fuel_transactions t)).
Definition on_snapshots (f : list MoneyInvariantSnapshot -> list MoneyInvariantSnapshot) : Db -> Db :=
  on_flow (fun t =>
    MkFlowTables (flow_events t) (flow_links t) (f (snapshots t)) (fuel_transactions t)).

Definition on_fuel_transactions (f : list FuelTransaction -> list FuelTransaction) : Db -> Db :=
  on_flow (fun t =>
    MkFlowTables (flow_events t) (flow_links t) (snapshots t) (f (fuel_transactions t))).

Definition on_crm (f : CrmTables -> CrmTables) (d : Db) : Db :=
  MkDb (posting d) (scenario d) (internal d) (billing d) (flow d) (f (crm d)) (cards d) (settle d) (audit d).

Definition on_settle (f : SettleTables -> SettleTables) (d : Db) : Db :=
  MkDb (posting d) (scenario d) (internal d) (billing d) (flow d) (crm d) (cards d) (f (settle d)) (audit d).
Definition on_billing_summaries (f : list BillingSummary -> list BillingSummary) : Db -> Db :=
  on_settle (fun t =>
    MkSettleTables (f (billing_summaries t)) (clearings t) (clearing_batches t)
    (clearing_batch_operations t) (settlements t) (payout_orders t) (payout_events t)
    (payout_batches t) (payout_items t)).
Definition on_clearings (f : list Clearing -> list Clearing) : Db -> Db :=
  on_settle (fun t =>
    MkSettleTables (billing_summaries t) (f (clearings t)) (clearing_batches t)
    (clearing_batch_operations t) (settlements t) (payout_orders t) (payout_events t)
    (payout_batches t) (payout_items t)).
Definition on_clearing_batches (f : list ClearingBatch -> list ClearingBatch) : Db -> Db :=
  on_settle (fun t =>
    MkSettleTables (billing_summaries t) (clearings t) (f (clearing_batches t))
    (clearing_batch_operations t) (settlements t) (payout_orders t) (payout_events t)
    (payout_batches t) (payout_items t)).
Definition on_clearing_batch_operations (f : list ClearingBatchOperation -> list ClearingBatchOperation) : Db -> Db :=
  on_settle (fun t =>
    MkSettleTables (billing_summaries t) (clearings t) (clearing_batches t) (f
    (clearing_batch_operations t)) (settlements t) (payout_orders t) (payout_events t)
    (payout_batches t) (payout_items t)).
Definition on_settlements (f : list Settlement -> list Settlement) : Db -> Db :=
  on_settle (fun t =>
    MkSettleTables (billing_summaries t) (clearings t) (clearing_batches t)
    (clearing_batch_operations t) (f (settlements t)) (payout_orders t) (payout_events
    t) (payout_batches t) (payout_items t)).
Definition on_payout_orders (f : list PayoutOrder -> list PayoutOrder) : Db -> Db :=
  on_settle (fun t =>
    MkSettleTables (billing_summaries t) (clearings t) (clearing_batches t)
    (clearing_batch_operations t) (settlements t) (f (payout_orders t)) (payout_events
    t) (payout_batches t) (payout_items t)).
Definition on_payout_events (f : list PayoutEvent -> list PayoutEvent) : Db -> Db :=
  on_settle (fun t =>
    MkSettleTables (billing_summaries t) (clearings t) (clearing_batches t)
    (clearing_batch_operations t) (settlements t) (payout_orders t) (f (payout_events
    t)) (payout_batches t) (payout_items t)).
Definition on_payout_batches (f : list PayoutBatch -> list PayoutBatch) : Db -> Db :=
  on_settle (fun t =>
    MkSettleTables (billing_summaries t) (clearings t) (clearing_batches t)
    (clearing_batch_operations t) (settlements t) (payout_orders t) (payout_events t) (f
    (payout_batches t)) (payout_items t)).
Definition on_payout_items (f : list PayoutItem -> list PayoutItem) : Db -> Db :=
  on_settle (fun t =>
    MkSettleTables (billing_summaries t) (clearings t) (clearing_batches t)
    (clearing_batch_operations t) (settlements t) (payout_orders t) (payout_events t)
    (payout_batches t) (f (payout_items t))).

Definition on_audit (f : AuditTables -> AuditTables) (d : Db) : Db :=
  MkDb (posting d) (scenario d) (internal d) (billing d) (flow d) (crm d) (cards d) (settle d) (f (audit d)).
Definition on_audit_log (f : list AuditLog -> list AuditLog) : Db -> Db :=
  on_audit (fun t =>
    MkAuditTables (f (audit_log t))).

(** ** Exceptions

    The exception classes of the modelled code, with the values their messages
    show in place of the message text. *)

(** [InvariantViolation] of services/finance_invariants/rules.py *)
Record InvariantViolation := MkInvariantViolation {
  viol_name : string;
  viol_expected : json;
  viol_actual : json;
}.

(** [FinancialInvariantViolation] of services/finance_invariants/errors.py *)
Record FinancialInvariantViolation := MkFinancialInvariantViolation {
  fiv_entity_type : string;
  fiv_entity_id : string;
  fiv_invariant_name : string;
  fiv_expected : json;
  fiv_actual : json;
  fiv_ledger_transaction_id : option string;
  fiv_violations : option (list InvariantViolation);
  fiv_context : option dict;
}.

Inductive exn : Type :=
| ValueError (message : string)
| TypeError
| MultipleResultsFound
| NoResultFound
| IntegrityError (constraint : string)
| PendingRollbackError
| OperationNotFound (operation_id : string)
| FinancialViolation (v : FinancialInvariantViolation)
| PostingInvariantError (v : FinancialInvariantViolation)
| RefundAmountInvalid
| RefundCapExceeded (amount remaining : Z)
| ReversalAlreadyExists (operation_id : string)
| DisputeStateError (action : string) (status : DisputeStatus.DisputeStatus)
| InvalidTransitionError (message : string)
| InvoiceInvariantError (message : string)
| MoneyFlowTransitionError (message : string)
| MoneyFlowNotFound (message : string)
| UnsupportedPostingType
| KeyError (key : string)
| BillingPeriodConflict (message : string)
| PolicyAccessDenied (policy reason : string)
| FinanceOperationInProgress (key : string)
| InvoiceNotFound (invoice_id : string)
| PaymentReferenceConflict (reference : string)
| PaymentIdempotencyConflict (field : string)
| RefundReferenceConflict (reference : string)
| InvalidOperationState (code : string) (message : option string)
| AmountExceeded (code : string)
| PostingFailed (message : string)
| ParentNotFound (operation_id : string)
| InvalidState (message : string)
| AmountTooLarge (message : string)
| StatementError (column : string)
| RuntimeError (message : string)
| AttributeError (name : string)
| SettlementError (message : string)
| PayoutError (message : string)
| PayoutConflictError (message : string)
| ClearingRunInProgress (key : string)
| HTTPException (status_code : Z) (detail : string)
| HTTPFrom (status_code : Z) (cause : exn).

(** ** Queries *)

Abbreviation PM := (M exn Db).

Section Queries.
Context {A : Type}.

(** [query.filter(P).first()] *)
Definition q_first (table : Db -> list A) (P : A -> bool) : PM (option A) :=
  gets (fun d => head (List.filter P (table d))).

(** [query.filter(P).all()] *)
Definition q_all (table : Db -> list A) (P : A -> bool) : PM (list A) :=
  gets (fun d => List.filter P (table d)).

(** [query.filter(P).one_or_none()] *)
Definition q_one_or_none (table : Db -> list A) (P : A -> bool) : PM (option A) :=
  rows ← q_all table P;
  match rows with
  | [] => mret None
  | [r] => mret (Some r)
  | _ => raise MultipleResultsFound
  end.

(** [query.filter(P).one()] *)
Definition q_one (table : Db -> list A) (P : A -> bool) : PM A :=
  r ← q_one_or_none table P;
  match r with Some a => mret a | None => raise NoResultFound end.
End Queries.

(** The flush of a new row: it must not clash with a row of the table. *)
Definition insert_row {A} (table : Db -> list A) (on_table : (list A -> list A) -> Db -> Db)
    (clash : A -> A -> bool) (constraint : string) (row : A) : PM A :=
  same ← q_first table (clash row);
  match same with
  | Some _ => raise (IntegrityError constraint)
  | None => modify (on_table (fun l => l ++ [row]));; mret row
  end.

(** The rows of [P] with [f] applied to them. *)
Definition update_where {A} (P : A -> bool) (f : A -> A) (l : list A) : list A :=
  map (fun r => if P r then f r else r) l.

(** The next value of an autoincremented column (rows are never deleted). *)
Definition next_id {A} (l : list A) : Z := Z.of_nat (length l) + 1.

(** [a == b] on the values of the model. *)
Definition eqb {A} `{EqDecision A} (a b : A) : bool := bool_decide (a = b).
Notation "a =? b" := (eqb a b) : py_scope.
Notation "a <>? b" := (negb (eqb a b)) (at level 70) : py_scope.

(** A sum over the groups of a key is the sum over the rows whose key is listed. *)
Lemma sum_by_group {A K} `{EqDecision K} (key : A -> K) (f : A -> Z) ks l :
  List.NoDup ks ->
  sum_of (fun k => sum_of f (List.filter (fun a => (key a =? k)%py) l)) ks =
  sum_of f (List.filter (fun a => bool_decide (key a ∈ ks)) l).
Proof.
  intros Hn. induction l as [|a l IH]; simpl; [by apply sum_of_zero, List.Forall_forall|].
  transitivity (sum_of (fun k => (if decide (key a = k) then f a else 0) +
    sum_of f (List.filter (fun a => (key a =? k)%py) l)) ks).
  { apply sum_of_ext, List.Forall_forall. intros k _. unfold eqb.
    destruct (decide (key a = k)); [rewrite bool_decide_true by done|rewrite bool_decide_false by done]; done. }
  assert (forall (g h : K -> Z) l', sum_of (fun k => g k + h k) l' = sum_of g l' + sum_of h l') as Hadd.
  { intros g h l'. induction l' as [|x l' IH']; simpl; lia. }
  rewrite Hadd, IH. clear IH Hadd.
  assert (sum_of (fun k => if decide (key a = k) then f a else 0) ks = if bool_decide (key a ∈ ks) then f a else 0) as ->.
  { induction ks as [|k ks IH]; [by rewrite bool_decide_false by set_solver|].
    apply List.NoDup_cons_iff in Hn as [Hk Hn]. simpl. rewrite IH by done. destruct (decide (key a = k)) as [->|].
    - rewrite bool_decide_false, bool_decide_true by (rewrite ?list_elem_of_In; set_solver). lia.
    - rewrite (bool_decide_ext (key a ∈ k :: ks) (key a ∈ ks)); [done|]. set_solver. }
  destruct (bool_decide _); simpl; lia.
Qed.

(** The rows grouped by a key, those groups that count. *)
Lemma sum_of_groups {A K} `{EqDecision K} (key : A -> K) (f : A -> Z) (P : K -> bool) ks l :
  List.NoDup ks -> (forall a, In a l -> In (key a) ks) ->
  sum_of (fun k => if P k then sum_of f (List.filter (fun a => (key a =? k)%py) l) else 0) ks =
  sum_of (fun a => if P (key a) then f a else 0) l.
Proof.
  intros Hn Hk. transitivity (sum_of (fun k => sum_of (fun a => if P (key a) then f a else 0)
    (List.filter (fun a => (key a =? k)%py) l)) ks).
  { apply sum_of_ext, List.Forall_forall. intros k _. rewrite !sum_of_filter. destruct (P k) eqn:HP.
    - apply sum_of_ext, List.Forall_forall. intros a _. unfold eqb.
      destruct (bool_decide_reflect (key a = k)) as [->|]; [by rewrite HP|done].
    - symmetry. apply sum_of_zero, List.Forall_forall. intros a _. unfold eqb.
      destruct (bool_decide_reflect (key a = k)) as [->|]; [by rewrite HP|done]. }
  rewrite sum_by_group by done. f_equal. apply filter_all, List.Forall_forall. intros a Ha.
  apply bool_decide_eq_true, list_elem_of_In. by apply Hk.
Qed.

(** A concrete environment, for examples and witnesses: a clock that ticks every
    second, numbered identifiers, a digest that only tags its input, and no other
    session. *)
Definition demo_world : world Db := {|
  clock := fun n => 1000000 * Z.of_nat n;
  new_uuid := fun n => "id-" +:+ print_int (Z.of_nat n);
  sha256_hex := fun s => "h:" +:+ s;
  rivals := fun _ d => d;
|}.

Lemma demo_uuids_distinct n m : new_uuid demo_world n = new_uuid demo_world m -> n = m.
Proof.
  simpl. intros H. injection H as H. apply print_int_inj in H. lia.
Qed.

(** ** Tables with an autoincremented column *)

(** The rows of [l] carry 1, 2, ... in [f]. *)
Definition numbered {A} (f : A -> Z) (l : list A) : Prop :=
  map f l = seqZ 1 (Z.of_nat (length l)).

Lemma numbered_nil {A} (f : A -> Z) : numbered f [].
Proof. done. Qed.

Lemma numbered_snoc {A} (f : A -> Z) l a :
  numbered f l -> f a = next_id l -> numbered f (l ++ [a]).
Proof.
  unfold numbered, next_id. intros Hl Ha. rewrite map_app, Hl, length_app. simpl.
  rewrite Nat2Z.inj_add, seqZ_app by lia. simpl. f_equal. rewrite Ha.
  unfold seqZ. simpl. f_equal. lia.
Qed.

Lemma numbered_sorted {A} (f : A -> Z) l : numbered f l -> StronglySorted (lt_on f) l.
Proof.
  induction l as [|a l IH] using rev_ind; intros Hl; [constructor|].
  unfold numbered in Hl. rewrite map_app, length_app in Hl. simpl in Hl.
  rewrite Nat2Z.inj_add, seqZ_app in Hl by lia. simpl in Hl.
  apply app_inj_tail in Hl as [Hl Ha].
  apply StronglySorted_snoc; [by apply IH|]. apply List.Forall_forall. intros x Hx.
  apply (in_map f) in Hx. rewrite Hl in Hx. apply list_elem_of_In, elem_of_seqZ in Hx.
  unfold lt_on. lia.
Qed.

(** ** Queries and rows *)

Lemma keeps_one_or_none {A} (I : Db -> Prop) (table : Db -> list A) P :
  keeps I (q_one_or_none table P).
Proof.
  unfold q_one_or_none, q_all. apply keeps_bind; [apply keeps_gets|].
  intros [|x [|y l]]; [apply keeps_ret|apply keeps_ret|apply keeps_raise].
Qed.

Lemma one_or_none_nil {A} (table : Db -> list A) P s :
  List.filter P (table (live s)) = [] -> q_one_or_none table P s = (Ok None, s).
Proof. intros H. unfold q_one_or_none, q_all. run_steps. by rewrite H. Qed.

(** Several rows are an error. *)
Lemma one_or_none_some {A} (table : Db -> list A) P s r :
  List.filter P (table (live s)) = [r] -> q_one_or_none table P s = (Ok (Some r), s).
Proof. intros H. unfold q_one_or_none, q_all. run_steps. by rewrite H. Qed.

Lemma one_or_none_run {A} (table : Db -> list A) P (s : session Db) :
  q_one_or_none table P s =
    (match List.filter P (table (live s)) with
     | [] => Ok None
     | [r] => Ok (Some r)
     | _ => Raise MultipleResultsFound
     end, s).
Proof. unfold q_one_or_none, q_all. run_steps. by destruct (List.filter _ _) as [|? [|? ?]]. Qed.

Lemma update_fresh {A} (P : A -> bool) f (l : list A) x :
  Forall (fun r => P r = false) l -> P x = true -> update_where P f (l ++ [x]) = l ++ [f x].
Proof.
  intros Hl Hx. unfold update_where. rewrite map_app. simpl. rewrite Hx. f_equal.
  induction Hl as [|y l Hy Hl IH]; simpl; [done|]. by rewrite Hy, IH.
Qed.

(** At most one row satisfies a predicate that identifies it. *)
Lemma filter_unique {A B} (f : A -> B) (P : A -> bool) l :
  List.NoDup (map f l) ->
  (forall a b, In a l -> In b l -> P a = true -> P b = true -> a = b) ->
  List.filter P l = [] \/ exists a, List.filter P l = [a] /\ In a l /\ P a = true.
Proof.
  induction l as [|x l IH]; intros Hn Hu; [by left|]. simpl in *.
  apply List.NoDup_cons_iff in Hn as [Hx Hn].
  destruct IH as [IH|(a & IH & Ha & HP)]; [done|intros; apply Hu; auto| |];
    destruct (P x) eqn:HPx; rewrite IH.
  - right. exists x. auto.
  - by left.
  - destruct Hx. rewrite (Hu x a); auto. by apply in_map.
  - right. exists a. auto.
Qed.

(** The row of a key. *)
Lemma filter_key {A B} `{EqDecision B} (f : A -> B) l a :
  List.NoDup (map f l) -> In a l -> List.filter (fun r => (f r =? f a)%py) l = [a].
Proof.
  intros Hn Ha. destruct (filter_unique f (fun r => (f r =? f a)%py) l Hn) as [H|(b & -> & Hb & HP)].
  - intros x y Hx Hy Ex%bool_decide_eq_true Ey%bool_decide_eq_true.
    apply (nodup_key f l); [done..|congruence].
  - exfalso. assert (In a (List.filter (fun r => (f r =? f a)%py) l)) as Hin
      by (apply filter_In; split; [done|by apply bool_decide_eq_true]).
    by rewrite H in Hin.
  - apply bool_decide_eq_true in HP. by rewrite (nodup_key f l b a).
Qed.

Lemma filter_no_key {A B} `{EqDecision B} (f : A -> B) l k :
  ~ In k (map f l) -> List.filter (fun r => (f r =? k)%py) l = [].
Proof.
  intros Hk. apply filter_none, List.Forall_forall. intros x Hx. apply bool_decide_eq_false.
  intros <-. by apply Hk, in_map.
Qed.

(** A lookup by a key finds nothing or the row. *)
Lemma filter_key_cases {A B} `{EqDecision B} (f : A -> B) k l :
  List.NoDup (map f l) ->
  List.filter (fun a => (f a =? k)%py) l = [] \/
  exists a, List.filter (fun a => (f a =? k)%py) l = [a] /\ In a l /\ f a = k.
Proof.
  intros Hn. destruct (filter_unique f (fun a => (f a =? k)%py) l Hn) as [H|(a & -> & Ha & Hk)].
  - intros x y Hx Hy Ex%bool_decide_eq_true Ey%bool_decide_eq_true.
    apply (nodup_key f l); [done..|congruence].
  - by left.
  - right. exists a. apply bool_decide_eq_true in Hk. auto.
Qed.

(** ** Changing the row of a key *)
Section UpdateKey.
Context {A B : Type} `{EqDecision B} (key : A -> B) (x : A) (f : A -> A).

Definition update_row (l : list A) : list A := update_where (fun o => (key o =? key x)%py) f l.

Context (l : list A).
Hypothesis unique : List.NoDup (map key l).
Hypothesis present : In x l.

Lemma update_row_in o : In o (update_row l) <-> o = f x \/ (In o l /\ key o <> key x).
Proof.
  unfold update_row, update_where. rewrite in_map_iff. split.
  - intros (y & <- & Hy). destruct (bool_decide_reflect (key y = key x)) as [E|E]; unfold eqb.
    + rewrite (bool_decide_eq_true_2 _ E). left. by rewrite (nodup_key key l y x).
    + rewrite (bool_decide_eq_false_2 _ E). by right.
  - intros [->|[Ho E]].
    + exists x. split; [|done]. unfold eqb. by rewrite bool_decide_eq_true_2.
    + exists o. split; [|done]. unfold eqb. by rewrite bool_decide_eq_false_2.
Qed.

(** A column the change leaves alone. *)
Lemma update_row_column {C} (g : A -> C) : g (f x) = g x -> map g (update_row l) = map g l.
Proof.
  intros Hg. unfold update_row, update_where. rewrite map_map. apply map_ext_in. intros y Hy.
  unfold eqb. destruct (bool_decide_reflect (key y = key x)) as [E|E]; [|done].
  by rewrite (nodup_key key l y x).
Qed.

(** A filter on columns the change leaves alone. *)
Lemma update_row_filter (P : A -> bool) : P (f x) = P x -> List.filter P (update_row l) = update_row (List.filter P l).
Proof.
  intros HP. unfold update_row, update_where.
  assert (forall l', (forall y, In y l' -> In y l) ->
    List.filter P (map (fun r => if (key r =? key x)%py then f r else r) l') =
    map (fun r => if (key r =? key x)%py then f r else r) (List.filter P l')) as H; [|by apply H].
  induction l' as [|y l' IH]; intros Hl; [done|]. simpl.
  assert (P (if (key y =? key x)%py then f y else y) = P y) as ->.
  { unfold eqb. destruct (bool_decide_reflect (key y = key x)) as [E|E]; [|done].
    by assert (y = x) as -> by (apply (nodup_key key l); [done|apply Hl; by left|done|done]). }
  destruct (P y); simpl; rewrite IH; auto; intros z Hz; apply Hl; by right.
Qed.

(** A sum changes by what the row adds. *)
Lemma update_row_sum (g h : A -> Z) : (forall r, In r l -> key r <> key x -> g r = h r) ->
  sum_of g (update_row l) = sum_of h l + (g (f x) - h x).
Proof.
  clear -unique present. unfold update_row, update_where. induction l as [|y l' IH]; [done|]. intros Hgh.
  apply List.NoDup_cons_iff in unique as [Hy Hn]. simpl. unfold eqb at 1.
  destruct (bool_decide_reflect (key y = key x)) as [E|E].
  - assert (y = x) as ->.
    { destruct present as [->|Hx]; [done|]. exfalso. apply Hy. rewrite E. by apply in_map. }
    assert (forall z, In z l' -> key z <> key x) as Hne by (intros z Hz Ez; apply Hy; rewrite <- Ez; by apply in_map).
    assert (map (fun r => if (key r =? key x)%py then f r else r) l' = l') as ->.
    { rewrite <- map_id. apply map_ext_in. intros z Hz. unfold eqb. by rewrite bool_decide_eq_false_2 by auto. }
    rewrite (sum_of_ext g h l'); [lia|]. apply List.Forall_forall. intros z Hz. apply Hgh; [by right|auto].
  - destruct present as [->|Hx]; [done|]. rewrite (IH Hn Hx), (Hgh y (or_introl eq_refl) E); [lia|].
    intros r Hr. apply Hgh. by right.
Qed.
End UpdateKey.

(** A sum where one row counts for something else. *)
Lemma sum_change {A B} `{EqDecision B} (key : A -> B) x (g h : A -> Z) l : List.NoDup (map key l) -> In x l ->
  (forall r, In r l -> key r <> key x -> g r = h r) -> sum_of g l = sum_of h l + (g x - h x).
Proof.
  intros Hn Hx Hgh. rewrite <- (update_row_sum key x (fun r => r) l Hn Hx g h Hgh). f_equal.
  unfold update_row, update_where. rewrite <- map_id at 1. apply map_ext_in. intros r _. by destruct (_ =? _)%py.
Qed.

(** ** Looking a row up and adding one *)

(** A lookup that finds at most one row. *)
Lemma wp_find {A B} (table : Db -> list A) P (f : option A -> PM B) Q (R : exn -> session Db -> Prop) s :
  R MultipleResultsFound s -> (List.filter P (table (live s)) = [] -> wp (f None) Q R s) ->
  (forall r, List.filter P (table (live s)) = [r] -> wp (f (Some r)) Q R s) ->
  wp (q_one_or_none table P ≫= f) Q R s.
Proof.
  intros HR Hn Hf. unfold wp, mbind, M_bind. rewrite one_or_none_run.
  destruct (List.filter P (table (live s))) as [|r [|r' l]] eqn:E; [by apply Hn|by apply Hf|done].
Qed.

(** A new row is refused, or clashes with no row. *)
Lemma wp_insert_row {A} (table : Db -> list A) on_table clash constraint row Q (R : exn -> session Db -> Prop) s :
  R (IntegrityError constraint) s ->
  (List.filter (clash row) (table (live s)) = [] ->
   Q row (Session (on_table (fun l => l ++ [row]) (live s)) (saved s) (ticks s) (uuids s) (races s))) ->
  wp (insert_row table on_table clash constraint row) Q R s.
Proof.
  intros HR HQ. unfold wp, insert_row, q_first. run_steps.
  destruct (List.filter (clash row) (table (live s))) as [|r l] eqn:E; simpl; [by apply HQ|done].
Qed.

Lemma no_clash {A B} `{EqDecision B} (key : A -> B) (row : A) l :
  List.filter (fun b => (key b =? key row)%py) l = [] -> ~ In (key row) (map key l).
Proof.
  intros Hf (b & Hb & Hin)%in_map_iff.
  assert (In b []) as []. rewrite <- Hf. apply filter_In. split; [done|by apply bool_decide_eq_true].
Qed.

Lemma clash_filter {A} (P Q : A -> bool) l : List.filter (fun b => P b || Q b) l = [] ->
  List.filter P l = [] /\ List.filter Q l = [].
Proof.
  induction l as [|b l IH]; [done|]. simpl. destruct (P b) eqn:HP, (Q b) eqn:HQ; simpl; done.
Qed.

Lemma filter_one {A} (P : A -> bool) l r : List.filter P l = [r] -> In r l /\ P r = true.
Proof. intros H. apply filter_In. rewrite H. by left. Qed.

(** Nothing but the other sessions' absence is assumed of the environment. *)
Definition alone (W : world Db) : Prop := forall n d, rivals W n d = d.

Lemma alone_keeps W (I : Db -> Prop) : alone W -> forall n d, I d -> I (rivals W n d).
Proof. intros HW n d. by rewrite HW. Qed.

Lemma race_alone W (s : session Db) : alone W ->
  race (E := exn) W s = (Ok tt, Session (live s) (saved s) (ticks s) (uuids s) (S (races s))).
Proof. intros HW. unfold race. by rewrite !HW. Qed.

(** The identifiers from [n] on are not in use in a column. *)
Definition unused {A} (W : world Db) (n : nat) (f : A -> string) (l : list A) : Prop :=
  forall k, (n <= k)%nat -> ~ In (new_uuid W k) (map f l).

Section Unused.
Context (W : world Db).

Lemma unused_mono {A} n m (f : A -> string) l : (n <= m)%nat -> unused W n f l -> unused W m f l.
Proof. intros Hnm H k Hk. apply H. lia. Qed.

Lemma unused_snoc (uuids_distinct : forall n m, new_uuid W n = new_uuid W m -> n = m)
    {A} n m (f : A -> string) l a :
  (n < m)%nat -> f a = new_uuid W n -> unused W n f l -> unused W m f (l ++ [a]).
Proof.
  intros Hnm Ha H k Hk. rewrite map_app, in_app_iff. simpl. intros [Hin|[Hin|[]]].
  - apply (H k); [lia|done].
  - rewrite Ha in Hin. apply uuids_distinct in Hin. lia.
Qed.
End Unused.

#[export] Hint Resolve keeps_one_or_none : keeps.
