(* ===== verification/AuditTrail.v ===== *)
(** * The audit log (services/audit_service.py)

    Payload sanitising (masking, normalising, truncating), the record a call
    appends, and the verification of a tenant's hash chain. *)
From stdpp Require Import sorting.
From Stdlib Require Import Ascii String.
From S2P Require Import Prelude Json Instants HashChain Enums Models.

(** ** Python values an audit payload may hold *)

Inductive pyval : Type :=
| PNone
| PBool (b : bool)
| PInt (z : Z)
| PStr (s : string)
| PEnum (value : string)
| PUuid (s : string)
| PDateTime (t : Z)
| PList (l : list pyval)
| PDict (d : list (string * pyval)).

Definition pydict := list (string * pyval).

Fixpoint of_json (v : json) : pyval :=
  match v with
  | JNull => PNone
  | JBool b => PBool b
  | JInt z => PInt z
  | JStr s => PStr s
  | JList l => PList (map of_json l)
  | JDict d => PDict (map (fun kv => (kv.1, of_json kv.2)) d)
  end.

(** ** Sanitising payloads *)

Definition SENSITIVE_KEYS : list string := ["password"; "pin"; "secret"; "token"].
Definition MAX_JSON_BYTES : Z := 32 * 1024.
Definition GENESIS_HASH : string := "GENESIS".

(** [key.lower()] on ASCII letters *)
Fixpoint lower (s : string) : string :=
  match s with
  | EmptyString => EmptyString
  | String c r =>
      let n := nat_of_ascii c in
      String (if (65 <=? n)%nat && (n <=? 90)%nat then ascii_of_nat (n + 32) else c) (lower r)
  end.

(** [sub in s] *)
Fixpoint contains (sub s : string) : bool :=
  String.prefix sub s ||
  match s with EmptyString => false | String _ r => contains sub r end.

Definition sensitive_key (key : string) : bool :=
  existsb (fun token => contains token (lower key)) SENSITIVE_KEYS.

Fixpoint _mask_sensitive (v : pyval) : pyval :=
  match v with
  | PDict d => PDict (map (fun kv => (kv.1,
      if sensitive_key kv.1 then PStr "***" else _mask_sensitive kv.2)) d)
  | PList l => PList (map _mask_sensitive l)
  | v => v
  end.

Fixpoint _normalize_value (v : pyval) : json :=
  match v with
  | PNone => JNull
  | PEnum s => JStr s
  | PUuid s => JStr s
  | PDateTime t => JStr (isoformat t)
  | PDict d => JDict (sort_by_key (map (fun kv => (kv.1, _normalize_value kv.2)) d))
  | PList l => JList (map _normalize_value l)
  | PBool b => JBool b
  | PInt z => JInt z
  | PStr s => JStr s
  end.

Definition _canonical_json (data : pyval) : string := canonical_json (_normalize_value data).

Definition _compact_dict (d : pydict) : pydict :=
  List.filter (fun kv => match kv.2 with PNone => false | _ => true end) d.

(** Python equality: enums of the model are strings, [True == 1], and a dict
    does not depend on the order of its keys. *)
Fixpoint eq_form (v : pyval) : pyval :=
  match v with
  | PBool b => PInt (if b then 1 else 0)
  | PEnum s => PStr s
  | PList l => PList (map eq_form l)
  | PDict d => PDict (sort_by_key (map (fun kv => (kv.1, eq_form kv.2)) d))
  | v => v
  end.

#[global] Instance pyval_eq_dec : EqDecision pyval.
Proof.
  refine (fix go (v w : pyval) {struct v} : Decision (v = w) :=
    match v, w with
    | PNone, PNone => left _
    | PBool a, PBool b => cast_if (decide (a = b))
    | PInt a, PInt b => cast_if (decide (a = b))
    | PStr a, PStr b => cast_if (decide (a = b))
    | PEnum a, PEnum b => cast_if (decide (a = b))
    | PUuid a, PUuid b => cast_if (decide (a = b))
    | PDateTime a, PDateTime b => cast_if (decide (a = b))
    | PList a, PList b => cast_if (@list_eq_dec _ go a b)
    | PDict a, PDict b => cast_if (@list_eq_dec _ (@prod_eq_dec _ _ _ go) a b)
    | _, _ => right _
    end); abstract congruence.
Defined.

Definition py_eq (a b : pyval) : bool := bool_decide (eq_form a = eq_form b).

Fixpoint pyget (d : pydict) (k : string) : option pyval :=
  match d with
  | [] => None
  | (k', v) :: d' => if decide (k' = k) then Some v else pyget d' k
  end.

(** [value or None] for a missing key *)
Definition py_get_none (d : pydict) (k : string) : pyval := default PNone (pyget d k).

(** The keys in the order of [before], then the new ones of [after]; the code
    walks a set, and sorts the result before it is stored. *)
Definition _diff_payload (before after : option pydict) : option pydict :=
  match before, after with
  | Some ((_ :: _) as b), Some ((_ :: _) as a) =>
      let keys := b.*1 ++ List.filter (fun k => negb (bool_decide (k ∈ b.*1))) a.*1 in
      let changed := List.filter (fun k =>
        negb (py_eq (py_get_none b k) (py_get_none a k))) keys in
      match map (fun k => (k, PDict [("before", py_get_none b k); ("after", py_get_none a k)]))
              changed with
      | [] => None
      | d => Some d
      end
  | _, _ => None
  end.

(** ** Request contexts *)

Record RequestContext := MkRequestContext {
  ctx_actor_type : ActorType.ActorType;
  ctx_actor_id : option string;
  ctx_actor_email : option string;
  ctx_actor_roles : option (list string);
  ctx_ip : option string;
  ctx_user_agent : option string;
  ctx_request_id : option string;
  ctx_trace_id : option string;
  ctx_tenant_id : option Z;
}.

Definition system_context : RequestContext :=
  MkRequestContext ActorType.SYSTEM None None None None None None None None.

(** The arguments of [audit], all but the request context. *)
Record audit_args := MkAuditArgs {
  aa_event_type : string;
  aa_entity_type : string;
  aa_entity_id : string;
  aa_action : string;
  aa_visibility : AuditVisibility.AuditVisibility;
  aa_before : option pydict;
  aa_after : option pydict;
  aa_diff : option pydict;
  aa_external_refs : option pydict;
  aa_reason : option string;
  aa_attachment_key : option string;
}.

Definition opt_str (o : option string) : pyval := from_option PStr PNone o.
Definition opt_int (o : option Z) : pyval := from_option PInt PNone o.
Definition opt_json (o : option json) : pyval := from_option of_json PNone o.
Definition opt_roles (o : option (list string)) : pyval :=
  from_option (fun l => PList (map PStr l)) PNone o.

(** Lexicographic order by [(ts, id)]. *)
Definition ts_id_le (a b : AuditLog) : Prop :=
  au_ts a < au_ts b \/ (au_ts a = au_ts b /\ String.le (au_id a) (au_id b)).

#[global] Instance ts_id_le_dec : RelDecision ts_id_le.
Proof. intros a b. unfold ts_id_le. apply _. Defined.

Section AuditService.
Context (W : world Db).

Definition _truncate_payload (payload : json) : json :=
  match payload with
  | JNull => JNull
  | _ =>
      let serialized := canonical_json payload in
      let size_bytes := Z.of_nat (String.length serialized) in
      if size_bytes <=? MAX_JSON_BYTES then payload
      else JDict [("_truncated", JBool true);
                  ("hash", JStr (sha256_hex W serialized));
                  ("size_bytes", JInt size_bytes)]
  end.

Definition _sanitize_payload (payload : option pydict) : option json :=
  match payload with
  | None => None
  | Some d => Some (_truncate_payload (_normalize_value (_mask_sensitive (PDict d))))
  end.

Definition _hash_payload (data : pydict) (prev_hash : string) : string :=
  sha256_hex W (_canonical_json (PDict data) +:+ prev_hash).

Definition for_tenant (tenant_id : option Z) (r : AuditLog) : bool :=
  bool_decide (au_tenant_id r = tenant_id).

(** [order_by(desc(ts), desc(id)).first()] *)
Definition latest (rows : list AuditLog) : option AuditLog :=
  foldl (fun acc r => match acc with
                      | None => Some r
                      | Some m => if decide (ts_id_le m r) then Some r else Some m
                      end) None rows.

Definition _latest_record (tenant_id : option Z) : PM (option AuditLog) :=
  gets (fun d => latest (List.filter (for_tenant tenant_id) (audit_log (audit d)))).

Definition _latest_hash (tenant_id : option Z) : PM string :=
  latest ← _latest_record tenant_id;
  mret (match latest with Some r => au_hash r | None => GENESIS_HASH end).

(** The record [audit] builds after its read of the latest record. *)
Definition audit_record (args : audit_args) (ctx : RequestContext)
    (latest_record : option AuditLog) (now : Z) (record_id : string) : AuditLog :=
  let ts := match latest_record with
            | Some r => if now <=? au_ts r then au_ts r + 1 else now
            | None => now
            end in
  let sanitized_before := _sanitize_payload (aa_before args) in
  let sanitized_after := _sanitize_payload (aa_after args) in
  let sanitized_diff := _sanitize_payload
    (match aa_diff args with
     | Some (_ :: _) => aa_diff args
     | _ => _diff_payload (aa_before args) (aa_after args)
     end) in
  let sanitized_external_refs := _sanitize_payload (aa_external_refs args) in
  let prev_hash := match latest_record with Some r => au_hash r | None => GENESIS_HASH end in
  let record_data := _compact_dict
    [ ("id", PStr record_id);
      ("ts", PDateTime ts);
      ("tenant_id", opt_int (ctx_tenant_id ctx));
      ("actor_type", PEnum (ActorType.value (ctx_actor_type ctx)));
      ("actor_id", opt_str (ctx_actor_id ctx));
      ("actor_email", opt_str (ctx_actor_email ctx));
      ("actor_roles", opt_roles (ctx_actor_roles ctx));
      ("ip", opt_str (ctx_ip ctx));
      ("user_agent", opt_str (ctx_user_agent ctx));
      ("request_id", opt_str (ctx_request_id ctx));
      ("trace_id", opt_str (ctx_trace_id ctx));
      ("event_type", PStr (aa_event_type args));
      ("entity_type", PStr (aa_entity_type args));
      ("entity_id", PStr (aa_entity_id args));
      ("action", PStr (aa_action args));
      ("visibility", PEnum (AuditVisibility.value (aa_visibility args)));
      ("before", opt_json sanitized_before);
      ("after", opt_json sanitized_after);
      ("diff", opt_json sanitized_diff);
      ("external_refs", opt_json sanitized_external_refs);
      ("reason", opt_str (aa_reason args));
      ("attachment_key", opt_str (aa_attachment_key args)) ] in
  let record_hash := _hash_payload record_data prev_hash in
  {| au_id := record_id; au_ts := ts; au_tenant_id := ctx_tenant_id ctx;
     au_actor_type := ctx_actor_type ctx; au_actor_id := ctx_actor_id ctx;
     au_actor_email := ctx_actor_email ctx; au_actor_roles := ctx_actor_roles ctx;
     au_ip := ctx_ip ctx; au_user_agent := ctx_user_agent ctx;
     au_request_id := ctx_request_id ctx; au_trace_id := ctx_trace_id ctx;
     au_event_type := aa_event_type args; au_entity_type := aa_entity_type args;
     au_entity_id := aa_entity_id args; au_action := aa_action args;
     au_visibility := aa_visibility args; au_before := sanitized_before;
     au_after := sanitized_after; au_diff := sanitized_diff;
     au_external_refs := sanitized_external_refs; au_reason := aa_reason args;
     au_attachment_key := aa_attachment_key args; au_prev_hash := prev_hash;
     au_hash := record_hash |}.

(** [db.add(record); db.flush()]: the hash column is unique. *)
Definition insert_audit (record : AuditLog) : PM unit :=
  same ← q_first (fun d => audit_log (audit d)) (fun r => bool_decide (au_hash r = au_hash record));
  match same with
  | Some _ => raise (IntegrityError "audit_log.hash")
  | None => modify (on_audit_log (fun l => l ++ [record]))
  end.

Definition audit_call (args : audit_args) (request_ctx : option RequestContext) : PM AuditLog :=
  let ctx := default system_context request_ctx in
  latest_record ← _latest_record (ctx_tenant_id ctx);
  ts ← now W;
  record_id ← uuid4 W;
  let record := audit_record args ctx latest_record ts record_id in
  insert_audit record;;
  mret record.
End AuditService.

(** ** Records as a session loads them *)

(** The value of a column.  psycopg loads an INET as an [ipaddress] object, for which
    [json.dumps] has no encoding; the variant of the column for SQLite loads its text. *)
Inductive column : Type :=
| Value (v : pyval)
| Address (text : string).

Definition column_none (c : column) : bool := match c with Value PNone => true | _ => false end.

(** The values [json.dumps] encodes. *)
Fixpoint encodable (d : list (string * column)) : option pydict :=
  match d with
  | [] => Some []
  | (k, Value v) :: d => option_map (cons (k, v)) (encodable d)
  | (_, Address _) :: _ => None
  end.

Section Verification.
Context (W : world Db) (native_inet : bool).

(** [record.ip] of a record loaded from the table *)
Definition loaded_ip (ip : option string) : column :=
  match ip with
  | None => Value PNone
  | Some text => if native_inet then Address text else Value (PStr text)
  end.

Definition _hash_data_for_record (record : AuditLog) : list (string * column) :=
  List.filter (fun kv => negb (column_none kv.2))
    [ ("id", Value (PStr (au_id record)));
      ("ts", Value (PDateTime (au_ts record)));
      ("tenant_id", Value (opt_int (au_tenant_id record)));
      ("actor_type", Value (PEnum (ActorType.value (au_actor_type record))));
      ("actor_id", Value (opt_str (au_actor_id record)));
      ("actor_email", Value (opt_str (au_actor_email record)));
      ("actor_roles", Value (opt_roles (au_actor_roles record)));
      ("ip", loaded_ip (au_ip record));
      ("user_agent", Value (opt_str (au_user_agent record)));
      ("request_id", Value (opt_str (au_request_id record)));
      ("trace_id", Value (opt_str (au_trace_id record)));
      ("event_type", Value (PStr (au_event_type record)));
      ("entity_type", Value (PStr (au_entity_type record)));
      ("entity_id", Value (PStr (au_entity_id record)));
      ("action", Value (PStr (au_action record)));
      ("visibility", Value (PEnum (AuditVisibility.value (au_visibility record))));
      ("before", Value (opt_json (au_before record)));
      ("after", Value (opt_json (au_after record)));
      ("diff", Value (opt_json (au_diff record)));
      ("external_refs", Value (opt_json (au_external_refs record)));
      ("reason", Value (opt_str (au_reason record)));
      ("attachment_key", Value (opt_str (au_attachment_key record))) ].

(** [self._hash_payload(data, record.prev_hash)]: a [TypeError] on an address. *)
Definition loaded_hash (record : AuditLog) : outcome exn string :=
  match encodable (_hash_data_for_record record) with
  | Some data => Ok (_hash_payload W data (au_prev_hash record))
  | None => Raise TypeError
  end.

(** ** Verification of a chain *)

Record chain_report := MkChainReport {
  cr_status : string;
  cr_checked : Z;
  cr_broken_at_id : option string;
  cr_message : string;
}.

(** The loop of [verify_chain] over the selected records, in order. *)
Fixpoint verify_records (expected_prev : string) (checked : Z) (l : list AuditLog) : outcome exn chain_report :=
  match l with
  | [] => Ok (MkChainReport "OK" checked None EmptyString)
  | record :: l' =>
      if negb (bool_decide (au_prev_hash record = expected_prev)) then
        Ok (MkChainReport "BROKEN" (checked + 1) (Some (au_id record)) "prev_hash mismatch")
      else
        match loaded_hash record with
        | Raise e => Raise e
        | Ok expected_hash =>
            if negb (bool_decide (au_hash record = expected_hash)) then
              Ok (MkChainReport "BROKEN" (checked + 1) (Some (au_id record)) "hash mismatch")
            else verify_records (au_hash record) (checked + 1) l'
        end
  end.

(** The records of a window, in the order [ts, id]. *)
Definition window_records (date_from date_to : Z) (tenant_id : option Z) (d : Db) : list AuditLog :=
  merge_sort ts_id_le (List.filter (fun r =>
    (date_from <=? au_ts r) && (au_ts r <=? date_to) && for_tenant tenant_id r) (audit_log (audit d))).

(** On a session that loads the records, as that of the endpoint. *)
Definition verify_chain (date_from date_to : Z) (tenant_id : option Z) : PM chain_report :=
  records ← gets (window_records date_from date_to tenant_id);
  match verify_records GENESIS_HASH 0 records with Ok report => mret report | Raise e => raise e end.
End Verification.

(** ** Properties *)

(** The data of a record, as it was written. *)
Definition stored_fields (r : AuditLog) : pydict :=
  [ ("id", PStr (au_id r)); ("ts", PDateTime (au_ts r)); ("tenant_id", opt_int (au_tenant_id r));
    ("actor_type", PEnum (ActorType.value (au_actor_type r))); ("actor_id", opt_str (au_actor_id r));
    ("actor_email", opt_str (au_actor_email r)); ("actor_roles", opt_roles (au_actor_roles r));
    ("ip", opt_str (au_ip r)); ("user_agent", opt_str (au_user_agent r));
    ("request_id", opt_str (au_request_id r)); ("trace_id", opt_str (au_trace_id r));
    ("event_type", PStr (au_event_type r)); ("entity_type", PStr (au_entity_type r));
    ("entity_id", PStr (au_entity_id r)); ("action", PStr (au_action r));
    ("visibility", PEnum (AuditVisibility.value (au_visibility r)));
    ("before", opt_json (au_before r)); ("after", opt_json (au_after r)); ("diff", opt_json (au_diff r));
    ("external_refs", opt_json (au_external_refs r)); ("reason", opt_str (au_reason r));
    ("attachment_key", opt_str (au_attachment_key r)) ].

Definition audit_text (r : AuditLog) : string :=
  _canonical_json (PDict (_compact_dict (stored_fields r))) +:+ au_prev_hash r.

(** A payload column: a missing one is null. *)
Definition payload (o : option json) : json := default JNull o.

(** Two records that say the same: every column but the digests is equal, a payload up to
    the order of its keys. *)
Record same_record (r r' : AuditLog) : Prop := {
  same_id : au_id r = au_id r';
  same_ts : au_ts r = au_ts r';
  same_tenant_id : au_tenant_id r = au_tenant_id r';
  same_actor_type : au_actor_type r = au_actor_type r';
  same_actor_id : au_actor_id r = au_actor_id r';
  same_actor_email : au_actor_email r = au_actor_email r';
  same_actor_roles : au_actor_roles r = au_actor_roles r';
  same_ip : au_ip r = au_ip r';
  same_user_agent : au_user_agent r = au_user_agent r';
  same_request_id : au_request_id r = au_request_id r';
  same_trace_id : au_trace_id r = au_trace_id r';
  same_event_type : au_event_type r = au_event_type r';
  same_entity_type : au_entity_type r = au_entity_type r';
  same_entity_id : au_entity_id r = au_entity_id r';
  same_action : au_action r = au_action r';
  same_visibility : au_visibility r = au_visibility r';
  same_before : same_json (payload (au_before r)) (payload (au_before r'));
  same_after : same_json (payload (au_after r)) (payload (au_after r'));
  same_diff : same_json (payload (au_diff r)) (payload (au_diff r'));
  same_external_refs : same_json (payload (au_external_refs r)) (payload (au_external_refs r'));
  same_reason : au_reason r = au_reason r';
  same_attachment_key : au_attachment_key r = au_attachment_key r';
}.

(** What is printed of a value. *)
Definition printed (v : pyval) : json := sort_keys (_normalize_value v).

Lemma in_compact kv d : In kv (_compact_dict d) <-> In kv d /\ kv.2 <> PNone.
Proof. unfold _compact_dict. rewrite filter_In. by destruct kv as [k []]; simpl; naive_solver. Qed.

(** Equal sorted dicts have the same values under each key. *)
Lemma sorted_dict_in (d e : pydict) k v :
  printed (PDict d) = printed (PDict e) -> In (k, v) d -> exists w, In (k, w) e /\ printed w = printed v.
Proof.
  unfold printed. cbn [_normalize_value sort_keys]. intros H Hin. injection H as H.
  set (g := fun kv : string * pyval => (kv.1, _normalize_value kv.2)) in H.
  set (f := fun kv : string * json => (kv.1, sort_keys kv.2)) in H.
  assert (In (f (g (k, v))) (map f (map g e))) as Hf.
  { apply list_elem_of_In. rewrite <- (sort_by_key_perm (map g e)).
    rewrite <- (sort_by_key_perm (map f (sort_by_key (map g e)))), <- H.
    rewrite (sort_by_key_perm (map f (sort_by_key (map g d)))), (sort_by_key_perm (map g d)).
    by apply list_elem_of_In, in_map, in_map. }
  apply in_map_iff in Hf as (kv & Hkv & Hf). apply in_map_iff in Hf as ([k' w] & <- & Hw).
  unfold f, g in Hkv. simpl in Hkv. injection Hkv as -> Hs. by exists w.
Qed.

Lemma pyget_in d k v : pyget d k = Some v -> In (k, v) d.
Proof.
  induction d as [|[k' w] d IH]; simpl; [done|]. destruct (decide (k' = k)) as [->|]; [|auto].
  intros H. injection H as ->. by left.
Qed.

Lemma pyget_only d k v w : List.NoDup d.*1 -> pyget d k = Some v -> In (k, w) d -> w = v.
Proof.
  intros Hn Hv%pyget_in Hw. by injection (nodup_key fst d (k, w) (k, v) Hn Hw Hv eq_refl).
Qed.

(** The fields that are left of two dicts print alike, key by key. *)
Lemma compact_agree (d e : pydict) k v w : List.NoDup d.*1 -> List.NoDup e.*1 ->
  printed (PDict (_compact_dict d)) = printed (PDict (_compact_dict e)) ->
  pyget d k = Some v -> pyget e k = Some w -> printed v = printed w.
Proof.
  intros Hd He H Hv Hw. assert (forall d e v w, List.NoDup e.*1 ->
    printed (PDict (_compact_dict d)) = printed (PDict (_compact_dict e)) ->
    pyget d k = Some v -> pyget e k = Some w -> v <> PNone -> printed v = printed w) as Hcase.
  { clear. intros d e v w He H Hv Hw Hnone.
    destruct (sorted_dict_in _ _ k v H) as (x & Hx & Hs); [apply in_compact; split; [by apply pyget_in|done]|].
    apply in_compact in Hx as [Hx _]. by rewrite <- Hs, (pyget_only e k w x He Hw Hx). }
  destruct (decide (v = PNone)) as [->|Hnv]; [|by apply (Hcase d e)].
  destruct (decide (w = PNone)) as [->|Hnw]; [done|]. symmetry. by apply (Hcase e d).
Qed.

Lemma printed_opt_str o o' : printed (opt_str o) = printed (opt_str o') -> o = o'.
Proof. unfold printed. destruct o, o'; simpl; congruence. Qed.

Lemma printed_opt_int o o' : printed (opt_int o) = printed (opt_int o') -> o = o'.
Proof. unfold printed. destruct o, o'; simpl; congruence. Qed.

Lemma printed_roles o o' : printed (opt_roles o) = printed (opt_roles o') -> o = o'.
Proof.
  unfold printed. destruct o as [l|], o' as [l'|]; simpl; [|discriminate..|done]. intros H. f_equal.
  injection H as H. revert l' H. induction l as [|x l IH]; intros [|y l'] H; simpl in H; [done|discriminate..|].
  injection H as -> H. f_equal. by apply IH.
Qed.

Lemma normalize_of_json v : _normalize_value (of_json v) = sort_keys v.
Proof.
  induction v as [|b|z|s|l IH|d IH] using json_ind'; simpl; try done; f_equal.
  - induction IH as [|x l Hx _ IHl]; simpl; [done|by rewrite Hx, IHl].
  - f_equal. induction IH as [|[k x] d Hx _ IHd]; simpl; [done|]. simpl in Hx. by rewrite Hx, IHd.
Qed.

Lemma printed_payload o o' : printed (opt_json o) = printed (opt_json o') -> same_json (payload o) (payload o').
Proof.
  assert (forall o, printed (opt_json o) = sort_keys (sort_keys (payload o))) as Hp
    by (clear; intros [v|]; [apply (f_equal sort_keys (normalize_of_json v))|done]).
  rewrite !Hp. apply sorted_twice_same.
Qed.

Lemma actor_type_value_inj x y : ActorType.value x = ActorType.value y -> x = y.
Proof. by destruct x, y. Qed.

Lemma visibility_value_inj x y : AuditVisibility.value x = AuditVisibility.value y -> x = y.
Proof. by destruct x, y. Qed.

Lemma stored_keys r : List.NoDup (stored_fields r).*1.
Proof. apply NoDup_ListNoDup. cbn. apply (bool_decide_unpack _). reflexivity. Qed.

Lemma audit_text_inj r r' : audit_text r = audit_text r' -> au_prev_hash r = au_prev_hash r' /\ same_record r r'.
Proof.
  unfold audit_text, _canonical_json, canonical_json. cbn [_normalize_value sort_keys]. intros H.
  apply print_dict_app_inj in H as [H Hprev]. split; [exact Hprev|].
  assert (printed (PDict (_compact_dict (stored_fields r))) = printed (PDict (_compact_dict (stored_fields r')))) as Heq
    by exact (f_equal JDict H).
  assert (forall k v w, pyget (stored_fields r) k = Some v -> pyget (stored_fields r') k = Some w -> printed v = printed w)
    as Hk by (intros k v w; apply compact_agree; [apply stored_keys|apply stored_keys|exact Heq]).
  assert (forall x y, printed (PStr x) = printed (PStr y) -> x = y) as Hstr by (intros x y Hxy; by injection Hxy).
  assert (forall x y, printed (PEnum x) = printed (PEnum y) -> x = y) as Henum by exact Hstr.
  constructor.
  - apply Hstr, (Hk "id"); reflexivity.
  - apply isoformat_inj. enough (printed (PDateTime (au_ts r)) = printed (PDateTime (au_ts r'))) as Ht by (by injection Ht).
    apply (Hk "ts"); reflexivity.
  - apply printed_opt_int, (Hk "tenant_id"); reflexivity.
  - apply actor_type_value_inj, Henum, (Hk "actor_type"); reflexivity.
  - apply printed_opt_str, (Hk "actor_id"); reflexivity.
  - apply printed_opt_str, (Hk "actor_email"); reflexivity.
  - apply printed_roles, (Hk "actor_roles"); reflexivity.
  - apply printed_opt_str, (Hk "ip"); reflexivity.
  - apply printed_opt_str, (Hk "user_agent"); reflexivity.
  - apply printed_opt_str, (Hk "request_id"); reflexivity.
  - apply printed_opt_str, (Hk "trace_id"); reflexivity.
  - apply Hstr, (Hk "event_type"); reflexivity.
  - apply Hstr, (Hk "entity_type"); reflexivity.
  - apply Hstr, (Hk "entity_id"); reflexivity.
  - apply Hstr, (Hk "action"); reflexivity.
  - apply visibility_value_inj, Henum, (Hk "visibility"); reflexivity.
  - apply printed_payload, (Hk "before"); reflexivity.
  - apply printed_payload, (Hk "after"); reflexivity.
  - apply printed_payload, (Hk "diff"); reflexivity.
  - apply printed_payload, (Hk "external_refs"); reflexivity.
  - apply printed_opt_str, (Hk "reason"); reflexivity.
  - apply printed_opt_str, (Hk "attachment_key"); reflexivity.
Qed.

#[global] Instance audit_chain : HashChain AuditLog := {|
  row_prev := au_prev_hash;
  row_hash := au_hash;
  row_same := same_record;
  row_text := audit_text;
  row_text_inj := audit_text_inj;
|}.

Section AuditProperties.
Context (W : world Db).

(** The rows of a tenant, in insertion order. *)
Definition tenant_rows (tenant_id : option Z) (d : Db) : list AuditLog :=
  List.filter (for_tenant tenant_id) (audit_log (audit d)).

Definition ts_lt (a b : AuditLog) : Prop := au_ts a < au_ts b.

(** Each tenant's rows form a chain from the genesis hash, at increasing times. *)
Definition audit_inv (d : Db) : Prop := forall tenant_id,
  chained (sha256_hex W) GENESIS_HASH (tenant_rows tenant_id d) /\
  StronglySorted ts_lt (tenant_rows tenant_id d).

Lemma record_hash_data args ctx l t i :
  let r := audit_record W args ctx l t i in
  au_hash r = sha256_hex W (audit_text r).
Proof.
  cbv zeta. unfold audit_text, stored_fields, audit_record, _hash_payload.
  cbn [au_id au_ts au_tenant_id au_actor_type au_actor_id au_actor_email au_actor_roles au_ip
       au_user_agent au_request_id au_trace_id au_event_type au_entity_type au_entity_id
       au_action au_visibility au_before au_after au_diff au_external_refs au_reason
       au_attachment_key au_prev_hash au_hash].
  reflexivity.
Qed.

Lemma latest_sorted l m : StronglySorted ts_lt l -> Forall (fun r => ts_lt m r) l ->
  foldl (fun acc r => match acc with
                      | None => Some r
                      | Some m => if decide (ts_id_le m r) then Some r else Some m
                      end) (Some m) l = Some (default m (last l)).
Proof.
  revert m. induction l as [|x l IH]; intros m Hs Hm; simpl; [done|].
  apply StronglySorted_inv in Hs as [Hs Hx]. apply Forall_cons in Hm as [Hmx Hm].
  rewrite decide_True by (left; exact Hmx). rewrite IH, last_cons by done.
  by destruct (last l).
Qed.

Lemma latest_last l : StronglySorted ts_lt l -> latest l = last l.
Proof.
  destruct l as [|x l]; intros Hs; [done|]. apply StronglySorted_inv in Hs as [Hs Hx].
  unfold latest. simpl. rewrite latest_sorted, last_cons by done. by destruct (last l).
Qed.

(** One call appends one record, built on the latest record of the tenant, or
    raises and changes nothing. *)
Lemma audit_call_wp args ctx s (Q : AuditLog -> session Db -> Prop) R :
  let c := default system_context ctx in
  let r := audit_record W args c (latest (tenant_rows (ctx_tenant_id c) (live s)))
             (clock W (ticks s)) (new_uuid W (uuids s)) in
  Q r (Session (on_audit_log (fun l => l ++ [r]) (live s)) (saved s)
         (S (ticks s)) (S (uuids s)) (races s)) ->
  R (IntegrityError "audit_log.hash")
    (Session (live s) (saved s) (S (ticks s)) (S (uuids s)) (races s)) ->
  wp (audit_call W args ctx) Q R s.
Proof.
  intros c r HQ HR. unfold wp, audit_call, insert_audit, q_first.
  unfold mbind, M_bind, gets, _latest_record, now, uuid4. cbn -[audit_record].
  destruct (head _); [exact HR|exact HQ].
Qed.

(** The same, with the reason of the failure: a stored record has the new hash. *)
Lemma audit_call_cases args ctx s (Q : AuditLog -> session Db -> Prop) R :
  let c := default system_context ctx in
  let r := audit_record W args c (latest (tenant_rows (ctx_tenant_id c) (live s)))
             (clock W (ticks s)) (new_uuid W (uuids s)) in
  Q r (Session (on_audit_log (fun l => l ++ [r]) (live s)) (saved s)
         (S (ticks s)) (S (uuids s)) (races s)) ->
  ((exists r0, In r0 (audit_log (audit (live s))) /\ au_hash r0 = au_hash r) ->
   R (IntegrityError "audit_log.hash")
     (Session (live s) (saved s) (S (ticks s)) (S (uuids s)) (races s))) ->
  wp (audit_call W args ctx) Q R s.
Proof.
  intros c r HQ HR. unfold wp, audit_call, insert_audit, q_first.
  unfold mbind, M_bind, gets, _latest_record, now, uuid4. cbn -[audit_record].
  destruct (head _) as [r0|] eqn:Hh; [|exact HQ]. apply HR. exists r0.
  apply head_Some_elem_of, list_elem_of_In, filter_In in Hh as [Hin Heq].
  split; [done|]. by apply bool_decide_eq_true in Heq.
Qed.

Lemma for_tenant_true t r : for_tenant t r = true <-> au_tenant_id r = t.
Proof. unfold for_tenant. by rewrite bool_decide_eq_true. Qed.

Lemma for_tenant_record args ctx l t i :
  for_tenant (ctx_tenant_id ctx) (audit_record W args ctx l t i) = true.
Proof. by apply for_tenant_true. Qed.

Lemma audit_record_prev args ctx l t i :
  au_prev_hash (audit_record W args ctx l t i) = from_option au_hash GENESIS_HASH l.
Proof. by destruct l. Qed.

(** In a sorted list every element is at most the last. *)
Lemma sorted_le_last l m : StronglySorted ts_lt l -> last l = Some m ->
  Forall (fun y => au_ts y <= au_ts m) l.
Proof.
  induction l as [|x l IH]; intros Hs Hl; [done|].
  apply StronglySorted_inv in Hs as [Hs Hx]. destruct l as [|y l].
  { simpl in Hl. simplify_eq. repeat constructor. lia. }
  change (last (y :: l) = Some m) in Hl. constructor; [|by apply IH].
  apply last_Some in Hl as [l' Hl']. rewrite Hl' in Hx.
  apply Forall_app in Hx as [_ Hx]. apply Forall_cons in Hx as [Hx _].
  unfold ts_lt in Hx. lia.
Qed.

(** Appending the record of a call keeps every tenant's chain. *)
Lemma audit_inv_append d args ctx t i :
  audit_inv d ->
  audit_inv (on_audit_log (fun l => l ++
    [audit_record W args ctx (latest (tenant_rows (ctx_tenant_id ctx) d)) t i]) d).
Proof.
  intros Hd tenant. destruct (Hd tenant) as [Hc Hs].
  set (r := audit_record _ _ _ _ _ _). unfold tenant_rows in *. simpl.
  rewrite filter_snoc. destruct (for_tenant tenant r) eqn:Ht;
    [|by rewrite app_nil_r].
  apply for_tenant_true in Ht. change (au_tenant_id r) with (ctx_tenant_id ctx) in Ht.
  subst tenant. pose proof (latest_last _ Hs) as Hlast.
  split.
  - apply chained_snoc. split; [exact Hc|]. split; [|apply record_hash_data].
    change (row_prev r) with (au_prev_hash r). unfold r.
    rewrite audit_record_prev. unfold tenant_rows. by rewrite Hlast.
  - apply StronglySorted_snoc; [done|].
    destruct (last (List.filter _ _)) as [m|] eqn:Hm.
    + eapply Forall_impl; [by apply sorted_le_last|].
      intros y Hy. unfold ts_lt, r. cbn -[Z.leb tenant_rows].
      unfold tenant_rows. rewrite Hlast. cbn -[Z.leb].
      destruct (Z.leb_spec t (au_ts m)); simpl in Hy; lia.
    + apply last_None in Hm. by rewrite Hm.
Qed.

Lemma keeps_audit args ctx : keeps audit_inv (audit_call W args ctx).
Proof.
  intros s [Hl Hs].
  assert (wp (audit_call W args ctx) (fun _ t => holds audit_inv t) (fun _ t => holds audit_inv t) s)
    as H.
  { apply audit_call_wp; split; simpl; try done. by apply audit_inv_append. }
  unfold wp in H. by destruct (audit_call W args ctx s) as [[?|?] ?].
Qed.

(** Every stored hash is the digest of its record. *)
Lemma audit_inv_hash d r : audit_inv d -> In r (audit_log (audit d)) ->
  au_hash r = sha256_hex W (audit_text r).
Proof.
  intros Hd Hr. destruct (Hd (au_tenant_id r)) as [Hc _].
  assert (In r (tenant_rows (au_tenant_id r) d)) as Hin
    by (apply filter_In; split; [done|by apply for_tenant_true]).
  apply in_split in Hin as (l1 & l2 & Hl). rewrite Hl in Hc.
  apply chained_app in Hc as (_ & _ & H & _). exact H.
Qed.

(** A fresh record is stored, unless the digest collides. *)
Lemma audit_clash d r0 args ctx l t i :
  audit_inv d -> In r0 (audit_log (audit d)) -> au_id r0 <> i ->
  au_hash r0 = au_hash (audit_record W args ctx l t i) ->
  exists x y, x <> y /\ sha256_hex W x = sha256_hex W y.
Proof.
  intros Hd Hr Hi He. rewrite (audit_inv_hash d r0 Hd Hr), record_hash_data in He.
  eexists _, _. split; [|exact He]. intros Ht. apply audit_text_inj in Ht as [_ Hp].
  by apply Hi, Hp.
Qed.

(** A record to be added from now on has the hash of a stored one. *)
Definition audit_clashes (s : session Db) : Prop :=
  exists r0 args ctx l t k, In r0 (audit_log (audit (live s))) /\ (uuids s <= k)%nat /\
    au_hash r0 = au_hash (audit_record W args ctx l t (new_uuid W k)).

Lemma audit_clashes_collide s :
  audit_inv (live s) ->
  (forall k, (uuids s <= k)%nat -> ~ In (new_uuid W k) (map au_id (audit_log (audit (live s))))) ->
  audit_clashes s -> exists x y, x <> y /\ sha256_hex W x = sha256_hex W y.
Proof.
  intros Hi Hu (r0 & args & ctx & l & t & k & Hr0 & Hle & Heq).
  eapply (audit_clash (live s)); [done|exact Hr0| |exact Heq].
  intros Hid. apply (Hu k Hle). rewrite <- Hid. by apply in_map.
Qed.

Lemma audit_inv_empty : audit_inv empty_db.
Proof. intros t. by repeat constructor. Qed.

(** ** Verification against the chain *)

Definition has_ip (r : AuditLog) : bool := bool_decide (is_Some (au_ip r)).

Lemma encodable_values (d : pydict) :
  encodable (List.filter (fun kv => negb (column_none kv.2)) (map (fun kv => (kv.1, Value kv.2)) d)) = Some (_compact_dict d).
Proof.
  unfold _compact_dict. induction d as [|[k v] d IH]; [done|]. cbn [map fst snd].
  destruct v; cbn [List.filter column_none negb snd encodable]; rewrite ?IH; done.
Qed.

Lemma encodable_address d k a : In (k, Address a) d -> encodable (List.filter (fun kv => negb (column_none kv.2)) d) = None.
Proof.
  induction d as [|[k' c] d IH]; [done|]. cbn [List.filter snd]. intros [H|H]; [by injection H as -> ->|].
  destruct c as [v|]; [|done]. destruct (negb _); cbn [encodable]; by rewrite IH.
Qed.

(** The digest is computed again, unless an address is met. *)
Lemma loaded_hash_run native_inet r :
  loaded_hash W native_inet r = if native_inet && has_ip r then Raise TypeError else Ok (sha256_hex W (audit_text r)).
Proof.
  unfold loaded_hash, has_ip. destruct (native_inet && _) eqn:Hb.
  - apply andb_true_iff in Hb as [-> [a Ha]%bool_decide_eq_true]. unfold _hash_data_for_record.
    rewrite (encodable_address _ "ip" a); [done|]. rewrite Ha. do 7 right. by left.
  - assert (_hash_data_for_record native_inet r = List.filter (fun kv => negb (column_none kv.2))
      (map (fun kv => (kv.1, Value kv.2)) (stored_fields r))) as ->.
    { unfold _hash_data_for_record. f_equal. assert (loaded_ip native_inet (au_ip r) = Value (opt_str (au_ip r))) as ->.
      { destruct (au_ip r), native_inet; done. } done. }
    by rewrite encodable_values.
Qed.

(** A chain verifies up to the first record with an address that is not encoded. *)
Lemma verify_records_chained native_inet prev n l : chained (sha256_hex W) prev l ->
  verify_records W native_inet prev n l =
    if native_inet && existsb has_ip l then Raise TypeError
    else Ok (MkChainReport "OK" (n + Z.of_nat (length l)) None EmptyString).
Proof.
  revert prev n. induction l as [|r l IH]; intros prev n Hc; cbn [verify_records existsb].
  - rewrite andb_false_r. do 2 f_equal. simpl. lia.
  - destruct Hc as (Hp & Hh & Hc). rewrite (bool_decide_true (au_prev_hash r = prev)) by done. cbn [negb].
    rewrite loaded_hash_run, andb_orb_distrib_r. destruct (native_inet && has_ip r); [done|]. cbn [orb].
    rewrite bool_decide_true by done. cbn [negb]. rewrite (IH _ _ Hc). destruct (_ && _); [done|].
    do 2 f_equal. simpl. lia.
Qed.

Lemma verify_records_broken native_inet prev n l r : native_inet && existsb has_ip l = false ->
  chained (sha256_hex W) prev l -> au_prev_hash r <> last_hash prev l ->
  verify_records W native_inet prev n (l ++ [r]) =
    Ok (MkChainReport "BROKEN" (n + Z.of_nat (length l) + 1) (Some (au_id r)) "prev_hash mismatch").
Proof.
  revert prev n. induction l as [|x l IH]; intros prev n Hip Hc Hr; cbn [verify_records app].
  - rewrite bool_decide_false by done. simpl. do 2 f_equal. lia.
  - destruct Hc as (Hp & Hh & Hc). rewrite last_hash_cons in Hr. cbn [existsb] in Hip.
    rewrite andb_orb_distrib_r in Hip. apply orb_false_iff in Hip as [Hx Hip].
    rewrite (bool_decide_true (au_prev_hash x = prev)) by done. cbn [negb]. rewrite loaded_hash_run, Hx.
    rewrite bool_decide_true by done. cbn [negb]. rewrite IH by done. do 2 f_equal. simpl. lia.
Qed.

Lemma verify_records_sound native_inet prev n l report :
  verify_records W native_inet prev n l = Ok report -> cr_status report = "OK" -> chained (sha256_hex W) prev l.
Proof.
  revert prev n. induction l as [|r l IH]; intros prev n H Hok; cbn [verify_records] in H; [done|].
  destruct (bool_decide_reflect (au_prev_hash r = prev)); [|injection H as <-; discriminate Hok]. cbn [negb] in H.
  rewrite loaded_hash_run in H. destruct (native_inet && has_ip r); [done|].
  destruct (bool_decide_reflect (au_hash r = sha256_hex W (audit_text r))); [|injection H as <-; discriminate Hok].
  cbn [negb] in H. split; [done|]. split; [done|]. by eapply IH.
Qed.

Lemma sorted_merge_id l : StronglySorted ts_lt l -> merge_sort ts_id_le l = l.
Proof.
  intros Hs. apply (StronglySorted_unique_strong ts_id_le).
  - intros a b Ha Hb. rewrite merge_sort_Permutation in Ha.
    intros Hab Hba. destruct Hab as [|[E1 L1]], Hba as [|[E2 L2]]; try lia.
    clear -Ha Hb Hs E1. induction Hs as [|x l Hs IH Hx]; [by apply not_elem_of_nil in Ha|].
    rewrite Forall_forall in Hx.
    apply elem_of_cons in Ha as [->|Ha], Hb as [->|Hb]; [done| | |by apply IH].
    + specialize (Hx _ Hb). unfold ts_lt in Hx. lia.
    + specialize (Hx _ Ha). unfold ts_lt in Hx. lia.
  - apply StronglySorted_merge_sort.
    + intros a b c Hab Hbc. unfold ts_id_le in *.
      destruct Hab as [|[? ?]], Hbc as [|[? ?]]; [left; lia..|].
      right. split; [lia|]. by etrans.
    + intros a b. unfold ts_id_le.
      destruct (Z.lt_trichotomy (au_ts a) (au_ts b)) as [|[|]]; [auto| |auto].
      destruct (String.le_total (au_id a) (au_id b)); auto.
  - clear -Hs. induction Hs as [|x l Hs IH Hx]; constructor; [done|].
    eapply Forall_impl; [exact Hx|]. intros y Hy. by left.
  - apply merge_sort_Permutation.
Qed.

End AuditProperties.

(** ** Theorems *)

Section AuditTheorems.
Context (W : world Db).

Lemma in_window lo hi r : lo <= au_ts r <= hi -> (lo <=? au_ts r) && (au_ts r <=? hi) = true.
Proof. intros [H1 H2]. by rewrite (proj2 (Z.leb_le _ _) H1), (proj2 (Z.leb_le _ _) H2). Qed.

(** A window that contains all the rows of a tenant selects them, in order. *)
Lemma window_all d tenant lo hi :
  StronglySorted ts_lt (tenant_rows tenant d) ->
  Forall (fun r => lo <= au_ts r <= hi) (tenant_rows tenant d) -> window_records lo hi tenant d = tenant_rows tenant d.
Proof.
  intros Hs Hwin. unfold window_records.
  rewrite (filter_and (fun r => (lo <=? au_ts r) && (au_ts r <=? hi))).
  change (List.filter (for_tenant tenant) (audit_log (audit d))) with (tenant_rows tenant d).
  rewrite filter_all by (eapply Forall_impl; [exact Hwin|]; apply in_window).
  by rewrite sorted_merge_id.
Qed.

Lemma verify_chain_run native_inet lo hi tenant s :
  verify_chain W native_inet lo hi tenant s =
    (verify_records W native_inet GENESIS_HASH 0 (window_records lo hi tenant (live s)), s).
Proof. unfold verify_chain, mbind, M_bind, gets. by destruct (verify_records _ _ _ _ _). Qed.

(** C39 whatever sequence of [audit] calls is made, by whatever tenants, each tenant's log
    is an unbroken chain: over a window that contains it, [verify_chain] reports OK for all
    its records.  The exception is a driver that loads the column [ip] as addresses, as
    psycopg does: then [verify_chain] raises TypeError as soon as one of the records has an
    address. *)
Theorem audit_chain_verifies (calls : list (audit_args * option RequestContext))
    (s : session Db) (native_inet : bool) tenant lo hi :
  holds (audit_inv W) s ->
  let s' := (for_each calls (fun c => audit_call W c.1 c.2) s).2 in
  let rows := tenant_rows tenant (live s') in
  Forall (fun r => lo <= au_ts r <= hi) rows ->
  (verify_chain W native_inet lo hi tenant s').1 =
    if native_inet && existsb has_ip rows then Raise TypeError
    else Ok (MkChainReport "OK" (Z.of_nat (length rows)) None EmptyString).
Proof.
  intros Hs s' rows Hwin.
  assert (holds (audit_inv W) s') as [Hl _].
  { apply keeps_for_each; [|done]. intros c. apply keeps_audit. }
  destruct (Hl tenant) as [Hc Hsorted]. rewrite verify_chain_run. cbn [fst].
  rewrite window_all by done. by rewrite verify_records_chained.
Qed.

(** C40 two logs whose windows verify and end in the same hash say the same, record by
    record and column by column (a payload up to the order of its keys), unless the digest
    function collides. *)
Theorem audit_tamper_evident (native_inet : bool) lo hi tenant (d d' : Db) report report' :
  (forall x, sha256_hex W x <> GENESIS_HASH) ->
  let rows := window_records lo hi tenant in
  (verify_chain W native_inet lo hi tenant (fresh_session d)).1 = Ok report -> cr_status report = "OK" ->
  (verify_chain W native_inet lo hi tenant (fresh_session d')).1 = Ok report' -> cr_status report' = "OK" ->
  last_hash GENESIS_HASH (rows d) = last_hash GENESIS_HASH (rows d') ->
  Forall2 same_record (rows d) (rows d') \/ (exists x y, x <> y /\ sha256_hex W x = sha256_hex W y).
Proof.
  intros Hg rows Hv Hok Hv' Hok' Hlast. rewrite verify_chain_run in Hv, Hv'.
  apply verify_records_sound in Hv, Hv'; [|done..].
  by apply (chained_agree (H := audit_chain) (sha256_hex W) GENESIS_HASH).
Qed.

(** Two sessions that both read the latest record of a tenant before either
    writes fork the chain: it no longer verifies. *)
Theorem audit_concurrent_fork d args1 args2 ctx t1 t2 i1 i2 native_inet lo hi :
  let last := latest (tenant_rows (ctx_tenant_id ctx) d) in
  let r1 := audit_record W args1 ctx last t1 i1 in
  let r2 := audit_record W args2 ctx last t2 i2 in
  let d' := on_audit_log (fun l => l ++ [r1; r2]) d in
  audit_inv W d -> au_ts r1 < au_ts r2 ->
  au_hash r1 <> from_option au_hash GENESIS_HASH last ->
  Forall (fun r => lo <= au_ts r <= hi) (tenant_rows (ctx_tenant_id ctx) d') ->
  native_inet && existsb has_ip (tenant_rows (ctx_tenant_id ctx) d') = false ->
  exists rep, (verify_chain W native_inet lo hi (ctx_tenant_id ctx) (fresh_session d')).1 = Ok rep /\
    cr_status rep = "BROKEN" /\ cr_broken_at_id rep = Some i2.
Proof.
  intros last r1 r2 d' Hinv Hts Hh Hwin Hip.
  pose proof (audit_inv_append W d args1 ctx t1 i1 Hinv (ctx_tenant_id ctx)) as [Hc1 Hs1].
  fold last r1 in Hc1, Hs1.
  assert (tenant_rows (ctx_tenant_id ctx) d' =
          tenant_rows (ctx_tenant_id ctx) (on_audit_log (fun l => l ++ [r1]) d) ++ [r2]) as Hrows.
  { unfold tenant_rows, d'. cbn [audit on_audit_log on_audit audit_log].
    rewrite !List.filter_app. cbn [List.filter].
    unfold r1, r2. rewrite !for_tenant_record. by rewrite <- app_assoc. }
  assert (tenant_rows (ctx_tenant_id ctx) (on_audit_log (fun l => l ++ [r1]) d) =
          tenant_rows (ctx_tenant_id ctx) d ++ [r1]) as Hrows1.
  { unfold tenant_rows. cbn [audit on_audit_log on_audit audit_log].
    rewrite filter_snoc. unfold r1. by rewrite for_tenant_record. }
  assert (StronglySorted ts_lt (tenant_rows (ctx_tenant_id ctx) d')) as Hs.
  { rewrite Hrows. apply StronglySorted_snoc; [done|].
    eapply Forall_impl; [apply sorted_le_last; [exact Hs1|by rewrite Hrows1, last_snoc]|].
    intros y Hy. unfold ts_lt. cbv beta in Hy. lia. }
  rewrite verify_chain_run. cbn [fst live fresh_session]. rewrite window_all, Hrows by done.
  rewrite Hrows, existsb_app in Hip. eexists. split; [apply verify_records_broken; [|done|]|done].
  { destruct native_inet; [|done]. simpl in Hip |- *. by apply orb_false_iff in Hip as [Hip _]. }
  rewrite Hrows1, last_hash_snoc. unfold r2. rewrite audit_record_prev.
  fold last. intros Heq. by apply Hh.
Qed.
End AuditTheorems.

(** ** Masking *)

(** No value is stored under a sensitive key, at any depth. *)
Inductive masked : pyval -> Prop :=
| masked_dict d :
    Forall (fun kv => (sensitive_key kv.1 = true /\ kv.2 = PStr "***") \/
                      (sensitive_key kv.1 = false /\ masked kv.2)) d ->
    masked (PDict d)
| masked_list l : Forall masked l -> masked (PList l)
| masked_other v :
    match v with PDict _ | PList _ => False | _ => True end -> masked v.

Section PyvalInd.
Variable P : pyval -> Prop.
Hypothesis P_other : forall v, match v with PDict _ | PList _ => False | _ => True end -> P v.
Hypothesis P_list : forall l, Forall P l -> P (PList l).
Hypothesis P_dict : forall d, Forall (fun kv => P kv.2) d -> P (PDict d).

Fixpoint pyval_ind' (v : pyval) : P v :=
  match v with
  | PList l => P_list l ((fix go l : Forall P l :=
      match l with
      | [] => Forall_nil_2 _
      | x :: l' => Forall_cons_2 _ x l' (pyval_ind' x) (go l')
      end) l)
  | PDict d => P_dict d ((fix go d : Forall (fun kv => P kv.2) d :=
      match d with
      | [] => Forall_nil_2 _
      | kv :: d' => Forall_cons_2 _ kv d' (pyval_ind' kv.2) (go d')
      end) d)
  | v => P_other v I
  end.
End PyvalInd.

Lemma mask_sensitive_masked v : masked (_mask_sensitive v).
Proof.
  induction v as [v Hv|l IH|d IH] using pyval_ind'.
  - destruct v; try done; by apply masked_other.
  - apply masked_list. rewrite Forall_fmap. done.
  - apply masked_dict. rewrite Forall_fmap. eapply Forall_impl; [exact IH|].
    intros [k v] Hv. simpl in *. destruct (sensitive_key k); auto.
Qed.

Lemma masked_fixed v : masked v -> _mask_sensitive v = v.
Proof.
  induction v as [v Hv|l IH|d IH] using pyval_ind'; intros Hm.
  - by destruct v.
  - simpl. f_equal. inversion Hm as [|l' Hl|]; subst; [|done].
    clear Hm. induction Hl as [|x l Hx Hl IHl]; simpl; [done|].
    apply Forall_cons in IH as [IHx IH]. by rewrite IHx, IHl.
  - simpl. f_equal. inversion Hm as [d' Hd| |]; subst; [|done].
    clear Hm. induction Hd as [|[k x] d Hx Hd IHd]; simpl; [done|].
    apply Forall_cons in IH as [IHx IH]. simpl in *. rewrite IHd by done.
    destruct Hx as [[-> ->]|[-> Hx]]; [done|by rewrite IHx].
Qed.

(** Masking leaves no value under a key whose lower-case name contains
    "password", "pin", "secret" or "token", at any depth, and masking again
    changes nothing. *)
Theorem mask_sensitive_complete v :
  masked (_mask_sensitive v) /\ _mask_sensitive (_mask_sensitive v) = _mask_sensitive v.
Proof. split; [|apply masked_fixed]; apply mask_sensitive_masked. Qed.

(** What is stored of a payload is the masked and normalised payload when its
    canonical text fits in 32 KiB, and otherwise the digest and size of that text. *)
Theorem sanitize_payload_spec (W : world Db) (d : pydict) :
  let masked_payload := _normalize_value (_mask_sensitive (PDict d)) in
  let text := canonical_json masked_payload in
  _sanitize_payload W (Some d) = Some masked_payload /\ Z.of_nat (String.length text) <= 32768 \/
  _sanitize_payload W (Some d) = Some (JDict [("_truncated", JBool true);
     ("hash", JStr (sha256_hex W text)); ("size_bytes", JInt (Z.of_nat (String.length text)))]) /\
  Z.of_nat (String.length text) > 32768.
Proof.
  intros m text. unfold _sanitize_payload, _truncate_payload, m, text. simpl.
  destruct (Z.leb_spec (Z.of_nat (String.length (canonical_json
    (_normalize_value (_mask_sensitive (PDict d)))))) MAX_JSON_BYTES) as [H|H];
    simpl in H; rewrite ?(proj2 (Z.leb_le _ _)), ?(proj2 (Z.leb_gt _ _)) by exact H;
    unfold MAX_JSON_BYTES in H; [left|right]; (split; [done|lia]).
Qed.

(** The accounting export audit stores its [erp_mapping_id] masked: "mapping"
    contains "pin". *)
Example erp_mapping_id_is_masked :
  _mask_sensitive (PDict [("erp_mapping_id", PUuid "m-1")]) = PDict [("erp_mapping_id", PStr "***")].
Proof. reflexivity. Qed.

(** ** Witnesses *)

Lemma window_check lo hi l :
  forallb (fun r => (lo <=? au_ts r) && (au_ts r <=? hi)) l = true ->
  Forall (fun r => lo <= au_ts r <= hi) l.
Proof.
  induction l as [|r l IH]; simpl; intros H; [constructor|].
  apply andb_prop in H as [Hr H]. apply andb_prop in Hr as [H1 H2].
  constructor; [by split; apply Z.leb_le|by apply IH].
Qed.

Definition demo_args (event : string) : audit_args :=
  MkAuditArgs event "invoice" "inv-1" "UPDATE" AuditVisibility.INTERNAL
    None (Some [("amount_due", PInt 5); ("token", PStr "x")]) None None (Some "r") None.

Definition demo_context (ip : option string) : RequestContext :=
  MkRequestContext ActorType.USER (Some "u") None None ip None None None None.

(** Three calls, the last one of a request from an address. *)
Lemma audit_chain_verifies_witness :
  let s := (for_each [(demo_args "A", None); (demo_args "B", None); (demo_args "C", Some (demo_context (Some "10.0.0.1")))]
              (fun c => audit_call demo_world c.1 c.2) (fresh_session empty_db)).2 in
  (verify_chain demo_world false 0 9000000 None s).1 = Ok (MkChainReport "OK" 3 None EmptyString) /\
  (verify_chain demo_world true 0 9000000 None s).1 = Raise TypeError.
Proof.
  split; (eapply eq_trans; [apply audit_chain_verifies; [split; apply audit_inv_empty|]|vm_compute; reflexivity]);
    apply window_check; vm_compute; reflexivity.
Defined.

Definition with_action (action : string) (r : AuditLog) : AuditLog :=
  MkAuditLog (au_id r) (au_ts r) (au_tenant_id r) (au_actor_type r) (au_actor_id r) (au_actor_email r)
    (au_actor_roles r) (au_ip r) (au_user_agent r) (au_request_id r) (au_trace_id r) (au_event_type r)
    (au_entity_type r) (au_entity_id r) action (au_visibility r) (au_before r) (au_after r) (au_diff r)
    (au_external_refs r) (au_reason r) (au_attachment_key r) (au_prev_hash r) (au_hash r).

Definition demo_logged : Db := live (audit_call demo_world (demo_args "A") None (fresh_session empty_db)).2.

(** The action of a stored record is rewritten: the log no longer verifies. *)
Lemma audit_tamper_evident_witness :
  match (verify_chain demo_world true 0 9 None (fresh_session (on_audit_log (map (with_action "DELETE")) demo_logged))).1 with
  | Ok report => cr_status report <> "OK"
  | Raise _ => False
  end.
Proof.
  destruct (verify_chain _ _ _ _ _ _).1 as [report|e] eqn:Hv; [|vm_compute in Hv; discriminate Hv]. intros Hok.
  destruct (audit_tamper_evident demo_world true 0 9 None demo_logged (on_audit_log (map (with_action "DELETE")) demo_logged)
    (MkChainReport "OK" 1 None EmptyString) report) as [H|(x & y & Hxy & He)];
    [intros x Hx; discriminate Hx|vm_compute; reflexivity|reflexivity|exact Hv|exact Hok|vm_compute; reflexivity| |].
  - apply Forall2_cons_1 in H as [H _]. apply same_action in H. vm_compute in H. discriminate H.
  - apply Hxy. by injection He.
Defined.

Lemma audit_concurrent_fork_witness :
  let r1 := audit_record demo_world (demo_args "A") system_context None 1 "a" in
  let r2 := audit_record demo_world (demo_args "B") system_context None 2 "b" in
  exists rep, (verify_chain demo_world true 0 9 None
                 (fresh_session (on_audit_log (fun l => l ++ [r1; r2]) empty_db))).1 = Ok rep /\
    cr_status rep = "BROKEN" /\ cr_broken_at_id rep = Some "b".
Proof.
  apply (audit_concurrent_fork demo_world empty_db (demo_args "A") (demo_args "B")
           system_context 1 2 "a" "b" true).
  - apply audit_inv_empty.
  - reflexivity.
  - vm_compute. discriminate.
  - apply window_check. vm_compute. reflexivity.
  - vm_compute. reflexivity.
Defined.
