(* ===== verification/JobRuns.v ===== *)
(** * Billing jobs: their runs, their keys and their locks

    services/billing_job_runs.py and services/job_locks.py. *)
From Stdlib Require Import Ascii.
From S2P Require Import Prelude Json Enums Models.

Definition opt_text (o : option string) : json := from_option JStr JNull o.

(** ** Locks and keys (services/job_locks.py) *)
Module JobLocks.
Definition to_signed_int64 (value : Z) : Z :=
  let value := Z.land value (Z.ones 64) in
  if 2 ^ 63 <=? value then value - 2 ^ 64 else value.

(** The digits of a hexadecimal digest. *)
Definition hex_digit (c : ascii) : Z :=
  let n := Z.of_nat (nat_of_ascii c) in
  if n <? 58 then n - 48 else n - 87.

Fixpoint from_hex (acc : Z) (s : list ascii) : Z :=
  match s with [] => acc | c :: r => from_hex (16 * acc + hex_digit c) r end.

Section Locks.
Context (W : world Db).

Definition make_stable_key (job_type : string) (scope : dict) (provided : option string) : string :=
  match str_or_none provided with
  | Some key => key
  | None => sha256_hex W (job_type +:+ ":" +:+ canonical_json (JDict scope))
  end.

(** The first eight bytes of the digest. *)
Definition make_lock_token (job_type scope_key : string) : Z :=
  to_signed_int64 (from_hex 0 (take 16 (String.list_ascii_of_string (sha256_hex W (job_type +:+ ":" +:+ scope_key))))).
End Locks.

(** Who holds a token: the sessions of the database, and the threads of this process. *)
Record lock_state := MkLocks {
  held_in_database : list Z;
  held_in_process : list Z;
}.

(** What [advisory_lock] yields: when the database refuses the lock, that of the process is
    tried. *)
Definition advisory_lock (locks : lock_state) (token : Z) : bool :=
  let signed_token := to_signed_int64 token in
  if bool_decide (signed_token ∈ held_in_database locks) then negb (bool_decide (signed_token ∈ held_in_process locks))
  else true.

(** A token is a 64-bit integer, and a token made is taken as it is. *)
Lemma to_signed_int64_range v : - 2 ^ 63 <= to_signed_int64 v < 2 ^ 63 /\ to_signed_int64 v mod 2 ^ 64 = v mod 2 ^ 64.
Proof.
  unfold to_signed_int64. rewrite Z.land_ones by lia.
  pose proof (Z.mod_pos_bound v (2 ^ 64) ltac:(lia)) as Hb. destruct (Z.leb_spec (2 ^ 63) (v mod 2 ^ 64)).
  - split; [lia|]. rewrite Zminus_mod, Z_mod_same_full, Z.sub_0_r, !Z.mod_mod by lia. done.
  - split; [lia|]. by rewrite Z.mod_mod by lia.
Qed.

Lemma to_signed_int64_idemp v : to_signed_int64 (to_signed_int64 v) = to_signed_int64 v.
Proof.
  destruct (to_signed_int64_range v) as [Hr Hm]. destruct (to_signed_int64_range (to_signed_int64 v)) as [Hr' Hm'].
  rewrite Hm in Hm'. pose proof (Z.div_mod (to_signed_int64 (to_signed_int64 v)) (2 ^ 64)).
  pose proof (Z.div_mod (to_signed_int64 v) (2 ^ 64)). rewrite Hm in *. rewrite Hm' in *. lia.
Qed.

(** A lock that another process holds in the database is taken all the same. *)
Example lock_of_other_process_taken : advisory_lock (MkLocks [7] []) 7 = true.
Proof. reflexivity. Qed.
End JobLocks.

(** ** Runs (services/billing_job_runs.py) *)
Module BillingJobRunService.
Section Jobs.
Context (W : world Db).

(** [order_by(started_at.desc()).first()] *)
Definition find_by_correlation (job_type : BillingJobType.BillingJobType) (correlation_id : string)
    : PM (option BillingJobRun) :=
  rows ← q_all (fun d => job_runs (billing d))
    (fun r => (bj_job_type r =? job_type)%py && (bj_correlation_id r =? Some correlation_id)%py);
  mret (head (sort_on (fun r => - bj_started_at r) rows)).

Definition start (job_type : BillingJobType.BillingJobType) (params : dict)
    (correlation_id invoice_id : option string) : PM BillingJobRun :=
  updated_at ← now W;
  id ← uuid4 W;
  started_at ← now W;
  let run := MkBillingJobRun id job_type (Some (JDict params)) BillingJobStatus.STARTED started_at None None
    None None correlation_id invoice_id (Some updated_at) None in
  modify (on_job_runs (fun l => l ++ [run]));;
  mret run.

(** [int(delta.total_seconds() * 1000)] of a difference in microseconds *)
Definition _duration_ms (started_at finished_at : Z) : Z := Z.quot (finished_at - started_at) 1000.

Definition assign (f : BillingJobRun -> BillingJobRun) (run : BillingJobRun) : PM unit :=
  modify (on_job_runs (update_where (fun r => (bj_id r =? bj_id run)%py) f)).

Definition succeed (run : BillingJobRun) (metrics : dict) (result_ref : option dict) : PM unit :=
  finished_at ← now W;
  assign (fun r =>
    match result_ref with Some ref => set_bj_result_ref (Some (JDict ref)) | None => id end
      (set_bj_duration_ms (Some (_duration_ms (bj_started_at run) finished_at))
        (set_bj_updated_at (Some finished_at) (set_bj_finished_at (Some finished_at)
          (set_bj_metrics (Some (JDict metrics)) (set_bj_status BillingJobStatus.SUCCESS r)))))) run.

(** [db.add(run)]: a run whose insert was rolled back is inserted again. *)
Definition fail (run : BillingJobRun) (error : string) : PM unit :=
  finished_at ← now W;
  let failed r := set_bj_duration_ms (Some (_duration_ms (bj_started_at run) finished_at))
    (set_bj_updated_at (Some finished_at) (set_bj_finished_at (Some finished_at)
      (set_bj_error (Some error) (set_bj_status BillingJobStatus.FAILED r)))) in
  stored ← q_first (fun d => job_runs (billing d)) (fun r => (bj_id r =? bj_id run)%py);
  match stored with
  | Some _ => assign failed run
  | None => modify (on_job_runs (fun l => l ++ [failed run]))
  end.

(** [with nullcontext() if session.in_transaction() else session.begin(): ...] *)
Definition txn_context {A} (in_transaction : bool) (m : PM A) : PM A :=
  if in_transaction then m else
  a ← try_except m (fun e => Some (rollback;; raise e));
  commit;;
  mret a.

(** The body of a job in a transaction of its own, or in that of the caller; what it raises
    is recorded after the rollback.  After a failed flush the caller's transaction is over,
    and the record cannot be flushed. *)
Definition in_job {A} (str_exc : exn -> string) (in_transaction : bool) (run : BillingJobRun) (m : PM A) : PM A :=
  try_except (a ← m; when (negb in_transaction) commit;; mret a)
    (fun e => Some (
      object ← q_first (fun d => job_runs (billing d)) (fun r => (bj_id r =? bj_id run)%py);
      match in_transaction, e with
      | true, IntegrityError _ => rollback;; raise PendingRollbackError
      | _, _ =>
          when (negb in_transaction) rollback;;
          fail (default run object) (str_exc e);;
          raise e
      end)).
End Jobs.
End BillingJobRunService.
