(* ===== verification/Ledger.v ===== *)
(** * Accounts, balances and ledger entries

    repositories/accounts_repository.py, repositories/ledger_repository.py,
    services/ledger/accounts_service.py and services/ledger/balance_service.py. *)
From S2P Require Import Prelude Json Enums Models.

Definition is_hold_type (t : PostingBatchType.PostingBatchType) : bool :=
  match t with
  | PostingBatchType.AUTH | PostingBatchType.HOLD
  | PostingBatchType.DISPUTE_HOLD | PostingBatchType.DISPUTE_RELEASE => true
  | _ => false
  end.

(** The columns of a balance row at its creation. *)
Definition zero_balance : AccountBalance := MkAccountBalance 0 0 0 None.

Definition balance_of (d : Db) (account_id : Z) : option AccountBalance :=
  balances (posting d) !! account_id.

(** [AccountBalance(account_id=...)], added and flushed: the account must exist. *)
Definition insert_balance (account_id : Z) : PM AccountBalance :=
  account ← q_first (fun d => accounts (posting d)) (fun a => acc_id a =? account_id);
  match account with
  | None => raise (IntegrityError "account_balances.account_id")
  | Some _ =>
      modify (on_balances (fun m => <[account_id := zero_balance]> m));;
      mret zero_balance
  end.

Definition query_balance (account_id : Z) : PM (option AccountBalance) :=
  gets (fun d => balance_of d account_id).

Definition write_balance (account_id : Z) (b : AccountBalance) : PM unit :=
  modify (on_balances (fun m => <[account_id := b]> m)).

(** ** AccountsRepository *)
Module AccountsRepository.
Section Repository.
(** The unique tuple an account is looked up by. *)
Definition matches (client_id : string) (owner_type : AccountOwnerType.AccountOwnerType)
    (resolved_owner_id currency : string) (account_type : AccountType.AccountType)
    (card_id tariff_id : option string) (a : Account) : bool :=
  (eqb (acc_client_id a) client_id && eqb (acc_owner_type a) owner_type &&
   eqb (acc_owner_id a) (Some resolved_owner_id) && eqb (acc_currency a) currency &&
   eqb (acc_type a) account_type && eqb (acc_card_id a) card_id &&
   eqb (acc_tariff_id a) tariff_id)%bool.

Definition get_or_create_account (client_id : string)
    (owner_type : AccountOwnerType.AccountOwnerType) (owner_id : option string)
    (currency : string) (account_type : AccountType.AccountType)
    (card_id tariff_id : option string) (status : AccountStatus.AccountStatus)
    (auto_commit : bool) : PM Account :=
  let resolved_owner_id := str_or owner_id client_id in
  account ← q_first (fun d => accounts (posting d))
    (matches client_id owner_type resolved_owner_id currency account_type card_id tariff_id);
  match account with
  | Some a => mret a
  | None =>
      id ← gets (fun d => next_id (accounts (posting d)));
      let account := {|
        acc_id := id; acc_client_id := client_id; acc_owner_type := owner_type;
        acc_owner_id := Some resolved_owner_id; acc_card_id := card_id;
        acc_tariff_id := tariff_id; acc_currency := currency; acc_type := account_type;
        acc_status := status |} in
      modify (on_accounts (fun l => l ++ [account]));;
      when auto_commit commit;;
      mret account
  end.

Definition set_status (account_id : Z) (status : AccountStatus.AccountStatus) : PM Account :=
  account ← q_one (fun d => accounts (posting d)) (fun a => acc_id a =? account_id);
  modify (on_accounts (update_where (fun a => acc_id a =? account_id) (set_acc_status status)));;
  commit;;
  mret (set_acc_status status account).

Definition freeze_account (account_id : Z) : PM Account :=
  set_status account_id AccountStatus.FROZEN.

Definition close_account (account_id : Z) : PM Account :=
  set_status account_id AccountStatus.CLOSED.

Definition get_balance (account_id : Z) : PM AccountBalance :=
  balance ← query_balance account_id;
  match balance with
  | Some b => mret b
  | None => b ← insert_balance account_id; commit;; mret b
  end.
End Repository.
End AccountsRepository.

(** [AccountsService.get_or_create_owner_account] *)
Definition get_or_create_owner_account (owner_type : AccountOwnerType.AccountOwnerType)
    (owner_id : string) (account_type : AccountType.AccountType) (currency : string)
    (client_id card_id tariff_id : option string) : PM Account :=
  let resolved_client := str_or client_id owner_id in
  AccountsRepository.get_or_create_account resolved_client owner_type (Some owner_id)
    currency account_type card_id tariff_id AccountStatus.ACTIVE true.

(** ** BalanceService *)
Module BalanceService.
Definition current_balance (account_id : Z) : PM decimal :=
  balance ← query_balance account_id;
  match balance with
  | Some b => mret (bal_current b)
  | None => b ← insert_balance account_id; mret (bal_current b)
  end.

(** The effect of an entry on the row of its account. *)
Definition entry_effect (direction : LedgerDirection.LedgerDirection) (amount : decimal)
    (posting_type : PostingBatchType.PostingBatchType) (b : AccountBalance) : AccountBalance :=
  if is_hold_type posting_type then
    let moved := if decide (direction = LedgerDirection.DEBIT) then amount else - amount in
    set_bal_available (bal_available b - moved) (set_bal_hold (bal_hold b + moved) b)
  else
    let current := bal_current b in
    let current' := if decide (direction = LedgerDirection.CREDIT) then current + amount
                    else current - amount in
    set_bal_available (current' - bal_hold b) (set_bal_current current' b).

Definition apply_entry (entry : LedgerEntry) (posting_type : PostingBatchType.PostingBatchType)
    : PM unit :=
  balance ← query_balance (le_account_id entry);
  match balance with
  | None => raise NoResultFound
  | Some b =>
      write_balance (le_account_id entry)
        (set_bal_updated_at (Some (le_posted_at entry))
           (entry_effect (le_direction entry) (le_amount entry) posting_type b))
  end.

Record snapshot := MkSnapshot { snap_current : decimal; snap_available : decimal; snap_hold : decimal }.

(** The rows whose account is in [account_ids or [0]], by account id. *)
Definition snapshot_balances (account_ids : list Z) : PM (gmap Z snapshot) :=
  let ids := match account_ids with [] => [0] | _ => account_ids end in
  gets (fun d =>
    (fun b => MkSnapshot (bal_current b) (bal_available b) (bal_hold b)) <$>
      filter (fun kv => kv.1 ∈ ids) (balances (posting d))).
End BalanceService.

(** ** LedgerRepository *)
Module LedgerRepository.
Section Repository.
Context (W : world Db).

(** [order_by(posted_at.asc(), id.asc())] *)
Definition posted_le (a b : LedgerEntry) : Prop :=
  le_posted_at a < le_posted_at b \/ (le_posted_at a = le_posted_at b /\ le_id a <= le_id b).

#[global] Instance posted_le_dec : RelDecision posted_le.
Proof. intros a b. unfold posted_le. apply _. Defined.

Definition add_entry (entry : LedgerEntry) : PM unit :=
  modify (on_ledger_entries (fun l => l ++ [entry])).

Definition post_entry (account_id : Z) (operation_id posting_id : option string)
    (direction : LedgerDirection.LedgerDirection) (amount : decimal) (currency : string)
    (posted_at value_date : option Z) (entry_id : option string)
    (balance_before balance_after_override : option decimal)
    (require_operation sync_balance auto_commit : bool) : PM LedgerEntry :=
  (match operation_id with
   | Some op =>
       if require_operation then
         exists_ ← q_first (fun d => operations (scenario d)) (fun o => op_id o =? op)%py;
         match exists_ with Some _ => mret tt | None => raise (OperationNotFound op) end
       else mret tt
   | None => mret tt
   end);;
  row ← query_balance account_id;
  balance ← match row with Some b => mret b | None => insert_balance account_id end;
  let current := bal_current balance in
  let computed_after :=
    match balance_after_override with
    | Some after => after
    | None => if decide (direction = LedgerDirection.CREDIT) then current + amount
              else current - amount
    end in
  now_ ← match posted_at with Some t => mret t | None => now W end;
  posting_id_ ← match posting_id with Some i => mret i | None => uuid4 W end;
  entry_id_ ← match entry_id with Some i => mret i | None => uuid4 W end;
  id ← gets (fun d => next_id (ledger_entries (posting d)));
  let entry := {|
    le_id := id; le_entry_id := entry_id_; le_posting_id := posting_id_;
    le_account_id := account_id; le_operation_id := operation_id;
    le_direction := direction; le_amount := amount; le_currency := currency;
    le_balance_before := Some (default current balance_before);
    le_balance_after := Some computed_after; le_posted_at := now_;
    le_value_date := value_date; le_context := None |} in
  add_entry entry;;
  when sync_balance
    (write_balance account_id
       (set_bal_updated_at (Some now_)
          (set_bal_available computed_after (set_bal_current computed_after balance))));;
  when auto_commit commit;;
  mret entry.

Definition get_entries (account_id : Z) (start_date end_date : option Z) : PM (list LedgerEntry) :=
  gets (fun d =>
    merge_sort posted_le (List.filter (fun e =>
      (le_account_id e =? account_id) &&
      from_option (fun t => t <=? le_posted_at e) true start_date &&
      from_option (fun t => le_posted_at e <=? t) true end_date)
      (ledger_entries (posting d)))).
End Repository.
End LedgerRepository.

(** ** Facts *)

(** The money available is what is on the account and not held. *)
Definition available_ok (b : AccountBalance) : Prop :=
  bal_available b = bal_current b - bal_hold b.

Definition account_exists (d : Db) (account_id : Z) : Prop :=
  exists a, In a (accounts (posting d)) /\ acc_id a = account_id.

(** The row of an account, created when missing. *)
Definition ensure_row (account_id : Z) (m : gmap Z AccountBalance) : gmap Z AccountBalance :=
  match m !! account_id with Some _ => m | None => <[account_id := zero_balance]> m end.

(** The signed amounts an entry adds to the current balance and to the holds. *)
Definition current_delta (direction : LedgerDirection.LedgerDirection) (amount : decimal)
    (posting_type : PostingBatchType.PostingBatchType) : decimal :=
  if is_hold_type posting_type then 0
  else if decide (direction = LedgerDirection.CREDIT) then amount else - amount.

Definition hold_delta (direction : LedgerDirection.LedgerDirection) (amount : decimal)
    (posting_type : PostingBatchType.PostingBatchType) : decimal :=
  if is_hold_type posting_type then
    if decide (direction = LedgerDirection.DEBIT) then amount else - amount
  else 0.

Lemma effect_current dir a ty b :
  bal_current (BalanceService.entry_effect dir a ty b) = bal_current b + current_delta dir a ty.
Proof.
  unfold BalanceService.entry_effect, current_delta. destruct (is_hold_type ty); simpl; [lia|].
  destruct (decide _); lia.
Qed.

Lemma effect_hold dir a ty b :
  bal_hold (BalanceService.entry_effect dir a ty b) = bal_hold b + hold_delta dir a ty.
Proof.
  unfold BalanceService.entry_effect, hold_delta. destruct (is_hold_type ty); simpl; [done|lia].
Qed.

Lemma effect_available dir a ty b :
  available_ok b -> available_ok (BalanceService.entry_effect dir a ty b).
Proof.
  unfold available_ok, BalanceService.entry_effect. intros Hb.
  destruct (is_hold_type ty); simpl; destruct (decide _); lia.
Qed.

Lemma ensure_row_lookup i m :
  ensure_row i m !! i = Some (default zero_balance (m !! i)).
Proof.
  unfold ensure_row. destruct (m !! i) as [b|] eqn:Hb; simpl; [done|]. apply lookup_insert_eq.
Qed.

Lemma insert_ensure_row i b m : <[i := b]> (ensure_row i m) = <[i := b]> m.
Proof. unfold ensure_row. destruct (m !! i); [done|]. apply insert_insert_eq. Qed.

Lemma head_filter_in {A} (P : A -> bool) l x : In x l -> P x = true ->
  exists y, head (List.filter P l) = Some y.
Proof.
  intros Hx HP. destruct (List.filter P l) as [|y r] eqn:Hf; simpl; [|by eauto].
  assert (In x []) as []. rewrite <- Hf. by apply List.filter_In.
Qed.

Lemma head_filter_some {A} (P : A -> bool) l y :
  head (List.filter P l) = Some y -> In y l /\ P y = true.
Proof.
  intros H. apply List.filter_In. destruct (List.filter P l); simplify_eq/=. by left.
Qed.

Lemma query_or_insert i s :
  account_exists (live s) i ->
  (row ← query_balance i;
   match row with Some b => mret b | None => insert_balance i end) s =
    (Ok (default zero_balance (balance_of (live s) i)),
     Session (on_balances (ensure_row i) (live s)) (saved s) (ticks s) (uuids s) (races s)).
Proof.
  intros (a & Ha & Hi). unfold query_balance, insert_balance, balance_of, ensure_row, q_first.
  run_steps. destruct (balances (posting (live s)) !! i) as [b|] eqn:Hb.
  - destruct s as [[p sc il bi fl au] sv ti uu ra]. simpl in *. unfold on_balances, on_posting.
    simpl. rewrite Hb. by destruct p.
  - destruct (head_filter_in (fun a => acc_id a =? i) _ _ Ha) as [y Hy]; [by apply Z.eqb_eq|].
    cbn beta. rewrite Hy. simpl. unfold on_balances, on_posting. simpl. by rewrite Hb.
Qed.

Lemma current_balance_ok i s :
  account_exists (live s) i ->
  BalanceService.current_balance i s =
    (Ok (bal_current (default zero_balance (balance_of (live s) i))),
     Session (on_balances (ensure_row i) (live s)) (saved s) (ticks s) (uuids s) (races s)).
Proof.
  intros Ha. apply query_or_insert in Ha. revert Ha. unfold BalanceService.current_balance.
  run_steps. destruct (query_balance i s) as [[[b|]|e] t]; [by intros [= <- <-]| |done].
  destruct (insert_balance i t) as [[b|e] u]; [by intros [= <- <-]|done].
Qed.

(** Without [auto_commit] the services commit nothing. *)
Lemma uncommitted_insert_balance i : uncommitted (insert_balance i).
Proof. unfold insert_balance, q_first. auto with uncommitted. Qed.

Lemma uncommitted_current_balance i : uncommitted (BalanceService.current_balance i).
Proof.
  unfold BalanceService.current_balance, query_balance.
  auto using uncommitted_insert_balance with uncommitted.
Qed.

Lemma uncommitted_apply_entry e ty : uncommitted (BalanceService.apply_entry e ty).
Proof. unfold BalanceService.apply_entry, query_balance, write_balance. auto with uncommitted. Qed.

Lemma uncommitted_post_entry W i op pid dir a c at_ vd eid before after req sync :
  uncommitted (LedgerRepository.post_entry W i op pid dir a c at_ vd eid before after req sync false).
Proof.
  unfold LedgerRepository.post_entry, query_balance, write_balance, LedgerRepository.add_entry,
    q_first.
  cbv zeta. auto 20 using uncommitted_insert_balance with uncommitted.
Qed.

#[export] Hint Resolve uncommitted_insert_balance uncommitted_current_balance
  uncommitted_apply_entry uncommitted_post_entry : uncommitted.

(** Looking an account up, or creating it, always succeeds and touches only the table of
    accounts. *)
Lemma get_or_create_run client ot oid currency ty card tariff st ac (s : session Db) :
  exists a t, AccountsRepository.get_or_create_account client ot oid currency ty card tariff st ac s
      = (Ok a, t) /\
    In a (accounts (posting (live t))) /\ acc_currency a = currency /\
    (exists l, live t = on_accounts (fun x => x ++ l) (live s)) /\
    (saved t = saved s \/ saved t = live t) /\
    ticks t = ticks s /\ uuids t = uuids s /\ races t = races s /\
    (numbered acc_id (accounts (posting (live s))) -> numbered acc_id (accounts (posting (live t)))).
Proof.
  unfold AccountsRepository.get_or_create_account, q_first. run_steps.
  set (P := AccountsRepository.matches _ _ _ _ _ _ _).
  destruct (head (List.filter P (accounts (posting (live s))))) as [a|] eqn:Ha.
  - exists a, s. apply head_filter_some in Ha as [Hin HP]. split; [done|]. split; [done|].
    split.
    { unfold P, AccountsRepository.matches in HP. repeat rewrite andb_true_iff in HP.
      destruct HP as ((((((_ & _) & _) & Hc) & _) & _) & _). by apply bool_decide_eq_true in Hc. }
    split; [|by auto]. exists []. destruct (live s) as [[] ? ? ? ? ?]. unfold on_accounts, on_posting.
    simpl. by rewrite app_nil_r.
  - destruct ac; eexists _, _; (split; [reflexivity|]); simpl; (split; [apply in_app_iff; right; by left|]);
      (split; [done|]); (split; [by eexists|]); repeat split; auto; intros Hn; by apply numbered_snoc.
Qed.

(** The account that a lookup returns has the tuple it was looked up by. *)
Lemma get_or_create_matches client ot oid currency ty card tariff st ac (s : session Db) a t :
  AccountsRepository.get_or_create_account client ot oid currency ty card tariff st ac s = (Ok a, t) ->
  AccountsRepository.matches client ot (str_or oid client) currency ty card tariff a = true.
Proof.
  unfold AccountsRepository.get_or_create_account, q_first. run_steps.
  set (P := AccountsRepository.matches _ _ _ _ _ _ _).
  destruct (head (List.filter P _)) as [x|] eqn:Hx.
  - run_steps. intros [= <- _]. by apply head_filter_some in Hx as [_ Hx].
  - destruct ac; run_steps; intros [= <- _]; unfold P, AccountsRepository.matches, eqb; simpl;
      by rewrite !bool_decide_eq_true_2.
Qed.

(** ** Theorems *)

(** An account is looked up by its unique tuple: the call returns an account with
    that tuple, adds at most that account to the table, and a second call returns the
    same account and changes nothing. *)
Theorem get_or_create_account_idempotent client owner_type owner_id currency ty card tariff
    status auto_commit (s : session Db) :
  let call := AccountsRepository.get_or_create_account client owner_type owner_id currency ty
                card tariff status auto_commit in
  exists a t,
    call s = (Ok a, t) /\
    AccountsRepository.matches client owner_type (str_or owner_id client) currency ty card tariff a
      = true /\
    (t = s \/ accounts (posting (live t)) = accounts (posting (live s)) ++ [a]) /\
    call t = (Ok a, t).
Proof.
  intros call. unfold call, AccountsRepository.get_or_create_account, q_first. run_steps.
  set (P := AccountsRepository.matches _ _ _ _ _ _ _).
  destruct (head (List.filter P (accounts (posting (live s))))) as [a|] eqn:Ha.
  - exists a, s. rewrite Ha. repeat split; [|by left]. by apply head_filter_some in Ha as [_ HP].
  - set (a := MkAccount _ _ _ _ _ _ _ _ _). assert (P a = true) as HP.
    { unfold P, AccountsRepository.matches, eqb, a. simpl. by rewrite !bool_decide_true. }
    assert (forall l, head (List.filter P l) = None -> List.filter P (l ++ [a]) = [a]) as Hf.
    { intros l Hl. rewrite filter_snoc, HP. by destruct (List.filter P l). }
    destruct auto_commit; eexists a, _; (split; [reflexivity|split; [done|split; [by right|]]]);
      cbn; by rewrite Hf.
Qed.

(** ** Entries that write the balance themselves

    [post_entry] with [sync_balance]: the balance row takes the new current amount as its
    available amount too.  The instant and the entry's identifier may be given. *)
Section Synced.
Context (W : world Db) (i : Z) (op pid : option string) (dir : LedgerDirection.LedgerDirection)
  (amount : decimal) (currency : string) (at_ : option Z) (eid : option string) (req auto_commit : bool).

Definition synced_post : PM LedgerEntry :=
  LedgerRepository.post_entry W i op pid dir amount currency at_ None eid None None
    req true auto_commit.

Definition operation_known (d : Db) : Prop :=
  match op with
  | Some o => exists x, In x (operations (scenario d)) /\ op_id x = o
  | None => True
  end.

Definition synced_after (d : Db) : decimal :=
  let current := bal_current (default zero_balance (balance_of d i)) in
  if decide (dir = LedgerDirection.CREDIT) then current + amount else current - amount.

(** The identifiers and the instants drawn: those that are not given. *)
Definition drawn {A} (o : option A) : nat := match o with None => 1 | Some _ => 0 end.

Definition synced_entry (s : session Db) : LedgerEntry :=
  {| le_id := next_id (ledger_entries (posting (live s)));
     le_entry_id := default (new_uuid W (drawn pid + uuids s)) eid; le_posting_id := default (new_uuid W (uuids s)) pid;
     le_account_id := i; le_operation_id := op; le_direction := dir; le_amount := amount;
     le_currency := currency;
     le_balance_before := Some (bal_current (default zero_balance (balance_of (live s) i)));
     le_balance_after := Some (synced_after (live s)); le_posted_at := default (clock W (ticks s)) at_;
     le_value_date := None; le_context := None |}.

Definition synced_row (s : session Db) : AccountBalance :=
  MkAccountBalance (synced_after (live s)) (synced_after (live s))
    (bal_hold (default zero_balance (balance_of (live s) i))) (Some (default (clock W (ticks s)) at_)).

Definition synced_db (s : session Db) : Db :=
  on_ledger_entries (fun l => l ++ [synced_entry s])
    (on_balances (fun m => <[i := synced_row s]> m) (live s)).

Lemma synced_post_run s :
  account_exists (live s) i -> operation_known (live s) ->
  synced_post s = (Ok (synced_entry s),
    Session (synced_db s) (if auto_commit then synced_db s else saved s) (drawn at_ + ticks s)
      (drawn eid + (drawn pid + uuids s)) (races s)).
Proof.
  intros Ha Hop. unfold synced_post, LedgerRepository.post_entry. cbv zeta.
  erewrite bind_ok.
  2:{ instantiate (1 := s). instantiate (1 := tt). unfold operation_known in Hop.
      destruct op as [o|]; [|reflexivity]. destruct req; [|reflexivity]. destruct Hop as (x & Hx & Ho). unfold q_first. run_steps.
      destruct (head_filter_in (fun o' => eqb (op_id o') o) _ _ Hx) as [y ->]; [|done].
      unfold eqb. by apply bool_decide_eq_true. }
  cbv beta. pose proof (query_or_insert i s Ha) as Hq. unfold mbind at 1 in Hq. unfold M_bind at 1 in Hq.
  unfold query_balance in *. unfold gets in *. simpl in Hq. unfold mbind at 1, M_bind at 1. cbn [fst snd].
  erewrite bind_ok by exact Hq.
  unfold synced_db, synced_entry, synced_row, synced_after, drawn, LedgerRepository.add_entry,
    write_balance, on_balances, on_ledger_entries, on_posting.
  destruct pid, at_, eid, auto_commit; run_steps; simpl; by rewrite insert_ensure_row.
Qed.
End Synced.

(** An entry posted with the repository's default flags makes the whole current
    balance available: what was held on the account is no longer subtracted. *)
Theorem synced_post_ignores_holds (W : world Db) i op dir amount currency (s : session Db) b :
  account_exists (live s) i -> operation_known op (live s) ->
  balance_of (live s) i = Some b -> bal_hold b <> 0 ->
  exists e t b', synced_post W i op None dir amount currency None None true true s = (Ok e, t) /\
    balance_of (live t) i = Some b' /\ bal_hold b' = bal_hold b /\
    bal_available b' = bal_current b' /\ ~ available_ok b'.
Proof.
  intros Ha Hop Hb Hh. eexists _, _, (synced_row W i dir amount None s).
  split; [by apply synced_post_run|]. unfold synced_row, available_ok. rewrite Hb. simpl.
  repeat split; [|lia]. unfold balance_of, synced_db, synced_row. simpl.
  rewrite lookup_insert_eq. by rewrite Hb.
Qed.

Definition held_db : Db :=
  on_balances (fun _ => {[ 1 := MkAccountBalance 1000 700 300 None ]})
    (on_accounts (fun _ => [MkAccount 1 "c" AccountOwnerType.CLIENT (Some "c") None None "RUB"
       AccountType.CLIENT_MAIN AccountStatus.ACTIVE]) empty_db).

Lemma synced_post_ignores_holds_witness :
  exists e t b', synced_post demo_world 1 None None LedgerDirection.CREDIT 50 "RUB" None None true true (fresh_session held_db)
      = (Ok e, t) /\ balance_of (live t) 1 = Some b' /\ ~ available_ok b'.
Proof.
  destruct (synced_post_ignores_holds demo_world 1 None LedgerDirection.CREDIT 50 "RUB"
    (fresh_session held_db) (MkAccountBalance 1000 700 300 None)) as (e & t & b' & H1 & H2 & _ & _ & H3).
  - eexists. split; [left; reflexivity|reflexivity].
  - exact I.
  - reflexivity.
  - discriminate.
  - exists e, t, b'. split; [exact H1|split; [exact H2|exact H3]].
Defined.
