(* ===== verification/FinanceRules.v ===== *)
(** * Financial invariants (services/finance_invariants)

    Module [Rules] is rules.py, module [Checker] is checker.py. *)
From S2P Require Import Prelude Json Instants Enums Models AuditTrail.

Definition violation (name : string) (expected actual : json) : InvariantViolation :=
  MkInvariantViolation name expected actual.

(** [value or 0] is the value itself on the integer columns of the model. *)
Definition or_str (n : Z) : string := print_int n.

(** [str] of a Decimal: its digits, without the zeros that an amount may have carried after
    the point. *)
Definition decimal_text (n : decimal) : string :=
  let fraction := Z.abs n mod 10000 in
  (if n <? 0 then "-" else "") +:+ print_int (Z.abs n / 10000) +:+
  (if fraction =? 0 then ""
   else if fraction mod 1000 =? 0 then "." +:+ digits 1 (fraction / 1000)
   else if fraction mod 100 =? 0 then "." +:+ digits 2 (fraction / 100)
   else if fraction mod 10 =? 0 then "." +:+ digits 3 (fraction / 10)
   else "." +:+ digits 4 fraction).

(** A line of a posting, as [serialize_ledger_lines] makes it. *)
Record ledger_line := MkLedgerLine {
  ll_account_id : Z;
  ll_direction : LedgerDirection.LedgerDirection;
  ll_amount : decimal;
  ll_currency : string;
}.

Definition line_delta (l : ledger_line) : decimal :=
  if decide (ll_direction l = LedgerDirection.CREDIT) then ll_amount l else - ll_amount l.

Module Rules.
(** [totals[currency] = totals.get(currency, 0) + delta], keys in order of
    first use *)
Fixpoint add_total (totals : list (string * decimal)) (currency : string) (delta : decimal)
    : list (string * decimal) :=
  match totals with
  | [] => [(currency, delta)]
  | (c, t) :: rest =>
      if decide (c = currency) then (c, t + delta) :: rest
      else (c, t) :: add_total rest currency delta
  end.

Definition _sum_by_currency (lines : list ledger_line) : list (string * decimal) :=
  foldl (fun totals l => add_total totals (ll_currency l) (line_delta l)) [] lines.

Definition validate_ledger_lines (lines : list ledger_line) : list InvariantViolation :=
  flat_map (fun '(currency, delta) =>
    if delta =? 0 then []
    else [violation "ledger.double_entry" (JStr "debit == credit")
            (JDict [("currency", JStr currency); ("delta", JStr (decimal_text delta))])])
    (_sum_by_currency lines).

Definition check (b : bool) (v : InvariantViolation) : list InvariantViolation :=
  if b then [v] else [].

Definition validate_invoice (invoice : Invoice) : list InvariantViolation :=
  let total_amount := inv_total_amount invoice in
  let tax_amount := inv_tax_amount invoice in
  let total_with_tax := inv_total_with_tax invoice in
  let paid := inv_amount_paid invoice in
  let refunded := inv_amount_refunded invoice in
  let credited := inv_credited_amount invoice in
  let due := inv_amount_due invoice in
  let expected_total_with_tax := total_amount + tax_amount in
  let expected_due := expected_total_with_tax - paid - credited + refunded in
  let expected_balance := paid + credited - refunded + due in
  check (negb (total_with_tax =? expected_total_with_tax))
    (violation "invoice.total_with_tax" (JInt expected_total_with_tax) (JInt total_with_tax)) ++
  check (negb (due =? expected_due))
    (violation "invoice.amount_due" (JInt expected_due) (JInt due)) ++
  check (due <? 0) (violation "invoice.amount_due_non_negative" (JStr ">= 0") (JInt due)) ++
  check (paid <? 0) (violation "invoice.amount_paid_non_negative" (JStr ">= 0") (JInt paid)) ++
  check (refunded <? 0)
    (violation "invoice.amount_refunded_non_negative" (JStr ">= 0") (JInt refunded)) ++
  check (credited <? 0)
    (violation "invoice.credited_amount_non_negative" (JStr ">= 0") (JInt credited)) ++
  check (negb (expected_balance =? expected_total_with_tax))
    (violation "invoice.balance_equation" (JInt expected_total_with_tax)
      (JDict [("paid", JInt paid); ("credited", JInt credited); ("refunded", JInt refunded);
              ("due", JInt due); ("total_with_tax", JInt total_with_tax)])).

Definition validate_payment_application (invoice : Invoice) (amount : Z) : list InvariantViolation :=
  let due := inv_amount_due invoice in
  check (amount <? 0) (violation "payment.amount_non_negative" (JStr ">= 0") (JInt amount)) ++
  check (due <? amount)
    (violation "payment.amount_within_due" (JStr ("<= " +:+ or_str due)) (JInt amount)) ++
  check (bool_decide (inv_status invoice = InvoiceStatus.CANCELLED))
    (violation "payment.invoice_status" (JStr "not_cancelled")
      (JStr (InvoiceStatus.value (inv_status invoice)))).

Definition validate_refund (invoice : Invoice) (amount : Z) : list InvariantViolation :=
  let refundable := inv_amount_paid invoice - inv_amount_refunded invoice in
  check (amount <? 0) (violation "refund.amount_non_negative" (JStr ">= 0") (JInt amount)) ++
  check (refundable <? amount)
    (violation "refund.amount_within_paid" (JStr ("<= " +:+ or_str refundable)) (JInt amount)).

Definition validate_settlement_period (status : BillingPeriodStatus.BillingPeriodStatus)
    (override : bool) : list InvariantViolation :=
  if (bool_decide (status = BillingPeriodStatus.LOCKED) && negb override)%bool then
    [violation "settlement.period_locked" (JStr "override")
       (JStr (BillingPeriodStatus.value status))]
  else [].

Definition validate_settlement_total (total_allocated net_coverage invoice_total : Z)
    : list InvariantViolation :=
  check (negb (total_allocated =? net_coverage))
    (violation "settlement.allocations_net_matches_coverage" (JInt net_coverage)
      (JInt total_allocated)) ++
  check (invoice_total <? Z.abs total_allocated)
    (violation "settlement.allocations_total" (JStr ("<= " +:+ or_str invoice_total))
      (JInt total_allocated)).
End Rules.

Module Checker.
Definition json_of_violation (v : InvariantViolation) : json :=
  JDict [("name", JStr (viol_name v)); ("expected", viol_expected v); ("actual", viol_actual v)].

Definition _build_error (entity_type entity_id : string) (violations : list InvariantViolation)
    (ledger_transaction_id : option string) (context : option dict)
    : FinancialInvariantViolation :=
  let primary := default (violation EmptyString JNull JNull) (head violations) in
  {| fiv_entity_type := entity_type; fiv_entity_id := entity_id;
     fiv_invariant_name := viol_name primary; fiv_expected := viol_expected primary;
     fiv_actual := viol_actual primary; fiv_ledger_transaction_id := ledger_transaction_id;
     fiv_violations := Some violations; fiv_context := context |}.

(** [payload.update(extra)] *)
Definition dict_update (d extra : pydict) : pydict :=
  foldl (fun acc kv =>
    if bool_decide (kv.1 ∈ acc.*1) then
      map (fun x => if bool_decide (x.1 = kv.1) then (x.1, kv.2) else x) acc
    else acc ++ [kv]) d extra.

Definition violation_payload (v : FinancialInvariantViolation) (extra : option pydict) : pydict :=
  let items := match fiv_violations v with
               | Some ((_ :: _) as l) => map json_of_violation l
               | _ => [json_of_violation (violation (fiv_invariant_name v) (fiv_expected v) (fiv_actual v))]
               end in
  let payload := [ ("entity", PStr (fiv_entity_type v));
                   ("invariants", PList (map of_json items));
                   ("ledger_transaction_id", opt_str (fiv_ledger_transaction_id v)) ] in
  let payload := match fiv_context v with
                 | Some ((_ :: _) as c) => dict_update payload [("context", of_json (JDict c))]
                 | _ => payload
                 end in
  match extra with Some e => dict_update payload e | None => payload end.

Section Service.
Context (W : world Db).

Definition audit_violation (v : FinancialInvariantViolation)
    (request_ctx : option RequestContext) (extra_payload : option pydict) : PM unit :=
  audit_call W {|
    aa_event_type := "FINANCIAL_INVARIANT_VIOLATION"; aa_entity_type := fiv_entity_type v;
    aa_entity_id := fiv_entity_id v; aa_action := "VALIDATE";
    aa_visibility := AuditVisibility.INTERNAL; aa_before := None;
    aa_after := Some (violation_payload v extra_payload); aa_diff := None;
    aa_external_refs := None; aa_reason := Some (fiv_invariant_name v);
    aa_attachment_key := None |} request_ctx;;
  mret tt.

(** [sum(amount)] of the invoice's allocations of a source type *)
Definition allocated (source : SettlementSourceType.SettlementSourceType)
    (rows : list InvoiceSettlementAllocation) : Z :=
  sum_of (fun a => if decide (al_source_type a = source) then al_amount a else 0) rows.

Definition invoice_allocations (invoice : Invoice) (d : Db) : list InvoiceSettlementAllocation :=
  List.filter (fun a => bool_decide (al_invoice_id a = inv_id invoice)) (allocations (billing d)).

(** [int(invoice.total_with_tax or invoice.total_amount or 0)] *)
Definition invoice_total (invoice : Invoice) : Z :=
  if inv_total_with_tax invoice =? 0 then inv_total_amount invoice else inv_total_with_tax invoice.

Definition _invoice_snapshot (invoice : Invoice) (d : Db) : dict :=
  let rows := invoice_allocations invoice d in
  let periods := merge_sort String.le (remove_dups (map al_settlement_period_id rows)) in
  [ ("invoice_id", JStr (inv_id invoice));
    ("billing_period_id", from_option JStr JNull (inv_billing_period_id invoice));
    ("currency", JStr (inv_currency invoice));
    ("total", JInt (invoice_total invoice));
    ("total_amount", JInt (inv_total_amount invoice));
    ("total_with_tax", JInt (inv_total_with_tax invoice));
    ("paid", JInt (inv_amount_paid invoice));
    ("refunded", JInt (inv_amount_refunded invoice));
    ("credited", JInt (inv_credited_amount invoice));
    ("due", JInt (inv_amount_due invoice));
    ("allocations", JDict [
      ("count", JInt (Z.of_nat (length rows)));
      ("total_payments", JInt (allocated SettlementSourceType.PAYMENT rows));
      ("total_credits", JInt (allocated SettlementSourceType.CREDIT_NOTE rows));
      ("total_refunds", JInt (allocated SettlementSourceType.REFUND rows));
      ("settlement_period_ids", JList (map JStr periods))]) ].

(** Audit the violation when asked to, then raise it. *)
Definition report {A} (audit_ : bool) (v : FinancialInvariantViolation)
    (request_ctx : option RequestContext) (extra : option pydict) : PM A :=
  when audit_ (audit_violation v request_ctx extra);;
  raise (FinancialViolation v).

Definition check_invoice (invoice : Invoice) (request_ctx : option RequestContext)
    (audit_ : bool) : PM unit :=
  match Rules.validate_invoice invoice with
  | [] => mret tt
  | violations =>
      context ← gets (_invoice_snapshot invoice);
      report audit_ (_build_error "invoice" (inv_id invoice) violations None (Some context))
        request_ctx (Some [("invoice_id", PStr (inv_id invoice))])
  end.

Definition check_payment_application (invoice : Invoice) (amount : Z) (idempotency_key : string)
    (request_ctx : option RequestContext) (audit_ : bool) : PM unit :=
  match Rules.validate_payment_application invoice amount with
  | [] => mret tt
  | violations =>
      context ← gets (_invoice_snapshot invoice);
      report audit_ (_build_error "payment" idempotency_key violations None
          (Some (("payment_reference", JStr idempotency_key) :: context)))
        request_ctx (Some [("invoice_id", PStr (inv_id invoice))])
  end.

Definition check_refund (invoice : Invoice) (amount : Z) (reference : string)
    (request_ctx : option RequestContext) (audit_ : bool) : PM unit :=
  match Rules.validate_refund invoice amount with
  | [] => mret tt
  | violations =>
      context ← gets (_invoice_snapshot invoice);
      report audit_ (_build_error "payment" reference violations None
          (Some (("refund_reference", JStr reference) :: context)))
        request_ctx (Some [("invoice_id", PStr (inv_id invoice)); ("refund_reference", PStr reference)])
  end.

(** The snapshot the test mode adds to the context ([PYTEST_*] variables set) is
    not modelled: the process runs without them. *)
Definition check_settlement_allocation (invoice : Invoice) (amount : Z)
    (settlement_period_id : string) (source_type : SettlementSourceType.SettlementSourceType)
    (source_id : string) (override : bool) (request_ctx : option RequestContext)
    (audit_ : bool) : PM unit :=
  period ← q_one_or_none (fun d => billing_periods (billing d))
    (fun p => bool_decide (bp_id p = settlement_period_id));
  match period with
  | None =>
      report audit_ (_build_error "invoice" (inv_id invoice)
        [violation "settlement.period_missing" (JStr "period_exists") (JStr settlement_period_id)]
        None None) request_ctx None
  | Some period =>
      match Rules.validate_settlement_period (bp_status period) override with
      | (_ :: _) as period_violations =>
          report audit_ (_build_error "invoice" (inv_id invoice) period_violations None None)
            request_ctx (Some [("settlement_period_id", PStr settlement_period_id)])
      | [] =>
          rows ← gets (invoice_allocations invoice);
          let plus source := if decide (source_type = source) then amount else 0 in
          let total_payments := allocated SettlementSourceType.PAYMENT rows
                                + plus SettlementSourceType.PAYMENT in
          let total_credits := allocated SettlementSourceType.CREDIT_NOTE rows
                               + plus SettlementSourceType.CREDIT_NOTE in
          let total_refunds := allocated SettlementSourceType.REFUND rows
                               + plus SettlementSourceType.REFUND in
          let total_allocated := total_payments - total_credits - total_refunds in
          let net_coverage := inv_amount_paid invoice - inv_amount_refunded invoice
                              - inv_credited_amount invoice in
          match Rules.validate_settlement_total total_allocated net_coverage
                  (invoice_total invoice) with
          | [] => mret tt
          | total_violations =>
              context ← gets (_invoice_snapshot invoice);
              report audit_ (_build_error "invoice" (inv_id invoice) total_violations None
                (Some (context ++
                  [ ("settlement_period_id", JStr settlement_period_id);
                    ("source_type", JStr (SettlementSourceType.value source_type));
                    ("source_id", JStr source_id);
                    ("allocation_totals", JDict [
                      ("total_payments", JInt total_payments);
                      ("total_credits", JInt total_credits);
                      ("total_refunds", JInt total_refunds);
                      ("allocation_count", JInt (Z.of_nat (length rows)));
                      ("net_allocated", JInt total_allocated);
                      ("net_coverage", JInt net_coverage)]) ])))
                request_ctx
                (Some [("settlement_period_id", PStr settlement_period_id);
                       ("invoice_total", PInt (invoice_total invoice))])
          end
      end
  end.

(** The violations of the currencies of the lines' accounts. *)
Definition currency_violations (accounts : list Account) (lines : list ledger_line)
    : list InvariantViolation :=
  flat_map (fun line =>
    match find (fun a => acc_id a =? ll_account_id line) accounts with
    | None => [violation "ledger.account_missing" (JStr "account_exists") (JInt (ll_account_id line))]
    | Some a =>
        if bool_decide (ll_currency line = acc_currency a) then []
        else [violation "ledger.currency_match" (JStr (acc_currency a))
                (JDict [("account_id", JInt (ll_account_id line));
                        ("currency", JStr (ll_currency line))])]
    end) lines.

Definition check_ledger_lines (lines : list ledger_line) (posting_id : string)
    (request_ctx : option RequestContext) : PM unit :=
  match Rules.validate_ledger_lines lines with
  | (_ :: _) as violations =>
      report true (_build_error "ledger_transaction" posting_id violations (Some posting_id) None)
        request_ctx None
  | [] =>
      match lines with
      | [] => mret tt
      | _ =>
          rows ← q_all (fun d => accounts (posting d))
            (fun a => bool_decide (acc_id a ∈ map ll_account_id lines));
          match currency_violations rows lines with
          | [] => mret tt
          | violations =>
              report true (_build_error "ledger_transaction" posting_id violations
                (Some posting_id) None) request_ctx None
          end
      end
  end.
End Service.
End Checker.

(** ** Facts about double entry *)

(** The signed total of a currency. *)
Definition currency_total (c : string) (lines : list ledger_line) : decimal :=
  sum_of (fun l => if decide (ll_currency l = c) then line_delta l else 0) lines.

Definition total_of (c : string) (totals : list (string * decimal)) : decimal :=
  sum_of (fun kv => if decide (kv.1 = c) then kv.2 else 0) totals.

Lemma add_total_of c totals c' d :
  total_of c (Rules.add_total totals c' d) = total_of c totals + (if decide (c' = c) then d else 0).
Proof.
  induction totals as [|[k v] totals IH]; simpl; [lia|].
  destruct (decide (k = c')) as [->|]; simpl; [destruct (decide _); lia|]. rewrite IH. lia.
Qed.

Lemma add_total_keys totals c d x :
  In x (map fst (Rules.add_total totals c d)) <-> x = c \/ In x (map fst totals).
Proof.
  induction totals as [|[k v] totals IH]; simpl; [naive_solver|].
  destruct (decide (k = c)) as [->|]; simpl; [naive_solver|]. rewrite IH. naive_solver.
Qed.

Lemma add_total_nodup totals c d :
  List.NoDup (map fst totals) -> List.NoDup (map fst (Rules.add_total totals c d)).
Proof.
  induction totals as [|[k v] totals IH]; simpl; intros Hn.
  { constructor; [by intros []|constructor]. }
  apply List.NoDup_cons_iff in Hn as [Hk Hn].
  destruct (decide (k = c)) as [->|Hkc]; simpl; constructor; auto.
  rewrite add_total_keys. intros [->|]; auto.
Qed.

Lemma sum_by_currency_spec lines totals :
  List.NoDup (map fst totals) ->
  let r := foldl (fun acc l => Rules.add_total acc (ll_currency l) (line_delta l)) totals lines in
  List.NoDup (map fst r) /\ forall c, total_of c r = total_of c totals + currency_total c lines.
Proof.
  revert totals. induction lines as [|l lines IH]; simpl; intros totals Hn.
  { split; [done|]. intros c. unfold currency_total. simpl. lia. }
  destruct (IH _ (add_total_nodup totals (ll_currency l) (line_delta l) Hn)) as [Hn' Ht].
  split; [done|]. intros c. rewrite Ht, add_total_of. unfold currency_total. simpl. lia.
Qed.

Lemma total_of_absent c totals : ~ In c (map fst totals) -> total_of c totals = 0.
Proof.
  induction totals as [|[k v] r IH]; simpl; intros Hc; [done|].
  unfold total_of in *. simpl. rewrite decide_False by naive_solver. rewrite IH by naive_solver. lia.
Qed.

Lemma total_of_in c t totals :
  List.NoDup (map fst totals) -> In (c, t) totals -> total_of c totals = t.
Proof.
  induction totals as [|[k v] r IH]; simpl; intros Hn Hin; [done|].
  apply List.NoDup_cons_iff in Hn as [Hk Hn]. unfold total_of in *. simpl.
  destruct Hin as [[= -> ->]|Hin].
  - rewrite decide_True by done. fold (total_of c r). rewrite total_of_absent by done. lia.
  - rewrite decide_False by (intros ->; apply Hk; by apply (in_map fst) in Hin).
    rewrite IH by done. lia.
Qed.

Lemma balanced_iff lines :
  Rules.validate_ledger_lines lines = [] <-> forall c, currency_total c lines = 0.
Proof.
  unfold Rules.validate_ledger_lines, Rules._sum_by_currency.
  destruct (sum_by_currency_spec lines [] (List.NoDup_nil _)) as [Hn Ht].
  set (r := foldl _ _ _) in *. split.
  - intros Hv c. specialize (Ht c). unfold total_of at 2 in Ht. simpl in Ht.
    transitivity (total_of c r); [lia|]. clear Ht Hn. induction r as [|[k v] r IH]; simpl in *; [done|].
    apply app_eq_nil in Hv as [Hv Hr]. unfold total_of in *. simpl. rewrite (IH Hr).
    destruct (Z.eqb_spec v 0); [destruct (decide _); lia|done].
  - intros Hz. assert (Forall (fun kv => kv.2 = 0) r) as Hr.
    { apply List.Forall_forall. intros [k v] Hin. simpl.
      rewrite <- (total_of_in k v r Hn Hin), Ht, Hz. done. }
    clear Hn Ht. induction Hr as [|[k v] r Hv Hr IH]; simpl in *; [done|]. by rewrite Hv, IH.
Qed.

(** Every line moves money of the currency of an existing account. *)
Definition line_account_ok (d : Db) (l : ledger_line) : Prop :=
  match find (fun a => acc_id a =? ll_account_id l) (accounts (posting d)) with
  | Some a => ll_currency l = acc_currency a
  | None => False
  end.

Definition lines_ok (d : Db) (lines : list ledger_line) : Prop :=
  (forall c, currency_total c lines = 0) /\ Forall (line_account_ok d) lines.

Lemma find_filter {A} (P Q : A -> bool) l :
  (forall x, P x = true -> Q x = true) -> find P (List.filter Q l) = find P l.
Proof.
  intros HPQ. induction l as [|x l IH]; simpl; [done|].
  destruct (Q x) eqn:HQ; simpl; rewrite IH; [done|].
  destruct (P x) eqn:HP; [|done]. by rewrite (HPQ _ HP) in HQ.
Qed.

Lemma currency_violations_nil d lines :
  Checker.currency_violations
    (List.filter (fun a => bool_decide (acc_id a ∈ map ll_account_id lines)) (accounts (posting d)))
    lines = [] <-> Forall (line_account_ok d) lines.
Proof.
  unfold Checker.currency_violations.
  assert (forall (ids : list Z) ls, (forall l, In l ls -> ll_account_id l ∈ ids) ->
    flat_map (fun line =>
      match find (fun a => acc_id a =? ll_account_id line)
              (List.filter (fun a => bool_decide (acc_id a ∈ ids)) (accounts (posting d))) with
      | None => [violation "ledger.account_missing" (JStr "account_exists") (JInt (ll_account_id line))]
      | Some a => if bool_decide (ll_currency line = acc_currency a) then []
                  else [violation "ledger.currency_match" (JStr (acc_currency a))
                    (JDict [("account_id", JInt (ll_account_id line));
                            ("currency", JStr (ll_currency line))])]
      end) ls = [] <-> Forall (line_account_ok d) ls) as H.
  { intros ids ls. induction ls as [|l ls IH]; intros Hin; simpl; [done|].
    rewrite find_filter.
    2:{ intros a Ha%Z.eqb_eq. apply bool_decide_eq_true. rewrite Ha. apply Hin. by left. }
    rewrite Forall_cons, <- IH by (intros; apply Hin; by right). unfold line_account_ok.
    destruct (find _ (accounts (posting d))) as [a|]; simpl; [|naive_solver].
    destruct (bool_decide_reflect (ll_currency l = acc_currency a)); simpl; naive_solver. }
  apply H. intros l Hl. apply list_elem_of_In. by apply in_map.
Qed.

(** The call wrote nothing but audit records. *)
Definition only_audit (d d' : Db) : Prop :=
  exists rs, d' = on_audit_log (fun l => l ++ rs) d.

#[export] Instance only_audit_refl : Reflexive only_audit.
Proof.
  intros d. exists []. unfold on_audit_log, on_audit. destruct d as [? ? ? ? ? ? ? ? [l]]. simpl.
  by rewrite app_nil_r.
Qed.

Lemma only_audit_tables d d' : only_audit d d' ->
  posting d' = posting d /\ scenario d' = scenario d /\ internal d' = internal d /\
  billing d' = billing d /\ flow d' = flow d /\ crm d' = crm d /\ cards d' = cards d.
Proof. by intros [rs ->]. Qed.

Section CheckerFacts.
Context (W : world Db).

Lemma audit_call_only_audit args ctx s o t :
  audit_call W args ctx s = (o, t) ->
  only_audit (live s) (live t) /\ saved t = saved s /\ uuids t = S (uuids s) /\
  races t = races s /\ ticks t = S (ticks s).
Proof.
  intros H.
  assert (wp (audit_call W args ctx)
    (fun _ t => only_audit (live s) (live t) /\ saved t = saved s /\ uuids t = S (uuids s) /\
                races t = races s /\ ticks t = S (ticks s))
    (fun _ t => only_audit (live s) (live t) /\ saved t = saved s /\ uuids t = S (uuids s) /\
                races t = races s /\ ticks t = S (ticks s)) s) as Hw.
  { apply audit_call_wp; cbn [live saved uuids races ticks].
    - split; [|done]. by eexists.
    - split; [reflexivity|done]. }
  unfold wp in Hw. rewrite H in Hw. by destruct o.
Qed.

Lemma report_raises {A} b v ctx extra s :
  exists e t, Checker.report (A := A) W b v ctx extra s = (Raise e, t) /\
    only_audit (live s) (live t) /\ saved t = saved s /\ races t = races s /\
    (uuids s <= uuids t)%nat /\
    (e = FinancialViolation v \/ e = IntegrityError "audit_log.hash").
Proof.
  unfold Checker.report. destruct b; cbn [when].
  - unfold Checker.audit_violation.
    set (args := MkAuditArgs _ _ _ _ _ _ _ _ _ _ _).
    pose proof (audit_call_wp W args ctx s (fun _ _ => True)
      (fun e _ => e = IntegrityError "audit_log.hash") I eq_refl) as He.
    unfold wp in He. run_steps. destruct (audit_call W args ctx s) as [[r|e] t] eqn:Hc;
      apply audit_call_only_audit in Hc as (? & ? & ? & ? & ?).
    + eexists _, t. repeat split; try done; [lia|by left].
    + eexists _, t. repeat split; try done; [lia|by right].
  - run_steps. eexists _, s. repeat split; [reflexivity|lia|by left].
Qed.

Lemma lines_ok_dec d lines : lines_ok d lines \/ ~ lines_ok d lines.
Proof.
  unfold lines_ok. rewrite <- balanced_iff, <- currency_violations_nil.
  destruct (Rules.validate_ledger_lines lines); [|right; by intros [? ?]].
  destruct (Checker.currency_violations _ lines); [by left|right; by intros [? ?]].
Qed.

Lemma check_ledger_lines_ok lines pid ctx s :
  lines_ok (live s) lines -> Checker.check_ledger_lines W lines pid ctx s = (Ok tt, s).
Proof.
  intros [Hb Hc]. apply balanced_iff in Hb. unfold Checker.check_ledger_lines, q_all.
  rewrite Hb. destruct lines as [|l lines]; [done|]. run_steps.
  apply currency_violations_nil in Hc. by rewrite Hc.
Qed.

Lemma check_ledger_lines_bad lines pid ctx s :
  ~ lines_ok (live s) lines ->
  exists e t, Checker.check_ledger_lines W lines pid ctx s = (Raise e, t) /\
    only_audit (live s) (live t) /\ saved t = saved s /\ races t = races s /\
    (uuids s <= uuids t)%nat /\
    ((exists v, e = FinancialViolation v) \/ e = IntegrityError "audit_log.hash").
Proof.
  intros Hbad. unfold Checker.check_ledger_lines, q_all, lines_ok in *.
  rewrite <- balanced_iff, <- currency_violations_nil in Hbad.
  destruct (Rules.validate_ledger_lines lines) as [|v vs] eqn:Hv.
  - destruct lines as [|l lines]; [by destruct Hbad|]. run_steps.
    destruct (Checker.currency_violations _ (l :: lines)) as [|v vs] eqn:Hc;
      [by destruct Hbad|].
    edestruct @report_raises as (e & t & -> & ? & ? & ? & ? & He). eexists _, t.
    repeat split; try done. destruct He; eauto.
  - edestruct @report_raises as (e & t & -> & ? & ? & ? & ? & He). eexists _, t.
    repeat split; try done. destruct He; eauto.
Qed.
End CheckerFacts.

(** ** Theorems *)

Lemma check_nil b v : Rules.check b v = [] <-> b = false.
Proof. by destruct b. Qed.

(** The checker accepts the lines of a posting exactly when, for every currency,
    debits equal credits and every line moves the currency of an existing account; it
    then changes nothing.  Otherwise it raises after writing nothing but audit records,
    and commits nothing. *)
Theorem check_ledger_lines_decides (W : world Db) lines pid ctx (s : session Db) :
  (lines_ok (live s) lines /\ Checker.check_ledger_lines W lines pid ctx s = (Ok tt, s)) \/
  (~ lines_ok (live s) lines /\
   exists e t, Checker.check_ledger_lines W lines pid ctx s = (Raise e, t) /\
     only_audit (live s) (live t) /\ saved t = saved s).
Proof.
  destruct (lines_ok_dec (live s) lines) as [H|H]; [left|right]; split; auto.
  - by apply check_ledger_lines_ok.
  - destruct (check_ledger_lines_bad W lines pid ctx s H) as (e & t & ? & ? & ? & _). eauto.
Qed.

(** The invoice rules accept exactly the invoices whose gross total is net plus tax,
    whose due amount is what is not covered by payments and credits net of refunds, and
    none of whose amounts is negative. *)
Theorem validate_invoice_spec (i : Invoice) :
  Rules.validate_invoice i = [] <->
  inv_total_with_tax i = inv_total_amount i + inv_tax_amount i /\
  inv_amount_due i = inv_total_with_tax i - inv_amount_paid i - inv_credited_amount i
                     + inv_amount_refunded i /\
  0 <= inv_amount_due i /\ 0 <= inv_amount_paid i /\ 0 <= inv_amount_refunded i /\
  0 <= inv_credited_amount i.
Proof.
  unfold Rules.validate_invoice. cbv zeta. rewrite !app_nil, !check_nil, !negb_false_iff, !Z.eqb_eq,
    !Z.ltb_ge. lia.
Qed.

(** The net amount a source type adds to the coverage of an invoice. *)
Definition coverage_sign (t : SettlementSourceType.SettlementSourceType) : Z :=
  match t with SettlementSourceType.PAYMENT => 1 | _ => -1 end.

Definition net_allocated (rows : list InvoiceSettlementAllocation) : Z :=
  sum_of (fun a => coverage_sign (al_source_type a) * al_amount a) rows.

Lemma net_allocated_split rows :
  net_allocated rows = Checker.allocated SettlementSourceType.PAYMENT rows
    - Checker.allocated SettlementSourceType.CREDIT_NOTE rows
    - Checker.allocated SettlementSourceType.REFUND rows.
Proof.
  unfold net_allocated, Checker.allocated. induction rows as [|a rows IH]; simpl; [done|].
  rewrite IH. destruct (al_source_type a); simpl; repeat destruct (decide _); try done; lia.
Qed.

(** An allocation is accepted exactly when its settlement period exists and is not
    locked (or the lock is overridden), and the invoice's allocations, the new one
    included, add up to its net coverage (payments less refunds and credits) and do not
    exceed its total in absolute value.  A rejected one is audited, not written. *)
Theorem check_settlement_allocation_decides (W : world Db) invoice amount period_id source_type
    source_id override ctx (s : session Db) p :
  List.filter (fun p => bool_decide (bp_id p = period_id)) (billing_periods (billing (live s))) = [p] ->
  let net := net_allocated (Checker.invoice_allocations invoice (live s))
             + coverage_sign source_type * amount in
  let ok := (bp_status p <> BillingPeriodStatus.LOCKED \/ override = true) /\
            net = inv_amount_paid invoice - inv_amount_refunded invoice
                  - inv_credited_amount invoice /\
            Z.abs net <= Checker.invoice_total invoice in
  let run := Checker.check_settlement_allocation W invoice amount period_id source_type source_id
               override ctx true s in
  (ok /\ run = (Ok tt, s)) \/
  (~ ok /\ exists e t, run = (Raise e, t) /\ only_audit (live s) (live t) /\ saved t = saved s).
Proof.
  intros Hp net ok run. unfold run, Checker.check_settlement_allocation, q_one_or_none, q_all.
  run_steps. rewrite Hp.
  assert (forall extra v, ~ ok -> (ok /\ Checker.report (A := unit) W true v ctx extra s = (Ok tt, s)) \/
    (~ ok /\ exists e t, Checker.report (A := unit) W true v ctx extra s = (Raise e, t) /\
       only_audit (live s) (live t) /\ saved t = saved s)) as Hreport.
  { intros extra v Hok. right. split; [done|].
    destruct (report_raises (A := unit) W true v ctx extra s) as (e & t & ? & ? & ? & _). eauto. }
  unfold Rules.validate_settlement_period.
  destruct (bool_decide_reflect (bp_status p = BillingPeriodStatus.LOCKED)) as [Hl|Hl];
    [destruct override; simpl|]; try (apply Hreport; intros [[?|?] _]; done); simpl.
  all: set (net' := _ - _ - _); assert (net' = net) as Hnet by
    (unfold net', net; rewrite net_allocated_split; destruct source_type; simpl; lia).
  all: rewrite Hnet; destruct (Rules.validate_settlement_total _ _ _) eqn:Hv;
    unfold Rules.validate_settlement_total in Hv.
  all: try (left; split; [|done]; apply app_nil in Hv; rewrite !check_nil, negb_false_iff in Hv;
    destruct Hv as [?%Z.eqb_eq ?%Z.ltb_ge]; unfold ok; intuition).
  all: apply Hreport; intros (_ & ? & ?); rewrite (proj2 (Z.eqb_eq _ _)) in Hv by done;
    rewrite (proj2 (Z.ltb_ge _ _)) in Hv by lia; done.
Qed.

(** An open period, an invoice with nothing paid, and an allocation of nothing. *)
Definition demo_period : BillingPeriod :=
  {| bp_id := "p"; bp_period_type := BillingPeriodType.MONTHLY; bp_start_at := 0; bp_end_at := 0;
     bp_tz := "UTC"; bp_status := BillingPeriodStatus.OPEN;
     bp_finalized_at := None; bp_locked_at := None |}.

Definition demo_invoice : Invoice :=
  MkInvoice "i" "client" "RUB" (Some "p") 19844 19874 100 20 120 50 70 0 0 InvoiceStatus.SENT
    InvoicePdfStatus.NONE None None None None None.

Lemma check_settlement_allocation_decides_witness :
  let s := fresh_session (on_billing_periods (fun _ => [demo_period]) empty_db) in
  Checker.check_settlement_allocation demo_world demo_invoice 50 "p" SettlementSourceType.PAYMENT
    "pay" false None true s = (Ok tt, s).
Proof.
  destruct (check_settlement_allocation_decides demo_world demo_invoice 50 "p"
    SettlementSourceType.PAYMENT "pay" false None
    (fresh_session (on_billing_periods (fun _ => [demo_period]) empty_db)) demo_period eq_refl)
    as [[_ H]|[H _]]; [exact H|].
  exfalso. apply H. split; [left; discriminate|]. split; [reflexivity|].
  vm_compute. discriminate.
Defined.
