(* ===== verification/Posting.v ===== *)
(** * Double-entry postings

    services/ledger/posting_engine.py (module [PostingEngine]) and the older
    services/posting_engine.py (module [LegacyPosting]), over the repositories of
    Ledger.v and the invariants of FinanceRules.v. *)
From S2P Require Import Prelude Json Enums Models AuditTrail Ledger FinanceRules.

Record PostingLine := MkPostingLine {
  pl_account_id : Z;
  pl_direction : LedgerDirection.LedgerDirection;
  pl_amount : decimal;
  pl_currency : string;
  pl_metadata : option dict;
}.

Record PostingResult := MkPostingResult {
  pr_posting_id : string;
  pr_batch_id : string;
  pr_entries : list LedgerEntry;
  pr_balances : gmap Z BalanceService.snapshot;
}.

(** The dictionary of a line that [apply_posting] gives to the checker. *)
Definition serialize_line (l : PostingLine) : ledger_line :=
  MkLedgerLine (pl_account_id l) (pl_direction l) (pl_amount l) (pl_currency l).

(** [if line.metadata:] *)
Definition has_metadata (l : PostingLine) : bool :=
  match pl_metadata l with Some (_ :: _) => true | _ => false end.

(** The entries of a posting, [order_by(LedgerEntry.id.asc())]. *)
Definition posting_entries (posting_id : string) (d : Db) : list LedgerEntry :=
  sort_on le_id (List.filter (fun e => (le_posting_id e =? posting_id)%py)
                   (ledger_entries (posting d))).

(** [PostingInvariantError(...)] keeps neither the list of violations nor the context. *)
Definition posting_invariant_error (v : FinancialInvariantViolation) : exn :=
  PostingInvariantError {|
    fiv_entity_type := fiv_entity_type v; fiv_entity_id := fiv_entity_id v;
    fiv_invariant_name := fiv_invariant_name v; fiv_expected := fiv_expected v;
    fiv_actual := fiv_actual v; fiv_ledger_transaction_id := fiv_ledger_transaction_id v;
    fiv_violations := None; fiv_context := None |}.

(** The flush of a new batch: its idempotency key is unique. *)
Definition insert_batch (batch : PostingBatch) : PM unit :=
  clash ← q_first (fun d => posting_batches (posting d))
            (fun b => (pb_idempotency_key b =? pb_idempotency_key batch)%py);
  match clash with
  | Some _ => raise (IntegrityError "posting_batches.idempotency_key")
  | None => modify (on_posting_batches (fun l => l ++ [batch]))
  end.

Module PostingEngine.
Section Engine.
Context (W : world Db).

(** One turn of the loop of [apply_posting].  An entry is flushed by
    [post_entry]; the [before_update] listener of models/ledger_entry.py rejects
    any later change of it, hence the assignment of [context], at the next
    flush. *)
Definition post_line (posting_id : string) (operation_id : option string)
    (posting_type : PostingBatchType.PostingBatchType) (line : PostingLine) : PM LedgerEntry :=
  before ← BalanceService.current_balance (pl_account_id line);
  let after :=
    if is_hold_type posting_type then before
    else if decide (pl_direction line = LedgerDirection.CREDIT) then before + pl_amount line
    else before - pl_amount line in
  entry_id ← uuid4 W;
  new_entry ← LedgerRepository.post_entry W (pl_account_id line) operation_id
    (Some posting_id) (pl_direction line) (pl_amount line) (pl_currency line)
    None None (Some entry_id) (Some before) (Some after) false false false;
  when (has_metadata line) (raise (ValueError "ledger_entries_are_append_only"));;
  BalanceService.apply_entry new_entry posting_type;;
  mret new_entry.

(** Other sessions may commit between the lookup of the key and the row locks of
    the loop; one that commits the same key is found by the unique index when
    the batch is flushed. *)
Definition apply_posting (operation_id : option string)
    (posting_type : PostingBatchType.PostingBatchType) (idempotency_key : string)
    (lines : list PostingLine) : PM PostingResult :=
  existing_batch ← q_one_or_none (fun d => posting_batches (posting d))
    (fun b => (pb_idempotency_key b =? idempotency_key)%py);
  match existing_batch with
  | Some batch =>
      entries ← gets (posting_entries (pb_id batch));
      balances ← BalanceService.snapshot_balances (map le_account_id entries);
      mret (MkPostingResult (pb_id batch) (pb_id batch) entries balances)
  | None =>
      race W;;
      posting_id ← uuid4 W;
      try_except
        (Checker.check_ledger_lines W (map serialize_line lines) posting_id None)
        (fun e => match e with
                  | FinancialViolation v => Some (raise (posting_invariant_error v))
                  | _ => None
                  end);;
      let batch := MkPostingBatch posting_id operation_id posting_type
                     PostingBatchStatus.APPLIED idempotency_key in
      created_entries ← try_except
        (created ← for_each lines (post_line posting_id operation_id posting_type);
         insert_batch batch;;
         commit;;
         mret created)
        (fun e => Some (rollback;; raise e));
      balances ← BalanceService.snapshot_balances (map le_account_id created_entries);
      mret (MkPostingResult posting_id posting_id created_entries balances)
  end.
End Engine.
End PostingEngine.

(** ** The engine of services/posting_engine.py *)
Module LegacyPosting.
Inductive PostingOperationType := FUEL_PURCHASE | TOPUP | REFUND | MANUAL_ADJUSTMENT.

Record PostingContext := MkPostingContext {
  ctx_client_id : string;
  ctx_card_id : option string;
  ctx_amount : decimal;
  ctx_currency : string;
  ctx_operation_id : option string;
}.

Record PostingInstruction := MkPostingInstruction {
  account_resolver : PostingContext -> PM Z;
  direction : LedgerDirection.LedgerDirection;
  amount : decimal;
}.

Record LegacyResult := MkLegacyResult {
  entries : list LedgerEntry;
  balances : gmap Z decimal;
  status : string;
}.

Definition TECHNICAL_CLIENT_ID : string := "00000000-0000-0000-0000-000000000010".
Definition REVENUE_TARIFF_ID : string := "REVENUE_CLEARING".
Definition SETTLEMENT_TARIFF_ID : string := "SETTLEMENT_CLEARING".

Definition _client_main_account (context : PostingContext) : PM Z :=
  account ← AccountsRepository.get_or_create_account (ctx_client_id context)
    AccountOwnerType.CLIENT None (ctx_currency context) AccountType.CLIENT_MAIN
    (ctx_card_id context) None AccountStatus.ACTIVE true;
  mret (acc_id account).

Definition _technical_account (tariff_id : string) (context : PostingContext) : PM Z :=
  account ← AccountsRepository.get_or_create_account TECHNICAL_CLIENT_ID
    AccountOwnerType.CLIENT None (ctx_currency context) AccountType.TECHNICAL
    None (Some tariff_id) AccountStatus.ACTIVE true;
  mret (acc_id account).

Definition _fuel_purchase_instructions (context : PostingContext) : list PostingInstruction :=
  [ MkPostingInstruction _client_main_account LedgerDirection.DEBIT (ctx_amount context);
    MkPostingInstruction (_technical_account REVENUE_TARIFF_ID) LedgerDirection.CREDIT
      (ctx_amount context) ].

Definition _topup_instructions (context : PostingContext) : list PostingInstruction :=
  [ MkPostingInstruction (_technical_account SETTLEMENT_TARIFF_ID) LedgerDirection.DEBIT
      (ctx_amount context);
    MkPostingInstruction _client_main_account LedgerDirection.CREDIT (ctx_amount context) ].

Definition _refund_instructions (context : PostingContext) : list PostingInstruction :=
  [ MkPostingInstruction (_technical_account REVENUE_TARIFF_ID) LedgerDirection.DEBIT
      (ctx_amount context);
    MkPostingInstruction _client_main_account LedgerDirection.CREDIT (ctx_amount context) ].

(** [self._rules] *)
Definition _rules (t : PostingOperationType) : option (PostingContext -> list PostingInstruction) :=
  match t with
  | FUEL_PURCHASE => Some _fuel_purchase_instructions
  | TOPUP => Some _topup_instructions
  | REFUND => Some _refund_instructions
  | MANUAL_ADJUSTMENT => None
  end.

Section Engine.
Context (W : world Db).

Definition post_instruction (context : PostingContext) (instruction : PostingInstruction)
    : PM LedgerEntry :=
  account_id ← account_resolver instruction context;
  LedgerRepository.post_entry W account_id (ctx_operation_id context) None
    (direction instruction) (amount instruction) (ctx_currency context)
    None None None None None true true true.

Definition post (operation_type : PostingOperationType) (context : PostingContext)
    : PM LegacyResult :=
  match _rules operation_type with
  | None => raise UnsupportedPostingType
  | Some rule =>
      entries ← for_each (rule context) (post_instruction context);
      mret {| entries := entries;
              balances := foldl (fun m e =>
                <[le_account_id e := default 0 (le_balance_after e)]> m) ∅ entries;
              status := "POSTED" |}
  end.
End Engine.
End LegacyPosting.

(** ** What a posting does, as a function of the tables

    [post_lines] is the specification [apply_posting] is proved to refine: the
    balances are folded over the lines and the journal grows by one entry per
    line. *)
Section Specification.
Context (W : world Db) (posting_id : string) (operation_id : option string)
  (posting_type : PostingBatchType.PostingBatchType).

Definition row_of (p : PostingTables) (account_id : Z) : AccountBalance :=
  default zero_balance (balances p !! account_id).

Definition line_current (line : PostingLine) : decimal :=
  current_delta (pl_direction line) (pl_amount line) posting_type.

Definition line_hold (line : PostingLine) : decimal :=
  hold_delta (pl_direction line) (pl_amount line) posting_type.

(** The entry of a line, the [n]-th value of the clock and the [u]-th uuid. *)
Definition line_entry (t u : nat) (p : PostingTables) (line : PostingLine) : LedgerEntry :=
  let before := bal_current (row_of p (pl_account_id line)) in
  {| le_id := next_id (ledger_entries p); le_entry_id := new_uuid W u;
     le_posting_id := posting_id; le_account_id := pl_account_id line;
     le_operation_id := operation_id; le_direction := pl_direction line;
     le_amount := pl_amount line; le_currency := pl_currency line;
     le_balance_before := Some before; le_balance_after := Some (before + line_current line);
     le_posted_at := clock W t; le_value_date := None; le_context := None |}.

Definition line_row (t : nat) (p : PostingTables) (line : PostingLine) : AccountBalance :=
  set_bal_updated_at (Some (clock W t))
    (BalanceService.entry_effect (pl_direction line) (pl_amount line) posting_type
       (row_of p (pl_account_id line))).

Definition step_tables (t u : nat) (p : PostingTables) (line : PostingLine) : PostingTables :=
  MkPostingTables (accounts p) (<[pl_account_id line := line_row t p line]> (balances p))
    (ledger_entries p ++ [line_entry t u p line]) (posting_batches p).

Fixpoint post_lines (t u : nat) (p : PostingTables) (lines : list PostingLine) : PostingTables :=
  match lines with
  | [] => p
  | line :: rest => post_lines (S t) (S u) (step_tables t u p line) rest
  end.

(** The entries of the lines, in order. *)
Fixpoint new_entries (t u : nat) (p : PostingTables) (lines : list PostingLine) : list LedgerEntry :=
  match lines with
  | [] => []
  | line :: rest => line_entry t u p line :: new_entries (S t) (S u) (step_tables t u p line) rest
  end.

Lemma post_lines_entries lines : forall t u p,
  ledger_entries (post_lines t u p lines) = ledger_entries p ++ new_entries t u p lines.
Proof.
  induction lines as [|line rest IH]; intros t u p; simpl; [by rewrite app_nil_r|].
  rewrite IH. simpl. by rewrite <- app_assoc.
Qed.

Lemma post_lines_frame lines : forall t u p,
  accounts (post_lines t u p lines) = accounts p /\
  posting_batches (post_lines t u p lines) = posting_batches p.
Proof.
  induction lines as [|line rest IH]; intros t u p; simpl; [done|].
  by destruct (IH (S t) (S u) (step_tables t u p line)) as [-> ->].
Qed.

Definition on_account (i : Z) (f : PostingLine -> Z) (lines : list PostingLine) : Z :=
  sum_of (fun l => if decide (pl_account_id l = i) then f l else 0) lines.

Lemma post_lines_current lines : forall t u p i,
  bal_current (row_of (post_lines t u p lines) i) =
    bal_current (row_of p i) + on_account i line_current lines.
Proof.
  induction lines as [|line rest IH]; intros t u p i; simpl; [unfold on_account; simpl; lia|].
  rewrite IH. unfold row_of, step_tables, on_account. cbn [balances sum_of foldr].
  destruct (decide (pl_account_id line = i)) as [<-|Hi].
  - rewrite lookup_insert_eq. simpl. rewrite effect_current. unfold line_current, row_of, sum_of.
    lia.
  - rewrite lookup_insert_ne by done. unfold sum_of. lia.
Qed.

Lemma post_lines_hold lines : forall t u p i,
  bal_hold (row_of (post_lines t u p lines) i) =
    bal_hold (row_of p i) + on_account i line_hold lines.
Proof.
  induction lines as [|line rest IH]; intros t u p i; simpl; [unfold on_account; simpl; lia|].
  rewrite IH. unfold row_of, step_tables, on_account. cbn [balances sum_of foldr].
  destruct (decide (pl_account_id line = i)) as [<-|Hi].
  - rewrite lookup_insert_eq. simpl. rewrite effect_hold. unfold line_hold, row_of, sum_of. lia.
  - rewrite lookup_insert_ne by done. unfold sum_of. lia.
Qed.

Lemma post_lines_available lines : forall t u p,
  (forall i, available_ok (row_of p i)) ->
  forall i, available_ok (row_of (post_lines t u p lines) i).
Proof.
  induction lines as [|line rest IH]; intros t u p Hp i; simpl; [done|].
  apply IH. intros j. unfold row_of, step_tables. cbn [balances].
  destruct (decide (pl_account_id line = j)) as [<-|Hj].
  - rewrite lookup_insert_eq. simpl. unfold line_row.
    exact (effect_available (pl_direction line) (pl_amount line) posting_type _
             (Hp (pl_account_id line))).
  - rewrite lookup_insert_ne by done. apply Hp.
Qed.

(** ** One turn of the loop, and the loop *)

Lemma after_current line before :
  (if is_hold_type posting_type then before
   else if decide (pl_direction line = LedgerDirection.CREDIT) then before + pl_amount line
   else before - pl_amount line) = before + line_current line.
Proof.
  unfold line_current, current_delta. destruct (is_hold_type posting_type); [lia|].
  destruct (decide _); lia.
Qed.

Definition set_tables (p : PostingTables) (d : Db) : Db := on_posting (fun _ => p) d.

Lemma post_line_run line s :
  account_exists (live s) (pl_account_id line) -> has_metadata line = false ->
  PostingEngine.post_line W posting_id operation_id posting_type line s =
    (Ok (line_entry (ticks s) (uuids s) (posting (live s)) line),
     Session (set_tables (step_tables (ticks s) (uuids s) (posting (live s)) line) (live s))
       (saved s) (S (ticks s)) (S (uuids s)) (races s)).
Proof.
  intros Ha Hm. unfold PostingEngine.post_line.
  erewrite bind_ok by by apply current_balance_ok.
  erewrite bind_ok by reflexivity. cbn [live saved ticks uuids races].
  unfold LedgerRepository.post_entry, BalanceService.apply_entry, LedgerRepository.add_entry,
    query_balance, write_balance, balance_of.
  run_steps. rewrite Hm. unfold on_balances, on_posting, on_ledger_entries. simpl.
  assert (forall k : PM unit, match operation_id with Some _ | None => k end = k) as ->
    by (by case operation_id).
  cbn [live saved ticks uuids races posting balances]. rewrite !ensure_row_lookup. simpl.
  rewrite !ensure_row_lookup. simpl. rewrite insert_ensure_row, after_current.
  done.
Qed.
End Specification.

(** The lines can be posted: the invariants hold, and no line carries metadata. *)
Definition postable (d : Db) (lines : list PostingLine) : Prop :=
  lines_ok d (map serialize_line lines) /\ Forall (fun l => has_metadata l = false) lines.

Definition key_free (d : Db) (key : string) : Prop :=
  Forall (fun b => (pb_idempotency_key b =? key)%py = false) (posting_batches (posting d)).

Lemma line_account_exists d l :
  line_account_ok d (serialize_line l) -> account_exists d (pl_account_id l).
Proof.
  unfold line_account_ok, account_exists. simpl. destruct (find _ _) as [a|] eqn:Ha; [|done].
  intros _. apply List.find_some in Ha as [Ha Hi]. exists a. split; [done|]. by apply Z.eqb_eq.
Qed.

Lemma key_free_lookup d key : key_free d key ->
  List.filter (fun b => (pb_idempotency_key b =? key)%py) (posting_batches (posting d)) = [].
Proof. apply filter_none. Qed.

Section Run.
Context (W : world Db) (operation_id : option string)
  (posting_type : PostingBatchType.PostingBatchType).

Lemma post_loop_run posting_id lines : forall s,
  Forall (fun l => account_exists (live s) (pl_account_id l) /\ has_metadata l = false) lines ->
  for_each lines (PostingEngine.post_line W posting_id operation_id posting_type) s =
    (Ok (new_entries W posting_id operation_id posting_type (ticks s) (uuids s)
           (posting (live s)) lines),
     Session (set_tables (post_lines W posting_id operation_id posting_type (ticks s) (uuids s)
                            (posting (live s)) lines) (live s))
       (saved s) (ticks s + length lines)%nat (uuids s + length lines)%nat (races s)).
Proof.
  induction lines as [|line rest IH]; intros s Hl; simpl.
  - rewrite !Nat.add_0_r. destruct s as [[] ? ? ? ?]. done.
  - apply Forall_cons in Hl as [[Ha Hm] Hl].
    erewrite bind_ok by by apply post_line_run.
    erewrite bind_ok.
    2:{ apply IH. eapply Forall_impl; [exact Hl|]. by intros l [[a Hin] ?]; split; [exists a|]. }
    cbn [live ticks uuids saved races]. unfold set_tables, on_posting. cbn [posting].
    rewrite <- !plus_n_Sm. done.
Qed.

(** The state after a successful posting of new lines. *)
Definition posted_tables (key posting_id : string) (t u : nat) (lines : list PostingLine)
    (p : PostingTables) : PostingTables :=
  let p' := post_lines W posting_id operation_id posting_type t u p lines in
  MkPostingTables (accounts p') (balances p') (ledger_entries p')
    (posting_batches p' ++
       [MkPostingBatch posting_id operation_id posting_type PostingBatchStatus.APPLIED key]).

Definition run_apply (key : string) (lines : list PostingLine) (s : session Db) :=
  PostingEngine.apply_posting W operation_id posting_type key lines s.

(** The session once the rivals have committed and the posting id is drawn. *)
Definition after_race (s : session Db) : session Db :=
  Session (rivals W (races s) (live s)) (rivals W (races s) (saved s)) (ticks s)
    (S (uuids s)) (S (races s)).

Lemma apply_posting_run key lines s :
  let d := rivals W (races s) (live s) in
  key_free (live s) key -> key_free d key -> postable d lines ->
  exists r,
    run_apply key lines s = (Ok r, Session
      (set_tables (posted_tables key (new_uuid W (uuids s)) (ticks s) (S (uuids s)) lines
                     (posting d)) d)
      (set_tables (posted_tables key (new_uuid W (uuids s)) (ticks s) (S (uuids s)) lines
                     (posting d)) d) (ticks s + length lines)%nat (S (uuids s) + length lines)%nat
      (S (races s))) /\
    pr_posting_id r = new_uuid W (uuids s) /\ pr_batch_id r = new_uuid W (uuids s) /\
    pr_entries r = new_entries W (new_uuid W (uuids s)) operation_id posting_type
                     (ticks s) (S (uuids s)) (posting d) lines.
Proof.
  intros d Hk Hk' [Hok Hm]. unfold run_apply, PostingEngine.apply_posting.
  erewrite bind_ok. 2:{ unfold q_one_or_none, q_all. run_steps. by rewrite key_free_lookup. }
  cbv beta iota.
  erewrite bind_ok by reflexivity. erewrite bind_ok by reflexivity.
  cbn [live saved ticks uuids races]. fold d.
  erewrite bind_ok by by apply try_ok, check_ledger_lines_ok.
  erewrite bind_ok.
  2:{ apply try_ok. erewrite bind_ok.
      2:{ apply post_loop_run. destruct Hok as [_ Hacc]. rewrite Forall_map in Hacc.
          rewrite Forall_and. split; [|done]. eapply Forall_impl; [exact Hacc|].
          apply line_account_exists. }
      cbn [live saved ticks uuids races].
      erewrite bind_ok.
      2:{ unfold insert_batch, q_first. run_steps. unfold set_tables at 1, on_posting at 1.
          cbn [posting]. rewrite (proj2 (post_lines_frame _ _ _ _ _ _ _ _)).
          cbn [pb_idempotency_key]. rewrite (key_free_lookup d key Hk'). reflexivity. }
      reflexivity. }
  run_steps. unfold BalanceService.snapshot_balances. run_steps.
  eexists. split; [reflexivity|done].
Qed.

Lemma apply_posting_replay_run key lines s b :
  List.filter (fun b => (pb_idempotency_key b =? key)%py) (posting_batches (posting (live s))) = [b] ->
  exists r, run_apply key lines s = (Ok r, s) /\ pr_posting_id r = pb_id b /\
    pr_batch_id r = pb_id b /\ pr_entries r = posting_entries (pb_id b) (live s).
Proof.
  intros Hb. unfold run_apply, PostingEngine.apply_posting.
  erewrite bind_ok. 2:{ unfold q_one_or_none, q_all. run_steps. by rewrite Hb. }
  unfold BalanceService.snapshot_balances. run_steps.
  eexists. split; [reflexivity|done].
Qed.
End Run.

(** ** Every way a posting can end *)

Section Outcomes.
Context (W : world Db) (operation_id : option string)
  (posting_type : PostingBatchType.PostingBatchType).

Lemma post_line_metadata posting_id line s :
  account_exists (live s) (pl_account_id line) -> has_metadata line = true ->
  exists t, PostingEngine.post_line W posting_id operation_id posting_type line s =
    (Raise (ValueError "ledger_entries_are_append_only"), t).
Proof.
  intros Ha Hm. unfold PostingEngine.post_line.
  erewrite bind_ok by by apply current_balance_ok.
  erewrite bind_ok by reflexivity. cbn [live saved ticks uuids races].
  unfold LedgerRepository.post_entry, LedgerRepository.add_entry, query_balance, balance_of.
  run_steps. rewrite Hm. unfold on_balances, on_posting, on_ledger_entries. simpl.
  assert (forall k : PM unit, match operation_id with Some _ | None => k end = k) as ->
    by (by case operation_id).
  cbn [live saved ticks uuids races posting balances]. rewrite !ensure_row_lookup. by eexists.
Qed.

Lemma post_loop_metadata posting_id lines : forall s,
  Forall (fun l => account_exists (live s) (pl_account_id l)) lines ->
  Exists (fun l => has_metadata l = true) lines ->
  exists t, for_each lines (PostingEngine.post_line W posting_id operation_id posting_type) s =
    (Raise (ValueError "ledger_entries_are_append_only"), t).
Proof.
  induction lines as [|line rest IH]; intros s Ha He; [by apply Exists_nil in He|]. simpl.
  apply Forall_cons in Ha as [Ha Hr]. destruct (has_metadata line) eqn:Hm.
  - destruct (post_line_metadata posting_id line s Ha Hm) as [t Ht].
    exists t. by erewrite bind_raised.
  - apply Exists_cons in He as [He|He]; [congruence|].
    erewrite bind_ok by by apply post_line_run.
    match goal with |- context [(_ ≫= _) ?u] => destruct (IH u) as [t Ht] end.
    + eapply Forall_impl; [exact Hr|]. intros l [a Hin]. exists a. exact Hin.
    + exact He.
    + exists t. by erewrite bind_raised by exact Ht.
Qed.

Lemma uncommitted_post_line posting_id line :
  uncommitted (PostingEngine.post_line W posting_id operation_id posting_type line).
Proof. unfold PostingEngine.post_line. cbv zeta. auto 12 with uncommitted. Qed.

Lemma uncommitted_post_loop posting_id lines :
  uncommitted (for_each lines (PostingEngine.post_line W posting_id operation_id posting_type)).
Proof. auto using uncommitted_post_line with uncommitted. Qed.

(** The block of [apply_posting] that writes. *)
Definition write_block (key posting_id : string) (lines : list PostingLine) : PM (list LedgerEntry) :=
  created ← for_each lines (PostingEngine.post_line W posting_id operation_id posting_type);
  insert_batch (MkPostingBatch posting_id operation_id posting_type PostingBatchStatus.APPLIED key);;
  commit;;
  mret created.

Lemma write_block_raises key posting_id lines s e t :
  write_block key posting_id lines s = (Raise e, t) ->
  saved t = saved s /\ races t = races s /\ (uuids s <= uuids t)%nat.
Proof.
  unfold write_block.
  destruct (for_each lines (PostingEngine.post_line W posting_id operation_id posting_type) s)
    as [[es|e'] u] eqn:Hl.
  - rewrite (bind_ok _ _ _ _ _ Hl). unfold insert_batch, q_first. run_steps.
    destruct (head _); [|done]. intros [= <- <-].
    pose proof (uncommitted_post_loop posting_id lines s) as Hu. by rewrite Hl in Hu.
  - rewrite (bind_raised _ _ _ _ _ Hl). intros [= <- <-].
    pose proof (uncommitted_post_loop posting_id lines s) as Hu. by rewrite Hl in Hu.
Qed.

(** A posting that raises leaves the committed tables alone and leaves the session on
    them, or on the tables it started from with audit records added. *)
Lemma apply_posting_raises key lines s e t :
  run_apply W operation_id posting_type key lines s = (Raise e, t) ->
  t = s \/
  (saved t = rivals W (races s) (saved s) /\ races t = S (races s) /\ (uuids s <= uuids t)%nat /\
   (live t = saved t \/ only_audit (rivals W (races s) (live s)) (live t))).
Proof.
  unfold run_apply, PostingEngine.apply_posting, q_one_or_none, q_all.
  destruct (List.filter (fun b => (pb_idempotency_key b =? key)%py)
    (posting_batches (posting (live s)))) as [|b [|b' l]] eqn:Hb.
  - erewrite bind_ok by (run_steps; by rewrite Hb). cbv beta iota.
    erewrite bind_ok by reflexivity. erewrite bind_ok by reflexivity.
    cbn [live saved ticks uuids races].
    set (d := rivals W (races s) (live s)).
    set (u := Session d _ _ _ _).
    destruct (lines_ok_dec d (map serialize_line lines)) as [Hok|Hbad].
    + erewrite bind_ok by by apply try_ok, check_ledger_lines_ok.
      fold (write_block key (new_uuid W (uuids s)) lines).
      destruct (write_block key (new_uuid W (uuids s)) lines u) as [[es|e'] v] eqn:Hw.
      * erewrite bind_ok by (apply try_ok; exact Hw). done.
      * erewrite bind_raised by (erewrite try_raised by exact Hw; reflexivity).
        intros [= <- <-]. right. apply write_block_raises in Hw as (Hs & Hr & Hu). simpl in *.
        rewrite Hs, Hr. repeat split; auto; lia.
    + destruct (check_ledger_lines_bad W (map serialize_line lines) (new_uuid W (uuids s)) None u
        Hbad) as (e' & v & Hc & Ha & Hs & Hr & Hu & He).
      destruct He as [[w He]|He]; subst e'.
      * erewrite bind_raised by (erewrite try_raised by exact Hc; reflexivity).
        intros [= <- <-]. right. simpl in Hu. rewrite Hs, Hr. repeat split; auto; lia.
      * erewrite bind_raised by (erewrite try_raised by exact Hc; reflexivity).
        intros [= <- <-]. right. simpl in Hu. rewrite Hs, Hr. repeat split; auto; lia.
  - erewrite bind_ok by (run_steps; by rewrite Hb). cbv beta iota.
    unfold BalanceService.snapshot_balances. run_steps. done.
  - erewrite bind_raised by (run_steps; by rewrite Hb). intros [= <- <-]. by left.
Qed.
End Outcomes.

Lemma filter_nil_none {A} (P : A -> bool) l :
  List.filter P l = [] -> Forall (fun x => P x = false) l.
Proof.
  induction l as [|x l IH]; simpl; [done|]. destruct (P x) eqn:Hx; [done|].
  intros Hl. constructor; auto.
Qed.

Lemma metadata_dec lines :
  Forall (fun l => has_metadata l = false) lines \/ Exists (fun l => has_metadata l = true) lines.
Proof.
  induction lines as [|l lines IH]; [by left|]. destruct (has_metadata l) eqn:Hl.
  - right. by constructor.
  - destruct IH; [left; by constructor|right; by apply Exists_cons_tl].
Qed.

Section Inversion.
Context (W : world Db) (operation_id : option string)
  (posting_type : PostingBatchType.PostingBatchType).

(** A posting that returns either replays the batch of its key or was accepted. *)
Lemma apply_posting_ok_inv key lines s r t :
  run_apply W operation_id posting_type key lines s = (Ok r, t) ->
  (exists b, List.filter (fun b => (pb_idempotency_key b =? key)%py)
               (posting_batches (posting (live s))) = [b]) \/
  (key_free (live s) key /\ key_free (rivals W (races s) (live s)) key /\
   postable (rivals W (races s) (live s)) lines).
Proof.
  unfold run_apply, PostingEngine.apply_posting, q_one_or_none, q_all.
  destruct (List.filter (fun b => (pb_idempotency_key b =? key)%py)
    (posting_batches (posting (live s)))) as [|b [|b' l]] eqn:Hb.
  2:{ intros _. left. by exists b. }
  2:{ erewrite bind_raised by (run_steps; by rewrite Hb). done. }
  erewrite bind_ok by (run_steps; by rewrite Hb). cbv beta iota.
  erewrite bind_ok by reflexivity. erewrite bind_ok by reflexivity.
  cbn [live saved ticks uuids races]. set (d := rivals W (races s) (live s)).
  set (u := Session d _ _ _ _).
  destruct (lines_ok_dec d (map serialize_line lines)) as [Hok|Hbad].
  2:{ destruct (check_ledger_lines_bad W (map serialize_line lines) (new_uuid W (uuids s)) None u
        Hbad) as (e & v & Hc & _ & _ & _ & _ & He).
      destruct He as [[w He]|He]; subst e;
        by erewrite bind_raised by (erewrite try_raised by exact Hc; reflexivity). }
  erewrite bind_ok by by apply try_ok, check_ledger_lines_ok.
  assert (Forall (fun l => account_exists d (pl_account_id l)) lines) as Hacc.
  { destruct Hok as [_ Hacc]. rewrite Forall_map in Hacc. eapply Forall_impl; [exact Hacc|].
    apply line_account_exists. }
  destruct (metadata_dec lines) as [Hm|Hm].
  2:{ destruct (post_loop_metadata W operation_id posting_type (new_uuid W (uuids s)) lines u Hacc Hm)
        as [v Hv].
      erewrite bind_raised; [done|]. erewrite try_raised by by erewrite bind_raised.
      reflexivity. }
  destruct (head (List.filter (fun b => (pb_idempotency_key b =? key)%py)
    (posting_batches (posting d)))) as [b|] eqn:Hd.
  - erewrite bind_raised; [done|]. erewrite try_raised.
    2:{ erewrite bind_ok.
        2:{ apply post_loop_run. rewrite Forall_and. split; [exact Hacc|done]. }
        cbn [live saved ticks uuids races].
        erewrite bind_raised; [done|]. unfold insert_batch, q_first. run_steps.
        unfold set_tables at 1, on_posting at 1. cbn [posting].
        rewrite (proj2 (post_lines_frame _ _ _ _ _ _ _ _)). unfold u. cbn [live pb_idempotency_key].
        by rewrite Hd. }
    reflexivity.
  - intros _. right. unfold key_free. split; [by apply filter_nil_none|].
    split; [|by split]. apply filter_nil_none.
    by destruct (List.filter _ (posting_batches (posting d))).
Qed.
End Inversion.

(** ** The journal and the balances *)

Definition batch_type (p : PostingTables) (posting_id : string)
    : option PostingBatchType.PostingBatchType :=
  pb_posting_type <$> find (fun b => (pb_id b =? posting_id)%py) (posting_batches p).

(** What a journal entry adds to the current balance, or to the holds, of its account. *)
Definition entry_current (p : PostingTables) (e : LedgerEntry) : decimal :=
  from_option (current_delta (le_direction e) (le_amount e)) 0 (batch_type p (le_posting_id e)).
Definition entry_hold (p : PostingTables) (e : LedgerEntry) : decimal :=
  from_option (hold_delta (le_direction e) (le_amount e)) 0 (batch_type p (le_posting_id e)).

Definition journal_sum (i : Z) (f : LedgerEntry -> Z) (entries : list LedgerEntry) : Z :=
  sum_of (fun e => if decide (le_account_id e = i) then f e else 0) entries.

(** The balances are the journal folded: every row holds the sums of the entries of its
    account, and its available amount is what is not held. *)
Record books (p : PostingTables) : Prop := {
  books_numbered : numbered le_id (ledger_entries p);
  books_batches : Forall (fun e => is_Some (batch_type p (le_posting_id e))) (ledger_entries p);
  books_current : forall i,
    bal_current (row_of p i) = journal_sum i (entry_current p) (ledger_entries p);
  books_hold : forall i, bal_hold (row_of p i) = journal_sum i (entry_hold p) (ledger_entries p);
  books_available : forall i, available_ok (row_of p i);
  books_keys : List.NoDup (map pb_idempotency_key (posting_batches p));
}.

Definition id_unused (p : PostingTables) (posting_id : string) : Prop :=
  Forall (fun b => (pb_id b =? posting_id)%py = false) (posting_batches p).

Lemma find_app {A} (P : A -> bool) l m :
  find P (l ++ m) = match find P l with Some x => Some x | None => find P m end.
Proof. induction l as [|x l IH]; simpl; [done|]. by destruct (P x). Qed.

Lemma find_all_false {A} (P : A -> bool) l : Forall (fun x => P x = false) l -> find P l = None.
Proof. induction 1 as [|x l Hx Hl IH]; simpl; [done|]. by rewrite Hx. Qed.

Lemma journal_sum_app i f l m : journal_sum i f (l ++ m) = journal_sum i f l + journal_sum i f m.
Proof. apply sum_of_app. Qed.

Lemma journal_sum_ext i f g l :
  Forall (fun e => f e = g e) l -> journal_sum i f l = journal_sum i g l.
Proof.
  intros H. apply sum_of_ext. eapply Forall_impl; [exact H|]. intros e He.
  by destruct (decide _).
Qed.

Section Books.
Context (W : world Db) (pid : string) (op : option string)
  (ty : PostingBatchType.PostingBatchType).

Lemma new_entries_sum i (f : LedgerDirection.LedgerDirection -> decimal -> Z) lines : forall t u p,
  journal_sum i (fun e => f (le_direction e) (le_amount e)) (new_entries W pid op ty t u p lines) =
  on_account i (fun l => f (pl_direction l) (pl_amount l)) lines.
Proof.
  unfold journal_sum, on_account.
  induction lines as [|l lines IH]; intros t u p; simpl; [done|]. by rewrite IH.
Qed.

Lemma new_entries_posting lines : forall t u p,
  Forall (fun e => le_posting_id e = pid) (new_entries W pid op ty t u p lines).
Proof. induction lines as [|l lines IH]; intros t u p; simpl; constructor; auto. Qed.

Lemma post_lines_numbered lines : forall t u p,
  numbered le_id (ledger_entries p) ->
  numbered le_id (ledger_entries (post_lines W pid op ty t u p lines)).
Proof.
  induction lines as [|l lines IH]; intros t u p Hp; simpl; [done|].
  apply IH. by apply numbered_snoc.
Qed.

Lemma batch_type_old key t u p lines e :
  is_Some (batch_type p (le_posting_id e)) ->
  batch_type (posted_tables W op ty key pid t u lines p) (le_posting_id e) =
    batch_type p (le_posting_id e).
Proof.
  unfold batch_type, posted_tables. cbn [posting_batches].
  rewrite (proj2 (post_lines_frame _ _ _ _ _ _ _ _)), find_app.
  destruct (find _ (posting_batches p)); [done|]. by intros [? ?].
Qed.

Lemma batch_type_new key t u p lines :
  id_unused p pid -> batch_type (posted_tables W op ty key pid t u lines p) pid = Some ty.
Proof.
  intros Hp. unfold batch_type, posted_tables. cbn [posting_batches].
  rewrite (proj2 (post_lines_frame _ _ _ _ _ _ _ _)), find_app, find_all_false by done.
  simpl. unfold eqb. by rewrite bool_decide_true.
Qed.

(** One measure of the entries, after a posting. *)
Lemma journal_posted (g : LedgerDirection.LedgerDirection -> decimal ->
    PostingBatchType.PostingBatchType -> Z) key t u p lines i :
  id_unused p pid ->
  Forall (fun e => is_Some (batch_type p (le_posting_id e))) (ledger_entries p) ->
  let p' := posted_tables W op ty key pid t u lines p in
  let m q e := from_option (g (le_direction e) (le_amount e)) 0 (batch_type q (le_posting_id e)) in
  journal_sum i (m p') (ledger_entries p') =
    journal_sum i (m p) (ledger_entries p) +
    on_account i (fun l => g (pl_direction l) (pl_amount l) ty) lines.
Proof.
  intros Hp Hb p' m. unfold p' at 2, posted_tables. cbn [ledger_entries].
  rewrite post_lines_entries, journal_sum_app. f_equal.
  - apply journal_sum_ext. eapply Forall_impl; [exact Hb|]. intros e He. unfold m, p'.
    by rewrite batch_type_old.
  - rewrite <- (new_entries_sum i (fun d a => g d a ty) lines t u p). apply journal_sum_ext.
    eapply Forall_impl; [apply new_entries_posting|]. intros e He. unfold m, p'. cbv beta.
    by rewrite He, batch_type_new.
Qed.

Lemma books_posted key t u p lines :
  id_unused p pid ->
  Forall (fun b => (pb_idempotency_key b =? key)%py = false) (posting_batches p) ->
  books p -> books (posted_tables W op ty key pid t u lines p).
Proof.
  intros Hp Hk [Hn Hb Hc Hh Ha Hu]. split.
  - by apply post_lines_numbered.
  - unfold posted_tables at 2. cbn [ledger_entries]. rewrite post_lines_entries.
    apply Forall_app. split.
    + eapply Forall_impl; [exact Hb|]. intros e He. by rewrite batch_type_old.
    + eapply Forall_impl; [apply new_entries_posting|]. intros e ->. by rewrite batch_type_new.
  - intros i. pose proof (journal_posted current_delta key t u p lines i Hp Hb) as Hj.
    transitivity (bal_current (row_of (post_lines W pid op ty t u p lines) i)); [done|].
    rewrite post_lines_current, Hc. symmetry. exact Hj.
  - intros i. pose proof (journal_posted hold_delta key t u p lines i Hp Hb) as Hj.
    transitivity (bal_hold (row_of (post_lines W pid op ty t u p lines) i)); [done|].
    rewrite post_lines_hold, Hh. symmetry. exact Hj.
  - intros i. by apply (post_lines_available W pid op ty lines t u p).
  - unfold posted_tables. cbn [posting_batches].
    rewrite (proj2 (post_lines_frame _ _ _ _ _ _ _ _)), map_app. simpl.
    apply NoDup_ListNoDup, NoDup_app. repeat split.
    + by apply NoDup_ListNoDup.
    + intros k Hin ->%list_elem_of_singleton. apply list_elem_of_In, in_map_iff in Hin as (b & Hbk & Hin).
      rewrite List.Forall_forall in Hk. apply Hk in Hin. unfold eqb in Hin.
      by rewrite bool_decide_false_iff in Hin || by apply bool_decide_eq_false in Hin.
    + apply NoDup_singleton.
Qed.
End Books.

(** ** Money is conserved *)

Definition currency_of (p : PostingTables) (i : Z) : option string :=
  acc_currency <$> find (fun a => acc_id a =? i) (accounts p).

(** The total of a column of the balances over the accounts of a currency. *)
Definition column_total (col : AccountBalance -> decimal) (p : PostingTables) (c : string) : decimal :=
  map_sum (fun i b => if decide (currency_of p i = Some c) then col b else 0) (balances p).

Section Conservation.
Context (W : world Db) (pid : string) (op : option string)
  (ty : PostingBatchType.PostingBatchType).

Lemma column_step (col : AccountBalance -> decimal) (delta : PostingLine -> Z) t u p line c :
  col zero_balance = 0 ->
  (forall l, col (line_row W ty t p l) = col (row_of p (pl_account_id l)) + delta l) ->
  column_total col (step_tables W pid op ty t u p line) c =
    column_total col p c +
    (if decide (currency_of p (pl_account_id line) = Some c) then delta line else 0).
Proof.
  intros Hz Hd. unfold column_total at 1, step_tables, currency_of at 1. cbn [accounts balances].
  rewrite map_sum_insert. fold (currency_of p (pl_account_id line)).
  change (map_sum _ (balances p)) with (column_total col p c).
  unfold row_of in Hd. specialize (Hd line).
  destruct (decide _) as [Hc|Hc].
  - rewrite Hd. destruct (balances p !! pl_account_id line) as [b|]; simpl.
    + destruct (decide (currency_of p (pl_account_id line) = Some c)); [lia|done].
    + lia.
  - destruct (balances p !! pl_account_id line) as [b|]; simpl; [|lia].
    destruct (decide (currency_of p (pl_account_id line) = Some c)); [done|lia].
Qed.

Lemma column_post (col : AccountBalance -> decimal) (delta : PostingLine -> Z) lines c :
  col zero_balance = 0 ->
  (forall t p l, col (line_row W ty t p l) = col (row_of p (pl_account_id l)) + delta l) ->
  forall t u p,
  Forall (fun l => currency_of p (pl_account_id l) = Some (pl_currency l)) lines ->
  column_total col (post_lines W pid op ty t u p lines) c =
    column_total col p c + sum_of (fun l => if decide (pl_currency l = c) then delta l else 0) lines.
Proof.
  intros Hz Hd. induction lines as [|l lines IH]; intros t u p Hl; simpl; [lia|].
  apply Forall_cons in Hl as [Hl Hr]. rewrite IH by done.
  rewrite (column_step col delta) by done. rewrite Hl. unfold sum_of.
  destruct (decide (pl_currency l = c)) as [->|Hc]; [rewrite decide_True by done; lia|].
  rewrite decide_False by congruence. lia.
Qed.

Lemma currency_line d l : line_account_ok d (serialize_line l) ->
  currency_of (posting d) (pl_account_id l) = Some (pl_currency l).
Proof.
  unfold line_account_ok, currency_of. cbn [serialize_line ll_account_id ll_currency].
  destruct (find _ _) as [a|]; [|done]. simpl. by intros ->.
Qed.

Lemma balanced_sum c lines (k : PostingLine -> Z) s :
  (forall l, k l = s * line_delta (serialize_line l)) ->
  currency_total c (map serialize_line lines) = 0 ->
  sum_of (fun l => if decide (pl_currency l = c) then k l else 0) lines = 0.
Proof.
  intros Hk Hz. transitivity (s * currency_total c (map serialize_line lines)); [|rewrite Hz; lia].
  clear Hz. unfold currency_total. induction lines as [|l lines IH]; simpl; [lia|].
  unfold sum_of in *. rewrite IH, Hk. simpl. destruct (decide _); lia.
Qed.

Lemma posted_conserves key t u lines d c :
  lines_ok d (map serialize_line lines) ->
  let p' := posted_tables W op ty key pid t u lines (posting d) in
  column_total bal_current p' c = column_total bal_current (posting d) c /\
  column_total bal_hold p' c = column_total bal_hold (posting d) c.
Proof.
  intros [Hb Ha] p'. rewrite Forall_map in Ha.
  assert (Forall (fun l => currency_of (posting d) (pl_account_id l) = Some (pl_currency l)) lines)
    as Hl by (eapply Forall_impl; [exact Ha|apply currency_line]).
  change (column_total bal_current p' c)
    with (column_total bal_current (post_lines W pid op ty t u (posting d) lines) c).
  change (column_total bal_hold p' c)
    with (column_total bal_hold (post_lines W pid op ty t u (posting d) lines) c).
  rewrite (column_post bal_current (line_current ty)); [|done|intros; apply effect_current|done].
  rewrite (column_post bal_hold (line_hold ty)); [|done|intros; apply effect_hold|done].
  rewrite (balanced_sum c lines (line_current ty) (if is_hold_type ty then 0 else 1)); [|..|done].
  rewrite (balanced_sum c lines (line_hold ty) (if is_hold_type ty then -1 else 0)); [lia|..|done].
  - intros l. unfold line_hold, hold_delta, line_delta. destruct (is_hold_type ty); [|lia].
    destruct (pl_direction l) eqn:El; simpl; rewrite El; repeat destruct (decide _); try done; lia.
  - intros l. unfold line_current, current_delta, line_delta. destruct (is_hold_type ty); [lia|].
    simpl. destruct (decide _); lia.
Qed.
End Conservation.

(** ** Theorems *)

(** The entry that posts a line. *)
Definition entry_of_line (pid : string) (op : option string)
    (ty : PostingBatchType.PostingBatchType) (l : PostingLine) (e : LedgerEntry) : Prop :=
  le_posting_id e = pid /\ le_operation_id e = op /\ le_account_id e = pl_account_id l /\
  le_direction e = pl_direction l /\ le_amount e = pl_amount l /\ le_currency e = pl_currency l /\
  exists before, le_balance_before e = Some before /\
                 le_balance_after e = Some (before + line_current ty l).

Lemma new_entries_lines W pid op ty lines : forall t u p,
  Forall2 (entry_of_line pid op ty) lines (new_entries W pid op ty t u p lines).
Proof.
  induction lines as [|l lines IH]; intros t u p; simpl; constructor; [|apply IH].
  repeat split. by eexists.
Qed.

(** C1 A posting under a fresh key whose lines satisfy the invariants succeeds and is
    committed: every account's current balance moves by the signed sum of its lines (a
    hold moves the held amount instead), the journal grows by one entry per line, in
    order, each with the balance before and after, one batch is recorded, and nothing
    else changes. *)
Theorem apply_posting_posts (W : world Db) op ty key lines (s : session Db) :
  let d := rivals W (races s) (live s) in
  key_free (live s) key -> key_free d key -> postable d lines ->
  exists r t, PostingEngine.apply_posting W op ty key lines s = (Ok r, t) /\
    saved t = live t /\
    live t = set_tables (posting (live t)) d /\
    accounts (posting (live t)) = accounts (posting d) /\
    (forall i, bal_current (row_of (posting (live t)) i) =
               bal_current (row_of (posting d) i) + on_account i (line_current ty) lines) /\
    (forall i, bal_hold (row_of (posting (live t)) i) =
               bal_hold (row_of (posting d) i) + on_account i (line_hold ty) lines) /\
    ledger_entries (posting (live t)) = ledger_entries (posting d) ++ pr_entries r /\
    Forall2 (entry_of_line (pr_posting_id r) op ty) lines (pr_entries r) /\
    posting_batches (posting (live t)) = posting_batches (posting d) ++
      [MkPostingBatch (pr_posting_id r) op ty PostingBatchStatus.APPLIED key].
Proof.
  intros d Hk Hk' Hp.
  destruct (apply_posting_run W op ty key lines s Hk Hk' Hp) as (r & Hr & Hpid & _ & He).
  eexists r, _. split; [exact Hr|]. rewrite Hpid, He.
  cbn [live saved posting set_tables on_posting].
  pose proof (post_lines_frame W (new_uuid W (uuids s)) op ty lines (ticks s) (S (uuids s)) (posting d))
    as [Ha Hb].
  unfold posted_tables. cbn [accounts balances ledger_entries posting_batches].
  split; [done|]. split; [done|]. split; [done|].
  split; [intros i; apply post_lines_current|].
  split; [intros i; apply post_lines_hold|].
  split; [apply post_lines_entries|].
  split; [apply new_entries_lines|]. by f_equal.
Qed.

(** C3 A posting that raises is atomic: what is committed is what other sessions left
    there, and the tables of the ledger are those of a state of the session before it
    wrote anything. *)
Theorem apply_posting_atomic (W : world Db) op ty key lines (s t : session Db) e :
  PostingEngine.apply_posting W op ty key lines s = (Raise e, t) ->
  t = s \/
  (saved t = rivals W (races s) (saved s) /\
   (posting (live t) = posting (rivals W (races s) (saved s)) \/
    posting (live t) = posting (rivals W (races s) (live s)))).
Proof.
  intros H. apply apply_posting_raises in H as [->|(Hs & _ & _ & [Hl|[rs Hl]])]; [by left|right..].
  - rewrite Hl, Hs. auto.
  - rewrite Hl, Hs. auto.
Qed.

(** C4 Replaying a key: once a posting has returned, posting again under its key, with
    any lines, returns the same posting id and the same entries and changes nothing. *)
Theorem apply_posting_idempotent (W : world Db) op ty op' ty' key lines lines' (s t : session Db) r :
  let d := rivals W (races s) (live s) in
  numbered le_id (ledger_entries (posting d)) ->
  Forall (fun e => (le_posting_id e =? new_uuid W (uuids s))%py = false) (ledger_entries (posting d)) ->
  PostingEngine.apply_posting W op ty key lines s = (Ok r, t) ->
  exists r', PostingEngine.apply_posting W op' ty' key lines' t = (Ok r', t) /\
    pr_posting_id r' = pr_posting_id r /\ pr_entries r' = pr_entries r.
Proof.
  intros d Hn Hf Hrun.
  destruct (apply_posting_ok_inv W op ty key lines s r t Hrun) as [[b Hb]|(Hk & Hk' & Hp)].
  - destruct (apply_posting_replay_run W op ty key lines s b Hb) as (r1 & H1 & Hp1 & _ & He1).
    unfold run_apply in H1. rewrite H1 in Hrun. injection Hrun as <- <-.
    destruct (apply_posting_replay_run W op' ty' key lines' s b Hb) as (r2 & H2 & Hp2 & _ & He2).
    exists r2. by rewrite Hp1, Hp2, He1, He2.
  - destruct (apply_posting_run W op ty key lines s Hk Hk' Hp) as (r1 & H1 & Hp1 & _ & He1).
    unfold run_apply in H1. rewrite H1 in Hrun. injection Hrun as <- <-.
    set (pid := new_uuid W (uuids s)) in *. set (u := Session _ _ _ _ _).
    destruct (apply_posting_replay_run W op' ty' key lines' u
      (MkPostingBatch pid op ty PostingBatchStatus.APPLIED key)) as (r2 & H2 & Hp2 & _ & He2).
    { unfold u, posted_tables. cbn [live set_tables on_posting posting posting_batches].
      rewrite (proj2 (post_lines_frame _ _ _ _ _ _ _ _)), filter_snoc. fold d.
      rewrite (key_free_lookup d key Hk'). unfold eqb. simpl. by rewrite bool_decide_true. }
    exists r2. split; [exact H2|]. split; [by rewrite Hp2, Hp1|]. rewrite He2, He1.
    unfold posting_entries, u. cbn [live set_tables on_posting posting pb_id].
    unfold posted_tables at 1. cbn [ledger_entries]. rewrite post_lines_entries, List.filter_app.
    rewrite (filter_none _ (ledger_entries (posting d))) by done.
    rewrite filter_all; simpl.
    + apply sort_on_sorted. apply (post_lines_numbered W pid op ty lines (ticks s) (S (uuids s)))
        in Hn. rewrite post_lines_entries in Hn. apply numbered_sorted in Hn.
      by apply StronglySorted_app_1_r in Hn.
    + eapply Forall_impl; [apply new_entries_posting|]. intros e ->. unfold eqb.
      by rewrite bool_decide_true.
Qed.

(** ** Sequences of postings *)

Record posting_call := MkPostingCall {
  pc_operation_id : option string;
  pc_posting_type : PostingBatchType.PostingBatchType;
  pc_idempotency_key : string;
  pc_lines : list PostingLine;
}.

(** The calls in order; the next one starts from what an exception leaves. *)
Definition run_postings (W : world Db) (calls : list posting_call) (s : session Db) : session Db :=
  foldl (fun s c => (PostingEngine.apply_posting W (pc_operation_id c) (pc_posting_type c)
                       (pc_idempotency_key c) (pc_lines c) s).2) s calls.

Section Sequences.
Context (W : world Db) (current held : string -> decimal).

(** The books are kept, and the totals per currency are [current] and [held]. *)
Definition ledger_inv (d : Db) : Prop :=
  books (posting d) /\
  forall c, column_total bal_current (posting d) c = current c /\
            column_total bal_hold (posting d) c = held c.

(** The ids the supply has not yet given out are not the id of a batch. *)
Definition ids_unused (n : nat) (d : Db) : Prop :=
  forall k, (n <= k)%nat -> id_unused (posting d) (new_uuid W k).

Definition session_inv (s : session Db) : Prop :=
  holds ledger_inv s /\ holds (ids_unused (uuids s)) s.

Context (uuids_distinct : forall n m, new_uuid W n = new_uuid W m -> n = m).
Context (rivals_keep_books : forall n d, ledger_inv d -> ledger_inv (rivals W n d)).
Context (rivals_ids : forall n m d, ids_unused m d -> ids_unused m (rivals W n d)).

Lemma ids_unused_mono n m d : (n <= m)%nat -> ids_unused n d -> ids_unused m d.
Proof. intros Hnm H k Hk. apply H. lia. Qed.

Lemma ids_unused_posted op ty key t u lines n d :
  (n < u)%nat -> ids_unused u d ->
  ids_unused u (set_tables (posted_tables W op ty key (new_uuid W n) t (S n) lines (posting d)) d).
Proof.
  intros Hn Hd k Hk. unfold id_unused, set_tables, on_posting, posted_tables. simpl.
  rewrite (proj2 (post_lines_frame _ _ _ _ _ _ _ _)). apply Forall_app. split; [by apply Hd|].
  constructor; [|constructor]. simpl. apply bool_decide_eq_false. intros He%uuids_distinct. lia.
Qed.

Lemma apply_posting_keeps_inv op ty key lines s :
  session_inv s -> session_inv (run_apply W op ty key lines s).2.
Proof.
  intros [[Hl Hs] [Il Is]]. destruct (run_apply W op ty key lines s) as [[r|e] t] eqn:Hrun.
  - destruct (apply_posting_ok_inv W op ty key lines s r t Hrun) as [[b Hb]|(Hk & Hk' & Hp)].
    + destruct (apply_posting_replay_run W op ty key lines s b Hb) as (r1 & H1 & _).
      rewrite H1 in Hrun. by injection Hrun as <- <-.
    + destruct (apply_posting_run W op ty key lines s Hk Hk' Hp) as (r1 & H1 & _).
      rewrite H1 in Hrun. injection Hrun as <- <-. simpl.
      set (d := rivals W (races s) (live s)) in *. set (d' := set_tables _ _).
      assert (ledger_inv d') as Hd'.
      { destruct (rivals_keep_books (races s) _ Hl) as [Hb Ht]. fold d in Hb, Ht. split.
        - apply books_posted; [|done|done]. by apply (rivals_ids (races s) _ _ Il).
        - intros c. unfold d'. cbn [set_tables on_posting posting].
          destruct (posted_conserves W (new_uuid W (uuids s)) op ty key (ticks s) (S (uuids s))
                      lines d c (proj1 Hp)) as [-> ->]. apply Ht. }
      assert (ids_unused (S (uuids s) + length lines) d') as Hi.
      { apply (ids_unused_mono (S (uuids s))); [lia|]. apply ids_unused_posted; [lia|].
        apply (ids_unused_mono (uuids s)); [lia|]. by apply rivals_ids. }
      repeat split; try done; apply Hd'.
  - apply apply_posting_raises in Hrun as [->|(Ht & _ & Hu & Hlive)]; [done|].
    assert (session_inv (Session (rivals W (races s) (saved s)) (rivals W (races s) (saved s))
      (ticks t) (uuids t) (races t)) /\
      session_inv (Session (rivals W (races s) (live s)) (rivals W (races s) (saved s))
      (ticks t) (uuids t) (races t))) as [H1 H2].
    { split; repeat split; simpl; try apply rivals_keep_books; try done;
        apply rivals_ids; eapply ids_unused_mono; eauto. }
    destruct Hlive as [Hlive|[rs Hlive]]; simpl.
    + destruct t as [l sv ? ? ?]. simpl in *. by subst.
    + destruct t as [l sv ? ? ?]. simpl in *. subst. exact H2.
Qed.

(** C2 Over any sequence of postings, successful or not, with other sessions posting
    in between: every balance stays the sum of the journal of its account, the
    available amount stays what is not held, no idempotency key is recorded twice, and
    the total money and the total of holds of every currency are conserved. *)
Theorem postings_keep_books (calls : list posting_call) (s : session Db) :
  session_inv s -> session_inv (run_postings W calls s).
Proof.
  revert s. induction calls as [|c calls IH]; intros s Hs; simpl; [done|].
  apply IH. by apply apply_posting_keeps_inv.
Qed.
End Sequences.

(** A line with metadata is never posted: its entry has been flushed when the
    context is set, and the ledger rejects the update; the posting raises and is rolled
    back. *)
Theorem metadata_never_posts (W : world Db) op ty key lines (s : session Db) :
  let d := rivals W (races s) (live s) in
  key_free (live s) key -> lines_ok d (map serialize_line lines) ->
  Exists (fun l => has_metadata l = true) lines ->
  exists t, PostingEngine.apply_posting W op ty key lines s =
      (Raise (ValueError "ledger_entries_are_append_only"), t) /\
    live t = rivals W (races s) (saved s) /\ saved t = rivals W (races s) (saved s).
Proof.
  intros d Hk Hok Hm. unfold PostingEngine.apply_posting, q_one_or_none, q_all.
  erewrite bind_ok by (run_steps; by rewrite key_free_lookup). cbv beta iota.
  erewrite bind_ok by reflexivity. erewrite bind_ok by reflexivity.
  cbn [live saved ticks uuids races]. fold d.
  erewrite bind_ok by by apply try_ok, check_ledger_lines_ok.
  set (u := Session d _ _ _ _).
  destruct (post_loop_metadata W op ty (new_uuid W (uuids s)) lines u) as [v Hv]; [|done|].
  { destruct Hok as [_ Hacc]. rewrite Forall_map in Hacc. eapply Forall_impl; [exact Hacc|].
    apply line_account_exists. }
  pose proof (uncommitted_post_loop W op ty (new_uuid W (uuids s)) lines u) as (Hs & _ & _).
  rewrite Hv in Hs. simpl in Hs.
  erewrite bind_raised; [|by erewrite try_raised by by erewrite bind_raised].
  by eexists.
Qed.

(** ** The older engine *)

Lemma legacy_instruction_run (W : world Db) ctx (resolver : LegacyPosting.PostingContext -> PM Z) dir s :
  (forall s, exists i t, resolver ctx s = (Ok i, t) /\ account_exists (live t) i /\
     exists l, live t = on_accounts (fun x => x ++ l) (live s)) ->
  operation_known (LegacyPosting.ctx_operation_id ctx) (live s) ->
  exists e t,
    LegacyPosting.post_instruction W ctx
      (LegacyPosting.MkPostingInstruction resolver dir (LegacyPosting.ctx_amount ctx)) s = (Ok e, t) /\
    le_direction e = dir /\ le_amount e = LegacyPosting.ctx_amount ctx /\
    le_currency e = LegacyPosting.ctx_currency ctx /\
    ledger_entries (posting (live t)) = ledger_entries (posting (live s)) ++ [e] /\
    saved t = live t /\ operation_known (LegacyPosting.ctx_operation_id ctx) (live t).
Proof.
  intros Hr Hop. unfold LegacyPosting.post_instruction. cbn [LegacyPosting.account_resolver
    LegacyPosting.direction LegacyPosting.amount].
  destruct (Hr s) as (i & u & Hi & Ha & l & Hl). erewrite bind_ok by exact Hi.
  eexists _, _. split.
  { apply (synced_post_run W i _ None _ _ _ None None true true); [exact Ha|]. by rewrite Hl. }
  repeat split; simpl; rewrite ?Hl; try done.
  unfold operation_known, synced_db. simpl. by rewrite Hl.
Qed.

Lemma legacy_resolver_ok ctx (r : LegacyPosting.PostingContext -> PM Z) :
  (r = LegacyPosting._client_main_account \/ exists t, r = LegacyPosting._technical_account t) ->
  forall s, exists i t, r ctx s = (Ok i, t) /\ account_exists (live t) i /\
     exists l, live t = on_accounts (fun x => x ++ l) (live s).
Proof.
  assert (forall c ot o cu ty ca ta st ac s, exists i t,
    (account ← AccountsRepository.get_or_create_account c ot o cu ty ca ta st ac;
     mret (acc_id account)) s = (Ok i, t) /\ account_exists (live t) i /\
     exists l, live t = on_accounts (fun x => x ++ l) (live s)) as H.
  { intros. destruct (get_or_create_run c ot o cu ty ca ta st ac s) as (a & t & Hr & Hin & _ & Hl & _).
    exists (acc_id a), t. erewrite bind_ok by exact Hr. split; [done|]. split; [|done]. by exists a. }
  intros [->|[t ->]] s; apply H.
Qed.

(** The older engine posts a fuel purchase, a top-up or a refund as two committed
    entries of the same amount, a debit then a credit; it refuses a manual adjustment
    and changes nothing. *)
Theorem legacy_post_double_entry (W : world Db) ty ctx (s : session Db) :
  operation_known (LegacyPosting.ctx_operation_id ctx) (live s) ->
  match ty with
  | LegacyPosting.MANUAL_ADJUSTMENT =>
      LegacyPosting.post W ty ctx s = (Raise UnsupportedPostingType, s)
  | _ => exists r t e1 e2, LegacyPosting.post W ty ctx s = (Ok r, t) /\
      LegacyPosting.entries r = [e1; e2] /\
      ledger_entries (posting (live t)) = ledger_entries (posting (live s)) ++ [e1; e2] /\
      le_direction e1 = LedgerDirection.DEBIT /\ le_direction e2 = LedgerDirection.CREDIT /\
      le_amount e1 = LegacyPosting.ctx_amount ctx /\ le_amount e2 = LegacyPosting.ctx_amount ctx /\
      saved t = live t
  end.
Proof.
  intros Hop.
  assert (forall r1 r2,
    (r1 = LegacyPosting._client_main_account \/ exists t, r1 = LegacyPosting._technical_account t) ->
    (r2 = LegacyPosting._client_main_account \/ exists t, r2 = LegacyPosting._technical_account t) ->
    exists es t e1 e2, for_each
      [LegacyPosting.MkPostingInstruction r1 LedgerDirection.DEBIT (LegacyPosting.ctx_amount ctx);
       LegacyPosting.MkPostingInstruction r2 LedgerDirection.CREDIT (LegacyPosting.ctx_amount ctx)]
      (LegacyPosting.post_instruction W ctx) s = (Ok es, t) /\ es = [e1; e2] /\
      ledger_entries (posting (live t)) = ledger_entries (posting (live s)) ++ [e1; e2] /\
      le_direction e1 = LedgerDirection.DEBIT /\ le_direction e2 = LedgerDirection.CREDIT /\
      le_amount e1 = LegacyPosting.ctx_amount ctx /\ le_amount e2 = LegacyPosting.ctx_amount ctx /\
      saved t = live t) as H.
  { intros r1 r2 H1 H2.
    destruct (legacy_instruction_run W ctx r1 LedgerDirection.DEBIT s (legacy_resolver_ok ctx r1 H1) Hop)
      as (e1 & t1 & R1 & ? & ? & _ & L1 & _ & Hop1).
    destruct (legacy_instruction_run W ctx r2 LedgerDirection.CREDIT t1 (legacy_resolver_ok ctx r2 H2)
      Hop1) as (e2 & t2 & R2 & ? & ? & _ & L2 & Hs & _).
    exists [e1; e2], t2, e1, e2. simpl. erewrite bind_ok by exact R1.
    erewrite bind_ok by (erewrite bind_ok by exact R2; reflexivity).
    repeat split; auto. by rewrite L2, L1, <- app_assoc. }
  destruct ty; [| | |reflexivity]; unfold LegacyPosting.post; cbn [LegacyPosting._rules].
  - destruct (H LegacyPosting._client_main_account
      (LegacyPosting._technical_account LegacyPosting.REVENUE_TARIFF_ID)) as (es & t & e1 & e2 & Hr & ? & ?);
      [by left|right; by eexists|].
    eexists _, t, e1, e2. by erewrite bind_ok by exact Hr.
  - destruct (H (LegacyPosting._technical_account LegacyPosting.SETTLEMENT_TARIFF_ID)
      LegacyPosting._client_main_account) as (es & t & e1 & e2 & Hr & ? & ?);
      [right; by eexists|by left|].
    eexists _, t, e1, e2. by erewrite bind_ok by exact Hr.
  - destruct (H (LegacyPosting._technical_account LegacyPosting.REVENUE_TARIFF_ID)
      LegacyPosting._client_main_account) as (es & t & e1 & e2 & Hr & ? & ?);
      [right; by eexists|by left|].
    eexists _, t, e1, e2. by erewrite bind_ok by exact Hr.
Qed.

(** ** Concrete runs *)

Definition demo_account (id : Z) (owner : string) (ty : AccountType.AccountType) : Account :=
  MkAccount id owner AccountOwnerType.CLIENT (Some owner) None None "RUB" ty AccountStatus.ACTIVE.

Definition demo_db : Db :=
  on_accounts (fun _ => [demo_account 1 "client" AccountType.CLIENT_MAIN;
                         demo_account 2 "merchant" AccountType.TECHNICAL]) empty_db.

Definition demo_line (i : Z) (dir : LedgerDirection.LedgerDirection) (amount : Z) : PostingLine :=
  MkPostingLine i dir (dec_of_int amount) "RUB" None.

Definition demo_lines : list PostingLine :=
  [demo_line 1 LedgerDirection.DEBIT 100; demo_line 2 LedgerDirection.CREDIT 100].

Definition demo_capture := PostingEngine.apply_posting demo_world None PostingBatchType.CAPTURE "k".

Lemma demo_postable : postable demo_db demo_lines.
Proof.
  split; [split|].
  - intros c. unfold currency_total. simpl. destruct (decide _); done.
  - repeat constructor.
  - repeat constructor.
Qed.

Lemma apply_posting_posts_witness :
  exists r t, demo_capture demo_lines (fresh_session demo_db) = (Ok r, t) /\
    bal_current (row_of (posting (live t)) 1) = -1000000.
Proof.
  destruct (apply_posting_posts demo_world None PostingBatchType.CAPTURE "k" demo_lines
    (fresh_session demo_db) (Forall_nil_2 _) (Forall_nil_2 _) demo_postable)
    as (r & t & Hr & _ & _ & _ & Hc & _).
  exists r, t. split; [exact Hr|]. rewrite Hc. reflexivity.
Defined.

Lemma apply_posting_idempotent_witness :
  exists r t r', demo_capture demo_lines (fresh_session demo_db) = (Ok r, t) /\
    demo_capture [] t = (Ok r', t) /\ pr_entries r' = pr_entries r.
Proof.
  destruct (demo_capture demo_lines (fresh_session demo_db)) as [[r|e] t] eqn:Hr;
    [|apply (f_equal fst) in Hr; vm_compute in Hr; discriminate].
  destruct (apply_posting_idempotent demo_world None PostingBatchType.CAPTURE None
    PostingBatchType.CAPTURE "k" demo_lines [] (fresh_session demo_db) t r eq_refl
    (Forall_nil_2 _) Hr) as (r' & H' & _ & He).
  exists r, t, r'. split; [reflexivity|split; [exact H'|exact He]].
Defined.

(** A batch that does not balance. *)
Lemma apply_posting_atomic_witness :
  exists e t, demo_capture [demo_line 1 LedgerDirection.DEBIT 5] (fresh_session demo_db) = (Raise e, t) /\
    posting (live t) = posting demo_db.
Proof.
  destruct (demo_capture [demo_line 1 LedgerDirection.DEBIT 5] (fresh_session demo_db))
    as [[r|e] t] eqn:Hr; [apply (f_equal fst) in Hr; vm_compute in Hr; discriminate|].
  exists e, t. split; [reflexivity|].
  destruct (apply_posting_atomic demo_world None PostingBatchType.CAPTURE "k"
    [demo_line 1 LedgerDirection.DEBIT 5] (fresh_session demo_db) t e Hr) as [->|[_ [H|H]]];
    [reflexivity|exact H|exact H].
Defined.

Lemma metadata_never_posts_witness :
  exists t, demo_capture [MkPostingLine 1 LedgerDirection.DEBIT 0 "RUB" (Some [("note", JInt 1)])]
      (fresh_session demo_db) = (Raise (ValueError "ledger_entries_are_append_only"), t) /\
    live t = demo_db.
Proof.
  destruct (metadata_never_posts demo_world None PostingBatchType.CAPTURE "k"
    [MkPostingLine 1 LedgerDirection.DEBIT 0 "RUB" (Some [("note", JInt 1)])]
    (fresh_session demo_db)) as (t & Ht & Hl & _).
  - apply Forall_nil_2.
  - split; [|repeat constructor]. intros c. unfold currency_total. simpl.
    destruct (decide _); reflexivity.
  - constructor. reflexivity.
  - exists t. split; [exact Ht|exact Hl].
Defined.

Lemma empty_books (d : Db) :
  balances (posting d) = ∅ -> ledger_entries (posting d) = [] -> posting_batches (posting d) = [] ->
  ledger_inv (fun _ => 0) (fun _ => 0) d /\ forall n, ids_unused demo_world n d.
Proof.
  intros Hb He Hp. split; [split; [split|]|].
  - by rewrite He.
  - by rewrite He.
  - intros i. rewrite He. unfold row_of. by rewrite Hb.
  - intros i. rewrite He. unfold row_of. by rewrite Hb.
  - intros i. unfold row_of. by rewrite Hb.
  - rewrite Hp. constructor.
  - intros c. unfold column_total. by rewrite Hb.
  - intros n k _. unfold id_unused. rewrite Hp. constructor.
Qed.

Definition demo_calls : list posting_call :=
  [ MkPostingCall None PostingBatchType.CAPTURE "k1" demo_lines;
    MkPostingCall None PostingBatchType.HOLD "k2" demo_lines;
    MkPostingCall None PostingBatchType.CAPTURE "k1" demo_lines;
    MkPostingCall None PostingBatchType.CAPTURE "k3" [demo_line 1 LedgerDirection.DEBIT 5] ].

Lemma postings_keep_books_witness :
  let s := run_postings demo_world demo_calls (fresh_session demo_db) in
  bal_available (row_of (posting (live s)) 1) =
    bal_current (row_of (posting (live s)) 1) - bal_hold (row_of (posting (live s)) 1) /\
  length (ledger_entries (posting (live s))) = 4%nat.
Proof.
  destruct (empty_books demo_db eq_refl eq_refl eq_refl) as [Hd Hi].
  destruct (postings_keep_books demo_world (fun _ => 0) (fun _ => 0) demo_uuids_distinct
    (fun _ _ H => H) (fun _ _ _ H => H) demo_calls (fresh_session demo_db)) as [[[Hb _] _] _].
  - split; split; [exact Hd|exact Hd|exact (Hi _)|exact (Hi _)].
  - split; [exact (books_available _ Hb 1)|vm_compute; reflexivity].
Defined.

Lemma legacy_post_double_entry_witness :
  exists r t e1 e2, LegacyPosting.post demo_world LegacyPosting.TOPUP
      (LegacyPosting.MkPostingContext "client" None 100 "RUB" None) (fresh_session demo_db) = (Ok r, t) /\
    LegacyPosting.entries r = [e1; e2].
Proof.
  destruct (legacy_post_double_entry demo_world LegacyPosting.TOPUP
    (LegacyPosting.MkPostingContext "client" None 100 "RUB" None) (fresh_session demo_db) I)
    as (r & t & e1 & e2 & H1 & H2 & _).
  exists r, t, e1, e2. split; [exact H1|exact H2].
Defined.
