(* ===== verification/Scenarios.v ===== *)
(** * Refunds, reversals and cross-period adjustments

    repositories/{refunds,reversals,adjustments}_repository.py,
    services/operations_scenarios/{refunds,reversals,adjustments}.py.  An ORM object the
    code holds is the record it was loaded as; the assignments of its columns are written
    to its row. *)
From S2P Require Import Prelude Json Enums Models Ledger FinanceRules Posting.

Definition PLATFORM_OWNER_ID : string := "00000000-0000-0000-0000-000000000001".

(** [date.today()], in days since the epoch *)
Definition today (W : world Db) : PM Z := t ← now W; mret (t / 86400000000).

(** A unique idempotency key at the flush of an insert. *)
Definition insert_unique {A} (table : Db -> list A) (key_of : A -> string) (constraint : string)
    (add : A -> Db -> Db) (row : A) : PM unit :=
  clash ← q_first table (fun r => (key_of r =? key_of row)%py);
  match clash with
  | Some _ => raise (IntegrityError constraint)
  | None => modify (add row)
  end.

(** ** Repositories *)

Module AdjustmentsRepository.
Section Repository.
Context (W : world Db).

Definition get_by_idempotency (key : string) : PM (option FinancialAdjustment) :=
  q_one_or_none (fun d => adjustments (scenario d)) (fun r => (fa_idempotency_key r =? key)%py).

Definition create (kind : FinancialAdjustmentKind.FinancialAdjustmentKind)
    (related_entity_type : RelatedEntityType.RelatedEntityType)
    (related_entity_id operation_id : string) (amount : Z) (currency : string)
    (effective_date : Z) (idempotency_key : string) : PM FinancialAdjustment :=
  id ← uuid4 W;
  let adjustment := MkFinancialAdjustment id kind related_entity_type related_entity_id
    operation_id amount currency FinancialAdjustmentStatus.PENDING None effective_date
    idempotency_key None in
  insert_unique (fun d => adjustments (scenario d)) fa_idempotency_key
    "financial_adjustments.idempotency_key" (fun r => on_adjustments (fun l => l ++ [r])) adjustment;;
  mret adjustment.

(** Assignments to an adjustment's columns. *)
Definition save (f : FinancialAdjustment -> FinancialAdjustment) (a : FinancialAdjustment)
    : PM FinancialAdjustment :=
  modify (on_adjustments (update_where (fun r => (fa_id r =? fa_id a)%py) f));;
  mret (f a).

Definition mark_posted (a : FinancialAdjustment) (posting_id : string) : PM FinancialAdjustment :=
  at_ ← now W;
  save (fun r => set_fa_updated_at (Some at_) (set_fa_posting_id (Some posting_id)
                   (set_fa_status FinancialAdjustmentStatus.POSTED r))) a.

Definition mark_failed (a : FinancialAdjustment) : PM FinancialAdjustment :=
  at_ ← now W;
  save (fun r => set_fa_updated_at (Some at_) (set_fa_status FinancialAdjustmentStatus.FAILED r)) a.
End Repository.
End AdjustmentsRepository.

Module RefundsRepository.
Section Repository.
Context (W : world Db).

Definition get_by_idempotency (key : string) : PM (option RefundRequest) :=
  q_one_or_none (fun d => refund_requests (scenario d)) (fun r => (rf_idempotency_key r =? key)%py).

Definition create (operation_id operation_business_id : string) (amount : Z) (currency : string)
    (reason initiator : option string) (idempotency_key : string)
    (settlement_policy : SettlementPolicy.SettlementPolicy) : PM RefundRequest :=
  id ← uuid4 W;
  let refund := MkRefundRequest id operation_id operation_business_id amount currency reason
    initiator idempotency_key RefundRequestStatus.REQUESTED None settlement_policy None in
  insert_unique (fun d => refund_requests (scenario d)) rf_idempotency_key
    "refund_requests.idempotency_key" (fun r => on_refund_requests (fun l => l ++ [r])) refund;;
  mret refund.

Definition save (f : RefundRequest -> RefundRequest) (a : RefundRequest) : PM RefundRequest :=
  modify (on_refund_requests (update_where (fun r => (rf_id r =? rf_id a)%py) f));;
  mret (f a).

Definition mark_posted (a : RefundRequest) (posting_id : string) : PM RefundRequest :=
  at_ ← now W;
  save (fun r => set_rf_updated_at (Some at_) (set_rf_posted_posting_id (Some posting_id)
                   (set_rf_status RefundRequestStatus.POSTED r))) a.

Definition mark_failed (a : RefundRequest) : PM RefundRequest :=
  at_ ← now W;
  save (fun r => set_rf_updated_at (Some at_) (set_rf_status RefundRequestStatus.FAILED r)) a.
End Repository.
End RefundsRepository.

Module ReversalsRepository.
Section Repository.
Context (W : world Db).

Definition get_by_idempotency (key : string) : PM (option Reversal) :=
  q_one_or_none (fun d => reversals (scenario d)) (fun r => (rv_idempotency_key r =? key)%py).

Definition create (operation_id operation_business_id : string)
    (reason initiator : option string) (idempotency_key : string)
    (settlement_policy : SettlementPolicy.SettlementPolicy) : PM Reversal :=
  id ← uuid4 W;
  let reversal := MkReversal id operation_id operation_business_id reason
    initiator idempotency_key ReversalStatus.REQUESTED None settlement_policy None in
  insert_unique (fun d => reversals (scenario d)) rv_idempotency_key
    "reversals.idempotency_key" (fun r => on_reversals (fun l => l ++ [r])) reversal;;
  mret reversal.

Definition save (f : Reversal -> Reversal) (a : Reversal) : PM Reversal :=
  modify (on_reversals (update_where (fun r => (rv_id r =? rv_id a)%py) f));;
  mret (f a).

Definition mark_posted (a : Reversal) (posting_id : string) : PM Reversal :=
  at_ ← now W;
  save (fun r => set_rv_updated_at (Some at_) (set_rv_posted_posting_id (Some posting_id)
                   (set_rv_status ReversalStatus.POSTED r))) a.

Definition mark_failed (a : Reversal) : PM Reversal :=
  at_ ← now W;
  save (fun r => set_rv_updated_at (Some at_) (set_rv_status ReversalStatus.FAILED r)) a.
End Repository.
End ReversalsRepository.

(** ** Accounts and lines the services share *)

(** A line of an integer amount of money. *)
Definition money_line (account_id : Z) (direction : LedgerDirection.LedgerDirection)
    (amount : Z) (currency : string) : PostingLine :=
  MkPostingLine account_id direction (dec_of_int amount) currency None.

Definition transfer_lines (from to : Z) (amount : Z) (currency : string) : list PostingLine :=
  [money_line from LedgerDirection.DEBIT amount currency;
   money_line to LedgerDirection.CREDIT amount currency].

Definition _client_main (operation : Operation) : PM Z :=
  account ← AccountsRepository.get_or_create_account (op_client_id operation)
    AccountOwnerType.CLIENT (Some (op_client_id operation)) (op_currency operation)
    AccountType.CLIENT_MAIN None None AccountStatus.ACTIVE true;
  mret (acc_id account).

Definition _partner_payable (operation : Operation) : PM Z :=
  account ← AccountsRepository.get_or_create_account (op_merchant_id operation)
    AccountOwnerType.PARTNER (Some (op_merchant_id operation)) (op_currency operation)
    AccountType.TECHNICAL None (Some "PARTNER_PAYABLE") AccountStatus.ACTIVE true;
  mret (acc_id account).

(** A technical account of the platform. *)
Definition platform_account (tariff_id currency : string) : PM Z :=
  account ← AccountsRepository.get_or_create_account PLATFORM_OWNER_ID
    AccountOwnerType.PLATFORM (Some PLATFORM_OWNER_ID) currency
    AccountType.TECHNICAL None (Some tariff_id) AccountStatus.ACTIVE true;
  mret (acc_id account).

Definition _platform_adjustment (currency : string) : PM Z :=
  platform_account "PLATFORM_ADJUSTMENT" currency.

(** From the partner's payable to the client. *)
Definition _refund_lines (operation : Operation) (amount : Z) : PM (list PostingLine) :=
  payable ← _partner_payable operation;
  client ← _client_main operation;
  mret (transfer_lines payable client amount (op_currency operation)).

(** From the platform to the client, once the settlement period is closed. *)
Definition _adjustment_lines (operation : Operation) (amount : Z) : PM (list PostingLine) :=
  platform ← _platform_adjustment (op_currency operation);
  client ← _client_main operation;
  mret (transfer_lines platform client amount (op_currency operation)).

(** [operation.refunded_amount = v] *)
Definition write_refunded (operation : Operation) (v : Z) : PM unit :=
  modify (on_operations (update_where (fun r => (op_id r =? op_id operation)%py)
                           (set_op_refunded_amount v))).

(** The adjustment that records a posting of a closed period, found or created. *)
Definition adjustment_for (W : world Db) (adj_key : string)
    (kind : FinancialAdjustmentKind.FinancialAdjustmentKind)
    (related : RelatedEntityType.RelatedEntityType) (related_id operation_id : string)
    (amount : Z) (currency : string) (adjustment_date : option Z) : PM (option string) :=
  effective_date ← (match adjustment_date with Some d => mret d | None => today W end);
  existing_adj ← AdjustmentsRepository.get_by_idempotency adj_key;
  match existing_adj with
  | Some a => mret (Some (fa_id a))
  | None =>
      a ← AdjustmentsRepository.create W kind related related_id operation_id amount currency
            effective_date adj_key;
      mret (Some (fa_id a))
  end.

(** ** AdjustmentService *)
Module AdjustmentService.
Definition ensure_adjustment (W : world Db) (idempotency_key : string)
    (kind : FinancialAdjustmentKind.FinancialAdjustmentKind)
    (related_entity_type : RelatedEntityType.RelatedEntityType)
    (related_entity_id operation_id : string) (amount : Z) (currency : string)
    (effective_date : Z) : PM FinancialAdjustment :=
  existing ← AdjustmentsRepository.get_by_idempotency idempotency_key;
  match existing with
  | Some a => mret a
  | None =>
      race W;;
      a ← AdjustmentsRepository.create W kind related_entity_type related_entity_id operation_id
            amount currency effective_date idempotency_key;
      commit;;
      mret a
  end.
End AdjustmentService.

(** ** RefundService *)
Module RefundService.
Record RefundResult := MkRefundResult {
  refund : RefundRequest;
  posting_id : option string;
  settlement_policy : SettlementPolicy.SettlementPolicy;
  adjustment_id : option string;
}.

(** Other sessions may commit between the lookup of the key and the insert. *)
Definition request_refund (W : world Db) (operation : Operation) (amount : Z)
    (reason initiator : option string) (idempotency_key : string) (settlement_closed : bool)
    (adjustment_date : option Z) : PM RefundResult :=
  existing ← RefundsRepository.get_by_idempotency idempotency_key;
  match existing with
  | Some r => mret (MkRefundResult r (rf_posted_posting_id r) (rf_settlement_policy r) None)
  | None =>
      if amount <=? 0 then raise RefundAmountInvalid else
      let remaining := op_captured_amount operation - op_refunded_amount operation in
      if remaining <? amount then raise (RefundCapExceeded amount remaining) else
      let settlement_policy := if settlement_closed then SettlementPolicy.ADJUSTMENT_REQUIRED
                               else SettlementPolicy.SAME_PERIOD in
      race W;;
      refund ← RefundsRepository.create W (op_id operation) (op_operation_id operation) amount
        (op_currency operation) reason initiator idempotency_key settlement_policy;
      let posting_type := if settlement_closed then PostingBatchType.ADJUSTMENT
                          else PostingBatchType.REFUND in
      posting_lines ← (if settlement_closed then _adjustment_lines operation amount
                       else _refund_lines operation amount);
      posting_result ← PostingEngine.apply_posting W (Some (op_id operation)) posting_type
        idempotency_key posting_lines;
      refund ← RefundsRepository.mark_posted W refund (pr_posting_id posting_result);
      write_refunded operation (op_refunded_amount operation + amount);;
      adjustment_id ← (if settlement_closed then
        adjustment_for W ("adjustment:" +:+ idempotency_key)
          FinancialAdjustmentKind.REFUND_ADJUSTMENT RelatedEntityType.REFUND (rf_id refund)
          (op_id operation) amount (op_currency operation) adjustment_date
        else mret None);
      commit;;
      mret (MkRefundResult refund (Some (pr_posting_id posting_result)) settlement_policy
              adjustment_id)
  end.
End RefundService.

(** ** ReversalService *)
Module ReversalService.
Record ReversalResult := MkReversalResult {
  reversal : Reversal;
  posting_id : option string;
  settlement_policy : SettlementPolicy.SettlementPolicy;
  adjustment_id : option string;
}.

(** From the partner's payable to the client. *)
Definition _reversal_lines (operation : Operation) (amount : Z) : PM (list PostingLine) :=
  payable ← _partner_payable operation;
  client ← _client_main operation;
  mret (transfer_lines payable client amount (op_currency operation)).

Definition reverse_capture (W : world Db) (operation : Operation)
    (reason initiator : option string) (idempotency_key : string) (settlement_closed : bool)
    (adjustment_date : option Z) : PM ReversalResult :=
  existing ← ReversalsRepository.get_by_idempotency idempotency_key;
  match existing with
  | Some r => mret (MkReversalResult r (rv_posted_posting_id r) (rv_settlement_policy r) None)
  | None =>
      existing_for_operation ← q_one_or_none (fun d => reversals (scenario d))
        (fun r => (rv_operation_id r =? op_id operation)%py &&
                  (rv_status r =? ReversalStatus.POSTED)%py)%bool;
      match existing_for_operation with
      | Some _ => raise (ReversalAlreadyExists (op_id operation))
      | None =>
          let settlement_policy := if settlement_closed then SettlementPolicy.ADJUSTMENT_REQUIRED
                                   else SettlementPolicy.SAME_PERIOD in
          race W;;
          reversal ← ReversalsRepository.create W (op_id operation) (op_operation_id operation)
            reason initiator idempotency_key settlement_policy;
          let amount := op_captured_amount operation in
          let posting_type := if settlement_closed then PostingBatchType.ADJUSTMENT
                              else PostingBatchType.REVERSAL in
          lines ← (if settlement_closed then _adjustment_lines operation amount
                   else _reversal_lines operation amount);
          posting_result ← PostingEngine.apply_posting W (Some (op_id operation)) posting_type
            idempotency_key lines;
          reversal ← ReversalsRepository.mark_posted W reversal (pr_posting_id posting_result);
          adjustment_id ← (if settlement_closed then
            adjustment_for W ("adjustment:" +:+ idempotency_key)
              FinancialAdjustmentKind.REVERSAL_ADJUSTMENT RelatedEntityType.REVERSAL
              (rv_id reversal) (op_id operation) amount (op_currency operation) adjustment_date
            else mret None);
          commit;;
          mret (MkReversalResult reversal (Some (pr_posting_id posting_result)) settlement_policy
                  adjustment_id)
      end
  end.
End ReversalService.


(** ** Facts *)

(** A property of the rows the scenarios own, whatever the ledger and the audit hold. *)
Definition scenario_only (I : Db -> Prop) : Prop :=
  forall d d', scenario d = scenario d' -> I d -> I d'.

Section KeepsScenario.
Context (W : world Db) (I : Db -> Prop) (HI : scenario_only I)
  (HW : forall n d, I d -> I (rivals W n d)).

Lemma keeps_get_or_create client ot oid currency ty card tariff st ac :
  keeps I (AccountsRepository.get_or_create_account client ot oid currency ty card tariff st ac).
Proof.
  intros s [Hl Hs].
  destruct (get_or_create_run client ot oid currency ty card tariff st ac s)
    as (a & t & -> & _ & _ & [l Ht] & Hsv & _). simpl.
  assert (I (live t)) by (apply (HI (live s)); [by rewrite Ht|done]).
  split; [done|]. by destruct Hsv as [->| ->].
Qed.

Lemma keeps_apply_posting op ty key lines :
  keeps I (PostingEngine.apply_posting W op ty key lines).
Proof.
  intros s [Hl Hs].
  destruct (PostingEngine.apply_posting W op ty key lines s) as [[r|e] t] eqn:Hrun; simpl.
  - destruct (apply_posting_ok_inv W op ty key lines s r t Hrun) as [[b Hb]|(Hk & Hk' & Hp)].
    + destruct (apply_posting_replay_run W op ty key lines s b Hb) as (r1 & H1 & _).
      unfold run_apply in H1. rewrite H1 in Hrun. by injection Hrun as <- <-.
    + destruct (apply_posting_run W op ty key lines s Hk Hk' Hp) as (r1 & H1 & _).
      unfold run_apply in H1. rewrite H1 in Hrun. injection Hrun as <- <-.
      split; simpl; (apply (HI (rivals W (races s) (live s))); [done|by apply HW]).
  - apply apply_posting_raises in Hrun as [->|(Ht & _ & _ & Hlive)]; [done|].
    assert (I (saved t)) by (rewrite Ht; by apply HW).
    split; [|done]. destruct Hlive as [->|[rs ->]]; [done|].
    apply (HI (rivals W (races s) (live s))); [done|by apply HW].
Qed.

Lemma keeps_race' : keeps I (race (E := exn) W).
Proof. by apply keeps_race. Qed.

Lemma keeps_client_main o : keeps I (_client_main o).
Proof. unfold _client_main. auto using keeps_get_or_create with keeps. Qed.

Lemma keeps_partner_payable o : keeps I (_partner_payable o).
Proof. unfold _partner_payable. auto using keeps_get_or_create with keeps. Qed.

Lemma keeps_platform_account tariff currency : keeps I (platform_account tariff currency).
Proof. unfold platform_account. auto using keeps_get_or_create with keeps. Qed.

Lemma keeps_refund_lines o a : keeps I (_refund_lines o a).
Proof. unfold _refund_lines. auto using keeps_client_main, keeps_partner_payable with keeps. Qed.

Lemma keeps_reversal_lines o a : keeps I (ReversalService._reversal_lines o a).
Proof.
  unfold ReversalService._reversal_lines.
  auto using keeps_client_main, keeps_partner_payable with keeps.
Qed.

Lemma keeps_adjustment_lines o a : keeps I (_adjustment_lines o a).
Proof.
  unfold _adjustment_lines, _platform_adjustment.
  auto using keeps_client_main, keeps_platform_account with keeps.
Qed.
End KeepsScenario.

Lemma keeps_insert_unique {A} (I : Db -> Prop) (table : Db -> list A) key_of constraint add (row : A) :
  (forall d, I d -> I (add row d)) -> keeps I (insert_unique table key_of constraint add row).
Proof.
  intros Ha. unfold insert_unique, q_first. apply keeps_bind; [apply keeps_gets|].
  intros [x|]; [apply keeps_raise|by apply keeps_modify].
Qed.

#[export] Hint Resolve keeps_client_main keeps_partner_payable
  keeps_platform_account keeps_refund_lines keeps_reversal_lines keeps_adjustment_lines
  keeps_apply_posting : keeps.

(** Properties of the operations and of the reversals: the other tables of the scenarios
    may change. *)
Definition operations_are (L : list Operation) (d : Db) : Prop := operations (scenario d) = L.
Definition reversals_are (L : list Reversal) (d : Db) : Prop := reversals (scenario d) = L.

Lemma operations_are_only L : scenario_only (operations_are L).
Proof. unfold scenario_only, operations_are. by intros d d' ->. Qed.
Lemma reversals_are_only L : scenario_only (reversals_are L).
Proof. unfold scenario_only, reversals_are. by intros d d' ->. Qed.

#[export] Hint Resolve operations_are_only reversals_are_only : keeps.

Section KeepsRows.
Context (W : world Db) (HW : alone W) (I : Db -> Prop).
Context (I_adj : forall d f, I d -> I (on_adjustments f d)).

Lemma keeps_adjustment_for key kind rel rid oid amount currency date :
  keeps I (adjustment_for W key kind rel rid oid amount currency date).
Proof.
  unfold adjustment_for. apply keeps_bind.
  - destruct date; [apply keeps_ret|]. unfold today. auto with keeps.
  - intros day. apply keeps_bind; [apply keeps_one_or_none|]. intros [a|]; [apply keeps_ret|].
    apply keeps_bind; [|intros; apply keeps_ret]. unfold AdjustmentsRepository.create.
    apply keeps_bind; [apply keeps_uuid4|]. intros id. apply keeps_bind; [|intros; apply keeps_ret].
    apply keeps_insert_unique. intros d Hd. by apply I_adj.
Qed.
End KeepsRows.

(** ** The refund cap *)

Definition within_cap (o : Operation) : Prop :=
  0 <= op_refunded_amount o <= op_captured_amount o.

Definition raise_refunded (o : Operation) (amount : Z) (L : list Operation) : list Operation :=
  update_where (fun r => (op_id r =? op_id o)%py) (set_op_refunded_amount (op_refunded_amount o + amount)) L.

(** What a refund request leaves in the table of operations, whether it returns or
    raises: nothing changed, or the refunded amount raised within the cap. *)
Definition refund_effect (o : Operation) (amount : Z) (L : list Operation) (d : Db) : Prop :=
  operations_are L d \/
  (0 < amount /\ op_refunded_amount o + amount <= op_captured_amount o /\
   operations_are (raise_refunded o amount L) d).

Lemma request_refund_effect W o amount reason initiator key closed date L s :
  alone W -> holds (operations_are L) s ->
  let t := (RefundService.request_refund W o amount reason initiator key closed date s).2 in
  refund_effect o amount L (live t) /\ refund_effect o amount L (saved t).
Proof.
  intros HW Hs.
  set (Post := fun t : session Db => refund_effect o amount L (live t) /\ refund_effect o amount L (saved t)).
  assert (forall t, holds (operations_are L) t -> Post t) as Hkeep.
  { intros t [Hl Hv]. split; by left. }
  assert (wp (RefundService.request_refund W o amount reason initiator key closed date)
            (fun _ => Post) (fun _ => Post) s) as H.
  2:{ unfold wp in H. by destruct (RefundService.request_refund _ _ _ _ _ _ _ _ s) as [[?|?] ?]. }
  unfold RefundService.request_refund.
  apply (wp_keeps_bind (operations_are L)); [apply keeps_one_or_none|done| |by auto].
  intros [r|] t Ht; [by apply wp_ret, Hkeep|].
  destruct (Z.leb_spec amount 0) as [|Hpos]; [by apply wp_raise, Hkeep|].
  destruct (Z.ltb_spec (op_captured_amount o - op_refunded_amount o) amount) as [|Hcap];
    [by apply wp_raise, Hkeep|].
  apply (wp_keeps_bind (operations_are L)); [auto with keeps|done| |by auto].
  { apply keeps_race'. by apply alone_keeps. }
  intros _ t1 Ht1. cbv zeta.
  apply (wp_keeps_bind (operations_are L)); [|done| |by auto].
  { unfold RefundsRepository.create. apply keeps_bind; [apply keeps_uuid4|]. intros id.
    apply keeps_bind; [by apply keeps_insert_unique|intros; apply keeps_ret]. }
  intros refund t2 Ht2.
  apply (wp_keeps_bind (operations_are L)); [|done| |by auto].
  { destruct closed; auto with keeps. }
  intros lines t3 Ht3.
  apply (wp_keeps_bind (operations_are L)); [|done| |by auto].
  { apply keeps_apply_posting; [apply operations_are_only|by apply alone_keeps]. }
  intros pr t4 Ht4.
  apply (wp_keeps_bind (operations_are L)); [|done| |by auto].
  { unfold RefundsRepository.mark_posted, RefundsRepository.save.
    apply keeps_bind; [apply keeps_now|]. intros at_. apply keeps_bind; [by apply keeps_modify|].
    intros; apply keeps_ret. }
  intros refund' t5 [Hl5 Hs5]. apply wp_bind. unfold write_refunded, wp at 1, modify.
  set (t6 := Session _ _ _ _ _).
  set (J := fun d => refund_effect o amount L d).
  assert (holds J t6) as Ht6.
  { split; [right|by left]. split; [lia|]. split; [lia|].
    unfold operations_are, t6, raise_refunded. simpl. by rewrite Hl5. }
  assert (forall d f, J d -> J (on_adjustments f d)) as HJ.
  { intros d f [H|(? & ? & H)]; [left|right]; done. }
  apply (wp_keeps_bind J); [|done| |by intros e t7 []].
  { destruct closed; [by apply keeps_adjustment_for|apply keeps_ret]. }
  intros adj t7 Ht7. apply (wp_keeps_bind J); [apply keeps_commit|done| |by intros e t8 []].
  intros _ t8 []. by apply wp_ret.
Qed.

(** ** A payment between two accounts *)

(** The account [i] exists and holds money of [currency]. *)
Definition account_of (d : Db) (i : Z) (currency : string) : Prop :=
  match find (fun a => acc_id a =? i) (accounts (posting d)) with
  | Some a => currency = acc_currency a
  | None => False
  end.

Lemma account_of_app d i currency l :
  account_of d i currency -> account_of (on_accounts (fun x => x ++ l) d) i currency.
Proof.
  unfold account_of, on_accounts, on_posting. simpl. rewrite find_app. by destruct (find _ _).
Qed.

Lemma numbered_find {A} (f : A -> Z) l a :
  numbered f l -> In a l -> find (fun x => f x =? f a) l = Some a.
Proof.
  induction l as [|x l IH] using rev_ind; intros Hn Hin; [done|].
  pose proof (numbered_sorted f _ Hn) as Hs. unfold numbered in Hn.
  rewrite map_app, length_app in Hn. simpl in Hn.
  rewrite Nat2Z.inj_add, seqZ_app in Hn by lia. simpl in Hn. apply app_inj_tail in Hn as [Hn Hx].
  rewrite find_app. apply in_app_or in Hin as [Hin|[->|[]]].
  - by rewrite (IH Hn Hin).
  - rewrite find_all_false; [simpl; by rewrite Z.eqb_refl|].
    apply List.Forall_forall. intros y Hy.
    pose proof (StronglySorted_app_1_elem_of _ _ _ y a Hs) as H. unfold lt_on in H.
    assert (f y < f a) by (apply H; [by apply list_elem_of_In|by apply list_elem_of_singleton]). lia.
Qed.

(** The tuple that identifies an account of an owner. *)
Definition account_is (owner : string) (owner_type : AccountOwnerType.AccountOwnerType)
    (ty : AccountType.AccountType) (tariff : option string) (currency : string) (a : Account) : Prop :=
  acc_client_id a = owner /\ acc_owner_type a = owner_type /\ acc_owner_id a = Some owner /\
  acc_currency a = currency /\ acc_type a = ty /\ acc_card_id a = None /\ acc_tariff_id a = tariff.

(** The account of what the platform owes the merchant of an operation. *)
Definition is_payable (o : Operation) : Account -> Prop :=
  account_is (op_merchant_id o) AccountOwnerType.PARTNER AccountType.TECHNICAL
    (Some "PARTNER_PAYABLE") (op_currency o).

(** The main account of the client of an operation. *)
Definition is_client_main (o : Operation) : Account -> Prop :=
  account_is (op_client_id o) AccountOwnerType.CLIENT AccountType.CLIENT_MAIN None (op_currency o).

(** A technical account of the platform. *)
Definition is_platform (tariff currency : string) : Account -> Prop :=
  account_is PLATFORM_OWNER_ID AccountOwnerType.PLATFORM AccountType.TECHNICAL (Some tariff) currency.

(** A call that returns the id of an account of a currency, creating it if needed. *)
Definition getter (m : PM Z) (P : Account -> Prop) (currency : string) : Prop :=
  forall s : session Db,
  numbered acc_id (accounts (posting (live s))) ->
  exists a t l, m s = (Ok (acc_id a), t) /\ In a (accounts (posting (live t))) /\ P a /\
    acc_currency a = currency /\ live t = on_accounts (fun x => x ++ l) (live s) /\
    numbered acc_id (accounts (posting (live t))) /\ uuids t = uuids s /\ races t = races s.

Lemma str_or_same x : str_or (Some x) x = x.
Proof. by destruct x. Qed.

Lemma getter_get_or_create owner ot currency ty tariff st ac :
  getter (account ← AccountsRepository.get_or_create_account owner ot (Some owner) currency ty None
            tariff st ac; mret (acc_id account)) (account_is owner ot ty tariff currency) currency.
Proof.
  intros s Hn.
  destruct (get_or_create_run owner ot (Some owner) currency ty None tariff st ac s)
    as (a & t & Hr & Hin & Hc & [l Hl] & _ & _ & Hu & Hra & Hn').
  exists a, t, l. erewrite bind_ok by exact Hr. specialize (Hn' Hn).
  repeat split; auto; apply get_or_create_matches in Hr; rewrite str_or_same in Hr;
    unfold AccountsRepository.matches, eqb in Hr; repeat rewrite andb_true_iff in Hr;
    rewrite !bool_decide_eq_true in Hr; by destruct_and! Hr.
Qed.

Lemma getter_client_main o : getter (_client_main o) (is_client_main o) (op_currency o).
Proof. apply getter_get_or_create. Qed.
Lemma getter_partner_payable o : getter (_partner_payable o) (is_payable o) (op_currency o).
Proof. apply getter_get_or_create. Qed.
Lemma getter_platform_account tariff currency :
  getter (platform_account tariff currency) (is_platform tariff currency) currency.
Proof. apply getter_get_or_create. Qed.

Lemma account_of_in d a :
  numbered acc_id (accounts (posting d)) -> In a (accounts (posting d)) ->
  account_of d (acc_id a) (acc_currency a).
Proof. intros Hn Ha. unfold account_of. by rewrite (numbered_find _ _ _ Hn Ha). Qed.

Lemma transfer_ok d from to amount currency :
  account_of d from currency -> account_of d to currency ->
  postable d (transfer_lines from to amount currency).
Proof.
  intros Hf Ht. split; [split|repeat constructor].
  - intros c. unfold currency_total. simpl. destruct (decide (currency = c)); [|done].
    unfold line_delta, ll_direction, serialize_line. simpl. lia.
  - constructor; [exact Hf|constructor; [exact Ht|constructor]].
Qed.

(** Two accounts are looked up and a line moves money between them. *)
Lemma transfer_lines_run m1 m2 P1 P2 amount currency s :
  getter m1 P1 currency -> getter m2 P2 currency ->
  numbered acc_id (accounts (posting (live s))) ->
  exists from to t l,
    (from ← m1; to ← m2; mret (transfer_lines from to amount currency)) s =
      (Ok (transfer_lines (acc_id from) (acc_id to) amount currency), t) /\
    postable (live t) (transfer_lines (acc_id from) (acc_id to) amount currency) /\
    In from (accounts (posting (live t))) /\ In to (accounts (posting (live t))) /\
    P1 from /\ P2 to /\
    numbered acc_id (accounts (posting (live t))) /\
    live t = on_accounts (fun x => x ++ l) (live s) /\ uuids t = uuids s /\ races t = races s.
Proof.
  intros H1 H2 Hn.
  destruct (H1 s Hn) as (a & u & l1 & R1 & I1 & A1 & C1 & L1 & N1 & U1 & X1).
  destruct (H2 u N1) as (b & v & l2 & R2 & I2 & A2 & C2 & L2 & N2 & U2 & X2).
  exists a, b, v, (l1 ++ l2). erewrite bind_ok by exact R1. erewrite bind_ok by exact R2.
  assert (In a (accounts (posting (live v)))) as I1'.
  { rewrite L2. simpl. apply in_app_iff. by left. }
  split; [done|]. split.
  { apply transfer_ok; [rewrite <- C1|rewrite <- C2]; by apply account_of_in. }
  repeat (split; [done|]). split; [|split; congruence]. rewrite L2, L1.
  unfold on_accounts, on_posting. simpl. by rewrite <- app_assoc.
Qed.

Lemma insert_unique_ok {A} (table : Db -> list A) key_of constraint add (row : A) s :
  List.filter (fun r => (key_of r =? key_of row)%py) (table (live s)) = [] ->
  insert_unique table key_of constraint add row s =
    (Ok tt, Session (add row (live s)) (saved s) (ticks s) (uuids s) (races s)).
Proof. intros H. unfold insert_unique, q_first. run_steps. by rewrite H. Qed.

Lemma key_free_same d d' key :
  posting_batches (posting d') = posting_batches (posting d) -> key_free d key -> key_free d' key.
Proof. unfold key_free. by intros ->. Qed.

(** Accounts of different owner types are different rows. *)
Lemma distinct_accounts l a b :
  numbered acc_id l -> In a l -> In b l -> acc_owner_type a <> acc_owner_type b ->
  acc_id a <> acc_id b.
Proof.
  intros Hn Ha Hb Hne E. apply Hne. pose proof (numbered_find _ _ _ Hn Ha) as H1.
  rewrite E, (numbered_find _ _ _ Hn Hb) in H1. by injection H1 as ->.
Qed.

(** The part the two services share: the two accounts, then the posting. *)
Lemma pay_run W op ty key m1 m2 P1 P2 amount currency s :
  alone W -> getter m1 P1 currency -> getter m2 P2 currency ->
  numbered acc_id (accounts (posting (live s))) -> key_free (live s) key ->
  exists from to u r t,
    (from ← m1; to ← m2; mret (transfer_lines from to amount currency)) s =
      (Ok (transfer_lines (acc_id from) (acc_id to) amount currency), u) /\
    PostingEngine.apply_posting W op ty key
      (transfer_lines (acc_id from) (acc_id to) amount currency) u = (Ok r, t) /\
    (In from (accounts (posting (live t))) /\ In to (accounts (posting (live t))) /\
     P1 from /\ P2 to /\ numbered acc_id (accounts (posting (live t)))) /\
    scenario (live t) = scenario (live s) /\ saved t = live t /\
    posting_batches (posting (live t)) = posting_batches (posting (live s)) ++
      [MkPostingBatch (pr_posting_id r) op ty PostingBatchStatus.APPLIED key] /\
    (forall i, bal_current (row_of (posting (live t)) i) = bal_current (row_of (posting (live s)) i) +
       on_account i (line_current ty) (transfer_lines (acc_id from) (acc_id to) amount currency)) /\
    (forall i, bal_hold (row_of (posting (live t)) i) = bal_hold (row_of (posting (live s)) i) +
       on_account i (line_hold ty) (transfer_lines (acc_id from) (acc_id to) amount currency)).
Proof.
  intros HW H1 H2 Hn Hk.
  destruct (transfer_lines_run m1 m2 P1 P2 amount currency s H1 H2 Hn)
    as (from & to & u & l & R & P & I1 & I2 & A1 & A2 & N & L & _ & _).
  set (lines := transfer_lines (acc_id from) (acc_id to) amount currency) in *.
  assert (key_free (live u) key) as Hk' by (rewrite L; by apply (key_free_same (live s))).
  destruct (apply_posting_run W op ty key lines u)
    as (r & R' & Hpid & _ & _); [done|by rewrite HW|by rewrite HW|].
  rewrite HW in R'. eexists from, to, u, r, _. split; [exact R|]. split; [exact R'|].
  cbn [live saved set_tables on_posting posting scenario]. unfold posted_tables.
  cbn [posting_batches accounts].
  rewrite Hpid, (proj1 (post_lines_frame _ _ _ _ _ _ _ _)), (proj2 (post_lines_frame _ _ _ _ _ _ _ _)).
  split; [done|]. split; [by rewrite L|]. split; [done|]. split; [by rewrite L|].
  split; intros i; unfold row_of at 1; cbn [balances].
  - pose proof (post_lines_current W (new_uuid W (uuids u)) op ty
      lines (ticks u) (S (uuids u)) (posting (live u)) i) as Hc.
    unfold row_of in *. rewrite Hc. by rewrite L.
  - pose proof (post_lines_hold W (new_uuid W (uuids u)) op ty
      lines (ticks u) (S (uuids u)) (posting (live u)) i) as Hc.
    unfold row_of in *. rewrite Hc. by rewrite L.
Qed.

(** An amount leaves one account and reaches another; every other balance stays. *)
Definition paid (from to : Account) (amount : Z) (d d' : Db) : Prop :=
  In from (accounts (posting d')) /\ In to (accounts (posting d')) /\ acc_id from <> acc_id to /\
  forall i, bal_current (row_of (posting d') i) = bal_current (row_of (posting d) i) +
    (if decide (i = acc_id to) then dec_of_int amount
     else if decide (i = acc_id from) then - dec_of_int amount else 0).

(** The lines of a transfer, in a posting that moves balances. *)
Lemma transfer_current ty from to amount currency i :
  from <> to -> ty ∈ [PostingBatchType.REFUND; PostingBatchType.REVERSAL; PostingBatchType.ADJUSTMENT] ->
  on_account i (line_current ty) (transfer_lines from to amount currency) =
    if decide (i = to) then dec_of_int amount
    else if decide (i = from) then - dec_of_int amount else 0.
Proof.
  intros Hne Hty. unfold on_account, transfer_lines, line_current, money_line. simpl.
  rewrite !elem_of_cons, elem_of_nil in Hty.
  destruct Hty as [-> |[-> |[-> |[]]]]; unfold current_delta; simpl; repeat destruct (decide _); lia.
Qed.

Lemma paid_of from to amount currency ty d d' :
  In from (accounts (posting d')) -> In to (accounts (posting d')) ->
  numbered acc_id (accounts (posting d')) -> acc_owner_type from <> acc_owner_type to ->
  ty ∈ [PostingBatchType.REFUND; PostingBatchType.REVERSAL; PostingBatchType.ADJUSTMENT] ->
  (forall i, bal_current (row_of (posting d') i) = bal_current (row_of (posting d) i) +
     on_account i (line_current ty) (transfer_lines (acc_id from) (acc_id to) amount currency)) ->
  paid from to amount d d'.
Proof.
  intros Hf Ht Hn Hne Hty Hc. pose proof (distinct_accounts _ _ _ Hn Hf Ht Hne) as Hd.
  split; [done|]. split; [done|]. split; [done|]. intros i. by rewrite Hc, transfer_current.
Qed.

Definition refund_key_unused (d : Db) (key : string) : Prop :=
  List.filter (fun r => (rf_idempotency_key r =? key)%py) (refund_requests (scenario d)) = [].

Definition adjustment_key_unused (d : Db) (key : string) : Prop :=
  List.filter (fun r => (fa_idempotency_key r =? key)%py) (adjustments (scenario d)) = [].

(** The row that records a posting of a closed period, due on a day. *)
Definition adjustment_row (id : string) (kind : FinancialAdjustmentKind.FinancialAdjustmentKind)
    (related : RelatedEntityType.RelatedEntityType) (related_id operation_id : string) (amount : Z)
    (currency : string) (day : Z) (key : string) : FinancialAdjustment :=
  MkFinancialAdjustment id kind related related_id operation_id amount currency
    FinancialAdjustmentStatus.PENDING None day key None.

(** Under a new key an adjustment is recorded, on the date asked for if there is one. *)
Lemma adjustment_for_run W key kind rel rid oid amount currency date s :
  adjustment_key_unused (live s) key ->
  exists id day t, adjustment_for W key kind rel rid oid amount currency date s = (Ok (Some id), t) /\
    live t = on_adjustments (fun l => l ++ [adjustment_row id kind rel rid oid amount currency day key])
               (live s) /\
    (date = None \/ date = Some day).
Proof.
  intros Hu. unfold adjustment_for. destruct date as [day|].
  - erewrite bind_ok by reflexivity. erewrite bind_ok by by apply one_or_none_nil.
    unfold AdjustmentsRepository.create.
    erewrite bind_ok.
    2:{ erewrite bind_ok by reflexivity. by erewrite bind_ok by by apply insert_unique_ok. }
    eexists _, day, _. split; [reflexivity|]. split; [reflexivity|by right].
  - unfold today. erewrite bind_ok by reflexivity. erewrite bind_ok by by apply one_or_none_nil.
    unfold AdjustmentsRepository.create.
    erewrite bind_ok.
    2:{ erewrite bind_ok by reflexivity. by erewrite bind_ok by by apply insert_unique_ok. }
    eexists _, _, _. split; [reflexivity|]. split; [reflexivity|by left].
Qed.

(** Who pays a refund: the partner while the settlement period is open, the platform once
    it is closed. *)
Definition refund_payer (o : Operation) (closed : bool) : Account -> Prop :=
  if closed then is_platform "PLATFORM_ADJUSTMENT" (op_currency o) else is_payable o.

Definition refund_posting (closed : bool) : PostingBatchType.PostingBatchType :=
  if closed then PostingBatchType.ADJUSTMENT else PostingBatchType.REFUND.

(** The adjustments a committed refund adds: one once the settlement period is closed. *)
Definition refund_adjustment (o : Operation) (amount : Z) (key : string) (closed : bool)
    (date : option Z) (r : RefundService.RefundResult) (added : list FinancialAdjustment) : Prop :=
  if closed then exists id day, RefundService.adjustment_id r = Some id /\
      (date = None \/ date = Some day) /\
      added = [adjustment_row id FinancialAdjustmentKind.REFUND_ADJUSTMENT RelatedEntityType.REFUND
                 (rf_id (RefundService.refund r)) (op_id o) amount (op_currency o) day
                 ("adjustment:" +:+ key)]
  else RefundService.adjustment_id r = None /\ added = [].

(** The lines of a refund, whoever pays it, and its posting. *)
Lemma refund_paid W o amount key (closed : bool) s :
  alone W -> numbered acc_id (accounts (posting (live s))) -> key_free (live s) key ->
  exists from to lines u r t,
    (if closed then _adjustment_lines o amount else _refund_lines o amount) s = (Ok lines, u) /\
    PostingEngine.apply_posting W (Some (op_id o)) (refund_posting closed) key lines u = (Ok r, t) /\
    refund_payer o closed from /\ is_client_main o to /\ paid from to amount (live s) (live t) /\
    scenario (live t) = scenario (live s) /\
    posting_batches (posting (live t)) = posting_batches (posting (live s)) ++
      [MkPostingBatch (pr_posting_id r) (Some (op_id o)) (refund_posting closed)
         PostingBatchStatus.APPLIED key].
Proof.
  intros HW Hn Hk.
  set (payer := if closed then _platform_adjustment (op_currency o) else _partner_payable o).
  assert (getter payer (refund_payer o closed) (op_currency o)) as Hg
    by (destruct closed; [apply getter_platform_account|apply getter_partner_payable]).
  destruct (pay_run W (Some (op_id o)) (refund_posting closed) key payer _ _ _ amount (op_currency o) s
    HW Hg (getter_client_main o) Hn Hk)
    as (from & to & u & r & t & R & R' & (I1 & I2 & P1 & P2 & N) & Hsc & _ & Hb & Hc & _).
  exists from, to, (transfer_lines (acc_id from) (acc_id to) amount (op_currency o)), u, r, t.
  split; [by destruct closed|]. split; [done|]. split; [done|]. split; [done|]. split; [|done].
  apply (paid_of _ _ _ (op_currency o) (refund_posting closed)); try done.
  - destruct P2 as (_ & -> & _). by destruct closed; destruct P1 as (_ & -> & _).
  - unfold refund_posting. destruct closed; set_solver.
Qed.

(** C32 A refund of a new key, positive and within what is left of the capture, is
    committed: the request is recorded as posted, the refunded amount of the operation
    grows by it, and one posting moves it to the client's main account, from the partner's
    payable account in an open settlement period, from the platform's adjustment account
    in a closed one, where an adjustment is recorded too; no other balance changes. *)
Theorem request_refund_posts W o amount reason initiator key closed date (s : session Db) :
  alone W -> numbered acc_id (accounts (posting (live s))) ->
  refund_key_unused (live s) key -> key_free (live s) key ->
  (closed = true -> adjustment_key_unused (live s) ("adjustment:" +:+ key)) ->
  Forall (fun r => (rf_id r =? new_uuid W (uuids s))%py = false) (refund_requests (scenario (live s))) ->
  0 < amount -> op_refunded_amount o + amount <= op_captured_amount o ->
  exists r t from to pid added,
    RefundService.request_refund W o amount reason initiator key closed date s = (Ok r, t) /\
    saved t = live t /\
    RefundService.refund r = MkRefundRequest (new_uuid W (uuids s)) (op_id o) (op_operation_id o)
      amount (op_currency o) reason initiator key RefundRequestStatus.POSTED (Some pid)
      (RefundService.settlement_policy r) (rf_updated_at (RefundService.refund r)) /\
    RefundService.posting_id r = Some pid /\
    RefundService.settlement_policy r =
      (if closed then SettlementPolicy.ADJUSTMENT_REQUIRED else SettlementPolicy.SAME_PERIOD) /\
    refund_requests (scenario (live t)) =
      refund_requests (scenario (live s)) ++ [RefundService.refund r] /\
    operations (scenario (live t)) = raise_refunded o amount (operations (scenario (live s))) /\
    adjustments (scenario (live t)) = adjustments (scenario (live s)) ++ added /\
    refund_adjustment o amount key closed date r added /\
    posting_batches (posting (live t)) = posting_batches (posting (live s)) ++
      [MkPostingBatch pid (Some (op_id o)) (refund_posting closed) PostingBatchStatus.APPLIED key] /\
    refund_payer o closed from /\ is_client_main o to /\ paid from to amount (live s) (live t).
Proof.
  intros HW Hn Hu Hk Ha Hf Hpos Hcap. unfold RefundService.request_refund.
  erewrite bind_ok by by apply one_or_none_nil. cbv beta iota.
  rewrite (proj2 (Z.leb_gt amount 0)), (proj2 (Z.ltb_ge _ amount)) by lia. cbv zeta.
  erewrite bind_ok by reflexivity. rewrite !HW.
  erewrite bind_ok.
  2:{ unfold RefundsRepository.create. erewrite bind_ok by reflexivity.
      erewrite bind_ok by by apply insert_unique_ok. reflexivity. }
  cbn [live saved ticks uuids races].
  set (u := Session (on_refund_requests _ _) _ _ _ _). fold (refund_posting closed).
  destruct (refund_paid W o amount key closed u HW Hn Hk)
    as (from & to & lines & u' & pr & v & R & R' & P1 & P2 & Hp & Hsc & Hb).
  erewrite bind_ok by exact R. erewrite bind_ok by exact R'.
  unfold RefundsRepository.mark_posted, RefundsRepository.save, write_refunded.
  erewrite bind_ok by reflexivity. erewrite bind_ok by reflexivity.
  set (w := Session _ _ _ _ _).
  assert (adjustments (scenario (live w)) = adjustments (scenario (live s))) as Hw.
  { unfold w. cbn. by rewrite Hsc. }
  assert (refund_requests (scenario (live w)) = refund_requests (scenario (live s)) ++
    [MkRefundRequest (new_uuid W (uuids s)) (op_id o) (op_operation_id o) amount (op_currency o)
       reason initiator key RefundRequestStatus.POSTED (Some (pr_posting_id pr))
       (if closed then SettlementPolicy.ADJUSTMENT_REQUIRED else SettlementPolicy.SAME_PERIOD)
       (Some (clock W (ticks v)))]) as Hr.
  { unfold w. cbn [live on_refund_requests on_operations on_scenario scenario refund_requests].
    rewrite Hsc. unfold u. cbn [live on_refund_requests on_scenario scenario refund_requests].
    rewrite update_fresh; [done|done|].
    unfold eqb. by apply bool_decide_eq_true. }
  assert (operations (scenario (live w)) = raise_refunded o amount (operations (scenario (live s)))) as Ho.
  { unfold w. cbn. by rewrite Hsc. }
  destruct closed.
  - destruct (adjustment_for_run W ("adjustment:" +:+ key) FinancialAdjustmentKind.REFUND_ADJUSTMENT
      RelatedEntityType.REFUND (new_uuid W (uuids s)) (op_id o) amount (op_currency o) date w)
      as (id & day & x & Rx & Lx & Hd); [unfold adjustment_key_unused; rewrite Hw; by apply Ha|].
    erewrite bind_ok by exact Rx. run_steps. eexists _, _, from, to, _, _. split; [reflexivity|].
    cbn [live saved]. rewrite Lx. cbn [on_adjustments on_scenario scenario posting adjustments
      refund_requests operations]. rewrite Hw, Hr, Ho.
    repeat (split; [done|]). split; [by eexists id, day|]. done.
  - run_steps. eexists _, _, from, to, _, []. split; [reflexivity|]. cbn [live saved].
    rewrite Hw, Hr, Ho, app_nil_r. repeat (split; [done|]). done.
Qed.

(** C28 A refund request never takes an operation over its captured amount: whatever the
    request and however it ends, every operation of the live and of the committed tables
    keeps 0 <= refunded <= captured, when no other session commits meanwhile. *)
Theorem refund_cap_kept W o amount reason initiator key closed date (L : list Operation) (s : session Db) :
  alone W -> holds (operations_are L) s -> List.NoDup (map op_id L) -> In o L ->
  Forall within_cap L ->
  let t := (RefundService.request_refund W o amount reason initiator key closed date s).2 in
  Forall within_cap (operations (scenario (live t))) /\
  Forall within_cap (operations (scenario (saved t))).
Proof.
  intros HW Hs Hnd Ho HL t.
  assert (forall d, refund_effect o amount L d -> Forall within_cap (operations (scenario d))) as H.
  { intros d [->|(Hp & Hc & ->)]; [done|]. unfold raise_refunded, update_where.
    apply Forall_map. rewrite List.Forall_forall in HL |- *. intros x Hx.
    destruct (eqb (op_id x) (op_id o)) eqn:E; [|by apply HL]. unfold eqb in E.
    apply bool_decide_eq_true in E.
    assert (x = o) as -> by (by eapply (nodup_key op_id)).
    specialize (HL _ Hx). unfold within_cap in *. simpl. lia. }
  destruct (request_refund_effect W o amount reason initiator key closed date L s HW Hs) as [H1 H2].
  split; by apply H.
Qed.

(** Repeating a refund request under its key returns the recorded refund and its
    posting, and changes nothing, whatever amount is asked. *)
Theorem request_refund_replay W o amount reason initiator key closed date (s : session Db) r :
  List.filter (fun r => (rf_idempotency_key r =? key)%py) (refund_requests (scenario (live s))) = [r] ->
  RefundService.request_refund W o amount reason initiator key closed date s =
    (Ok (RefundService.MkRefundResult r (rf_posted_posting_id r) (rf_settlement_policy r) None), s).
Proof.
  intros Hr. unfold RefundService.request_refund, RefundsRepository.get_by_idempotency,
    q_one_or_none, q_all. run_steps. by rewrite Hr.
Qed.

Definition posted_for (o : Operation) (r : Reversal) : bool :=
  ((rv_operation_id r =? op_id o)%py && (rv_status r =? ReversalStatus.POSTED)%py)%bool.

Definition reversal_key_unused (d : Db) (key : string) : Prop :=
  List.filter (fun r => (rv_idempotency_key r =? key)%py) (reversals (scenario d)) = [].

(** An operation whose reversal is posted is not reversed again: under a new key the
    request raises and changes nothing. *)
Theorem reverse_capture_once W o reason initiator key closed date (s : session Db) x :
  reversal_key_unused (live s) key ->
  List.filter (posted_for o) (reversals (scenario (live s))) = [x] ->
  ReversalService.reverse_capture W o reason initiator key closed date s =
    (Raise (ReversalAlreadyExists (op_id o)), s).
Proof.
  intros Hk Hx. unfold ReversalService.reverse_capture.
  erewrite bind_ok by by apply one_or_none_nil. cbv beta iota.
  unfold q_one_or_none, q_all. run_steps. fold (posted_for o).
  change (fun r => _ && _) with (posted_for o). by rewrite Hx.
Qed.

(** A reversal of a new key for an operation with none posted is committed: it is
    recorded as posted and the ledger moves the whole captured amount from the partner's
    account to the client's, whatever was refunded before. *)
Theorem reverse_capture_posts W o reason initiator key date (s : session Db) :
  alone W -> numbered acc_id (accounts (posting (live s))) ->
  reversal_key_unused (live s) key -> key_free (live s) key ->
  List.filter (posted_for o) (reversals (scenario (live s))) = [] ->
  Forall (fun r => (rv_id r =? new_uuid W (uuids s))%py = false) (reversals (scenario (live s))) ->
  exists r t from to,
    ReversalService.reverse_capture W o reason initiator key false date s = (Ok r, t) /\
    saved t = live t /\
    reversals (scenario (live t)) = reversals (scenario (live s)) ++ [ReversalService.reversal r] /\
    posted_for o (ReversalService.reversal r) = true /\
    operations (scenario (live t)) = operations (scenario (live s)) /\
    is_payable o from /\ is_client_main o to /\
    paid from to (op_captured_amount o) (live s) (live t).
Proof.
  intros HW Hn Hu Hk Hp Hf. unfold ReversalService.reverse_capture.
  erewrite bind_ok by by apply one_or_none_nil. cbv beta iota.
  erewrite bind_ok by by apply one_or_none_nil. cbv beta iota zeta.
  erewrite bind_ok by reflexivity. rewrite !HW.
  erewrite bind_ok.
  2:{ unfold ReversalsRepository.create. erewrite bind_ok by reflexivity.
      erewrite bind_ok by by apply insert_unique_ok. reflexivity. }
  cbn [live saved ticks uuids races]. set (u := Session (on_reversals _ _) _ _ _ _).
  unfold ReversalService._reversal_lines.
  destruct (pay_run W (Some (op_id o)) PostingBatchType.REVERSAL key (_partner_payable o)
    (_client_main o) _ _ (op_captured_amount o) (op_currency o) u HW (getter_partner_payable o)
    (getter_client_main o) Hn Hk)
    as (from & to & u' & pr & v & R & R' & (I1 & I2 & P1 & P2 & N) & Hsc & _ & _ & Hc & _).
  erewrite bind_ok by exact R. erewrite bind_ok by exact R'. clear R R'.
  unfold ReversalsRepository.mark_posted, ReversalsRepository.save.
  run_steps. eexists _, _, from, to. split; [reflexivity|]. cbn [live saved].
  cbn [on_reversals on_scenario scenario posting reversals operations ReversalService.reversal].
  split; [done|]. split; [|split; [|split; [by rewrite Hsc|split; [done|split; [done|]]]]].
  - rewrite Hsc. unfold u. cbn [live on_reversals on_scenario scenario reversals].
    rewrite update_fresh; [done|done|]. unfold eqb. by apply bool_decide_eq_true.
  - unfold posted_for, eqb. simpl. by rewrite !bool_decide_true.
  - apply (paid_of _ _ _ (op_currency o) PostingBatchType.REVERSAL); try done; [|set_solver].
    destruct P1 as (_ & -> & _), P2 as (_ & -> & _). discriminate.
Qed.

(** ** Concrete runs *)

Definition demo_operation : Operation :=
  MkOperation "op" "business" 0 OperationType.AUTH OperationStatus.COMPLETED "merchant" "terminal" "client" "card"
    None None 100 (Some 100) "RUB" None None None 100 0 None None None None None None true "00" None
    None None None None None None None None None None None.

Definition demo_scenario : Db := on_operations (fun _ => [demo_operation]) empty_db.

Definition demo_refund (W : world Db) (amount : Z) (key : string) :=
  RefundService.request_refund W demo_operation amount None None key false None.

(** The current balance of the client's main account, in whole units. *)
Definition client_money (d : Db) : Z :=
  sum_of (fun a => if decide (acc_type a = AccountType.CLIENT_MAIN)
                   then bal_current (row_of (posting d) (acc_id a)) / 10000 else 0)
    (accounts (posting d)).

(** A world in which another session refunds 80 of the operation before this one inserts
    its request. *)
Definition racing_world : world Db :=
  World (clock demo_world) (fun n => "w" +:+ print_int (Z.of_nat n)) (sha256_hex demo_world)
    (fun n d => match n with
                | 0%nat => live (demo_refund demo_world 80 "other" (fresh_session d)).2
                | _ => d
                end).

(** Two concurrent refunds of 80 of an operation of 100 both succeed: the check reads
    the amounts loaded before the other commit, so 160 is paid out and the operation
    shows 80. *)
Theorem refund_cap_not_concurrent :
  exists r t, demo_refund racing_world 80 "mine" (fresh_session demo_scenario) = (Ok r, t) /\
    client_money (saved t) = 160 /\ map op_refunded_amount (operations (scenario (saved t))) = [80].
Proof.
  destruct (ok_run (demo_refund racing_world 80 "mine") (fresh_session demo_scenario)) as [r Hr];
    [vm_compute; reflexivity|].
  exists r, (demo_refund racing_world 80 "mine" (fresh_session demo_scenario)).2.
  split; [exact Hr|]. split; vm_compute; reflexivity.
Qed.

(** A reversal does not look at refunds: after a refund of 60 of an operation of 100,
    its reversal still pays 100, 160 in all. *)
Theorem reversal_after_refund_overpays :
  exists r t r' t', demo_refund demo_world 60 "refund" (fresh_session demo_scenario) = (Ok r, t) /\
    ReversalService.reverse_capture demo_world demo_operation None None "reversal" false None t = (Ok r', t') /\
    client_money (saved t') = 160.
Proof.
  set (m := demo_refund demo_world 60 "refund").
  set (m' := ReversalService.reverse_capture demo_world demo_operation None None "reversal" false None).
  destruct (ok_run m (fresh_session demo_scenario)) as [r Hr]; [vm_compute; reflexivity|].
  destruct (ok_run m' (m (fresh_session demo_scenario)).2) as [r' Hr']; [vm_compute; reflexivity|].
  exists r, (m (fresh_session demo_scenario)).2, r', (m' (m (fresh_session demo_scenario)).2).2.
  split; [exact Hr|]. split; [exact Hr'|]. vm_compute; reflexivity.
Qed.

(** The two services share the keys of the posting batches: a reversal under the key of
    a refund is recorded as posted under the refund's batch, and no money moves. *)
Theorem shared_key_reversal_moves_nothing :
  exists r t r' t', demo_refund demo_world 60 "key" (fresh_session demo_scenario) = (Ok r, t) /\
    ReversalService.reverse_capture demo_world demo_operation None None "key" false None t = (Ok r', t') /\
    map rv_status (reversals (scenario (saved t'))) = [ReversalStatus.POSTED] /\
    ReversalService.posting_id r' = RefundService.posting_id r /\
    client_money (saved t') = 60.
Proof.
  set (m := demo_refund demo_world 60 "key").
  set (m' := ReversalService.reverse_capture demo_world demo_operation None None "key" false None).
  destruct (ok_run m (fresh_session demo_scenario)) as [r Hr]; [vm_compute; reflexivity|].
  destruct (ok_run m' (m (fresh_session demo_scenario)).2) as [r' Hr']; [vm_compute; reflexivity|].
  exists r, (m (fresh_session demo_scenario)).2, r', (m' (m (fresh_session demo_scenario)).2).2.
  split; [exact Hr|]. split; [exact Hr'|]. split; [vm_compute; reflexivity|].
  split; [|vm_compute; reflexivity].
  apply (f_equal fst) in Hr, Hr'. vm_compute in Hr, Hr'. injection Hr as <-. injection Hr' as <-.
  reflexivity.
Qed.

(** The same refund in an open and in a closed settlement period. *)
Lemma request_refund_posts_witness :
  (exists r t, demo_refund demo_world 60 "key" (fresh_session demo_scenario) = (Ok r, t) /\
    map op_refunded_amount (operations (scenario (saved t))) = [60]) /\
  (exists r t, RefundService.request_refund demo_world demo_operation 60 None None "key" true (Some 20000)
      (fresh_session demo_scenario) = (Ok r, t) /\
    map fa_effective_date (adjustments (scenario (saved t))) = [20000] /\
    map pb_posting_type (posting_batches (posting (saved t))) = [PostingBatchType.ADJUSTMENT]).
Proof.
  split.
  - destruct (request_refund_posts demo_world demo_operation 60 None None "key" false None
      (fresh_session demo_scenario) (fun _ _ => eq_refl) eq_refl eq_refl (Forall_nil_2 _)
      (fun _ => eq_refl) (Forall_nil_2 _))
      as (r & t & f & g & p & l & Hr & Hs & _ & _ & _ & _ & Ho & _); [lia|vm_compute; discriminate|].
    exists r, t. split; [exact Hr|]. rewrite Hs, Ho. vm_compute. reflexivity.
  - destruct (request_refund_posts demo_world demo_operation 60 None None "key" true (Some 20000)
      (fresh_session demo_scenario) (fun _ _ => eq_refl) eq_refl eq_refl (Forall_nil_2 _)
      (fun _ => eq_refl) (Forall_nil_2 _))
      as (r & t & f & g & p & l & Hr & Hs & _ & _ & _ & _ & _ & Ha & (id & day & _ & Hd & ->) & Hb & _);
      [lia|vm_compute; discriminate|].
    exists r, t. split; [exact Hr|]. rewrite Hs, Ha, Hb.
    destruct Hd as [Hd|Hd]; [discriminate|]. injection Hd as <-. split; reflexivity.
Defined.

Lemma refund_cap_kept_witness :
  Forall within_cap (operations (scenario (saved
    (demo_refund demo_world 160 "key" (fresh_session demo_scenario)).2))).
Proof.
  apply (refund_cap_kept demo_world demo_operation 160 None None "key" false None [demo_operation]
    (fresh_session demo_scenario)).
  - intros n d. reflexivity.
  - split; reflexivity.
  - constructor; [intros []|constructor].
  - left. reflexivity.
  - constructor; [vm_compute; split; discriminate|constructor].
Defined.

Definition demo_posted_refund : RefundRequest :=
  MkRefundRequest "r" "op" "business" 60 "RUB" None None "key" RefundRequestStatus.POSTED
    (Some "batch") SettlementPolicy.SAME_PERIOD None.

Lemma request_refund_replay_witness :
  exists r, demo_refund demo_world 10 "key"
    (fresh_session (on_refund_requests (fun _ => [demo_posted_refund]) demo_scenario)) =
    (Ok r, fresh_session (on_refund_requests (fun _ => [demo_posted_refund]) demo_scenario)).
Proof.
  eexists. apply (request_refund_replay demo_world demo_operation 10 None None "key" false None
    (fresh_session (on_refund_requests (fun _ => [demo_posted_refund]) demo_scenario))
    demo_posted_refund). vm_compute. reflexivity.
Defined.

Definition demo_posted_reversal : Reversal :=
  MkReversal "r" "op" "business" None None "key" ReversalStatus.POSTED (Some "batch")
    SettlementPolicy.SAME_PERIOD None.

Lemma reverse_capture_once_witness :
  exists s, ReversalService.reverse_capture demo_world demo_operation None None "new" false None s =
    (Raise (ReversalAlreadyExists "op"), s).
Proof.
  exists (fresh_session (on_reversals (fun _ => [demo_posted_reversal]) demo_scenario)).
  apply (reverse_capture_once demo_world demo_operation None None "new" false None
    (fresh_session (on_reversals (fun _ => [demo_posted_reversal]) demo_scenario))
    demo_posted_reversal); vm_compute; reflexivity.
Defined.

Lemma reverse_capture_posts_witness :
  exists r t, ReversalService.reverse_capture demo_world demo_operation None None "key" false None
      (fresh_session demo_scenario) = (Ok r, t) /\ length (reversals (scenario (saved t))) = 1%nat.
Proof.
  destruct (reverse_capture_posts demo_world demo_operation None None "key" None
    (fresh_session demo_scenario) (fun _ _ => eq_refl) eq_refl eq_refl (Forall_nil_2 _) eq_refl
    (Forall_nil_2 _)) as (r & t & f & g & Hr & Hs & Ho & _).
  exists r, t. split; [exact Hr|]. rewrite Hs, Ho. reflexivity.
Defined.
