(* ===== verification/Disputes.v ===== *)
(** * Disputes and the admin endpoints of the money scenarios

    repositories/disputes_repository.py, services/operations_scenarios/disputes.py and
    routers/admin/{refunds,reversals,disputes}.py. *)
From stdpp Require Import infinite.
From S2P Require Import Prelude Json Enums Models Ledger FinanceRules Posting Scenarios.

(** ** DisputesRepository *)
Module DisputesRepository.
Section Repository.
Context (W : world Db).

Definition add_event (dispute_id : string) (event_type : DisputeEventType.DisputeEventType)
    (actor : option string) (payload : dict) : PM DisputeEvent :=
  id ← gets (fun d => next_id (dispute_events (scenario d)));
  let event := MkDisputeEvent id dispute_id event_type (Some (JDict payload)) actor in
  modify (on_dispute_events (fun l => l ++ [event]));;
  mret event.

Definition create_dispute (operation_id operation_business_id : string) (disputed_amount : Z)
    (currency : string) (initiator : option string) (fee_amount : Z) : PM Dispute :=
  id ← uuid4 W;
  let dispute := MkDispute id operation_id operation_business_id disputed_amount currency
    fee_amount DisputeStatus.OPEN false None None (str_or_none initiator) None in
  modify (on_disputes (fun l => l ++ [dispute]));;
  add_event id DisputeEventType.OPENED initiator [];;
  mret dispute.

(** Assignments to a dispute's columns. *)
Definition save (f : Dispute -> Dispute) (a : Dispute) : PM Dispute :=
  modify (on_disputes (update_where (fun r => (dp_id r =? dp_id a)%py) f));;
  mret (f a).

Definition set_status (a : Dispute) (status : DisputeStatus.DisputeStatus) : PM Dispute :=
  at_ ← now W;
  save (fun r => set_dp_updated_at (Some at_) (set_dp_status status r)) a.

Definition set_hold (a : Dispute) (posting_id : string) : PM Dispute :=
  at_ ← now W;
  save (fun r => set_dp_updated_at (Some at_) (set_dp_hold_posting_id (Some posting_id)
                   (set_dp_hold_placed true r))) a.

Definition release_hold (a : Dispute) (posting_id : string) : PM Dispute :=
  at_ ← now W;
  save (fun r => set_dp_updated_at (Some at_) (set_dp_hold_posting_id (Some posting_id)
                   (set_dp_hold_placed false r))) a.

Definition set_resolution_posting (a : Dispute) (posting_id : string) : PM Dispute :=
  at_ ← now W;
  save (fun r => set_dp_updated_at (Some at_) (set_dp_resolution_posting_id (Some posting_id) r)) a.
End Repository.
End DisputesRepository.

(** ** DisputeService *)
Module DisputeService.
Record DisputeResult := MkDisputeResult {
  dispute : Dispute;
  posting_id : option string;
  adjustment_id : option string;
}.

Section Service.
Context (W : world Db).

Definition _dispute_reserve (currency : string) : PM Z := platform_account "DISPUTE_RESERVE" currency.

(** [status in {OPEN, UNDER_REVIEW}] *)
Definition undecided (status : DisputeStatus.DisputeStatus) : bool :=
  match status with DisputeStatus.OPEN | DisputeStatus.UNDER_REVIEW => true | _ => false end.

Definition _place_hold (operation : Operation) (amount : Z) (idempotency_key : string) : PM string :=
  payable ← _partner_payable operation;
  reserve ← _dispute_reserve (op_currency operation);
  posting ← PostingEngine.apply_posting W (Some (op_id operation)) PostingBatchType.DISPUTE_HOLD
    idempotency_key (transfer_lines payable reserve amount (op_currency operation));
  mret (pr_posting_id posting).

Definition _release_hold (dispute : Dispute) (idempotency_key : string) : PM (Dispute * string) :=
  operation ← q_one (fun d => operations (scenario d))
    (fun o => (op_id o =? dp_operation_id dispute)%py);
  payable ← _partner_payable operation;
  reserve ← _dispute_reserve (op_currency operation);
  posting ← PostingEngine.apply_posting W (Some (op_id operation)) PostingBatchType.DISPUTE_RELEASE
    idempotency_key
    (transfer_lines reserve payable (dp_disputed_amount dispute) (op_currency operation));
  dispute ← DisputesRepository.release_hold W dispute (pr_posting_id posting);
  mret (dispute, pr_posting_id posting).

Definition source_account (operation : Operation) (use_reserve : bool) : PM Z :=
  if use_reserve then _dispute_reserve (op_currency operation) else _partner_payable operation.

Definition _refund_from_reserve_lines (operation : Operation) (amount : Z) (use_reserve : bool)
    : PM (list PostingLine) :=
  source ← source_account operation use_reserve;
  client ← _client_main operation;
  mret (transfer_lines source client amount (op_currency operation)).

Definition _fee_lines (operation : Operation) (amount : Z) (use_reserve : bool)
    : PM (list PostingLine) :=
  source ← source_account operation use_reserve;
  revenue ← platform_account "DISPUTE_FEE_REVENUE" (op_currency operation);
  mret (transfer_lines source revenue amount (op_currency operation)).

Definition _clear_holds (account_ids : list Z) : PM unit :=
  for_each account_ids (fun i =>
    balance ← query_balance i;
    match balance with
    | Some b => write_balance i (set_bal_available (bal_current b) (set_bal_hold 0 b))
    | None => mret tt
    end);;
  mret tt.

Definition open_dispute (operation : Operation) (amount : Z) (initiator : option string)
    (idempotency_key : string) (fee_amount : Z) (place_hold : bool) : PM DisputeResult :=
  dispute ← DisputesRepository.create_dispute W (op_id operation) (op_operation_id operation)
    amount (op_currency operation) initiator fee_amount;
  if place_hold then
    posting_id ← _place_hold operation amount (idempotency_key +:+ ":hold");
    dispute ← DisputesRepository.set_hold W dispute posting_id;
    DisputesRepository.add_event (dp_id dispute) DisputeEventType.HOLD_PLACED initiator
      [("amount", JInt amount)];;
    commit;;
    mret (MkDisputeResult dispute (Some posting_id) None)
  else
    commit;;
    mret (MkDisputeResult dispute None None).

Definition move_to_review (dispute : Dispute) (actor : option string) : PM Dispute :=
  if negb (dp_status dispute =? DisputeStatus.OPEN)%py then
    raise (DisputeStateError "review" (dp_status dispute))
  else
    dispute ← DisputesRepository.set_status W dispute DisputeStatus.UNDER_REVIEW;
    DisputesRepository.add_event (dp_id dispute) DisputeEventType.MOVED_TO_REVIEW actor [];;
    commit;;
    mret dispute.

(** The fee of an accepted dispute, its own posting. *)
Definition post_fee (dispute : Dispute) (operation : Operation) (initiator : option string)
    (idempotency_key : string) (use_reserve : bool) : PM unit :=
  if 0 <? dp_fee_amount dispute then
    lines ← _fee_lines operation (dp_fee_amount dispute) use_reserve;
    fee_posting ← PostingEngine.apply_posting W (Some (op_id operation)) PostingBatchType.ADJUSTMENT
      (idempotency_key +:+ ":fee") lines;
    DisputesRepository.add_event (dp_id dispute) DisputeEventType.FEE_POSTED initiator
      [("posting_id", JStr (pr_posting_id fee_posting)); ("amount", JInt (dp_fee_amount dispute))];;
    mret tt
  else mret tt.

Definition accept (dispute : Dispute) (operation : Operation) (initiator : option string)
    (idempotency_key : string) (settlement_closed : bool) (adjustment_date : option Z)
    : PM DisputeResult :=
  if negb (undecided (dp_status dispute)) then
    raise (DisputeStateError "accept" (dp_status dispute))
  else
    let refund_amount := dp_disputed_amount dispute in
    let posting_type := if settlement_closed then PostingBatchType.ADJUSTMENT
                        else PostingBatchType.REFUND in
    let use_reserve := dp_hold_placed dispute in
    refund_lines ← (if settlement_closed then _adjustment_lines operation refund_amount
                    else _refund_from_reserve_lines operation refund_amount use_reserve);
    refund_posting ← PostingEngine.apply_posting W (Some (op_id operation)) posting_type
      (idempotency_key +:+ ":refund") refund_lines;
    dispute ← DisputesRepository.set_resolution_posting W dispute (pr_posting_id refund_posting);
    dispute ← (if dp_hold_placed dispute then
      dispute ← DisputesRepository.save (set_dp_hold_placed false) dispute;
      reserve ← _dispute_reserve (op_currency operation);
      payable ← _partner_payable operation;
      _clear_holds [reserve; payable];;
      mret dispute
      else mret dispute);
    dispute ← DisputesRepository.set_status W dispute DisputeStatus.ACCEPTED;
    DisputesRepository.add_event (dp_id dispute) DisputeEventType.ACCEPTED initiator
      [("amount", JInt refund_amount)];;
    DisputesRepository.add_event (dp_id dispute) DisputeEventType.REFUND_POSTED initiator
      [("posting_id", JStr (pr_posting_id refund_posting))];;
    post_fee dispute operation initiator idempotency_key use_reserve;;
    adjustment_id ← (if settlement_closed then
      adjustment_for W (idempotency_key +:+ ":adjustment")
        FinancialAdjustmentKind.DISPUTE_ADJUSTMENT RelatedEntityType.DISPUTE (dp_id dispute)
        (op_id operation) refund_amount (op_currency operation) adjustment_date
      else mret None);
    commit;;
    mret (MkDisputeResult dispute (Some (pr_posting_id refund_posting)) adjustment_id).

Definition reject (dispute : Dispute) (actor : option string) (idempotency_key : string)
    : PM DisputeResult :=
  if negb (undecided (dp_status dispute)) then
    raise (DisputeStateError "reject" (dp_status dispute))
  else
    released ← (if dp_hold_placed dispute then
      r ← _release_hold dispute (idempotency_key +:+ ":release");
      let '(dispute, posting_id) := r in
      DisputesRepository.add_event (dp_id dispute) DisputeEventType.HOLD_RELEASED actor [];;
      mret (dispute, Some posting_id)
      else mret (dispute, None));
    let '(dispute, posting_id) := released in
    dispute ← DisputesRepository.set_status W dispute DisputeStatus.REJECTED;
    DisputesRepository.add_event (dp_id dispute) DisputeEventType.REJECTED actor [];;
    commit;;
    mret (MkDisputeResult dispute posting_id None).

Definition close (dispute : Dispute) (actor : option string) : PM Dispute :=
  if negb ((dp_status dispute =? DisputeStatus.ACCEPTED)%py ||
           (dp_status dispute =? DisputeStatus.REJECTED)%py) then
    raise (DisputeStateError "close" (dp_status dispute))
  else
    dispute ← DisputesRepository.set_status W dispute DisputeStatus.CLOSED;
    DisputesRepository.add_event (dp_id dispute) DisputeEventType.CLOSED actor [];;
    commit;;
    mret dispute.
End Service.
End DisputeService.
(** ** The admin endpoints *)
Module AdminApi.
Section Api.
Context (W : world Db).

(** [db.query(Operation).filter(Operation.id == id).one_or_none()], or 404 *)
Definition operation_or_404 (operation_id : string) : PM Operation :=
  operation ← q_one_or_none (fun d => operations (scenario d))
    (fun o => (op_id o =? operation_id)%py);
  match operation with
  | None => raise (HTTPException 404 "Operation not found")
  | Some o => mret o
  end.

(** [request.idempotency_key or f"<prefix>:{uuid.uuid4()}"] *)
Definition key_or_new (prefix : string) (key : option string) : PM string :=
  match str_or_none key with
  | Some k => mret k
  | None => u ← uuid4 W; mret (prefix +:+ ":" +:+ u)
  end.

Definition create_refund (operation_id : string) (amount : Z) (reason initiator key : option string)
    (settlement_closed : bool) (adjustment_date : option Z) : PM RefundService.RefundResult :=
  operation ← operation_or_404 operation_id;
  key ← key_or_new "refund" key;
  try_except
    (RefundService.request_refund W operation amount reason initiator key settlement_closed
       adjustment_date)
    (fun e => match e with
              | RefundCapExceeded _ _ | RefundAmountInvalid => Some (raise (HTTPFrom 400 e))
              | _ => None
              end).

Definition create_reversal (operation_id : string) (reason initiator key : option string)
    (settlement_closed : bool) (adjustment_date : option Z) : PM ReversalService.ReversalResult :=
  operation ← operation_or_404 operation_id;
  key ← key_or_new "reversal" key;
  try_except
    (ReversalService.reverse_capture W operation reason initiator key settlement_closed
       adjustment_date)
    (fun e => match e with
              | ReversalAlreadyExists _ => Some (raise (HTTPFrom 400 e))
              | _ => None
              end).

(** A refusal by the state machine of disputes is a 400. *)
Definition state_guard {A} (m : PM A) : PM A :=
  try_except m (fun e => match e with
                         | DisputeStateError _ _ => Some (raise (HTTPFrom 400 e))
                         | _ => None
                         end).

Definition _get_dispute_or_404 (dispute_id : string) : PM Dispute :=
  dispute ← q_one_or_none (fun d => disputes (scenario d)) (fun o => (dp_id o =? dispute_id)%py);
  match dispute with
  | None => raise (HTTPException 404 "Dispute not found")
  | Some o => mret o
  end.

Definition open_dispute (operation_id : string) (amount : Z) (initiator : option string)
    (fee_amount : Z) (place_hold : bool) (key : option string) : PM DisputeService.DisputeResult :=
  operation ← operation_or_404 operation_id;
  key ← key_or_new "dispute" key;
  DisputeService.open_dispute W operation amount initiator key fee_amount place_hold.

Definition move_to_review (dispute_id : string) (initiator : option string) : PM Dispute :=
  dispute ← _get_dispute_or_404 dispute_id;
  state_guard (DisputeService.move_to_review W dispute initiator).

Definition accept_dispute (dispute_id : string) (initiator key : option string)
    (settlement_closed : bool) (adjustment_date : option Z) : PM DisputeService.DisputeResult :=
  dispute ← _get_dispute_or_404 dispute_id;
  operation ← q_one (fun d => operations (scenario d))
    (fun o => (op_id o =? dp_operation_id dispute)%py);
  state_guard (key ← key_or_new "dispute-accept" key;
               DisputeService.accept W dispute operation initiator key settlement_closed
                 adjustment_date).

Definition reject_dispute (dispute_id : string) (initiator key : option string)
    : PM DisputeService.DisputeResult :=
  dispute ← _get_dispute_or_404 dispute_id;
  state_guard (key ← key_or_new "dispute-reject" key;
               DisputeService.reject W dispute initiator key).

Definition close_dispute (dispute_id : string) (initiator : option string) : PM Dispute :=
  dispute ← _get_dispute_or_404 dispute_id;
  state_guard (DisputeService.close W dispute initiator).
End Api.
End AdminApi.


(** ** Serving requests *)

Inductive admin_request : Type :=
| RRefund (operation_id : string) (amount : Z) (reason initiator key : option string)
    (settlement_closed : bool) (adjustment_date : option Z)
| RReversal (operation_id : string) (reason initiator key : option string)
    (settlement_closed : bool) (adjustment_date : option Z)
| ROpen (operation_id : string) (amount : Z) (initiator : option string) (fee_amount : Z)
    (place_hold : bool) (key : option string)
| RReview (dispute_id : string) (initiator : option string)
| RAccept (dispute_id : string) (initiator key : option string) (settlement_closed : bool)
    (adjustment_date : option Z)
| RReject (dispute_id : string) (initiator key : option string)
| RClose (dispute_id : string) (initiator : option string).

Section Serve.
Context (W : world Db).

Definition handle (r : admin_request) : PM unit :=
  match r with
  | RRefund o a re i k c d => AdminApi.create_refund W o a re i k c d;; mret tt
  | RReversal o re i k c d => AdminApi.create_reversal W o re i k c d;; mret tt
  | ROpen o a i f h k => AdminApi.open_dispute W o a i f h k;; mret tt
  | RReview i a => AdminApi.move_to_review W i a;; mret tt
  | RAccept i a k c d => AdminApi.accept_dispute W i a k c d;; mret tt
  | RReject i a k => AdminApi.reject_dispute W i a k;; mret tt
  | RClose i a => AdminApi.close_dispute W i a;; mret tt
  end.

(** The session of a request is closed after it: what it did not commit is lost. *)
Definition close_session (s : session Db) : session Db :=
  Session (saved s) (saved s) (ticks s) (uuids s) (races s).

Definition serve (r : admin_request) (s : session Db) : session Db :=
  close_session (handle r s).2.

Definition serve_all (rs : list admin_request) (s : session Db) : session Db :=
  foldl (fun s r => serve r s) s rs.
End Serve.

(** ** The life of a dispute *)

Inductive dispute_step : DisputeStatus.DisputeStatus -> DisputeStatus.DisputeStatus -> Prop :=
| step_review : dispute_step DisputeStatus.OPEN DisputeStatus.UNDER_REVIEW
| step_accept s : DisputeService.undecided s = true -> dispute_step s DisputeStatus.ACCEPTED
| step_reject s : DisputeService.undecided s = true -> dispute_step s DisputeStatus.REJECTED
| step_close_accepted : dispute_step DisputeStatus.ACCEPTED DisputeStatus.CLOSED
| step_close_rejected : dispute_step DisputeStatus.REJECTED DisputeStatus.CLOSED.

(** The disputes of [L] are still there, each with its status or, for the dispute [i],
    with the status [T]; new ones are open. *)
Definition row_to (i : string) (T : DisputeStatus.DisputeStatus) (o n : Dispute) : Prop :=
  dp_id n = dp_id o /\ (dp_status n = dp_status o \/ (dp_id o = i /\ dp_status n = T)).

Definition disputes_to (i : string) (T : DisputeStatus.DisputeStatus) (L : list Dispute) (d : Db)
    : Prop :=
  exists L' extra, disputes (scenario d) = L' ++ extra /\ Forall2 (row_to i T) L L'.

Lemma disputes_to_only i T L : scenario_only (disputes_to i T L).
Proof. unfold scenario_only, disputes_to. by intros d d' ->. Qed.

Section KeepsDisputes.
Context (W : world Db) (HW : alone W) (i : string) (T : DisputeStatus.DisputeStatus) (L : list Dispute).
Let I := disputes_to i T L.

Lemma I_only : scenario_only I.
Proof. apply disputes_to_only. Qed.
Lemma I_rivals : forall n d, I d -> I (rivals W n d).
Proof. by apply alone_keeps. Qed.

Lemma keeps_add_event id ty actor payload : keeps I (DisputesRepository.add_event id ty actor payload).
Proof.
  unfold DisputesRepository.add_event. apply keeps_bind; [apply keeps_gets|]. intros n.
  apply keeps_bind; [by apply keeps_modify|]. intros; apply keeps_ret.
Qed.

Lemma keeps_save_status f a :
  (forall r, dp_id (f r) = dp_id r) ->
  (forall r, dp_status (f r) = dp_status r \/ (dp_id a = i /\ dp_status (f r) = T)) ->
  keeps I (DisputesRepository.save f a).
Proof.
  intros Hid Hst. unfold DisputesRepository.save.
  apply keeps_bind; [apply keeps_modify|intros; apply keeps_ret].
  intros d (L' & extra & Hd & HL). unfold I, disputes_to. simpl. rewrite Hd. unfold update_where.
  rewrite map_app. eexists _, _. split; [reflexivity|].
  clear Hd. induction HL as [|o n L0 L1 [Hon Hs] HL IH]; simpl; constructor; [|done].
  destruct (eqb (dp_id n) (dp_id a)) eqn:E; [|by split].
  apply bool_decide_eq_true in E. split; [by rewrite Hid|].
  destruct (Hst n) as [->|[Ha ->]]; [done|]. right. split; congruence.
Qed.

Lemma keeps_set_status a : dp_id a = i -> keeps I (DisputesRepository.set_status W a T).
Proof.
  intros Ha. unfold DisputesRepository.set_status. apply keeps_bind; [apply keeps_now|]. intros t.
  apply keeps_save_status; [done|]. intros r. right. by split.
Qed.

Lemma keeps_pay m1 m2 a c op ty key {A} (k : PostingResult -> PM A) :
  keeps I m1 -> keeps I m2 -> (forall r, keeps I (k r)) ->
  keeps I (from ← m1; to ← m2;
           r ← PostingEngine.apply_posting W op ty key (transfer_lines from to a c); k r).
Proof.
  intros H1 H2 Hk. apply keeps_bind; [done|]. intros f. apply keeps_bind; [done|]. intros t.
  apply keeps_bind; [|done]. apply keeps_apply_posting; [apply I_only|apply I_rivals].
Qed.

Lemma keeps_reserve c : keeps I (DisputeService._dispute_reserve c).
Proof. apply keeps_platform_account, I_only. Qed.
Lemma keeps_payable o : keeps I (_partner_payable o).
Proof. apply keeps_partner_payable, I_only. Qed.

Lemma keeps_source o b : keeps I (DisputeService.source_account o b).
Proof. destruct b; [apply keeps_reserve|apply keeps_payable]. Qed.

Lemma keeps_clear_holds ids : keeps I (DisputeService._clear_holds ids).
Proof.
  unfold DisputeService._clear_holds. apply keeps_bind; [|intros; apply keeps_ret].
  apply keeps_for_each. intros j. unfold query_balance, write_balance.
  apply keeps_bind; [apply keeps_gets|]. intros [b|]; [by apply keeps_modify|apply keeps_ret].
Qed.

Lemma keeps_posting op ty key lines : keeps I (PostingEngine.apply_posting W op ty key lines).
Proof. apply keeps_apply_posting; [apply I_only|apply I_rivals]. Qed.

Lemma yields_save_status f a (Q : Dispute -> Prop) :
  (forall r, dp_id (f r) = dp_id r) ->
  (forall r, dp_status (f r) = dp_status r \/ (dp_id a = i /\ dp_status (f r) = T)) ->
  Q (f a) -> yields I (DisputesRepository.save f a) Q.
Proof.
  intros Hid Hst HQ s Hs. pose proof (keeps_save_status f a Hid Hst s Hs) as Hk. revert Hk.
  unfold wp, DisputesRepository.save, mbind, M_bind, modify, mret, M_ret. simpl. by split.
Qed.

Lemma yields_stamped (g : Z -> Dispute -> Dispute) a :
  (forall t r, dp_id (g t r) = dp_id r) ->
  (forall t r, dp_status (g t r) = dp_status r \/ (dp_id a = i /\ dp_status (g t r) = T)) ->
  dp_id a = i ->
  yields I (at_ ← now W; DisputesRepository.save (g at_) a) (fun r => dp_id r = i).
Proof.
  intros Hid Hst Ha. apply yields_after; [apply keeps_now|]. intros t.
  apply yields_save_status; [by apply Hid|by apply Hst|]. by rewrite Hid.
Qed.

(** The assignments of the repository, on the dispute [i]. *)
Lemma yields_set_status a :
  dp_id a = i -> yields I (DisputesRepository.set_status W a T) (fun r => dp_id r = i).
Proof. intros Ha. apply (yields_stamped (fun t r => set_dp_updated_at (Some t) (set_dp_status T r)));
  auto. Qed.

Lemma yields_set_hold a p :
  dp_id a = i -> yields I (DisputesRepository.set_hold W a p) (fun r => dp_id r = i).
Proof.
  apply (yields_stamped (fun t r => set_dp_updated_at (Some t) (set_dp_hold_posting_id (Some p)
    (set_dp_hold_placed true r)))); auto.
Qed.

Lemma yields_release_hold a p :
  dp_id a = i -> yields I (DisputesRepository.release_hold W a p) (fun r => dp_id r = i).
Proof.
  apply (yields_stamped (fun t r => set_dp_updated_at (Some t) (set_dp_hold_posting_id (Some p)
    (set_dp_hold_placed false r)))); auto.
Qed.

Lemma yields_set_resolution a p :
  dp_id a = i -> yields I (DisputesRepository.set_resolution_posting W a p) (fun r => dp_id r = i).
Proof.
  apply (yields_stamped (fun t r => set_dp_updated_at (Some t) (set_dp_resolution_posting_id (Some p)
    r))); auto.
Qed.

Lemma keeps_fee_lines o a b : keeps I (DisputeService._fee_lines o a b).
Proof.
  unfold DisputeService._fee_lines. apply keeps_bind; [apply keeps_source|]. intros f.
  apply keeps_bind; [apply keeps_platform_account, I_only|]. intros; apply keeps_ret.
Qed.

Lemma keeps_accept_lines o a (closed b : bool) :
  keeps I (if closed then _adjustment_lines o a else DisputeService._refund_from_reserve_lines o a b).
Proof.
  destruct closed; [apply keeps_adjustment_lines, I_only|].
  unfold DisputeService._refund_from_reserve_lines. apply keeps_bind; [apply keeps_source|]. intros f.
  apply keeps_bind; [apply keeps_client_main, I_only|]. intros; apply keeps_ret.
Qed.

Lemma keeps_post_fee a o ini key b : keeps I (DisputeService.post_fee W a o ini key b).
Proof.
  unfold DisputeService.post_fee. apply keeps_if; [|apply keeps_ret].
  apply keeps_bind; [apply keeps_fee_lines|]. intros lines.
  apply keeps_bind; [apply keeps_posting|]. intros r.
  apply keeps_bind; [apply keeps_add_event|]. intros; apply keeps_ret.
Qed.

Lemma keeps_release a key :
  dp_id a = i -> yields I (DisputeService._release_hold W a key) (fun r => dp_id r.1 = i).
Proof.
  intros Ha. unfold DisputeService._release_hold, q_one.
  apply yields_after.
  { apply keeps_bind; [apply keeps_one_or_none|]. intros [o|]; [apply keeps_ret|apply keeps_raise]. }
  intros o. apply yields_after; [apply keeps_payable|]. intros p.
  apply yields_after; [apply keeps_reserve|]. intros q.
  apply yields_after; [apply keeps_posting|]. intros r.
  eapply yields_bind; [by apply yields_release_hold|]. intros b Hb. by apply yields_ret.
Qed.

(** The tail of every decision: the status, an event, the commit. *)
Lemma keeps_decide {A} a ty actor payload (k : Dispute -> PM A) :
  dp_id a = i -> (forall b, keeps I (k b)) ->
  keeps I (b ← DisputesRepository.set_status W a T;
           DisputesRepository.add_event (dp_id b) ty actor payload;; commit;; k b).
Proof.
  intros Ha Hk. eapply yields_forget. eapply yields_bind; [by apply yields_set_status|].
  intros b _. apply yields_after; [apply keeps_add_event|]. intros _.
  apply yields_after; [apply keeps_commit|]. intros _. apply yields_keeps, Hk.
Qed.

Lemma keeps_accept a o ini key closed date :
  dp_id a = i -> T = DisputeStatus.ACCEPTED ->
  keeps I (DisputeService.accept W a o ini key closed date).
Proof.
  intros Ha ET. unfold DisputeService.accept. apply keeps_if; [apply keeps_raise|]. cbv zeta.
  apply yields_forget with (Q := fun _ => True).
  apply yields_after; [apply keeps_accept_lines|]. intros lines.
  apply yields_after; [apply keeps_posting|]. intros r.
  eapply yields_bind; [by apply yields_set_resolution|]. intros b Hb.
  apply yields_bind with (Q := fun c => dp_id c = i).
  { destruct (dp_hold_placed b); [|by apply yields_ret].
    eapply yields_bind; [apply (yields_save_status _ _ (fun c => dp_id c = i)); auto|].
    intros c Hc. apply yields_after; [apply keeps_reserve|]. intros j.
    apply yields_after; [apply keeps_payable|]. intros j'.
    apply yields_after; [apply keeps_clear_holds|]. intros _. by apply yields_ret. }
  intros c Hc. rewrite <- ET. eapply yields_bind; [by apply yields_set_status|]. intros e He.
  apply yields_after; [apply keeps_add_event|]. intros _.
  apply yields_after; [apply keeps_add_event|]. intros _.
  apply yields_after; [apply keeps_post_fee|]. intros _.
  apply yields_after.
  { destruct closed; [|apply keeps_ret]. by apply keeps_adjustment_for. }
  intros adj. apply yields_after; [apply keeps_commit|]. intros _. by apply yields_ret.
Qed.

Lemma keeps_reject a actor key :
  dp_id a = i -> T = DisputeStatus.REJECTED -> keeps I (DisputeService.reject W a actor key).
Proof.
  intros Ha ET. unfold DisputeService.reject. apply keeps_if; [apply keeps_raise|].
  apply yields_forget with (Q := fun _ => True).
  apply yields_bind with (Q := fun r => dp_id r.1 = i).
  { destruct (dp_hold_placed a); [|by apply yields_ret].
    eapply yields_bind; [by apply keeps_release|]. intros [b p] Hb.
    apply yields_after; [apply keeps_add_event|]. intros _. by apply yields_ret. }
  intros [b p] Hb. apply yields_keeps. rewrite <- ET. apply keeps_decide; [done|].
  intros; apply keeps_ret.
Qed.

Lemma keeps_move_to_review a actor :
  dp_id a = i -> T = DisputeStatus.UNDER_REVIEW -> keeps I (DisputeService.move_to_review W a actor).
Proof.
  intros Ha ET. unfold DisputeService.move_to_review. apply keeps_if; [apply keeps_raise|].
  rewrite <- ET. apply keeps_decide; [done|]. intros; apply keeps_ret.
Qed.

Lemma keeps_close a actor :
  dp_id a = i -> T = DisputeStatus.CLOSED -> keeps I (DisputeService.close W a actor).
Proof.
  intros Ha ET. unfold DisputeService.close. apply keeps_if; [apply keeps_raise|].
  rewrite <- ET. apply keeps_decide; [done|]. intros; apply keeps_ret.
Qed.
End KeepsDisputes.

(** ** Requests that leave the disputes' statuses alone *)

Section KeepsOthers.
Context (W : world Db) (HW : alone W) (i : string) (T : DisputeStatus.DisputeStatus) (L : list Dispute).
Let I := disputes_to i T L.

Lemma keeps_set_hold a p : keeps I (DisputesRepository.set_hold W a p).
Proof.
  unfold DisputesRepository.set_hold. apply keeps_bind; [apply keeps_now|]. intros t.
  apply keeps_save_status; auto.
Qed.

Lemma keeps_create_dispute o b a c ini f : keeps I (DisputesRepository.create_dispute W o b a c ini f).
Proof.
  unfold DisputesRepository.create_dispute. apply keeps_bind; [apply keeps_uuid4|]. intros id.
  apply keeps_bind.
  { apply keeps_modify. intros d (L' & extra & Hd & HL). exists L', (extra ++ [MkDispute id o b a c f
      DisputeStatus.OPEN false None None (str_or_none ini) None]). split; [|done]. simpl.
    by rewrite Hd, <- app_assoc. }
  intros _. apply keeps_bind; [apply keeps_add_event|]. intros; apply keeps_ret.
Qed.

Lemma keeps_open_dispute o a ini key fee hold :
  keeps I (DisputeService.open_dispute W o a ini key fee hold).
Proof.
  unfold DisputeService.open_dispute. apply keeps_bind; [apply keeps_create_dispute|]. intros d.
  apply keeps_if.
  - apply keeps_bind.
    { unfold DisputeService._place_hold. apply keeps_pay; [done|apply keeps_payable|apply keeps_reserve|].
      intros; apply keeps_ret. }
    intros p. apply keeps_bind; [apply keeps_set_hold|]. intros d'.
    apply keeps_bind; [apply keeps_add_event|]. auto with keeps.
  - auto with keeps.
Qed.

Lemma keeps_request_refund o a re ini key closed date :
  keeps I (RefundService.request_refund W o a re ini key closed date).
Proof.
  unfold RefundService.request_refund. apply keeps_bind; [apply keeps_one_or_none|].
  intros [r|]; [apply keeps_ret|]. do 2 (apply keeps_if; [apply keeps_raise|]). cbv zeta.
  apply keeps_bind; [apply keeps_race'; by apply alone_keeps|]. intros _.
  apply keeps_bind.
  { unfold RefundsRepository.create. apply keeps_bind; [apply keeps_uuid4|]. intros id.
    apply keeps_bind; [by apply keeps_insert_unique|intros; apply keeps_ret]. }
  intros r. apply keeps_bind.
  { destruct closed; [apply keeps_adjustment_lines|apply keeps_refund_lines]; apply disputes_to_only. }
  intros lines. apply keeps_bind; [by apply keeps_posting|]. intros pr.
  apply keeps_bind.
  { unfold RefundsRepository.mark_posted, RefundsRepository.save.
    apply keeps_bind; [apply keeps_now|]. intros t. apply keeps_bind; [by apply keeps_modify|].
    intros; apply keeps_ret. }
  intros r'. apply keeps_bind; [by apply keeps_modify|]. intros _.
  apply keeps_bind; [|auto with keeps].
  apply keeps_if; [by apply keeps_adjustment_for|apply keeps_ret].
Qed.

Lemma keeps_reverse_capture o re ini key closed date :
  keeps I (ReversalService.reverse_capture W o re ini key closed date).
Proof.
  unfold ReversalService.reverse_capture. apply keeps_bind; [apply keeps_one_or_none|].
  intros [r|]; [apply keeps_ret|]. apply keeps_bind; [apply keeps_one_or_none|].
  intros [r|]; [apply keeps_raise|]. cbv zeta.
  apply keeps_bind; [apply keeps_race'; by apply alone_keeps|]. intros _.
  apply keeps_bind.
  { unfold ReversalsRepository.create. apply keeps_bind; [apply keeps_uuid4|]. intros id.
    apply keeps_bind; [by apply keeps_insert_unique|intros; apply keeps_ret]. }
  intros r. apply keeps_bind.
  { destruct closed; [apply keeps_adjustment_lines|apply keeps_reversal_lines]; apply disputes_to_only. }
  intros lines. apply keeps_bind; [by apply keeps_posting|]. intros pr.
  apply keeps_bind.
  { unfold ReversalsRepository.mark_posted, ReversalsRepository.save.
    apply keeps_bind; [apply keeps_now|]. intros t. apply keeps_bind; [by apply keeps_modify|].
    intros; apply keeps_ret. }
  intros r'. apply keeps_bind; [|auto with keeps].
  apply keeps_if; [by apply keeps_adjustment_for|apply keeps_ret].
Qed.

Lemma keeps_key_or_new prefix key : keeps I (AdminApi.key_or_new W prefix key).
Proof.
  unfold AdminApi.key_or_new. destruct (str_or_none key); [apply keeps_ret|].
  apply keeps_bind; [apply keeps_uuid4|]. intros; apply keeps_ret.
Qed.

Lemma keeps_operation_or_404 o : keeps I (AdminApi.operation_or_404 o).
Proof.
  unfold AdminApi.operation_or_404. apply keeps_bind; [apply keeps_one_or_none|].
  intros [x|]; [apply keeps_ret|apply keeps_raise].
Qed.

Lemma keeps_state_guard {A} (m : PM A) : keeps I m -> keeps I (AdminApi.state_guard m).
Proof.
  intros Hm. apply keeps_try; [done|]. intros e k. destruct e; intros [=]; subst; apply keeps_raise.
Qed.
End KeepsOthers.

(** ** Theorems *)

(** One request moves a dispute along one edge at most. *)
Definition evolves (L : list Dispute) (d : Db) : Prop :=
  forall x, In x L -> exists y, In y (disputes (scenario d)) /\ dp_id y = dp_id x /\
    (dp_status y = dp_status x \/ dispute_step (dp_status x) (dp_status y)).

Lemma disputes_to_evolves i T L d :
  disputes_to i T L d ->
  (forall x, In x L -> dp_id x = i -> dispute_step (dp_status x) T) -> evolves L d.
Proof.
  intros (L' & extra & Hd & HL) Hstep x Hx. rewrite Hd.
  apply list_elem_of_In, list_elem_of_lookup in Hx as [n Hn].
  destruct (Forall2_lookup_l _ _ _ _ _ HL Hn) as (y & Hy & Hid & Hst).
  exists y. split; [apply in_app_iff; left; by eapply list_elem_of_In, list_elem_of_lookup_2|].
  split; [done|]. destruct Hst as [?|[Hi ->]]; [by left|right].
  apply Hstep; [by eapply list_elem_of_In, list_elem_of_lookup_2|done].
Qed.

Lemma disputes_to_refl i T d : disputes_to i T (disputes (scenario d)) d.
Proof.
  exists (disputes (scenario d)), []. rewrite app_nil_r. split; [done|].
  apply Forall_Forall2_diag, Forall_true. intros x. split; [done|by left].
Qed.

Lemma evolves_same L d : disputes (scenario d) = L -> evolves L d.
Proof. intros <- x Hx. exists x. auto. Qed.

Section Lifecycle.
Context (W : world Db) (HW : alone W).

(** A request whose work keeps the disputes up to [T] on [i] makes them evolve. *)
Lemma kept_evolves {A} i T (m : PM A) s :
  live s = saved s -> keeps (disputes_to i T (disputes (scenario (saved s)))) m ->
  (forall x, In x (disputes (scenario (saved s))) -> dp_id x = i -> dispute_step (dp_status x) T) ->
  evolves (disputes (scenario (saved s))) (saved (m s).2).
Proof.
  intros Hls Hm Hstep. apply (disputes_to_evolves i T); [|done].
  apply Hm. split; [rewrite Hls|]; apply disputes_to_refl.
Qed.

(** A decision on the dispute [i]: it is looked up, then decided or refused. *)
Lemma decided_evolves {A} i T (k : Dispute -> PM A) s :
  live s = saved s ->
  (forall x, dp_id x = i -> (dispute_step (dp_status x) T /\ forall L, keeps (disputes_to i T L) (k x)) \/
     (forall s, saved (k x s).2 = saved s)) ->
  evolves (disputes (scenario (saved s)))
    (saved ((dispute ← AdminApi._get_dispute_or_404 i; k dispute) s).2).
Proof.
  intros Hls Hk. unfold AdminApi._get_dispute_or_404, q_one_or_none, q_all. run_steps.
  destruct (List.filter _ _) as [|x [|y l]] eqn:Hf; simpl; [by apply evolves_same| |by apply evolves_same].
  assert (forall z, In z (disputes (scenario (live s))) -> dp_id z = i -> z = x) as Hu.
  { intros z Hz Hi. assert (In z [x]) as Hin.
    { rewrite <- Hf. apply List.filter_In. split; [done|]. unfold eqb. by apply bool_decide_eq_true. }
    by destruct Hin as [->|[]]. }
  assert (dp_id x = i) as Hx.
  { assert (In x [x]) as Hin by by left. rewrite <- Hf in Hin. apply List.filter_In in Hin as [_ Hi].
    unfold eqb in Hi. by apply bool_decide_eq_true in Hi. }
  destruct (Hk x Hx) as [[Hs Hkeep]|Hsame].
  - apply (kept_evolves i T); [done|apply Hkeep|]. intros z Hz Hi. rewrite Hls in Hu.
    by rewrite (Hu z Hz Hi).
  - apply evolves_same. by rewrite Hsame.
Qed.

Lemma state_guard_saved {A} (m : PM A) s :
  saved (m s).2 = saved s -> saved (AdminApi.state_guard m s).2 = saved s.
Proof.
  unfold AdminApi.state_guard, try_except. destruct (m s) as [[a|e] t]; [done|]. simpl.
  by destruct e.
Qed.
End Lifecycle.

Lemma saved_then_ret {A} (m : PM A) s : saved ((m;; mret tt) s).2 = saved (m s).2.
Proof. unfold mbind, M_bind. by destruct (m s) as [[a|e] t]. Qed.

Lemma uncommitted_key_or_new W prefix key : uncommitted (AdminApi.key_or_new W prefix key).
Proof. unfold AdminApi.key_or_new. destruct (str_or_none key); auto with uncommitted. Qed.

(** A refused decision commits nothing. *)
Lemma refused_saved {A} (m : string -> PM A) W prefix key e s :
  (forall k, m k = raise e) ->
  saved ((k ← AdminApi.key_or_new W prefix key; m k) s).2 = saved s.
Proof.
  intros Hm. apply uncommitted_bind; [apply uncommitted_key_or_new|].
  intros k. rewrite Hm. apply uncommitted_raise.
Qed.


(** A call that keeps every such property changes no status. *)
Lemma kept_all_evolves {A} (m : PM A) s :
  live s = saved s -> (forall i T L, keeps (disputes_to i T L) m) ->
  evolves (disputes (scenario (saved s))) (saved (m s).2).
Proof.
  intros Hls Hm. set (ids := map dp_id (disputes (scenario (saved s)))).
  apply (kept_evolves (fresh ids) DisputeStatus.OPEN); [done|apply Hm|].
  intros x Hx Hi. destruct (infinite_is_fresh ids). rewrite <- Hi. by apply list_elem_of_In, in_map.
Qed.

Section Handling.
Context (W : world Db) (HW : alone W).

Lemma create_refund_kept o a re ini key closed date i T L :
  keeps (disputes_to i T L) (AdminApi.create_refund W o a re ini key closed date).
Proof.
  unfold AdminApi.create_refund. apply keeps_bind; [apply keeps_operation_or_404|]. intros x.
  apply keeps_bind; [apply keeps_key_or_new|]. intros k.
  apply keeps_try; [by apply keeps_request_refund|].
  intros e m. destruct e; intros [=]; subst; apply keeps_raise.
Qed.

Lemma create_reversal_kept o re ini key closed date i T L :
  keeps (disputes_to i T L) (AdminApi.create_reversal W o re ini key closed date).
Proof.
  unfold AdminApi.create_reversal. apply keeps_bind; [apply keeps_operation_or_404|]. intros x.
  apply keeps_bind; [apply keeps_key_or_new|]. intros k.
  apply keeps_try; [by apply keeps_reverse_capture|].
  intros e m. destruct e; intros [=]; subst; apply keeps_raise.
Qed.

Lemma open_dispute_kept o a ini fee hold key i T L :
  keeps (disputes_to i T L) (AdminApi.open_dispute W o a ini fee hold key).
Proof.
  unfold AdminApi.open_dispute. apply keeps_bind; [apply keeps_operation_or_404|]. intros x.
  apply keeps_bind; [apply keeps_key_or_new|]. intros k. by apply keeps_open_dispute.
Qed.

Lemma review_evolves i actor s : live s = saved s ->
  evolves (disputes (scenario (saved s))) (saved (AdminApi.move_to_review W i actor s).2).
Proof.
  intros Hls. unfold AdminApi.move_to_review. apply (decided_evolves i DisputeStatus.UNDER_REVIEW);
    [done|]. intros x Hx. destruct (eqb (dp_status x) DisputeStatus.OPEN) eqn:E.
  - left. unfold eqb in E. apply bool_decide_eq_true in E. rewrite E. split; [constructor|].
    intros L. apply keeps_state_guard. by apply keeps_move_to_review.
  - right. intros t. apply state_guard_saved. unfold DisputeService.move_to_review. by rewrite E.
Qed.

Lemma close_evolves i actor s : live s = saved s ->
  evolves (disputes (scenario (saved s))) (saved (AdminApi.close_dispute W i actor s).2).
Proof.
  intros Hls. unfold AdminApi.close_dispute. apply (decided_evolves i DisputeStatus.CLOSED);
    [done|]. intros x Hx.
  destruct (eqb (dp_status x) DisputeStatus.ACCEPTED || eqb (dp_status x) DisputeStatus.REJECTED)%bool
    eqn:E.
  - left. split; [|intros L; apply keeps_state_guard; by apply keeps_close].
    apply orb_true_iff in E as [E|E]; unfold eqb in E; apply bool_decide_eq_true in E; rewrite E;
      constructor.
  - right. intros t. apply state_guard_saved. unfold DisputeService.close. by rewrite E.
Qed.

Lemma reject_evolves i actor key s : live s = saved s ->
  evolves (disputes (scenario (saved s))) (saved (AdminApi.reject_dispute W i actor key s).2).
Proof.
  intros Hls. unfold AdminApi.reject_dispute. apply (decided_evolves i DisputeStatus.REJECTED);
    [done|]. intros x Hx. destruct (DisputeService.undecided (dp_status x)) eqn:E.
  - left. split; [by constructor|]. intros L. apply keeps_state_guard.
    apply keeps_bind; [apply keeps_key_or_new|]. intros k. by apply keeps_reject.
  - right. intros t. apply state_guard_saved.
    apply (refused_saved _ _ _ _ (DisputeStateError "reject" (dp_status x))).
    intros k. unfold DisputeService.reject. by rewrite E.
Qed.

Lemma accept_evolves i ini key closed date s : live s = saved s ->
  evolves (disputes (scenario (saved s))) (saved (AdminApi.accept_dispute W i ini key closed date s).2).
Proof.
  intros Hls. unfold AdminApi.accept_dispute. apply (decided_evolves i DisputeStatus.ACCEPTED);
    [done|]. intros x Hx. destruct (DisputeService.undecided (dp_status x)) eqn:E.
  - left. split; [by constructor|]. intros L. apply keeps_bind.
    { unfold q_one. apply keeps_bind; [apply keeps_one_or_none|].
      intros [o|]; [apply keeps_ret|apply keeps_raise]. }
    intros o. apply keeps_state_guard. apply keeps_bind; [apply keeps_key_or_new|]. intros k.
    by apply keeps_accept.
  - right. intros t. unfold q_one, q_one_or_none, q_all. run_steps.
    destruct (List.filter _ _) as [|o [|o' l]]; [done| |done].
    apply state_guard_saved. apply (refused_saved _ _ _ _ (DisputeStateError "accept" (dp_status x))).
    intros k. unfold DisputeService.accept. by rewrite E.
Qed.

Lemma handle_evolves r s : live s = saved s ->
  evolves (disputes (scenario (saved s))) (saved (handle W r s).2).
Proof.
  intros Hls. destruct r; cbn [handle]; rewrite saved_then_ret.
  - apply kept_all_evolves; [done|]. intros. apply create_refund_kept.
  - apply kept_all_evolves; [done|]. intros. apply create_reversal_kept.
  - apply kept_all_evolves; [done|]. intros. apply open_dispute_kept.
  - by apply review_evolves.
  - by apply accept_evolves.
  - by apply reject_evolves.
  - by apply close_evolves.
Qed.

(** C22 Over any sequence of admin requests (refunds, reversals and dispute requests, served
    or refused), every dispute stays in the table and its status only moves along the
    edges open -> under review -> accepted or rejected -> closed. *)
Theorem dispute_lifecycle (rs : list admin_request) (s : session Db) :
  live s = saved s ->
  forall x, In x (disputes (scenario (saved s))) ->
  exists y, In y (disputes (scenario (saved (serve_all W rs s)))) /\ dp_id y = dp_id x /\
    rtc dispute_step (dp_status x) (dp_status y).
Proof.
  revert s. induction rs as [|r rs IH]; intros s Hls x Hx.
  { exists x. split; [done|]. split; [done|]. apply rtc_refl. }
  destruct (handle_evolves r s Hls x Hx) as (y & Hy & Hid & Hst).
  destruct (IH (serve W r s) eq_refl y Hy) as (z & Hz & Hidz & Hr).
  exists z. split; [exact Hz|]. split; [congruence|].
  destruct Hst as [<-|Hst]; [done|]. by eapply rtc_l.
Qed.
End Handling.

Definition new_dispute (id oid bid : string) (amount : Z) (currency : string)
    (initiator : option string) (fee : Z) : Dispute :=
  MkDispute id oid bid amount currency fee DisputeStatus.OPEN false None None (str_or_none initiator) None.

Lemma create_dispute_run W oid bid amount currency initiator fee (s : session Db) :
  let d := new_dispute (new_uuid W (uuids s)) oid bid amount currency initiator fee in
  DisputesRepository.create_dispute W oid bid amount currency initiator fee s =
    (Ok d, Session
       (on_dispute_events (fun l => l ++ [MkDisputeEvent (next_id (dispute_events (scenario (live s))))
          (dp_id d) DisputeEventType.OPENED (Some (JDict [])) initiator])
          (on_disputes (fun l => l ++ [d]) (live s)))
       (saved s) (ticks s) (S (uuids s)) (races s)).
Proof. reflexivity. Qed.

(** Opening a dispute with a hold is committed: the dispute is open with its hold
    placed, no current balance changes, and the disputed amount is added to the holds of
    the partner's payable account and taken from those of the platform's reserve. *)
Theorem open_dispute_holds W o amount initiator key fee (s : session Db) :
  alone W -> numbered acc_id (accounts (posting (live s))) ->
  key_free (live s) (key +:+ ":hold") ->
  Forall (fun r => (dp_id r =? new_uuid W (uuids s))%py = false) (disputes (scenario (live s))) ->
  exists r t payable reserve,
    DisputeService.open_dispute W o amount initiator key fee true s = (Ok r, t) /\
    saved t = live t /\
    disputes (scenario (live t)) = disputes (scenario (live s)) ++ [DisputeService.dispute r] /\
    dp_status (DisputeService.dispute r) = DisputeStatus.OPEN /\
    dp_hold_placed (DisputeService.dispute r) = true /\
    dp_hold_posting_id (DisputeService.dispute r) = DisputeService.posting_id r /\
    is_payable o payable /\ is_platform "DISPUTE_RESERVE" (op_currency o) reserve /\
    acc_id payable <> acc_id reserve /\
    (forall i, bal_current (row_of (posting (live t)) i) = bal_current (row_of (posting (live s)) i)) /\
    (forall i, bal_hold (row_of (posting (live t)) i) = bal_hold (row_of (posting (live s)) i) +
       on_account i (line_hold PostingBatchType.DISPUTE_HOLD)
         (transfer_lines (acc_id payable) (acc_id reserve) amount (op_currency o))).
Proof.
  intros HW Hn Hk Hf. unfold DisputeService.open_dispute, DisputeService._place_hold.
  erewrite bind_ok by apply create_dispute_run.
  set (d0 := new_dispute _ _ _ _ _ _ _). set (u := Session _ _ _ _ _).
  destruct (pay_run W (Some (op_id o)) PostingBatchType.DISPUTE_HOLD (key +:+ ":hold")
    (_partner_payable o) (DisputeService._dispute_reserve (op_currency o)) _ _ amount (op_currency o) u
    HW (getter_partner_payable o) (getter_platform_account _ _) Hn Hk)
    as (from & to & u' & pr & v & R & R' & (I1 & I2 & P1 & P2 & N) & Hsc & _ & _ & Hc & Hh).
  assert ((payable ← _partner_payable o; reserve ← DisputeService._dispute_reserve (op_currency o);
           posting ← PostingEngine.apply_posting W (Some (op_id o)) PostingBatchType.DISPUTE_HOLD
             (key +:+ ":hold") (transfer_lines payable reserve amount (op_currency o));
           mret (pr_posting_id posting)) u = (Ok (pr_posting_id pr), v)) as Hrun.
  { revert R. unfold mbind, M_bind. destruct (_partner_payable o u) as [[a|e] t]; [|done].
    destruct (DisputeService._dispute_reserve (op_currency o) t) as [[b|e] t']; [|done].
    intros [= -> -> ->]. by rewrite R'. }
  erewrite bind_ok by exact Hrun.
  unfold DisputesRepository.set_hold, DisputesRepository.save, DisputesRepository.add_event.
  run_steps. eexists _, _, from, to. split; [reflexivity|]. cbn [live saved].
  cbn [on_disputes on_dispute_events on_scenario scenario posting disputes DisputeService.dispute
       DisputeService.posting_id].
  split; [done|]. split.
  { rewrite Hsc. unfold u. cbn [live on_disputes on_dispute_events on_scenario scenario disputes].
    rewrite update_fresh; [done|done|]. unfold eqb. by apply bool_decide_eq_true. }
  repeat (split; [done|]). split.
  { apply (distinct_accounts _ _ _ N I1 I2).
    destruct P1 as (_ & -> & _), P2 as (_ & -> & _). discriminate. }
  split; [|exact Hh].
  intros i. specialize (Hc i). change (posting (live u)) with (posting (live s)) in Hc. rewrite Hc.
  unfold on_account. simpl. unfold line_current, current_delta. simpl. repeat destruct (decide _); lia.
Qed.

(** ** Concrete runs *)

Definition demo_request (s : session Db) (r : admin_request) : session Db := serve demo_world r s.

(** Two disputes of operations of the same partner, both with a hold, and the first is
    accepted. *)
Definition two_disputes : list admin_request :=
  [ ROpen "op" 100 None 0 true (Some "d1"); ROpen "op" 50 None 0 true (Some "d2") ].

Definition opened_disputes : session Db := serve_all demo_world two_disputes (fresh_session demo_scenario).

Definition accepted_first : session Db :=
  match disputes (scenario (saved opened_disputes)) with
  | d :: _ => serve demo_world (RAccept (dp_id d) None (Some "a1") false None) opened_disputes
  | [] => opened_disputes
  end.

Definition rejected_second : session Db :=
  match disputes (scenario (saved accepted_first)) with
  | [_; d] => serve demo_world (RReject (dp_id d) None (Some "r2")) accepted_first
  | _ => accepted_first
  end.

(** The held amounts of the partner's payable accounts, in whole units. *)
Definition payable_holds (d : Db) : list Z :=
  map (fun a => bal_hold (row_of (posting d) (acc_id a)) / 10000)
    (List.filter (fun a => (acc_tariff_id a =? Some "PARTNER_PAYABLE")%py) (accounts (posting d))).

(** Accepting a dispute zeroes every hold of the partner's account, the holds of its
    other open disputes included: with holds of 100 and 50 placed, accepting the first
    leaves no hold while the second still shows one, and rejecting the second then makes
    the held amount negative. *)
Theorem accept_clears_other_holds :
  payable_holds (saved opened_disputes) = [150] /\
  map dp_hold_placed (disputes (scenario (saved accepted_first))) = [false; true] /\
  payable_holds (saved accepted_first) = [0] /\
  payable_holds (saved rejected_second) = [-50].
Proof. vm_compute. repeat split. Qed.

Lemma dispute_lifecycle_witness :
  exists x y, In x (disputes (scenario (saved opened_disputes))) /\
    In y (disputes (scenario (saved (serve_all demo_world
      [RAccept "id-0" None (Some "a1") false None; RClose "id-0" None] opened_disputes)))) /\
    rtc dispute_step (dp_status x) (dp_status y).
Proof.
  destruct (disputes (scenario (saved opened_disputes))) as [|x l] eqn:E;
    [vm_compute in E; discriminate|].
  destruct (dispute_lifecycle demo_world (fun _ _ => eq_refl)
    [RAccept "id-0" None (Some "a1") false None; RClose "id-0" None] opened_disputes) with (x := x)
    as (y & Hy & _ & Hr).
  - vm_compute. reflexivity.
  - rewrite E. left. reflexivity.
  - exists x, y. split; [left; reflexivity|]. split; [exact Hy|exact Hr].
Defined.

Lemma open_dispute_holds_witness :
  exists r t, DisputeService.open_dispute demo_world demo_operation 80 None "d" 0 true
      (fresh_session demo_scenario) = (Ok r, t) /\ length (disputes (scenario (saved t))) = 1%nat.
Proof.
  destruct (open_dispute_holds demo_world demo_operation 80 None "d" 0
    (fresh_session demo_scenario) (fun _ _ => eq_refl) eq_refl (Forall_nil_2 _) (Forall_nil_2 _))
    as (r & t & p & q & Hr & Hs & Hd & _).
  exists r, t. split; [exact Hr|]. rewrite Hs, Hd. reflexivity.
Defined.
