(* ===== verification/InternalLedger.v ===== *)
(** * The internal ledger (services/internal_ledger.py, services/key_normalization.py)

    Double-entry transactions of a tenant, chained by the digest of their
    postings: the posting of a transaction with its idempotency key, accounts and
    audit record; the postings of invoices, payments, credit notes, refunds and fuel
    transactions; the verification of a chain; the health check. *)
From Stdlib Require Import Ascii String.
From S2P Require Import Prelude Json HashChain Enums Models Instants AuditTrail.

(** ** services/key_normalization.py *)
Module KeyNormalization.
Section Digest.
Context (W : world Db).

Definition normalize_key (value : string) (max_len : nat) (prefix : string) : string :=
  if (String.length value <=? max_len)%nat then value
  else
    let digest := sha256_hex W value in
    if (max_len <? String.length prefix + String.length digest)%nat
    then String.substring 0 max_len digest
    else prefix +:+ digest.

Definition normalize_key_optional (value : option string) (max_len : nat) (prefix : string)
    : option string :=
  match value with
  | None => None
  | Some v => Some (normalize_key v max_len prefix)
  end.
End Digest.
End KeyNormalization.

(** ** InternalLedgerService *)
Module InternalLedgerService.
Record InternalLedgerLine := MkInternalLedgerLine {
  line_account_type : InternalLedgerAccountType.InternalLedgerAccountType;
  line_client_id : option string;
  line_direction : InternalLedgerEntryDirection.InternalLedgerEntryDirection;
  line_amount : Z;
  line_currency : string;
  line_meta : option json;
}.

Record InternalLedgerTransactionResult := MkInternalLedgerTransactionResult {
  transaction : InternalLedgerTransaction;
  is_replay : bool;
}.

Definition GENESIS_BATCH_HASH : string := "GENESIS_INTERNAL_LEDGER_V1".

Definition _canonical_json (data : dict) : string := canonical_json (JDict data).

(** [entry.meta or {}] *)
Definition meta_or_empty (meta : option json) : json := default (JDict []) meta.

(** A posting as it is serialised into the digested text. *)
Definition posting_payload (account_type : InternalLedgerAccountType.InternalLedgerAccountType)
    (client_id : option string) (direction : InternalLedgerEntryDirection.InternalLedgerEntryDirection)
    (amount : Z) (currency : string) (meta : option json) : json :=
  JDict
    [ ("account_type", JStr (InternalLedgerAccountType.value account_type));
      ("client_id", from_option JStr JNull client_id);
      ("direction", JStr (InternalLedgerEntryDirection.value direction));
      ("amount", JInt amount);
      ("currency", JStr currency);
      ("meta", meta_or_empty meta) ].

Definition _canonical_postings_payload (entries : list InternalLedgerLine) : list json :=
  map (fun entry => posting_payload (line_account_type entry) (line_client_id entry)
         (line_direction entry) (line_amount entry) (line_currency entry) (line_meta entry))
    entries.

(** The sum of the amounts of one direction. *)
Definition direction_sum {A} (direction_of : A -> InternalLedgerEntryDirection.InternalLedgerEntryDirection)
    (amount_of : A -> Z) (direction : InternalLedgerEntryDirection.InternalLedgerEntryDirection)
    (l : list A) : Z :=
  sum_of amount_of (List.filter (fun a => (direction_of a =? direction)%py) l).

Definition lines_sum := direction_sum line_direction line_amount.
Definition entries_sum := direction_sum ile_direction ile_amount.

(** The text whose digest is the batch hash. *)
Definition batch_text (previous_batch_hash : string) (serialized_postings : list json)
    (total_debit total_credit timestamp : Z) : string :=
  _canonical_json
    [ ("previous_batch_hash", JStr previous_batch_hash);
      ("serialized_postings", JList serialized_postings);
      ("total_debit", JInt total_debit);
      ("total_credit", JInt total_credit);
      ("timestamp", JStr (isoformat timestamp)) ].

Definition same_account (tenant_id : Z) (client_id : option string)
    (account_type : InternalLedgerAccountType.InternalLedgerAccountType) (currency : string)
    (a : InternalLedgerAccount) : bool :=
  ((ila_tenant_id a =? tenant_id) && (ila_client_id a =? client_id) &&
   (ila_account_type a =? account_type) && (ila_currency a =? currency))%py.

Section Service.
Context (W : world Db).

Definition entry_hash_for_payload (payload : dict) : string :=
  sha256_hex W (_canonical_json payload).

Definition compute_batch_hash (previous_batch_hash : string) (serialized_postings : list json)
    (total_debit total_credit timestamp : Z) : string :=
  sha256_hex W
    (batch_text previous_batch_hash serialized_postings total_debit total_credit timestamp).

(** [db.add(account); db.flush()].  The unique constraint on the scope does not
    compare rows without a client: two NULLs are distinct. *)
Definition insert_account (account : InternalLedgerAccount) : PM unit :=
  clash ← q_first (fun d => il_accounts (internal d))
    (fun r => bool_decide (is_Some (ila_client_id account)) &&
              same_account (ila_tenant_id account) (ila_client_id account)
                (ila_account_type account) (ila_currency account) r);
  match clash with
  | Some _ => raise (IntegrityError "uq_internal_ledger_accounts_scope")
  | None => modify (on_il_accounts (fun l => l ++ [account]))
  end.

Definition find_account (tenant_id : Z) (client_id : option string)
    (account_type : InternalLedgerAccountType.InternalLedgerAccountType) (currency : string)
    : PM (option InternalLedgerAccount) :=
  q_one_or_none (fun d => il_accounts (internal d))
    (same_account tenant_id client_id account_type currency).

Definition _ensure_account (tenant_id : Z) (client_id : option string)
    (account_type : InternalLedgerAccountType.InternalLedgerAccountType) (currency : string)
    : PM InternalLedgerAccount :=
  existing ← find_account tenant_id client_id account_type currency;
  match existing with
  | Some account => mret account
  | None =>
      race W;;
      id ← uuid4 W;
      let account := MkInternalLedgerAccount id tenant_id client_id account_type currency
                       InternalLedgerAccountStatus.ACTIVE in
      try_except (insert_account account;; mret account)
        (fun e => match e with
                  | IntegrityError _ => Some (
                      existing ← find_account tenant_id client_id account_type currency;
                      match existing with
                      | Some a => mret a
                      | None => raise e
                      end)
                  | _ => None
                  end)
  end.

(** The rows of a tenant. *)
Definition of_tenant (tenant_id : Z) (r : InternalLedgerTransaction) : bool :=
  (ilt_tenant_id r =? tenant_id)%py.

Definition tenant_batches (tenant_id : Z) (d : Db) : list InternalLedgerTransaction :=
  List.filter (of_tenant tenant_id) (il_transactions (internal d)).

(** [order_by(batch_sequence.desc()).limit(1)] *)
Definition highest_batch (rows : list InternalLedgerTransaction) : option InternalLedgerTransaction :=
  foldl (fun acc r => match acc with
                      | None => Some r
                      | Some m => if ilt_batch_sequence m <? ilt_batch_sequence r
                                  then Some r else Some m
                      end) None rows.

Definition _next_batch_sequence (tenant_id : Z) : PM Z :=
  latest ← gets (fun d => option_map ilt_batch_sequence (highest_batch (tenant_batches tenant_id d)));
  mret (default 0 latest + 1).

Definition _last_batch_hash (tenant_id : Z) : PM string :=
  latest ← gets (fun d => option_map ilt_batch_hash (highest_batch (tenant_batches tenant_id d)));
  mret (str_or latest GENESIS_BATCH_HASH).

(** [db.add(txn); db.flush()] with the constraints of the table. *)
Definition insert_transaction (txn : InternalLedgerTransaction) : PM unit :=
  if negb (ilt_total_debit txn =? ilt_total_credit txn)
  then raise (IntegrityError "ck_internal_ledger_transaction_balanced")
  else
    same_key ← q_first (fun d => il_transactions (internal d))
      (fun r => (ilt_idempotency_key r =? ilt_idempotency_key txn)%py);
    same_batch ← q_first (fun d => il_transactions (internal d))
      (fun r => (ilt_tenant_id r =? ilt_tenant_id txn)%py &&
                (ilt_batch_sequence r =? ilt_batch_sequence txn)%py);
    match same_key, same_batch with
    | Some _, _ => raise (IntegrityError "internal_ledger_transactions.idempotency_key")
    | _, Some _ => raise (IntegrityError "uq_internal_ledger_batch_sequence")
    | None, None => modify (on_il_transactions (fun l => l ++ [txn]))
    end.

Definition find_transaction (idempotency_key : string) : PM (option InternalLedgerTransaction) :=
  q_one_or_none (fun d => il_transactions (internal d))
    (fun r => (ilt_idempotency_key r =? idempotency_key)%py).

(** [a and b and a != b] on optional strings *)
Definition both_and_differ (a b : option string) : bool :=
  match str_or_none a, str_or_none b with
  | Some x, Some y => (x <>? y)%py
  | _, _ => false
  end.

Definition _get_or_create_transaction (tenant_id : Z)
    (transaction_type : InternalLedgerTransactionType.InternalLedgerTransactionType)
    (external_ref_type external_ref_id idempotency_key : string) (total_amount : option Z)
    (currency : option string) (posted_at : option Z) (meta : option json)
    (total_debit total_credit : option Z) (serialized_postings : option (list json))
    : PM (InternalLedgerTransaction * bool) :=
  let idempotency_key := KeyNormalization.normalize_key W idempotency_key 128 "ledger:" in
  existing ← find_transaction idempotency_key;
  match existing with
  | Some existing =>
      if both_and_differ currency (ilt_currency existing)
      then raise (ValueError "ledger transaction currency mismatch")
      else match total_amount, ilt_total_amount existing with
           | Some new, Some old =>
               if (old <>? new)%py then raise (ValueError "ledger transaction amount mismatch")
               else mret (existing, true)
           | _, _ => mret (existing, true)
           end
  | None =>
      batch_sequence ← _next_batch_sequence tenant_id;
      previous_batch_hash ← _last_batch_hash tenant_id;
      effective_posted_at ← match posted_at with Some t => mret t | None => now W end;
      let debit_value := default (default 0 total_amount) total_debit in
      let credit_value := default (default 0 total_amount) total_credit in
      race W;;
      id ← uuid4 W;
      created_at ← now W;
      let txn := {|
        ilt_id := id; ilt_tenant_id := tenant_id; ilt_transaction_type := transaction_type;
        ilt_external_ref_type := external_ref_type; ilt_external_ref_id := external_ref_id;
        ilt_idempotency_key := idempotency_key; ilt_total_amount := total_amount;
        ilt_total_debit := debit_value; ilt_total_credit := credit_value;
        ilt_currency := currency; ilt_batch_sequence := batch_sequence;
        ilt_previous_batch_hash := previous_batch_hash;
        ilt_batch_hash := compute_batch_hash previous_batch_hash (default [] serialized_postings)
                            debit_value credit_value effective_posted_at;
        ilt_posted_at := Some effective_posted_at; ilt_created_at := created_at;
        ilt_meta := meta |} in
      try_except (insert_transaction txn;; mret (txn, false))
        (fun e => match e with
                  | IntegrityError _ => Some (
                      existing ← find_transaction idempotency_key;
                      match existing with
                      | Some existing => mret (existing, true)
                      | None => raise e
                      end)
                  | _ => None
                  end)
  end.

(** A new entry; its id is drawn when it is flushed. *)
Definition _build_entry (tenant_id : Z) (transaction : InternalLedgerTransaction)
    (account : InternalLedgerAccount)
    (direction : InternalLedgerEntryDirection.InternalLedgerEntryDirection) (amount : Z)
    (currency : string) (meta : option json) : InternalLedgerEntry :=
  let payload :=
    [ ("tenant_id", JInt tenant_id);
      ("ledger_transaction_id", JStr (ilt_id transaction));
      ("account_id", JStr (ila_id account));
      ("direction", JStr (InternalLedgerEntryDirection.value direction));
      ("amount", JInt amount);
      ("currency", JStr currency) ] in
  let entry_hash := entry_hash_for_payload payload in
  MkInternalLedgerEntry "" tenant_id (ilt_id transaction) (ila_id account) direction amount
    currency entry_hash meta.

Definition with_id (id : string) (e : InternalLedgerEntry) : InternalLedgerEntry :=
  MkInternalLedgerEntry id (ile_tenant_id e) (ile_ledger_transaction_id e) (ile_account_id e)
    (ile_direction e) (ile_amount e) (ile_currency e) (ile_entry_hash e) (ile_meta e).

(** [db.add(entry)] and its flush: the id is [new_uuid_str()]. *)
Definition add_entry (entry : InternalLedgerEntry) : PM InternalLedgerEntry :=
  id ← uuid4 W;
  modify (on_il_entries (fun l => l ++ [with_id id entry]));;
  mret (with_id id entry).

Definition entry_audit (entry : InternalLedgerEntry) : pyval :=
  PDict
    [ ("account_id", PStr (ile_account_id entry));
      ("direction", PStr (InternalLedgerEntryDirection.value (ile_direction entry)));
      ("amount", PInt (ile_amount entry));
      ("currency", PStr (ile_currency entry));
      ("entry_hash", PStr (ile_entry_hash entry));
      ("meta", opt_json (ile_meta entry)) ].

Definition _emit_audit_event (transaction : InternalLedgerTransaction)
    (entries : list InternalLedgerEntry) (currency : string) (total_amount : Z) : PM unit :=
  let entry_payload := map entry_audit entries in
  audit_call W
    (MkAuditArgs "ledger_transaction" "internal_ledger_transaction" (ilt_id transaction)
       (InternalLedgerTransactionType.value (ilt_transaction_type transaction))
       AuditVisibility.INTERNAL None
       (Some
          [ ("ledger_transaction_id", PStr (ilt_id transaction));
            ("transaction_type", PStr (InternalLedgerTransactionType.value
                                         (ilt_transaction_type transaction)));
            ("external_ref_type", PStr (ilt_external_ref_type transaction));
            ("external_ref_id", PStr (ilt_external_ref_id transaction));
            ("currency", PStr currency);
            ("total_amount", PInt total_amount);
            ("entries", PList entry_payload) ])
       None
       (Some
          [ ("external_ref_type", PStr (ilt_external_ref_type transaction));
            ("external_ref_id", PStr (ilt_external_ref_id transaction));
            ("ledger_transaction_id", PStr (ilt_id transaction)) ])
       None None)
    (Some (MkRequestContext ActorType.SYSTEM None None None None None None None
             (Some (ilt_tenant_id transaction))));;
  mret tt.

(** [account_map[str(entry.account_id)]] *)
Definition account_of (account_map : list InternalLedgerAccount) (account_id : string)
    : PM InternalLedgerAccount :=
  match List.find (fun a => (ila_id a =? account_id)%py) account_map with
  | Some a => mret a
  | None => raise (KeyError account_id)
  end.

(** One element of [serialized_postings] of [_post_entries]. *)
Definition serialize_entry (account_map : list InternalLedgerAccount)
    (entry : InternalLedgerEntry) : PM json :=
  account ← account_of account_map (ile_account_id entry);
  mret (posting_payload (ila_account_type account) (ila_client_id account)
          (ile_direction entry) (ile_amount entry) (ile_currency entry) (ile_meta entry)).

(** [len({x.currency for x in l}) != 1] and the one currency. *)
Definition single_currency (currencies : list string) : option string :=
  match remove_dups currencies with
  | [c] => Some c
  | _ => None
  end.

(** The assignments of [_post_entries] to the transaction. *)
Definition with_totals (debit_sum credit_sum : Z) (batch_hash : string) (posted_at : Z)
    (r : InternalLedgerTransaction) : InternalLedgerTransaction :=
  set_ilt_posted_at (Some posted_at) (set_ilt_batch_hash batch_hash
    (set_ilt_total_amount (Some debit_sum) (set_ilt_total_credit credit_sum
      (set_ilt_total_debit debit_sum r)))).

Definition _post_entries (transaction : InternalLedgerTransaction)
    (entries_list : list InternalLedgerEntry) (expected_currency : option string)
    : PM InternalLedgerTransaction :=
  match entries_list with
  | [] => raise (ValueError "ledger transaction requires entries")
  | _ =>
      match single_currency (map ile_currency entries_list) with
      | None => raise (ValueError "ledger transaction has mixed currencies")
      | Some currency =>
          let differs := fun expected => match str_or_none expected with
                                         | Some c => (currency <>? c)%py
                                         | None => false
                                         end in
          if differs expected_currency
          then raise (ValueError "ledger transaction currency mismatch")
          else if differs (ilt_currency transaction)
          then raise (ValueError "ledger transaction currency mismatch")
          else
            let debit_sum := entries_sum InternalLedgerEntryDirection.DEBIT entries_list in
            let credit_sum := entries_sum InternalLedgerEntryDirection.CREDIT entries_list in
            if negb (debit_sum =? credit_sum)
            then raise (ValueError "ledger transaction is unbalanced")
            else
              account_map ← q_all (fun d => il_accounts (internal d))
                (fun a => bool_decide (ila_id a ∈ map ile_account_id entries_list));
              serialized_postings ← for_each entries_list (serialize_entry account_map);
              effective_posted_at ← match ilt_posted_at transaction with
                                    | Some t => mret t
                                    | None => now W
                                    end;
              let batch_hash := compute_batch_hash (ilt_previous_batch_hash transaction)
                                  serialized_postings debit_sum credit_sum effective_posted_at in
              let assign := with_totals debit_sum credit_sum batch_hash effective_posted_at in
              modify (on_il_transactions
                (update_where (fun r => (ilt_id r =? ilt_id transaction)%py) assign));;
              entries ← for_each entries_list add_entry;
              _emit_audit_event (assign transaction) entries currency debit_sum;;
              mret (assign transaction)
      end
  end.

(** One turn of the loop of [post_transaction] that builds the entries. *)
Definition build_line (tenant_id : Z) (transaction : InternalLedgerTransaction)
    (entry : InternalLedgerLine) : PM InternalLedgerEntry :=
  account ← _ensure_account tenant_id (line_client_id entry) (line_account_type entry)
    (line_currency entry);
  mret (_build_entry tenant_id transaction account (line_direction entry) (line_amount entry)
          (line_currency entry) (line_meta entry)).

Definition post_transaction (tenant_id : Z)
    (transaction_type : InternalLedgerTransactionType.InternalLedgerTransactionType)
    (external_ref_type external_ref_id idempotency_key : string) (posted_at : option Z)
    (meta : option json) (entries_list : list InternalLedgerLine)
    : PM InternalLedgerTransactionResult :=
  match entries_list with
  | [] => raise (ValueError "ledger transaction requires entries")
  | _ =>
      match single_currency (map line_currency entries_list) with
      | None => raise (ValueError "ledger transaction has mixed currencies")
      | Some currency =>
          let debit_sum := lines_sum InternalLedgerEntryDirection.DEBIT entries_list in
          let credit_sum := lines_sum InternalLedgerEntryDirection.CREDIT entries_list in
          if negb (debit_sum =? credit_sum)
          then raise (ValueError "ledger transaction is unbalanced")
          else
            created ← _get_or_create_transaction tenant_id transaction_type external_ref_type
              external_ref_id idempotency_key (Some debit_sum) (Some currency) posted_at meta
              (Some debit_sum) (Some credit_sum)
              (Some (_canonical_postings_payload entries_list));
            let '(transaction, is_replay) := created in
            if is_replay : bool then mret (MkInternalLedgerTransactionResult transaction true)
            else
              built_entries ← for_each entries_list (build_line tenant_id transaction);
              transaction ← _post_entries transaction built_entries (Some currency);
              mret (MkInternalLedgerTransactionResult transaction false)
      end
  end.

(** ** The postings of the business events *)

Definition postable_status (s : InvoiceStatus.InvoiceStatus) : bool :=
  match s with
  | InvoiceStatus.ISSUED | InvoiceStatus.SENT | InvoiceStatus.PARTIALLY_PAID
  | InvoiceStatus.PAID => true
  | _ => false
  end.

Definition invoice_meta (invoice : Invoice) (kind : string) : option json :=
  Some (JDict [("invoice_id", JStr (inv_id invoice)); ("kind", JStr kind)]).

Definition invoice_lines_of (invoice : Invoice) : list InternalLedgerLine :=
  let currency := inv_currency invoice in
  let total_net := inv_total_amount invoice in
  let total_tax := inv_tax_amount invoice in
  let total_due := int_or (inv_total_with_tax invoice) (total_net + total_tax) in
  [ MkInternalLedgerLine InternalLedgerAccountType.CLIENT_AR (Some (inv_client_id invoice))
      InternalLedgerEntryDirection.DEBIT total_due currency (invoice_meta invoice "invoice_issued");
    MkInternalLedgerLine InternalLedgerAccountType.PLATFORM_REVENUE None
      InternalLedgerEntryDirection.CREDIT total_net currency (invoice_meta invoice "invoice_revenue") ]
  ++ (if (total_tax =? 0)%Z then [] else
      [ MkInternalLedgerLine InternalLedgerAccountType.TAX_VAT None
          InternalLedgerEntryDirection.CREDIT total_tax currency (invoice_meta invoice "invoice_tax") ]).

Definition post_invoice_issued (invoice : Invoice) (tenant_id : Z) : PM unit :=
  if negb (postable_status (inv_status invoice)) then mret tt
  else
    posted_at ← match inv_issued_at invoice with Some t => mret t | None => now W end;
    post_transaction tenant_id InternalLedgerTransactionType.INVOICE_ISSUED "INVOICE"
      (inv_id invoice) ("invoice:" +:+ inv_id invoice +:+ ":issued:v1") (Some posted_at)
      (Some (JDict [("invoice_id", JStr (inv_id invoice))])) (invoice_lines_of invoice);;
    mret tt.

(** A debit and a credit of the same amount. *)
Definition two_lines
    (debit_type : InternalLedgerAccountType.InternalLedgerAccountType) (debit_client : option string)
    (credit_type : InternalLedgerAccountType.InternalLedgerAccountType) (credit_client : option string)
    (amount : Z) (currency : string) (meta : json) : list InternalLedgerLine :=
  [ MkInternalLedgerLine debit_type debit_client InternalLedgerEntryDirection.DEBIT
      amount currency (Some meta);
    MkInternalLedgerLine credit_type credit_client InternalLedgerEntryDirection.CREDIT
      amount currency (Some meta) ].

Definition post_fuel_settlement (tenant_id : Z) (fuel_transaction_id client_id : string)
    (amount : Z) (currency : string) (posted_at : option Z) : PM InternalLedgerTransaction :=
  let meta := JDict [("fuel_transaction_id", JStr fuel_transaction_id)] in
  result ← post_transaction tenant_id InternalLedgerTransactionType.FUEL_SETTLEMENT
    "FUEL_TRANSACTION" fuel_transaction_id ("fuel_tx:" +:+ fuel_transaction_id +:+ ":settlement:v1")
    posted_at (Some meta)
    (two_lines InternalLedgerAccountType.CLIENT_AR (Some client_id)
       InternalLedgerAccountType.PROVIDER_PAYABLE None amount currency meta);
  mret (transaction result).

Definition post_fuel_reversal (tenant_id : Z) (fuel_transaction_id client_id : string)
    (amount : Z) (currency : string) (posted_at : option Z) : PM InternalLedgerTransaction :=
  let meta := JDict [("fuel_transaction_id", JStr fuel_transaction_id)] in
  result ← post_transaction tenant_id InternalLedgerTransactionType.FUEL_REVERSAL
    "FUEL_TRANSACTION" fuel_transaction_id ("fuel_tx:" +:+ fuel_transaction_id +:+ ":reversal:v1")
    posted_at (Some meta)
    (two_lines InternalLedgerAccountType.PROVIDER_PAYABLE None
       InternalLedgerAccountType.CLIENT_AR (Some client_id) amount currency meta);
  mret (transaction result).

Definition post_payment_applied (invoice : Invoice) (payment : InvoicePayment) (tenant_id : Z)
    : PM unit :=
  let meta := JDict [("invoice_id", JStr (inv_id invoice)); ("payment_id", JStr (pay_id payment))] in
  existing ← q_one_or_none (fun d => il_transactions (internal d))
    (fun r => (ilt_external_ref_type r =? "PAYMENT")%py &&
              (ilt_external_ref_id r =? pay_id payment)%py);
  match existing with
  | Some _ => mret tt
  | None =>
      post_transaction tenant_id InternalLedgerTransactionType.PAYMENT_APPLIED "PAYMENT"
        (pay_id payment) ("payment:" +:+ pay_idempotency_key payment +:+ ":applied:v1")
        (Some (pay_created_at payment)) (Some meta)
        (two_lines InternalLedgerAccountType.CLIENT_CASH (Some (inv_client_id invoice))
           InternalLedgerAccountType.CLIENT_AR (Some (inv_client_id invoice))
           (pay_amount payment) (pay_currency payment) meta);;
      mret tt
  end.

Definition post_credit_note_applied (invoice : Invoice) (credit_note : CreditNote) (tenant_id : Z)
    : PM unit :=
  let meta := JDict [("invoice_id", JStr (inv_id invoice)); ("credit_note_id", JStr (cn_id credit_note))] in
  post_transaction tenant_id InternalLedgerTransactionType.CREDIT_NOTE_APPLIED "CREDIT_NOTE"
    (cn_id credit_note) ("credit_note:" +:+ cn_id credit_note +:+ ":applied:v1")
    (Some (cn_created_at credit_note)) (Some meta)
    (two_lines InternalLedgerAccountType.PLATFORM_REVENUE None
       InternalLedgerAccountType.CLIENT_AR (Some (inv_client_id invoice))
       (cn_amount credit_note) (cn_currency credit_note) meta);;
  mret tt.

Definition post_refund_applied (invoice : Invoice) (refund : CreditNote) (tenant_id : Z) : PM unit :=
  let meta := JDict [("invoice_id", JStr (inv_id invoice)); ("refund_id", JStr (cn_id refund))] in
  post_transaction tenant_id InternalLedgerTransactionType.REFUND_APPLIED "REFUND"
    (cn_id refund) ("refund:" +:+ cn_id refund +:+ ":applied:v1")
    (Some (cn_created_at refund)) (Some meta)
    (two_lines InternalLedgerAccountType.CLIENT_AR (Some (inv_client_id invoice))
       InternalLedgerAccountType.CLIENT_CASH (Some (inv_client_id invoice))
       (cn_amount refund) (cn_currency refund) meta);;
  mret tt.

(** ** Verification *)

(** The entries of a transaction joined with their accounts, in insertion order. *)
Definition joined_entries (transaction_id : string) (d : Db)
    : list (InternalLedgerEntry * InternalLedgerAccount) :=
  List.flat_map (fun e => map (pair e)
      (List.filter (fun a => (ila_id a =? ile_account_id e)%py) (il_accounts (internal d))))
    (List.filter (fun e => (ile_ledger_transaction_id e =? transaction_id)%py)
       (il_entries (internal d))).

(** [order_by(InternalLedgerEntry.id.asc())] *)
Definition by_entry_id (l : list (InternalLedgerEntry * InternalLedgerAccount))
    : list (InternalLedgerEntry * InternalLedgerAccount) :=
  map snd (sort_by_key (map (fun x => (ile_id x.1, x)) l)).

Definition serialize_joined (x : InternalLedgerEntry * InternalLedgerAccount) : json :=
  posting_payload (ila_account_type x.2) (ila_client_id x.2) (ile_direction x.1)
    (ile_amount x.1) (ile_currency x.1) (ile_meta x.1).

Definition joined_sum (direction : InternalLedgerEntryDirection.InternalLedgerEntryDirection)
    (l : list (InternalLedgerEntry * InternalLedgerAccount)) : Z :=
  entries_sum direction (map fst l).

(** [row.posted_at or row.created_at] *)
Definition batch_time (row : InternalLedgerTransaction) : Z :=
  default (ilt_created_at row) (ilt_posted_at row).

Definition batch_row_text (row : InternalLedgerTransaction)
    (entries : list (InternalLedgerEntry * InternalLedgerAccount)) : string :=
  batch_text (ilt_previous_batch_hash row) (map serialize_joined entries)
    (joined_sum InternalLedgerEntryDirection.DEBIT entries)
    (joined_sum InternalLedgerEntryDirection.CREDIT entries) (batch_time row).

(** The loop of [verify_ledger_chain] over the rows and their entries, in order. *)
Fixpoint verify_batches (previous_hash : string) (expected_seq : Z)
    (rows : list (InternalLedgerTransaction * list (InternalLedgerEntry * InternalLedgerAccount)))
    : bool * option string :=
  match rows with
  | [] => (true, None)
  | (row, entries) :: rest =>
      if (ilt_batch_sequence row <>? expected_seq)%py
      then (false, Some ("missing_or_out_of_order_batch:" +:+ print_int (ilt_batch_sequence row)))
      else if (ilt_previous_batch_hash row <>? previous_hash)%py
      then (false, Some ("previous_batch_hash_mismatch:" +:+ ilt_id row))
      else
        let expected_hash := compute_batch_hash previous_hash (map serialize_joined entries)
          (joined_sum InternalLedgerEntryDirection.DEBIT entries)
          (joined_sum InternalLedgerEntryDirection.CREDIT entries) (batch_time row) in
        if (ilt_batch_hash row <>? expected_hash)%py
        then (false, Some ("batch_hash_mismatch:" +:+ ilt_id row))
        else verify_batches (ilt_batch_hash row) (expected_seq + 1) rest
  end.

Definition verify_ledger_chain (tenant_id : option Z) : PM (bool * option string) :=
  gets (fun d =>
    let rows := sort_on ilt_batch_sequence
      (List.filter (fun r => match tenant_id with
                             | Some t => of_tenant t r
                             | None => true
                             end) (il_transactions (internal d))) in
    verify_batches GENESIS_BATCH_HASH 1
      (map (fun row => (row, by_entry_id (joined_entries (ilt_id row) d))) rows)).
End Service.
End InternalLedgerService.

(** ** InternalLedgerHealthService *)
Module InternalLedgerHealthService.
Record InternalLedgerHealth := MkInternalLedgerHealth {
  broken_transactions_count : Z;
  missing_postings_count : Z;
}.

Definition count {A} (P : A -> bool) (l : list A) : Z := Z.of_nat (length (List.filter P l)).

(** The transactions some entry refers to: the groups of the query. *)
Definition entry_groups (d : Db) : list string :=
  remove_dups (map ile_ledger_transaction_id (il_entries (internal d))).

Definition group_sum (direction : InternalLedgerEntryDirection.InternalLedgerEntryDirection)
    (d : Db) (transaction_id : string) : Z :=
  InternalLedgerService.entries_sum direction
    (List.filter (fun e => (ile_ledger_transaction_id e =? transaction_id)%py)
       (il_entries (internal d))).

(** The outer join with the transactions finds no row. *)
Definition unposted (ref_type ref_id : string) (d : Db) : bool :=
  negb (existsb (fun t => (ilt_external_ref_type t =? ref_type)%py &&
                          (ilt_external_ref_id t =? ref_id)%py) (il_transactions (internal d))).

Definition check : PM InternalLedgerHealth :=
  broken_count ← gets (fun d => count (fun g =>
    (group_sum InternalLedgerEntryDirection.DEBIT d g <>?
     group_sum InternalLedgerEntryDirection.CREDIT d g)%py) (entry_groups d));
  invoice_missing ← gets (fun d => count (fun i =>
    InternalLedgerService.postable_status (inv_status i) && unposted "INVOICE" (inv_id i) d)
    (invoices (billing d)));
  payment_missing ← gets (fun d => count (fun p => unposted "PAYMENT" (pay_id p) d)
    (payments (billing d)));
  mret (MkInternalLedgerHealth broken_count (invoice_missing + payment_missing)).
End InternalLedgerHealthService.

(** ** Normalised keys fit in their column *)

Lemma substring_length n s : (String.length (String.substring 0 n s) <= n)%nat.
Proof. revert n. induction s as [|c s IH]; intros [|n]; simpl; [lia..|]. specialize (IH n). lia. Qed.

(** A normalised key fits in its column, and normalising it again changes nothing. *)
Theorem normalize_key_bounded (W : world Db) (value prefix : string) (max_len : nat) :
  let key := KeyNormalization.normalize_key W value max_len prefix in
  (String.length key <= max_len)%nat /\ KeyNormalization.normalize_key W key max_len prefix = key.
Proof.
  intros key.
  assert (String.length key <= max_len)%nat as Hlen.
  { unfold key, KeyNormalization.normalize_key. destruct (Nat.leb_spec (String.length value) max_len);
      [done|]. destruct (Nat.ltb_spec max_len (String.length prefix + String.length (sha256_hex W value)));
      [apply substring_length|by rewrite string_length_app]. }
  split; [done|]. unfold KeyNormalization.normalize_key at 1. by rewrite (proj2 (Nat.leb_le _ _) Hlen).
Qed.
