(* ===== verification/InternalLedgerFacts.v ===== *)
(** * The internal ledger: its chain, its balance and its verification

    The theorems on InternalLedger.v.  [il_inv] is the invariant of the tables: per
    tenant the batches are numbered from one and chained by their digests, each batch
    is balanced and its totals are those of its entries. *)
From Stdlib Require Import Ascii String.
From S2P Require Import Prelude Json HashChain Enums Models Instants AuditTrail InternalLedger.
Import KeyNormalization InternalLedgerService.

(** ** The digested text *)

Lemma sort_batch_keys p l d c t :
  sort_by_key [ ("previous_batch_hash", JStr p); ("serialized_postings", JList (map sort_keys l));
      ("total_debit", JInt d); ("total_credit", JInt c); ("timestamp", JStr t) ] =
  [ ("previous_batch_hash", JStr p); ("serialized_postings", JList (map sort_keys l));
      ("timestamp", JStr t); ("total_credit", JInt c); ("total_debit", JInt d) ].
Proof. generalize (map sort_keys l). intros l'. vm_compute. reflexivity. Qed.

Lemma batch_text_inj p l d c t p' l' d' c' t' :
  batch_text p l d c t = batch_text p' l' d' c' t' ->
  p = p' /\ map sort_keys l = map sort_keys l' /\ d = d' /\ c = c' /\ isoformat t = isoformat t'.
Proof.
  intros H%canonical_json_inj.
  change (JDict (sort_by_key [ ("previous_batch_hash", JStr p);
      ("serialized_postings", JList (map sort_keys l)); ("total_debit", JInt d);
      ("total_credit", JInt c); ("timestamp", JStr (isoformat t)) ]) =
    JDict (sort_by_key [ ("previous_batch_hash", JStr p');
      ("serialized_postings", JList (map sort_keys l')); ("total_debit", JInt d');
      ("total_credit", JInt c'); ("timestamp", JStr (isoformat t')) ])) in H.
  rewrite !sort_batch_keys in H. injection H as -> -> -> -> ->. done.
Qed.

(** A batch with its entries and their accounts. *)
Definition batch : Type :=
  InternalLedgerTransaction * list (InternalLedgerEntry * InternalLedgerAccount).

(** Two postings that say the same; [meta] up to the order of its keys. *)
Record same_posting (x y : InternalLedgerEntry * InternalLedgerAccount) : Prop := {
  same_account_type : ila_account_type x.2 = ila_account_type y.2;
  same_client_id : ila_client_id x.2 = ila_client_id y.2;
  same_direction : ile_direction x.1 = ile_direction y.1;
  same_amount : ile_amount x.1 = ile_amount y.1;
  same_currency : ile_currency x.1 = ile_currency y.1;
  same_meta : same_json (meta_or_empty (ile_meta x.1)) (meta_or_empty (ile_meta y.1));
}.

(** Two batches with the same postings, in order, the same totals and the same time. *)
Record same_batch (b b' : batch) : Prop := {
  same_postings : Forall2 same_posting b.2 b'.2;
  same_debit : joined_sum InternalLedgerEntryDirection.DEBIT b.2 = joined_sum InternalLedgerEntryDirection.DEBIT b'.2;
  same_credit : joined_sum InternalLedgerEntryDirection.CREDIT b.2 = joined_sum InternalLedgerEntryDirection.CREDIT b'.2;
  same_time : batch_time b.1 = batch_time b'.1;
}.

Lemma sort_posting_keys t c d a cu m :
  sort_by_key [ ("account_type", JStr t); ("client_id", c); ("direction", JStr d); ("amount", JInt a);
      ("currency", JStr cu); ("meta", m) ] =
  [ ("account_type", JStr t); ("amount", JInt a); ("client_id", c); ("currency", JStr cu); ("direction", JStr d);
    ("meta", m) ].
Proof. vm_compute. reflexivity. Qed.

Lemma account_type_value_inj x y : InternalLedgerAccountType.value x = InternalLedgerAccountType.value y -> x = y.
Proof. by destruct x, y. Qed.

Lemma direction_value_inj x y :
  InternalLedgerEntryDirection.value x = InternalLedgerEntryDirection.value y -> x = y.
Proof. by destruct x, y. Qed.

Lemma sorted_client c : sort_keys (from_option JStr JNull c) = from_option JStr JNull c.
Proof. by destruct c. Qed.

(** The serialised posting says all of it. *)
Lemma serialized_posting_inj x y : sort_keys (serialize_joined x) = sort_keys (serialize_joined y) -> same_posting x y.
Proof.
  unfold serialize_joined, posting_payload. cbn [sort_keys map fst snd].
  rewrite !sorted_client, !sort_posting_keys. intros H. injection H as Ht Ha Hc Hcu Hd Hm.
  constructor; auto using account_type_value_inj, direction_value_inj, sorted_same.
  destruct (ila_client_id x.2), (ila_client_id y.2); simpl in Hc; congruence.
Qed.

Lemma serialized_postings_inj l : forall l',
  map sort_keys (map serialize_joined l) = map sort_keys (map serialize_joined l') -> Forall2 same_posting l l'.
Proof.
  induction l as [|x l IH]; intros [|y l'] H; try discriminate H; [constructor|]. cbn [map] in H.
  assert (forall (a b : json) q r, a :: q = b :: r -> a = b /\ q = r) as Hcons by (intros a b q r Hq; by injection Hq).
  apply Hcons in H as [Hx H]. constructor; [by apply serialized_posting_inj|by apply IH].
Qed.

Lemma batch_row_text_inj (b b' : batch) :
  batch_row_text b.1 b.2 = batch_row_text b'.1 b'.2 ->
  ilt_previous_batch_hash b.1 = ilt_previous_batch_hash b'.1 /\ same_batch b b'.
Proof.
  unfold batch_row_text. intros H. apply batch_text_inj in H as (Hp & Hl & Hd & Hc & Ht).
  split; [exact Hp|]. constructor; [by apply serialized_postings_inj|exact Hd|exact Hc|by apply isoformat_inj].
Qed.

#[global] Instance batch_chain : HashChain batch := {|
  row_prev := fun b => ilt_previous_batch_hash b.1;
  row_hash := fun b => ilt_batch_hash b.1;
  row_same := same_batch;
  row_text := fun b => batch_row_text b.1 b.2;
  row_text_inj := batch_row_text_inj;
|}.

(** ** The loop of the verification *)

Section Verify.
Context (W : world Db).

Definition sequenced (first : Z) (l : list batch) : Prop :=
  map (fun b => ilt_batch_sequence b.1) l = seqZ first (Z.of_nat (length l)).

Lemma sequenced_cons first b l :
  sequenced first (b :: l) <-> ilt_batch_sequence b.1 = first /\ sequenced (first + 1) l.
Proof.
  unfold sequenced. simpl. rewrite seqZ_cons by lia.
  replace (Z.pred (Z.of_nat (S (length l)))) with (Z.of_nat (length l)) by lia.
  change (Z.succ first) with (first + 1). split; [by intros [= -> ->]|by intros [-> ->]].
Qed.

Lemma neq_true {A} `{EqDecision A} (a b : A) : negb (eqb a b) = true -> a <> b.
Proof. unfold eqb. rewrite negb_true_iff. apply bool_decide_eq_false. Qed.

Lemma neq_false {A} `{EqDecision A} (a b : A) : negb (eqb a b) = false -> a = b.
Proof. unfold eqb. rewrite negb_false_iff. apply bool_decide_eq_true. Qed.

(** The verification accepts exactly the numbered chains. *)
Lemma verify_batches_iff (l : list batch) : forall prev first,
  verify_batches W prev first l = (true, None) <->
  sequenced first l /\ chained (sha256_hex W) prev l.
Proof.
  induction l as [|[row es] l IH]; intros prev first; [by cbn; repeat split|].
  rewrite sequenced_cons. cbn [verify_batches chained row_prev row_hash row_text batch_chain fst snd].
  destruct (negb (eqb (ilt_batch_sequence row) first)) eqn:Hs.
  { apply neq_true in Hs. split; [intros [=]|intros [[? _] _]; done]. }
  apply neq_false in Hs as ->.
  destruct (negb (eqb (ilt_previous_batch_hash row) prev)) eqn:Hp.
  { apply neq_true in Hp. split; [intros [=]|intros [_ [? _]]; done]. }
  apply neq_false in Hp as <-. unfold batch_row_text, compute_batch_hash.
  destruct (negb _) eqn:Hh.
  { apply neq_true in Hh. split; [intros [=]|intros [_ [_ [? _]]]; done]. }
  apply neq_false in Hh. rewrite IH. naive_solver.
Qed.

(** A reason is given exactly for a failure. *)
Lemma verify_batches_reason (l : list batch) : forall prev first,
  (verify_batches W prev first l).1 = true <-> (verify_batches W prev first l).2 = None.
Proof.
  induction l as [|[r es] l IH]; intros prev first; [done|]. cbn [verify_batches].
  repeat (destruct (negb _); [done|]). apply IH.
Qed.
End Verify.

(** ** Accounts *)

Lemma same_account_iff ten cl ty cur a :
  same_account ten cl ty cur a = true <->
  ila_tenant_id a = ten /\ ila_client_id a = cl /\ ila_account_type a = ty /\ ila_currency a = cur.
Proof. unfold same_account, eqb. rewrite !andb_true_iff, !bool_decide_eq_true. tauto. Qed.

(** Identifiers and scopes of the accounts are unique. *)
Definition accounts_inv (l : list InternalLedgerAccount) : Prop :=
  List.NoDup (map ila_id l) /\
  forall ten cl ty cur a b, In a l -> In b l ->
    same_account ten cl ty cur a = true -> same_account ten cl ty cur b = true -> a = b.

Section Posting.
Context (W : world Db) (HW : alone W)
  (uuids_distinct : forall n m, new_uuid W n = new_uuid W m -> n = m).

(** What one step of the loop that builds the entries leaves. *)
Record grown (s t : session Db) (news : list InternalLedgerAccount) : Prop := {
  gr_live : live t = on_il_accounts (fun l => l ++ news) (live s);
  gr_saved : saved t = saved s;
  gr_ticks : ticks t = ticks s;
  gr_uuids : (uuids s <= uuids t)%nat;
  gr_inv : accounts_inv (il_accounts (internal (live t)));
  gr_unused : unused W (uuids t) ila_id (il_accounts (internal (live t)));
}.

Definition acc_rows (s : session Db) : list InternalLedgerAccount := il_accounts (internal (live s)).

Lemma on_il_accounts_nil d : on_il_accounts (fun l => l ++ []) d = d.
Proof. destruct d as [? ? [] ? ? ?]. unfold on_il_accounts, on_internal. simpl. by rewrite app_nil_r. Qed.

Lemma grown_refl s n :
  accounts_inv (acc_rows s) -> unused W (uuids s) ila_id (acc_rows s) ->
  grown s (Session (live s) (saved s) (ticks s) (uuids s) n) [].
Proof. intros Hi Hu. constructor; simpl; [by rewrite on_il_accounts_nil|done|done|lia|done|done]. Qed.

Lemma grown_trans s t u l m : grown s t l -> grown t u m -> grown s u (l ++ m).
Proof.
  intros [L1 S1 T1 U1 _ _] [L2 S2 T2 U2 I2 F2]. constructor; [|congruence|congruence|lia|done|done].
  rewrite L2, L1. destruct (live s) as [? ? [] ? ? ?].
  unfold on_il_accounts, on_internal. simpl. by rewrite <- app_assoc.
Qed.

(** An account of the scope is found, or created with the next identifier. *)
Lemma ensure_account_run ten cl ty cur s :
  accounts_inv (acc_rows s) -> unused W (uuids s) ila_id (acc_rows s) ->
  exists a t news, _ensure_account W ten cl ty cur s = (Ok a, t) /\ grown s t news /\
    In a (acc_rows t) /\ same_account ten cl ty cur a = true.
Proof.
  intros [Hn Hu] Hf. unfold _ensure_account, find_account.
  destruct (filter_unique ila_id (same_account ten cl ty cur) (acc_rows s) Hn) as [H|(a & H & Ha & HP)];
    [intros a b; apply Hu| |].
  - rewrite (bind_ok _ _ s None s) by by apply one_or_none_nil. cbv beta iota.
    erewrite bind_ok by (by apply race_alone). erewrite bind_ok by reflexivity.
    cbn [live saved ticks uuids races].
    set (a := MkInternalLedgerAccount _ _ _ _ _ _). set (u := Session _ _ _ _ _).
    assert (insert_account a u = (Ok tt, Session (on_il_accounts (fun l => l ++ [a]) (live s))
      (saved s) (ticks s) (S (uuids s)) (S (races s)))) as Hi.
    { unfold insert_account, q_first. run_steps.
      rewrite (filter_none (A := InternalLedgerAccount)); [done|].
      apply List.Forall_forall. intros r Hr. apply andb_false_iff. right.
      destruct (same_account _ _ _ _ r) eqn:Hs; [|done].
      assert (In r (List.filter (same_account ten cl ty cur) (acc_rows s))) as Hin
        by (apply filter_In; done). by rewrite H in Hin. }
    erewrite try_ok by (erewrite bind_ok by exact Hi; reflexivity).
    eexists a, _, [a]. split; [reflexivity|].
    assert (In a (acc_rows s ++ [a])) by (apply in_app_iff; right; by left).
    assert (same_account ten cl ty cur a = true) as Hsame by (by apply same_account_iff).
    split; [|by split].
    constructor; simpl; [done|done|done|lia| |by apply (unused_snoc W uuids_distinct (uuids s)); [lia| |]].
    split.
    + rewrite map_app. apply nodup_snoc; [done|]. by apply Hf.
    + assert (forall t2 c2 y2 u2 b, In b (acc_rows s) -> same_account t2 c2 y2 u2 b = true ->
        same_account t2 c2 y2 u2 a = true -> False) as Hno.
      { intros t2 c2 y2 u2 b Hb Sb Sa. apply same_account_iff in Sa as (<- & <- & <- & <-).
        assert (In b (List.filter (same_account ten cl ty cur) (acc_rows s))) as Hin
          by (apply filter_In; done). by rewrite H in Hin. }
      intros t2 c2 y2 u2 x y. rewrite !in_app_iff. simpl.
      intros [Hx|[<-|[]]] [Hy|[<-|[]]] Sx Sy; [by apply (Hu t2 c2 y2 u2)| | |done];
        exfalso; by eapply Hno.
  - rewrite (bind_ok _ _ s (Some a) s) by by apply one_or_none_some. cbv beta iota.
    exists a, s, []. split; [reflexivity|]. split; [|done].
    destruct s as [l sv tk uu rc]. by apply grown_refl.
Qed.

(** ** Entries *)

(** [e] is the entry of [line], on an account of its scope. *)
Definition built (ten : Z) (txn : InternalLedgerTransaction) (accs : list InternalLedgerAccount)
    (line : InternalLedgerLine) (e : InternalLedgerEntry) : Prop :=
  exists a, In a accs /\
    same_account ten (line_client_id line) (line_account_type line) (line_currency line) a = true /\
    e = _build_entry W ten txn a (line_direction line) (line_amount line) (line_currency line)
          (line_meta line).

Lemma built_weaken ten txn accs more line e : built ten txn accs line e -> built ten txn (accs ++ more) line e.
Proof. intros (a & Ha & Hs & ->). exists a. split; [apply in_app_iff; by left|done]. Qed.

Lemma grown_rows s t news : grown s t news -> acc_rows t = acc_rows s ++ news.
Proof. intros [Hl _ _ _ _ _]. unfold acc_rows. by rewrite Hl. Qed.

Lemma build_loop_run ten txn lines : forall s,
  accounts_inv (acc_rows s) -> unused W (uuids s) ila_id (acc_rows s) ->
  exists es t news, for_each lines (build_line W ten txn) s = (Ok es, t) /\ grown s t news /\
    Forall2 (built ten txn (acc_rows t)) lines es.
Proof.
  induction lines as [|line lines IH]; intros s Hi Hu.
  { destruct s as [l sv tk uu rc]. eexists [], _, []. split; [reflexivity|].
    split; [by apply grown_refl|constructor]. }
  destruct (ensure_account_run ten (line_client_id line) (line_account_type line)
              (line_currency line) s Hi Hu) as (a & t & news & Ha & Hg & Hin & Hs).
  destruct (IH t (gr_inv _ _ _ Hg) (gr_unused _ _ _ Hg)) as (es & u & more & Hl & Hm & HF).
  assert (build_line W ten txn line s = (Ok (_build_entry W ten txn a (line_direction line)
    (line_amount line) (line_currency line) (line_meta line)), t)) as Hb.
  { unfold build_line. erewrite bind_ok by exact Ha. reflexivity. }
  eexists (_ :: es), u, (news ++ more). cbn [for_each].
  split; [|split; [by eapply grown_trans|]].
  - erewrite bind_ok by exact Hb. erewrite bind_ok by exact Hl. reflexivity.
  - constructor; [|done]. exists a. split; [|done]. rewrite (grown_rows _ _ _ Hm), in_app_iff. by left.
Qed.

(** The entry and its account serialise to the posting of the line. *)
Lemma built_serialized ten txn accs line e :
  accounts_inv accs -> built ten txn accs line e ->
  exists a, List.filter (fun r => (ila_id r =? ile_account_id e)%py) accs = [a] /\
    serialize_joined (e, a) = posting_payload (line_account_type line) (line_client_id line)
      (line_direction line) (line_amount line) (line_currency line) (line_meta line).
Proof.
  intros [Hn _] (a & Ha & Hs & ->). exists a. split; [exact (filter_key ila_id accs a Hn Ha)|].
  apply same_account_iff in Hs as (_ & Hc & Ht & _). unfold serialize_joined. simpl. by rewrite Hc, Ht.
Qed.

Lemma built_fields ten txn accs lines es :
  Forall2 (built ten txn accs) lines es ->
  map ile_currency es = map line_currency lines /\
  (forall dir, entries_sum dir es = lines_sum dir lines) /\
  Forall (fun e => ile_ledger_transaction_id e = ilt_id txn /\ In (ile_account_id e) (map ila_id accs)) es.
Proof.
  induction 1 as [|line e lines es (a & Ha & Hs & ->) HF (IHc & IHs & IHt)]; [done|].
  split; [simpl; by rewrite IHc|]. split.
  - intros dir. specialize (IHs dir). unfold entries_sum, lines_sum, direction_sum in *. simpl.
    destruct (eqb _ _); simpl; by rewrite IHs.
  - constructor; [|done]. split; [done|]. exact (in_map ila_id accs a Ha).
Qed.

Lemma find_head {A} (P : A -> bool) l : List.find P l = head (List.filter P l).
Proof. induction l as [|x l IH]; simpl; [done|]. destruct (P x); done. Qed.

(** [serialized_postings] of [_post_entries] is the payload of the lines. *)
Lemma serialize_loop_run ten txn accs lines es ids s :
  accounts_inv accs -> Forall2 (built ten txn accs) lines es ->
  (forall e, In e es -> In (ile_account_id e) ids) ->
  for_each es (serialize_entry (List.filter (fun a => bool_decide (ila_id a ∈ ids)) accs)) s =
    (Ok (_canonical_postings_payload lines), s).
Proof.
  intros Hi HF. induction HF as [|line e lines es Hb HF IH]; intros Hids; [done|].
  cbn [for_each]. destruct (built_serialized ten txn accs line e Hi Hb) as (a & Ha & Hs).
  set (account_map := List.filter _ accs) in *.
  assert (account_of account_map (ile_account_id e) s = (Ok a, s)) as Hacc.
  { unfold account_of, account_map. rewrite find_head, <- filter_and.
    rewrite (filter_ext_in _ (fun r => (ila_id r =? ile_account_id e)%py)), Ha; [done|].
    intros x Hx. unfold eqb. destruct (bool_decide_reflect (ila_id x = ile_account_id e)) as [->|];
      [|done]. apply bool_decide_eq_true, list_elem_of_In, Hids. by left. }
  assert (serialize_entry account_map e s = (Ok (serialize_joined (e, a)), s)) as He.
  { unfold serialize_entry. erewrite bind_ok by exact Hacc. reflexivity. }
  erewrite bind_ok by exact He. erewrite bind_ok by (apply IH; intros; apply Hids; by right).
  rewrite Hs. reflexivity.
Qed.

(** The flush gives each entry the next identifier. *)
Fixpoint identified (u : nat) (es : list InternalLedgerEntry) : list InternalLedgerEntry :=
  match es with
  | [] => []
  | e :: rest => with_id (new_uuid W u) e :: identified (S u) rest
  end.

Lemma add_loop_run es : forall s,
  for_each es (add_entry W) s =
    (Ok (identified (uuids s) es),
     Session (on_il_entries (fun l => l ++ identified (uuids s) es) (live s)) (saved s) (ticks s)
       (uuids s + length es) (races s)).
Proof.
  induction es as [|e es IH]; intros s; cbn [for_each identified length].
  - destruct s as [[? ? [] ? ? ?] sv tk uu rc]. unfold on_il_entries, on_internal. simpl.
    by rewrite app_nil_r, Nat.add_0_r.
  - erewrite bind_ok by reflexivity. erewrite bind_ok by apply IH.
    cbn [live saved ticks uuids races]. unfold mret, M_ret. f_equal.
    destruct (live s) as [? ? [] ? ? ?]. unfold on_il_entries, on_internal. simpl.
    rewrite <- app_assoc, <- Nat.add_succ_comm. done.
Qed.

Lemma update_same {A} (P : A -> bool) f l :
  Forall (fun r => P r = true -> f r = r) l -> update_where P f l = l.
Proof.
  induction 1 as [|r l Hr Hl IH]; [done|]. unfold update_where in *. simpl. rewrite IH.
  destruct (P r) eqn:HP; [by rewrite Hr|done].
Qed.

(** ** The last batch of a tenant *)

Lemma highest_from l m : StronglySorted (lt_on ilt_batch_sequence) l ->
  Forall (fun r => lt_on ilt_batch_sequence m r) l ->
  foldl (fun acc r => match acc with
                      | None => Some r
                      | Some m => if ilt_batch_sequence m <? ilt_batch_sequence r
                                  then Some r else Some m
                      end) (Some m) l = Some (default m (last l)).
Proof.
  revert m. induction l as [|x l IH]; intros m Hs Hm; simpl; [done|].
  apply StronglySorted_inv in Hs as [Hs Hx]. apply Forall_cons in Hm as [Hmx Hm].
  rewrite (proj2 (Z.ltb_lt _ _) Hmx), IH, last_cons by done. by destruct (last l).
Qed.

Lemma highest_last l : numbered ilt_batch_sequence l -> highest_batch l = last l.
Proof.
  intros Hl%numbered_sorted. destruct l as [|x l]; [done|].
  apply StronglySorted_inv in Hl as [Hs Hx]. unfold highest_batch. simpl.
  rewrite highest_from, last_cons by done. by destruct (last l).
Qed.

Lemma numbered_last {A} (f : A -> Z) l : numbered f l ->
  default 0 (option_map f (last l)) = Z.of_nat (length l).
Proof.
  destruct l as [|a l _] using rev_ind; [done|]. rewrite last_snoc. unfold numbered.
  rewrite map_app, length_app. simpl. rewrite Nat2Z.inj_add, seqZ_app by lia. simpl.
  intros [_ H]%app_inj_tail. rewrite H. lia.
Qed.

Lemma numbered_bound {A} (f : A -> Z) l a : numbered f l -> In a l -> f a <= Z.of_nat (length l).
Proof.
  intros Hl Ha. apply (in_map f) in Ha. rewrite Hl in Ha.
  apply list_elem_of_In, elem_of_seqZ in Ha. lia.
Qed.

(** ** The invariant of the tables *)

(** The batches of a tenant with their entries, in the order of insertion. *)
Definition posted_batches (d : Db) (ten : Z) : list batch :=
  map (fun r => (r, joined_entries (ilt_id r) d)) (tenant_batches ten d).

Definition balanced (d : Db) (r : InternalLedgerTransaction) : Prop :=
  let l := joined_entries (ilt_id r) d in
  ilt_total_debit r = joined_sum InternalLedgerEntryDirection.DEBIT l /\
  ilt_total_credit r = joined_sum InternalLedgerEntryDirection.CREDIT l /\
  ilt_total_debit r = ilt_total_credit r.

Definition refers (d : Db) (e : InternalLedgerEntry) : Prop :=
  In (ile_ledger_transaction_id e) (map ilt_id (il_transactions (internal d))) /\
  In (ile_account_id e) (map ila_id (il_accounts (internal d))).

Record il_inv (d : Db) : Prop := {
  inv_accounts : accounts_inv (il_accounts (internal d));
  inv_ids : List.NoDup (map ilt_id (il_transactions (internal d)));
  inv_keys : List.NoDup (map ilt_idempotency_key (il_transactions (internal d)));
  inv_refers : Forall (refers d) (il_entries (internal d));
  inv_numbered : forall ten, numbered ilt_batch_sequence (tenant_batches ten d);
  inv_chained : forall ten, chained (sha256_hex W) GENESIS_BATCH_HASH (posted_batches d ten);
  inv_balanced : Forall (balanced d) (il_transactions (internal d));
}.

(** The audit log is not part of it. *)
Lemma il_inv_audit f d : il_inv d -> il_inv (on_audit_log f d).
Proof. intros [? ? ? ? ? ? ?]. by constructor. Qed.

(** ** The call *)

Record post_args := MkPostArgs {
  pa_tenant : Z;
  pa_type : InternalLedgerTransactionType.InternalLedgerTransactionType;
  pa_ref_type : string;
  pa_ref_id : string;
  pa_key : string;
  pa_posted_at : option Z;
  pa_meta : option json;
  pa_lines : list InternalLedgerLine;
}.

Definition post (a : post_args) : PM InternalLedgerTransactionResult :=
  post_transaction W (pa_tenant a) (pa_type a) (pa_ref_type a) (pa_ref_id a) (pa_key a)
    (pa_posted_at a) (pa_meta a) (pa_lines a).

Definition stored_key (a : post_args) : string :=
  normalize_key W (pa_key a) 128 "ledger:".

Definition key_unused (a : post_args) (d : Db) : Prop :=
  ~ In (stored_key a) (map ilt_idempotency_key (il_transactions (internal d))).

(** The lines a posting accepts: some, of one currency, balanced. *)
Definition lines_accepted (lines : list InternalLedgerLine) (currency : string) : Prop :=
  single_currency (map line_currency lines) = Some currency /\
  lines_sum InternalLedgerEntryDirection.DEBIT lines =
  lines_sum InternalLedgerEntryDirection.CREDIT lines.

(** The batch a call appends. *)
Definition new_batch (a : post_args) (currency : string) (s : session Db) : InternalLedgerTransaction :=
  let total := lines_sum InternalLedgerEntryDirection.DEBIT (pa_lines a) in
  let previous_hash := last_hash GENESIS_BATCH_HASH (posted_batches (live s) (pa_tenant a)) in
  let '(time, tick) := match pa_posted_at a with
                       | Some t => (t, ticks s)
                       | None => (clock W (ticks s), S (ticks s))
                       end in
  {| ilt_id := new_uuid W (uuids s); ilt_tenant_id := pa_tenant a;
     ilt_transaction_type := pa_type a; ilt_external_ref_type := pa_ref_type a;
     ilt_external_ref_id := pa_ref_id a; ilt_idempotency_key := stored_key a;
     ilt_total_amount := Some total; ilt_total_debit := total; ilt_total_credit := total;
     ilt_currency := Some currency;
     ilt_batch_sequence := next_id (tenant_batches (pa_tenant a) (live s));
     ilt_previous_batch_hash := previous_hash;
     ilt_batch_hash := sha256_hex W (batch_text previous_hash
       (_canonical_postings_payload (pa_lines a)) total total time);
     ilt_posted_at := Some time; ilt_created_at := clock W tick; ilt_meta := pa_meta a |}.

Definition time_ticks (a : post_args) (s : session Db) : nat :=
  match pa_posted_at a with Some _ => S (ticks s) | None => S (S (ticks s)) end.

Context (digest_nonempty : forall x, sha256_hex W x <> "").

Lemma last_hash_value d ten : il_inv d ->
  str_or (option_map ilt_batch_hash (highest_batch (tenant_batches ten d))) GENESIS_BATCH_HASH =
  last_hash GENESIS_BATCH_HASH (posted_batches d ten).
Proof.
  intros Hd. rewrite highest_last by apply Hd. pose proof (inv_chained d Hd ten) as Hc.
  unfold posted_batches, last_hash in *. destruct (tenant_batches ten d) as [|r l _] using rev_ind; [done|].
  rewrite map_app in *. simpl in *. rewrite !last_snoc. simpl.
  apply chained_snoc in Hc as (_ & _ & Hh). simpl in Hh.
  destruct (ilt_batch_hash r) eqn:Hr; [|done]. by destruct (digest_nonempty (batch_row_text r (joined_entries (ilt_id r) d))).
Qed.

Lemma no_transaction key d : ~ In key (map ilt_idempotency_key (il_transactions (internal d))) ->
  List.filter (fun r => (ilt_idempotency_key r =? key)%py) (il_transactions (internal d)) = [].
Proof. apply filter_no_key. Qed.

Lemma new_batch_fields a currency s :
  let b := new_batch a currency s in
  ilt_id b = new_uuid W (uuids s) /\ ilt_tenant_id b = pa_tenant a /\
  ilt_idempotency_key b = stored_key a /\ ilt_total_debit b = ilt_total_credit b /\
  ilt_batch_sequence b = next_id (tenant_batches (pa_tenant a) (live s)).
Proof. unfold new_batch. by destruct (pa_posted_at a). Qed.

Lemma insert_batch_run a currency (s u : session Db) :
  il_inv (live s) -> key_unused a (live s) -> live u = live s ->
  insert_transaction (new_batch a currency s) u =
    (Ok tt, Session (on_il_transactions (fun l => l ++ [new_batch a currency s]) (live u)) (saved u)
              (ticks u) (uuids u) (races u)).
Proof.
  intros Hd Hk Hu. destruct (new_batch_fields a currency s) as (_ & Ht & Hkey & Hdc & Hseq).
  unfold insert_transaction. rewrite Hkey, Ht, Hdc, Hseq, Z.eqb_refl. unfold q_first. cbn [negb].
  cbv beta iota. run_steps. rewrite Hu, no_transaction by exact Hk. simpl.
  rewrite filter_none; [cbn [head]; by rewrite Hu|]. apply List.Forall_forall. intros r Hr.
  apply andb_false_iff. destruct (eqb (ilt_tenant_id r) (pa_tenant a)) eqn:Hten; [right|by left].
  apply bool_decide_eq_false.
  assert (In r (tenant_batches (pa_tenant a) (live s))) as Hin by by apply filter_In.
  pose proof (numbered_bound _ _ _ (inv_numbered _ Hd _) Hin). unfold next_id. lia.
Qed.

(** Up to the flush: what another session committed since the lookup is there. *)
Lemma get_or_create_race_run a currency s :
  il_inv (live s) -> key_unused a (live s) -> lines_accepted (pa_lines a) currency ->
  let total := lines_sum InternalLedgerEntryDirection.DEBIT (pa_lines a) in
  let b := new_batch a currency s in
  _get_or_create_transaction W (pa_tenant a) (pa_type a) (pa_ref_type a) (pa_ref_id a) (pa_key a)
    (Some total) (Some currency) (pa_posted_at a) (pa_meta a) (Some total)
    (Some (lines_sum InternalLedgerEntryDirection.CREDIT (pa_lines a)))
    (Some (_canonical_postings_payload (pa_lines a))) s =
  try_except (insert_transaction b;; mret (b, false))
    (fun e => match e with
              | IntegrityError _ => Some (
                  existing ← find_transaction (stored_key a);
                  match existing with
                  | Some existing => mret (existing, true)
                  | None => raise e
                  end)
              | _ => None
              end)
    (Session (rivals W (races s) (live s)) (rivals W (races s) (saved s))
       (time_ticks a s) (S (uuids s)) (S (races s))).
Proof.
  intros Hd Hk [Hc Hbal] total b. unfold _get_or_create_transaction.
  erewrite bind_ok by (apply one_or_none_nil; by apply no_transaction). cbv beta iota zeta.
  erewrite bind_ok by reflexivity. erewrite bind_ok by reflexivity.
  set (time := match pa_posted_at a with Some t => t | None => clock W (ticks s) end).
  set (tick := match pa_posted_at a with Some _ => ticks s | None => S (ticks s) end).
  rewrite (bind_ok _ _ s time (Session (live s) (saved s) tick (uuids s) (races s)))
    by (unfold time, tick; destruct s; by destruct (pa_posted_at a)).
  erewrite bind_ok by reflexivity. erewrite bind_ok by reflexivity.
  erewrite bind_ok by reflexivity. cbn [live saved ticks uuids races default from_option id].
  rewrite last_hash_value, highest_last, numbered_last, <- Hbal by (done || apply Hd).
  match goal with |- try_except (insert_transaction ?t ≫= _) _ _ = _ =>
    assert (t = b) as ->;
      [unfold b, new_batch, compute_batch_hash, time, tick; by destruct (pa_posted_at a)|] end.
  unfold time_ticks, tick. by destruct (pa_posted_at a).
Qed.

Lemma get_or_create_fresh_run a currency s :
  il_inv (live s) -> key_unused a (live s) -> lines_accepted (pa_lines a) currency ->
  let total := lines_sum InternalLedgerEntryDirection.DEBIT (pa_lines a) in
  _get_or_create_transaction W (pa_tenant a) (pa_type a) (pa_ref_type a) (pa_ref_id a) (pa_key a)
    (Some total) (Some currency) (pa_posted_at a) (pa_meta a) (Some total)
    (Some (lines_sum InternalLedgerEntryDirection.CREDIT (pa_lines a)))
    (Some (_canonical_postings_payload (pa_lines a))) s =
  (Ok (new_batch a currency s, false),
   Session (on_il_transactions (fun l => l ++ [new_batch a currency s]) (live s)) (saved s)
     (time_ticks a s) (S (uuids s)) (S (races s))).
Proof.
  intros Hd Hk Hl total. unfold total. rewrite get_or_create_race_run, !HW by done.
  set (u := Session _ _ _ _ _).
  pose proof (insert_batch_run a currency s u Hd Hk eq_refl) as Hi.
  by erewrite try_ok by (erewrite bind_ok by exact Hi; reflexivity).
Qed.

(** ** The entries of the batch *)

Definition post_db (a : post_args) (currency : string) (s : session Db) (u : nat)
    (news : list InternalLedgerAccount) (es : list InternalLedgerEntry) : Db :=
  on_il_entries (fun l => l ++ identified u es)
    (on_il_transactions (fun l => l ++ [new_batch a currency s])
       (on_il_accounts (fun l => l ++ news) (live s))).

Lemma totals_kept a currency s :
  let total := lines_sum InternalLedgerEntryDirection.DEBIT (pa_lines a) in
  let b := new_batch a currency s in
  with_totals total total
    (compute_batch_hash W (ilt_previous_batch_hash b) (_canonical_postings_payload (pa_lines a))
       total total (batch_time b)) (batch_time b) b = b.
Proof. unfold new_batch, compute_batch_hash. by destruct (pa_posted_at a). Qed.

Lemma on_il_transactions_id f d :
  f (il_transactions (internal d)) = il_transactions (internal d) -> on_il_transactions f d = d.
Proof. intros H. unfold on_il_transactions, on_internal. rewrite H. by destruct d as [? ? [] ? ? ?]. Qed.

Lemma post_entries_wp a currency s es v (Q : InternalLedgerTransaction -> session Db -> Prop) R :
  let b := new_batch a currency s in
  let news := il_accounts (internal (live v)) in
  lines_accepted (pa_lines a) currency -> accounts_inv news ->
  Forall2 (built (pa_tenant a) b news) (pa_lines a) es ->
  List.NoDup (map ilt_id (il_transactions (internal (live v)))) ->
  In b (il_transactions (internal (live v))) ->
  (forall rec, Q b (Session (on_audit_log (fun l => l ++ [rec])
       (on_il_entries (fun l => l ++ identified (uuids v) es) (live v)))
       (saved v) (S (ticks v)) (S (uuids v + length es)) (races v))) ->
  (forall t, saved t = saved v -> (uuids v <= uuids t)%nat -> audit_clashes W v ->
     R (IntegrityError "audit_log.hash") t) ->
  wp (_post_entries W b es (Some currency)) Q R v.
Proof.
  intros b news [Hc Hbal] Hacc HF Hnd Hin HQ HR. unfold _post_entries.
  destruct (built_fields _ _ _ _ _ HF) as (Hcur & Hsum & Hent).
  assert (ilt_currency b = Some currency) as Hb by (unfold b, new_batch; by destruct (pa_posted_at a)).
  assert (ilt_posted_at b = Some (batch_time b)) as Htime
    by (unfold b, new_batch; by destruct (pa_posted_at a)).
  assert (forall X (m n : X), match es with [] => m | _ => n end = n) as Hne.
  { intros X m n. destruct es; [|done]. inversion HF as [Hl|]. rewrite <- Hl in Hc. discriminate Hc. }
  assert (match str_or_none (Some currency) with Some c => negb (eqb currency c) | None => false end
          = false) as Hdiff.
  { destruct currency as [|x r]; [done|]. simpl. by apply negb_false_iff, bool_decide_eq_true. }
  rewrite Hne, Hcur, Hc, Hb, Hdiff, !Hsum, <- Hbal, Z.eqb_refl, Htime. cbv beta iota zeta. cbn [negb].
  eapply wp_step; [reflexivity|]. fold news.
  eapply wp_step; [eapply serialize_loop_run; [done|exact HF|]; intros e; apply in_map|].
  eapply wp_step; [reflexivity|]. pose proof (totals_kept a currency s) as Hkept.
  cbv zeta in Hkept. fold b in Hkept.
  match type of Hkept with ?f b = b => set (assign := f) in * end.
  eapply (wp_step _ _ _ _ _ tt v).
  { unfold modify. rewrite on_il_transactions_id; [by destruct v|].
    apply update_same, List.Forall_forall. intros r Hr Heq%bool_decide_eq_true.
    rewrite (nodup_key ilt_id _ r b Hnd Hr Hin Heq). exact Hkept. }
  eapply wp_step; [apply add_loop_run|]. rewrite Hkept.
  apply wp_bind. unfold _emit_audit_event. cbv zeta. apply wp_bind, audit_call_cases.
  - apply wp_ret, wp_ret. cbn [live saved ticks uuids races]. apply HQ.
  - intros (r0 & Hr0 & Heq). cbn [live saved ticks uuids races] in *. apply HR; [done|simpl; lia|].
    eexists r0, _, _, _, _, _. split; [exact Hr0|]. split; [|exact Heq]. lia.
Qed.

(** ** A posting under an unused key *)

(** The session can post: the tables are well formed and the identifiers to come are
    unused. *)
Record ready (s : session Db) : Prop := {
  ready_inv : il_inv (live s);
  ready_accounts : unused W (uuids s) ila_id (il_accounts (internal (live s)));
  ready_transactions : unused W (uuids s) ilt_id (il_transactions (internal (live s)));
}.

(** What a successful posting leaves in the session. *)
Record posted (a : post_args) (currency : string) (s t : session Db) : Prop := {
  po_entries : exists u news es rec,
    let b := new_batch a currency s in
    let accs := il_accounts (internal (live s)) ++ news in
    live t = on_audit_log (fun l => l ++ [rec]) (post_db a currency s u news es) /\
    Forall2 (built (pa_tenant a) b accs) (pa_lines a) es /\ accounts_inv accs /\
    unused W (uuids t) ila_id accs;
  po_saved : saved t = saved s;
  po_uuids : (uuids s < uuids t)%nat;
}.

Lemma nonempty_lines {X} lines currency (m n : X) :
  lines_accepted lines currency -> match lines with [] => m | _ => n end = n.
Proof. intros [Hc _]. by destruct lines. Qed.

Lemma post_fresh_wp a currency s :
  ready s -> key_unused a (live s) -> lines_accepted (pa_lines a) currency ->
  wp (post a)
    (fun r t => r = MkInternalLedgerTransactionResult (new_batch a currency s) false /\
                posted a currency s t)
    (fun e t => e = IntegrityError "audit_log.hash" /\ saved t = saved s /\
                (uuids s <= uuids t)%nat /\ audit_clashes W s) s.
Proof.
  intros [Hd Hacc Htx] Hk Hl. pose proof (new_batch_fields a currency s) as (Hid & _).
  unfold post, post_transaction. rewrite (nonempty_lines _ _ _ _ Hl). pose proof Hl as [Hc Hbal].
  rewrite Hc, (proj2 (Z.eqb_eq _ _) Hbal). cbv beta iota zeta. cbn [negb].
  eapply wp_step; [by apply get_or_create_fresh_run|]. cbv beta iota.
  set (u := Session _ _ _ _ _).
  destruct (build_loop_run (pa_tenant a) (new_batch a currency s) (pa_lines a) u)
    as (es & v & news & Hrun & Hg & HF).
  { exact (inv_accounts _ Hd). }
  { eapply unused_mono; [|exact Hacc]. simpl. lia. }
  eapply wp_step; [exact Hrun|]. apply wp_bind.
  pose proof (grown_rows _ _ _ Hg) as Hrows. destruct Hg as [Gl Gs Gt Gu Gi Gf].
  assert (il_transactions (internal (live v)) =
          il_transactions (internal (live s)) ++ [new_batch a currency s]) as Htxs by by rewrite Gl.
  apply (post_entries_wp a currency s); [done|exact Gi|exact HF| | | |].
  - rewrite Htxs, map_app. apply nodup_snoc; [by apply inv_ids|]. simpl. rewrite Hid.
    by apply Htx.
  - rewrite Htxs. apply in_app_iff. right. by left.
  - intros rec. apply wp_ret. split; [done|]. split; cbn [live saved uuids]; [|by rewrite Gs|simpl in Gu; lia].
    eexists (uuids v), news, es, rec. cbv zeta. unfold acc_rows in Hrows, HF.
    rewrite Hrows in HF, Gi, Gf. split; [by rewrite Gl|]. split; [exact HF|]. split; [exact Gi|].
    eapply unused_mono; [|exact Gf]. lia.
  - intros t Ht Hu (r0 & args & ctx & l & tm & k & Hr0 & Hle & Heq). simpl in Gu.
    split; [done|]. split; [by rewrite Ht, Gs|]. split; [lia|].
    exists r0, args, ctx, l, tm, k. rewrite Gl in Hr0. split; [exact Hr0|]. split; [lia|exact Heq].
Qed.

(** ** The invariant after a posting *)

Lemma identified_forall (P : InternalLedgerEntry -> Prop) es :
  (forall id e, P e -> P (with_id id e)) -> Forall P es -> forall u, Forall P (identified u es).
Proof. intros Hp. induction 1 as [|e es He HF IH]; intros u; simpl; constructor; auto. Qed.

Lemma entries_sum_identified dir es u : entries_sum dir (identified u es) = entries_sum dir es.
Proof.
  unfold entries_sum, direction_sum. revert u. induction es as [|e es IH]; intros u; simpl; [done|].
  destruct (eqb _ _); simpl; by rewrite IH.
Qed.

Definition joins (accs : list InternalLedgerAccount) (es : list InternalLedgerEntry)
    : list (InternalLedgerEntry * InternalLedgerAccount) :=
  List.flat_map (fun e => map (pair e)
    (List.filter (fun a => (ila_id a =? ile_account_id e)%py) accs)) es.

(** The new entries join their accounts and serialise to the postings of the lines. *)
Lemma joins_new ten b accs lines es : accounts_inv accs -> Forall2 (built ten b accs) lines es ->
  forall u, map serialize_joined (joins accs (identified u es)) = _canonical_postings_payload lines /\
            map fst (joins accs (identified u es)) = identified u es.
Proof.
  intros Hi HF. induction HF as [|line e lines es Hb HF IH]; intros u; [done|].
  destruct (built_serialized ten b accs line e Hi Hb) as (x & Hx & Hs).
  destruct (IH (S u)) as [H1 H2]. unfold joins in *. cbn [identified List.flat_map].
  change (ile_account_id (with_id (new_uuid W u) e)) with (ile_account_id e). rewrite Hx.
  cbn [map app fst]. rewrite H1, H2. split; [|done]. unfold _canonical_postings_payload.
  cbn [map]. f_equal. exact Hs.
Qed.

(** New accounts and entries of another transaction do not change a join. *)
Lemma joins_old accs news es :
  List.NoDup (map ila_id (accs ++ news)) ->
  Forall (fun e => In (ile_account_id e) (map ila_id accs)) es -> joins (accs ++ news) es = joins accs es.
Proof.
  intros Hn HF. induction HF as [|e es He HF IH]; [done|]. unfold joins in *. simpl. rewrite IH.
  f_equal. f_equal. rewrite List.filter_app, (filter_no_key ila_id news), app_nil_r; [done|].
  intros Hin. rewrite map_app in Hn. apply NoDup_ListNoDup, NoDup_app in Hn as (_ & Hd & _).
  apply (Hd (ile_account_id e)); by apply list_elem_of_In.
Qed.

Lemma joined_is tid d : joined_entries tid d =
  joins (il_accounts (internal d))
    (List.filter (fun e => (ile_ledger_transaction_id e =? tid)%py) (il_entries (internal d))).
Proof. done. Qed.

Section AfterPost.
Context (a : post_args) (currency : string) (s : session Db) (u : nat)
  (news : list InternalLedgerAccount) (es : list InternalLedgerEntry).
Let d := live s.
Let b := new_batch a currency s.
Let d' := post_db a currency s u news es.
Let accs := il_accounts (internal d) ++ news.
Context (Hready : ready s) (Hkey : key_unused a d) (Hlines : lines_accepted (pa_lines a) currency)
  (Hacc : accounts_inv accs) (HF : Forall2 (built (pa_tenant a) b accs) (pa_lines a) es).

Lemma new_id_unused : ~ In (ilt_id b) (map ilt_id (il_transactions (internal d))).
Proof.
  unfold b. rewrite (proj1 (new_batch_fields a currency s)). by apply (ready_transactions _ Hready).
Qed.

Lemma new_entries_refer :
  Forall (fun e => ile_ledger_transaction_id e = ilt_id b /\ In (ile_account_id e) (map ila_id accs))
    (identified u es).
Proof.
  apply identified_forall; [done|]. by destruct (built_fields _ _ _ _ _ HF) as (_ & _ & H).
Qed.

Lemma joined_old r : In r (il_transactions (internal d)) ->
  joined_entries (ilt_id r) d' = joined_entries (ilt_id r) d.
Proof.
  intros Hr. rewrite !joined_is. change (il_accounts (internal d')) with accs.
  change (il_entries (internal d')) with (il_entries (internal d) ++ identified u es).
  rewrite List.filter_app, (filter_none _ (identified u es)), app_nil_r.
  - apply joins_old; [apply Hacc|]. apply List.Forall_forall. intros e He%filter_In.
    pose proof (inv_refers _ (ready_inv _ Hready)) as H. rewrite List.Forall_forall in H.
    apply (H e), He.
  - eapply Forall_impl; [apply new_entries_refer|]. intros e [He _]. apply bool_decide_eq_false.
    rewrite He. intros Heq. apply new_id_unused. rewrite Heq. by apply in_map.
Qed.

Lemma joined_new : joined_entries (ilt_id b) d' = joins accs (identified u es).
Proof.
  rewrite joined_is. change (il_accounts (internal d')) with accs.
  change (il_entries (internal d')) with (il_entries (internal d) ++ identified u es).
  rewrite List.filter_app, filter_none, (filter_all _ (identified u es)); [done| |].
  - eapply Forall_impl; [apply new_entries_refer|]. intros e [He _]. by apply bool_decide_eq_true.
  - eapply Forall_impl; [apply (inv_refers _ (ready_inv _ Hready))|]. intros e [He _].
    apply bool_decide_eq_false. intros Heq. apply new_id_unused. by rewrite <- Heq.
Qed.

Lemma new_joined_sum dir : joined_sum dir (joined_entries (ilt_id b) d') = lines_sum dir (pa_lines a).
Proof.
  unfold joined_sum. rewrite joined_new, (proj2 (joins_new _ _ _ _ _ Hacc HF u)).
  rewrite entries_sum_identified. by apply (built_fields _ _ _ _ _ HF).
Qed.

Lemma tenant_batches_after ten :
  tenant_batches ten d' = tenant_batches ten d ++ (if of_tenant ten b then [b] else []).
Proof.
  unfold tenant_batches. change (il_transactions (internal d')) with
    (il_transactions (internal d) ++ [b]). apply filter_snoc.
Qed.

Lemma posted_batches_after ten :
  posted_batches d' ten = posted_batches d ten ++
    (if of_tenant ten b then [(b, joined_entries (ilt_id b) d')] else []).
Proof.
  unfold posted_batches. rewrite tenant_batches_after, map_app. f_equal.
  - apply map_ext_in. intros r [Hr _]%filter_In. by rewrite (joined_old r Hr).
  - by destruct (of_tenant ten b).
Qed.

Lemma new_batch_text : ilt_batch_hash b = sha256_hex W (batch_row_text b (joined_entries (ilt_id b) d')).
Proof.
  unfold batch_row_text. rewrite !new_joined_sum, joined_new.
  rewrite (proj1 (joins_new _ _ _ _ _ Hacc HF u)), <- (proj2 Hlines).
  unfold b, new_batch. by destruct (pa_posted_at a).
Qed.

Lemma new_batch_previous :
  ilt_previous_batch_hash b = last_hash GENESIS_BATCH_HASH (posted_batches d (pa_tenant a)).
Proof. unfold b, new_batch. by destruct (pa_posted_at a). Qed.

Lemma new_balanced : balanced d' b.
Proof.
  unfold balanced. rewrite !new_joined_sum, <- (proj2 Hlines). unfold b, new_batch.
  by destruct (pa_posted_at a).
Qed.

Lemma il_inv_after : il_inv d'.
Proof.
  destruct (ready_inv _ Hready) as [Ha Hi Hk Hr Hn Hc Hb].
  destruct (new_batch_fields a currency s) as (Hid & Hten & Hkey' & Hdc & Hseq).
  assert (il_transactions (internal d') = il_transactions (internal d) ++ [b]) as Htx by done.
  constructor.
  - exact Hacc.
  - rewrite Htx, map_app. apply nodup_snoc; [done|]. apply new_id_unused.
  - rewrite Htx, map_app. apply nodup_snoc; [done|]. cbn [map]. unfold b. by rewrite Hkey'.
  - change (il_entries (internal d')) with (il_entries (internal d) ++ identified u es).
    apply Forall_app. split.
    + eapply Forall_impl; [exact Hr|]. intros e [He Hea]. unfold refers.
      rewrite Htx, map_app, in_app_iff. change (il_accounts (internal d')) with accs.
      unfold accs. rewrite map_app, in_app_iff. split; by left.
    + eapply Forall_impl; [exact new_entries_refer|]. intros e [He Hea]. unfold refers.
      rewrite Htx, map_app, in_app_iff. split; [right; left; by rewrite He|exact Hea].
  - intros ten. rewrite tenant_batches_after. destruct (of_tenant ten b) eqn:Ht; [|by rewrite app_nil_r].
    apply bool_decide_eq_true in Ht. apply numbered_snoc; [done|]. unfold b. rewrite Hseq, <- Ht.
    unfold b. by rewrite Hten.
  - intros ten. rewrite posted_batches_after. destruct (of_tenant ten b) eqn:Ht; [|by rewrite app_nil_r].
    apply chained_snoc. split; [done|]. cbn [row_prev row_hash row_text batch_chain fst snd].
    split; [|exact new_batch_text]. apply bool_decide_eq_true in Ht.
    rewrite new_batch_previous, <- Ht. unfold b. by rewrite Hten.
  - rewrite Htx. apply Forall_app. split; [|constructor; [exact new_balanced|constructor]].
    rewrite List.Forall_forall in *. intros r Hrin. unfold balanced. rewrite joined_old by done.
    by apply Hb.
Qed.
End AfterPost.
End Posting.

(** ** Sequences of calls *)

Section Requests.
Context (W : world Db).

(** A request: the posting is committed, or rolled back when it raises. *)
Definition serve_post (a : post_args) : PM unit :=
  try_except (post W a;; commit) (fun _ => Some rollback).

Definition serve_posts (calls : list post_args) (s : session Db) : session Db :=
  (for_each calls serve_post s).2.

Definition sound (n : nat) (d : Db) : Prop :=
  il_inv W d /\ unused W n ila_id (il_accounts (internal d)) /\
  unused W n ilt_id (il_transactions (internal d)).

Definition session_sound (s : session Db) : Prop :=
  sound (uuids s) (live s) /\ sound (uuids s) (saved s).

Lemma sound_mono n m d : (n <= m)%nat -> sound n d -> sound m d.
Proof. intros Hnm (Hi & Ha & Ht). repeat split; [apply Hi..| |]; by eapply unused_mono. Qed.

Lemma ready_sound s : sound (uuids s) (live s) -> ready W s.
Proof. intros (Hi & Ha & Ht). by constructor. Qed.

(** Lines the posting does not accept are refused before anything is read. *)
Lemma lines_decided lines :
  (exists c, lines_accepted lines c) \/
  (forall W ten ty rt rid key at_ meta s, exists m,
     post_transaction W ten ty rt rid key at_ meta lines s = (Raise (ValueError m), s)).
Proof.
  destruct (single_currency (map line_currency lines)) as [c|] eqn:Hc.
  - destruct (Z.eqb_spec (lines_sum InternalLedgerEntryDirection.DEBIT lines)
                (lines_sum InternalLedgerEntryDirection.CREDIT lines)) as [Hs|Hs].
    + left. by exists c.
    + right. intros. eexists. unfold post_transaction.
      destruct lines as [|l0 ls] eqn:Hl; [discriminate Hc|]. rewrite <- Hl in *.
      rewrite Hc. cbv zeta. rewrite (proj2 (Z.eqb_neq _ _) Hs). reflexivity.
  - right. intros. destruct lines as [|l0 ls] eqn:Hl; [by eexists|].
    eexists. unfold post_transaction. rewrite <- Hl in *. rewrite Hc. by subst lines.
Qed.

(** The decision of [_get_or_create_transaction] on a recorded key. *)
Definition replay_outcome (currency : string) (total : Z) (r : InternalLedgerTransaction)
    : outcome exn InternalLedgerTransactionResult :=
  if both_and_differ (Some currency) (ilt_currency r)
  then Raise (ValueError "ledger transaction currency mismatch")
  else if match ilt_total_amount r with Some old => negb (eqb old total) | None => false end
  then Raise (ValueError "ledger transaction amount mismatch")
  else Ok (MkInternalLedgerTransactionResult r true).

Lemma replay_run a currency r s :
  lines_accepted (pa_lines a) currency -> In r (il_transactions (internal (live s))) ->
  List.NoDup (map ilt_idempotency_key (il_transactions (internal (live s)))) ->
  ilt_idempotency_key r = stored_key W a ->
  post W a s = (replay_outcome currency (lines_sum InternalLedgerEntryDirection.DEBIT (pa_lines a)) r, s).
Proof.
  intros Hl Hr Hn Hk. pose proof Hl as [Hc Hbal]. unfold post, post_transaction.
  rewrite (nonempty_lines _ _ _ _ Hl), Hc, (proj2 (Z.eqb_eq _ _) Hbal). cbv beta iota zeta. cbn [negb].
  unfold _get_or_create_transaction, find_transaction. cbv zeta. fold (stored_key W a).
  rewrite <- Hk.
  assert (q_one_or_none (fun d => il_transactions (internal d))
    (fun q => (ilt_idempotency_key q =? ilt_idempotency_key r)%py) s = (Ok (Some r), s)) as Hq
    by (apply one_or_none_some; by apply filter_key).
  unfold replay_outcome. destruct (both_and_differ _ _) eqn:Hd.
  { erewrite bind_raised; [reflexivity|]. erewrite bind_ok by exact Hq. cbv beta iota. by rewrite Hd. }
  destruct (ilt_total_amount r) as [old|] eqn:Ho; [destruct (negb (eqb old _)) eqn:Ha|].
  - erewrite bind_raised; [reflexivity|]. erewrite bind_ok by exact Hq. cbv beta iota. by rewrite Hd, Ho, Ha.
  - rewrite (bind_ok _ _ s (r, true) s); [reflexivity|]. erewrite bind_ok by exact Hq. cbv beta iota. by rewrite Hd, Ho, Ha.
  - rewrite (bind_ok _ _ s (r, true) s); [reflexivity|]. erewrite bind_ok by exact Hq. cbv beta iota. by rewrite Hd, Ho.
Qed.
End Requests.

(** ** Theorems *)

Section Theorems.
Context (W : world Db) (HW : alone W)
  (uuids_distinct : forall n m, new_uuid W n = new_uuid W m -> n = m)
  (digest_nonempty : forall x, sha256_hex W x <> "").

Lemma posted_sound a currency s t :
  sound W (uuids s) (live s) -> sound W (uuids s) (saved s) -> key_unused W a (live s) ->
  lines_accepted (pa_lines a) currency -> posted W a currency s t -> session_sound W t.
Proof.
  intros Hl Hs Hk Hlines [(u & news & es & rec & Ht & HF & Hacc & Hun) Hsv Hu].
  split; [|rewrite Hsv; eapply sound_mono; [|exact Hs]; lia].
  rewrite Ht. split; [|split].
  - eapply il_inv_audit, il_inv_after; eauto using ready_sound.
  - exact Hun.
  - apply (unused_snoc W uuids_distinct (uuids s)); [done| |apply Hl].
    apply (proj1 (new_batch_fields W a currency s)).
Qed.

(** C5 A posting under an unused key, of accepted lines, succeeds: it appends one batch,
    numbered next in its tenant and chained on the tenant's last digest, one entry per
    line on an account of the line's scope (created when missing), and one audit record,
    and commits nothing; the invariant of the tables holds after it.  The only way to
    fail is a collision of the digest in the audit log. *)
Theorem post_transaction_posts (a : post_args) (currency : string) (s : session Db) :
  sound W (uuids s) (live s) -> audit_inv W (live s) ->
  unused W (uuids s) au_id (audit_log (audit (live s))) ->
  key_unused W a (live s) -> lines_accepted (pa_lines a) currency ->
  let b := new_batch W a currency s in
  (exists t u news es rec,
     post W a s = (Ok (MkInternalLedgerTransactionResult b false), t) /\
     live t = on_audit_log (fun l => l ++ [rec]) (post_db W a currency s u news es) /\
     Forall2 (built W (pa_tenant a) b (il_accounts (internal (live t)))) (pa_lines a) es /\
     saved t = saved s /\ il_inv W (live t)) \/
  (exists x y, x <> y /\ sha256_hex W x = sha256_hex W y).
Proof.
  intros Hd Hai Hau Hk Hl b.
  pose proof (post_fresh_wp W HW uuids_distinct digest_nonempty a currency s (ready_sound W s Hd) Hk Hl)
    as Hwp.
  unfold wp in Hwp. destruct (post W a s) as [[r|e] t].
  - left. destruct Hwp as [-> [(u & news & es & rec & Ht & HF & Hacc & Hun) Hsv Hu]].
    exists t, u, news, es, rec. split; [done|]. split; [exact Ht|]. rewrite Ht.
    split; [exact HF|]. split; [done|].
    eapply il_inv_audit, il_inv_after; eauto using ready_sound.
  - right. destruct Hwp as (_ & _ & _ & Hclash). by apply (audit_clashes_collide W s).
Qed.

Lemma serve_post_sound a s : session_sound W s -> session_sound W (serve_post W a s).2.
Proof.
  intros [Hl Hs].
  assert (forall t, saved t = saved s -> (uuids s <= uuids t)%nat ->
            session_sound W (Session (saved t) (saved t) (ticks t) (uuids t) (races t))) as Hback.
  { intros t Ht Hu. rewrite Ht. split; simpl; by eapply sound_mono. }
  destruct (lines_decided (pa_lines a)) as [[c Hc]|Hbad].
  2:{ destruct (Hbad W (pa_tenant a) (pa_type a) (pa_ref_type a) (pa_ref_id a) (pa_key a)
        (pa_posted_at a) (pa_meta a) s) as [m Hm]. unfold serve_post.
      erewrite try_raised by (erewrite bind_raised; [reflexivity|exact Hm]). by apply Hback. }
  destruct (List.In_dec string_dec (stored_key W a)
    (map ilt_idempotency_key (il_transactions (internal (live s))))) as [Hin|Hk].
  - apply in_map_iff in Hin as (r & Hr & Hin). pose proof (proj1 Hl) as Hi.
    pose proof (replay_run W a c r s Hc Hin (inv_keys _ _ Hi) Hr) as Hrun. unfold serve_post.
    destruct (replay_outcome c _ r) as [res|e].
    + erewrite try_ok by (erewrite bind_ok by exact Hrun; reflexivity). by split.
    + erewrite try_raised by (erewrite bind_raised; [reflexivity|exact Hrun]). by apply Hback.
  - pose proof (post_fresh_wp W HW uuids_distinct digest_nonempty a c s (ready_sound W s Hl) Hk Hc)
      as Hwp.
    unfold wp in Hwp. unfold serve_post. destruct (post W a s) as [[r|e] t] eqn:Hrun.
    + destruct Hwp as [_ Hp]. pose proof (posted_sound a c s t Hl Hs Hk Hc Hp) as [Ht _].
      erewrite try_ok by (erewrite bind_ok by exact Hrun; reflexivity). by split.
    + destruct Hwp as (_ & Hsv & Hu & _).
      erewrite try_raised by (erewrite bind_raised; [reflexivity|exact Hrun]). by apply Hback.
Qed.

Lemma serve_posts_sound calls : forall s, session_sound W s -> session_sound W (serve_posts W calls s).
Proof.
  induction calls as [|a calls IH]; intros s Hs; [done|]. pose proof (serve_post_sound a s Hs) as Ht.
  specialize (IH _ Ht). unfold serve_posts in *. cbn [for_each].
  destruct (serve_post W a s) as [[[]|e] t] eqn:Hrun; cbn [snd] in *.
  - rewrite (bind_ok _ _ s tt t) by exact Hrun.
    destruct (for_each calls (serve_post W) t) as [[l|e] v] eqn:Hl.
    + rewrite (bind_ok _ _ t l v) by exact Hl. exact IH.
    + rewrite (bind_raised _ _ t e v) by exact Hl. exact IH.
  - rewrite (bind_raised _ _ s e t) by exact Hrun. exact Ht.
Qed.

(** The ids of each batch's entries increase in the order the entries were added. *)
Definition ids_in_order (d : Db) (ten : Z) : Prop :=
  Forall (fun r => by_entry_id (joined_entries (ilt_id r) d) = joined_entries (ilt_id r) d)
    (tenant_batches ten d).

Lemma verify_tenant_run d ten : numbered ilt_batch_sequence (tenant_batches ten d) ->
  (verify_ledger_chain W (Some ten) (fresh_session d)).1 =
    Ok (verify_batches W GENESIS_BATCH_HASH 1
          (map (fun r => (r, by_entry_id (joined_entries (ilt_id r) d))) (tenant_batches ten d))).
Proof.
  intros Hn. unfold verify_ledger_chain, gets. cbn [fst live fresh_session].
  change (List.filter _ (il_transactions (internal d))) with (tenant_batches ten d).
  by rewrite sort_on_sorted by by apply numbered_sorted.
Qed.

Lemma inv_verifies d ten : il_inv W d -> ids_in_order d ten ->
  (verify_ledger_chain W (Some ten) (fresh_session d)).1 = Ok (true, None).
Proof.
  intros Hd Hids. rewrite verify_tenant_run by apply Hd. f_equal.
  apply verify_batches_iff.
  assert (map (fun r => (r, by_entry_id (joined_entries (ilt_id r) d))) (tenant_batches ten d) =
          posted_batches d ten) as ->.
  { apply map_ext_in. intros r Hr. unfold ids_in_order in Hids.
    rewrite List.Forall_forall in Hids. by rewrite Hids. }
  split; [|by apply inv_chained]. unfold sequenced, posted_batches. rewrite map_map, length_map.
  by apply (inv_numbered _ _ Hd).
Qed.

(** C7 Over any sequence of postings, each committed or rolled back when it raises, the
    ledger keeps its invariant: every batch balanced and equal to its entries, numbered
    without gaps and chained per tenant; and every tenant's chain verifies when the ids of
    the entries follow the order of the postings. *)
Theorem internal_ledger_verifies (calls : list post_args) (s : session Db) (ten : Z) :
  session_sound W s ->
  let d := saved (serve_posts W calls s) in
  il_inv W d /\
  (ids_in_order d ten ->
   (verify_ledger_chain W (Some ten) (fresh_session d)).1 = Ok (true, None)).
Proof.
  intros Hs d. destruct (serve_posts_sound calls s Hs) as [_ (Hi & _)].
  split; [exact Hi|by apply inv_verifies].
Qed.
End Theorems.

(** C37 A key that is recorded is answered from its row and changes nothing: the row is
    returned as a replay when currency and amount agree, and a difference in either is an
    error. *)
Theorem post_transaction_replay (W : world Db) (a : post_args) (currency : string)
    (r : InternalLedgerTransaction) (s : session Db) :
  il_inv W (live s) -> lines_accepted (pa_lines a) currency -> currency <> "" ->
  In r (il_transactions (internal (live s))) -> ilt_idempotency_key r = stored_key W a ->
  let total := lines_sum InternalLedgerEntryDirection.DEBIT (pa_lines a) in
  forall c old, ilt_currency r = Some c -> c <> "" -> ilt_total_amount r = Some old ->
  post W a s =
    (if decide (currency = c) then
       if decide (total = old) then Ok (MkInternalLedgerTransactionResult r true)
       else Raise (ValueError "ledger transaction amount mismatch")
     else Raise (ValueError "ledger transaction currency mismatch"), s).
Proof.
  intros Hi Hl Hcur Hr Hk total c old Hc Hcne Ho.
  rewrite (replay_run W a currency r s Hl Hr (inv_keys _ _ Hi) Hk).
  unfold replay_outcome, both_and_differ. rewrite Hc, Ho.
  destruct currency as [|x cs]; [done|]. destruct c as [|y c]; [done|].
  cbn [str_or_none]. fold total. unfold eqb.
  destruct (decide (String x cs = String y c)) as [->|Hne].
  - rewrite (bool_decide_true (String y c = String y c)) by done. cbn [negb].
    destruct (decide (total = old)) as [->|Hne].
    + by rewrite bool_decide_true.
    + by rewrite bool_decide_false.
  - by rewrite bool_decide_false.
Qed.


(** Verifying without a tenant fails as soon as two tenants have posted: the numbers
    of the batches start again for each tenant. *)
Theorem verify_all_tenants_fails (W : world Db) (d : Db) (ten ten' : Z) :
  ten <> ten' -> tenant_batches ten d <> [] -> tenant_batches ten' d <> [] -> il_inv W d ->
  exists reason, (verify_ledger_chain W None (fresh_session d)).1 = Ok (false, Some reason).
Proof.
  intros Hne Ht Ht' Hi. unfold verify_ledger_chain, gets. cbn [fst live fresh_session].
  set (l := map _ _). pose proof (verify_batches_reason W l GENESIS_BATCH_HASH 1) as Hreason.
  destruct (verify_batches W GENESIS_BATCH_HASH 1 l) as [[] o] eqn:Hv; simpl in Hreason.
  - exfalso. rewrite (proj1 Hreason eq_refl) in Hv.
    apply verify_batches_iff in Hv as [Hs _].
    assert (List.NoDup (map (fun b : batch => ilt_batch_sequence b.1) l)) as Hnd.
    { rewrite Hs. apply NoDup_ListNoDup, NoDup_seqZ. }
    unfold l in Hnd. rewrite map_map in Hnd. cbn [fst] in Hnd.
    assert (forall t, tenant_batches t d <> [] ->
      exists r, In r (il_transactions (internal d)) /\ ilt_tenant_id r = t /\ ilt_batch_sequence r = 1)
      as Hfirst.
    { intros t Hn. pose proof (inv_numbered _ _ Hi t) as Hnum.
      destruct (tenant_batches t d) as [|r q] eqn:Hq; [done|]. exists r.
      assert (In r (tenant_batches t d)) as Hr by (rewrite Hq; by left).
      apply filter_In in Hr as [Hr Hten]. apply bool_decide_eq_true in Hten.
      split; [done|]. split; [done|]. unfold numbered in Hnum. cbn [map length] in Hnum.
      rewrite seqZ_cons in Hnum by lia. by injection Hnum. }
    destruct (Hfirst ten Ht) as (r & Hr & Hrt & Hr1), (Hfirst ten' Ht') as (r' & Hr' & Hrt' & Hr1').
    assert (r = r') as ->; [|congruence].
    apply (nodup_key _ _ _ _ Hnd); [..|congruence];
      apply list_elem_of_In; rewrite sort_on_perm; apply list_elem_of_In, filter_In; done.
  - destruct o as [reason|]; [by exists reason|]. discriminate (proj2 Hreason eq_refl).
Qed.


(** ** Concurrent postings *)

(** What the other sessions have committed when the batch is flushed. *)
Definition at_flush (W : world Db) (s : session Db) : Db := rivals W (races s) (live s).

Lemma filter_some {A} (P : A -> bool) l r : In r l -> P r = true -> exists x, head (List.filter P l) = Some x.
Proof.
  intros Hr HP. assert (In r (List.filter P l)) as Hin by by apply filter_In.
  destruct (List.filter P l) as [|x q]; [done|by exists x].
Qed.

(** The flush of a batch whose number is taken, or whose key is. *)
Lemma insert_batch_clash W a currency (s u : session Db) r :
  In r (il_transactions (internal (live u))) ->
  ilt_idempotency_key r = stored_key W a \/
  ilt_tenant_id r = pa_tenant a /\
    ilt_batch_sequence r = next_id (tenant_batches (pa_tenant a) (live s)) ->
  exists c, insert_transaction (new_batch W a currency s) u = (Raise (IntegrityError c), u).
Proof.
  intros Hr Hor. destruct (new_batch_fields W a currency s) as (_ & Ht & Hkey & Hdc & Hseq).
  unfold insert_transaction. rewrite Hkey, Ht, Hdc, Hseq, Z.eqb_refl. unfold q_first. cbn [negb].
  cbv beta iota. run_steps.
  destruct (head (List.filter (fun q => (ilt_idempotency_key q =? stored_key W a)%py) _)) eqn:Hk;
    [by eexists|].
  destruct Hor as [Hor|[Hten Hnum]].
  - destruct (filter_some (fun q => (ilt_idempotency_key q =? stored_key W a)%py) _ r Hr) as [x Hx];
      [by apply bool_decide_eq_true|]. by rewrite Hk in Hx.
  - destruct (filter_some (fun q => (ilt_tenant_id q =? pa_tenant a)%py &&
      (ilt_batch_sequence q =? next_id (tenant_batches (pa_tenant a) (live s)))%py) _ r Hr) as [x ->];
      [|by eexists]. apply andb_true_iff. by split; apply bool_decide_eq_true.
Qed.

(** Two postings of a tenant that read the chain before either writes do not fork it: the
    one that flushes second finds its number taken and raises, adding nothing to what the
    other committed. *)
Theorem concurrent_batch_refused (W : world Db) (a : post_args) (currency : string)
    (s : session Db) (r : InternalLedgerTransaction) :
  (forall x, sha256_hex W x <> "") -> il_inv W (live s) -> lines_accepted (pa_lines a) currency ->
  key_unused W a (live s) -> key_unused W a (at_flush W s) ->
  In r (il_transactions (internal (at_flush W s))) -> ilt_tenant_id r = pa_tenant a ->
  ilt_batch_sequence r = next_id (tenant_batches (pa_tenant a) (live s)) ->
  exists constraint t, post W a s = (Raise (IntegrityError constraint), t) /\
    live t = at_flush W s /\ saved t = rivals W (races s) (saved s).
Proof.
  intros Hne Hi Hl Hk Hk' Hr Hten Hnum. pose proof Hl as [Hc Hbal].
  set (u := Session (at_flush W s) (rivals W (races s) (saved s)) (time_ticks a s) (S (uuids s))
              (S (races s))).
  destruct (insert_batch_clash W a currency s u r Hr (or_intror (conj Hten Hnum))) as [c Hclash].
  exists c, u. split; [|done]. unfold post, post_transaction. rewrite (nonempty_lines _ _ _ _ Hl), Hc.
  cbv beta iota zeta. rewrite (proj2 (Z.eqb_eq _ _) Hbal). cbn [negb].
  apply bind_raised. rewrite (get_or_create_race_run W Hne a currency s Hi Hk Hl).
  erewrite try_raised by (apply bind_raised; exact Hclash). cbv beta iota.
  erewrite bind_ok by (apply one_or_none_nil; exact (no_transaction _ _ Hk')). done.
Qed.

(** When another session commits the same key between the lookup and the flush, the
    call returns that session's transaction as a replay whatever its amount and currency:
    the checks of a replay are not made. *)
Theorem concurrent_replay_unchecked (W : world Db) (a : post_args) (currency : string)
    (s : session Db) (r : InternalLedgerTransaction) :
  (forall x, sha256_hex W x <> "") -> il_inv W (live s) -> lines_accepted (pa_lines a) currency ->
  key_unused W a (live s) -> il_inv W (at_flush W s) ->
  In r (il_transactions (internal (at_flush W s))) -> ilt_idempotency_key r = stored_key W a ->
  exists t, post W a s = (Ok (MkInternalLedgerTransactionResult r true), t) /\ live t = at_flush W s.
Proof.
  intros Hne Hi Hl Hk Hi' Hr Hkey. pose proof Hl as [Hc Hbal].
  set (u := Session (at_flush W s) (rivals W (races s) (saved s)) (time_ticks a s) (S (uuids s))
              (S (races s))).
  destruct (insert_batch_clash W a currency s u r Hr (or_introl Hkey)) as [c Hclash].
  exists u. split; [|done]. unfold post, post_transaction. rewrite (nonempty_lines _ _ _ _ Hl), Hc.
  cbv beta iota zeta. rewrite (proj2 (Z.eqb_eq _ _) Hbal). cbn [negb].
  rewrite (bind_ok _ _ s (r, true) u); [done|].
  rewrite (get_or_create_race_run W Hne a currency s Hi Hk Hl).
  erewrite try_raised by (apply bind_raised; exact Hclash). cbv beta iota.
  rewrite (bind_ok _ _ u (Some r) u); [done|]. unfold find_transaction. rewrite <- Hkey.
  apply one_or_none_some. apply (filter_key ilt_idempotency_key); [apply Hi'|exact Hr].
Qed.

(** ** The health check *)

Lemma joins_fst accs es : List.NoDup (map ila_id accs) ->
  Forall (fun e => In (ile_account_id e) (map ila_id accs)) es -> map fst (joins accs es) = es.
Proof.
  intros Hn. induction 1 as [|e es He HF IH]; [done|]. unfold joins in *. cbn [List.flat_map].
  rewrite map_app, IH. apply in_map_iff in He as (x & <- & Hx).
  by rewrite (filter_key ila_id accs x Hn Hx).
Qed.

Lemma inv_group_sum W d r dir : il_inv W d -> In r (il_transactions (internal d)) ->
  InternalLedgerHealthService.group_sum dir d (ilt_id r) = joined_sum dir (joined_entries (ilt_id r) d).
Proof.
  intros Hi Hr. unfold InternalLedgerHealthService.group_sum, joined_sum. rewrite joined_is, joins_fst;
    [done|apply Hi|]. apply List.Forall_forall. intros e [He _]%filter_In.
  pose proof (inv_refers _ _ Hi) as H. rewrite List.Forall_forall in H. by apply H.
Qed.

Lemma count_zero {A} (P : A -> bool) l :
  InternalLedgerHealthService.count P l = 0 <-> forall x, In x l -> P x = false.
Proof.
  unfold InternalLedgerHealthService.count. split.
  - intros H x Hx. destruct (P x) eqn:HP; [|done]. assert (In x (List.filter P l)) as Hin
      by by apply filter_In. destruct (List.filter P l); [done|]. simpl in H. lia.
  - intros H. by rewrite filter_none by by apply List.Forall_forall.
Qed.

Lemma count_nonneg {A} (P : A -> bool) l : 0 <= InternalLedgerHealthService.count P l.
Proof. unfold InternalLedgerHealthService.count. lia. Qed.

(** Some transaction refers to the object. *)
Definition has_posting (d : Db) (ref_type ref_id : string) : Prop :=
  exists t, In t (il_transactions (internal d)) /\ ilt_external_ref_type t = ref_type /\
            ilt_external_ref_id t = ref_id.

Lemma unposted_false d ty i : InternalLedgerHealthService.unposted ty i d = false <-> has_posting d ty i.
Proof.
  unfold InternalLedgerHealthService.unposted, has_posting, eqb.
  rewrite negb_false_iff, existsb_exists. split; intros (t & Ht & H); exists t; (split; [done|]).
  - apply andb_true_iff in H as [H1 H2]. apply bool_decide_eq_true in H1, H2. done.
  - destruct H as [-> ->]. by rewrite !bool_decide_true.
Qed.

(** On a ledger that satisfies the invariant the health check finds no broken
    transaction, and it reports no missing posting exactly when every issued invoice and
    every payment has a transaction. *)
Theorem health_check_sound (W : world Db) (s : session Db) :
  il_inv W (live s) ->
  exists n, InternalLedgerHealthService.check s =
      (Ok (InternalLedgerHealthService.MkInternalLedgerHealth 0 n), s) /\
    (n = 0 <->
     (forall i, In i (invoices (billing (live s))) -> postable_status (inv_status i) = true ->
        has_posting (live s) "INVOICE" (inv_id i)) /\
     (forall p, In p (payments (billing (live s))) -> has_posting (live s) "PAYMENT" (pay_id p))).
Proof.
  intros Hi. unfold InternalLedgerHealthService.check. run_steps.
  set (broken := InternalLedgerHealthService.count _ (InternalLedgerHealthService.entry_groups _)).
  assert (broken = 0) as ->.
  { apply count_zero. intros g Hg. unfold InternalLedgerHealthService.entry_groups in Hg.
    apply list_elem_of_In, elem_of_remove_dups, list_elem_of_In, in_map_iff in Hg as (e & <- & He).
    pose proof (inv_refers _ _ Hi) as H. rewrite List.Forall_forall in H.
    destruct (H e He) as [(r & <- & Hr)%in_map_iff _]. rewrite !(inv_group_sum W) by done.
    pose proof (inv_balanced _ _ Hi) as Hb. rewrite List.Forall_forall in Hb.
    destruct (Hb r Hr) as (<- & <- & Heq). rewrite Heq. by apply negb_false_iff, bool_decide_eq_true. }
  eexists. split; [reflexivity|].
  set (ni := InternalLedgerHealthService.count _ (invoices _)).
  set (np := InternalLedgerHealthService.count _ (payments _)).
  assert (ni + np = 0 <-> ni = 0 /\ np = 0) as ->.
  { assert (0 <= ni) by apply count_nonneg. assert (0 <= np) by apply count_nonneg. lia. }
  unfold ni, np. rewrite !count_zero. setoid_rewrite andb_false_iff. setoid_rewrite unposted_false.
  split; intros [H1 H2]; (split; [|exact H2]).
  - intros i Hin Hs. destruct (H1 i Hin) as [H|H]; [congruence|exact H].
  - intros i Hin. destruct (postable_status (inv_status i)) eqn:Hs; [right; auto|by left].
Qed.

(** ** Invoices *)

Lemma single_currency_repeat c l : l <> [] -> Forall (eq c) l -> single_currency l = Some c.
Proof.
  intros Hl HF. unfold single_currency. assert (remove_dups l = [c]) as ->; [|done].
  induction HF as [|x l <- HF IH]; [done|]. cbn [remove_dups]. destruct (decide_rel _ c l) as [Hin|Hin].
  - apply IH. intros ->. by apply not_elem_of_nil in Hin.
  - destruct l as [|y l]; [done|]. apply Forall_cons in HF as [<- _]. destruct Hin.
    apply list_elem_of_In. by left.
Qed.

(** An invoice posts nothing before it is issued; once issued it posts a balanced
    receivable of net plus tax, unless its stored gross total is another amount: then the
    posting is refused as unbalanced and nothing changes. *)
Theorem post_invoice_issued_decides (W : world Db) (invoice : Invoice) (ten : Z) (s : session Db) :
  let net_tax := inv_total_amount invoice + inv_tax_amount invoice in
  (postable_status (inv_status invoice) = false -> post_invoice_issued W invoice ten s = (Ok tt, s)) /\
  (postable_status (inv_status invoice) = true ->
   inv_total_with_tax invoice <> 0 -> inv_total_with_tax invoice <> net_tax ->
   exists t, post_invoice_issued W invoice ten s =
       (Raise (ValueError "ledger transaction is unbalanced"), t) /\ live t = live s /\ saved t = saved s) /\
  (inv_total_with_tax invoice = 0 \/ inv_total_with_tax invoice = net_tax ->
   lines_accepted (invoice_lines_of invoice) (inv_currency invoice) /\
   lines_sum InternalLedgerEntryDirection.DEBIT (invoice_lines_of invoice) = net_tax).
Proof.
  intros net_tax.
  assert (lines_sum InternalLedgerEntryDirection.DEBIT (invoice_lines_of invoice) =
          int_or (inv_total_with_tax invoice) net_tax) as Hd.
  { unfold invoice_lines_of, lines_sum, direction_sum. destruct (inv_tax_amount invoice =? 0); simpl;
      apply Z.add_0_r. }
  assert (lines_sum InternalLedgerEntryDirection.CREDIT (invoice_lines_of invoice) = net_tax) as Hc.
  { unfold invoice_lines_of, lines_sum, direction_sum, net_tax.
    destruct (Z.eqb_spec (inv_tax_amount invoice) 0); simpl; lia. }
  assert (single_currency (map line_currency (invoice_lines_of invoice)) = Some (inv_currency invoice)) as Hcur.
  { apply single_currency_repeat; [by unfold invoice_lines_of|]. unfold invoice_lines_of.
    destruct (inv_tax_amount invoice =? 0); repeat constructor. }
  split; [|split].
  - intros H. unfold post_invoice_issued. by rewrite H.
  - intros H Hnz Hne. unfold post_invoice_issued. rewrite H. cbn [negb].
    set (tick := match inv_issued_at invoice with Some _ => ticks s | None => S (ticks s) end).
    set (time := match inv_issued_at invoice with Some t => t | None => clock W (ticks s) end).
    set (u := Session (live s) (saved s) tick (uuids s) (races s)).
    exists u. split; [|done].
    rewrite (bind_ok _ _ s time u) by (unfold u, time, tick; destruct s; by destruct (inv_issued_at invoice)).
    apply bind_raised. unfold post_transaction. rewrite Hcur. cbv zeta. rewrite Hd, Hc.
    unfold int_or. rewrite (proj2 (Z.eqb_neq _ _) Hnz), (proj2 (Z.eqb_neq _ _) Hne). done.
  - intros Hor. assert (int_or (inv_total_with_tax invoice) net_tax = net_tax) as He.
    { unfold int_or. destruct (Z.eqb_spec (inv_total_with_tax invoice) 0); [done|]. by destruct Hor. }
    split; [split; [done|]|]; congruence.
Qed.

(** ** Concrete runs *)

Lemma sound_empty n : sound demo_world n empty_db.
Proof.
  split; [|split; intros k _ []].
  constructor; try constructor; try done; [intros; by constructor..].
Qed.

Lemma demo_digest_nonempty x : sha256_hex demo_world x <> "".
Proof. discriminate. Qed.

Lemma demo_alone : alone demo_world.
Proof. done. Qed.

Definition demo_post (key : string) (amount : Z) : post_args :=
  MkPostArgs 1 InternalLedgerTransactionType.FUEL_SETTLEMENT "FUEL_TRANSACTION" "f1" key (Some 0) None
    (two_lines InternalLedgerAccountType.CLIENT_AR (Some "c1")
       InternalLedgerAccountType.PROVIDER_PAYABLE None amount "RUB" (JDict [])).

Lemma demo_lines_accepted key amount : lines_accepted (pa_lines (demo_post key amount)) "RUB".
Proof. split; [|done]. apply single_currency_repeat; [done|repeat constructor]. Qed.

Lemma post_transaction_posts_witness :
  let s := fresh_session empty_db in
  let a := demo_post "k" 100 in
  let b := new_batch demo_world a "RUB" s in
  (exists t u news es rec,
     post demo_world a s = (Ok (MkInternalLedgerTransactionResult b false), t) /\
     live t = on_audit_log (fun l => l ++ [rec]) (post_db demo_world a "RUB" s u news es) /\
     Forall2 (built demo_world 1 b (il_accounts (internal (live t)))) (pa_lines a) es /\
     saved t = saved s /\ il_inv demo_world (live t)) \/
  (exists x y, x <> y /\ sha256_hex demo_world x = sha256_hex demo_world y).
Proof.
  apply (post_transaction_posts demo_world demo_alone demo_uuids_distinct demo_digest_nonempty
           (demo_post "k" 100) "RUB" (fresh_session empty_db)).
  - apply sound_empty.
  - apply audit_inv_empty.
  - intros k _ [].
  - intros [].
  - apply demo_lines_accepted.
Defined.

Definition demo_calls : list post_args := [demo_post "k1" 100; demo_post "k2" 30].

Lemma internal_ledger_verifies_witness :
  let d := saved (serve_posts demo_world demo_calls (fresh_session empty_db)) in
  il_inv demo_world d /\ length (il_entries (internal d)) = 4%nat /\
  (verify_ledger_chain demo_world (Some 1) (fresh_session d)).1 = Ok (true, None).
Proof.
  destruct (internal_ledger_verifies demo_world demo_alone demo_uuids_distinct demo_digest_nonempty
              demo_calls (fresh_session empty_db) 1) as [Hi Hv].
  { split; apply sound_empty. }
  split; [exact Hi|]. split; [vm_compute; reflexivity|]. apply Hv.
  unfold ids_in_order. vm_compute. repeat constructor.
Defined.

Definition demo_posted : Db := saved (serve_posts demo_world demo_calls (fresh_session empty_db)).

Lemma demo_posted_inv : il_inv demo_world demo_posted.
Proof.
  apply (serve_posts_sound demo_world demo_alone demo_uuids_distinct demo_digest_nonempty demo_calls).
  split; apply sound_empty.
Qed.

Lemma post_transaction_replay_witness :
  let s := fresh_session demo_posted in
  exists r, post demo_world (demo_post "k1" 100) s =
      (Ok (MkInternalLedgerTransactionResult r true), s) /\
    post demo_world (demo_post "k1" 99) s =
      (Raise (ValueError "ledger transaction amount mismatch"), s).
Proof.
  intros s. pose (r0 := head (il_transactions (internal demo_posted))).
  assert (exists r, head (il_transactions (internal demo_posted)) = Some r /\
    ilt_currency r = Some "RUB" /\ ilt_total_amount r = Some 100 /\
    ilt_idempotency_key r = "k1") as (r & Hr & Hc & Ha & Hk).
  { eexists. split; [vm_compute; reflexivity|]. repeat split; reflexivity. }
  apply head_Some_elem_of, list_elem_of_In in Hr. exists r. split.
  - apply (post_transaction_replay demo_world (demo_post "k1" 100) "RUB" r s demo_posted_inv
             (demo_lines_accepted _ _) ltac:(discriminate) Hr Hk "RUB" 100 Hc ltac:(discriminate) Ha).
  - apply (post_transaction_replay demo_world (demo_post "k1" 99) "RUB" r s demo_posted_inv
             (demo_lines_accepted _ _) ltac:(discriminate) Hr Hk "RUB" 100 Hc ltac:(discriminate) Ha).
Defined.



Definition other_tenant (a : post_args) : post_args :=
  MkPostArgs 2 (pa_type a) (pa_ref_type a) (pa_ref_id a) (pa_key a) (pa_posted_at a) (pa_meta a)
    (pa_lines a).

Definition two_tenants : Db :=
  saved (serve_posts demo_world [demo_post "k1" 100; other_tenant (demo_post "k2" 30)]
           (fresh_session empty_db)).

Lemma verify_all_tenants_fails_witness :
  exists reason, (verify_ledger_chain demo_world None (fresh_session two_tenants)).1 =
    Ok (false, Some reason).
Proof.
  apply (verify_all_tenants_fails demo_world two_tenants 1 2).
  - lia.
  - vm_compute. discriminate.
  - vm_compute. discriminate.
  - apply (serve_posts_sound demo_world demo_alone demo_uuids_distinct demo_digest_nonempty).
    split; apply sound_empty.
Defined.

(** The invariant reads only the digest of the environment. *)
Lemma il_inv_world W W' d : sha256_hex W = sha256_hex W' -> il_inv W d -> il_inv W' d.
Proof. intros He [? ? ? ? ? Hc ?]. constructor; try done. by rewrite <- He. Qed.

(** An environment in which another session posts [k1] before the first flush. *)
Definition rival_world : world Db :=
  World (clock demo_world) (fun n => "mine-" +:+ print_int (Z.of_nat n)) (sha256_hex demo_world)
    (fun n d => if (n =? 0)%nat then demo_posted else d).

Lemma concurrent_batch_refused_witness :
  exists constraint t, post rival_world (demo_post "k9" 5) (fresh_session empty_db) =
      (Raise (IntegrityError constraint), t) /\
    live t = at_flush rival_world (fresh_session empty_db) /\
    saved t = rivals rival_world (races (fresh_session empty_db)) (saved (fresh_session empty_db)).
Proof.
  assert (exists r, head (il_transactions (internal demo_posted)) = Some r /\
    ilt_tenant_id r = 1 /\ ilt_batch_sequence r = 1) as (r & Hr & Ht & Hn).
  { eexists. split; [vm_compute; reflexivity|]. repeat split; reflexivity. }
  apply head_Some_elem_of, list_elem_of_In in Hr.
  apply (concurrent_batch_refused rival_world (demo_post "k9" 5) "RUB" (fresh_session empty_db) r).
  - intros x. discriminate.
  - eapply (il_inv_world demo_world); [done|]. apply (sound_empty 0).
  - apply demo_lines_accepted.
  - intros [].
  - unfold key_unused. change (at_flush rival_world (fresh_session empty_db)) with demo_posted.
    vm_compute. intros [H|[H|[]]]; discriminate H.
  - exact Hr.
  - exact Ht.
  - exact Hn.
Defined.

Lemma concurrent_replay_unchecked_witness :
  exists r t, post rival_world (demo_post "k1" 999) (fresh_session empty_db) =
      (Ok (MkInternalLedgerTransactionResult r true), t) /\
    live t = at_flush rival_world (fresh_session empty_db) /\ ilt_total_amount r = Some 100.
Proof.
  assert (exists r, head (il_transactions (internal demo_posted)) = Some r /\
    ilt_idempotency_key r = "k1" /\ ilt_total_amount r = Some 100) as (r & Hr & Hk & Ha).
  { eexists. split; [vm_compute; reflexivity|]. repeat split; reflexivity. }
  apply head_Some_elem_of, list_elem_of_In in Hr. exists r.
  destruct (concurrent_replay_unchecked rival_world (demo_post "k1" 999) "RUB" (fresh_session empty_db) r)
    as (t & Hrun & Hl).
  - intros x. discriminate.
  - eapply (il_inv_world demo_world); [done|]. apply (sound_empty 0).
  - apply demo_lines_accepted.
  - intros [].
  - eapply (il_inv_world demo_world); [done|]. apply demo_posted_inv.
  - exact Hr.
  - exact Hk.
  - exists t. split; [exact Hrun|]. split; [exact Hl|exact Ha].
Defined.

Lemma health_check_sound_witness :
  exists n, InternalLedgerHealthService.check (fresh_session demo_posted) =
      (Ok (InternalLedgerHealthService.MkInternalLedgerHealth 0 n), fresh_session demo_posted).
Proof.
  pose proof (health_check_sound demo_world (fresh_session demo_posted) demo_posted_inv) as H.
  destruct H as (n & Hn & _). exists n. exact Hn.
Defined.


(** An environment whose identifiers decrease. *)
Definition shuffled_world : world Db :=
  World (clock demo_world) (fun n => "id-" +:+ print_int (9 - Z.of_nat n)) (sha256_hex demo_world)
    (fun _ d => d).

(** The ids of the entries are random, but the digest covers the postings in the order they
    were posted: when the second entry gets the smaller id the chain does not verify. *)
Example random_ids_break_verification :
  exists r t, post shuffled_world (demo_post "k1" 100) (fresh_session empty_db) = (Ok r, t) /\
    (verify_ledger_chain shuffled_world (Some 1) t).1 = Ok (false, Some "batch_hash_mismatch:id-9").
Proof.
  destruct (ok_run (post shuffled_world (demo_post "k1" 100)) (fresh_session empty_db)) as [r Hr];
    [vm_compute; reflexivity|].
  eexists r, _. split; [exact Hr|]. vm_compute. reflexivity.
Qed.

(** The unique constraint does not compare NULL clients: two sessions that post to a
    platform account for the first time both create it, and every later posting to it
    fails. *)
Definition platform_rival : world Db :=
  World (clock demo_world) (new_uuid demo_world) (sha256_hex demo_world)
    (fun n => if (n =? 2)%nat
              then on_il_accounts (fun l => l ++ [MkInternalLedgerAccount "theirs" 1 None
                     InternalLedgerAccountType.PROVIDER_PAYABLE "RUB" InternalLedgerAccountStatus.ACTIVE])
              else fun d => d).

Example null_client_accounts_duplicate :
  exists r t, post platform_rival (demo_post "k1" 100) (fresh_session empty_db) = (Ok r, t) /\
    (post platform_rival (demo_post "k2" 30) t).1 = Raise MultipleResultsFound.
Proof.
  destruct (ok_run (post platform_rival (demo_post "k1" 100)) (fresh_session empty_db)) as [r Hr];
    [vm_compute; reflexivity|].
  eexists r, _. split; [exact Hr|]. vm_compute. reflexivity.
Qed.
