(* ===== verification/Decisions.v ===== *)
(** * The engines a payment asks before it goes ahead

    services/decision (the decision engine), services/unified_rules_engine.py (the rules of
    the operator) and services/risk_adapter.py (the risk score) are components of their own:
    the services of this development are written against the interfaces below, which state
    what is asked, what is answered, and which tables the answer leaves alone.  The
    instances at the end allow everything. *)
From Stdlib Require Import SpecFloat.
From S2P Require Import Prelude Json Enums Models AuditTrail.

(** ** The decision engine *)

(** [DecisionContext] of services/decision/context.py, the fields the callers fill in. *)
Record DecisionContext := MkDecisionContext {
  dc_tenant_id : Z;
  dc_client_id : string;
  dc_actor_type : string;
  dc_action : string;
  dc_amount : Z;
  dc_currency : option string;
  dc_payment_method : option string;
  dc_invoice_id : option string;
  dc_billing_period_id : option string;
  dc_metadata : pydict;
}.

(** [DecisionEngine(db).evaluate]: it may write its own tables, the audit log and the
    graph of documents; it leaves the money and the committed state alone. *)
Class DecisionService := {
  evaluate : DecisionContext -> PM DecisionResult;
  evaluate_billing ctx s : billing (live (evaluate ctx s).2) = billing (live s);
  evaluate_posting ctx s : posting (live (evaluate ctx s).2) = posting (live s);
  evaluate_scenario ctx s : scenario (live (evaluate ctx s).2) = scenario (live s);
  evaluate_cards ctx s : cards (live (evaluate ctx s).2) = cards (live s);
  evaluate_saved ctx s : saved (evaluate ctx s).2 = saved s;
}.

(** ** The unified rules *)

(** [RuleEvaluationContext]: the scope is FLEET and the endpoint fleet/authorize. *)
Record RuleEvaluationContext := MkRuleEvaluationContext {
  rec_timestamp : Z;
  rec_client_id : string;
  rec_card_id : string;
  rec_amount : Z;
  rec_currency : string;
}.

(** A matched rule: its code and its reason code. *)
Record MatchedRule := MkMatchedRule {
  mr_code : string;
  mr_reason_code : option string;
}.

(** [evaluate_with_db] reads the active rules and the operations, and writes nothing. *)
Class RulesService := {
  evaluate_with_db : RuleEvaluationContext -> Db -> UnifiedRulePolicy.UnifiedRulePolicy * list MatchedRule;
}.

(** ** The risk adapter *)

(** [OperationContext] of services/risk_adapter.py *)
Record OperationContext := MkOperationContext {
  oc_client_id : string;
  oc_card_id : string;
  oc_terminal_id : string;
  oc_merchant_id : string;
  oc_product_id : option string;
  oc_product_type : option string;
  oc_amount : Z;
  oc_currency : string;
  oc_quantity : option Z;
  oc_unit_price : option Z;
  oc_product_category : option string;
  oc_mcc : option string;
  oc_tx_type : option string;
  oc_created_at : Z;
  oc_client_group_id : option string;
  oc_card_group_id : option string;
}.

(** [evaluate_risk_sync]: the stored rules and the score of another service, asked over the
    network; it may fail, and it changes no table. *)
Class RiskService := {
  evaluate_risk_sync : OperationContext -> PM RiskEvaluation;
  evaluate_risk_live ctx s : live (evaluate_risk_sync ctx s).2 = live s;
  evaluate_risk_saved ctx s : saved (evaluate_risk_sync ctx s).2 = saved s;
}.

(** ** Instances that allow everything *)

Definition allowed : DecisionResult := MkDecisionResult "decision" DecisionOutcome.ALLOW None.

Definition allow_all : DecisionService := {|
  evaluate := fun _ => mret allowed;
  evaluate_billing := fun _ _ => eq_refl;
  evaluate_posting := fun _ _ => eq_refl;
  evaluate_scenario := fun _ _ => eq_refl;
  evaluate_cards := fun _ _ => eq_refl;
  evaluate_saved := fun _ _ => eq_refl;
|}.

Definition no_rules : RulesService := {|
  evaluate_with_db := fun _ _ => (UnifiedRulePolicy.ALLOW, []);
|}.

Definition low_risk : RiskService := {|
  evaluate_risk_sync := fun _ => mret (MkRiskEvaluation RiskDecisionLevel.LOW None [] "rules");
  evaluate_risk_live := fun _ _ => eq_refl;
  evaluate_risk_saved := fun _ _ => eq_refl;
|}.
