(* ===== verification/Limits.v ===== *)
(** * The limits of a card operation

    services/limits_engine.py and services/limits.py, the rules of [limits_rules] with their
    defaults ([LimitsEngine]), and services/limits_service.py, the contractual limits of
    [limit_configs] ([LimitsService]). *)
From Stdlib Require Import Ascii SpecFloat.
From S2P Require Import Prelude Doubles Json Enums Models Instants AuditTrail.

(** [s.upper()] on ASCII letters *)
Fixpoint upper (s : string) : string :=
  match s with
  | EmptyString => EmptyString
  | String c r =>
      let n := nat_of_ascii c in
      String (if (97 <=? n)%nat && (n <=? 122)%nat then ascii_of_nat (n - 32) else c) (upper r)
  end.

Definition microseconds_per_day : Z := 86400 * 1000000.

(** The UTC date of an instant, as a day number. *)
Definition day_of (instant : Z) : Z := instant / microseconds_per_day.

(** [datetime(year, month, 1)] of the date of a day number *)
Definition month_start (day : Z) : Z := let '(_, _, d) := civil_from_days day in day - (d - 1).

(** [CheckAndReserveRequest] of services/limits.py *)
Record CheckAndReserveRequest := MkCheckAndReserveRequest {
  rq_client_id : option string;
  rq_card_id : option string;
  rq_merchant_id : option string;
  rq_terminal_id : option string;
  rq_amount : Z;
  rq_currency : string;
  rq_phase : string;
  rq_client_group_id : option string;
  rq_card_group_id : option string;
  rq_product_category : option string;
  rq_product_type : option string;
  rq_mcc : option string;
  rq_tx_type : option string;
}.

(** ** The limit rules *)
Module LimitsEngine.
Definition DEFAULT_DAILY_LIMIT : Z := 1000000.
Definition DEFAULT_PER_TX_LIMIT : Z := 50000.

Definition _phase_matches (rule : LimitRule) (phase : string) : bool :=
  if (lr_phase rule =? "")%py then true
  else if (upper (lr_phase rule) =? "BOTH")%py then true
  else (upper (lr_phase rule) =? upper phase)%py.

(** [value is not None and value != getattr(request, attr)] does not hold. *)
Definition attr_matches (value wanted : option string) : bool :=
  match value with None => true | Some _ => (value =? wanted)%py end.

Definition rule_product (rule : LimitRule) : option string := FuelProductType.value <$> lr_product_type rule.

Definition rule_matches (rule : LimitRule) (request : CheckAndReserveRequest) : bool :=
  lr_active rule && _phase_matches rule (rq_phase request) &&
  (attr_matches (lr_client_id rule) (rq_client_id request) &&
   attr_matches (lr_card_id rule) (rq_card_id request) &&
   attr_matches (lr_merchant_id rule) (rq_merchant_id request) &&
   attr_matches (lr_terminal_id rule) (rq_terminal_id request) &&
   attr_matches (lr_client_group_id rule) (rq_client_group_id request) &&
   attr_matches (lr_card_group_id rule) (rq_card_group_id request) &&
   attr_matches (lr_product_category rule) (rq_product_category request) &&
   attr_matches (rule_product rule) (rq_product_type request) &&
   attr_matches (lr_mcc rule) (rq_mcc request) &&
   attr_matches (lr_tx_type rule) (rq_tx_type request)).

(** [int(bool(value and value == wanted))] *)
Definition named (value wanted : option string) : Z :=
  if truthy_str value && (value =? wanted)%py then 1 else 0.

Definition rule_specificity (rule : LimitRule) (request : CheckAndReserveRequest) : list Z :=
  [ (if negb (lr_phase rule =? "")%py && (upper (lr_phase rule) =? upper (rq_phase request))%py then 1 else 0);
    named (lr_client_id rule) (rq_client_id request);
    named (lr_card_id rule) (rq_card_id request);
    named (lr_client_group_id rule) (rq_client_group_id request);
    named (lr_card_group_id rule) (rq_card_group_id request);
    named (lr_merchant_id rule) (rq_merchant_id request);
    named (lr_terminal_id rule) (rq_terminal_id request);
    named (lr_product_category rule) (rq_product_category request);
    named (rule_product rule) (rq_product_type request);
    named (lr_mcc rule) (rq_mcc request);
    named (lr_tx_type rule) (rq_tx_type request) ].

(** [x < y] on tuples *)
Fixpoint tuple_ltb (x y : list Z) : bool :=
  match x, y with
  | _, [] => false
  | [], _ :: _ => true
  | a :: x', b :: y' => if a =? b then tuple_ltb x' y' else a <? b
  end.

(** [max(rules, key=key)]: the first of the greatest. *)
Definition max_by {A} (key : A -> list Z) (best : A) (l : list A) : A :=
  fold_left (fun b r => if tuple_ltb (key b) (key r) then r else b) l best.

Definition select_best_rule (request : CheckAndReserveRequest) (rules : list LimitRule) : option LimitRule :=
  match List.filter (fun rule => rule_matches rule request) rules with
  | [] => None
  | rule :: applicable => Some (max_by (fun r => rule_specificity r request) rule applicable)
  end.

(** A filter is applied for each party the request names. *)
Definition of_party (wanted : option string) (value : string) : bool :=
  if truthy_str wanted then (wanted =? Some value)%py else true.

Definition counted_today `{DatabaseZone} (request : CheckAndReserveRequest) (today : Z) (o : Operation) : bool :=
  (op_operation_type o =? (if (upper (rq_phase request) =? "AUTH")%py then OperationType.AUTH
                           else OperationType.CAPTURE))%py &&
  of_party (rq_card_id request) (op_card_id o) && of_party (rq_client_id request) (op_client_id o) &&
  of_party (rq_merchant_id request) (op_merchant_id o) &&
  of_party (rq_terminal_id request) (op_terminal_id o) && (db_date (op_created_at o) =? today).

(** The sum of the operations of the day: [today] is the UTC date of the clock, compared with
    the date of an operation in the zone of the database. *)
Definition used_amount `{DatabaseZone} (request : CheckAndReserveRequest) (today : Z) (d : Db) : Z :=
  sum_of op_amount (List.filter (counted_today request today) (operations (scenario d))).

Definition calculate_used_amount (W : world Db) `{DatabaseZone} (request : CheckAndReserveRequest) : PM Z :=
  instant ← now W;
  gets (used_amount request (day_of instant)).

(** The daily limit and the limit of one operation, of a rule or the defaults. *)
Definition limits_of (rule : option LimitRule) : Z * Z :=
  let daily_limit := default DEFAULT_DAILY_LIMIT (rule ≫= lr_daily_limit) in
  let limit_per_tx := default DEFAULT_PER_TX_LIMIT (rule ≫= lr_limit_per_tx) in
  match rule ≫= lr_max_amount, lr_scope <$> rule with
  | Some max_amount, Some LimitScope.PER_TX => (daily_limit, max_amount)
  | Some max_amount, Some LimitScope.DAILY => (max_amount, limit_per_tx)
  | _, _ => (daily_limit, limit_per_tx)
  end.

Definition evaluate_limits (request : CheckAndReserveRequest) (rules : list LimitRule) (used_today : Z)
    : CheckAndReserveResult :=
  let rule := select_best_rule request rules in
  let '(daily_limit, limit_per_tx) := limits_of rule in
  let new_used_today := used_today + rq_amount request in
  let approved := (rq_amount request <=? limit_per_tx) && (new_used_today <=? daily_limit) in
  MkCheckAndReserveResult approved (if approved then "00" else "51")
    (if approved then "approved" else "limit exceeded")
    daily_limit limit_per_tx used_today new_used_today (lr_id <$> rule).

(** [_evaluate_locally] of services/limits.py, on the session of the caller. *)
Definition evaluate_limits_locally (W : world Db) `{DatabaseZone} (req : CheckAndReserveRequest) : PM CheckAndReserveResult :=
  rules ← q_all (fun d => limits_rules (cards d)) lr_active;
  used_today ← calculate_used_amount W req;
  mret (evaluate_limits req rules used_today).
End LimitsEngine.

(** ** The contractual limits *)
Module LimitsService.
Definition SUCCESS_STATUSES : list OperationStatus.OperationStatus :=
  [ OperationStatus.APPROVED; OperationStatus.AUTHORIZED; OperationStatus.HELD; OperationStatus.POSTED;
    OperationStatus.COMPLETED ].

Definition _window_start (config : LimitConfig) (instant : Z) : Z :=
  if (lc_window config =? LimitWindow.PER_TX)%py then instant
  else if (lc_window config =? LimitWindow.MONTHLY)%py || (lc_limit_type config =? LimitType.MONTHLY_AMOUNT)%py
  then month_start (day_of instant) * microseconds_per_day
  else day_of instant * microseconds_per_day.

Definition in_scope (config : LimitConfig) (o : Operation) : bool :=
  match lc_scope config with
  | LimitConfigScope.CLIENT => (op_client_id o =? lc_subject_ref config)%py
  | LimitConfigScope.CARD => (op_card_id o =? lc_subject_ref config)%py
  | LimitConfigScope.TARIFF => (op_tariff_id o =? Some (lc_subject_ref config))%py
  | LimitConfigScope.GLOBAL => true
  end.

(** [_base_query]: the operations a limit counts, from [start] on. *)
Definition counted (config : LimitConfig) (start : Z) (o : Operation) : bool :=
  (start <=? op_created_at o) && bool_decide (op_status o ∈ SUCCESS_STATUSES) && in_scope config o.

(** [_usage_value] before it becomes a float *)
Definition usage (config : LimitConfig) (l : list Operation) : Z :=
  if (lc_limit_type config =? LimitType.DAILY_VOLUME)%py then Z.of_nat (length l) else sum_of op_amount l.

Definition calculate_consumption (config : LimitConfig) (amount volume : spec_float) (instant : Z) (d : Db)
    : Consumption :=
  let start := _window_start config instant in
  let used := float_of_int (usage config (List.filter (counted config start) (operations (scenario d)))) in
  let increment := if (lc_limit_type config =? LimitType.DAILY_VOLUME)%py then volume else amount in
  MkConsumption used (float_add used increment) config start.

Definition matching (client_id card_id : string) (tariff_id : option string) (config : LimitConfig) : bool :=
  lc_enabled config &&
  match lc_scope config with
  | LimitConfigScope.CLIENT => (lc_subject_ref config =? client_id)%py
  | LimitConfigScope.CARD => (lc_subject_ref config =? card_id)%py
  | LimitConfigScope.GLOBAL => true
  | LimitConfigScope.TARIFF => truthy_str tariff_id && (Some (lc_subject_ref config) =? tariff_id)%py
  end.

Definition exceeded (c : Consumption) : bool := float_gtb (con_projected c) (float_of_int (lc_value (con_limit c))).

(** The limits that are exceeded; each consumption reads the clock anew.  The operation is
    approved when there is none. *)
Definition check_contractual_limits (W : world Db) (client_id card_id : string) (amount : Z)
    (quantity : option Z) (tariff_id : option string) : PM (list Consumption) :=
  let quantity_value := match quantity with Some q => float_of_thousandths q | None => float_of_int 1 end in
  configs ← q_all (fun d => limit_configs (cards d)) (matching client_id card_id tariff_id);
  consumptions ← for_each configs (fun cfg =>
    instant ← now W;
    gets (calculate_consumption cfg (float_of_int amount) quantity_value instant));
  mret (List.filter exceeded consumptions).
End LimitsService.

(** ** The most specific rule *)

Section Rules.
Import LimitsEngine.

Lemma tuple_ltb_irrefl x : tuple_ltb x x = false.
Proof. induction x as [|a x IH]; simpl; [done|]. by rewrite Z.eqb_refl. Qed.

Lemma tuple_ltb_trans x y z : tuple_ltb x y = true -> tuple_ltb y z = true -> tuple_ltb x z = true.
Proof.
  revert y z. induction x as [|a x IH]; intros [|b y] [|c z]; simpl; try done.
  destruct (Z.eqb_spec a b), (Z.eqb_spec b c), (Z.eqb_spec a c); subst; try lia; rewrite ?Z.ltb_lt;
    try lia; eauto.
Qed.

(** The order is total: what is not below is above or equal. *)
Lemma tuple_ltb_cotrans x y z : tuple_ltb x z = true -> tuple_ltb x y = true \/ tuple_ltb y z = true.
Proof.
  revert y z. induction x as [|a x IH]; intros [|b y] [|c z]; simpl; try done; auto.
  destruct (Z.eqb_spec a c), (Z.eqb_spec a b), (Z.eqb_spec b c); subst; try lia; rewrite ?Z.ltb_lt;
    try lia; eauto.
Qed.

(** [best] is the first of the greatest elements of [l]. *)
Definition first_greatest {A} (key : A -> list Z) (best : A) (l : list A) : Prop :=
  exists l1 l2, l = l1 ++ best :: l2 /\ Forall (fun r => tuple_ltb (key r) (key best) = true) l1 /\
    Forall (fun r => tuple_ltb (key best) (key r) = false) l2.

Lemma max_by_greatest {A} (key : A -> list Z) best l : first_greatest key (max_by key best l) (best :: l).
Proof.
  unfold max_by. assert (forall l b seen, first_greatest key b seen ->
    first_greatest key (fold_left (fun b r => if tuple_ltb (key b) (key r) then r else b) l b) (seen ++ l)) as H.
  { clear. induction l as [|r l IH]; intros b seen Hb; [by rewrite app_nil_r|]. simpl.
    replace (seen ++ r :: l) with ((seen ++ [r]) ++ l) by (by rewrite <- app_assoc).
    apply IH. destruct Hb as (l1 & l2 & -> & H1 & H2). destruct (tuple_ltb (key b) (key r)) eqn:Hr.
    - exists (l1 ++ b :: l2), []. split; [done|]. split; [|done]. rewrite Forall_app, Forall_cons.
      repeat split; [| done |].
      + eapply Forall_impl; [exact H1|]. intros x Hx. exact (tuple_ltb_trans _ _ _ Hx Hr).
      + eapply Forall_impl; [exact H2|]. intros x Hx. simpl in Hx.
        destruct (tuple_ltb_cotrans (key b) (key x) (key r) Hr) as [Hx'|?]; [by rewrite Hx in Hx'|done].
    - exists l1, (l2 ++ [r]). rewrite <- app_assoc. split; [done|]. split; [done|].
      rewrite Forall_app. split; [done|]. by constructor. }
  apply (H l best [best]). exists [], []. split; [done|]. by split.
Qed.

(** The rule that decides a request: the first of the most specific ones that apply. *)
Definition deciding_rule (request : CheckAndReserveRequest) (rules : list LimitRule) (rule : option LimitRule) : Prop :=
  let applicable := List.filter (fun r => rule_matches r request) rules in
  match rule with
  | None => applicable = []
  | Some r => first_greatest (fun r => rule_specificity r request) r applicable
  end.

Lemma select_best_rule_decides request rules : deciding_rule request rules (select_best_rule request rules).
Proof.
  unfold deciding_rule, select_best_rule. destruct (List.filter _ rules) as [|r l]; [done|].
  apply max_by_greatest.
Qed.

Definition active_rules (d : Db) : list LimitRule := List.filter lr_active (limits_rules (cards d)).

Lemma limits_locally_run W `{DatabaseZone} req s : exists t,
  evaluate_limits_locally W req s =
    (Ok (evaluate_limits req (active_rules (live s)) (used_amount req (day_of (clock W (ticks s))) (live s))), t) /\
  live t = live s /\ saved t = saved s.
Proof. eexists. split; [unfold evaluate_limits_locally, q_all, calculate_used_amount; run_steps; reflexivity|]. done. Qed.

Lemma evaluate_limits_approved req rules used : let rule := select_best_rule req rules in
  lim_applied_rule_id (evaluate_limits req rules used) = lr_id <$> rule /\
  (lim_approved (evaluate_limits req rules used) = true <->
     rq_amount req <= (limits_of rule).2 /\ used + rq_amount req <= (limits_of rule).1).
Proof.
  cbv zeta. unfold evaluate_limits. destruct (limits_of _) as [daily per_tx]. simpl. split; [done|].
  by rewrite andb_true_iff, !Z.leb_le.
Qed.

(** C29 the limit rules decide a request by the first of the most specific active rules that
    apply to it, or by the defaults when none does: it is approved exactly when its amount
    is within the limit of one operation and, with the operations of the day, within the
    daily limit.  Nothing is written. *)
Theorem limit_rules_decide W `{DatabaseZone} req s :
  let rules := active_rules (live s) in
  let used := used_amount req (day_of (clock W (ticks s))) (live s) in
  exists rule r t, evaluate_limits_locally W req s = (Ok r, t) /\ live t = live s /\ saved t = saved s /\
    deciding_rule req rules rule /\ lim_applied_rule_id r = lr_id <$> rule /\
    (lim_approved r = true <->
       rq_amount req <= (limits_of rule).2 /\ used + rq_amount req <= (limits_of rule).1).
Proof.
  intros rules used. destruct (limits_locally_run W req s) as (t & Hr & Hl & Hs).
  exists (select_best_rule req rules), (evaluate_limits req rules used), t. split; [exact Hr|].
  split; [done|]. split; [done|]. split; [apply select_best_rule_decides|]. apply evaluate_limits_approved.
Qed.

(** A rule for ANY product matches no request for a product of the card. *)
Lemma any_product_never_matches rule request product :
  lr_product_type rule = Some FuelProductType.ANY ->
  rq_product_type request = Some (ProductType.value product) \/ rq_product_type request = None ->
  rule_matches rule request = false.
Proof.
  intros Hr Hq. unfold rule_matches, rule_product. rewrite Hr.
  assert (attr_matches (FuelProductType.value <$> Some FuelProductType.ANY) (rq_product_type request) = false) as ->.
  { destruct Hq as [-> | ->]; [by destruct product|done]. }
  by rewrite !andb_false_r.
Qed.
End Rules.

(** ** Contractual limits, exactly *)

Section Contract.
Context (W : world Db).
Import LimitsService.

(** What an operation adds to the use of a limit when it names no quantity. *)
Definition increment (config : LimitConfig) (amount : Z) : Z :=
  if (lc_limit_type config =? LimitType.DAILY_VOLUME)%py then 1 else amount.

Definition used_of (config : LimitConfig) (instant : Z) (d : Db) : Z :=
  usage config (List.filter (counted config (_window_start config instant)) (operations (scenario d))).

(** The amounts and the counts stay below 2^53. *)
Definition amounts_fit (amount : Z) (d : Db) : Prop :=
  fits (sum_of (fun o => Z.abs (op_amount o)) (operations (scenario d)) + Z.abs amount) /\
  fits (Z.of_nat (length (operations (scenario d))) + 1) /\
  Forall (fun c => fits (lc_value c)) (limit_configs (cards d)).

Lemma sum_of_filter_abs {A} (f : A -> Z) P l :
  Z.abs (sum_of f (List.filter P l)) <= sum_of (fun a => Z.abs (f a)) l.
Proof. induction l as [|a l IH]; simpl; [done|]. destruct (P a); simpl; lia. Qed.

Lemma used_fits config amount instant d : amounts_fit amount d ->
  fits (used_of config instant d) /\ fits (increment config amount) /\
  fits (used_of config instant d + increment config amount).
Proof.
  intros (Ha & Hn & _). unfold used_of, usage, increment. set (P := counted _ _).
  pose proof (sum_of_filter_abs op_amount P (operations (scenario d))) as Hs.
  pose proof (List.filter_length_le P (operations (scenario d))) as Hl.
  unfold fits in *. destruct (_ =? _)%py; lia.
Qed.

Lemma exceeded_exact config amount instant d : amounts_fit amount d -> In config (limit_configs (cards d)) ->
  exceeded (calculate_consumption config (float_of_int amount) (float_of_int 1) instant d) =
  (lc_value config <? used_of config instant d + increment config amount).
Proof.
  intros Hd Hc. destruct (used_fits config amount instant d Hd) as (H1 & H2 & H3).
  destruct Hd as (_ & _ & Hv). rewrite List.Forall_forall in Hv. specialize (Hv _ Hc).
  unfold exceeded, calculate_consumption. cbn [con_projected con_limit].
  rewrite <- float_gtb_exact by done. rewrite <- float_add_exact by done.
  unfold used_of, increment in *. by destruct (_ =? _)%py.
Qed.

Lemma consumptions_run (configs : list LimitConfig) (f : LimitConfig -> Z -> Db -> Consumption) s :
  exists t, (for_each configs (fun cfg => instant ← now W; gets (f cfg instant)) : PM _) s =
    (Ok (imap (fun i cfg => f cfg (clock W (ticks s + i)%nat) (live s)) configs), t) /\
    live t = live s /\ saved t = saved s.
Proof.
  revert s. induction configs as [|c l IH]; intros s; [by exists s|]. cbn [for_each].
  edestruct (IH (Session (live s) (saved s) (S (ticks s)) (uuids s) (races s))) as (t & Ht & Hl & Hs).
  exists t. split; [|done].
  rewrite (bind_ok (now W ≫= _) _ s (f c (clock W (ticks s)) (live s)) _) by done.
  rewrite (bind_ok _ _ _ _ _ Ht). cbn [imap ticks live]. unfold mret, M_ret. rewrite Nat.add_0_r.
  f_equal. f_equal. f_equal. apply imap_ext. intros i x _. simpl. by rewrite Nat.add_succ_r.
Qed.

(** C30 below 2^53 the floats of the contractual limits are exact: an operation without a
    quantity passes exactly when, for every enabled limit of its client, its card, its
    tariff or of everyone, what the limit counts in its window and the operation together
    stay within the value of the limit.  Nothing is written. *)
Theorem contractual_limits_exact client_id card_id amount tariff_id s : amounts_fit amount (live s) ->
  exists violations t,
    check_contractual_limits W client_id card_id amount None tariff_id s = (Ok violations, t) /\
    live t = live s /\ saved t = saved s /\
    (violations = [] <->
       forall i config,
         List.filter (matching client_id card_id tariff_id) (limit_configs (cards (live s))) !! i = Some config ->
         used_of config (clock W (ticks s + i)%nat) (live s) + increment config amount <= lc_value config).
Proof.
  intros Hfit. unfold check_contractual_limits, q_all. set (configs := List.filter _ _).
  destruct (consumptions_run configs
    (fun cfg instant => calculate_consumption cfg (float_of_int amount) (float_of_int 1) instant) s)
    as (t & Ht & Hl & Hs).
  eexists _, t. split; [rewrite (bind_ok (gets _) _ s configs s) by done; rewrite (bind_ok _ _ _ _ _ Ht); reflexivity|]. split; [done|]. split; [done|].
  assert (forall i config, configs !! i = Some config -> In config (limit_configs (cards (live s)))) as Hin.
  { intros i config Hi%list_elem_of_lookup_2%list_elem_of_In. by apply filter_In in Hi as [? _]. }
  split.
  - intros Hno i config Hi. pose proof (exceeded_exact config amount (clock W (ticks s + i)%nat) (live s) Hfit (Hin _ _ Hi)) as He.
    destruct (Z.ltb_spec (lc_value config) (used_of config (clock W (ticks s + i)%nat) (live s) + increment config amount))
      as [_|?]; [exfalso|done].
    eassert (In _ (List.filter exceeded _)) as H; [apply filter_In; split; [|exact He]|rewrite Hno in H; exact H].
    apply list_elem_of_In, (list_elem_of_lookup_2 _ i). rewrite list_lookup_imap, Hi. reflexivity.
  - intros Hall. apply filter_none, List.Forall_forall. intros c Hc%list_elem_of_In.
    apply list_elem_of_lookup_1 in Hc as [i Hi]. rewrite list_lookup_imap in Hi.
    destruct (configs !! i) as [config|] eqn:Hc; [|done]. injection Hi as <-.
    rewrite exceeded_exact by eauto. apply Z.ltb_ge. by apply Hall.
Qed.
End Contract.

(** ** Witness *)

(** An authorised operation of the card. *)
Definition sample_operation (id : string) (amount created_at : Z) : Operation :=
  MkOperation id id created_at OperationType.AUTH OperationStatus.AUTHORIZED "merchant" "terminal" "client" "card"
    None None amount (Some 0) "RUB" None None None 0 0 None None None None None None true "00" None
    None None None None None None None None None None None.

(** 300 were spent with the card today, 200 yesterday; the card may spend 500 a day and the
    client two operations a day. *)
Definition demo_limits : Db :=
  on_operations (fun _ => [ sample_operation "a" 200 (-5); sample_operation "b" 300 5 ])
    (MkDb (posting empty_db) (scenario empty_db) (internal empty_db) (billing empty_db) (flow empty_db)
      (crm empty_db)
      (MkCardTables [] [] [] [] []
        [ MkLimitConfig 1 LimitConfigScope.CARD "card" LimitType.DAILY_AMOUNT 500 LimitWindow.DAILY true;
          MkLimitConfig 2 LimitConfigScope.CLIENT "client" LimitType.DAILY_VOLUME 2 LimitWindow.DAILY true;
          MkLimitConfig 3 LimitConfigScope.CARD "other" LimitType.DAILY_AMOUNT 1 LimitWindow.DAILY true ])
      (settle empty_db) (audit empty_db)).

Lemma contractual_limits_exact_witness :
  exists t, LimitsService.check_contractual_limits demo_world "client" "card" 200 None None
    (fresh_session demo_limits) = (Ok [], t).
Proof.
  destruct (contractual_limits_exact demo_world "client" "card" 200 None (fresh_session demo_limits))
    as (violations & t & Hrun & _ & _ & Hall).
  - split; [vm_compute; reflexivity|]. split; [vm_compute; reflexivity|].
    apply List.Forall_forall. intros c [<-|[<-|[<-|[]]]]; vm_compute; reflexivity.
  - exists t. rewrite Hrun. f_equal. f_equal. apply Hall.
    intros [|[|i]] config Hi; vm_compute in Hi; [injection Hi as <-|injection Hi as <-|];
      [vm_compute; discriminate|vm_compute; discriminate|destruct i; discriminate Hi].
Defined.
