(* ===== verification/Transactions.v ===== *)
(** * The authorisation of card operations (services/transactions_service.py)

    An operation is authorised by a chain of checks (the parties, the decision engine, the
    unified rules, the limit rules, the decision engine again, the risk adapter, the
    contractual limits), posted to the ledger, committed, reversed and refunded.  The module
    [Commission] is services/commission/split.py. *)
From Stdlib Require Import Ascii SpecFloat QArith.
From S2P Require Import Prelude Doubles Json Enums Models AuditTrail Ledger Decisions Limits.
#[local] Open Scope Z_scope.

(** ** The commission of an operation *)
Module Commission.
(** [(a / b).quantize(Decimal("1"), rounding=ROUND_HALF_UP)], [b] positive: the nearest
    integer, halves away from zero. *)
Definition round_half_up (a b : Z) : Z :=
  let q := (2 * Z.abs a + b) / (2 * b) in if a <? 0 then - q else q.

(** [or] over amounts: the first that is neither [None] nor 0. *)
Definition first_nonzero (l : list (option Z)) : Z :=
  default 0 (head (List.filter (fun z => negb (z =? 0)) (omap id l))).

Definition _resolve_gross_amount (operation : Operation) : Z :=
  let amount := first_nonzero [ op_amount_settled operation; Some (op_captured_amount operation);
                                Some (op_amount operation) ] in
  let negative := bool_decide (op_status operation ∈ [OperationStatus.REFUNDED; OperationStatus.REVERSED]) ||
                  bool_decide (op_operation_type operation ∈ [OperationType.REFUND; OperationType.REVERSE]) in
  if negative then - amount else amount.

(** [gross / (1 + rate)], then [base_cost * rate], for a rate of num/den. *)
Definition base_cost (gross : Z) (rate : Q) : Z :=
  round_half_up (gross * Zpos (Qden rate)) (Zpos (Qden rate) + Qnum rate).
Definition platform_commission (base : Z) (rate : Q) : Z :=
  round_half_up (base * Qnum rate) (Zpos (Qden rate)).

Definition compute_posting_result (W : world Db) (rate : Q) (operation : Operation) : PM CommissionSplit :=
  let gross_amount := _resolve_gross_amount operation in
  let base := base_cost gross_amount rate in
  computed_at ← now W;
  mret (MkCommissionSplit (op_currency operation) gross_amount base (platform_commission base rate) rate computed_at).
End Commission.

(** ** [UUID(s)] *)

(** [s.replace(needle, '')]; [skip] characters of an occurrence are still to be dropped. *)
Fixpoint remove_all (needle : string) (skip : nat) (s : string) : string :=
  match s with
  | EmptyString => EmptyString
  | String c r =>
      match skip with
      | S k => remove_all needle k r
      | O => if String.prefix needle s then remove_all needle (String.length needle - 1) r
             else String c (remove_all needle 0 r)
      end
  end.

Definition is_brace (c : ascii) : bool := bool_decide (c = "{"%char) || bool_decide (c = "}"%char).

Fixpoint drop_braces (s : list ascii) : list ascii :=
  match s with [] => [] | c :: r => if is_brace c then drop_braces r else s end.

Definition is_hex_digit (c : ascii) : bool :=
  let n := nat_of_ascii c in
  ((48 <=? n) && (n <=? 57) || (97 <=? n) && (n <=? 102))%nat.

(** The 32 hexadecimal digits of a UUID, in lower case; [None] is [ValueError]. *)
Definition uuid_hex (s : string) : option string :=
  let bare := String.list_ascii_of_string (lower (remove_all "uuid:" 0 (remove_all "urn:" 0 s))) in
  let hex := List.filter (fun c => negb (bool_decide (c = "-"%char)))
    (rev (drop_braces (rev (drop_braces bare)))) in
  if (length hex =? 32)%nat && forallb is_hex_digit hex then Some (String.string_of_list_ascii hex) else None.

Example uuid_hex_ex : uuid_hex "{12345678-1234-5678-1234-56781234567A}" = Some "1234567812345678123456781234567a".
Proof. reflexivity. Qed.

(** ** Requests *)

(** The arguments of [authorize_operation]. *)
Record AuthorizeRequest := MkAuthorizeRequest {
  az_client_id : string;
  az_card_id : string;
  az_terminal_id : string;
  az_merchant_id : string;
  az_tariff_id : option string;
  az_product_id : option string;
  az_product_type : option string;
  az_amount : Z;
  az_currency : string;
  az_ext_operation_id : string;
  az_quantity : option Z;
  az_unit_price : option Z;
  az_mcc : option string;
  az_product_category : option string;
  az_tx_type : option string;
  az_client_group_id : option string;
  az_card_group_id : option string;
}.

(** Why an operation is declined, and what its row records of it. *)
Record refusal := MkRefusal {
  dl_reason : string;
  dl_tariff_id : option string;
  dl_limit_payload : option limit_payload;
  dl_risk_payload : option risk_payload;
  dl_risk_result : option RiskResult.RiskResult;
}.

(** ** Operations in the database *)

Definition valid_product (p : option string) : bool :=
  match p with
  | None => true
  | Some s => existsb (fun v => (s =? ProductType.value v)%py)
      [ProductType.DIESEL; ProductType.AI92; ProductType.AI95; ProductType.AI98; ProductType.GAS; ProductType.OTHER]
  end.

Section Rows.
Context (W : world Db).

(** [Operation(...)], added and flushed: the id and the creation time are defaults of the
    columns, the product type is one of its enum, both ids are unique. *)
Definition insert_operation (make : string -> Z -> Operation) : PM Operation :=
  race W;;
  id ← uuid4 W;
  created_at ← now W;
  let operation := make id created_at in
  if negb (valid_product (op_product_type operation)) then raise (StatementError "product_type")
  else
    existing ← q_first (fun d => operations (scenario d))
      (fun o => (op_id o =? id)%py || (op_operation_id o =? op_operation_id operation)%py);
    match existing with
    | Some _ => raise (IntegrityError "operations")
    | None => modify (on_operations (fun l => l ++ [operation]));; mret operation
    end.

(** Assignments to the columns of an operation, on the object and its row. *)
Definition assign_operation (f : Operation -> Operation) (operation : Operation) : PM Operation :=
  modify (on_operations (update_where (fun o => (op_id o =? op_id operation)%py) f));;
  mret (f operation).
End Rows.

(** [services.audit_log(...)]: the package services shadows the module services.py that
    defines it, so the attribute does not exist. *)
Definition audit_log_entry : PM unit := raise (AttributeError "audit_log").

(** [try: ... except Exception: logger.exception(...)] *)
Definition best_effort (m : PM unit) : PM unit := try_except m (fun _ => Some (mret tt)).

(** The conversions of risk levels to the column [risk_result]. *)
Definition _to_risk_level (level : RiskDecisionLevel.RiskDecisionLevel) : RiskResult.RiskResult :=
  match level with
  | RiskDecisionLevel.HARD_DECLINE => RiskResult.BLOCK
  | RiskDecisionLevel.MANUAL_REVIEW => RiskResult.MANUAL_REVIEW
  | RiskDecisionLevel.LOW => RiskResult.LOW
  | RiskDecisionLevel.MEDIUM => RiskResult.MEDIUM
  | RiskDecisionLevel.HIGH => RiskResult.HIGH
  end.

Definition _decision_risk_to_result (level : option RiskLevel.RiskLevel) : PM RiskResult.RiskResult :=
  match level with
  | None => raise (KeyError "None")
  | Some RiskLevel.LOW => mret RiskResult.LOW
  | Some RiskLevel.MEDIUM => mret RiskResult.MEDIUM
  | Some RiskLevel.HIGH => mret RiskResult.HIGH
  | Some RiskLevel.VERY_HIGH => mret RiskResult.BLOCK
  end.

Module TransactionsService.
Section Service.
Context (W : world Db) `{DecisionService} `{RulesService} `{RiskService} `{DatabaseZone}.
(** [settings.NEFT_COMMISSION_RATE] and the environment's RISK_HIGH_STRICT_MODE *)
Context (rate : Q) (strict_high : bool).

(** [order_by(created_at.desc()).first()] *)
Definition _fetch_operation_by_ext_id (ext_operation_id : string) : PM (option Operation) :=
  gets (fun d => head (sort_on (fun o => - op_created_at o)
    (List.filter (fun o => (op_operation_id o =? ext_operation_id)%py) (operations (scenario d))))).

(** ** Postings *)

Definition post_entry (account_id : Z) (operation_id posting_id : string)
    (direction : LedgerDirection.LedgerDirection) (amount : decimal) (currency : string) : PM LedgerEntry :=
  LedgerRepository.post_entry W account_id (Some operation_id) (Some posting_id) direction amount currency
    None None None None None true true false.

Definition client_account (operation : Operation) : PM Account :=
  AccountsRepository.get_or_create_account (op_client_id operation) AccountOwnerType.CLIENT None
    (op_currency operation) AccountType.CLIENT_MAIN (Some (op_card_id operation)) None AccountStatus.ACTIVE true.

Definition merchant_account (operation : Operation) : PM Account :=
  AccountsRepository.get_or_create_account (op_merchant_id operation) AccountOwnerType.CLIENT None
    (op_currency operation) AccountType.TECHNICAL None None AccountStatus.ACTIVE true.

Definition _perform_posting (operation : Operation) : PM PostingResult :=
  posting_id ← uuid4 W;
  debit_account ← client_account operation;
  credit_account ← merchant_account operation;
  debit_entry ← post_entry (acc_id debit_account) (op_id operation) posting_id LedgerDirection.DEBIT
    (dec_of_int (op_amount operation)) (op_currency operation);
  credit_entry ← post_entry (acc_id credit_account) (op_id operation) posting_id LedgerDirection.CREDIT
    (dec_of_int (op_amount operation)) (op_currency operation);
  mret (MkPostingResult (Some [acc_id debit_account; acc_id credit_account])
    (Some [le_id debit_entry; le_id credit_entry]) None None).

Definition _perform_refund_posting (operation : Operation) (amount : Z) : PM PostingResult :=
  posting_id ← uuid4 W;
  client_account ← client_account operation;
  merchant_account ← merchant_account operation;
  merchant_entry ← post_entry (acc_id merchant_account) (op_id operation) posting_id LedgerDirection.DEBIT
    (dec_of_int amount) (op_currency operation);
  client_entry ← post_entry (acc_id client_account) (op_id operation) posting_id LedgerDirection.CREDIT
    (dec_of_int amount) (op_currency operation);
  mret (MkPostingResult (Some [acc_id merchant_account; acc_id client_account])
    (Some [le_id merchant_entry; le_id client_entry])
    (Some [(acc_id merchant_account, default 0 (le_balance_after merchant_entry));
           (acc_id client_account, default 0 (le_balance_after client_entry))]) None).

Definition is_settled (s : OperationStatus.OperationStatus) : bool :=
  bool_decide (s ∈ [OperationStatus.COMPLETED; OperationStatus.REFUNDED; OperationStatus.REVERSED]).

(** [{...posting_result or {}, ...snapshot}] *)
Definition with_split (split : CommissionSplit) (r : option PostingResult) : PostingResult :=
  match r with
  | None => MkPostingResult None None None (Some split)
  | Some r => MkPostingResult (po_accounts r) (po_entries r) (po_balances r) (Some split)
  end.

Definition _merge_posting_snapshot (operation : Operation) : PM (option PostingResult) :=
  if is_settled (op_status operation) && bool_decide (is_Some (op_posting_result operation ≫= po_split))
  then mret (op_posting_result operation)
  else
    snapshot ← Commission.compute_posting_result W rate operation;
    mret (Some (with_split snapshot (op_posting_result operation))).

(** ** The checks of an authorisation *)

Record parties := MkParties {
  the_client : Client;
  the_card : Card;
  the_terminal : Terminal;
  the_merchant : Merchant;
}.

Definition inactive {A} (code : string) : PM A := raise (InvalidOperationState code None).

Definition _validate_references (client_id card_id terminal_id merchant_id : string) : PM parties :=
  match uuid_hex client_id with
  | None => inactive "CLIENT_INACTIVE"
  | Some client_uuid =>
      client ← q_first (fun d => clients (cards d)) (fun c => (uuid_hex (cl_id c) =? Some client_uuid)%py);
      match client with
      | None => inactive "CLIENT_INACTIVE"
      | Some client =>
      if (cl_status client <>? "ACTIVE")%py then inactive "CLIENT_INACTIVE" else
      card ← q_first (fun d => card_rows (cards d))
        (fun c => (ca_id c =? card_id)%py && (ca_client_id c =? client_id)%py);
      match card with
      | None => inactive "CARD_BLOCKED"
      | Some card =>
      if negb (bool_decide (ca_status card ∈ ["ACTIVE"; "ENABLED"])) then inactive "CARD_BLOCKED" else
      terminal ← q_first (fun d => terminals (cards d)) (fun t => (te_id t =? terminal_id)%py);
      match terminal with
      | None => inactive "TERMINAL_INACTIVE"
      | Some terminal =>
      if (te_status terminal <>? "ACTIVE")%py then inactive "TERMINAL_INACTIVE" else
      merchant ← q_first (fun d => merchants (cards d)) (fun m => (me_id m =? merchant_id)%py);
      match merchant with
      | None => inactive "MERCHANT_INACTIVE"
      | Some merchant =>
      if (me_status merchant <>? "ACTIVE")%py then inactive "MERCHANT_INACTIVE" else
      mret (MkParties client card terminal merchant)
      end end end end
  end.

(** The parties, or the code of the first that is not active. *)
Definition check_parties (a : AuthorizeRequest) : PM (string + parties) :=
  try_except
    (p ← _validate_references (az_client_id a) (az_card_id a) (az_terminal_id a) (az_merchant_id a); mret (inr p))
    (fun e => match e with InvalidOperationState code _ => Some (mret (inl code)) | _ => None end).

Definition authorize_context (a : AuthorizeRequest) (p : parties) : DecisionContext :=
  MkDecisionContext 0 (az_client_id a) "SYSTEM" "PAYMENT_AUTHORIZE" (az_amount a) (Some (az_currency a))
    (Some "CARD") None None
    [ ("client_status", PStr (cl_status (the_client p))); ("card_status", PStr (ca_status (the_card p)));
      ("merchant_status", PStr (me_status (the_merchant p)));
      ("terminal_status", PStr (te_status (the_terminal p))); ("actor_roles", PList []);
      ("subject_id", PStr (az_ext_operation_id a)) ].

Definition is_review (d : DecisionResult) : bool := (dr_outcome d =? DecisionOutcome.MANUAL_REVIEW)%py.

(** The first answer of the decision engine. *)
Definition first_decision (a : AuthorizeRequest) (p : parties) : PM (option refusal) :=
  decision ← evaluate (authorize_context a p);
  if (dr_outcome decision =? DecisionOutcome.ALLOW)%py then mret None
  else
    risk_result ←
      (if is_review decision then mret RiskResult.MANUAL_REVIEW
       else match dr_risk_level decision with
            | None => mret RiskResult.MEDIUM
            | level => _decision_risk_to_result level
            end);
    mret (Some (MkRefusal (if is_review decision then "RISK_MANUAL_REVIEW" else "RISK_SCORE_DECLINE")
      (az_tariff_id a) None (Some (FromDecision decision)) (Some risk_result))).

(** The first reason code of the matched rules. *)
Definition reason_of (matched : list MatchedRule) : string :=
  default "RULES_DECLINE" (head (omap (fun r => str_or_none (mr_reason_code r)) matched)).

Definition unified_rules (a : AuthorizeRequest) : PM (option refusal) :=
  timestamp ← now W;
  answer ← gets (evaluate_with_db
    (MkRuleEvaluationContext timestamp (az_client_id a) (az_card_id a) (az_amount a) (az_currency a)));
  let '(policy, matched) := (answer : UnifiedRulePolicy.UnifiedRulePolicy * list MatchedRule) in
  if (policy =? UnifiedRulePolicy.ALLOW)%py then mret None
  else mret (Some (MkRefusal (reason_of matched) (az_tariff_id a) None
    (Some (FromRules policy (map mr_code matched))) (Some RiskResult.MEDIUM))).

Definition limits_request (a : AuthorizeRequest) : CheckAndReserveRequest :=
  MkCheckAndReserveRequest (Some (az_client_id a)) (Some (az_card_id a)) (Some (az_merchant_id a))
    (Some (az_terminal_id a)) (az_amount a) (az_currency a) "AUTH" (az_client_group_id a) (az_card_group_id a)
    (az_product_category a) (az_product_type a) (az_mcc a) (az_tx_type a).

(** The second answer of the decision engine; the level is converted before the outcome is
    looked at. *)
Definition second_decision (a : AuthorizeRequest) (limit_result : CheckAndReserveResult)
    : PM (refusal + DecisionResult) :=
  decision_result ← evaluate (MkDecisionContext 0 (az_client_id a) "SYSTEM" "PAYMENT" (az_amount a) None None
    None None [("subject_id", PStr (az_ext_operation_id a))]);
  if (dr_outcome decision_result =? DecisionOutcome.ALLOW)%py then mret (inr decision_result)
  else
    converted ← _decision_risk_to_result (dr_risk_level decision_result);
    mret (inl (MkRefusal (if is_review decision_result then "RISK_MANUAL_REVIEW" else "RISK_SCORE_DECLINE")
      (az_tariff_id a) (Some (RuleCheck limit_result)) (Some (FromDecision decision_result))
      (Some (if is_review decision_result then RiskResult.MANUAL_REVIEW else converted)))).

(** [_evaluate_risk]: an engine that rejects the argument [db] is asked again without it. *)
Definition _evaluate_risk (context : OperationContext) : PM RiskEvaluation :=
  try_except (evaluate_risk_sync context)
    (fun e => match e with TypeError => Some (evaluate_risk_sync context) | _ => None end).

Definition risk_context (a : AuthorizeRequest) (created_at : Z) : OperationContext :=
  MkOperationContext (az_client_id a) (az_card_id a) (az_terminal_id a) (az_merchant_id a) (az_product_id a)
    (az_product_type a) (az_amount a) (az_currency a) (az_quantity a) (az_unit_price a) (az_product_category a)
    (az_mcc a) (az_tx_type a) created_at (az_client_group_id a) (az_card_group_id a).

Definition risk_check (a : AuthorizeRequest) (limit_result : CheckAndReserveResult)
    (risk_evaluation : option RiskEvaluation) : PM (refusal + RiskEvaluation) :=
  created_at ← now W;
  evaluation ← match risk_evaluation with
               | Some e => mret e
               | None => _evaluate_risk (risk_context a created_at)
               end;
  let risk_level := _to_risk_level (re_level evaluation) in
  let refused reason := mret (inl (MkRefusal reason None (Some (RuleCheck limit_result))
    (Some (FromRisk evaluation None)) (Some risk_level))) in
  if (re_level evaluation =? RiskDecisionLevel.HARD_DECLINE)%py then refused "RISK_HARD_DECLINE"
  else if strict_high && (risk_level =? RiskResult.HIGH)%py then refused "RISK_HIGH"
  else mret (inr evaluation).

(** What an authorised operation records of its checks. *)
Record clearance := MkClearance {
  clr_limits : CheckAndReserveResult;
  clr_decision : DecisionResult;
  clr_risk : RiskEvaluation;
}.

Definition run_checks (a : AuthorizeRequest) (risk_evaluation : option RiskEvaluation) : PM (refusal + clearance) :=
  references ← check_parties a;
  match references with
  | inl code => mret (inl (MkRefusal code (az_tariff_id a) None None None))
  | inr p =>
      refused ← first_decision a p;
      match refused with Some r => mret (inl r) | None =>
      refused ← unified_rules a;
      match refused with Some r => mret (inl r) | None =>
      limit_result ← LimitsEngine.evaluate_limits_locally W (limits_request a);
      if negb (lim_approved limit_result)
      then mret (inl (MkRefusal "LIMIT_EXCEEDED" (az_tariff_id a) (Some (RuleCheck limit_result)) None None))
      else
      second ← second_decision a limit_result;
      match second with inl r => mret (inl r) | inr decision_result =>
      risk ← risk_check a limit_result risk_evaluation;
      match risk with inl r => mret (inl r) | inr evaluation =>
      violations ← LimitsService.check_contractual_limits W (az_client_id a) (az_card_id a) (az_amount a)
        (az_quantity a) (az_tariff_id a);
      match violations with
      | [] => mret (inr (MkClearance limit_result decision_result evaluation))
      | _ => mret (inl (MkRefusal "LIMIT_EXCEEDED_CONTRACT" (az_tariff_id a) (Some (Violations violations))
               (Some (FromRisk evaluation (Some decision_result))) (Some (_to_risk_level (re_level evaluation)))))
      end end end end end
  end.

(** ** Declined and authorised operations *)

Definition declined_row (a : AuthorizeRequest) (r : refusal) (id : string) (created_at : Z) : Operation := {|
  op_id := id; op_operation_id := az_ext_operation_id a; op_created_at := created_at;
  op_operation_type := OperationType.DECLINE; op_status := OperationStatus.DECLINED;
  op_merchant_id := az_merchant_id a; op_terminal_id := az_terminal_id a; op_client_id := az_client_id a;
  op_card_id := az_card_id a; op_tariff_id := dl_tariff_id r; op_product_id := az_product_id a;
  op_amount := az_amount a; op_amount_settled := Some 0; op_currency := az_currency a;
  op_product_type := az_product_type a; op_quantity := None; op_unit_price := None;
  op_captured_amount := 0; op_refunded_amount := 0; op_daily_limit := None; op_limit_per_tx := None;
  op_used_today := None; op_new_used_today := None; op_limit_profile_id := None;
  op_limit_check_result := dl_limit_payload r; op_authorized := false; op_response_code := dl_reason r;
  op_auth_code := None; op_parent_operation_id := None; op_reason := None; op_mcc := None;
  op_product_code := None; op_product_category := None; op_tx_type := None; op_accounts := None;
  op_posting_result := None; op_risk_score := None; op_risk_result := dl_risk_result r;
  op_risk_payload := dl_risk_payload r |}.

Definition decline_operation (a : AuthorizeRequest) (r : refusal) : PM Operation :=
  existing ← _fetch_operation_by_ext_id (az_ext_operation_id a);
  match existing with
  | Some operation => mret operation
  | None =>
      op ← insert_operation W (declined_row a r);
      commit;;
      best_effort audit_log_entry;;
      mret op
  end.

Definition authorized_row (a : AuthorizeRequest) (c : clearance) (auth_code id : string) (created_at : Z) : Operation :=
  let limit_result := clr_limits c in {|
  op_id := id; op_operation_id := az_ext_operation_id a; op_created_at := created_at;
  op_operation_type := OperationType.AUTH; op_status := OperationStatus.AUTHORIZED;
  op_merchant_id := az_merchant_id a; op_terminal_id := az_terminal_id a; op_client_id := az_client_id a;
  op_card_id := az_card_id a; op_tariff_id := az_tariff_id a; op_product_id := az_product_id a;
  op_amount := az_amount a; op_amount_settled := Some 0; op_currency := az_currency a;
  op_product_type := az_product_type a; op_quantity := az_quantity a; op_unit_price := az_unit_price a;
  op_captured_amount := 0; op_refunded_amount := 0; op_daily_limit := Some (lim_daily_limit limit_result);
  op_limit_per_tx := Some (lim_limit_per_tx limit_result); op_used_today := Some (lim_used_today limit_result);
  op_new_used_today := Some (lim_new_used_today limit_result);
  op_limit_profile_id := lim_applied_rule_id limit_result;
  op_limit_check_result := Some (RuleCheck limit_result); op_authorized := true; op_response_code := "00";
  op_auth_code := Some auth_code; op_parent_operation_id := None; op_reason := None; op_mcc := az_mcc a;
  op_product_code := None; op_product_category := az_product_category a; op_tx_type := az_tx_type a;
  op_accounts := None; op_posting_result := None; op_risk_score := re_score (clr_risk c);
  op_risk_result := Some (_to_risk_level (re_level (clr_risk c)));
  op_risk_payload := Some (FromRisk (clr_risk c) (Some (clr_decision c))) |}.

Definition posted (posting_meta : PostingResult) (o : Operation) : Operation :=
  set_op_status OperationStatus.POSTED
    (set_op_posting_result (Some posting_meta) (set_op_accounts (po_accounts posting_meta) o)).

Definition post_operation (operation : Operation) (simulate_posting_error : bool) : PM Operation :=
  if simulate_posting_error then raise (RuntimeError "POSTING_SIMULATED_FAILURE")
  else
    posting_meta ← _perform_posting operation;
    operation ← assign_operation (posted posting_meta) operation;
    commit;;
    mret operation.

Definition posting_error (o : Operation) : Operation :=
  set_op_response_code "POSTING_ERROR" (set_op_status OperationStatus.DECLINED o).

(** What is left of an operation whose posting failed. *)
Definition posting_failed {A} (ext_operation_id : string) : PM A :=
  rollback;;
  try_except
    (failing ← _fetch_operation_by_ext_id ext_operation_id;
     match failing with
     | Some o => _ ← assign_operation posting_error o; commit
     | None => mret tt
     end)
    (fun _ => Some rollback);;
  raise (PostingFailed "POSTING_FAILED").

Definition authorize_operation (a : AuthorizeRequest) (risk_evaluation : option RiskEvaluation)
    (simulate_posting_error : bool) : PM Operation :=
  existing ← _fetch_operation_by_ext_id (az_ext_operation_id a);
  match existing with
  | Some operation => mret operation
  | None =>
      checked ← run_checks a risk_evaluation;
      match checked with
      | inl r => decline_operation a r
      | inr c =>
          auth_code ← uuid4 W;
          operation ← insert_operation W (authorized_row a c (String.substring 0 6 auth_code));
          commit;;
          operation ← try_except (post_operation operation simulate_posting_error)
            (fun _ => Some (posting_failed (az_ext_operation_id a)));
          best_effort audit_log_entry;;
          mret operation
      end
  end.

(** ** Commit, reverse, refund *)

Definition is_open (s : OperationStatus.OperationStatus) : bool :=
  bool_decide (s ∈ [OperationStatus.AUTHORIZED; OperationStatus.HELD; OperationStatus.POSTED; OperationStatus.APPROVED]).

Definition fetch_or_raise (operation_id : string) : PM Operation :=
  operation ← _fetch_operation_by_ext_id operation_id;
  match operation with
  | None => raise (InvalidOperationState "OPERATION_NOT_FOUND" None)
  | Some operation => mret operation
  end.

Definition capture_context (operation : Operation) (commit_amount : Z) : DecisionContext :=
  MkDecisionContext 0 (op_client_id operation) "SYSTEM" "PAYMENT_CAPTURE" commit_amount
    (Some (op_currency operation)) (Some "CARD") None None
    [("operation_id", PStr (op_operation_id operation)); ("subject_id", PStr (op_operation_id operation))].

(** The committed operation, its snapshot apart. *)
Definition completed (commit_amount : Z) (quantity : option Z) (o : Operation) : Operation :=
  let o := set_op_status OperationStatus.COMPLETED (set_op_amount_settled (Some commit_amount) o) in
  match quantity with None => o | Some _ => set_op_quantity quantity o end.

Definition commit_operation (operation_id : string) (amount : option Z) (quantity : option Z) : PM Operation :=
  operation ← fetch_or_raise operation_id;
  if negb (is_open (op_status operation)) then raise (InvalidOperationState "INVALID_STATE" None) else
  let commit_amount := default (op_amount operation) amount in
  if (commit_amount <=? 0) || (op_amount operation <? commit_amount)
  then raise (AmountExceeded "COMMIT_AMOUNT_INVALID") else
  decision ← evaluate (capture_context operation commit_amount);
  if (dr_outcome decision <>? DecisionOutcome.ALLOW)%py
  then raise (InvalidOperationState ("DECISION_" +:+ DecisionOutcome.value (dr_outcome decision)) None) else
  posting_result ← _merge_posting_snapshot (completed commit_amount quantity operation);
  operation ← assign_operation
    (fun o => set_op_posting_result posting_result (completed commit_amount quantity o)) operation;
  commit;;
  best_effort audit_log_entry;;
  mret operation.

Definition reversed (reason : option string) (o : Operation) : Operation :=
  set_op_reason reason (set_op_operation_type OperationType.REVERSE (set_op_status OperationStatus.REVERSED o)).

Definition reverse_operation (operation_id : string) (reason : option string) : PM Operation :=
  operation ← fetch_or_raise operation_id;
  if negb (is_open (op_status operation)) then
    raise (InvalidOperationState "INVALID_STATE"
      (Some ("cannot reverse " +:+ OperationStatus.value (op_status operation) +:+ " operation; use REFUND"))) else
  operation ← assign_operation (reversed reason) operation;
  commit;;
  best_effort audit_log_entry;;
  mret operation.

Definition is_refund_of (parent : Operation) (o : Operation) : bool :=
  (op_parent_operation_id o =? Some (op_operation_id parent))%py && (op_operation_type o =? OperationType.REFUND)%py.

(** [parent.amount_settled or parent.amount] *)
Definition refundable (parent : Operation) : Z := int_or (default 0 (op_amount_settled parent)) (op_amount parent).

Definition refund_row (parent : Operation) (refund_ext_id : string) (amount : Z) (reason : option string)
    (id : string) (created_at : Z) : Operation := {|
  op_id := id; op_operation_id := refund_ext_id; op_created_at := created_at;
  op_operation_type := OperationType.REFUND; op_status := OperationStatus.REFUNDED;
  op_merchant_id := op_merchant_id parent; op_terminal_id := op_terminal_id parent;
  op_client_id := op_client_id parent; op_card_id := op_card_id parent; op_tariff_id := None;
  op_product_id := op_product_id parent; op_amount := amount; op_amount_settled := Some amount;
  op_currency := op_currency parent; op_product_type := op_product_type parent; op_quantity := None;
  op_unit_price := None; op_captured_amount := 0; op_refunded_amount := amount; op_daily_limit := None;
  op_limit_per_tx := None; op_used_today := None; op_new_used_today := None; op_limit_profile_id := None;
  op_limit_check_result := None; op_authorized := false; op_response_code := "00"; op_auth_code := None;
  op_parent_operation_id := Some (op_operation_id parent); op_reason := reason; op_mcc := op_mcc parent;
  op_product_code := None; op_product_category := op_product_category parent; op_tx_type := op_tx_type parent;
  op_accounts := None; op_posting_result := None; op_risk_score := op_risk_score parent;
  op_risk_result := op_risk_result parent; op_risk_payload := op_risk_payload parent |}.

Definition refund_operation (original_operation_id : string) (amount : Z) (reason : option string) : PM Operation :=
  parent ← fetch_or_raise original_operation_id;
  if (op_status parent <>? OperationStatus.COMPLETED)%py then raise (InvalidOperationState "INVALID_STATE" None) else
  refunded_total ← q_all (fun d => operations (scenario d)) (is_refund_of parent);
  if refundable parent <? sum_of op_amount refunded_total + amount then raise (AmountExceeded "REFUND_TOO_LARGE") else
  refund_ext_id ← uuid4 W;
  refund_op ← insert_operation W (refund_row parent refund_ext_id amount reason);
  commit;;
  posting_meta ← _perform_refund_posting refund_op amount;
  let posted := fun o => set_op_posting_result (Some posting_meta) (set_op_accounts (po_accounts posting_meta) o) in
  posting_result ← _merge_posting_snapshot (posted refund_op);
  refund_op ← assign_operation (fun o => set_op_posting_result posting_result (posted o)) refund_op;
  commit;;
  best_effort audit_log_entry;;
  mret refund_op.
End Service.
End TransactionsService.

(** ** The split of an amount *)

Section Split.
Import Commission.

(** A rounded quotient is within a half of the quotient. *)
Lemma round_half_up_near a b : 0 < b -> 2 * Z.abs (b * round_half_up a b - a) <= b.
Proof.
  intros Hb. unfold round_half_up. set (q := (2 * Z.abs a + b) / (2 * b)).
  pose proof (Z.div_mod (2 * Z.abs a + b) (2 * b) ltac:(lia)) as Hq. fold q in Hq.
  pose proof (Z.mod_pos_bound (2 * Z.abs a + b) (2 * b) ltac:(lia)) as Hm.
  destruct (Z.ltb_spec a 0); nia.
Qed.

Lemma round_half_up_opp a b : 0 < b -> round_half_up (- a) b = - round_half_up a b.
Proof.
  intros Hb. unfold round_half_up. rewrite Z.abs_opp.
  destruct (Z.ltb_spec (- a) 0), (Z.ltb_spec a 0); try lia. assert (a = 0) as -> by lia. cbn [Z.abs].
  rewrite Z.div_small by lia. done.
Qed.

Lemma round_half_up_nonneg a b : 0 < b -> 0 <= a -> 0 <= round_half_up a b.
Proof.
  intros Hb Ha. unfold round_half_up. destruct (Z.ltb_spec a 0); [lia|]. apply Z.div_pos; lia.
Qed.

(** C31 the split of an operation writes nothing, takes the gross amount with the sign of
    the operation, and its parts add up to the gross amount but for one unit at most, at
    any rate below 200%; the parts of a positive amount are not negative, and those of a
    negative amount are the opposites of the parts of the positive one, so that a refund
    undoes the split of what it refunds. *)
Theorem commission_split_bounded W rate o s : 0 <= Qnum rate < 2 * Zpos (Qden rate) ->
  exists c t, compute_posting_result W rate o s = (Ok c, t) /\ live t = live s /\ saved t = saved s /\
    let gross := _resolve_gross_amount o in
    cs_gross_amount c = gross /\ Z.abs (cs_base_cost c + cs_platform_commission c - gross) <= 1 /\
    (0 <= gross -> 0 <= cs_base_cost c <= gross /\ 0 <= cs_platform_commission c) /\
    base_cost (- gross) rate = - cs_base_cost c /\
    platform_commission (- cs_base_cost c) rate = - cs_platform_commission c.
Proof.
  intros Hr. eexists _, _. split; [reflexivity|]. split; [done|]. split; [done|]. cbv zeta.
  cbn [cs_gross_amount cs_base_cost cs_platform_commission]. set (g := _resolve_gross_amount o).
  set (n := Qnum rate) in *. set (d := Zpos (Qden rate)) in *. assert (0 < d) as Hd by (unfold d; lia).
  pose proof (round_half_up_near (g * d) (d + n) ltac:(lia)) as H1. fold (base_cost g rate) in H1.
  pose proof (round_half_up_near (base_cost g rate * n) d Hd) as H2. fold (platform_commission (base_cost g rate) rate) in H2.
  change (round_half_up (g * d) (d + n)) with (base_cost g rate) in H1.
  change (round_half_up (base_cost g rate * n) d) with (platform_commission (base_cost g rate) rate) in H2.
  split; [done|]. split; [|split; [|split]].
  - set (b := base_cost g rate) in *. set (p := platform_commission b rate) in *. clearbody b p g n d.
    assert (Z.abs (d * (b + p - g)) < 2 * d) by lia. nia.
  - intros Hg. assert (0 <= base_cost g rate) by (apply round_half_up_nonneg; nia).
    split; [split; [done|]|apply round_half_up_nonneg; [done|fold n; nia]]. set (b := base_cost g rate) in *. clearbody b. nia.
  - unfold base_cost. fold d n. rewrite <- round_half_up_opp by lia. f_equal. lia.
  - unfold platform_commission. fold d n. rewrite <- round_half_up_opp by lia. f_equal. lia.
Qed.

(** At one percent, 50 is split into 50 and 1. *)
Example split_of_50 : base_cost 50 (1 # 100) = 50 /\ platform_commission 50 (1 # 100) = 1.
Proof. done. Qed.
End Split.

Lemma commission_split_bounded_witness : exists c t,
  Commission.compute_posting_result demo_world (1 # 100) (sample_operation "a" 50 0) (fresh_session empty_db) = (Ok c, t) /\
  cs_gross_amount c = 50 /\ Z.abs (cs_base_cost c + cs_platform_commission c - 50) <= 1.
Proof.
  destruct (commission_split_bounded demo_world (1 # 100) (sample_operation "a" 50 0) (fresh_session empty_db))
    as (c & t & Hr & _ & _ & Hg & Hb & _); [simpl; lia|]. by exists c, t.
Defined.
