(* ===== verification/Captures.v ===== *)
(** * Captures, refunds and reversals of authorisations (services/transactions.py)

    The lifecycle of an authorisation as a family of operations: captures with their
    refunds, or a reversal, and the transactions reported from them; with the endpoints of
    api/v1/endpoints/transactions.py. *)
From Stdlib Require Import Ascii SpecFloat QArith.
From S2P Require Import Prelude Json Enums Models AuditTrail Decisions Limits Transactions.
#[local] Open Scope Z_scope.

Module Lifecycle.
Section Service.
Context (W : world Db).

(** [...with_for_update().first()] *)
Definition _get_operation_or_error (operation_id : string) : PM Operation :=
  op ← q_first (fun d => operations (scenario d)) (fun o => (op_operation_id o =? operation_id)%py);
  match op with
  | None => raise (ParentNotFound operation_id)
  | Some op => mret op
  end.

(** The row of a capture, a refund or a reversal: the columns of its parent with a type, a
    status and an amount of its own. *)
Definition child_row (parent : Operation) (operation_type : OperationType.OperationType)
    (status : OperationStatus.OperationStatus) (amount : Z) (operation_id id : string) (created_at : Z)
    : Operation := {|
  op_id := id; op_operation_id := operation_id; op_created_at := created_at;
  op_operation_type := operation_type; op_status := status;
  op_merchant_id := op_merchant_id parent; op_terminal_id := op_terminal_id parent;
  op_client_id := op_client_id parent; op_card_id := op_card_id parent; op_tariff_id := None;
  op_product_id := None; op_amount := amount; op_amount_settled := Some 0; op_currency := op_currency parent;
  op_product_type := None; op_quantity := None; op_unit_price := None; op_captured_amount := 0;
  op_refunded_amount := 0; op_daily_limit := None; op_limit_per_tx := None; op_used_today := None;
  op_new_used_today := None; op_limit_profile_id := None; op_limit_check_result := None;
  op_authorized := false; op_response_code := "00"; op_auth_code := None;
  op_parent_operation_id := Some (op_operation_id parent); op_reason := None; op_mcc := op_mcc parent;
  op_product_code := op_product_code parent; op_product_category := op_product_category parent;
  op_tx_type := op_tx_type parent; op_accounts := None; op_posting_result := None; op_risk_score := None;
  op_risk_result := None; op_risk_payload := None |}.

(** A child is added, the parent is changed, both are committed. *)
Definition add_child (parent : Operation) (operation_type : OperationType.OperationType)
    (status : OperationStatus.OperationStatus) (amount : Z) (update : Operation -> Operation) : PM Operation :=
  operation_id ← uuid4 W;
  child ← insert_operation W (child_row parent operation_type status amount operation_id);
  _ ← assign_operation update parent;
  commit;;
  mret child.

(** The new total of an authorisation's captures, and its status. *)
Definition captured (capture_amount : Z) (o : Operation) : Operation :=
  let captured_amount := op_captured_amount o + capture_amount in
  set_op_status (if op_amount o <=? captured_amount then OperationStatus.CAPTURED else OperationStatus.AUTHORIZED)
    (set_op_captured_amount captured_amount o).

Definition capture_operation (auth_operation_id : string) (amount : option Z) : PM Operation :=
  auth_op ← _get_operation_or_error auth_operation_id;
  if (op_operation_type auth_op <>? OperationType.AUTH)%py
  then raise (InvalidState "only AUTH operations can be captured") else
  if negb (bool_decide (op_status auth_op ∈ [OperationStatus.AUTHORIZED; OperationStatus.CAPTURED]))
  then raise (InvalidState "auth is not in a capturable state") else
  let remaining := op_amount auth_op - op_captured_amount auth_op in
  if remaining <=? 0 then raise (InvalidState "authorization already fully captured") else
  let capture_amount := default remaining amount in
  if capture_amount <=? 0 then raise (InvalidState "capture amount must be positive") else
  if remaining <? capture_amount then raise (AmountTooLarge "capture amount exceeds authorized remainder") else
  add_child auth_op OperationType.CAPTURE OperationStatus.CAPTURED capture_amount (captured capture_amount).

(** The new total of a capture's refunds, and its status. *)
Definition refunded (refund_amount : Z) (o : Operation) : Operation :=
  let refunded_amount := op_refunded_amount o + refund_amount in
  set_op_status (if op_amount o <=? refunded_amount then OperationStatus.REFUNDED else OperationStatus.CAPTURED)
    (set_op_refunded_amount refunded_amount o).

Definition refund_operation (captured_operation_id : string) (amount : option Z) : PM Operation :=
  capture_op ← _get_operation_or_error captured_operation_id;
  if (op_operation_type capture_op <>? OperationType.CAPTURE)%py
  then raise (InvalidState "only CAPTURE operations can be refunded") else
  if negb (bool_decide (op_status capture_op ∈ [OperationStatus.CAPTURED; OperationStatus.REFUNDED]))
  then raise (InvalidState "capture is not refundable") else
  let remaining := op_amount capture_op - op_refunded_amount capture_op in
  let refund_amount := default remaining amount in
  if refund_amount <=? 0 then raise (InvalidState "refund amount must be positive") else
  if remaining <? refund_amount then raise (AmountTooLarge "refund amount exceeds captured remainder") else
  add_child capture_op OperationType.REFUND OperationStatus.REFUNDED refund_amount (refunded refund_amount).

Definition is_child_of (parent : Operation) (o : Operation) : bool :=
  (op_parent_operation_id o =? Some (op_operation_id parent))%py.

Definition is_capture (o : Operation) : bool := (op_operation_type o =? OperationType.CAPTURE)%py.

Definition reverse_auth (auth_operation_id : string) : PM Operation :=
  auth_op ← _get_operation_or_error auth_operation_id;
  if (op_operation_type auth_op <>? OperationType.AUTH)%py
  then raise (InvalidState "only AUTH operations can be reversed") else
  children ← q_all (fun d => operations (scenario d)) (is_child_of auth_op);
  if existsb is_capture children then raise (InvalidState "cannot reverse auth with captures") else
  add_child auth_op OperationType.REVERSAL OperationStatus.REVERSED (op_amount auth_op)
    (set_op_status OperationStatus.REVERSED).
End Service.
End Lifecycle.

(** ** The transactions reported *)
Module Reports.
Definition has_type (t : OperationType.OperationType) (o : Operation) : bool := (op_operation_type o =? t)%py.

Definition child_of (id : string) (o : Operation) : bool := (op_parent_operation_id o =? Some id)%py.

Definition find_by_id (operations : list Operation) (id : string) : option Operation :=
  last (List.filter (fun o => (op_operation_id o =? id)%py) operations).

(** The root of an operation among [auth_ids], at most five parents up. *)
Fixpoint root_of (fuel : nat) (operations : list Operation) (auth_ids : list string) (current : Operation)
    : option string :=
  match fuel, str_or_none (op_parent_operation_id current) with
  | O, _ | _, None => None
  | S fuel, Some parent_id =>
      match find_by_id operations parent_id with
      | None => None
      | Some parent =>
          if has_type OperationType.AUTH parent && bool_decide (op_operation_id parent ∈ auth_ids)
          then Some (op_operation_id parent)
          else root_of fuel operations auth_ids parent
      end
  end.

Definition group_key (operations : list Operation) (auth_ids : list string) (op : Operation) : option string :=
  if has_type OperationType.AUTH op && bool_decide (op_operation_id op ∈ auth_ids)
  then Some (op_operation_id op) else root_of 5 operations auth_ids op.

(** The operations of each authorisation. *)
Definition _group_operations_by_auth (operations : list Operation) (auth_ids : list string) (auth_id : string)
    : list Operation :=
  if bool_decide (auth_id ∈ auth_ids)
  then List.filter (fun op => (group_key operations auth_ids op =? Some auth_id)%py) operations else [].

Definition _determine_status (authorized_amount captured_amount refunded_amount : Z) (operations : list Operation)
    : string :=
  if authorized_amount <=? 0 then "ERROR"
  else if existsb (fun op => has_type OperationType.REVERSAL op || has_type OperationType.REVERSE op) operations
  then "CANCELLED"
  else if (0 <? refunded_amount) && (captured_amount <=? refunded_amount) then "REFUNDED"
  else if (0 <? refunded_amount) && (0 <? captured_amount) then "PARTIALLY_REFUNDED"
  else if authorized_amount <=? captured_amount then "CAPTURED"
  else if 0 <? captured_amount then "PARTIALLY_CAPTURED"
  else if captured_amount =? 0 then "AUTHORIZED"
  else "ERROR".

Definition derive_tx_type (product_category mcc : option string) : option string :=
  match upper <$> str_or_none product_category with
  | Some category =>
      if String.prefix "DIESEL" category || String.prefix "GASOLINE" category || String.prefix "GAS" category
      then Some "FUEL" else Some "OTHER"
  | None => if bool_decide (str_or_none mcc ∈ [Some "5541"; Some "5542"]) then Some "FUEL" else None
  end.

(** [TransactionSchema] *)
Record TransactionSchema := MkTransactionSchema {
  ts_transaction_id : string;
  ts_created_at : Z;
  ts_updated_at : Z;
  ts_merchant_id : string;
  ts_terminal_id : string;
  ts_client_id : string;
  ts_card_id : string;
  ts_currency : string;
  ts_authorized_amount : Z;
  ts_captured_amount : Z;
  ts_refunded_amount : Z;
  ts_status : string;
  ts_operation_types : list string;
  ts_auth_operation : Operation;
  ts_last_operation : Operation;
  ts_mcc : option string;
  ts_product_code : option string;
  ts_product_category : option string;
  ts_tx_type : option string;
}.

(** [max(operations, key=...)] keeps the first of the greatest, [sorted(...)[0]] the first of
    the least. *)
Definition later (a b : Operation) : Operation := if op_created_at a <? op_created_at b then b else a.
Definition earlier (a b : Operation) : Operation := if op_created_at b <? op_created_at a then b else a.
Definition later_by_id (a b : Operation) : Operation :=
  if (op_created_at a <? op_created_at b) ||
     ((op_created_at a =? op_created_at b) && negb (bool_decide (String.le (op_operation_id b) (op_operation_id a))))
  then b else a.

Definition captures_of (auth_id : string) (operations : list Operation) : list Operation :=
  List.filter (fun op => (has_type OperationType.CAPTURE op || has_type OperationType.COMMIT op) &&
    child_of auth_id op) operations.

Definition refunds_of (auth_id : string) (capture_ids : list string) (operations : list Operation) : list Operation :=
  List.filter (fun op => has_type OperationType.REFUND op && (child_of auth_id op ||
    match str_or_none (op_parent_operation_id op) with
    | Some parent => bool_decide (parent ∈ capture_ids)
    | None => false
    end)) operations.

Definition build_transaction_from_operations (operations : list Operation) : option TransactionSchema :=
  match operations, List.filter (has_type OperationType.AUTH) operations with
  | first :: rest, auth :: auths =>
      let auth_operation := fold_left earlier auths auth in
      let auth_id := op_operation_id auth_operation in
      let captures := captures_of auth_id operations in
      let refunds := refunds_of auth_id (map op_operation_id captures) operations in
      let authorized_amount := sum_of op_amount (auth :: auths) in
      let captured_amount := sum_of op_amount captures in
      let refunded_amount := sum_of op_amount refunds in
      Some {|
        ts_transaction_id := auth_id; ts_created_at := op_created_at auth_operation;
        ts_updated_at := op_created_at (fold_left later rest first);
        ts_merchant_id := op_merchant_id auth_operation; ts_terminal_id := op_terminal_id auth_operation;
        ts_client_id := op_client_id auth_operation; ts_card_id := op_card_id auth_operation;
        ts_currency := op_currency auth_operation; ts_authorized_amount := authorized_amount;
        ts_captured_amount := captured_amount; ts_refunded_amount := refunded_amount;
        ts_status := _determine_status authorized_amount captured_amount refunded_amount operations;
        ts_operation_types := merge_sort String.le (remove_dups (map (fun op => OperationType.value (op_operation_type op)) operations));
        ts_auth_operation := auth_operation; ts_last_operation := fold_left later_by_id rest first;
        ts_mcc := op_mcc auth_operation; ts_product_code := op_product_code auth_operation;
        ts_product_category := op_product_category auth_operation;
        ts_tx_type := match str_or_none (op_tx_type auth_operation) with
                      | Some t => Some t
                      | None => derive_tx_type (op_product_category auth_operation) (op_mcc auth_operation)
                      end |}
  | _, _ => None
  end.

(** [order_by(created_at.asc(), operation_id.asc())] *)
Definition oldest_first (a b : Operation) : Prop :=
  op_created_at a < op_created_at b \/
  (op_created_at a = op_created_at b /\ String.le (op_operation_id a) (op_operation_id b)).

#[global] Instance oldest_first_dec : RelDecision oldest_first.
Proof. intros a b. unfold oldest_first. apply _. Defined.

Definition newest_first (a b : Operation) : Prop := oldest_first b a.

#[global] Instance newest_first_dec : RelDecision newest_first.
Proof. intros a b. unfold newest_first. apply _. Defined.

(** The families of the authorisations: the authorisations and their children, then the
    refunds of their captures. *)
Definition _fetch_operations_for_auths (d : Db) (auth_ids : list string) : list Operation :=
  let all := operations (scenario d) in
  let family := merge_sort oldest_first (List.filter (fun op =>
    bool_decide (op_operation_id op ∈ auth_ids) ||
    match op_parent_operation_id op with Some p => bool_decide (p ∈ auth_ids) | None => false end) all) in
  let capture_ids := map op_operation_id (List.filter (fun op => has_type OperationType.CAPTURE op &&
    match op_parent_operation_id op with Some p => bool_decide (p ∈ auth_ids) | None => false end) family) in
  family ++ merge_sort oldest_first (List.filter (fun op => has_type OperationType.REFUND op &&
    match op_parent_operation_id op with Some p => bool_decide (p ∈ capture_ids) | None => false end) all).

(** The filters of [list_transactions]. *)
Record transaction_query := MkTransactionQuery {
  tq_limit : nat;
  tq_offset : nat;
  tq_client_id : option string;
  tq_card_id : option string;
  tq_merchant_id : option string;
  tq_terminal_id : option string;
  tq_status : option string;
  tq_from_created_at : option Z;
  tq_to_created_at : option Z;
}.

Definition wanted_auth (q : transaction_query) (op : Operation) : bool :=
  has_type OperationType.AUTH op &&
  LimitsEngine.of_party (tq_client_id q) (op_client_id op) && LimitsEngine.of_party (tq_card_id q) (op_card_id op) &&
  LimitsEngine.of_party (tq_merchant_id q) (op_merchant_id op) &&
  LimitsEngine.of_party (tq_terminal_id q) (op_terminal_id op) &&
  from_option (fun t => t <=? op_created_at op) true (tq_from_created_at q) &&
  from_option (fun t => op_created_at op <=? t) true (tq_to_created_at q).

(** The key of [created_at_desc]: the newest first, then by id. *)
Definition listed_before (a b : TransactionSchema) : Prop :=
  ts_created_at b < ts_created_at a \/
  (ts_created_at a = ts_created_at b /\ String.le (ts_transaction_id a) (ts_transaction_id b)).

#[global] Instance listed_before_dec : RelDecision listed_before.
Proof. intros a b. unfold listed_before. apply _. Defined.

(** [list_transactions] as its endpoint calls it: the page and the total. *)
Definition list_transactions (q : transaction_query) (d : Db) : list TransactionSchema * nat :=
  let auth_operations := merge_sort newest_first (List.filter (wanted_auth q) (operations (scenario d))) in
  let auth_ids := map op_operation_id auth_operations in
  let fetched := _fetch_operations_for_auths d auth_ids in
  let transactions := omap (fun auth =>
    build_transaction_from_operations (_group_operations_by_auth fetched auth_ids (op_operation_id auth)))
    auth_operations in
  let transactions := match str_or_none (tq_status q) with
                      | Some status => List.filter (fun tx => (ts_status tx =? status)%py) transactions
                      | None => transactions
                      end in
  let transactions := merge_sort listed_before transactions in
  (take (tq_limit q) (drop (tq_offset q) transactions), length transactions).

Definition get_transaction (transaction_id : string) (d : Db) : option (TransactionSchema * list Operation) :=
  let operations := merge_sort oldest_first (List.filter (fun op =>
    (op_operation_id op =? transaction_id)%py || child_of transaction_id op) (operations (scenario d))) in
  match build_transaction_from_operations operations with
  | None => None
  | Some transaction => Some (transaction, operations)
  end.

(** [get_operation_timeline] of services/operations_query.py *)
Definition get_operation_timeline (operation_id : string) (d : Db) : list Operation :=
  match head (List.filter (fun op => (op_operation_id op =? operation_id)%py) (operations (scenario d))) with
  | None => []
  | Some _ => merge_sort oldest_first (List.filter (fun op =>
      (op_operation_id op =? operation_id)%py || child_of operation_id op) (operations (scenario d)))
  end.
End Reports.

(** ** The endpoints (api/v1/endpoints/transactions.py) *)
Module TransactionsApi.
Section Api.
Context (W : world Db) `{DecisionService} `{RulesService} `{RiskService} `{DatabaseZone} (rate : Q) (strict_high : bool).
Import TransactionsService.

(** [AuthorizeResponse], the message apart. *)
Record AuthorizeResponse := MkAuthorizeResponse {
  ar_approved : bool;
  ar_operation_id : string;
  ar_status : OperationStatus.OperationStatus;
  ar_auth_code : option string;
  ar_response_code : string;
  ar_risk_result : option RiskResult.RiskResult;
  ar_risk_score : option spec_float;
  ar_limit_check_result : option limit_payload;
}.

Definition authorize (body : AuthorizeRequest) : PM AuthorizeResponse :=
  operation ← try_except (authorize_operation W strict_high body None false)
    (fun e => match e with
              | IntegrityError _ => Some (rollback;; raise (HTTPException 400 "INVALID_OPERATION_STATUS"))
              | _ => Some (rollback;; raise e)
              end);
  mret (MkAuthorizeResponse
    (bool_decide (op_status operation ∈ [OperationStatus.AUTHORIZED; OperationStatus.APPROVED; OperationStatus.POSTED]))
    (op_operation_id operation) (op_status operation) (op_auth_code operation) (op_response_code operation)
    (op_risk_result operation) (op_risk_score operation) (op_limit_check_result operation)).

Definition commit (operation_id : string) (amount quantity : option Z) : PM Operation :=
  try_except (commit_operation W rate operation_id amount quantity)
    (fun e => match e with
              | AmountExceeded _ => Some (raise (HTTPFrom 400 e))
              | InvalidOperationState _ _ => Some (raise (HTTPFrom 409 e))
              | _ => Some (raise (HTTPFrom 400 e))
              end).

Definition reverse (operation_id : string) (reason : option string) : PM Operation :=
  try_except (reverse_operation operation_id reason)
    (fun e => match e with InvalidOperationState _ _ => Some (raise (HTTPFrom 409 e)) | _ => None end).

Definition refund (operation_id : string) (amount : Z) (reason : option string) : PM Operation :=
  try_except (refund_operation W rate operation_id amount reason)
    (fun e => match e with
              | AmountExceeded _ => Some (raise (HTTPFrom 400 e))
              | InvalidOperationState _ _ => Some (raise (HTTPFrom 409 e))
              | _ => None
              end).

Definition lifecycle_errors (e : exn) : option (PM Operation) :=
  match e with
  | ParentNotFound _ => Some (raise (HTTPException 404 "operation not found"))
  | AmountTooLarge _ => Some (raise (HTTPFrom 400 e))
  | InvalidState _ => Some (raise (HTTPFrom 409 e))
  | _ => None
  end.

Definition capture_transaction_endpoint (auth_operation_id : string) (amount : option Z) : PM Operation :=
  try_except (Lifecycle.capture_operation W auth_operation_id amount) lifecycle_errors.

Definition refund_transaction_endpoint (capture_operation_id : string) (amount : option Z) : PM Operation :=
  try_except (Lifecycle.refund_operation W capture_operation_id amount) lifecycle_errors.

Definition reverse_transaction_endpoint (auth_operation_id : string) : PM Operation :=
  try_except (Lifecycle.reverse_auth W auth_operation_id) lifecycle_errors.

Definition list_transactions_endpoint (q : Reports.transaction_query)
    : PM (list Reports.TransactionSchema * nat) :=
  gets (Reports.list_transactions q).

Definition get_transaction_endpoint (transaction_id : string) : PM (Reports.TransactionSchema * list Operation) :=
  transaction ← gets (Reports.get_transaction transaction_id);
  match transaction with
  | None => raise (HTTPException 404 "transaction not found")
  | Some t => mret t
  end.

Definition get_transaction_timeline_endpoint (transaction_id : string) : PM (list Operation) :=
  operations_chain ← gets (Reports.get_operation_timeline transaction_id);
  match operations_chain with
  | [] => raise (HTTPException 404 "transaction not found")
  | _ => mret operations_chain
  end.
End Api.
End TransactionsApi.
