(* ===== verification/CardBooks.v ===== *)
(** * The books of card operations

    What the columns of an operation say of its captures and refunds ([family_ok]), the
    ledger whose balances are the sums of its entries ([ledger_ok]), and that every service
    of Transactions.v and Captures.v keeps both right in what it commits ([safe]). *)
From Stdlib Require Import QArith.
From S2P Require Import Prelude Doubles Json Enums Models AuditTrail Ledger Decisions Limits Transactions.
From S2P Require Import Captures.
#[local] Open Scope Z_scope.

(** ** Families of operations *)

Definition ops (d : Db) : list Operation := operations (scenario d).

Definition child (ty : OperationType.OperationType) (parent : string) (o : Operation) : bool :=
  (op_operation_type o =? ty)%py && (op_parent_operation_id o =? Some parent)%py.

(** The money of the children of a type. *)
Definition child_sum (ty : OperationType.OperationType) (parent : string) (l : list Operation) : Z :=
  sum_of op_amount (List.filter (child ty parent) l).

Definition parents_known (l : list Operation) : Prop :=
  forall o p, In o l -> op_parent_operation_id o = Some p -> In p (map op_operation_id l).

(** What the columns of an operation say of its children among [l]: captures make up the
    captured amount and stay within the amount; the refunds of a capture make up its
    refunded amount and stay within its amount, and it is refunded when they exhaust it;
    other refunds stay within what was settled; an open operation is an authorisation that
    nobody refunded; authorisations have no parent. *)
Record row_ok (l : list Operation) (o : Operation) : Prop := {
  captures_sum : op_captured_amount o = child_sum OperationType.CAPTURE (op_operation_id o) l;
  captures_cap : 0 <= op_captured_amount o <= Z.max 0 (op_amount o);
  full_capture : op_operation_type o = OperationType.AUTH -> op_status o = OperationStatus.CAPTURED ->
    op_captured_amount o = op_amount o;
  refunds_sum : op_operation_type o = OperationType.CAPTURE ->
    op_refunded_amount o = child_sum OperationType.REFUND (op_operation_id o) l /\
    0 <= op_refunded_amount o <= op_amount o /\
    (op_status o = OperationStatus.CAPTURED /\ op_refunded_amount o < op_amount o \/
     op_status o = OperationStatus.REFUNDED /\ op_refunded_amount o = op_amount o);
  refunds_cap : op_operation_type o <> OperationType.CAPTURE ->
    child_sum OperationType.REFUND (op_operation_id o) l <= Z.max 0 (TransactionsService.refundable o);
  open_ok : TransactionsService.is_open (op_status o) = true ->
    op_operation_type o = OperationType.AUTH /\
    List.filter (child OperationType.REFUND (op_operation_id o)) l = [];
  kind_ok : op_operation_type o <> OperationType.COMMIT /\
    (op_operation_type o = OperationType.AUTH -> op_parent_operation_id o = None);
}.

(** All rows but some are right. *)
Record family_except (skip : Operation -> Prop) (l : list Operation) : Prop := {
  ids_unique : List.NoDup (map op_id l);
  operation_ids_unique : List.NoDup (map op_operation_id l);
  parents_ok : parents_known l;
  rows_ok : forall o, In o l -> skip o \/ row_ok l o;
}.

Definition family_ok : list Operation -> Prop := family_except (fun _ => False).

(** *** Adding and changing rows *)

Lemma child_sum_snoc ty p l o :
  child_sum ty p (l ++ [o]) = child_sum ty p l + (if child ty p o then op_amount o else 0).
Proof. unfold child_sum. rewrite filter_snoc, sum_of_app. destruct (child ty p o); simpl; lia. Qed.

(** An identifier that is not in use has no children. *)
Lemma no_children l p ty : parents_known l -> ~ In p (map op_operation_id l) ->
  List.filter (child ty p) l = [].
Proof.
  intros Hp Hn. apply filter_none, List.Forall_forall. intros o Ho. unfold child.
  apply andb_false_iff. right. apply bool_decide_eq_false. intros E. by apply Hn, (Hp o p).
Qed.

Section Update.
Context (x : Operation) (f : Operation -> Operation).

(** The change of the columns of one row. *)
Definition updated : list Operation -> list Operation := update_row op_id x f.

Context (l : list Operation).
Hypothesis unique : List.NoDup (map op_id l).
Hypothesis present : In x l.
Hypothesis same_id : op_id (f x) = op_id x.

Lemma updated_rows o : In o (updated l) <-> o = f x \/ (In o l /\ op_id o <> op_id x).
Proof. by apply update_row_in. Qed.

Lemma updated_column {A} (g : Operation -> A) : g (f x) = g x -> map g (updated l) = map g l.
Proof. by apply update_row_column. Qed.

Lemma updated_filter (P : Operation -> bool) : P (f x) = P x -> List.filter P (updated l) = updated (List.filter P l).
Proof. by apply update_row_filter. Qed.

Lemma updated_child_sum ty p :
  op_operation_type (f x) = op_operation_type x \/ (op_operation_type x <> ty /\ op_operation_type (f x) <> ty) ->
  op_parent_operation_id (f x) = op_parent_operation_id x -> op_amount (f x) = op_amount x ->
  child_sum ty p (updated l) = child_sum ty p l.
Proof.
  intros Ht Hp Ha. unfold child_sum. rewrite updated_filter.
  - unfold updated, update_row, update_where. rewrite sum_of_map. apply sum_of_ext, List.Forall_forall.
    intros y [Hy _]%filter_In. unfold eqb. destruct (bool_decide_reflect (op_id y = op_id x)) as [E|E]; [|done].
    by rewrite (nodup_key op_id l y x).
  - unfold child. rewrite Hp. destruct Ht as [-> |[H1 H2]]; [done|]. unfold eqb.
    by rewrite (bool_decide_eq_false_2 _ H1), (bool_decide_eq_false_2 _ H2).
Qed.
End Update.

Lemma family_row l o : family_ok l -> In o l -> row_ok l o.
Proof. intros H Ho. by destruct (rows_ok _ _ H o Ho). Qed.

(** A row depends on the others through the sums of its children only. *)
Lemma row_ok_ext l l' o :
  child_sum OperationType.CAPTURE (op_operation_id o) l' = child_sum OperationType.CAPTURE (op_operation_id o) l ->
  child_sum OperationType.REFUND (op_operation_id o) l' = child_sum OperationType.REFUND (op_operation_id o) l ->
  (List.filter (child OperationType.REFUND (op_operation_id o)) l = [] ->
   List.filter (child OperationType.REFUND (op_operation_id o)) l' = []) ->
  row_ok l o -> row_ok l' o.
Proof. intros Hc Hr Hf []. split; rewrite ?Hc, ?Hr; auto. intros Ho. destruct (open_ok0 Ho). auto. Qed.

Lemma row_ok_snoc l o c : op_parent_operation_id c <> Some (op_operation_id o) -> row_ok l o -> row_ok (l ++ [c]) o.
Proof.
  intros Hc. assert (forall ty, child ty (op_operation_id o) c = false) as Hno.
  { intros ty. unfold child. apply andb_false_iff. right. by apply bool_decide_eq_false. }
  apply row_ok_ext; rewrite ?child_sum_snoc, ?filter_snoc, ?Hno; try lia. intros ->. done.
Qed.

(** A new operation whose ids are not in use: only its parent may become wrong. *)
Lemma family_add l c : family_ok l ->
  ~ In (op_id c) (map op_id l) -> ~ In (op_operation_id c) (map op_operation_id l) ->
  (forall p, op_parent_operation_id c = Some p -> In p (map op_operation_id l)) ->
  row_ok (l ++ [c]) c ->
  family_except (fun o => op_parent_operation_id c = Some (op_operation_id o)) (l ++ [c]).
Proof.
  intros [Hi Ho Hp Hr] Hic Hoc Hpc Hc. split.
  - rewrite map_app. by apply nodup_snoc.
  - rewrite map_app. by apply nodup_snoc.
  - intros o p Hin Hop. rewrite map_app, in_app_iff. left. apply in_app_iff in Hin as [Hin|[<-|[]]]; eauto.
  - intros o Hin. apply in_app_iff in Hin as [Hin|[<-|[]]]; [|by right].
    destruct (decide (op_parent_operation_id c = Some (op_operation_id o))) as [E|E]; [by left|].
    right. apply row_ok_snoc; [done|]. by destruct (Hr o Hin).
Qed.

(** The columns that place an operation in its family. *)
Definition same_place (x y : Operation) : Prop :=
  op_id y = op_id x /\ op_operation_id y = op_operation_id x /\
  op_parent_operation_id y = op_parent_operation_id x /\ op_amount y = op_amount x.

Definition no_money_type (ty : OperationType.OperationType) : Prop :=
  ty <> OperationType.CAPTURE /\ ty <> OperationType.REFUND.

Definition same_role (x y : Operation) : Prop :=
  op_operation_type y = op_operation_type x \/
  (no_money_type (op_operation_type x) /\ no_money_type (op_operation_type y)).

(** A change that makes the row right again. *)
Lemma family_update l x f : family_except (fun o => op_operation_id o = op_operation_id x) l -> In x l ->
  same_place x (f x) -> same_role x (f x) -> row_ok l (f x) -> family_ok (updated x f l).
Proof.
  intros [Hi Ho Hp Hr] Hx (Ei & Eo & Ep & Ea) Hrole Hfx.
  assert (forall o, row_ok l o -> row_ok (updated x f l) o) as Hkeep.
  { assert (forall ty, ty = OperationType.CAPTURE \/ ty = OperationType.REFUND ->
      op_operation_type (f x) = op_operation_type x \/ (op_operation_type x <> ty /\ op_operation_type (f x) <> ty)) as Hty.
    { intros ty [-> | ->]; destruct Hrole as [?|[[? ?] [? ?]]]; auto. }
    intros o. apply row_ok_ext.
    - apply updated_child_sum; auto.
    - apply updated_child_sum; auto.
    - intros Hf. rewrite updated_filter; [by rewrite Hf|done|done|].
      unfold child. rewrite Ep. destruct (Hty OperationType.REFUND) as [-> |[H1 H2]]; [by right|done|].
      unfold eqb. by rewrite (bool_decide_eq_false_2 _ H1), (bool_decide_eq_false_2 _ H2). }
  split.
  - by rewrite updated_column.
  - by rewrite updated_column.
  - intros o p Hin Hop. rewrite updated_column by done.
    apply updated_rows in Hin as [->|[Hin _]]; [|by eauto|done..]. rewrite Ep in Hop. by eauto.
  - intros o Hin. right. apply Hkeep. apply updated_rows in Hin as [->|[Hin E]]; [done| |done..].
    destruct (Hr o Hin) as [E'|?]; [|done]. destruct E. by rewrite (nodup_key op_operation_id l o x).
Qed.

Lemma family_weaken (skip : Operation -> Prop) l : family_ok l -> family_except skip l.
Proof. intros [Hi Ho Hp Hr]. split; auto. intros o Hin. right. by destruct (Hr o Hin). Qed.

(** Nothing was wrong after all. *)
Lemma family_heal (skip : Operation -> Prop) l : family_except skip l ->
  (forall o, In o l -> skip o -> row_ok l o) -> family_ok l.
Proof. intros [Hi Ho Hp Hr] H. split; auto. intros o Hin. right. destruct (Hr o Hin); auto. Qed.

(** *** The changes the services make *)

Section Changes.
Context (l : list Operation) (Hl : family_ok l).

Definition fresh (c : Operation) : Prop :=
  ~ In (op_id c) (map op_id l) /\ ~ In (op_operation_id c) (map op_operation_id l).

Definition parent_known (c : Operation) : Prop :=
  forall p, op_parent_operation_id c = Some p -> In p (map op_operation_id l).

(** A new row has no children, nothing captured and nothing refunded. *)
Lemma new_row_ok c : fresh c -> parent_known c -> op_captured_amount c = 0 ->
  (op_operation_type c = OperationType.CAPTURE ->
     0 < op_amount c /\ op_refunded_amount c = 0 /\ op_status c = OperationStatus.CAPTURED) ->
  (op_operation_type c = OperationType.AUTH -> op_status c <> OperationStatus.CAPTURED) ->
  (TransactionsService.is_open (op_status c) = true -> op_operation_type c = OperationType.AUTH) ->
  op_operation_type c <> OperationType.COMMIT /\
    (op_operation_type c = OperationType.AUTH -> op_parent_operation_id c = None) ->
  row_ok (l ++ [c]) c.
Proof.
  intros [_ Hf] Hp H0 Hc Ha Ho Hk.
  assert (forall ty, List.filter (child ty (op_operation_id c)) (l ++ [c]) = []) as Hnone.
  { intros ty. rewrite filter_snoc, no_children by (done || apply (parents_ok _ _ Hl)).
    unfold child, eqb. rewrite (bool_decide_eq_false_2 (_ = Some _)); [by rewrite andb_false_r|].
    intros E. by apply Hf, Hp. }
  assert (forall ty, child_sum ty (op_operation_id c) (l ++ [c]) = 0) as Hsum.
  { intros ty. unfold child_sum. by rewrite Hnone. }
  split; rewrite ?Hsum; try done.
  - lia.
  - intros Hty Hst. by destruct (Ha Hty).
  - intros Hty. destruct (Hc Hty) as (? & -> & ?). split; [done|]. split; [lia|]. left. by split; [|lia].
  - lia.
  - intros Hopen. by split; [apply Ho|].
Qed.

(** Authorising or declining adds an operation without a parent. *)
Lemma add_root c : fresh c -> op_parent_operation_id c = None -> op_captured_amount c = 0 ->
  op_operation_type c = OperationType.AUTH /\ op_status c = OperationStatus.AUTHORIZED \/
  op_operation_type c = OperationType.DECLINE /\ op_status c = OperationStatus.DECLINED ->
  family_ok (l ++ [c]).
Proof.
  intros [Hi Ho] Hp H0 Hty. apply (family_heal _ _ (family_add l c Hl Hi Ho ltac:(congruence)
    ltac:(apply new_row_ok; [done|intros ? ?; congruence|done|..]; destruct Hty as [[Et Es]|[Et Es]];
      rewrite ?Et, ?Es; (done || by split)))).
  intros o _ E. congruence.
Qed.

Context (x : Operation) (Hx : In x l).

Lemma known_id : In (op_operation_id x) (map op_operation_id l).
Proof. by apply in_map. Qed.

Lemma x_row : row_ok l x.
Proof. by apply family_row. Qed.

(** A row changed in place, with no new row. *)
Lemma change_row f : same_place x (f x) -> same_role x (f x) -> row_ok l (f x) -> family_ok (updated x f l).
Proof. intros. apply family_update; auto. by apply family_weaken. Qed.

(** A child is added and its parent is changed. *)
Lemma add_child_row c f : fresh c -> op_parent_operation_id c = Some (op_operation_id x) -> row_ok (l ++ [c]) c ->
  same_place x (f x) -> same_role x (f x) -> row_ok (l ++ [c]) (f x) -> family_ok (updated x f (l ++ [c])).
Proof.
  intros [Hi Ho] Hp Hc Hs Hr Hfx. apply family_update; [|by apply in_app_iff; left|done..].
  assert (forall p, op_parent_operation_id c = Some p -> In p (map op_operation_id l)) as Hpk.
  { intros p E. rewrite Hp in E. injection E as <-. apply known_id. }
  pose proof (family_add l c Hl Hi Ho Hpk Hc) as [H1 H2 H3 H4]. split; auto.
  intros o Hin. destruct (H4 o Hin) as [E|E]; [|by right]. left. rewrite Hp in E. by injection E as <-.
Qed.

(** The sums of [f x] once the child is there. *)
Lemma child_sum_after c ty : op_parent_operation_id c = Some (op_operation_id x) ->
  child_sum ty (op_operation_id x) (l ++ [c]) =
  child_sum ty (op_operation_id x) l + (if decide (op_operation_type c = ty) then op_amount c else 0).
Proof.
  intros Hp. rewrite child_sum_snoc. unfold child, eqb. rewrite Hp, (bool_decide_eq_true_2 (Some _ = _)) by done.
  rewrite andb_true_r. by destruct (decide _) as [E|E];
    [rewrite bool_decide_eq_true_2 | rewrite bool_decide_eq_false_2].
Qed.

Ltac child_ready :=
  match goal with Hp : op_parent_operation_id _ = Some _ |- _ =>
    apply new_row_ok; [done|intros p E; rewrite Hp in E; injection E as <-; apply known_id|..] end.

Lemma add_capture c : fresh c -> op_parent_operation_id c = Some (op_operation_id x) ->
  op_operation_type c = OperationType.CAPTURE -> op_status c = OperationStatus.CAPTURED ->
  op_captured_amount c = 0 -> op_refunded_amount c = 0 ->
  op_operation_type x = OperationType.AUTH -> 0 < op_amount c <= op_amount x - op_captured_amount x ->
  op_status x = OperationStatus.AUTHORIZED \/ op_status x = OperationStatus.CAPTURED ->
  family_ok (updated x (Lifecycle.captured (op_amount c)) (l ++ [c])).
Proof.
  intros Hf Hp Hty Hst H0 Hr0 Hauth Ham Hxs. destruct x_row as [Hs Hc Hfull _ Hrc Ho Hk].
  destruct Hxs as [Hxs|Hxs]; [|specialize (Hfull Hauth Hxs); lia].
  apply add_child_row; try done.
  - child_ready; [done|intros _; by split; [lia|]|by rewrite Hty|by rewrite Hst|by rewrite Hty].
  - by left.
  - unfold Lifecycle.captured. split; cbn; rewrite ?child_sum_after by done; rewrite ?Hty.
    + rewrite Hs. by rewrite decide_True.
    + lia.
    + intros _. destruct (Z.leb_spec (op_amount x) (op_captured_amount x + op_amount c)); [lia|done].
    + rewrite Hauth. done.
    + rewrite decide_False by done. intros _. specialize (Hrc ltac:(congruence)).
      unfold TransactionsService.refundable in *. cbn. lia.
    + intros _. split; [done|]. rewrite filter_snoc. destruct Ho as [_ ->]; [by rewrite Hxs|].
      unfold child. by rewrite Hty.
    + done.
Qed.

Lemma add_capture_refund c : fresh c -> op_parent_operation_id c = Some (op_operation_id x) ->
  op_operation_type c = OperationType.REFUND -> op_status c = OperationStatus.REFUNDED -> op_captured_amount c = 0 ->
  op_operation_type x = OperationType.CAPTURE -> 0 < op_amount c <= op_amount x - op_refunded_amount x ->
  family_ok (updated x (Lifecycle.refunded (op_amount c)) (l ++ [c])).
Proof.
  intros Hf Hp Hty Hst H0 Hcap Ham. destruct x_row as [Hs Hc Hfull Hr _ _ Hk].
  destruct (Hr Hcap) as (Hsum & Hle & _).
  apply add_child_row; try done.
  - child_ready; [done|by rewrite Hty|by rewrite Hty|by rewrite Hst|by rewrite Hty].
  - by left.
  - unfold Lifecycle.refunded. split; cbn; rewrite ?child_sum_after by done; rewrite ?Hty.
    + rewrite Hs. rewrite decide_False by done. lia.
    + done.
    + congruence.
    + intros _. rewrite decide_True by done. split; [lia|]. split; [lia|].
      destruct (Z.leb_spec (op_amount x) (op_refunded_amount x + op_amount c)); [right|left]; split; (done || lia).
    + congruence.
    + by destruct (op_amount x <=? _).
    + done.
Qed.

Lemma add_reversal c : fresh c -> op_parent_operation_id c = Some (op_operation_id x) ->
  op_operation_type c = OperationType.REVERSAL -> op_status c = OperationStatus.REVERSED -> op_captured_amount c = 0 ->
  op_operation_type x = OperationType.AUTH ->
  family_ok (updated x (set_op_status OperationStatus.REVERSED) (l ++ [c])).
Proof.
  intros Hf Hp Hty Hst H0 Hauth. destruct x_row as [Hs Hc Hfull _ Hrc Ho Hk].
  apply add_child_row; try done.
  - child_ready; [done|by rewrite Hty|by rewrite Hty|by rewrite Hst|by rewrite Hty].
  - by left.
  - split; cbn; rewrite ?child_sum_after by done; rewrite ?Hty, ?decide_False by done.
    + lia.
    + done.
    + done.
    + rewrite Hauth. done.
    + intros _. specialize (Hrc ltac:(congruence)). unfold TransactionsService.refundable in *. cbn. lia.
    + done.
    + done.
Qed.

(** A refund of a committed operation. *)
Lemma add_refund c : fresh c -> op_parent_operation_id c = Some (op_operation_id x) ->
  op_operation_type c = OperationType.REFUND -> op_status c = OperationStatus.REFUNDED -> op_captured_amount c = 0 ->
  op_status x = OperationStatus.COMPLETED ->
  child_sum OperationType.REFUND (op_operation_id x) l + op_amount c <= TransactionsService.refundable x ->
  family_ok (l ++ [c]).
Proof.
  intros Hf Hp Hty Hst H0 Hxs Hcap. destruct x_row as [Hs Hc Hfull Hr Hrc Ho Hk].
  assert (op_operation_type x <> OperationType.CAPTURE) as Hnc.
  { intros E. destruct (Hr E) as (_ & _ & [[? _]|[? _]]); congruence. }
  assert (row_ok (l ++ [c]) c) as Hcr by (child_ready; [done|by rewrite Hty|by rewrite Hty|by rewrite Hst|by rewrite Hty]).
  assert (parent_known c) as Hpk by (intros p E; rewrite Hp in E; injection E as <-; apply known_id).
  destruct Hf as [Hi Hoi]. apply (family_heal _ _ (family_add l c Hl Hi Hoi Hpk Hcr)).
  intros o Hin E. rewrite Hp in E. injection E as E.
  apply in_app_iff in Hin as [Hin|[<-|[]]]; [|done].
  assert (o = x) as -> by (apply (nodup_key op_operation_id l); [apply (operation_ids_unique _ _ Hl)|done..]).
  split; rewrite ?child_sum_after by done; rewrite ?Hty.
  - rewrite decide_False by done. lia.
  - done.
  - done.
  - done.
  - intros _. rewrite decide_True by done. lia.
  - by rewrite Hxs.
  - done.
Qed.
End Changes.

(** *** Changes in place *)

Section InPlace.
Context (l : list Operation) (Hl : family_ok l) (x : Operation) (Hx : In x l).

(** Columns that say nothing of the family. *)
Lemma change_other f : same_place x (f x) -> op_operation_type (f x) = op_operation_type x ->
  op_status (f x) = op_status x -> op_captured_amount (f x) = op_captured_amount x ->
  op_refunded_amount (f x) = op_refunded_amount x -> op_amount_settled (f x) = op_amount_settled x ->
  family_ok (updated x f l).
Proof.
  intros Hp Ht Hs Hc Hr Hse. apply change_row; [done|done|done|by left|].
  destruct Hp as (_ & Ho & Hpa & Ha). destruct (family_row l x Hl Hx).
  assert (TransactionsService.refundable (f x) = TransactionsService.refundable x) as E
    by (unfold TransactionsService.refundable; by rewrite Hse, Ha).
  split; rewrite ?Ht, ?Hs, ?Hc, ?Hr, ?Ho, ?Hpa, ?Ha, ?E; done.
Qed.

Definition is_closed_type (ty : OperationType.OperationType) : Prop :=
  ty = OperationType.AUTH \/ ty = OperationType.REVERSE.

(** An open operation that is closed: committed, reversed or declined. *)
Lemma close_row f : TransactionsService.is_open (op_status x) = true -> same_place x (f x) ->
  op_captured_amount (f x) = op_captured_amount x -> is_closed_type (op_operation_type (f x)) ->
  TransactionsService.is_open (op_status (f x)) = false -> op_status (f x) <> OperationStatus.CAPTURED ->
  family_ok (updated x f l).
Proof.
  intros Hopen Hp Hc Hty Hno Hnc. destruct (family_row l x Hl Hx) as [Hs Hcap _ _ _ Ho Hk].
  destruct (Ho Hopen) as [Hauth Hnone]. apply change_row; [done|done|done| |].
  - right. split; [by rewrite Hauth|by destruct Hty as [-> | ->]].
  - destruct Hp as (_ & Eo & Ep & Ea).
    assert (child_sum OperationType.REFUND (op_operation_id x) l = 0) as Hz by (unfold child_sum; by rewrite Hnone).
    split; rewrite ?Hc, ?Eo, ?Ep, ?Ea; try done; try congruence; [by destruct Hty as [-> | ->]|lia|].
    split; [by destruct Hty as [-> | ->]|intros _; by apply Hk].
Qed.
End InPlace.

(** ** The ledger *)

Definition signed (e : LedgerEntry) : Z :=
  if decide (le_direction e = LedgerDirection.CREDIT) then le_amount e else - le_amount e.

Definition account_sum (i : Z) (l : list LedgerEntry) : Z :=
  sum_of signed (List.filter (fun e => le_account_id e =? i) l).

Definition posting_sum (p : string) (l : list LedgerEntry) : Z :=
  sum_of signed (List.filter (fun e => (le_posting_id e =? p)%py) l).

Definition current (d : Db) (i : Z) : Z := bal_current (default zero_balance (balance_of d i)).

Definition entries (d : Db) : list LedgerEntry := ledger_entries (posting d).

(** The balance of every account is the sum of its entries, and every posting is balanced. *)
Definition ledger_ok (d : Db) : Prop :=
  (forall i, current d i = account_sum i (entries d)) /\ (forall p, posting_sum p (entries d) = 0).

Lemma account_sum_snoc i l e :
  account_sum i (l ++ [e]) = account_sum i l + (if decide (le_account_id e = i) then signed e else 0).
Proof.
  unfold account_sum. rewrite filter_snoc, sum_of_app.
  destruct (Z.eqb_spec (le_account_id e) i); [rewrite decide_True by done|rewrite decide_False by done]; simpl; lia.
Qed.

Lemma posting_sum_snoc p l e :
  posting_sum p (l ++ [e]) = posting_sum p l + (if decide (le_posting_id e = p) then signed e else 0).
Proof.
  unfold posting_sum, eqb. rewrite filter_snoc, sum_of_app.
  destruct (bool_decide_reflect (le_posting_id e = p)) as [E|E];
    [rewrite decide_True by done|rewrite decide_False by done]; simpl; lia.
Qed.

Section Posting.
Context (W : world Db) (op : option string) (at_ : option Z) (req : bool).

Abbreviation entry i pid dir amount cur eid := (synced_post W i op (Some pid) dir amount cur at_ eid req false).

Lemma synced_current i pid dir amount cur eid s j :
  current (synced_db W i op pid dir amount cur at_ eid s) j =
  current (live s) j + (if decide (i = j) then signed (synced_entry W i op pid dir amount cur at_ eid s) else 0).
Proof.
  unfold current, balance_of, synced_db. simpl. destruct (decide (i = j)) as [<-|Hij].
  - rewrite lookup_insert_eq. simpl. unfold synced_after, signed, balance_of. simpl.
    destruct (decide (dir = LedgerDirection.CREDIT)); lia.
  - rewrite lookup_insert_ne by done. lia.
Qed.

(** A debit and a credit of one posting keep the ledger in order, move the amount from one
    account to the other, and commit nothing; between them identifiers may be drawn. *)
Lemma debit_credit_run i j pid amount cur eid1 eid2 s : account_exists (live s) i -> account_exists (live s) j ->
  operation_known op (live s) -> ledger_ok (live s) ->
  exists e1 s1, entry i pid LedgerDirection.DEBIT amount cur eid1 s = (Ok e1, s1) /\
    e1 = synced_entry W i op (Some pid) LedgerDirection.DEBIT amount cur at_ eid1 s /\
    live s1 = synced_db W i op (Some pid) LedgerDirection.DEBIT amount cur at_ eid1 s /\ saved s1 = saved s /\
  forall r, live r = live s1 -> saved r = saved s1 -> exists e2 s2,
    entry j pid LedgerDirection.CREDIT amount cur eid2 r = (Ok e2, s2) /\
    ledger_ok (live s2) /\ scenario (live s2) = scenario (live s) /\ settle (live s2) = settle (live s) /\
    saved s2 = saved s /\ accounts (posting (live s2)) = accounts (posting (live s)) /\
    entries (live s2) = entries (live s) ++ [e1; e2] /\
    (forall k, current (live s2) k = current (live s) k - (if decide (i = k) then amount else 0)
                                     + (if decide (j = k) then amount else 0)) /\
    (forall k, i <> k -> j <> k -> balance_of (live s2) k = balance_of (live s) k) /\
    e2 = synced_entry W j op (Some pid) LedgerDirection.CREDIT amount cur at_ eid2 r.
Proof.
  intros Hi Hj Hop [Hc Hp].
  pose proof (synced_post_run W i op (Some pid) LedgerDirection.DEBIT amount cur at_ eid1 req false s Hi Hop) as H1.
  set (e1 := synced_entry _ _ _ _ _ _ _ _ _ _) in H1. set (s1 := Session _ _ _ _ _) in H1.
  exists e1, s1. split; [exact H1|]. do 3 (split; [done|]). intros r Hr Hsv.
  assert (account_exists (live r) j) as Hj' by (by rewrite Hr).
  assert (operation_known op (live r)) as Hop' by (by rewrite Hr).
  pose proof (synced_post_run W j op (Some pid) LedgerDirection.CREDIT amount cur at_ eid2 req false r Hj' Hop') as H2.
  set (e2 := synced_entry _ _ _ _ _ _ _ _ _ _) in H2. set (s2 := Session _ _ _ _ _) in H2.
  exists e2, s2. split; [exact H2|].
  assert (live s2 = synced_db W j op (Some pid) LedgerDirection.CREDIT amount cur at_ eid2 r) as Hs2 by done.
  assert (live s1 = synced_db W i op (Some pid) LedgerDirection.DEBIT amount cur at_ eid1 s) as Hs1 by done.
  assert (entries (live s2) = entries (live s) ++ [e1; e2]) as He.
  { rewrite Hs2. unfold entries, synced_db. simpl. rewrite Hr, Hs1. simpl. by rewrite <- app_assoc. }
  assert (forall k, current (live s2) k = current (live s) k + (if decide (i = k) then signed e1 else 0)
    + (if decide (j = k) then signed e2 else 0)) as Hk.
  { intros k. rewrite Hs2, synced_current, Hr, Hs1, synced_current. reflexivity. }
  assert (ledger_ok (live s2)) as Hl2.
  { split.
    - intros k. rewrite He, Hk, Hc. change [e1; e2] with ([e1] ++ [e2]). rewrite app_assoc, !account_sum_snoc. done.
    - intros p. rewrite He. change [e1; e2] with ([e1] ++ [e2]). rewrite app_assoc, !posting_sum_snoc, Hp.
      unfold signed. simpl. destruct (decide _); lia. }
  split; [exact Hl2|]. split; [rewrite Hs2; unfold synced_db; simpl; by rewrite Hr|].
  split; [rewrite Hs2; unfold synced_db; simpl; by rewrite Hr|].
  split; [exact Hsv|]. split; [rewrite Hs2; unfold synced_db; simpl; by rewrite Hr|]. split; [exact He|].
  split; [intros k; rewrite Hk; unfold signed; simpl; destruct (decide (i = k)), (decide (j = k)); lia|].
  split; [|done]. intros k Hik Hjk. rewrite Hs2. unfold balance_of, synced_db. simpl. rewrite lookup_insert_ne by done.
  rewrite Hr, Hs1. simpl. by rewrite lookup_insert_ne by done.
Qed.
End Posting.

(** ** Calls that keep the operations and the ledger right *)

Definition books_ok (d : Db) : Prop := family_ok (ops d) /\ ledger_ok d.

(** The call returns with the books right in the session and in the database; when it
    raises, what is committed is right. *)
Definition safely {A} (m : PM A) (s : session Db) : Prop :=
  wp m (fun _ => holds books_ok) (fun _ t => books_ok (saved t)) s.

Definition safe {A} (m : PM A) : Prop := forall s, holds books_ok s -> safely m s.

(** The parts of the database the books are made of, and what an authorisation reads. *)
Definition parts (d : Db) := (ops d, posting d, cards d).
Definition same_part (d d' : Db) : Prop := parts d' = parts d.

Lemma same_part_ops d d' : same_part d d' -> ops d' = ops d.
Proof. unfold same_part, parts. congruence. Qed.

Lemma books_same d d' : same_part d d' -> books_ok d -> books_ok d'.
Proof.
  unfold same_part, parts. intros E [Hf Hl]. injection E as Ho Hp _. split; [by rewrite Ho|].
  unfold ledger_ok, current, balance_of, entries in *. by rewrite Hp.
Qed.

(** A call that changes neither the books nor what is committed. *)
Definition idle {A} (m : PM A) : Prop :=
  forall s, same_part (live s) (live (m s).2) /\ saved (m s).2 = saved s.

Lemma idle_safe {A} (m : PM A) : idle m -> safe m.
Proof.
  intros Hm s [Hl Hs]. destruct (Hm s) as [Hp Hsv]. unfold safely, wp.
  destruct (m s) as [[a|e] t]; cbn [snd] in *; rewrite ?Hsv; [|done].
  split; [by eapply books_same|by rewrite Hsv].
Qed.

Lemma idle_ret {A} (a : A) : idle (mret a).
Proof. by intros s. Qed.

Lemma idle_raise {A} e : idle (A := A) (raise e).
Proof. by intros s. Qed.

Lemma idle_gets {A} (f : Db -> A) : idle (gets f).
Proof. by intros s. Qed.

Lemma idle_bind {A B} (m : PM A) (f : A -> PM B) : idle m -> (forall a, idle (f a)) -> idle (m ≫= f).
Proof.
  unfold idle, same_part. intros Hm Hf s. destruct (Hm s) as [Hp Hs]. unfold mbind, M_bind.
  destruct (m s) as [[a|e] t]; cbn [snd] in *; [|done]. destruct (Hf a t) as [Hp' Hs'].
  split; congruence.
Qed.

Lemma idle_try {A} (m : PM A) h : idle m -> (forall e k, h e = Some k -> idle k) -> idle (try_except m h).
Proof.
  unfold idle, same_part. intros Hm Hh s. destruct (Hm s) as [Hp Hs]. unfold try_except.
  destruct (m s) as [[a|e] t]; cbn [snd] in *; [done|].
  destruct (h e) as [k|] eqn:He; [|done]. destruct (Hh e k He t) as [Hp' Hs']. split; congruence.
Qed.

Lemma idle_now W : idle (now W).
Proof. by intros s. Qed.

Lemma idle_uuid4 W : idle (uuid4 W).
Proof. by intros s. Qed.

Lemma idle_for_each {A B} (l : list A) (f : A -> PM B) : (forall a, idle (f a)) -> idle (for_each l f).
Proof.
  intros Hf. induction l as [|a l IH]; [apply idle_ret|]. simpl.
  apply idle_bind; [done|]. intros b. apply idle_bind; [done|]. intros bs. apply idle_ret.
Qed.

Create HintDb idle.
#[export] Hint Resolve idle_ret idle_raise idle_gets idle_now idle_uuid4 idle_bind idle_try idle_for_each : idle.

Ltac idling := repeat first
  [ progress (intros; cbv beta zeta)
  | solve [auto 2 with idle]
  | apply idle_bind | apply idle_for_each | apply idle_try
  | match goal with
    | |- idle (match ?x with _ => _ end) => destruct x
    | |- idle (if ?x then _ else _) => destruct x
    | H : match ?x with _ => _ end = Some _ |- _ => destruct x; try discriminate H; try injection H as <-
    | H : Some _ = Some _ |- _ => injection H as <-
    end ].

Lemma safe_bind {A B} (m : PM A) (f : A -> PM B) : safe m -> (forall a, safe (f a)) -> safe (m ≫= f).
Proof.
  intros Hm Hf s Hs. apply wp_bind. eapply wp_mono; [by apply Hm| |done]. intros a t Ht. by apply Hf.
Qed.

(** The next call changes nothing that matters; the rest may use what it returned. *)
Lemma safely_idle {A B} (m : PM A) (f : A -> PM B) s : holds books_ok s -> idle m ->
  (forall a t, m s = (Ok a, t) -> holds books_ok t -> same_part (live s) (live t) -> saved t = saved s -> safely (f a) t) ->
  safely (m ≫= f) s.
Proof.
  intros Hs Hm Hf. pose proof (idle_safe m Hm s Hs) as Hw. destruct (Hm s) as [Hp Hsv].
  unfold safely in *. apply wp_bind. unfold wp in *. destruct (m s) as [[a|e] t] eqn:Hr; [|done].
  by apply (Hf a t).
Qed.

Lemma safely_raise {A} e s : holds books_ok s -> safely (A := A) (raise e) s.
Proof. by intros [_ Hs]. Qed.

Lemma safely_ret {A} (a : A) s : holds books_ok s -> safely (mret a) s.
Proof. done. Qed.

Lemma safely_commit {A} (m : PM A) s : books_ok (live s) ->
  (forall t, live t = live s -> saved t = live s -> holds books_ok t -> safely m t) -> safely (commit;; m) s.
Proof. intros Hs Hm. apply (Hm (Session (live s) (live s) (ticks s) (uuids s) (races s))); done. Qed.

Lemma safe_best_effort : safe (best_effort audit_log_entry).
Proof. apply idle_safe. unfold best_effort, audit_log_entry. idling. Qed.

Lemma safe_try_raise {A} (m : PM A) (h : exn -> option (PM A)) : safe m ->
  (forall e k, h e = Some k -> exists e', k = raise e') -> safe (try_except m h).
Proof.
  intros Hm Hh s Hs. pose proof (Hm s Hs) as Hw. unfold safely, wp in *. unfold try_except.
  destruct (m s) as [[a|e] t]; [done|]. destruct (h e) as [k|] eqn:He; [|done].
  destruct (Hh e k He) as [e' ->]. done.
Qed.

(** *** The services *)

Section Services.
Context (W : world Db) (alone_W : alone W) `{DS : DecisionService} `{RS : RulesService} `{RK : RiskService} `{DZ : DatabaseZone}
  (rate : Q) (strict_high : bool).
Import TransactionsService.

Lemma idle_evaluate ctx : idle (evaluate ctx).
Proof.
  intros s. split; [|apply evaluate_saved].
  unfold same_part, parts, ops. by rewrite evaluate_scenario, evaluate_posting, evaluate_cards.
Qed.

Lemma idle_risk ctx : idle (evaluate_risk_sync ctx).
Proof. intros s. unfold same_part. by rewrite evaluate_risk_live, evaluate_risk_saved. Qed.

Hint Resolve idle_evaluate idle_risk : idle.

Lemma idle_converted level : idle (_decision_risk_to_result level).
Proof. unfold _decision_risk_to_result. idling. Qed.

Lemma idle_limits req : idle (LimitsEngine.evaluate_limits_locally W req).
Proof. unfold LimitsEngine.evaluate_limits_locally, LimitsEngine.calculate_used_amount, q_all. idling. Qed.

Lemma idle_contractual c k a q t : idle (LimitsService.check_contractual_limits W c k a q t).
Proof. unfold LimitsService.check_contractual_limits, q_all. idling. Qed.

Lemma idle_parties a : idle (check_parties a).
Proof. unfold check_parties, _validate_references, inactive, q_first. idling. Qed.

Lemma idle_risk_check a r e : idle (risk_check W strict_high a r e).
Proof. unfold risk_check, _evaluate_risk. idling. Qed.

Hint Resolve idle_converted idle_limits idle_contractual idle_parties idle_risk_check : idle.

Lemma idle_first_decision a p : idle (first_decision a p).
Proof. unfold first_decision. idling. Qed.

Lemma idle_unified_rules a : idle (unified_rules W a).
Proof. unfold unified_rules. idling. Qed.

Lemma idle_second_decision a r : idle (second_decision a r).
Proof. unfold second_decision. idling. Qed.

Hint Resolve idle_first_decision idle_unified_rules idle_second_decision : idle.

Lemma idle_checks a e : idle (run_checks W strict_high a e).
Proof. unfold run_checks. idling. Qed.

Lemma idle_merge o : idle (_merge_posting_snapshot W rate o).
Proof. unfold _merge_posting_snapshot, Commission.compute_posting_result. idling. Qed.

Hint Resolve idle_checks idle_merge : idle.

Lemma fetch_run ext s : exists o, _fetch_operation_by_ext_id ext s = (Ok o, s) /\
  match o with
  | Some o => In o (ops (live s)) /\ op_operation_id o = ext
  | None => ~ In ext (map op_operation_id (ops (live s)))
  end.
Proof.
  unfold _fetch_operation_by_ext_id, gets. eexists. split; [reflexivity|].
  set (P := fun o => (op_operation_id o =? ext)%py). set (l := List.filter P (operations (scenario (live s)))).
  pose proof (sort_on_perm (fun o => - op_created_at o) l) as Hperm.
  destruct (sort_on (fun o => - op_created_at o) l) as [|o r] eqn:Hs; simpl.
  - apply Permutation_nil in Hperm. intros (o & Ho & Hin)%in_map_iff.
    assert (In o l) as H by (apply filter_In; split; [done|by apply bool_decide_eq_true]). by rewrite Hperm in H.
  - assert (In o l) as [Hin He%bool_decide_eq_true]%filter_In; [|done].
    eapply Permutation_in; [exact Hperm|by left].
Qed.

Lemma insert_run make s : (forall id at_, op_id (make id at_) = id) ->
  match insert_operation W make s with
  | (Ok o, t) => (exists id at_, o = make id at_) /\ fresh (ops (live s)) o /\
      live t = on_operations (fun l => l ++ [o]) (live s) /\ saved t = saved s
  | (Raise _, t) => live t = live s /\ saved t = saved s
  end.
Proof.
  intros Hid. unfold insert_operation, q_first. run_steps. rewrite !alone_W.
  destruct (negb _); [done|]. cbn [live]. set (o := make _ _). set (P := fun _ : Operation => _).
  cbn [live]. destruct (head (List.filter P _)) as [x|] eqn:Hh; [done|].
  split; [by eexists _, _|]. split; [|done].
  assert (forall y, In y (ops (live s)) -> P y = false) as Hno.
  { intros y Hy. destruct (P y) eqn:HP; [|done].
    destruct (head_filter_in P _ y Hy HP) as [z Hz]. unfold ops in *. congruence. }
  split; intros (y & Hy & Hin)%in_map_iff; specialize (Hno y Hin); apply orb_false_iff in Hno as [H1 H2];
    apply bool_decide_eq_false in H1, H2; [|done]. unfold o in Hy. rewrite Hid in Hy. done.
Qed.

Lemma books_operations f d : family_ok (f (ops d)) -> ledger_ok d -> books_ok (on_operations f d).
Proof. by split. Qed.

(** A change of one operation, committed. *)
Lemma safely_change {A} f o (k : Operation -> PM A) s : books_ok (saved s) -> ledger_ok (live s) ->
  family_ok (updated o f (ops (live s))) -> (forall x, safe (k x)) ->
  safely (x ← assign_operation f o; commit;; k x) s.
Proof.
  intros Hs Hl Hf Hk.
  assert (books_ok (on_operations (updated o f) (live s))) as Hb by (by apply books_operations).
  apply (Hk (f o) (Session (on_operations (updated o f) (live s)) (on_operations (updated o f) (live s))
    (ticks s) (uuids s) (races s))). done.
Qed.

Lemma safe_end {A} (a : A) : safe (best_effort audit_log_entry;; mret a).
Proof. apply safe_bind; [apply safe_best_effort|]. intros _ s Hs. by apply safely_ret. Qed.

(** *** Postings *)

Lemma account_run client ot oid currency ty card tariff st s : holds books_ok s ->
  exists a t, AccountsRepository.get_or_create_account client ot oid currency ty card tariff st true s = (Ok a, t) /\
    account_exists (live t) (acc_id a) /\ holds books_ok t /\
    AccountsRepository.matches client ot (str_or oid client) currency ty card tariff a = true /\
    scenario (live t) = scenario (live s) /\ entries (live t) = entries (live s) /\
    balances (posting (live t)) = balances (posting (live s)) /\
    (forall i, account_exists (live s) i -> account_exists (live t) i).
Proof.
  intros [Hl Hs].
  destruct (get_or_create_run client ot oid currency ty card tariff st true s)
    as (a & t & Hr & Hin & _ & (l & Hlive) & Hsv & _ & _ & _ & _).
  exists a, t. split; [done|]. split; [by exists a|].
  assert (books_ok (live t)) as Hb by (rewrite Hlive; exact Hl).
  split; [split; [done|destruct Hsv as [-> | ->]; done]|].
  split; [|split; [by rewrite Hlive|]; split; [by rewrite Hlive|]; split; [by rewrite Hlive|]].
  - by apply get_or_create_matches in Hr.
  - intros i (x & Hx & Hi). exists x. split; [|done]. rewrite Hlive. simpl. apply in_app_iff. by left.
Qed.

Definition is_client_account (o : Operation) (a : Account) : Prop :=
  AccountsRepository.matches (op_client_id o) AccountOwnerType.CLIENT (op_client_id o) (op_currency o)
    AccountType.CLIENT_MAIN (Some (op_card_id o)) None a = true.

Definition is_merchant_account (o : Operation) (a : Account) : Prop :=
  AccountsRepository.matches (op_merchant_id o) AccountOwnerType.CLIENT (op_merchant_id o) (op_currency o)
    AccountType.TECHNICAL None None a = true.

(** A posting of the operation that moves an amount from one account to the other: a debit
    and a credit, and the two balances. *)
Definition transferred (o : Operation) (amount : Z) (from to : Account) (d d' : Db) : Prop :=
  (exists e1 e2, entries d' = entries d ++ [e1; e2] /\
     le_account_id e1 = acc_id from /\ le_direction e1 = LedgerDirection.DEBIT /\
     le_account_id e2 = acc_id to /\ le_direction e2 = LedgerDirection.CREDIT /\
     le_posting_id e1 = le_posting_id e2 /\
     Forall (fun e => le_operation_id e = Some (op_id o) /\ le_amount e = dec_of_int amount /\
       le_currency e = op_currency o) [e1; e2]) /\
  (forall k, current d' k = current d k - (if decide (acc_id from = k) then dec_of_int amount else 0)
                            + (if decide (acc_id to = k) then dec_of_int amount else 0)).

(** The accounts of the two parties. *)
Lemma party_accounts_run o s : holds books_ok s ->
  exists c s1 m s2, client_account o s = (Ok c, s1) /\ merchant_account o s1 = (Ok m, s2) /\
    is_client_account o c /\ is_merchant_account o m /\ holds books_ok s2 /\
    account_exists (live s2) (acc_id c) /\ account_exists (live s2) (acc_id m) /\
    scenario (live s2) = scenario (live s) /\ entries (live s2) = entries (live s) /\
    (forall k, current (live s2) k = current (live s) k).
Proof.
  intros Hs. destruct (account_run (op_client_id o) AccountOwnerType.CLIENT None (op_currency o)
    AccountType.CLIENT_MAIN (Some (op_card_id o)) None AccountStatus.ACTIVE s Hs)
    as (c & s1 & Hc & Hxc & Hs1 & Hmc & Hsc & Hec & Hbc & _).
  destruct (account_run (op_merchant_id o) AccountOwnerType.CLIENT None (op_currency o)
    AccountType.TECHNICAL None None AccountStatus.ACTIVE s1 Hs1)
    as (m & s2 & Hm & Hxm & Hs2 & Hmm & Hsm & Hem & Hbm & Hkeep).
  exists c, s1, m, s2. split; [exact Hc|]. split; [exact Hm|]. split; [exact Hmc|]. split; [exact Hmm|].
  split; [done|]. split; [by apply Hkeep|]. split; [done|]. split; [congruence|]. split; [congruence|].
  intros k. unfold current, balance_of. by rewrite Hbm, Hbc.
Qed.

(** The outcome of a posting: the books are right, only the ledger has changed. *)
Definition posting_outcome (o : Operation) (amount : Z) (refund : bool) (s t : session Db) : Prop :=
  holds books_ok t /\ scenario (live t) = scenario (live s) /\
  exists c m, is_client_account o c /\ is_merchant_account o m /\
    (if refund then transferred o amount m c (live s) (live t) else transferred o amount c m (live s) (live t)).

Lemma transfer_run o amount from to pid s : holds books_ok s -> In o (ops (live s)) ->
  account_exists (live s) (acc_id from) -> account_exists (live s) (acc_id to) ->
  exists e1 s1 e2 s2,
    post_entry W (acc_id from) (op_id o) pid LedgerDirection.DEBIT (dec_of_int amount) (op_currency o) s = (Ok e1, s1) /\
    post_entry W (acc_id to) (op_id o) pid LedgerDirection.CREDIT (dec_of_int amount) (op_currency o) s1 = (Ok e2, s2) /\
    holds books_ok s2 /\ scenario (live s2) = scenario (live s) /\ transferred o amount from to (live s) (live s2).
Proof.
  intros [[Hf Hl] Hs] Ho Hxf Hxt.
  destruct (debit_credit_run W (Some (op_id o)) None true (acc_id from) (acc_id to) pid (dec_of_int amount) (op_currency o) None None s)
    as (e1 & s1 & H1 & He1 & _ & _ & Hnext); [done|done|by exists o|done|].
  destruct (Hnext s1 eq_refl eq_refl) as (e2 & s2 & H2 & Hl2 & Hsc & _ & Hsv & _ & He & Hk & _ & He2).
  exists e1, s1, e2, s2. split; [exact H1|]. split; [exact H2|]. split; [|split; [done|]].
  - split; [split; [unfold ops; by rewrite Hsc|done]|by rewrite Hsv].
  - split; [|exact Hk]. exists e1, e2. split; [exact He|]. rewrite He1, He2. repeat split; repeat constructor.
Qed.

(** The steps of a posting, in either direction. *)
Lemma posting_steps o amount (refund : bool) s : holds books_ok s -> In o (ops (live s)) ->
  exists pid s0 c s1 m s2 e1 s3 e2 s4,
    (uuid4 W : PM string) s = (Ok pid, s0) /\ client_account o s0 = (Ok c, s1) /\ merchant_account o s1 = (Ok m, s2) /\
    post_entry W (acc_id (if refund then m else c)) (op_id o) pid LedgerDirection.DEBIT
      (dec_of_int amount) (op_currency o) s2 = (Ok e1, s3) /\
    post_entry W (acc_id (if refund then c else m)) (op_id o) pid LedgerDirection.CREDIT
      (dec_of_int amount) (op_currency o) s3 = (Ok e2, s4) /\
    posting_outcome o amount refund s s4.
Proof.
  intros Hs Ho. exists (new_uuid W (uuids s)). eexists.
  destruct (party_accounts_run o (Session (live s) (saved s) (ticks s) (S (uuids s)) (races s)) Hs)
    as (c & s1 & m & s2 & H1 & H2 & Hc & Hm & Hs2 & Hxc & Hxm & Hsc & Hes & Hk).
  exists c, s1, m, s2.
  destruct (transfer_run o amount (if refund then m else c) (if refund then c else m) (new_uuid W (uuids s)) s2 Hs2)
    as (e1 & s3 & e2 & s4 & H3 & H4 & Hs4 & Hsc4 & [(x & y & Hxy & Hr) Hb]);
    [unfold ops; by rewrite Hsc|by destruct refund|by destruct refund|].
  exists e1, s3, e2, s4. do 5 (split; [first [reflexivity|done]|]). split; [done|].
  split; [by rewrite Hsc4, Hsc|]. exists c, m. split; [done|]. split; [done|].
  rewrite Hes in Hxy. assert (forall k, current (live s4) k = current (live s)
    k - (if decide (acc_id (if refund then m else c) = k) then dec_of_int amount else 0)
      + (if decide (acc_id (if refund then c else m) = k) then dec_of_int amount else 0)) as Hb'
    by (intros k; by rewrite Hb, Hk).
  destruct refund; (split; [exists x, y; by split|exact Hb']).
Qed.

Lemma perform_posting_run o s : holds books_ok s -> In o (ops (live s)) ->
  exists meta t, _perform_posting W o s = (Ok meta, t) /\ posting_outcome o (op_amount o) false s t.
Proof.
  intros Hs Ho. destruct (posting_steps o (op_amount o) false s Hs Ho)
    as (pid & s0 & c & s1 & m & s2 & e1 & s3 & e2 & s4 & H0 & H1 & H2 & H3 & H4 & Hout).
  unfold _perform_posting. rewrite (bind_ok _ _ _ _ _ H0), (bind_ok _ _ _ _ _ H1), (bind_ok _ _ _ _ _ H2),
    (bind_ok _ _ _ _ _ H3), (bind_ok _ _ _ _ _ H4). by eexists _, s4.
Qed.

Lemma perform_refund_run o amount s : holds books_ok s -> In o (ops (live s)) ->
  exists meta t, _perform_refund_posting W o amount s = (Ok meta, t) /\ posting_outcome o amount true s t.
Proof.
  intros Hs Ho. destruct (posting_steps o amount true s Hs Ho)
    as (pid & s0 & c & s1 & m & s2 & e1 & s3 & e2 & s4 & H0 & H1 & H2 & H3 & H4 & Hout).
  unfold _perform_refund_posting. rewrite (bind_ok _ _ _ _ _ H0), (bind_ok _ _ _ _ _ H1), (bind_ok _ _ _ _ _ H2),
    (bind_ok _ _ _ _ _ H3), (bind_ok _ _ _ _ _ H4). by eexists _, s4.
Qed.

(** *** Each service *)

Lemma safely_step {A B} (m : PM A) (f : A -> PM B) s a t : m s = (Ok a, t) -> safely (f a) t -> safely (m ≫= f) s.
Proof. intros Hm Hf. exact (wp_step m f _ _ s a t Hm Hf). Qed.

Lemma safely_insert {A} make (k : Operation -> PM A) s : holds books_ok s ->
  (forall id at_, op_id (make id at_) = id) ->
  (forall id at_ t, let o := make id at_ in fresh (ops (live s)) o ->
     live t = on_operations (fun l => l ++ [o]) (live s) -> saved t = saved s -> safely (k o) t) ->
  safely (insert_operation W make ≫= k) s.
Proof.
  intros [_ Hs] Hid Hk. pose proof (insert_run make s Hid) as H. unfold safely, wp, mbind, M_bind.
  destruct (insert_operation W make s) as [[o|e] t].
  - destruct H as ((id & at_ & ->) & Hf & Hl & Hsv). by apply (Hk id at_ t).
  - destruct H as [_ ->]. done.
Qed.

(** The books with a new operation, committed. *)
Lemma safely_stored {A} o (m : PM A) s t : holds books_ok s -> family_ok (ops (live s) ++ [o]) ->
  live t = on_operations (fun l => l ++ [o]) (live s) ->
  (forall u, live u = live t -> saved u = live t -> holds books_ok u -> In o (ops (live u)) -> safely m u) ->
  safely (commit;; m) t.
Proof.
  intros [[_ Hl] _] Hf Ht Hm. apply safely_commit.
  - rewrite Ht. by apply books_operations.
  - intros u Hu Hsu Hh. apply Hm; [done|done|done|]. rewrite Hu, Ht. apply in_app_iff. right. by left.
Qed.

Lemma safe_decline a r : safe (decline_operation W a r).
Proof.
  intros s Hs. unfold decline_operation. destruct (fetch_run (az_ext_operation_id a) s) as (o & Hr & Ho).
  eapply safely_step; [exact Hr|]. destruct o as [o|]; [by apply safely_ret|].
  apply safely_insert; [done|done|]. intros id at_ t o Hf Ht Hsv. eapply safely_stored; [exact Hs| |exact Ht|].
  - apply add_root; [apply Hs|done|done|done|]. by right.
  - intros u _ _ Hu _. by apply safe_end.
Qed.

Lemma settle_posting o meta t : holds books_ok t -> In o (ops (live t)) ->
  family_ok (updated o (posted meta) (ops (live t))) \/ op_status o <> OperationStatus.AUTHORIZED.
Proof.
  intros [[Hf _] _] Ho. destruct (decide (op_status o = OperationStatus.AUTHORIZED)) as [E|]; [left|by right].
  apply change_other; done.
Qed.

Lemma safe_post o simulate s : holds books_ok s -> In o (ops (live s)) -> op_status o = OperationStatus.AUTHORIZED ->
  wp (post_operation W o simulate) (fun _ => holds books_ok)
    (fun _ t => simulate = true /\ saved t = saved s) s.
Proof.
  intros Hs Ho Ha. unfold post_operation. destruct simulate; [done|].
  destruct (perform_posting_run o s Hs Ho) as (meta & t & Hr & Ht & Hsc & _).
  apply (wp_step _ _ _ _ _ _ _ Hr).
  assert (In o (ops (live t))) as Ho' by (unfold ops; by rewrite Hsc).
  destruct (settle_posting o meta t Ht Ho') as [Hf|?]; [|done].
  assert (books_ok (on_operations (updated o (posted meta)) (live t))) as Hb by (apply books_operations; [done|apply Ht]).
  done.
Qed.

(** After a failed posting the operation is declined, whatever was in the session. *)
Lemma safely_failed {A} ext s : books_ok (saved s) ->
  (forall o, In o (ops (saved s)) -> op_operation_id o = ext -> op_status o = OperationStatus.AUTHORIZED) ->
  safely (posting_failed (A := A) ext) s.
Proof.
  intros Hs Hopen. unfold posting_failed. apply (safely_step rollback _ s tt (Session (saved s) (saved s) (ticks s) (uuids s) (races s))); [done|].
  set (s0 := Session _ _ _ _ _). destruct (fetch_run ext s0) as (o & Hr & Ho).
  destruct o as [o|].
  - destruct Ho as [Ho He]. specialize (Hopen o Ho He).
    assert (books_ok (on_operations (updated o posting_error) (saved s))) as Hb.
    { apply books_operations; [|apply Hs]. apply close_row; try done; [apply Hs|by rewrite Hopen|].
      destruct Hs as [Hf _]. destruct (family_row _ _ Hf Ho) as [_ _ _ _ _ Hop].
      unfold posting_error. simpl. destruct Hop as [-> _]; [by rewrite Hopen|]. by left. }
    unfold safely, wp. rewrite (bind_ok (try_except _ _) _ s0 tt
      (Session (on_operations (updated o posting_error) (saved s)) (on_operations (updated o posting_error) (saved s))
        (ticks s) (uuids s) (races s))); [done|].
    unfold try_except. by rewrite (bind_ok _ _ _ _ _ Hr).
  - unfold safely, wp. rewrite (bind_ok (try_except _ _) _ s0 tt s0); [done|].
    unfold try_except. by rewrite (bind_ok _ _ _ _ _ Hr).
Qed.

Lemma safe_authorize a risk simulate : safe (authorize_operation W strict_high a risk simulate).
Proof.
  intros s Hs. unfold authorize_operation. destruct (fetch_run (az_ext_operation_id a) s) as (o & Hr & Ho).
  eapply safely_step; [exact Hr|]. destruct o as [o|]; [by apply safely_ret|].
  apply safely_idle; [done|apply idle_checks|]. intros [r|c] s1 _ Hs1 _ _; [by apply safe_decline|].
  apply safely_idle; [done|apply idle_uuid4|]. intros auth_code s2 _ Hs2 _ _.
  apply safely_insert; [done|done|]. intros id at_ t o Hf Ht Hsv. eapply safely_stored; [exact Hs2| |exact Ht|].
  { apply add_root; [apply Hs2|done|done|done|]. by left. }
  intros u _ Hsu Hu Ho'. apply wp_bind, wp_try. eapply wp_mono; [apply (safe_post o simulate u Hu Ho')|..]; [done| |].
  - intros o' v Hv. by apply safe_end.
  - intros e v [_ Hv]. apply safely_failed; rewrite Hv; [apply Hu|].
    intros o' Hin Hid. rewrite Hsu in Hin.
    assert (o' = o) as ->; [|done].
    destruct Hu as [_ [Hfam _]]. rewrite Hsu in Hfam.
    apply (nodup_key op_operation_id (ops (live t))); [apply (operation_ids_unique _ _ Hfam)|done| |done].
    rewrite Ht. apply in_app_iff. right. by left.
Qed.

(** The operation a service works on. *)
Lemma safely_fetched {A} ext (k : Operation -> PM A) s : holds books_ok s ->
  (forall o, In o (ops (live s)) -> op_operation_id o = ext -> safely (k o) s) -> safely (fetch_or_raise ext ≫= k) s.
Proof.
  intros Hs Hk. destruct (fetch_run ext s) as (o & Hr & Ho).
  destruct o as [o|].
  - destruct Ho as [Ho He]. apply (safely_step _ _ s o s); [|by apply Hk]. unfold fetch_or_raise. by rewrite (bind_ok _ _ _ _ _ Hr).
  - unfold safely, wp. rewrite (bind_raised (fetch_or_raise ext) _ s (InvalidOperationState "OPERATION_NOT_FOUND" None) s); [apply Hs|].
    unfold fetch_or_raise. by rewrite (bind_ok _ _ _ _ _ Hr).
Qed.

(** An open row that is closed by a change. *)
Lemma safely_close {A} o f (k : Operation -> PM A) s : holds books_ok s -> In o (ops (live s)) ->
  is_open (op_status o) = true -> same_place o (f o) -> op_captured_amount (f o) = op_captured_amount o ->
  (op_operation_type o = OperationType.AUTH -> is_closed_type (op_operation_type (f o))) ->
  is_open (op_status (f o)) = false -> op_status (f o) <> OperationStatus.CAPTURED -> (forall x, safe (k x)) ->
  safely (x ← assign_operation f o; commit;; k x) s.
Proof.
  intros [[Hf Hl] Hs] Ho Hopen Hp Hc Hty Hno Hnc Hk. apply safely_change; [done|done| |done].
  apply close_row; try done. apply Hty. by destruct (open_ok _ _ (family_row _ _ Hf Ho) Hopen).
Qed.

Lemma part_in o d d' : same_part d d' -> In o (ops d) -> In o (ops d').
Proof. intros H. by rewrite (same_part_ops _ _ H). Qed.

Lemma safe_commit_operation id amount quantity : safe (commit_operation W rate id amount quantity).
Proof.
  intros s Hs. unfold commit_operation. apply safely_fetched; [done|]. intros o Ho _.
  destruct (is_open (op_status o)) eqn:Hopen; [|by apply safely_raise]. cbn [negb]. cbv zeta.
  destruct (_ || _); [by apply safely_raise|].
  apply safely_idle; [done|apply idle_evaluate|]. intros d s1 _ Hs1 Hp1 _.
  destruct (negb _); [by apply safely_raise|].
  apply safely_idle; [done|apply idle_merge|]. intros r s2 _ Hs2 Hp2 _.
  apply safely_close; try done.
  - eapply part_in; [exact Hp2|]. by eapply part_in.
  - by destruct quantity.
  - by destruct quantity.
  - intros E. left. by destruct quantity.
  - by destruct quantity.
  - by destruct quantity.
  - intros x. apply safe_end.
Qed.

Lemma safe_reverse_operation id reason : safe (reverse_operation id reason).
Proof.
  intros s Hs. unfold reverse_operation. apply safely_fetched; [done|]. intros o Ho _.
  destruct (is_open (op_status o)) eqn:Hopen; [|by apply safely_raise]. cbn [negb].
  apply safely_close; try done; [by right|]. intros x. apply safe_end.
Qed.

Lemma refunds_of_parent o l : sum_of op_amount (List.filter (is_refund_of o) l) = child_sum OperationType.REFUND (op_operation_id o) l.
Proof.
  unfold child_sum. f_equal. apply List.filter_ext. intros x. unfold is_refund_of, child. apply andb_comm.
Qed.

Lemma safe_refund_operation id amount reason : safe (refund_operation W rate id amount reason).
Proof.
  intros s Hs. unfold refund_operation. apply safely_fetched; [done|]. intros p Hp _.
  unfold eqb at 1. destruct (bool_decide_reflect (op_status p = OperationStatus.COMPLETED)) as [Hst|]; [|by apply safely_raise].
  cbn [negb]. apply (safely_step _ _ s (List.filter (is_refund_of p) (ops (live s))) s); [done|].
  rewrite refunds_of_parent. destruct (Z.ltb_spec (refundable p)
    (child_sum OperationType.REFUND (op_operation_id p) (ops (live s)) + amount)) as [|Hcap]; [by apply safely_raise|].
  apply safely_idle; [done|apply idle_uuid4|]. intros ext s1 _ Hs1 Hp1%same_part_ops _.
  apply safely_insert; [done|done|]. intros rid at_ t o Hf Ht Hsv. eapply safely_stored; [exact Hs1| |exact Ht|].
  { apply (add_refund _ (proj1 (proj1 Hs1)) p); rewrite ?Hp1; try done. by rewrite <- Hp1. }
  intros u Hlu Hsu Hu Ho. destruct (perform_refund_run o amount u Hu Ho) as (meta & v & Hr & Hv & Hsc & _).
  eapply safely_step; [exact Hr|]. cbv zeta. apply safely_idle; [done|apply idle_merge|].
  intros r w _ Hw Hpw%same_part_ops _. apply safely_change; [apply Hw|apply Hw| |intros x; apply safe_end].
  assert (In o (ops (live w))) as Hin by (rewrite Hpw; unfold ops; by rewrite Hsc).
  by apply change_other; [apply Hw|..].
Qed.

(** *** Captures, refunds of captures, reversals of authorisations *)

Import Lifecycle.

Lemma safely_child o ty st amount f s : holds books_ok s ->
  (forall c, fresh (ops (live s)) c -> op_parent_operation_id c = Some (op_operation_id o) ->
     op_operation_type c = ty -> op_status c = st -> op_amount c = amount -> op_captured_amount c = 0 ->
     op_refunded_amount c = 0 -> family_ok (updated o f (ops (live s) ++ [c]))) ->
  safely (add_child W o ty st amount f) s.
Proof.
  intros Hs Hf. unfold add_child.
  apply (safely_idle (uuid4 W)); [done|apply idle_uuid4|]. intros oid s1 _ Hs1 Hp1%same_part_ops _.
  apply safely_insert; [done|done|]. intros id at_ t c Hfr Ht Hsv. rewrite Hp1 in Hfr.
  apply safely_change; [rewrite Hsv; apply Hs1|rewrite Ht; apply Hs1| |intros _ u Hu; by apply safely_ret].
  rewrite Ht. change (ops (on_operations (fun l => l ++ [c]) (live s1))) with (ops (live s1) ++ [c]).
  rewrite Hp1. by apply Hf.
Qed.

Lemma safely_got {A} id (k : Operation -> PM A) s : holds books_ok s ->
  (forall o, In o (ops (live s)) -> safely (k o) s) -> safely (_get_operation_or_error id ≫= k) s.
Proof.
  intros Hs Hk. unfold _get_operation_or_error, q_first.
  destruct (head (List.filter (fun o => (op_operation_id o =? id)%py) (operations (scenario (live s))))) as [o|] eqn:Hh.
  - apply (safely_step _ _ s o s); [by unfold mbind, M_bind, gets; rewrite Hh|].
    apply Hk. by apply head_filter_some in Hh as [? _].
  - unfold safely, wp. rewrite (bind_raised _ _ s (ParentNotFound id) s); [apply Hs|].
    by unfold mbind, M_bind, gets; rewrite Hh.
Qed.

(** A guard of the code. *)
Ltac passing H := match goal with
  | |- safely (if (?a <>? ?b)%py then _ else _) _ =>
      unfold eqb at 1; destruct (bool_decide_reflect (a = b)) as [H|H]; cbn [negb]; [|by apply safely_raise]
  | |- safely (if negb (bool_decide ?p) then _ else _) _ =>
      destruct (bool_decide_reflect p) as [H|H]; cbn [negb]; [|by apply safely_raise]
  | |- safely (if ?a <=? ?b then _ else _) _ => destruct (Z.leb_spec a b) as [H|H]; [by apply safely_raise|]
  | |- safely (if ?a <? ?b then _ else _) _ => destruct (Z.ltb_spec a b) as [H|H]; [by apply safely_raise|]
  end.

Lemma safe_capture id amount : safe (capture_operation W id amount).
Proof.
  intros s Hs. unfold capture_operation. apply safely_got; [done|]. intros o Ho.
  passing Hty. passing Hst. cbv zeta. passing H1. passing H2. passing H3.
  set (capture_amount := default _ amount) in *.
  apply safely_child; [done|]. intros c Hf Hp Hct Hcs Hca Hc0 Hr0. rewrite <- Hca.
  apply add_capture; try done; [apply Hs|lia|].
  apply elem_of_cons in Hst as [E|E]; [by left|]. apply list_elem_of_singleton in E. by right.
Qed.

Lemma safe_capture_refund id amount : safe (Lifecycle.refund_operation W id amount).
Proof.
  intros s Hs. unfold Lifecycle.refund_operation. apply safely_got; [done|]. intros o Ho.
  passing Hty. passing Hst. cbv zeta. passing H1. passing H2.
  set (refund_amount := default _ amount) in *.
  apply safely_child; [done|]. intros c Hf Hp Hct Hcs Hca Hc0 Hr0. rewrite <- Hca.
  apply add_capture_refund; try done; [apply Hs|lia].
Qed.

Lemma safe_reverse_auth id : safe (reverse_auth W id).
Proof.
  intros s Hs. unfold reverse_auth. apply safely_got; [done|]. intros o Ho. passing Hty.
  apply (safely_step _ _ s (List.filter (is_child_of o) (ops (live s))) s); [done|].
  destruct (existsb _ _); [by apply safely_raise|].
  apply safely_child; [done|]. intros c Hf Hp Hct Hcs Hca Hc0 Hr0. apply add_reversal; try done. apply Hs.
Qed.
End Services.
