(* ===== verification/CardHistories.v ===== *)
(** * Histories of card requests

    The requests of api/v1/endpoints/transactions.py that write, each served in a session of
    its own, and that any history of them keeps the books of CardBooks.v; the demonstration
    data and runs of the card files. *)
From Stdlib Require Import SpecFloat QArith.
From S2P Require Import Prelude Doubles Json Enums Models AuditTrail Ledger Decisions Limits Transactions.
From S2P Require Import Captures CardBooks.
#[local] Open Scope Z_scope.

(** ** Histories of requests *)

(** The requests of api/v1/endpoints/transactions.py that write. *)
Inductive card_request :=
| Authorize (body : AuthorizeRequest)
| Commit (operation_id : string) (amount quantity : option Z)
| Reverse (operation_id : string) (reason : option string)
| Refund (operation_id : string) (amount : Z) (reason : option string)
| Capture (auth_operation_id : string) (amount : option Z)
| RefundCapture (capture_operation_id : string) (amount : option Z)
| ReverseAuth (auth_operation_id : string).

Section Histories.
Context (W : world Db) `{DS : DecisionService} `{RS : RulesService} `{RK : RiskService} `{DZ : DatabaseZone}
  (rate : Q) (strict_high : bool).
Import TransactionsApi.

Definition run_card (r : card_request) : PM unit :=
  match r with
  | Authorize body => authorize W strict_high body;; mret tt
  | Commit id amount quantity => commit W rate id amount quantity;; mret tt
  | Reverse id reason => reverse id reason;; mret tt
  | Refund id amount reason => refund W rate id amount reason;; mret tt
  | Capture id amount => capture_transaction_endpoint W id amount;; mret tt
  | RefundCapture id amount => refund_transaction_endpoint W id amount;; mret tt
  | ReverseAuth id => reverse_transaction_endpoint W id;; mret tt
  end.

Definition serve_cards (rs : list card_request) : session Db -> session Db := serve_all (map run_card rs).

Context (alone_W : alone W).

Lemma safe_forget {A} (m : PM A) : safe m -> safe (m;; mret tt).
Proof. intros Hm. apply safe_bind; [done|]. intros _ s Hs. by apply safely_ret. Qed.

Lemma safe_authorize_endpoint body : safe (authorize W strict_high body).
Proof.
  apply safe_bind.
  - intros s Hs. pose proof (safe_authorize W alone_W strict_high body None false s Hs) as Hw.
    unfold safely, wp in *. unfold try_except.
    destruct (TransactionsService.authorize_operation W strict_high body None false s) as [[o|e] t]; [done|]. by destruct e.
  - intros o s Hs. by apply safely_ret.
Qed.

Ltac raising := intros e k He; destruct e; try discriminate He; injection He as <-; by eexists.

Lemma safe_run r : safe (run_card r).
Proof.
  destruct r; simpl; apply safe_forget.
  - apply safe_authorize_endpoint.
  - apply safe_try_raise; [by apply safe_commit_operation|]. raising.
  - apply safe_try_raise; [by apply safe_reverse_operation|]. raising.
  - apply safe_try_raise; [by apply safe_refund_operation|]. raising.
  - apply safe_try_raise; [by apply safe_capture|]. raising.
  - apply safe_try_raise; [by apply safe_capture_refund|]. raising.
  - apply safe_try_raise; [by apply safe_reverse_auth|]. raising.
Qed.

Lemma serve_cards_steps rs s : saved s = live s -> books_ok (saved s) ->
  let t := serve_cards rs s in saved t = live t /\ books_ok (saved t).
Proof.
  intros Hs Hb. apply (serve_all_invariant books_ok); [|done|done]. apply Forall_map, List.Forall_forall.
  intros r _ t Ht Hbt. assert (holds books_ok t) as Hh by (split; [by rewrite <- Ht|done]).
  pose proof (safe_run r t Hh) as Hw. unfold safely, wp in Hw.
  destruct (run_card r t) as [[a|e] u]; [by destruct Hw|done].
Qed.

(** C6 whatever card requests are served, in any order and with any answers of the
    engines, what is committed keeps the books right: operation ids are unique and parents
    exist, captures make up the captured amount of their authorisation and never exceed its
    amount, the refunds of a capture make up its refunded amount and never exceed it, other
    refunds never exceed what was settled, the balance of every account is the sum of its
    ledger entries, and every posting is balanced. *)
Theorem card_books_kept rs s : saved s = live s -> books_ok (saved s) ->
  let d := saved (serve_cards rs s) in family_ok (ops d) /\ ledger_ok d.
Proof. intros Hs Hb. by apply serve_cards_steps. Qed.
End Histories.

(** ** Witnesses *)

Definition demo_client : string := "11111111-2222-3333-4444-555555555555".

(** An active client with a card, a terminal and a merchant; the card may spend 1000 a day
    at each terminal. *)
Definition demo_cards : Db :=
  MkDb (posting empty_db) (scenario empty_db) (internal empty_db) (billing empty_db) (flow empty_db) (crm empty_db)
    (MkCardTables [MkClient demo_client "ACTIVE"] [MkCard "card" demo_client "ACTIVE"]
      [MkTerminal "terminal" "other merchant" "ACTIVE"; MkTerminal "terminal 2" "merchant" "ACTIVE"] [MkMerchant "merchant" "ACTIVE"]
      [MkLimitRule 1 "AUTH" LimitScope.PER_TX None None (Some "card") None None None None None None None None (Some 1000) None true]
      [])
    (settle empty_db) (audit empty_db).

Definition demo_request (id terminal : string) (amount : Z) : AuthorizeRequest :=
  MkAuthorizeRequest demo_client "card" terminal "merchant" None None None amount "RUB" id None None None None None None None.

Abbreviation serve_demo := (serve_cards demo_world (DS := allow_all) (RS := no_rules) (RK := low_risk) (DZ := database_utc) (1 # 100) false).
Abbreviation authorise := (TransactionsService.authorize_operation demo_world (H := allow_all) (H0 := no_rules) (H1 := low_risk) (H2 := database_utc) false).

Lemma demo_cards_right : books_ok demo_cards.
Proof.
  split; [|split].
  - split; [constructor|constructor|by intros o p []|by intros o []].
  - intros i. unfold current, balance_of. simpl. by rewrite lookup_empty.
  - done.
Qed.

(** What the operations of a state are, and the balances of its accounts. *)
Definition summary (d : Db) : list (OperationType.OperationType * OperationStatus.OperationStatus * Z) :=
  map (fun o => (op_operation_type o, op_status o, op_amount o)) (ops d).
Definition balances_of (d : Db) : list Z := map (fun a => current d (acc_id a) / 10000) (accounts (posting d)).

(** An authorisation of 100 is captured for 60, of which 10 are refunded, and then
    committed for all of its 100; of these 30 are refunded. *)
Definition demo_day : list card_request :=
  [ Authorize (demo_request "a" "terminal" 100); Capture "a" (Some 60); RefundCapture "id-5" (Some 10);
    Commit "a" (Some 100) None; Refund "a" 30 None ].

Lemma card_books_kept_witness :
  let d := saved (serve_demo demo_day (fresh_session demo_cards)) in
  family_ok (ops d) /\ ledger_ok d /\ balances_of d = [-70; 70] /\
  summary d = [ (OperationType.AUTH, OperationStatus.COMPLETED, 100);
                (OperationType.CAPTURE, OperationStatus.CAPTURED, 60);
                (OperationType.REFUND, OperationStatus.REFUNDED, 10);
                (OperationType.REFUND, OperationStatus.REFUNDED, 30) ].
Proof.
  pose proof (card_books_kept demo_world (DS := allow_all) (RS := no_rules) (RK := low_risk) (DZ := database_utc) (1 # 100) false
    (fun _ _ => eq_refl) demo_day (fresh_session demo_cards) eq_refl demo_cards_right) as [H1 H2].
  split; [exact H1|]. split; [exact H2|]. split; vm_compute; reflexivity.
Defined.

Definition demo_morning : session Db := serve_demo [Authorize (demo_request "a" "terminal" 100)] (fresh_session demo_cards).


(** A key that names the rows of a state. *)
Definition named_rows (d : Db) : list (string * OperationType.OperationType * Z * Z) :=
  map (fun o => (op_operation_id o, op_operation_type o, op_amount o, op_captured_amount o)) (ops d).

(** The first page of everything. *)
Definition all_transactions : Reports.transaction_query := Reports.MkTransactionQuery 50 0 None None None None None None None.

Definition demo_evening : Db := saved (serve_demo demo_day (fresh_session demo_cards)).

Lemma demo_evening_facts : books_ok demo_evening /\ child_sum OperationType.REFUND "a" (ops demo_evening) = 30 /\
  sum_of op_refunded_amount (List.filter (child OperationType.CAPTURE "a") (ops demo_evening)) = 10 /\
  named_rows demo_evening = [("a", OperationType.AUTH, 100, 60); ("id-5", OperationType.CAPTURE, 60, 0);
    ("id-7", OperationType.REFUND, 10, 0); ("id-9", OperationType.REFUND, 30, 0)] /\
  map (fun o => (op_operation_id o, op_captured_amount o)) (List.filter (Reports.wanted_auth all_transactions) (ops demo_evening)) = [("a", 60)].
Proof.
  split; [|split; [|split; [|split]]; vm_compute; reflexivity].
  apply (serve_cards_steps demo_world (DS := allow_all) (RS := no_rules) (RK := low_risk) (DZ := database_utc) (1 # 100) false
    (fun _ _ => eq_refl) demo_day (fresh_session demo_cards) eq_refl demo_cards_right).
Qed.

(** The client stays debited when the operation is reversed, the merchant credited. *)
Example reversal_keeps_debit :
  balances_of (saved (serve_demo [Authorize (demo_request "a" "terminal" 100); Reverse "a" None] (fresh_session demo_cards))) =
  [-100; 100].
Proof. vm_compute. reflexivity. Qed.

(** An authorisation of a negative amount passes the limits and credits the client. *)
Example negative_authorisation :
  let d := saved (serve_demo [Authorize (demo_request "a" "terminal" (-100))] (fresh_session demo_cards)) in
  summary d = [(OperationType.AUTH, OperationStatus.POSTED, -100)] /\ balances_of d = [100; -100].
Proof. vm_compute. split; reflexivity. Qed.

Definition reported_status (id : string) (d : Db) : option (string * Z) :=
  (fun r => (Reports.ts_status r.1, Reports.ts_captured_amount r.1)) <$> Reports.get_transaction id d.

(** A committed operation is still reported as authorised, with nothing captured; refunded
    in part, it is reported as refunded. *)
Example committed_status :
  let day := [Authorize (demo_request "a" "terminal" 100); Commit "a" None None] in
  reported_status "a" (saved (serve_demo day (fresh_session demo_cards))) = Some ("AUTHORIZED", 0) /\
  reported_status "a" (saved (serve_demo (day ++ [Refund "a" 1 None]) (fresh_session demo_cards))) = Some ("REFUNDED", 0).
Proof. vm_compute. split; reflexivity. Qed.

(** A committed operation can still be reversed by the second service. *)
Example committed_reversed :
  summary (saved (serve_demo [Authorize (demo_request "a" "terminal" 100); Commit "a" None None; ReverseAuth "a"]
    (fresh_session demo_cards))) =
  [(OperationType.AUTH, OperationStatus.REVERSED, 100); (OperationType.REVERSAL, OperationStatus.REVERSED, 100)].
Proof. vm_compute. reflexivity. Qed.

(** The daily limit of 1000 of the card is spent at each terminal anew. *)
Example limit_per_terminal :
  summary (saved (serve_demo [Authorize (demo_request "a" "terminal" 900); Authorize (demo_request "b" "terminal" 900);
    Authorize (demo_request "c" "terminal 2" 900)] (fresh_session demo_cards))) =
  [(OperationType.AUTH, OperationStatus.POSTED, 900); (OperationType.DECLINE, OperationStatus.DECLINED, 900);
   (OperationType.AUTH, OperationStatus.POSTED, 900)].
Proof. vm_compute. reflexivity. Qed.
