(* ===== verification/CardReports.v ===== *)
(** * What is reported of card operations

    The detail and the pages of the transactions (services/transactions.py) against the
    columns of the operations, and what a reversal leaves. *)
From Stdlib Require Import SpecFloat QArith.
From S2P Require Import Prelude Doubles Json Enums Models AuditTrail Ledger Decisions Limits Transactions.
From S2P Require Import Captures CardBooks CardHistories.
#[local] Open Scope Z_scope.

(** ** What is reported *)

Section Reported.
Import Reports.

(** The operation with an id, and its children. *)
Definition kin (id : string) (op : Operation) : bool := (op_operation_id op =? id)%py || child_of id op.

Lemma has_type_true ty o : has_type ty o = true <-> op_operation_type o = ty.
Proof. apply bool_decide_eq_true. Qed.

Lemma child_of_true id o : child_of id o = true <-> op_parent_operation_id o = Some id.
Proof. apply bool_decide_eq_true. Qed.

(** The children of an operation are not authorisations. *)
Lemma kin_auth l id o : family_ok l -> In o l -> kin id o = true -> has_type OperationType.AUTH o = true ->
  op_operation_id o = id.
Proof.
  intros Hl Ho Hk Ht%has_type_true. apply orb_prop in Hk as [Hk%bool_decide_eq_true|Hk%child_of_true]; [done|].
  destruct (kind_ok _ _ (family_row _ _ Hl Ho)) as [_ Hn]. rewrite (Hn Ht) in Hk. done.
Qed.

Lemma family_nodup l : family_ok l -> List.NoDup l.
Proof. intros H. exact (NoDup_map_inv _ _ (operation_ids_unique _ _ H)). Qed.

(** Among the kin of an authorisation, the authorisation is the only one of its type. *)
Lemma auths_of_kin l o : family_ok l -> In o l -> op_operation_type o = OperationType.AUTH ->
  List.filter (has_type OperationType.AUTH) (List.filter (kin (op_operation_id o)) l) = [o].
Proof.
  intros Hl Ho Ht. apply filter_single.
  - apply List.NoDup_filter, family_nodup, Hl.
  - apply filter_In. split; [done|]. apply orb_true_intro. left. by apply bool_decide_eq_true.
  - by apply has_type_true.
  - intros y [Hy Hk]%filter_In Hty. apply (nodup_key op_operation_id l); [apply (operation_ids_unique _ _ Hl)|done|done|].
    by apply (kin_auth l).
Qed.

(** The children of a type, among the kin. *)
Lemma kin_children ty id l : List.filter (child ty id) (List.filter (kin id) l) = List.filter (child ty id) l.
Proof.
  rewrite <- filter_and. apply List.filter_ext. intros o. unfold kin, child, child_of.
  destruct (op_parent_operation_id o =? Some id)%py; [by rewrite orb_true_r, !andb_true_r|by rewrite !andb_false_r].
Qed.

Lemma sums_of_kin ty id l m : m ≡ₚ List.filter (kin id) l -> sum_of op_amount (List.filter (child ty id) m) = child_sum ty id l.
Proof.
  intros Hm. unfold child_sum. rewrite (sum_of_perm _ _ _ (filter_perm (child ty id) _ _ Hm)). by rewrite kin_children.
Qed.

Lemma captures_of_kin l id m : family_ok l -> (forall o, In o m -> In o l) ->
  captures_of id m = List.filter (child OperationType.CAPTURE id) m.
Proof.
  intros Hl Hm. apply List.filter_ext_in. intros o Ho. unfold child, has_type, child_of. f_equal.
  destruct (kind_ok _ _ (family_row _ _ Hl (Hm o Ho))) as [Hc _]. unfold eqb.
  rewrite (bool_decide_eq_false_2 (_ = OperationType.COMMIT)) by done. by rewrite orb_false_r.
Qed.

(** Among the kin, a refund is a refund of the authorisation itself. *)
Lemma refunds_of_kin o ids m : op_operation_type o = OperationType.AUTH ->
  (forall r, In r m -> kin (op_operation_id o) r = true) ->
  (forall r, In r m -> op_operation_id r = op_operation_id o -> r = o) ->
  refunds_of (op_operation_id o) ids m = List.filter (child OperationType.REFUND (op_operation_id o)) m.
Proof.
  intros Ho Hk Hu. apply List.filter_ext_in. intros r Hr. unfold child. fold (child_of (op_operation_id o) r).
  specialize (Hk r Hr). unfold kin in Hk. destruct (child_of (op_operation_id o) r) eqn:Hc; [done|].
  rewrite orb_false_r in Hk. apply bool_decide_eq_true in Hk. rewrite (Hu r Hr Hk). unfold has_type.
  by rewrite Ho.
Qed.

(** What is built from an authorisation and its children, in any order. *)
Lemma build_kin l o m : family_ok l -> In o l -> op_operation_type o = OperationType.AUTH ->
  m ≡ₚ List.filter (kin (op_operation_id o)) l ->
  exists tx, build_transaction_from_operations m = Some tx /\ ts_auth_operation tx = o /\
    ts_transaction_id tx = op_operation_id o /\ ts_authorized_amount tx = op_amount o /\
    ts_captured_amount tx = op_captured_amount o /\
    ts_refunded_amount tx = child_sum OperationType.REFUND (op_operation_id o) l /\
    ts_status tx = _determine_status (op_amount o) (op_captured_amount o)
      (child_sum OperationType.REFUND (op_operation_id o) l) m.
Proof.
  intros Hl Ho Ht Hm.
  assert (List.filter (has_type OperationType.AUTH) m = [o]) as Ha.
  { pose proof (filter_perm (has_type OperationType.AUTH) _ _ Hm) as Hp. rewrite auths_of_kin in Hp by done.
    by apply Permutation_singleton_r in Hp. }
  assert (forall r, In r m -> In r l /\ kin (op_operation_id o) r = true) as Hin.
  { intros r Hr. apply filter_In. by eapply Permutation_in. }
  unfold build_transaction_from_operations. destruct m as [|x m']; [done|]. set (m := x :: m') in *.
  rewrite Ha. cbn [fold_left]. eexists. split; [reflexivity|]. cbn -[m _determine_status].
  rewrite (captures_of_kin l) by (done || intros r Hr; by apply Hin).
  rewrite (refunds_of_kin o) by first [done | intros r Hr; by apply Hin
    | intros r Hr E; apply (nodup_key op_operation_id l); [apply (operation_ids_unique _ _ Hl)|by apply Hin|done|done]].
  rewrite !(sums_of_kin _ _ l) by done. rewrite <- (captures_sum _ _ (family_row _ _ Hl Ho)).
  rewrite Z.add_0_r. done.
Qed.

(** C12 the report of an authorisation shows its columns: the amount authorised, and as the
    captured amount the one the captures keep in the authorisation; but as the refunded
    amount only the refunds of the authorisation itself, not those of its captures; the
    operations shown are the authorisation and its children. *)
Theorem transaction_reported d o : family_ok (ops d) -> In o (ops d) -> op_operation_type o = OperationType.AUTH ->
  exists tx l, get_transaction (op_operation_id o) d = Some (tx, l) /\
    l ≡ₚ List.filter (kin (op_operation_id o)) (ops d) /\ ts_auth_operation tx = o /\
    ts_authorized_amount tx = op_amount o /\ ts_captured_amount tx = op_captured_amount o /\
    ts_refunded_amount tx = child_sum OperationType.REFUND (op_operation_id o) (ops d) /\
    ts_status tx = _determine_status (op_amount o) (op_captured_amount o) (ts_refunded_amount tx) l.
Proof.
  intros Hl Ho Ht. unfold get_transaction. cbv zeta.
  change (List.filter _ (operations (scenario d))) with (List.filter (kin (op_operation_id o)) (ops d)).
  set (m := merge_sort oldest_first _). assert (m ≡ₚ List.filter (kin (op_operation_id o)) (ops d)) as Hm
    by apply merge_sort_Permutation.
  destruct (build_kin (ops d) o m Hl Ho Ht Hm) as (tx & Hb & H1 & _ & H2 & H3 & H4 & H5). rewrite Hb.
  exists tx, m. by rewrite H4.
Qed.
End Reported.

(** ** The page of transactions *)

Section Listed.
Import Reports.
Context (d : Db) (Hd : family_ok (ops d)) (named : forall o, In o (ops d) -> op_operation_id o <> "").
Context (auths : list Operation) (Hauths : forall o, In o auths -> In o (ops d) /\ op_operation_type o = OperationType.AUTH).

Definition ids : list string := map op_operation_id auths.

Lemma same_operation x y : In x (ops d) -> In y (ops d) -> op_operation_id x = op_operation_id y -> x = y.
Proof. apply nodup_key, (operation_ids_unique _ _ Hd). Qed.

Lemma in_ids o : In o (ops d) -> op_operation_id o ∈ ids -> In o auths.
Proof.
  intros Ho (x & Hx & Hin)%list_elem_of_In%in_map_iff. destruct (Hauths x Hin) as [Hxd _].
  by rewrite <- (same_operation x o).
Qed.


(** The parent of an operation is one of the authorisations. *)
Definition of_auths (o : Operation) : bool :=
  match op_parent_operation_id o with Some p => bool_decide (p ∈ ids) | None => false end.

Definition captures_of_auths : list Operation :=
  List.filter (fun o => has_type OperationType.CAPTURE o && of_auths o) (ops d).

Definition refund_of_captures (o : Operation) : bool :=
  has_type OperationType.REFUND o &&
  match op_parent_operation_id o with
  | Some p => bool_decide (p ∈ map op_operation_id captures_of_auths)
  | None => false
  end.

Lemma capture_in c : In c captures_of_auths <->
  In c (ops d) /\ op_operation_type c = OperationType.CAPTURE /\ of_auths c = true.
Proof. unfold captures_of_auths. by rewrite filter_In, andb_true_iff, has_type_true. Qed.

Lemma refund_of_captures_true r : refund_of_captures r = true <->
  op_operation_type r = OperationType.REFUND /\
  exists c, In c captures_of_auths /\ op_parent_operation_id r = Some (op_operation_id c).
Proof.
  unfold refund_of_captures. rewrite andb_true_iff, has_type_true. destruct (op_parent_operation_id r) as [p|].
  - rewrite bool_decide_eq_true, list_elem_of_In, in_map_iff. split; intros [H1 H2]; (split; [done|]).
    + destruct H2 as (c & <- & Hc). by exists c.
    + destruct H2 as (c & Hc & [= ->]). by exists c.
  - split; [by intros [_ ?]|]. intros [_ (c & _ & E)]. done.
Qed.

Lemma of_auths_true o : of_auths o = true <-> exists p, op_parent_operation_id o = Some p /\ p ∈ ids.
Proof.
  unfold of_auths. destruct (op_parent_operation_id o) as [p|].
  - rewrite bool_decide_eq_true. split; [by exists p|]. by intros (q & [= ->] & Hq).
  - split; [done|]. by intros (p & E & _).
Qed.

(** A capture is not an authorisation. *)
Lemma capture_no_auth c : In c captures_of_auths -> op_operation_id c ∉ ids.
Proof.
  intros (Hc & Ht & _)%capture_in Hin. apply in_ids in Hin; [|done]. apply Hauths in Hin as [_ Ha]. congruence.
Qed.

Definition fetched : list Operation := _fetch_operations_for_auths d ids.

Lemma fetched_perm : fetched ≡ₚ
  List.filter (fun o => bool_decide (op_operation_id o ∈ ids) || of_auths o) (ops d) ++
  List.filter refund_of_captures (ops d).
Proof.
  unfold fetched, _fetch_operations_for_auths. cbv zeta. apply Permutation_app.
  - apply merge_sort_Permutation.
  - rewrite merge_sort_Permutation.
    set (m := merge_sort _ _). set (P := fun o => has_type OperationType.CAPTURE o && _).
    assert (m ≡ₚ List.filter (fun o => bool_decide (op_operation_id o ∈ ids) || of_auths o) (ops d)) as Hm
      by apply merge_sort_Permutation.
    assert (List.filter P m ≡ₚ captures_of_auths) as Hc.
    { rewrite (filter_perm P _ _ Hm), <- filter_and. unfold captures_of_auths.
      erewrite List.filter_ext; [reflexivity|]. intros o. unfold P. fold (of_auths o).
      by destruct (has_type _ o), (of_auths o), (bool_decide _). }
    erewrite List.filter_ext; [reflexivity|]. intros o. unfold refund_of_captures. f_equal.
    destruct (op_parent_operation_id o) as [p|]; [|done]. apply bool_decide_ext. by rewrite Hc.
Qed.

Lemma fetched_in r : In r fetched <->
  In r (ops d) /\ (op_operation_id r ∈ ids \/ of_auths r = true \/ refund_of_captures r = true).
Proof.
  rewrite <- (list_elem_of_In fetched r), fetched_perm, elem_of_app, !list_elem_of_In, !filter_In, orb_true_iff.
  rewrite bool_decide_eq_true, list_elem_of_In. tauto.
Qed.

Lemma fetched_nodup : List.NoDup (map op_operation_id fetched).
Proof.
  rewrite <- NoDup_ListNoDup. apply NoDup_fmap_2_strong.
  - intros x y Hx%list_elem_of_In%fetched_in Hy%list_elem_of_In%fetched_in. apply same_operation; tauto.
  - rewrite fetched_perm, NoDup_app, !NoDup_ListNoDup. split; [apply List.NoDup_filter, family_nodup, Hd|].
    split; [|apply List.NoDup_filter, family_nodup, Hd].
    intros r Hr%list_elem_of_In Hr'%list_elem_of_In. apply filter_In in Hr as [Hr Hf], Hr' as [_ Hc].
    apply refund_of_captures_true in Hc as [Ht (c & Hc & Hp)]. apply orb_prop in Hf as [Hf%bool_decide_eq_true|Hf].
    + apply in_ids in Hf; [|done]. apply Hauths in Hf as [_ Ha]. congruence.
    + apply of_auths_true in Hf as (p & Hp' & Hin). rewrite Hp in Hp'. injection Hp' as <-. by apply capture_no_auth in Hc.
Qed.

Lemma find_fetched x : In x fetched -> find_by_id fetched (op_operation_id x) = Some x.
Proof.
  intros Hx. unfold find_by_id. erewrite filter_single; [reflexivity| |exact Hx| |].
  - exact (NoDup_map_inv _ _ fetched_nodup).
  - by apply bool_decide_eq_true.
  - intros y Hy He%bool_decide_eq_true. by apply (nodup_key op_operation_id fetched); [apply fetched_nodup|..].
Qed.

Lemma named_parent p x : In x (ops d) -> op_operation_id x = p -> str_or_none (Some p) = Some p.
Proof. intros Hx <-. unfold str_or_none. specialize (named x Hx). destruct (op_operation_id x); done. Qed.

Lemma auth_fetched x : In x auths -> In x fetched.
Proof.
  intros Hx. apply fetched_in. split; [by apply Hauths|]. left. apply list_elem_of_In. by apply in_map.
Qed.

(** The family of an authorisation. *)
Definition belongs (a : Operation) (r : Operation) : bool :=
  kin (op_operation_id a) r ||
  (has_type OperationType.REFUND r &&
   match op_parent_operation_id r with
   | Some p => bool_decide (p ∈ map op_operation_id (List.filter (child OperationType.CAPTURE (op_operation_id a)) (ops d)))
   | None => false
   end).

(** The key of an operation found for the authorisations. *)
Lemma key_of_auth a : In a auths -> group_key fetched ids a = Some (op_operation_id a).
Proof.
  intros Ha. destruct (Hauths a Ha) as [_ Ht]. unfold group_key, has_type, eqb.
  rewrite (bool_decide_eq_true_2 (op_operation_type a = _)) by done.
  by rewrite bool_decide_eq_true_2 by (apply list_elem_of_In; by apply in_map).
Qed.

Lemma root_of_child n a r : In a auths -> op_parent_operation_id r = Some (op_operation_id a) ->
  root_of (S n) fetched ids r = Some (op_operation_id a).
Proof.
  intros Ha Hp. pose proof (Hauths a Ha) as [Had Ht]. cbn [root_of].
  rewrite Hp, (named_parent _ a) by done. rewrite find_fetched by by apply auth_fetched.
  unfold has_type, eqb. rewrite (bool_decide_eq_true_2 (op_operation_type a = _)) by done.
  by rewrite bool_decide_eq_true_2 by (apply list_elem_of_In; by apply in_map).
Qed.

Lemma root_of_grandchild n a c r : In a auths -> In c captures_of_auths ->
  op_parent_operation_id c = Some (op_operation_id a) -> op_parent_operation_id r = Some (op_operation_id c) ->
  root_of (S (S n)) fetched ids r = Some (op_operation_id a).
Proof.
  intros Ha Hc Hp Hr. pose proof (proj1 (capture_in c) Hc) as (Hcd & Hct & Hca).
  assert (In c fetched) as Hcf by (apply fetched_in; auto).
  rewrite <- (root_of_child n a c Ha Hp). cbn [root_of]. rewrite Hr, (named_parent _ c) by done.
  rewrite find_fetched by done. unfold has_type at 1, eqb at 1. by rewrite Hct.
Qed.

Lemma key_not_auth r : op_operation_type r <> OperationType.AUTH -> group_key fetched ids r = root_of 5 fetched ids r.
Proof. intros Ht. unfold group_key, has_type, eqb. by rewrite (bool_decide_eq_false_2 _ Ht). Qed.

Lemma child_not_auth r : In r (ops d) -> is_Some (op_parent_operation_id r) -> op_operation_type r <> OperationType.AUTH.
Proof. intros Hr [p Hp] Ht. destruct (kind_ok _ _ (family_row _ _ Hd Hr)) as [_ Hk]. rewrite (Hk Ht) in Hp. done. Qed.

Lemma key_of_fetched r : In r fetched -> exists a, In a auths /\ belongs a r = true /\
  group_key fetched ids r = Some (op_operation_id a).
Proof.
  intros (Hr & [Hi|[Hp|Hc]])%fetched_in.
  - apply in_ids in Hi; [|done]. exists r. split; [done|]. split; [|by apply key_of_auth].
    unfold belongs, kin, eqb. by rewrite bool_decide_eq_true_2.
  - apply of_auths_true in Hp as (p & Hp & (a & <- & Ha)%list_elem_of_In%in_map_iff). exists a. split; [done|].
    split; [unfold belongs, kin, child_of, eqb; by rewrite Hp, (bool_decide_eq_true_2 (Some _ = _)), orb_true_r|].
    rewrite key_not_auth by (apply child_not_auth; [done|by eexists]). by apply root_of_child.
  - apply refund_of_captures_true in Hc as [Ht (c & Hc & Hp)]. pose proof (proj1 (capture_in c) Hc) as (Hcd & Hct & Hca).
    apply of_auths_true in Hca as (q & Hq & (a & <- & Ha)%list_elem_of_In%in_map_iff). exists a. split; [done|]. split.
    + unfold belongs. apply orb_true_intro. right. rewrite (proj2 (has_type_true _ _) Ht), Hp. apply bool_decide_eq_true.
      apply list_elem_of_In, in_map, filter_In. split; [done|]. unfold child, eqb.
      by rewrite Hct, Hq, !bool_decide_eq_true_2.
    + rewrite key_not_auth by congruence. by eapply root_of_grandchild.
Qed.

(** What belongs to an authorisation: itself, its children, the refunds of its captures. *)
Lemma belongs_true a r : In a (ops d) -> In r (ops d) -> (belongs a r = true <->
  r = a \/ op_parent_operation_id r = Some (op_operation_id a) \/
  (op_operation_type r = OperationType.REFUND /\ exists c, In c (ops d) /\ op_operation_type c = OperationType.CAPTURE /\
     op_parent_operation_id c = Some (op_operation_id a) /\ op_parent_operation_id r = Some (op_operation_id c))).
Proof.
  intros Ha Hr. unfold belongs, kin. rewrite !orb_true_iff, andb_true_iff, has_type_true, child_of_true.
  assert ((op_operation_id r =? op_operation_id a)%py = true <-> r = a) as ->.
  { unfold eqb. rewrite bool_decide_eq_true. split; [by apply same_operation|by intros ->]. }
  assert (forall p, bool_decide (p ∈ map op_operation_id (List.filter (child OperationType.CAPTURE (op_operation_id a)) (ops d))) = true <->
    exists c, In c (ops d) /\ op_operation_type c = OperationType.CAPTURE /\
      op_parent_operation_id c = Some (op_operation_id a) /\ p = op_operation_id c) as Hc.
  { intros p. rewrite bool_decide_eq_true, list_elem_of_In, in_map_iff. unfold child, eqb.
    setoid_rewrite filter_In. setoid_rewrite andb_true_iff. setoid_rewrite bool_decide_eq_true. naive_solver. }
  destruct (op_parent_operation_id r) as [p|]; [rewrite Hc; naive_solver|naive_solver].
Qed.

(** No operation belongs to two authorisations. *)
Lemma belongs_one a b r : In a auths -> In b auths -> In r (ops d) -> belongs a r = true -> belongs b r = true -> a = b.
Proof.
  intros Ha Hb Hr. destruct (Hauths a Ha) as [Had Hat], (Hauths b Hb) as [Hbd Hbt].
  rewrite !belongs_true by done.
  assert (forall x, In x (ops d) -> op_operation_type x = OperationType.AUTH -> op_parent_operation_id x = None) as Hno.
  { intros x Hx Ht. by apply (kind_ok _ _ (family_row _ _ Hd Hx)). }
  intros [->|[E|(Ht & c & Hc & Hct & Hcp & E)]] [E'|[E'|(Ht' & c' & Hc' & Hct' & Hcp' & E')]]; subst;
    rewrite ?(Hno _ Had Hat), ?(Hno _ Hbd Hbt) in *; try congruence; rewrite E in E'; injection E' as E'.
  - by apply same_operation.
  - apply same_operation in E'; [congruence|done|done].
  - symmetry in E'. apply same_operation in E'; [congruence|done|done].
  - apply same_operation in E'; [subst c'|done|done]. rewrite Hcp in Hcp'. injection Hcp' as E'. by apply same_operation.
Qed.

(** The group of an authorisation is what belongs to it. *)
Lemma group_perm a : In a auths ->
  _group_operations_by_auth fetched ids (op_operation_id a) ≡ₚ List.filter (belongs a) (ops d).
Proof.
  intros Ha. pose proof (Hauths a Ha) as [Had Hat]. unfold _group_operations_by_auth.
  rewrite bool_decide_eq_true_2 by (apply list_elem_of_In; by apply in_map).
  apply NoDup_Permutation; rewrite ?NoDup_ListNoDup.
  - apply List.NoDup_filter, (NoDup_map_inv _ _ fetched_nodup).
  - apply List.NoDup_filter, family_nodup, Hd.
  - intros r. rewrite !list_elem_of_In, !filter_In. unfold eqb. rewrite bool_decide_eq_true. split.
    + intros [Hf Hk]. destruct (key_of_fetched r Hf) as (b & Hb & Hbr & Hkb). rewrite Hk in Hkb. injection Hkb as E.
      assert (b = a) as -> by (apply same_operation; [by apply Hauths|done|done]).
      split; [by apply fetched_in in Hf as [? _]|done].
    + intros [Hr Hbr].
      assert (In r fetched) as Hf.
      { apply fetched_in. split; [done|]. apply belongs_true in Hbr as [->|[Hp|(Ht & c & Hc & Hct & Hcp & Hp)]]; [| | |done|done].
        - left. apply list_elem_of_In. by apply in_map.
        - right. left. apply of_auths_true. eexists. split; [done|]. apply list_elem_of_In. by apply in_map.
        - right. right. apply refund_of_captures_true. split; [done|]. exists c. split; [|done]. apply capture_in.
          split; [done|]. split; [done|]. apply of_auths_true. eexists. split; [done|]. apply list_elem_of_In. by apply in_map. }
      split; [done|]. destruct (key_of_fetched r Hf) as (b & Hb & Hbr' & ->). by rewrite (belongs_one b a r).
Qed.

(** The captures of an authorisation. *)
Definition own_captures (a : Operation) : list Operation :=
  List.filter (child OperationType.CAPTURE (op_operation_id a)) (ops d).

Definition by_capture (a r : Operation) : bool :=
  has_type OperationType.REFUND r && bool_decide (op_parent_operation_id r ∈ map (fun c => Some (op_operation_id c)) (own_captures a)).

Lemma child_true ty p o : child ty p o = true <-> op_operation_type o = ty /\ op_parent_operation_id o = Some p.
Proof. unfold child, eqb. by rewrite andb_true_iff, !bool_decide_eq_true. Qed.

Lemma own_capture_in a c : In c (own_captures a) <->
  In c (ops d) /\ op_operation_type c = OperationType.CAPTURE /\ op_parent_operation_id c = Some (op_operation_id a).
Proof. unfold own_captures. by rewrite filter_In, child_true. Qed.

Lemma by_capture_true a r : by_capture a r = true <-> op_operation_type r = OperationType.REFUND /\
  exists c, In c (own_captures a) /\ op_parent_operation_id r = Some (op_operation_id c).
Proof.
  unfold by_capture. rewrite andb_true_iff, has_type_true, bool_decide_eq_true, list_elem_of_In, in_map_iff. naive_solver.
Qed.

(** The refunds of the captures, capture by capture. *)
Lemma refunds_by_capture a :
  sum_of op_amount (List.filter (by_capture a) (ops d)) = sum_of op_refunded_amount (own_captures a).
Proof.
  transitivity (sum_of (fun k => sum_of op_amount (List.filter (fun r => (op_parent_operation_id r =? k)%py)
    (List.filter (has_type OperationType.REFUND) (ops d)))) (map (fun c => Some (op_operation_id c)) (own_captures a))).
  - rewrite sum_by_group.
    + rewrite <- filter_and. f_equal. apply List.filter_ext. intros r. apply andb_comm.
    + rewrite <- NoDup_ListNoDup. apply NoDup_fmap_2_strong.
      * intros x y (Hx & _)%list_elem_of_In%own_capture_in (Hy & _)%list_elem_of_In%own_capture_in [= E].
        by apply same_operation.
      * rewrite NoDup_ListNoDup. apply List.NoDup_filter, family_nodup, Hd.
  - rewrite sum_of_map. apply sum_of_ext, List.Forall_forall. intros c (Hc & Ht & _)%own_capture_in.
    destruct (refunds_sum _ _ (family_row _ _ Hd Hc) Ht) as [-> _]. unfold child_sum. rewrite <- filter_and.
    f_equal. apply List.filter_ext. intros r. apply andb_comm.
Qed.

Lemma sum_of_or {A} (f : A -> Z) (P Q : A -> bool) l : (forall x, In x l -> P x = true -> Q x = true -> False) ->
  sum_of f (List.filter (fun x => P x || Q x) l) = sum_of f (List.filter P l) + sum_of f (List.filter Q l).
Proof.
  induction l as [|x l IH]; intros H; [done|]. simpl.
  assert (forall y, In y l -> P y = true -> Q y = true -> False) as H' by (intros y Hy; apply H; by right).
  specialize (IH H'). destruct (P x) eqn:HP, (Q x) eqn:HQ; simpl; try lia. exfalso. apply (H x); [by left|done|done].
Qed.

Section Group.
Context (a : Operation) (Ha : In a auths) (m : list Operation) (Hm : m ≡ₚ List.filter (belongs a) (ops d)).

Lemma group_in r : In r m <-> In r (ops d) /\ belongs a r = true.
Proof. rewrite <- list_elem_of_In, Hm, list_elem_of_In. apply filter_In. Qed.

Lemma group_auths : List.filter (has_type OperationType.AUTH) m = [a].
Proof.
  destruct (Hauths a Ha) as [Had Hat]. pose proof (filter_perm (has_type OperationType.AUTH) _ _ Hm) as Hp.
  rewrite (filter_single _ a (List.filter (belongs a) (ops d))) in Hp; [by apply Permutation_singleton_r in Hp|..].
  - apply List.NoDup_filter, family_nodup, Hd.
  - apply filter_In. split; [done|]. apply belongs_true; auto.
  - by apply has_type_true.
  - intros r [Hr Hb]%filter_In Ht%has_type_true. apply belongs_true in Hb as [?|[E|[E _]]]; [done| |congruence|done|done].
    by destruct (child_not_auth r Hr (ex_intro _ _ E)).
Qed.

Lemma group_filter P : (forall r, In r (ops d) -> P r = true -> belongs a r = true) ->
  List.filter P m ≡ₚ List.filter P (ops d).
Proof.
  intros HP. rewrite (filter_perm P _ _ Hm), <- filter_and. erewrite List.filter_ext_in; [reflexivity|].
  intros r Hr. specialize (HP r Hr). destruct (P r); [by rewrite HP|done].
Qed.

Lemma group_captures : captures_of (op_operation_id a) m ≡ₚ own_captures a.
Proof.
  destruct (Hauths a Ha) as [Had _].
  rewrite (captures_of_kin (ops d)) by (done || by intros r [? _]%group_in). apply group_filter.
  intros r Hr [_ Hp]%child_true. apply belongs_true; auto.
Qed.

Lemma group_refunds : sum_of op_amount (refunds_of (op_operation_id a)
    (map op_operation_id (captures_of (op_operation_id a) m)) m) =
  child_sum OperationType.REFUND (op_operation_id a) (ops d) + sum_of op_refunded_amount (own_captures a).
Proof.
  destruct (Hauths a Ha) as [Had Hat].
  assert (refunds_of (op_operation_id a) (map op_operation_id (captures_of (op_operation_id a) m)) m =
    List.filter (fun r => child OperationType.REFUND (op_operation_id a) r || by_capture a r) m) as ->.
  { apply List.filter_ext_in. intros r [Hr _]%group_in. apply eq_iff_eq_true.
    rewrite andb_true_iff, !orb_true_iff, has_type_true, child_of_true, child_true, by_capture_true.
    assert (match str_or_none (op_parent_operation_id r) with
      | Some parent => bool_decide (parent ∈ map op_operation_id (captures_of (op_operation_id a) m))
      | None => false end = true <-> exists c, In c (own_captures a) /\ op_parent_operation_id r = Some (op_operation_id c)) as Hc.
    { destruct (op_parent_operation_id r) as [p|]; [|naive_solver].
      transitivity (p ∈ map op_operation_id (own_captures a)).
      - destruct (decide (p = "")) as [->|Hp].
        + split; [done|]. intros (c & E & [Hc _]%own_capture_in)%list_elem_of_In%in_map_iff. by destruct (named c Hc).
        + assert (str_or_none (Some p) = Some p) as -> by (by destruct p). by rewrite bool_decide_eq_true, group_captures.
      - rewrite list_elem_of_In, in_map_iff. naive_solver. }
    rewrite Hc. naive_solver. }
  rewrite (sum_of_perm _ _ (List.filter (fun r => child OperationType.REFUND (op_operation_id a) r || by_capture a r) (ops d))).
  - rewrite sum_of_or, refunds_by_capture; [done|].
    intros r Hr [_ Hp]%child_true [_ (c & (Hc & Hct & _)%own_capture_in & E)]%by_capture_true.
    rewrite Hp in E. injection E as E. apply same_operation in E; [congruence|done|done].
  - apply group_filter. intros r Hr. rewrite orb_true_iff, child_true, by_capture_true. intros [[_ Hp]|[Ht (c & Hc & E)]].
    + apply belongs_true; auto.
    + apply own_capture_in in Hc as (Hc & Hct & Hcp). apply belongs_true; [done|done|]. right. right. eauto 6.
Qed.

Lemma build_group : exists tx, build_transaction_from_operations m = Some tx /\ ts_auth_operation tx = a /\
  ts_transaction_id tx = op_operation_id a /\ ts_authorized_amount tx = op_amount a /\
  ts_captured_amount tx = op_captured_amount a /\
  ts_refunded_amount tx = child_sum OperationType.REFUND (op_operation_id a) (ops d) + sum_of op_refunded_amount (own_captures a).
Proof.
  pose proof group_auths as Hau. pose proof group_captures as Hca. pose proof group_refunds as Hre.
  unfold build_transaction_from_operations. destruct m as [|x m'] eqn:Em; [done|]. rewrite <- Em in *. rewrite Hau. cbn [fold_left].
  eexists. split; [reflexivity|]. cbn. rewrite Hre, (sum_of_perm _ _ _ Hca), Z.add_0_r.
  rewrite (captures_sum _ _ (family_row _ _ Hd (proj1 (Hauths a Ha)))). done.
Qed.
End Group.
End Listed.

(** ** The list of transactions *)

Section Page.
Import Reports.

(** A reported transaction shows the columns of its authorisation, and all refunds. *)
Definition shows (d : Db) (tx : TransactionSchema) : Prop :=
  let o := ts_auth_operation tx in
  ts_transaction_id tx = op_operation_id o /\ ts_authorized_amount tx = op_amount o /\
  ts_captured_amount tx = op_captured_amount o /\
  ts_refunded_amount tx = child_sum OperationType.REFUND (op_operation_id o) (ops d) +
    sum_of op_refunded_amount (own_captures d o).

Definition has_status (q : transaction_query) (tx : TransactionSchema) : bool :=
  match str_or_none (tq_status q) with Some status => (ts_status tx =? status)%py | None => true end.

#[export] Instance listed_before_total : Total listed_before.
Proof.
  intros a b. unfold listed_before. destruct (Z.lt_trichotomy (ts_created_at a) (ts_created_at b)) as [?|[E|?]];
    [by right; left| |by left; left].
  destruct (total String.le (ts_transaction_id a) (ts_transaction_id b)); [left|right]; right; done.
Qed.

Lemma wanted_is_auth q o : wanted_auth q o = true -> op_operation_type o = OperationType.AUTH.
Proof. unfold wanted_auth. rewrite !andb_true_iff. intros [[[[[[H _] _] _] _] _] _]. by apply has_type_true. Qed.

(** C9 the pages of the transaction list are the slices of one list, the newest first: for
    every authorisation that matches the query, and nothing else, a transaction that shows
    its amount, what its captures keep as captured, and the refunds of the authorisation
    and of its captures; those of the requested status remain. *)
Theorem transactions_listed q d :
  family_ok (ops d) -> (forall o, In o (ops d) -> op_operation_id o <> "") ->
  exists rows txs, list_transactions q d = (take (tq_limit q) (drop (tq_offset q) txs), length txs) /\
    map ts_auth_operation rows ≡ₚ List.filter (wanted_auth q) (ops d) /\ Forall (shows d) rows /\
    txs ≡ₚ List.filter (has_status q) rows /\ Sorted listed_before txs.
Proof.
  intros Hd named. unfold list_transactions. cbv zeta.
  set (auths := merge_sort newest_first _).
  assert (auths ≡ₚ List.filter (wanted_auth q) (ops d)) as Hperm by apply merge_sort_Permutation.
  assert (forall o, In o auths -> In o (ops d) /\ op_operation_type o = OperationType.AUTH) as Hauths.
  { intros o. rewrite <- list_elem_of_In, Hperm, list_elem_of_In, filter_In. intros [? ?%wanted_is_auth]. done. }
  set (build := fun auth : Operation => build_transaction_from_operations _). assert (exists rows, omap build auths = rows /\ map ts_auth_operation rows = auths /\
    Forall (shows d) rows) as (rows & Hrows & Hmap & Hshow).
  { assert (forall l, (forall a, In a l -> In a auths) -> exists rows, omap build l = rows /\
      map ts_auth_operation rows = l /\ Forall (shows d) rows) as H; [|by apply H].
    induction l as [|a l IH]; intros Hl; [by exists []|].
    destruct IH as (rows & Hr & Hm & Hs); [intros x Hx; apply Hl; by right|].
    destruct (build_group d Hd named auths Hauths a (Hl a (or_introl eq_refl)) _
      (group_perm d Hd named auths Hauths a (Hl a (or_introl eq_refl)))) as (tx & Hb & Ht & H).
    exists (tx :: rows). split.
    { change (match build a with Some y => y :: omap build l | None => omap build l end = tx :: rows).
      assert (build a = Some tx) as -> by exact Hb. by rewrite Hr. }
   
    split; [simpl; by rewrite Ht, Hm|]. constructor; [|done]. unfold shows. rewrite Ht. done. }
  rewrite Hrows. exists rows. eexists. split; [reflexivity|]. split; [by rewrite Hmap|]. split; [done|].
  split; [|apply Sorted_merge_sort, _]. rewrite merge_sort_Permutation. unfold has_status.
  destruct (str_or_none (tq_status q)) as [st|]; [done|]. by rewrite filter_all by by apply Forall_true.
Qed.
End Page.

(** ** Reversals *)

Section Reversals.
Context (W : world Db).
Import TransactionsService Reports.

Lemma fetch_found ext o s : family_ok (ops (live s)) -> In o (ops (live s)) -> op_operation_id o = ext ->
  fetch_or_raise ext s = (Ok o, s).
Proof.
  intros Hf Ho He. unfold fetch_or_raise. destruct (fetch_run ext s) as ([x|] & Hr & Hx); rewrite (bind_ok _ _ _ _ _ Hr).
  - destruct Hx as [Hx Hxe]. assert (x = o) as ->; [|done].
    apply (nodup_key op_operation_id (ops (live s))); [apply (operation_ids_unique _ _ Hf)|done|done|congruence].
  - destruct Hx. rewrite <- He. by apply in_map.
Qed.

(** The transaction with an id is found. *)
Definition found (id : string) (d : Db) : Prop := is_Some (get_transaction id d).

(** Nothing is reported under an id that no authorisation has. *)
Lemma not_reported id d : (forall x, In x (ops d) -> kin id x = true -> op_operation_type x <> OperationType.AUTH) ->
  get_transaction id d = None.
Proof.
  intros Hno. unfold get_transaction. cbv zeta.
  change (List.filter _ (operations (scenario d))) with (List.filter (kin id) (ops d)).
  set (m := merge_sort oldest_first _). assert (List.filter (has_type OperationType.AUTH) m = []) as Hm.
  { apply filter_none, List.Forall_forall. intros x Hx. apply bool_decide_eq_false.
    assert (In x (List.filter (kin id) (ops d))) as [Hin Hk]%filter_In; [|by apply Hno].
    apply list_elem_of_In. rewrite <- (merge_sort_Permutation oldest_first). by apply list_elem_of_In. }
  unfold build_transaction_from_operations. destruct m as [|x m']; [done|]. by rewrite Hm.
Qed.

(** C10 an open operation can be reversed, whatever was captured of it: it becomes a REVERSE
    that is committed, but the ledger keeps the transfer its authorisation made (the client
    stays debited), and the transaction is not found by its id any more. *)
Theorem reversal_moves_nothing o reason s :
  holds books_ok s -> In o (ops (live s)) -> is_open (op_status o) = true ->
  exists o' t, reverse_operation (op_operation_id o) reason s = (Ok o', t) /\ saved t = live t /\
    op_status o' = OperationStatus.REVERSED /\ op_operation_type o' = OperationType.REVERSE /\
    In o' (ops (live t)) /\ posting (live t) = posting (live s) /\
    found (op_operation_id o) (live s) /\ ~ found (op_operation_id o) (live t).
Proof.
  intros [[Hf Hl] Hs] Ho Hopen. unfold reverse_operation.
  rewrite (bind_ok _ _ _ _ _ (fetch_found _ o s Hf Ho eq_refl)), Hopen. cbn [negb].
  eexists _, _. split; [reflexivity|]. split; [done|]. split; [done|]. split; [done|].
  cbn [live]. change (ops (on_operations ?f ?d)) with (f (ops d)).
  change (update_where (fun o0 => (op_id o0 =? op_id o)%py) (reversed reason) (ops (live s)))
    with (updated o (reversed reason) (ops (live s))).
  split; [apply updated_rows; [apply (ids_unique _ _ Hf)|done..|by left]|]. split; [done|].
  destruct (open_ok _ _ (family_row _ _ Hf Ho) Hopen) as [Hauth _]. split.
  - destruct (build_kin (ops (live s)) o (merge_sort oldest_first (List.filter (kin (op_operation_id o)) (ops (live s)))))
      as (tx & Hb & _); [done|done|done|apply merge_sort_Permutation|].
    unfold found, get_transaction. cbv zeta. change (List.filter _ (operations (scenario (live s))))
      with (List.filter (kin (op_operation_id o)) (ops (live s))). rewrite Hb. by eexists.
  - unfold found. rewrite not_reported; [by intros [? ?]|]. intros x Hx Hk Ht. apply updated_rows in Hx as [->|[Hx Hne]]; [done| |apply (ids_unique _ _ Hf)|done..].
    apply Hne. f_equal. apply (nodup_key op_operation_id (ops (live s))); [apply (operation_ids_unique _ _ Hf)|done|done|].
    apply (kin_auth (ops (live s))); [done|done|done|by apply has_type_true].
Qed.
End Reversals.

(** ** Witnesses *)

(** The detail of the transaction shows 30 of the 40 that were refunded. *)
Lemma transaction_reported_witness : exists tx l, Reports.get_transaction "a" demo_evening = Some (tx, l) /\
  Reports.ts_authorized_amount tx = 100 /\ Reports.ts_captured_amount tx = 60 /\ Reports.ts_refunded_amount tx = 30.
Proof.
  destruct demo_evening_facts as ([Hf _] & Hr & _ & Hn & _). generalize dependent demo_evening. intros d Hf Hr Hn.
  unfold named_rows in Hn. destruct (ops d) as [|o l] eqn:Ho; [discriminate Hn|]. injection Hn as Hid Ht Ha Hc _. rewrite <- Ho in *.
  destruct (transaction_reported d o Hf ltac:(rewrite Ho; by left) Ht) as (tx & m & Hg & _ & _ & H1 & H2 & H3 & _).
  rewrite Hid in *. exists tx, m. rewrite H1, H2, H3. done.
Defined.

(** The list shows all 40. *)
Lemma transactions_listed_witness : exists tx, Reports.list_transactions all_transactions demo_evening = ([tx], 1%nat) /\
  Reports.ts_transaction_id tx = "a" /\ Reports.ts_captured_amount tx = 60 /\ Reports.ts_refunded_amount tx = 40.
Proof.
  destruct demo_evening_facts as ([Hf _] & Hr & Hc & Hn & Hw). generalize dependent demo_evening. intros d Hf Hr Hc Hn Hw.
  destruct (transactions_listed all_transactions d Hf) as (rows & txs & Hl & Hm & Hs & Hp & _).
  { intros o Ho E. apply (in_map (fun o => (op_operation_id o, op_operation_type o, op_amount o, op_captured_amount o))) in Ho.
    fold (named_rows d) in Ho. rewrite Hn, E in Ho. simpl in Ho. naive_solver. }
  unfold has_status in Hp. rewrite filter_all in Hp by by apply Forall_true.
  destruct (List.filter (Reports.wanted_auth all_transactions) (ops d)) as [|o [|? ?]] eqn:Ho; [discriminate Hw| |discriminate Hw].
  injection Hw as Hid Hcap. assert (In o (ops d)) as Hin by (assert (In o [o]) as H by (by left); rewrite <- Ho in H; by apply filter_In in H as [? _]).
  apply Permutation_singleton_r in Hm. destruct rows as [|tx [|? ?]]; [done| |done]. injection Hm as Htx.
  apply Permutation_singleton_r in Hp as ->. apply Forall_cons in Hs as [(H1 & H2 & H3 & H4) _].
  exists tx. rewrite Htx, Hid in *. split; [exact Hl|]. split; [done|]. unfold own_captures in H4. rewrite Hid, Hr, Hc in H4.
  by rewrite H3, Hcap.
Defined.

Lemma reversal_moves_nothing_witness : exists o' t,
  TransactionsService.reverse_operation "a" None demo_morning = (Ok o', t) /\
  posting (live t) = posting (live demo_morning) /\ ~ found "a" (live t).
Proof.
  assert (saved demo_morning = live demo_morning /\ books_ok (saved demo_morning)) as [Hs Hb]
    by exact (serve_cards_steps demo_world (DS := allow_all) (RS := no_rules) (RK := low_risk) (DZ := database_utc) (1 # 100) false
      (fun _ _ => eq_refl) [Authorize (demo_request "a" "terminal" 100)] (fresh_session demo_cards) eq_refl demo_cards_right).
  assert (Hn : map (fun o => (op_operation_id o, op_status o)) (ops (live demo_morning)) = [("a", OperationStatus.POSTED)])
    by (vm_compute; reflexivity).
  generalize dependent demo_morning. intros s Hs Hb Hn.
  destruct (ops (live s)) as [|o l] eqn:Ho; [discriminate Hn|]. injection Hn as Hid Hst _. rewrite <- Hid.
  destruct (reversal_moves_nothing o None s) as (o' & t & H1 & _ & _ & _ & _ & H2 & _ & H3).
  - split; [by rewrite <- Hs|done].
  - rewrite Ho. by left.
  - by rewrite Hst.
  - by exists o', t.
Defined.
