(* ===== verification/CardFacts.v ===== *)
(** * What an authorisation promises

    It fails and commits nothing, declines and moves no money, or has passed every check and
    moves the amount from the card's account to the merchant's. *)
From Stdlib Require Import SpecFloat QArith.
From S2P Require Import Prelude Doubles Json Enums Models AuditTrail Ledger Decisions Limits Transactions.
From S2P Require Import Captures CardBooks CardHistories.
#[local] Open Scope Z_scope.

(** ** What an authorisation does *)

Section Authorisation.
Context (W : world Db) (alone_W : alone W) `{DS : DecisionService} `{RS : RulesService} `{RK : RiskService} `{DZ : DatabaseZone}
  (strict_high : bool).
Import TransactionsService.

(** The client, the card of that client, the terminal and the merchant of a request are
    active. *)
Definition parties_active (a : AuthorizeRequest) (d : Db) : Prop :=
  exists p, In (the_client p) (clients (cards d)) /\ In (the_card p) (card_rows (cards d)) /\
    In (the_terminal p) (terminals (cards d)) /\ In (the_merchant p) (merchants (cards d)) /\
    (uuid_hex (cl_id (the_client p)) = uuid_hex (az_client_id a) /\ cl_status (the_client p) = "ACTIVE") /\
    (ca_id (the_card p) = az_card_id a /\ ca_client_id (the_card p) = az_client_id a /\
     ca_status (the_card p) ∈ ["ACTIVE"; "ENABLED"]) /\
    (te_id (the_terminal p) = az_terminal_id a /\ te_status (the_terminal p) = "ACTIVE") /\
    (me_id (the_merchant p) = az_merchant_id a /\ me_status (the_merchant p) = "ACTIVE").

(** The rule that decides the request keeps its limits, with the operations of the day. *)
Definition rule_kept (a : AuthorizeRequest) (d : Db) : Prop :=
  exists rule n, deciding_rule (limits_request a) (active_rules d) rule /\
    az_amount a <= (LimitsEngine.limits_of rule).2 /\
    LimitsEngine.used_amount (limits_request a) (day_of (clock W n)) d + az_amount a <= (LimitsEngine.limits_of rule).1.

Definition quantity_of (a : AuthorizeRequest) : spec_float :=
  match az_quantity a with Some q => float_of_thousandths q | None => float_of_int 1 end.

(** Every contractual limit that concerns the request is kept. *)
Definition contract_kept (a : AuthorizeRequest) (d : Db) : Prop :=
  forall config, In config (limit_configs (cards d)) ->
    LimitsService.matching (az_client_id a) (az_card_id a) (az_tariff_id a) config = true ->
    exists n, LimitsService.exceeded (LimitsService.calculate_consumption config
      (float_of_int (az_amount a)) (quantity_of a) (clock W n) d) = false.

Definition risk_accepted (level : RiskResult.RiskResult) : Prop :=
  level <> RiskResult.BLOCK /\ (strict_high = true -> level <> RiskResult.HIGH).

Record cleared (a : AuthorizeRequest) (c : clearance) (d : Db) : Prop := {
  cleared_parties : parties_active a d;
  cleared_rule : rule_kept a d;
  cleared_contract : contract_kept a d;
  cleared_risk : risk_accepted (_to_risk_level (re_level (clr_risk c)));
}.

Lemma q_first_run {A} (table : Db -> list A) P (o : option A) s t : q_first table P s = (Ok o, t) ->
  t = s /\ match o with Some x => In x (table (live s)) /\ P x = true | None => True end.
Proof.
  unfold q_first, gets. intros [= <- <-]. split; [done|].
  destruct (head _) as [x|] eqn:Hx; [|done]. by apply head_filter_some in Hx.
Qed.

Lemma try_inv_ok {A} (m : PM A) h s a t : try_except m h s = (Ok a, t) ->
  m s = (Ok a, t) \/ exists e u k, m s = (Raise e, u) /\ h e = Some k /\ k u = (Ok a, t).
Proof.
  unfold try_except. destruct (m s) as [[x|e] u]; [by left|]. intros H. right.
  destruct (h e) as [k|] eqn:He; [|discriminate H]. by exists e, u, k.
Qed.

(** One lookup and its guard. *)
Ltac looked_up H x Hx Hst :=
  let u := fresh in let o := fresh in
  apply bind_inv_ok in H as (o & u & [-> Hx]%q_first_run & H); destruct o as [x|]; [|discriminate H];
  match type of H with
  | (if (?s <>? ?v)%py then _ else _) _ = _ =>
      unfold eqb at 1 in H; destruct (bool_decide_reflect (s = v)) as [Hst|]; cbn [negb] in H; [|discriminate H]
  | (if negb (bool_decide ?p) then _ else _) _ = _ =>
      destruct (bool_decide_reflect p) as [Hst|]; cbn [negb] in H; [|discriminate H]
  end.

Lemma references_active a p s t :
  _validate_references (az_client_id a) (az_card_id a) (az_terminal_id a) (az_merchant_id a) s = (Ok p, t) ->
  parties_active a (live s).
Proof.
  unfold _validate_references. intros H. destruct (uuid_hex (az_client_id a)) as [hex|] eqn:Hhex; [|discriminate H].
  looked_up H c Hc Hcs. looked_up H k Hk Hks. looked_up H te Ht Hts. looked_up H m Hm Hms.
  injection H as <- _. exists (MkParties c k te m). cbn [the_client the_card the_terminal the_merchant].
  destruct Hc as [Hc1 Hc2%bool_decide_eq_true], Hk as [Hk1 [Hk2%bool_decide_eq_true Hk3%bool_decide_eq_true]%andb_prop],
    Ht as [Ht1 Ht2%bool_decide_eq_true], Hm as [Hm1 Hm2%bool_decide_eq_true].
  rewrite Hhex. done.
Qed.

Lemma parties_checked a p s t : check_parties a s = (Ok (inr p), t) -> parties_active a (live s).
Proof.
  intros [Hr|(e & u & k & _ & Hh & Hk)]%try_inv_ok.
  - apply bind_inv_ok in Hr as (q & v & Hq & Hp). injection Hp as -> ->. by eapply references_active.
  - destruct e; try discriminate Hh. injection Hh as <-. discriminate Hk.
Qed.

Lemma idle_run {A} (m : PM A) s a t : idle m -> m s = (Ok a, t) -> same_part (live s) (live t) /\ saved t = saved s.
Proof. intros Hm Hr. specialize (Hm s). by rewrite Hr in Hm. Qed.

Lemma same_part_trans d d' d'' : same_part d d' -> same_part d' d'' -> same_part d d''.
Proof. unfold same_part. congruence. Qed.

Lemma used_same req day d d' : same_part d d' -> LimitsEngine.used_amount req day d' = LimitsEngine.used_amount req day d.
Proof. intros H. unfold LimitsEngine.used_amount. change (operations (scenario ?x)) with (ops x). by rewrite (same_part_ops _ _ H). Qed.

Lemma rules_same d d' : same_part d d' -> active_rules d' = active_rules d.
Proof. unfold same_part, parts, active_rules. intros E. injection E as _ _ ->. done. Qed.

Lemma rule_checked a r s t : LimitsEngine.evaluate_limits_locally W (limits_request a) s = (Ok r, t) ->
  lim_approved r = true -> rule_kept a (live s).
Proof.
  destruct (limits_locally_run W (limits_request a) s) as (u & -> & _). intros [= <- <-] Hok.
  apply (evaluate_limits_approved (limits_request a)) in Hok as [H1 H2].
  eexists _, (ticks s). split; [apply select_best_rule_decides|]. done.
Qed.

Lemma contract_checked a s t :
  LimitsService.check_contractual_limits W (az_client_id a) (az_card_id a) (az_amount a) (az_quantity a)
    (az_tariff_id a) s = (Ok [], t) -> contract_kept a (live s).
Proof.
  unfold LimitsService.check_contractual_limits, q_all. intros H.
  apply bind_inv_ok in H as (configs & u & Hc & H). injection Hc as <- <-.
  change (match az_quantity a with Some q => float_of_thousandths q | None => float_of_int 1 end) with (quantity_of a) in H.
  set (configs := List.filter _ _) in H.
  destruct (consumptions_run W configs (fun cfg instant =>
    LimitsService.calculate_consumption cfg (float_of_int (az_amount a)) (quantity_of a) instant) s) as (v & Hv & _).
  rewrite (bind_ok _ _ _ _ _ Hv) in H. injection H as H _. intros config Hin Hm.
  assert (In config configs) as [i Hi]%list_elem_of_In%list_elem_of_lookup_1 by by apply filter_In.
  exists (ticks s + i)%nat. destruct (LimitsService.exceeded _) eqn:He; [|done]. exfalso.
  eassert (In _ []) as []. rewrite <- H. apply filter_In. split; [|exact He].
  apply list_elem_of_In, (list_elem_of_lookup_2 _ i). by rewrite list_lookup_imap, Hi.
Qed.

Lemma active_same a d d' : same_part d d' -> parties_active a d' -> parties_active a d.
Proof. unfold same_part, parts, parties_active. intros E. injection E as _ _ ->. done. Qed.

Lemma rule_same a d d' : same_part d d' -> rule_kept a d' -> rule_kept a d.
Proof.
  intros H (rule & n & H1 & H2 & H3). exists rule, n.
  by rewrite (rules_same _ _ H) in H1; rewrite (used_same _ _ _ _ H) in H3.
Qed.

Lemma contract_same a d d' : same_part d d' -> contract_kept a d' -> contract_kept a d.
Proof.
  intros H Hk config Hin Hm. assert (limit_configs (cards d') = limit_configs (cards d)) as E
    by (unfold same_part, parts in H; congruence).
  destruct (Hk config) as [n Hn]; [by rewrite E|done|]. exists n. revert Hn.
  unfold LimitsService.calculate_consumption. change (operations (scenario ?x)) with (ops x).
  by rewrite (same_part_ops _ _ H).
Qed.

(** The next call leaves the parts of the database it reads alone. *)
Ltac next H x Hx Hp :=
  let u := fresh "u" in let Hq := fresh in
  apply bind_inv_ok in H as (x & u & Hx & H);
  lazymatch type of Hx with ?m _ = _ =>
    assert (idle m) as Hq by (first [ apply idle_parties | apply idle_first_decision | apply idle_unified_rules
      | apply idle_limits | apply idle_second_decision | apply idle_risk_check | apply idle_contractual ]) end;
  apply (fun h => same_part_trans _ _ _ Hp (proj1 (idle_run _ _ _ _ h Hx))) in Hq;
  clear Hp; rename Hq into Hp.

Lemma risk_passed a lim ev s t : risk_check W strict_high a lim None s = (Ok (inr ev), t) ->
  risk_accepted (_to_risk_level (re_level ev)).
Proof.
  unfold risk_check. intros H.
  apply bind_inv_ok in H as (at_ & u & _ & H). apply bind_inv_ok in H as (ev' & v & _ & H). cbv zeta in H.
  unfold eqb in H. destruct (bool_decide_reflect (re_level ev' = RiskDecisionLevel.HARD_DECLINE)) as [|Hl]; [discriminate H|].
  destruct (strict_high && _) eqn:Hh; [discriminate H|]. injection H as -> _.
  split; [by destruct (re_level ev)|]. intros Hst E. rewrite Hst, E in Hh. by apply bool_decide_eq_false in Hh.
Qed.

Lemma checks_passed a c s t : run_checks W strict_high a None s = (Ok (inr c), t) -> cleared a c (live s).
Proof.
  unfold run_checks. intros H. assert (same_part (live s) (live s)) as Hp by done.
  next H ref H1 Hp. destruct ref as [code|p]; [discriminate H|]. apply parties_checked in H1.
  next H r1 H2 Hp. destruct r1; [discriminate H|].
  next H r2 H3 Hp. destruct r2; [discriminate H|].
  pose proof Hp as Hlim. next H lim H4 Hp. destruct (lim_approved lim) eqn:Hok; cbn [negb] in H; [|discriminate H].
  apply rule_checked, (rule_same _ _ _ Hlim) in H4; [|done].
  next H r3 H5 Hp. destruct r3 as [r|dr]; [discriminate H|].
  next H r4 H6 Hp. destruct r4 as [r|ev]; [discriminate H|]. apply risk_passed in H6.
  apply bind_inv_ok in H as (v & w & H7 & H). destruct v as [|? ?]; [|discriminate H].
  apply contract_checked, (contract_same _ _ _ Hp) in H7. injection H as <- _. by split.
Qed.

(** The columns a request fixes. *)
Definition requested (a : AuthorizeRequest) (o : Operation) : Prop :=
  op_operation_id o = az_ext_operation_id a /\ op_amount o = az_amount a /\ op_currency o = az_currency a /\
  op_client_id o = az_client_id a /\ op_card_id o = az_card_id a /\ op_merchant_id o = az_merchant_id a /\
  op_terminal_id o = az_terminal_id a /\ op_parent_operation_id o = None.

Definition declined (o : Operation) : Prop :=
  op_operation_type o = OperationType.DECLINE /\ op_status o = OperationStatus.DECLINED /\ op_authorized o = false.

Definition authorised (o : Operation) : Prop :=
  op_operation_type o = OperationType.AUTH /\ op_status o = OperationStatus.POSTED /\ op_authorized o = true.

(** A new last row, changed. *)
Lemma updated_snoc l o f : fresh l o -> updated o f (l ++ [o]) = l ++ [f o].
Proof.
  intros [Hi _]. unfold updated, update_row, update_where. rewrite map_app. simpl.
  unfold eqb. rewrite bool_decide_eq_true_2 by done. f_equal.
  rewrite <- (map_id l) at 2. apply map_ext_in. intros x Hx. rewrite bool_decide_eq_false_2; [done|].
  intros E. apply Hi. rewrite <- E. by apply in_map.
Qed.

Lemma fetch_none ext s : ~ In ext (map op_operation_id (ops (live s))) ->
  _fetch_operation_by_ext_id ext s = (Ok None, s).
Proof.
  intros Hn. destruct (fetch_run ext s) as ([o|] & Hr & Ho); [|done].
  destruct Ho as [Ho <-]. destruct Hn. by apply in_map.
Qed.

Lemma decline_run a r s : ~ In (az_ext_operation_id a) (map op_operation_id (ops (live s))) ->
  match decline_operation W a r s with
  | (Ok o, t) => requested a o /\ declined o /\ live t = on_operations (fun l => l ++ [o]) (live s) /\ saved t = live t
  | (Raise _, t) => saved t = saved s
  end.
Proof.
  intros Hn. unfold decline_operation. rewrite (bind_ok _ _ _ _ _ (fetch_none _ s Hn)).
  pose proof (insert_run W alone_W (declined_row a r) s (fun _ _ => eq_refl)) as Hi.
  unfold mbind at 1, M_bind at 1. destruct (insert_operation W (declined_row a r) s) as [[o|e] t]; [|by destruct Hi].
  destruct Hi as ((id & at_ & ->) & _ & Hl & Hs). cbn. done.
Qed.

(** The posting of a new authorisation never fails. *)
Lemma post_run o l s : holds books_ok s -> ops (live s) = l ++ [o] -> fresh l o ->
  exists o' t c m, post_operation W o false s = (Ok o', t) /\ (exists meta, o' = posted meta o) /\
    saved t = live t /\ ops (live t) = l ++ [o'] /\ is_client_account o c /\ is_merchant_account o m /\
    transferred o (op_amount o) c m (live s) (live t).
Proof.
  intros Hs Hl Hf. destruct (perform_posting_run W o s Hs) as (meta & t & Hr & Ht & Hsc & c & m & Hc & Hm & Htr).
  { rewrite Hl. apply in_app_iff. right. by left. }
  unfold post_operation. rewrite (bind_ok _ _ _ _ _ Hr). eexists _, _, c, m. split; [reflexivity|].
  split; [by exists meta|]. split; [done|]. split; [|by split].
  change (updated o (posted meta) (operations (scenario (live t))) = l ++ [posted meta o]).
  rewrite Hsc. change (operations (scenario (live s))) with (ops (live s)). rewrite Hl. by apply updated_snoc.
Qed.

(** The row of an authorisation, added to the books. *)
Lemma authorized_run a c code d s : holds books_ok s -> same_part d (live s) ->
  match insert_operation W (authorized_row a c code) s with
  | (Ok o, t) => (exists id at_, o = authorized_row a c code id at_) /\ fresh (ops d) o /\
      ops (live t) = ops d ++ [o] /\ posting (live t) = posting d /\ books_ok (live t)
  | (Raise _, t) => saved t = saved s
  end.
Proof.
  intros Hs Hp. pose proof (insert_run W alone_W (authorized_row a c code) s (fun _ _ => eq_refl)) as Hi.
  destruct (insert_operation W _ s) as [[o|e] t]; [|by destruct Hi].
  destruct Hi as (Ho & Hf & Hl & Hst). split; [done|]. rewrite Hl, <- (same_part_ops _ _ Hp).
  split; [done|]. split; [done|]. split; [unfold same_part, parts in Hp; cbn; congruence|].
  destruct Ho as (id & at_ & ->). apply books_operations; [|apply Hs]. apply add_root; try done; [apply Hs|by left].
Qed.

(** C8 an authorisation under a new id either fails and commits nothing; or is stored as a
    declined operation, the ledger untouched; or every check has passed (the parties are
    active, the deciding limit rule and the contractual limits are kept, the risk is
    accepted) and the operation is stored as posted, with a balanced transfer of its amount
    from the account of the card to the account of the merchant.  The posting itself never
    fails. *)
Theorem authorisation_outcome a s :
  holds books_ok s -> ~ In (az_ext_operation_id a) (map op_operation_id (ops (live s))) ->
  match authorize_operation W strict_high a None false s with
  | (Ok o, t) =>
      saved t = live t /\ ops (live t) = ops (live s) ++ [o] /\ requested a o /\
      (declined o /\ posting (live t) = posting (live s) \/
       authorised o /\ (exists c, cleared a c (live s)) /\
       exists client merchant, is_client_account o client /\ is_merchant_account o merchant /\
         transferred o (az_amount a) client merchant (live s) (live t))
  | (Raise _, t) => saved t = saved s
  end.
Proof.
  intros Hs Hn. unfold authorize_operation. rewrite (bind_ok _ _ _ _ _ (fetch_none _ s Hn)).
  unfold mbind at 1, M_bind at 1. pose proof (idle_safe _ (idle_checks W strict_high a None) s Hs) as Hs1.
  destruct (idle_checks W strict_high a None s) as [Hp Hsv]. unfold safely, wp in Hs1.
  destruct (run_checks W strict_high a None s) as [[[r|c]|e] s1] eqn:Hchecks; cbn [snd] in *; [| |done].
  - pose proof (decline_run a r s1) as Hd. rewrite (same_part_ops _ _ Hp) in Hd. specialize (Hd Hn).
    destruct (decline_operation W a r s1) as [[o|e] t]; [|congruence].
    destruct Hd as (Hreq & Hdec & Hl & Ht). split; [done|]. rewrite Hl.
    split; [change (ops (live s1) ++ [o] = ops (live s) ++ [o]); by rewrite (same_part_ops _ _ Hp)|].
    split; [done|]. left. split; [done|]. unfold same_part, parts in Hp. change (posting (live s1) = posting (live s)). congruence.
  - apply checks_passed in Hchecks.
    set (s2 := Session (live s1) (saved s1) (ticks s1) (S (uuids s1)) (races s1)).
    rewrite (bind_ok (uuid4 W) _ s1 (new_uuid W (uuids s1)) s2) by done.
    pose proof (authorized_run a c (String.substring 0 6 (new_uuid W (uuids s1))) (live s) s2 Hs1 Hp) as Hi.
    unfold mbind at 1, M_bind at 1.
    destruct (insert_operation W _ s2) as [[o|e] t]; [|by rewrite Hi].
    destruct Hi as ((id & at_ & Ho) & Hf & Hou & Hpost & Hbu).
    set (u := Session (live t) (live t) (ticks t) (uuids t) (races t)).
    rewrite (bind_ok commit _ t tt u) by done.
    destruct (post_run o (ops (live s)) u) as (o' & v & cl & me & Hr & [meta ->] & Hv & Hov & Hcl & Hme & Htr); [done|done|done|].
    unfold mbind at 1, M_bind at 1, try_except at 1. rewrite Hr. cbn -[posted].
    split; [done|]. split; [done|]. rewrite Ho in *. split; [done|]. right. split; [done|]. split; [by exists c|].
    exists cl, me. split; [done|]. split; [done|]. destruct Htr as [Ht1 Ht2].
    unfold transferred, current, balance_of, entries in *. change (live u) with (live t) in Ht1, Ht2.
    by rewrite Hpost in Ht1, Ht2.
Qed.
End Authorisation.

(** ** Witness *)

Lemma authorisation_outcome_witness :
  exists o t, authorise (demo_request "a" "terminal" 100) None false (fresh_session demo_cards) = (Ok o, t) /\
    saved t = live t /\ ops (live t) = [o] /\ authorised o.
Proof.
  pose proof (authorisation_outcome demo_world (fun _ _ => eq_refl) (DS := allow_all) (RS := no_rules) (RK := low_risk) (DZ := database_utc)
    false (demo_request "a" "terminal" 100) (fresh_session demo_cards)
    (conj demo_cards_right demo_cards_right) (fun H => H)) as Hout.
  destruct (authorise (demo_request "a" "terminal" 100) None false (fresh_session demo_cards)) as [[o|e] t] eqn:Hr;
    [|apply (f_equal fst) in Hr; vm_compute in Hr; discriminate Hr].
  exists o, t. split; [reflexivity|]. destruct Hout as (H1 & H2 & _ & [[[H3 _] _]|[H3 _]]); [exfalso|exact (conj H1 (conj H2 H3))].
  assert (Hty : op_operation_type <$> head (ops (authorise (demo_request "a" "terminal" 100) None false (fresh_session demo_cards)).2.(live)) =
    Some OperationType.AUTH) by (vm_compute; reflexivity).
  rewrite Hr in Hty. cbn [snd] in Hty. rewrite H2 in Hty. cbn in Hty. congruence.
Defined.
