(* ===== verification/Settlements.v ===== *)
(** * Settlements and payouts of merchants

    services/settlements.py and the endpoints of routers/admin/settlements.py: a settlement
    is drafted from each clearing, approved into a payout order, sent with a posting of the
    ledger, and confirmed. *)
From S2P Require Import Prelude Json Enums Models Ledger CardBooks.

Module SettlementService.
Definition PLATFORM_OWNER_ID : string := "00000000-0000-0000-0000-000000000001".

Record PartnerBalance := MkPartnerBalance {
  ptb_currency : string;
  ptb_balance : decimal;
}.

(** The settlement of a clearing: the same merchant, currency and day. *)
Definition settles (c : Clearing) (s : Settlement) : bool :=
  (stl_merchant_id s =? clr_merchant_id c)%py && (stl_currency s =? clr_currency c)%py &&
  (stl_period_from s =? clr_batch_date c) && (stl_period_to s =? clr_batch_date c).

Definition draft (c : Clearing) (id : string) : Settlement :=
  MkSettlement id (clr_merchant_id c) (Some (clr_merchant_id c)) (clr_batch_date c) (clr_batch_date c)
    (clr_currency c) (clr_total_amount c) 0 SettlementStatus.DRAFT.

(** The primary key and uq_settlement_scope. *)
Definition same_settlement (a b : Settlement) : bool :=
  (stl_id b =? stl_id a)%py ||
  ((stl_merchant_id b =? stl_merchant_id a)%py && (stl_currency b =? stl_currency a)%py &&
   (stl_period_from b =? stl_period_from a) && (stl_period_to b =? stl_period_to a)).

Definition assign_settlement (f : Settlement -> Settlement) (s : Settlement) : PM unit :=
  modify (on_settlements (update_row stl_id s f)).

Definition assign_payout (f : PayoutOrder -> PayoutOrder) (p : PayoutOrder) : PM unit :=
  modify (on_payout_orders (update_row pyo_id p f)).

(** [payout.settlement] *)
Definition settlement_of (p : PayoutOrder) : PM (option Settlement) :=
  q_first (fun d => settlements (settle d)) (fun s => (stl_id s =? pyo_settlement_id p)%py).

Definition partner_key (s : Settlement) : string := str_or (stl_partner_id s) (stl_merchant_id s).

Section Service.
Context (W : world Db).

Definition insert_settlement (make : string -> Settlement) : PM Settlement :=
  id ← uuid4 W;
  insert_row (fun d => settlements (settle d)) on_settlements same_settlement "uq_settlement_scope" (make id).

Definition find_settlement (c : Clearing) : PM (Clearing * option Settlement) :=
  existing ← q_one_or_none (fun d => settlements (settle d)) (settles c);
  mret (c, existing).

(** The new rows are flushed by the commit, in their order; [refresh] reads them again. *)
Definition generate_settlements_for_date (target_date : Z) : PM (list Settlement) :=
  clearings ← q_all (fun d => clearings (settle d)) (fun c => clr_batch_date c =? target_date);
  match clearings with
  | [] => mret []
  | _ =>
      found ← for_each clearings find_settlement;
      race W;;
      created ← for_each found (fun f =>
        match f with
        | (_, Some existing) => mret existing
        | (c, None) => insert_settlement (draft c)
        end);
      commit;;
      for_each created (fun s => q_one (fun d => settlements (settle d)) (fun r => (stl_id r =? stl_id s)%py))
  end.

Definition queued (s : Settlement) (id : string) : PayoutOrder :=
  MkPayoutOrder id (stl_id s) None (stl_total_amount s - stl_commission_amount s) (stl_currency s)
    PayoutOrderStatus.QUEUED None None.

Definition insert_payout (make : string -> PayoutOrder) : PM PayoutOrder :=
  id ← uuid4 W;
  insert_row (fun d => payout_orders (settle d)) on_payout_orders (fun a b => (pyo_id b =? pyo_id a)%py)
    "payout_orders_pkey" (make id).

Definition approve_settlement (settlement_id : string) : PM Settlement :=
  settlement ← q_one_or_none (fun d => settlements (settle d)) (fun s => (stl_id s =? settlement_id)%py);
  match settlement with
  | None => raise (SettlementError "settlement not found")
  | Some settlement =>
      if (stl_status settlement <>? SettlementStatus.DRAFT)%py
      then raise (SettlementError "only draft settlements can be approved") else
      assign_settlement (set_stl_status SettlementStatus.APPROVED) settlement;;
      payout ← q_one_or_none (fun d => payout_orders (settle d))
        (fun p => (pyo_settlement_id p =? stl_id settlement)%py);
      match payout with
      | Some _ => mret tt
      | None => race W;; insert_payout (queued settlement);; mret tt
      end;;
      commit;;
      q_one (fun d => settlements (settle d)) (fun r => (stl_id r =? stl_id settlement)%py)
  end.

(** [payout.events.append(PayoutEvent(event_type=...))]: the row is flushed with the next
    rows; its identifier is drawn here. *)
Definition append_event (p : PayoutOrder) (event_type : string) : PM unit :=
  id ← uuid4 W;
  insert_row (fun d => payout_events (settle d)) on_payout_events (fun a b => (pev_id b =? pev_id a)%py)
    "payout_events_pkey" (MkPayoutEvent id (pyo_id p) event_type None);;
  mret tt.

Definition platform_account (currency : string) : PM Account :=
  AccountsRepository.get_or_create_account PLATFORM_OWNER_ID AccountOwnerType.PLATFORM (Some PLATFORM_OWNER_ID)
    currency AccountType.TECHNICAL None None AccountStatus.ACTIVE false.

Definition partner_payable (partner_key currency : string) : PM Account :=
  AccountsRepository.get_or_create_account partner_key AccountOwnerType.PARTNER (Some partner_key)
    currency AccountType.TECHNICAL None None AccountStatus.ACTIVE false.

Definition _post_payout_ledger (settlement : Settlement) (payout : PayoutOrder) : PM unit :=
  let currency := pyo_currency payout in
  platform ← platform_account currency;
  partner ← partner_payable (partner_key settlement) currency;
  posting_id ← uuid4 W;
  let amount := dec_of_int (pyo_amount payout) in
  now_ ← now W;
  debit_id ← uuid4 W;
  LedgerRepository.post_entry W (acc_id platform) None (Some posting_id) LedgerDirection.DEBIT amount currency
    (Some now_) None (Some debit_id) None None false true false;;
  credit_id ← uuid4 W;
  LedgerRepository.post_entry W (acc_id partner) None (Some posting_id) LedgerDirection.CREDIT amount currency
    (Some now_) None (Some credit_id) None None false true false;;
  mret tt.

Definition find_payout (payout_id : string) : PM PayoutOrder :=
  payout ← q_one_or_none (fun d => payout_orders (settle d)) (fun p => (pyo_id p =? payout_id)%py);
  match payout with
  | None => raise (SettlementError "payout not found")
  | Some payout => mret payout
  end.

Definition refreshed (p : PayoutOrder) : PM PayoutOrder :=
  q_one (fun d => payout_orders (settle d)) (fun r => (pyo_id r =? pyo_id p)%py).

Definition sent (p : PayoutOrder) : PayoutOrder := set_pyo_error None (set_pyo_status PayoutOrderStatus.SENT p).

Definition send_payout (payout_id : string) : PM PayoutOrder :=
  payout ← find_payout payout_id;
  settlement ← settlement_of payout;
  if (pyo_status payout <>? PayoutOrderStatus.QUEUED)%py
  then raise (SettlementError "payout is not ready to be sent") else
  match settlement with
  | None => raise (AttributeError "status")
  | Some settlement =>
      if (stl_status settlement <>? SettlementStatus.APPROVED)%py
      then raise (SettlementError "payout is not ready to be sent") else
      assign_payout sent payout;;
      append_event payout "SENT";;
      _post_payout_ledger settlement payout;;
      assign_settlement (set_stl_status SettlementStatus.SENT) settlement;;
      commit;;
      refreshed payout
  end.

Definition confirm_payout (payout_id : string) : PM PayoutOrder :=
  payout ← find_payout payout_id;
  settlement ← settlement_of payout;
  if negb (bool_decide (pyo_status payout ∈ [PayoutOrderStatus.SENT; PayoutOrderStatus.QUEUED]))
  then raise (SettlementError "payout already finalized") else
  assign_payout (set_pyo_status PayoutOrderStatus.CONFIRMED) payout;;
  append_event payout "CONFIRMED";;
  match settlement with
  | None => raise (AttributeError "status")
  | Some settlement =>
      assign_settlement (set_stl_status SettlementStatus.CONFIRMED) settlement;;
      commit;;
      refreshed payout
  end.

Definition partner_balances (partner_id : string) : PM (list PartnerBalance) :=
  accounts_ ← q_all (fun d => accounts (posting d))
    (fun a => (acc_owner_type a =? AccountOwnerType.PARTNER)%py && (acc_owner_id a =? Some partner_id)%py);
  for_each accounts_ (fun account =>
    balance ← AccountsRepository.get_balance (acc_id account);
    mret (MkPartnerBalance (acc_currency account) (bal_current balance))).
End Service.
End SettlementService.

(** ** The endpoints (routers/admin/settlements.py) *)
Module SettlementsApi.
Section Api.
Context (W : world Db).
Import SettlementService.

Definition bad_request {A} (m : PM A) : PM A :=
  try_except m (fun e => match e with SettlementError d => Some (raise (HTTPException 400 d)) | _ => None end).

Definition generate_settlements (date : Z) : PM (list Settlement) := generate_settlements_for_date W date.
Definition approve (settlement_id : string) : PM Settlement := bad_request (approve_settlement W settlement_id).
Definition send (payout_id : string) : PM PayoutOrder := bad_request (send_payout W payout_id).
Definition confirm (payout_id : string) : PM PayoutOrder := bad_request (confirm_payout W payout_id).
Definition partner_balance (partner_id : string) : PM (list PartnerBalance) := partner_balances partner_id.
End Api.
End SettlementsApi.

(** ** What is kept right *)
Import SettlementService.

Definition payouts_of (t : SettleTables) (s : Settlement) : list PayoutOrder :=
  List.filter (fun p => (pyo_settlement_id p =? stl_id s)%py) (payout_orders t).

Definition events_of (t : SettleTables) (p : PayoutOrder) : list string :=
  map pev_event_type (List.filter (fun e => (pev_payout_order_id e =? pyo_id p)%py) (payout_events t)).

Definition scope (s : Settlement) : string * string * Z * Z :=
  (stl_merchant_id s, stl_currency s, stl_period_from s, stl_period_to s).

(** The payout of a settlement: its amount without the commission, in its currency. *)
Definition pays (t : SettleTables) (s : Settlement) (status : PayoutOrderStatus.PayoutOrderStatus)
    (events : list (list string)) : Prop :=
  exists p, payouts_of t s = [p] /\ pyo_status p = status /\ events_of t p ∈ events /\
    pyo_amount p = stl_total_amount s - stl_commission_amount s /\ pyo_currency p = stl_currency s.

(** The stage of a settlement says what its payout is and what happened to it.  A payout
    may be confirmed without having been sent. *)
Definition stage_ok (t : SettleTables) (s : Settlement) : Prop :=
  match stl_status s with
  | SettlementStatus.DRAFT => payouts_of t s = []
  | SettlementStatus.APPROVED => pays t s PayoutOrderStatus.QUEUED [[]]
  | SettlementStatus.SENT => pays t s PayoutOrderStatus.SENT [["SENT"]]
  | SettlementStatus.CONFIRMED => pays t s PayoutOrderStatus.CONFIRMED [["SENT"; "CONFIRMED"]; ["CONFIRMED"]]
  | SettlementStatus.FAILED => False
  end.

Record tables_ok (t : SettleTables) : Prop := {
  stl_ids : List.NoDup (map stl_id (settlements t));
  stl_scopes : List.NoDup (map scope (settlements t));
  pyo_ids : List.NoDup (map pyo_id (payout_orders t));
  pyo_known : forall p, In p (payout_orders t) -> In (pyo_settlement_id p) (map stl_id (settlements t));
  pev_known : forall e, In e (payout_events t) -> In (pev_payout_order_id e) (map pyo_id (payout_orders t));
  stages_ok : forall s, In s (settlements t) -> stage_ok t s;
}.

(** What was sent for a settlement. *)
Definition was_sent (t : SettleTables) (p : PayoutOrder) : bool := bool_decide ("SENT" ∈ events_of t p).
Definition sent_amount (t : SettleTables) (s : Settlement) : Z := sum_of pyo_amount (List.filter (was_sent t) (payouts_of t s)).

Definition paid_to (t : SettleTables) (partner currency : string) : Z :=
  sum_of (sent_amount t) (List.filter (fun s => (partner_key s =? partner)%py && (stl_currency s =? currency)%py) (settlements t)).
Definition paid_in (t : SettleTables) (currency : string) : Z :=
  sum_of (sent_amount t) (List.filter (fun s => (stl_currency s =? currency)%py) (settlements t)).

(** The balances of the accounts that payouts are posted to. *)
Definition funds (d : Db) (owner_type : AccountOwnerType.AccountOwnerType) (owner currency : string) : Z :=
  sum_of (fun a => current d (acc_id a))
    (List.filter (AccountsRepository.matches owner owner_type owner currency AccountType.TECHNICAL None None) (accounts (posting d))).

Definition partner_funds (d : Db) : string -> string -> Z := funds d AccountOwnerType.PARTNER.
Definition platform_funds (d : Db) : string -> Z := funds d AccountOwnerType.PLATFORM PLATFORM_OWNER_ID.

Definition ledger_known (d : Db) : Prop :=
  numbered acc_id (accounts (posting d)) /\ (forall i, ~ account_exists d i -> balance_of d i = None) /\ ledger_ok d.

(** The partners have, beside what they had, what was sent to them; the platform has paid it. *)
Record settle_ok (partners : string -> string -> Z) (platform : string -> Z) (d : Db) : Prop := {
  tables_right : tables_ok (settle d);
  ledger_right : ledger_known d;
  partners_right : forall k c, partner_funds d k c = partners k c + dec_of_int (paid_to (settle d) k c);
  platform_right : forall c, platform_funds d c = platform c - dec_of_int (paid_in (settle d) c);
}.

(** *** The tables *)

Section Tables.
Context (t : SettleTables) (Ht : tables_ok t).

Lemma payouts_none s : ~ In (stl_id s) (map stl_id (settlements t)) -> payouts_of t s = [].
Proof.
  intros Hs. apply filter_none, List.Forall_forall. intros p Hp. apply bool_decide_eq_false. intros E.
  apply Hs. rewrite <- E. by apply pyo_known.
Qed.

Lemma sum_filter_snoc (f : Settlement -> Z) P l s :
  f s = 0 -> sum_of f (List.filter P (l ++ [s])) = sum_of f (List.filter P l).
Proof. intros Hs. rewrite filter_snoc, sum_of_app. destruct (P s); simpl; lia. Qed.

(** A new draft. *)
Lemma add_draft s u : ~ In (stl_id s) (map stl_id (settlements t)) -> ~ In (scope s) (map scope (settlements t)) ->
  stl_status s = SettlementStatus.DRAFT ->
  settlements u = settlements t ++ [s] -> payout_orders u = payout_orders t -> payout_events u = payout_events t ->
  tables_ok u /\ (forall k c, paid_to u k c = paid_to t k c) /\ (forall c, paid_in u c = paid_in t c).
Proof.
  intros Hi Hsc Hd Hs Hp He. destruct Ht as [H1 H2 H3 H4 H5 H6].
  assert (forall r, payouts_of u r = payouts_of t r) as Hpay by (intros r; unfold payouts_of; by rewrite Hp).
  assert (forall r, events_of u r = events_of t r) as Hev by (intros r; unfold events_of; by rewrite He).
  assert (forall r, sent_amount u r = sent_amount t r) as Hsent.
  { intros r. unfold sent_amount, was_sent. rewrite Hpay. f_equal. apply List.filter_ext. intros p. by rewrite Hev. }
  assert (forall l, sum_of (sent_amount u) l = sum_of (sent_amount t) l) as Hsum
    by (intros l; apply sum_of_ext, List.Forall_forall; intros r _; apply Hsent).
  assert (sent_amount t s = 0) as Hz by (unfold sent_amount; by rewrite payouts_none).
  split; [split|].
  - rewrite Hs, map_app. by apply nodup_snoc.
  - rewrite Hs, map_app. by apply nodup_snoc.
  - by rewrite Hp.
  - intros p. rewrite Hp, Hs, map_app, in_app_iff. intros Hin. left. by apply H4.
  - intros e. rewrite He, Hp. apply H5.
  - intros r. rewrite Hs. intros [Hr|[<-|[]]]%in_app_iff.
    + specialize (H6 r Hr). unfold stage_ok, pays in *. rewrite Hpay.
      destruct (stl_status r); try done; destruct H6 as (p & A & B & C & D & E); exists p; by rewrite Hev.
    + unfold stage_ok. rewrite Hd, Hpay. by apply payouts_none.
  - unfold paid_to, paid_in. rewrite Hs. split; intros; by rewrite Hsum, sum_filter_snoc.
Qed.

(** The other settlements keep their payouts and the events of these. *)
Definition others_kept (u : SettleTables) (s : Settlement) : Prop :=
  forall r, In r (settlements t) -> stl_id r <> stl_id s ->
  payouts_of u r = payouts_of t r /\ forall p, In p (payouts_of t r) -> events_of u p = events_of t p.

Lemma others_sent u s r : others_kept u s -> In r (settlements t) -> stl_id r <> stl_id s ->
  sent_amount u r = sent_amount t r /\ (stage_ok t r -> stage_ok u r).
Proof.
  intros Ho Hr Hne. destruct (Ho r Hr Hne) as [Hp He]. split.
  - unfold sent_amount. rewrite Hp. f_equal. apply List.filter_ext_in. intros p Hin. unfold was_sent. by rewrite He.
  - unfold stage_ok, pays. rewrite Hp. destruct (stl_status r); try done;
      intros (p & A & B & C & D & E); exists p; rewrite He; (done || by rewrite A; left).
Qed.

(** One settlement moves to another stage. *)
Lemma move_settlement u s st : In s (settlements t) ->
  settlements u = update_row stl_id s (set_stl_status st) (settlements t) ->
  List.NoDup (map pyo_id (payout_orders u)) ->
  (forall p, In p (payout_orders u) -> In (pyo_settlement_id p) (map stl_id (settlements t))) ->
  (forall e, In e (payout_events u) -> In (pev_payout_order_id e) (map pyo_id (payout_orders u))) ->
  others_kept u s -> stage_ok u (set_stl_status st s) ->
  let delta := sent_amount u (set_stl_status st s) - sent_amount t s in
  tables_ok u /\
  (forall k c, paid_to u k c = paid_to t k c +
     if (partner_key s =? k)%py && (stl_currency s =? c)%py then delta else 0) /\
  (forall c, paid_in u c = paid_in t c + if (stl_currency s =? c)%py then delta else 0).
Proof.
  intros Hs Hu Hp Hk He Ho Hst delta. destruct Ht as [H1 H2 H3 H4 H5 H6].
  assert (forall A (g : Settlement -> A), g (set_stl_status st s) = g s ->
    map g (settlements u) = map g (settlements t)) as Hmap by (intros A g Hg; rewrite Hu; by apply update_row_column).
  split; [split|].
  - by rewrite Hmap.
  - by rewrite Hmap.
  - done.
  - intros p Hin. rewrite Hmap by done. by apply Hk.
  - done.
  - intros r. rewrite Hu. intros [->|[Hr Hne]]%update_row_in; [done| |done|done].
    apply (others_sent u s r); auto.
  - assert (forall P : Settlement -> bool, (forall r, P (set_stl_status st r) = P r) ->
      sum_of (sent_amount u) (List.filter P (settlements u)) =
      sum_of (sent_amount t) (List.filter P (settlements t)) + if P s then delta else 0) as Hsum.
    { intros P HP. rewrite !sum_of_filter, Hu.
      rewrite (update_row_sum stl_id s (set_stl_status st) _ H1 Hs _ (fun r => if P r then sent_amount t r else 0)).
      - rewrite HP. unfold delta. destruct (P s); lia.
      - intros r Hr Hne. destruct (P r); [|done]. by destruct (others_sent u s r Ho Hr Hne). }
    split; intros; by apply (Hsum (fun s => _)).
Qed.

Lemma stage_of s : In s (settlements t) -> stage_ok t s.
Proof. by apply stages_ok. Qed.

(** The settlement of a payout, and its only payout. *)
Lemma payout_settlement p : In p (payout_orders t) ->
  exists s, List.filter (fun s => (stl_id s =? pyo_settlement_id p)%py) (settlements t) = [s] /\
    In s (settlements t) /\ stl_id s = pyo_settlement_id p /\ payouts_of t s = [p].
Proof.
  intros Hp. pose proof (pyo_known t Ht p Hp) as Hin. apply in_map_iff in Hin as (s & Hid & Hs).
  exists s. split; [rewrite <- Hid; apply filter_key; [by apply stl_ids|done]|]. split; [done|]. split; [done|].
  assert (In p (payouts_of t s)) as Hps by (apply filter_In; split; [done|by apply bool_decide_eq_true]).
  pose proof (stage_of s Hs) as Hst. unfold stage_ok, pays in Hst.
  destruct (stl_status s); [by rewrite Hst in Hps|..|done];
    destruct Hst as (q & Hq & _); rewrite Hq in Hps |- *; by destruct Hps as [->|[]].
Qed.

Lemma sent_single u s p : payouts_of u s = [p] -> sent_amount u s = if was_sent u p then pyo_amount p else 0.
Proof. intros Hp. unfold sent_amount. rewrite Hp. simpl. destruct (was_sent u p); simpl; lia. Qed.

(** Approving a draft queues its payout. *)
Lemma approve_draft s id u : In s (settlements t) -> stl_status s = SettlementStatus.DRAFT ->
  ~ In id (map pyo_id (payout_orders t)) ->
  settlements u = update_row stl_id s (set_stl_status SettlementStatus.APPROVED) (settlements t) ->
  payout_orders u = payout_orders t ++ [queued s id] -> payout_events u = payout_events t ->
  tables_ok u /\ (forall k c, paid_to u k c = paid_to t k c) /\ (forall c, paid_in u c = paid_in t c).
Proof.
  intros Hs Hd Hid Hu Hp He. pose proof (stage_of s Hs) as Hst. unfold stage_ok in Hst. rewrite Hd in Hst.
  assert (payouts_of u (set_stl_status SettlementStatus.APPROVED s) = [queued s id]) as Hpay.
  { unfold payouts_of in *. rewrite Hp, filter_snoc. simpl. rewrite Hst. unfold eqb. by rewrite bool_decide_eq_true_2. }
  assert (events_of u (queued s id) = []) as Hev.
  { unfold events_of. rewrite He, filter_none; [done|]. apply List.Forall_forall. intros e Hin.
    apply bool_decide_eq_false. intros E. apply Hid. change id with (pyo_id (queued s id)). rewrite <- E. by apply pev_known. }
  destruct (move_settlement u s SettlementStatus.APPROVED) as (Hok & Hto & Hin); [done|done|..].
  - rewrite Hp, map_app. apply nodup_snoc; [by apply pyo_ids|done].
  - intros p. rewrite Hp. intros [Hin|[<-|[]]]%in_app_iff; [by apply pyo_known|exact (in_map stl_id _ s Hs)].
  - intros e. rewrite He, Hp, map_app, in_app_iff. intros Hin. left. by apply pev_known.
  - intros r Hr Hne. split; [|intros p _; unfold events_of; by rewrite He].
    unfold payouts_of. rewrite Hp, filter_snoc. simpl. unfold eqb at 2.
    rewrite bool_decide_eq_false_2 by congruence. by rewrite app_nil_r.
  - unfold stage_ok. simpl. exists (queued s id). rewrite Hpay, Hev. repeat split. by left.
  - assert (sent_amount u (set_stl_status SettlementStatus.APPROVED s) - sent_amount t s = 0) as Hz.
    { rewrite (sent_single u _ _ Hpay). unfold was_sent. rewrite Hev. unfold sent_amount. by rewrite Hst. }
    rewrite Hz in Hto, Hin. split; [done|]. split; intros; rewrite ?Hto, ?Hin; destruct (_ =? _)%py; simpl; try destruct (_ =? _)%py; lia.
Qed.

(** A payout and its settlement move on, with an event. *)
Section PayoutMoves.
Context (s : Settlement) (p : PayoutOrder) (g : PayoutOrder -> PayoutOrder) (st : SettlementStatus.SettlementStatus)
  (ty : string) (e : PayoutEvent) (u : SettleTables).
Hypothesis Hs : In s (settlements t).
Hypothesis Hp : In p (payout_orders t).
Hypothesis Hpay : payouts_of t s = [p].
Hypothesis Hg : pyo_id (g p) = pyo_id p /\ pyo_settlement_id (g p) = pyo_settlement_id p.
Hypothesis He : pev_payout_order_id e = pyo_id p /\ pev_event_type e = ty.
Hypothesis Hu : settlements u = update_row stl_id s (set_stl_status st) (settlements t).
Hypothesis Hup : payout_orders u = update_row pyo_id p g (payout_orders t).
Hypothesis Hue : payout_events u = payout_events t ++ [e].

Lemma own_settlement : pyo_settlement_id p = stl_id s.
Proof.
  assert (In p (payouts_of t s)) as Hin by (rewrite Hpay; by left).
  apply filter_In in Hin as [_ E]. by apply bool_decide_eq_true in E.
Qed.

Lemma moved_payouts r : payouts_of u r = update_row pyo_id p g (payouts_of t r).
Proof.
  unfold payouts_of. rewrite Hup. apply update_row_filter; [by apply pyo_ids|done|]. by rewrite (proj2 Hg).
Qed.

Lemma moved_events q : events_of u q = events_of t q ++ (if (pyo_id p =? pyo_id q)%py then [ty] else []).
Proof.
  unfold events_of. rewrite Hue, filter_snoc, map_app, (proj1 He). destruct (_ =? _)%py; simpl; by rewrite ?(proj2 He).
Qed.

Lemma other_payout r q : In q (payouts_of t r) -> stl_id r <> stl_id s -> pyo_id q <> pyo_id p.
Proof.
  intros [Hq E%bool_decide_eq_true]%filter_In Hne Hid. apply Hne. rewrite <- E, <- own_settlement.
  by rewrite (nodup_key pyo_id (payout_orders t) q p (pyo_ids t Ht) Hq Hp Hid).
Qed.

Lemma payout_moves (Hst : payouts_of u (set_stl_status st s) = [g p] -> events_of u (g p) = events_of t p ++ [ty] ->
    stage_ok u (set_stl_status st s)) :
  let delta := (if bool_decide ("SENT" ∈ events_of t p ++ [ty]) then pyo_amount (g p) else 0)
             - (if bool_decide ("SENT" ∈ events_of t p) then pyo_amount p else 0) in
  tables_ok u /\
  (forall k c, paid_to u k c = paid_to t k c +
     if (partner_key s =? k)%py && (stl_currency s =? c)%py then delta else 0) /\
  (forall c, paid_in u c = paid_in t c + if (stl_currency s =? c)%py then delta else 0).
Proof.
  intros delta.
  assert (payouts_of u (set_stl_status st s) = [g p]) as Hpay'.
  { rewrite moved_payouts. change (payouts_of t (set_stl_status st s)) with (payouts_of t s). rewrite Hpay.
    unfold update_row, update_where, eqb. simpl. by rewrite bool_decide_eq_true_2. }
  assert (events_of u (g p) = events_of t p ++ [ty]) as Hev'.
  { rewrite moved_events, (proj1 Hg). unfold eqb. rewrite bool_decide_eq_true_2 by done.
    unfold events_of. by rewrite (proj1 Hg). }
  assert (delta = sent_amount u (set_stl_status st s) - sent_amount t s) as ->.
  { rewrite (sent_single u _ _ Hpay'), (sent_single t _ _ Hpay). unfold was_sent. by rewrite Hev'. }
  assert (map pyo_id (payout_orders u) = map pyo_id (payout_orders t)) as Hids
    by (rewrite Hup; apply update_row_column; [by apply pyo_ids|done|apply Hg]).
  apply move_settlement; [done|done|by rewrite Hids; apply pyo_ids|..].
  - intros q. rewrite Hup. intros [->|[Hq _]]%update_row_in; [|by apply pyo_known|by apply pyo_ids|done].
    rewrite (proj2 Hg). by apply pyo_known.
  - intros x. rewrite Hue, Hids. intros [Hx|[<-|[]]]%in_app_iff; [by apply pev_known|].
    rewrite (proj1 He). by apply in_map.
  - intros r Hr Hne. split.
    + rewrite moved_payouts. unfold update_row, update_where. rewrite <- map_id. apply map_ext_in. intros q Hq.
      unfold eqb. rewrite bool_decide_eq_false_2; [done|]. by apply (other_payout r).
    + intros q Hq. rewrite moved_events. unfold eqb. rewrite bool_decide_eq_false_2; [by rewrite app_nil_r|].
      intros E. by apply (other_payout r q Hq Hne).
  - by apply Hst.
Qed.
End PayoutMoves.
End Tables.

(** *** The accounts of the payouts *)

Abbreviation technical owner owner_type currency :=
  (AccountsRepository.matches owner owner_type owner currency AccountType.TECHNICAL None None).

(** An account has one owner and one currency. *)
Lemma technical_only k ot c a k' ot' c' : technical k ot c a = true ->
  technical k' ot' c' a = ((ot =? ot')%py && (k =? k')%py && (c =? c')%py)%bool.
Proof.
  unfold AccountsRepository.matches, eqb. rewrite !andb_true_iff, !bool_decide_eq_true.
  intros ((((((-> & ->) & Ho) & ->) & ->) & ->) & ->). rewrite Ho.
  rewrite (bool_decide_ext (Some k = Some k') (k = k')) by (split; congruence).
  rewrite (bool_decide_eq_true_2 (AccountType.TECHNICAL = _)), (bool_decide_eq_true_2 (None = None)) by done.
  destruct (bool_decide (k = k')), (bool_decide (ot = ot')), (bool_decide (c = c')); done.
Qed.

Lemma account_ids_unique d : ledger_known d -> List.NoDup (map acc_id (accounts (posting d))).
Proof.
  intros (Hn & _). unfold numbered in Hn. rewrite Hn. apply NoDup_ListNoDup, NoDup_seqZ.
Qed.

Lemma new_account_unknown d : ledger_known d -> ~ account_exists d (next_id (accounts (posting d))).
Proof.
  intros (Hn & _) (a & Ha & Hi). apply (in_map acc_id) in Ha. rewrite Hn, Hi in Ha.
  apply list_elem_of_In, elem_of_seqZ in Ha. unfold next_id in Ha. lia.
Qed.

(** An account of a payout is found or made; the funds stay as they are. *)
Lemma technical_account_run k ot c st (s : session Db) : ledger_known (live s) ->
  exists a t, AccountsRepository.get_or_create_account k ot (Some k) c AccountType.TECHNICAL None None st false s = (Ok a, t) /\
    technical k ot c a = true /\ In a (accounts (posting (live t))) /\
    (forall b, In b (accounts (posting (live s))) -> In b (accounts (posting (live t)))) /\
    ledger_known (live t) /\ settle (live t) = settle (live s) /\ saved t = saved s /\
    (forall ot' k' c', funds (live t) ot' k' c' = funds (live s) ot' k' c').
Proof.
  intros Hl. unfold AccountsRepository.get_or_create_account, q_first. run_steps.
  assert (str_or (Some k) k = k) as -> by (by destruct k).
  destruct (head (List.filter (technical k ot c) (accounts (posting (live s))))) as [a|] eqn:Ha.
  - exists a, s. apply head_filter_some in Ha as [Hin HP]. auto 10.
  - set (a := MkAccount _ _ _ _ _ _ _ _ _). eexists a, _. split; [reflexivity|]. simpl.
    pose proof (new_account_unknown _ Hl) as Hno.
    split; [unfold AccountsRepository.matches, eqb, a; simpl; by rewrite !bool_decide_true|].
    split; [apply in_app_iff; right; by left|]. split; [intros b Hb; apply in_app_iff; by left|].
    split; [|split; [done|split; [done|]]].
    + destruct Hl as (Hn & Hb & Hk). split; [by apply numbered_snoc|]. split; [|done].
      intros i Hi. apply Hb. intros (x & Hx & Hxi). apply Hi. exists x. split; [|done]. apply in_app_iff. by left.
    + intros ot' k' c'. unfold funds. simpl. rewrite filter_snoc, sum_of_app.
      destruct Hl as (_ & Hb & _). assert (current (live s) (acc_id a) = 0) as Hz by (unfold current; by rewrite Hb).
      change (sum_of (fun x => current (live s) (acc_id x)) (List.filter (technical k' ot' c') (accounts (posting (live s)))) +
        sum_of (fun x => current (live s) (acc_id x)) (if technical k' ot' c' a then [a] else []) =
        sum_of (fun x => current (live s) (acc_id x)) (List.filter (technical k' ot' c') (accounts (posting (live s))))).
      destruct (technical k' ot' c' a); cbn [sum_of foldr]; lia.
Qed.

(** What a transfer between two accounts does to the funds. *)
Lemma transfer_funds d d' a b amount : ledger_known d -> In a (accounts (posting d)) -> In b (accounts (posting d)) ->
  accounts (posting d') = accounts (posting d) ->
  (forall k, current d' k = current d k - (if decide (acc_id a = k) then amount else 0)
                            + (if decide (acc_id b = k) then amount else 0)) ->
  forall ot k c, funds d' ot k c =
    funds d ot k c - (if technical k ot c a then amount else 0) + (if technical k ot c b then amount else 0).
Proof.
  intros Hl Ha Hb Hacc Hcur ot k c. unfold funds. rewrite Hacc, !sum_of_filter.
  set (P := technical k ot c). set (l := accounts (posting d)) in *. pose proof (account_ids_unique d Hl) as Hn.
  rewrite (sum_change acc_id b (fun x => if P x then current d' (acc_id x) else 0)
    (fun x => if P x then current d (acc_id x) - (if decide (acc_id a = acc_id x) then amount else 0) else 0) l Hn Hb).
  - rewrite (sum_change acc_id a (fun x => if P x then current d (acc_id x) - (if decide (acc_id a = acc_id x) then amount else 0) else 0)
      (fun x => if P x then current d (acc_id x) else 0) l Hn Ha).
    + rewrite Hcur, !(decide_True (P := acc_id b = acc_id b)), !(decide_True (P := acc_id a = acc_id a)) by done.
      destruct (P a), (P b); lia.
    + intros x _ Hx. destruct (P x); [|done]. rewrite decide_False by done. lia.
  - intros x _ Hx. destruct (P x); [|done]. rewrite Hcur, (decide_False (P := acc_id b = acc_id x)) by done. lia.
Qed.

Section PostPayout.
Context (W : world Db).

Lemma post_payout_run s p (x : session Db) : ledger_known (live x) ->
  exists y, _post_payout_ledger W s p x = (Ok tt, y) /\ settle (live y) = settle (live x) /\ saved y = saved x /\
    ledger_known (live y) /\
    (forall k c, partner_funds (live y) k c = partner_funds (live x) k c +
       (if (partner_key s =? k)%py && (pyo_currency p =? c)%py then dec_of_int (pyo_amount p) else 0)) /\
    (forall c, platform_funds (live y) c = platform_funds (live x) c -
       (if (pyo_currency p =? c)%py then dec_of_int (pyo_amount p) else 0)).
Proof.
  intros Hl. unfold _post_payout_ledger. cbv zeta.
  destruct (technical_account_run PLATFORM_OWNER_ID AccountOwnerType.PLATFORM (pyo_currency p) AccountStatus.ACTIVE x Hl)
    as (a & x1 & Ha & Hma & Hina & Hk1 & Hl1 & Hs1 & Hsv1 & Hf1).
  destruct (technical_account_run (partner_key s) AccountOwnerType.PARTNER (pyo_currency p) AccountStatus.ACTIVE x1 Hl1)
    as (b & x2 & Hb & Hmb & Hinb & Hk2 & Hl2 & Hs2 & Hsv2 & Hf2).
  rewrite (bind_ok _ _ x a x1 Ha), (bind_ok _ _ x1 b x2 Hb).
  set (amount := dec_of_int (pyo_amount p)).
  set (x3 := Session (live x2) (saved x2) (S (ticks x2)) (S (S (uuids x2))) (races x2)).
  destruct (debit_credit_run W None (Some (clock W (ticks x2))) false (acc_id a) (acc_id b) (new_uuid W (uuids x2)) amount
    (pyo_currency p) (Some (new_uuid W (S (uuids x2)))) (Some (new_uuid W (S (S (uuids x2))))) x3)
    as (e1 & x4 & H1 & _ & Hx4 & Hsv4 & Hnext); [exists a; split; [by apply Hk2|done]|by exists b|done|apply Hl2|].
  destruct (Hnext (Session (live x4) (saved x4) (ticks x4) (S (S (S (uuids x2)))) (races x4)) eq_refl eq_refl)
    as (e2 & y & H2 & Hly & _ & Hsy & Hsvy & Hay & _ & Hcur & Hbal & _).
  exists y. split; [|split; [by rewrite Hsy; cbn; congruence|split; [by rewrite Hsvy; cbn; congruence|]]].
  - rewrite (bind_ok _ _ x2 (new_uuid W (uuids x2)) (Session (live x2) (saved x2) (ticks x2) (S (uuids x2)) (races x2))) by done.
    rewrite (bind_ok _ _ _ (clock W (ticks x2)) (Session (live x2) (saved x2) (S (ticks x2)) (S (uuids x2)) (races x2))) by done.
    rewrite (bind_ok _ _ _ (new_uuid W (S (uuids x2))) x3) by done.
    rewrite (bind_ok _ _ x3 e1 x4 H1).
    assert (uuids x4 = S (S (uuids x2))) as Hu.
    { pose proof (synced_post_run W (acc_id a) None (Some (new_uuid W (uuids x2))) LedgerDirection.DEBIT amount (pyo_currency p)
        (Some (clock W (ticks x2))) (Some (new_uuid W (S (uuids x2)))) false false x3) as Hr.
      rewrite H1 in Hr. assert (account_exists (live x3) (acc_id a)) as Hx by (exists a; split; [by apply Hk2|done]).
      specialize (Hr Hx I). by injection Hr as _ ->. }
    rewrite (bind_ok _ _ x4 (new_uuid W (S (S (uuids x2)))) (Session (live x4) (saved x4) (ticks x4) (S (S (S (uuids x2)))) (races x4)))
      by (unfold uuid4; by rewrite Hu).
    by rewrite (bind_ok _ _ _ e2 y H2).
  - assert (ledger_known (live y)) as Hky.
    { destruct Hl2 as (Hn2 & Hb2 & _). split; [by rewrite Hay|]. split; [|done]. intros i Hi.
      assert (forall c, In c (accounts (posting (live x2))) -> acc_id c <> i) as Hno.
      { intros c Hc E. apply Hi. exists c. split; [by rewrite Hay|done]. }
      rewrite Hbal; [|apply Hno; by apply Hk2|by apply Hno]. apply Hb2. intros (c & Hc & E). by apply (Hno c). }
    split; [done|].
    assert (forall ot k c, funds (live y) ot k c = funds (live x) ot k c -
      (if technical k ot c a then amount else 0) + (if technical k ot c b then amount else 0)) as Hf.
    { intros ot k c. rewrite (transfer_funds (live x2) (live y) a b amount); [|done|by apply Hk2|done|done|done].
      by rewrite Hf2, Hf1. }
    split.
    + intros k c. unfold partner_funds. rewrite Hf, (technical_only _ _ _ a _ _ _ Hma), (technical_only _ _ _ b _ _ _ Hmb).
      unfold eqb at 1 4. simpl. fold (eqb (partner_key s) k). destruct (_ && _); lia.
    + intros c. unfold platform_funds. rewrite Hf, (technical_only _ _ _ a _ _ _ Hma), (technical_only _ _ _ b _ _ _ Hmb).
      unfold eqb at 1 2 4. simpl. destruct (_ =? _)%py; lia.
Qed.
End PostPayout.

(** *** The services *)

Section Services.
Context (W : world Db) (alone_W : alone W) (partners : string -> string -> Z) (platform : string -> Z).

Abbreviation right := (settle_ok partners platform).

(** What is committed stays right, however the call ends. *)
Definition leaves_right {A} (m : PM A) (s : session Db) : Prop :=
  wp m (fun _ t => right (saved t)) (fun _ t => right (saved t)) s.

Lemma right_tables d d' : posting d' = posting d -> right d -> tables_ok (settle d') ->
  (forall k c, paid_to (settle d') k c = paid_to (settle d) k c) ->
  (forall c, paid_in (settle d') c = paid_in (settle d) c) -> right d'.
Proof.
  intros Hp [Ht Hl Hk Hc] Ht' Hto Hin.
  assert (forall ot k c, funds d' ot k c = funds d ot k c) as Hf
    by (intros ot k c; unfold funds, current, balance_of; by rewrite Hp).
  split; [done| | |].
  - unfold ledger_known, account_exists, ledger_ok, current, entries, balance_of in *. by rewrite Hp.
  - intros k c. unfold partner_funds in *. by rewrite Hf, Hk, Hto.
  - intros c. unfold platform_funds in *. by rewrite Hf, Hc, Hin.
Qed.

Lemma leaves_raise {A} e s : right (saved s) -> leaves_right (A := A) (raise e) s.
Proof. done. Qed.

(** The next call is known. *)
Lemma leaves_step {A B} (m : PM A) (f : A -> PM B) s a t : m s = (Ok a, t) -> leaves_right (f a) t -> leaves_right (m ≫= f) s.
Proof. apply wp_step. Qed.

(** After the commit a row is read again. *)
Lemma leaves_committed {A} (table : Db -> list A) P s : right (live s) -> leaves_right (commit;; q_one table P) s.
Proof.
  intros Hs. apply (leaves_step _ _ s tt (Session (live s) (live s) (ticks s) (uuids s) (races s))); [done|].
  unfold leaves_right, wp, q_one, mbind, M_bind. rewrite one_or_none_run. simpl.
  by destruct (List.filter P (table (live s))) as [|r [|r' l]].
Qed.

Lemma keeps_insert_settlement c : keeps right (insert_settlement W (draft c)).
Proof.
  unfold insert_settlement. apply keeps_bind; [apply keeps_uuid4|]. intros id s [Hl Hs].
  unfold insert_row, q_first. run_steps. set (row := draft c id).
  destruct (List.filter (same_settlement row) (settlements (settle (live s)))) as [|r l] eqn:Hf; simpl; [|done].
  split; [|done]. unfold same_settlement in Hf. apply clash_filter in Hf as [Hi Hsc].
  destruct (add_draft (settle (live s)) (tables_right _ _ _ Hl) row
    (settle (on_settlements (fun l => l ++ [row]) (live s)))) as (Hok & Hto & Hin); try done.
  - by apply no_clash.
  - intros (b & Hb & Hin)%in_map_iff. assert (In b []) as []. rewrite <- Hsc. apply filter_In. split; [done|].
    injection Hb as E1 E2 E3 E4. unfold eqb. rewrite E1, E2, E3, E4, !bool_decide_eq_true_2, !Z.eqb_refl by done. done.
  - by apply (right_tables (live s)).
Qed.

Lemma keeps_q_one {A} (table : Db -> list A) P : keeps right (q_one table P).
Proof. unfold q_one. apply keeps_bind; [apply keeps_one_or_none|]. intros [a|]; [apply keeps_ret|apply keeps_raise]. Qed.

Lemma keeps_generate date : keeps right (generate_settlements_for_date W date).
Proof.
  unfold generate_settlements_for_date, q_all. apply keeps_bind; [apply keeps_gets|]. intros [|c l]; [apply keeps_ret|].
  apply keeps_bind; [apply keeps_for_each; intros x; unfold find_settlement; auto with keeps|]. intros found.
  apply keeps_bind; [by apply keeps_race, alone_keeps|]. intros _.
  apply keeps_bind; [apply keeps_for_each; intros [x [e|]]; [apply keeps_ret|apply keeps_insert_settlement]|]. intros created.
  apply keeps_bind; [apply keeps_commit|]. intros _. apply keeps_for_each. intros x. apply keeps_q_one.
Qed.

Lemma keeps_get_balance i : keeps right (AccountsRepository.get_balance i).
Proof.
  intros s [Hl Hs]. unfold AccountsRepository.get_balance, query_balance, insert_balance, q_first. run_steps.
  destruct (balance_of (live s) i) as [b|] eqn:Hb; [done|]. cbv beta iota.
  destruct (head (List.filter (fun a => acc_id a =? i) (accounts (posting (live s))))) as [a|] eqn:Ha; [|done].
  apply head_filter_some in Ha as [Ha Hi%Z.eqb_eq]. set (d := on_balances _ (live s)).
  assert (forall k, current d k = current (live s) k) as Hcur.
  { intros k. unfold current, balance_of, d. simpl. destruct (decide (i = k)) as [<-|Hne].
    - rewrite lookup_insert_eq. unfold balance_of in Hb. by rewrite Hb.
    - by rewrite lookup_insert_ne. }
  assert (right d) as Hd; [|by split].
  destruct Hl as [Ht (Hn & Hbal & Hlk & Hp) Hk Hc]. split; [done| |intros k c|intros c].
  - split; [done|]. split; [|split; [intros k; by rewrite Hcur|done]].
    intros k Hno. unfold balance_of, d. simpl. rewrite lookup_insert_ne; [by apply Hbal|]. intros <-. apply Hno. by exists a.
  - change (settle d) with (settle (live s)). rewrite <- Hk. unfold partner_funds, funds. apply sum_of_ext, List.Forall_forall. auto.
  - change (settle d) with (settle (live s)). rewrite <- Hc. unfold platform_funds, funds. apply sum_of_ext, List.Forall_forall. auto.
Qed.

Lemma keeps_balances partner : keeps right (partner_balances partner).
Proof.
  unfold partner_balances, q_all. apply keeps_bind; [apply keeps_gets|]. intros l. apply keeps_for_each. intros a.
  apply keeps_bind; [apply keeps_get_balance|]. intros b. apply keeps_ret.
Qed.

Lemma leaves_approve id s : right (live s) -> right (saved s) -> leaves_right (approve_settlement W id) s.
Proof.
  intros Hl Hs. unfold approve_settlement. apply wp_find; [done|done|].
  intros r [Hr _]%filter_one. unfold eqb at 1.
  destruct (bool_decide_reflect (stl_status r = SettlementStatus.DRAFT)) as [Hd|]; [|by apply leaves_raise]. cbn [negb].
  eapply leaves_step; [reflexivity|].
  pose proof (stage_of _ (tables_right _ _ _ Hl) r Hr) as Hst. unfold stage_ok in Hst. rewrite Hd in Hst.
  set (s1 := Session (on_settlements (update_row stl_id r (set_stl_status SettlementStatus.APPROVED)) (live s)) (saved s) (ticks s) (uuids s) (races s)).
  apply (leaves_step _ _ s1 None s1); [by apply one_or_none_nil|]. cbv iota.
  apply wp_bind. eapply wp_step; [by apply race_alone|]. unfold insert_payout.
  apply wp_bind. eapply wp_step; [reflexivity|]. apply wp_insert_row; [done|]. cbv beta. intros Hf%no_clash.
  apply leaves_committed. cbn [live].
  destruct (approve_draft (settle (live s)) (tables_right _ _ _ Hl) r (new_uuid W (uuids s1))
    (settle (on_payout_orders (fun l => l ++ [queued r (new_uuid W (uuids s1))]) (live s1)))) as (Hok & Hto & Hin); try done.
  by apply (right_tables (live s)).
Qed.

(** The payout of a request, and its settlement. *)
Lemma leaves_payout {A} id (k : PayoutOrder -> option Settlement -> PM A) s : right (live s) -> right (saved s) ->
  (forall p r, In p (payout_orders (settle (live s))) -> In r (settlements (settle (live s))) ->
     payouts_of (settle (live s)) r = [p] -> leaves_right (k p (Some r)) s) ->
  leaves_right (payout ← find_payout id; settlement ← settlement_of payout; k payout settlement) s.
Proof.
  intros Hl Hs Hk. unfold find_payout. apply wp_bind, wp_find; [done|done|]. intros p [Hp _]%filter_one.
  destruct (payout_settlement (settle (live s)) (tables_right _ _ _ Hl) p Hp) as (r & Hf & Hr & Hid & Hpay).
  apply (leaves_step _ _ s (Some r) s); [|by apply Hk]. unfold settlement_of, q_first, gets. by rewrite Hf.
Qed.

(** An event of a payout is added. *)
Lemma leaves_event {A} p ty (k : PM A) s : right (saved s) ->
  (forall e t, pev_payout_order_id e = pyo_id p -> pev_event_type e = ty ->
     live t = on_payout_events (fun l => l ++ [e]) (live s) -> saved t = saved s -> leaves_right k t) ->
  leaves_right (append_event W p ty;; k) s.
Proof.
  intros Hs Hk. unfold append_event. apply wp_bind. eapply wp_step; [reflexivity|].
  apply wp_bind, wp_insert_row; [done|]. intros _. apply wp_ret.
  apply (Hk (MkPayoutEvent (new_uuid W (uuids s)) (pyo_id p) ty None)); reflexivity.
Qed.

Lemma leaves_send id s : right (live s) -> right (saved s) -> leaves_right (send_payout W id) s.
Proof.
  intros Hl Hs. apply leaves_payout; [done|done|]. intros p r Hp Hr Hpay.
  unfold eqb at 1. destruct (bool_decide_reflect (pyo_status p = PayoutOrderStatus.QUEUED)) as [Hq|]; [|by apply leaves_raise].
  unfold eqb at 1. destruct (bool_decide_reflect (stl_status r = SettlementStatus.APPROVED)) as [Ha|]; [|by apply leaves_raise].
  cbn [negb]. eapply leaves_step; [reflexivity|]. apply leaves_event; [done|]. intros e x He Hty Hx Hsx. cbn [live] in Hx.
  destruct (post_payout_run W r p x) as (y & Hrun & Hsy & Hsvy & Hly & Hpf & Hplf); [rewrite Hx; apply Hl|].
  apply (leaves_step _ _ _ _ _ Hrun). eapply leaves_step; [reflexivity|]. apply leaves_committed. cbn [live].
  set (u := on_settlements _ (live y)).
  pose proof (stage_of _ (tables_right _ _ _ Hl) r Hr) as Hst. unfold stage_ok in Hst. rewrite Ha in Hst.
  destruct Hst as (q & Hpq & _ & Hev & Ham & Hcu). rewrite Hpay in Hpq. injection Hpq as <-.
  apply list_elem_of_singleton in Hev.
  destruct (payout_moves (settle (live s)) (tables_right _ _ _ Hl) r p sent SettlementStatus.SENT "SENT" e (settle u))
    as (Hok & Hto & Hin); try done; try (unfold u; simpl; rewrite Hsy, Hx; done).
  - intros Hpay' Hev'. exists (sent p). split; [exact Hpay'|]. split; [done|]. split; [rewrite Hev', Hev; by left|done].
  - rewrite Hev in Hto, Hin. rewrite bool_decide_eq_true_2, bool_decide_eq_false_2 in Hto, Hin by set_solver.
    change (pyo_amount (sent p)) with (pyo_amount p) in Hto, Hin. rewrite Z.sub_0_r in Hto, Hin. rewrite <- Hcu in Hto, Hin.
    split; [exact Hok|exact Hly| |].
    + intros k c. rewrite Hto. change (partner_funds u k c) with (partner_funds (live y) k c). rewrite Hpf.
      change (partner_funds (live x) k c) with (partner_funds (live x) k c).
      assert (partner_funds (live x) k c = partner_funds (live s) k c) as -> by (by rewrite Hx).
      rewrite (partners_right _ _ _ Hl). unfold dec_of_int. destruct (_ && _); lia.
    + intros c. rewrite Hin. change (platform_funds u c) with (platform_funds (live y) c). rewrite Hplf.
      assert (platform_funds (live x) c = platform_funds (live s) c) as -> by (by rewrite Hx).
      rewrite (platform_right _ _ _ Hl). unfold dec_of_int. destruct (_ =? _)%py; lia.
Qed.

Lemma leaves_confirm id s : right (live s) -> right (saved s) -> leaves_right (confirm_payout W id) s.
Proof.
  intros Hl Hs. apply leaves_payout; [done|done|]. intros p r Hp Hr Hpay.
  destruct (bool_decide_reflect (pyo_status p ∈ [PayoutOrderStatus.SENT; PayoutOrderStatus.QUEUED])) as [Hq|]; [|by apply leaves_raise].
  cbn [negb]. eapply leaves_step; [reflexivity|]. apply leaves_event; [done|]. intros e x He Hty Hx Hsx. cbn [live] in Hx.
  cbv iota. eapply leaves_step; [reflexivity|]. apply leaves_committed. cbn [live].
  set (u := on_settlements _ (live x)).
  pose proof (stage_of _ (tables_right _ _ _ Hl) r Hr) as Hst.
  assert (exists evs, events_of (settle (live s)) p = evs /\ (evs = [] \/ evs = ["SENT"]) /\
    pyo_amount p = stl_total_amount r - stl_commission_amount r /\ pyo_currency p = stl_currency r) as (evs & Hev & Hcase & Ham & Hcu).
  { unfold stage_ok in Hst. destruct (stl_status r); [by rewrite Hpay in Hst|..|done];
      destruct Hst as (q & Hq' & Hsq & Hev & Ham & Hcu); rewrite Hpay in Hq'; injection Hq' as <-;
      [apply list_elem_of_singleton in Hev; eauto 10..|]. rewrite Hsq in Hq. set_solver. }
  destruct (payout_moves (settle (live s)) (tables_right _ _ _ Hl) r p (set_pyo_status PayoutOrderStatus.CONFIRMED)
    SettlementStatus.CONFIRMED "CONFIRMED" e (settle u)) as (Hok & Hto & Hin); try done; try (unfold u; simpl; rewrite Hx; done).
  - intros Hpay' Hev'. eexists. split; [exact Hpay'|]. split; [done|]. split; [|done]. rewrite Hev', Hev.
    destruct Hcase as [-> | ->]; [by right; left|by left].
  - change (pyo_amount (set_pyo_status PayoutOrderStatus.CONFIRMED p)) with (pyo_amount p) in Hto, Hin.
    rewrite Hev in Hto, Hin.
    rewrite (bool_decide_ext ("SENT" ∈ evs ++ ["CONFIRMED"]) ("SENT" ∈ evs)), Z.sub_diag in Hto, Hin by (destruct Hcase as [-> | ->]; set_solver).
    apply (right_tables (live s)); [unfold u; simpl; by rewrite Hx|done|done| |].
    + intros k c. rewrite Hto. destruct (_ && _); lia.
    + intros c. rewrite Hin. destruct (_ =? _)%py; lia.
Qed.
End Services.

(** ** Histories of requests *)

Inductive settlement_request :=
| Generate (date : Z)
| Approve (settlement_id : string)
| Send (payout_id : string)
| Confirm (payout_id : string)
| Balances (partner_id : string).

Section Histories.
Context (W : world Db).
Import SettlementsApi.

Definition run_settlement (r : settlement_request) : PM unit :=
  match r with
  | Generate date => generate_settlements W date;; mret tt
  | Approve id => approve W id;; mret tt
  | Send id => send W id;; mret tt
  | Confirm id => confirm W id;; mret tt
  | Balances id => partner_balance id;; mret tt
  end.

Definition serve_settlements (rs : list settlement_request) : session Db -> session Db := serve_all (map run_settlement rs).

Context (alone_W : alone W) (partners : string -> string -> Z) (platform : string -> Z).

Lemma saved_try {A} (m : PM A) s :
  leaves_right partners platform m s -> settle_ok partners platform (saved ((bad_request m;; mret tt) s).2).
Proof.
  unfold leaves_right, wp, bad_request, try_except, mbind, M_bind.
  destruct (m s) as [[a|e] t]; [done|]. by destruct e.
Qed.

Lemma saved_keeps {A} (m : PM A) s : keeps (settle_ok partners platform) m -> holds (settle_ok partners platform) s ->
  settle_ok partners platform (saved ((m;; mret tt) s).2).
Proof.
  intros Hm Hs. specialize (Hm s Hs). unfold mbind, M_bind. destruct (m s) as [[a|e] t]; apply Hm.
Qed.

(** C15 whatever settlement requests are served, in any order, every settlement is at a stage
    that says what its payout is: none for a draft, one queued when it is approved, sent when
    it is sent, confirmed when it is confirmed, always for its amount without the commission;
    clearings are settled once; and the balance of every partner has grown by exactly what
    was sent to it, that of the platform has shrunk by what was sent in all, while every
    balance stays the sum of its ledger entries and every posting balanced. *)
Theorem settlements_paid rs s : saved s = live s -> settle_ok partners platform (saved s) ->
  let d := saved (serve_settlements rs s) in
  (forall st, In st (settlements (settle d)) -> stage_ok (settle d) st) /\
  List.NoDup (map scope (settlements (settle d))) /\
  (forall k c, partner_funds d k c = partners k c + dec_of_int (paid_to (settle d) k c)) /\
  (forall c, platform_funds d c = platform c - dec_of_int (paid_in (settle d) c)) /\
  ledger_ok d.
Proof.
  intros Hs Hi. cbv zeta.
  destruct (serve_all_invariant (settle_ok partners platform) (map run_settlement rs)) with (s := s) as [_ H]; [|done..|].
  - apply Forall_map, List.Forall_forall. intros r _ t Ht Hr.
    assert (settle_ok partners platform (live t)) as Hl by (by rewrite <- Ht).
    destruct r; simpl.
    + apply saved_keeps; [by apply keeps_generate|done].
    + by apply saved_try, leaves_approve.
    + by apply saved_try, leaves_send.
    + by apply saved_try, leaves_confirm.
    + apply saved_keeps; [by apply keeps_balances|done].
  - destruct H as [H1 (_ & _ & Hl) Hk Hc]. split; [apply H1|]. split; [apply H1|]. by split.
Qed.
End Histories.

(** ** Witnesses *)

Definition demo_clearing (merchant : string) (amount : Z) : Clearing :=
  MkClearing ("clearing " +:+ merchant) 5 merchant "RUB" amount "PENDING" None.

(** Two clearings of one day. *)
Definition demo_clearings : Db := on_clearings (fun _ => [demo_clearing "first" 100; demo_clearing "second" 40]) empty_db.

Lemma demo_clearings_right : settle_ok (fun _ _ => 0) (fun _ => 0) demo_clearings.
Proof.
  split; [split; (constructor || done)| |done|done].
  split; [done|]. split; [|split; done]. intros i _. unfold balance_of. simpl. apply lookup_empty.
Qed.

Definition settlement_stages (d : Db) : list (string * Z * SettlementStatus.SettlementStatus) :=
  map (fun s => (stl_merchant_id s, stl_total_amount s, stl_status s)) (settlements (settle d)).

(** The first settlement is sent and confirmed; the second is confirmed without having been
    sent: the partner has nothing, and the payout cannot be sent any more. *)
Definition demo_settling : list settlement_request :=
  [Generate 5; Approve "id-0"; Approve "id-1"; Generate 5; Send "id-2"; Confirm "id-2"; Confirm "id-3"; Send "id-3"].

Lemma settlements_paid_witness :
  let d := saved (serve_settlements demo_world demo_settling (fresh_session demo_clearings)) in
  (forall c, platform_funds d c = 0 - dec_of_int (paid_in (settle d) c)) /\
  settlement_stages d = [("first", 100, SettlementStatus.CONFIRMED); ("second", 40, SettlementStatus.CONFIRMED)] /\
  partner_funds d "first" "RUB" = dec_of_int 100 /\ partner_funds d "second" "RUB" = 0.
Proof.
  pose proof (settlements_paid demo_world (fun _ _ => eq_refl) (fun _ _ => 0) (fun _ => 0) demo_settling
    (fresh_session demo_clearings) eq_refl demo_clearings_right) as (_ & _ & _ & H & _).
  split; [exact H|]. split; [vm_compute; reflexivity|]. split; vm_compute; reflexivity.
Defined.

(** A draft does not follow its clearing: when the clearing is computed again, the
    settlement keeps the old amount. *)
Example draft_keeps_amount :
  let s := serve_settlements demo_world [Generate 5] (fresh_session demo_clearings) in
  let d := on_clearings (map (set_clr_total_amount 70)) (saved s) in
  settlement_stages (saved (serve_settlements demo_world [Generate 5] (Session d d (ticks s) (uuids s) 0))) =
  [("first", 100, SettlementStatus.DRAFT); ("second", 40, SettlementStatus.DRAFT)].
Proof. vm_compute. reflexivity. Qed.

(** A clearing of a negative amount, after more was refunded than captured, is paid out as
    any other: the posting takes the money from the partner. *)
Example negative_payout :
  let d := on_clearings (fun _ => [demo_clearing "first" (-30)]) empty_db in
  partner_funds (saved (serve_settlements demo_world [Generate 5; Approve "id-0"; Send "id-1"] (fresh_session d))) "first" "RUB" =
  dec_of_int (-30).
Proof. vm_compute. reflexivity. Qed.

(** Another session approves the settlement between the lookup of its payout and the insert. *)
Definition impatient_world : world Db := {|
  clock := clock demo_world; new_uuid := new_uuid demo_world; sha256_hex := sha256_hex demo_world;
  rivals := fun n d => if Nat.eqb n 1
    then on_payout_orders (fun l => l ++ map (fun s => queued s "other") (settlements (settle d))) d else d |}.

(** A payout is not unique by its settlement: both sessions queue one. *)
Example two_payouts :
  let d := on_clearings (fun _ => [demo_clearing "first" 100]) empty_db in
  map (fun p => (pyo_settlement_id p, pyo_amount p))
    (payout_orders (settle (saved (serve_settlements impatient_world [Generate 5; Approve "id-0"] (fresh_session d))))) =
  [("id-0", 100); ("id-0", 100)].
Proof. vm_compute. reflexivity. Qed.
