(* ===== verification/InvoiceMachine.v ===== *)
(** * The lifecycle of an invoice (services/invoice_state_machine.py)

    The state machine that checks and applies every change of an invoice's status and
    amounts, with its log and its audit record, and the two admin endpoints that drive
    it (routers/admin/billing.py).  The decision engine is another component: the machine
    is written against the interface [DecisionService]. *)
From S2P Require Import Prelude Json Enums Models AuditTrail Decisions.

Module InvoiceStateMachine.
(** [_ALLOWED_TRANSITIONS] *)
Definition _ALLOWED_TRANSITIONS (s : InvoiceStatus.InvoiceStatus) : list InvoiceStatus.InvoiceStatus :=
  match s with
  | InvoiceStatus.DRAFT => [InvoiceStatus.ISSUED]
  | InvoiceStatus.ISSUED => [InvoiceStatus.SENT; InvoiceStatus.CANCELLED]
  | InvoiceStatus.SENT => [InvoiceStatus.PARTIALLY_PAID; InvoiceStatus.PAID;
                           InvoiceStatus.CANCELLED; InvoiceStatus.OVERDUE]
  | InvoiceStatus.PARTIALLY_PAID => [InvoiceStatus.PAID; InvoiceStatus.SENT]
  | InvoiceStatus.PAID => [InvoiceStatus.PARTIALLY_PAID; InvoiceStatus.SENT]
  | InvoiceStatus.CANCELLED => []
  | InvoiceStatus.OVERDUE => [InvoiceStatus.PARTIALLY_PAID; InvoiceStatus.PAID]
  | InvoiceStatus.CREDITED => []
  end.

(** [f"{status}"] of a [str] enum, in Python 3.11 *)
Definition status_text (s : InvoiceStatus.InvoiceStatus) : string :=
  "InvoiceStatus." +:+ InvoiceStatus.value s.

Definition _validate_allowed (invoice : Invoice) (target : InvoiceStatus.InvoiceStatus) : PM unit :=
  if (target =? inv_status invoice)%py then mret tt
  else if bool_decide (target ∈ _ALLOWED_TRANSITIONS (inv_status invoice)) then mret tt
  else raise (InvalidTransitionError ("transition " +:+ status_text (inv_status invoice) +:+
                                      " -> " +:+ status_text target +:+ " is not allowed")).

(** [int(total_with_tax or total_amount or 0)] *)
Definition invoice_total (invoice : Invoice) : Z :=
  int_or (inv_total_with_tax invoice) (inv_total_amount invoice).

(** Assignments to the invoice's columns, on the object and its row. *)
Definition assign (f : Invoice -> Invoice) (invoice : Invoice) : PM Invoice :=
  modify (on_invoices (update_where (fun r => (inv_id r =? inv_id invoice)%py) f));;
  mret (f invoice).

Definition negative (amount : option Z) : bool :=
  match amount with Some a => a <? 0 | None => false end.

Definition with_amounts (paid due credits refunded : Z) (r : Invoice) : Invoice :=
  set_inv_amount_refunded refunded (set_inv_credited_amount credits
    (set_inv_amount_due due (set_inv_amount_paid paid r))).

Definition _apply_amounts (invoice : Invoice)
    (payment_amount credit_note_amount refund_amount : option Z) : PM Invoice :=
  let total := invoice_total invoice in
  if negative payment_amount
  then raise (InvoiceInvariantError "payment_amount must be non-negative")
  else if negative credit_note_amount
  then raise (InvoiceInvariantError "credit_note_amount must be non-negative")
  else if negative refund_amount
  then raise (InvoiceInvariantError "refund_amount must be non-negative")
  else
    let paid := inv_amount_paid invoice + default 0 payment_amount in
    let credits := inv_credited_amount invoice + default 0 credit_note_amount in
    let refunded := inv_amount_refunded invoice + default 0 refund_amount in
    let due := total - paid - credits + refunded in
    if (paid <? 0) || (credits <? 0) || (refunded <? 0) || (due <? 0)
    then raise (InvoiceInvariantError "financial invariants violated")
    else if negb (paid + credits - refunded + due =? total)
    then raise (InvoiceInvariantError "paid + credits - refunded + due must equal total")
    else assign (with_amounts paid due credits refunded) invoice.

(** [amount is None or amount <= 0] *)
Definition not_positive (amount : option Z) : bool :=
  match amount with Some a => a <=? 0 | None => true end.

Definition _validate_constraints (invoice : Invoice) (target : InvoiceStatus.InvoiceStatus)
    (payment_amount credit_note_amount refund_amount : option Z) : PM unit :=
  let total := invoice_total invoice in
  let paid := inv_amount_paid invoice in
  let credits := inv_credited_amount invoice in
  let due := inv_amount_due invoice in
  let refunded := inv_amount_refunded invoice in
  when ((target =? InvoiceStatus.CANCELLED)%py && ((0 <? paid) || (0 <? credits) || (0 <? refunded)))
    (raise (InvalidTransitionError "cannot cancel invoice with payments or credits"));;
  when ((target =? InvoiceStatus.SENT)%py && (inv_pdf_status invoice <>? InvoicePdfStatus.READY)%py)
    (raise (InvalidTransitionError "invoice pdf must be ready before sending"));;
  when ((target =? InvoiceStatus.PARTIALLY_PAID)%py)
    (when ((paid <=? 0) && not_positive credit_note_amount)
       (raise (InvalidTransitionError "partial payment must be greater than zero"));;
     when (not_positive payment_amount && not_positive refund_amount && not_positive credit_note_amount)
       (raise (InvalidTransitionError
          "payment, refund, or credit note amount required for partial payment"));;
     when (due <? 0) (raise (InvalidTransitionError "partial payment cannot overpay invoice")));;
  when ((target =? InvoiceStatus.PAID)%py &&
        (negb (due =? 0) || negb (paid + credits - refunded =? total)))
    (raise (InvalidTransitionError "invoice must be fully settled before marking as paid"));;
  when ((target =? InvoiceStatus.OVERDUE)%py && (due <=? 0))
    (raise (InvalidTransitionError "cannot mark overdue when nothing is due")).

(** [if target == S and invoice.x_at is None: invoice.x_at = now] *)
Definition stamp_if (b : bool) (column : option Z) (set : option Z -> Invoice -> Invoice) (now : Z)
    (r : Invoice) : Invoice :=
  if b then match column with None => set (Some now) r | Some _ => r end else r.

Definition _update_timestamps (target : InvoiceStatus.InvoiceStatus) (now : Z) (r : Invoice) : Invoice :=
  let r := stamp_if (target =? InvoiceStatus.ISSUED)%py (inv_issued_at r) set_inv_issued_at now r in
  let r := stamp_if (target =? InvoiceStatus.SENT)%py (inv_sent_at r) set_inv_sent_at now r in
  let r := stamp_if (target =? InvoiceStatus.PAID)%py (inv_paid_at r) set_inv_paid_at now r in
  let r := stamp_if (target =? InvoiceStatus.CANCELLED)%py (inv_cancelled_at r) set_inv_cancelled_at now r in
  stamp_if (target =? InvoiceStatus.CREDITED)%py (inv_credited_at r) set_inv_credited_at now r.

Definition _log_transition (invoice : Invoice) (from_status to_status : InvoiceStatus.InvoiceStatus)
    (actor reason : string) (metadata : option dict) : PM unit :=
  let log_entry := MkInvoiceTransitionLog (inv_id invoice) from_status to_status actor reason
    (match metadata with Some (kv :: d) => Some (JDict (kv :: d)) | _ => None end) in
  modify (on_transition_logs (fun l => l ++ [log_entry])).

(** [before_snapshot] and [after_snapshot] *)
Definition snapshot (invoice : Invoice) : pydict :=
  [ ("status", PStr (InvoiceStatus.value (inv_status invoice)));
    ("amount_paid", PInt (inv_amount_paid invoice));
    ("amount_due", PInt (inv_amount_due invoice));
    ("amount_refunded", PInt (inv_amount_refunded invoice));
    ("credited_amount", PInt (inv_credited_amount invoice)) ].

(** [amount is None or amount == 0] *)
Definition no_amount (amount : option Z) : bool :=
  match amount with Some a => a =? 0 | None => true end.

Definition no_metadata (metadata : option dict) : bool :=
  match metadata with Some (_ :: _) => false | _ => true end.

(** The guard of a locked billing period. *)
Definition period_guard (invoice : Invoice) (to : InvoiceStatus.InvoiceStatus) (reason : string)
    (amounts_zero : bool) : PM unit :=
  match str_or_none (inv_billing_period_id invoice) with
  | None => mret tt
  | Some period_id =>
      period ← q_one_or_none (fun d => billing_periods (billing d)) (fun p => (bp_id p =? period_id)%py);
      match period with
      | Some p =>
          when ((bp_status p =? BillingPeriodStatus.LOCKED)%py && (reason <>? "financial_update")%py &&
                ((to <>? inv_status invoice)%py || negb amounts_zero))
            (raise (InvalidTransitionError "billing period is locked"))
      | None => mret tt
      end
  end.

Definition decision_context (invoice : Invoice) (request_ctx : option RequestContext) : DecisionContext :=
  MkDecisionContext (default 0 (request_ctx ≫= ctx_tenant_id)) (inv_client_id invoice)
    (match request_ctx with
     | Some c => if (ctx_actor_type c =? ActorType.USER)%py then "ADMIN" else "SYSTEM"
     | None => "SYSTEM"
     end)
    "INVOICE_ISSUE" (invoice_total invoice) (Some (inv_currency invoice)) None (Some (inv_id invoice))
    (str_or_none (inv_billing_period_id invoice))
    [ ("invoice_status", PStr (InvoiceStatus.value (inv_status invoice)));
      ("actor_roles", match request_ctx with Some c => opt_roles (ctx_actor_roles c) | None => PList [] end);
      ("subject_id", PStr (inv_id invoice)) ].

Section Machine.
Context (W : world Db) `{DecisionService}.

(** Issuing asks the decision engine. *)
Definition decide_issue (invoice : Invoice) (request_ctx : option RequestContext) : PM unit :=
  decision ← evaluate (decision_context invoice request_ctx);
  if decide (dr_outcome decision = DecisionOutcome.ALLOW) then mret tt
  else raise (InvalidTransitionError ("DECISION_" +:+ DecisionOutcome.value (dr_outcome decision))).

Definition transition (invoice : Invoice) (to : InvoiceStatus.InvoiceStatus) (actor reason : string)
    (payment_amount credit_note_amount refund_amount : option Z) (metadata : option dict)
    (request_ctx : option RequestContext) : PM Invoice :=
  if (actor =? "")%py then raise (ValueError "actor is required")
  else if (reason =? "")%py then raise (ValueError "reason is required")
  else
    let from_status := inv_status invoice in
    let amounts_zero := no_amount payment_amount && no_amount credit_note_amount &&
                        no_amount refund_amount in
    if (to =? from_status)%py && no_metadata metadata && amounts_zero then mret invoice
    else
      period_guard invoice to reason amounts_zero;;
      let before_snapshot := snapshot invoice in
      now ← now W;
      _validate_allowed invoice to;;
      when (to =? InvoiceStatus.ISSUED)%py (decide_issue invoice request_ctx);;
      invoice ← _apply_amounts invoice payment_amount credit_note_amount refund_amount;
      _validate_constraints invoice to payment_amount credit_note_amount refund_amount;;
      invoice ← assign (fun r => set_inv_status to (_update_timestamps to now r)) invoice;
      _log_transition invoice from_status to actor reason metadata;;
      let audit_ctx := default (MkRequestContext ActorType.SERVICE (Some actor) None None None None
                                  None None None) request_ctx in
      audit_call W
        (MkAuditArgs "INVOICE_STATUS_CHANGED" "invoice" (inv_id invoice) "UPDATE_STATE"
           AuditVisibility.INTERNAL (Some before_snapshot) (Some (snapshot invoice)) None None
           (Some reason) None) (Some audit_ctx);;
      mret invoice.
End Machine.
End InvoiceStateMachine.

(** ** The admin endpoints (routers/admin/billing.py) *)
Module InvoiceApi.
Section Api.
Context (W : world Db) `{DecisionService}.

Definition invoice_or_404 (invoice_id : string) : PM Invoice :=
  invoice ← q_one_or_none (fun d => invoices (billing d)) (fun r => (inv_id r =? invoice_id)%py);
  match invoice with
  | Some i => mret i
  | None => raise (HTTPException 404 "invoice not found")
  end.

(** The two [except] clauses of the endpoints. *)
Definition transition_errors {A} (m : PM A) : PM A :=
  try_except m (fun e => match e with
                         | InvalidTransitionError _ => Some (raise (HTTPFrom 409 e))
                         | InvoiceInvariantError _ => Some (raise (HTTPFrom 400 e))
                         | _ => None
                         end).

Definition admin_update_invoice_status (invoice_id : string) (status : InvoiceStatus.InvoiceStatus)
    (reason : option string) : PM Invoice :=
  invoice ← invoice_or_404 invoice_id;
  invoice ← transition_errors (InvoiceStateMachine.transition W invoice status "admin_api"
    (str_or reason "manual_status_update") None None None None None);
  commit;;
  mret invoice.

Definition admin_transition_invoice (invoice_id : string) (to : InvoiceStatus.InvoiceStatus)
    (reason : string) (payment_amount credit_note_amount : option Z) (metadata : option dict)
    : PM Invoice :=
  invoice ← invoice_or_404 invoice_id;
  invoice ← transition_errors (InvoiceStateMachine.transition W invoice to "admin" reason
    payment_amount credit_note_amount None metadata None);
  commit;;
  mret invoice.
End Api.
End InvoiceApi.

(** ** What a transition guarantees *)
Import InvoiceStateMachine.

(** The money identity of an invoice. *)
Record settled (i : Invoice) : Prop := {
  st_paid : 0 <= inv_amount_paid i;
  st_credits : 0 <= inv_credited_amount i;
  st_refunded : 0 <= inv_amount_refunded i;
  st_due : 0 <= inv_amount_due i;
  st_total : inv_amount_paid i + inv_credited_amount i - inv_amount_refunded i + inv_amount_due i =
             invoice_total i;
}.

(** What the status says of the amounts. *)
Definition status_fits (i : Invoice) : Prop :=
  (inv_status i = InvoiceStatus.PAID -> inv_amount_due i = 0) /\
  (inv_status i = InvoiceStatus.OVERDUE -> 0 < inv_amount_due i) /\
  (inv_status i = InvoiceStatus.CANCELLED ->
   inv_amount_paid i = 0 /\ inv_credited_amount i = 0 /\ inv_amount_refunded i = 0).

(** One move of the lifecycle. *)
Definition moves (a b : InvoiceStatus.InvoiceStatus) : Prop := b = a \/ b ∈ _ALLOWED_TRANSITIONS a.

(** Calls that leave the billing tables and the committed state alone. *)
Definition quiet {A} (m : PM A) : Prop :=
  forall s, billing (live (m s).2) = billing (live s) /\ saved (m s).2 = saved s.

Lemma quiet_bind {A B} (m : PM A) (f : A -> PM B) : quiet m -> (forall a, quiet (f a)) -> quiet (m ≫= f).
Proof.
  intros Hm Hf s. destruct (Hm s) as [H1 H2]. unfold mbind, M_bind.
  destruct (m s) as [[a|e] t]; simpl in *; [|done]. destruct (Hf a t) as [-> ->]. done.
Qed.

Lemma quiet_ret {A} (a : A) : quiet (mret a).
Proof. done. Qed.

Lemma quiet_raise {A} e : quiet (raise (A := A) e).
Proof. done. Qed.

Lemma quiet_when b m : quiet m -> quiet (when b m).
Proof. by destruct b. Qed.

Lemma quiet_one_or_none {A} (table : Db -> list A) P : quiet (q_one_or_none table P).
Proof. intros s. by rewrite one_or_none_run. Qed.

Lemma wp_quiet {A B} (m : PM A) (f : A -> PM B) Q R s :
  quiet m ->
  (forall a t, m s = (Ok a, t) -> billing (live t) = billing (live s) -> saved t = saved s -> wp (f a) Q R t) ->
  (forall e t, billing (live t) = billing (live s) -> saved t = saved s -> R e t) ->
  wp (m ≫= f) Q R s.
Proof.
  intros Hm Hf HR. destruct (Hm s) as [H1 H2]. apply wp_bind. unfold wp at 1.
  destruct (m s) as [[a|e] t]; simpl in *; [by apply Hf|by apply HR].
Qed.

Section MachineFacts.
Context (W : world Db) `{DecisionService}.

Lemma quiet_evaluate ctx : quiet (evaluate ctx).
Proof. intros s. split; [apply evaluate_billing|apply evaluate_saved]. Qed.

Lemma quiet_decide invoice ctx : quiet (decide_issue invoice ctx).
Proof.
  apply quiet_bind; [apply quiet_evaluate|]. intros o. destruct (decide (dr_outcome o = DecisionOutcome.ALLOW));
    [apply quiet_ret|apply quiet_raise].
Qed.

Lemma quiet_guard invoice to reason z : quiet (period_guard invoice to reason z).
Proof.
  unfold period_guard. destruct (str_or_none _); [|apply quiet_ret].
  apply quiet_bind; [apply quiet_one_or_none|]. intros [p|]; [apply quiet_when, quiet_raise|apply quiet_ret].
Qed.

(** The new amounts of an invoice. *)
Definition amounts_applied (i : Invoice) (p c r : option Z) : Invoice :=
  let paid := inv_amount_paid i + default 0 p in
  let credits := inv_credited_amount i + default 0 c in
  let refunded := inv_amount_refunded i + default 0 r in
  with_amounts paid (invoice_total i - paid - credits + refunded) credits refunded i.

(** [amounts_applied i p c r] with the constant columns, on any row. *)
Definition write_amounts (i : Invoice) (p c r : option Z) : Invoice -> Invoice :=
  let n := amounts_applied i p c r in
  with_amounts (inv_amount_paid n) (inv_amount_due n) (inv_credited_amount n) (inv_amount_refunded n).

Definition amounts_accepted (i : Invoice) (p c r : option Z) : Prop :=
  negative p = false /\ negative c = false /\ negative r = false /\ settled (amounts_applied i p c r).

Definition billing_after (f : Invoice -> Invoice) (i : Invoice) (d : Db) : Db :=
  on_invoices (update_where (fun r => (inv_id r =? inv_id i)%py) f) d.

Lemma amounts_total i p c r : invoice_total (amounts_applied i p c r) = invoice_total i.
Proof. done. Qed.

Lemma apply_amounts_run i p c r s :
  (amounts_accepted i p c r /\
   _apply_amounts i p c r s = (Ok (amounts_applied i p c r),
     Session (billing_after (write_amounts i p c r) i (live s)) (saved s) (ticks s) (uuids s) (races s))) \/
  (~ amounts_accepted i p c r /\ exists m, _apply_amounts i p c r s = (Raise (InvoiceInvariantError m), s)).
Proof.
  unfold _apply_amounts, amounts_accepted.
  destruct (negative p) eqn:Hp; [right; split; [intros []; done|by eexists]|].
  destruct (negative c) eqn:Hc; [right; split; [intros (_ & ? & _); done|by eexists]|].
  destruct (negative r) eqn:Hr; [right; split; [intros (_ & _ & ? & _); done|by eexists]|].
  cbv zeta. set (paid := inv_amount_paid i + default 0 p).
  set (credits := inv_credited_amount i + default 0 c).
  set (refunded := inv_amount_refunded i + default 0 r).
  set (due := invoice_total i - paid - credits + refunded).
  destruct ((paid <? 0) || (credits <? 0) || (refunded <? 0) || (due <? 0)) eqn:Hneg.
  { right. split; [|by eexists]. intros (_ & _ & _ & [H1 H2 H3 H4 _]). simpl in *.
    fold paid in H1. fold credits in H2. fold refunded in H3. fold paid credits refunded due in H4.
    apply Z.ltb_ge in H1, H2, H3, H4. rewrite H1, H2, H3, H4 in Hneg. done. }
  replace (paid + credits - refunded + due =? invoice_total i) with true
    by (symmetry; apply Z.eqb_eq; unfold due; lia).
  left. rewrite !orb_false_iff, !Z.ltb_ge in Hneg. destruct Hneg as [[[? ?] ?] ?].
  split; [|done]. repeat (split; [done|]). constructor; simpl; try done. rewrite amounts_total.
  change (paid + credits - refunded + due = invoice_total i). unfold due. lia.
Qed.

(** The conditions of [_validate_constraints] on the new amounts. *)
Definition constraints_hold (i : Invoice) (to : InvoiceStatus.InvoiceStatus) (p c r : option Z) : Prop :=
  match to with
  | InvoiceStatus.CANCELLED =>
      inv_amount_paid i <= 0 /\ inv_credited_amount i <= 0 /\ inv_amount_refunded i <= 0
  | InvoiceStatus.SENT => inv_pdf_status i = InvoicePdfStatus.READY
  | InvoiceStatus.PARTIALLY_PAID =>
      (0 < inv_amount_paid i \/ 0 < default 0 c) /\
      (0 < default 0 p \/ 0 < default 0 r \/ 0 < default 0 c) /\ 0 <= inv_amount_due i
  | InvoiceStatus.PAID =>
      inv_amount_due i = 0 /\
      inv_amount_paid i + inv_credited_amount i - inv_amount_refunded i = invoice_total i
  | InvoiceStatus.OVERDUE => 0 < inv_amount_due i
  | _ => True
  end.

Lemma not_positive_false a : not_positive a = false <-> 0 < default 0 a.
Proof. destruct a; simpl; [apply Z.leb_gt|split; [done|lia]]. Qed.

(** A guard of a sequence. *)
Lemma guard_run {A} b e (k : PM A) s :
  (when b (raise e);; k) s = if b then (Raise e, s) else k s.
Proof. by destruct b. Qed.

Lemma guard_last b (e : exn) (s : session Db) : when b (raise e) s = (if b then Raise e else Ok tt, s).
Proof. by destruct b. Qed.

(** Comparisons of known statuses. *)
Ltac status_eqb :=
  repeat match goal with
  | |- context [@eqb InvoiceStatus.InvoiceStatus ?E ?a ?b] =>
      let v := eval vm_compute in (@eqb InvoiceStatus.InvoiceStatus E a b) in
      change (@eqb InvoiceStatus.InvoiceStatus E a b) with v
  end.

Ltac decide_bool :=
  repeat match goal with
  | |- context [Z.leb ?a ?b] => destruct (Z.leb_spec a b)
  | |- context [Z.ltb ?a ?b] => destruct (Z.ltb_spec a b)
  | |- context [Z.eqb ?a ?b] => destruct (Z.eqb_spec a b)
  | |- context [not_positive ?a] =>
      let E := fresh in
      destruct (not_positive a) eqn:E;
      [assert (default 0 a <= 0) by (destruct a; simpl in *; lia)
      |apply not_positive_false in E]
  end.

Lemma validate_constraints_run i to p c r s :
  (constraints_hold i to p c r /\ _validate_constraints i to p c r s = (Ok tt, s)) \/
  (~ constraints_hold i to p c r /\
   exists m, _validate_constraints i to p c r s = (Raise (InvalidTransitionError m), s)).
Proof.
  unfold _validate_constraints, constraints_hold. cbv zeta. rewrite !guard_run.
  destruct to; status_eqb; cbn [andb when]; unfold mbind, M_bind, when, raise, mret, M_ret; cbn [andb];
    try (left; by split);
    [unfold eqb; destruct (bool_decide_reflect (inv_pdf_status i = InvoicePdfStatus.READY));
       [by left|right; by eauto]|..].
  all: decide_bool; cbn [andb orb negb];
    first [left; split; [lia|done] | right; split; [lia|by eexists]].
Qed.

(** ** The invoice object and its row *)

(** The machine is given an object the session has loaded. *)
Definition stored (i : Invoice) (d : Db) : Prop :=
  In i (invoices (billing d)) /\ List.NoDup (map inv_id (invoices (billing d))).

(** The row of [n] replaced by [n]. *)
Definition in_place (n : Invoice) : Db -> Db :=
  on_invoices (update_where (fun r => (inv_id r =? inv_id n)%py) (fun _ => n)).

Lemma billing_after_stored f i d :
  stored i d -> inv_id (f i) = inv_id i -> billing_after f i d = in_place (f i) d.
Proof.
  intros [Hin Hn] Hf. unfold billing_after, in_place, on_invoices, on_billing, update_where.
  do 2 f_equal. apply map_ext_in. intros r Hr. rewrite Hf. unfold eqb.
  destruct (bool_decide_reflect (inv_id r = inv_id i)) as [He|]; [|done].
  by rewrite (nodup_key inv_id (invoices (billing d)) r i).
Qed.

Lemma in_place_ids n l :
  map inv_id (update_where (fun r => (inv_id r =? inv_id n)%py) (fun _ => n) l) = map inv_id l.
Proof.
  unfold update_where. rewrite map_map. apply map_ext. intros r. unfold eqb.
  by destruct (bool_decide_reflect (inv_id r = inv_id n)).
Qed.

Lemma in_place_in n l x :
  In x (update_where (fun r => (inv_id r =? inv_id n)%py) (fun _ => n) l) ->
  x = n \/ In x l /\ inv_id x <> inv_id n.
Proof.
  unfold update_where, eqb. intros (r & <- & Hr)%in_map_iff.
  destruct (bool_decide_reflect (inv_id r = inv_id n)); auto.
Qed.

Lemma in_place_out n l x :
  In x l -> In (if (inv_id x =? inv_id n)%py then n else x)
    (update_where (fun r => (inv_id r =? inv_id n)%py) (fun _ => n) l).
Proof.
  intros Hx. unfold update_where.
  exact (in_map (fun r => if (inv_id r =? inv_id n)%py then n else r) _ _ Hx).
Qed.

Lemma stored_in_place i n d : stored i d -> inv_id n = inv_id i -> stored n (in_place n d).
Proof.
  intros [Hin Hnd] Hid. split; simpl; [|by rewrite in_place_ids].
  pose proof (in_place_out n _ i Hin) as H'. unfold eqb in H'. by rewrite bool_decide_true in H'.
Qed.

Lemma in_place_twice n m d : inv_id n = inv_id m -> in_place n (in_place m d) = in_place n d.
Proof.
  intros Hid. unfold in_place, on_invoices, on_billing, update_where. simpl. f_equal. f_equal.
  rewrite map_map. apply map_ext. intros r. rewrite Hid. unfold eqb.
  destruct (bool_decide_reflect (inv_id r = inv_id m)) as [He|He];
    [rewrite bool_decide_true by done|rewrite bool_decide_false by done]; done.
Qed.

Lemma assign_run f i s :
  stored i (live s) -> inv_id (f i) = inv_id i ->
  assign f i s = (Ok (f i), Session (in_place (f i) (live s)) (saved s) (ticks s) (uuids s) (races s)).
Proof. intros Hs Hf. unfold assign. run_steps. by rewrite <- (billing_after_stored f i). Qed.

(** ** One transition *)

Definition transitioned (i : Invoice) (to : InvoiceStatus.InvoiceStatus) (n : Z) (p c r : option Z) : Invoice :=
  set_inv_status to (_update_timestamps to n (amounts_applied i p c r)).

Definition log_entry (i : Invoice) (to : InvoiceStatus.InvoiceStatus) (actor reason : string)
    (metadata : option dict) : InvoiceTransitionLog :=
  MkInvoiceTransitionLog (inv_id i) (inv_status i) to actor reason
    (match metadata with Some (kv :: d) => Some (JDict (kv :: d)) | _ => None end).

(** The billing tables after the transition of [i] to [n]. *)
Definition moved_to (n : Invoice) (entry : InvoiceTransitionLog) (d : Db) : Db :=
  on_transition_logs (fun l => l ++ [entry]) (in_place n d).

(** Every check of the machine but the period and the decision. *)
Definition permitted (i : Invoice) (to : InvoiceStatus.InvoiceStatus) (p c r : option Z) : Prop :=
  moves (inv_status i) to /\ amounts_accepted i p c r /\
  constraints_hold (amounts_applied i p c r) to p c r.

Lemma update_timestamps_frame to n i :
  let u := _update_timestamps to n i in
  inv_id u = inv_id i /\ inv_client_id u = inv_client_id i /\ inv_currency u = inv_currency i /\
  inv_billing_period_id u = inv_billing_period_id i /\
  inv_total_amount u = inv_total_amount i /\ inv_total_with_tax u = inv_total_with_tax i /\
  inv_amount_paid u = inv_amount_paid i /\ inv_amount_due u = inv_amount_due i /\
  inv_amount_refunded u = inv_amount_refunded i /\ inv_credited_amount u = inv_credited_amount i /\
  inv_pdf_status u = inv_pdf_status i.
Proof.
  cbv zeta. unfold _update_timestamps, stamp_if. cbv zeta.
  destruct to; status_eqb; cbv iota;
    repeat match goal with |- context [match ?o with Some _ => _ | None => _ end] => destruct o end;
    repeat split.
Qed.

Lemma transitioned_id i to n p c r : inv_id (transitioned i to n p c r) = inv_id i.
Proof. exact (proj1 (update_timestamps_frame to n (amounts_applied i p c r))). Qed.

Lemma validate_allowed_run i to s :
  (moves (inv_status i) to /\ _validate_allowed i to s = (Ok tt, s)) \/
  (~ moves (inv_status i) to /\ exists m, _validate_allowed i to s = (Raise (InvalidTransitionError m), s)).
Proof.
  unfold _validate_allowed, moves, eqb.
  destruct (bool_decide_reflect (to = inv_status i)); [by left; auto|].
  destruct (bool_decide_reflect (to ∈ _ALLOWED_TRANSITIONS (inv_status i))); [left; auto|].
  right. split; [tauto|by eexists].
Qed.

(** Why a transition is refused, and what it leaves behind. *)
Inductive refused (i : Invoice) (to : InvoiceStatus.InvoiceStatus) (actor reason : string)
    (p c r : option Z) (s : session Db) : exn -> session Db -> Prop :=
| refused_request m : actor = "" \/ reason = "" -> refused i to actor reason p c r s (ValueError m) s
| refused_period e :
    period_guard i to reason (no_amount p && no_amount c && no_amount r) s = (Raise e, s) ->
    refused i to actor reason p c r s e s
| refused_status m t :
    ~ moves (inv_status i) to -> live t = live s -> saved t = saved s ->
    refused i to actor reason p c r s (InvalidTransitionError m) t
| refused_decision e t :
    to = InvoiceStatus.ISSUED -> billing (live t) = billing (live s) -> saved t = saved s ->
    refused i to actor reason p c r s e t
| refused_amounts m t :
    moves (inv_status i) to -> ~ amounts_accepted i p c r ->
    billing (live t) = billing (live s) -> saved t = saved s ->
    refused i to actor reason p c r s (InvoiceInvariantError m) t
| refused_constraints m t :
    moves (inv_status i) to -> amounts_accepted i p c r ->
    ~ constraints_hold (amounts_applied i p c r) to p c r ->
    billing (live t) = billing (in_place (amounts_applied i p c r) (live s)) -> saved t = saved s ->
    refused i to actor reason p c r s (InvalidTransitionError m) t
| refused_audit t :
    permitted i to p c r -> (to <> InvoiceStatus.ISSUED -> audit_clashes W s) -> saved t = saved s ->
    refused i to actor reason p c r s (IntegrityError "audit_log.hash") t.

(** What an applied transition leaves behind. *)
Definition applied (i : Invoice) (to : InvoiceStatus.InvoiceStatus) (actor reason : string)
    (p c r : option Z) (md : option dict) (s : session Db) (i' : Invoice) (t : session Db) : Prop :=
  saved t = saved s /\
  ((to = inv_status i /\ i' = i /\ t = s /\ no_metadata md = true) \/
   (exists n, permitted i to p c r /\ i' = transitioned i to n p c r /\
    billing (live t) = billing (moved_to i' (log_entry i to actor reason md) (live s)))).

(** The changes of the billing tables depend on the billing tables alone. *)
Lemma moved_to_billing n entry d e :
  billing d = billing e -> billing (moved_to n entry d) = billing (moved_to n entry e).
Proof. unfold moved_to, in_place. simpl. by intros ->. Qed.

Lemma in_place_billing n d e : billing d = billing e -> billing (in_place n d) = billing (in_place n e).
Proof. unfold in_place. simpl. by intros ->. Qed.

(** The second half of a transition: the amounts, the checks, the status, the records. *)
Definition finish (i : Invoice) (to : InvoiceStatus.InvoiceStatus) (n : Z) (actor reason : string)
    (p c r : option Z) (md : option dict) (ctx : option RequestContext) : PM Invoice :=
  invoice ← _apply_amounts i p c r;
  _validate_constraints invoice to p c r;;
  invoice ← assign (fun row => set_inv_status to (_update_timestamps to n row)) invoice;
  _log_transition invoice (inv_status i) to actor reason md;;
  audit_call W
    (MkAuditArgs "INVOICE_STATUS_CHANGED" "invoice" (inv_id invoice) "UPDATE_STATE"
       AuditVisibility.INTERNAL (Some (snapshot i)) (Some (snapshot invoice)) None None
       (Some reason) None)
    (Some (default (MkRequestContext ActorType.SERVICE (Some actor) None None None None
                      None None None) ctx));;
  mret invoice.

Lemma finish_wp i to n actor reason p c r md ctx s0 s :
  stored i (live s) -> billing (live s) = billing (live s0) -> saved s = saved s0 ->
  (to <> InvoiceStatus.ISSUED -> live s = live s0 /\ uuids s = uuids s0) ->
  moves (inv_status i) to ->
  wp (finish i to n actor reason p c r md ctx) (applied i to actor reason p c r md s0)
     (refused i to actor reason p c r s0) s.
Proof.
  intros Hst Hb Hsv Hfr Hm. unfold finish.
  destruct (apply_amounts_run i p c r s) as [[Ha Hrun]|[Ha [m Hrun]]].
  2:{ apply wp_bind. unfold wp at 1. rewrite Hrun. by apply refused_amounts. }
  eapply wp_step; [exact Hrun|]. rewrite billing_after_stored by done.
  change (write_amounts i p c r i) with (amounts_applied i p c r). cbv beta.
  set (a := amounts_applied i p c r).
  set (s1 := Session (in_place a (live s)) (saved s) (ticks s) (uuids s) (races s)).
  destruct (validate_constraints_run a to p c r s1) as [[Hc Hrun1]|[Hc [m Hrun1]]].
  2:{ apply wp_bind. unfold wp at 1. rewrite Hrun1. apply refused_constraints; try done.
      by apply in_place_billing. }
  eapply wp_step; [exact Hrun1|]. cbv beta.
  assert (stored a (live s1)) as Hst1 by (by apply (stored_in_place i)).
  eapply wp_step; [apply assign_run; [exact Hst1|apply (transitioned_id i to n p c r)]|]. cbv beta.
  change (set_inv_status to (_update_timestamps to n a)) with (transitioned i to n p c r).
  eapply wp_step; [reflexivity|]. apply wp_bind. apply audit_call_cases.
  - intros. apply wp_ret. split; [done|]. right. exists n. repeat split; try done; [apply Ha..|].
    transitivity (billing (moved_to (transitioned i to n p c r)
      (log_entry i to actor reason md) (in_place a (live s)))).
    + unfold log_entry. rewrite <- (transitioned_id i to n p c r). reflexivity.
    + unfold moved_to. rewrite (in_place_twice _ a) by exact (transitioned_id i to n p c r).
      by apply moved_to_billing.
  - intros (r0 & Hin & Heq). apply refused_audit; [done| |done]. intros Hto.
    destruct (Hfr Hto) as [Hl Hu]. exists r0. do 5 eexists. split; [|split; [|exact Heq]].
    + rewrite <- Hl. exact Hin.
    + simpl. lia.
Qed.

(** The rest of a transition, from its checks on. *)
Definition proceed (i : Invoice) (to : InvoiceStatus.InvoiceStatus) (n : Z) (actor reason : string)
    (p c r : option Z) (md : option dict) (ctx : option RequestContext) : PM Invoice :=
  _validate_allowed i to;;
  when (to =? InvoiceStatus.ISSUED)%py (decide_issue i ctx);;
  finish i to n actor reason p c r md ctx.

Lemma proceed_wp i to n actor reason p c r md ctx s0 s :
  stored i (live s) -> live s = live s0 -> saved s = saved s0 -> uuids s = uuids s0 ->
  wp (proceed i to n actor reason p c r md ctx) (applied i to actor reason p c r md s0)
     (refused i to actor reason p c r s0) s.
Proof.
  intros Hst Hl Hsv Hu. unfold proceed.
  destruct (validate_allowed_run i to s) as [[Hm Hrun]|[Hm [m Hrun]]].
  2:{ apply wp_bind. unfold wp at 1. rewrite Hrun. by apply refused_status. }
  eapply wp_step; [exact Hrun|]. cbv beta. unfold eqb.
  destruct (bool_decide_reflect (to = InvoiceStatus.ISSUED)) as [Hto|Hto]; cbn [when].
  - apply wp_quiet; [apply quiet_decide| |].
    + intros [] t _ Hbt Hst'. apply finish_wp; try done; try congruence.
      unfold stored in *. by rewrite Hbt.
    + intros e t Hbt Hst'. apply refused_decision; congruence.
  - eapply wp_step; [reflexivity|]. apply finish_wp; try done; by rewrite Hl.
Qed.

(** The guard reads, and either passes or raises. *)
Lemma period_guard_run i to reason z s : exists o, period_guard i to reason z s = (o, s).
Proof.
  unfold period_guard. destruct (str_or_none _); [|by eexists].
  unfold mbind, M_bind. rewrite one_or_none_run.
  destruct (List.filter _ _) as [|x [|y l]]; cbv iota; [by eexists| |by eexists].
  rewrite guard_last. by eexists.
Qed.

(** Every outcome of a transition. *)
Lemma transition_wp i to actor reason p c r md ctx s :
  stored i (live s) ->
  wp (transition W i to actor reason p c r md ctx) (applied i to actor reason p c r md s)
     (refused i to actor reason p c r s) s.
Proof.
  intros Hst. unfold transition, eqb. cbv zeta.
  destruct (bool_decide_reflect (actor = "")); [apply wp_raise, refused_request; auto|].
  destruct (bool_decide_reflect (reason = "")); [apply wp_raise, refused_request; auto|].
  destruct (bool_decide (to = inv_status i) && _ && _) eqn:Hno.
  { apply wp_ret. split; [done|left]. rewrite !andb_true_iff, bool_decide_eq_true in Hno. naive_solver. }
  set (z := no_amount p && no_amount c && no_amount r) in *.
  destruct (period_guard_run i to reason z s) as [o Hg]. destruct o as [[]|e].
  - eapply wp_step; [exact Hg|]. eapply wp_step; [reflexivity|]. cbv beta.
    apply (proceed_wp i to _ actor reason p c r md ctx s); done.
  - apply wp_bind. unfold wp at 1. rewrite Hg. by apply refused_period.
Qed.

(** ** The facts of a permitted transition *)

Lemma transitioned_settled i to n p c r :
  amounts_accepted i p c r -> settled (transitioned i to n p c r).
Proof.
  intros (_ & _ & _ & [H1 H2 H3 H4 H5]). unfold transitioned.
  destruct (update_timestamps_frame to n (amounts_applied i p c r))
    as (_ & _ & _ & _ & Hta & Htt & Hp & Hd & Hr & Hc & _).
  constructor; unfold invoice_total in *; cbn [set_inv_status inv_amount_paid inv_amount_due
    inv_amount_refunded inv_credited_amount inv_total_amount inv_total_with_tax];
    rewrite ?Hta, ?Htt, ?Hp, ?Hd, ?Hr, ?Hc; assumption.
Qed.

Lemma transitioned_fits i to n p c r :
  permitted i to p c r -> status_fits (transitioned i to n p c r).
Proof.
  intros (_ & (_ & _ & _ & [H1 H2 H3 H4 H5]) & Hc). unfold status_fits, transitioned.
  destruct (update_timestamps_frame to n (amounts_applied i p c r))
    as (_ & _ & _ & _ & _ & _ & Hp & Hd & Hr & Hcr & _).
  cbn [set_inv_status inv_amount_paid inv_amount_due inv_amount_refunded inv_credited_amount inv_status].
  rewrite Hp, Hd, Hr, Hcr. split; [|split]; intros ->; simpl in Hc, H1, H2, H3; simpl; lia.
Qed.

(** What a transition keeps of an invoice, and what only grows. *)
Definition continues (i i' : Invoice) : Prop :=
  inv_id i' = inv_id i /\ inv_client_id i' = inv_client_id i /\ inv_currency i' = inv_currency i /\
  invoice_total i' = invoice_total i /\ inv_amount_paid i <= inv_amount_paid i' /\
  inv_credited_amount i <= inv_credited_amount i' /\ inv_amount_refunded i <= inv_amount_refunded i' /\
  rtc moves (inv_status i) (inv_status i').

Lemma transitioned_continues i to n p c r :
  permitted i to p c r -> continues i (transitioned i to n p c r).
Proof.
  intros (Hm & (Hp & Hc & Hr & _) & _). unfold continues, transitioned, invoice_total.
  destruct (update_timestamps_frame to n (amounts_applied i p c r))
    as (E1 & E2 & E3 & _ & E5 & E6 & E7 & _ & E9 & E10 & _).
  cbn [set_inv_status inv_amount_paid inv_amount_due inv_amount_refunded inv_credited_amount inv_status
    inv_id inv_client_id inv_currency inv_total_amount inv_total_with_tax].
  rewrite E1, E2, E3, E5, E6, E7, E9, E10. repeat split; simpl.
  1-3: destruct p, c, r; simpl in *; lia.
  by apply rtc_once.
Qed.

#[global] Instance continues_preorder : PreOrder continues.
Proof.
  split.
  - intros i. repeat split; lia || reflexivity.
  - intros i j k (?&?&?&?&?&?&?&?) (?&?&?&?&?&?&?&?).
    repeat split; try congruence; try lia. etrans; eassumption.
Qed.

(** ** Requests to the admin endpoints *)

Inductive invoice_request : Type :=
| UpdateStatus (invoice_id : string) (status : InvoiceStatus.InvoiceStatus) (reason : option string)
| Transition (invoice_id : string) (to : InvoiceStatus.InvoiceStatus) (reason : string)
    (payment_amount credit_note_amount : option Z) (metadata : option dict).

Definition endpoint (r : invoice_request) : PM Invoice :=
  match r with
  | UpdateStatus id status reason => InvoiceApi.admin_update_invoice_status W id status reason
  | Transition id to reason p c md => InvoiceApi.admin_transition_invoice W id to reason p c md
  end.

(** A request: what an exception leaves uncommitted is dropped with its session. *)
Definition serve_invoice (r : invoice_request) : PM unit :=
  try_except (endpoint r;; mret tt) (fun _ => Some rollback).

Definition serve_invoices (rs : list invoice_request) (s : session Db) : session Db :=
  (for_each rs serve_invoice s).2.

(** The invoices are identified, and each of them is settled as its status says. *)
Definition invoice_books (d : Db) : Prop :=
  List.NoDup (map inv_id (invoices (billing d))) /\
  Forall (fun i => settled i /\ status_fits i) (invoices (billing d)).

(** Every invoice of [d] is found again in [d'], further on in its lifecycle. *)
Definition evolves (d d' : Db) : Prop :=
  forall i, In i (invoices (billing d)) -> exists i', In i' (invoices (billing d')) /\ continues i i'.

#[global] Instance evolves_preorder : PreOrder evolves.
Proof.
  split.
  - intros d i Hi. by exists i.
  - intros d e f Hde Hef i Hi. destruct (Hde i Hi) as (j & Hj & Hij).
    destruct (Hef j Hj) as (k & Hk & Hjk). exists k. split; [done|]. by etrans.
Qed.

Lemma applied_books i to actor reason p c r md s i' t :
  stored i (live s) -> invoice_books (live s) -> applied i to actor reason p c r md s i' t ->
  invoice_books (live t) /\ evolves (live s) (live t).
Proof.
  intros Hst [Hn Hf] [_ [(_ & _ & -> & _)|(n & Hp & -> & Hb)]]; [done|].
  set (i' := transitioned i to n p c r) in *.
  pose proof (transitioned_id i to n p c r : inv_id i' = inv_id i) as Hid.
  split; [split|]; unfold evolves; rewrite Hb; unfold moved_to, in_place, on_transition_logs, on_invoices,
    on_billing; cbn [billing invoices].
  - by rewrite in_place_ids.
  - apply List.Forall_forall. intros x [->|[Hx _]]%in_place_in.
    + split; [apply transitioned_settled, Hp|by apply transitioned_fits].
    + by apply (proj1 (List.Forall_forall _ _) Hf).
  - intros j Hj. eexists. split; [exact (in_place_out i' _ j Hj)|]. unfold eqb.
    destruct (bool_decide_reflect (inv_id j = inv_id i')) as [He|]; [|done].
    rewrite (nodup_key inv_id _ j i Hn Hj (proj1 Hst)) by congruence.
    by apply transitioned_continues.
Qed.

(** The body both endpoints share. *)
Lemma endpoint_wp id to actor reason p c md s :
  invoice_books (live s) ->
  wp (invoice ← InvoiceApi.invoice_or_404 id;
      invoice ← InvoiceApi.transition_errors
        (transition W invoice to actor reason p c None md None);
      commit;; mret invoice)
    (fun _ t => saved t = live t /\ invoice_books (live t) /\ evolves (live s) (live t))
    (fun _ t => saved t = saved s) s.
Proof.
  intros Hb. unfold InvoiceApi.invoice_or_404. apply wp_bind, wp_bind. unfold wp at 1.
  rewrite one_or_none_run. destruct (List.filter _ _) as [|i [|j l]] eqn:Hf; try done.
  apply wp_ret, wp_bind, wp_try.
  assert (stored i (live s)) as Hst.
  { split; [|apply Hb]. assert (In i [i]) as Hin by (by left). rewrite <- Hf in Hin.
    by apply filter_In in Hin as [Hin _]. }
  eapply wp_mono; [by apply transition_wp| |].
  - intros i' t Ha. destruct (applied_books _ _ _ _ _ _ _ _ _ _ _ Hst Hb Ha). done.
  - intros e t Ht. assert (saved t = saved s) as Hs by (by destruct Ht).
    by destruct e; try apply wp_raise.
Qed.

Lemma serve_invoice_books r s :
  saved s = live s -> invoice_books (live s) ->
  exists t, serve_invoice r s = (Ok tt, t) /\ saved t = live t /\ invoice_books (live t) /\
    evolves (live s) (live t).
Proof.
  intros Hs Hb.
  assert (wp (endpoint r) (fun _ t => saved t = live t /\ invoice_books (live t) /\ evolves (live s) (live t))
    (fun _ t => saved t = saved s) s) as Hwp by (destruct r; by apply endpoint_wp).
  unfold wp in Hwp. unfold serve_invoice, try_except, mbind, M_bind at 1.
  destruct (endpoint r s) as [[i|e] t]; [by exists t|]. eexists. split; [reflexivity|].
  simpl. rewrite Hwp, Hs. done.
Qed.

Lemma serve_invoices_books rs : forall s,
  saved s = live s -> invoice_books (live s) ->
  let t := serve_invoices rs s in
  saved t = live t /\ invoice_books (live t) /\ evolves (live s) (live t).
Proof.
  induction rs as [|r rs IH]; intros s Hs Hb; cbv zeta; [done|]. unfold serve_invoices in *.
  cbn [for_each]. destruct (serve_invoice_books r s Hs Hb) as (t & Hr & Ht & Htb & He).
  rewrite (bind_ok _ _ s tt t) by exact Hr. destruct (IH t Ht Htb) as (Hu & Hub & Heu).
  destruct (for_each rs serve_invoice t) as [[l|e] u] eqn:Hrun; cbn [snd] in *.
  - rewrite (bind_ok _ _ t l u) by exact Hrun. cbn [snd mret M_ret]. split; [done|]. split; [done|]. by etrans.
  - rewrite (bind_raised _ _ t e u) by exact Hrun. cbn [snd]. split; [done|]. split; [done|]. by etrans.
Qed.

(** ** The billing period of an invoice *)

(** No period of the invoice is locked. *)
Definition period_open (i : Invoice) (d : Db) : Prop :=
  List.NoDup (map bp_id (billing_periods (billing d))) /\
  forall p, In p (billing_periods (billing d)) ->
    str_or_none (inv_billing_period_id i) = Some (bp_id p) -> bp_status p <> BillingPeriodStatus.LOCKED.

Lemma guard_open i to reason z s : period_open i (live s) -> period_guard i to reason z s = (Ok tt, s).
Proof.
  intros [Hn Ho]. unfold period_guard. destruct (str_or_none _) as [k|] eqn:Hk; [|done].
  unfold mbind, M_bind. rewrite one_or_none_run.
  destruct (filter_key_cases bp_id k _ Hn) as [->|(p & -> & Hp & Hpk)]; [done|]. cbv iota.
  rewrite guard_last. unfold eqb at 1. rewrite bool_decide_false; [done|].
  apply Ho; [done|congruence].
Qed.

(** The outcomes that remain when the actor, the reason and the period are in order, and
    the decision engine is not asked. *)
Lemma transition_verdict i to actor reason p c r md ctx s :
  stored i (live s) -> period_open i (live s) -> actor <> "" -> reason <> "" ->
  to <> InvoiceStatus.ISSUED -> to <> inv_status i -> audit_inv W (live s) ->
  (forall k, (uuids s <= k)%nat -> ~ In (new_uuid W k) (map au_id (audit_log (audit (live s))))) ->
  wp (transition W i to actor reason p c r md ctx)
    (fun i' t => permitted i to p c r /\ saved t = saved s /\ exists n, i' = transitioned i to n p c r)
    (fun e t => saved t = saved s /\
       match e with
       | InvalidTransitionError _ =>
           ~ moves (inv_status i) to \/
           (moves (inv_status i) to /\ amounts_accepted i p c r /\
            ~ constraints_hold (amounts_applied i p c r) to p c r)
       | InvoiceInvariantError _ => moves (inv_status i) to /\ ~ amounts_accepted i p c r
       | IntegrityError _ => permitted i to p c r /\
           exists x y, x <> y /\ sha256_hex W x = sha256_hex W y
       | _ => False
       end) s.
Proof.
  intros Hst Ho Ha Hr Hi Hne Hinv Hu. eapply wp_mono; [by apply transition_wp| |].
  - intros i' t [Hs [(? & _)|(n & Hp & -> & _)]]; [done|]. eauto.
  - intros e t He. destruct He as [m Hbad|e Hg|m t' Hm _ Hs|e t' Hto|m t' Hm Hna _ Hs
      |m t' Hm Hac Hnc _ Hs|t' Hp Hcl Hs].
    + by destruct Hbad.
    + rewrite guard_open in Hg by done. discriminate Hg.
    + auto.
    + done.
    + auto.
    + auto.
    + split; [done|]. split; [done|]. apply (audit_clashes_collide W s); auto.
Qed.

(** An invoice with something to pay can be paid in full. *)
Lemma payment_permitted i :
  settled i ->
  inv_status i ∈ [InvoiceStatus.SENT; InvoiceStatus.PARTIALLY_PAID; InvoiceStatus.OVERDUE] ->
  permitted i InvoiceStatus.PAID (Some (inv_amount_due i)) None None.
Proof.
  intros [H1 H2 H3 H4 H5] Hs. split; [right|].
  - repeat (apply elem_of_cons in Hs as [->|Hs]; [simpl; set_solver|]). set_solver.
  - split; [split; [simpl; by apply Z.ltb_ge|]|].
    + split; [done|]. split; [done|]. constructor; simpl; try lia. rewrite amounts_total. lia.
    + simpl. rewrite amounts_total. lia.
Qed.

(** ** Theorems *)

(** A transition that succeeds either had nothing to do, or moved the invoice along the
    table: the new row is settled (paid + credits - refunded + due = total, none negative),
    its amounts fit its status, client, currency and total are kept and no amount paid,
    credited or refunded decreases, one log entry is added and nothing is committed. *)
Theorem transition_sound i to actor reason p c r md ctx s i' t :
  stored i (live s) ->
  transition W i to actor reason p c r md ctx s = (Ok i', t) ->
  saved t = saved s /\
  ((to = inv_status i /\ i' = i /\ t = s) \/
   (moves (inv_status i) to /\ inv_status i' = to /\ settled i' /\ status_fits i' /\
    continues i i' /\ In i' (invoices (billing (live t))) /\
    transition_logs (billing (live t)) =
      transition_logs (billing (live s)) ++ [log_entry i to actor reason md])).
Proof.
  intros Hst Hrun. pose proof (wp_use _ _ _ _ _ _ (transition_wp i to actor reason p c r md ctx s Hst) Hrun)
    as [Hs [(Hto & Hi' & Ht & _)|(n & Hp & -> & Hb)]]; split; [done|by left|done|right].
  pose proof (stored_in_place i _ _ Hst (transitioned_id i to n p c r)) as [Hin _].
  split; [apply Hp|]. split; [done|]. split; [apply transitioned_settled, Hp|].
  split; [by apply transitioned_fits|]. split; [by apply transitioned_continues|].
  rewrite Hb. split; [exact Hin|reflexivity].
Qed.

(** C24 Outside issuing and locked periods a change of status succeeds exactly when the table
    allows it, the amounts keep the invoice settled and the conditions of the new status
    hold; otherwise the error says which of the three failed, and nothing is committed.
    The one other outcome is a digest collision in the audit log. *)
Theorem transition_decides i to actor reason p c r md ctx s :
  stored i (live s) -> period_open i (live s) -> actor <> "" -> reason <> "" ->
  to <> InvoiceStatus.ISSUED -> to <> inv_status i -> audit_inv W (live s) ->
  (forall k, (uuids s <= k)%nat -> ~ In (new_uuid W k) (map au_id (audit_log (audit (live s))))) ->
  let o := transition W i to actor reason p c r md ctx s in
  saved o.2 = saved s /\
  match o.1 with
  | Ok i' => permitted i to p c r /\ exists n, i' = transitioned i to n p c r
  | Raise (InvalidTransitionError _) =>
      ~ moves (inv_status i) to \/
      (moves (inv_status i) to /\ amounts_accepted i p c r /\
       ~ constraints_hold (amounts_applied i p c r) to p c r)
  | Raise (InvoiceInvariantError _) => moves (inv_status i) to /\ ~ amounts_accepted i p c r
  | Raise (IntegrityError _) => permitted i to p c r /\
      exists x y, x <> y /\ sha256_hex W x = sha256_hex W y
  | Raise _ => False
  end.
Proof.
  intros. pose proof (transition_verdict i to actor reason p c r md ctx s) as Hwp. unfold wp in Hwp. subst o.
  destruct (transition W i to actor reason p c r md ctx s) as [[i'|e] t]; simpl.
  - destruct Hwp as (? & ? & ?); auto.
  - apply Hwp; auto.
Qed.

(** C23 Whatever requests the admin endpoints serve, each committed or dropped as a whole,
    every invoice stays settled as its status says, and is found again with its client,
    currency and total, further on in its lifecycle; a cancelled one stays cancelled. *)
Theorem invoice_lifecycle (rs : list invoice_request) (s : session Db) :
  saved s = live s -> invoice_books (saved s) ->
  let d := saved (serve_invoices rs s) in
  invoice_books d /\
  forall i, In i (invoices (billing (saved s))) ->
    exists i', In i' (invoices (billing d)) /\ continues i i' /\
      (inv_status i = InvoiceStatus.CANCELLED ->
       inv_status i' = InvoiceStatus.CANCELLED /\ inv_amount_paid i' = 0 /\
       inv_credited_amount i' = 0 /\ inv_amount_refunded i' = 0).
Proof.
  intros Hs Hb. cbv zeta. rewrite Hs in Hb. destruct (serve_invoices_books rs s Hs Hb) as (-> & Hb' & He).
  split; [exact Hb'|]. rewrite Hs. intros i Hi. destruct (He i Hi) as (i' & Hi' & Hc).
  exists i'. split; [exact Hi'|]. split; [exact Hc|]. intros Hcan.
  assert (inv_status i' = InvoiceStatus.CANCELLED) as Hcan'.
  { destruct Hc as (_ & _ & _ & _ & _ & _ & _ & Hr). rewrite Hcan in Hr. clear -Hr.
    remember InvoiceStatus.CANCELLED as a eqn:Ha. induction Hr as [|x y z Hxy _ IH]; [done|].
    subst x. destruct Hxy as [->|Hxy]; [by apply IH|]. by apply elem_of_nil in Hxy. }
  split; [done|]. destruct Hb' as [_ Hf]. rewrite List.Forall_forall in Hf. by apply (Hf i' Hi').
Qed.

(** The amounts and the status of an invoice of a locked period are frozen: the request
    is refused before anything is written, unless its reason is financial_update. *)
Theorem locked_period_frozen i to actor reason p c r md ctx s period :
  List.NoDup (map bp_id (billing_periods (billing (live s)))) ->
  In period (billing_periods (billing (live s))) ->
  inv_billing_period_id i = Some (bp_id period) -> bp_id period <> "" ->
  bp_status period = BillingPeriodStatus.LOCKED ->
  actor <> "" -> reason <> "" -> reason <> "financial_update" ->
  to <> inv_status i \/ default 0 p <> 0 \/ default 0 c <> 0 \/ default 0 r <> 0 ->
  transition W i to actor reason p c r md ctx s =
    (Raise (InvalidTransitionError "billing period is locked"), s).
Proof.
  intros Hn Hin Hid Hne Hlock Ha Hr Hf Hch. unfold transition. cbv zeta.
  set (z := no_amount p && no_amount c && no_amount r).
  assert ((to <>? inv_status i)%py || negb z = true) as Hz.
  { unfold z, no_amount, eqb. destruct (bool_decide_reflect (to = inv_status i)); [|done].
    destruct Hch as [|Hch]; [done|]. destruct p as [a|], c as [b|], r as [g|]; simpl in *;
      repeat match goal with |- context [?x =? 0] => destruct (Z.eqb_spec x 0) end; simpl; try done; lia. }
  unfold eqb at 1 2. rewrite !bool_decide_false by done.
  replace ((to =? inv_status i)%py && no_metadata md && z) with false.
  2:{ destruct (to =? inv_status i)%py, z, (no_metadata md); try done. }
  erewrite bind_raised; [reflexivity|]. unfold period_guard. rewrite Hid.
  replace (str_or_none (Some (bp_id period))) with (Some (bp_id period)) by (by destruct (bp_id period)).
  unfold mbind, M_bind. rewrite one_or_none_run.
  destruct (filter_key_cases bp_id (bp_id period) _ Hn) as [E|(q & E & Hq & Hk)].
  - assert (In period []) as []. rewrite <- E. apply filter_In. unfold eqb. by rewrite bool_decide_true.
  - rewrite E. rewrite (nodup_key bp_id _ q period Hn Hq Hin Hk). cbv iota. rewrite guard_last.
    rewrite Hz, andb_true_r. unfold eqb. by rewrite bool_decide_true, bool_decide_false.
Qed.

(** C35 An invoice that is sent, partially paid or overdue, in a period that is not locked,
    can be paid: one payment of what is due makes it PAID with nothing due, unless the
    digest of the audit log collides. *)
Theorem due_invoice_can_be_paid i actor reason s :
  stored i (live s) -> settled i -> period_open i (live s) -> actor <> "" -> reason <> "" ->
  inv_status i ∈ [InvoiceStatus.SENT; InvoiceStatus.PARTIALLY_PAID; InvoiceStatus.OVERDUE] ->
  audit_inv W (live s) ->
  (forall k, (uuids s <= k)%nat -> ~ In (new_uuid W k) (map au_id (audit_log (audit (live s))))) ->
  (exists i' t,
     transition W i InvoiceStatus.PAID actor reason (Some (inv_amount_due i)) None None None None s =
       (Ok i', t) /\
     inv_status i' = InvoiceStatus.PAID /\ inv_amount_due i' = 0 /\ settled i') \/
  (exists x y, x <> y /\ sha256_hex W x = sha256_hex W y).
Proof.
  intros Hst Hse Ho Ha Hr Hin Hinv Hu. pose proof (payment_permitted i Hse Hin) as (Hm & Hac & Hco).
  assert (InvoiceStatus.PAID <> inv_status i) as Hne.
  { intros E. rewrite <- E in Hin. repeat (apply elem_of_cons in Hin as [Hin|Hin]; [done|]).
    by apply elem_of_nil in Hin. }
  assert (InvoiceStatus.PAID <> InvoiceStatus.ISSUED) as Hni by done.
  pose proof (transition_verdict i InvoiceStatus.PAID actor reason (Some (inv_amount_due i)) None None
    None None s Hst Ho Ha Hr Hni Hne Hinv Hu) as Hwp. unfold wp in Hwp.
  destruct (transition _ _ _ _ _ _ _ _ _ _ s) as [[i'|e] t].
  - left. exists i', t. split; [done|]. destruct Hwp as (Hp & _ & n & ->).
    pose proof (transitioned_fits i _ n _ _ _ Hp) as [Hf _].
    split; [done|]. split; [by apply Hf|]. by apply transitioned_settled.
  - right. destruct Hwp as [_ Hwp]. destruct e; naive_solver.
Qed.
End MachineFacts.

(** ** Witnesses *)

Definition demo_invoice (status : InvoiceStatus.InvoiceStatus) : Invoice :=
  MkInvoice "inv" "client" "RUB" (Some "2024-05") 19844 19874 1000 200 1200 200 1000 0 0 status
    InvoicePdfStatus.READY (Some 1) (Some 2) None None None.

Definition demo_period (status : BillingPeriodStatus.BillingPeriodStatus) : BillingPeriod :=
  MkBillingPeriod "2024-05" BillingPeriodType.MONTHLY 0 1 "UTC" status None None.

Definition demo_billing (i : Invoice) (p : BillingPeriod) : session Db :=
  fresh_session (on_billing_periods (fun _ => [p]) (on_invoices (fun _ => [i]) empty_db)).

Definition demo_sent : Invoice := demo_invoice InvoiceStatus.SENT.
Definition demo_open : session Db := demo_billing demo_sent (demo_period BillingPeriodStatus.OPEN).

Lemma demo_stored i p : stored i (live (demo_billing i p)).
Proof. split; [by left|]. repeat constructor. intros []. Qed.

Lemma demo_period_open i : period_open i (live (demo_billing i (demo_period BillingPeriodStatus.OPEN))).
Proof. split; [repeat constructor; intros []|]. intros p [<-|[]] _. done. Qed.

Lemma demo_settled : settled demo_sent.
Proof. by constructor. Qed.

Lemma demo_audit i p : audit_inv demo_world (live (demo_billing i p)).
Proof. apply audit_inv_empty. Qed.

Lemma demo_books : invoice_books (saved demo_open).
Proof.
  split; [repeat constructor; intros []|]. constructor; [|constructor].
  split; [apply demo_settled|]. by repeat split.
Qed.

Lemma transition_sound_witness :
  exists i' t,
    transition demo_world (H := allow_all) demo_sent InvoiceStatus.PAID "a" "r" (Some 1000) None None
      None None demo_open = (Ok i', t) /\
    inv_status i' = InvoiceStatus.PAID /\ settled i'.
Proof.
  destruct (ok_run (transition demo_world (H := allow_all) demo_sent InvoiceStatus.PAID "a" "r"
    (Some 1000) None None None None) demo_open) as [i' Hrun]; [vm_compute; reflexivity|].
  eexists i', _. split; [exact Hrun|].
  destruct (transition_sound demo_world (H := allow_all) demo_sent InvoiceStatus.PAID "a" "r" (Some 1000)
    None None None None demo_open i' _ (demo_stored _ _) Hrun) as [_ [[E _]|(_ & Hs & Hse & _)]];
    [discriminate E|]. split; [exact Hs|exact Hse].
Defined.

Lemma transition_decides_witness :
  let o := transition demo_world (H := allow_all) demo_sent InvoiceStatus.PAID "a" "r" (Some 900) None None
    None None demo_open in
  saved o.2 = saved demo_open /\
  match o.1 with
  | Ok i' => permitted demo_sent InvoiceStatus.PAID (Some 900) None None /\
      exists n, i' = transitioned demo_sent InvoiceStatus.PAID n (Some 900) None None
  | Raise (InvalidTransitionError _) =>
      ~ moves (inv_status demo_sent) InvoiceStatus.PAID \/
      (moves (inv_status demo_sent) InvoiceStatus.PAID /\ amounts_accepted demo_sent (Some 900) None None /\
       ~ constraints_hold (amounts_applied demo_sent (Some 900) None None) InvoiceStatus.PAID
           (Some 900) None None)
  | Raise (InvoiceInvariantError _) => moves (inv_status demo_sent) InvoiceStatus.PAID /\
      ~ amounts_accepted demo_sent (Some 900) None None
  | Raise (IntegrityError _) => permitted demo_sent InvoiceStatus.PAID (Some 900) None None /\
      exists x y, x <> y /\ sha256_hex demo_world x = sha256_hex demo_world y
  | Raise _ => False
  end.
Proof.
  apply (transition_decides demo_world (H := allow_all) demo_sent InvoiceStatus.PAID "a" "r" (Some 900)
    None None None None demo_open (demo_stored _ _) (demo_period_open _)); try discriminate.
  - apply demo_audit.
  - intros k _ [].
Defined.

Lemma invoice_lifecycle_witness :
  let d := saved (serve_invoices demo_world (H := allow_all)
    [Transition "inv" InvoiceStatus.PAID "paid" (Some 1000) None None;
     UpdateStatus "inv" InvoiceStatus.CANCELLED None] demo_open) in
  invoice_books d /\ map inv_status (invoices (billing d)) = [InvoiceStatus.PAID].
Proof.
  destruct (invoice_lifecycle demo_world (H := allow_all)
    [Transition "inv" InvoiceStatus.PAID "paid" (Some 1000) None None;
     UpdateStatus "inv" InvoiceStatus.CANCELLED None] demo_open eq_refl demo_books) as [Hb _].
  split; [exact Hb|vm_compute; reflexivity].
Defined.

Lemma locked_period_frozen_witness :
  let s := demo_billing demo_sent (demo_period BillingPeriodStatus.LOCKED) in
  transition demo_world (H := allow_all) demo_sent InvoiceStatus.CANCELLED "a" "r" None None None None None s =
    (Raise (InvalidTransitionError "billing period is locked"), s).
Proof.
  apply (locked_period_frozen demo_world (H := allow_all) demo_sent InvoiceStatus.CANCELLED "a" "r"
    None None None None None _ (demo_period BillingPeriodStatus.LOCKED)); try discriminate.
  - repeat constructor. intros [].
  - by left.
  - reflexivity.
  - reflexivity.
  - left. discriminate.
Defined.

Lemma due_invoice_can_be_paid_witness :
  (exists i' t,
     transition demo_world (H := allow_all) demo_sent InvoiceStatus.PAID "a" "r"
       (Some (inv_amount_due demo_sent)) None None None None demo_open = (Ok i', t) /\
     inv_status i' = InvoiceStatus.PAID /\ inv_amount_due i' = 0 /\ settled i') \/
  (exists x y, x <> y /\ sha256_hex demo_world x = sha256_hex demo_world y).
Proof.
  apply (due_invoice_can_be_paid demo_world (H := allow_all) demo_sent "a" "r" demo_open
    (demo_stored _ _) demo_settled (demo_period_open _)); try discriminate.
  - by left.
  - apply demo_audit.
  - intros k _ [].
Defined.
