(* ===== verification/Policy.v ===== *)
(** * Access policies (services/policy/)

    Who may do what: the actor a token stands for (actor.py), the decisions of the policy
    engine (engine.py) and the audit record of a denial. *)
From Stdlib Require Import Ascii.
From S2P Require Import Prelude Json Enums Models AuditTrail.

(** ** Tokens *)

(** The [roles] claim: missing or null, a string, or a list of strings. *)
Inductive roles_claim : Type := NoRoles | OneRole (role : string) | ManyRoles (roles : list string).

(** The [tenant_id] claim. *)
Inductive tenant_claim : Type := NoTenant | BoolTenant (b : bool) | IntTenant (z : Z) | TextTenant (s : string).

(** A decoded token with the claims the code reads ([AUDIT_TOKEN_ALLOWLIST]); a request
    without any of them has no token. *)
Record token := MkToken {
  tk_roles : roles_claim;
  tk_role : option string;
  tk_tenant_id : tenant_claim;
  tk_client_id : option string;
  tk_user_id : option string;
  tk_sub : option string;
  tk_email : option string;
}.

(** ** Text of the claims (ASCII) *)

Definition is_space (c : ascii) : bool :=
  let n := nat_of_ascii c in
  ((9 <=? n) && (n <=? 13) || (28 <=? n) && (n <=? 32))%nat.

Fixpoint lstrip (s : string) : string :=
  match s with
  | String c r => if is_space c then lstrip r else s
  | EmptyString => EmptyString
  end.

Fixpoint rstrip (s : string) : string :=
  match s with
  | String c r =>
      match rstrip r with
      | EmptyString => if is_space c then EmptyString else String c EmptyString
      | r' => String c r'
      end
  | EmptyString => EmptyString
  end.

(** [s.strip()] *)
Definition py_strip (s : string) : string := rstrip (lstrip s).

(** [s.replace("-", "_").upper()] *)
Fixpoint upper_snake (s : string) : string :=
  match s with
  | EmptyString => EmptyString
  | String c r =>
      let n := nat_of_ascii c in
      String (if (n =? 45)%nat then ascii_of_nat 95
              else if (97 <=? n)%nat && (n <=? 122)%nat then ascii_of_nat (n - 32) else c)
        (upper_snake r)
  end.

(** The digits of [int(s)]: decimal, with single underscores between digits. *)
Fixpoint py_digits (acc : Z) (after_digit : bool) (s : string) : option Z :=
  match s with
  | EmptyString => if after_digit then Some acc else None
  | String c r =>
      let n := nat_of_ascii c in
      if (48 <=? n)%nat && (n <=? 57)%nat then py_digits (10 * acc + Z.of_nat (n - 48)) true r
      else if (n =? 95)%nat && after_digit then py_digits acc false r
      else None
  end.

(** [int(s)] of a stripped string; [None] for its [ValueError] *)
Definition py_int (s : string) : option Z :=
  match s with
  | String c r =>
      if (c =? "-")%char then option_map Z.opp (py_digits 0 false r)
      else if (c =? "+")%char then py_digits 0 false r
      else py_digits 0 false s
  | EmptyString => None
  end.

Example py_int_ex : map py_int ["42"; "-7"; "1_000"; "1__0"; "4x"; ""] =
  [Some 42; Some (-7); Some 1000; None; None; None].
Proof. reflexivity. Qed.

(** ** Actors (actor.py) *)

Inductive ActorKind : Set := ADMIN | CLIENT | SYSTEM.

#[global] Instance ActorKind_eq_dec : EqDecision ActorKind.
Proof. solve_decision. Defined.

Definition actor_kind_value (k : ActorKind) : string :=
  match k with ADMIN => "ADMIN" | CLIENT => "CLIENT" | SYSTEM => "SYSTEM" end.

Record ActorContext := MkActorContext {
  actor_type : ActorKind;
  actor_tenant_id : Z;
  actor_client_id : option string;
  actor_roles : gset string;
  actor_user_id : option string;
}.

Definition _coerce_actor_tenant_id (value : tenant_claim) : Z :=
  match value with
  | NoTenant | BoolTenant _ => 0
  | IntTenant z => z
  | TextTenant s =>
      match py_strip s with
      | EmptyString => 0
      | text => default 0 (py_int text)
      end
  end.

(** [raw_roles] and [role] *)
Definition raw_roles (t : token) : list string :=
  (match tk_roles t with
   | NoRoles => []
   | OneRole r => if (r =? "")%py then [] else [r]
   | ManyRoles l => l
   end) ++ (match str_or_none (tk_role t) with Some r => [r] | None => [] end).

Definition _normalize_roles (t : option token) : gset string :=
  match t with
  | None => ∅
  | Some t => list_to_set (map (fun r => upper_snake (py_strip r))
                (List.filter (fun r => (py_strip r <>? "")%py) (raw_roles t)))
  end.

Definition _is_admin_role (roles : gset string) : bool :=
  existsb (fun r => (r =? "SUPERADMIN")%py || String.prefix "ADMIN" r) (elements roles).

Definition _is_client_role (roles : gset string) : bool :=
  existsb (fun r => String.prefix "CLIENT" r) (elements roles).

Definition actor_from_token (t : option token) : ActorContext :=
  let roles := _normalize_roles t in
  let client_id := t ≫= tk_client_id in
  MkActorContext
    (if _is_admin_role roles then ADMIN
     else if _is_client_role roles || truthy_str client_id then CLIENT
     else SYSTEM)
    (match t with Some t => _coerce_actor_tenant_id (tk_tenant_id t) | None => 0 end)
    client_id roles
    (match t with
     | Some t => match str_or_none (tk_user_id t) with Some u => Some u | None => tk_sub t end
     | None => None
     end).

(** ** Request contexts of a token (audit_service.py) *)

Definition _coerce_audit_tenant_id (value : tenant_claim) : option Z :=
  match value with
  | NoTenant | BoolTenant _ => None
  | IntTenant z => Some z
  | TextTenant s =>
      match py_strip s with
      | EmptyString => None
      | stripped => py_int stripped
      end
  end.

(** [token.get("user_id") or token.get("sub") or token.get("client_id")] *)
Definition first_subject (t : token) : option string :=
  match str_or_none (tk_user_id t), str_or_none (tk_sub t) with
  | Some u, _ => Some u
  | None, Some s => Some s
  | None, None => tk_client_id t
  end.

(** The roles of the context: the claim's own list, with [role] if it is not in it. *)
Definition context_roles (t : token) : option (list string) :=
  let roles := match tk_roles t with
               | NoRoles => []
               | OneRole r => if (r =? "")%py then [] else [r]
               | ManyRoles l => l
               end in
  let roles := match str_or_none (tk_role t) with
               | Some r => if bool_decide (r ∈ roles) then roles else roles ++ [r]
               | None => roles
               end in
  match roles with [] => None | _ => Some roles end.

(** [request_context_from_request(None, token=_sanitize_token_for_audit(token))] *)
Definition request_context_of_token (t : option token) : RequestContext :=
  match t with
  | None => system_context
  | Some t => MkRequestContext ActorType.USER (first_subject t) (tk_email t) (context_roles t)
                None None None None (_coerce_audit_tenant_id (tk_tenant_id t))
  end.

(** ** Decisions (engine.py) *)

Record ResourceContext := MkResourceContext {
  rsc_resource_type : string;
  rsc_tenant_id : Z;
  rsc_client_id : option string;
  rsc_status : option string;
}.

Record PolicyDecision := MkPolicyDecision {
  pd_allowed : bool;
  pd_policy : string;
  pd_reason : option string;
}.

Module PolicyEngine.
Definition _ADMIN_FINANCE_ROLES : list string := ["ADMIN_FINANCE"; "SUPERADMIN"].
Definition _ADMIN_ACCOUNTING_ROLES : list string := ["ADMIN_ACCOUNTING"; "SUPERADMIN"].
Definition _ADMIN_EXPORT_ROLES : list string := ["ADMIN_FINANCE"; "ADMIN_ACCOUNTING"; "SUPERADMIN"].
Definition _CLIENT_ACK_ROLES : list string := ["CLIENT_OWNER"; "CLIENT_ADMIN"].
Definition _ADMIN_CRM_ROLES : list string := ["ADMIN"; "FINANCE"; "ADMIN_FINANCE"; "SUPERADMIN"].

Definition _has_role (actor : ActorContext) (roles : list string) : bool :=
  existsb (fun r => bool_decide (r ∈ actor_roles actor)) roles.

Definition deny (policy reason : string) : PolicyDecision := MkPolicyDecision false policy (Some reason).
Definition allow (policy : string) : PolicyDecision := MkPolicyDecision true policy None.

Definition _require_admin (actor : ActorContext) (policy : string) : option PolicyDecision :=
  if (actor_type actor <>? ADMIN)%py then Some (deny policy "actor_not_admin") else None.

(** The shape most policies share: an admin, a role, and what follows. *)
Definition admin_with_role (actor : ActorContext) (admin_policy role_policy : string)
    (roles : list string) (k : PolicyDecision) : PolicyDecision :=
  match _require_admin actor admin_policy with
  | Some denial => denial
  | None => if negb (_has_role actor roles) then deny role_policy "missing_role" else k
  end.

Definition status_in (resource : ResourceContext) (l : list (option string)) : bool :=
  bool_decide (rsc_status resource ∈ l).

Definition _billing_period_finalize (actor : ActorContext) (resource : ResourceContext) : PolicyDecision :=
  admin_with_role actor "billing_period_finalize_admin_only" "billing_period_finalize_role" _ADMIN_FINANCE_ROLES
    (if negb (status_in resource [Some "OPEN"]) then deny "billing_period_finalize_status" "status_not_open"
     else allow "billing_period_finalize_allowed").

Definition _billing_period_lock (actor : ActorContext) (resource : ResourceContext) : PolicyDecision :=
  admin_with_role actor "billing_period_lock_admin_only" "billing_period_lock_role" _ADMIN_FINANCE_ROLES
    (if negb (status_in resource [Some "FINALIZED"]) then deny "billing_period_lock_status" "status_not_finalized"
     else allow "billing_period_lock_allowed").

Definition _invoice_issue (actor : ActorContext) (resource : ResourceContext) : PolicyDecision :=
  admin_with_role actor "invoice_issue_admin_only" "invoice_issue_role" _ADMIN_FINANCE_ROLES
    (if negb (status_in resource [Some "OPEN"; None]) then deny "invoice_issue_status" "period_not_open"
     else allow "invoice_issue_allowed").

Definition _invoice_adjust (actor : ActorContext) (resource : ResourceContext) : PolicyDecision :=
  admin_with_role actor "invoice_adjust_admin_only" "invoice_adjust_role" ["ADMIN_FINANCE"]
    (if negb (status_in resource [Some "OPEN"]) then deny "invoice_adjust_status" "period_not_open"
     else allow "invoice_adjust_allowed").

Definition _payment_apply (actor : ActorContext) : PolicyDecision :=
  admin_with_role actor "payment_apply_admin_only" "payment_apply_role" _ADMIN_FINANCE_ROLES
    (allow "payment_apply_allowed").

Definition _credit_note_create (actor : ActorContext) : PolicyDecision :=
  admin_with_role actor "credit_note_admin_only" "credit_note_role" _ADMIN_FINANCE_ROLES
    (allow "credit_note_allowed").

Definition _payout_export_create (actor : ActorContext) (resource : ResourceContext) : PolicyDecision :=
  admin_with_role actor "payout_export_create_admin_only" "payout_export_create_role" _ADMIN_FINANCE_ROLES
    (if negb (status_in resource [Some "FINALIZED"; Some "LOCKED"])
     then deny "payout_export_create_status" "period_not_finalized"
     else allow "payout_export_create_allowed").

Definition _payout_export_confirm (actor : ActorContext) : PolicyDecision :=
  admin_with_role actor "payout_export_confirm_admin_only" "payout_export_confirm_role" _ADMIN_ACCOUNTING_ROLES
    (allow "payout_export_confirm_allowed").

Definition _accounting_export_create (actor : ActorContext) (resource : ResourceContext) : PolicyDecision :=
  admin_with_role actor "accounting_export_create_admin_only" "accounting_export_create_role" _ADMIN_EXPORT_ROLES
    (if negb (status_in resource [Some "FINALIZED"; Some "LOCKED"])
     then deny "accounting_export_create_status" "period_not_finalized"
     else allow "accounting_export_create_allowed").

Definition _accounting_export_confirm (actor : ActorContext) : PolicyDecision :=
  admin_with_role actor "accounting_export_confirm_admin_only" "accounting_export_confirm_role" _ADMIN_EXPORT_ROLES
    (allow "accounting_export_confirm_allowed").

Definition _document_acknowledge (actor : ActorContext) (resource : ResourceContext) : PolicyDecision :=
  if (actor_type actor =? SYSTEM)%py then allow "document_acknowledge_system"
  else if (actor_type actor <>? CLIENT)%py then deny "document_acknowledge_client_only" "actor_not_client"
  else if negb (_has_role actor _CLIENT_ACK_ROLES) then deny "document_acknowledge_role" "missing_role"
  else if negb (status_in resource [Some "ISSUED"]) then deny "document_acknowledge_status" "status_not_issued"
  else allow "document_acknowledge_allowed".

Definition _document_finalize (actor : ActorContext) (resource : ResourceContext) : PolicyDecision :=
  admin_with_role actor "document_finalize_admin_only" "document_finalize_role" _ADMIN_FINANCE_ROLES
    (if negb (status_in resource [Some "ACKNOWLEDGED"]) then deny "document_finalize_status" "status_not_acknowledged"
     else allow "document_finalize_allowed").

Definition _document_send_for_signing (actor : ActorContext) (resource : ResourceContext) : PolicyDecision :=
  admin_with_role actor "document_send_for_signing_admin_only" "document_send_for_signing_role" _ADMIN_FINANCE_ROLES
    (if negb (status_in resource [Some "ISSUED"]) then deny "document_send_for_signing_status" "status_not_issued"
     else allow "document_send_for_signing_allowed").

Definition _document_sign_request (actor : ActorContext) (resource : ResourceContext) : PolicyDecision :=
  admin_with_role actor "document_sign_request_admin_only" "document_sign_request_role" _ADMIN_FINANCE_ROLES
    (if negb (status_in resource [Some "ISSUED"]) then deny "document_sign_request_status" "status_not_issued"
     else allow "document_sign_request_allowed").

Definition _document_finalize_with_signature (actor : ActorContext) (resource : ResourceContext) : PolicyDecision :=
  admin_with_role actor "document_finalize_with_signature_admin_only" "document_finalize_with_signature_role"
    _ADMIN_FINANCE_ROLES
    (if negb (status_in resource [Some "ACKNOWLEDGED"])
     then deny "document_finalize_with_signature_status" "status_not_acknowledged"
     else allow "document_finalize_with_signature_allowed").

Definition _document_void_after_signing (actor : ActorContext) (resource : ResourceContext) : PolicyDecision :=
  admin_with_role actor "document_void_after_signing_admin_only" "document_void_after_signing_role" _ADMIN_FINANCE_ROLES
    (if negb (status_in resource [Some "ISSUED"; Some "ACKNOWLEDGED"])
     then deny "document_void_after_signing_status" "status_invalid"
     else allow "document_void_after_signing_allowed").

Definition _closing_package_ack (actor : ActorContext) (resource : ResourceContext) : PolicyDecision :=
  if (actor_type actor =? SYSTEM)%py then allow "closing_package_ack_system"
  else if (actor_type actor <>? CLIENT)%py then deny "closing_package_ack_client_only" "actor_not_client"
  else if negb (_has_role actor _CLIENT_ACK_ROLES) then deny "closing_package_ack_role" "missing_role"
  else if negb (status_in resource [Some "ISSUED"]) then deny "closing_package_ack_status" "status_not_issued"
  else allow "closing_package_ack_allowed".

Definition _closing_package_finalize (actor : ActorContext) (resource : ResourceContext) : PolicyDecision :=
  admin_with_role actor "closing_package_finalize_admin_only" "closing_package_finalize_role" _ADMIN_FINANCE_ROLES
    (if negb (status_in resource [Some "ACKNOWLEDGED"])
     then deny "closing_package_finalize_status" "status_not_acknowledged"
     else allow "closing_package_finalize_allowed").

Definition _crm_manage (actor : ActorContext) : PolicyDecision :=
  admin_with_role actor "crm_manage_admin_only" "crm_manage_role" _ADMIN_CRM_ROLES (allow "crm_manage_allowed").

Definition check (actor : ActorContext) (action : Action.Action) (resource : ResourceContext) : PolicyDecision :=
  match action with
  | Action.BILLING_PERIOD_FINALIZE => _billing_period_finalize actor resource
  | Action.BILLING_PERIOD_LOCK => _billing_period_lock actor resource
  | Action.INVOICE_ISSUE => _invoice_issue actor resource
  | Action.INVOICE_ADJUST => _invoice_adjust actor resource
  | Action.PAYMENT_APPLY => _payment_apply actor
  | Action.CREDIT_NOTE_CREATE => _credit_note_create actor
  | Action.PAYOUT_EXPORT_CREATE => _payout_export_create actor resource
  | Action.PAYOUT_EXPORT_CONFIRM => _payout_export_confirm actor
  | Action.ACCOUNTING_EXPORT_CREATE => _accounting_export_create actor resource
  | Action.ACCOUNTING_EXPORT_CONFIRM => _accounting_export_confirm actor
  | Action.DOCUMENT_ACKNOWLEDGE => _document_acknowledge actor resource
  | Action.DOCUMENT_FINALIZE => _document_finalize actor resource
  | Action.DOCUMENT_SIGN_REQUEST => _document_sign_request actor resource
  | Action.DOCUMENT_SEND_FOR_SIGNING => _document_send_for_signing actor resource
  | Action.DOCUMENT_FINALIZE_WITH_SIGNATURE => _document_finalize_with_signature actor resource
  | Action.DOCUMENT_VOID_AFTER_SIGNING => _document_void_after_signing actor resource
  | Action.CLOSING_PACKAGE_ACK => _closing_package_ack actor resource
  | Action.CLOSING_PACKAGE_FINALIZE => _closing_package_finalize actor resource
  | Action.BILLING_PERIOD_REOPEN => deny "billing_period_reopen_disabled" "action_disabled"
  | Action.CRM_CLIENT_MANAGE | Action.CRM_CONTRACT_MANAGE | Action.CRM_TARIFF_MANAGE
  | Action.CRM_SUBSCRIPTION_MANAGE | Action.CRM_FEATURE_TOGGLE => _crm_manage actor
  end.

(** [sorted(actor.roles)] *)
Definition sorted_roles (actor : ActorContext) : list string := merge_sort String.le (elements (actor_roles actor)).

Section Audit.
Context (W : world Db).

Definition audit_access_denied (actor : ActorContext) (action : Action.Action) (resource : ResourceContext)
    (decision : PolicyDecision) (t : option token) : PM unit :=
  audit_call W
    (MkAuditArgs "ACCESS_DENIED" "policy" (Action.value action) "ACCESS_DENIED" AuditVisibility.INTERNAL None
       (Some
          [ ("actor", PDict
              [ ("actor_type", PStr (actor_kind_value (actor_type actor)));
                ("tenant_id", PInt (actor_tenant_id actor));
                ("client_id", opt_str (actor_client_id actor));
                ("roles", PList (map PStr (sorted_roles actor)));
                ("user_id", opt_str (actor_user_id actor)) ]);
            ("action", PStr (Action.value action));
            ("resource", PDict
              [ ("resource_type", PStr (rsc_resource_type resource));
                ("tenant_id", PInt (rsc_tenant_id resource));
                ("client_id", opt_str (rsc_client_id resource));
                ("status", opt_str (rsc_status resource)) ]);
            ("policy", PStr (pd_policy decision));
            ("reason", opt_str (pd_reason decision)) ])
       None None (pd_reason decision) None)
    (Some (request_context_of_token t));;
  mret tt.

(** The [_enforce_policy] of the services: check, and audit and raise on a denial. *)
Definition enforce (t : option token) (action : Action.Action) (resource : ResourceContext) : PM unit :=
  let actor := actor_from_token t in
  let decision := check actor action resource in
  if negb (pd_allowed decision) then
    audit_access_denied actor action resource decision t;;
    raise (PolicyAccessDenied (pd_policy decision) (default "access_denied" (pd_reason decision)))
  else mret tt.
End Audit.
End PolicyEngine.

(** ** What each action demands *)
Import PolicyEngine.

(** The permissions as a table: who, with which role, in which status of the resource. *)
Inductive demand : Type :=
| Nobody
| Admin (roles : list string) (statuses : option (list (option string)))
| ClientOrSystem (roles : list string) (statuses : list (option string)).

Definition demand_of (action : Action.Action) : demand :=
  match action with
  | Action.BILLING_PERIOD_FINALIZE => Admin ["ADMIN_FINANCE"; "SUPERADMIN"] (Some [Some "OPEN"])
  | Action.BILLING_PERIOD_LOCK => Admin ["ADMIN_FINANCE"; "SUPERADMIN"] (Some [Some "FINALIZED"])
  | Action.BILLING_PERIOD_REOPEN => Nobody
  | Action.INVOICE_ISSUE => Admin ["ADMIN_FINANCE"; "SUPERADMIN"] (Some [Some "OPEN"; None])
  | Action.INVOICE_ADJUST => Admin ["ADMIN_FINANCE"] (Some [Some "OPEN"])
  | Action.PAYMENT_APPLY | Action.CREDIT_NOTE_CREATE => Admin ["ADMIN_FINANCE"; "SUPERADMIN"] None
  | Action.PAYOUT_EXPORT_CREATE => Admin ["ADMIN_FINANCE"; "SUPERADMIN"] (Some [Some "FINALIZED"; Some "LOCKED"])
  | Action.PAYOUT_EXPORT_CONFIRM => Admin ["ADMIN_ACCOUNTING"; "SUPERADMIN"] None
  | Action.ACCOUNTING_EXPORT_CREATE =>
      Admin ["ADMIN_FINANCE"; "ADMIN_ACCOUNTING"; "SUPERADMIN"] (Some [Some "FINALIZED"; Some "LOCKED"])
  | Action.ACCOUNTING_EXPORT_CONFIRM => Admin ["ADMIN_FINANCE"; "ADMIN_ACCOUNTING"; "SUPERADMIN"] None
  | Action.DOCUMENT_ACKNOWLEDGE | Action.CLOSING_PACKAGE_ACK =>
      ClientOrSystem ["CLIENT_OWNER"; "CLIENT_ADMIN"] [Some "ISSUED"]
  | Action.DOCUMENT_SIGN_REQUEST | Action.DOCUMENT_SEND_FOR_SIGNING =>
      Admin ["ADMIN_FINANCE"; "SUPERADMIN"] (Some [Some "ISSUED"])
  | Action.DOCUMENT_FINALIZE | Action.DOCUMENT_FINALIZE_WITH_SIGNATURE | Action.CLOSING_PACKAGE_FINALIZE =>
      Admin ["ADMIN_FINANCE"; "SUPERADMIN"] (Some [Some "ACKNOWLEDGED"])
  | Action.DOCUMENT_VOID_AFTER_SIGNING =>
      Admin ["ADMIN_FINANCE"; "SUPERADMIN"] (Some [Some "ISSUED"; Some "ACKNOWLEDGED"])
  | Action.CRM_CLIENT_MANAGE | Action.CRM_CONTRACT_MANAGE | Action.CRM_TARIFF_MANAGE
  | Action.CRM_SUBSCRIPTION_MANAGE | Action.CRM_FEATURE_TOGGLE =>
      Admin ["ADMIN"; "FINANCE"; "ADMIN_FINANCE"; "SUPERADMIN"] None
  end.

Definition meets (actor : ActorContext) (resource : ResourceContext) (d : demand) : Prop :=
  match d with
  | Nobody => False
  | Admin roles statuses =>
      actor_type actor = ADMIN /\ (exists r, r ∈ roles /\ r ∈ actor_roles actor) /\
      match statuses with Some l => rsc_status resource ∈ l | None => True end
  | ClientOrSystem roles statuses =>
      actor_type actor = SYSTEM \/
      (actor_type actor = CLIENT /\ (exists r, r ∈ roles /\ r ∈ actor_roles actor) /\
       rsc_status resource ∈ statuses)
  end.

Lemma has_role_iff actor roles : _has_role actor roles = true <-> exists r, r ∈ roles /\ r ∈ actor_roles actor.
Proof.
  unfold _has_role. rewrite existsb_exists. split; intros (r & Hr & H); exists r.
  - split; [by apply list_elem_of_In|by apply bool_decide_eq_true in H].
  - split; [by apply list_elem_of_In|by apply bool_decide_eq_true].
Qed.

Lemma admin_with_role_iff actor a b roles k :
  pd_allowed (admin_with_role actor a b roles k) = true <->
  actor_type actor = ADMIN /\ (exists r, r ∈ roles /\ r ∈ actor_roles actor) /\ pd_allowed k = true.
Proof.
  unfold admin_with_role, _require_admin, eqb. rewrite <- has_role_iff.
  destruct (bool_decide_reflect (actor_type actor = ADMIN)); simpl; [|by split; [|intros [? _]]].
  destruct (_has_role actor roles); simpl; naive_solver.
Qed.

Lemma status_gate resource l policy reason k :
  pd_allowed (if negb (status_in resource l) then deny policy reason else allow k) = true <->
  rsc_status resource ∈ l.
Proof. unfold status_in. destruct (bool_decide_reflect (rsc_status resource ∈ l)); by simpl. Qed.

Lemma ack_iff actor resource p1 p2 r2 p3 p4 r4 p5 roles l :
  pd_allowed (if (actor_type actor =? SYSTEM)%py then allow p1
    else if (actor_type actor <>? CLIENT)%py then deny p2 r2
    else if negb (_has_role actor roles) then deny p3 "missing_role"
    else if negb (status_in resource l) then deny p4 r4 else allow p5) = true <->
  meets actor resource (ClientOrSystem roles l).
Proof.
  unfold meets, eqb. rewrite <- has_role_iff.
  destruct (bool_decide_reflect (actor_type actor = SYSTEM)); simpl; [naive_solver|].
  destruct (bool_decide_reflect (actor_type actor = CLIENT)); simpl; [|naive_solver].
  destruct (_has_role actor roles); simpl; [rewrite status_gate|]; naive_solver.
Qed.

(** The policy engine implements the table of permissions: an action is allowed exactly
    to the actors, roles and statuses it demands. *)
Theorem policy_check_is_table actor action resource :
  pd_allowed (check actor action resource) = true <-> meets actor resource (demand_of action).
Proof.
  destruct action; cbn [check demand_of];
    unfold _billing_period_finalize, _billing_period_lock, _invoice_issue, _invoice_adjust, _payment_apply,
      _credit_note_create, _payout_export_create, _payout_export_confirm, _accounting_export_create,
      _accounting_export_confirm, _document_acknowledge, _document_finalize, _document_send_for_signing,
      _document_sign_request, _document_finalize_with_signature, _document_void_after_signing,
      _closing_package_ack, _closing_package_finalize, _crm_manage;
    rewrite ?admin_with_role_iff, ?ack_iff, ?status_gate; first [reflexivity|cbn; naive_solver].
Qed.

(** The role that a finance action needs makes its holder an admin. *)
Lemma finance_role_is_admin t r :
  r ∈ ["ADMIN_FINANCE"; "SUPERADMIN"] -> r ∈ _normalize_roles t -> actor_type (actor_from_token t) = ADMIN.
Proof.
  intros Hr Hin. unfold actor_from_token. cbn [actor_type]. unfold _is_admin_role.
  replace (existsb _ _) with true; [done|]. symmetry. apply existsb_exists. exists r.
  split; [by apply list_elem_of_In, elem_of_elements|].
  apply elem_of_cons in Hr as [->|Hr%list_elem_of_singleton]; [reflexivity|by subst r].
Qed.

(** Payments and credit notes can be made exactly by the holders of one of the two
    finance roles, whatever the token says of tenant and client. *)
Theorem finance_actions_need_finance_role t resource action :
  action = Action.PAYMENT_APPLY \/ action = Action.CREDIT_NOTE_CREATE ->
  pd_allowed (check (actor_from_token t) action resource) = true <->
  "ADMIN_FINANCE" ∈ _normalize_roles t \/ "SUPERADMIN" ∈ _normalize_roles t.
Proof.
  intros Ha. transitivity (exists r, r ∈ ["ADMIN_FINANCE"; "SUPERADMIN"] /\ r ∈ _normalize_roles t).
  - destruct Ha as [-> | ->]; cbn [check]; unfold _payment_apply, _credit_note_create;
      rewrite admin_with_role_iff; (split; [intros (_ & H & _); exact H|]);
      intros (r & Hr & Hin); (split; [by eapply finance_role_is_admin|]); split; eauto.
  - split; [|intros [H|H]; eexists; split; [|exact H|..]; eauto; set_solver].
    intros (r & Hr & Hin). apply elem_of_cons in Hr as [->|Hr%list_elem_of_singleton]; [by left|subst r; by right].
Qed.

Definition demo_token (roles : list string) : token :=
  MkToken (ManyRoles roles) None (IntTenant 1) None (Some "admin-1") None None.

Lemma finance_actions_need_finance_role_witness :
  pd_allowed (check (actor_from_token (Some (demo_token ["admin-finance"]))) Action.PAYMENT_APPLY
    (MkResourceContext "INVOICE" 1 None None)) = true.
Proof.
  apply (finance_actions_need_finance_role (Some (demo_token ["admin-finance"]))
    (MkResourceContext "INVOICE" 1 None None) Action.PAYMENT_APPLY (or_introl eq_refl)).
  left. vm_compute. reflexivity.
Defined.
