(* ===== verification/BillingPeriods.v ===== *)
(** * Billing periods and settlement periods

    services/billing_periods.py and services/settlement_allocations.py: the life of a
    period (open, finalized, locked) and the period an event settles in. *)
From S2P Require Import Prelude Json Enums Models AuditTrail Policy.

(** ** Local days

    [zoneinfo] at the billing time zone of the settings: the wall clock at an instant (in
    microseconds), whose days are numbered, and the first and the last instant of a local
    day.  An instant lies in its own day. *)
Definition day_us : Z := 86400000000.

Class Timezone := {
  tz_name : string;
  local_time : Z -> Z;
  day_start : Z -> Z;
  day_end : Z -> Z;
  day_bounds t : day_start (local_time t / day_us) <= t <= day_end (local_time t / day_us);
}.

Definition local_date `{Timezone} (t : Z) : Z := local_time t / day_us.

(** The zone UTC. *)

Lemma utc_bounds t : day_us * (t / day_us) <= t <= day_us * (t / day_us) + (day_us - 1).
Proof. unfold day_us. pose proof (Z.div_mod t 86400000000). pose proof (Z.mod_pos_bound t 86400000000). lia. Qed.

Definition utc : Timezone := {|
  tz_name := "UTC";
  local_time := fun t => t;
  day_start := fun d => day_us * d;
  day_end := fun d => day_us * d + (day_us - 1);
  day_bounds := utc_bounds;
|}.

Module BillingPeriodService.
Definition _ALLOWED_TRANSITIONS (s : BillingPeriodStatus.BillingPeriodStatus)
    : list BillingPeriodStatus.BillingPeriodStatus :=
  match s with
  | BillingPeriodStatus.OPEN => [BillingPeriodStatus.FINALIZED]
  | BillingPeriodStatus.FINALIZED => [BillingPeriodStatus.LOCKED]
  | BillingPeriodStatus.LOCKED => []
  end.

Definition same_bounds (period_type : BillingPeriodType.BillingPeriodType) (start_at end_at : Z)
    (p : BillingPeriod) : bool :=
  (bp_period_type p =? period_type)%py && (bp_start_at p =? start_at) && (bp_end_at p =? end_at).

Definition require_status (period : BillingPeriod) (allowed : list BillingPeriodStatus.BillingPeriodStatus)
    (action : string) : PM unit :=
  if bool_decide (bp_status period ∈ allowed) then mret tt
  else raise (BillingPeriodConflict ("Billing period " +:+ bp_id period +:+ " status " +:+
    BillingPeriodStatus.value (bp_status period) +:+ " not allowed for " +:+ action +:+ ". Allowed: " +:+
    join ", " (merge_sort String.le (map BillingPeriodStatus.value allowed)))).

Definition require_transition (current target : BillingPeriodStatus.BillingPeriodStatus) : PM unit :=
  if (current =? target)%py then mret tt
  else if bool_decide (target ∈ _ALLOWED_TRANSITIONS current) then mret tt
  else raise (BillingPeriodConflict ("Billing period cannot transition from " +:+
    BillingPeriodStatus.value current +:+ " to " +:+ BillingPeriodStatus.value target)).

(** Assignments to the columns of a period, on the object and its row. *)
Definition assign (f : BillingPeriod -> BillingPeriod) (period : BillingPeriod) : PM BillingPeriod :=
  modify (on_billing_periods (update_where (fun p => (bp_id p =? bp_id period)%py) f));;
  mret (f period).

(** [query.filter(...).order_by(start_at.desc()).all()] with the optional filters *)
Definition list_periods (status : option BillingPeriodStatus.BillingPeriodStatus)
    (period_type : option BillingPeriodType.BillingPeriodType) (start_from start_to : option Z)
    : PM (list BillingPeriod) :=
  let selected p :=
    match status with Some s => (bp_status p =? s)%py | None => true end &&
    match period_type with Some t => (bp_period_type p =? t)%py | None => true end &&
    match start_from with Some t => t <=? bp_start_at p | None => true end &&
    match start_to with Some t => bp_start_at p <=? t | None => true end in
  rows ← q_all (fun d => billing_periods (billing d)) selected;
  mret (sort_on (fun p => - bp_start_at p) rows).

Definition get_by_bounds (start_at end_at : Z) (period_type : option BillingPeriodType.BillingPeriodType)
    : PM (option BillingPeriod) :=
  q_one_or_none (fun d => billing_periods (billing d))
    (fun p => (bp_start_at p =? start_at) && (bp_end_at p =? end_at) &&
              match period_type with Some t => (bp_period_type p =? t)%py | None => true end).

Section Service.
Context (W : world Db) `{Timezone}.

Definition period_bounds_for_dates (date_from date_to : Z) : Z * Z := (day_start date_from, day_end date_to).

(** [db.add(period); db.flush()]: type and bounds are unique. *)
Definition insert_period (period : BillingPeriod) : PM unit :=
  race W;;
  same ← q_first (fun d => billing_periods (billing d))
    (same_bounds (bp_period_type period) (bp_start_at period) (bp_end_at period));
  match same with
  | Some _ => raise (IntegrityError "uq_billing_period_scope")
  | None => modify (on_billing_periods (fun l => l ++ [period]))
  end.

Definition get_or_create (period_type : BillingPeriodType.BillingPeriodType) (start_at end_at : Z) (tz : string)
    : PM BillingPeriod :=
  period ← q_one_or_none (fun d => billing_periods (billing d)) (same_bounds period_type start_at end_at);
  match period with
  | Some period => mret period
  | None =>
      id ← uuid4 W;
      let period := MkBillingPeriod id period_type start_at end_at tz BillingPeriodStatus.OPEN None None in
      insert_period period;;
      mret period
  end.

(** The body [lock] and [finalize] share. *)
Definition advance (period_type : BillingPeriodType.BillingPeriodType) (start_at end_at : Z) (tz : string)
    (t : option token) (action : Action.Action) (target : BillingPeriodStatus.BillingPeriodStatus)
    (stamp : option Z -> BillingPeriod -> BillingPeriod) : PM BillingPeriod :=
  period ← get_or_create period_type start_at end_at tz;
  PolicyEngine.enforce W t action
    (MkResourceContext "BILLING_PERIOD" (actor_tenant_id (actor_from_token t)) None
       (Some (BillingPeriodStatus.value (bp_status period))));;
  require_transition (bp_status period) target;;
  if (bp_status period <>? target)%py then
    n ← now W;
    assign (fun p => stamp (Some n) (set_bp_status target p)) period
  else mret period.

Definition lock (period_type : BillingPeriodType.BillingPeriodType) (start_at end_at : Z) (tz : string)
    (t : option token) : PM BillingPeriod :=
  advance period_type start_at end_at tz t Action.BILLING_PERIOD_LOCK BillingPeriodStatus.LOCKED
    set_bp_locked_at.

Definition finalize (period_type : BillingPeriodType.BillingPeriodType) (start_at end_at : Z) (tz : string)
    (t : option token) : PM BillingPeriod :=
  advance period_type start_at end_at tz t Action.BILLING_PERIOD_FINALIZE BillingPeriodStatus.FINALIZED
    set_bp_finalized_at.

(** ** The period an event settles in (settlement_allocations.py) *)

Definition resolve_settlement_period (event_at : Z) : PM BillingPeriod :=
  let event_date := local_date event_at in
  let '(start_at, end_at) := period_bounds_for_dates event_date event_date in
  period ← get_or_create BillingPeriodType.DAILY start_at end_at tz_name;
  if bool_decide (bp_status period ∈ [BillingPeriodStatus.FINALIZED; BillingPeriodStatus.LOCKED])
  then get_or_create BillingPeriodType.ADHOC start_at end_at tz_name
  else mret period.
End Service.

(** ** The settlement summary *)

Record SettlementSummaryRow := MkSettlementSummaryRow {
  ss_settlement_period_id : string;
  ss_period_start : Z;
  ss_period_end : Z;
  ss_currency : string;
  ss_total_payments : Z;
  ss_total_credits : Z;
  ss_total_refunds : Z;
  ss_allocations_count : Z;
}.

(** [func.sum(case((source_type == t, amount), else_=0))] *)
Definition total_of_source (t : SettlementSourceType.SettlementSourceType)
    (rows : list InvoiceSettlementAllocation) : Z :=
  sum_of (fun a => if (al_source_type a =? t)%py then al_amount a else 0) rows.

Definition summary_row (p : BillingPeriod) (currency : string) (rows : list InvoiceSettlementAllocation)
    : SettlementSummaryRow :=
  MkSettlementSummaryRow (bp_id p) (bp_start_at p) (bp_end_at p) currency
    (total_of_source SettlementSourceType.PAYMENT rows)
    (total_of_source SettlementSourceType.CREDIT_NOTE rows)
    (total_of_source SettlementSourceType.REFUND rows)
    (Z.of_nat (length rows)).

(** The groups of one period: its allocations by currency. *)
Definition period_summary (client_id : option string) (d : Db) (p : BillingPeriod) : list SettlementSummaryRow :=
  let rows := List.filter (fun a =>
      (al_settlement_period_id a =? bp_id p)%py &&
      match str_or_none client_id with Some c => (al_client_id a =? c)%py | None => true end)
    (allocations (billing d)) in
  map (fun c => summary_row p c (List.filter (fun a => (al_currency a =? c)%py) rows))
    (remove_dups (map al_currency rows)).

(** The order of the groups of one period is the database's; here that of the rows. *)
Definition list_settlement_summary `{Timezone} (date_from date_to : Z) (client_id : option string)
    : PM (list SettlementSummaryRow) :=
  let '(start_at, end_at) := period_bounds_for_dates date_from date_to in
  gets (fun d =>
    List.flat_map (period_summary client_id d)
      (sort_on bp_start_at (List.filter (fun p => (start_at <=? bp_start_at p) && (bp_start_at p <=? end_at))
         (billing_periods (billing d))))).
End BillingPeriodService.

(** ** What a call does to the periods *)
Import BillingPeriodService.

(** The columns that identify a period. *)
Definition period_key (p : BillingPeriod) : BillingPeriodType.BillingPeriodType * Z * Z :=
  (bp_period_type p, bp_start_at p, bp_end_at p).

Lemma same_bounds_iff ty a b p : same_bounds ty a b p = true <-> period_key p = (ty, a, b).
Proof.
  unfold same_bounds, period_key, eqb. rewrite !andb_true_iff, bool_decide_eq_true, !Z.eqb_eq.
  split; [by intros [[-> ->] ->]|by intros [= -> -> ->]].
Qed.

(** One step of the life of a period. *)
Definition period_step (a b : BillingPeriodStatus.BillingPeriodStatus) : Prop := b ∈ _ALLOWED_TRANSITIONS a.

(** The same period, at the same or a later stage. *)
Definition later (p q : BillingPeriod) : Prop :=
  bp_id q = bp_id p /\ period_key q = period_key p /\ bp_tz q = bp_tz p /\
  rtc period_step (bp_status p) (bp_status q).

#[global] Instance later_preorder : PreOrder later.
Proof.
  split; [by intros p|]. intros p q r (A & B & C & D) (A' & B' & C' & D').
  repeat split; try congruence. by etrans.
Qed.

Definition periods (d : Db) : list BillingPeriod := billing_periods (billing d).

(** Every period is kept, and only advances. *)
Definition progressed (d d' : Db) : Prop :=
  forall p, In p (periods d) -> exists q, In q (periods d') /\ later p q.

#[global] Instance progressed_preorder : PreOrder progressed.
Proof.
  split; [intros d p Hp; by exists p|]. intros d e f Hde Hef p Hp.
  destruct (Hde p Hp) as (q & Hq & Hpq). destruct (Hef q Hq) as (r & Hr & Hqr).
  exists r. split; [done|]. by etrans.
Qed.

Lemma progressed_same d d' : periods d' = periods d -> progressed d d'.
Proof. intros E p Hp. exists p. by rewrite E. Qed.

Section PeriodFacts.
Context (W : world Db) `{Timezone} (alone_W : alone W)
  (uuids_distinct : forall n m, new_uuid W n = new_uuid W m -> n = m).

(** Periods are identified by their id and by their type and bounds, and the identifiers
    to come are not in use. *)
Record periods_ok (n : nat) (d : Db) : Prop := {
  ok_ids : List.NoDup (map bp_id (periods d));
  ok_keys : List.NoDup (map period_key (periods d));
  ok_fresh : unused W n bp_id (periods d);
}.

Lemma periods_ok_mono n m d d' :
  periods d' = periods d -> (n <= m)%nat -> periods_ok n d -> periods_ok m d'.
Proof. intros E Hnm [H1 H2 H3]. constructor; rewrite E; auto. by eapply unused_mono. Qed.

Record advances (s t : session Db) : Prop := {
  adv_saved : saved t = saved s;
  adv_ids : (uuids s <= uuids t)%nat;
  adv_ok : periods_ok (uuids t) (live t);
  adv_later : progressed (live s) (live t);
}.

Lemma advances_refl s : periods_ok (uuids s) (live s) -> advances s s.
Proof. intros Hs. constructor; [done|done|done|reflexivity]. Qed.

Lemma advances_trans s t u : advances s t -> advances t u -> advances s u.
Proof.
  intros [A1 A2 A3 A4] [B1 B2 B3 B4]. constructor; [congruence|lia|done|by etrans].
Qed.

(** A call that leaves the periods alone. *)
Lemma advances_same s t :
  periods_ok (uuids s) (live s) -> saved t = saved s -> (uuids s <= uuids t)%nat ->
  periods (live t) = periods (live s) -> advances s t.
Proof.
  intros Hs Hsv Hu Hp. constructor; [done|done|by eapply periods_ok_mono|by apply progressed_same].
Qed.

Lemma find_period ty a b n d :
  periods_ok n d ->
  (List.filter (same_bounds ty a b) (periods d) = [] /\ ~ In (ty, a, b) (map period_key (periods d))) \/
  exists p, List.filter (same_bounds ty a b) (periods d) = [p] /\ In p (periods d) /\ period_key p = (ty, a, b).
Proof.
  intros [_ Hk _]. destruct (filter_unique period_key (same_bounds ty a b) (periods d) Hk) as [Hf|(p & Hf & Hp & Hb)].
  - intros x y Hx Hy Ex%same_bounds_iff Ey%same_bounds_iff.
    apply (nodup_key period_key (periods d)); [done..|congruence].
  - left. split; [done|]. intros (p & Hp & Hin)%in_map_iff.
    assert (In p []) as []. rewrite <- Hf. apply filter_In. split; [done|by apply same_bounds_iff].
  - right. exists p. split; [done|]. split; [done|]. by apply same_bounds_iff.
Qed.

(** [get_or_create] answers the period of the bounds, which it adds when it is missing. *)
Lemma period_found_or_made ty a b tz s :
  periods_ok (uuids s) (live s) ->
  exists p t, get_or_create W ty a b tz s = (Ok p, t) /\ advances s t /\ In p (periods (live t)) /\
    period_key p = (ty, a, b) /\
    (periods (live t) = periods (live s) \/
     bp_status p = BillingPeriodStatus.OPEN /\ periods (live t) = periods (live s) ++ [p]).
Proof.
  intros Hok. unfold get_or_create.
  destruct (find_period ty a b _ _ Hok) as [[Hf Hno]|(p & Hf & Hp & Hk)].
  2:{ exists p, s. rewrite (bind_ok _ _ s (Some p) s) by (by apply one_or_none_some).
      split; [done|]. split; [by apply advances_refl|]. auto. }
  rewrite (bind_ok _ _ s None s) by (by apply one_or_none_nil). cbv iota.
  set (id := new_uuid W (uuids s)).
  set (p := MkBillingPeriod id ty a b tz BillingPeriodStatus.OPEN None None).
  set (t := Session (on_billing_periods (fun l => l ++ [p]) (live s)) (saved s) (ticks s) (S (uuids s)) (S (races s))).
  exists p, t. destruct Hok as [H1 H2 H3].
  split; [|split; [|split; [|split; [done|by right]]]].
  - rewrite (bind_ok _ _ s id (Session (live s) (saved s) (ticks s) (S (uuids s)) (races s))) by done.
    cbv zeta. fold p. erewrite bind_ok; [reflexivity|]. unfold insert_period.
    erewrite bind_ok by (by apply race_alone). unfold q_first. run_steps.
    change (same_bounds (bp_period_type p) (bp_start_at p) (bp_end_at p)) with (same_bounds ty a b).
    change (billing_periods (billing (live s))) with (periods (live s)). by rewrite Hf.
  - assert (periods (live t) = periods (live s) ++ [p]) as Ht by done.
    constructor; [done|simpl; lia| |].
    + constructor; rewrite Ht, ?map_app.
      * apply nodup_snoc; [done|]. by apply H3.
      * by apply nodup_snoc.
      * by apply (unused_snoc W uuids_distinct (uuids s)); [simpl; lia| |].
    + intros q Hq. exists q. rewrite Ht, in_app_iff. split; [by left|reflexivity].
  - change (periods (live t)) with (periods (live s) ++ [p]). rewrite in_app_iff. right. by left.
Qed.

(** The policy check writes at most an audit record. *)
Lemma enforce_wp tk action resource s Q R :
  (pd_allowed (PolicyEngine.check (actor_from_token tk) action resource) = true -> Q tt s) ->
  (forall e t, billing (live t) = billing (live s) -> saved t = saved s -> (uuids s <= uuids t)%nat -> R e t) ->
  wp (PolicyEngine.enforce W tk action resource) Q R s.
Proof.
  intros HQ HR. unfold PolicyEngine.enforce. cbv zeta. destruct (pd_allowed _) eqn:Ha; cbn [negb].
  - apply wp_ret. by apply HQ.
  - apply wp_bind. unfold PolicyEngine.audit_access_denied. apply wp_bind. apply audit_call_wp.
    + apply wp_ret, wp_raise, HR; simpl; [done|done|lia].
    + apply HR; simpl; [done|done|lia].
Qed.

(** Setting a date of a period leaves the rest of it. *)
Definition stamps (stamp : option Z -> BillingPeriod -> BillingPeriod) : Prop :=
  forall v r, bp_id (stamp v r) = bp_id r /\ period_key (stamp v r) = period_key r /\
    bp_tz (stamp v r) = bp_tz r /\ bp_status (stamp v r) = bp_status r.

Lemma advance_row target stamp (n : option Z) p l :
  In p l -> List.NoDup (map bp_id l) -> period_step (bp_status p) target ->
  stamps stamp ->
  let f := fun r => stamp n (set_bp_status target r) in
  let l' := update_where (fun r => (bp_id r =? bp_id p)%py) f l in
  map bp_id l' = map bp_id l /\ map period_key l' = map period_key l /\
  forall q, In q l -> exists q', In q' l' /\ later q q'.
Proof.
  intros Hp Hn Hs Hst. cbv zeta. unfold update_where. rewrite !map_map. split; [|split].
  - apply map_ext. intros r. destruct (_ =? _)%py; [|done]. apply (Hst n (set_bp_status target r)).
  - apply map_ext. intros r. destruct (_ =? _)%py; [|done]. apply (Hst n (set_bp_status target r)).
  - intros q Hq. eexists. split; [by apply (in_map _ l q)|]. unfold eqb.
    destruct (bool_decide_reflect (bp_id q = bp_id p)) as [He|]; [|reflexivity].
    rewrite (nodup_key bp_id l q p Hn Hq Hp He). unfold later.
    destruct (Hst n (set_bp_status target p)) as (-> & -> & -> & ->).
    repeat split. by apply rtc_once.
Qed.

Lemma require_transition_run a b s :
  require_transition a b s = (Ok tt, s) /\ (b = a \/ period_step a b) \/
  exists m, require_transition a b s = (Raise (BillingPeriodConflict m), s) /\ b <> a /\ ~ period_step a b.
Proof.
  unfold require_transition, period_step, eqb. destruct (bool_decide_reflect (a = b)) as [->|]; [left; auto|].
  destruct (bool_decide_reflect (b ∈ _ALLOWED_TRANSITIONS a)); [left; auto|].
  right. eexists. split; [reflexivity|]. split; congruence.
Qed.

Lemma advance_wp ty a b tz tk action target stamp s :
  periods_ok (uuids s) (live s) -> stamps stamp ->
  wp (advance W ty a b tz tk action target stamp)
    (fun p t => advances s t /\ bp_status p = target) (fun _ t => advances s t) s.
Proof.
  intros Hok Hst. unfold advance.
  destruct (period_found_or_made ty a b tz s Hok) as (p & t & Hrun & Hadv & Hp & Hk & _).
  eapply wp_step; [exact Hrun|]. apply wp_bind, enforce_wp.
  2:{ intros e u Hb Hsv Hu. eapply advances_trans; [exact Hadv|]. apply advances_same; [apply Hadv|done|done|].
      unfold periods. by rewrite Hb. }
  intros _. destruct (require_transition_run (bp_status p) target t) as [[Hr Hstep]|(m & Hr & _)].
  2:{ apply wp_bind. unfold wp at 1. by rewrite Hr. }
  eapply wp_step; [exact Hr|]. cbv beta. unfold eqb.
  destruct (bool_decide_reflect (bp_status p = target)) as [He|Hne]; cbn [negb]; [by apply wp_ret|].
  destruct Hstep as [He|Hstep]; [by rewrite He in Hne|].
  eapply wp_step; [reflexivity|]. cbv beta. unfold assign.
  eapply wp_step; [reflexivity|]. apply wp_ret. split.
  2:{ by destruct (Hst (Some (clock W (ticks t))) (set_bp_status target p)) as (_ & _ & _ & ->). }
  destruct Hadv as [A1 A2 [H1 H2 H3] A4].
  destruct (advance_row target stamp (Some (clock W (ticks t))) p (periods (live t)) Hp H1 Hstep Hst)
    as (Hi & Hkk & Hl).
  constructor; cbn [live saved ticks uuids races]; [done|done| |].
  - constructor; unfold periods in *; cbn [live]; simpl; [by rewrite Hi|by rewrite Hkk|].
    unfold unused. by rewrite Hi.
  - etrans; [exact A4|]. exact Hl.
Qed.

(** The outcome of [resolve_settlement_period]. *)
Lemma resolve_run event_at s :
  periods_ok (uuids s) (live s) ->
  exists p t, resolve_settlement_period W event_at s = (Ok p, t) /\ advances s t /\ In p (periods (live t)) /\
    (period_key p = (BillingPeriodType.DAILY, day_start (local_date event_at), day_end (local_date event_at)) /\
     bp_status p = BillingPeriodStatus.OPEN \/
     period_key p = (BillingPeriodType.ADHOC, day_start (local_date event_at), day_end (local_date event_at)) /\
     exists q, In q (periods (live t)) /\ bp_status q <> BillingPeriodStatus.OPEN /\
       period_key q = (BillingPeriodType.DAILY, day_start (local_date event_at), day_end (local_date event_at))).
Proof.
  intros Hok. unfold resolve_settlement_period, period_bounds_for_dates. cbv zeta beta iota.
  set (a := day_start _). set (b := day_end _).
  destruct (period_found_or_made BillingPeriodType.DAILY a b tz_name s Hok) as (p & t & Hrun & Hadv & Hp & Hk & _).
  rewrite (bind_ok _ _ s p t) by exact Hrun.
  destruct (bool_decide_reflect (bp_status p ∈ [BillingPeriodStatus.FINALIZED; BillingPeriodStatus.LOCKED]))
    as [Hin|Hno].
  - destruct (period_found_or_made BillingPeriodType.ADHOC a b tz_name t (adv_ok _ _ Hadv))
      as (q & u & Hrun' & Hadv' & Hq & Hkq & Hpe).
    exists q, u. split; [exact Hrun'|]. split; [by eapply advances_trans|]. split; [done|]. right.
    split; [exact Hkq|]. exists p. split; [|split; [|exact Hk]].
    + destruct Hpe as [->|[_ ->]]; [done|]. apply in_or_app. by left.
    + intros E. rewrite E in Hin. set_solver.
  - exists p, t. split; [done|]. split; [done|]. split; [done|]. left. split; [exact Hk|].
    destruct (bp_status p); [done|set_solver..].
Qed.

(** A period that exists is found, and nothing changes. *)
Lemma get_or_create_found ty a b tz p s :
  periods_ok (uuids s) (live s) -> In p (periods (live s)) -> period_key p = (ty, a, b) ->
  get_or_create W ty a b tz s = (Ok p, s).
Proof.
  intros Hok Hp Hk. unfold get_or_create.
  destruct (find_period ty a b _ _ Hok) as [[_ Hno]|(q & Hf & Hq & Hkq)].
  - destruct Hno. rewrite <- Hk. by apply in_map.
  - assert (q = p) as -> by (apply (nodup_key period_key (periods (live s))); [apply Hok|..]; congruence).
    by rewrite (bind_ok _ _ s (Some p) s) by (by apply one_or_none_some).
Qed.

(** ** Requests *)

Inductive period_request : Type :=
| Finalize (period_type : BillingPeriodType.BillingPeriodType) (start_at end_at : Z) (t : option token)
| Lock (period_type : BillingPeriodType.BillingPeriodType) (start_at end_at : Z) (t : option token)
| Settle (event_at : Z).

Definition run_request (r : period_request) : PM BillingPeriod :=
  match r with
  | Finalize ty a b t => finalize W ty a b tz_name t
  | Lock ty a b t => lock W ty a b tz_name t
  | Settle t => resolve_settlement_period W t
  end.

(** A request of the caller that commits, or rolls back on an exception. *)
Definition serve_period (r : period_request) : PM unit :=
  try_except (run_request r;; commit) (fun _ => Some rollback).

Definition serve_periods (rs : list period_request) (s : session Db) : session Db :=
  (for_each rs serve_period s).2.

Lemma run_request_wp r s :
  periods_ok (uuids s) (live s) -> wp (run_request r) (fun _ t => advances s t) (fun _ t => advances s t) s.
Proof.
  intros Hok. destruct r as [ty a b tk|ty a b tk|t]; simpl.
  - eapply wp_mono; [by apply advance_wp| |done]. by intros p t [].
  - eapply wp_mono; [by apply advance_wp| |done]. by intros p t [].
  - destruct (resolve_run t s Hok) as (p & u & Hrun & Hadv & _). unfold wp. by rewrite Hrun.
Qed.

Lemma serve_period_step r s :
  saved s = live s -> periods_ok (uuids s) (live s) ->
  exists t, serve_period r s = (Ok tt, t) /\ saved t = live t /\ periods_ok (uuids t) (live t) /\
    progressed (live s) (live t).
Proof.
  intros Hs Hok. pose proof (run_request_wp r s Hok) as Hwp. unfold wp in Hwp.
  unfold serve_period, try_except, mbind, M_bind.
  destruct (run_request r s) as [[p|e] t]; (eexists; split; [reflexivity|]); cbn [live saved uuids commit rollback].
  - destruct Hwp. done.
  - destruct Hwp as [A1 A2 _ _]. rewrite A1, Hs. split; [done|]. split; [by eapply periods_ok_mono|done].
Qed.

Lemma serve_periods_steps rs : forall s,
  saved s = live s -> periods_ok (uuids s) (live s) ->
  let t := serve_periods rs s in
  saved t = live t /\ periods_ok (uuids t) (live t) /\ progressed (live s) (live t).
Proof.
  induction rs as [|r rs IH]; intros s Hs Hok; cbv zeta; [done|]. unfold serve_periods in *. cbn [for_each].
  destruct (serve_period_step r s Hs Hok) as (t & Hr & Ht & Htb & He).
  rewrite (bind_ok _ _ s tt t) by exact Hr. destruct (IH t Ht Htb) as (Hu & Hub & Heu).
  destruct (for_each rs serve_period t) as [[l|e] u] eqn:Hrun; cbn [snd] in *.
  - rewrite (bind_ok _ _ t l u) by exact Hrun. cbn [snd mret M_ret]. split; [done|]. split; [done|]. by etrans.
  - rewrite (bind_raised _ _ t e u) by exact Hrun. cbn [snd]. split; [done|]. split; [done|]. by etrans.
Qed.

(** ** Theorems *)

(** C25 Whatever requests finalize, lock or settle in periods, committed or rolled back as
    the caller does, no two periods share a type and bounds, every period is kept with its
    bounds and zone, and its status only goes from OPEN to FINALIZED to LOCKED; a locked
    period stays locked. *)
Theorem period_lifecycle (rs : list period_request) (s : session Db) :
  saved s = live s -> periods_ok (uuids s) (saved s) ->
  let d := saved (serve_periods rs s) in
  List.NoDup (map period_key (periods d)) /\
  forall p, In p (periods (saved s)) -> exists q, In q (periods d) /\ later p q /\
    (bp_status p = BillingPeriodStatus.LOCKED -> bp_status q = BillingPeriodStatus.LOCKED).
Proof.
  intros Hs Hok. cbv zeta. rewrite Hs in Hok. destruct (serve_periods_steps rs s Hs Hok) as (-> & Hok' & Hp).
  split; [apply Hok'|]. rewrite Hs. intros p Hin. destruct (Hp p Hin) as (q & Hq & Hl).
  exists q. split; [done|]. split; [done|]. intros Hlock. destruct Hl as (_ & _ & _ & Hr).
  rewrite Hlock in Hr. clear -Hr. inversion Hr as [|x y z Hxy _]; [done|]. by apply elem_of_nil in Hxy.
Qed.

(** The settlement period of an event is found or created, contains the event in its
    bounds, and is the open daily period of the event's local day, or the ad-hoc one when
    the daily one is closed; resolving the event again answers the same period and
    changes nothing. *)
Theorem settlement_period_resolved event_at s :
  periods_ok (uuids s) (live s) ->
  exists p t, resolve_settlement_period W event_at s = (Ok p, t) /\
    In p (periods (live t)) /\ bp_start_at p <= event_at <= bp_end_at p /\ saved t = saved s /\
    (bp_period_type p = BillingPeriodType.DAILY /\ bp_status p = BillingPeriodStatus.OPEN \/
     bp_period_type p = BillingPeriodType.ADHOC) /\
    progressed (live s) (live t) /\
    resolve_settlement_period W event_at t = (Ok p, t).
Proof.
  intros Hok. destruct (resolve_run event_at s Hok) as (p & t & Hrun & Hadv & Hp & Hcase).
  exists p, t. split; [exact Hrun|]. split; [exact Hp|]. pose proof (day_bounds event_at) as Hb.
  assert (bp_start_at p = day_start (local_date event_at) /\ bp_end_at p = day_end (local_date event_at)) as [-> ->].
  { by destruct Hcase as [[[= _ -> ->] _]|[[= _ -> ->] _]]. }
  split; [exact Hb|]. split; [apply Hadv|]. split.
  { destruct Hcase as [[[= -> _ _] Ho]|[[= -> _ _] _]]; auto. }
  split; [apply Hadv|]. pose proof (adv_ok _ _ Hadv) as Hok'.
  unfold resolve_settlement_period, period_bounds_for_dates. cbv zeta beta iota.
  destruct Hcase as [[Hk Ho]|[Hk (q & Hq & Hst & Hkq)]].
  - rewrite (bind_ok _ _ t p t) by (by apply get_or_create_found). rewrite Ho. reflexivity.
  - rewrite (bind_ok _ _ t q t) by (by apply get_or_create_found).
    rewrite bool_decide_true by (destruct (bp_status q); [done|set_solver..]).
    by apply get_or_create_found.
Qed.
End PeriodFacts.

(** ** The settlement summary *)

(** The allocations a summary reports. *)
Definition reported `{Timezone} (date_from date_to : Z) (client_id : option string) (d : Db)
    : list InvoiceSettlementAllocation :=
  List.filter (fun a =>
      bool_decide (al_settlement_period_id a ∈
        map bp_id (List.filter (fun p => (day_start date_from <=? bp_start_at p) &&
          (bp_start_at p <=? day_end date_to)) (periods d))))
    (List.filter (fun a => match str_or_none client_id with
                           | Some c => (al_client_id a =? c)%py
                           | None => true
                           end) (allocations (billing d))).

(** The totals of a source, as a sum over allocations. *)
Definition source_amount (t : SettlementSourceType.SettlementSourceType) (a : InvoiceSettlementAllocation) : Z :=
  if (al_source_type a =? t)%py then al_amount a else 0.

Lemma period_summary_sum (pick : SettlementSummaryRow -> Z) t client d p :
  (forall q c rows, pick (summary_row q c rows) = total_of_source t rows) ->
  sum_of pick (period_summary client d p) =
  sum_of (source_amount t) (List.filter (fun a => (al_settlement_period_id a =? bp_id p)%py)
    (List.filter (fun a => match str_or_none client with
                           | Some c => (al_client_id a =? c)%py
                           | None => true
                           end) (allocations (billing d)))).
Proof.
  intros Hpick. unfold period_summary. rewrite filter_and. set (rows := List.filter _ (List.filter _ _)).
  rewrite sum_of_map.
  transitivity (sum_of (fun c => sum_of (source_amount t)
    (List.filter (fun a => (al_currency a =? c)%py) rows)) (remove_dups (map al_currency rows))).
  { apply sum_of_ext, List.Forall_forall. intros c _. by rewrite Hpick. }
  rewrite (sum_by_group al_currency) by apply NoDup_ListNoDup, NoDup_remove_dups.
  rewrite filter_all; [done|]. apply List.Forall_forall. intros a Ha. apply bool_decide_eq_true.
  apply elem_of_remove_dups, list_elem_of_In, in_map, Ha.
Qed.

(** The settlement summary loses and invents no money: over its rows the totals of
    payments, of credits and of refunds are the sums of the amounts of the allocations to
    the periods of the window (of the client, when one is named). *)
Theorem settlement_summary_conserves `{Timezone} date_from date_to client (s : session Db) :
  List.NoDup (map bp_id (periods (live s))) ->
  exists rows, list_settlement_summary date_from date_to client s = (Ok rows, s) /\
    let selected := reported date_from date_to client (live s) in
    sum_of ss_total_payments rows = sum_of (source_amount SettlementSourceType.PAYMENT) selected /\
    sum_of ss_total_credits rows = sum_of (source_amount SettlementSourceType.CREDIT_NOTE) selected /\
    sum_of ss_total_refunds rows = sum_of (source_amount SettlementSourceType.REFUND) selected.
Proof.
  intros Hn. eexists. split; [reflexivity|]. cbv zeta.
  assert (forall (pick : SettlementSummaryRow -> Z) t,
    (forall q c rows, pick (summary_row q c rows) = total_of_source t rows) ->
    sum_of pick (List.flat_map (period_summary client (live s))
      (sort_on bp_start_at (List.filter (fun p => (day_start date_from <=? bp_start_at p) &&
        (bp_start_at p <=? day_end date_to)) (billing_periods (billing (live s)))))) =
    sum_of (source_amount t) (reported date_from date_to client (live s))) as Hsum.
  { intros pick t Hpick. rewrite sum_of_flat_map.
    rewrite (sum_of_perm _ _ _ (sort_on_perm bp_start_at _)).
    rewrite (sum_of_ext _ (fun p => sum_of (source_amount t)
      (List.filter (fun a => (al_settlement_period_id a =? bp_id p)%py)
        (List.filter (fun a => match str_or_none client with
                               | Some c => (al_client_id a =? c)%py
                               | None => true
                               end) (allocations (billing (live s)))))))
      by (apply List.Forall_forall; intros p _; by apply period_summary_sum).
    unfold reported. rewrite <- (sum_by_group al_settlement_period_id).
    - by rewrite sum_of_map.
    - clear -Hn. induction (periods (live s)) as [|p l IH]; simpl in *; [done|].
      apply List.NoDup_cons_iff in Hn as [Hp Hn]. destruct (_ && _); simpl; [|by apply IH].
      apply List.NoDup_cons_iff. split; [|by apply IH]. intros (q & Hq & [Hin _]%filter_In)%in_map_iff.
      apply Hp. rewrite <- Hq. by apply in_map. }
  split; [|split]; by apply Hsum.
Qed.

(** ** Witnesses *)

Definition finance_token : token := MkToken (ManyRoles ["ADMIN_FINANCE"]) None (IntTenant 1) None (Some "admin-1") None None.

Lemma empty_periods_ok : periods_ok demo_world 0 (saved (fresh_session empty_db)).
Proof. constructor; [constructor|constructor|by intros k _ []]. Qed.

Definition demo_requests : list period_request :=
  [Settle 5; Finalize BillingPeriodType.DAILY 0 86399999999 (Some finance_token); Settle 7;
   Lock BillingPeriodType.DAILY 0 86399999999 (Some finance_token);
   Finalize BillingPeriodType.DAILY 0 86399999999 None].

Lemma period_lifecycle_witness :
  let d := saved (serve_periods demo_world (H := utc) demo_requests (fresh_session empty_db)) in
  List.NoDup (map period_key (periods d)) /\
  map (fun p => (bp_period_type p, bp_status p)) (periods d) =
    [(BillingPeriodType.DAILY, BillingPeriodStatus.LOCKED); (BillingPeriodType.ADHOC, BillingPeriodStatus.OPEN)].
Proof.
  split; [|vm_compute; reflexivity].
  apply (period_lifecycle demo_world (H := utc) (fun _ _ => eq_refl) demo_uuids_distinct demo_requests
    (fresh_session empty_db) eq_refl empty_periods_ok).
Defined.

Lemma settlement_period_resolved_witness :
  exists p t, resolve_settlement_period demo_world (H := utc) 5 (fresh_session empty_db) = (Ok p, t) /\
    bp_start_at p <= 5 <= bp_end_at p /\
    resolve_settlement_period demo_world (H := utc) 5 t = (Ok p, t).
Proof.
  destruct (settlement_period_resolved demo_world (H := utc) (fun _ _ => eq_refl) demo_uuids_distinct 5
    (fresh_session empty_db) empty_periods_ok) as (p & t & Hr & _ & Hb & _ & _ & _ & Hagain).
  exists p, t. split; [exact Hr|]. split; [exact Hb|exact Hagain].
Defined.

Definition demo_allocation (id currency : string) (t : SettlementSourceType.SettlementSourceType) (amount : Z)
    : InvoiceSettlementAllocation :=
  MkInvoiceSettlementAllocation id "inv" 1 "client" "p" t id amount currency 5 None.

Definition demo_settled_db : Db :=
  on_billing_periods (fun _ => [MkBillingPeriod "p" BillingPeriodType.DAILY 0 86399999999 "UTC"
    BillingPeriodStatus.OPEN None None])
  (on_allocations (fun _ => [demo_allocation "a" "RUB" SettlementSourceType.PAYMENT 100;
     demo_allocation "b" "USD" SettlementSourceType.PAYMENT 7;
     demo_allocation "c" "RUB" SettlementSourceType.REFUND 30]) empty_db).

Lemma settlement_summary_conserves_witness :
  exists rows, list_settlement_summary (H := utc) 0 0 None (fresh_session demo_settled_db) =
      (Ok rows, fresh_session demo_settled_db) /\
    length rows = 2%nat /\ sum_of ss_total_payments rows = 107.
Proof.
  destruct (settlement_summary_conserves (H := utc) 0 0 None (fresh_session demo_settled_db))
    as (rows & Hr & Hp & _); [repeat constructor; intros []|].
  exists rows. split; [exact Hr|]. split; [|exact Hp].
  vm_compute in Hr. injection Hr as <-. reflexivity.
Defined.
