(* ===== verification/Effects.v ===== *)
(** * What calls change

    Frame reasoning for the services: relations between the session before a call and the
    session after it, which hold whether the call returns or raises ([always]) or when it
    returns ([on_return]); the tables a call leaves alone ([within]); and the frames of the
    calls of the audit trail, the ledger, the periods and the policy. *)
From S2P Require Import Prelude Enums Models AuditTrail FinanceRules InternalLedger Decisions InvoiceMachine.
From S2P Require Import Policy BillingPeriods.

(** ** Relations between sessions *)

(** A relation that composes, and that does not look at clocks and counters. *)
Class Frame (R : relation (session Db)) := {
  frame_preorder :: PreOrder R;
  frame_same s t : live t = live s -> saved t = saved s -> (uuids s <= uuids t)%nat -> R s t;
}.

Definition always {A} (R : relation (session Db)) (m : PM A) : Prop := forall s, R s (m s).2.

Definition on_return {A} (R : relation (session Db)) (m : PM A) : Prop :=
  forall s a t, m s = (Ok a, t) -> R s t.

(** A call that never returns. *)
Definition fails {A} (m : PM A) : Prop := forall s, exists e t, m s = (Raise e, t).

Section Always.
Context (R : relation (session Db)) `{!Frame R}.

Lemma always_ret {A} (a : A) : always R (mret a).
Proof. intros s. reflexivity. Qed.

Lemma always_raise {A} e : always (A := A) R (raise e).
Proof. intros s. reflexivity. Qed.

Lemma always_gets {A} (f : Db -> A) : always R (gets f).
Proof. intros s. reflexivity. Qed.

Lemma always_bind {A B} (m : PM A) (f : A -> PM B) :
  always R m -> (forall a, always R (f a)) -> always R (m ≫= f).
Proof.
  intros Hm Hf s. specialize (Hm s). unfold mbind, M_bind.
  destruct (m s) as [[a|e] t]; simpl in *; [|done]. etrans; [exact Hm|apply Hf].
Qed.

Lemma always_when b m : always R m -> always R (when b m).
Proof. destruct b; [done|]. intros _. apply always_ret. Qed.

Lemma always_try {A} (m : PM A) h :
  always R m -> (forall e k, h e = Some k -> always R k) -> always R (try_except m h).
Proof.
  intros Hm Hh s. specialize (Hm s). unfold try_except.
  destruct (m s) as [[a|e] t]; simpl in *; [done|].
  destruct (h e) as [k|] eqn:He; [|done]. etrans; [exact Hm|by apply (Hh e k He)].
Qed.

Lemma always_now W : always R (now W).
Proof. intros s. by apply frame_same. Qed.

Lemma always_uuid4 W : always R (uuid4 W).
Proof. intros s. apply frame_same; simpl; [done|done|lia]. Qed.

Lemma always_race W : alone W -> always R (race (E := exn) W).
Proof. intros HW s. rewrite race_alone by done. by apply frame_same. Qed.

Lemma always_one_or_none {A} (table : Db -> list A) P : always R (q_one_or_none table P).
Proof. intros s. rewrite one_or_none_run. reflexivity. Qed.

Lemma always_for_each {A B} (l : list A) (f : A -> PM B) :
  (forall a, always R (f a)) -> always R (for_each l f).
Proof.
  intros Hf. induction l as [|a l IH]; simpl; [apply always_ret|].
  apply always_bind; [done|]. intros b. apply always_bind; [done|]. intros bs. apply always_ret.
Qed.

Lemma always_fold_each {A B} (f : B -> A -> PM B) l :
  (forall b a, always R (f b a)) -> forall b, always R (fold_each f b l).
Proof.
  intros Hf. induction l as [|a l IH]; intros b; simpl; [apply always_ret|].
  apply always_bind; [done|]. intros b'. apply IH.
Qed.
End Always.

Lemma always_mono {A} (R S : relation (session Db)) (m : PM A) :
  (forall s t, R s t -> S s t) -> always R m -> always S m.
Proof. intros HRS Hm s. by apply HRS. Qed.

Lemma fails_raise {A} e : fails (A := A) (raise e).
Proof. intros s. by exists e, s. Qed.

Lemma fails_after {A B} (m : PM A) (k : PM B) : fails k -> fails (m;; k).
Proof.
  intros Hk s. unfold mbind, M_bind. destruct (m s) as [[a|e] t]; [apply Hk|by exists e, t].
Qed.

Section OnReturn.
Context (R : relation (session Db)) `{!Frame R}.

Lemma on_return_always {A} (m : PM A) : always R m -> on_return R m.
Proof. intros Hm s a t Hrun. specialize (Hm s). by rewrite Hrun in Hm. Qed.

Lemma on_return_bind {A B} (m : PM A) (f : A -> PM B) :
  on_return R m -> (forall a, on_return R (f a)) -> on_return R (m ≫= f).
Proof.
  intros Hm Hf s b t Hrun. apply bind_inv_ok in Hrun as (a & u & Ha & Hb).
  etrans; [by eapply Hm|by eapply Hf].
Qed.

Lemma on_return_when b m : on_return R m -> on_return R (when b m).
Proof. destruct b; [done|]. intros _. apply on_return_always, always_ret, _. Qed.

(** The handlers only clean up before they raise. *)
Lemma try_fails_inv {A} (m : PM A) h s a t :
  (forall e k, h e = Some k -> fails k) -> try_except m h s = (Ok a, t) -> m s = (Ok a, t).
Proof.
  intros Hh. unfold try_except. destruct (m s) as [[b|e] u]; [done|].
  destruct (h e) as [k|] eqn:He; [|done]. intros Hk. destruct (Hh e k He u) as (e' & u' & Hf).
  by rewrite Hf in Hk.
Qed.

Lemma on_return_try {A} (m : PM A) h :
  on_return R m -> (forall e k, h e = Some k -> fails k) -> on_return R (try_except m h).
Proof. intros Hm Hh s a t Hrun. by eapply Hm, try_fails_inv. Qed.

Lemma on_return_fails {A} (m : PM A) : fails m -> on_return R m.
Proof. intros Hm s a t Hrun. destruct (Hm s) as (e & u & Hf). by rewrite Hf in Hrun. Qed.
End OnReturn.

(** ** The tables a call leaves alone *)

(** Nothing is committed, and what [k] reads of the tables does not change. *)
Definition within {K} (k : Db -> K) (s t : session Db) : Prop :=
  saved t = saved s /\ k (live t) = k (live s) /\ (uuids s <= uuids t)%nat.

#[export] Instance within_frame {K} (k : Db -> K) : Frame (within k).
Proof.
  split.
  - split; [done|]. intros s t u (A1 & B1 & C1) (A2 & B2 & C2). repeat split; [congruence..|lia].
  - intros s t Hl Hs Hu. split; [done|]. split; [by rewrite Hl|done].
Qed.

(** What [k] reads does not depend on a table. *)
Class Ignores {A K} (k : Db -> K) (on_table : (list A -> list A) -> Db -> Db) :=
  ignores f d : k (on_table f d) = k d.

#[export] Hint Extern 0 (Ignores _ _) => (intros ? ?; reflexivity) : typeclass_instances.

Lemma within_modify {A K} (k : Db -> K) on_table (f : list A -> list A) :
  Ignores k on_table -> always (within k) (modify (on_table f)).
Proof. intros Hk s. split; [done|]. split; [apply Hk|done]. Qed.

Create HintDb effects.
#[export] Hint Resolve always_ret always_raise always_gets always_now always_uuid4 always_race
  always_one_or_none within_modify : effects.

(** One step through a call: its structure is taken apart, and a call with a known frame
    is closed by the hints. *)
Ltac effect_step :=
  match goal with
  | |- always _ (mbind _ _) => apply always_bind; [apply _| |intros ?]
  | |- always _ (when _ _) => apply always_when; [apply _|]
  | |- always _ (try_except _ _) =>
      apply always_try; [apply _| |let H := fresh "Hhandler" in intros [] ? H; try discriminate H;
        injection H as <-]
  | |- always _ (for_each _ _) => apply always_for_each; [apply _|intros ?]
  | |- always _ (fold_each _ _ _) => apply always_fold_each; [apply _|intros ? ?]
  | |- always _ (let '_ := ?x in _) => destruct x
  | |- always _ (if ?b then _ else _) => destruct b
  | |- always _ (match ?x with _ => _ end) => destruct x
  | |- always _ (match ?x with _ => _ end _) => destruct x
  | |- always _ _ => solve [eauto with effects typeclass_instances]
  end.
Ltac effects := cbv beta zeta; repeat (effect_step; cbv beta zeta).

(** ** The frames of the services *)

Section Frames.
Context (W : world Db) (alone_W : alone W) {K : Type} (k : Db -> K).

Lemma within_audit `{!Ignores k on_audit_log} args ctx : always (within k) (audit_call W args ctx).
Proof.
  intros s. pose proof (audit_call_wp W args ctx s (fun _ => within k s) (fun _ => within k s)) as Hw.
  unfold wp in Hw. destruct (audit_call W args ctx s) as [[r|e] t]; simpl; apply Hw;
    (split; [done|]); (split; [|simpl; lia]); simpl; [apply ignores|done|apply ignores|done].
Qed.

Hint Resolve within_audit : effects.

(** Each check of the invariants reads, and audits at most. *)
Section Checks.
Context `{!Ignores k on_audit_log}.

Lemma within_report {A} b v ctx extra : always (within k) (Checker.report (A := A) W b v ctx extra).
Proof. unfold Checker.report, Checker.audit_violation. effects. Qed.
Hint Resolve within_report : effects.

Lemma within_check_invoice i ctx b : always (within k) (Checker.check_invoice W i ctx b).
Proof. unfold Checker.check_invoice. effects. Qed.

Lemma within_check_payment i amount key ctx b :
  always (within k) (Checker.check_payment_application W i amount key ctx b).
Proof. unfold Checker.check_payment_application. effects. Qed.

Lemma within_check_refund i amount reference ctx b :
  always (within k) (Checker.check_refund W i amount reference ctx b).
Proof. unfold Checker.check_refund. effects. Qed.

Lemma within_check_allocation i amount period ty source override ctx b :
  always (within k) (Checker.check_settlement_allocation W i amount period ty source override ctx b).
Proof. unfold Checker.check_settlement_allocation. effects. Qed.

Lemma within_enforce t action resource : always (within k) (PolicyEngine.enforce W t action resource).
Proof. unfold PolicyEngine.enforce, PolicyEngine.audit_access_denied. effects. Qed.
End Checks.

(** The internal ledger. *)
Section Ledger.
Context `{!Ignores k on_audit_log, !Ignores k on_il_accounts, !Ignores k on_il_transactions,
  !Ignores k on_il_entries}.
Import InternalLedgerService.

Lemma within_ensure_account tenant client ty currency :
  always (within k) (_ensure_account W tenant client ty currency).
Proof. unfold _ensure_account, find_account, insert_account, q_first. effects. Qed.
Hint Resolve within_ensure_account : effects.

Lemma within_get_or_create_transaction tenant ty rt ri key total currency posted meta d c l :
  always (within k) (_get_or_create_transaction W tenant ty rt ri key total currency posted meta d c l).
Proof.
  unfold _get_or_create_transaction, find_transaction, _next_batch_sequence, _last_batch_hash,
    insert_transaction, q_first. effects.
Qed.
Hint Resolve within_get_or_create_transaction : effects.

Lemma within_post_entries txn entries currency :
  always (within k) (_post_entries W txn entries currency).
Proof.
  unfold _post_entries, serialize_entry, account_of, add_entry, _emit_audit_event, q_all. effects.
Qed.
Hint Resolve within_post_entries : effects.

Lemma within_post_transaction tenant ty rt ri key posted meta entries :
  always (within k) (post_transaction W tenant ty rt ri key posted meta entries).
Proof. unfold post_transaction, build_line. effects. Qed.
Hint Resolve within_post_transaction : effects.

Lemma within_post_payment i p tenant : always (within k) (post_payment_applied W i p tenant).
Proof. unfold post_payment_applied. effects. Qed.

Lemma within_post_credit_note i c tenant : always (within k) (post_credit_note_applied W i c tenant).
Proof. unfold post_credit_note_applied. effects. Qed.

Lemma within_post_refund i c tenant : always (within k) (post_refund_applied W i c tenant).
Proof. unfold post_refund_applied. effects. Qed.
End Ledger.

(** The settlement periods. *)
Lemma within_resolve `{Timezone} `{!Ignores k on_billing_periods} event_at :
  always (within k) (BillingPeriodService.resolve_settlement_period W event_at).
Proof.
  unfold BillingPeriodService.resolve_settlement_period, BillingPeriodService.get_or_create,
    BillingPeriodService.insert_period, q_first. effects.
Qed.

(** A change of an invoice's status, when the decision engine is not asked. *)
Lemma within_transition `{DecisionService} `{!Ignores k on_audit_log, !Ignores k on_invoices,
    !Ignores k on_transition_logs} i to actor reason p c r md ctx :
  to <> InvoiceStatus.ISSUED ->
  always (within k) (InvoiceStateMachine.transition W i to actor reason p c r md ctx).
Proof.
  intros Hto. unfold InvoiceStateMachine.transition, InvoiceStateMachine.period_guard,
    InvoiceStateMachine._validate_allowed, InvoiceStateMachine._apply_amounts,
    InvoiceStateMachine._validate_constraints, InvoiceStateMachine.assign, InvoiceStateMachine._log_transition.
  rewrite (proj2 (bool_decide_eq_false (to = InvoiceStatus.ISSUED)) Hto : (to =? InvoiceStatus.ISSUED)%py = false).
  cbn [when]. effects.
Qed.
End Frames.

#[export] Hint Resolve within_audit within_report within_check_invoice within_check_payment within_check_refund
  within_check_allocation within_enforce within_post_payment within_post_credit_note within_post_refund
  within_resolve : effects.

(** ** Rows that a loop adds *)
Section InsertAll.
Context (W : world Db) (uuids_distinct : forall n m, new_uuid W n = new_uuid W m -> n = m).
Context {A B C : Type} (table : Db -> list A) (on_table : (list A -> list A) -> Db -> Db).
Context (clash conflict : A -> A -> bool) (name : string) (pk : A -> string) (make : B -> string -> A) (g : A -> C).
Hypothesis table_on : forall f d, table (on_table f d) = f (table d).
Hypothesis clash_is : forall a r, clash a r = (pk r =? pk a)%py || conflict a r.
Hypothesis pk_made : forall b id, pk (make b id) = id.
Hypothesis conflict_made : forall b i j r, conflict (make b i) r = conflict (make b j) r.

(** The row of each element, with the identifiers drawn in turn. *)
Fixpoint made (n : nat) (l : list B) : list A :=
  match l with [] => [] | b :: l => make b (new_uuid W n) :: made (S n) l end.

Definition no_conflict (a : A) (r : A) : Prop := conflict a r = false.

(** A row that conflicts with none and has a new identifier is added. *)
Lemma insert_fresh_run b (s : session Db) : unused W (uuids s) pk (table (live s)) ->
  (forall r, In r (table (live s)) -> no_conflict (make b (new_uuid W (uuids s))) r) ->
  (id ← uuid4 W; insert_row table on_table clash name (make b id)) s =
  (Ok (make b (new_uuid W (uuids s))), Session (on_table (fun l => l ++ [make b (new_uuid W (uuids s))]) (live s)) (saved s)
     (ticks s) (S (uuids s)) (races s)).
Proof.
  intros Hu Hc. unfold insert_row, q_first. run_steps.
  rewrite (filter_none (clash _)); [done|]. apply List.Forall_forall. intros r Hr.
  rewrite clash_is, (Hc r Hr), pk_made, orb_false_r. apply bool_decide_eq_false. intros E.
  apply (Hu (uuids s)); [done|]. rewrite <- E. by apply in_map.
Qed.

Context (body : B -> PM C).
Hypothesis body_is : forall b s row t, (id ← uuid4 W; insert_row table on_table clash name (make b id)) s = (Ok row, t) ->
  body b s = (Ok (g row), t).

Lemma insert_all_run l : forall s, unused W (uuids s) pk (table (live s)) ->
  (forall b r, In b l -> In r (table (live s)) -> no_conflict (make b "") r) ->
  ForallOrdPairs (fun b b' => forall id, no_conflict (make b' "") (make b id)) l ->
  exists t, for_each l body s = (Ok (map g (made (uuids s) l)), t) /\
    table (live t) = table (live s) ++ made (uuids s) l /\ saved t = saved s /\ uuids t = (length l + uuids s)%nat /\
    ticks t = ticks s /\ races t = races s /\
    forall K (k : Db -> K), Ignores k on_table -> k (live t) = k (live s).
Proof.
  induction l as [|b l IH]; intros s Hu Hc Hp; simpl.
  - exists s. rewrite app_nil_r. by repeat split.
  - inversion Hp as [|? ? Hb Hl]; subst. set (row := make b (new_uuid W (uuids s))).
    assert ((id ← uuid4 W; insert_row table on_table clash name (make b id)) s =
      (Ok row, Session (on_table (fun l => l ++ [row]) (live s)) (saved s) (ticks s) (S (uuids s)) (races s))) as Hrun.
    { apply insert_fresh_run; [done|]. intros r Hr. unfold no_conflict. rewrite (conflict_made b _ ""). apply Hc; [by left|done]. }
    apply body_is in Hrun. set (s1 := Session _ _ _ _ _) in Hrun.
    destruct (IH s1) as (t & Ht & Htab & Hsv & Hids & Htk & Hrc & Hk).
    + unfold s1. cbn [live uuids]. rewrite table_on. apply (unused_snoc W uuids_distinct (uuids s)); [lia|apply pk_made|done].
    + unfold s1. cbn [live]. rewrite table_on. intros b' r Hb' [Hr|[<-|[]]]%in_app_iff; [apply Hc; [by right|done]|].
      rewrite List.Forall_forall in Hb. by apply Hb.
    + done.
    + exists t. split; [|split; [|split; [done|split; [cbn in Hids; lia|split; [done|split; [done|]]]]]].
      * rewrite (bind_ok _ _ s (g row) s1 Hrun), (bind_ok _ _ s1 _ t Ht). done.
      * rewrite Htab. unfold s1. cbn [live uuids]. by rewrite table_on, <- app_assoc.
      * intros K k Hkk. rewrite (Hk K k Hkk). unfold s1. cbn [live]. apply Hkk.
Qed.

Lemma made_forall2 (P : B -> A -> Prop) l : (forall b id, P b (make b id)) -> forall n, Forall2 P l (made n l).
Proof. intros HP. induction l as [|b l IH]; intros n; constructor; auto. Qed.
End InsertAll.
