(* ===== verification/Payouts.v ===== *)
(** * Payout batches of partners

    services/payouts_service.py and the endpoints of api/v1/endpoints/payouts.py that close a
    period into a batch, send, settle and reconcile it.  The files of exports are not
    modelled. *)
From S2P Require Import Prelude Json Enums Models AuditTrail Policy BillingPeriods Effects CardHistories.

(** [str] of a Numeric(18,2). *)
Definition numeric_text (d : decimal) : string :=
  let cents := Z.quot (Z.abs d) 100 in
  (if d <? 0 then "-" else "") +:+ print_int (cents / 100) +:+ "." +:+
  print_int (cents mod 100 / 10) +:+ print_int (cents mod 10).

Module PayoutsService.
Record PayoutReconcileResult := MkPayoutReconcileResult {
  prc_batch : PayoutBatch;
  prc_computed_amount : decimal;
  prc_computed_count : Z;
  prc_recorded_amount : decimal;
  prc_recorded_count : Z;
}.

(** [PayoutBatchResult], or the batch itself where the code returns that. *)
Inductive close_result :=
| PayoutBatchResult (batch : PayoutBatch) (created : bool)
| BareBatch (batch : PayoutBatch).

Record PayoutStateResult := MkPayoutStateResult {
  psr_batch : PayoutBatch;
  psr_previous_state : PayoutBatchState.PayoutBatchState;
  psr_is_replay : bool;
}.

Definition batches (d : Db) : list PayoutBatch := payout_batches (settle d).

(** [coalesce(amount_settled, amount)] *)
Definition amount_expr (o : Operation) : Z := default (op_amount o) (op_amount_settled o).

Definition same_period (tenant_id : Z) (partner_id : string) (date_from date_to : Z) (b : PayoutBatch) : bool :=
  (pbt_tenant_id b =? tenant_id) && (pbt_partner_id b =? partner_id)%py &&
  (pbt_date_from b =? date_from) && (pbt_date_to b =? date_to).

(** The primary key and uq_payout_batches_period. *)
Definition same_batch (a b : PayoutBatch) : bool :=
  (pbt_id b =? pbt_id a)%py || same_period (pbt_tenant_id a) (pbt_partner_id a) (pbt_date_from a) (pbt_date_to a) b.

(** The other batches of a reference; uq_payout_batches_provider_external_ref. *)
Definition other_of_ref (batch_id provider external_ref : string) (b : PayoutBatch) : bool :=
  (pbt_provider b =? Some provider)%py && (pbt_external_ref b =? Some external_ref)%py && (pbt_id b <>? batch_id)%py.

Definition has_ref (provider external_ref : string) (b : PayoutBatch) : bool :=
  (pbt_provider b =? Some provider)%py && (pbt_external_ref b =? Some external_ref)%py.

Definition find_batch (batch_id : string) : PM PayoutBatch :=
  batch ← q_one_or_none batches (fun b => (pbt_id b =? batch_id)%py);
  match batch with
  | None => raise (PayoutError "batch_not_found")
  | Some batch => mret batch
  end.

Definition reread (b : PayoutBatch) : PM PayoutBatch := q_one batches (fun r => (pbt_id r =? pbt_id b)%py).

Definition assign (f : PayoutBatch -> PayoutBatch) (b : PayoutBatch) : PM unit :=
  modify (on_payout_batches (update_row pbt_id b f)).

Definition items_of (b : PayoutBatch) (d : Db) : list PayoutItem :=
  List.filter (fun i => (pit_batch_id i =? pbt_id b)%py) (payout_items (settle d)).

Section Service.
Context (W : world Db) `{Timezone} `{DatabaseZone}.

(** The operations that a payout of a partner pays. *)
Definition _operations_query (partner_id : string) (date_from date_to : Z) (o : Operation) : bool :=
  (op_merchant_id o =? partner_id)%py &&
  bool_decide (op_status o ∈ [OperationStatus.CAPTURED; OperationStatus.COMPLETED]) &&
  (date_from <=? db_date (op_created_at o)) && (db_date (op_created_at o) <=? date_to).

Definition operations_of (partner_id : string) (date_from date_to : Z) (d : Db) : list Operation :=
  List.filter (_operations_query partner_id date_from date_to) (operations (scenario d)).

(** The batch and its item, flushed: the identifiers are drawn in this order. *)
Definition insert_batch (make : string -> Z -> PayoutBatch) (item : string -> string -> PayoutItem) : PM PayoutBatch :=
  id ← uuid4 W;
  item_id ← uuid4 W;
  created_at ← now W;
  race W;;
  batch ← insert_row batches on_payout_batches same_batch "uq_payout_batches_period" (make id created_at);
  insert_row (fun d => payout_items (settle d)) on_payout_items (fun a b => (pit_id b =? pit_id a)%py)
    "payout_items_pkey" (item item_id id);;
  mret batch.

(** The batch that another session has made in the meantime. *)
Definition concurrent_batch (tenant_id : Z) (partner_id : string) (date_from date_to : Z) : PM PayoutBatch :=
  rollback;;
  existing ← q_one_or_none batches (same_period tenant_id partner_id date_from date_to);
  match existing with
  | Some existing => mret existing
  | None => raise (PayoutError "payout_batch_create_failed")
  end.

Definition close_payout_period (tenant_id : Z) (partner_id : string) (date_from date_to : Z) (t : option token)
    : PM close_result :=
  if date_to <? date_from then raise (ValueError "invalid_period") else
  let '(period_start, period_end) := BillingPeriodService.period_bounds_for_dates date_from date_to in
  period ← BillingPeriodService.get_or_create W BillingPeriodType.ADHOC period_start period_end tz_name;
  PolicyEngine.enforce W t Action.PAYOUT_EXPORT_CREATE
    (MkResourceContext "PAYOUT_BATCH" (int_or (actor_tenant_id (actor_from_token t)) tenant_id) None
       (Some (BillingPeriodStatus.value (bp_status period))));;
  if negb (bool_decide (bp_status period ∈ [BillingPeriodStatus.FINALIZED; BillingPeriodStatus.LOCKED]))
  then raise (PayoutError "billing_period_not_finalized") else
  existing ← q_one_or_none batches (same_period tenant_id partner_id date_from date_to);
  match existing with
  | Some existing => mret (PayoutBatchResult existing false)
  | None =>
      rows ← gets (operations_of partner_id date_from date_to);
      let total_amount := dec_of_int (sum_of amount_expr rows) in
      let total_qty := sum_of (fun o => default 0 (op_quantity o)) rows in
      let operations_count := Z.of_nat (length rows) in
      flushed ← try_except
        (batch ← insert_batch
          (fun id created_at => MkPayoutBatch id tenant_id partner_id date_from date_to PayoutBatchState.READY
             total_amount total_qty operations_count created_at None None None None
             (Some (JDict [("billing_period_id", JStr (bp_id period))])))
          (fun id batch_id => MkPayoutItem id batch_id total_amount 0 total_amount total_qty operations_count);
         mret (inl batch))
        (fun e => match e with
                  | IntegrityError _ => Some (
                      existing ← concurrent_batch tenant_id partner_id date_from date_to;
                      mret (inr existing))
                  | _ => None
                  end);
      match flushed with
      | inr existing => mret (BareBatch existing)
      | inl batch => commit;; batch ← reread batch; mret (PayoutBatchResult batch true)
      end
  end.

(** [PayoutBatch.state == state], when the text names a state. *)
Definition state_named (state : string) : option PayoutBatchState.PayoutBatchState :=
  head (List.filter (fun s => (PayoutBatchState.value s =? state)%py)
    [PayoutBatchState.DRAFT; PayoutBatchState.READY; PayoutBatchState.SENT; PayoutBatchState.SETTLED; PayoutBatchState.FAILED]).

(** [order_by(date_from.desc(), created_at.desc())] *)
Definition newest_first (a b : PayoutBatch) : Prop :=
  pbt_date_from b < pbt_date_from a \/ (pbt_date_from a = pbt_date_from b /\ pbt_created_at b <= pbt_created_at a).

#[global] Instance newest_first_dec : RelDecision newest_first.
Proof. intros a b. unfold newest_first. apply _. Defined.

Definition list_payout_batches (partner_id state : option string) (date_from date_to : option Z) (limit offset : nat)
    : PM (list PayoutBatch * Z) :=
  state ← match str_or_none state with
          | None => mret None
          | Some name => match state_named name with
                         | Some s => mret (Some s)
                         | None => raise (StatementError "payout_batches.state")
                         end
          end;
  rows ← q_all batches (fun b =>
    match str_or_none partner_id with Some p => (pbt_partner_id b =? p)%py | None => true end &&
    match state with Some s => (pbt_state b =? s)%py | None => true end &&
    match date_from with Some d => d <=? pbt_date_from b | None => true end &&
    match date_to with Some d => pbt_date_to b <=? d | None => true end);
  mret (take limit (drop offset (merge_sort newest_first rows)), Z.of_nat (length rows)).

Definition load_payout_batch (batch_id : string) : PM (option PayoutBatch) :=
  q_one_or_none batches (fun b => (pbt_id b =? batch_id)%py).

(** The columns are flushed by the commit, which checks the unique reference. *)
Definition commit_ref (batch_id provider external_ref : string) : PM unit :=
  try_except
    (race W;;
     clash ← q_first batches (other_of_ref batch_id provider external_ref);
     match clash with
     | Some _ => raise (IntegrityError "uq_payout_batches_provider_external_ref")
     | None => commit
     end)
    (fun e => match e with
              | IntegrityError _ => Some (rollback;; raise (PayoutConflictError "external_ref_conflict"))
              | _ => None
              end).

Definition mark_batch_sent (batch_id provider external_ref : string) : PM PayoutStateResult :=
  batch ← find_batch batch_id;
  if bool_decide (pbt_state batch ∈ [PayoutBatchState.SENT; PayoutBatchState.SETTLED]) then
    if has_ref provider external_ref batch then mret (MkPayoutStateResult batch (pbt_state batch) true)
    else raise (PayoutConflictError "external_ref_conflict")
  else if (pbt_state batch <>? PayoutBatchState.READY)%py then raise (PayoutError "invalid_state") else
  conflict ← q_one_or_none batches (other_of_ref batch_id provider external_ref);
  match conflict with
  | Some _ => raise (PayoutConflictError "external_ref_conflict")
  | None =>
      sent_at ← now W;
      assign (fun b => set_pbt_sent_at (Some sent_at) (set_pbt_external_ref (Some external_ref)
        (set_pbt_provider (Some provider) (set_pbt_state PayoutBatchState.SENT b)))) batch;;
      commit_ref batch_id provider external_ref;;
      b ← reread batch;
      mret (MkPayoutStateResult b (pbt_state batch) false)
  end.

Definition mark_batch_settled (batch_id provider external_ref : string) (t : option token) : PM PayoutStateResult :=
  batch ← find_batch batch_id;
  PolicyEngine.enforce W t Action.PAYOUT_EXPORT_CONFIRM
    (MkResourceContext "PAYOUT_BATCH" (int_or (actor_tenant_id (actor_from_token t)) (pbt_tenant_id batch)) None None);;
  if (pbt_state batch =? PayoutBatchState.SETTLED)%py then
    if has_ref provider external_ref batch then mret (MkPayoutStateResult batch (pbt_state batch) true)
    else raise (PayoutConflictError "external_ref_conflict")
  else if (pbt_state batch <>? PayoutBatchState.SENT)%py then raise (PayoutError "invalid_state") else
  if negb (has_ref provider external_ref batch) then raise (PayoutConflictError "external_ref_conflict") else
  settled_at ← now W;
  assign (fun b => set_pbt_settled_at (Some settled_at) (set_pbt_state PayoutBatchState.SETTLED b)) batch;;
  commit_ref batch_id provider external_ref;;
  b ← reread batch;
  mret (MkPayoutStateResult b (pbt_state batch) false).

Definition reconcile_batch (batch_id : string) : PM PayoutReconcileResult :=
  batch ← find_batch batch_id;
  rows ← gets (operations_of (pbt_partner_id batch) (pbt_date_from batch) (pbt_date_to batch));
  items ← gets (items_of batch);
  mret (MkPayoutReconcileResult batch (dec_of_int (sum_of amount_expr rows)) (Z.of_nat (length rows))
    (match items with [] => pbt_total_amount batch | _ => sum_of pit_amount_net items end)
    (match items with [] => pbt_operations_count batch | _ => sum_of pit_operations_count items end)).
End Service.
End PayoutsService.

(** ** The endpoints (api/v1/endpoints/payouts.py) *)
Module PayoutsApi.
Import PayoutsService.

Record PayoutBatchSummary := MkPayoutBatchSummary {
  pbs_batch_id : string;
  pbs_state : string;
  pbs_total_amount : decimal;
  pbs_total_qty : Z;
  pbs_operations_count : Z;
  pbs_items_count : Z;
}.

Definition from_batch (b : PayoutBatch) : PM PayoutBatchSummary :=
  items ← gets (items_of b);
  mret (MkPayoutBatchSummary (pbt_id b) (PayoutBatchState.value (pbt_state b)) (pbt_total_amount b) (pbt_total_qty b)
    (pbt_operations_count b) (Z.of_nat (length items))).

Record PayoutReconcileResponse := MkPayoutReconcileResponse {
  prr_result : PayoutReconcileResult;
  prr_diff_amount : decimal;
  prr_diff_count : Z;
  prr_status : string;
}.

Section Api.
Context (W : world Db) `{Timezone} `{DatabaseZone}.

Definition audit_batch (event_type entity_id action : string) (before after external_refs : option pydict)
    (request_ctx : RequestContext) : PM unit :=
  audit_call W (MkAuditArgs event_type "payout_batch" entity_id action AuditVisibility.INTERNAL before after None
    external_refs None None) (Some request_ctx);;
  mret tt.

(** The record of a refusal names no batch, but the column is not nullable. *)
Definition close_period_endpoint (tenant_id : Z) (partner_id : string) (date_from date_to : Z) (t : token)
    (request_ctx : RequestContext) : PM PayoutBatchSummary :=
  result ← try_except (close_payout_period W tenant_id partner_id date_from date_to (Some t))
    (fun e => match e with
              | PolicyAccessDenied _ _ => Some (raise (HTTPFrom 403 e))
              | ValueError m => if (m =? "invalid_period")%py then Some (raise (HTTPException 422 "invalid period")) else None
              | PayoutError m =>
                  if (m =? "billing_period_not_finalized")%py then Some (raise (IntegrityError "audit_log.entity_id"))
                  else Some (raise (HTTPException 400 m))
              | _ => None
              end);
  match result with
  | BareBatch _ => raise (AttributeError "batch")
  | PayoutBatchResult batch created =>
      when created
        (audit_batch "PAYOUT_BATCH_CREATED" (pbt_id batch) "CREATE" None
           (Some [ ("state", PStr (PayoutBatchState.value (pbt_state batch)));
                   ("tenant_id", PInt (pbt_tenant_id batch));
                   ("partner_id", PStr (pbt_partner_id batch));
                   ("total_amount", PStr (numeric_text (pbt_total_amount batch))) ]) None request_ctx);;
      from_batch batch
  end.

Definition list_batches_endpoint (partner_id state : option string) (date_from date_to : option Z) (limit offset : nat)
    : PM (list PayoutBatchSummary * Z) :=
  page ← list_payout_batches partner_id state date_from date_to limit offset;
  items ← for_each page.1 from_batch;
  mret (items, page.2).

Definition get_batch_endpoint (batch_id : string) : PM (PayoutBatch * list PayoutItem) :=
  batch ← load_payout_batch batch_id;
  match batch with
  | None => raise (HTTPException 404 "batch not found")
  | Some batch => items ← gets (items_of batch); mret (batch, items)
  end.

(** The clauses of the two endpoints that move a batch. *)
Definition payout_errors {A} (m : PM A) : PM A :=
  try_except m (fun e =>
    match e with
    | PolicyAccessDenied _ _ => Some (raise (HTTPFrom 403 e))
    | PayoutConflictError _ => Some (raise (HTTPException 409 "external_ref_conflict"))
    | PayoutError m =>
        if (m =? "invalid_state")%py then Some (raise (HTTPException 409 "invalid_state"))
        else Some (raise (HTTPException 404 "batch_not_found"))
    | _ => None
    end).

Definition refs (provider external_ref : option string) : pydict :=
  [("provider", opt_str provider); ("external_ref", opt_str external_ref)].

(** The records of a batch that has moved. *)
Definition audit_moved (result : PayoutStateResult) (event_type action provider external_ref : string)
    (request_ctx : RequestContext) : PM unit :=
  let batch := psr_batch result in
  let state_after := ("state", PStr (PayoutBatchState.value (pbt_state batch))) in
  when (negb (psr_is_replay result))
    (audit_batch "PAYOUT_STATUS_CHANGED" (pbt_id batch) "UPDATE_STATE"
       (Some [("state", PStr (PayoutBatchState.value (psr_previous_state result)))])
       (Some [state_after]) (Some (refs (Some provider) (Some external_ref))) request_ctx;;
     audit_batch event_type (pbt_id batch) action None
       (Some (state_after :: refs (pbt_provider batch) (pbt_external_ref batch))) None request_ctx).

Definition mark_sent_endpoint (batch_id provider external_ref : string) (request_ctx : RequestContext)
    : PM PayoutBatchSummary :=
  result ← payout_errors (mark_batch_sent W batch_id provider external_ref);
  audit_moved result "PAYOUT_SENT" "MARK_SENT" provider external_ref request_ctx;;
  from_batch (psr_batch result).

Definition mark_settled_endpoint (batch_id provider external_ref : string) (t : token) (request_ctx : RequestContext)
    : PM PayoutBatchSummary :=
  result ← payout_errors (mark_batch_settled W batch_id provider external_ref (Some t));
  audit_moved result "PAYOUT_SETTLED" "MARK_SETTLED" provider external_ref request_ctx;;
  from_batch (psr_batch result).

Definition reconcile_endpoint (batch_id : string) (request_ctx : RequestContext) : PM PayoutReconcileResponse :=
  result ← try_except (reconcile_batch batch_id)
    (fun e => match e with PayoutError _ => Some (raise (HTTPException 404 "batch not found")) | _ => None end);
  let diff_amount := prc_computed_amount result - prc_recorded_amount result in
  let diff_count := prc_computed_count result - prc_recorded_count result in
  let status_value := if (diff_amount =? 0) && (diff_count =? 0) then "OK" else "MISMATCH" in
  audit_batch (if (status_value =? "OK")%py then "PAYOUT_RECONCILE_OK" else "PAYOUT_RECONCILE_MISMATCH")
    (pbt_id (prc_batch result)) "RECONCILE" None
    (Some [ ("computed_amount", PStr (print_int (prc_computed_amount result / 10000)));
            ("recorded_amount", PStr (numeric_text (prc_recorded_amount result)));
            ("computed_count", PInt (prc_computed_count result));
            ("recorded_count", PInt (prc_recorded_count result));
            ("status", PStr status_value) ]) None request_ctx;;
  mret (MkPayoutReconcileResponse result diff_amount diff_count status_value).
End Api.
End PayoutsApi.

(** ** What is kept *)
Import PayoutsService.

Definition batch_period (b : PayoutBatch) : Z * string * Z * Z :=
  (pbt_tenant_id b, pbt_partner_id b, pbt_date_from b, pbt_date_to b).

(** What the state of a batch says of its reference and its instants. *)
Definition batch_stage (b : PayoutBatch) : Prop :=
  match pbt_state b with
  | PayoutBatchState.READY =>
      pbt_provider b = None /\ pbt_external_ref b = None /\ pbt_sent_at b = None /\ pbt_settled_at b = None
  | PayoutBatchState.SENT =>
      is_Some (pbt_provider b) /\ is_Some (pbt_external_ref b) /\ is_Some (pbt_sent_at b) /\ pbt_settled_at b = None
  | PayoutBatchState.SETTLED =>
      is_Some (pbt_provider b) /\ is_Some (pbt_external_ref b) /\ is_Some (pbt_sent_at b) /\ is_Some (pbt_settled_at b)
  | PayoutBatchState.DRAFT | PayoutBatchState.FAILED => False
  end.

(** A batch has one item, with its totals. *)
Definition one_item (b : PayoutBatch) (d : Db) : Prop :=
  exists i, items_of b d = [i] /\ pit_amount_net i = pbt_total_amount b /\ pit_operations_count i = pbt_operations_count b.

Definition ref_unique (l : list PayoutBatch) : Prop :=
  forall b c r, In b l -> In c l -> pbt_external_ref b = Some r -> pbt_external_ref c = Some r ->
  pbt_provider b = pbt_provider c -> b = c.

Record payouts_ok (d : Db) : Prop := {
  pbt_ids : List.NoDup (map pbt_id (batches d));
  pbt_periods : List.NoDup (map batch_period (batches d));
  pbt_refs : ref_unique (batches d);
  pbt_stages : forall b, In b (batches d) -> batch_stage b;
  pit_known : forall i, In i (payout_items (settle d)) -> In (pit_batch_id i) (map pbt_id (batches d));
  pbt_item : forall b, In b (batches d) -> one_item b d;
}.

Definition batch_step (a b : PayoutBatchState.PayoutBatchState) : Prop :=
  (a, b) ∈ [(PayoutBatchState.READY, PayoutBatchState.SENT); (PayoutBatchState.SENT, PayoutBatchState.SETTLED)].

(** The same batch later: what was paid stays, and so do its reference and its instants. *)
Record batch_later (b c : PayoutBatch) : Prop := {
  later_id : pbt_id c = pbt_id b;
  later_period : batch_period c = batch_period b;
  later_totals : pbt_total_amount c = pbt_total_amount b /\ pbt_total_qty c = pbt_total_qty b /\
    pbt_operations_count c = pbt_operations_count b;
  later_state : rtc batch_step (pbt_state b) (pbt_state c);
  later_ref : is_Some (pbt_external_ref b) ->
    pbt_provider c = pbt_provider b /\ pbt_external_ref c = pbt_external_ref b /\ pbt_sent_at c = pbt_sent_at b;
  later_settled : is_Some (pbt_settled_at b) -> pbt_settled_at c = pbt_settled_at b;
}.

#[global] Instance batch_later_preorder : PreOrder batch_later.
Proof.
  split; [by intros b; split|]. intros a b c [A1 A2 (A3 & A4 & A5) A6 A7 A8] [B1 B2 (B3 & B4 & B5) B6 B7 B8]. split.
  - congruence.
  - congruence.
  - repeat split; congruence.
  - by etrans.
  - intros Ha. destruct (A7 Ha) as (E1 & E2 & E3). rewrite <- E2 in Ha. by destruct (B7 Ha) as (-> & -> & ->).
  - intros Ha. rewrite <- (A8 Ha). apply B8. by rewrite A8.
Qed.

Definition evolves (d d' : Db) : Prop :=
  forall b, In b (batches d) -> exists c, In c (batches d') /\ batch_later b c.

#[global] Instance evolves_preorder : PreOrder evolves.
Proof.
  split; [by intros d b Hb; exists b|]. intros d e f Hde Hef b Hb.
  destruct (Hde b Hb) as (c & Hc & Hbc), (Hef c Hc) as (c' & Hc' & Hcc'). exists c'. split; [done|]. by etrans.
Qed.

(** The tables of payouts. *)
Definition payout_tables (d : Db) := (payout_batches (settle d), payout_items (settle d)).

Lemma payouts_same d d' : payout_tables d' = payout_tables d -> payouts_ok d -> payouts_ok d' /\ evolves d d'.
Proof.
  intros E [H1 H2 H3 H4 H5 H6]. injection E as Eb Ei. unfold evolves, batches in *. rewrite Eb. split.
  - split; unfold batches, one_item, items_of in *; rewrite ?Eb, ?Ei; done.
  - intros b Hb. by exists b.
Qed.

(** A new batch with its item. *)
Lemma payouts_add d b i : payouts_ok d -> List.filter (same_batch b) (batches d) = [] -> batch_stage b ->
  pbt_state b = PayoutBatchState.READY -> pit_batch_id i = pbt_id b -> pit_amount_net i = pbt_total_amount b ->
  pit_operations_count i = pbt_operations_count b ->
  forall d', batches d' = batches d ++ [b] -> payout_items (settle d') = payout_items (settle d) ++ [i] ->
  payouts_ok d' /\ evolves d d'.
Proof.
  intros [H1 H2 H3 H4 H5 H6] Hf Hst Hready Hi Hnet Hcount d' Hb Hit.
  unfold batch_stage in Hst. rewrite Hready in Hst.
  assert (forall c, In c (batches d) -> pbt_id c <> pbt_id b /\ batch_period c <> batch_period b) as Hno.
  { intros c Hc. assert (same_batch b c = false) as Hfc.
    { destruct (same_batch b c) eqn:E; [|done]. assert (In c []) as []. rewrite <- Hf. apply filter_In. by split. }
    unfold same_batch, same_period in Hfc. apply orb_false_iff in Hfc as [Hid Hp]. apply bool_decide_eq_false in Hid.
    split; [done|]. intros [= E1 E2 E3 E4]. unfold eqb in Hp. rewrite E1, E2, E3, E4, !Z.eqb_refl, bool_decide_eq_true_2 in Hp by done. done. }
  assert (items_of b d = []) as Hnone.
  { apply filter_none, List.Forall_forall. intros j Hj. apply bool_decide_eq_false. intros E.
    specialize (H5 j Hj). rewrite E in H5. apply in_map_iff in H5 as (c & Hc & Hin). by destruct (Hno c Hin). }
  split.
  - split; rewrite ?Hb.
    + rewrite map_app. apply nodup_snoc; [done|]. intros (c & Hc & Hin)%in_map_iff. by destruct (Hno c Hin).
    + rewrite map_app. apply nodup_snoc; [done|]. intros (c & Hc & Hin)%in_map_iff. by destruct (Hno c Hin).
    + intros x y r [Hx|[<-|[]]]%in_app_iff [Hy|[<-|[]]]%in_app_iff; [by apply H3| | |done];
        destruct Hst as (_ & E & _); congruence.
    + intros c [Hc|[<-|[]]]%in_app_iff; [by apply H4|]. unfold batch_stage. by rewrite Hready.
    + intros j. rewrite Hit. intros Hj. apply in_app_iff in Hj as [Hj|[<-|[]]]; rewrite map_app, in_app_iff;
      [left; by apply H5|right; by left].
    + intros c [Hc|[<-|[]]]%in_app_iff; unfold one_item, items_of; rewrite Hit, filter_snoc.
      * destruct (H6 c Hc) as (j & Hj & Hrest). exists j. split; [|done].
        rewrite Hi. unfold eqb at 2. rewrite bool_decide_eq_false_2 by (intros E; by destruct (Hno c Hc)).
        rewrite app_nil_r. exact Hj.
      * exists i. split; [|done]. unfold eqb at 2. rewrite bool_decide_eq_true_2 by done.
        unfold items_of in Hnone. by rewrite Hnone.
  - intros c Hc. exists c. rewrite Hb, in_app_iff. split; [by left|reflexivity].
Qed.

(** A batch that moves on. *)
Lemma payouts_move d b f : payouts_ok d -> In b (batches d) -> batch_later b (f b) -> batch_stage (f b) ->
  (forall c r, In c (batches d) -> pbt_id c <> pbt_id b -> pbt_external_ref (f b) = Some r ->
     pbt_external_ref c = Some r -> pbt_provider c <> pbt_provider (f b)) ->
  forall d', batches d' = update_row pbt_id b f (batches d) -> payout_items (settle d') = payout_items (settle d) ->
  payouts_ok d' /\ evolves d d'.
Proof.
  intros [H1 H2 H3 H4 H5 H6] Hb Hlater Hst Href d' Hd Hit.
  assert (forall c, In c (batches d') <-> c = f b \/ In c (batches d) /\ pbt_id c <> pbt_id b) as Hin
    by (intros c; rewrite Hd; by apply update_row_in).
  split.
  - split.
    + rewrite Hd, update_row_column; [done|done|done|]. apply Hlater.
    + rewrite Hd, update_row_column; [done|done|done|]. apply Hlater.
    + intros x y r [->|[Hx Hnx]]%Hin [->|[Hy Hny]]%Hin Ex Ey Ep; [done| | |by eapply H3].
      * by destruct (Href y r Hy Hny Ex Ey).
      * by destruct (Href x r Hx Hnx Ey Ex).
    + intros c [->|[Hc _]]%Hin; [done|by apply H4].
    + intros i. rewrite Hit. intros Hi. rewrite Hd, update_row_column; [by apply H5|done|done|]. apply Hlater.
    + intros c Hc. unfold one_item, items_of. rewrite Hit. apply Hin in Hc as [->|[Hc _]]; [|by apply H6].
      destruct Hlater as [Eid _ (Et & _ & Ec) _ _ _]. rewrite Eid, Et, Ec. by apply H6.
  - intros c Hc. destruct (decide (pbt_id c = pbt_id b)) as [E|E].
    + assert (c = b) as -> by (by apply (nodup_key pbt_id (batches d))). exists (f b). split; [apply Hin; by left|done].
    + exists c. split; [apply Hin; by right|done].
Qed.

(** *** The services *)

Lemma concurrent_run tenant partner date_from date_to Q (R : exn -> session Db -> Prop) u :
  let y := Session (saved u) (saved u) (ticks u) (uuids u) (races u) in
  (forall e, Q e y) -> (forall e, R e y) -> wp (concurrent_batch tenant partner date_from date_to) Q R u.
Proof. intros y HQ HR. eapply wp_step; [reflexivity|].
  apply wp_find; [apply HR|intros _; apply HR|intros r _; apply HQ].
Qed.

Section Services.
Context (W : world Db) (alone_W : alone W) `{Timezone} `{DatabaseZone}.

(** Nothing is changed yet. *)
Definition clean (s0 s : session Db) : Prop :=
  payouts_ok (saved s0) /\ saved s = saved s0 /\ payout_tables (live s) = payout_tables (saved s0).

(** What is committed is right, and has only progressed. *)
Definition progress (s0 t : session Db) : Prop := payouts_ok (saved t) /\ evolves (saved s0) (saved t).

Definition leads {A} (s0 : session Db) (m : PM A) (s : session Db) : Prop :=
  wp m (fun _ t => progress s0 t) (fun _ t => progress s0 t) s.

Lemma clean_progress s0 s : clean s0 s -> progress s0 s.
Proof. intros (Hok & Hs & _). unfold progress. by rewrite Hs. Qed.

Lemma clean_live s0 s : clean s0 s -> payouts_ok (live s) /\ evolves (saved s0) (live s).
Proof. intros (Hok & _ & Hl). by apply payouts_same. Qed.

Lemma leads_clean {A} s0 (m : PM A) s : clean s0 s -> (m s).2 = s -> leads s0 m s.
Proof.
  intros Hc Hm. pose proof (clean_progress _ _ Hc) as Hp. unfold leads, wp.
  destruct (m s) as [[a|e] t]; simpl in Hm; by subst.
Qed.

(** Calls that leave the payouts alone. *)
Lemma leads_quiet {A B} s0 (m : PM A) (f : A -> PM B) s : always (within payout_tables) m -> clean s0 s ->
  (forall a t, clean s0 t -> leads s0 (f a) t) -> leads s0 (m ≫= f) s.
Proof.
  intros Hm Hc Hf. apply wp_bind. pose proof (Hm s) as (Hs & Hl & _). unfold wp.
  assert (clean s0 (m s).2) as Hc' by (destruct Hc as (A1 & A2 & A3); split; [done|split; congruence]).
  destruct (m s) as [[a|e] t]; simpl in *; [by apply Hf|by apply clean_progress].
Qed.

(** After the commit nothing more is stored. *)
Lemma leads_stored {A} s0 (m : PM A) s : always (within payout_tables) m -> progress s0 s -> leads s0 m s.
Proof.
  intros Hm Hp. pose proof (Hm s) as (Hs & _). unfold leads, wp, progress in *.
  destruct (m s) as [[a|e] t]; simpl in *; by rewrite Hs.
Qed.

Lemma leads_find {A B} s0 (table : Db -> list A) P (f : option A -> PM B) s : clean s0 s ->
  (List.filter P (table (live s)) = [] -> leads s0 (f None) s) ->
  (forall r, List.filter P (table (live s)) = [r] -> leads s0 (f (Some r)) s) ->
  leads s0 (q_one_or_none table P ≫= f) s.
Proof. intros Hc. apply wp_find. by apply clean_progress. Qed.

Lemma quiet_get_or_create ty a b tz : always (within payout_tables) (BillingPeriodService.get_or_create W ty a b tz).
Proof.
  unfold BillingPeriodService.get_or_create, BillingPeriodService.insert_period, q_first. effects.
Qed.

Lemma quiet_enforce t action r : always (within payout_tables) (PolicyEngine.enforce W t action r).
Proof. apply within_enforce; apply _. Qed.

Lemma quiet_audit e i a before after ext ctx : always (within payout_tables) (PayoutsApi.audit_batch W e i a before after ext ctx).
Proof. unfold PayoutsApi.audit_batch. effects. Qed.

Lemma quiet_reread b : always (within payout_tables) (reread b).
Proof. unfold reread, q_one. effects. Qed.

Lemma leads_close tenant partner date_from date_to t s : clean s s ->
  leads s (close_payout_period W tenant partner date_from date_to t) s.
Proof.
  intros Hc. unfold close_payout_period. destruct (date_to <? date_from); [by apply leads_clean|].
  destruct (BillingPeriodService.period_bounds_for_dates _ _) as [start_at end_at].
  apply leads_quiet; [apply quiet_get_or_create|done|]. clear Hc. intros period s1 Hc.
  apply leads_quiet; [apply quiet_enforce|done|]. clear Hc. intros _ s2 Hc.
  destruct (negb _); [by apply leads_clean|].
  apply leads_find; [done| |intros r _; by apply leads_clean]. intros Hnone.
  eapply wp_step; [reflexivity|]. cbv zeta. apply wp_bind, wp_try, wp_bind. unfold insert_batch.
  do 3 (eapply wp_step; [reflexivity|]). eapply wp_step; [by apply race_alone|].
  set (b := MkPayoutBatch _ _ _ _ _ _ _ _ _ _ _ _ _ _ _). set (i := MkPayoutItem _ _ _ _ _ _ _).
  set (x := Session _ _ _ _ _).
  assert (clean s x) as Hx by exact Hc.
  assert (forall u, saved u = saved x -> clean s (Session (saved u) (saved u) (ticks u) (uuids u) (races u))) as Hback.
  { intros u Hu. destruct Hx as (A1 & A2 & _). by split; [|split; cbn; rewrite Hu, A2]. }
  apply wp_bind, wp_insert_row; [by apply wp_bind, concurrent_run; intros e; apply clean_progress, Hback|].
  intros Hclash. apply wp_bind, wp_insert_row; [by apply wp_bind, concurrent_run; intros e; apply clean_progress, Hback|].
  intros _. apply wp_ret, wp_ret. eapply wp_step; [reflexivity|]. apply leads_stored.
  { apply always_bind; [apply _|apply quiet_reread|]. intros r. apply always_ret, _. }
  destruct (clean_live _ _ Hx) as [Hok Hev].
  destruct (payouts_add (live x) b i Hok Hclash) with (d' := on_payout_items (fun l => l ++ [i]) (on_payout_batches (fun l => l ++ [b]) (live x)))
    as [Hok' Hev']; try done.
  split; [exact Hok'|]. etrans; [exact Hev|exact Hev'].
Qed.

(** The commit of a reference that no other batch has. *)
Lemma commit_ref_run {A} s0 b f id provider ref (k : PayoutBatch -> A) s : clean s0 s -> In b (batches (live s)) -> id = pbt_id b ->
  batch_later b (f b) -> batch_stage (f b) -> pbt_provider (f b) = Some provider -> pbt_external_ref (f b) = Some ref ->
  List.filter (other_of_ref id provider ref) (batches (live s)) = [] ->
  leads s0 (assign f b;; commit_ref W id provider ref;; b' ← reread b; mret (k b')) s.
Proof.
  intros Hc Hb -> Hl Hst Hp Hr Hno. destruct (clean_live _ _ Hc) as [Hok Hev].
  assert (forall c r, In c (batches (live s)) -> pbt_id c <> pbt_id b -> pbt_external_ref (f b) = Some r ->
    pbt_external_ref c = Some r -> pbt_provider c <> pbt_provider (f b)) as Href.
  { intros c r Hin Hne E1 E2 E3. assert (In c []) as []. rewrite <- Hno. apply filter_In. split; [done|].
    unfold other_of_ref, eqb. rewrite E3, Hp, E2, <- E1, Hr, !bool_decide_eq_true_2, bool_decide_eq_false_2 by done. done. }
  set (d := on_payout_batches (update_row pbt_id b f) (live s)).
  destruct (payouts_move (live s) b f Hok Hb Hl Hst Href d) as [Hok' Hev']; [done|done|].
  assert (List.filter (other_of_ref (pbt_id b) provider ref) (batches d) = []) as Hclash.
  { apply filter_none, List.Forall_forall. intros c Hin.
    apply update_row_in in Hin as [->|[Hin Hne]]; [| |apply Hok|done].
    - unfold other_of_ref, eqb. rewrite (later_id _ _ Hl), (bool_decide_eq_true_2 (pbt_id b = pbt_id b)) by done.
      by rewrite andb_false_r.
    - destruct (other_of_ref (pbt_id b) provider ref c) eqn:E; [|done].
      assert (In c []) as []. rewrite <- Hno. apply filter_In. by split. }
  eapply wp_step; [reflexivity|]. unfold commit_ref.
  eapply (wp_step _ _ _ _ _ tt).
  - apply try_ok. erewrite bind_ok by (by apply race_alone).
    erewrite bind_ok by (unfold q_first, gets; cbn [live]; fold d; rewrite Hclash; reflexivity). reflexivity.
  - apply leads_stored; [apply always_bind; [apply _|apply quiet_reread|]; intros x; apply always_ret, _|].
    split; [exact Hok'|]. etrans; [exact Hev|exact Hev'].
Qed.

Lemma leads_found {A} s0 id (k : PayoutBatch -> PM A) s : clean s0 s ->
  (forall b, In b (batches (live s)) -> pbt_id b = id -> leads s0 (k b) s) -> leads s0 (find_batch id ≫= k) s.
Proof.
  intros Hc Hk. unfold find_batch. apply wp_bind, wp_find; [by apply clean_progress|intros _; by apply clean_progress|].
  intros b [Hb Hid%bool_decide_eq_true]%filter_one. by apply Hk.
Qed.

Lemma leads_sent id provider ref s : clean s s -> leads s (mark_batch_sent W id provider ref) s.
Proof.
  intros Hc. apply leads_found; [done|]. intros b Hb Hid.
  destruct (bool_decide (pbt_state b ∈ _)) eqn:Hst; [by destruct (has_ref provider ref b); apply leads_clean|].
  unfold eqb at 1. destruct (bool_decide_reflect (pbt_state b = PayoutBatchState.READY)) as [Hr|]; [|by apply leads_clean].
  cbn [negb]. apply leads_find; [done| |intros r _; by apply leads_clean]. intros Hno.
  eapply wp_step; [reflexivity|]. set (t := Session _ _ _ _ _). assert (clean s t) as Ht by exact Hc.
  destruct (clean_live _ _ Ht) as [Hok _]. pose proof (pbt_stages _ Hok b Hb) as Hb'. unfold batch_stage in Hb'. rewrite Hr in Hb'.
  destruct Hb' as (H1 & H2 & H3 & H4).
  apply (commit_ref_run s b _ id provider ref (fun b' => MkPayoutStateResult b' (pbt_state b) false) t); try done.
  split; simpl; try done; [|by rewrite H2; intros []]. apply rtc_once. unfold batch_step. rewrite Hr. by left.
Qed.

Lemma leads_settled id provider ref tk s : clean s s -> leads s (mark_batch_settled W id provider ref tk) s.
Proof.
  intros Hc. apply leads_found; [done|]. intros b Hb Hid.
  apply wp_bind. pose proof (quiet_enforce tk Action.PAYOUT_EXPORT_CONFIRM
    (MkResourceContext "PAYOUT_BATCH" (int_or (actor_tenant_id (actor_from_token tk)) (pbt_tenant_id b)) None None) s) as (Hs1 & Hl1 & _).
  unfold wp at 1. destruct (PolicyEngine.enforce _ _ _ _ s) as [[[]|e] x]; simpl in Hs1, Hl1; cycle 1.
  { apply clean_progress. destruct Hc as (A1 & A2 & A3). split; [done|]. split; congruence. }
  assert (clean s x) as Hx by (destruct Hc as (A1 & A2 & A3); split; [done|]; split; congruence).
  assert (In b (batches (live x))) as Hbx by (injection Hl1 as E _; unfold batches; by rewrite E).
  clear Hc Hb Hs1 Hl1. unfold eqb at 1. destruct (bool_decide_reflect (pbt_state b = PayoutBatchState.SETTLED)) as [|Hns].
  { by destruct (has_ref provider ref b); apply leads_clean. }
  unfold eqb at 1. destruct (bool_decide_reflect (pbt_state b = PayoutBatchState.SENT)) as [Hr|]; [|by apply leads_clean].
  cbn [negb]. destruct (has_ref provider ref b) eqn:Href; [|by apply leads_clean]. cbn [negb].
  unfold has_ref, eqb in Href. apply andb_true_iff in Href as [Hp%bool_decide_eq_true He%bool_decide_eq_true].
  eapply wp_step; [reflexivity|]. set (t := Session _ _ _ _ _). assert (clean s t) as Ht by exact Hx.
  destruct (clean_live _ _ Ht) as [Hok _]. pose proof (pbt_stages _ Hok b Hbx) as Hb'. unfold batch_stage in Hb'. rewrite Hr in Hb'.
  destruct Hb' as (H1 & H2 & H3 & H4).
  apply (commit_ref_run s b _ id provider ref (fun b' => MkPayoutStateResult b' (pbt_state b) false) t); try done.
  - split; simpl; try done; [|by rewrite H4; intros []]. apply rtc_once. unfold batch_step. rewrite Hr. right. by left.
  - apply filter_none, List.Forall_forall. intros c Hin. unfold other_of_ref.
    destruct (bool_decide_reflect (pbt_id c = pbt_id b)) as [E|E].
    + unfold eqb at 3. rewrite Hid in E. rewrite E, bool_decide_eq_true_2 by done. by rewrite andb_false_r.
    + apply andb_false_iff. left. unfold eqb. destruct (bool_decide_reflect (pbt_provider c = Some provider)) as [E1|]; [|done].
      destruct (bool_decide_reflect (pbt_external_ref c = Some ref)) as [E2|]; [|done]. destruct E.
      by rewrite (pbt_refs _ Hok c b ref Hin Hbx E2 He ltac:(congruence)).
Qed.
End Services.

(** ** Histories of requests *)

Inductive payout_request :=
| ClosePeriod (tenant_id : Z) (partner_id : string) (date_from date_to : Z) (t : token)
| MarkSent (batch_id provider external_ref : string)
| MarkSettled (batch_id provider external_ref : string) (t : token)
| Reconcile (batch_id : string).

Section Histories.
Context (W : world Db) `{Timezone} `{DatabaseZone} (ctx : RequestContext).
Import PayoutsApi.

Definition run_payout (r : payout_request) : PM unit :=
  match r with
  | ClosePeriod tenant partner date_from date_to t => close_period_endpoint W tenant partner date_from date_to t ctx;; mret tt
  | MarkSent id provider ref => mark_sent_endpoint W id provider ref ctx;; mret tt
  | MarkSettled id provider ref t => mark_settled_endpoint W id provider ref t ctx;; mret tt
  | Reconcile id => reconcile_endpoint W id ctx;; mret tt
  end.

Definition serve_payouts (rs : list payout_request) : session Db -> session Db := serve_all (map run_payout rs).

Context (alone_W : alone W).

(** The errors of an endpoint only raise. *)
Lemma leads_errors {A B} s (m : PM A) h (k : A -> PM B) : leads s m s ->
  (forall e n, h e = Some n -> exists e', n = raise e') -> (forall a, always (within payout_tables) (k a)) ->
  leads s (try_except m h ≫= k) s.
Proof.
  intros Hm Hh Hk. apply wp_bind, wp_try. eapply wp_mono; [exact Hm| |].
  - intros a t Ht. by apply leads_stored.
  - intros e t Ht. destruct (h e) as [n|] eqn:He; [|exact Ht]. by destruct (Hh e n He) as [e' ->].
Qed.

Lemma quiet_moved r e a p x : always (within payout_tables) (audit_moved W r e a p x ctx).
Proof.
  unfold audit_moved. apply always_when; [apply _|]. apply always_bind; [apply _|apply quiet_audit|]. intros _. apply quiet_audit.
Qed.

Ltac quiet := repeat first [apply quiet_audit | apply quiet_moved | apply always_ret; apply _ | apply always_gets; apply _
  | apply always_raise; apply _ | apply always_when; [apply _|] | apply always_bind; [apply _| |intros ?]].

Ltac only_raises := intros e n He; destruct e; try discriminate He;
  repeat match goal with H : context [if ?b then _ else _] |- _ => destruct b end; try discriminate He; injection He as <-; by eexists.

Lemma leads_request r s : clean s s -> leads s (run_payout r) s.
Proof.
  intros Hc. destruct r as [tenant partner date_from date_to t|id provider ref|id provider ref t|id]; unfold run_payout.
  - apply wp_bind. eapply wp_mono; [apply leads_errors|intros a u Hu; exact Hu|done].
    + by apply leads_close.
    + only_raises.
    + intros [b created|b]; quiet.
  - apply wp_bind. eapply wp_mono; [apply leads_errors|intros a u Hu; exact Hu|done]; [by apply leads_sent|only_raises|].
    intros r. unfold from_batch. quiet.
  - apply wp_bind. eapply wp_mono; [apply leads_errors|intros a u Hu; exact Hu|done]; [by apply leads_settled|only_raises|].
    intros r. unfold from_batch. quiet.
  - apply wp_bind. eapply wp_mono; [apply leads_errors|intros a u Hu; exact Hu|done]; [|only_raises|intros r; quiet].
    unfold reconcile_batch. apply leads_found; [done|]. intros b _ _. by apply leads_clean.
Qed.

(** C16 whatever payout requests are served, a partner has at most one batch for some dates
    and every batch one item with its totals; a batch is ready, then sent, then settled, with
    a reference that no other batch of the provider has; and nothing of it changes later: not
    its totals, not its reference once it is sent. *)
Theorem payout_lifecycle rs s : saved s = live s -> payouts_ok (saved s) ->
  let d := saved (serve_payouts rs s) in
  List.NoDup (map batch_period (batches d)) /\ ref_unique (batches d) /\
  (forall b, In b (batches d) -> batch_stage b /\ one_item b d) /\
  (forall b, In b (batches (saved s)) -> exists c, In c (batches d) /\ batch_later b c).
Proof.
  intros Hs Hi. cbv zeta.
  destruct (serve_all_keeps payouts_ok evolves (map run_payout rs)) with (s := s) as (_ & Hok & Hev); [|done..|].
  - apply Forall_map, List.Forall_forall. intros r _ t Ht Hr.
    assert (clean t t) as Hc by (split; [done|]; split; [done|]; by rewrite Ht).
    pose proof (leads_request r t Hc) as Hl. unfold leads, wp in Hl. by destruct (run_payout r t) as [[a|e] u].
  - destruct Hok as [H1 H2 H3 H4 H5 H6]. split; [done|]. split; [done|]. split; [|exact Hev].
    intros b Hb. split; [by apply H4|by apply H6].
Qed.
End Histories.

(** ** The totals of a batch *)

Section Totals.
Context (W : world Db) (alone_W : alone W) `{Timezone} `{DatabaseZone}.

(** What the operations of a partner come to. *)
Definition due (partner : string) (date_from date_to : Z) (d : Db) : Z :=
  sum_of amount_expr (operations_of partner date_from date_to d).

Definition counted (partner : string) (date_from date_to : Z) (d : Db) : Z :=
  Z.of_nat (length (operations_of partner date_from date_to d)).

Definition payouts_and_operations (d : Db) := (payout_tables d, operations (scenario d)).

Lemma wp_within {A B} (m : PM A) (f : A -> PM B) Q s : always (within payouts_and_operations) m ->
  (forall a t, payouts_and_operations (live t) = payouts_and_operations (live s) -> wp (f a) Q (fun _ _ => True) t) ->
  wp (m ≫= f) Q (fun _ _ => True) s.
Proof.
  intros Hm Hf. apply wp_bind. pose proof (Hm s) as (_ & Hl & _). unfold wp.
  destruct (m s) as [[a|e] t]; [by apply Hf|done].
Qed.

(** A new batch is committed, with the totals of the operations. *)
Lemma close_totals tenant partner date_from date_to t s : payouts_ok (live s) ->
  wp (close_payout_period W tenant partner date_from date_to t)
    (fun r u => match r with
                | PayoutBatchResult b true => In b (batches (live u)) /\ saved u = live u /\ payouts_ok (live u) /\
                    batch_period b = (tenant, partner, date_from, date_to) /\
                    pbt_total_amount b = dec_of_int (due partner date_from date_to (live s)) /\
                    pbt_operations_count b = counted partner date_from date_to (live s)
                | _ => True
                end) (fun _ _ => True) s.
Proof.
  intros Hok. unfold close_payout_period. destruct (date_to <? date_from); [done|].
  destruct (BillingPeriodService.period_bounds_for_dates _ _) as [start_at end_at].
  apply wp_within.
  { unfold BillingPeriodService.get_or_create, BillingPeriodService.insert_period, q_first. effects. }
  intros period s1 E1. apply wp_within; [apply within_enforce; apply _|]. intros _ s2 E2. rewrite E1 in E2. clear E1 s1.
  injection E2 as Eb Ei Eo. destruct (negb _); [done|]. apply wp_find; [done| |done]. intros _.
  assert (operations_of partner date_from date_to (live s2) = operations_of partner date_from date_to (live s)) as Eops
    by (unfold operations_of; by rewrite Eo).
  eapply wp_step; [reflexivity|]. cbv zeta. rewrite Eops.
  apply wp_bind, wp_try, wp_bind. unfold insert_batch.
  do 3 (eapply wp_step; [reflexivity|]). eapply wp_step; [by apply race_alone|].
  set (b := MkPayoutBatch _ _ _ _ _ _ _ _ _ _ _ _ _ _ _). set (i := MkPayoutItem _ _ _ _ _ _ _).
  apply wp_bind, wp_insert_row; [by apply wp_bind, concurrent_run|].
  intros Hclash. apply wp_bind, wp_insert_row; [by apply wp_bind, concurrent_run|].
  intros _. apply wp_ret, wp_ret. eapply wp_step; [reflexivity|].
  set (u := Session _ _ _ _ _).
  assert (batches (live u) = batches (live s) ++ [b]) as Hbu by (unfold batches, u; simpl; by rewrite Eb).
  assert (payouts_ok (live u)) as Hu.
  { apply (payouts_add (live s) b i Hok); try done; [|by unfold u; simpl; rewrite Ei].
    unfold batches in *. simpl in Hclash. by rewrite Eb in Hclash. }
  apply (wp_step _ _ _ _ _ b u); [|apply wp_ret; split; [rewrite Hbu, in_app_iff; right; by left|]; by split; [|split; [exact Hu|]]].
  unfold reread, q_one. rewrite (bind_ok _ _ u (Some b) u); [done|]. apply one_or_none_some.
  apply (filter_key pbt_id); [apply Hu|]. rewrite Hbu, in_app_iff. right. by left.
Qed.

(** C17 a period that is closed into a new batch commits it with the sum and the number of the
    captured and completed operations of the partner, and from then on, whatever happens to
    the batch, its reconciliation compares these with the operations as they are: it finds no
    difference exactly when they come to the same. *)
Theorem closed_period_reconciles tenant partner date_from date_to tk s b t : payouts_ok (live s) ->
  close_payout_period W tenant partner date_from date_to tk s = (Ok (PayoutBatchResult b true), t) ->
  saved t = live t /\
  pbt_total_amount b = dec_of_int (due partner date_from date_to (live s)) /\
  pbt_operations_count b = counted partner date_from date_to (live s) /\
  forall u, payouts_ok (live u) -> evolves (live t) (live u) ->
  exists r, reconcile_batch (pbt_id b) u = (Ok r, u) /\ prc_recorded_amount r = pbt_total_amount b /\
    prc_computed_amount r = dec_of_int (due partner date_from date_to (live u)) /\
    (prc_computed_amount r = prc_recorded_amount r /\ prc_computed_count r = prc_recorded_count r <->
     due partner date_from date_to (live u) = due partner date_from date_to (live s) /\
     counted partner date_from date_to (live u) = counted partner date_from date_to (live s)).
Proof.
  intros Hok Hrun. pose proof (wp_use _ _ _ _ _ _ (close_totals tenant partner date_from date_to tk s Hok) Hrun) as Hc.
  destruct Hc as (Hin & Hsv & _ & Hp & Ht & Hn). split; [done|]. split; [done|]. split; [done|].
  intros u Hu Hev. destruct (Hev b Hin) as (c & Hc & [Hid Hper (Htot & _ & Hcnt) _ _ _]).
  rewrite Hp in Hper. injection Hper as E1 E2 E3 E4.
  destruct (pbt_item _ Hu c Hc) as (i & Hi & Hnet & Hnum).
  eexists. split.
  { unfold reconcile_batch, find_batch. rewrite (bind_ok _ _ u c u).
    2:{ rewrite (bind_ok _ _ u (Some c) u); [done|]. apply one_or_none_some. rewrite <- Hid. apply (filter_key pbt_id); [apply Hu|done]. }
    unfold gets. run_steps. rewrite E2, E3, E4, Hi. reflexivity. }
  cbn [prc_recorded_amount prc_computed_amount prc_recorded_count prc_computed_count]. simpl.
  rewrite Z.add_0_r, Hnet, Htot, Hnum, Hcnt, Z.add_0_r, Ht, Hn. split; [done|]. split; [done|].
  unfold due, counted, dec_of_int. split; intros [A B]; split; lia.
Qed.
End Totals.

(** ** Witnesses *)

Definition payout_token : token :=
  MkToken (ManyRoles ["ADMIN_FINANCE"; "ADMIN_ACCOUNTING"]) None (IntTenant 1) None (Some "admin-1") None None.

(** The day of CardHistories.v, its period finalized: an authorisation of 100, captured for 60
    and committed for 100, with refunds of 10 and 30. *)
Definition demo_payout_day : Db :=
  on_billing_periods (fun _ => [MkBillingPeriod "p" BillingPeriodType.ADHOC 0 86399999999 "UTC" BillingPeriodStatus.FINALIZED None None])
    demo_evening.

Definition demo_payouts : list payout_request :=
  [ ClosePeriod 1 "merchant" 0 0 payout_token; MarkSent "id-0" "bank" "ref"; ClosePeriod 1 "merchant" 0 0 payout_token;
    MarkSent "id-0" "bank" "other"; MarkSettled "id-0" "bank" "ref" payout_token; Reconcile "id-0" ].

Abbreviation serve_demo_payouts := (serve_payouts demo_world (H := utc) (H0 := database_utc) system_context).

Definition batch_states (d : Db) : list (string * Z * option string * PayoutBatchState.PayoutBatchState) :=
  map (fun b => (pbt_partner_id b, pbt_total_amount b / 10000, pbt_external_ref b, pbt_state b)) (batches d).

Lemma no_payouts_ok d : payout_tables d = ([], []) -> payouts_ok d.
Proof.
  unfold payout_tables. intros [= Eb Ei].
  split; unfold batches, one_item; rewrite ?Eb, ?Ei; simpl; try constructor; by try intros ? [].
Qed.

(** The batch of the day: the authorisation of 100, completed by its commit, is counted, the capture of 60, whose settled amount
    is the default of its column, counts as nothing, and no refund is deducted. *)
Example closed_day_totals :
  map (fun o => (op_operation_type o, op_amount o, amount_expr o))
    (operations_of (H0 := database_utc) "merchant" 0 0 demo_payout_day) =
    [(OperationType.AUTH, 100, 100); (OperationType.CAPTURE, 60, 0)] /\
  batch_states (saved (serve_demo_payouts demo_payouts (fresh_session demo_payout_day))) =
    [("merchant", 100, Some "ref", PayoutBatchState.SETTLED)].
Proof. split; vm_compute; reflexivity. Qed.

(** A period that is not finalized is refused by the policy, before the service's own check. *)
Example open_period_denied :
  match PayoutsApi.close_period_endpoint demo_world (H := utc) (H0 := database_utc) 1 "merchant" 0 0 payout_token
    system_context (fresh_session demo_evening) with
  | (Raise (HTTPFrom status (PolicyAccessDenied _ _)), _) => status = 403
  | _ => False
  end.
Proof. vm_compute. reflexivity. Qed.

Lemma payout_lifecycle_witness :
  let d := saved (serve_demo_payouts demo_payouts (fresh_session demo_payout_day)) in
  List.NoDup (map batch_period (batches d)) /\ ref_unique (batches d) /\
  (forall b, In b (batches d) -> batch_stage b /\ one_item b d) /\ length (batches d) = 1%nat.
Proof.
  destruct (payout_lifecycle demo_world (H := utc) (H0 := database_utc) system_context (fun _ _ => eq_refl) demo_payouts
    (fresh_session demo_payout_day)) as (H1 & H2 & H3 & _).
  - reflexivity.
  - apply no_payouts_ok. vm_compute. reflexivity.
  - split; [exact H1|]. split; [exact H2|]. split; [exact H3|]. vm_compute. reflexivity.
Defined.

Lemma closed_period_reconciles_witness : exists b t,
  PayoutsService.close_payout_period demo_world (H := utc) (H0 := database_utc) 1 "merchant" 0 0 (Some payout_token)
    (fresh_session demo_payout_day) = (Ok (PayoutBatchResult b true), t) /\
  saved t = live t /\ pbt_total_amount b = 1000000 /\
  forall u, payouts_ok (live u) -> evolves (live t) (live u) ->
  exists r, reconcile_batch (H0 := database_utc) (pbt_id b) u = (Ok r, u) /\ prc_recorded_amount r = pbt_total_amount b.
Proof.
  eexists _, _. split; [vm_compute; reflexivity|].
  edestruct (closed_period_reconciles demo_world (fun _ _ => eq_refl) (H := utc) (H0 := database_utc) 1 "merchant" 0 0
    (Some payout_token) (fresh_session demo_payout_day)) as (Hs & _ & _ & Hr).
  - apply no_payouts_ok. vm_compute. reflexivity.
  - vm_compute. reflexivity.
  - split; [exact Hs|]. split; [reflexivity|]. intros u Hu Hev.
    destruct (Hr u Hu Hev) as (r & H1 & H2 & _). exists r. split; [exact H1|exact H2].
Defined.
