(* ===== verification/Summaries.v ===== *)
(** * Billing summaries

    services/billing/daily.py: the operations and the fuel transactions of a day are
    aggregated into summaries, which are finalized after a grace period; the digest of
    services/billing_summary_hash.py; services/reports_billing.py, which makes summaries of
    its own; and the endpoints that drive them. *)
From Stdlib Require Import QArith.
From S2P Require Import Prelude Json Enums Models Instants AuditTrail JobRuns Transactions Policy BillingPeriods CardHistories Effects.
#[local] Open Scope Z_scope.

(** The settings of billing, and [str] of an exception. *)
Class BillingSettings := {
  NEFT_COMMISSION_RATE : Q;
  NEFT_BILLING_DAILY_ENABLED : bool;
  NEFT_BILLING_FINALIZE_GRACE_HOURS : Z;
  NEFT_CLEARING_DAILY_ENABLED : bool;
  str_exc : exn -> string;
}.

(** The defaults of neft_shared/settings.py. *)
Definition default_settings : BillingSettings := {|
  NEFT_COMMISSION_RATE := 1 # 100;
  NEFT_BILLING_DAILY_ENABLED := true;
  NEFT_BILLING_FINALIZE_GRACE_HOURS := 12;
  NEFT_CLEARING_DAILY_ENABLED := true;
  str_exc := fun e => match e with BillingPeriodConflict m | ValueError m => m | _ => "" end;
|}.

(** [date.isoformat()] of a day. *)
Definition date_isoformat (day : Z) : string :=
  let '(y, m, d) := civil_from_days day in
  digits 4 y +:+ "-" +:+ digits 2 m +:+ "-" +:+ digits 2 d.

(** A Decimal of a sum of Numeric(18,3), or of millilitres divided by 1000. *)
Inductive quantity :=
| Numeric3 (thousandths : Z)
| Litres (ml : Z).

Definition thousandths (q : quantity) : Z := match q with Numeric3 z | Litres z => z end.

Definition str_quantity (q : quantity) : string :=
  let r := Z.abs (thousandths q) mod 1000 in
  (if thousandths q <? 0 then "-" else "") +:+ print_int (Z.abs (thousandths q) / 1000) +:+
  match q with
  | Numeric3 _ => "." +:+ digits 3 r
  | Litres _ =>
      if r =? 0 then "" else
      if r mod 100 =? 0 then "." +:+ digits 1 (r / 100) else
      if r mod 10 =? 0 then "." +:+ digits 2 (r / 10) else "." +:+ digits 3 r
  end.

Example str_quantity_ex : str_quantity (Numeric3 12500) = "12.500" /\ str_quantity (Litres 12500) = "12.5" /\
  str_quantity (Litres 40000) = "40" /\ str_quantity (Numeric3 (-5)) = "-0.005".
Proof. done. Qed.

(** [func.nullif(column, 0)] *)
Definition nullif0 (z : Z) : option Z := if z =? 0 then None else Some z.

(** [sum(...)] of a nullable column: null when all are. *)
Definition sum_nullable {A} (f : A -> option Z) (l : list A) : option Z :=
  match omap f l with [] => None | q => Some (sum_of id q) end.

Definition summaries (d : Db) : list BillingSummary := billing_summaries (settle d).

Module Daily.
Record aggregate := MkAggregate {
  ag_client_id : string;
  ag_merchant_id : string;
  ag_product_type : option string;
  ag_currency : string;
  ag_total_amount : Z;
  ag_total_quantity : option quantity;
  ag_operations_count : Z;
}.

Definition BILLABLE_STATUSES : list OperationStatus.OperationStatus :=
  [OperationStatus.CAPTURED; OperationStatus.COMPLETED].

Definition taken_back (o : Operation) : bool :=
  bool_decide (op_status o ∈ [OperationStatus.REFUNDED; OperationStatus.REVERSED]).

Definition amount_value (o : Operation) : Z :=
  default (default (op_amount o) (nullif0 (op_captured_amount o))) (op_amount_settled o ≫= nullif0).

Definition net_amount (o : Operation) : Z :=
  if taken_back o then - amount_value o else amount_value o - op_refunded_amount o.

Definition net_quantity (o : Operation) : option Z :=
  if taken_back o then option_map Z.opp (op_quantity o) else op_quantity o.

Definition operation_group (o : Operation) : string * string * option string * string :=
  (op_client_id o, op_merchant_id o, op_product_type o, op_currency o).

Definition _fuel_product_type (value : FuelType.FuelType) : ProductType.ProductType :=
  match value with
  | FuelType.AI92 => ProductType.AI92
  | FuelType.AI95 => ProductType.AI95
  | FuelType.AI98 => ProductType.AI98
  | FuelType.DIESEL => ProductType.DIESEL
  | FuelType.GAS => ProductType.GAS
  | FuelType.OTHER => ProductType.OTHER
  end.

Definition fuel_group (f : FuelTransaction) : string * string * FuelType.FuelType * string :=
  (ft_client_id f, ft_network_id f, ft_fuel_type f, ft_currency f).

Definition key_of (a : aggregate) : option string * string * option string * option string :=
  (Some (ag_client_id a), ag_merchant_id a, ag_product_type a, Some (ag_currency a)).

Definition summary_key (s : BillingSummary) : option string * string * option string * option string :=
  (sm_client_id s, sm_merchant_id s, sm_product_type s, sm_currency s).

(** The primary key, and uq_billing_summary_unique_scope where no column of it is null. *)
Definition same_summary (a b : BillingSummary) : bool :=
  (sm_id b =? sm_id a)%py ||
  ((sm_billing_date b =? sm_billing_date a) && (summary_key b =? summary_key a)%py &&
   bool_decide (is_Some (sm_client_id a)) && bool_decide (is_Some (sm_product_type a)) &&
   bool_decide (is_Some (sm_currency a))).

Section Daily.
Context (W : world Db) `{Timezone} `{BillingSettings}.

(** The session of the database is in UTC, as the naive bounds are. *)
Definition _billing_window (billing_date : Z) : Z * Z := (day_start billing_date, day_end billing_date).

Definition in_window (billing_date t : Z) : bool :=
  let '(start_ts, end_ts) := _billing_window billing_date in (start_ts <=? t) && (t <=? end_ts).

Definition _default_billing_date (now : Z) : Z := local_date now - 1.

Definition _commission (amount : Z) : Z :=
  Commission.round_half_up (amount * Qnum NEFT_COMMISSION_RATE) (Zpos (Qden NEFT_COMMISSION_RATE)).

Definition billable_operations (billing_date : Z) (d : Db) : list Operation :=
  List.filter (fun o => bool_decide (op_status o ∈ BILLABLE_STATUSES) && in_window billing_date (op_created_at o))
    (operations (scenario d)).

(** The order of the groups is the database's; here that of the rows. *)
Definition _aggregate_operations (billing_date : Z) (d : Db) : list aggregate :=
  let rows := billable_operations billing_date d in
  map (fun k : string * string * option string * string =>
    let '(client_id, merchant_id, product_type, currency) := k in
    let group := List.filter (fun o => (operation_group o =? k)%py) rows in
    MkAggregate client_id merchant_id product_type currency (sum_of net_amount group)
      (option_map Numeric3 (sum_nullable net_quantity group)) (Z.of_nat (length group)))
    (remove_dups (map operation_group rows)).

Definition settled_fuel (billing_date : Z) (d : Db) : list FuelTransaction :=
  List.filter (fun f => (ft_status f =? FuelTransactionStatus.SETTLED)%py && in_window billing_date (ft_occurred_at f))
    (fuel_transactions (flow d)).

Definition _aggregate_fuel_transactions (billing_date : Z) (d : Db) : list aggregate :=
  let rows := settled_fuel billing_date d in
  map (fun k : string * string * FuelType.FuelType * string =>
    let '(client_id, network_id, fuel_type, currency) := k in
    let group := List.filter (fun f => (fuel_group f =? k)%py) rows in
    MkAggregate client_id network_id (Some (ProductType.value (_fuel_product_type fuel_type))) currency
      (sum_of ft_amount_total_minor group) (Some (Litres (sum_of ft_volume_ml group))) (Z.of_nat (length group)))
    (remove_dups (map fuel_group rows)).

Definition hash_payload (payload : dict) : string := sha256_hex W (canonical_json (JDict payload)).

Definition aggregate_hash (billing_date : Z) (billing_period_id : string) (a : aggregate) : string :=
  hash_payload [
    ("billing_date", JStr (date_isoformat billing_date)); ("billing_period_id", JStr billing_period_id);
    ("client_id", JStr (ag_client_id a)); ("merchant_id", JStr (ag_merchant_id a));
    ("product_type", opt_text (ag_product_type a)); ("currency", JStr (ag_currency a));
    ("total_amount", JInt (ag_total_amount a));
    ("total_quantity", opt_text (option_map str_quantity (ag_total_quantity a)));
    ("operations_count", JInt (ag_operations_count a)); ("commission_amount", JInt (_commission (ag_total_amount a))) ].

(** The columns of a summary that is computed again. *)
Definition refreshed (billing_date : Z) (billing_period_id : string) (now : Z) (a : aggregate) (s : BillingSummary)
    : BillingSummary :=
  set_sm_hash (Some (aggregate_hash billing_date billing_period_id a)) (set_sm_generated_at (Some now)
    (set_sm_commission_amount (_commission (ag_total_amount a)) (set_sm_operations_count (ag_operations_count a)
      (set_sm_total_quantity (option_map thousandths (ag_total_quantity a)) (set_sm_total_amount (ag_total_amount a) s))))).

Definition new_summary (billing_date : Z) (billing_period_id : string) (now : Z) (a : aggregate) (id : string)
    : BillingSummary :=
  MkBillingSummary id billing_date billing_period_id (Some (ag_client_id a)) (ag_merchant_id a) (ag_product_type a)
    (Some (ag_currency a)) (ag_total_amount a) (option_map thousandths (ag_total_quantity a)) (ag_operations_count a)
    (_commission (ag_total_amount a)) BillingSummaryStatus.PENDING (Some now) None
    (Some (aggregate_hash billing_date billing_period_id a)).

(** One aggregate: [existing] maps keys to the rows as they were before the loop.  A new row
    is flushed later, with the end of the job. *)
Definition upsert_aggregate (billing_date : Z) (billing_period_id : string) (existing : list BillingSummary) (now : Z)
    (a : aggregate) : PM (list BillingSummary) :=
  match last (List.filter (fun s => (summary_key s =? key_of a)%py) existing) with
  | Some summary =>
      if (sm_status summary =? BillingSummaryStatus.FINALIZED)%py then mret [] else
      let f := refreshed billing_date billing_period_id now a in
      modify (on_billing_summaries (update_row sm_id summary f));;
      mret [f summary]
  | None =>
      id ← uuid4 W;
      row ← insert_row summaries on_billing_summaries same_summary "uq_billing_summary_unique_scope"
        (new_summary billing_date billing_period_id now a id);
      mret [row]
  end.

Definition aggregates_of (billing_date : Z) (d : Db) : list aggregate :=
  _aggregate_operations billing_date d ++ _aggregate_fuel_transactions billing_date d.

Definition _upsert_billing_summaries (billing_date : Z) (billing_period_id : string) : PM (list BillingSummary) :=
  aggregates ← gets (aggregates_of billing_date);
  match aggregates with
  | [] => mret []
  | _ =>
      existing ← q_all summaries (fun s => (sm_billing_date s =? billing_date) &&
        (sm_billing_period_id s =? billing_period_id)%py);
      now ← now W;
      race W;;
      updated ← for_each aggregates (upsert_aggregate billing_date billing_period_id existing now);
      mret (concat updated)
  end.

Definition require_open (period : BillingPeriod) : PM unit :=
  when (bp_status period <>? BillingPeriodStatus.OPEN)%py
    (raise (BillingPeriodConflict ("Billing period " +:+ bp_id period +:+ " is " +:+
       BillingPeriodStatus.value (bp_status period)))).

(** [in_transaction]: whether the session of the caller is in a transaction. *)
Definition run_billing_daily (in_transaction : bool) (target_date : option Z) : PM (list BillingSummary) :=
  billing_date ← match target_date with
                 | Some d => mret d
                 | None => now_ ← now W; mret (_default_billing_date now_)
                 end;
  let day := ("billing_date", JStr (date_isoformat billing_date)) in
  job_run ← BillingJobRunService.start W BillingJobType.BILLING_DAILY [day] None None;
  BillingJobRunService.in_job W str_exc in_transaction job_run (
    if negb NEFT_BILLING_DAILY_ENABLED then
      BillingJobRunService.succeed W job_run [("processed", JInt 0); day; ("enabled", JBool false)] None;;
      mret []
    else
      let '(period_start, period_end) := BillingPeriodService.period_bounds_for_dates billing_date billing_date in
      period ← BillingPeriodService.get_or_create W BillingPeriodType.DAILY period_start period_end tz_name;
      require_open period;;
      rows ← _upsert_billing_summaries billing_date (bp_id period);
      BillingJobRunService.succeed W job_run [("processed", JInt (Z.of_nat (length rows))); day] None;;
      mret rows).

(** The last instant of the grace period, on the wall clock. *)
Definition cutoff (billing_date : Z) : Z :=
  day_us * billing_date + (day_us - 1) + NEFT_BILLING_FINALIZE_GRACE_HOURS * 3600000000.

Definition to_finalize (billing_date : Z) (s : BillingSummary) : bool :=
  (sm_billing_date s =? billing_date) && (sm_status s =? BillingSummaryStatus.PENDING)%py.

Definition finalized (at_ : Z) (s : BillingSummary) : BillingSummary :=
  set_sm_finalized_at (Some at_) (set_sm_status BillingSummaryStatus.FINALIZED s).

Definition finalize_billing_day (in_transaction : bool) (billing_date : Z) : PM Z :=
  now_ ← now W;
  let day := ("billing_date", JStr (date_isoformat billing_date)) in
  if local_time now_ <=? cutoff billing_date then
    BillingJobRunService.txn_context in_transaction (
      job_run ← BillingJobRunService.start W BillingJobType.BILLING_FINALIZE [day] None None;
      BillingJobRunService.succeed W job_run [("updated", JInt 0); day; ("skipped", JBool true)] None);;
    mret 0
  else
    job_run ← BillingJobRunService.start W BillingJobType.BILLING_FINALIZE [day] None None;
    BillingJobRunService.in_job W str_exc in_transaction job_run (
      finalized_at ← now W;
      pending ← q_all summaries (to_finalize billing_date);
      modify (on_billing_summaries (update_where (to_finalize billing_date) (finalized finalized_at)));;
      let updated := Z.of_nat (length pending) in
      BillingJobRunService.succeed W job_run [("updated", JInt updated); day] None;;
      mret updated).
End Daily.
End Daily.

(** ** services/reports_billing.py *)
Module SummaryReports.
(** The captures of a merchant on a day. *)
Record capture_row := MkCaptureRow {
  cr_op_date : Z;
  cr_merchant_id : string;
  cr_total_amount : Z;
  cr_total_operations : Z;
}.

Definition group_order (a b : Z * string) : Prop := a.1 < b.1 \/ (a.1 = b.1 /\ String.le a.2 b.2).

#[global] Instance group_order_dec : RelDecision group_order.
Proof. intros a b. unfold group_order. apply _. Defined.

(** A filter that is left out when its value is false. *)
Definition matches (wanted : option string) (value : string) : bool :=
  match str_or_none wanted with Some v => (value =? v)%py | None => true end.

Definition status_named (status : string) : option BillingSummaryStatus.BillingSummaryStatus :=
  head (List.filter (fun s => (BillingSummaryStatus.value s =? status)%py)
    [BillingSummaryStatus.PENDING; BillingSummaryStatus.FINALIZED]).

Section Reports.
Context (W : world Db) `{Timezone} `{DatabaseZone}.

Definition capture_group (o : Operation) : Z * string := (db_date (op_created_at o), op_merchant_id o).

(** The naive bounds are in the zone of the database. *)
Definition captured (date_from date_to : Z) (merchant_id : option string) (o : Operation) : bool :=
  (op_operation_type o =? OperationType.CAPTURE)%py && (date_from <=? db_date (op_created_at o)) &&
  (db_date (op_created_at o) <=? date_to) && matches merchant_id (op_merchant_id o).

Definition _capture_aggregation_query (date_from date_to : Z) (merchant_id : option string) (d : Db) : list capture_row :=
  let rows := List.filter (captured date_from date_to merchant_id) (operations (scenario d)) in
  map (fun k : Z * string =>
    let group := List.filter (fun o => (capture_group o =? k)%py) rows in
    MkCaptureRow k.1 k.2 (sum_of op_amount group) (Z.of_nat (length group)))
    (merge_sort group_order (remove_dups (map capture_group rows))).

Definition capture_hash (billing_period_id : string) (r : capture_row) : string :=
  Daily.hash_payload W [
    ("date", JStr (date_isoformat (cr_op_date r))); ("billing_period_id", JStr billing_period_id);
    ("merchant_id", JStr (cr_merchant_id r)); ("total_captured_amount", JInt (cr_total_amount r));
    ("operations_count", JInt (cr_total_operations r)) ].

Definition rebuilt (billing_period_id : string) (r : capture_row) (at_ : Z) (s : BillingSummary) : BillingSummary :=
  set_sm_finalized_at None (set_sm_generated_at (Some at_) (set_sm_hash (Some (capture_hash billing_period_id r))
    (set_sm_status BillingSummaryStatus.PENDING (set_sm_operations_count (cr_total_operations r)
      (set_sm_total_amount (cr_total_amount r) s))))).

Definition new_report (billing_period_id : string) (r : capture_row) (at_ : Z) (id : string) : BillingSummary :=
  MkBillingSummary id (cr_op_date r) billing_period_id None (cr_merchant_id r) None None (cr_total_amount r) None
    (cr_total_operations r) 0 BillingSummaryStatus.PENDING (Some at_) None (Some (capture_hash billing_period_id r)).

Definition upsert_report (billing_period_id : string) (existing : list BillingSummary) (r : capture_row)
    : PM BillingSummary :=
  at_ ← now W;
  match last (List.filter (fun s => (sm_billing_date s =? cr_op_date r) && (sm_merchant_id s =? cr_merchant_id r)%py) existing) with
  | Some summary =>
      modify (on_billing_summaries (update_row sm_id summary (rebuilt billing_period_id r at_)));;
      mret summary
  | None =>
      id ← uuid4 W;
      insert_row summaries on_billing_summaries Daily.same_summary "billing_summary_pkey"
        (new_report billing_period_id r at_ id)
  end.

Definition reread (s : BillingSummary) : PM BillingSummary := q_one summaries (fun r => (sm_id r =? sm_id s)%py).

Definition build_billing_summary_for_date (date_from date_to : Z) (merchant_id : option string)
    : PM (list BillingSummary) :=
  let '(period_start, period_end) := BillingPeriodService.period_bounds_for_dates date_from date_to in
  period ← BillingPeriodService.get_or_create W BillingPeriodType.ADHOC period_start period_end tz_name;
  Daily.require_open period;;
  aggregates ← gets (_capture_aggregation_query date_from date_to merchant_id);
  match aggregates with
  | [] => mret []
  | _ =>
      existing ← q_all summaries (fun s => (date_from <=? sm_billing_date s) && (sm_billing_date s <=? date_to) &&
        (sm_billing_period_id s =? bp_id period)%py && matches merchant_id (sm_merchant_id s));
      race W;;
      result ← for_each aggregates (upsert_report (bp_id period) existing);
      commit;;
      for_each result reread
  end.

Definition finalize_billing_summary (summary_id : string) : PM BillingSummary :=
  summary ← q_first summaries (fun s => (sm_id s =? summary_id)%py);
  match summary with
  | None => raise (ValueError "summary not found")
  | Some summary =>
      period ← q_one_or_none (fun d => billing_periods (billing d)) (fun p => (bp_id p =? sm_billing_period_id summary)%py);
      match period with Some period => Daily.require_open period | None => mret tt end;;
      at_ ← now W;
      modify (on_billing_summaries (update_row sm_id summary (Daily.finalized at_)));;
      commit;;
      reread summary
  end.

Definition list_billing_summaries (date_from date_to : Z) (merchant_id status : option string)
    : PM (list BillingSummary) :=
  wanted ← match str_or_none status with
           | None => mret None
           | Some name => match status_named name with
                          | Some s => mret (Some s)
                          | None => raise (StatementError "billing_summary.status")
                          end
           end;
  rows ← q_all summaries (fun s => (date_from <=? sm_billing_date s) && (sm_billing_date s <=? date_to) &&
    matches merchant_id (sm_merchant_id s) && match wanted with Some w => (sm_status s =? w)%py | None => true end);
  mret (sort_on sm_billing_date rows).

Definition get_or_build_summary (date_from date_to : Z) (merchant_id status : option string)
    : PM (list BillingSummary) :=
  rows ← list_billing_summaries date_from date_to merchant_id status;
  match rows with
  | [] => build_billing_summary_for_date date_from date_to merchant_id
  | _ => mret rows
  end.
End Reports.
End SummaryReports.

(** ** The endpoints (routers/admin/billing.py, api/v1/endpoints/reports_billing.py)

    Their sessions are not in a transaction. *)
Module SummariesApi.
Section Api.
Context (W : world Db) `{Timezone} `{DatabaseZone} `{BillingSettings}.

Definition conflict_409 {A} (m : PM A) : PM A :=
  try_except m (fun e => match e with BillingPeriodConflict m => Some (raise (HTTPException 409 m)) | _ => None end).

Definition admin_run_billing_daily (billing_date : option Z) : PM (Z * option Z) :=
  summaries ← conflict_409 (Daily.run_billing_daily W false billing_date);
  mret (Z.of_nat (length summaries),
        match billing_date with Some d => Some d | None => option_map sm_billing_date (head summaries) end).

Definition admin_finalize_billing_day (billing_date : Z) : PM Z := Daily.finalize_billing_day W false billing_date.

Definition admin_finalize_summary (summary_id : string) : PM BillingSummary :=
  try_except (SummaryReports.finalize_billing_summary W summary_id)
    (fun e => match e with
              | BillingPeriodConflict m => Some (raise (HTTPException 404 "summary not found"))
              | ValueError _ => Some (raise (HTTPException 404 "summary not found"))
              | _ => None
              end).

(** The record of a conflict names no summary, but the column is not nullable. *)
Definition rebuild_billing_summary (date_from date_to : Z) (merchant_id : option string) : PM (list BillingSummary) :=
  try_except (SummaryReports.build_billing_summary_for_date W date_from date_to merchant_id)
    (fun e => match e with
              | BillingPeriodConflict _ => Some (raise (IntegrityError "audit_log.entity_id"))
              | _ => None
              end).

(** [get_billing_summaries] and its endpoint. *)
Definition admin_list_billing_summaries (date_from date_to : Z) (client_id merchant_id product_type currency : option string)
    (limit offset : nat) : PM (list BillingSummary * Z) :=
  let wanted (w v : option string) := match str_or_none w with Some x => (v =? Some x)%py | None => true end in
  rows ← q_all summaries (fun s => (date_from <=? sm_billing_date s) && (sm_billing_date s <=? date_to) &&
    wanted client_id (sm_client_id s) && SummaryReports.matches merchant_id (sm_merchant_id s) &&
    wanted product_type (sm_product_type s) && wanted currency (sm_currency s));
  mret (take limit (drop offset (sort_on (fun s => - sm_billing_date s) rows)), Z.of_nat (length rows)).

Definition admin_get_summary (summary_id : string) : PM BillingSummary :=
  summary ← q_first summaries (fun s => (sm_id s =? summary_id)%py);
  match summary with
  | None => raise (HTTPException 404 "summary not found")
  | Some summary => mret summary
  end.
End Api.
End SummariesApi.

(** ** What is kept: a finalized summary *)
Import Daily.

(** The same summary, finalized, with what was billed. *)
Record same_bill (a b : BillingSummary) : Prop := {
  bill_id : sm_id b = sm_id a;
  bill_of : (sm_billing_date b, sm_billing_period_id b, summary_key b) = (sm_billing_date a, sm_billing_period_id a, summary_key a);
  bill_totals : (sm_total_amount b, sm_total_quantity b, sm_operations_count b, sm_commission_amount b, sm_hash b) =
    (sm_total_amount a, sm_total_quantity a, sm_operations_count a, sm_commission_amount a, sm_hash a);
  bill_status : sm_status b = sm_status a;
}.

#[global] Instance same_bill_preorder : PreOrder same_bill.
Proof.
  split; [by intros a; split|]. intros a b c [A1 A2 A3 A4] [B1 B2 B3 B4]. split; congruence.
Qed.

Definition is_final (s : BillingSummary) : Prop := sm_status s = BillingSummaryStatus.FINALIZED.

(** Every finalized summary is still there. *)
Definition bills_stand (d d' : Db) : Prop :=
  forall s, In s (summaries d) -> is_final s -> exists s', In s' (summaries d') /\ same_bill s s'.

#[global] Instance bills_stand_preorder : PreOrder bills_stand.
Proof.
  split; [by intros d s Hs _; exists s|]. intros d e f Hde Hef s Hs Hf.
  destruct (Hde s Hs Hf) as (s1 & H1 & E1). destruct (Hef s1 H1) as (s2 & H2 & E2).
  { unfold is_final. by rewrite (bill_status _ _ E1). }
  exists s2. split; [done|by etrans].
Qed.

Definition summary_ids (d : Db) : Prop := List.NoDup (map sm_id (summaries d)).

Section Kept.
Context (W : world Db) (alone_W : alone W) `{Timezone} `{DatabaseZone} `{BillingSettings} (d0 : Db).

Definition kept (d : Db) : Prop := summary_ids d /\ bills_stand d0 d.

Lemma bills_same d d' : summaries d' = summaries d -> kept d -> kept d'.
Proof. unfold kept, summary_ids, bills_stand. by intros ->. Qed.

(** A row that is not finalized may change. *)
Lemma bills_update d s f : kept d -> (forall r, In r (summaries d) -> sm_id r = sm_id s -> is_final r -> same_bill r (f r)) ->
  (forall r, sm_id (f r) = sm_id r) -> kept (on_billing_summaries (update_row sm_id s f) d).
Proof.
  intros [Hn Hb] Hf Hid.
  assert (map sm_id (update_row sm_id s f (summaries d)) = map sm_id (summaries d)) as Hmap.
  { unfold update_row, update_where. rewrite map_map. apply map_ext. intros r. by destruct (_ =? _)%py. }
  split; [change (List.NoDup (map sm_id (update_row sm_id s f (summaries d)))); by rewrite Hmap|].
  intros r Hr Hfin. destruct (Hb r Hr Hfin) as (r' & Hr' & Hsame).
  exists (if (sm_id r' =? sm_id s)%py then f r' else r'). split.
  - unfold summaries. simpl. unfold update_row, update_where. by apply (in_map (fun r => if (sm_id r =? sm_id s)%py then f r else r)).
  - unfold eqb. destruct (bool_decide_reflect (sm_id r' = sm_id s)) as [E|]; [|done].
    etrans; [exact Hsame|]. apply Hf; [done|done|]. unfold is_final. by rewrite (bill_status _ _ Hsame).
Qed.

Lemma bills_insert d row : kept d -> List.filter (same_summary row) (summaries d) = [] ->
  kept (on_billing_summaries (fun l => l ++ [row]) d).
Proof.
  intros [Hn Hb] Hf. unfold same_summary in Hf. apply clash_filter in Hf as [Hid%no_clash _]. split.
  - unfold summary_ids, summaries in *. simpl. rewrite map_app. by apply nodup_snoc.
  - intros r Hr Hfin. destruct (Hb r Hr Hfin) as (r' & Hr' & Hsame). exists r'. split; [|done].
    unfold summaries. simpl. apply in_app_iff. by left.
Qed.

Lemma keeps_insert name row : keeps kept (insert_row summaries on_billing_summaries same_summary name row).
Proof.
  intros s [Hl Hs]. unfold insert_row, q_first. run_steps.
  destruct (List.filter (same_summary row) (summaries (live s))) as [|r l] eqn:E; simpl; [|done].
  split; [by apply bills_insert|done].
Qed.

Lemma keeps_frame f : (forall d, summaries (f d) = summaries d) -> keeps (E := exn) kept (modify f).
Proof. intros Hf. apply keeps_modify. intros d. by apply bills_same. Qed.

Lemma keeps_race_alone : keeps kept (race (E := exn) W).
Proof. by apply keeps_race, alone_keeps. Qed.

Lemma keeps_start ty params key inv : keeps kept (BillingJobRunService.start W ty params key inv).
Proof.
  unfold BillingJobRunService.start. do 3 (apply keeps_bind; [auto with keeps|intros ?]).
  apply keeps_bind; [by apply keeps_frame|auto with keeps].
Qed.

Lemma keeps_succeed run metrics ref : keeps kept (BillingJobRunService.succeed W run metrics ref).
Proof. unfold BillingJobRunService.succeed. apply keeps_bind; [auto with keeps|]. intros t. by apply keeps_frame. Qed.

Lemma keeps_fail run error : keeps kept (BillingJobRunService.fail W run error).
Proof.
  unfold BillingJobRunService.fail, q_first. do 2 (apply keeps_bind; [auto with keeps|intros ?]). case_match; by apply keeps_frame.
Qed.

Lemma keeps_in_job {A} str in_txn run (m : PM A) : keeps kept m -> keeps kept (BillingJobRunService.in_job W str in_txn run m).
Proof.
  intros Hm. unfold BillingJobRunService.in_job, q_first. apply keeps_try.
  - apply keeps_bind; [done|]. intros a. apply keeps_bind; auto with keeps.
  - intros e k [= <-]. apply keeps_bind; [auto with keeps|]. intros o.
    assert (keeps kept (when (negb in_txn) rollback;; BillingJobRunService.fail W (default run o) (str e);; raise (A := A) e)).
    { apply keeps_bind; [auto with keeps|]. intros _. apply keeps_bind; [apply keeps_fail|auto with keeps]. }
    destruct in_txn, e; try done. apply keeps_bind; auto with keeps.
Qed.

Lemma keeps_txn {A} in_txn (m : PM A) : keeps kept m -> keeps kept (BillingJobRunService.txn_context in_txn m).
Proof.
  intros Hm. unfold BillingJobRunService.txn_context. destruct in_txn; [done|]. apply keeps_bind.
  - apply keeps_try; [done|]. intros e k [= <-]. apply keeps_bind; auto with keeps.
  - intros a. apply keeps_bind; auto with keeps.
Qed.

Lemma keeps_period ty start_at end_at tz : keeps kept (BillingPeriodService.get_or_create W ty start_at end_at tz).
Proof.
  unfold BillingPeriodService.get_or_create, BillingPeriodService.insert_period, q_first.
  apply keeps_bind; [apply keeps_one_or_none|]. intros [p|]; [auto with keeps|].
  apply keeps_bind; [auto with keeps|]. intros id. apply keeps_bind; [|auto with keeps].
  apply keeps_bind; [apply keeps_race_alone|]. intros _. apply keeps_bind; [auto with keeps|].
  intros [q|]; [auto with keeps|by apply keeps_frame].
Qed.

(** The rows read before the loop that were pending still are. *)
Definition pending_stay (existing : list BillingSummary) (d : Db) : Prop :=
  forall r r', In r existing -> sm_status r = BillingSummaryStatus.PENDING -> In r' (summaries d) -> sm_id r' = sm_id r ->
  sm_status r' = BillingSummaryStatus.PENDING.

Lemma upsert_keeps date period existing at_ a s : holds kept s -> pending_stay existing (live s) ->
  wp (upsert_aggregate W date period existing at_ a)
    (fun _ t => holds kept t /\ pending_stay existing (live t)) (fun _ => holds kept) s.
Proof.
  intros [Hl Hs] Hp. unfold upsert_aggregate.
  destruct (last (List.filter _ existing)) as [r|] eqn:Hlast.
  - assert (In r existing) as Hr.
    { apply last_Some in Hlast as [l Hlast]. apply (filter_In (fun s => (summary_key s =? key_of a)%py) r existing).
      rewrite Hlast, in_app_iff. right. by left. }
    unfold eqb at 1. destruct (bool_decide_reflect (sm_status r = BillingSummaryStatus.FINALIZED)) as [|Hnf]; [by apply wp_ret|].
    assert (sm_status r = BillingSummaryStatus.PENDING) as Hpend by (by destruct (sm_status r)).
    eapply wp_step; [reflexivity|]. apply wp_ret. split; [split; [|done]|].
    + apply bills_update; [done| |done]. intros x Hx Ex Hfin. specialize (Hp r x Hr Hpend Hx Ex). unfold is_final in Hfin. congruence.
    + unfold summaries. simpl. unfold update_row, update_where.
      intros x y Hx Hpx (z & <- & Hz)%in_map_iff Ey. specialize (Hp x z Hx Hpx Hz). by destruct (_ =? _)%py; apply Hp.
  - eapply wp_step; [reflexivity|]. apply wp_bind. apply wp_insert_row; [done|]. intros Hf. apply wp_ret.
    split; [split; [by apply bills_insert|done]|]. unfold summaries. simpl.
    intros x y Hx Hpx [Hy|[<-|[]]]%in_app_iff Ey; [by apply (Hp x y)|done].
Qed.

Lemma keeps_upserts date period : keeps kept (_upsert_billing_summaries W date period).
Proof.
  unfold _upsert_billing_summaries. apply keeps_bind; [auto with keeps|]. intros [|a l]; [auto with keeps|].
  set (P := fun s => (sm_billing_date s =? date) && (sm_billing_period_id s =? period)%py).
  intros s Hs. set (existing := List.filter P (summaries (live s))).
  apply wp_keeps.
  eapply wp_step; [reflexivity|]. fold existing. eapply wp_step; [reflexivity|]. eapply wp_step; [by apply race_alone|].
  apply wp_bind. eapply (wp_mono _ (fun _ t => holds kept t /\ pending_stay existing (live t)) _ (fun _ => holds kept)); [|intros r t [Ht _]; exact Ht|done].
  apply (wp_for_each _ (fun _ _ t => holds kept t /\ pending_stay existing (live t))) with (done := []).
  - intros x l' acc t [Ht Hpt]. by apply upsert_keeps.
  - split; [done|]. intros x y Hx Hpx Hy Exy. simpl in Hy. apply filter_In in Hx as [Hx _].
    by rewrite (nodup_key sm_id (summaries (live s)) y x (proj1 (proj1 Hs)) Hy Hx Exy).
Qed.

Lemma keeps_run_daily in_txn date : keeps kept (run_billing_daily W in_txn date).
Proof.
  unfold run_billing_daily, BillingPeriodService.period_bounds_for_dates, require_open.
  apply keeps_bind; [destruct date; [auto with keeps|]; apply keeps_bind; auto with keeps|]. intros d.
  apply keeps_bind; [apply keeps_start|]. intros run. apply keeps_in_job, keeps_if.
  - apply keeps_bind; [apply keeps_succeed|auto with keeps].
  - apply keeps_bind; [apply keeps_period|]. intros p. apply keeps_bind; [auto with keeps|]. intros _.
    apply keeps_bind; [apply keeps_upserts|]. intros rows. apply keeps_bind; [apply keeps_succeed|auto with keeps].
Qed.

Lemma finalized_bill at_ s : is_final s -> same_bill s (finalized at_ s).
Proof. unfold is_final. intros Hs. by split. Qed.

Lemma bills_finalize d P at_ : kept d -> kept (on_billing_summaries (update_where P (finalized at_)) d).
Proof.
  intros [Hn Hb]. split.
  - change (List.NoDup (map sm_id (update_where P (finalized at_) (summaries d)))). unfold update_where. rewrite map_map.
    erewrite map_ext; [exact Hn|]. intros r. by destruct (P r).
  - intros r Hr Hfin. destruct (Hb r Hr Hfin) as (r' & Hr' & Hsame). exists (if P r' then finalized at_ r' else r'). split.
    + unfold summaries. simpl. unfold update_where. by apply (in_map (fun r => if P r then finalized at_ r else r)).
    + destruct (P r'); [|done]. etrans; [exact Hsame|]. apply finalized_bill. unfold is_final. by rewrite (bill_status _ _ Hsame).
Qed.

Lemma keeps_finalize_day in_txn date : keeps kept (finalize_billing_day W in_txn date).
Proof.
  unfold finalize_billing_day, q_all. apply keeps_bind; [auto with keeps|]. intros at_. apply keeps_if.
  - apply keeps_bind; [|auto with keeps]. apply keeps_txn, keeps_bind; [apply keeps_start|]. intros run. apply keeps_succeed.
  - apply keeps_bind; [apply keeps_start|]. intros run. apply keeps_in_job, keeps_bind; [auto with keeps|]. intros fin.
    apply keeps_bind; [auto with keeps|]. intros rows.
    apply keeps_bind; [apply keeps_modify; intros d; apply bills_finalize|]. intros _.
    apply keeps_bind; [apply keeps_succeed|auto with keeps].
Qed.

Lemma keeps_finalize_one id : keeps kept (SummaryReports.finalize_billing_summary W id).
Proof.
  unfold SummaryReports.finalize_billing_summary, q_first, SummaryReports.reread, q_one, require_open.
  apply keeps_bind; [auto with keeps|]. intros [r|]; [|auto with keeps].
  apply keeps_bind; [apply keeps_one_or_none|]. intros p. apply keeps_bind; [destruct p; auto with keeps|]. intros _.
  apply keeps_bind; [auto with keeps|]. intros at_. apply keeps_bind; [|intros _; apply keeps_bind; [auto with keeps|]].
  - apply keeps_modify. intros d Hd. apply bills_update; [done| |done]. intros x _ _. apply finalized_bill.
  - intros _. apply keeps_bind; [apply keeps_one_or_none|]. intros [x|]; auto with keeps.
Qed.
End Kept.

(** ** Histories of requests

    Between them the operations and the fuel transactions change in any way. *)
Inductive summary_request :=
| RunDaily (billing_date : option Z)
| FinalizeDay (billing_date : Z)
| FinalizeOne (summary_id : string)
| Elsewhere (f : list Operation -> list Operation) (g : list FuelTransaction -> list FuelTransaction).

Section Histories.
Context (W : world Db) `{Timezone} `{DatabaseZone} `{BillingSettings}.
Import SummariesApi.

Definition run_summary (r : summary_request) : PM unit :=
  match r with
  | RunDaily billing_date => admin_run_billing_daily W billing_date;; mret tt
  | FinalizeDay billing_date => admin_finalize_billing_day W billing_date;; mret tt
  | FinalizeOne summary_id => admin_finalize_summary W summary_id;; mret tt
  | Elsewhere f g => modify (on_operations f);; modify (on_fuel_transactions g);; commit
  end.

Definition serve_summaries (rs : list summary_request) : session Db -> session Db := serve_all (map run_summary rs).

Lemma keeps_request (alone_W : alone W) d0 r : keeps (kept d0) (run_summary r).
Proof.
  destruct r; simpl.
  - apply keeps_bind; [|auto with keeps]. unfold admin_run_billing_daily, conflict_409. apply keeps_bind; [|auto with keeps].
    apply keeps_try; [by apply keeps_run_daily|]. intros e k He. destruct e; try discriminate He. injection He as <-. auto with keeps.
  - apply keeps_bind; [by apply keeps_finalize_day|auto with keeps].
  - apply keeps_bind; [|auto with keeps]. unfold admin_finalize_summary. apply keeps_try; [by apply keeps_finalize_one|].
    intros e k He. destruct e; try discriminate He; injection He as <-; auto with keeps.
  - apply keeps_bind; [by apply keeps_frame|]. intros _. apply keeps_bind; [by apply keeps_frame|auto with keeps].
Qed.

(** C14 whatever requests of the daily billing are served, and however the operations change
    between them, a summary that is finalized stays finalized with the totals that were
    billed, and identifiers stay unique. *)
Theorem finalized_summaries_stand rs s : alone W -> saved s = live s -> summary_ids (saved s) ->
  let d := saved (serve_summaries rs s) in
  summary_ids d /\ forall b, In b (summaries (saved s)) -> is_final b -> exists b', In b' (summaries d) /\ same_bill b b'.
Proof.
  intros Ha Hs Hi. cbv zeta.
  destruct (serve_all_keeps summary_ids bills_stand (map run_summary rs)) with (s := s) as (_ & Hids & Hstand); [|done..].
  apply Forall_map, List.Forall_forall. intros r _ t Ht Hr.
  destruct (keeps_request Ha (saved t) r t) as [_ Hk]; [|exact Hk].
  split; [rewrite <- Ht|]; by split.
Qed.
End Histories.

(** ** Witnesses *)

(** The authorisation and the capture of CardHistories.v, in a period of their day. *)
Definition demo_day_ops : list Operation := operations (scenario demo_evening).

Definition demo_billing_day : Db := on_operations (fun _ => demo_day_ops) empty_db.

(** The clock of a session that starts after the grace period. *)
Definition late_world : world Db := {|
  clock := fun n => 3 * day_us + 1000000 * Z.of_nat n; new_uuid := new_uuid demo_world; sha256_hex := sha256_hex demo_world;
  rivals := rivals demo_world;
|}.

Definition summary_rows (d : Db) : list (string * option string * Z * BillingSummaryStatus.BillingSummaryStatus) :=
  map (fun s => (sm_merchant_id s, sm_client_id s, sm_total_amount s, sm_status s)) (summaries d).

Abbreviation serve_billing := (serve_summaries late_world (H := utc) (H1 := default_settings)).

(** The day is billed and finalized, then every operation goes. *)
Lemma finalized_summaries_stand_witness :
  let billed := serve_billing [RunDaily (Some 0); FinalizeDay 0] (fresh_session demo_billing_day) in
  let d := saved (serve_billing [Elsewhere (fun _ => []) id; RunDaily (Some 0); FinalizeDay 0] billed) in
  summary_rows (saved billed) =
    [("merchant", Some "11111111-2222-3333-4444-555555555555", 150, BillingSummaryStatus.FINALIZED)] /\
  summary_ids d /\ forall b, In b (summaries (saved billed)) -> is_final b -> exists b', In b' (summaries d) /\ same_bill b b'.
Proof.
  intros billed d. split; [vm_compute; reflexivity|].
  apply (finalized_summaries_stand late_world (H := utc) (H1 := default_settings)
    [Elsewhere (fun _ => []) id; RunDaily (Some 0); FinalizeDay 0] billed).
  - intros n e. reflexivity.
  - vm_compute. reflexivity.
  - vm_compute. repeat constructor; intros [].
Defined.
