(* ===== verification/Clearing.v ===== *)
(** * Clearing

    services/clearing_service.py and services/clearing_runs.py: the summaries of a day are
    cleared by merchant and currency; services/clearing.py and services/clearing_daily.py:
    batches of operations and their states; the endpoints of routers/admin/clearing.py. *)
From S2P Require Import Prelude Doubles Json Enums Models Instants AuditTrail JobRuns BillingPeriods Summaries.

(** The keys of a dict that is filled in the order of a list. *)
Definition dict_keys {K} `{EqDecision K} (l : list K) : list K := reverse (remove_dups (reverse l)).

Definition clearing_rows (d : Db) : list Clearing := clearings (settle d).
Definition batch_rows (d : Db) : list ClearingBatch := clearing_batches (settle d).

(** ** services/clearing_service.py *)
Module ClearingService.
Definition _load_summary_rows (clearing_date : Z) (status : option BillingSummaryStatus.BillingSummaryStatus) (d : Db)
    : list BillingSummary :=
  List.filter (fun s => (sm_billing_date s =? clearing_date) &&
    match status with Some st => (sm_status s =? st)%py | None => true end) (summaries d).

(** [(summary.merchant_id, summary.currency or unknown)] *)
Definition group_of (unknown : string) (s : BillingSummary) : string * string :=
  (sm_merchant_id s, str_or (sm_currency s) unknown).

Definition grouped (unknown : string) (rows : list BillingSummary) : list (string * string * list BillingSummary) :=
  map (fun k => (k, List.filter (fun s => (group_of unknown s =? k)%py) rows)) (dict_keys (map (group_of unknown) rows)).

Definition detail (s : BillingSummary) : ClearingDetail :=
  MkClearingDetail (sm_id s) (sm_client_id s) (sm_product_type s) (sm_currency s) (sm_total_amount s)
    (option_map float_of_thousandths (sm_total_quantity s)) (sm_operations_count s) (sm_commission_amount s).

Definition cleared (clearing_date : Z) (g : string * string * list BillingSummary) (id : string) : Clearing :=
  let '(merchant_id, currency, items) := g in
  MkClearing id clearing_date merchant_id currency (sum_of sm_total_amount items) "PENDING" (Some (map detail items)).

(** The primary key and uq_clearing_date_merchant_currency. *)
Definition same_clearing (a b : Clearing) : bool :=
  (clr_id b =? clr_id a)%py ||
  ((clr_batch_date b =? clr_batch_date a) && (clr_merchant_id b =? clr_merchant_id a)%py &&
   (clr_currency b =? clr_currency a)%py).

Section Service.
Context (W : world Db).

Definition insert_clearing (make : string -> Clearing) : PM Clearing :=
  id ← uuid4 W;
  insert_row clearing_rows on_clearings same_clearing "uq_clearing_date_merchant_currency" (make id).

(** A group is cleared again, or for the first time; the flush is that of the end. *)
Definition upsert_clearing (clearing_date : Z) (existing : list Clearing) (g : string * string * list BillingSummary)
    : PM unit :=
  let '(merchant_id, currency, items) := g in
  match last (List.filter (fun c => ((clr_merchant_id c, clr_currency c) =? (merchant_id, currency))%py) existing) with
  | Some clearing =>
      modify (on_clearings (update_row clr_id clearing (fun c =>
        set_clr_details (Some (map detail items)) (set_clr_total_amount (sum_of sm_total_amount items) c))))
  | None => insert_clearing (cleared clearing_date g);; mret tt
  end.

(** [order_by(merchant_id, currency)] *)
Definition clearing_order (a b : Clearing) : Prop :=
  (clr_merchant_id a = clr_merchant_id b /\ String.le (clr_currency a) (clr_currency b)) \/
  (clr_merchant_id a <> clr_merchant_id b /\ String.le (clr_merchant_id a) (clr_merchant_id b)).

#[global] Instance clearing_order_dec : RelDecision clearing_order.
Proof. intros a b. unfold clearing_order. apply _. Defined.

Definition generate_clearing_batches_for_date (in_transaction : bool) (clearing_date : Z) : PM (list Clearing) :=
  some ← BillingJobRunService.txn_context in_transaction (
    summaries ← gets (_load_summary_rows clearing_date None);
    match summaries with
    | [] => mret false
    | _ =>
        existing ← q_all clearing_rows (fun c => clr_batch_date c =? clearing_date);
        race W;;
        for_each (grouped "" summaries) (upsert_clearing clearing_date existing);;
        mret true
    end);
  if some : bool then
    updated_batches ← q_all clearing_rows (fun c => clr_batch_date c =? clearing_date);
    mret (merge_sort clearing_order updated_batches)
  else mret [].

(** The metrics of a run: how many were created, and why none. *)
Definition clearing_metrics (created : Z) (reason : option string) : dict :=
  ("created", JInt created) :: match reason with Some r => [("reason", JStr r)] | None => [] end.

(** The rows are flushed with the run that has succeeded. *)
Definition admin_clearing (clearing_date : Z) (job_run : BillingJobRun) : PM (Z * option string) :=
  let finish created reason (rows : list (string * string * list BillingSummary)) :=
    BillingJobRunService.succeed W job_run (clearing_metrics created reason) None;;
    race W;;
    for_each rows (fun g => insert_clearing (cleared clearing_date g));;
    commit;;
    mret (created, reason) in
  existing ← q_first clearing_rows (fun c => clr_batch_date c =? clearing_date);
  match existing with
  | Some _ => finish 0 (Some "already_exists") []
  | None =>
      summaries ← gets (_load_summary_rows clearing_date (Some BillingSummaryStatus.FINALIZED));
      match summaries with
      | [] => finish 0 (Some "no_data") []
      | _ => let groups := grouped "XXX" summaries in finish (Z.of_nat (length groups)) None groups
      end
  end.

Definition run_admin_clearing `{BillingSettings} (clearing_date : Z) : PM (Z * option string) :=
  job_run ← BillingJobRunService.start W BillingJobType.CLEARING
    [("clearing_date", JStr (date_isoformat clearing_date))] None None;
  try_except (admin_clearing clearing_date job_run)
    (fun e => Some (
      object ← q_first (fun d => job_runs (billing d)) (fun r => (bj_id r =? bj_id job_run)%py);
      rollback;;
      BillingJobRunService.fail W (default job_run object) (str_exc e);;
      commit;;
      raise e)).
End Service.
End ClearingService.

(** ** services/clearing_runs.py *)
Module ClearingRunService.
Import ClearingService.

(** [existing.result_ref.get("batch_ids") or []], of a dict. *)
Definition batch_ids (ref : dict) : list string :=
  match List.find (fun kv => (kv.1 =? "batch_ids")%py) ref with
  | Some (_, JList ids) => omap (fun i => match i with JStr s => Some s | _ => None end) ids
  | _ => []
  end.

Section Runs.
Context (W : world Db) `{BillingSettings} (try_lock : string -> string -> bool).

Definition _load_existing (ids : list string) : PM (list Clearing) :=
  match ids with [] => mret [] | _ => q_all clearing_rows (fun c => bool_decide (clr_id c ∈ ids)) end.

Definition perform (in_transaction : bool) (clearing_date : Z) (correlation_id : option string) : PM (list Clearing) :=
  let day := ("clearing_date", JStr (date_isoformat clearing_date)) in
  if negb (try_lock "clearing_run" (date_isoformat clearing_date))
  then raise (ClearingRunInProgress (str_or correlation_id "clearing_run_locked")) else
  job_run ← BillingJobRunService.start W BillingJobType.CLEARING_RUN [day] correlation_id None;
  BillingJobRunService.in_job W str_exc in_transaction job_run (
    batches ← generate_clearing_batches_for_date W true clearing_date;
    BillingJobRunService.succeed W job_run [("batches", JInt (Z.of_nat (length batches))); day]
      (Some [("batch_ids", JList (map (fun b => JStr (clr_id b)) batches)); day]);;
    mret batches).

(** The lookup of the key begins a transaction. *)
Definition run (in_transaction : bool) (clearing_date : Z) (idempotency_key : option string) : PM (list Clearing) :=
  match str_or_none idempotency_key with
  | None => perform in_transaction clearing_date idempotency_key
  | Some key =>
      existing ← BillingJobRunService.find_by_correlation BillingJobType.CLEARING_RUN key;
      match existing with
      | None => perform true clearing_date idempotency_key
      | Some existing =>
          match bj_status existing, bj_result_ref existing with
          | BillingJobStatus.STARTED, _ => raise (ClearingRunInProgress (bj_id existing))
          | BillingJobStatus.SUCCESS, Some (JDict ref) => _load_existing (batch_ids ref)
          | _, _ => perform true clearing_date idempotency_key
          end
      end
  end.
End Runs.
End ClearingRunService.

(** ** services/clearing.py *)
Module ClearingBatches.
Definition CLEARING_TRANSITIONS (status : string) : list string :=
  if (status =? "PENDING")%py then ["SENT"] else
  if (status =? "SENT")%py then ["CONFIRMED"; "FAILED"] else
  if (status =? "FAILED")%py then ["PENDING"] else [].

(** The primary key, and uq_clearing_batch_tenant_period of a batch that has a tenant. *)
Definition same_batch (a b : ClearingBatch) : bool :=
  (clb_id b =? clb_id a)%py ||
  (bool_decide (is_Some (clb_tenant_id a)) && (clb_tenant_id b =? clb_tenant_id a)%py &&
   (clb_date_from b =? clb_date_from a) && (clb_date_to b =? clb_date_to a)).

Definition batch_operations (b : ClearingBatch) (d : Db) : list ClearingBatchOperation :=
  List.filter (fun o => (clo_batch_id o =? clb_id b)%py) (clearing_batch_operations (settle d)).

Definition refresh (b : ClearingBatch) : PM ClearingBatch := q_one batch_rows (fun r => (clb_id r =? clb_id b)%py).

Definition get_batch (batch_id : string) : PM (option ClearingBatch) :=
  q_first batch_rows (fun b => (clb_id b =? batch_id)%py).

Definition batch_statuses : list string := ["PENDING"; "SENT"; "CONFIRMED"; "FAILED"].

Definition list_batches (merchant_id status : option string) (date_from date_to : option Z) (limit offset : option nat)
    : PM (list ClearingBatch) :=
  match str_or_none status with
  | Some s => when (negb (bool_decide (s ∈ batch_statuses))) (raise (StatementError "clearing_batch.status"))
  | None => mret tt
  end;;
  rows ← q_all batch_rows (fun b =>
    SummaryReports.matches merchant_id (clb_merchant_id b) && SummaryReports.matches status (clb_status b) &&
    match date_from with Some d => d <=? clb_date_from b | None => true end &&
    match date_to with Some d => clb_date_to b <=? d | None => true end);
  let rows := drop (default 0%nat offset) (sort_on (fun b => - clb_created_at b) rows) in
  mret (match limit with Some (S n) => take (S n) rows | _ => rows end).

(** The four moves of a batch. *)
Definition move_batch (target batch_id : string) : PM ClearingBatch :=
  batch ← get_batch batch_id;
  match batch with
  | None => raise (ValueError "batch not found")
  | Some batch =>
      if negb (bool_decide (target ∈ CLEARING_TRANSITIONS (clb_status batch))) then raise (ValueError "invalid transition")
      else
        modify (on_clearing_batches (update_row clb_id batch (set_clb_status target)));;
        commit;;
        refresh batch
  end.

Definition mark_batch_sent : string -> PM ClearingBatch := move_batch "SENT".
Definition mark_batch_confirmed : string -> PM ClearingBatch := move_batch "CONFIRMED".
Definition mark_batch_failed : string -> PM ClearingBatch := move_batch "FAILED".
Definition retry_batch : string -> PM ClearingBatch := move_batch "PENDING".

Definition _load_billing_total (date_from date_to : Z) (merchant_id : string) (d : Db) : Z * Z :=
  let summary := List.filter (fun s => (date_from <=? sm_billing_date s) && (sm_billing_date s <=? date_to) &&
    (sm_merchant_id s =? merchant_id)%py) (summaries d) in
  (sum_of sm_total_amount summary, sum_of sm_operations_count summary).

(** [CAPTURE] operations of a merchant; the naive bounds are in the zone of the database. *)
Definition captures_of `{DatabaseZone} (date_from date_to : Z) (merchant_id : string) (d : Db) : list Operation :=
  List.filter (fun o => (op_operation_type o =? OperationType.CAPTURE)%py && (op_merchant_id o =? merchant_id)%py &&
    (date_from <=? db_date (op_created_at o)) && (db_date (op_created_at o) <=? date_to)) (operations (scenario d)).

Section Build.
Context (W : world Db) `{DatabaseZone}.

(** [db.add(batch); db.flush()] *)
Definition insert_batch (make : string -> Z -> ClearingBatch) : PM ClearingBatch :=
  id ← uuid4 W;
  created_at ← now W;
  race W;;
  insert_row batch_rows on_clearing_batches same_batch "uq_clearing_batch_tenant_period" (make id created_at).

Definition insert_operation (b : ClearingBatch) (operation_id : string) (amount : Z) : PM ClearingBatchOperation :=
  id ← uuid4 W;
  insert_row (fun d => clearing_batch_operations (settle d)) on_clearing_batch_operations
    (fun a b => (clo_id b =? clo_id a)%py) "clearing_batch_operation_pkey"
    (MkClearingBatchOperation id (clb_id b) operation_id amount).

Definition build_clearing_batch_for_period (date_from date_to : Z) (merchant_id : string) : PM ClearingBatch :=
  captures ← gets (captures_of date_from date_to merchant_id);
  total ← gets (_load_billing_total date_from date_to merchant_id);
  let '(total_amount, operations_count) :=
    if (total.1 =? 0) && negb (bool_decide (captures = []))
    then (sum_of op_amount captures, Z.of_nat (length captures)) else total in
  batch ← insert_batch (fun id created_at =>
    MkClearingBatch id merchant_id None date_from date_to total_amount None
      (if operations_count =? 0 then Z.of_nat (length captures) else operations_count) "OPEN" "PENDING" created_at None);
  for_each captures (fun o => insert_operation batch (op_operation_id o) (op_amount o));;
  commit;;
  refresh batch.
End Build.
End ClearingBatches.

(** ** services/clearing_daily.py *)
Module ClearingDaily.
Import ClearingBatches.

Definition BILLABLE_STATUSES : list OperationStatus.OperationStatus :=
  [OperationStatus.CAPTURED; OperationStatus.COMPLETED; OperationStatus.REFUNDED; OperationStatus.REVERSED].

Section Daily.
Context (W : world Db) `{Timezone} `{BillingSettings}.

Definition _load_operations (target_date : Z) (d : Db) : list (Operation * Z) :=
  map (fun o => (o, Daily.net_amount o))
    (List.filter (fun o => bool_decide (op_status o ∈ BILLABLE_STATUSES) && Daily.in_window target_date (op_created_at o))
      (operations (scenario d))).

Definition _find_or_create_batch (merchant_id : string) (target_date : Z) : PM ClearingBatch :=
  batch ← q_one_or_none batch_rows (fun b => (clb_merchant_id b =? merchant_id)%py &&
    (clb_date_from b =? target_date) && (clb_date_to b =? target_date));
  match batch with
  | Some batch => mret batch
  | None => insert_batch W (fun id created_at =>
      MkClearingBatch id merchant_id None target_date target_date 0 None 0 "OPEN" "PENDING" created_at None)
  end.

Definition _populate_batch (batch : ClearingBatch) (ops : list (Operation * Z)) : PM ClearingBatch :=
  if (clb_status batch <>? "PENDING")%py then mret batch else
  stored ← gets (batch_operations batch);
  let existing_op_ids := remove_dups (map clo_operation_id stored) in
  let new_operations := List.filter (fun o => negb (bool_decide (op_operation_id o.1 ∈ existing_op_ids))) ops in
  for_each new_operations (fun o => insert_operation W batch (op_operation_id o.1) o.2);;
  let f b := set_clb_operations_count (Z.of_nat (length new_operations) + Z.of_nat (length existing_op_ids))
    (set_clb_total_amount (sum_of snd ops) b) in
  modify (on_clearing_batches (update_row clb_id batch f));;
  mret (f batch).

(** The session is not in a transaction, else [session.begin] raises. *)
Definition run_clearing_daily (target_date : option Z) : PM (list ClearingBatch) :=
  clearing_date ← match target_date with
                  | Some d => mret d
                  | None => now_ ← now W; mret (Daily._default_billing_date now_)
                  end;
  if negb NEFT_CLEARING_DAILY_ENABLED then mret [] else
  BillingJobRunService.txn_context false (
    ops ← gets (_load_operations clearing_date);
    for_each (dict_keys (map (fun o => op_merchant_id o.1) ops)) (fun merchant_id =>
      batch ← _find_or_create_batch merchant_id clearing_date;
      _populate_batch batch (List.filter (fun o => (op_merchant_id o.1 =? merchant_id)%py) ops))).
End Daily.
End ClearingDaily.

(** ** The endpoints (routers/admin/clearing.py) *)
Module ClearingApi.
Import ClearingBatches.
Section Api.
Context (W : world Db) `{Timezone} `{DatabaseZone} `{BillingSettings} (try_lock : string -> string -> bool).

Definition get_clearing_batch (batch_id : string) : PM (ClearingBatch * list ClearingBatchOperation) :=
  batch ← get_batch batch_id;
  match batch with
  | None => raise (HTTPException 404 "batch not found")
  | Some batch => ops ← gets (batch_operations batch); mret (batch, ops)
  end.

Definition get_clearing_batch_operations (batch_id : string) : PM (list ClearingBatchOperation) :=
  r ← get_clearing_batch batch_id; mret r.2.

(** [date.today()] of a process whose zone is UTC. *)
Definition run_daily_clearing (clearing_date : option Z) (idempotency_key : option string) : PM (list string * Z) :=
  target_date ← match clearing_date with
                | Some d => mret d
                | None => now_ ← now W; mret (now_ / day_us)
                end;
  let scope_key := JobLocks.make_stable_key W "clearing_run" [("clearing_date", JStr (date_isoformat target_date))]
    idempotency_key in
  batches ← try_except (ClearingRunService.run W try_lock false target_date (Some scope_key))
    (fun e => match e with ClearingRunInProgress _ => Some (raise (HTTPException 409 "already running")) | _ => None end);
  mret (map clr_id batches, target_date).

Definition build_batch (date_from date_to : Z) (merchant_id : string) : PM (ClearingBatch * list ClearingBatchOperation) :=
  batch ← build_clearing_batch_for_period W date_from date_to merchant_id;
  ops ← gets (batch_operations batch);
  mret (batch, ops).

Definition run_admin_clearing_endpoint (clearing_date : option Z) : PM (Z * (Z * option string)) :=
  target_date ← match clearing_date with
                | Some d => mret d
                | None => now_ ← now W; mret (Daily._default_billing_date now_)
                end;
  result ← ClearingService.run_admin_clearing W target_date;
  mret (target_date, result).

(** The endpoints of the four moves. *)
Definition move_endpoint (move : string -> PM ClearingBatch) (batch_id : string)
    : PM (ClearingBatch * list ClearingBatchOperation) :=
  batch ← try_except (move batch_id)
    (fun e => match e with
              | ValueError m => Some (raise (HTTPException (if (m =? "batch not found")%py then 404 else 400) m))
              | _ => None
              end);
  ops ← gets (batch_operations batch);
  mret (batch, ops).

Definition mark_batch_sent_endpoint : string -> PM _ := move_endpoint mark_batch_sent.
Definition mark_batch_confirmed_endpoint : string -> PM _ := move_endpoint mark_batch_confirmed.
Definition mark_batch_failed_endpoint : string -> PM _ := move_endpoint mark_batch_failed.
Definition retry_batch_endpoint : string -> PM _ := move_endpoint retry_batch.
End Api.
End ClearingApi.
