(* ===== verification/ClearingFacts.v ===== *)
(** * A day is billed, cleared and settled

    What one run of each service of Summaries.v, Clearing.v and Settlements.v does on a new
    day, and that together they settle what the operations come to. *)
From S2P Require Import Prelude Json Enums Models Instants AuditTrail JobRuns BillingPeriods CardHistories Settlements Effects Summaries Clearing.
Import Daily ClearingService.

Lemma nodup_dups {A} `{EqDecision A} (l : list A) : List.NoDup (remove_dups l).
Proof. apply NoDup_ListNoDup, NoDup_remove_dups. Qed.

Lemma in_dups {A} `{EqDecision A} (x : A) l : In x (remove_dups l) <-> In x l.
Proof. by rewrite <- !list_elem_of_In, elem_of_remove_dups. Qed.

Lemma nodup_keys {A} `{EqDecision A} (l : list A) : List.NoDup (dict_keys l).
Proof. apply NoDup_ListNoDup. unfold dict_keys. rewrite reverse_Permutation. apply NoDup_remove_dups. Qed.

Lemma in_keys {A} `{EqDecision A} (x : A) l : In x (dict_keys l) <-> In x l.
Proof. unfold dict_keys. by rewrite <- !list_elem_of_In, elem_of_reverse, elem_of_remove_dups, elem_of_reverse. Qed.

(** What some merchants and currencies come to on a day. *)
Definition counts (w : string -> string -> bool) (merchant currency : string) (amount : Z) : Z :=
  if w merchant currency then amount else 0.

Section Day.
Context (W : world Db) (alone_W : alone W) (uuids_distinct : forall n m, new_uuid W n = new_uuid W m -> n = m).
Context `{Timezone} `{BillingSettings}.

(** What the captured and completed operations and the settled fuel of a day come to. *)
Definition due (w : string -> string -> bool) (date : Z) (d : Db) : Z :=
  sum_of (fun o => counts w (op_merchant_id o) (op_currency o) (net_amount o)) (billable_operations date d) +
  sum_of (fun f => counts w (ft_network_id f) (ft_currency f) (ft_amount_total_minor f)) (settled_fuel date d).

(** The currency of a clearing: that of its operations, when they have one. *)
Definition cleared_currency (w : string -> string -> bool) (merchant currency : string) : bool :=
  w merchant (str_or (Some currency) "XXX").

Lemma aggregates_due w date d :
  sum_of (fun a => counts w (ag_merchant_id a) (ag_currency a) (ag_total_amount a)) (aggregates_of date d) = due w date d.
Proof.
  unfold aggregates_of, due, _aggregate_operations, _aggregate_fuel_transactions. rewrite sum_of_app, !sum_of_map. f_equal.
  - rewrite <- (sum_of_groups operation_group net_amount (fun k => w k.1.1.2 k.2) (remove_dups (map operation_group (billable_operations date d)))).
    + apply sum_of_ext, List.Forall_forall. by intros [[[c m] p] q] _.
    + apply nodup_dups.
    + intros o Ho. apply in_dups. by apply in_map.
  - rewrite <- (sum_of_groups fuel_group ft_amount_total_minor (fun k => w k.1.1.2 k.2) (remove_dups (map fuel_group (settled_fuel date d)))).
    + apply sum_of_ext, List.Forall_forall. by intros [[[c m] p] q] _.
    + apply nodup_dups.
    + intros o Ho. apply in_dups. by apply in_map.
Qed.

(** ** The summaries of a new day *)

Definition of_day (date : Z) (d : Db) : list BillingSummary := List.filter (fun s => sm_billing_date s =? date) (summaries d).

(** What the other tables of a day are made from. *)
Definition sources (d : Db) := (scenario d, flow d, clearings (settle d), settlements (settle d)).

Definition period_open (date : Z) (d : Db) : Prop :=
  let rows := List.filter (BillingPeriodService.same_bounds BillingPeriodType.DAILY (day_start date) (day_end date))
    (billing_periods (billing d)) in
  rows = [] \/ exists p, rows = [p] /\ bp_status p = BillingPeriodStatus.OPEN.

(** Nothing clashes: the groups of operations and of fuel differ, and identifiers are new. *)
Record new_day (date : Z) (d : Db) (n : nat) : Prop := {
  day_period : period_open date d;
  day_unbilled : of_day date d = [];
  day_groups : List.NoDup (map key_of (aggregates_of date d));
  day_ids : unused W n sm_id (summaries d);
}.

Lemma period_run date s : period_open date (live s) ->
  exists p t, BillingPeriodService.get_or_create W BillingPeriodType.DAILY (day_start date) (day_end date) tz_name s = (Ok p, t) /\
    bp_status p = BillingPeriodStatus.OPEN /\ saved t = saved s /\ (uuids s <= uuids t)%nat /\
    forall K (k : Db -> K), Ignores k on_billing_periods -> k (live t) = k (live s).
Proof.
  intros [Hno|(p & Hp & Ho)]; unfold BillingPeriodService.get_or_create.
  - rewrite (bind_ok _ _ s None s) by (by apply one_or_none_nil). unfold uuid4. run_steps. unfold BillingPeriodService.insert_period.
    set (x := MkBillingPeriod _ _ _ _ _ _ _ _). unfold race, q_first. run_steps. rewrite !alone_W.
    change (List.filter (BillingPeriodService.same_bounds (bp_period_type x) (bp_start_at x) (bp_end_at x)) (billing_periods (billing (live s))) = []) in Hno.
    rewrite Hno. exists x. eexists. split; [reflexivity|]. simpl. split; [done|]. split; [done|]. split; [lia|]. intros K k Hk. apply Hk.
  - exists p, s. rewrite (bind_ok _ _ s (Some p) s) by (by apply one_or_none_some). by repeat split.
Qed.

Definition conflicts (a b : BillingSummary) : bool :=
  (sm_billing_date b =? sm_billing_date a) && (summary_key b =? summary_key a)%py &&
  bool_decide (is_Some (sm_client_id a)) && bool_decide (is_Some (sm_product_type a)) &&
  bool_decide (is_Some (sm_currency a)).

Lemma key_of_new date p n a id : summary_key (new_summary W date p n a id) = key_of a.
Proof. done. Qed.

Lemma upserts_run date period s : of_day date (live s) = [] -> List.NoDup (map key_of (aggregates_of date (live s))) ->
  unused W (uuids s) sm_id (summaries (live s)) ->
  exists rows t, _upsert_billing_summaries W date period s = (Ok rows, t) /\
    Forall2 (fun a r => exists n id, r = new_summary W date period n a id) (aggregates_of date (live s)) rows /\
    summaries (live t) = summaries (live s) ++ rows /\ saved t = saved s /\ (uuids s <= uuids t)%nat /\
    forall K (k : Db -> K), Ignores k on_billing_summaries -> k (live t) = k (live s).
Proof.
  intros Hno Hg Hu. unfold _upsert_billing_summaries, gets, q_all. run_steps.
  destruct (aggregates_of date (live s)) as [|a0 l0] eqn:Hagg.
  { exists [], s. rewrite app_nil_r. by repeat split. }
  assert (List.filter (fun s => (sm_billing_date s =? date) && (sm_billing_period_id s =? period)%py) (summaries (live s)) = []) as ->.
  { apply filter_none, List.Forall_forall. intros r Hr. apply andb_false_iff. left. apply Z.eqb_neq. intros E.
    assert (In r []) as []. rewrite <- Hno. apply filter_In. split; [done|by apply Z.eqb_eq]. }
  set (n := clock W (ticks s)). rewrite !alone_W.
  set (s1 := Session (live s) (saved s) (S (ticks s)) (uuids s) (S (races s))).
  destruct (insert_all_run W uuids_distinct summaries on_billing_summaries same_summary conflicts
    "uq_billing_summary_unique_scope" sm_id (new_summary W date period n) (fun r => [r]) ltac:(done)
    ltac:(done) ltac:(done) ltac:(done)
    (upsert_aggregate W date period [] n)) with (l := a0 :: l0) (s := s1) as (t & Ht & Htab & Hsv & Hids & _ & _ & Hk).
  - intros a x row y. unfold upsert_aggregate. simpl. intros Hrun. unfold mbind, M_bind in *.
    unfold uuid4 in *. destruct (insert_row _ _ _ _ _ _) as [[r|e] z]; [|done]. by injection Hrun as -> ->.
  - done.
  - intros a r Ha Hr. unfold no_conflict, conflicts. simpl. apply andb_false_iff. left. apply andb_false_iff. left.
    apply andb_false_iff. left. apply andb_false_iff. left. apply Z.eqb_neq. intros E.
    assert (In r []) as []. rewrite <- Hno. apply filter_In. split; [done|by apply Z.eqb_eq].
  - clear Hagg. induction (a0 :: l0) as [|a l IH]; [constructor|]. simpl in Hg. apply List.NoDup_cons_iff in Hg as [Ha Hl].
    constructor; [|by apply IH]. apply List.Forall_forall. intros b Hb id. unfold no_conflict, conflicts.
    rewrite !key_of_new. unfold eqb. rewrite (bool_decide_eq_false_2 (key_of a = key_of b)); [by rewrite andb_false_r|].
    intros E. apply Ha. rewrite E. by apply in_map.
  - exists (made W (new_summary W date period n) (uuids s) (a0 :: l0)), t. split.
    { rewrite Ht. f_equal. f_equal. simpl. f_equal. clear. generalize (S (uuids s)). induction l0 as [|b l IH]; intros k; simpl; [done|].
      by rewrite IH. }
    split; [apply made_forall2; eauto|]. split; [done|]. split; [done|]. split; [cbn in Hids; lia|]. apply Hk.
Qed.

(** *** The job around it *)

(** A step that returns, commits nothing, and only touches a table that others ignore. *)
Definition steps {A} (m : PM A) (s : session Db) (on_table : (list BillingJobRun -> list BillingJobRun) -> Db -> Db) : Prop :=
  exists a t, m s = (Ok a, t) /\ saved t = saved s /\ (uuids s <= uuids t)%nat /\
    forall K (k : Db -> K), Ignores k on_table -> k (live t) = k (live s).

Lemma start_run ty params key inv s : steps (BillingJobRunService.start W ty params key inv) s on_job_runs.
Proof.
  eexists _, _. split; [unfold BillingJobRunService.start; run_steps; reflexivity|].
  split; [done|]. simpl. split; [lia|]. intros K k Hk. apply Hk.
Qed.

Lemma succeed_run run metrics ref s : steps (BillingJobRunService.succeed W run metrics ref) s on_job_runs.
Proof.
  eexists _, _. split; [unfold BillingJobRunService.succeed, BillingJobRunService.assign; run_steps; reflexivity|].
  split; [done|]. simpl. split; [lia|]. intros K k Hk. apply Hk.
Qed.

Lemma in_job_run {A} str run (m : PM A) s a t : m s = (Ok a, t) ->
  BillingJobRunService.in_job W str false run m s = (Ok a, Session (live t) (live t) (ticks t) (uuids t) (races t)).
Proof.
  intros Hm. unfold BillingJobRunService.in_job. apply try_ok. rewrite (bind_ok _ _ s a t Hm). done.
Qed.

Lemma daily_run date s : NEFT_BILLING_DAILY_ENABLED = true -> new_day date (live s) (uuids s) ->
  exists rows t, run_billing_daily W false (Some date) s = (Ok rows, t) /\
    Forall2 (fun a r => exists period n id, r = new_summary W date period n a id) (aggregates_of date (live s)) rows /\
    summaries (live t) = summaries (live s) ++ rows /\ saved t = live t /\ (uuids s <= uuids t)%nat /\
    sources (live t) = sources (live s).
Proof.
  intros Hen [Hper Hno Hg Hu]. unfold run_billing_daily. cbv zeta. rewrite (bind_ok _ _ s date s) by done.
  set (day := ("billing_date", _)).
  destruct (start_run BillingJobType.BILLING_DAILY [day] None None s) as (run & s1 & H1 & _ & U1 & K1).
  rewrite (bind_ok _ _ s run s1 H1), Hen. cbn [negb]. unfold BillingPeriodService.period_bounds_for_dates.
  assert (aggregates_of date (live s1) = aggregates_of date (live s)) as Ea by (apply (K1 _ (aggregates_of date)); apply _).
  destruct (period_run date s1) as (p & s2 & H2 & Ho & _ & U2 & K2).
  { unfold period_open in *. by rewrite (K1 _ (fun d => billing_periods (billing d)) ltac:(apply _)). }
  assert (aggregates_of date (live s2) = aggregates_of date (live s)) as Ea2
    by (rewrite <- Ea; apply (K2 _ (aggregates_of date)); apply _).
  assert (summaries (live s2) = summaries (live s)) as Es2
    by (rewrite (K2 _ summaries ltac:(apply _)); apply (K1 _ summaries ltac:(apply _))).
  destruct (upserts_run date (bp_id p) s2) as (rows & s3 & H3 & Hrows & Htab & _ & U3 & K3).
  { unfold of_day in *. by rewrite Es2. }
  { by rewrite Ea2. }
  { rewrite Es2. by apply (unused_mono _ (uuids s)); [lia|]. }
  destruct (succeed_run run [("processed", JInt (Z.of_nat (length rows))); day] None s3) as ([] & s4 & H4 & _ & U4 & K4).
  rewrite (in_job_run _ _ _ s1 rows s4).
  2:{ rewrite (bind_ok _ _ s1 p s2 H2). unfold require_open, when. rewrite Ho. cbn [eqb negb].
      rewrite (bind_ok _ _ s2 tt s2) by done. rewrite (bind_ok _ _ s2 rows s3 H3), (bind_ok _ _ s3 tt s4 H4). done. }
  eexists rows, _. split; [reflexivity|]. cbn [live saved uuids]. rewrite Ea2 in Hrows. split; [|split; [|split; [done|split; [lia|]]]].
  - eapply Forall2_impl; [exact Hrows|]. intros a r (n & id & ->). by exists (bp_id p), n, id.
  - by rewrite (K4 _ summaries ltac:(apply _)), Htab, Es2.
  - rewrite (K4 _ sources ltac:(apply _)), (K3 _ sources ltac:(apply _)), (K2 _ sources ltac:(apply _)). apply (K1 _ sources ltac:(apply _)).
Qed.

(** *** Finalization *)

Lemma finalize_run date s : cutoff date < local_time (clock W (ticks s)) ->
  exists n t fin, finalize_billing_day W false date s = (Ok n, t) /\
    summaries (live t) = update_where (to_finalize date) (finalized fin) (summaries (live s)) /\ saved t = live t /\
    (uuids s <= uuids t)%nat /\ sources (live t) = sources (live s).
Proof.
  intros Hc. unfold finalize_billing_day. set (s0 := Session (live s) (saved s) (S (ticks s)) (uuids s) (races s)).
  rewrite (bind_ok _ _ s (clock W (ticks s)) s0) by done. cbv zeta. rewrite (proj2 (Z.leb_gt _ _) Hc).
  set (day := ("billing_date", _)).
  destruct (start_run BillingJobType.BILLING_FINALIZE [day] None None s0) as (run & s1 & H1 & _ & U1 & K1).
  rewrite (bind_ok _ _ s0 run s1 H1). set (fin := clock W (ticks s1)).
  set (n := Z.of_nat (length (List.filter (to_finalize date) (summaries (live s1))))).
  set (s2 := Session (on_billing_summaries (update_where (to_finalize date) (finalized fin)) (live s1)) (saved s1) (S (ticks s1)) (uuids s1) (races s1)).
  destruct (succeed_run run [("updated", JInt n); day] None s2) as ([] & s3 & H3 & _ & U3 & K3).
  rewrite (in_job_run _ _ _ s1 n s3).
  2:{ unfold q_all. run_steps. fold fin. fold n. change (BillingJobRunService.succeed W run [("updated", JInt n); day] None s2) with (BillingJobRunService.succeed W run [("updated", JInt n); day] None s2).
      fold s2. rewrite H3. done. }
  eexists n, _, fin. split; [reflexivity|]. cbn [live saved uuids]. split; [|split; [done|split; [cbn in U1, U3; lia|]]].
  - rewrite (K3 _ summaries ltac:(apply _)). change (summaries (live s2)) with (update_where (to_finalize date) (finalized fin) (summaries (live s1))).
    f_equal. apply (K1 _ summaries ltac:(apply _)).
  - rewrite (K3 _ sources ltac:(apply _)). apply (K1 _ sources ltac:(apply _)).
Qed.

(** ** The clearing of the finalized summaries *)

Definition scope_of (c : Clearing) : Z * string * string := (clr_batch_date c, clr_merchant_id c, clr_currency c).

Definition no_clearing (date : Z) (d : Db) : Prop := List.filter (fun c => clr_batch_date c =? date) (clearing_rows d) = [].

Lemma grouped_keys unknown rows : map fst (grouped unknown rows) = dict_keys (map (group_of unknown) rows).
Proof. unfold grouped. rewrite map_map. apply map_id. Qed.

Definition clearings_on (date : Z) (d : Db) : list Clearing := List.filter (fun c => clr_batch_date c =? date) (clearing_rows d).

(** A clearing for each merchant and currency. *)
Lemma admin_clearing_run date s : no_clearing date (live s) -> unused W (uuids s) clr_id (clearing_rows (live s)) ->
  let groups := grouped "XXX" (_load_summary_rows date (Some BillingSummaryStatus.FINALIZED) (live s)) in
  exists r rows t, run_admin_clearing W date s = (Ok r, t) /\ r.1 = Z.of_nat (length groups) /\
    Forall2 (fun g c => exists id, c = cleared date g id) groups rows /\
    clearing_rows (live t) = clearing_rows (live s) ++ rows /\ saved t = live t /\ (uuids s <= uuids t)%nat /\
    (scenario (live t), flow (live t), billing_summaries (settle (live t)), settlements (settle (live t))) =
    (scenario (live s), flow (live s), billing_summaries (settle (live s)), settlements (settle (live s))).
Proof.
  intros Hno Hu groups. unfold run_admin_clearing.
  destruct (start_run BillingJobType.CLEARING [("clearing_date", JStr (date_isoformat date))] None None s)
    as (run & s1 & H1 & _ & U1 & K1).
  rewrite (bind_ok _ _ s run s1 H1).
  assert (clearing_rows (live s1) = clearing_rows (live s)) as Ec by (apply (K1 _ clearing_rows); apply _).
  assert (summaries (live s1) = summaries (live s)) as Es by (apply (K1 _ summaries); apply _).
  assert (exists r, r.1 = Z.of_nat (length groups) /\ admin_clearing W date run s1 = (BillingJobRunService.succeed W run (clearing_metrics r.1 r.2) None;;
    race W;; for_each groups (fun g => insert_clearing W (cleared date g));; commit;; mret r) s1) as (r & Hcount & Hr).
  { unfold admin_clearing, q_first, gets. unfold no_clearing in Hno. cbv zeta. run_steps. rewrite Ec, Hno. cbn [head].
    unfold groups, _load_summary_rows. rewrite Es.
    destruct (List.filter _ (summaries (live s))) as [|x l]; [by exists (0, Some "no_data")|].
    by exists (Z.of_nat (length (grouped "XXX" (x :: l))), None). }
  destruct (succeed_run run (clearing_metrics r.1 r.2) None s1) as ([] & s2 & H2 & _ & U2 & K2).
  assert (clearing_rows (live s2) = clearing_rows (live s)) as Ec2 by (rewrite <- Ec; apply (K2 _ clearing_rows); apply _).
  set (s3 := Session (live s2) (saved s2) (ticks s2) (uuids s2) (S (races s2))).
  destruct (insert_all_run W uuids_distinct clearing_rows on_clearings same_clearing
    (fun a b => (clr_batch_date b =? clr_batch_date a) && (clr_merchant_id b =? clr_merchant_id a)%py &&
      (clr_currency b =? clr_currency a)%py) "uq_clearing_date_merchant_currency" clr_id (cleared date) id
    ltac:(done) ltac:(done) ltac:(by intros [[m c] items] i) ltac:(by intros [[m c] items] i j r')
    (fun g => insert_clearing W (cleared date g))) with (l := groups) (s := s3) as (t & Ht & Htab & _ & Hids & _ & _ & Hk).
  - done.
  - unfold s3. cbn [live uuids]. rewrite Ec2. apply (unused_mono _ (uuids s)); [simpl; lia|done].
  - intros [[m c] items] x _ Hx. unfold s3 in Hx. cbn [live] in Hx. rewrite Ec2 in Hx. unfold no_conflict. simpl.
    apply andb_false_iff. left. apply andb_false_iff. left. apply Z.eqb_neq. intros E.
    assert (In x []) as []. rewrite <- Hno. apply filter_In. split; [done|by apply Z.eqb_eq].
  - assert (List.NoDup (map fst groups)) as Hn by (unfold groups; rewrite grouped_keys; apply nodup_keys).
    clear -Hn. induction groups as [|g l IH]; [constructor|]. simpl in Hn. apply List.NoDup_cons_iff in Hn as [Hg Hl].
    constructor; [|by apply IH]. apply List.Forall_forall. intros g' Hg' i.
    destruct g as [[m c] items], g' as [[m' c'] items']. unfold no_conflict. simpl. unfold eqb.
    rewrite Z.eqb_refl. destruct (bool_decide_reflect (m = m')) as [Em|]; [|reflexivity].
    destruct (bool_decide_reflect (c = c')) as [Ec'|]; [|reflexivity]. destruct Hg. rewrite Em, Ec'.
    apply (in_map fst) in Hg'. exact Hg'.
  - exists r, (made W (cleared date) (uuids s2) groups), (Session (live t) (live t) (ticks t) (uuids t) (races t)).
    split.
    { rewrite (try_ok _ _ s1 r (Session (live t) (live t) (ticks t) (uuids t) (races t))); [done|]. rewrite Hr.
      rewrite (bind_ok _ _ s1 tt s2 H2), (bind_ok _ _ s2 tt s3) by (unfold s3; by apply race_alone).
      by rewrite (bind_ok _ _ s3 _ t Ht). }
    split; [done|]. split; [apply made_forall2; eauto|]. cbn [live saved uuids]. split; [by rewrite Htab; unfold s3; cbn [live]; rewrite Ec2|].
    split; [done|]. split; [cbn in Hids; lia|].
    rewrite (Hk _ (fun d => (scenario d, flow d, billing_summaries (settle d), settlements (settle d))) ltac:(apply _)).
    unfold s3. cbn [live]. rewrite (K2 _ (fun d => (scenario d, flow d, billing_summaries (settle d), settlements (settle d))) ltac:(apply _)).
    apply (K1 _ (fun d => (scenario d, flow d, billing_summaries (settle d), settlements (settle d)))); apply _.
Qed.

(** The clearings of a day's groups. *)
Lemma cleared_dates date groups cls : Forall2 (fun g c => exists id, c = cleared date g id) groups cls ->
  List.filter (fun c => clr_batch_date c =? date) cls = cls.
Proof.
  intros Hcls. apply filter_all. induction Hcls as [|[[m c] items] r l l' (id & ->) _ IH]; constructor; [|done].
  simpl. apply Z.eqb_refl.
Qed.

Lemma cleared_scopes date unknown sums cls : Forall2 (fun g c => exists id, c = cleared date g id) (grouped unknown sums) cls ->
  List.NoDup (map scope_of cls).
Proof.
  intros Hcls. assert (map scope_of cls = map (fun k : string * string => (date, k.1, k.2)) (map fst (grouped unknown sums))) as ->.
  { rewrite map_map. induction Hcls as [|[[m c] items] r l l' (id & ->) _ IH]; simpl; [done|]. by rewrite IH. }
  rewrite grouped_keys. apply Finite.Injective_map_NoDup; [|apply nodup_keys]. by intros [a b] [a' b'] [= -> ->].
Qed.

(** A day that has a clearing is left alone. *)
Lemma admin_clearing_again date s c l : clearings_on date (live s) = c :: l ->
  exists t, run_admin_clearing W date s = (Ok (0, Some "already_exists"), t) /\ saved t = live t /\
    clearing_rows (live t) = clearing_rows (live s).
Proof.
  intros Hc. unfold run_admin_clearing.
  destruct (start_run BillingJobType.CLEARING [("clearing_date", JStr (date_isoformat date))] None None s) as (run & s1 & H1 & _ & _ & K1).
  destruct (succeed_run run (clearing_metrics 0 (Some "already_exists")) None s1) as ([] & s2 & H2 & _ & _ & K2).
  exists (Session (live s2) (live s2) (ticks s2) (uuids s2) (S (races s2))). split; [|split; [done|]].
  - rewrite (bind_ok _ _ s run s1 H1). apply try_ok. unfold admin_clearing, q_first. cbv zeta.
    rewrite (bind_ok _ _ s1 (Some c) s1).
    + rewrite (bind_ok _ _ s1 tt s2 H2), (bind_ok _ _ s2 tt _ (race_alone W s2 alone_W)). done.
    + unfold gets. rewrite (K1 _ clearing_rows ltac:(apply _)). unfold clearings_on in Hc. by rewrite Hc.
  - cbn [live]. rewrite (K2 _ clearing_rows ltac:(apply _)). apply (K1 _ clearing_rows ltac:(apply _)).
Qed.

(** The clearings of some summaries come to what these come to. *)
Lemma clearings_total w date unknown sums rows :
  Forall2 (fun g c => exists id, c = cleared date g id) (grouped unknown sums) rows ->
  sum_of (fun c => counts w (clr_merchant_id c) (clr_currency c) (clr_total_amount c)) rows =
  sum_of (fun b => counts w (sm_merchant_id b) (str_or (sm_currency b) unknown) (sm_total_amount b)) sums.
Proof.
  intros Hrows. transitivity (sum_of (fun g => counts w g.1.1 g.1.2 (sum_of sm_total_amount g.2)) (grouped unknown sums)).
  - clear -Hrows. induction Hrows as [|[[m c] items] r l l' (id & ->) _ IH]; simpl; [done|]. by rewrite IH.
  - unfold grouped. rewrite sum_of_map.
    rewrite <- (sum_of_groups (group_of unknown) sm_total_amount (fun k => w k.1 k.2) (dict_keys (map (group_of unknown) sums))).
    + apply sum_of_ext, List.Forall_forall. by intros [m c] _.
    + apply nodup_keys.
    + intros b Hb. apply in_keys. by apply in_map.
Qed.

(** C13 the clearing of a day is run, whatever is in the tables: when the day has no clearing
    yet, the clearings of any merchants and currencies come to what their finalized
    summaries come to, and are counted; when it has one, no clearing changes. *)
Theorem clearing_conserves_once date s : unused W (uuids s) clr_id (clearing_rows (live s)) ->
  exists r t, run_admin_clearing W date s = (Ok r, t) /\ saved t = live t /\
  match clearings_on date (live s) with
  | _ :: _ => r = (0, Some "already_exists") /\ clearing_rows (live t) = clearing_rows (live s)
  | [] =>
      r.1 = Z.of_nat (length (clearings_on date (live t))) /\
      forall w, sum_of (fun c => counts w (clr_merchant_id c) (clr_currency c) (clr_total_amount c)) (clearings_on date (live t)) =
        sum_of (fun b => counts w (sm_merchant_id b) (str_or (sm_currency b) "XXX") (sm_total_amount b))
          (_load_summary_rows date (Some BillingSummaryStatus.FINALIZED) (live s))
  end.
Proof.
  intros Hu. destruct (clearings_on date (live s)) as [|c l] eqn:Hc.
  - destruct (admin_clearing_run date s Hc Hu) as (r & rows & t & Hrun & Hcount & Hrows & Htab & Hsv & _ & _).
    exists r, t. split; [done|]. split; [done|].
    assert (clearings_on date (live t) = rows) as ->.
    { unfold clearings_on in *. rewrite Htab, List.filter_app, Hc, app_nil_l. by eapply cleared_dates. }
    split; [|intros w; by apply (clearings_total w date)]. rewrite Hcount. f_equal. eapply Forall2_length, Hrows.
  - destruct (admin_clearing_again date s c l Hc) as (t & Hrun & Hsv & Htab). by exists (0, Some "already_exists"), t.
Qed.

(** ** The settlements of the clearings *)

Definition settled_on (date : Z) (d : Db) : list Settlement := List.filter (fun r => stl_period_from r =? date) (settlements (settle d)).

Lemma for_each_map {A B C} (g : A -> B) (f : B -> PM C) l : for_each (map g l) f = for_each l (fun a => f (g a)).
Proof. induction l as [|a l IH]; [done|]. cbn [map for_each]. by rewrite IH. Qed.

(** The rows a loop has added are found by their identifiers. *)
Lemma made_drawn {A B} (pk : A -> string) (make : B -> string -> A) (pk_made : forall b id, pk (make b id) = id) l :
  forall n r, In r (made W make n l) -> exists k, (n <= k)%nat /\ pk r = new_uuid W k.
Proof.
  induction l as [|b l IH]; intros n r; [done|]. intros [<-|Hr]; [by exists n|].
  destruct (IH (S n) r Hr) as (k & Hk & E). exists k. split; [lia|done].
Qed.

Lemma made_found {A B} (pk : A -> string) (make : B -> string -> A) (pk_made : forall b id, pk (make b id) = id) l n (old : list A) r :
  unused W n pk old -> In r (made W make n l) -> List.filter (fun x => (pk x =? pk r)%py) (old ++ made W make n l) = [r].
Proof.
  intros Hu Hr. rewrite List.filter_app, (filter_none _ old), app_nil_l.
  - apply (filter_key pk); [|done]. clear -uuids_distinct pk_made. revert n. induction l as [|b l IH]; intros n; [constructor|].
    simpl. constructor; [|done]. rewrite pk_made. intros (x & Ex & Hx)%in_map_iff.
    destruct (made_drawn pk make pk_made l (S n) x Hx) as (k & Hle & E). rewrite Ex in E. apply uuids_distinct in E. lia.
  - apply List.Forall_forall. intros x Hx. apply bool_decide_eq_false. intros E.
    destruct (made_drawn pk make pk_made l n r Hr) as (k & Hle & Ek). apply (Hu k Hle). rewrite <- Ek, <- E. by apply in_map.
Qed.

(** Every clearing gets a draft. *)
Lemma generate_run date s : saved s = live s -> settled_on date (live s) = [] ->
  unused W (uuids s) stl_id (settlements (settle (live s))) ->
  List.NoDup (map scope_of (clearings_on date (live s))) ->
  exists rows t, SettlementService.generate_settlements_for_date W date s = (Ok rows, t) /\
    Forall2 (fun c r => exists id, r = SettlementService.draft c id) (clearings_on date (live s)) rows /\
    settlements (settle (live t)) = settlements (settle (live s)) ++ rows /\ saved t = live t.
Proof.
  intros Hs Hno Hu Hn. unfold SettlementService.generate_settlements_for_date.
  rewrite (bind_ok _ _ s (clearings_on date (live s)) s) by done.
  assert (forall c, In c (clearings_on date (live s)) -> SettlementService.find_settlement c s = (Ok (c, None), s)) as Hfind.
  { intros c [_ Hd%Z.eqb_eq]%filter_In. unfold SettlementService.find_settlement.
    rewrite (bind_ok _ _ s None s); [done|]. apply one_or_none_nil, filter_none, List.Forall_forall. intros r Hr.
    apply andb_false_iff. left. apply andb_false_iff. right. apply Z.eqb_neq. intros E.
    assert (In r []) as []. rewrite <- Hno. apply filter_In. split; [done|]. apply Z.eqb_eq. congruence. }
  destruct (clearings_on date (live s)) as [|c0 l0] eqn:Hcl.
  { exists [], s. rewrite app_nil_r. by repeat split. }
  assert (forall c, In c (clearings_on date (live s)) -> clr_batch_date c = date) as Hdate
    by (intros c [_ Hd%Z.eqb_eq]%filter_In; done).
  rewrite <- Hcl in *. set (cs := clearings_on date (live s)) in *. clearbody cs. clear c0 l0 Hcl.
  rewrite (bind_ok _ _ s (map (fun c => (c, None)) cs) s) by (by apply for_each_reads).
  set (s1 := Session (live s) (saved s) (ticks s) (uuids s) (S (races s))).
  rewrite (bind_ok _ _ s tt s1) by (by apply race_alone).
  destruct (insert_all_run W uuids_distinct (fun d => settlements (settle d)) on_settlements SettlementService.same_settlement
    (fun a b => (stl_merchant_id b =? stl_merchant_id a)%py && (stl_currency b =? stl_currency a)%py &&
      (stl_period_from b =? stl_period_from a) && (stl_period_to b =? stl_period_to a)) "uq_settlement_scope" stl_id
    SettlementService.draft id ltac:(done) ltac:(done) ltac:(done) ltac:(done)
    (fun c => SettlementService.insert_settlement W (SettlementService.draft c)) ltac:(done))
    with (l := cs) (s := s1) as (t & Ht & Htab & Hsv & Hids & _ & _ & _).
  - done.
  - intros c r Hc Hr. unfold no_conflict. simpl. apply andb_false_iff. left. apply andb_false_iff. right. apply Z.eqb_neq. intros E.
    assert (In r []) as []. rewrite <- Hno. apply filter_In. split; [done|]. apply Z.eqb_eq. rewrite E.
    destruct (Hdate c Hc). done.
  - clear -Hn. induction cs as [|c l IH]; [constructor|]. simpl in Hn. apply List.NoDup_cons_iff in Hn as [Hc Hl].
    constructor; [|by apply IH]. apply List.Forall_forall. intros c' Hc' i. unfold no_conflict. simpl. unfold eqb.
    destruct (bool_decide_reflect (clr_merchant_id c = clr_merchant_id c')) as [E1|]; [|reflexivity].
    destruct (bool_decide_reflect (clr_currency c = clr_currency c')) as [E2|]; [|reflexivity].
    destruct (Z.eqb_spec (clr_batch_date c) (clr_batch_date c')) as [E3|]; [|reflexivity]. destruct Hc.
    unfold scope_of. rewrite E1, E2, E3. by apply (in_map scope_of).
  - rewrite map_id in Ht. set (rows := made W SettlementService.draft (uuids s1) cs) in *.
    set (u := Session (live t) (live t) (ticks t) (uuids t) (races t)).
    exists rows, u. split; [|split; [apply made_forall2; eauto|done]].
    rewrite for_each_map. cbv beta iota. rewrite (bind_ok _ _ s1 rows t Ht), (bind_ok _ _ t tt u) by done.
    rewrite (for_each_reads _ id); [by rewrite map_id|]. intros r Hr. unfold q_one. rewrite (bind_ok _ _ u (Some r) u); [done|].
    apply one_or_none_some. unfold u. cbn [live]. rewrite Htab. by apply (made_found stl_id).
Qed.

(** ** A day *)

(** The requests of a day, in their order. *)
Definition billing_of (date : Z) : list (PM unit) :=
  [ SummariesApi.admin_run_billing_daily W (Some date);; mret tt;
    SummariesApi.admin_finalize_billing_day W date;; mret tt;
    ClearingApi.run_admin_clearing_endpoint W (Some date);; mret tt;
    SettlementsApi.generate_settlements W date;; mret tt ].

(** Nothing of the day is in the tables yet, and no identifier drawn from [n] on. *)
Record unprocessed (date : Z) (d : Db) (n : nat) : Prop := {
  un_day : new_day date d n;
  un_cleared : no_clearing date d;
  un_settled : settled_on date d = [];
  un_clearing_ids : unused W n clr_id (clearing_rows d);
  un_settlement_ids : unused W n stl_id (settlements (settle d));
}.

Lemma serve_ok (m : PM unit) ms s t : m s = (Ok tt, t) -> saved t = live t -> serve_all (m :: ms) s = serve_all ms t.
Proof.
  intros Hm Ht. rewrite serve_all_cons. f_equal. unfold serve. rewrite (bind_ok _ _ s tt t) by (by apply try_ok).
  destruct t as [l sv tk u r]. simpl in *. by subst.
Qed.

(** The day's summaries, once finalized. *)
Lemma finalized_rows date fin d d' rows aggs : of_day date d = [] -> summaries d' = update_where (to_finalize date) (finalized fin) (summaries d ++ rows) ->
  Forall2 (fun a r => exists period n id, r = new_summary W date period n a id) aggs rows ->
  _load_summary_rows date (Some BillingSummaryStatus.FINALIZED) d' = map (finalized fin) rows.
Proof.
  intros Hno Hd' Hrows. unfold _load_summary_rows. rewrite Hd'. unfold update_where. rewrite map_app, List.filter_app.
  rewrite (filter_none _ (map _ (summaries d))), app_nil_l.
  - assert (map (fun r => if to_finalize date r then finalized fin r else r) rows = map (finalized fin) rows) as ->.
    { clear -Hrows. induction Hrows as [|a r l l' (p & n & id & ->) _ IH]; simpl; [done|]. unfold to_finalize at 1. simpl.
      by rewrite Z.eqb_refl, IH. }
    apply filter_all, Forall_map. clear -Hrows. induction Hrows as [|a r l l' (p & n & id & ->) _ IH]; constructor; [|done].
    simpl. by rewrite Z.eqb_refl.
  - apply List.Forall_forall. intros x (r & <- & Hr)%in_map_iff. apply andb_false_iff. left. apply Z.eqb_neq. intros E.
    assert (sm_billing_date r = date) as Er by (by destruct (to_finalize date r)).
    assert (In r []) as []. rewrite <- Hno. apply filter_In. split; [done|by apply Z.eqb_eq].
Qed.

Lemma finalized_total w date fin rows aggs :
  Forall2 (fun a r => exists period n id, r = new_summary W date period n a id) aggs rows ->
  sum_of (fun b => counts w (sm_merchant_id b) (str_or (sm_currency b) "XXX") (sm_total_amount b)) (map (finalized fin) rows) =
  sum_of (fun a => counts (cleared_currency w) (ag_merchant_id a) (ag_currency a) (ag_total_amount a)) aggs.
Proof.
  rewrite sum_of_map. induction 1 as [|a r l l' (p & n & id & ->) _ IH]; simpl in *; [done|]. by rewrite IH.
Qed.

Lemma drafts_total w cs rows : Forall2 (fun c r => exists id, r = SettlementService.draft c id) cs rows ->
  sum_of (fun r => counts w (stl_merchant_id r) (stl_currency r) (stl_total_amount r)) rows =
  sum_of (fun c => counts w (clr_merchant_id c) (clr_currency c) (clr_total_amount c)) cs.
Proof. induction 1 as [|c r l l' (id & ->) _ IH]; simpl; [done|]. by rewrite IH. Qed.

(** The four requests in a row: the summaries, their clearings and the settlements. *)
Lemma day_run date s : saved s = live s -> NEFT_BILLING_DAILY_ENABLED = true ->
  (forall n, cutoff date < local_time (clock W n)) -> unprocessed date (live s) (uuids s) ->
  exists fin rows cls sts, let t := serve_all (billing_of date) s in saved t = live t /\ settled_on date (live t) = sts /\
    Forall2 (fun a r => exists period n id, r = new_summary W date period n a id) (aggregates_of date (live s)) rows /\
    Forall2 (fun g c => exists id, c = cleared date g id) (grouped "XXX" (map (finalized fin) rows)) cls /\
    Forall2 (fun c r => exists id, r = SettlementService.draft c id) cls sts.
Proof.
  intros Hs Hen Hclock [Hday Hnoc Hnos Huc Hus].
  destruct (daily_run date s Hen Hday) as (rows & s1 & H1 & Hrows & Hs1 & Hsv1 & U1 & K1).
  destruct (finalize_run date s1) as (n & s2 & fin & H2 & Hs2 & Hsv2 & U2 & K2); [apply Hclock|].
  assert (sources (live s2) = sources (live s)) as K by congruence. unfold sources in K. injection K as Ksc Kfl Kcl Kst.
  destruct (admin_clearing_run date s2) as (r3 & cls & s3 & H3 & _ & Hcls & Hs3 & Hsv3 & U3 & K3).
  { unfold no_clearing, clearing_rows in *. by rewrite Kcl. }
  { unfold clearing_rows in *. rewrite Kcl. by apply (unused_mono _ (uuids s)); [lia|]. }
  rewrite (finalized_rows date fin (live s) (live s2) rows (aggregates_of date (live s))) in Hcls;
    [|apply Hday|by rewrite Hs2, Hs1|done].
  injection K3 as _ _ _ Kst3. rewrite Kst in Kst3.
  assert (clearings_on date (live s3) = cls) as Hcl3.
  { unfold clearings_on. rewrite Hs3. unfold clearing_rows at 1. rewrite Kcl, List.filter_app. unfold no_clearing, clearing_rows in Hnoc.
    rewrite Hnoc, app_nil_l. by eapply cleared_dates. }
  destruct (generate_run date s3) as (sts & s4 & H4 & Hsts & Hs4 & Hsv4).
  { done. }
  { unfold settled_on in *. by rewrite Kst3. }
  { rewrite Kst3. by apply (unused_mono _ (uuids s)); [lia|]. }
  { rewrite Hcl3. by eapply cleared_scopes. }
  rewrite Hcl3 in Hsts.
  assert (serve_all (billing_of date) s = s4) as Hserve.
  { unfold billing_of. rewrite (serve_ok _ _ s s1), (serve_ok _ _ s1 s2), (serve_ok _ _ s2 s3), (serve_ok _ _ s3 s4); try done.
    - unfold SettlementsApi.generate_settlements. by rewrite (bind_ok _ _ s3 sts s4 H4).
    - unfold ClearingApi.run_admin_clearing_endpoint. rewrite (bind_ok _ _ s2 (date, r3) s3); [done|].
      rewrite (bind_ok _ _ s2 date s2) by done. by rewrite (bind_ok _ _ s2 r3 s3 H3).
    - unfold SummariesApi.admin_finalize_billing_day. by rewrite (bind_ok _ _ s1 n s2 H2).
    - unfold SummariesApi.admin_run_billing_daily. erewrite (bind_ok _ _ s _ s1); [done|].
      erewrite (bind_ok _ _ s rows s1); [done|]. unfold SummariesApi.conflict_409. by apply try_ok. }
  exists fin, rows, cls, sts. cbv zeta. rewrite Hserve. split; [done|]. split; [|done].
  { unfold settled_on in *. rewrite Hs4, Kst3, List.filter_app, Hnos, app_nil_l. apply filter_all.
    assert (clearings_on date (live s3) = cls) as Hd by done. rewrite <- Hd in Hsts. clear -Hsts.
    assert (forall c, In c (clearings_on date (live s3)) -> clr_batch_date c = date) as Hc by (intros c [_ E%Z.eqb_eq]%filter_In; done).
    induction Hsts as [|c r l l' (id & ->) _ IH]; [constructor|]. constructor; [simpl; apply Z.eqb_eq, Hc; by left|].
    apply IH. intros x Hx. apply Hc. by right. }
Qed.

(** C11 when the daily billing of a new day is run, the day is finalized after its grace
    period, cleared and settled, then for any merchants and currencies the settlements of the
    day come to exactly what the captured and completed operations and the settled fuel of
    the day come to, net of their refunds: no row is lost, counted twice or put on another
    merchant; every settlement is a draft, and there is one for each merchant and currency. *)
Theorem day_settled date s : saved s = live s -> NEFT_BILLING_DAILY_ENABLED = true ->
  (forall n, cutoff date < local_time (clock W n)) -> unprocessed date (live s) (uuids s) ->
  let d := saved (serve_all (billing_of date) s) in
  (forall w, sum_of (fun r => counts w (stl_merchant_id r) (stl_currency r) (stl_total_amount r)) (settled_on date d) =
     due (cleared_currency w) date (saved s)) /\
  (forall r, In r (settled_on date d) -> stl_status r = SettlementStatus.DRAFT) /\
  List.NoDup (map (fun r => (stl_merchant_id r, stl_currency r)) (settled_on date d)).
Proof.
  intros Hs Hen Hclock Hun. cbv zeta.
  destruct (day_run date s Hs Hen Hclock Hun) as (fin & rows & cls & sts & Hsv & Hst & Hrows & Hcls & Hsts).
  cbv zeta in Hsv, Hst. rewrite Hsv, Hst. clear Hsv Hst. split; [|split].
  - intros w. rewrite (drafts_total w _ _ Hsts), (clearings_total w date _ _ _ Hcls), (finalized_total w date fin _ _ Hrows).
    rewrite aggregates_due. by rewrite Hs.
  - clear -Hsts. intros r Hr. induction Hsts as [|c x l l' (id & ->) _ IH]; [done|]. destruct Hr as [<-|Hr]; [done|by apply IH].
  - assert (map (fun r => (stl_merchant_id r, stl_currency r)) sts = map fst (grouped "XXX" (map (finalized fin) rows))) as ->.
    { transitivity (map (fun c => (clr_merchant_id c, clr_currency c)) cls).
      - clear -Hsts. induction Hsts as [|c r l l' (id & ->) _ IH]; simpl; [done|]. by rewrite IH.
      - clear -Hcls. induction Hcls as [|[[m c] items] r l l' (id & ->) _ IH]; simpl; [done|]. by rewrite IH. }
    rewrite grouped_keys. apply nodup_keys.
Qed.
End Day.

(** ** Witnesses *)

(** One authorisation that is captured in full. *)
Definition demo_captured : Db := saved (serve_demo [Authorize (demo_request "a" "terminal" 100); Capture "a" None] (fresh_session demo_cards)).

Definition demo_fuel (id network : string) (amount volume : Z) : FuelTransaction :=
  MkFuelTransaction id 1 "client" 5 volume amount "RUB" FuelTransactionStatus.SETTLED network FuelType.AI95 None.

(** The day of Summaries.v with two fuel transactions. *)
Definition demo_business_day : Db :=
  on_fuel_transactions (fun _ => [demo_fuel "f" "station" 70 12500; demo_fuel "g" "station" 30 2500]) demo_billing_day.

Definition clearing_totals (d : Db) : list (string * string * Z) :=
  map (fun c => (clr_merchant_id c, clr_currency c, clr_total_amount c)) (clearing_rows d).

Abbreviation daily_run_of := (fun date => SummariesApi.admin_run_billing_daily late_world (H := utc) (H1 := default_settings) (Some date);; mret tt).
Abbreviation finalize_of := (fun date => SummariesApi.admin_finalize_billing_day late_world (H := utc) (H1 := default_settings) date;; mret tt).
Abbreviation clear_of := (fun date => ClearingApi.run_admin_clearing_endpoint late_world (H := utc) (H1 := default_settings) (Some date);; mret tt).
Abbreviation rebuild_of := (fun date => SummariesApi.rebuild_billing_summary late_world (H := utc) (H0 := database_utc) date date None;; mret tt).

Lemma demo_unprocessed : unprocessed late_world (H := utc) 0 demo_business_day 0.
Proof.
  split; [split|..]; try (vm_compute; reflexivity); try (intros k _ []).
  - left. vm_compute. reflexivity.
  - vm_compute. repeat constructor; set_solver.
Qed.

Lemma day_settled_witness :
  let d := saved (serve_all (billing_of late_world (H := utc) (H0 := default_settings) 0) (fresh_session demo_business_day)) in
  sum_of (fun r => counts (fun m _ => (m =? "station")%py) (stl_merchant_id r) (stl_currency r) (stl_total_amount r))
    (settled_on 0 d) = 100 /\
  List.NoDup (map (fun r => (stl_merchant_id r, stl_currency r)) (settled_on 0 d)) /\ length (settled_on 0 d) = 2%nat.
Proof.
  destruct (day_settled late_world (fun _ _ => eq_refl) demo_uuids_distinct (H := utc) (H0 := default_settings) 0
    (fresh_session demo_business_day)) as (Hsum & _ & Hn).
  - reflexivity.
  - reflexivity.
  - intros n. change (129599999999 < 3 * 86400000000 + 1000000 * Z.of_nat n). lia.
  - exact demo_unprocessed.
  - cbv zeta. split; [|split; [exact Hn|vm_compute; reflexivity]].
    transitivity (due (H := utc) (cleared_currency (fun m _ => (m =? "station")%py)) 0 (saved (fresh_session demo_business_day))).
    + exact (Hsum (fun m _ => (m =? "station")%py)).
    + vm_compute. reflexivity.
Defined.

(** The day is billed and finalized, but not cleared. *)
Definition demo_finalized_day : Db := saved (serve_all [daily_run_of 0; finalize_of 0] (fresh_session demo_business_day)).

Lemma demo_not_cleared : clearing_rows demo_finalized_day = [].
Proof. vm_compute. reflexivity. Qed.

Lemma clearing_conserves_once_witness : exists r t,
  run_admin_clearing late_world (H := default_settings) 0 (fresh_session demo_finalized_day) = (Ok r, t) /\ saved t = live t.
Proof.
  edestruct (clearing_conserves_once late_world (fun _ _ => eq_refl) demo_uuids_distinct (H0 := default_settings) 0
    (fresh_session demo_finalized_day)) as (r & t & Hr & Hs & _).
  - cbn [live fresh_session]. rewrite demo_not_cleared. intros k _ [].
  - exists r, t. split; [exact Hr|exact Hs].
Defined.

Example demo_cleared : clearing_totals (saved (serve_all [clear_of 0] (fresh_session demo_finalized_day))) =
  [("merchant", "RUB", 150); ("station", "RUB", 100)].
Proof. vm_compute. reflexivity. Qed.

(** ** What the model shows *)

(** An authorisation that is captured in full is billed twice: as itself and as its capture. *)
Example captured_twice :
  summary_rows (saved (serve_all [daily_run_of 0] (fresh_session (on_operations (fun _ => operations (scenario demo_captured)) empty_db)))) =
  [("merchant", Some demo_client, 200, BillingSummaryStatus.PENDING)].
Proof. vm_compute. reflexivity. Qed.

(** A summary whose operations have all been reversed keeps its total when the day is run
    again, and is finalized with it. *)
Example stale_summary :
  let s := serve_all [daily_run_of 0] (fresh_session demo_billing_day) in
  let d := on_operations (map (set_op_status OperationStatus.REVERSED)) (saved s) in
  summary_rows (saved (serve_all [daily_run_of 0; finalize_of 0] (Session d d 0 (uuids s) 0))) =
  [("merchant", Some demo_client, 150, BillingSummaryStatus.FINALIZED)].
Proof. vm_compute. reflexivity. Qed.

(** The rebuild of the reports makes summaries of the same captures in a period of its own:
    both are finalized and cleared. *)
Example cleared_twice :
  clearing_totals (saved (serve_all [daily_run_of 0; rebuild_of 0; finalize_of 0; clear_of 0] (fresh_session demo_billing_day))) =
  [("merchant", "RUB", 150); ("merchant", "XXX", 60)].
Proof. vm_compute. reflexivity. Qed.

(** It also opens a finalized summary of its own again. *)
Example finalized_reopened :
  map snd (summary_rows (saved (serve_all [rebuild_of 0; finalize_of 0] (fresh_session demo_billing_day)))) = [BillingSummaryStatus.FINALIZED] /\
  map snd (summary_rows (saved (serve_all [rebuild_of 0; finalize_of 0; rebuild_of 0] (fresh_session demo_billing_day)))) = [BillingSummaryStatus.PENDING].
Proof. split; vm_compute; reflexivity. Qed.

(** The endpoint of the daily clearing answers with clearings that it does not commit. *)
Example daily_clearing_lost :
  let s := fresh_session (saved (serve_all [daily_run_of 0; finalize_of 0] (fresh_session demo_billing_day))) in
  let r := ClearingApi.run_daily_clearing late_world (H1 := default_settings) (fun _ _ => true) (Some 0) None s in
  r.1 = Ok (["id-1"], 0) /\ clearing_rows (saved r.2) = [].
Proof. vm_compute. split; reflexivity. Qed.

(** A run that fails is not recorded: its row is added after the rollback and never committed. *)
Example failure_unrecorded :
  let d := on_billing_periods (fun _ => [MkBillingPeriod "p" BillingPeriodType.DAILY 0 86399999999 "UTC" BillingPeriodStatus.LOCKED None None])
    demo_billing_day in
  let r := SummariesApi.admin_run_billing_daily late_world (H := utc) (H1 := default_settings) (Some 0) (fresh_session d) in
  is_ok r.1 = false /\ map bj_status (job_runs (billing (live r.2))) = [BillingJobStatus.FAILED] /\ job_runs (billing (saved r.2)) = [].
Proof. vm_compute. split; [reflexivity|]. split; reflexivity. Qed.

(** A refunded capture is deducted twice from its batch: as a capture that is refunded and
    as the refund; here a capture of 60, refunded in full, leaves -120. *)
Example refund_deducted_twice :
  let d := on_operations (List.filter (fun o => (op_operation_type o <>? OperationType.AUTH)%py))
    (on_operations (fun _ => operations (scenario (saved (serve_demo
      [Authorize (demo_request "a" "terminal" 100); Capture "a" (Some 60); RefundCapture "id-5" None] (fresh_session demo_cards))))) empty_db) in
  map clb_total_amount (clearing_batches (settle (saved (ClearingDaily.run_clearing_daily late_world (H := utc) (H0 := default_settings) (Some 0)
    (fresh_session d)).2))) = [-120].
Proof. vm_compute. reflexivity. Qed.

(** A batch that is built again is a second batch of the same captures. *)
Example batch_built_twice :
  map clb_total_amount (clearing_batches (settle (saved (serve_all
    [ClearingApi.build_batch late_world (H0 := database_utc) 0 0 "merchant";; mret tt;
     ClearingApi.build_batch late_world (H0 := database_utc) 0 0 "merchant";; mret tt] (fresh_session demo_billing_day))))) = [60; 60].
Proof. vm_compute. reflexivity. Qed.
