(* ===== verification/Finance.v ===== *)
(** * Payments, credit notes and refunds of invoices (services/finance.py)

    [FinanceService] with its idempotency, its invariant checks, the postings to the
    internal ledger, the allocations to settlement periods and their reconciliation, and
    the admin endpoints of routers/admin/finance.py.  The decision engine, the legal graph
    and the advisory locks are interfaces; metrics and logs are not modelled.

    The session is inside a transaction once it has run a query, so [txn_context] is the
    null context and nothing is committed by the service on success. *)
From S2P Require Import Prelude Json Enums Models AuditTrail FinanceRules InternalLedger Decisions InvoiceMachine.
From S2P Require Import Policy BillingPeriods JobRuns.
Import KeyNormalization.

(** ** Interfaces *)

(** [LegalGraphBuilder.ensure_settlement_allocation_graph]: the graph of legal documents
    has tables of its own; the caller catches whatever it raises, and gets its text. *)
Class LegalGraph := {
  settlement_graph : InvoiceSettlementAllocation -> Invoice -> option string -> PM (option string);
  settlement_graph_run a i src s : exists o t, settlement_graph a i src s = (Ok o, t) /\
    live t = live s /\ saved t = saved s /\ (uuids s <= uuids t)%nat;
}.

(** [sqlalchemy.exc.SQLAlchemyError] and its subclasses *)
Definition is_sqlalchemy (e : exn) : bool :=
  match e with MultipleResultsFound | NoResultFound | IntegrityError _ | PendingRollbackError => true | _ => false end.

Module FinanceService.
Record PaymentResult := MkPaymentResult {
  pr_payment : InvoicePayment;
  pr_invoice : Invoice;
  pr_is_replay : bool;
}.

Record CreditNoteResult := MkCreditNoteResult {
  cr_credit_note : CreditNote;
  cr_invoice : Invoice;
  cr_is_replay : bool;
}.

(** A dict of allocations by source, in insertion order. *)
Definition alloc_key : Type := SettlementSourceType.SettlementSourceType * string.

Definition key_of (a : InvoiceSettlementAllocation) : alloc_key := (al_source_type a, al_source_id a).

Definition put (existing : list (alloc_key * InvoiceSettlementAllocation)) (k : alloc_key)
    (a : InvoiceSettlementAllocation) : list (alloc_key * InvoiceSettlementAllocation) :=
  if bool_decide (k ∈ existing.*1)
  then map (fun x => if decide (x.1 = k) then (k, a) else x) existing
  else existing ++ [(k, a)].

Definition dict_of_allocations (l : list InvoiceSettlementAllocation)
    : list (alloc_key * InvoiceSettlementAllocation) :=
  foldl (fun acc a => put acc (key_of a) a) [] l.

(** [sum(alloc.amount for alloc in existing.values() if alloc.source_type == t)] *)
Definition total_of (t : SettlementSourceType.SettlementSourceType)
    (existing : list (alloc_key * InvoiceSettlementAllocation)) : Z :=
  BillingPeriodService.total_of_source t existing.*2.

Definition payments_of (d : Db) : list InvoicePayment := payments (billing d).

Section Finance.
Context (W : world Db) `{DecisionService} `{Timezone} `{LegalGraph} (try_lock : string -> string -> bool).

(** ** Digests of requests *)

Definition _response_hash (payload : dict) : string := sha256_hex W (canonical_json (JDict payload)).

Definition _payment_response_hash (invoice_id : string) (amount : Z) (currency : string)
    (external_ref provider : option string) : string :=
  _response_hash [("invoice_id", JStr invoice_id); ("amount", JInt amount); ("currency", JStr currency);
                  ("external_ref", opt_text external_ref); ("provider", opt_text provider)].

Definition _credit_note_response_hash (invoice_id : string) (amount : Z) (currency : string)
    (reason : option string) : string :=
  _response_hash [("invoice_id", JStr invoice_id); ("amount", JInt amount); ("currency", JStr currency);
                  ("reason", opt_text reason)].

(** ** Helpers *)

Definition _audit_invariant_violation (violation : FinancialInvariantViolation)
    (request_ctx : option RequestContext) (extra_payload : option pydict) : PM unit :=
  Checker.audit_violation W violation request_ctx extra_payload;;
  commit.

(** The body of [except FinancialInvariantViolation]: roll back, audit the violation,
    commit that, and raise. *)
Definition report_violation {A} (invoice_id : string) (request_ctx : option RequestContext)
    (v : FinancialInvariantViolation) : PM A :=
  rollback;;
  _audit_invariant_violation v request_ctx (Some [("invoice_id", PStr invoice_id)]);;
  raise (FinancialViolation v).

Definition guard_violation {A} (invoice_id : string) (request_ctx : option RequestContext) (m : PM A) : PM A :=
  try_except m (fun e =>
    match e with
    | FinancialViolation v => Some (report_violation invoice_id request_ctx v)
    | _ => None
    end).

Definition _lock_invoice (invoice_id : string) : PM Invoice :=
  invoice ← q_one_or_none (fun d => invoices (billing d)) (fun r => (inv_id r =? invoice_id)%py);
  match invoice with
  | Some i => mret i
  | None => raise (InvoiceNotFound invoice_id)
  end.

Definition find_period (period_id : string) : PM (option BillingPeriod) :=
  q_one_or_none (fun d => billing_periods (billing d)) (fun p => (bp_id p =? period_id)%py).

Definition _require_settlement_period (invoice : Invoice) (action : string) : PM unit :=
  match str_or_none (inv_billing_period_id invoice) with
  | None => mret tt
  | Some period_id =>
      period ← find_period period_id;
      match period with
      | None => raise (InvalidTransitionError "billing period not found")
      | Some p =>
          if bool_decide (bp_status p ∈ [BillingPeriodStatus.FINALIZED; BillingPeriodStatus.LOCKED]) then mret tt
          else raise (InvalidTransitionError ("billing period " +:+ bp_id p +:+ " is " +:+
                 BillingPeriodStatus.value (bp_status p) +:+ " for " +:+ action))
      end
  end.

(** [except (DBAPIError, SQLAlchemyError)]: roll back and raise. *)
Definition rollback_on_db_error {A} (m : PM A) : PM A :=
  try_except m (fun e => if is_sqlalchemy e then Some (rollback;; raise e) else None).

Definition payment_by_key (idempotency_key : string) : PM (option InvoicePayment) :=
  q_one_or_none payments_of (fun p => (pay_idempotency_key p =? idempotency_key)%py).

Definition payment_of_invoice (existing : option InvoicePayment) (invoice_id reference : string)
    : PM (option InvoicePayment) :=
  match existing with
  | Some p => if (pay_invoice_id p <>? invoice_id)%py then raise (PaymentReferenceConflict reference)
              else mret (Some p)
  | None => mret None
  end.

Definition _resolve_existing_payment (invoice_id idempotency_key : string)
    (external_ref provider : option string) : PM (option InvoicePayment) :=
  rollback_on_db_error (
    existing_by_ref ← match str_or_none external_ref with
                      | Some ref =>
                          p ← q_one_or_none payments_of
                            (fun p => (pay_external_ref p =? Some ref)%py && (pay_provider p =? provider)%py);
                          payment_of_invoice p invoice_id ref
                      | None => mret None
                      end;
    match existing_by_ref with
    | Some p => mret (Some p)
    | None =>
        existing ← payment_by_key idempotency_key;
        payment_of_invoice existing invoice_id idempotency_key
    end).

Definition _resolve_payment_money_flow_event (idempotency_key : string) : PM (option MoneyFlowEvent) :=
  q_one_or_none (fun d => flow_events (flow d)) (fun e => (mfe_idempotency_key e =? idempotency_key)%py).

(** [event.meta.get("payment_id")], a string where the code writes it *)
Definition event_payment_id (event : MoneyFlowEvent) : option string :=
  match mfe_meta event with
  | Some (JDict d) => match dict_get d "payment_id" with
                      | Some (JStr s) => str_or_none (Some s)
                      | _ => None
                      end
  | _ => None
  end.

Definition _resolve_payment_from_event (event : MoneyFlowEvent) (idempotency_key : string)
    : PM (option InvoicePayment) :=
  payment ← match event_payment_id event with
            | Some id => q_one_or_none payments_of (fun p => (pay_id p =? id)%py)
            | None => mret None
            end;
  match payment with
  | Some p => mret (Some p)
  | None => payment_by_key idempotency_key
  end.

Definition same_text (a b : option string) : bool := (str_or_none a =? str_or_none b)%py.

Definition _validate_payment_replay (payment : InvoicePayment) (amount : Z) (currency : string)
    (external_ref provider : option string) : PM unit :=
  if negb (pay_amount payment =? amount) then raise (PaymentIdempotencyConflict "amount_mismatch")
  else if (pay_currency payment <>? currency)%py then raise (PaymentIdempotencyConflict "currency_mismatch")
  else if negb (same_text (pay_external_ref payment) external_ref)
  then raise (PaymentIdempotencyConflict "external_ref_mismatch")
  else if negb (same_text (pay_provider payment) provider)
  then raise (PaymentIdempotencyConflict "provider_mismatch")
  else
    let expected_hash := _payment_response_hash (pay_invoice_id payment) amount currency external_ref provider in
    if (pay_response_hash payment <>? expected_hash)%py
    then raise (PaymentIdempotencyConflict "response_hash_mismatch")
    else mret tt.

Definition _replay_from_money_flow_event (invoice_id idempotency_key : string) (amount : Z) (currency : string)
    (external_ref provider : option string) : PM (option PaymentResult) :=
  rollback_on_db_error (
    event ← _resolve_payment_money_flow_event idempotency_key;
    match event with
    | None => mret None
    | Some event =>
        payment ← _resolve_payment_from_event event idempotency_key;
        match payment with
        | None => mret None
        | Some payment =>
            if (pay_invoice_id payment <>? invoice_id)%py then raise (PaymentReferenceConflict idempotency_key)
            else
              invoice ← q_one_or_none (fun d => invoices (billing d)) (fun r => (inv_id r =? invoice_id)%py);
              match invoice with
              | None => raise (InvoiceNotFound invoice_id)
              | Some invoice =>
                  _validate_payment_replay payment amount currency external_ref provider;;
                  mret (Some (MkPaymentResult payment invoice true))
              end
        end
    end).

(** [db.add(event); db.flush()] in a savepoint: the key is unique. *)
Definition insert_event (event : MoneyFlowEvent) : PM unit :=
  race W;;
  same ← q_first (fun d => flow_events (flow d))
    (fun e => (mfe_idempotency_key e =? mfe_idempotency_key event)%py);
  match same with
  | Some _ => raise (IntegrityError "money_flow_events.idempotency_key")
  | None => modify (on_flow_events (fun l => l ++ [event]))
  end.

Definition _ensure_payment_money_flow_event (invoice : Invoice) (payment : InvoicePayment) (tenant_id : Z)
    (ledger_transaction_id : option string) (idempotency_key : string) : PM (MoneyFlowEvent * bool) :=
  existing ← _resolve_payment_money_flow_event idempotency_key;
  match existing with
  | Some event => mret (event, false)
  | None =>
      id ← uuid4 W;
      created_at ← now W;
      let event := MkMoneyFlowEvent id tenant_id (inv_client_id invoice) MoneyFlowType.INVOICE_PAYMENT
        (inv_id invoice) None MoneyFlowState.SETTLED MoneyFlowEventType.SETTLE idempotency_key
        ledger_transaction_id None created_at
        (Some (JDict [("invoice_id", JStr (inv_id invoice)); ("payment_id", JStr (pay_id payment))])) in
      try_except (insert_event event;; mret (event, true))
        (fun e => match e with
                  | IntegrityError _ => Some (
                      existing ← _resolve_payment_money_flow_event idempotency_key;
                      match existing with
                      | Some event => mret (event, false)
                      | None => raise e
                      end)
                  | _ => None
                  end)
  end.

Definition _payment_already_applied (invoice : Invoice) (payment : InvoicePayment) : PM bool :=
  allocation ← q_one_or_none (fun d => allocations (billing d))
    (fun a => (al_invoice_id a =? inv_id invoice)%py &&
              (al_source_type a =? SettlementSourceType.PAYMENT)%py && (al_source_id a =? pay_id payment)%py);
  ledger ← q_one_or_none (fun d => il_transactions (internal d))
    (fun r => (ilt_external_ref_type r =? "PAYMENT")%py && (ilt_external_ref_id r =? pay_id payment)%py);
  mret (bool_decide (is_Some allocation) && bool_decide (is_Some ledger)).

Definition _resolve_tenant_id (request_ctx : option RequestContext) : Z := default 0 (request_ctx ≫= ctx_tenant_id).

Definition _policy_resource_for_invoice (invoice : Invoice) (tenant_id : Z) : PM ResourceContext :=
  period ← match str_or_none (inv_billing_period_id invoice) with
           | Some period_id => find_period period_id
           | None => mret None
           end;
  mret (MkResourceContext "INVOICE" tenant_id (Some (inv_client_id invoice))
          (option_map (fun p => BillingPeriodStatus.value (bp_status p)) period)).

Definition _enforce_policy (t : option token) (action : Action.Action) (invoice : Invoice) : PM unit :=
  resource ← _policy_resource_for_invoice invoice (actor_tenant_id (actor_from_token t));
  PolicyEngine.enforce W t action resource.

(** ** Allocations to settlement periods *)

Definition find_allocation (invoice_id : string) (source_type : SettlementSourceType.SettlementSourceType)
    (source_id : string) : PM (option InvoiceSettlementAllocation) :=
  q_one_or_none (fun d => allocations (billing d))
    (fun a => (al_invoice_id a =? invoice_id)%py && (al_source_type a =? source_type)%py &&
              (al_source_id a =? source_id)%py).

(** [db.add(allocation); db.flush()] in a savepoint: invoice and source are unique. *)
Definition insert_allocation (allocation : InvoiceSettlementAllocation) : PM unit :=
  race W;;
  same ← q_first (fun d => allocations (billing d))
    (fun a => (al_invoice_id a =? al_invoice_id allocation)%py &&
              (al_source_type a =? al_source_type allocation)%py &&
              (al_source_id a =? al_source_id allocation)%py);
  match same with
  | Some _ => raise (IntegrityError "uq_settlement_alloc_scope")
  | None => modify (on_allocations (fun l => l ++ [allocation]))
  end.

Definition allocated_event_type (source_type : SettlementSourceType.SettlementSourceType) : string :=
  match source_type with
  | SettlementSourceType.PAYMENT => "INVOICE_PAYMENT_ALLOCATED"
  | SettlementSourceType.CREDIT_NOTE => "CREDIT_NOTE_ALLOCATED"
  | SettlementSourceType.REFUND => "REFUND_ALLOCATED"
  end.

(** [source_obj]: the id of the row the allocation comes from, when there is one. *)
Definition source_row (source_type : SettlementSourceType.SettlementSourceType) (source_id : string)
    : PM (option string) :=
  match source_type with
  | SettlementSourceType.PAYMENT =>
      p ← q_one_or_none payments_of (fun p => (pay_id p =? source_id)%py);
      mret (option_map pay_id p)
  | SettlementSourceType.CREDIT_NOTE =>
      c ← q_one_or_none (fun d => credit_notes (billing d)) (fun c => (cn_id c =? source_id)%py);
      mret (option_map cn_id c)
  | SettlementSourceType.REFUND =>
      r ← q_one_or_none (fun d => refund_requests (scenario d)) (fun r => (rf_id r =? source_id)%py);
      mret (option_map rf_id r)
  end.

(** The audit record and the legal graph of a new allocation. *)
Definition publish_allocation (invoice : Invoice) (allocation : InvoiceSettlementAllocation)
    (request_ctx : option RequestContext) : PM unit :=
  audit_call W
    (MkAuditArgs (allocated_event_type (al_source_type allocation)) "invoice" (inv_id invoice)
       "SETTLEMENT_ALLOCATED" AuditVisibility.INTERNAL None
       (Some [ ("invoice_id", PStr (inv_id invoice));
               ("source_type", PStr (SettlementSourceType.value (al_source_type allocation)));
               ("source_id", PStr (al_source_id allocation)); ("amount", PInt (al_amount allocation));
               ("currency", PStr (al_currency allocation));
               ("settlement_period_id", PStr (al_settlement_period_id allocation));
               ("charge_period_id", opt_str (str_or_none (inv_billing_period_id invoice))) ])
       None None None None) request_ctx;;
  source ← source_row (al_source_type allocation) (al_source_id allocation);
  failed ← settlement_graph allocation invoice source;
  match failed with
  | None => mret tt
  | Some error =>
      audit_call W
        (MkAuditArgs "LEGAL_GRAPH_WRITE_FAILED" "settlement_allocation" (al_id allocation) "WRITE_FAILED"
           AuditVisibility.INTERNAL None (Some [("error", PStr error)]) None None None None) request_ctx;;
      mret tt
  end.

Definition _ensure_settlement_allocation (invoice : Invoice)
    (source_type : SettlementSourceType.SettlementSourceType) (source_id : string) (amount : Z) (currency : string)
    (applied_at : option Z) (request_ctx : option RequestContext) : PM InvoiceSettlementAllocation :=
  existing ← find_allocation (inv_id invoice) source_type source_id;
  match existing with
  | Some a => mret a
  | None =>
      event_at ← match applied_at with Some t => mret t | None => now W end;
      settlement_period ← BillingPeriodService.resolve_settlement_period W event_at;
      Checker.check_settlement_allocation W invoice amount (bp_id settlement_period) source_type source_id false
        request_ctx false;;
      id ← uuid4 W;
      let allocation := MkInvoiceSettlementAllocation id (inv_id invoice) (_resolve_tenant_id request_ctx)
        (inv_client_id invoice) (bp_id settlement_period) source_type source_id amount currency event_at None in
      inserted ← try_except (insert_allocation allocation;; mret None)
        (fun e => match e with
                  | IntegrityError _ => Some (
                      existing ← find_allocation (inv_id invoice) source_type source_id;
                      match existing with
                      | Some a => mret (Some a)
                      | None => raise e
                      end)
                  | _ => None
                  end);
      match inserted with
      | Some a => mret a
      | None =>
          publish_allocation invoice allocation request_ctx;;
          mret allocation
      end
  end.

Definition _ensure_settlement_allocation_with_invariant_guard (invoice : Invoice)
    (source_type : SettlementSourceType.SettlementSourceType) (source_id : string) (amount : Z) (currency : string)
    (applied_at : option Z) (request_ctx : option RequestContext) : PM InvoiceSettlementAllocation :=
  guard_violation (inv_id invoice) request_ctx
    (_ensure_settlement_allocation invoice source_type source_id amount currency applied_at request_ctx).

(** ** Reconciliation of the allocations with the invoice *)

Definition reconcile_payment (invoice : Invoice) (request_ctx : option RequestContext)
    (existing : list (alloc_key * InvoiceSettlementAllocation)) (payment : InvoicePayment)
    : PM (list (alloc_key * InvoiceSettlementAllocation)) :=
  let key := (SettlementSourceType.PAYMENT, pay_id payment) in
  if bool_decide (key ∈ existing.*1) then mret existing
  else
    allocation ← _ensure_settlement_allocation invoice SettlementSourceType.PAYMENT (pay_id payment)
      (pay_amount payment) (pay_currency payment) (Some (pay_created_at payment)) request_ctx;
    mret (put existing key allocation).

Definition reconcile_credit_note (invoice : Invoice) (request_ctx : option RequestContext)
    (existing : list (alloc_key * InvoiceSettlementAllocation)) (credit_note : CreditNote)
    : PM (list (alloc_key * InvoiceSettlementAllocation)) :=
  let key_credit := (SettlementSourceType.CREDIT_NOTE, cn_id credit_note) in
  let key_refund := (SettlementSourceType.REFUND, cn_id credit_note) in
  if bool_decide (key_credit ∈ existing.*1) || bool_decide (key_refund ∈ existing.*1) then mret existing
  else
    refund_tx ← q_one_or_none (fun d => il_transactions (internal d))
      (fun r => (ilt_external_ref_type r =? "REFUND")%py && (ilt_external_ref_id r =? cn_id credit_note)%py);
    let source_type := match refund_tx with
                       | Some _ => SettlementSourceType.REFUND
                       | None => SettlementSourceType.CREDIT_NOTE
                       end in
    allocation ← _ensure_settlement_allocation invoice source_type (cn_id credit_note) (cn_amount credit_note)
      (cn_currency credit_note) (Some (cn_created_at credit_note)) request_ctx;
    mret (put existing (source_type, cn_id credit_note) allocation).

(** [total_payments - total_credits - total_refunds] *)
Definition net_of (existing : list (alloc_key * InvoiceSettlementAllocation)) : Z :=
  total_of SettlementSourceType.PAYMENT existing - total_of SettlementSourceType.CREDIT_NOTE existing -
  total_of SettlementSourceType.REFUND existing.

Definition net_coverage (invoice : Invoice) : Z :=
  inv_amount_paid invoice - inv_amount_refunded invoice - inv_credited_amount invoice.

(** The allocation that makes up the difference. *)
Definition adjust_allocations (invoice : Invoice) (alloc_net : Z) (reason : string)
    (correlation_id : option string) (request_ctx : option RequestContext) : PM unit :=
  let adjustment_amount := Z.abs (net_coverage invoice - alloc_net) in
  let adjustment_type := if net_coverage invoice <? alloc_net then SettlementSourceType.REFUND
                         else SettlementSourceType.PAYMENT in
  adjustment_id ← uuid4 W;
  applied_at ← now W;
  allocation ← _ensure_settlement_allocation invoice adjustment_type adjustment_id adjustment_amount
    (inv_currency invoice) (Some applied_at) request_ctx;
  modify (on_allocations (update_where (fun a => (al_id a =? al_id allocation)%py)
    (set_al_meta (Some (JDict [("reconciliation_reason", JStr reason);
                               ("correlation_id", opt_text correlation_id); ("adjustment", JBool true)])))));;
  audit_call W
    (MkAuditArgs "SETTLEMENT_ALLOCATION_RECONCILED" "invoice" (inv_id invoice)
       "SETTLEMENT_ALLOCATIONS_RECONCILED" AuditVisibility.INTERNAL None
       (Some [ ("invoice_id", PStr (inv_id invoice)); ("adjustment_id", PStr adjustment_id);
               ("adjustment_type", PStr (SettlementSourceType.value adjustment_type));
               ("adjustment_amount", PInt adjustment_amount); ("alloc_net_before", PInt alloc_net);
               ("net_coverage", PInt (net_coverage invoice)); ("reason", PStr reason);
               ("correlation_id", opt_str correlation_id) ])
       None None None None) request_ctx;;
  mret tt.

Definition reconcile_invoice_allocations (invoice_id : string) (reason : string)
    (correlation_id : option string) (request_ctx : option RequestContext) : PM unit :=
  invoice ← _lock_invoice invoice_id;
  rows ← q_all (fun d => allocations (billing d)) (fun a => (al_invoice_id a =? inv_id invoice)%py);
  payments ← q_all payments_of (fun p => (pay_invoice_id p =? inv_id invoice)%py);
  existing ← fold_each (reconcile_payment invoice request_ctx) (dict_of_allocations rows) payments;
  notes ← q_all (fun d => credit_notes (billing d)) (fun c => (cn_invoice_id c =? inv_id invoice)%py);
  existing ← fold_each (reconcile_credit_note invoice request_ctx) existing notes;
  let alloc_net := net_of existing in
  if alloc_net =? net_coverage invoice then mret tt
  else adjust_allocations invoice alloc_net reason correlation_id request_ctx.

(** ** The invoice's amounts and status *)

Definition _apply_financial_transition (invoice : Invoice) (target : InvoiceStatus.InvoiceStatus)
    (payment_amount credit_note_amount refund_amount : option Z) (request_ctx : option RequestContext)
    : PM Invoice :=
  InvoiceStateMachine.transition W invoice target "finance_service" "financial_update" payment_amount
    credit_note_amount refund_amount (Some [("source", JStr "finance")]) request_ctx.

(** [except (InvalidTransitionError, InvoiceInvariantError)]: roll back and raise. *)
Definition rollback_on_transition_error {A} (m : PM A) : PM A :=
  try_except m (fun e => match e with
                         | InvalidTransitionError _ | InvoiceInvariantError _ => Some (rollback;; raise e)
                         | _ => None
                         end).

(** ** Payments *)

Definition _replay_payment (invoice_id : string) (payment : InvoicePayment) (request_ctx : option RequestContext)
    (t : option token) (invoice : option Invoice) : PM PaymentResult :=
  invoice ← match invoice with Some i => mret i | None => _lock_invoice invoice_id end;
  _enforce_policy t Action.PAYMENT_APPLY invoice;;
  applied ← _payment_already_applied invoice payment;
  if applied : bool then mret (MkPaymentResult payment invoice true)
  else
    InternalLedgerService.post_payment_applied W invoice payment (_resolve_tenant_id request_ctx);;
    _ensure_settlement_allocation_with_invariant_guard invoice SettlementSourceType.PAYMENT (pay_id payment)
      (pay_amount payment) (pay_currency payment) (Some (pay_created_at payment)) request_ctx;;
    reconcile_invoice_allocations (inv_id invoice) "payment_replay" (Some (pay_idempotency_key payment))
      request_ctx;;
    mret (MkPaymentResult payment invoice true).

(** [db.add(payment); db.flush()] in a savepoint: the key is unique, and so are provider
    and reference of the payments that have a reference. *)
Definition insert_payment (payment : InvoicePayment) : PM unit :=
  race W;;
  same ← q_first payments_of
    (fun p => (pay_idempotency_key p =? pay_idempotency_key payment)%py ||
              (bool_decide (is_Some (pay_external_ref payment)) &&
               (pay_external_ref p =? pay_external_ref payment)%py &&
               (default "" (pay_provider p) =? default "" (pay_provider payment))%py));
  match same with
  | Some _ => raise (IntegrityError "invoice_payments")
  | None => modify (on_payments (fun l => l ++ [payment]))
  end.

(** The answer to a request whose payment exists. *)
Definition replay_existing (existing : InvoicePayment) (invoice_id : string) (amount : Z) (currency : string)
    (external_ref provider : option string) (request_ctx : option RequestContext) (t : option token)
    (invoice : option Invoice) : PM PaymentResult :=
  _validate_payment_replay existing amount currency external_ref provider;;
  _replay_payment invoice_id existing request_ctx t invoice.

(** The part of [apply_payment] that changes the invoice. *)
Definition settle_invoice (invoice : Invoice) (payment : InvoicePayment) (amount : Z) (currency : string)
    (request_ctx : option RequestContext) : PM Invoice :=
  let total := InvoiceStateMachine.invoice_total invoice in
  let outstanding_before :=
    total - inv_amount_paid invoice - inv_credited_amount invoice + inv_amount_refunded invoice in
  if negb (bool_decide (inv_status invoice ∈ [InvoiceStatus.SENT; InvoiceStatus.PARTIALLY_PAID; InvoiceStatus.OVERDUE]))
  then
    rollback;;
    raise (InvalidTransitionError ("payments allowed only from sent/partial/overdue, got " +:+
             InvoiceStateMachine.status_text (inv_status invoice)))
  else
    let target_status := if outstanding_before <=? amount then InvoiceStatus.PAID else InvoiceStatus.PARTIALLY_PAID in
    invoice' ← guard_violation (inv_id invoice) request_ctx (rollback_on_transition_error (
      invoice ← _apply_financial_transition invoice target_status (Some amount) None None request_ctx;
      Checker.check_invoice W invoice request_ctx false;;
      mret invoice));
    _ensure_settlement_allocation_with_invariant_guard invoice' SettlementSourceType.PAYMENT (pay_id payment)
      amount currency (Some (pay_created_at payment)) request_ctx;;
    mret invoice'.

(** The body of the [with txn_context] block, once the payment is new. *)
Definition post_new_payment (invoice : Invoice) (payment : InvoicePayment) (job_run : BillingJobRun)
    (amount : Z) (currency idempotency_key : string) (request_ctx : option RequestContext) : PM PaymentResult :=
  let tenant_id := _resolve_tenant_id request_ctx in
  InternalLedgerService.post_payment_applied W invoice payment tenant_id;;
  ledger_tx ← q_one_or_none (fun d => il_transactions (internal d))
    (fun r => (ilt_external_ref_type r =? "PAYMENT")%py && (ilt_external_ref_id r =? pay_id payment)%py);
  ensured ← _ensure_payment_money_flow_event invoice payment tenant_id (option_map ilt_id ledger_tx) idempotency_key;
  let '(event, event_created) := ensured in
  invoice ← (if event_created : bool then settle_invoice invoice payment amount currency request_ctx
             else mret invoice);
  reconcile_invoice_allocations (inv_id invoice) "payment_apply" (Some idempotency_key) request_ctx;;
  BillingJobRunService.succeed W job_run
    [("invoice_id", JStr (inv_id invoice)); ("amount", JInt amount); ("currency", JStr currency);
     ("due_amount", JInt (inv_amount_due invoice))]
    (Some [("invoice_id", JStr (inv_id invoice)); ("payment_id", JStr (pay_id payment));
           ("due_amount", JInt (inv_amount_due invoice))]);;
  mret (MkPaymentResult payment invoice (negb event_created)).

Definition apply_payment (invoice_id : string) (amount : Z) (currency idempotency_key : string)
    (external_ref provider : option string) (request_ctx : option RequestContext) (t : option token)
    : PM PaymentResult :=
  let idempotency_key := normalize_key W idempotency_key 128 "hash:" in
  let external_ref := normalize_key_optional W external_ref 128 "hash:" in
  replay_from_flow ← _replay_from_money_flow_event invoice_id idempotency_key amount currency external_ref provider;
  match replay_from_flow with
  | Some result => mret result
  | None =>
  existing ← _resolve_existing_payment invoice_id idempotency_key external_ref provider;
  match existing with
  | Some existing => replay_existing existing invoice_id amount currency external_ref provider request_ctx t None
  | None =>
  if negb (try_lock "finance_payment" idempotency_key) then raise (FinanceOperationInProgress idempotency_key)
  else
    invoice ← _lock_invoice invoice_id;
    _enforce_policy t Action.PAYMENT_APPLY invoice;;
    existing ← _resolve_existing_payment invoice_id idempotency_key external_ref provider;
    match existing with
    | Some existing =>
        replay_existing existing invoice_id amount currency external_ref provider request_ctx t (Some invoice)
    | None =>
        guard_violation (inv_id invoice) request_ctx (
          Checker.check_invoice W invoice request_ctx false;;
          Checker.check_payment_application W invoice amount idempotency_key request_ctx false);;
        _require_settlement_period invoice "payment";;
        job_run ← BillingJobRunService.start W BillingJobType.FINANCE_PAYMENT
          [("invoice_id", JStr invoice_id); ("amount", JInt amount); ("currency", JStr currency);
           ("external_ref", opt_text external_ref); ("provider", opt_text provider)]
          (Some idempotency_key) (Some invoice_id);
        id ← uuid4 W;
        created_at ← now W;
        let payment := MkInvoicePayment id invoice_id amount currency provider external_ref idempotency_key
          (_payment_response_hash invoice_id amount currency external_ref provider) PaymentStatus.POSTED created_at in
        inserted ← try_except (insert_payment payment;; mret None)
          (fun e => match e with
                    | IntegrityError _ => Some (
                        existing ← _resolve_existing_payment invoice_id idempotency_key external_ref provider;
                        match existing with
                        | Some existing => mret (Some existing)
                        | None => raise e
                        end)
                    | _ => None
                    end);
        match inserted with
        | Some existing =>
            replay_existing existing invoice_id amount currency external_ref provider request_ctx t (Some invoice)
        | None => post_new_payment invoice payment job_run amount currency idempotency_key request_ctx
        end
    end
  end
  end.

(** ** Credit notes *)

(** [db.add(credit_note)] and its flush: the key is unique. *)
Definition insert_credit_note (credit_note : CreditNote) : PM unit :=
  race W;;
  same ← q_first (fun d => credit_notes (billing d))
    (fun c => (cn_idempotency_key c =? cn_idempotency_key credit_note)%py);
  match same with
  | Some _ => raise (IntegrityError "credit_notes.idempotency_key")
  | None => modify (on_credit_notes (fun l => l ++ [credit_note]))
  end.

(** The raw [roles] claim in a decision's metadata. *)
Definition claimed_roles (t : option token) : pyval :=
  match t with
  | None => PList []
  | Some t => match tk_roles t with
              | NoRoles => PNone
              | OneRole r => PStr r
              | ManyRoles l => PList (map PStr l)
              end
  end.

Definition credit_note_decision (invoice : Invoice) (amount : Z) (currency : string)
    (request_ctx : option RequestContext) (t : option token) : PM unit :=
  let tenant_id := _resolve_tenant_id request_ctx in
  resource ← _policy_resource_for_invoice invoice tenant_id;
  decision ← evaluate (MkDecisionContext tenant_id (inv_client_id invoice) "ADMIN" "CREDIT_NOTE_CREATE" amount
    (Some currency) None (Some (inv_id invoice)) (str_or_none (inv_billing_period_id invoice))
    [ ("invoice_status", PStr (InvoiceStatus.value (inv_status invoice)));
      ("billing_period_status", opt_str (rsc_status resource));
      ("actor_roles", claimed_roles t); ("subject_id", PStr (inv_id invoice)) ]);
  if decide (dr_outcome decision = DecisionOutcome.ALLOW) then mret tt
  else raise (InvalidTransitionError ("DECISION_" +:+ DecisionOutcome.value (dr_outcome decision))).

(** The postings of a credit note that exists. *)
Definition replay_credit_note (existing : CreditNote) (invoice_id : string) (request_ctx : option RequestContext)
    (t : option token) : PM CreditNoteResult :=
  invoice ← _lock_invoice invoice_id;
  _enforce_policy t Action.CREDIT_NOTE_CREATE invoice;;
  InternalLedgerService.post_credit_note_applied W invoice existing (_resolve_tenant_id request_ctx);;
  _ensure_settlement_allocation_with_invariant_guard invoice SettlementSourceType.CREDIT_NOTE (cn_id existing)
    (cn_amount existing) (cn_currency existing) (Some (cn_created_at existing)) request_ctx;;
  reconcile_invoice_allocations (inv_id invoice) "credit_note_replay" (Some (cn_idempotency_key existing))
    request_ctx;;
  mret (MkCreditNoteResult existing invoice true).

(** The transitions a credit note takes its invoice through; the pending row is flushed
    with the first of them. *)
Definition credit_invoice (invoice : Invoice) (credit_note : PM CreditNote) (amount : Z)
    (request_ctx : option RequestContext) : PM (Invoice * CreditNote) :=
  let total := InvoiceStateMachine.invoice_total invoice in
  let remaining_after_credit := total - inv_amount_paid invoice - (inv_credited_amount invoice + amount) +
                                inv_amount_refunded invoice in
  if negb (bool_decide (inv_status invoice ∈ [InvoiceStatus.SENT; InvoiceStatus.PARTIALLY_PAID]))
  then
    rollback;;
    raise (InvalidTransitionError ("credit notes allowed only from sent/partial, got " +:+
             InvoiceStateMachine.status_text (inv_status invoice)))
  else
    let sent := (inv_status invoice =? InvoiceStatus.SENT)%py in
    let target_status := if sent then InvoiceStatus.PARTIALLY_PAID
                         else if remaining_after_credit <=? 0 then InvoiceStatus.PAID
                         else InvoiceStatus.PARTIALLY_PAID in
    invoice ← _apply_financial_transition invoice target_status None (Some amount) None request_ctx;
    note ← credit_note;
    invoice ← (if sent && (inv_amount_due invoice <=? 0)
               then _apply_financial_transition invoice InvoiceStatus.PAID None None None request_ctx
               else mret invoice);
    Checker.check_invoice W invoice request_ctx false;;
    mret (invoice, note).

(** A new row of [credit_notes], with its flush. *)
Definition new_credit_note (invoice_id : string) (amount : Z) (currency : string) (provider external_ref reason : option string)
    (idempotency_key response_hash : string) : PM CreditNote :=
  id ← uuid4 W;
  created_at ← now W;
  let note := MkCreditNote id invoice_id amount currency provider external_ref reason idempotency_key response_hash
    CreditNoteStatus.POSTED created_at in
  insert_credit_note note;;
  mret note.

(** The metrics and the result of a job of a credit note or refund. *)
Definition succeed_note (job_run : BillingJobRun) (invoice : Invoice) (note : CreditNote) (amount : Z)
    (currency : string) : PM unit :=
  BillingJobRunService.succeed W job_run
    [("invoice_id", JStr (inv_id invoice)); ("amount", JInt amount); ("currency", JStr currency);
     ("due_amount", JInt (inv_amount_due invoice))]
    (Some [("invoice_id", JStr (inv_id invoice)); ("credit_note_id", JStr (cn_id note));
           ("due_amount", JInt (inv_amount_due invoice))]).

Definition create_credit_note (invoice_id : string) (amount : Z) (currency : string) (reason : option string)
    (idempotency_key : string) (request_ctx : option RequestContext) (t : option token) : PM CreditNoteResult :=
  let idempotency_key := normalize_key W idempotency_key 128 "hash:" in
  existing ← q_one_or_none (fun d => credit_notes (billing d))
    (fun c => (cn_idempotency_key c =? idempotency_key)%py);
  match existing with
  | Some existing => replay_credit_note existing invoice_id request_ctx t
  | None =>
  if negb (try_lock "finance_credit_note" idempotency_key) then raise (FinanceOperationInProgress idempotency_key)
  else
    invoice ← _lock_invoice invoice_id;
    guard_violation (inv_id invoice) request_ctx (Checker.check_invoice W invoice request_ctx false);;
    credit_note_decision invoice amount currency request_ctx t;;
    _enforce_policy t Action.CREDIT_NOTE_CREATE invoice;;
    _require_settlement_period invoice "credit_note";;
    job_run ← BillingJobRunService.start W BillingJobType.FINANCE_CREDIT_NOTE
      [("invoice_id", JStr invoice_id); ("amount", JInt amount); ("currency", JStr currency);
       ("reason", opt_text reason)] (Some idempotency_key) (Some invoice_id);
    credited ← guard_violation (inv_id invoice) request_ctx (rollback_on_transition_error (
      credit_invoice invoice (new_credit_note invoice_id amount currency None None reason idempotency_key
        (_credit_note_response_hash invoice_id amount currency reason)) amount request_ctx));
    let '(invoice, credit_note) := credited in
    _ensure_settlement_allocation_with_invariant_guard invoice SettlementSourceType.CREDIT_NOTE (cn_id credit_note)
      amount currency (Some (cn_created_at credit_note)) request_ctx;;
    InternalLedgerService.post_credit_note_applied W invoice credit_note (_resolve_tenant_id request_ctx);;
    reconcile_invoice_allocations (inv_id invoice) "credit_note_apply" (Some idempotency_key) request_ctx;;
    succeed_note job_run invoice credit_note amount currency;;
    mret (MkCreditNoteResult credit_note invoice false)
  end.

(** ** Refunds *)

Definition find_refund (external_ref : string) (provider : option string) : PM (option CreditNote) :=
  q_one_or_none (fun d => credit_notes (billing d))
    (fun c => (cn_external_ref c =? Some external_ref)%py && (cn_provider c =? provider)%py).

(** The postings of a refund that exists. *)
Definition post_refund_again (existing : CreditNote) (invoice : Invoice) (request_ctx : option RequestContext)
    : PM CreditNoteResult :=
  InternalLedgerService.post_refund_applied W invoice existing (_resolve_tenant_id request_ctx);;
  _ensure_settlement_allocation_with_invariant_guard invoice SettlementSourceType.REFUND (cn_id existing)
    (cn_amount existing) (cn_currency existing) (Some (cn_created_at existing)) request_ctx;;
  reconcile_invoice_allocations (inv_id invoice) "refund_replay" (Some (cn_idempotency_key existing)) request_ctx;;
  mret (MkCreditNoteResult existing invoice true).

(** The [try] block of [create_refund] with its three [except] clauses. *)
Definition refund_invoice (invoice : Invoice) (refund : PM CreditNote) (invoice_id : string) (amount : Z)
    (external_ref provider : option string) (request_ctx : option RequestContext)
    : PM (Invoice * CreditNote + CreditNoteResult) :=
  let net_paid_after := inv_amount_paid invoice - (inv_amount_refunded invoice + amount) in
  let target_status := if net_paid_after <=? 0 then InvoiceStatus.SENT else InvoiceStatus.PARTIALLY_PAID in
  try_except
    (invoice ← _apply_financial_transition invoice target_status None None (Some amount) request_ctx;
     note ← refund;
     Checker.check_invoice W invoice request_ctx false;;
     mret (inl (invoice, note)))
    (fun e =>
       match e with
       | IntegrityError _ => Some (
           rollback;;
           match str_or_none external_ref with
           | None => raise e
           | Some ref =>
               existing ← find_refund ref provider;
               match existing with
               | None => raise e
               | Some existing =>
                   invoice ← _lock_invoice invoice_id;
                   result ← post_refund_again existing invoice request_ctx;
                   mret (inr result)
               end
           end)
       | InvalidTransitionError _ | InvoiceInvariantError _ => Some (rollback;; raise e)
       | FinancialViolation v => Some (report_violation (inv_id invoice) request_ctx v)
       | _ => None
       end).

(** Without the lock the refund only counts an error in its metrics, and goes on. *)
Definition create_refund (invoice_id : string) (amount : Z) (currency : string)
    (reason external_ref provider : option string) (request_ctx : option RequestContext) (t : option token)
    : PM CreditNoteResult :=
  let external_ref := normalize_key_optional W external_ref 128 "hash:" in
  existing ← match str_or_none external_ref with
             | Some ref => find_refund ref provider
             | None => mret None
             end;
  match existing with
  | Some existing =>
      if (cn_invoice_id existing <>? invoice_id)%py
      then raise (RefundReferenceConflict (default "" external_ref))
      else
        invoice ← _lock_invoice invoice_id;
        _enforce_policy t Action.CREDIT_NOTE_CREATE invoice;;
        post_refund_again existing invoice request_ctx
  | None =>
      invoice ← _lock_invoice invoice_id;
      _enforce_policy t Action.CREDIT_NOTE_CREATE invoice;;
      let reference := normalize_key W (str_or external_ref ("refund:" +:+ invoice_id)) 128 "hash:" in
      guard_violation (inv_id invoice) request_ctx (
        Checker.check_invoice W invoice request_ctx false;;
        Checker.check_refund W invoice amount reference request_ctx false);;
      _require_settlement_period invoice "refund";;
      when (negb (bool_decide (inv_status invoice ∈ [InvoiceStatus.PAID; InvoiceStatus.PARTIALLY_PAID])))
        (rollback;;
         raise (InvalidTransitionError ("refunds allowed only from paid/partial, got " +:+
                  InvoiceStateMachine.status_text (inv_status invoice))));;
      job_run ← BillingJobRunService.start W BillingJobType.FINANCE_CREDIT_NOTE
        [("invoice_id", JStr invoice_id); ("amount", JInt amount); ("currency", JStr currency);
         ("reason", opt_text reason); ("external_ref", opt_text external_ref); ("provider", opt_text provider)]
        (Some reference) (Some invoice_id);
      let idempotency_key := normalize_key W
        (str_or external_ref ("refund:" +:+ invoice_id +:+ ":" +:+ print_int amount)) 128 "hash:" in
      refunded ← refund_invoice invoice (new_credit_note invoice_id amount currency provider external_ref reason
        idempotency_key "") invoice_id amount external_ref provider request_ctx;
      match refunded with
      | inr result => mret result
      | inl (invoice, refund) =>
          _ensure_settlement_allocation_with_invariant_guard invoice SettlementSourceType.REFUND (cn_id refund)
            amount currency (Some (cn_created_at refund)) request_ctx;;
          InternalLedgerService.post_refund_applied W invoice refund (_resolve_tenant_id request_ctx);;
          reconcile_invoice_allocations (inv_id invoice) "refund_apply" (Some idempotency_key) request_ctx;;
          succeed_note job_run invoice refund amount currency;;
          mret (MkCreditNoteResult refund invoice false)
      end
  end.

(** ** The admin endpoints (routers/admin/finance.py) *)

(** The [except] clauses; a conflict is audited first. *)
Definition finance_errors {A} (invoice_id event_type action : string) (request_ctx : RequestContext) (m : PM A)
    : PM A :=
  try_except m (fun e =>
    match e with
    | PolicyAccessDenied _ _ => Some (raise (HTTPFrom 403 e))
    | InvoiceNotFound _ => Some (raise (HTTPException 404 "invoice not found"))
    | FinanceOperationInProgress _ => Some (raise (HTTPException 409 "already running"))
    | PaymentIdempotencyConflict _ => Some (raise (HTTPFrom 409 e))
    | InvalidTransitionError message => Some (
        audit_call W (MkAuditArgs event_type "invoice" invoice_id action AuditVisibility.INTERNAL None None None
          None (Some message) None) (Some request_ctx);;
        raise (HTTPFrom 409 e))
    | InvoiceInvariantError _ => Some (raise (HTTPFrom 400 e))
    | _ => None
    end).

Definition create_payment (invoice_id : string) (amount : Z) (currency : string) (idempotency_key : option string)
    (request_ctx : RequestContext) (t : token) : PM PaymentResult :=
  let scope_key := JobLocks.make_stable_key W "finance_payment"
    [("invoice_id", JStr invoice_id); ("amount", JInt amount); ("currency", JStr currency)] idempotency_key in
  result ← finance_errors invoice_id "PAYMENT_CONFLICT" "PAYMENT_DENIED" request_ctx
    (apply_payment invoice_id amount currency scope_key None None (Some request_ctx) (Some t));
  audit_call W (MkAuditArgs "PAYMENT_POSTED" "payment" (pay_id (pr_payment result)) "CREATE" AuditVisibility.INTERNAL
    None
    (Some [ ("invoice_id", PStr (pay_invoice_id (pr_payment result)));
            ("amount", PInt (pay_amount (pr_payment result)));
            ("currency", PStr (pay_currency (pr_payment result)));
            ("status", PStr (PaymentStatus.value (pay_status (pr_payment result))));
            ("invoice_status", PStr (InvoiceStatus.value (inv_status (pr_invoice result)))) ])
    None None None None) (Some request_ctx);;
  mret result.

(** The endpoint of the same name; here its audit and errors around the service. *)
Definition admin_create_credit_note (invoice_id : string) (amount : Z) (currency : string) (reason : option string)
    (idempotency_key : option string) (request_ctx : RequestContext) (t : token) : PM CreditNoteResult :=
  let scope_key := JobLocks.make_stable_key W "finance_credit_note"
    [("invoice_id", JStr invoice_id); ("amount", JInt amount); ("currency", JStr currency);
     ("reason", JStr (str_or reason ""))] idempotency_key in
  result ← finance_errors invoice_id "CREDIT_NOTE_CONFLICT" "CREDIT_NOTE_DENIED" request_ctx
    (create_credit_note invoice_id amount currency reason scope_key (Some request_ctx) (Some t));
  audit_call W (MkAuditArgs "CREDIT_NOTE_CREATED" "credit_note" (cn_id (cr_credit_note result)) "CREATE"
    AuditVisibility.INTERNAL None
    (Some [ ("invoice_id", PStr (cn_invoice_id (cr_credit_note result)));
            ("amount", PInt (cn_amount (cr_credit_note result)));
            ("currency", PStr (cn_currency (cr_credit_note result)));
            ("status", PStr (CreditNoteStatus.value (cn_status (cr_credit_note result))));
            ("invoice_status", PStr (InvoiceStatus.value (inv_status (cr_invoice result)))) ])
    None None None None) (Some request_ctx);;
  mret result.
(** ** The endpoints of the client portal (api/v1/endpoints/billing_invoices.py) *)

(** The invoice of the path, when it is the client's of the token. *)
Definition client_invoice (invoice_id : string) (t : token) : PM Invoice :=
  invoice ← q_one_or_none (fun d => invoices (billing d)) (fun r => (inv_id r =? invoice_id)%py);
  match invoice with
  | None => raise (HTTPException 404 "invoice not found")
  | Some invoice =>
      match str_or_none (tk_client_id t) with
      | Some client_id => if (inv_client_id invoice <>? client_id)%py then raise (HTTPException 403 "forbidden")
                          else mret invoice
      | None => raise (HTTPException 403 "forbidden")
      end
  end.

(** The clauses of the portal: those above, and the conflicts of references. *)
Definition portal_errors {A} (invoice_id event_type action : string) (request_ctx : RequestContext) (m : PM A)
    : PM A :=
  try_except (finance_errors invoice_id event_type action request_ctx m) (fun e =>
    match e with
    | PaymentReferenceConflict _ => Some (raise (HTTPException 409 "payment reference conflict"))
    | RefundReferenceConflict _ => Some (raise (HTTPException 409 "refund reference conflict"))
    | _ => None
    end).

(** [{"provider": ..., "external_ref": ...} if external_ref or provider else None] *)
Definition portal_refs (external_ref : string) (provider : option string) : option pydict :=
  match str_or_none (Some external_ref), str_or_none provider with
  | None, None => None
  | _, _ => Some [("provider", opt_str provider); ("external_ref", PStr external_ref)]
  end.

(** The audit record of a payment or refund of the portal: public when it is new. *)
Definition portal_audit (kind entity_id invoice_id currency status : string) (amount : Z) (invoice : Invoice)
    (replay : bool) (external_ref : string) (provider : option string) (request_ctx : RequestContext) : PM unit :=
  audit_call W
    (MkAuditArgs (kind +:+ (if replay then "_IDEMPOTENT_REPLAY" else "_POSTED"))
       (if (kind =? "PAYMENT")%py then "payment" else "refund") entity_id
       (if replay then "IDEMPOTENT_REPLAY" else "CREATE")
       (if replay then AuditVisibility.INTERNAL else AuditVisibility.PUBLIC)
       None
       (Some [ ("invoice_id", PStr invoice_id); ("amount", PInt amount); ("currency", PStr currency);
               ("status", PStr status);
               ("invoice_status", PStr (InvoiceStatus.value (inv_status invoice))) ])
       None (portal_refs external_ref provider) None None) (Some request_ctx);;
  mret tt.

Definition create_invoice_payment (invoice_id : string) (amount : Z) (external_ref : string)
    (provider : option string) (request_ctx : RequestContext) (t : token) : PM PaymentResult :=
  invoice ← client_invoice invoice_id t;
  let idempotency_key := JobLocks.make_stable_key W "invoice_payment"
    [("external_ref", JStr external_ref); ("provider", opt_text provider)] None in
  result ← portal_errors invoice_id "PAYMENT_CONFLICT" "PAYMENT_DENIED" request_ctx
    (apply_payment invoice_id amount (inv_currency invoice) idempotency_key (Some external_ref) provider
       (Some request_ctx) (Some t));
  portal_audit "PAYMENT" (pay_id (pr_payment result)) (pay_invoice_id (pr_payment result))
    (pay_currency (pr_payment result)) (PaymentStatus.value (pay_status (pr_payment result)))
    (pay_amount (pr_payment result)) (pr_invoice result) (pr_is_replay result) external_ref provider request_ctx;;
  mret result.

Definition create_invoice_refund (invoice_id : string) (amount : Z) (reason : option string) (external_ref : string)
    (provider : option string) (request_ctx : RequestContext) (t : token) : PM CreditNoteResult :=
  invoice ← client_invoice invoice_id t;
  result ← portal_errors invoice_id "REFUND_CONFLICT" "REFUND_DENIED" request_ctx
    (create_refund invoice_id amount (inv_currency invoice) reason (Some external_ref) provider
       (Some request_ctx) (Some t));
  portal_audit "REFUND" (cn_id (cr_credit_note result)) (cn_invoice_id (cr_credit_note result))
    (cn_currency (cr_credit_note result)) (CreditNoteStatus.value (cn_status (cr_credit_note result)))
    (cn_amount (cr_credit_note result)) (cr_invoice result) (cr_is_replay result) external_ref provider request_ctx;;
  mret result.

(** [list_invoice_refunds]: every credit note of the invoice, oldest first. *)
Definition list_invoice_refunds (invoice_id : string) (t : token) : PM (list CreditNote) :=
  client_invoice invoice_id t;;
  notes ← q_all (fun d => credit_notes (billing d)) (fun c => (cn_invoice_id c =? invoice_id)%py);
  mret (sort_on cn_created_at notes).
End Finance.
End FinanceService.
