(* ===== verification/FinanceFacts.v ===== *)
(** * What the payments, credit notes and refunds of Finance.v guarantee

    First what reaches the database: the endpoints end without a commit.  Then the
    service itself: replays under an idempotency key, the reconciliation of allocations
    with the coverage of an invoice, and what a new payment writes. *)
From S2P Require Import Prelude Json Enums Models AuditTrail FinanceRules InternalLedger Decisions InvoiceMachine.
From S2P Require Import Policy BillingPeriods JobRuns Effects Finance.
Import FinanceService.

(** ** What is committed *)

(** Every table but the audit log. *)
Definition same_books (d d' : Db) : Prop :=
  posting d' = posting d /\ scenario d' = scenario d /\ internal d' = internal d /\
  billing d' = billing d /\ flow d' = flow d /\ crm d' = crm d /\ cards d' = cards d.

#[export] Instance same_books_preorder : PreOrder same_books.
Proof.
  split; [by intros d|]. intros d e f (? & ? & ? & ? & ? & ? & ?) (? & ? & ? & ? & ? & ? & ?). repeat split; congruence.
Qed.

(** The committed books are those of before. *)
Definition books_stand (s t : session Db) : Prop := same_books (saved s) (saved t).

#[export] Instance books_stand_frame : Frame books_stand.
Proof.
  split; [|intros s t _ Hs _; unfold books_stand; by rewrite Hs].
  split; [intros s; unfold books_stand; reflexivity|intros s t u; unfold books_stand; apply transitivity].
Qed.

Lemma books_within {A} (m : PM A) : always (within (fun _ => tt)) m -> always books_stand m.
Proof. apply always_mono. intros s t (Hs & _). unfold books_stand. by rewrite Hs. Qed.

Lemma books_modify f : always books_stand (modify f).
Proof. intros s. unfold books_stand. reflexivity. Qed.

Lemma books_rollback : always books_stand rollback.
Proof. intros s. unfold books_stand. reflexivity. Qed.

#[export] Hint Resolve books_within books_modify books_rollback : effects.

Section Committed.
Context (W : world Db) (alone_W : alone W) `{DecisionService} `{Timezone} `{LegalGraph}
  (try_lock : string -> string -> bool).

Lemma books_evaluate ctx : always books_stand (evaluate ctx).
Proof. intros s. unfold books_stand. by rewrite evaluate_saved. Qed.

Lemma books_graph a i source : always books_stand (settlement_graph a i source).
Proof.
  intros s. destruct (settlement_graph_run a i source s) as (o & t & -> & _ & Hs & _).
  unfold books_stand. simpl. by rewrite Hs.
Qed.
Hint Resolve books_evaluate books_graph : effects.

Lemma books_transition i to actor reason p c r md ctx :
  always books_stand (InvoiceStateMachine.transition W i to actor reason p c r md ctx).
Proof.
  unfold InvoiceStateMachine.transition, InvoiceStateMachine.period_guard,
    InvoiceStateMachine._validate_allowed, InvoiceStateMachine._apply_amounts, InvoiceStateMachine.decide_issue,
    InvoiceStateMachine._validate_constraints, InvoiceStateMachine.assign, InvoiceStateMachine._log_transition.
  effects.
Qed.
Hint Resolve books_transition : effects.

(** The one commit of the service keeps the audit record of a violation, after a rollback. *)
Lemma books_violation {A} id ctx v : always books_stand (report_violation (A := A) W id ctx v).
Proof.
  intros s. unfold report_violation, _audit_invariant_violation, Checker.audit_violation.
  unfold mbind, M_bind, rollback. cbv beta iota.
  match goal with |- context [audit_call W ?a ?c ?u] =>
    pose proof (within_audit W (fun d => (posting d, scenario d, internal d, billing d, flow d, crm d, cards d)) a c u) as Hw;
    destruct (audit_call W a c u) as [[r|e] t] end;
    destruct Hw as (Hs & Hk & _); simpl in *; injection Hk as ? ? ? ? ? ?.
  - unfold books_stand. simpl. by repeat split.
  - unfold books_stand. by rewrite Hs.
Qed.
Hint Resolve books_violation : effects.

Lemma books_guard {A} id ctx (m : PM A) : always books_stand m -> always books_stand (guard_violation W id ctx m).
Proof. intros Hm. unfold guard_violation. effects. Qed.

Lemma books_cleanup {A} (m : PM A) : always books_stand m -> always books_stand (rollback_on_transition_error m).
Proof. intros Hm. unfold rollback_on_transition_error. effects. Qed.

Lemma books_db_error {A} (m : PM A) : always books_stand m -> always books_stand (rollback_on_db_error m).
Proof.
  intros Hm. unfold rollback_on_db_error. apply always_try; [apply _|done|]. intros e k.
  destruct (is_sqlalchemy e); [|done]. intros [= <-]. effects.
Qed.
Hint Resolve books_guard books_cleanup books_db_error : effects.

Lemma books_enforce t action i : always books_stand (_enforce_policy W t action i).
Proof. unfold _enforce_policy, _policy_resource_for_invoice, find_period. effects. Qed.

Lemma books_lock_invoice id : always books_stand (_lock_invoice id).
Proof. unfold _lock_invoice. effects. Qed.

Lemma books_require_period i action : always books_stand (_require_settlement_period i action).
Proof. unfold _require_settlement_period, find_period. effects. Qed.
Hint Resolve books_enforce books_lock_invoice books_require_period : effects.

Lemma books_allocation i ty source amount currency at_ ctx :
  always books_stand (_ensure_settlement_allocation W i ty source amount currency at_ ctx).
Proof.
  unfold _ensure_settlement_allocation, find_allocation, insert_allocation, publish_allocation, source_row,
    q_first. effects.
Qed.
Hint Resolve books_allocation : effects.

Lemma books_reconcile id reason key ctx : always books_stand (reconcile_invoice_allocations W id reason key ctx).
Proof.
  unfold reconcile_invoice_allocations, reconcile_payment, reconcile_credit_note, adjust_allocations, q_all.
  effects.
Qed.
Hint Resolve books_reconcile : effects.

Lemma books_replay id p ctx t i : always books_stand (_replay_payment W id p ctx t i).
Proof.
  unfold _replay_payment, _payment_already_applied, _ensure_settlement_allocation_with_invariant_guard.
  effects.
Qed.

Lemma books_resolve id key ref provider : always books_stand (_resolve_existing_payment id key ref provider).
Proof.
  unfold _resolve_existing_payment, payment_by_key, payment_of_invoice. apply books_db_error. effects.
Qed.

Lemma books_replay_event id key amount currency ref provider :
  always books_stand (_replay_from_money_flow_event W id key amount currency ref provider).
Proof.
  unfold _replay_from_money_flow_event, _resolve_payment_money_flow_event, _resolve_payment_from_event,
    payment_by_key, _validate_payment_replay. apply books_db_error. effects.
Qed.
Hint Resolve books_replay books_resolve books_replay_event : effects.

Lemma books_start ty params key id : always books_stand (BillingJobRunService.start W ty params key id).
Proof. unfold BillingJobRunService.start. effects. Qed.

Lemma books_succeed run metrics ref : always books_stand (BillingJobRunService.succeed W run metrics ref).
Proof. unfold BillingJobRunService.succeed, BillingJobRunService.assign. effects. Qed.
Hint Resolve books_start books_succeed : effects.

Lemma books_settle i p amount currency ctx : always books_stand (settle_invoice W i p amount currency ctx).
Proof.
  unfold settle_invoice, _apply_financial_transition, _ensure_settlement_allocation_with_invariant_guard.
  effects; apply books_guard; effects; apply books_cleanup; effects.
Qed.
Hint Resolve books_settle : effects.

Lemma books_apply_payment id amount currency key ref provider ctx t :
  always books_stand (apply_payment W try_lock id amount currency key ref provider ctx t).
Proof.
  unfold apply_payment, post_new_payment, replay_existing, _validate_payment_replay, insert_payment,
    _ensure_payment_money_flow_event, _resolve_payment_money_flow_event, insert_event, q_first.
  effects. apply books_guard. effects.
Qed.
Hint Resolve books_apply_payment : effects.

Lemma books_create_credit_note id amount currency reason key ctx t :
  always books_stand (create_credit_note W try_lock id amount currency reason key ctx t).
Proof.
  unfold create_credit_note, replay_credit_note, credit_note_decision, _policy_resource_for_invoice, find_period,
    credit_invoice, new_credit_note, insert_credit_note, succeed_note, _apply_financial_transition,
    _ensure_settlement_allocation_with_invariant_guard, q_first.
  effects. apply books_guard, books_cleanup. effects.
Qed.

Lemma books_create_refund id amount currency reason ref provider ctx t :
  always books_stand (create_refund W id amount currency reason ref provider ctx t).
Proof.
  unfold create_refund, find_refund, refund_invoice, post_refund_again, new_credit_note, insert_credit_note,
    succeed_note, _apply_financial_transition, _ensure_settlement_allocation_with_invariant_guard, q_first.
  effects. apply books_guard. effects.
Qed.
Hint Resolve books_create_credit_note books_create_refund : effects.

Lemma books_errors {A} id event action ctx (m : PM A) :
  always books_stand m -> always books_stand (finance_errors W id event action ctx m).
Proof. intros Hm. unfold finance_errors. effects. Qed.
Hint Resolve books_errors : effects.

Lemma books_portal_errors {A} id event action ctx (m : PM A) :
  always books_stand m -> always books_stand (portal_errors W id event action ctx m).
Proof. intros Hm. unfold portal_errors. effects. Qed.
Hint Resolve books_portal_errors : effects.

(** ** Requests to the endpoints *)

Inductive finance_request : Type :=
| PostPayment (invoice_id : string) (amount : Z) (currency : string) (key : option string)
    (ctx : RequestContext) (t : token)
| PostCreditNote (invoice_id : string) (amount : Z) (currency : string) (reason key : option string)
    (ctx : RequestContext) (t : token)
| PortalPayment (invoice_id : string) (amount : Z) (external_ref : string) (provider : option string)
    (ctx : RequestContext) (t : token)
| PortalRefund (invoice_id : string) (amount : Z) (reason : option string) (external_ref : string)
    (provider : option string) (ctx : RequestContext) (t : token).

Definition run_finance (r : finance_request) : PM unit :=
  match r with
  | PostPayment id amount currency key ctx t => create_payment W try_lock id amount currency key ctx t;; mret tt
  | PostCreditNote id amount currency reason key ctx t =>
      admin_create_credit_note W try_lock id amount currency reason key ctx t;; mret tt
  | PortalPayment id amount ref provider ctx t =>
      create_invoice_payment W try_lock id amount ref provider ctx t;; mret tt
  | PortalRefund id amount reason ref provider ctx t =>
      create_invoice_refund W id amount reason ref provider ctx t;; mret tt
  end.

Lemma books_run r : always books_stand (run_finance r).
Proof.
  destruct r; unfold run_finance, create_payment, admin_create_credit_note, create_invoice_payment,
    create_invoice_refund, client_invoice, portal_audit; effects.
Qed.

(** [get_db] closes the session after the endpoint, whatever its outcome, and what is not
    committed is gone. *)
Definition serve_finance (s : session Db) (r : finance_request) : session Db := (rollback (E := exn) (run_finance r s).2).2.

Definition serve_all_finance (rs : list finance_request) (s : session Db) : session Db := foldl serve_finance s rs.

(** C19 No payment, credit note or refund posted through the endpoints is ever stored: the
    service leaves the commit to its caller, no endpoint commits, and the session is
    closed.  Whatever requests are served, the committed invoices, payments, credit notes,
    allocations, ledgers and money flow events stay what they were; at most the audit
    record of a violated invariant is kept. *)
Theorem endpoints_store_nothing (rs : list finance_request) (s : session Db) :
  same_books (saved s) (saved (serve_all_finance rs s)).
Proof.
  unfold serve_all_finance. revert s. induction rs as [|r rs IH]; intros s; simpl; [reflexivity|].
  etrans; [|apply IH]. apply (books_run r s).
Qed.
End Committed.

(** ** Allocations *)

(** The columns of the unique constraint of the allocations. *)
Definition scope_of (a : InvoiceSettlementAllocation) : string * alloc_key := (al_invoice_id a, key_of a).

(** All that an allocation does not write. *)
Definition besides_allocations (d : Db) :=
  (posting d, scenario d, internal d, flow d,
   (invoices (billing d), invoice_lines (billing d), transition_logs (billing d)),
   (payments (billing d), credit_notes (billing d), job_runs (billing d))).

Definition rows_of (i : Invoice) (d : Db) : list InvoiceSettlementAllocation := Checker.invoice_allocations i d.

Section Allocations.
Context (W : world Db) (alone_W : alone W) `{DS : DecisionService} `{TZ : Timezone} `{LG : LegalGraph}.

Lemma report_fails {A} b v ctx extra : fails (Checker.report (A := A) W b v ctx extra).
Proof. intros s. destruct (report_raises (A := A) W b v ctx extra s) as (e & t & Hr & _). by exists e, t. Qed.

(** An accepted allocation makes the net of the invoice's allocations its coverage. *)
Lemma check_allocation_balances i amount period ty source override ctx b s u :
  Checker.check_settlement_allocation W i amount period ty source override ctx b s = (Ok tt, u) ->
  u = s /\ net_allocated (rows_of i (live s)) + coverage_sign ty * amount = net_coverage i.
Proof.
  assert (forall v extra, Checker.report (A := unit) W b v ctx extra s = (Ok tt, u) -> False) as Hno.
  { intros v extra Hr. destruct (report_fails (A := unit) b v ctx extra s) as (e & t & Hf). by rewrite Hf in Hr. }
  unfold Checker.check_settlement_allocation, mbind, M_bind. rewrite one_or_none_run.
  destruct (List.filter _ _) as [|p [|q l]]; [intros Hr; by apply Hno in Hr| |done].
  destruct (Rules.validate_settlement_period _ _); [|intros Hr; by apply Hno in Hr].
  unfold gets. cbv beta zeta iota.
  destruct (Rules.validate_settlement_total _ _ _) as [|v l] eqn:Hv; [|intros Hr; by apply Hno in Hr].
  intros [= <-]. split; [done|]. unfold Rules.validate_settlement_total in Hv.
  apply app_nil in Hv as [Hv _]. rewrite check_nil, negb_false_iff in Hv. apply Z.eqb_eq in Hv.
  unfold rows_of, net_coverage. rewrite net_allocated_split, <- Hv.
  destruct ty; simpl; lia.
Qed.

Lemma within_graph {K} (k : Db -> K) a i source : always (within k) (settlement_graph a i source).
Proof.
  intros s. destruct (settlement_graph_run a i source s) as (o & t & -> & Hl & Hs & Hu).
  split; [done|]. split; [simpl; by rewrite Hl|done].
Qed.
Hint Resolve within_graph : effects.

Lemma within_publish {K} (k : Db -> K) `{!Ignores k on_audit_log} i a ctx :
  always (within k) (publish_allocation W i a ctx).
Proof. unfold publish_allocation, source_row. effects. Qed.

(** The row of a source, when it is there. *)
Lemma allocation_found i ty source amount currency at_ ctx s a :
  List.filter (fun a => (al_invoice_id a =? inv_id i)%py && (al_source_type a =? ty)%py &&
                        (al_source_id a =? source)%py) (allocations (billing (live s))) = [a] ->
  _ensure_settlement_allocation W i ty source amount currency at_ ctx s = (Ok a, s).
Proof.
  intros Hf. unfold _ensure_settlement_allocation.
  by rewrite (bind_ok _ _ s (Some a) s) by (by apply one_or_none_some).
Qed.
Definition scoped (i : Invoice) (ty : SettlementSourceType.SettlementSourceType) (source : string)
    (a : InvoiceSettlementAllocation) : bool :=
  (al_invoice_id a =? inv_id i)%py && (al_source_type a =? ty)%py && (al_source_id a =? source)%py.

Lemma insert_allocation_run a s :
  List.filter (fun r => (al_invoice_id r =? al_invoice_id a)%py && (al_source_type r =? al_source_type a)%py &&
                        (al_source_id r =? al_source_id a)%py) (allocations (billing (live s))) = [] ->
  insert_allocation W a s =
    (Ok tt, Session (on_allocations (fun l => l ++ [a]) (live s)) (saved s) (ticks s) (uuids s) (S (races s))).
Proof.
  intros Hf. unfold insert_allocation. rewrite (bind_ok _ _ s tt _ (race_alone W s alone_W)). unfold q_first.
  run_steps. by rewrite Hf.
Qed.

(** A source without a row gets one, if it balances the invoice. *)
Lemma allocation_new i ty source amount currency at_ ctx s a t :
  List.filter (scoped i ty source) (allocations (billing (live s))) = [] ->
  _ensure_settlement_allocation W i ty source amount currency at_ ctx s = (Ok a, t) ->
  scope_of a = (inv_id i, (ty, source)) /\ al_amount a = amount /\ allocations (billing (live t)) = allocations (billing (live s)) ++ [a] /\ within besides_allocations s t /\ net_allocated (rows_of i (live s)) + coverage_sign ty * amount = net_coverage i.
Proof.
  intros Hf. unfold _ensure_settlement_allocation, find_allocation.
  rewrite (bind_ok _ _ s None s) by (by apply one_or_none_nil).
  intros (event_at & s1 & H1 & Hr)%bind_inv_ok.
  set (k := fun d => (besides_allocations d, allocations (billing d))).
  assert (within k s s1) as F1 by (eapply on_return_always; [|exact H1]; effects).
  apply bind_inv_ok in Hr as (p & s2 & H2 & Hr).
  assert (within k s s2) as (A & B & C)
    by (etrans; [exact F1|]; eapply on_return_always; [|exact H2]; by apply within_resolve).
  pose proof (f_equal fst B) as Bk. pose proof (f_equal snd B) as Ba. cbn [fst snd k] in Bk, Ba.
  clear H1 F1 H2 B k.
  apply bind_inv_ok in Hr as ([] & s3 & H3 & Hr). apply check_allocation_balances in H3 as [-> Hnet].
  apply bind_inv_ok in Hr as (id & s4 & H4 & Hr). injection H4 as <- <-. cbv zeta in Hr.
  set (row := MkInvoiceSettlementAllocation _ _ _ _ _ _ _ _ _ _ _) in Hr.
  apply bind_inv_ok in Hr as (inserted & s5 & H5 & Hr).
  erewrite try_ok in H5 by
    (erewrite bind_ok by (apply insert_allocation_run; cbn [live]; rewrite Ba; exact Hf); reflexivity).
  injection H5 as <- <-. apply bind_inv_ok in Hr as ([] & s6 & H6 & [= <- <-]).
  apply (on_return_always _ _ (within_publish (fun d => (besides_allocations d, allocations (billing d))) _ _ _))
    in H6 as (A' & B' & C').
  pose proof (f_equal fst B') as Bk'. pose proof (f_equal snd B') as Ba'. cbn [fst snd live saved] in *.
  split; [done|]. split; [done|]. split; [|split].
  - rewrite Ba'. simpl. by rewrite Ba.
  - split; [congruence|]. split; [|simpl in C'; lia]. rewrite Bk'. exact Bk.
  - rewrite <- Hnet. unfold rows_of, Checker.invoice_allocations. by rewrite Ba.
Qed.

(** ** The reconciliation of an invoice *)

Definition keyed (rows : list InvoiceSettlementAllocation) : list (alloc_key * InvoiceSettlementAllocation) :=
  map (fun a => (key_of a, a)) rows.

Lemma keyed_keys rows : (keyed rows).*1 = map key_of rows.
Proof. unfold keyed. induction rows as [|a rows IH]; [done|]. csimpl. by rewrite IH. Qed.

Lemma keyed_rows rows : (keyed rows).*2 = rows.
Proof. unfold keyed. induction rows as [|a rows IH]; [done|]. csimpl. by rewrite IH. Qed.

Lemma put_new existing key a : key ∉ existing.*1 -> put existing key a = existing ++ [(key, a)].
Proof. intros Hk. unfold put. by rewrite bool_decide_false. Qed.

(** The dict of rows with distinct sources lists them. *)
Lemma dict_of_keyed rows : List.NoDup (map key_of rows) -> dict_of_allocations rows = keyed rows.
Proof.
  unfold dict_of_allocations. induction rows as [|a rows IH] using rev_ind; [done|].
  rewrite map_app. intros Hn. rewrite foldl_app. simpl. rewrite IH by (by eapply List.NoDup_app_remove_r).
  unfold keyed. rewrite map_app. apply put_new. rewrite list_elem_of_In.
  change (map (fun a => (key_of a, a)) rows) with (keyed rows). rewrite keyed_keys.
  simpl in Hn. apply List.NoDup_remove_2 in Hn. by rewrite app_nil_r in Hn.
Qed.

Lemma net_of_keyed rows : net_of (keyed rows) = net_allocated rows.
Proof.
  unfold net_of, total_of, BillingPeriodService.total_of_source, net_allocated. rewrite keyed_rows.
  unfold eqb. induction rows as [|a rows IH]; simpl; [done|]. rewrite <- IH. destruct (al_source_type a); simpl; lia.
Qed.

Lemma net_allocated_snoc rows a :
  net_allocated (rows ++ [a]) = net_allocated rows + coverage_sign (al_source_type a) * al_amount a.
Proof. unfold net_allocated. induction rows as [|b rows IH]; simpl; lia. Qed.

(** The amounts of some rows that are not zero. *)
Definition nonzero (rows : list InvoiceSettlementAllocation) : list Z :=
  List.filter (fun n => negb (n =? 0)) (map al_amount rows).

(** Half way through a reconciliation: the dict lists the rows of the invoice; rows were
    added only if the invoice is balanced now, and one at most was not of zero. *)
Record reconciling (i : Invoice) (s0 : session Db) (existing : list (alloc_key * InvoiceSettlementAllocation))
    (s : session Db) : Prop := {
  rc_within : within besides_allocations s0 s;
  rc_rows : existing = keyed (rows_of i (live s));
  rc_sources : List.NoDup (map key_of (rows_of i (live s)));
  rc_added : exists new, allocations (billing (live s)) = allocations (billing (live s0)) ++ new /\
    Forall (fun a => al_invoice_id a = inv_id i) new /\ (length (nonzero new) <= 1)%nat /\
    (new <> [] -> net_allocated (rows_of i (live s)) = net_coverage i);
}.

Lemma rows_snoc i d d' a :
  allocations (billing d') = allocations (billing d) ++ [a] -> al_invoice_id a = inv_id i ->
  rows_of i d' = rows_of i d ++ [a].
Proof.
  intros Hd Ha. unfold rows_of, Checker.invoice_allocations. rewrite Hd, List.filter_app. simpl.
  by rewrite bool_decide_true.
Qed.

Lemma unscoped i ty source d :
  (ty, source) ∉ map key_of (rows_of i d) -> List.filter (scoped i ty source) (allocations (billing d)) = [].
Proof.
  intros Hno. apply filter_none, List.Forall_forall. intros a Ha. unfold scoped, eqb.
  destruct (bool_decide_reflect (al_invoice_id a = inv_id i)) as [Hi|]; [|done]. simpl.
  destruct (bool_decide_reflect (al_source_type a = ty)) as [Ht|]; [|done]. simpl.
  apply bool_decide_eq_false. intros Hs. apply Hno. apply list_elem_of_In, in_map_iff. exists a.
  split; [unfold key_of; by rewrite Ht, Hs|]. apply filter_In. split; [done|]. by apply bool_decide_eq_true.
Qed.

(** A source without an allocation gets one. *)
Lemma reconcile_step i s0 existing s ty source amount currency at_ ctx a t :
  reconciling i s0 existing s -> (ty, source) ∉ existing.*1 ->
  _ensure_settlement_allocation W i ty source amount currency at_ ctx s = (Ok a, t) ->
  key_of a = (ty, source) /\ reconciling i s0 (put existing (ty, source) a) t.
Proof.
  intros [Hw -> Hn (new & Hnew & Hi & Hone & Hbal)] Hk Hrun. rewrite keyed_keys in Hk.
  pose proof (allocation_new i ty source amount currency at_ ctx s a t (unscoped i ty source _ Hk) Hrun)
    as (Hsc & Ham & Hal & Hw' & Hnet).
  pose proof (f_equal fst Hsc) as Ha1. pose proof (f_equal snd Hsc) as Hka. cbn [fst snd scope_of] in Ha1, Hka.
  pose proof (rows_snoc i (live s) (live t) a Hal Ha1) as Hrows.
  assert (net_allocated (rows_of i (live t)) = net_coverage i) as Hnow.
  { rewrite Hrows, net_allocated_snoc, Ham. unfold key_of in Hka. injection Hka as -> _. exact Hnet. }
  split; [done|]. constructor.
  - by etrans.
  - rewrite put_new by (by rewrite keyed_keys). rewrite Hrows. unfold keyed. rewrite map_app. simpl. by rewrite Hka.
  - rewrite Hrows, map_app. simpl. rewrite Hka. apply nodup_snoc; [done|]. by rewrite <- list_elem_of_In.
  - exists (new ++ [a]). split; [by rewrite Hal, Hnew, app_assoc|]. split; [apply Forall_app; auto|]. split; [|done].
    unfold nonzero in *. rewrite map_app, List.filter_app, length_app. simpl. rewrite Ham.
    destruct (Z.eqb_spec amount 0) as [|Hz]; simpl; [lia|].
    destruct new as [|b new]; [simpl; lia|]. exfalso. specialize (Hbal ltac:(done)). destruct ty; simpl in Hnet; lia.
Qed.

(** One turn of a loop of the reconciliation keeps the sources it knows and adds its own. *)
Definition knows (i : Invoice) (s0 : session Db) (existing : list (alloc_key * InvoiceSettlementAllocation))
    (key : alloc_key) (existing' : list (alloc_key * InvoiceSettlementAllocation)) (t : session Db) : Prop :=
  reconciling i s0 existing' t /\ existing.*1 ⊆ existing'.*1 /\ key ∈ existing'.*1.

Lemma knows_already i s0 existing key s :
  reconciling i s0 existing s -> key ∈ existing.*1 -> knows i s0 existing key existing s.
Proof. intros Hrc Hin. split; [done|]. split; [done|exact Hin]. Qed.

Lemma allocate_key i ctx s0 existing s ty source amount currency at_ :
  reconciling i s0 existing s -> (ty, source) ∉ existing.*1 ->
  wp (allocation ← _ensure_settlement_allocation W i ty source amount currency at_ ctx;
      mret (put existing (ty, source) allocation))
    (knows i s0 existing (ty, source)) (fun _ _ => True) s.
Proof.
  intros Hrc Hk. apply wp_bind. unfold wp at 1.
  destruct (_ensure_settlement_allocation _ _ _ _ _ _ _ _ s) as [[a|e] t] eqn:Hrun; [|done].
  apply wp_ret. destruct (reconcile_step _ _ _ _ _ _ _ _ _ _ _ _ Hrc Hk Hrun) as [_ Hrc'].
  split; [done|]. rewrite put_new by done. rewrite fmap_app. csimpl. set_solver.
Qed.

Lemma reconcile_payment_step i ctx s0 existing s p :
  reconciling i s0 existing s ->
  wp (reconcile_payment W i ctx existing p)
    (knows i s0 existing (SettlementSourceType.PAYMENT, pay_id p)) (fun _ _ => True) s.
Proof.
  intros Hrc. unfold reconcile_payment. cbv zeta.
  destruct (bool_decide_reflect ((SettlementSourceType.PAYMENT, pay_id p) ∈ existing.*1)) as [Hin|Hk];
    [by apply wp_ret, knows_already|by apply allocate_key].
Qed.

(** The sources under which a credit note may have been allocated. *)
Definition note_keys (c : CreditNote) : list alloc_key :=
  [(SettlementSourceType.CREDIT_NOTE, cn_id c); (SettlementSourceType.REFUND, cn_id c)].

Lemma reconcile_note_step i ctx s0 existing s c :
  reconciling i s0 existing s ->
  wp (reconcile_credit_note W i ctx existing c)
    (fun existing' t => exists key, key ∈ note_keys c /\ knows i s0 existing key existing' t) (fun _ _ => True) s.
Proof.
  intros Hrc. unfold reconcile_credit_note. cbv zeta.
  destruct (bool_decide_reflect ((SettlementSourceType.CREDIT_NOTE, cn_id c) ∈ existing.*1)) as [Hin|Hc];
    [apply wp_ret; eexists; split; [|by apply knows_already]; unfold note_keys; set_solver|].
  destruct (bool_decide_reflect ((SettlementSourceType.REFUND, cn_id c) ∈ existing.*1)) as [Hin|Hr];
    [apply wp_ret; eexists; split; [|by apply knows_already]; unfold note_keys; set_solver|].
  cbn [orb]. apply wp_bind. unfold wp at 1. rewrite one_or_none_run.
  destruct (List.filter _ _) as [|r [|r' l]]; [..|done];
    (eapply wp_mono; [by apply allocate_key| |done]); intros existing' t Hkn; eexists;
    (split; [|exact Hkn]); unfold note_keys; set_solver.
Qed.

(** A loop over rows, each of which ends up under one of its sources. *)
Lemma reconcile_loop {A} (keys : A -> list alloc_key)
    (f : list (alloc_key * InvoiceSettlementAllocation) -> A -> PM (list (alloc_key * InvoiceSettlementAllocation))) i s0 :
  (forall existing s a, reconciling i s0 existing s ->
     wp (f existing a) (fun existing' t => exists key, key ∈ keys a /\ knows i s0 existing key existing' t)
       (fun _ _ => True) s) ->
  forall l existing s, reconciling i s0 existing s ->
    wp (fold_each f existing l) (fun existing' t =>
      reconciling i s0 existing' t /\ existing.*1 ⊆ existing'.*1 /\
      forall a, In a l -> exists key, key ∈ keys a /\ key ∈ existing'.*1) (fun _ _ => True) s.
Proof.
  intros Hstep l. induction l as [|a l IH]; intros existing s Hrc; simpl; [by apply wp_ret|].
  apply wp_bind. eapply wp_mono; [by apply Hstep| |done].
  intros e1 t (key & Hkey & Hrc1 & Hsub & Hin). eapply wp_mono; [by apply IH| |done].
  intros e2 u (Hrc2 & Hsub2 & Hall). split; [done|]. split; [set_solver|].
  intros b [<-|Hb]; [|by apply Hall]. exists key. split; [done|]. set_solver.
Qed.

(** An allocation without its meta data. *)
Definition allocated_as (a : InvoiceSettlementAllocation) : string * alloc_key * Z := (scope_of a, al_amount a).

Definition all_allocated (d : Db) : list (string * alloc_key * Z) := map allocated_as (allocations (billing d)).

Lemma adjust_run i net reason key ctx s t :
  unused W (uuids s) al_source_id (allocations (billing (live s))) ->
  adjust_allocations W i net reason key ctx s = (Ok tt, t) ->
  within besides_allocations s t /\
  exists a, scope_of a = (inv_id i, key_of a) /\ all_allocated (live t) = all_allocated (live s) ++ [allocated_as a] /\
    net_allocated (rows_of i (live s)) + coverage_sign (al_source_type a) * al_amount a = net_coverage i.
Proof.
  intros Hun. unfold adjust_allocations. cbv zeta.
  set (ty := if net_coverage i <? net then _ else _).
  intros (id & s1 & H1 & Hr)%bind_inv_ok. injection H1 as <- <-.
  apply bind_inv_ok in Hr as (n & s2 & H2 & Hr). injection H2 as <- <-.
  apply bind_inv_ok in Hr as (a & s3 & H3 & Hr).
  apply allocation_new in H3 as (Hsc & Ham & Hal & Hw & Hnet).
  2:{ apply unscoped. intros Hin. apply list_elem_of_In, in_map_iff in Hin as (b & Hb & Hin).
      apply filter_In in Hin as [Hin _]. apply (Hun (uuids s)); [lia|]. apply in_map_iff. exists b.
      split; [|done]. by injection Hb. }
  apply bind_inv_ok in Hr as ([] & s4 & H4 & Hr). injection H4 as <-.
  apply bind_inv_ok in Hr as (r & s5 & H5 & Hr). injection Hr as <-.
  apply (on_return_always _ _ (within_audit W (fun d => (besides_allocations d, all_allocated d)) _ _))
    in H5 as (A & B & C).
  pose proof (f_equal fst B) as Bk. pose proof (f_equal snd B) as Ba. cbn [fst snd live saved] in *. clear B.
  destruct Hw as (A' & B' & C'). split.
  { split; [rewrite A; exact A'|]. split; [|simpl in C, C'; lia]. rewrite Bk. exact B'. }
  assert (coverage_sign ty = coverage_sign (al_source_type a) /\ inv_id i = al_invoice_id a) as [Hty Hid].
  { pose proof (f_equal (fun x => x.2.1) Hsc) as E. pose proof (f_equal fst Hsc) as E'. simpl in E, E'. by rewrite E. }
  exists a. split; [unfold scope_of; by rewrite Hid|]. split; [|by rewrite <- Hty, Ham].
  rewrite Ba. unfold all_allocated. simpl. rewrite Hal. unfold update_where. rewrite map_map. change [allocated_as a] with (map allocated_as [a]). rewrite <- map_app.
  apply map_ext. intros b. by destruct (_ =? _)%py.
Qed.

Lemma net_allocated_entries i d :
  net_allocated (rows_of i d) =
  sum_of (fun e => if decide (e.1.1 = inv_id i) then coverage_sign e.1.2.1 * e.2 else 0) (all_allocated d).
Proof.
  unfold net_allocated, rows_of, Checker.invoice_allocations, all_allocated.
  induction (allocations (billing d)) as [|a l IH]; simpl; [done|]. rewrite <- IH.
  destruct (decide (al_invoice_id a = inv_id i)) as [Ha|Ha];
    [rewrite bool_decide_true by done|rewrite bool_decide_false by done]; simpl; lia.
Qed.

Lemma row_keys i d key : key ∈ map key_of (rows_of i d) <-> In (inv_id i, key) (map fst (all_allocated d)).
Proof.
  rewrite list_elem_of_In. unfold all_allocated. rewrite map_map, !in_map_iff. split.
  - intros (a & <- & Ha). apply filter_In in Ha as [Ha Hi%bool_decide_eq_true]. exists a.
    unfold allocated_as, scope_of. simpl. by rewrite Hi.
  - intros (a & Hk & Ha). injection Hk as Hi Hk. exists a. split; [done|]. apply filter_In.
    split; [done|]. by apply bool_decide_eq_true.
Qed.

Lemma sources_distinct i d :
  List.NoDup (map scope_of (allocations (billing d))) -> List.NoDup (map key_of (rows_of i d)).
Proof.
  unfold rows_of, Checker.invoice_allocations. induction (allocations (billing d)) as [|a l IH]; simpl;
    [constructor|].
  intros [Ha Hl]%List.NoDup_cons_iff. destruct (bool_decide_reflect (al_invoice_id a = inv_id i)) as [Hi|]; [|auto].
  simpl. apply List.NoDup_cons_iff. split; [|auto]. intros (b & Hb & Hin)%in_map_iff.
  apply filter_In in Hin as [Hin Hib%bool_decide_eq_true]. apply Ha, in_map_iff. exists b.
  split; [|done]. unfold scope_of. by rewrite Hb, Hib, Hi.
Qed.

Lemma reconciling_start i s :
  List.NoDup (map scope_of (allocations (billing (live s)))) ->
  reconciling i s (dict_of_allocations (rows_of i (live s))) s.
Proof.
  intros Hn. pose proof (sources_distinct i _ Hn) as Hd. constructor; [reflexivity|by apply dict_of_keyed|done|].
  exists []. rewrite app_nil_r. split; [done|]. split; [constructor|].
  split; [simpl; lia|]. intros Hne. by destruct Hne.
Qed.

Lemma lock_invoice_inv id s i t :
  _lock_invoice id s = (Ok i, t) -> t = s /\ In i (invoices (billing (live s))) /\ inv_id i = id.
Proof.
  unfold _lock_invoice, mbind, M_bind. rewrite one_or_none_run.
  destruct (List.filter _ _) as [|r [|r' l]] eqn:Hf; [done| |done]. intros [= <- <-]. split; [done|].
  assert (In r [r]) as Hin by (by left). rewrite <- Hf in Hin. apply filter_In in Hin as [Hin Hr].
  split; [done|]. by apply bool_decide_eq_true in Hr.
Qed.

Lemma payment_turn i ctx s0 existing s p :
  reconciling i s0 existing s ->
  wp (reconcile_payment W i ctx existing p) (fun existing' t =>
    exists key, key ∈ [(SettlementSourceType.PAYMENT, pay_id p)] /\ knows i s0 existing key existing' t)
    (fun _ _ => True) s.
Proof.
  intros Hrc. eapply wp_mono; [by apply reconcile_payment_step| |done]. intros existing' t Hk.
  eexists. split; [|exact Hk]. by left.
Qed.

Lemma all_allocated_app d d' new :
  allocations (billing d') = allocations (billing d) ++ new ->
  all_allocated d' = all_allocated d ++ map allocated_as new.
Proof. intros E. unfold all_allocated. by rewrite E, map_app. Qed.

(** The end of a reconciliation, from its loops on. *)
Lemma reconcile_last i reason key ctx s existing v t :
  reconciling i s existing v -> unused W (uuids s) al_source_id (allocations (billing (live s))) ->
  (if net_of existing =? net_coverage i then mret ()
   else adjust_allocations W i (net_of existing) reason key ctx) v = (Ok (), t) ->
  within besides_allocations s t /\ net_allocated (rows_of i (live t)) = net_coverage i /\
  (exists new, all_allocated (live t) = all_allocated (live s) ++ new /\
     (length (List.filter (fun n => negb (n =? 0)%Z) (map snd new)) <= 1)%nat) /\
  forall k, k ∈ existing.*1 -> In (inv_id i, k) (map fst (all_allocated (live t))).
Proof.
  intros [Hw -> Hd (new & Hnew & Hinv & Hone & Hbal)] Hun. rewrite net_of_keyed, keyed_keys.
  pose proof (all_allocated_app _ _ _ Hnew) as Hall. destruct (Z.eqb_spec (net_allocated (rows_of i (live v)))
    (net_coverage i)) as [He|Hne].
  - intros [= <-]. split; [done|]. split; [done|]. split; [|intros k; apply row_keys].
    exists (map allocated_as new). split; [done|]. rewrite map_map. exact Hone.
  - assert (new = []) as -> by (destruct new; [done|]; exfalso; by apply Hne, Hbal).
    rewrite app_nil_r in Hnew. simpl in Hall. rewrite app_nil_r in Hall. intros Hr.
    apply adjust_run in Hr as (Hw' & a & Hsc & Ha & Hnet).
    2:{ rewrite Hnew. eapply unused_mono; [|exact Hun]. apply Hw. }
    split; [by etrans|]. split; [|split].
    + rewrite net_allocated_entries, Ha, sum_of_app. simpl.
      rewrite decide_True by exact (f_equal fst Hsc). rewrite <- net_allocated_entries. lia.
    + exists [allocated_as a]. split; [by rewrite Ha, Hall|]. simpl. by destruct (negb _).
    + intros k Hk%row_keys. rewrite Ha, map_app, in_app_iff. by left.
Qed.

(** C20 A reconciliation that succeeds leaves the net of the invoice's allocations equal to
    its coverage, and every payment and credit note of the invoice allocated; it writes
    nothing else but audit records and settlement periods, and adds at most one allocation
    of an amount that is not zero. Two sources with money that lack their allocations are
    therefore never repaired, as each new allocation has to balance the invoice alone. *)
Theorem reconciliation_balances id reason key ctx s t :
  List.NoDup (map scope_of (allocations (billing (live s)))) ->
  unused W (uuids s) al_source_id (allocations (billing (live s))) ->
  reconcile_invoice_allocations W id reason key ctx s = (Ok tt, t) ->
  exists i new, In i (invoices (billing (live t))) /\ inv_id i = id /\ within besides_allocations s t /\
    net_allocated (rows_of i (live t)) = net_coverage i /\
    all_allocated (live t) = all_allocated (live s) ++ new /\
    (length (List.filter (fun n => negb (n =? 0)%Z) (map snd new)) <= 1)%nat /\
    (forall p, In p (payments (billing (live t))) -> pay_invoice_id p = id ->
       In (id, (SettlementSourceType.PAYMENT, pay_id p)) (map fst (all_allocated (live t)))) /\
    (forall c, In c (credit_notes (billing (live t))) -> cn_invoice_id c = id ->
       exists k, k ∈ note_keys c /\ In (id, k) (map fst (all_allocated (live t)))).
Proof.
  intros Hn Hun. unfold reconcile_invoice_allocations.
  intros (i & s1 & H1 & Hr)%bind_inv_ok. apply lock_invoice_inv in H1 as (-> & Hi & Hid).
  apply bind_inv_ok in Hr as (rows & s2 & H2 & Hr). injection H2 as <- <-.
  apply bind_inv_ok in Hr as (ps & s3 & H3 & Hr). injection H3 as <- <-.
  apply bind_inv_ok in Hr as (e1 & u & H4 & Hr).
  change (List.filter _ _) with (rows_of i (live s)) in H4 at 1.
  apply (wp_use _ _ _ _ _ _ (reconcile_loop (fun p => [(SettlementSourceType.PAYMENT, pay_id p)]) _ i s
    (payment_turn i ctx s) _ _ s (reconciling_start i s Hn))) in H4 as (Hrc1 & _ & Hpay).
  apply bind_inv_ok in Hr as (cs & s5 & H5 & Hr). injection H5 as <- <-.
  apply bind_inv_ok in Hr as (e2 & v & H6 & Hr).
  apply (wp_use _ _ _ _ _ _ (reconcile_loop note_keys _ i s
    (reconcile_note_step i ctx s) _ _ u Hrc1)) in H6 as (Hrc2 & Hsub & Hnote).
  apply (reconcile_last i reason key ctx s e2 v t Hrc2 Hun) in Hr as (Hw & Hnet & (new & Hnew & Hone) & Hkeys).
  pose proof Hw as (_ & Hk & _). injection Hk as _ _ _ _ Kinv _ _ Kpay Kcn _.
  destruct (rc_within _ _ _ _ Hrc1) as (_ & Hk1 & _). injection Hk1 as _ _ _ _ _ _ _ _ Kcn1 _.
  exists i, new. split; [by rewrite Kinv|]. split; [done|]. split; [exact Hw|].
  split; [exact Hnet|]. split; [done|]. split; [done|]. rewrite <- Hid. split.
  - intros p Hp Hpi. destruct (Hpay p) as (k & Hk%list_elem_of_singleton & Hin).
    { apply filter_In. unfold payments_of. rewrite Kpay in Hp. split; [done|]. by apply bool_decide_eq_true. }
    subst k. apply Hkeys. by apply Hsub.
  - intros c Hc Hci. destruct (Hnote c) as (k & Hk & Hin).
    { apply filter_In. rewrite Kcn in Hc. rewrite Kcn1. split; [done|]. by apply bool_decide_eq_true. }
    exists k. split; [done|]. by apply Hkeys.
Qed.
End Allocations.

#[export] Hint Resolve within_graph within_publish : effects.

(** ** A small database *)

Lemma no_graph_run (a : InvoiceSettlementAllocation) (i : Invoice) (source : option string) (s : session Db) :
  exists o t, (mret None : PM (option string)) s = (Ok o, t) /\
    live t = live s /\ saved t = saved s /\ (uuids s <= uuids t)%nat.
Proof. by exists None, s. Qed.

(** A graph that keeps nothing. *)
Definition no_graph : LegalGraph :=
  {| settlement_graph := fun _ _ _ => mret None; settlement_graph_run := no_graph_run |}.

(** A finalized period, and its invoice that was sent, or has a payment without allocation. *)
Definition closed_period : BillingPeriod :=
  MkBillingPeriod "p-1" BillingPeriodType.MONTHLY 0 1 "UTC" BillingPeriodStatus.FINALIZED (Some 2) None.

Definition sent_invoice (paid : Z) (status : InvoiceStatus.InvoiceStatus) : Invoice :=
  MkInvoice "inv-1" "client-1" "RUB" (Some "p-1") 19844 19874 1000 200 1200 paid (1200 - paid) 0 0 status
    InvoicePdfStatus.READY (Some 1) (Some 2) None None None.

Definition sent_session : session Db :=
  fresh_session (on_invoices (fun _ => [sent_invoice 0 InvoiceStatus.SENT])
    (on_billing_periods (fun _ => [closed_period]) empty_db)).

Definition unallocated_payment : InvoicePayment :=
  MkInvoicePayment "pay-1" "inv-1" 500 "RUB" None None "key-1" "" PaymentStatus.POSTED 5.

Definition unallocated_session : session Db :=
  fresh_session (on_payments (fun _ => [unallocated_payment])
    (on_invoices (fun _ => [sent_invoice 500 InvoiceStatus.PARTIALLY_PAID])
      (on_billing_periods (fun _ => [closed_period]) empty_db))).

Definition unlocked : string -> string -> bool := fun _ _ => true.

Definition admin_context : RequestContext := MkRequestContext ActorType.USER (Some "admin-1") None None None None None None (Some 1).

Definition demo_payment_requests : list finance_request :=
  [PostPayment "inv-1" 500 "RUB" (Some "key-1") admin_context finance_token;
   PostCreditNote "inv-1" 100 "RUB" None None admin_context finance_token;
   PortalPayment "inv-1" 10 "ref" None admin_context finance_token;
   PostPayment "inv-1" 5000 "RUB" None admin_context finance_token].

(** The first two requests are answered with a payment and a credit note. *)
Lemma endpoints_store_nothing_witness :
  let run := run_finance demo_world (H := allow_all) (H0 := utc) (H1 := no_graph) unlocked in
  map (fun r => is_ok (run r sent_session).1) demo_payment_requests = [true; true; false; false] /\
  same_books (saved sent_session)
    (saved (serve_all_finance demo_world (H := allow_all) (H0 := utc) (H1 := no_graph) unlocked demo_payment_requests sent_session)).
Proof.
  split; [vm_compute; reflexivity|].
  apply (endpoints_store_nothing demo_world (fun _ _ => eq_refl) unlocked demo_payment_requests sent_session).
Defined.

Definition reconcile_demo : PM unit :=
  reconcile_invoice_allocations demo_world (H0 := utc) (H1 := no_graph) "inv-1" "repair" None None.

(** The payment of 500 gets its allocation. *)
Lemma reconciliation_balances_witness :
  is_ok (reconcile_demo unallocated_session).1 = true /\
  exists i new, inv_id i = "inv-1" /\
    net_allocated (rows_of i (live (reconcile_demo unallocated_session).2)) = net_coverage i /\
    all_allocated (live (reconcile_demo unallocated_session).2) =
      all_allocated (live unallocated_session) ++ new.
Proof.
  split; [vm_compute; reflexivity|].
  destruct (reconciliation_balances demo_world (fun _ _ => eq_refl) (TZ := utc) (LG := no_graph) "inv-1" "repair"
    None None unallocated_session (reconcile_demo unallocated_session).2) as (i & new & _ & Hid & _ & Hnet & Hall & _).
  - constructor.
  - intros k _ [].
  - vm_compute. reflexivity.
  - exists i, new. split; [exact Hid|]. split; [exact Hnet|exact Hall].
Defined.
