(* ===== verification/PaymentFacts.v ===== *)
(** * What a payment does

    [apply_payment] of Finance.v: the answer to a key that was used, and the rows that a
    new payment writes. *)
From S2P Require Import Prelude Json Enums Models AuditTrail FinanceRules InternalLedger Decisions InvoiceMachine.
From S2P Require Import Policy BillingPeriods JobRuns Effects Finance FinanceFacts.
Import FinanceService.

(** ** Replays *)

Section Replays.
Context (W : world Db) `{DS : DecisionService} `{TZ : Timezone} `{LG : LegalGraph}
  (try_lock : string -> string -> bool).

(** The request that was answered with the payment. *)
Definition same_request (p : InvoicePayment) (amount : Z) (currency : string) (ref provider : option string) : Prop :=
  pay_amount p = amount /\ pay_currency p = currency /\
  str_or_none (pay_external_ref p) = str_or_none ref /\ str_or_none (pay_provider p) = str_or_none provider /\
  pay_response_hash p = _payment_response_hash W (pay_invoice_id p) amount currency ref provider.

Lemma validate_replay_run p amount currency ref provider s :
  (same_request p amount currency ref provider ->
   _validate_payment_replay W p amount currency ref provider s = (Ok tt, s)) /\
  (~ same_request p amount currency ref provider ->
   exists field, _validate_payment_replay W p amount currency ref provider s =
     (Raise (PaymentIdempotencyConflict field), s)).
Proof.
  unfold _validate_payment_replay, same_request, same_text, eqb. cbv zeta. split.
  - intros (-> & -> & -> & -> & ->). rewrite Z.eqb_refl. cbn [negb].
    rewrite !bool_decide_true by done. done.
  - intros Hno. destruct (Z.eqb_spec (pay_amount p) amount); cbn [negb]; [|by eexists].
    repeat (match goal with |- context [bool_decide ?P] => destruct (bool_decide_reflect P) end; cbn [negb];
      [|by eexists]). by destruct Hno.
Qed.

(** C21 A payment request under a key that has its money flow event answers with the
    recorded payment and changes nothing when it asks for the same amount, currency,
    reference and provider, and is refused as a conflict, again without a change, when it
    asks for anything else; the caller's token is not looked at. *)
Theorem payment_replayed id amount currency key ref provider ctx t s e pid p i :
  let key' := KeyNormalization.normalize_key W key 128 "hash:" in
  let ref' := KeyNormalization.normalize_key_optional W ref 128 "hash:" in
  List.filter (fun e => (mfe_idempotency_key e =? key')%py) (flow_events (flow (live s))) = [e] ->
  event_payment_id e = Some pid ->
  List.filter (fun p => (pay_id p =? pid)%py) (payments (billing (live s))) = [p] ->
  pay_invoice_id p = id ->
  List.filter (fun i => (inv_id i =? id)%py) (invoices (billing (live s))) = [i] ->
  let run := apply_payment W try_lock id amount currency key ref provider ctx t s in
  (same_request p amount currency ref' provider -> run = (Ok (MkPaymentResult p i true), s)) /\
  (~ same_request p amount currency ref' provider ->
   exists field, run = (Raise (PaymentIdempotencyConflict field), s)).
Proof.
  cbv zeta. intros He Hpid Hp Hid Hi.
  set (ref' := KeyNormalization.normalize_key_optional W ref 128 "hash:").
  set (key' := KeyNormalization.normalize_key W key 128 "hash:") in *.
  assert (forall o, _validate_payment_replay W p amount currency ref' provider s = (o, s) ->
    _replay_from_money_flow_event W id key' amount currency ref' provider s =
      (match o with Ok _ => Ok (Some (MkPaymentResult p i true)) | Raise e => Raise e end,
       match o with Raise e => if is_sqlalchemy e then (rollback (E := exn) s).2 else s | _ => s end)) as Hrun.
  { intros o Ho. unfold _replay_from_money_flow_event, rollback_on_db_error, try_except.
    rewrite (bind_ok _ _ s (Some e) s) by (by apply one_or_none_some). cbv beta iota.
    rewrite (bind_ok _ _ s (Some p) s).
    2:{ unfold _resolve_payment_from_event. rewrite Hpid.
        by rewrite (bind_ok _ _ s (Some p) s) by (by apply one_or_none_some). }
    rewrite Hid. unfold eqb. rewrite bool_decide_true by done. cbn [negb].
    rewrite (bind_ok _ _ s (Some i) s) by (by apply one_or_none_some). cbv beta iota.
    unfold mbind, M_bind. rewrite Ho. destruct o as [[]|x]; [done|]. by destruct (is_sqlalchemy x). }
  destruct (validate_replay_run p amount currency ref' provider s) as [Hsame Hdiff].
  unfold apply_payment. cbv zeta. fold key' ref'. split.
  - intros Hq. specialize (Hrun _ (Hsame Hq)). by rewrite (bind_ok _ _ s _ s Hrun).
  - intros Hq. destruct (Hdiff Hq) as (field & Hv). specialize (Hrun _ Hv). exists field.
    by rewrite (bind_raised _ _ s _ s Hrun).
Qed.
End Replays.

(** ** What the parts of the service leave alone *)

Section PaymentFrames.
Context (W : world Db) (alone_W : alone W) `{DS : DecisionService} `{TZ : Timezone} `{LG : LegalGraph}
  {K : Type} (k : Db -> K).

Lemma fails_violation {A} id ctx v : fails (report_violation (A := A) W id ctx v).
Proof.
  unfold report_violation. apply fails_after, fails_after, fails_raise.
Qed.

(** What returns through a handler of the service returned by itself. *)
Lemma guard_inv {A} id ctx (m : PM A) s a t : guard_violation W id ctx m s = (Ok a, t) -> m s = (Ok a, t).
Proof.
  apply try_fails_inv. intros e h He. destruct e; try done. injection He as <-. apply fails_violation.
Qed.

Lemma cleanup_inv {A} (m : PM A) s a t : rollback_on_transition_error m s = (Ok a, t) -> m s = (Ok a, t).
Proof.
  apply try_fails_inv. intros e h He. destruct e; try done; injection He as <-; apply fails_after, fails_raise.
Qed.

Lemma db_error_inv {A} (m : PM A) s a t : rollback_on_db_error m s = (Ok a, t) -> m s = (Ok a, t).
Proof.
  apply try_fails_inv. intros e h He. destruct (is_sqlalchemy e); [|done]. injection He as <-.
  apply fails_after, fails_raise.
Qed.

Lemma within_reconcile `{!Ignores k on_audit_log, !Ignores k on_billing_periods, !Ignores k on_allocations}
    id reason key ctx : always (within k) (reconcile_invoice_allocations W id reason key ctx).
Proof.
  unfold reconcile_invoice_allocations, reconcile_payment, reconcile_credit_note, adjust_allocations, q_all,
    _lock_invoice, _ensure_settlement_allocation, find_allocation, insert_allocation, publish_allocation,
    source_row, q_first. effects.
Qed.
End PaymentFrames.

(** ** A new payment *)

Section NewPayment.
Context (W : world Db) (alone_W : alone W) `{DS : DecisionService} `{TZ : Timezone} `{LG : LegalGraph}
  (try_lock : string -> string -> bool).

(** Rows of allocations are not removed, and keep source and amount. *)
Definition allocations_kept (s t : session Db) : Prop :=
  forall e, In e (all_allocated (live s)) -> In e (all_allocated (live t)).

#[export] Instance allocations_kept_frame : Frame allocations_kept.
Proof.
  split; [split|]; unfold allocations_kept; [by intros s|intros s t u Hst Htu e He; auto|].
  intros s t Hl _ _. by rewrite Hl.
Qed.

Lemma kept_within {A} (m : PM A) : always (within all_allocated) m -> always allocations_kept m.
Proof. apply always_mono. intros s t (_ & Ha & _) e. by rewrite Ha. Qed.

Lemma kept_insert a : always allocations_kept (modify (on_allocations (fun l => l ++ [a]))).
Proof. intros s e He. unfold all_allocated. simpl. rewrite map_app, in_app_iff. by left. Qed.

Lemma kept_meta P meta : always allocations_kept (modify (on_allocations (update_where P (set_al_meta meta)))).
Proof.
  intros s e He. unfold all_allocated in *. simpl. unfold update_where. rewrite map_map.
  erewrite map_ext; [exact He|]. intros a. by destruct (P a).
Qed.
Hint Resolve kept_within kept_insert kept_meta : effects.

Lemma kept_reconcile id reason key ctx : always allocations_kept (reconcile_invoice_allocations W id reason key ctx).
Proof.
  unfold reconcile_invoice_allocations, reconcile_payment, reconcile_credit_note, adjust_allocations, q_all,
    _lock_invoice, _ensure_settlement_allocation, find_allocation, insert_allocation, publish_allocation,
    source_row, q_first. effects.
Qed.

(** What a payment may do to the tables besides the invoices, allocations and periods. *)
Definition besides_settlement (d : Db) :=
  (posting d, scenario d, internal d, flow d, (payments (billing d), credit_notes (billing d), job_runs (billing d))).

Definition settled_status (i : Invoice) (amount : Z) : InvoiceStatus.InvoiceStatus :=
  if InvoiceStateMachine.invoice_total i - inv_amount_paid i - inv_credited_amount i + inv_amount_refunded i <=? amount
  then InvoiceStatus.PAID else InvoiceStatus.PARTIALLY_PAID.

Lemma settle_inv i p amount currency ctx s i' t :
  stored i (live s) ->
  List.filter (scoped i SettlementSourceType.PAYMENT (pay_id p)) (allocations (billing (live s))) = [] ->
  settle_invoice W i p amount currency ctx s = (Ok i', t) ->
  within besides_settlement s t /\ stored i' (live t) /\
  (exists n, permitted i (settled_status i amount) (Some amount) None None /\
     i' = transitioned i (settled_status i amount) n (Some amount) None None) /\
  In (inv_id i, (SettlementSourceType.PAYMENT, pay_id p), amount) (all_allocated (live t)).
Proof.
  intros Hst Hf. unfold settle_invoice. cbv zeta. destruct (bool_decide _); cbn [negb].
  2:{ intros Hr. exfalso. match type of Hr with (?m;; raise ?e) _ = _ =>
        destruct (fails_after m (raise e) (fails_raise (A := Invoice) e) s) as (e' & u & Hx) end.
      by rewrite Hx in Hr. }
  fold (settled_status i amount). intros (x & u & H1 & Hr)%bind_inv_ok. apply guard_inv, cleanup_inv in H1.
  apply bind_inv_ok in H1 as (x' & u' & Htr & Hck). apply bind_inv_ok in Hck as ([] & u'' & Hck & [= <- <-]).
  apply (on_return_always _ _ (within_check_invoice W (fun d => (besides_settlement d, billing d)) _ _ _))
    in Hck as Hck.
  assert (settled_status i amount <> InvoiceStatus.ISSUED) as Hne by (unfold settled_status; by destruct (_ <=? _)).
  pose proof (on_return_always _ _ (within_transition W besides_settlement i (settled_status i amount)
    "finance_service" "financial_update" (Some amount) None None _ ctx Hne) _ _ _ Htr) as Hw.
  pose proof (wp_use _ _ _ _ _ _ (transition_wp W i _ _ _ _ _ _ _ _ s Hst) Htr)
    as [_ [(_ & _ & _ & [=])|(n & Hp & -> & Hb)]].
  set (x := transitioned i (settled_status i amount) n (Some amount) None None) in *.
  assert (inv_id x = inv_id i) as Hid by exact (transitioned_id i _ _ _ _ _).
  destruct Hck as (C1 & C2 & C3). pose proof (f_equal fst C2) as Ck. pose proof (f_equal snd C2) as Cb.
  cbn [fst snd] in Ck, Cb. rewrite Hb in Cb.
  apply bind_inv_ok in Hr as (a & v & Ha & [= <- <-]). apply guard_inv in Ha.
  apply allocation_new in Ha as (Hsc & Ham & Hal & Hwa & _); [|done|].
  2:{ rewrite Cb. unfold scoped. rewrite Hid. exact Hf. }
  assert (within besides_settlement s v) as Hall.
  { etrans; [exact Hw|]. etrans; [by split; [exact C1|split; [exact Ck|exact C3]]|].
    destruct Hwa as (A1 & A2 & A3). split; [done|]. split; [|done].
    injection A2 as E1 E2 E3 E4 E5 E6 E7 E8 E9 E10. unfold besides_settlement. congruence. }
  split; [exact Hall|]. split.
  { destruct Hwa as (_ & A2 & _). injection A2 as _ _ _ _ E5 _ _ _ _ _.
    pose proof (stored_in_place i x (live s) Hst Hid) as Hst'. unfold stored in *. by rewrite E5, Cb. }
  split; [by exists n|]. unfold all_allocated. rewrite Hal, map_app, in_app_iff. right. left.
  unfold allocated_as. by rewrite Hsc, Ham, Hid.
Qed.

(** The money flow event of a payment. *)
Definition payment_event (i : Invoice) (p : InvoicePayment) (key : string) (e : MoneyFlowEvent) : Prop :=
  mfe_idempotency_key e = key /\ mfe_flow_type e = MoneyFlowType.INVOICE_PAYMENT /\
  mfe_flow_ref_id e = inv_id i /\ mfe_state_to e = MoneyFlowState.SETTLED /\
  mfe_meta e = Some (JDict [("invoice_id", JStr (inv_id i)); ("payment_id", JStr (pay_id p))]).

Lemma insert_event_run e s :
  List.filter (fun x => (mfe_idempotency_key x =? mfe_idempotency_key e)%py) (flow_events (flow (live s))) = [] ->
  insert_event W e s =
    (Ok tt, Session (on_flow_events (fun l => l ++ [e]) (live s)) (saved s) (ticks s) (uuids s) (S (races s))).
Proof.
  intros Hf. unfold insert_event. rewrite (bind_ok _ _ s tt _ (race_alone W s alone_W)). unfold q_first.
  run_steps. by rewrite Hf.
Qed.

Lemma ensure_event_inv i p tenant ledger key s e t :
  _ensure_payment_money_flow_event W i p tenant ledger key s = (Ok (e, true), t) ->
  payment_event i p key e /\ flow_events (flow (live t)) = flow_events (flow (live s)) ++ [e] /\
  within (fun d => (posting d, scenario d, internal d, billing d)) s t.
Proof.
  unfold _ensure_payment_money_flow_event, _resolve_payment_money_flow_event.
  intros (o & s1 & H1 & Hr)%bind_inv_ok. rewrite one_or_none_run in H1.
  destruct (List.filter _ _) as [|x [|y l]] eqn:Hf; [| |done]; injection H1 as <- <-; [|done].
  apply bind_inv_ok in Hr as (id & s2 & [= <- <-] & Hr). apply bind_inv_ok in Hr as (n & s3 & [= <- <-] & Hr).
  cbv zeta in Hr. set (row := MkMoneyFlowEvent _ _ _ _ _ _ _ _ _ _ _ _ _) in Hr.
  erewrite try_ok in Hr by (erewrite bind_ok by (apply insert_event_run; exact Hf); reflexivity).
  injection Hr as <- <-. split; [by repeat split|]. split; [done|]. repeat split; simpl; lia.
Qed.

Lemma within_succeed {K} (k : Db -> K) `{!Ignores k on_job_runs} run metrics ref :
  always (within k) (BillingJobRunService.succeed W run metrics ref).
Proof. unfold BillingJobRunService.succeed, BillingJobRunService.assign. effects. Qed.

Lemma post_new_inv i p job amount currency key ctx s r t :
  stored i (live s) ->
  List.filter (scoped i SettlementSourceType.PAYMENT (pay_id p)) (allocations (billing (live s))) = [] ->
  post_new_payment W i p job amount currency key ctx s = (Ok r, t) -> pr_is_replay r = false ->
  pr_payment r = p /\ saved t = saved s /\ payments (billing (live t)) = payments (billing (live s)) /\
  (exists e, payment_event i p key e /\ flow_events (flow (live t)) = flow_events (flow (live s)) ++ [e]) /\
  In (pr_invoice r) (invoices (billing (live t))) /\
  (exists n, permitted i (settled_status i amount) (Some amount) None None /\
     pr_invoice r = transitioned i (settled_status i amount) n (Some amount) None None) /\
  In (inv_id i, (SettlementSourceType.PAYMENT, pay_id p), amount) (all_allocated (live t)).
Proof.
  intros Hst Hf. unfold post_new_payment. cbv zeta.
  intros ([] & s1 & H1 & Hr)%bind_inv_ok.
  apply (on_return_always _ _ (within_post_payment W alone_W (fun d => (billing d, flow d)) _ _ _)) in H1 as (A1 & B1 & _).
  injection B1 as Bb1 Bf1.
  apply bind_inv_ok in Hr as (tx & s2 & H2 & Hr). rewrite one_or_none_run in H2.
  assert (s2 = s1) as -> by (destruct (List.filter _ _) as [|? [|? ?]]; by injection H2). clear H2.
  apply bind_inv_ok in Hr as ([e created] & s3 & H3 & Hr). destruct created.
  2:{ apply bind_inv_ok in Hr as (i' & s4 & _ & Hr). apply bind_inv_ok in Hr as ([] & s5 & _ & Hr).
      apply bind_inv_ok in Hr as ([] & s6 & _ & [= <- <-]). done. }
  apply ensure_event_inv in H3 as (He & Hfe & (A3 & B3 & _)). injection B3 as _ _ _ Bb3.
  apply bind_inv_ok in Hr as (i' & s4 & H4 & Hr).
  apply settle_inv in H4 as ((A4 & B4 & _) & Hst' & Htr & Hal); [|unfold stored in *; by rewrite Bb3, Bb1|by rewrite Bb3, Bb1].
  injection B4 as _ _ _ Bf4 Bp4 _ _.
  apply bind_inv_ok in Hr as ([] & s5 & H5 & Hr). pose proof (on_return_always _ _ (kept_reconcile _ _ _ _) _ _ _ H5) as Hk5.
  apply (on_return_always _ _ (within_reconcile W alone_W besides_allocations _ _ _ _)) in H5 as (A5 & B5 & _).
  injection B5 as _ _ _ Bf5 Bi5 _ _ Bp5 _ _.
  apply bind_inv_ok in Hr as ([] & s6 & H6 & [= <- <-]). intros _.
  apply (on_return_always _ _ (within_succeed (fun d => (flow d, invoices (billing d), payments (billing d),
    all_allocated d)) _ _ _)) in H6 as (A6 & B6 & _). injection B6 as Bf6 Bi6 Bp6 Ba6.
  cbn [pr_payment pr_invoice]. split; [done|]. split; [congruence|]. split; [congruence|].
  split; [exists e; split; [done|]; congruence|]. split; [rewrite Bi6, Bi5; apply Hst'|]. split; [done|].
  rewrite Ba6. by apply Hk5.
Qed.
End NewPayment.

(** ** [apply_payment] *)

(** The invoice after a payment of an amount. *)
Record payment_taken (i : Invoice) (amount : Z) (i' : Invoice) : Prop := {
  pt_id : inv_id i' = inv_id i;
  pt_paid : inv_amount_paid i' = inv_amount_paid i + amount;
  pt_credited : inv_credited_amount i' = inv_credited_amount i;
  pt_refunded : inv_amount_refunded i' = inv_amount_refunded i;
  pt_settled : settled i';
  pt_status : inv_status i' =
    if inv_amount_due i' =? 0 then InvoiceStatus.PAID else InvoiceStatus.PARTIALLY_PAID;
}.

Lemma transitioned_taken i n amount :
  permitted i (settled_status i amount) (Some amount) None None ->
  payment_taken i amount (transitioned i (settled_status i amount) n (Some amount) None None).
Proof.
  intros (_ & Ha & _). pose proof (transitioned_settled i (settled_status i amount) n _ _ _ Ha) as Hs.
  destruct (update_timestamps_frame (settled_status i amount) n (amounts_applied i (Some amount) None None))
    as (E1 & _ & _ & _ & E5 & E6 & E7 & E8 & E9 & E10 & _). fold (transitioned i (settled_status i amount) n (Some amount) None None) in *.
  constructor; [done|..|exact Hs|]; unfold transitioned;
    cbn [set_inv_status inv_id inv_amount_paid inv_amount_due inv_amount_refunded inv_credited_amount inv_status];
    rewrite ?E1, ?E7, ?E9, ?E10; [done|simpl; lia..|].
  rewrite E8. destruct Ha as (_ & _ & _ & [_ _ _ Hd _]). simpl in *. unfold settled_status.
  destruct (Z.leb_spec (InvoiceStateMachine.invoice_total i - inv_amount_paid i - inv_credited_amount i +
    inv_amount_refunded i) amount), (Z.eqb_spec (InvoiceStateMachine.invoice_total i - (inv_amount_paid i + amount) -
    (inv_credited_amount i + 0) + (inv_amount_refunded i + 0)) 0); done || lia.
Qed.

Section ApplyPayment.
Context (W : world Db) (alone_W : alone W) `{DS : DecisionService} `{TZ : Timezone} `{LG : LegalGraph}
  (try_lock : string -> string -> bool).

Definition unchanged (s t : session Db) : Prop := within (fun d => d) s t.

Lemma read_only_event id key amount currency ref provider s o t :
  _replay_from_money_flow_event W id key amount currency ref provider s = (Ok o, t) ->
  unchanged s t /\ forall r, o = Some r -> pr_is_replay r = true.
Proof.
  unfold _replay_from_money_flow_event. intros Hr%db_error_inv. split.
  - eapply (on_return_always (within (fun d => d))); [|exact Hr].
    unfold _resolve_payment_money_flow_event, _resolve_payment_from_event, payment_by_key, _validate_payment_replay.
    effects.
  - intros r ->. apply bind_inv_ok in Hr as (e & s1 & _ & Hr). destruct e as [e|]; [|done].
    apply bind_inv_ok in Hr as (p & s2 & _ & Hr). destruct p as [p|]; [|done]. destruct (negb _); [done|].
    apply bind_inv_ok in Hr as (i & s3 & _ & Hr). destruct i as [i|]; [|done].
    apply bind_inv_ok in Hr as ([] & s4 & _ & [= <- <-]). done.
Qed.

Lemma read_only_resolve id key ref provider s o t :
  _resolve_existing_payment id key ref provider s = (Ok o, t) -> unchanged s t.
Proof.
  unfold _resolve_existing_payment. intros Hr%db_error_inv.
  eapply (on_return_always (within (fun d => d))); [|exact Hr].
  unfold payment_by_key, payment_of_invoice. effects.
Qed.

Lemma replay_existing_is_replay p id amount currency ref provider ctx t i s r u :
  replay_existing W p id amount currency ref provider ctx t i s = (Ok r, u) -> pr_is_replay r = true.
Proof.
  unfold replay_existing, _replay_payment. intros ([] & s1 & _ & Hr)%bind_inv_ok.
  apply bind_inv_ok in Hr as (j & s2 & _ & Hr). apply bind_inv_ok in Hr as ([] & s3 & _ & Hr).
  apply bind_inv_ok in Hr as (b & s4 & _ & Hr). destruct b; [by injection Hr as <- <-|].
  apply bind_inv_ok in Hr as ([] & s5 & _ & Hr). apply bind_inv_ok in Hr as (a & s6 & _ & Hr).
  apply bind_inv_ok in Hr as ([] & s7 & _ & [= <- <-]). done.
Qed.

(** A call past the policy carries a role of the action. *)
Lemma enforce_payment_inv t i s u :
  _enforce_policy W t Action.PAYMENT_APPLY i s = (Ok tt, u) ->
  unchanged s u /\ exists role, role ∈ PolicyEngine._ADMIN_FINANCE_ROLES /\ role ∈ _normalize_roles t.
Proof.
  unfold _enforce_policy. intros (resource & s1 & H1 & Hr)%bind_inv_ok.
  assert (unchanged s s1) as Hs.
  { eapply (on_return_always (within (fun d => d))); [|exact H1].
    unfold _policy_resource_for_invoice, find_period. effects. }
  unfold PolicyEngine.enforce in Hr. cbv zeta in Hr.
  destruct (pd_allowed _) eqn:Ha; cbn [negb] in Hr; [injection Hr as <-|].
  2:{ exfalso. match type of Hr with (?m;; raise ?e) _ = _ =>
        destruct (fails_after m (raise e) (fails_raise (A := unit) e) s1) as (e' & v & Hx) end. by rewrite Hx in Hr. }
  split; [done|]. cbn [PolicyEngine.check] in Ha. unfold PolicyEngine._payment_apply in Ha.
  apply admin_with_role_iff in Ha as (_ & Hrole & _). exact Hrole.
Qed.

Lemma insert_payment_inv p s t :
  insert_payment W p s = (Ok tt, t) ->
  ~ In (pay_idempotency_key p) (map pay_idempotency_key (payments (billing (live s)))) /\
  payments (billing (live t)) = payments (billing (live s)) ++ [p] /\
  within (fun d => (flow d, invoices (billing d), allocations (billing d))) s t.
Proof.
  unfold insert_payment. rewrite (bind_ok _ _ s tt _ (race_alone W s alone_W)). unfold q_first. run_steps.
  destruct (head _) as [q|] eqn:Hh; [done|]. intros [= <-]. split; [|split; [done|repeat split; simpl; lia]].
  intros (q & Hq & Hin)%in_map_iff. unfold payments_of in Hh. simpl in Hh.
  destruct (List.filter _ _) as [|x l] eqn:Hf; [|done].
  assert (In q []) as []. rewrite <- Hf. apply filter_In. split; [done|]. unfold eqb. rewrite Hq.
  by rewrite bool_decide_true.
Qed.

(** Everything the checks and the insertion of the payment leave alone. *)
Definition ahead (d : Db) := (flow d, invoices (billing d), allocations (billing d)).

Lemma within_weaken {K L} (k : Db -> K) (l : Db -> L) s t :
  (forall d d', k d = k d' -> l d = l d') -> within k s t -> within l s t.
Proof. intros Hkl (A & B & C). split; [done|]. split; [by apply Hkl|done]. Qed.

(** The checks of a new payment, and its job run. *)
Lemma checks_inv i id amount key ctx params s {A} (k : BillingJobRun -> PM A) a u :
  (guard_violation W (inv_id i) ctx (Checker.check_invoice W i ctx false;;
     Checker.check_payment_application W i amount key ctx false);;
   _require_settlement_period i "payment";;
   job ← BillingJobRunService.start W BillingJobType.FINANCE_PAYMENT params (Some key) (Some id);
   k job) s = (Ok a, u) ->
  exists job v, within (fun d => (ahead d, payments (billing d))) s v /\ k job v = (Ok a, u).
Proof.
  intros ([] & s1 & H1 & Hr)%bind_inv_ok. apply guard_inv in H1.
  apply bind_inv_ok in Hr as ([] & s2 & H2 & Hr). apply bind_inv_ok in Hr as (job & s3 & H3 & Hr).
  exists job, s3. split; [|exact Hr]. etrans; [|etrans].
  - eapply (on_return_always (within (fun d => (ahead d, payments (billing d))))); [|exact H1]. effects.
  - eapply (on_return_always (within (fun d => (ahead d, payments (billing d))))); [|exact H2].
    unfold _require_settlement_period, find_period. effects.
  - eapply (on_return_always (within (fun d => (ahead d, payments (billing d))))); [|exact H3].
    unfold BillingJobRunService.start. effects.
Qed.

(** The insertion of a new payment. *)
Lemma insertion_inv p (h : PM (option InvoicePayment)) s t :
  try_except (insert_payment W p;; mret None)
    (fun e => match e with
              | IntegrityError _ => Some (
                  existing ← h;
                  match existing with Some existing => mret (Some existing) | None => raise e end)
              | _ => None
              end) s = (Ok None, t) ->
  insert_payment W p s = (Ok tt, t).
Proof.
  unfold try_except, mbind, M_bind. destruct (insert_payment W p s) as [[[]|e] v]; [by intros [= <-]|].
  destruct e; try done. destruct (h v) as [[[q|]|x] w]; done.
Qed.

(** A payment that is not a replay passed every check and was inserted. *)
Lemma apply_payment_inv id amount currency key ref provider ctx t s r u :
  apply_payment W try_lock id amount currency key ref provider ctx t s = (Ok r, u) ->
  pr_is_replay r = false ->
  exists i p job s1,
    In i (invoices (billing (live s))) /\ inv_id i = id /\
    (exists role, role ∈ PolicyEngine._ADMIN_FINANCE_ROLES /\ role ∈ _normalize_roles t) /\
    ((exists n, (uuids s <= n)%nat /\ pay_id p = new_uuid W n) /\ pay_invoice_id p = id /\
     pay_amount p = amount /\ pay_currency p = currency /\ pay_status p = PaymentStatus.POSTED /\
     pay_idempotency_key p = KeyNormalization.normalize_key W key 128 "hash:") /\
    ~ In (pay_idempotency_key p) (map pay_idempotency_key (payments (billing (live s)))) /\
    payments (billing (live s1)) = payments (billing (live s)) ++ [p] /\ within ahead s s1 /\
    post_new_payment W i p job amount currency (KeyNormalization.normalize_key W key 128 "hash:") ctx s1 = (Ok r, u).
Proof.
  unfold apply_payment. cbv zeta. set (key' := KeyNormalization.normalize_key _ _ _ _).
  set (ref' := KeyNormalization.normalize_key_optional _ _ _ _). intros (o & s1 & H1 & Hr)%bind_inv_ok Hnew.
  apply read_only_event in H1 as [F1 Hrep].
  destruct o as [r'|]; [injection Hr as <- <-; specialize (Hrep _ eq_refl); congruence|]. clear Hrep.
  apply bind_inv_ok in Hr as (o & s2 & H2 & Hr). apply read_only_resolve in H2 as F2.
  destruct o; [apply replay_existing_is_replay in Hr; congruence|].
  destruct (negb _); [done|].
  apply bind_inv_ok in Hr as (i & s3 & H3 & Hr). apply lock_invoice_inv in H3 as (-> & Hi & Hid).
  apply bind_inv_ok in Hr as ([] & s4 & H4 & Hr). apply enforce_payment_inv in H4 as [F4 Hrole].
  apply bind_inv_ok in Hr as (o & s5 & H5 & Hr). apply read_only_resolve in H5 as F5.
  destruct o; [apply replay_existing_is_replay in Hr; congruence|].
  apply checks_inv in Hr as (job & v & Fv & Hr).
  apply bind_inv_ok in Hr as (pid & v1 & [= <- <-] & Hr). apply bind_inv_ok in Hr as (n & v2 & [= <- <-] & Hr).
  cbv beta in Hr. set (p := MkInvoicePayment _ _ _ _ _ _ _ _ _ _) in Hr.
  apply bind_inv_ok in Hr as (o & v3 & H6 & Hr).
  destruct o; [apply replay_existing_is_replay in Hr; congruence|].
  apply insertion_inv, insert_payment_inv in H6 as (Hkey & Hins & Fi).
  assert (unchanged s s2) as F02 by (by etrans). assert (unchanged s s5) as F05 by (etrans; [exact F02|by etrans]).
  clear F1 F2 F4 F5 H2 H5.
  assert (within (fun d => (ahead d, payments (billing d))) s v) as (A & B & C).
  { etrans; [|exact Fv]. by eapply within_weaken; [|exact F05]; intros d d' ->. }
  pose proof (f_equal fst B) as Ba. pose proof (f_equal snd B) as Bp. cbn [fst snd live] in *.
  destruct F02 as (_ & E2 & _). rewrite E2 in Hi. rewrite Bp in Hkey, Hins.
  exists i, p, job, v3. split; [done|]. split; [done|]. split; [done|]. split.
  { split; [exists (uuids v); split; [done|reflexivity]|]. by repeat split. }
  split; [exact Hkey|]. split; [exact Hins|]. split; [|exact Hr].
  destruct Fi as (A' & B' & C'). split; [rewrite A'; exact A|]. split; [|simpl in C'; lia].
  etrans; [exact B'|]. exact Ba.
Qed.

(** C18 A payment that is not a replay was made by the holder of a finance role under a new
    key, and writes, uncommitted, one payment row of the request, one settled money flow
    event under the key, an allocation of the payment's amount, and the invoice with the
    amount added to what is paid: settled, PAID exactly when nothing is due and else
    PARTIALLY_PAID. *)
Theorem new_payment_posts id amount currency key ref provider ctx t s r u :
  List.NoDup (map inv_id (invoices (billing (live s)))) ->
  unused W (uuids s) al_source_id (allocations (billing (live s))) ->
  apply_payment W try_lock id amount currency key ref provider ctx t s = (Ok r, u) ->
  pr_is_replay r = false ->
  let key' := KeyNormalization.normalize_key W key 128 "hash:" in
  let p := pr_payment r in
  (exists role, role ∈ PolicyEngine._ADMIN_FINANCE_ROLES /\ role ∈ _normalize_roles t) /\ saved u = saved s /\
  pay_invoice_id p = id /\ pay_amount p = amount /\ pay_currency p = currency /\
  pay_status p = PaymentStatus.POSTED /\ pay_idempotency_key p = key' /\
  ~ In key' (map pay_idempotency_key (payments (billing (live s)))) /\
  payments (billing (live u)) = payments (billing (live s)) ++ [p] /\
  (exists i, In i (invoices (billing (live s))) /\ inv_id i = id /\
     In (pr_invoice r) (invoices (billing (live u))) /\ payment_taken i amount (pr_invoice r) /\
     exists e, payment_event i p key' e /\
       flow_events (flow (live u)) = flow_events (flow (live s)) ++ [e]) /\
  In (id, (SettlementSourceType.PAYMENT, pay_id p), amount) (all_allocated (live u)).
Proof.
  intros Hn Hun Hrun Hnew. cbv zeta.
  destruct (apply_payment_inv _ _ _ _ _ _ _ _ _ _ _ Hrun Hnew) as (i & p & job & s1 & Hi & Hid & Hrole &
    ((n & Hle & Hpid) & Hp1 & Hp2 & Hp3 & Hp4 & Hp5) & Hkey & Hpay & (A & B & _) & Hpost).
  unfold ahead in B. injection B as Bf Bi Ba.
  apply post_new_inv in Hpost as (-> & Hs & Hps & (e & He & Hfe) & Hin & (m & Hperm & Hinv) & Hal);
    [|done|by unfold stored; rewrite Bi|..|done].
  2:{ rewrite Ba. apply filter_none, List.Forall_forall. intros a Ha. unfold scoped, eqb.
      rewrite (bool_decide_false (al_source_id a = pay_id p)); [by rewrite andb_false_r|]. rewrite Hpid.
      intros E. apply (Hun n Hle). rewrite <- E. by apply in_map. }
  split; [done|]. split; [congruence|]. split; [done|]. split; [done|]. split; [done|]. split; [done|].
  split; [done|]. split; [by rewrite <- Hp5|]. split; [congruence|]. rewrite <- Hid. split; [|done].
  exists i. split; [done|]. split; [done|]. split; [done|]. split; [rewrite Hinv; by apply transitioned_taken|].
  exists e. split; [done|]. by rewrite Hfe, Bf.
Qed.
End ApplyPayment.

(** ** A key of a credit note *)

(** The invoices and what was posted to them. *)
Definition documents (d : Db) := (invoices (billing d), payments (billing d), credit_notes (billing d)).

Section CreditNotes.
Context (W : world Db) (alone_W : alone W) `{DS : DecisionService} `{TZ : Timezone} `{LG : LegalGraph}
  (try_lock : string -> string -> bool).

(** A credit note requested under a key that is taken is answered with the note on
    record, whatever amount, currency, reason and invoice are asked for: unlike a payment
    it is not compared with the request, and nothing tells the caller of the difference.
    Notes, payments and invoices stay as they are. *)
Theorem credit_note_replay_unchecked id amount currency reason key ctx t s c r u :
  List.filter (fun c => (cn_idempotency_key c =? KeyNormalization.normalize_key W key 128 "hash:")%py)
    (credit_notes (billing (live s))) = [c] ->
  create_credit_note W try_lock id amount currency reason key ctx t s = (Ok r, u) ->
  cr_credit_note r = c /\ cr_is_replay r = true /\
  within documents s u.
Proof.
  intros Hc. unfold create_credit_note. cbv zeta.
  rewrite (bind_ok _ _ s (Some c) s) by (by apply one_or_none_some). cbv iota.
  unfold replay_credit_note. intros (i & s1 & H1 & Hr)%bind_inv_ok. apply lock_invoice_inv in H1 as (-> & _).
  apply bind_inv_ok in Hr as ([] & s2 & H2 & Hr). apply bind_inv_ok in Hr as ([] & s3 & H3 & Hr).
  apply bind_inv_ok in Hr as (a & s4 & H4 & Hr). apply guard_inv in H4.
  apply bind_inv_ok in Hr as ([] & s5 & H5 & [= <- <-]). split; [done|]. split; [done|].
  etrans; [|etrans; [|etrans]].
  - eapply (on_return_always (within documents)); [|exact H2].
    unfold _enforce_policy, _policy_resource_for_invoice, find_period. effects.
  - eapply (on_return_always (within documents)); [|exact H3]. effects.
  - eapply (on_return_always (within documents)); [|exact H4]. unfold _ensure_settlement_allocation, find_allocation,
      insert_allocation, q_first. effects.
  - eapply (on_return_always (within documents)); [|exact H5]. by apply within_reconcile; try apply _.
Qed.
End CreditNotes.

(** ** Witnesses *)

Definition pay_demo (amount : Z) (key : string) : PM PaymentResult :=
  apply_payment demo_world (H := allow_all) (H0 := utc) (H1 := no_graph) unlocked "inv-1" amount "RUB" key None None
    (Some admin_context) (Some finance_token).

Lemma new_payment_posts_witness :
  exists r u, pay_demo 500 "key-1" sent_session = (Ok r, u) /\ saved u = saved sent_session /\
    payments (billing (live u)) = payments (billing (live sent_session)) ++ [pr_payment r] /\
    pay_amount (pr_payment r) = 500.
Proof.
  destruct (ok_run (pay_demo 500 "key-1") sent_session) as [r Hr]; [vm_compute; reflexivity|].
  exists r, (pay_demo 500 "key-1" sent_session).2. split; [exact Hr|].
  destruct (new_payment_posts demo_world (fun _ _ => eq_refl) (DS := allow_all) (TZ := utc) (LG := no_graph) unlocked
    "inv-1" 500 "RUB" "key-1" None None (Some admin_context) (Some finance_token) sent_session r
    (pay_demo 500 "key-1" sent_session).2) as (_ & Hs & _ & Ha & _ & _ & _ & _ & Hp & _).
  - repeat constructor. intros [].
  - intros k _ [].
  - exact Hr.
  - assert ((pay_demo 500 "key-1" sent_session).1 = Ok r) as Hr1 by (by rewrite Hr). vm_compute in Hr1.
    injection Hr1 as <-. reflexivity.
  - split; [exact Hs|]. split; [exact Hp|exact Ha].
Defined.

(** The same key again, for the same amount and for another. *)
Lemma payment_replayed_witness :
  let s := (pay_demo 500 "key-1" sent_session).2 in
  exists p i, pay_demo 500 "key-1" s = (Ok (MkPaymentResult p i true), s) /\
    exists field, pay_demo 600 "key-1" s = (Raise (PaymentIdempotencyConflict field), s).
Proof.
  intros s.
  assert (exists e p i, flow_events (flow (live s)) = [e] /\ payments (billing (live s)) = [p] /\
    invoices (billing (live s)) = [i]) as (e & p & i & He & Hp & Hi)
    by (vm_compute; do 3 eexists; split; [|split]; reflexivity).
  assert (He' := He). assert (Hp' := Hp). assert (Hi' := Hi). vm_compute in He', Hp', Hi'.
  injection He' as He'. injection Hp' as Hp'. injection Hi' as Hi'. exists p, i.
  assert (forall amount, _) as Hrep by (intros amount;
    apply (payment_replayed demo_world (DS := allow_all) (TZ := utc) (LG := no_graph) unlocked "inv-1" amount "RUB"
      "key-1" None None (Some admin_context) (Some finance_token) s e (pay_id p) p i);
    [rewrite He|rewrite <- He', <- Hp'|rewrite Hp|rewrite <- Hp'|rewrite Hi]; rewrite <- ?He', <- ?Hp', <- ?Hi';
    vm_compute; reflexivity).
  split.
  - apply (Hrep 500). rewrite <- Hp'. vm_compute. repeat split; reflexivity.
  - apply (Hrep 600). rewrite <- Hp'. intros [Ha _]. vm_compute in Ha. discriminate Ha.
Defined.

Definition note_demo (amount : Z) (key : string) : PM CreditNoteResult :=
  create_credit_note demo_world (H := allow_all) (H0 := utc) (H1 := no_graph) unlocked "inv-1" amount "RUB" None key
    (Some admin_context) (Some finance_token).

(** A note of 100, and a request for 700 under its key. *)
Lemma credit_note_replay_unchecked_witness :
  let s := (note_demo 100 "note-1" sent_session).2 in
  exists r c, credit_notes (billing (live s)) = [c] /\ cn_amount c = 100 /\
    (note_demo 700 "note-1" s).1 = Ok r /\ cr_credit_note r = c /\ cr_is_replay r = true.
Proof.
  intros s. destruct (ok_run (note_demo 700 "note-1") s) as [r Hr]; [vm_compute; reflexivity|].
  assert (exists c, credit_notes (billing (live s)) = [c] /\ cn_amount c = 100) as (c & Hc & Ha)
    by (vm_compute; eexists; split; reflexivity).
  exists r, c. split; [exact Hc|]. split; [exact Ha|]. split; [by rewrite Hr|].
  destruct (credit_note_replay_unchecked demo_world (fun _ _ => eq_refl) (DS := allow_all) (TZ := utc) (LG := no_graph)
    unlocked "inv-1" 700 "RUB" None "note-1" (Some admin_context) (Some finance_token) s c r
    (note_demo 700 "note-1" s).2) as (E1 & E2 & _).
  - rewrite Hc. assert (Hc' := Hc). vm_compute in Hc'. injection Hc' as <-. vm_compute. reflexivity.
  - exact Hr.
  - split; [exact E1|exact E2].
Defined.
