(* ===== verification/MoneyFlow.v ===== *)
(** * Money flows

    services/money_flow: the state machine of a flow (engine.py), the invariant snapshots
    and their digests (snapshots.py), the graph of links (graph.py), the comparison of
    snapshots (diff.py) and the explanation of a flow (explain.py). *)
From S2P Require Import Prelude Json Enums Models Policy InvoiceMachine JobRuns Finance.

(** ** JSON values as Python sees them *)

(** [bool(v)] *)
Definition truthy (v : json) : bool :=
  match v with
  | JNull => false
  | JBool b => b
  | JInt z => negb (z =? 0)
  | JStr s => (s <>? "")%py
  | JList l => match l with [] => false | _ => true end
  | JDict d => match d with [] => false | _ => true end
  end.

(** [d.get(key)], [None] being [JNull] *)
Definition get (d : dict) (key : string) : json := default JNull (dict_get d key).

(** What [==] compares: booleans are numbers, the order of keys does not count. *)
Fixpoint comparable (v : json) : json :=
  match v with
  | JBool b => JInt (Z.b2z b)
  | JList l => JList (map comparable l)
  | JDict d => JDict (sort_by_key (map (fun kv => (kv.1, comparable kv.2)) d))
  | v => v
  end.

Definition json_eq (v w : json) : bool := (comparable v =? comparable w)%py.

(** [int(v)] *)
Definition int_of (v : json) : PM Z :=
  match v with
  | JInt z => mret z
  | JBool b => mret (Z.b2z b)
  | JStr s => match py_int (py_strip s) with
              | Some z => mret z
              | None => raise (ValueError ("invalid literal for int() with base 10: " +:+ s))
              end
  | JNull | JList _ | JDict _ => raise TypeError
  end.

(** [int(d.get(key, 0) or 0)] *)
Definition int_field (d : dict) (key : string) : PM Z :=
  let v := default (JInt 0) (dict_get d key) in
  if truthy v then int_of v else mret 0.

(** ** The state machine of a flow (engine.py) *)

Module Engine.
Import MoneyFlowState MoneyFlowEventType.

Record TransitionResult := MkTransitionResult {
  state : MoneyFlowState;
  idempotent : bool;
}.

Definition _TRANSITIONS (s : MoneyFlowState) (e : MoneyFlowEventType) : option MoneyFlowState :=
  match s, e with
  | DRAFT, AUTHORIZE => Some AUTHORIZED
  | DRAFT, CANCEL => Some CANCELLED
  | AUTHORIZED, SETTLE => Some SETTLED
  | AUTHORIZED, CANCEL => Some CANCELLED
  | AUTHORIZED, FAIL => Some FAILED
  | PENDING_SETTLEMENT, SETTLE => Some SETTLED
  | PENDING_SETTLEMENT, FAIL => Some FAILED
  | SETTLED, REVERSE => Some REVERSED
  | SETTLED, DISPUTE_OPEN => Some DISPUTED
  | DISPUTED, DISPUTE_RESOLVE => Some SETTLED
  | _, _ => None
  end.

Definition _IDEMPOTENT_EVENTS (e : MoneyFlowEventType) : option MoneyFlowState :=
  match e with
  | SETTLE => Some SETTLED
  | REVERSE => Some REVERSED
  | CANCEL => Some CANCELLED
  | _ => None
  end.

Definition apply_transition (current_state : option MoneyFlowState) (event_type : MoneyFlowEventType)
    : outcome exn TransitionResult :=
  match current_state with
  | None => Raise (MoneyFlowTransitionError "current_state_required")
  | Some current_state =>
      if match _IDEMPOTENT_EVENTS event_type with
         | Some s => (current_state =? s)%py
         | None => false
         end
      then Ok (MkTransitionResult current_state true)
      else match _TRANSITIONS current_state event_type with
           | None => Raise (MoneyFlowTransitionError ("invalid_transition:" +:+
               MoneyFlowState.value current_state +:+ "->" +:+ MoneyFlowEventType.value event_type))
           | Some next_state => Ok (MkTransitionResult next_state false)
           end
  end.

(** A flow that receives events one after the other. *)
Fixpoint run_events (s : MoneyFlowState) (es : list MoneyFlowEventType) : outcome exn MoneyFlowState :=
  match es with
  | [] => Ok s
  | e :: es => match apply_transition (Some s) e with
               | Ok r => run_events (state r) es
               | Raise x => Raise x
               end
  end.
End Engine.

(** ** Rows added to the session

    The sessions do not flush on their own, so a row passed to [db.add] is not seen by a
    query until the next flush, which draws its identifier. *)
Inductive tracked (A : Type) : Type :=
| Stored (row : A)
| Added (make : string -> A).
Arguments Stored {A} row.
Arguments Added {A} make.

Section Flush.
Context (W : world Db).

(** The flush of one object: stored rows need none. *)
Definition flush_row {A} (insert : A -> PM unit) (t : tracked A) : PM A :=
  match t with
  | Stored row => mret row
  | Added make => id ← uuid4 W; insert (make id);; mret (make id)
  end.

Definition flush_rows {A} (insert : A -> PM unit) (l : list (tracked A)) : PM (list A) :=
  for_each l (flush_row insert).
End Flush.

(** ** Invariant snapshots (snapshots.py) *)

Module Snapshots.
Import MoneyInvariantSnapshotPhase.

Definition canonical_json (payload : dict) : string := Json.canonical_json (JDict payload).

(** [json.loads] raises a [ValueError] on a text that is not JSON. *)
Definition canonicalize_snapshot (snapshot_json : dict) : PM dict :=
  match loads (canonical_json snapshot_json) with
  | Some (JDict d) => mret d
  | _ => raise (ValueError "JSONDecodeError")
  end.

(** [isinstance(invoice, dict)]: the checks of the invoice's amounts. *)
Definition invoice_violations (invoice : dict) : PM (list string) :=
  total_with_tax ← int_field invoice "total_with_tax";
  amount_paid ← int_field invoice "amount_paid";
  amount_due ← int_field invoice "amount_due";
  amount_refunded ← int_field invoice "amount_refunded";
  mret ((if total_with_tax - amount_paid =? amount_due then [] else ["invoice_balance_mismatch"]) ++
        (if amount_paid <? amount_refunded then ["refund_exceeds_paid"] else [])).

Definition evaluate_snapshot_invariants (snapshot_json : dict) : PM (list string) :=
  invoice ← match get snapshot_json "invoice" with
            | JDict invoice => invoice_violations invoice
            | _ => mret []
            end;
  let ledger := match get snapshot_json "ledger" with
                | JDict ledger => if (get ledger "balanced" =? JBool false)%py then ["ledger_unbalanced"] else []
                | _ => []
                end in
  let period := match get snapshot_json "period" with
                | JDict period =>
                    if json_eq (get period "status") (JStr "LOCKED") &&
                       json_eq (get snapshot_json "action") (JStr "REVERSAL") &&
                       negb (truthy (get snapshot_json "override"))
                    then ["reversal_locked_period"] else []
                | _ => []
                end in
  mret (invoice ++ ledger ++ period).

Section Record_snapshot.
Context (W : world Db).

Definition build_snapshot_hash (snapshot_json : dict) : string := sha256_hex W (canonical_json snapshot_json).

Definition snapshot_scope (event_id : string) (phase : MoneyInvariantSnapshotPhase) (snapshot_hash : string)
    (s : MoneyInvariantSnapshot) : bool :=
  (mis_event_id s =? event_id)%py && (mis_phase s =? phase)%py && (mis_snapshot_hash s =? snapshot_hash)%py.

Definition record_snapshot (tenant_id : Z) (client_id : string) (flow_type : MoneyFlowType.MoneyFlowType)
    (flow_ref_id event_id : string) (phase : MoneyInvariantSnapshotPhase) (snapshot_json : dict)
    : PM (tracked MoneyInvariantSnapshot) :=
  canonical_snapshot ← canonicalize_snapshot snapshot_json;
  let snapshot_hash := build_snapshot_hash canonical_snapshot in
  violations ← evaluate_snapshot_invariants canonical_snapshot;
  let passed := (Z.of_nat (length violations) =? 0) in
  existing ← q_first (fun d => snapshots (flow d)) (snapshot_scope event_id phase snapshot_hash);
  match existing with
  | Some s => mret (Stored s)
  | None =>
      mret (Added (fun id => MkMoneyInvariantSnapshot id tenant_id client_id flow_type flow_ref_id event_id
        phase snapshot_hash (JDict canonical_snapshot) passed
        (match violations with [] => None | _ => Some violations end)))
  end.

(** The flush of a snapshot: event, phase and digest are unique. *)
Definition insert_snapshot (s : MoneyInvariantSnapshot) : PM unit :=
  race W;;
  same ← q_first (fun d => snapshots (flow d))
    (snapshot_scope (mis_event_id s) (mis_phase s) (mis_snapshot_hash s));
  match same with
  | Some _ => raise (IntegrityError "uq_money_invariant_snapshots_scope")
  | None => modify (on_snapshots (fun l => l ++ [s]))
  end.
End Record_snapshot.

Record status := MkStatus {
  before_count : Z;
  after_count : Z;
  failed_count : Z;
  status_passed : bool;
}.

Definition count {A} (P : A -> bool) (l : list A) : Z := Z.of_nat (length (List.filter P l)).

Definition snapshot_status (rows : list MoneyInvariantSnapshot) : status :=
  let before := count (fun s => (mis_phase s =? BEFORE)%py) rows in
  let after := count (fun s => (mis_phase s =? AFTER)%py) rows in
  let failed := count (fun s => negb (mis_passed s)) rows in
  MkStatus before after failed ((failed =? 0) && (0 <? before) && (0 <? after)).
End Snapshots.

(** ** The graph of links (graph.py) *)

Module Graph.
Record MoneyFlowLinkSpec := MkSpec {
  src_type : MoneyFlowLinkNodeType.MoneyFlowLinkNodeType;
  src_id : string;
  link_type : MoneyFlowLinkType.MoneyFlowLinkType;
  dst_type : MoneyFlowLinkNodeType.MoneyFlowLinkNodeType;
  dst_id : string;
  meta : option dict;
}.

Definition linkkey : Set := string * string * string * string * string.

Definition key (s : MoneyFlowLinkSpec) : linkkey :=
  (MoneyFlowLinkNodeType.value (src_type s), src_id s, MoneyFlowLinkType.value (link_type s),
   MoneyFlowLinkNodeType.value (dst_type s), dst_id s).

(** [_links] is a dict in insertion order. *)
Record MoneyFlowGraphBuilder := MkBuilder {
  tenant_id : Z;
  client_id : string;
  _links : list (linkkey * MoneyFlowLinkSpec);
}.

(** [self._links.setdefault(spec.key(), spec)] *)
Definition add_link (b : MoneyFlowGraphBuilder) (spec : MoneyFlowLinkSpec) : MoneyFlowGraphBuilder :=
  if bool_decide (key spec ∈ (_links b).*1) then b
  else MkBuilder (tenant_id b) (client_id b) (_links b ++ [(key spec, spec)]).

Definition build (b : MoneyFlowGraphBuilder) : list MoneyFlowLinkSpec := (_links b).*2.

(** The row of a link in a tenant. *)
Definition is_link (tenant_id : Z) (s : MoneyFlowLinkSpec) (r : MoneyFlowLink) : bool :=
  (mfl_tenant_id r =? tenant_id) && (mfl_src_type r =? src_type s)%py && (mfl_src_id r =? src_id s)%py &&
  (mfl_link_type r =? link_type s)%py && (mfl_dst_type r =? dst_type s)%py && (mfl_dst_id r =? dst_id s)%py.

Definition link_row (tenant_id : Z) (client_id : string) (s : MoneyFlowLinkSpec) (id : string) : MoneyFlowLink :=
  MkMoneyFlowLink id tenant_id client_id (src_type s) (src_id s) (dst_type s) (dst_id s) (link_type s)
    (match meta s with Some (kv :: d) => Some (JDict (kv :: d)) | _ => None end).

(** A link that is not stored is added to the session, without a flush. *)
Definition ensure_money_flow_links (tenant_id : Z) (client_id : string) (links : list MoneyFlowLinkSpec)
    : PM (list (tracked MoneyFlowLink)) :=
  for_each links (fun s =>
    existing ← q_first (fun d => flow_links (flow d)) (is_link tenant_id s);
    mret (match existing with
          | Some r => Stored r
          | None => Added (link_row tenant_id client_id s)
          end)).

(** The columns of the unique constraint. *)
Definition same_link (a b : MoneyFlowLink) : bool :=
  (mfl_tenant_id a =? mfl_tenant_id b) && (mfl_src_type a =? mfl_src_type b)%py &&
  (mfl_src_id a =? mfl_src_id b)%py && (mfl_link_type a =? mfl_link_type b)%py &&
  (mfl_dst_type a =? mfl_dst_type b)%py && (mfl_dst_id a =? mfl_dst_id b)%py.

Definition insert_link (W : world Db) (r : MoneyFlowLink) : PM unit :=
  race W;;
  same ← q_first (fun d => flow_links (flow d)) (same_link r);
  match same with
  | Some _ => raise (IntegrityError "uq_money_flow_links_scope")
  | None => modify (on_flow_links (fun l => l ++ [r]))
  end.
End Graph.

(** ** The comparison of snapshots (diff.py) *)

Module Diff.
Record MoneyFlowDiff := MkMoneyFlowDiff {
  mismatched_totals : list string;
  missing_links : list string;
  broken_snapshots : list string;
  recommended_action : string;
  missing_links_count : option Z;
  missing_ledger_postings : option Z;
  mismatched_invoice_aggregation : option (list string);
}.

Definition invoice_of (snapshot : dict) : dict :=
  match get snapshot "invoice" with JDict d => d | _ => [] end.

Definition diff_snapshots (expected actual : dict) : MoneyFlowDiff :=
  let expected_invoice := invoice_of expected in
  let actual_invoice := invoice_of actual in
  let mismatched := List.filter (fun k => negb (json_eq (get expected_invoice k) (get actual_invoice k)))
    ["total_with_tax"; "amount_paid"; "amount_due"] in
  let missing_links :=
    if truthy (get expected "links") && negb (truthy (get actual "links")) then ["links"] else [] in
  let broken_snapshots :=
    if truthy (get expected "snapshots") && negb (truthy (get actual "snapshots")) then ["snapshots"] else [] in
  let recommended_action :=
    match missing_links, broken_snapshots, mismatched with
    | _ :: _, _, _ => "REBUILD_LINKS"
    | [], _ :: _, _ => "RECORD_SNAPSHOTS"
    | [], [], _ :: _ => "REVIEW_TOTALS"
    | [], [], [] => "NONE"
    end in
  MkMoneyFlowDiff mismatched missing_links broken_snapshots recommended_action None None None.
End Diff.

(** ** The explanation of a flow (explain.py) *)

Module Explain.
Record LedgerEntrySummary := MkLedgerEntrySummary {
  account : string;
  direction : string;
  amount : Z;
  currency : string;
}.

Record LedgerSummary := MkLedgerSummary {
  ledger_transaction_id : string;
  balanced : bool;
  entries : list LedgerEntrySummary;
}.

Record Invariants := MkInvariants {
  passed : bool;
  checks : list string;
  failed_checks : list string;
}.

(** [risk], the payload of the decision *)
Record Risk := MkRisk {
  decision_id : string;
  outcome : string;
  score : Z;
}.

Record MoneyExplain := MkMoneyExplain {
  flow_type : MoneyFlowType.MoneyFlowType;
  flow_ref_id : string;
  state : MoneyFlowState.MoneyFlowState;
  ledger : option LedgerSummary;
  invariants : Invariants;
  risk : option Risk;
  notes : list string;
  event_id : string;
  created_at : Z;
}.

Definition is_debit (e : InternalLedgerEntry) : bool :=
  (InternalLedgerEntryDirection.value (ile_direction e) =? "DEBIT")%py.

Definition debit_total (l : list InternalLedgerEntry) : Z := sum_of ile_amount (List.filter is_debit l).
Definition credit_total (l : list InternalLedgerEntry) : Z :=
  sum_of ile_amount (List.filter (fun e => negb (is_debit e)) l).

(** [currencies], a set *)
Definition currencies (l : list InternalLedgerEntry) : list string := remove_dups (map ile_currency l).

Definition _build_ledger_summary (l : list InternalLedgerEntry) (account_map : list InternalLedgerAccount)
    : LedgerSummary :=
  let summary e := MkLedgerEntrySummary
    (match find (fun a => (ila_id a =? ile_account_id e)%py) account_map with
     | Some a => InternalLedgerAccountType.value (ila_account_type a)
     | None => "UNKNOWN"
     end)
    (InternalLedgerEntryDirection.value (ile_direction e)) (ile_amount e) (ile_currency e) in
  MkLedgerSummary (from_option ile_ledger_transaction_id "" (last l))
    ((debit_total l =? credit_total l) && (length (currencies l) <=? 1)%nat) (map summary l).

Definition build_explain_snapshot (W : world Db) (payload : dict) : PM (string * dict) :=
  canonical_payload ← Snapshots.canonicalize_snapshot payload;
  mret (Snapshots.build_snapshot_hash W canonical_payload, canonical_payload).

(** [if event.ledger_transaction_id]: the summary of the transaction and its checks. *)
Definition explain_ledger (event : MoneyFlowEvent) : PM (option LedgerSummary * Invariants) :=
  match str_or_none (mfe_ledger_transaction_id event) with
  | None => mret (None, MkInvariants true [] [])
  | Some id =>
      l ← q_all (fun d => il_entries (internal d)) (fun e => (ile_ledger_transaction_id e =? id)%py);
      accounts ← q_all (fun d => il_accounts (internal d))
        (fun a => bool_decide (ila_id a ∈ map ile_account_id l));
      let ledger_summary := _build_ledger_summary l accounts in
      let checks := ["ledger_balanced"; "currency_match"] in
      let failed := if balanced ledger_summary then [] else checks in
      mret (Some ledger_summary, MkInvariants (match failed with [] => true | _ => false end) checks failed)
  end.

Definition explain_risk (event : MoneyFlowEvent) : PM (option Risk) :=
  match str_or_none (mfe_risk_decision_id event) with
  | None => mret None
  | Some id =>
      d ← q_first (fun d => risk_decisions (crm d)) (fun r => (rd_id r =? id)%py);
      mret (option_map (fun r => MkRisk (rd_decision_id r) (RiskDecisionType.value (rd_outcome r)) (rd_score r)) d)
  end.

Definition notes_of (event : MoneyFlowEvent) : list string :=
  (if (mfe_state_from event =? Some (mfe_state_to event))%py then ["idempotent"] else []) ++
  (match mfe_meta event with
   | Some (JDict d) => if truthy (get d "cross_period") then ["cross_period"] else []
   | _ => []
   end).

Definition build_money_explain (type : MoneyFlowType.MoneyFlowType) (ref_id : string) : PM MoneyExplain :=
  rows ← q_all (fun d => flow_events (flow d))
    (fun e => (mfe_flow_type e =? type)%py && (mfe_flow_ref_id e =? ref_id)%py);
  match sort_on (fun e => - mfe_created_at e) rows with
  | [] => raise (MoneyFlowNotFound "money_flow_not_found")
  | event :: _ =>
      '(ledger_summary, invariants) ← explain_ledger event;
      risk ← explain_risk event;
      mret (MkMoneyExplain (mfe_flow_type event) (mfe_flow_ref_id event) (mfe_state_to event) ledger_summary
        invariants risk (notes_of event) (mfe_id event) (mfe_created_at event))
  end.
End Explain.

(** ** The snapshots of a subscription invoice (services/crm/subscription_billing.py) *)

Module InvoiceSnapshots.
Definition _fetch_invoice_ledger_transaction (invoice_id : string) : PM (option InternalLedgerTransaction) :=
  q_one_or_none (fun d => il_transactions (internal d))
    (fun t => (ilt_external_ref_type t =? "INVOICE")%py && (ilt_external_ref_id t =? invoice_id)%py).

(** The "invoice" part of the payload. *)
Definition invoice_part (invoice : Invoice) : dict :=
  [ ("id", JStr (inv_id invoice)); ("status", JStr (InvoiceStatus.value (inv_status invoice)));
    ("total_with_tax", JInt (inv_total_with_tax invoice)); ("amount_paid", JInt (inv_amount_paid invoice));
    ("amount_due", JInt (inv_amount_due invoice)); ("amount_refunded", JInt (inv_amount_refunded invoice)) ].

Definition side_total (side : string) (l : list InternalLedgerEntry) : Z :=
  sum_of ile_amount (List.filter (fun e => (InternalLedgerEntryDirection.value (ile_direction e) =? side)%py) l).

Definition entry_part (e : InternalLedgerEntry) : json :=
  JDict [ ("direction", JStr (InternalLedgerEntryDirection.value (ile_direction e)));
          ("amount", JInt (ile_amount e)); ("currency", JStr (ile_currency e));
          ("account_id", JStr (ile_account_id e)) ].

(** The "ledger" part; [charges] are the amounts of the charges. *)
Definition _build_invoice_snapshot_payload (subscription_id billing_period_id : string) (invoice : Invoice)
    (charges : list Z) : PM dict :=
  ledger_tx ← _fetch_invoice_ledger_transaction (inv_id invoice);
  ledger ← match ledger_tx with
           | None => mret [ ("transaction_id", JNull); ("balanced", JNull); ("entries", JList []) ]
           | Some tx =>
               l ← q_all (fun d => il_entries (internal d)) (fun e => (ile_ledger_transaction_id e =? ilt_id tx)%py);
               mret [ ("transaction_id", JStr (ilt_id tx));
                      ("balanced", JBool (side_total "DEBIT" l =? side_total "CREDIT" l));
                      ("entries", JList (map entry_part l)) ]
           end;
  mret [ ("action", JStr "ISSUE_INVOICE"); ("subscription_id", JStr subscription_id);
         ("period", JDict [("billing_period_id", JStr billing_period_id)]);
         ("invoice", JDict (invoice_part invoice));
         ("charges", JDict [("count", JInt (Z.of_nat (length charges))); ("total_amount", JInt (sum_of id charges))]);
         ("ledger", JDict ledger) ].

Section Record.
Context (W : world Db).

Definition _ensure_money_flow_event (subscription_id period_id invoice_id client_id : string) (tenant_id : Z)
    : PM MoneyFlowEvent :=
  let idempotency_key := "money:subscription:" +:+ subscription_id +:+ ":period:" +:+ period_id +:+
    ":invoice:" +:+ invoice_id +:+ ":v2" in
  existing ← q_one_or_none (fun d => flow_events (flow d))
    (fun e => (mfe_idempotency_key e =? idempotency_key)%py);
  match existing with
  | Some event => mret event
  | None =>
      id ← uuid4 W;
      created_at ← now W;
      let event := MkMoneyFlowEvent id tenant_id client_id MoneyFlowType.SUBSCRIPTION_CHARGE invoice_id None
        MoneyFlowState.AUTHORIZED MoneyFlowEventType.AUTHORIZE idempotency_key None None created_at
        (Some (JDict [("subscription_id", JStr subscription_id); ("billing_period_id", JStr period_id)])) in
      FinanceService.insert_event W event;;
      mret event
  end.

(** Both phases record the same payload. *)
Definition _record_invoice_snapshots (subscription_id billing_period_id : string) (invoice : Invoice)
    (charges : list Z) (client_id : string) (tenant_id : Z)
    : PM (tracked MoneyInvariantSnapshot * tracked MoneyInvariantSnapshot) :=
  event ← _ensure_money_flow_event subscription_id billing_period_id (inv_id invoice) client_id tenant_id;
  payload ← _build_invoice_snapshot_payload subscription_id billing_period_id invoice charges;
  let record phase := Snapshots.record_snapshot W tenant_id client_id MoneyFlowType.SUBSCRIPTION_CHARGE
    (inv_id invoice) (mfe_id event) phase payload in
  before ← record MoneyInvariantSnapshotPhase.BEFORE;
  after ← record MoneyInvariantSnapshotPhase.AFTER;
  mret (before, after).
End Record.
End InvoiceSnapshots.

(** ** Histories of a flow *)

Section Histories.
Import Engine MoneyFlowState MoneyFlowEventType.

(** The events that may arrive again. *)
Definition repeatable (e : MoneyFlowEventType) : Prop := e = SETTLE \/ e = REVERSE \/ e = CANCEL.

(** Deliveries of the same events, a repeatable one any number of times in a row. *)
Inductive redelivers : list MoneyFlowEventType -> list MoneyFlowEventType -> Prop :=
| redelivers_nil : redelivers [] []
| redelivers_next e es es' : redelivers es es' -> redelivers (e :: es) (e :: es')
| redelivers_again e es es' : repeatable e -> redelivers (e :: es) (e :: es') ->
    redelivers (e :: es) (e :: e :: es').

Definition terminal (s : MoneyFlowState) : bool :=
  match s with REVERSED | FAILED | CANCELLED => true | _ => false end.

Lemma transition_ok s e r : apply_transition (Some s) e = Ok r ->
  state r = (if idempotent r then s else default s (_TRANSITIONS s e)) /\
  (forall t, _IDEMPOTENT_EVENTS e = Some t -> state r = t).
Proof. destruct s, e; cbn; intros H; inversion H; subst; split; try done; intros t Ht; by inversion Ht. Qed.

Lemma terminal_stays s e r : terminal s = true -> apply_transition (Some s) e = Ok r -> state r = s.
Proof. destruct s, e; cbn; intros Hs H; inversion H; subst; done. Qed.

Lemma never_pending s e r : apply_transition (Some s) e = Ok r -> state r <> PENDING_SETTLEMENT.
Proof. destruct s, e; cbn; intros H; inversion H; subst; done. Qed.

Lemma reversed_from_settled s e r : apply_transition (Some s) e = Ok r -> state r = REVERSED ->
  s = SETTLED \/ s = REVERSED.
Proof. destruct s, e; cbn; intros H; inversion H; subst; cbn; intros; try done; auto. Qed.

Lemma run_cons s e es t : run_events s (e :: es) = Ok t ->
  exists r, apply_transition (Some s) e = Ok r /\ run_events (state r) es = Ok t.
Proof. cbn [run_events]. destruct (apply_transition (Some s) e) as [r|x]; [by exists r|done]. Qed.

Lemma redelivered_run es es' : redelivers es es' ->
  forall s t, run_events s es = Ok t -> run_events s es' = Ok t.
Proof.
  induction 1 as [|e es es' H IH|e es es' He H IH]; intros s t Hrun; [done| |].
  - apply run_cons in Hrun as (r & Hr & Hrun). cbn [run_events]. rewrite Hr. by apply IH.
  - apply IH, run_cons in Hrun as (r & Hr & Hrun). cbn [run_events]. rewrite Hr.
    assert (exists x, _IDEMPOTENT_EVENTS e = Some x) as [x Hx]
      by (destruct He as [-> |[-> | ->]]; by eexists).
    rewrite (proj2 (transition_ok _ _ _ Hr) x Hx) in *.
    unfold apply_transition. rewrite Hx. unfold eqb. by rewrite bool_decide_eq_true_2.
Qed.

(** C33 a flow that reached an end keeps it, whatever arrives; no history enters
    PENDING_SETTLEMENT; only a settled flow is ever reversed; and delivering the settle,
    reverse and cancel events of a history several times over changes nothing. *)
Theorem flow_histories s es t :
  run_events s es = Ok t ->
  (terminal s = true -> t = s) /\
  (t = PENDING_SETTLEMENT -> s = PENDING_SETTLEMENT /\ es = []) /\
  (t = REVERSED -> s = REVERSED \/ exists before after, es = before ++ after /\ run_events s before = Ok SETTLED) /\
  (forall es', redelivers es es' -> run_events s es' = Ok t).
Proof.
  intros Hrun. split; [|split; [|split]].
  - revert s Hrun. induction es as [|e es IH]; intros s Hrun Hs; [by inversion Hrun|].
    apply run_cons in Hrun as (r & Hr & Hrun). rewrite (terminal_stays s e r Hs Hr) in Hrun. by apply IH.
  - revert s Hrun. induction es as [|e es IH]; intros s Hrun Ht; [by inversion Hrun; subst|].
    apply run_cons in Hrun as (r & Hr & Hrun). destruct (IH _ Hrun Ht) as [Hp _].
    by destruct (never_pending s e r Hr).
  - revert s Hrun. induction es as [|e es IH]; intros s Hrun Ht; [left; by inversion Hrun; subst|].
    apply run_cons in Hrun as (r & Hr & Hrun). destruct (IH _ Hrun Ht) as [Hrev|(b & a & -> & Hb)].
    + destruct (reversed_from_settled s e r Hr Hrev) as [->| ->]; [|by left].
      right. by exists [], (e :: es).
    + right. exists (e :: b), a. split; [done|]. cbn [run_events]. by rewrite Hr.
  - intros es' Hre. by apply (redelivered_run es).
Qed.

(** A payment that is disputed, upheld and then reversed, its reversal delivered twice. *)
Lemma flow_histories_witness :
  run_events DRAFT [AUTHORIZE; SETTLE; DISPUTE_OPEN; DISPUTE_RESOLVE; REVERSE] = Ok REVERSED /\
  run_events DRAFT [AUTHORIZE; SETTLE; SETTLE; DISPUTE_OPEN; DISPUTE_RESOLVE; REVERSE; REVERSE] = Ok REVERSED.
Proof.
  split; [reflexivity|].
  apply (flow_histories DRAFT [AUTHORIZE; SETTLE; DISPUTE_OPEN; DISPUTE_RESOLVE; REVERSE] REVERSED eq_refl).
  apply redelivers_next, redelivers_again; [left; reflexivity|].
  apply redelivers_next, redelivers_next, redelivers_next.
  apply redelivers_again; [right; left; reflexivity|]. apply redelivers_next, redelivers_nil.
Defined.
End Histories.

(** ** Canonical snapshots *)

Lemma sorted_members_keys (d : dict) : (map (fun kv => (kv.1, sort_keys kv.2)) d).*1 = d.*1.
Proof. change (map ?f d).*1 with (fst <$> (f <$> d)). by rewrite <- list_fmap_compose. Qed.

Lemma distinct_sort_keys v : distinct_keys v -> distinct_keys (sort_keys v).
Proof.
  induction v as [|b|z|s|l IH|d IH] using json_ind'; intros Hv; simpl; try done.
  - inversion Hv as [| | | |? Hl|]; subst. constructor. rewrite List.Forall_map.
    rewrite List.Forall_forall in *. auto.
  - inversion Hv as [| | | | |? Hn Hd]; subst. constructor.
    + by rewrite sort_by_key_perm, sorted_members_keys.
    + rewrite sort_by_key_perm, List.Forall_map. rewrite List.Forall_forall in *. simpl. auto.
Qed.

Lemma sort_keys_idem v : distinct_keys v -> sort_keys (sort_keys v) = sort_keys v.
Proof.
  induction v as [|b|z|s|l IH|d IH] using json_ind'; intros Hv; simpl; try done.
  - inversion Hv as [| | | |? Hl|]; subst. f_equal. rewrite map_map.
    apply map_ext_in. intros x Hx. rewrite List.Forall_forall in *. auto.
  - inversion Hv as [| | | | |? Hn Hd]; subst. f_equal.
    set (m := map (fun kv => (kv.1, sort_keys kv.2)) d).
    assert (map (fun kv => (kv.1, sort_keys kv.2)) (sort_by_key m) = sort_by_key m) as ->.
    { rewrite <- (map_id (sort_by_key m)) at 2. apply map_ext_in. intros [k x] Hx. simpl. f_equal.
      apply list_elem_of_In in Hx. rewrite sort_by_key_perm in Hx. apply list_elem_of_In, in_map_iff in Hx as ([k' y] & Hy & Hin).
      inversion Hy; subst. rewrite List.Forall_forall in *. specialize (IH _ Hin). specialize (Hd _ Hin). auto. }
    apply sort_by_key_unique; [|by rewrite sort_by_key_perm].
    unfold m. by rewrite sort_by_key_perm, sorted_members_keys.
Qed.

(** What is written and digested. *)
Definition canonical (d : dict) : dict := sort_by_key (map (fun kv => (kv.1, sort_keys kv.2)) d).

Lemma canonicalize_run d s : Snapshots.canonicalize_snapshot d s = (Ok (canonical d), s).
Proof.
  unfold Snapshots.canonicalize_snapshot, Snapshots.canonical_json. by rewrite loads_canonical.
Qed.

Lemma canonical_idem d : distinct_keys (JDict d) -> canonical (canonical d) = canonical d.
Proof.
  intros Hd. pose proof (sort_keys_idem (JDict d) Hd) as H. simpl in H. by injection H.
Qed.

Lemma canonical_same d d' : distinct_keys (JDict d) -> same_json (JDict d) (JDict d') -> canonical d' = canonical d.
Proof.
  intros Hd Hs. pose proof (same_json_sort_keys _ Hd _ Hs) as H. simpl in H. by injection H.
Qed.

Section SnapshotFacts.
Context (W : world Db).
Import Snapshots.

Lemma hash_canonical d : distinct_keys (JDict d) ->
  build_snapshot_hash W (canonical d) = build_snapshot_hash W d.
Proof.
  intros Hd. unfold build_snapshot_hash, Snapshots.canonical_json, Json.canonical_json.
  change (JDict (canonical d)) with (sort_keys (JDict d)). by rewrite sort_keys_idem.
Qed.

(** C26 a snapshot is always canonicalised: the reader accepts every text the writer makes
    and returns the payload with its keys sorted.  Doing it again changes nothing, the
    digest is the same before and after, and payloads that only differ in the order of
    their keys have one canonical form and one digest, while payloads with different
    canonical forms have different texts. *)
Theorem snapshot_canonical d s :
  distinct_keys (JDict d) ->
  canonicalize_snapshot d s = (Ok (canonical d), s) /\
  canonicalize_snapshot (canonical d) s = (Ok (canonical d), s) /\
  build_snapshot_hash W (canonical d) = build_snapshot_hash W d /\
  (forall d', same_json (JDict d) (JDict d') ->
     canonicalize_snapshot d' s = (Ok (canonical d), s) /\ build_snapshot_hash W d' = build_snapshot_hash W d) /\
  (forall d', Snapshots.canonical_json d' = Snapshots.canonical_json d -> canonical d' = canonical d).
Proof.
  intros Hd. split; [apply canonicalize_run|]. split; [by rewrite canonicalize_run, canonical_idem|].
  split; [by apply hash_canonical|]. split.
  - intros d' Hs. rewrite canonicalize_run, (canonical_same d d' Hd Hs). split; [done|].
    unfold build_snapshot_hash, Snapshots.canonical_json. f_equal. symmetry. by apply canonical_json_order.
  - intros d' H. apply canonical_json_inj in H. simpl in H. by injection H.
Qed.
End SnapshotFacts.

(** Calls whose outcome does not depend on the session. *)
Definition pure {A} (m : PM A) : Prop := exists o, forall s, m s = (o, s).

Lemma pure_ret {A} (a : A) : pure (mret a).
Proof. by exists (Ok a). Qed.

Lemma pure_raise {A} e : pure (raise (A := A) e).
Proof. by exists (Raise e). Qed.

Lemma pure_bind {A B} (m : PM A) (f : A -> PM B) : pure m -> (forall a, pure (f a)) -> pure (m ≫= f).
Proof.
  intros [[a|e] Hm] Hf.
  - destruct (Hf a) as [o Ho]. exists o. intros s. unfold mbind, M_bind. by rewrite Hm.
  - exists (Raise e). intros s. unfold mbind, M_bind. by rewrite Hm.
Qed.

Lemma pure_int_field d k : pure (int_field d k).
Proof.
  unfold int_field. destruct (truthy _); [|apply pure_ret].
  destruct (default _ _) as [|b|z|s|l|d']; simpl; try apply pure_ret; try apply pure_raise.
  destruct (py_int _); [apply pure_ret|apply pure_raise].
Qed.

Create HintDb pure.
#[export] Hint Resolve pure_ret pure_raise pure_bind pure_int_field : pure.

Lemma pure_evaluate d : pure (Snapshots.evaluate_snapshot_invariants d).
Proof.
  unfold Snapshots.evaluate_snapshot_invariants, Snapshots.invoice_violations.
  apply pure_bind; [|auto with pure]. destruct (get d "invoice"); auto 10 with pure.
Qed.

Section Recording.
Context (W : world Db) (alone_W : alone W).
Import Snapshots.

Definition recorded (d : Db) : list MoneyInvariantSnapshot := snapshots (flow d).

Lemma record_run tenant client type ref event phase d s t u :
  record_snapshot W tenant client type ref event phase d s = (Ok t, u) ->
  u = s /\ exists violations,
    (forall v, evaluate_snapshot_invariants (canonical d) v = (Ok violations, v)) /\
    t = match head (List.filter (snapshot_scope event phase (build_snapshot_hash W (canonical d))) (recorded (live s))) with
        | Some r => Stored r
        | None => Added (fun id => MkMoneyInvariantSnapshot id tenant client type ref event phase
            (build_snapshot_hash W (canonical d)) (JDict (canonical d)) (Z.of_nat (length violations) =? 0)
            (match violations with [] => None | _ => Some violations end))
        end.
Proof.
  intros H. unfold record_snapshot in H.
  apply bind_inv_ok in H as (c & v & Hc & H). rewrite canonicalize_run in Hc. inversion Hc; subst c v. clear Hc.
  destruct (pure_evaluate (canonical d)) as [o Ho].
  apply bind_inv_ok in H as (violations & v & Hv & H). rewrite Ho in Hv. inversion Hv; subst v o. clear Hv.
  apply bind_inv_ok in H as (existing & v & Hx & H). unfold q_first, gets in Hx. injection Hx as <- <-.
  assert (u = s) as -> by (destruct (head _); by inversion H).
  split; [done|]. exists violations. split; [done|]. unfold recorded. destruct (head _); by inversion H.
Qed.

Lemma scope_refl (r : MoneyInvariantSnapshot) :
  snapshot_scope (mis_event_id r) (mis_phase r) (mis_snapshot_hash r) r = true.
Proof. unfold snapshot_scope, eqb. by rewrite !bool_decide_eq_true_2. Qed.

Lemma snapshot_scope_spec event phase h (r : MoneyInvariantSnapshot) :
  snapshot_scope event phase h r = true <->
  mis_event_id r = event /\ mis_phase r = phase /\ mis_snapshot_hash r = h.
Proof. unfold snapshot_scope, eqb. rewrite !andb_true_iff, !bool_decide_eq_true. tauto. Qed.

Lemma head_nil {A} (l : list A) : head l = None -> l = [].
Proof. by destruct l. Qed.

(** C27 recording a snapshot stores it or finds it stored.  The row carries the digest of
    its canonical payload and passes exactly when no invariant is violated; nothing else is
    written.  Once it is flushed, recording the same payload for the same event and phase,
    whatever the order of its keys and whatever the flow, finds that row and adds none. *)
Theorem snapshot_recorded_once tenant client type ref event phase d s t u :
  distinct_keys (JDict d) ->
  record_snapshot W tenant client type ref event phase d s = (Ok t, u) ->
  u = s /\ exists row v,
    flush_row W (insert_snapshot W) t s = (Ok row, v) /\ saved v = saved s /\
    recorded (live v) = recorded (live s) ++ (match t with Stored _ => [] | Added _ => [row] end) /\
    (mis_event_id row = event /\ mis_phase row = phase /\ mis_snapshot_hash row = build_snapshot_hash W d) /\
    (forall make, t = Added make ->
       exists violations, evaluate_snapshot_invariants (canonical d) s = (Ok violations, s) /\
         (mis_passed row = true <-> violations = []) /\ mis_snapshot_json row = JDict (canonical d)) /\
    (forall tenant' client' type' ref' d', same_json (JDict d) (JDict d') ->
       record_snapshot W tenant' client' type' ref' event phase d' v = (Ok (Stored row), v)).
Proof.
  intros Hd Hrun. apply record_run in Hrun as (-> & violations & Hv & ->). split; [done|].
  set (h := build_snapshot_hash W (canonical d)).
  assert (build_snapshot_hash W d = h) as -> by (symmetry; by apply hash_canonical).
  assert (forall row v, head (List.filter (snapshot_scope event phase h) (recorded (live v))) = Some row ->
    forall tenant' client' type' ref' d', same_json (JDict d) (JDict d') ->
    record_snapshot W tenant' client' type' ref' event phase d' v = (Ok (Stored row), v)) as Hagain.
  { intros row v Hrow tenant' client' type' ref' d' Hs. unfold record_snapshot.
    rewrite (bind_ok _ _ _ _ _ (canonicalize_run d' v)), (canonical_same d d' Hd Hs).
    rewrite (bind_ok _ _ _ _ _ (Hv v)). fold h. unfold q_first. run_steps.
    unfold recorded in Hrow. by rewrite Hrow. }
  destruct (head _) as [r|] eqn:Hh.
  - exists r, s. cbn [flush_row]. rewrite app_nil_r. split; [done|]. split; [done|]. split; [done|].
    split; [|split; [done|by apply Hagain]].
    destruct (List.filter _ _) as [|x l] eqn:Hf; [done|]. inversion Hh; subst x.
    assert (In r (List.filter (snapshot_scope event phase h) (recorded (live s)))) as Hin by (rewrite Hf; by left).
    apply filter_In in Hin as [_ Hin]. by apply snapshot_scope_spec.
  - apply head_nil in Hh.
    set (row := MkMoneyInvariantSnapshot (new_uuid W (uuids s)) tenant client type ref event phase h
      (JDict (canonical d)) (Z.of_nat (length violations) =? 0)
      (match violations with [] => None | _ => Some violations end)).
    assert (snapshot_scope event phase h row = true) as Hrow by apply (scope_refl row).
    eexists row, _. split; [|split; [|split; [|split; [by apply snapshot_scope_spec|split]]]].
    + unfold flush_row, insert_snapshot, q_first. run_steps. rewrite !alone_W.
      change (mis_event_id _) with event. change (mis_phase _) with phase. change (mis_snapshot_hash _) with h.
      unfold recorded in Hh. rewrite Hh. reflexivity.
    + done.
    + done.
    + intros make _. exists violations. split; [done|]. split; [|done].
      unfold row. simpl. destruct violations; simpl; [done|]. split; [lia|done].
    + apply Hagain. unfold recorded, on_snapshots, on_flow. simpl. unfold recorded in Hh.
      by rewrite List.filter_app, Hh, (filter_all _ [row]) by (by constructor).
Qed.
End Recording.

(** ** Links *)

Section Links.
Context (W : world Db) (alone_W : alone W).
Import Graph.

Definition links_of (d : Db) : list MoneyFlowLink := flow_links (flow d).

Abbreviation columns := (Z * MoneyFlowLinkNodeType.MoneyFlowLinkNodeType * string *
  MoneyFlowLinkType.MoneyFlowLinkType * MoneyFlowLinkNodeType.MoneyFlowLinkNodeType * string)%type.

(** The columns of the unique constraint, of a row and of the row of a link. *)
Definition row_columns (r : MoneyFlowLink) : columns :=
  (mfl_tenant_id r, mfl_src_type r, mfl_src_id r, mfl_link_type r, mfl_dst_type r, mfl_dst_id r).

Definition spec_columns (tenant : Z) (s : MoneyFlowLinkSpec) : columns :=
  (tenant, src_type s, src_id s, link_type s, dst_type s, dst_id s).

(** The unique constraint of the table. *)
Definition unique_links (l : list MoneyFlowLink) : Prop := List.NoDup (map row_columns l).

Lemma is_link_spec tenant s r : is_link tenant s r = true <-> row_columns r = spec_columns tenant s.
Proof.
  unfold is_link, row_columns, spec_columns, eqb.
  rewrite !andb_true_iff, !bool_decide_eq_true, Z.eqb_eq. split; [intros; destruct_and!; congruence|intros H; injection H; intros; tauto].
Qed.

Lemma same_link_spec a b : same_link a b = true <-> row_columns a = row_columns b.
Proof.
  unfold same_link, row_columns, eqb.
  rewrite !andb_true_iff, !bool_decide_eq_true, Z.eqb_eq. split; [intros; destruct_and!; congruence|intros H; injection H; intros; tauto].
Qed.

Lemma link_row_columns tenant client s id : row_columns (link_row tenant client s id) = spec_columns tenant s.
Proof. done. Qed.

Lemma columns_key tenant a b : spec_columns tenant a = spec_columns tenant b -> key a = key b.
Proof. unfold spec_columns, key. intros H. injection H as -> -> -> -> ->. done. Qed.

(** What the session tracks for a link, given the rows of the table. *)
Definition track (tenant : Z) (client : string) (table : list MoneyFlowLink) (s : MoneyFlowLinkSpec)
    : tracked MoneyFlowLink :=
  match head (List.filter (is_link tenant s) table) with
  | Some r => Stored r
  | None => Added (link_row tenant client s)
  end.

Lemma ensure_run tenant client l s :
  ensure_money_flow_links tenant client l s = (Ok (map (track tenant client (links_of (live s))) l), s).
Proof.
  unfold ensure_money_flow_links. induction l as [|x l IH]; [done|]. cbn [for_each].
  rewrite (bind_ok _ _ s (track tenant client (links_of (live s)) x) s) by done.
  rewrite (bind_ok _ _ _ _ _ IH). done.
Qed.

Lemma filter_some_head {A} (P : A -> bool) l x :
  head (List.filter P l) = Some x -> In x l /\ P x = true.
Proof.
  destruct (List.filter P l) as [|y m] eqn:Hf; [done|]. intros H. inversion H; subst y.
  apply filter_In. rewrite Hf. by left.
Qed.

Lemma filter_head_none {A} (P : A -> bool) l x : head (List.filter P l) = None -> In x l -> P x = false.
Proof.
  intros H Hx. destruct (P x) eqn:HP; [|done]. apply head_nil in H.
  assert (In x (List.filter P l)) as Hin by (by apply filter_In). by rewrite H in Hin.
Qed.

(** One row is flushed: its columns are new. *)
Lemma insert_link_run r s : ~ In (row_columns r) (map row_columns (links_of (live s))) ->
  insert_link W r s = (Ok tt, Session (on_flow_links (fun l => l ++ [r]) (live s)) (saved s) (ticks s) (uuids s) (S (races s))).
Proof.
  intros Hr. unfold insert_link, q_first. run_steps. rewrite !alone_W.
  fold (links_of (live s)). rewrite filter_none; [done|]. apply List.Forall_forall. intros x Hx.
  destruct (same_link r x) eqn:Hs; [|done]. apply same_link_spec in Hs. destruct Hr.
  rewrite Hs. by apply in_map.
Qed.

Definition row_of (tenant : Z) (u : session Db) (s : MoneyFlowLinkSpec) (r : MoneyFlowLink) : Prop :=
  In r (links_of (live u)) /\ row_columns r = spec_columns tenant s.

Lemma no_new_links s : live s = on_flow_links (fun t => t ++ []) (live s).
Proof. unfold on_flow_links, on_flow. destruct s as [[? ? ? ? [] ? ?] ? ? ? ?]. simpl. by rewrite app_nil_r. Qed.

(** The flush of what a session tracks for one link, in a table that holds [table]. *)
Lemma flush_tracked_row tenant client table x s :
  unique_links (links_of (live s)) -> (forall r, In r table -> In r (links_of (live s))) ->
  (forall r, In r (links_of (live s)) -> row_columns r = spec_columns tenant x -> In r table) ->
  exists row t new,
    flush_row W (insert_link W) (track tenant client table x) s = (Ok row, t) /\
    saved t = saved s /\ live t = on_flow_links (fun l => l ++ new) (live s) /\
    row_of tenant t x row /\ unique_links (links_of (live t)) /\
    new = (match track tenant client table x with Stored _ => [] | Added _ => [row] end) /\
    Forall (fun r => mfl_client_id r = client) new.
Proof.
  intros Hu Htab Hback. unfold track. destruct (head _) as [r|] eqn:Hh.
  - apply filter_some_head in Hh as [Hr Hl%is_link_spec]. exists r, s, [].
    repeat split; try done; [apply no_new_links|by apply Htab].
  - set (row := link_row tenant client x (new_uuid W (uuids s))).
    assert (~ In (row_columns row) (map row_columns (links_of (live s)))) as Hnew.
    { intros (r & Hr & Hin)%in_map_iff. pose proof (Hback r Hin Hr) as Htr.
      pose proof (filter_head_none _ _ _ Hh Htr) as Hf. apply (is_link_spec tenant x) in Hr. by rewrite Hr in Hf. }
    set (s' := Session (live s) (saved s) (ticks s) (S (uuids s)) (races s)).
    eexists row, _, [row]. split; [|split; [|split; [|split; [|split; [|split]]]]].
    + unfold flush_row. rewrite (bind_ok _ _ s (new_uuid W (uuids s)) s') by done. fold row.
      rewrite (bind_ok _ _ _ _ _ (insert_link_run row s' Hnew)). reflexivity.
    + done.
    + done.
    + split; [|done]. unfold links_of, on_flow_links, on_flow. simpl. apply in_app_iff. right. by left.
    + unfold unique_links, links_of, on_flow_links, on_flow. simpl. rewrite map_app. by apply nodup_snoc.
    + done.
    + by constructor.
Qed.

(** The links a session has to add. *)
Definition unstored (client : string) (table : list MoneyFlowLink) (x : Z * MoneyFlowLinkSpec) : bool :=
  match track x.1 client table x.2 with Stored _ => false | Added _ => true end.

Definition item_columns (x : Z * MoneyFlowLinkSpec) : columns := spec_columns x.1 x.2.

(** The flush of what a session tracks for distinct links of any tenants. *)
Lemma flush_tracked client table l : forall s,
  List.NoDup (map item_columns l) -> unique_links (links_of (live s)) ->
  (forall r, In r table -> In r (links_of (live s))) ->
  (forall x r, In x l -> In r (links_of (live s)) -> row_columns r = item_columns x -> In r table) ->
  exists rows u new,
    flush_rows W (insert_link W) (map (fun x => track x.1 client table x.2) l) s = (Ok rows, u) /\
    saved u = saved s /\ live u = on_flow_links (fun t => t ++ new) (live s) /\
    unique_links (links_of (live u)) /\ Forall2 (fun x => row_of x.1 u x.2) l rows /\
    map row_columns new = map item_columns (List.filter (unstored client table) l) /\
    Forall (fun r => mfl_client_id r = client) new.
Proof.
  induction l as [|x l IH]; intros s Hn Hu Htab Hback.
  { exists [], s, []. repeat split; try done. apply no_new_links. }
  simpl in Hn. apply List.NoDup_cons_iff in Hn as [Hx Hn]. unfold flush_rows in *. cbn [map for_each].
  destruct (flush_tracked_row x.1 client table x.2 s) as (row & t & add & Hrow & Hts & Htl & Hof & Htu & Hadd & Hcl);
    [done|done|intros r; apply Hback; by left|].
  assert (links_of (live t) = links_of (live s) ++ add) as Hlt by (by rewrite Htl).
  destruct (IH t) as (rows & u & new & Hrun & Hus & Hul & Huu & Hall & Hnew & Hcl'); [done|done| | |].
  - intros r Hr. rewrite Hlt. apply in_app_iff. left. by apply Htab.
  - intros y r Hy Hr He. rewrite Hlt in Hr. apply in_app_iff in Hr as [Hr|Hr]; [by eapply (Hback y); [right|..]|].
    exfalso. rewrite Hadd in Hr. destruct (track x.1 client table x.2); [done|].
    destruct Hr as [<-|[]]. apply Hx. unfold item_columns at 1. rewrite <- (proj2 Hof), He. by apply in_map.
  - exists (row :: rows), u, (add ++ new). split; [|split; [|split; [|split; [|split; [|split]]]]].
    + rewrite (bind_ok _ _ _ _ _ Hrow). cbv beta. by rewrite (bind_ok _ _ _ _ _ Hrun).
    + congruence.
    + rewrite Hul, Htl. unfold on_flow_links, on_flow. simpl. by rewrite app_assoc.
    + done.
    + constructor; [|done]. split; [|apply Hof]. rewrite Hul. change (In row (links_of (live t) ++ new)).
      apply in_app_iff. left. apply Hof.
    + rewrite map_app, Hnew, Hadd. cbn [List.filter]. unfold unstored at 2.
      destruct (track x.1 client table x.2); [done|]. simpl. f_equal. apply Hof.
    + by apply Forall_app.
Qed.

(** A row flushed for a link of [l] that the table lacked. *)
Lemma new_links client table l new :
  map row_columns new = map item_columns (List.filter (unstored client table) l) ->
  forall r, In r new -> ~ In (row_columns r) (map row_columns table) /\
    exists x, In x l /\ row_columns r = item_columns x.
Proof.
  intros Hnew r Hr. apply (in_map row_columns) in Hr. rewrite Hnew in Hr. apply in_map_iff in Hr as (x & He & Hx).
  apply filter_In in Hx as [Hx Hun]. split; [|exists x; auto].
  rewrite <- He. intros (q & Hq & Hqin)%in_map_iff. unfold unstored, track in Hun.
  destruct (head _) eqn:Hh; [done|]. pose proof (filter_head_none _ _ _ Hh Hqin) as Hf.
  apply (is_link_spec x.1 x.2) in Hq. by rewrite Hq in Hf.
Qed.

Lemma Forall2_in_l {A B} (P : A -> B -> Prop) l m : Forall2 P l m ->
  forall x, In x l -> exists y, In y m /\ P x y.
Proof.
  induction 1 as [|x y l m Hxy H IH]; intros z Hz; [done|]. destruct Hz as [->|Hz].
  - exists y. split; [by left|done].
  - destruct (IH z Hz) as (w & ? & ?). exists w. split; [by right|done].
Qed.

(** ** What a builder holds *)

Lemma node_value_inj a b : MoneyFlowLinkNodeType.value a = MoneyFlowLinkNodeType.value b -> a = b.
Proof. by destruct a, b. Qed.

Lemma type_value_inj a b : MoneyFlowLinkType.value a = MoneyFlowLinkType.value b -> a = b.
Proof. by destruct a, b. Qed.

Lemma key_columns tenant a b : key a = key b -> spec_columns tenant a = spec_columns tenant b.
Proof.
  unfold spec_columns, key. intros H. injection H as H1 -> H2 H3 ->.
  by rewrite (node_value_inj _ _ H1), (type_value_inj _ _ H2), (node_value_inj _ _ H3).
Qed.

Definition built_of (tenant : Z) (client : string) (specs : list MoneyFlowLinkSpec) : list MoneyFlowLinkSpec :=
  build (fold_left add_link specs (MkBuilder tenant client [])).

(** The keys of the dict are those of its links. *)
Definition keyed (b : MoneyFlowGraphBuilder) : Prop :=
  (_links b).*1 = map key (build b) /\ List.NoDup (map key (build b)).

Lemma add_link_keyed b x : keyed b -> keyed (add_link b x) /\
  (forall y, In y (build (add_link b x)) -> In y (build b) \/ y = x) /\
  (forall k, In k (map key (build (add_link b x))) <-> In k (map key (build b)) \/ k = key x).
Proof.
  intros [Hk Hn]. unfold add_link. destruct (bool_decide_reflect (key x ∈ (_links b).*1)) as [Hin|Hout].
  - split; [done|]. split; [auto|]. intros k. split; [auto|]. intros [H| ->]; [done|].
    rewrite Hk in Hin. by apply list_elem_of_In.
  - assert (build (MkBuilder (tenant_id b) (client_id b) (_links b ++ [(key x, x)])) = build b ++ [x]) as Hb
      by (unfold build; simpl; by rewrite fmap_app).
    assert ((_links b ++ [(key x, x)]).*1 = map key (build b) ++ [key x]) as Hb1 by (by rewrite fmap_app, Hk).
    unfold keyed. rewrite Hb. simpl. rewrite Hb1, map_app. rewrite Hk in Hout. split; [split; [done|]|].
    + apply nodup_snoc; [done|]. by rewrite <- list_elem_of_In.
    + split; intros; rewrite in_app_iff in *; simpl in *; naive_solver.
Qed.

Lemma add_links_keyed specs : forall b, keyed b -> let b' := fold_left add_link specs b in
  keyed b' /\ (forall y, In y (build b') -> In y (build b) \/ In y specs) /\
  (forall k, In k (map key (build b')) <-> In k (map key (build b)) \/ In k (map key specs)).
Proof.
  induction specs as [|x specs IH]; intros b Hb; simpl; [naive_solver|].
  destruct (add_link_keyed b x Hb) as (Hb' & Hy & Hk). destruct (IH _ Hb') as (Hb'' & Hy' & Hk').
  split; [done|]. split; [intros y Hin; destruct (Hy' y Hin) as [Hin'|?]; [destruct (Hy y Hin')|]; auto|].
  intros k. rewrite Hk', Hk. naive_solver.
Qed.

Lemma keyed_empty tenant client : keyed (MkBuilder tenant client []).
Proof. by split; [|constructor]. Qed.

Lemma keyed_columns tenant (l : list MoneyFlowLinkSpec) : List.NoDup (map key l) ->
  List.NoDup (map (spec_columns tenant) l).
Proof.
  induction l as [|x l IH]; simpl; [constructor|]. intros [Hx Hn]%List.NoDup_cons_iff. constructor; [|by apply IH].
  intros (y & He & Hin)%in_map_iff. apply Hx. apply columns_key in He. rewrite <- He. by apply in_map.
Qed.

Lemma built_spec tenant client specs : let l := built_of tenant client specs in
  List.NoDup (map (spec_columns tenant) l) /\ (forall y, In y l -> In y specs) /\
  (forall x, In x specs -> exists y, In y l /\ spec_columns tenant y = spec_columns tenant x).
Proof.
  destruct (add_links_keyed specs _ (keyed_empty tenant client)) as ((_ & Hn) & Hy & Hk).
  fold (built_of tenant client specs) in *. split; [by apply keyed_columns|]. split.
  - intros y Hin. by destruct (Hy y Hin).
  - intros x Hx. apply (in_map key) in Hx. destruct (Hk (key x)) as [_ Hk']. specialize (Hk' (or_intror Hx)).
    apply in_map_iff in Hk' as (y & He & Hin). exists y. split; [done|]. by apply key_columns.
Qed.

(** Ensuring the links of a builder stores each of them once.  The call itself adds to
    the session only what the table lacks; after the flush every link asked for has its
    row, the rows of before are untouched, the new ones are exactly the missing links, the
    table still has no duplicate, and asking again finds everything stored. *)
Theorem links_ensured tenant client specs s :
  unique_links (links_of (live s)) ->
  let l := built_of tenant client specs in
  exists tracked_rows rows u new,
    ensure_money_flow_links tenant client l s = (Ok tracked_rows, s) /\
    flush_rows W (insert_link W) tracked_rows s = (Ok rows, u) /\
    saved u = saved s /\ live u = on_flow_links (fun t => t ++ new) (live s) /\
    unique_links (links_of (live u)) /\
    (forall x, In x specs -> exists r, In r rows /\ In r (links_of (live u)) /\ row_columns r = spec_columns tenant x) /\
    (forall r, In r new -> mfl_client_id r = client /\ ~ In (row_columns r) (map row_columns (links_of (live s))) /\
       exists x, In x specs /\ row_columns r = spec_columns tenant x) /\
    ensure_money_flow_links tenant client l u = (Ok (map Stored rows), u).
Proof.
  intros Hu l. destruct (built_spec tenant client specs) as (Hn & Hin & Hex). fold l in Hn, Hin, Hex.
  destruct (flush_tracked client (links_of (live s)) (map (pair tenant) l) s) as
    (rows & u & new & Hrun & Hs & Hl & Huu & Hall & Hnew & Hcl); [by rewrite map_map|done..|].
  rewrite map_map in Hrun. rewrite Forall2_fmap_l in Hall.
  exists (map (track tenant client (links_of (live s))) l), rows, u, new.
  split; [apply ensure_run|]. split; [done|]. split; [done|]. split; [done|]. split; [done|].
  split; [|split].
  - intros x Hx. destruct (Hex x Hx) as (y & Hy & He). destruct (Forall2_in_l _ _ _ Hall y Hy) as (r & Hr & Hrin & Hc).
    exists r. split; [done|]. split; [done|]. simpl in Hc. congruence.
  - intros r Hr. rewrite List.Forall_forall in Hcl. split; [by apply Hcl|].
    destruct (new_links _ _ _ _ Hnew r Hr) as (Hold & [ten x] & Hx & Hc). split; [done|].
    apply in_map_iff in Hx as (y & Hy & Hyin). injection Hy as <- <-. exists y. split; [by apply Hin|done].
  - rewrite ensure_run. do 2 f_equal. clear -Hall Huu.
    induction Hall as [|x r l rows [Hr Hc] Hall IH]; [done|]. cbn [map]. f_equal; [|apply IH].
    unfold track. destruct (head _) as [q|] eqn:Hh.
    + f_equal. apply filter_some_head in Hh as [Hq He%is_link_spec].
      eapply (nodup_key row_columns); [exact Huu|done|done|]. simpl in Hc. congruence.
    + pose proof (filter_head_none _ _ _ Hh Hr) as Hf. apply (is_link_spec tenant x) in Hc. by rewrite Hc in Hf.
Qed.
End Links.

(** ** What a snapshot says of an invoice *)

Lemma dict_get_in (d : dict) k v : NoDup d.*1 -> dict_get d k = Some v <-> (k, v) ∈ d.
Proof.
  induction d as [|[k' w] d IH]; intros Hn; simpl; [split; [done|by intros ?%not_elem_of_nil]|].
  apply NoDup_cons in Hn as [Hk Hn]. rewrite elem_of_cons. destruct (decide (k' = k)) as [->|Hne].
  - split; [intros H; left; congruence|]. intros [H|Hin]; [congruence|].
    destruct Hk. by apply (list_elem_of_fmap_2 fst) in Hin.
  - rewrite IH by done. split; [by right|]. intros [H|?]; [congruence|done].
Qed.

Lemma get_canonical d k : NoDup d.*1 -> get (canonical d) k = sort_keys (get d k).
Proof.
  intros Hn. unfold get.
  assert (NoDup (canonical d).*1) as Hc by (unfold canonical; by rewrite sort_by_key_perm, sorted_members_keys).
  assert (dict_get (canonical d) k = option_map sort_keys (dict_get d k)) as ->; [|by destruct (dict_get d k)].
  apply option_eq. intros v. rewrite dict_get_in by done. unfold canonical.
  rewrite sort_by_key_perm, list_elem_of_In, in_map_iff. split.
  - intros ([k' w] & H & Hin). injection H as -> <-. apply list_elem_of_In, dict_get_in in Hin; [|done]. by rewrite Hin.
  - destruct (dict_get d k) as [w|] eqn:Hw; [|done]. intros H. injection H as <-.
    exists (k, w). split; [done|]. apply list_elem_of_In. by apply dict_get_in.
Qed.

Lemma truthy_sort v : truthy (sort_keys v) = truthy v.
Proof.
  destruct v as [| | | |l|d]; simpl; try done; [by destruct l|].
  destruct d as [|kv d]; [done|]. simpl. destruct (sort_by_key _) as [|x l] eqn:Hs; [|done].
  pose proof (sort_by_key_perm (((kv.1, sort_keys kv.2) :: map (fun kv => (kv.1, sort_keys kv.2)) d))) as Hp.
  rewrite Hs in Hp. by apply Permutation_nil_cons in Hp.
Qed.

Lemma int_field_canonical d k : NoDup d.*1 -> int_field (canonical d) k = int_field d k.
Proof.
  intros Hn. pose proof (get_canonical d k Hn) as Hg. unfold get in Hg. unfold int_field.
  assert (default (JInt 0) (dict_get (canonical d) k) = sort_keys (default (JInt 0) (dict_get d k)) \/
          dict_get (canonical d) k = Some JNull /\ dict_get d k = None \/
          dict_get (canonical d) k = None /\ dict_get d k = Some JNull) as [->|[[-> ->]|[-> ->]]]; [|  |done|done].
  { destruct (dict_get (canonical d) k) as [v|], (dict_get d k) as [w|]; simpl in *; subst; auto.
    destruct w; simpl in *; auto; discriminate Hg. }
  rewrite truthy_sort. set (w := default (JInt 0) (dict_get d k)). destruct w; reflexivity.
Qed.

Lemma json_eq_str v s : json_eq (sort_keys v) (JStr s) = json_eq v (JStr s).
Proof. unfold json_eq, eqb. destruct v; simpl; try done. Qed.

(** The evaluation does not depend on the order of the keys. *)
Lemma evaluate_canonical d : distinct_keys (JDict d) ->
  Snapshots.evaluate_snapshot_invariants (canonical d) = Snapshots.evaluate_snapshot_invariants d.
Proof.
  intros Hd. inversion Hd as [| | | | |? Hn Hall]; subst.
  assert (forall k e, get d k = JDict e -> NoDup e.*1) as Hsub.
  { intros k e He. unfold get in He. destruct (dict_get d k) as [v|] eqn:Hv; [|done]. simpl in He. subst v.
    apply dict_get_in in Hv; [|done]. rewrite List.Forall_forall in Hall.
    apply list_elem_of_In, Hall in Hv. by inversion Hv. }
  unfold Snapshots.evaluate_snapshot_invariants. rewrite !(get_canonical d) by done.
  rewrite truthy_sort, json_eq_str.
  assert (forall k A (f : dict -> A) (z : A), (forall e, NoDup e.*1 -> f (canonical e) = f e) ->
    match sort_keys (get d k) with JDict e => f e | _ => z end = match get d k with JDict e => f e | _ => z end) as Hpart.
  { intros k A f z Hf. destruct (get d k) as [| | | | |e] eqn:He; [reflexivity..|].
    change (f (canonical e) = f e). apply Hf. by eapply Hsub. }
  rewrite (Hpart "invoice"), (Hpart "ledger"), (Hpart "period"); [done|..]; intros e He.
  - by rewrite get_canonical, json_eq_str by done.
  - rewrite get_canonical by done. by destruct (get e "balanced").
  - unfold Snapshots.invoice_violations. by rewrite !int_field_canonical by done.
Qed.

(** The keys of a payload written out are distinct. *)
Ltac distinct_payload :=
  lazymatch goal with
  | |- distinct_keys (JDict ?d) =>
      first [ assumption
            | apply dk_dict; [repeat first [apply NoDup_nil_2 | apply NoDup_cons_2; [set_solver|]]|distinct_payload] ]
  | |- distinct_keys (JList (map ?f ?l)) =>
      apply dk_list, List.Forall_map, List.Forall_forall; intros; unfold f; distinct_payload
  | |- distinct_keys (JList []) => apply dk_list, Forall_nil_2
  | |- distinct_keys _ => constructor
  | |- Forall _ (_ :: _) => apply Forall_cons_2; [cbn [snd]; distinct_payload|distinct_payload]
  | |- Forall _ [] => apply Forall_nil_2
  end.

Section InvoiceVerdict.
Import InvoiceSnapshots InvoiceMachine.InvoiceStateMachine.

Lemma int_field_int d k z : dict_get d k = Some (JInt z) -> int_field d k = mret z.
Proof.
  intros H. unfold int_field. rewrite H. simpl. destruct (Z.eqb_spec z 0) as [->|_]; reflexivity.
Qed.

(** The journal entries of the invoice's posting balance, when there is one. *)
Definition posting_balanced (invoice_id : string) (s : session Db) : Prop :=
  forall tx, _fetch_invoice_ledger_transaction invoice_id s = (Ok (Some tx), s) ->
    let l := List.filter (fun e => (ile_ledger_transaction_id e =? ilt_id tx)%py) (il_entries (internal (live s))) in
    side_total "DEBIT" l = side_total "CREDIT" l.

Lemma payload_run sub per i charges s p u :
  _build_invoice_snapshot_payload sub per i charges s = (Ok p, u) ->
  u = s /\ distinct_keys (JDict p) /\ get p "invoice" = JDict (invoice_part i) /\
  get p "action" = JStr "ISSUE_INVOICE" /\ get p "override" = JNull /\
  get p "period" = JDict [("billing_period_id", JStr per)] /\
  exists ledger, get p "ledger" = JDict ledger /\ (get ledger "balanced" <> JBool false <-> posting_balanced (inv_id i) s).
Proof.
  intros H. unfold _build_invoice_snapshot_payload in H.
  apply bind_inv_ok in H as (tx & v & Htx & H).
  assert (v = s) as -> by (unfold _fetch_invoice_ledger_transaction in Htx; rewrite one_or_none_run in Htx; by injection Htx).
  assert (exists ledger, u = s /\ p = [ ("action", JStr "ISSUE_INVOICE"); ("subscription_id", JStr sub);
      ("period", JDict [("billing_period_id", JStr per)]); ("invoice", JDict (invoice_part i));
      ("charges", JDict [("count", JInt (Z.of_nat (length charges))); ("total_amount", JInt (sum_of id charges))]);
      ("ledger", JDict ledger) ] /\ distinct_keys (JDict ledger) /\
      (get ledger "balanced" <> JBool false <-> posting_balanced (inv_id i) s)) as (ledger & -> & -> & Hd & Hb).
  { unfold posting_balanced. rewrite Htx. destruct tx as [tx|]; unfold q_all in H; run_steps; cbv beta iota in H;
      injection H as <- <-; eexists; (split; [done|]); (split; [reflexivity|]).
    - split; [distinct_payload|].
      set (l := List.filter (fun e => (ile_ledger_transaction_id e =? ilt_id tx)%py) (il_entries (internal (live s)))).
      change (get _ "balanced") with (JBool (side_total "DEBIT" l =? side_total "CREDIT" l)).
      destruct (Z.eqb_spec (side_total "DEBIT" l) (side_total "CREDIT" l)) as [He|He].
      + split; [intros _ tx' Heq; injection Heq as <-; exact He|done].
      + split; [done|]. intros Hall. destruct He. exact (Hall tx eq_refl).
    - split; [distinct_payload|]. split; [intros _ tx Htx'; discriminate Htx'|intros _ Hj; discriminate Hj]. }
  split; [done|]. split; [|repeat split; try done; exists ledger; done].
  unfold invoice_part. distinct_payload.
Qed.

(** The snapshot of an invoice that keeps the money identity.  Its balance is reported as
    broken exactly when the invoice has more or less credited than refunded: the check
    leaves credit notes and refunds out.  The ledger is reported as unbalanced exactly
    when the posting of the invoice is, and no issue is ever taken for a reversal. *)
Theorem invoice_snapshot_verdict sub per i charges s p u :
  settled i -> inv_total_with_tax i <> 0 ->
  _build_invoice_snapshot_payload sub per i charges s = (Ok p, u) ->
  exists violations, Snapshots.evaluate_snapshot_invariants (canonical p) s = (Ok violations, s) /\
    ("invoice_balance_mismatch" ∈ violations <-> inv_credited_amount i <> inv_amount_refunded i) /\
    ("refund_exceeds_paid" ∈ violations <-> inv_amount_paid i < inv_amount_refunded i) /\
    ("ledger_unbalanced" ∈ violations <-> ~ posting_balanced (inv_id i) s) /\
    "reversal_locked_period" ∉ violations.
Proof.
  intros Hs Ht H. apply payload_run in H as (-> & Hd & Hi & Ha & Ho & Hp & ledger & Hl & Hb).
  rewrite (evaluate_canonical p Hd). unfold Snapshots.evaluate_snapshot_invariants.
  rewrite Hi, Ha, Ho, Hp, Hl. unfold Snapshots.invoice_violations.
  rewrite (int_field_int _ _ _ (eq_refl : dict_get (invoice_part i) "total_with_tax" = _)),
    (int_field_int _ _ _ (eq_refl : dict_get (invoice_part i) "amount_paid" = _)),
    (int_field_int _ _ _ (eq_refl : dict_get (invoice_part i) "amount_due" = _)),
    (int_field_int _ _ _ (eq_refl : dict_get (invoice_part i) "amount_refunded" = _)).
  pose proof (st_total i Hs) as Htot. unfold invoice_total, int_or in Htot.
  apply Z.eqb_neq in Ht. rewrite Ht in Htot.
  eexists. split; [reflexivity|].
  assert (forall (b : bool) (x y : string), x ∈ (if b then [] else [y]) <-> b = false /\ x = y) as Hif.
  { intros [] x y; [split; [by intros ?%not_elem_of_nil|by intros []]|]. rewrite list_elem_of_singleton. naive_solver. }
  assert (forall (b : bool) (x y : string), x ∈ (if b then [y] else []) <-> b = true /\ x = y) as Hif'.
  { intros [] x y; [rewrite list_elem_of_singleton; naive_solver|split; [by intros ?%not_elem_of_nil|by intros []]]. }
  assert (get ledger "balanced" = JBool false <-> ~ posting_balanced (inv_id i) s) as Hb'.
  { rewrite <- Hb. destruct (decide (get ledger "balanced" = JBool false)); tauto. }
  rewrite !elem_of_app, !Hif, !Hif', !Z.eqb_neq, !Z.ltb_lt. unfold eqb. rewrite !bool_decide_eq_true.
  rewrite <- Hb'. clear Hif Hif' Hb Hb'.
  assert (json_eq (get [("billing_period_id", JStr per)] "status") (JStr "LOCKED") = false) as -> by done.
  cbn [andb].
  split; [|split; [|split]].
  - split; [intros [[[? _]|[_ ?]]|[[_ ?]|[_ ?]]]; try discriminate; lia|]. intros. left. left. split; [lia|done].
  - split; [intros [[[_ ?]|[? _]]|[[_ ?]|[_ ?]]]; try discriminate; done|]. intros. left. by right.
  - split; [intros [[[_ ?]|[_ ?]]|[[? _]|[_ ?]]]; try discriminate; done|]. intros. right. by left.
  - intros [[[_ ?]|[_ ?]]|[[_ ?]|[? _]]]; discriminate.
Qed.
End InvoiceVerdict.

(** ** Instances *)

Definition demo_snapshot : dict :=
  [("invoice", JDict [("total_with_tax", JInt 1200); ("amount_due", JInt 1200)]); ("action", JStr "ISSUE_INVOICE")].

Definition demo_snapshot' : dict :=
  [("action", JStr "ISSUE_INVOICE"); ("invoice", JDict [("amount_due", JInt 1200); ("total_with_tax", JInt 1200)])].

Lemma demo_snapshot_distinct : distinct_keys (JDict demo_snapshot).
Proof. unfold demo_snapshot. distinct_payload. Qed.

Lemma demo_snapshots_same : same_json (JDict demo_snapshot) (JDict demo_snapshot').
Proof.
  eapply same_dict with (e' := [("action", JStr "ISSUE_INVOICE");
    ("invoice", JDict [("total_with_tax", JInt 1200); ("amount_due", JInt 1200)])]); [apply perm_swap|].
  constructor; [split; [done|constructor]|]. constructor; [|constructor]. split; [done|]. cbn [snd].
  eapply same_dict; [apply perm_swap|]. repeat constructor.
Qed.

Lemma snapshot_canonical_witness :
  let s := fresh_session empty_db in
  Snapshots.canonicalize_snapshot demo_snapshot' s = (Ok (canonical demo_snapshot), s) /\
  Snapshots.build_snapshot_hash demo_world demo_snapshot' = Snapshots.build_snapshot_hash demo_world demo_snapshot.
Proof.
  cbv zeta. apply (snapshot_canonical demo_world demo_snapshot (fresh_session empty_db) demo_snapshot_distinct).
  apply demo_snapshots_same.
Defined.

Definition record_demo (d : dict) : PM (tracked MoneyInvariantSnapshot) :=
  Snapshots.record_snapshot demo_world 1 "client-1" MoneyFlowType.INVOICE_PAYMENT "inv-1" "event-1"
    MoneyInvariantSnapshotPhase.BEFORE d.

(** The same payload with its keys in another order finds the row of the first. *)
Lemma snapshot_recorded_once_witness :
  let s := fresh_session empty_db in
  exists t row v, record_demo demo_snapshot s = (Ok t, s) /\
    flush_row demo_world (Snapshots.insert_snapshot demo_world) t s = (Ok row, v) /\
    record_demo demo_snapshot' v = (Ok (Stored row), v).
Proof.
  cbv zeta. destruct (record_demo demo_snapshot (fresh_session empty_db)) as [[t|e] u] eqn:Hr;
    [|vm_compute in Hr; discriminate Hr].
  destruct (snapshot_recorded_once demo_world (fun _ _ => eq_refl) _ _ _ _ _ _ _ _ _ _ demo_snapshot_distinct Hr)
    as (-> & row & v & Hf & _ & _ & _ & _ & Hagain).
  exists t, row, v. split; [done|]. split; [exact Hf|]. apply Hagain, demo_snapshots_same.
Defined.

(** The links of a fuel transaction, one of them asked for twice. *)
Definition demo_specs : list Graph.MoneyFlowLinkSpec :=
  let posts := Graph.MkSpec MoneyFlowLinkNodeType.FUEL_TX "tx-1" MoneyFlowLinkType.POSTS
    MoneyFlowLinkNodeType.LEDGER_TX "led-1" None in
  [ Graph.MkSpec MoneyFlowLinkNodeType.FUEL_TX "tx-1" MoneyFlowLinkType.RELATES
      MoneyFlowLinkNodeType.BILLING_PERIOD "p-1" (Some [("occurred_at", JStr "2024-05-02")]); posts; posts ].

Lemma links_ensured_witness :
  let l := built_of 1 "client-1" demo_specs in
  let s := fresh_session empty_db in
  length l = 2%nat /\ exists tracked_rows rows u,
    Graph.ensure_money_flow_links 1 "client-1" l s = (Ok tracked_rows, s) /\
    flush_rows demo_world (Graph.insert_link demo_world) tracked_rows s = (Ok rows, u) /\
    Graph.ensure_money_flow_links 1 "client-1" l u = (Ok (map Stored rows), u).
Proof.
  cbv zeta. split; [reflexivity|].
  destruct (links_ensured demo_world (fun _ _ => eq_refl) 1 "client-1" demo_specs (fresh_session empty_db))
    as (t & rows & u & new & He & Hf & _ & _ & _ & _ & _ & Hagain); [apply List.NoDup_nil|].
  exists t, rows, u. split; [exact He|]. split; [exact Hf|exact Hagain].
Defined.

(** An invoice of 1200 with a credit note of 100. *)
Definition credited_invoice : Invoice :=
  MkInvoice "inv-1" "client-1" "RUB" (Some "p-1") 19844 19874 1000 200 1200 0 1100 0 100
    InvoiceStatus.SENT InvoicePdfStatus.READY (Some 0) (Some 0) None None (Some 0).

Lemma invoice_snapshot_verdict_witness :
  exists p violations,
    InvoiceSnapshots._build_invoice_snapshot_payload "sub-1" "p-1" credited_invoice [1200] (fresh_session empty_db) =
      (Ok p, fresh_session empty_db) /\
    Snapshots.evaluate_snapshot_invariants (canonical p) (fresh_session empty_db) = (Ok violations, fresh_session empty_db) /\
    "invoice_balance_mismatch" ∈ violations.
Proof.
  destruct (InvoiceSnapshots._build_invoice_snapshot_payload "sub-1" "p-1" credited_invoice [1200] (fresh_session empty_db))
    as [[p|e] u] eqn:Hp; [|vm_compute in Hp; discriminate Hp].
  destruct (payload_run _ _ _ _ _ _ _ Hp) as (-> & _).
  destruct (invoice_snapshot_verdict "sub-1" "p-1" credited_invoice [1200] (fresh_session empty_db) p (fresh_session empty_db))
    as (violations & Hv & Hmis & _); [split; vm_compute; congruence|done|exact Hp|].
  exists p, violations. split; [done|]. split; [exact Hv|]. apply Hmis. done.
Defined.
