(* ===== verification/MoneyReplay.v ===== *)
(** * Reports and replays of the money flow

    services/money_flow: the explanation of an invoice for the CFO (cfo_explain.py), the
    replay of a billing period (replay.py), the health report (diagnostics.py), and the
    endpoints of routers/admin/money_flow.py. *)
From Stdlib Require Import Ascii.
From S2P Require Import Prelude Doubles Json Enums Models Instants AuditTrail Policy BillingPeriods.
From S2P Require Import MoneyFlow.

(** ** Python idioms *)

(** [s.lower()], on ASCII *)
Fixpoint lower (s : string) : string :=
  match s with
  | EmptyString => EmptyString
  | String c r =>
      let n := nat_of_ascii c in
      String (if (65 <=? n)%nat && (n <=? 90)%nat then ascii_of_nat (n + 32) else c) (lower r)
  end.

(** [needle in s] *)
Definition contains (needle s : string) : bool := bool_decide (is_Some (String.index 0 needle s)).

(** [sorted(set(l))] *)
Definition sorted_set (l : list string) : list string := merge_sort String.le (remove_dups l).

Definition count {A} (P : A -> bool) (l : list A) : Z := Z.of_nat (length (List.filter P l)).

(** [int(float(liters) * 1000)] of a [Numeric(18,3)] given in thousandths: the nearest
    double of the decimal, then the nearest double of the product, cut. *)
Definition millilitres (liters : Z) : Z := truncate (float_mul (float_of_thousandths liters) (float_of_int 1000)).

(** ** Totals of fuel *)

Record FuelTotals := MkFuelTotals {
  tx_count : Z;
  volume_ml : Z;
  amount_minor : Z;
}.

(** The fuel transactions of a client between two instants, with one of the statuses. *)
Definition fuel_between (client_id : string) (statuses : list FuelTransactionStatus.FuelTransactionStatus)
    (start_at end_at : Z) : PM (list FuelTransaction) :=
  q_all (fun d => fuel_transactions (flow d)) (fun tx =>
    (ft_client_id tx =? client_id)%py && bool_decide (ft_status tx ∈ statuses) &&
    (start_at <=? ft_occurred_at tx) && (ft_occurred_at tx <=? end_at)).

(** [count, coalesce(sum(volume_ml), 0), coalesce(sum(amount_total_minor), 0)] *)
Definition totals_of (l : list FuelTransaction) : FuelTotals :=
  MkFuelTotals (Z.of_nat (length l)) (sum_of ft_volume_ml l) (sum_of ft_amount_total_minor l).

Definition totals_dict (t : FuelTotals) : dict :=
  [("tx_count", JInt (tx_count t)); ("volume_ml", JInt (volume_ml t)); ("amount_minor", JInt (amount_minor t))].

(** The links of a kind. *)
Definition links_where (P : MoneyFlowLink -> bool) : PM (list MoneyFlowLink) :=
  q_all (fun d => flow_links (flow d)) P.

(** ** The explanation of an invoice (cfo_explain.py) *)

Module CfoExplain.
Import MoneyFlowLinkNodeType MoneyFlowLinkType.

Definition FUEL_METRIC_KEYS : list string := ["fuel_tx"; "fuel_volume"; "FUEL_TX_COUNT"; "FUEL_VOLUME"].

(** [v in metrics]: a set refuses what cannot be hashed. *)
Definition in_metrics (v : json) : PM bool :=
  match v with
  | JStr s => mret (bool_decide (s ∈ FUEL_METRIC_KEYS))
  | JList _ | JDict _ => raise TypeError
  | _ => mret false
  end.

(** A loop that returns at the first element that passes. *)
Fixpoint any_of {A} (f : A -> PM bool) (l : list A) : PM bool :=
  match l with
  | [] => mret false
  | a :: l => b ← f a; if (b : bool) then mret true else any_of f l
  end.

Definition _contains_metric_keys (container : json) : PM bool :=
  match container with
  | JDict d => mret (existsb (fun k => bool_decide (k ∈ FUEL_METRIC_KEYS)) d.*1)
  | JList l => any_of (fun item =>
      match item with
      | JDict d => in_metrics (if truthy (get d "metric") then get d "metric" else get d "code")
      | _ => mret false
      end) l
  | _ => mret false
  end.

(** [isinstance(part, dict) and part.get("metric") in metrics] *)
Definition part_metric (part : json) : PM bool :=
  match part with JDict d => in_metrics (get d "metric") | _ => mret false end.

Definition _metric_rules_include (rules : json) : PM bool :=
  match rules with
  | JList l => any_of (fun rule =>
      match rule with
      | JDict d => b ← part_metric (get d "if"); if (b : bool) then mret true else part_metric (get d "then")
      | _ => mret false
      end) l
  | _ => mret false
  end.

Definition tariff_has_fuel_metrics (tariff_definition : json) : PM bool :=
  match tariff_definition with
  | JDict d =>
      b ← any_of _contains_metric_keys [get d "included"; get d "overage"; get d "caps"];
      if (b : bool) then mret true else _metric_rules_include (get d "metric_rules")
  | _ => mret false
  end.

(** services/crm/repository.py *)
Definition get_tariff (tariff_id : string) : PM (option CRMTariffPlan) :=
  q_one_or_none (fun d => tariff_plans (crm d)) (fun t => (crt_id t =? tariff_id)%py).

Definition get_feature_flag (tenant_id : Z) (client_id : string) (feature : CRMFeatureFlagType.CRMFeatureFlagType)
    : PM (option CRMFeatureFlag) :=
  q_one_or_none (fun d => feature_flags (crm d))
    (fun f => (crf_tenant_id f =? tenant_id) && (crf_client_id f =? client_id)%py && (crf_feature f =? feature)%py).

Definition _should_include_fuel_metrics (subscription : option CRMSubscription) : PM bool :=
  match subscription with
  | None => mret false
  | Some sub =>
      tariff ← get_tariff (crs_tariff_plan_id sub);
      match tariff with
      | None => mret false
      | Some tariff =>
          metered ← tariff_has_fuel_metrics (default (JDict []) (crt_definition tariff));
          if (metered : bool) then
            fuel_flag ← get_feature_flag (crs_tenant_id sub) (crs_client_id sub)
              CRMFeatureFlagType.SUBSCRIPTION_METER_FUEL_ENABLED;
            mret (from_option crf_enabled false fuel_flag)
          else mret false
      end
  end.

Definition _fuel_totals_for_invoice `{Timezone} (invoice : Invoice) : PM FuelTotals :=
  let '(start_at, end_at) :=
    BillingPeriodService.period_bounds_for_dates (inv_period_from invoice) (inv_period_to invoice) in
  l ← fuel_between (inv_client_id invoice) [FuelTransactionStatus.SETTLED] start_at end_at;
  mret (totals_of l).

(** The keys of [totals]. *)
Inductive bucket : Set := base_fee | overage | fuel_usage | logistics_usage.

#[global] Instance bucket_eq_dec : EqDecision bucket.
Proof. solve_decision. Defined.

Definition _classify_line (line : InvoiceLine) : bucket :=
  let product_id := lower (inl_product_id line) in
  if contains "fuel" product_id then fuel_usage
  else if contains "logistics" product_id then logistics_usage
  else if contains "overage" product_id || contains "proration" product_id || contains "usage" product_id
  then overage
  else base_fee.

Record CFOExplainBreakdown := MkBreakdown {
  bd_base_fee : Z;
  bd_overage : Z;
  bd_fuel_usage : Z;
  bd_logistics_usage : Z;
}.

(** [totals[bucket] += amount] *)
Definition add_to (b : bucket) (amount : Z) (t : CFOExplainBreakdown) : CFOExplainBreakdown :=
  match b with
  | base_fee => MkBreakdown (bd_base_fee t + amount) (bd_overage t) (bd_fuel_usage t) (bd_logistics_usage t)
  | overage => MkBreakdown (bd_base_fee t) (bd_overage t + amount) (bd_fuel_usage t) (bd_logistics_usage t)
  | fuel_usage => MkBreakdown (bd_base_fee t) (bd_overage t) (bd_fuel_usage t + amount) (bd_logistics_usage t)
  | logistics_usage => MkBreakdown (bd_base_fee t) (bd_overage t) (bd_fuel_usage t) (bd_logistics_usage t + amount)
  end.

Definition summarize_invoice_lines (lines : list InvoiceLine) : CFOExplainBreakdown :=
  fold_left (fun t line => add_to (_classify_line line) (inl_line_amount line) t) lines (MkBreakdown 0 0 0 0).

Record CFOExplainLinks := MkLinks {
  charges : list string;
  usage : list string;
  ledger_postings : list string;
  payments : list string;
}.

Definition _build_links (links : list MoneyFlowLink) : CFOExplainLinks :=
  let pick (P : MoneyFlowLink -> bool) (id : MoneyFlowLink -> string) := sorted_set (map id (List.filter P links)) in
  MkLinks
    (pick (fun l => (mfl_link_type l =? GENERATES)%py && (mfl_src_type l =? SUBSCRIPTION_CHARGE)%py) mfl_src_id)
    (pick (fun l => (mfl_link_type l =? FEEDS)%py && (mfl_src_type l =? FUEL_TX)%py) mfl_src_id)
    (pick (fun l => (mfl_link_type l =? POSTS)%py && (mfl_dst_type l =? LEDGER_TX)%py) mfl_dst_id)
    (pick (fun l => (mfl_link_type l =? SETTLES)%py && (mfl_src_type l =? PAYMENT)%py) mfl_src_id).

Record CFOExplainResponse := MkCFOExplain {
  ce_invoice_id : string;
  ce_client_id : string;
  ce_currency : string;
  ce_total_with_tax : Z;
  ce_amount_paid : Z;
  ce_amount_due : Z;
  ce_breakdown : CFOExplainBreakdown;
  ce_links : CFOExplainLinks;
  ce_snapshots : Snapshots.status;
  ce_anomalies : list string;
  ce_fuel : option dict;
}.

Definition anomalies_of (links : CFOExplainLinks) (status : Snapshots.status) : list string :=
  (match ledger_postings links with [] => ["missing_ledger_posting"] | _ => [] end) ++
  (match charges links with [] => ["missing_charge_links"] | _ => [] end) ++
  (if Snapshots.status_passed status then [] else ["snapshot_invariants_failed"]).

(** The link of the subscription that generated the invoice. *)
Definition is_subscription_link (l : MoneyFlowLink) : bool :=
  (mfl_src_type l =? SUBSCRIPTION)%py && (mfl_dst_type l =? INVOICE)%py && (mfl_link_type l =? GENERATES)%py.

Definition fuel_payload `{Timezone} (invoice : Invoice) (links : list MoneyFlowLink) : PM dict :=
  totals ← _fuel_totals_for_invoice invoice;
  let feeds l := (mfl_src_type l =? FUEL_TX)%py && (mfl_link_type l =? FEEDS)%py && (mfl_dst_type l =? INVOICE)%py in
  mret (totals_dict totals ++
    [ ("link_ids", JList (map JStr (sorted_set (map mfl_id (List.filter feeds links)))));
      ("replay", JDict [("status", JStr "not_run")]) ]).

Definition build_cfo_explain `{Timezone} (invoice_id : string) : PM CFOExplainResponse :=
  invoice ← q_first (fun d => invoices (billing d)) (fun i => (inv_id i =? invoice_id)%py);
  match invoice with
  | None => raise (MoneyFlowNotFound "invoice_not_found")
  | Some invoice =>
      lines ← q_all (fun d => invoice_lines (billing d)) (fun l => (inl_invoice_id l =? invoice_id)%py);
      let breakdown := summarize_invoice_lines lines in
      links ← links_where (fun l => (mfl_src_id l =? invoice_id)%py || (mfl_dst_id l =? invoice_id)%py);
      let links_summary := _build_links links in
      subscription ← match find is_subscription_link links with
                     | None => mret None
                     | Some link => q_first (fun d => subscriptions (crm d)) (fun c => (crs_id c =? mfl_src_id link)%py)
                     end;
      rows ← q_all (fun d => snapshots (flow d)) (fun r => (mis_flow_ref_id r =? invoice_id)%py);
      let status := Snapshots.snapshot_status rows in
      metered ← _should_include_fuel_metrics subscription;
      fuel ← if (metered : bool) then (payload ← fuel_payload invoice links; mret (Some payload)) else mret None;
      mret (MkCFOExplain (inv_id invoice) (inv_client_id invoice) (inv_currency invoice)
        (inv_total_with_tax invoice) (inv_amount_paid invoice) (inv_amount_due invoice) breakdown links_summary
        status (anomalies_of links_summary status) fuel)
  end.
End CfoExplain.

(** ** The replay of a billing period (replay.py) *)

Module Replay.
Import MoneyFlowLinkNodeType MoneyFlowLinkType.

Record MoneyReplayResult := MkMoneyReplayResult {
  mode : MoneyReplayMode.MoneyReplayMode;
  scope : MoneyReplayScope.MoneyReplayScope;
  recompute_hash : option string;
  diff : option Diff.MoneyFlowDiff;
  links_rebuilt : option Z;
  summary : option FuelTotals;
}.

Definition _fuel_totals (client_id : string) (period : BillingPeriod) : PM FuelTotals :=
  l ← fuel_between client_id [FuelTransactionStatus.SETTLED] (bp_start_at period) (bp_end_at period);
  mret (totals_of l).

(** The number of postings and the sum of their debits. *)
Definition _fuel_ledger_summary (fuel_tx_ids : list string) : PM (Z * Z) :=
  match fuel_tx_ids with
  | [] => mret (0, 0)
  | _ =>
      txs ← q_all (fun d => il_transactions (internal d)) (fun t =>
        (ilt_transaction_type t =? InternalLedgerTransactionType.FUEL_SETTLEMENT)%py &&
        bool_decide (ilt_external_ref_id t ∈ fuel_tx_ids));
      match map ilt_id txs with
      | [] => mret (0, 0)
      | ledger_ids =>
          debits ← q_all (fun d => il_entries (internal d)) (fun e =>
            bool_decide (ile_ledger_transaction_id e ∈ ledger_ids) &&
            (ile_direction e =? InternalLedgerEntryDirection.DEBIT)%py);
          mret (Z.of_nat (length txs), sum_of ile_amount debits)
      end
  end.

Definition invoices_of_period (client_id : string) (period : BillingPeriod) : PM (list Invoice) :=
  q_all (fun d => invoices (billing d)) (fun i =>
    (inv_client_id i =? client_id)%py && (inv_billing_period_id i =? Some (bp_id period))%py).

(** The amount and the volume the fuel lines of the invoices show. *)
Definition _fuel_invoice_summary (client_id : string) (period : BillingPeriod) : PM (Z * Z) :=
  invoices ← invoices_of_period client_id period;
  match invoices with
  | [] => mret (0, 0)
  | _ =>
      lines ← q_all (fun d => invoice_lines (billing d))
        (fun l => bool_decide (inl_invoice_id l ∈ map inv_id invoices));
      let fuel_lines := List.filter (fun l => contains "fuel" (lower (inl_product_id l))) lines in
      mret (sum_of inl_line_amount fuel_lines,
            sum_of (fun l => from_option millilitres 0 (inl_liters l)) fuel_lines)
  end.

(** The sources of the links of a kind, among [rows]. *)
Definition linked_sources (type : MoneyFlowLinkType.MoneyFlowLinkType)
    (dst : MoneyFlowLinkNodeType.MoneyFlowLinkNodeType) (rows : list MoneyFlowLink) : list string :=
  map mfl_src_id (List.filter (fun l => (mfl_link_type l =? type)%py && (mfl_dst_type l =? dst)%py) rows).

Definition missing_from (linked ids : list string) : list string :=
  List.filter (fun id => negb (bool_decide (id ∈ linked))) ids.

(** The transactions that lack a link to their posting, their period, an invoice. *)
Definition missing_fuel_links (client_id : string) (period : BillingPeriod) (ids : list string)
    : PM (list string * list string * list string) :=
  match ids with
  | [] => mret ([], [], [])
  | _ =>
      invoices ← invoices_of_period client_id period;
      rows ← links_where (fun l => (mfl_src_type l =? FUEL_TX)%py && bool_decide (mfl_src_id l ∈ ids));
      mret (missing_from (linked_sources POSTS LEDGER_TX rows) ids,
            missing_from (linked_sources RELATES BILLING_PERIOD rows) ids,
            match invoices with [] => [] | _ => missing_from (linked_sources FEEDS INVOICE rows) ids end)
  end.

Definition named (name : string) (l : list string) : list string := match l with [] => [] | _ => [name] end.

Definition _compare_fuel_replay (client_id : string) (period : BillingPeriod) (fuel_totals : FuelTotals)
    : PM Diff.MoneyFlowDiff :=
  txs ← fuel_between client_id [FuelTransactionStatus.SETTLED] (bp_start_at period) (bp_end_at period);
  let fuel_tx_ids := map ft_id txs in
  let missing_ledger_postings := count (fun tx => negb (truthy_str (ft_ledger_transaction_id tx))) txs in
  '(ledger_links, period_links, invoice_links) ← missing_fuel_links client_id period fuel_tx_ids;
  let missing_link_types := named "fuel_tx_ledger_link" ledger_links ++
    named "fuel_tx_billing_period_link" period_links ++ named "fuel_tx_invoice_link" invoice_links in
  let missing_links_count := Z.of_nat (length ledger_links + length period_links + length invoice_links) in
  '(ledger_count, ledger_amount) ← _fuel_ledger_summary fuel_tx_ids;
  '(invoice_amount, invoice_volume) ← _fuel_invoice_summary client_id period;
  let mismatched_totals :=
    (if ledger_count =? tx_count fuel_totals then [] else ["tx_count"]) ++
    (if ledger_amount =? amount_minor fuel_totals then [] else ["amount_minor"]) in
  let mismatched_invoice :=
    (if negb (invoice_amount =? 0) && negb (invoice_amount =? amount_minor fuel_totals) then ["amount_minor"] else []) ++
    (if negb (invoice_volume =? 0) && negb (invoice_volume =? volume_ml fuel_totals) then ["volume_ml"] else []) in
  let recommended_action :=
    if negb (missing_links_count =? 0) then "REBUILD_LINKS"
    else if negb (missing_ledger_postings =? 0) then "REBUILD_POSTINGS"
    else match mismatched_totals ++ mismatched_invoice with [] => "NONE" | _ => "REVIEW_TOTALS" end in
  mret (Diff.MkMoneyFlowDiff mismatched_totals missing_link_types [] recommended_action
    (Some missing_links_count) (Some missing_ledger_postings) (Some mismatched_invoice)).

(** [{invoice.currency: invoice for invoice in invoices}.get(currency)]: the last one. *)
Definition invoice_by_currency (invoices : list Invoice) (currency : string) : option Invoice :=
  last (List.filter (fun i => (inv_currency i =? currency)%py) invoices).

(** The links of one transaction. *)
Definition fuel_links (period : BillingPeriod) (invoices : list Invoice) (tx : FuelTransaction)
    : list Graph.MoneyFlowLinkSpec :=
  [ Graph.MkSpec FUEL_TX (ft_id tx) RELATES BILLING_PERIOD (bp_id period)
      (Some [("occurred_at", JStr (isoformat (ft_occurred_at tx)))]) ] ++
  (match str_or_none (ft_ledger_transaction_id tx) with
   | Some id => [Graph.MkSpec FUEL_TX (ft_id tx) POSTS LEDGER_TX id None]
   | None => []
   end) ++
  (match invoice_by_currency invoices (ft_currency tx) with
   | Some invoice => [Graph.MkSpec FUEL_TX (ft_id tx) FEEDS INVOICE (inv_id invoice) None]
   | None => []
   end).

(** [builders], a dict by tenant in insertion order: the links of a transaction are added to
    the builder of its tenant, which is created when there is none. *)
Fixpoint add_links (builders : list (Z * Graph.MoneyFlowGraphBuilder)) (tx : FuelTransaction)
    (links : list Graph.MoneyFlowLinkSpec) : list (Z * Graph.MoneyFlowGraphBuilder) :=
  match builders with
  | [] => [(ft_tenant_id tx,
            fold_left Graph.add_link links (Graph.MkBuilder (ft_tenant_id tx) (ft_client_id tx) []))]
  | (tenant, b) :: rest =>
      if tenant =? ft_tenant_id tx then (tenant, fold_left Graph.add_link links b) :: rest
      else (tenant, b) :: add_links rest tx links
  end.

(** The number of links reported, with what the session tracks: nothing is flushed. *)
Definition _rebuild_fuel_links (client_id : string) (period : BillingPeriod)
    : PM (Z * list (tracked MoneyFlowLink)) :=
  txs ← fuel_between client_id [FuelTransactionStatus.SETTLED; FuelTransactionStatus.REVERSED]
    (bp_start_at period) (bp_end_at period);
  match txs with
  | [] => mret (0, [])
  | _ =>
      invoices ← invoices_of_period client_id period;
      let builders := fold_left (fun bs tx => add_links bs tx (fuel_links period invoices tx)) txs [] in
      records ← for_each builders (fun '(tenant_id, b) =>
        Graph.ensure_money_flow_links tenant_id client_id (Graph.build b));
      mret (sum_of (fun l => Z.of_nat (length l)) records, concat records)
  end.

Section Run.
Context (W : world Db).

Definition build_recompute_hash (payload : dict) : string := sha256_hex W (canonical_json (JDict payload)).

Definition run_money_flow_replay (client_id billing_period_id : string) (m : MoneyReplayMode.MoneyReplayMode)
    (sc : MoneyReplayScope.MoneyReplayScope) (expected_snapshot actual_snapshot : option dict)
    : PM (MoneyReplayResult * list (tracked MoneyFlowLink)) :=
  let key_of := [ ("client_id", JStr client_id); ("billing_period_id", JStr billing_period_id);
                  ("scope", JStr (MoneyReplayScope.value sc)) ] in
  match sc with
  | MoneyReplayScope.FUEL =>
      period ← q_first (fun d => billing_periods (billing d)) (fun p => (bp_id p =? billing_period_id)%py);
      match period with
      | None => raise (ValueError "billing period not found")
      | Some period =>
          totals ← _fuel_totals client_id period;
          match m with
          | MoneyReplayMode.DRY_RUN =>
              let h := build_recompute_hash (key_of ++ [("fuel_totals", JDict (totals_dict totals))]) in
              mret (MkMoneyReplayResult m sc (Some h) None None (Some totals), [])
          | MoneyReplayMode.COMPARE =>
              d ← _compare_fuel_replay client_id period totals;
              mret (MkMoneyReplayResult m sc None (Some d) None (Some totals), [])
          | MoneyReplayMode.REBUILD_LINKS =>
              '(n, records) ← _rebuild_fuel_links client_id period;
              mret (MkMoneyReplayResult m sc None None (Some n) (Some totals), records)
          end
      end
  | _ =>
      mret (match m with
            | MoneyReplayMode.DRY_RUN =>
                MkMoneyReplayResult m sc (Some (build_recompute_hash key_of)) None None None
            | MoneyReplayMode.COMPARE =>
                MkMoneyReplayResult m sc None
                  (Some (Diff.diff_snapshots (default [] expected_snapshot) (default [] actual_snapshot))) None None
            | MoneyReplayMode.REBUILD_LINKS => MkMoneyReplayResult m sc None None (Some 0) None
            end, [])
  end.
End Run.
End Replay.

(** ** The health report (diagnostics.py) *)

Module Diagnostics.
Import MoneyFlowLinkNodeType MoneyFlowLinkType.

Record MoneyHealthOffender := MkOffender {
  off_flow_type : string;
  off_flow_ref_id : string;
  off_state : string;
  off_age_hours : Z;
  off_reason : string;
}.

Record MoneyHealthReport := MkMoneyHealthReport {
  orphan_ledger_transactions : Z;
  missing_ledger_postings : Z;
  invariant_violations : Z;
  stuck_authorized : Z;
  stuck_pending_settlement : Z;
  cross_period_anomalies : Z;
  missing_money_flow_links : Z;
  invoices_missing_subscription_links : Z;
  charges_missing_invoice_links : Z;
  charge_key_duplicates : Z;
  segment_gaps_or_overlaps : Z;
  missing_snapshots : Z;
  missing_subscription_snapshots : Z;
  disconnected_graph : Z;
  cfo_explain_not_ready : Z;
  fuel_missing_ledger_links : Z;
  fuel_missing_billing_period_links : Z;
  fuel_missing_invoice_links : Z;
  top_offenders : list MoneyHealthOffender;
}.

(** [debit_total, credit_total, currencies] after the loop *)
Definition tally (t : Z * Z * gset string) (e : InternalLedgerEntry) : Z * Z * gset string :=
  let '(debit, credit, currencies) := t in
  if (InternalLedgerEntryDirection.value (ile_direction e) =? "DEBIT")%py
  then (debit + ile_amount e, credit, {[ile_currency e]} ∪ currencies)
  else (debit, credit + ile_amount e, {[ile_currency e]} ∪ currencies).

Definition _ledger_invariant_violations (l : list InternalLedgerEntry) : bool :=
  let '(debit, credit, currencies) := fold_left tally l (0, 0, ∅) in
  if negb (debit =? credit) then true
  else if (1 <? size currencies)%nat then true
  else false.

(** How many of the invoices are not among [linked]. *)
Definition count_unlinked (linked : list string) : PM Z :=
  gets (fun d => count (fun i => negb (bool_decide (inv_id i ∈ linked))) (invoices (billing d))).

Definition _count_missing_links : PM Z :=
  links ← links_where (fun l => (mfl_src_type l =? INVOICE)%py || (mfl_dst_type l =? INVOICE)%py);
  count_unlinked (map (fun l => if (mfl_src_type l =? INVOICE)%py then mfl_src_id l else mfl_dst_id l) links).

Definition _count_missing_subscription_links : PM Z :=
  links ← links_where (fun l => (mfl_src_type l =? SUBSCRIPTION)%py && (mfl_dst_type l =? INVOICE)%py);
  count_unlinked (map mfl_dst_id links).

Definition _count_missing_charge_links : PM Z :=
  links ← links_where (fun l => (mfl_src_type l =? SUBSCRIPTION_CHARGE)%py && (mfl_dst_type l =? INVOICE)%py);
  gets (fun d => count (fun c => negb (bool_decide (crc_id c ∈ map mfl_src_id links))) (subscription_charges (crm d))).

(** [group_by] subscription, period and key; [having count > 1] *)
Definition _count_charge_key_duplicates : PM Z :=
  rows ← q_all (fun d => subscription_charges (crm d)) (fun c => bool_decide (is_Some (crc_charge_key c)));
  let group c := (crc_subscription_id c, crc_billing_period_id c, crc_charge_key c) in
  mret (count (fun g => 1 <? count (fun c => (group c =? g)%py) rows) (remove_dups (map group rows))).

(** [order_by] subscription, period and start. *)
Definition segment_key (g : CRMSubscriptionPeriodSegment) : string * string :=
  (crg_subscription_id g, crg_billing_period_id g).

Definition segment_leb (a b : CRMSubscriptionPeriodSegment) : bool :=
  if bool_decide (crg_subscription_id a = crg_subscription_id b) then
    if bool_decide (crg_billing_period_id a = crg_billing_period_id b)
    then crg_segment_start a <=? crg_segment_start b
    else bool_decide (String.le (crg_billing_period_id a) (crg_billing_period_id b))
  else bool_decide (String.le (crg_subscription_id a) (crg_subscription_id b)).

Definition segment_le (a b : CRMSubscriptionPeriodSegment) : Prop := segment_leb a b = true.

#[global] Instance segment_le_dec : RelDecision segment_le.
Proof. intros a b. unfold segment_le. apply _. Defined.

(** The keys of neighbours that do not meet; [previous] is the segment before. *)
Fixpoint segment_issues (previous : option CRMSubscriptionPeriodSegment) (l : list CRMSubscriptionPeriodSegment)
    : list (string * string) :=
  match l with
  | [] => []
  | g :: l =>
      (match previous with
       | Some p =>
           if (segment_key p =? segment_key g)%py &&
              ((crg_segment_end p <? crg_segment_start g) || (crg_segment_start g <? crg_segment_end p))
           then [segment_key g] else []
       | None => []
       end) ++ segment_issues (Some g) l
  end.

Definition _count_segment_gaps : PM Z :=
  gets (fun d => Z.of_nat (length (remove_dups
    (segment_issues None (merge_sort segment_le (period_segments (crm d))))))).

(** The events without a snapshot of each phase. *)
Definition without_snapshots (events : list MoneyFlowEvent) (rows : list MoneyInvariantSnapshot) : Z :=
  let has phase e := existsb (fun r => (mis_event_id r =? mfe_id e)%py && (mis_phase r =? phase)%py) rows in
  count (fun e => negb (has MoneyInvariantSnapshotPhase.BEFORE e) || negb (has MoneyInvariantSnapshotPhase.AFTER e))
    events.

Definition _count_missing_snapshots : PM Z :=
  gets (fun d => without_snapshots (flow_events (flow d)) (snapshots (flow d))).

Definition _count_missing_subscription_snapshots : PM Z :=
  events ← q_all (fun d => flow_events (flow d))
    (fun e => (mfe_flow_type e =? MoneyFlowType.SUBSCRIPTION_CHARGE)%py);
  gets (fun d => without_snapshots events (snapshots (flow d))).

Definition _count_disconnected_graph : PM Z :=
  links ← links_where (fun l => (mfl_dst_type l =? INVOICE)%py && (mfl_link_type l =? GENERATES)%py &&
    (mfl_src_type l =? SUBSCRIPTION_CHARGE)%py);
  count_unlinked (map mfl_dst_id links).

(** [snapshot_ready]: some snapshot of the invoice and none that failed. *)
Definition snapshot_ready (rows : list MoneyInvariantSnapshot) (invoice_id : string) : bool :=
  match List.filter (fun r => (mis_flow_ref_id r =? invoice_id)%py) rows with
  | [] => false
  | l => forallb mis_passed l
  end.

Definition _count_cfo_not_ready : PM Z :=
  links ← links_where (fun l => (mfl_src_type l =? INVOICE)%py && (mfl_link_type l =? POSTS)%py &&
    (mfl_dst_type l =? LEDGER_TX)%py);
  gets (fun d => count (fun i => negb (bool_decide (inv_id i ∈ map mfl_src_id links)) ||
                                 negb (snapshot_ready (snapshots (flow d)) (inv_id i))) (invoices (billing d))).

Definition offender_of (reason : string) (tx : FuelTransaction) : MoneyHealthOffender :=
  MkOffender "FUEL_TX" (ft_id tx) (FuelTransactionStatus.value (ft_status tx)) 0 reason.

(** The settled transactions in the days of each invoice that do not feed it. *)
Definition _fuel_missing_invoice_links `{Timezone} (limit : nat) : PM (Z * list MoneyHealthOffender) :=
  invoices ← gets (fun d => invoices (billing d));
  missing ← for_each invoices (fun invoice =>
    let '(start_at, end_at) :=
      BillingPeriodService.period_bounds_for_dates (inv_period_from invoice) (inv_period_to invoice) in
    txs ← fuel_between (inv_client_id invoice) [FuelTransactionStatus.SETTLED] start_at end_at;
    links ← links_where (fun l => (mfl_src_type l =? FUEL_TX)%py && (mfl_link_type l =? FEEDS)%py &&
      (mfl_dst_type l =? INVOICE)%py && (mfl_dst_id l =? inv_id invoice)%py);
    mret (List.filter (fun tx => negb (bool_decide (ft_id tx ∈ map mfl_src_id links))) txs));
  mret (Z.of_nat (length (concat missing)),
        take limit (map (offender_of "missing_fuel_invoice_link") (concat missing))).

Definition _fuel_link_health `{Timezone} : PM (Z * Z * Z * list MoneyHealthOffender) :=
  txs ← q_all (fun d => fuel_transactions (flow d)) (fun tx => (ft_status tx =? FuelTransactionStatus.SETTLED)%py);
  match txs with
  | [] => mret (0, 0, 0, [])
  | _ =>
      links ← links_where (fun l => (mfl_src_type l =? FUEL_TX)%py && bool_decide (mfl_src_id l ∈ map ft_id txs));
      let missing type dst := List.filter
        (fun tx => negb (bool_decide (ft_id tx ∈ Replay.linked_sources type dst links))) txs in
      let missing_ledger_links := missing POSTS LEDGER_TX in
      let missing_period_links := missing RELATES BILLING_PERIOD in
      let offenders := take 20 (map (offender_of "missing_fuel_ledger_link") missing_ledger_links ++
                                map (offender_of "missing_fuel_billing_period_link") missing_period_links) in
      '(missing_invoice_links, invoice_offenders) ← _fuel_missing_invoice_links (20 - length offenders);
      mret (Z.of_nat (length missing_ledger_links), Z.of_nat (length missing_period_links),
            missing_invoice_links, offenders ++ invoice_offenders)
  end.

(** [latest_by_flow]: the first event of each flow in a list that starts with the latest. *)
Definition flow_key (e : MoneyFlowEvent) : MoneyFlowType.MoneyFlowType * string := (mfe_flow_type e, mfe_flow_ref_id e).

Fixpoint latest_by_flow (seen : list (MoneyFlowType.MoneyFlowType * string)) (events : list MoneyFlowEvent)
    : list MoneyFlowEvent :=
  match events with
  | [] => []
  | e :: events =>
      if bool_decide (flow_key e ∈ seen) then latest_by_flow seen events
      else e :: latest_by_flow (flow_key e :: seen) events
  end.

Definition hour_us : Z := 3600000000.

(** The flow has been in [state] since before [stale_before]. *)
Definition stuck (stale_before : Z) (state : MoneyFlowState.MoneyFlowState) (e : MoneyFlowEvent) : bool :=
  (mfe_created_at e <? stale_before) && (mfe_state_to e =? state)%py.

(** The offender the loop appends for an event, if any. *)
Definition stuck_offender (now stale_before : Z) (e : MoneyFlowEvent) : list MoneyHealthOffender :=
  let offender reason := MkOffender (MoneyFlowType.value (mfe_flow_type e)) (mfe_flow_ref_id e)
    (MoneyFlowState.value (mfe_state_to e)) ((now - mfe_created_at e) / hour_us) reason in
  (if stuck stale_before MoneyFlowState.AUTHORIZED e then [offender "authorized_stale"] else []) ++
  (if stuck stale_before MoneyFlowState.PENDING_SETTLEMENT e then [offender "pending_settlement_stale"] else []).

Definition cross_period (e : MoneyFlowEvent) : bool :=
  match mfe_meta e with Some (JDict d) => truthy (get d "cross_period") | _ => false end.

(** The settled events with a posting whose entries break an invariant. *)
Definition count_violations : PM Z :=
  settled ← q_all (fun d => flow_events (flow d)) (fun e =>
    (mfe_state_to e =? MoneyFlowState.SETTLED)%py && bool_decide (is_Some (mfe_ledger_transaction_id e)));
  bad ← for_each settled (fun e =>
    l ← q_all (fun d => il_entries (internal d))
      (fun x => (Some (ile_ledger_transaction_id x) =? mfe_ledger_transaction_id e)%py);
    mret (match l with [] => false | _ => _ledger_invariant_violations l end));
  mret (count id bad).

Definition build_money_health (W : world Db) `{Timezone} (stale_hours : Z) : PM MoneyHealthReport :=
  time ← now W;
  let stale_before := time - stale_hours * hour_us in
  posted ← q_all (fun d => flow_events (flow d)) (fun e => truthy_str (mfe_ledger_transaction_id e));
  orphans ← q_all (fun d => il_transactions (internal d))
    (fun t => negb (bool_decide (Some (ilt_id t) ∈ map mfe_ledger_transaction_id posted)));
  unposted ← q_all (fun d => flow_events (flow d)) (fun e =>
    (mfe_state_to e =? MoneyFlowState.SETTLED)%py && negb (bool_decide (is_Some (mfe_ledger_transaction_id e))));
  violations ← count_violations;
  events ← gets (fun d => flow_events (flow d));
  let latest := latest_by_flow [] (sort_on (fun e => - mfe_created_at e) events) in
  '(ledger_links, period_links, invoice_links, fuel_offenders) ← _fuel_link_health;
  missing_links ← _count_missing_links;
  subscription_links ← _count_missing_subscription_links;
  charge_links ← _count_missing_charge_links;
  key_duplicates ← _count_charge_key_duplicates;
  segment_gaps ← _count_segment_gaps;
  no_snapshots ← _count_missing_snapshots;
  no_subscription_snapshots ← _count_missing_subscription_snapshots;
  disconnected ← _count_disconnected_graph;
  not_ready ← _count_cfo_not_ready;
  mret (MkMoneyHealthReport (Z.of_nat (length orphans)) (Z.of_nat (length unposted)) violations
    (count (stuck stale_before MoneyFlowState.AUTHORIZED) latest)
    (count (stuck stale_before MoneyFlowState.PENDING_SETTLEMENT) latest)
    (count cross_period latest) missing_links subscription_links charge_links key_duplicates segment_gaps
    no_snapshots no_subscription_snapshots disconnected not_ready ledger_links period_links invoice_links
    (take 20 (concat (map (stuck_offender time stale_before) latest) ++ fuel_offenders))).
End Diagnostics.

(** ** The endpoints (routers/admin/money_flow.py) *)

Module AdminMoneyFlow.
(** [except MoneyFlowNotFound as exc: raise HTTPException(404, str(exc))] *)
Definition or_404 {A} (m : PM A) : PM A :=
  try_except m (fun e => match e with MoneyFlowNotFound _ => Some (raise (HTTPFrom 404 e)) | _ => None end).

Section Endpoints.
Context (W : world Db) `{Timezone}.

Definition explain_money_flow (flow_type : MoneyFlowType.MoneyFlowType) (flow_ref_id : string)
    : PM Explain.MoneyExplain :=
  or_404 (Explain.build_money_explain flow_type flow_ref_id).

Definition money_health (stale_hours : Z) : PM Diagnostics.MoneyHealthReport :=
  Diagnostics.build_money_health W stale_hours.

Definition cfo_explain (invoice_id : string) : PM CfoExplain.CFOExplainResponse :=
  or_404 (CfoExplain.build_cfo_explain invoice_id).

(** No snapshot is passed on.  The session is closed after the answer: what it tracks and
    has not flushed is dropped. *)
Definition replay_money_flow (client_id billing_period_id : string) (mode : MoneyReplayMode.MoneyReplayMode)
    (scope : MoneyReplayScope.MoneyReplayScope) : PM Replay.MoneyReplayResult :=
  '(result, _) ← Replay.run_money_flow_replay W client_id billing_period_id mode scope None None;
  mret result.
End Endpoints.
End AdminMoneyFlow.
