(* ===== verification/MoneyReplayFacts.v ===== *)
(** * What the reports and replays of MoneyReplay.v guarantee

    The checks of the health report and of the explanation are the invariant of the
    internal ledger; a replay only reads; rebuilding the links is what the comparison asks
    for; the breakdown of an invoice adds up; the report follows the last event of a flow. *)
From S2P Require Import Prelude Json Enums Models AuditTrail Policy BillingPeriods.
From S2P Require Import InternalLedger InternalLedgerFacts MoneyFlow MoneyReplay.

(** ** The health report, the explanation and the ledger agree *)

Section Agreement.
Import InternalLedgerService Explain Diagnostics.

Lemma tally_totals l : forall debit credit currencies,
  fold_left tally l (debit, credit, currencies) =
  (debit + debit_total l, credit + credit_total l, list_to_set (map ile_currency l) ∪ currencies).
Proof.
  unfold debit_total, credit_total. induction l as [|e l IH]; intros debit credit cs.
  - simpl. rewrite !Z.add_0_r. f_equal. set_solver.
  - cbn [fold_left List.filter map list_to_set]. unfold tally at 2.
    change (InternalLedgerEntryDirection.value (ile_direction e) =? "DEBIT")%py with (is_debit e).
    destruct (is_debit e); cbn [negb]; rewrite IH; unfold sum_of; cbn [foldr]; f_equal; [f_equal; lia| |f_equal; lia|];
      set_solver.
Qed.

Lemma currencies_size l : size (list_to_set (map ile_currency l) ∪ ∅ : gset string) = length (currencies l).
Proof.
  rewrite right_id_L by apply _. unfold currencies.
  pose proof (size_list_to_set (C := gset string) (remove_dups (map ile_currency l)) (NoDup_remove_dups _)) as <-.
  f_equal. apply set_eq. intros x. rewrite !elem_of_list_to_set. by rewrite elem_of_remove_dups.
Qed.

(** The two checks are the same predicate of the entries. *)
Lemma violations_unbalanced l accounts :
  _ledger_invariant_violations l = negb (balanced (_build_ledger_summary l accounts)).
Proof.
  unfold _ledger_invariant_violations. rewrite tally_totals, !Z.add_0_l, currencies_size. cbn [balanced _build_ledger_summary].
  destruct (debit_total l =? credit_total l); cbn [negb andb]; [|done].
  destruct (Nat.ltb_spec 1 (length (currencies l))), (Nat.leb_spec (length (currencies l)) 1); try done; lia.
Qed.

Definition entries_of (id : string) (d : Db) : list InternalLedgerEntry :=
  List.filter (fun e => (ile_ledger_transaction_id e =? id)%py) (il_entries (internal d)).

(** Every entry joins its account, once. *)
Lemma joins_entries accs es : accounts_inv accs ->
  Forall (fun e => In (ile_account_id e) (map ila_id accs)) es -> map fst (joins accs es) = es.
Proof.
  intros [Hn _] HF. induction HF as [|e es He HF IH]; [done|]. unfold joins in *. simpl.
  apply in_map_iff in He as (a & Ha & Hin). rewrite <- Ha, (filter_key ila_id accs a Hn Hin). simpl. by rewrite IH.
Qed.

Lemma is_debit_direction e : is_debit e = (ile_direction e =? InternalLedgerEntryDirection.DEBIT)%py.
Proof. unfold is_debit. by destruct (ile_direction e). Qed.

Lemma not_debit_direction e : negb (is_debit e) = (ile_direction e =? InternalLedgerEntryDirection.CREDIT)%py.
Proof. unfold is_debit. by destruct (ile_direction e). Qed.

Lemma totals_of_ledger W d tx : il_inv W d -> In tx (il_transactions (internal d)) ->
  debit_total (entries_of (ilt_id tx) d) = ilt_total_debit tx /\
  credit_total (entries_of (ilt_id tx) d) = ilt_total_credit tx /\ ilt_total_debit tx = ilt_total_credit tx.
Proof.
  intros Hi Hin. pose proof (inv_balanced _ _ Hi) as Hb. rewrite List.Forall_forall in Hb.
  destruct (Hb tx Hin) as (Hd & Hc & Heq). rewrite joined_is in Hd, Hc.
  assert (map fst (joins (il_accounts (internal d)) (entries_of (ilt_id tx) d)) = entries_of (ilt_id tx) d) as Hj.
  { apply joins_entries; [apply (inv_accounts _ _ Hi)|]. pose proof (inv_refers _ _ Hi) as Hr.
    rewrite List.Forall_forall in *. intros e He. apply filter_In in He as [He _]. by apply Hr. }
  unfold joined_sum, entries_sum, direction_sum in Hd, Hc. unfold entries_of in *. rewrite Hj in Hd, Hc.
  rewrite Hd, Hc. unfold debit_total, credit_total.
  split; [|split; [|congruence]]; f_equal; apply List.filter_ext; intros e;
    [by rewrite is_debit_direction|by rewrite not_debit_direction].
Qed.

Lemma one_currency l : (length (currencies l) <=? 1)%nat = true <->
  forall e e', In e l -> In e' l -> ile_currency e = ile_currency e'.
Proof.
  rewrite Nat.leb_le. unfold currencies.
  assert (forall c, c ∈ remove_dups (map ile_currency l) <-> exists e, In e l /\ ile_currency e = c) as Hc.
  { intros c. rewrite elem_of_remove_dups, list_elem_of_In, in_map_iff. naive_solver. }
  pose proof (NoDup_remove_dups (map ile_currency l)) as Hn.
  destruct (remove_dups (map ile_currency l)) as [|c [|c' r]]; simpl; split; intros H; try lia.
  - intros e e' He. destruct (not_elem_of_nil (ile_currency e)). apply Hc. exists e. auto.
  - intros e e' He He'. transitivity c; [|symmetry]; apply list_elem_of_singleton, Hc; eauto.
  - exfalso. apply NoDup_cons in Hn as [Hn _]. apply Hn.
    destruct (proj1 (Hc c)) as (e & He & <-); [by left|].
    destruct (proj1 (Hc c')) as (e' & He' & Hce); [by right; left|]. rewrite (H e e' He He'), Hce. by left.
Qed.

(** What a posting owes: as much is debited as credited, in one currency. *)
Definition net (l : list InternalLedgerEntry) : Z :=
  sum_of (fun e => match ile_direction e with
                   | InternalLedgerEntryDirection.DEBIT => ile_amount e
                   | InternalLedgerEntryDirection.CREDIT => - ile_amount e
                   end) l.

Definition same_currency (l : list InternalLedgerEntry) : Prop :=
  forall e e', In e l -> In e' l -> ile_currency e = ile_currency e'.

Definition books_balance (l : list InternalLedgerEntry) : Prop := net l = 0 /\ same_currency l.

Lemma net_totals l : net l = debit_total l - credit_total l.
Proof.
  unfold net, debit_total, credit_total. induction l as [|e l IH]; [done|]. cbn [sum_of foldr List.filter].
  unfold sum_of in *. rewrite IH, not_debit_direction, is_debit_direction.
  by destruct (ile_direction e); unfold eqb; simpl; lia.
Qed.

Lemma summary_balanced_iff l accounts : balanced (_build_ledger_summary l accounts) = true <-> books_balance l.
Proof.
  cbn [balanced _build_ledger_summary]. unfold books_balance, same_currency.
  rewrite andb_true_iff, one_currency, Z.eqb_eq, net_totals.
  split; intros [H ?]; (split; [lia|done]).
Qed.

Lemma violations_iff l : _ledger_invariant_violations l = false <-> books_balance l.
Proof. by rewrite (violations_unbalanced l []), negb_false_iff, summary_balanced_iff. Qed.

Lemma no_entries_balance : books_balance [].
Proof. split; [done|]. by intros e e' []. Qed.

(** The health report counts the settled events whose posting does not balance. *)
Lemma count_violations_run s : exists n, count_violations s = (Ok n, s) /\
  (n = 0 <-> forall e id, In e (flow_events (flow (live s))) -> mfe_state_to e = MoneyFlowState.SETTLED ->
     mfe_ledger_transaction_id e = Some id -> books_balance (entries_of id (live s))).
Proof.
  set (id_of e := from_option id "" (mfe_ledger_transaction_id e)).
  set (bad e := negb (bool_decide (entries_of (id_of e) (live s) = [])) &&
                _ledger_invariant_violations (entries_of (id_of e) (live s))).
  set (picked e := ((mfe_state_to e =? MoneyFlowState.SETTLED)%py &&
                    bool_decide (is_Some (mfe_ledger_transaction_id e)))).
  exists (count id (map bad (List.filter picked (flow_events (flow (live s)))))).
  split.
  - unfold count_violations. rewrite (bind_ok _ _ s (List.filter picked (flow_events (flow (live s)))) s) by done.
    rewrite (bind_ok _ _ s (map bad (List.filter picked (flow_events (flow (live s))))) s); [done|].
    apply for_each_reads. intros e [_ He]%filter_In.
    apply andb_true_iff in He as [_ [i Hi]%bool_decide_eq_true].
    rewrite (bind_ok _ _ s (entries_of (id_of e) (live s)) s).
    + unfold bad. by destruct (entries_of _ _).
    + unfold q_all, gets, entries_of, id_of. rewrite Hi. do 2 f_equal. apply List.filter_ext.
      intros x. unfold eqb. simpl. apply bool_decide_ext. split; [by intros [=]|by intros ->].
  - assert (forall l, count id (map bad l) = 0 <-> forall e, In e l -> bad e = false) as Hz.
    { unfold count. induction l as [|e l IH]; [by split|]. simpl. destruct (bad e) eqn:He; simpl.
      - split; [lia|]. intros H. specialize (H e (or_introl eq_refl)). congruence.
      - rewrite IH. split; [intros H x [<-|Hx]; auto|auto]. }
    assert (forall e, bad e = false <-> books_balance (entries_of (id_of e) (live s))) as Hb.
    { intros e. unfold bad. destruct (bool_decide_reflect (entries_of (id_of e) (live s) = [])) as [->|].
      - simpl. split; [intros _; apply no_entries_balance|done].
      - apply violations_iff. }
    rewrite Hz. split.
    + intros H e i He Hs Hi. specialize (Hb e). unfold id_of in Hb. rewrite Hi in Hb. apply Hb, H, filter_In.
      split; [done|]. unfold picked, eqb. by rewrite Hs, Hi, !bool_decide_eq_true_2.
    + intros H e [He Hp]%filter_In. apply andb_true_iff in Hp as [Hs%bool_decide_eq_true [i Hi]%bool_decide_eq_true].
      apply Hb. unfold id_of. rewrite Hi. by apply (H e).
Qed.

(** C34 the two checks of a posting agree: an event passes its explanation exactly when the
    entries of its posting debit as much as they credit and share a currency, and exactly
    then the health report does not count it; the report counts none exactly when the
    posting of every settled event balances.  A posting of the internal ledger always
    debits as much as it credits, so there only a second currency fails. *)
Theorem ledger_checks_agree event id s :
  mfe_ledger_transaction_id event = Some id -> id <> "" ->
  let l := entries_of id (live s) in
  exists summary inv violations,
    explain_ledger event s = (Ok (Some summary, inv), s) /\
    (passed inv = true <-> books_balance l) /\
    (_ledger_invariant_violations l = false <-> books_balance l) /\
    count_violations s = (Ok violations, s) /\
    (violations = 0 <-> forall e i, In e (flow_events (flow (live s))) ->
       mfe_state_to e = MoneyFlowState.SETTLED -> mfe_ledger_transaction_id e = Some i ->
       books_balance (entries_of i (live s))) /\
    (forall W, il_inv W (live s) -> In id (map ilt_id (il_transactions (internal (live s)))) ->
       books_balance l <-> same_currency l).
Proof.
  intros He Hid l.
  set (accounts := List.filter (fun a => bool_decide (ila_id a ∈ map ile_account_id l)) (il_accounts (internal (live s)))).
  set (summary := _build_ledger_summary l accounts).
  set (failed := if balanced summary then [] else ["ledger_balanced"; "currency_match"]).
  destruct (count_violations_run s) as (n & Hn & Hz).
  exists summary, (MkInvariants (match failed with [] => true | _ => false end) ["ledger_balanced"; "currency_match"] failed), n.
  split.
  { unfold explain_ledger. assert (str_or_none (mfe_ledger_transaction_id event) = Some id) as ->
      by (rewrite He; simpl; by destruct id). reflexivity. }
  split. { rewrite <- (summary_balanced_iff l accounts). fold summary. unfold failed. cbn [passed]. by destruct (balanced summary). }
  split; [apply violations_iff|]. split; [done|]. split; [done|].
  intros W Hi (tx & Htx & Hin)%in_map_iff.
  destruct (totals_of_ledger W (live s) tx Hi Hin) as (Hd & Hc & Heq). rewrite Htx in Hd, Hc. fold l in Hd, Hc.
  unfold books_balance. rewrite net_totals, Hd, Hc, Heq, Z.sub_diag. tauto.
Qed.
End Agreement.

(** ** Calls that only read *)

Definition reads {A} (m : PM A) : Prop := forall s, (m s).2 = s.

Lemma reads_ret {A} (a : A) : reads (mret a).
Proof. done. Qed.

Lemma reads_raise {A} e : reads (raise (A := A) e).
Proof. done. Qed.

Lemma reads_gets {A} (f : Db -> A) : reads (gets f).
Proof. done. Qed.

Lemma reads_all {A} (table : Db -> list A) P : reads (q_all table P).
Proof. done. Qed.

Lemma reads_first {A} (table : Db -> list A) P : reads (q_first table P).
Proof. done. Qed.

Lemma reads_one_or_none {A} (table : Db -> list A) P : reads (q_one_or_none table P).
Proof. intros s. by rewrite one_or_none_run. Qed.

Lemma reads_bind {A B} (m : PM A) (f : A -> PM B) : reads m -> (forall a, reads (f a)) -> reads (m ≫= f).
Proof.
  intros Hm Hf s. specialize (Hm s). unfold mbind, M_bind. destruct (m s) as [[a|e] t]; simpl in *; subst; [apply Hf|done].
Qed.

Lemma reads_for_each {A B} (l : list A) (f : A -> PM B) : (forall a, reads (f a)) -> reads (for_each l f).
Proof.
  intros Hf. induction l as [|a l IH]; [apply reads_ret|]. apply reads_bind; [done|]. intros b.
  apply reads_bind; [done|]. intros bs. apply reads_ret.
Qed.

Create HintDb reads.
#[export] Hint Resolve reads_ret reads_raise reads_gets reads_all reads_first reads_one_or_none reads_bind
  reads_for_each : reads.

(** Every branch of a call that only reads. *)
Ltac reading :=
  repeat first
    [ progress auto with reads
    | apply reads_bind; [|intros ?]
    | apply reads_for_each; intros ?
    | match goal with
      | |- reads (match ?x with _ => _ end) => destruct x
      | |- reads (let '(_, _) := ?x in _) => destruct x
      end ].

(** ** A replay *)

Section Replays.
Context (W : world Db).
Import Replay.

Lemma reads_replay client period m sc e a : reads (run_money_flow_replay W client period m sc e a).
Proof.
  unfold run_money_flow_replay, _fuel_totals, _compare_fuel_replay, missing_fuel_links, _fuel_ledger_summary,
    _fuel_invoice_summary, _rebuild_fuel_links, invoices_of_period, links_where, fuel_between, Graph.ensure_money_flow_links.
  reading.
Qed.

(** The replay endpoint changes nothing, whatever the mode: the links that REBUILD_LINKS
    counts as rebuilt are dropped with the session, so a comparison gives the same answer
    after it as before.  Outside the fuel scope a comparison compares nothing with nothing
    and never finds a difference. *)
Theorem replay_changes_nothing client period m sc s :
  let run := AdminMoneyFlow.replay_money_flow W client period in
  (forall m' sc', reads (run m' sc')) /\
  (forall m' sc', run m' sc' (run m sc s).2 = run m' sc' s) /\
  (sc <> MoneyReplayScope.FUEL -> m = MoneyReplayMode.COMPARE ->
   exists r, run m sc s = (Ok r, s) /\
     diff r = Some (Diff.MkMoneyFlowDiff [] [] [] "NONE" None None None)).
Proof.
  intros run. assert (forall m sc s, (run m sc s).2 = s) as Hr.
  { intros m' sc'. apply reads_bind; [apply reads_replay|]. intros [r l]. apply reads_ret. }
  split; [intros m' sc' s'; apply Hr|]. split; [intros m' sc'; by rewrite Hr|].
  intros Hsc ->. destruct sc; [|done|]; eexists; split; reflexivity.
Qed.
End Replays.

(** ** Rebuilding the links *)

Section Builders.
Import Graph Replay.

Abbreviation builders := (list (Z * MoneyFlowGraphBuilder)).

Definition has (bs : builders) (tenant : Z) (y : MoneyFlowLinkSpec) : Prop :=
  exists b, In (tenant, b) bs /\ In y (build b).

Definition has_key (bs : builders) (tenant : Z) (k : linkkey) : Prop :=
  exists y, has bs tenant y /\ key y = k.

(** The builders of distinct tenants, each keyed by its links. *)
Definition builders_ok (bs : builders) : Prop :=
  List.NoDup (map fst bs) /\ Forall (fun p => keyed p.2) bs.

Lemma has_cons t b bs t' y : has ((t, b) :: bs) t' y <-> (t = t' /\ In y (build b)) \/ has bs t' y.
Proof.
  unfold has. simpl. split.
  - intros (b' & [H|H] & Hy); [injection H as <- <-; auto|right; eauto].
  - intros [[-> Hy]|(b' & H & Hy)]; eauto.
Qed.

Lemma has_key_cons t b bs t' k :
  has_key ((t, b) :: bs) t' k <-> (t = t' /\ In k (map key (build b))) \/ has_key bs t' k.
Proof.
  unfold has_key. split.
  - intros (y & [[-> Hy]|Hy]%has_cons & <-); [left; split; [done|by apply in_map]|right; eauto].
  - intros [[-> (y & <- & Hy)%in_map_iff]|(y & Hy & <-)]; exists y; (split; [|done]); apply has_cons; auto.
Qed.

Lemma add_links_ok bs tx l : builders_ok bs ->
  builders_ok (add_links bs tx l) /\
  (forall t, In t (map fst (add_links bs tx l)) -> In t (map fst bs) \/ t = ft_tenant_id tx) /\
  (forall t y, has (add_links bs tx l) t y -> has bs t y \/ (t = ft_tenant_id tx /\ In y l)) /\
  (forall t k, has_key (add_links bs tx l) t k <-> has_key bs t k \/ (t = ft_tenant_id tx /\ In k (map key l))).
Proof.
  induction bs as [|[t b] bs IH]; intros [Hn Hk]; cbn [add_links].
  - destruct (add_links_keyed l _ (keyed_empty (ft_tenant_id tx) (ft_client_id tx))) as (Hb & Hy & Hkk).
    split; [split; [repeat constructor; auto|by constructor]|]. split; [simpl; intuition|]. split.
    + intros t y [[<- Hin]|(b & [] & _)]%has_cons. right. split; [done|]. by destruct (Hy y Hin).
    + intros t k. rewrite has_key_cons, Hkk. unfold has_key, has. simpl. naive_solver.
  - simpl in Hn. apply List.NoDup_cons_iff in Hn as [Ht Hn]. apply Forall_cons in Hk as [Hb Hk].
    destruct (Z.eqb_spec t (ft_tenant_id tx)) as [->|Hne].
    + destruct (add_links_keyed l b Hb) as (Hb' & Hy & Hkk).
      split; [split; [by constructor|by constructor]|]. split; [simpl; auto|]. split.
      * intros t y [[<- Hin]|Hin]%has_cons; [|left; apply has_cons; auto].
        destruct (Hy y Hin); [left; apply has_cons; auto|right; auto].
      * intros t k. rewrite !has_key_cons, Hkk. naive_solver.
    + destruct (IH (conj Hn Hk)) as ((Hn' & Hk') & Hfst & Hy & Hkk).
      split; [split; [|by constructor]|split; [|split]].
      * simpl. constructor; [|done]. intros [Hin|Hin]%Hfst; [done|congruence].
      * simpl. intros t' [<-|Hin]; [auto|]. destruct (Hfst t' Hin); auto.
      * intros t' y [[<- Hin]|Hin]%has_cons; [left; apply has_cons; auto|].
        destruct (Hy _ _ Hin) as [?|?]; [left; apply has_cons; auto|auto].
      * intros t' k. rewrite !has_key_cons, Hkk. naive_solver.
Qed.

(** The builders after the loop hold the links of the transactions, under their tenants. *)
Lemma all_links_ok (links : FuelTransaction -> list MoneyFlowLinkSpec) txs : forall bs, builders_ok bs ->
  let bs' := fold_left (fun bs tx => add_links bs tx (links tx)) txs bs in
  builders_ok bs' /\
  (forall t y, has bs' t y -> has bs t y \/ exists tx, In tx txs /\ t = ft_tenant_id tx /\ In y (links tx)) /\
  (forall t k, has_key bs' t k <->
     has_key bs t k \/ exists tx, In tx txs /\ t = ft_tenant_id tx /\ In k (map key (links tx))).
Proof.
  induction txs as [|tx txs IH]; intros bs Hbs; simpl; [naive_solver|].
  destruct (add_links_ok bs tx (links tx) Hbs) as (Hbs' & _ & Hy & Hk).
  destruct (IH _ Hbs') as (Hok & Hy' & Hk'). split; [done|]. split.
  - intros t y H. destruct (Hy' t y H) as [H'|(tx' & ? & ? & ?)]; [|right; exists tx'; auto].
    destruct (Hy t y H') as [?|[? ?]]; [auto|right; exists tx; auto].
  - intros t k. rewrite Hk', Hk. naive_solver.
Qed.

(** The links of all builders, with their tenants. *)
Definition items (bs : builders) : list (Z * MoneyFlowLinkSpec) :=
  concat (map (fun p => map (pair p.1) (build p.2)) bs).

Lemma items_has bs t y : In (t, y) (items bs) <-> has bs t y.
Proof.
  unfold items, has. split.
  - intros (l & Hl & Hy)%in_concat. apply in_map_iff in Hl as ([t' b] & <- & Hin).
    apply in_map_iff in Hy as (y' & H & Hy). injection H as -> ->. exists b. auto.
  - intros (b & Hin & Hy). apply in_concat. exists (map (pair t) (build b)).
    split; [apply in_map_iff; by exists (t, b)|by apply in_map].
Qed.

Lemma items_distinct bs : builders_ok bs -> List.NoDup (map item_columns (items bs)).
Proof.
  induction bs as [|[t b] bs IH]; intros [Hn Hk]; [constructor|]. simpl in Hn.
  apply List.NoDup_cons_iff in Hn as [Ht Hn]. apply Forall_cons in Hk as [Hb Hk].
  unfold items. cbn [map concat]. rewrite map_app. apply NoDup_ListNoDup, NoDup_app.
  rewrite !NoDup_ListNoDup. split; [|split; [|by apply IH]].
  - rewrite map_map. exact (keyed_columns t (build b) (proj2 Hb)).
  - intros c Hc Hc'. apply list_elem_of_In, in_map_iff in Hc as (x & <- & Hx), Hc' as ([t' y] & He & Hy).
    apply in_map_iff in Hx as (z & <- & _). apply items_has in Hy as (b' & Hin & _).
    apply Ht. unfold item_columns, spec_columns in He. simpl in He. injection He as -> _ _ _ _ _.
    apply in_map_iff. by exists (t, b').
Qed.

Lemma ensure_items client bs s :
  for_each bs (fun '(tenant, b) => ensure_money_flow_links tenant client (build b)) s =
  (Ok (map (fun p => map (track p.1 client (links_of (live s))) (build p.2)) bs), s).
Proof.
  induction bs as [|[t b] bs IH]; [done|]. cbn [for_each]. rewrite (bind_ok _ _ _ _ _ (ensure_run t client (build b) s)).
  cbv beta. rewrite (bind_ok _ _ _ _ _ IH). done.
Qed.
End Builders.

Section Rebuild.
Context (W : world Db) (alone_W : alone W).
Import MoneyFlowLinkNodeType MoneyFlowLinkType Graph Replay.

(** What the queries of a replay find. *)
Definition fuel_rows (client : string) (statuses : list FuelTransactionStatus.FuelTransactionStatus)
    (period : BillingPeriod) (d : Db) : list FuelTransaction :=
  List.filter (fun tx => (ft_client_id tx =? client)%py && bool_decide (ft_status tx ∈ statuses) &&
    (bp_start_at period <=? ft_occurred_at tx) && (ft_occurred_at tx <=? bp_end_at period)) (fuel_transactions (flow d)).

Definition settled_fuel client period d := fuel_rows client [FuelTransactionStatus.SETTLED] period d.
Definition linked_fuel client period d :=
  fuel_rows client [FuelTransactionStatus.SETTLED; FuelTransactionStatus.REVERSED] period d.

Definition period_invoices (client : string) (period : BillingPeriod) (d : Db) : list Invoice :=
  List.filter (fun i => (inv_client_id i =? client)%py && (inv_billing_period_id i =? Some (bp_id period))%py)
    (invoices (billing d)).

(** The links the replay asks for, with their tenants. *)
Definition wanted (client : string) (period : BillingPeriod) (d : Db) : list (Z * MoneyFlowLinkSpec) :=
  items (fold_left (fun bs tx => add_links bs tx (fuel_links period (period_invoices client period d) tx))
    (linked_fuel client period d) []).

Lemma settled_linked client period d tx : In tx (settled_fuel client period d) -> In tx (linked_fuel client period d).
Proof.
  unfold settled_fuel, linked_fuel, fuel_rows. rewrite !filter_In, !andb_true_iff, !bool_decide_eq_true.
  intros [? [[[? Hs%list_elem_of_singleton] ?] ?]]. repeat split; try done. rewrite Hs. set_solver.
Qed.

Lemma wanted_spec client period d :
  List.NoDup (map item_columns (wanted client period d)) /\
  (forall t y, In (t, y) (wanted client period d) -> exists tx, In tx (linked_fuel client period d) /\
     t = ft_tenant_id tx /\ In y (fuel_links period (period_invoices client period d) tx)) /\
  (forall tx x, In tx (linked_fuel client period d) -> In x (fuel_links period (period_invoices client period d) tx) ->
     exists y, In (ft_tenant_id tx, y) (wanted client period d) /\ item_columns (ft_tenant_id tx, y) = spec_columns (ft_tenant_id tx) x).
Proof.
  destruct (all_links_ok (fuel_links period (period_invoices client period d)) (linked_fuel client period d) [])
    as (Hok & Hy & Hk); [split; constructor|]. split; [by apply items_distinct|]. split.
  - intros t y Hin%items_has. destruct (Hy t y Hin) as [(b & [] & _)|?]; done.
  - intros tx x Htx Hx. destruct (Hk (ft_tenant_id tx) (key x)) as [_ H].
    destruct H as (y & Hhas & He); [right; exists tx; split; [done|]; split; [done|by apply in_map]|].
    exists y. split; [by apply items_has|]. by apply key_columns.
Qed.

Lemma rebuild_run client period s : exists n,
  _rebuild_fuel_links client period s =
    (Ok (n, map (fun x => track x.1 client (links_of (live s)) x.2) (wanted client period (live s))), s) /\
  n = Z.of_nat (length (wanted client period (live s))).
Proof.
  unfold _rebuild_fuel_links. rewrite (bind_ok _ _ s (linked_fuel client period (live s)) s) by done. unfold wanted.
  destruct (linked_fuel client period (live s)) as [|tx txs]; [by exists 0|].
  rewrite (bind_ok _ _ s (period_invoices client period (live s)) s) by done. cbv beta zeta.
  set (bs := fold_left _ (tx :: txs) []). rewrite (bind_ok _ _ _ _ _ (ensure_items client bs s)).
  eexists. split; [run_steps|].
  - do 3 f_equal. unfold items. rewrite concat_map, map_map. f_equal. apply map_ext. intros p. by rewrite map_map.
  - clearbody bs. induction bs as [|p bs IH]; [done|]. unfold items in *. simpl.
    rewrite length_app, !length_map in *. rewrite Nat2Z.inj_add, <- IH. done.
Qed.

(** A row of a fuel transaction is found by its kind. *)
Lemma linked_in type dst rows r id : In r rows -> mfl_src_id r = id -> mfl_link_type r = type -> mfl_dst_type r = dst ->
  id ∈ linked_sources type dst rows.
Proof.
  intros Hr <- <- <-. unfold linked_sources. apply list_elem_of_In, in_map, filter_In. split; [done|].
  unfold eqb. by rewrite !bool_decide_eq_true_2.
Qed.

Lemma missing_none linked ids : (forall id, In id ids -> id ∈ linked) -> missing_from linked ids = [].
Proof.
  intros H. apply filter_none, List.Forall_forall. intros id Hid. by rewrite bool_decide_eq_true_2 by auto.
Qed.

Definition posted (tx : FuelTransaction) : Prop := truthy_str (ft_ledger_transaction_id tx) = true.
Definition invoiced (client : string) (period : BillingPeriod) (d : Db) (tx : FuelTransaction) : Prop :=
  is_Some (invoice_by_currency (period_invoices client period d) (ft_currency tx)).

(** A link of the table from a transaction to a posting. *)
Definition posts_link (d : Db) (tx : FuelTransaction) : Prop :=
  exists r, In r (links_of d) /\ mfl_src_type r = FUEL_TX /\ mfl_src_id r = ft_id tx /\
    mfl_link_type r = POSTS /\ mfl_dst_type r = LEDGER_TX.

(** The verdict of a comparison: it always returns, and it asks for links exactly when some
    are missing. *)
Lemma compare_run client period totals s :
  exists posts relates feeds d,
    missing_fuel_links client period (map ft_id (settled_fuel client period (live s))) s = (Ok (posts, relates, feeds), s) /\
    _compare_fuel_replay client period totals s = (Ok d, s) /\
    Diff.missing_links d = named "fuel_tx_ledger_link" posts ++ named "fuel_tx_billing_period_link" relates ++
      named "fuel_tx_invoice_link" feeds /\
    (Diff.recommended_action d = "REBUILD_LINKS" <-> posts <> [] \/ relates <> [] \/ feeds <> []).
Proof.
  unfold _compare_fuel_replay. rewrite (bind_ok _ _ s (settled_fuel client period (live s)) s) by done. cbv beta zeta.
  set (ids := map ft_id (settled_fuel client period (live s))).
  assert (exists p, missing_fuel_links client period ids s = (Ok p, s)) as [[[posts relates] feeds] Hm]
    by (unfold missing_fuel_links; destruct ids; eexists; reflexivity).
  assert (exists p, _fuel_ledger_summary ids s = (Ok p, s)) as [[lc la] Hl].
  { unfold _fuel_ledger_summary. destruct ids; [by eexists|]. unfold q_all. run_steps.
    destruct (map ilt_id _); by eexists. }
  assert (exists p, _fuel_invoice_summary client period s = (Ok p, s)) as [[ia iv] Hi].
  { unfold _fuel_invoice_summary, invoices_of_period, q_all. run_steps. destruct (List.filter _ _); by eexists. }
  rewrite (bind_ok _ _ _ _ _ Hm). cbv beta iota. rewrite (bind_ok _ _ _ _ _ Hl). cbv beta iota.
  rewrite (bind_ok _ _ _ _ _ Hi). cbv beta iota.
  eexists posts, relates, feeds, _. split; [done|]. split; [reflexivity|]. split; [done|].
  cbn [Diff.recommended_action].
  destruct (Z.eqb_spec (Z.of_nat (length posts + length relates + length feeds)) 0) as [H0|H0]; cbn [negb].
  - assert (posts = [] /\ relates = [] /\ feeds = []) as (-> & -> & ->)
      by (destruct posts, relates, feeds; simpl in H0; repeat split; done || lia).
    split; [|intros [?|[?|?]]; done]. destruct (negb _); [done|]. by destruct (_ ++ _).
  - split; [intros _|done]. destruct posts; [|by left]. destruct relates; [|by right; left]. destruct feeds; [|by right; right].
    by destruct H0.
Qed.

Lemma missing_run client period ids s posts relates feeds :
  missing_fuel_links client period ids s = (Ok (posts, relates, feeds), s) ->
  let rows := List.filter (fun l => (mfl_src_type l =? FUEL_TX)%py && bool_decide (mfl_src_id l ∈ ids)) (links_of (live s)) in
  posts = missing_from (linked_sources POSTS LEDGER_TX rows) ids /\
  relates = missing_from (linked_sources RELATES BILLING_PERIOD rows) ids /\
  (feeds = [] \/ feeds = missing_from (linked_sources FEEDS INVOICE rows) ids).
Proof.
  unfold missing_fuel_links. destruct ids as [|id ids]; [intros H; injection H as <- <- <-; auto|].
  unfold invoices_of_period, links_where, q_all. run_steps. intros H. injection H as <- <- <-.
  split; [done|]. split; [done|]. destruct (List.filter _ (invoices _)); auto.
Qed.

(** What a flush of the wanted links makes of the table. *)
Lemma rebuilt client period s : unique_links (links_of (live s)) ->
  exists n l rows u,
    _rebuild_fuel_links client period s = (Ok (n, l), s) /\
    flush_rows W (insert_link W) l s = (Ok rows, u) /\ unique_links (links_of (live u)) /\
    (exists new, live u = on_flow_links (fun t => t ++ new) (live s) /\
       forall r, In r new -> exists tx x, In tx (linked_fuel client period (live s)) /\
         In x (fuel_links period (period_invoices client period (live s)) tx) /\ row_columns r = spec_columns (ft_tenant_id tx) x) /\
    (forall tx x, In tx (linked_fuel client period (live s)) ->
       In x (fuel_links period (period_invoices client period (live s)) tx) ->
       exists r, In r (links_of (live u)) /\ row_columns r = spec_columns (ft_tenant_id tx) x).
Proof.
  intros Hu. destruct (rebuild_run client period s) as (n & Hrun & _).
  destruct (wanted_spec client period (live s)) as (Hn & Hfrom & Hall).
  destruct (flush_tracked W alone_W client (links_of (live s)) (wanted client period (live s)) s)
    as (rows & u & new & Hf & _ & Hl & Huu & H2 & Hnew & _); [done..|].
  do 4 eexists. split; [exact Hrun|]. split; [exact Hf|]. split; [done|]. split.
  - exists new. split; [done|]. intros r Hr. destruct (new_links _ _ _ _ Hnew r Hr) as (_ & [t y] & Hy & Hc).
    destruct (Hfrom t y Hy) as (tx & Htx & -> & Hyin). exists tx, y. auto.
  - intros tx x Htx Hx. destruct (Hall tx x Htx Hx) as (y & Hy & Hc).
    destruct (Forall2_in_l _ _ _ H2 _ Hy) as (r & _ & Hr & Hcr). exists r. split; [done|]. by rewrite Hcr, <- Hc.
Qed.

(** A flushed link of a transaction is found by the comparison. *)
Lemma source_linked client period s r tenant x tx rows :
  In tx (settled_fuel client period (live s)) ->
  rows = List.filter (fun l => (mfl_src_type l =? FUEL_TX)%py &&
    bool_decide (mfl_src_id l ∈ map ft_id (settled_fuel client period (live s)))) (links_of (live s)) ->
  In r (links_of (live s)) -> row_columns r = spec_columns tenant x -> src_type x = FUEL_TX -> src_id x = ft_id tx ->
  ft_id tx ∈ linked_sources (link_type x) (dst_type x) rows.
Proof.
  intros Htx -> Hr Hc Ht Hid. unfold row_columns, spec_columns in Hc. injection Hc as _ Hs Hi Hl Hd _.
  apply (linked_in _ _ _ r); [|congruence..]. apply filter_In. split; [done|].
  unfold eqb. rewrite bool_decide_eq_true_2 by congruence. apply bool_decide_eq_true.
  rewrite Hi, Hid. by apply list_elem_of_In, in_map.
Qed.

Lemma fuel_links_spec period invs tx x : In x (fuel_links period invs tx) ->
  src_type x = FUEL_TX /\ src_id x = ft_id tx /\ (link_type x = POSTS -> posted tx).
Proof.
  unfold fuel_links, posted, truthy_str. rewrite !in_app_iff. intros [[<-|[]]|[Hx|Hx]]; [done| |].
  - destruct (str_or_none _); [|done]. destruct Hx as [<-|[]]. by repeat split.
  - destruct (invoice_by_currency _ _); [|done]. by destruct Hx as [<-|[]].
Qed.

(** A transaction without a posting gets no link to one. *)
Lemma unposted_unlinked client period s u new tx :
  List.NoDup (map ft_id (fuel_transactions (flow (live s)))) ->
  live u = on_flow_links (fun t => t ++ new) (live s) ->
  (forall r, In r new -> exists tx x, In tx (linked_fuel client period (live s)) /\
     In x (fuel_links period (period_invoices client period (live s)) tx) /\ row_columns r = spec_columns (ft_tenant_id tx) x) ->
  In tx (settled_fuel client period (live s)) -> ~ posted tx -> ~ posts_link (live s) tx -> ~ posts_link (live u) tx.
Proof.
  intros Hids Hl Hnew Htx Hnp Hnl (r & Hrin & H1 & H2 & H3 & H4).
  assert (links_of (live u) = links_of (live s) ++ new) as Htab by (by rewrite Hl). rewrite Htab in Hrin.
  apply in_app_iff in Hrin as [Hrin|Hrin]; [apply Hnl; by exists r|].
  destruct (Hnew r Hrin) as (tx' & x & Htx' & Hx & Hcr). unfold row_columns, spec_columns in Hcr.
  injection Hcr as _ Hs1 Hs2 Hs3 Hs4 _. destruct (fuel_links_spec _ _ _ _ Hx) as (_ & Hxs & Hpost).
  assert (tx' = tx) as ->; [|apply Hnp, Hpost; congruence].
  apply filter_In in Htx' as [Htx' _], Htx as [Htx _]. apply (nodup_key ft_id _ _ _ Hids Htx' Htx). congruence.
Qed.

(** What the comparison counts as linked to a posting. *)
Lemma linked_posts d rs tx : (forall r, In r rs -> In r (links_of d) /\ mfl_src_type r = FUEL_TX) ->
  ft_id tx ∈ linked_sources POSTS LEDGER_TX rs -> posts_link d tx.
Proof.
  intros Hrs Hlink. apply list_elem_of_In, in_map_iff in Hlink as (r & Hid & Hrin). apply filter_In in Hrin as [Hrin Hkind].
  apply andb_true_iff in Hkind as [Hk1%bool_decide_eq_true Hk2%bool_decide_eq_true].
  destruct (Hrs r Hrin) as [Hin Ht]. by exists r.
Qed.

(** Rebuilding the links of a period and flushing them is what the comparison asks for:
    when every settled transaction is posted and its currency has an invoice, nothing is
    missing any more.  A transaction without a posting stays a missing link, so the
    comparison goes on asking for links and never says that a posting is missing. *)
Theorem rebuild_then_compare client period totals s :
  unique_links (links_of (live s)) -> List.NoDup (map ft_id (fuel_transactions (flow (live s)))) ->
  exists n l rows u d,
    _rebuild_fuel_links client period s = (Ok (n, l), s) /\
    flush_rows W (insert_link W) l s = (Ok rows, u) /\ unique_links (links_of (live u)) /\
    _compare_fuel_replay client period totals u = (Ok d, u) /\
    (Forall (fun tx => posted tx /\ invoiced client period (live s) tx) (settled_fuel client period (live s)) ->
     Diff.missing_links d = [] /\ Diff.recommended_action d <> "REBUILD_LINKS") /\
    (forall tx, In tx (settled_fuel client period (live s)) -> ~ posted tx -> ~ posts_link (live s) tx ->
     Diff.recommended_action d = "REBUILD_LINKS").
Proof.
  intros Hu Hids. destruct (rebuilt client period s Hu) as (n & l & rows & u & Hrun & Hf & Huu & (new & Hl & Hnew) & Hall).
  destruct (compare_run client period totals u) as (posts & relates & feeds & d & Hm & Hc & Hmis & Hrec).
  exists n, l, rows, u, d. repeat (split; [done|]).
  assert (settled_fuel client period (live u) = settled_fuel client period (live s)) as Hset by (by rewrite Hl).
  destruct (missing_run _ _ _ _ _ _ _ Hm) as (Hp & Hr & Hi). rewrite <- Hset in *.
  set (rs := List.filter _ (links_of (live u))) in *.
  assert (forall tx x, In tx (settled_fuel client period (live u)) ->
    In x (fuel_links period (period_invoices client period (live s)) tx) -> src_type x = FUEL_TX -> src_id x = ft_id tx ->
    ft_id tx ∈ linked_sources (link_type x) (dst_type x) rs) as Hfound.
  { intros tx x Htx Hx Ht Hid. destruct (Hall tx x) as (r & Hrin & Hcr); [|done|].
    - rewrite Hset in Htx. by apply settled_linked.
    - by eapply source_linked. }
  split.
  - intros Hok. rewrite List.Forall_forall in Hok.
    assert (posts = [] /\ relates = [] /\ feeds = []) as (-> & -> & ->).
    { split; [|split].
      - rewrite Hp. apply missing_none. intros id (tx & <- & Htx)%in_map_iff. destruct (Hok tx Htx) as [Hpo _].
        unfold posted, truthy_str in Hpo. apply bool_decide_eq_true in Hpo as [led Hled].
        apply (Hfound tx (MkSpec FUEL_TX (ft_id tx) POSTS LEDGER_TX led None)); try done.
        unfold fuel_links. rewrite Hled. apply in_app_iff. right. apply in_app_iff. left. by left.
      - rewrite Hr. apply missing_none. intros id (tx & <- & Htx)%in_map_iff.
        eapply (Hfound tx (MkSpec FUEL_TX (ft_id tx) RELATES BILLING_PERIOD (bp_id period) _)); try done.
        unfold fuel_links. apply in_app_iff. left. by left.
      - destruct Hi as [->| ->]; [done|]. apply missing_none. intros id (tx & <- & Htx)%in_map_iff.
        destruct (Hok tx Htx) as [_ [inv Hinv]]. unfold invoiced in Hinv.
        apply (Hfound tx (MkSpec FUEL_TX (ft_id tx) FEEDS INVOICE (inv_id inv) None)); try done.
        unfold fuel_links. rewrite Hinv. apply in_app_iff. right. apply in_app_iff. right. by left. }
    split; [by rewrite Hmis|]. intros Hbad. apply Hrec in Hbad as [?|[?|?]]; done.
  - intros tx Htx Hnp Hnl. apply Hrec. left. rewrite Hp. intros Hnil.
    assert (In (ft_id tx) (missing_from (linked_sources POSTS LEDGER_TX rs) (map ft_id (settled_fuel client period (live u))))) as Hin;
      [|by rewrite Hnil in Hin].
    apply filter_In. split; [by apply in_map|]. apply negb_true_iff, bool_decide_eq_false. intros Hlink.
    rewrite Hset in Htx. refine (unposted_unlinked client period s u new tx Hids Hl Hnew Htx Hnp Hnl (linked_posts _ _ _ _ Hlink)).
    intros r [Hrin [Hsrc%bool_decide_eq_true _]%andb_true_iff]%filter_In. done.
Qed.
End Rebuild.

(** ** The lines of an invoice *)

Section Breakdown.
Import CfoExplain Replay.

Definition bucket_of (b : bucket) (t : CFOExplainBreakdown) : Z :=
  match b with
  | base_fee => bd_base_fee t
  | overage => bd_overage t
  | fuel_usage => bd_fuel_usage t
  | logistics_usage => bd_logistics_usage t
  end.

Definition in_bucket (b : bucket) (line : InvoiceLine) : bool := bool_decide (_classify_line line = b).

Lemma sum_of_cons {A} (f : A -> Z) a l : sum_of f (a :: l) = f a + sum_of f l.
Proof. done. Qed.

Lemma summary_from b lines : forall t,
  bucket_of b (fold_left (fun t line => add_to (_classify_line line) (inl_line_amount line) t) lines t) =
  bucket_of b t + sum_of inl_line_amount (List.filter (in_bucket b) lines).
Proof.
  induction lines as [|line lines IH]; intros t; cbn [fold_left List.filter]; [simpl; lia|].
  rewrite IH. unfold in_bucket at 2. destruct (bool_decide_reflect (_classify_line line = b)) as [<-|Hne].
  - rewrite sum_of_cons. destruct (_classify_line line); cbn [add_to bucket_of bd_base_fee bd_overage bd_fuel_usage bd_logistics_usage]; lia.
  - f_equal. destruct (_classify_line line), b; done.
Qed.

Lemma bucket_sum b lines :
  bucket_of b (summarize_invoice_lines lines) = sum_of inl_line_amount (List.filter (in_bucket b) lines).
Proof. unfold summarize_invoice_lines. rewrite summary_from. by destruct b. Qed.

Lemma fuel_line line : in_bucket fuel_usage line = contains "fuel" (lower (inl_product_id line)).
Proof.
  unfold in_bucket, _classify_line. destruct (contains "fuel" _); [done|].
  destruct (contains "logistics" _); [done|]. by destruct (_ || _).
Qed.

Lemma four_buckets lines :
  sum_of inl_line_amount lines = sum_of inl_line_amount (List.filter (in_bucket base_fee) lines) +
    sum_of inl_line_amount (List.filter (in_bucket overage) lines) +
    sum_of inl_line_amount (List.filter (in_bucket fuel_usage) lines) +
    sum_of inl_line_amount (List.filter (in_bucket logistics_usage) lines).
Proof.
  induction lines as [|line lines IH]; [done|]. cbn [List.filter].
  assert (forall b, in_bucket b line = bool_decide (_classify_line line = b)) as Hb by done. rewrite !Hb.
  destruct (_classify_line line); repeat case_bool_decide; try discriminate; try done; rewrite !sum_of_cons; lia.
Qed.

Lemma reads_any_of {A} (f : A -> PM bool) l : (forall a, reads (f a)) -> reads (any_of f l).
Proof.
  intros Hf. induction l as [|a l IH]; [apply reads_ret|]. apply reads_bind; [done|]. intros []; [apply reads_ret|done].
Qed.

Lemma reads_in_metrics v : reads (in_metrics v).
Proof. destruct v; simpl; auto with reads. Qed.
Hint Resolve reads_any_of reads_in_metrics : reads.

Lemma reads_part part : reads (part_metric part).
Proof. destruct part; try apply reads_ret. apply reads_in_metrics. Qed.

Lemma reads_contains container : reads (_contains_metric_keys container).
Proof.
  destruct container as [| | | |l|]; try apply reads_ret. apply reads_any_of.
  intros [| | | | |d]; try apply reads_ret. apply reads_in_metrics.
Qed.

Lemma reads_rules rules : reads (_metric_rules_include rules).
Proof.
  destruct rules as [| | | |l|]; try apply reads_ret. apply reads_any_of. intros [| | | | |d]; try apply reads_ret.
  apply reads_bind; [apply reads_part|]. intros []; [apply reads_ret|apply reads_part].
Qed.

Lemma reads_fuel_metrics v : reads (tariff_has_fuel_metrics v).
Proof.
  destruct v as [| | | | |d]; try apply reads_ret. apply reads_bind; [apply reads_any_of, reads_contains|].
  intros []; [apply reads_ret|apply reads_rules].
Qed.

Lemma reads_should_include sub : reads (_should_include_fuel_metrics sub).
Proof.
  unfold _should_include_fuel_metrics, get_tariff, get_feature_flag. destruct sub as [sub|]; [|auto with reads].
  apply reads_bind; [auto with reads|]. intros [tariff|]; [|auto with reads].
  apply reads_bind; [apply reads_fuel_metrics|]. intros []; auto with reads.
Qed.

Lemma explain_run `{Timezone} invoice_id s r u : build_cfo_explain invoice_id s = (Ok r, u) ->
  u = s /\ ce_invoice_id r = invoice_id /\ ce_breakdown r = summarize_invoice_lines
    (List.filter (fun l => (inl_invoice_id l =? invoice_id)%py) (invoice_lines (billing (live s)))).
Proof.
  intros Hrun. unfold build_cfo_explain in Hrun.
  apply bind_inv_ok in Hrun as (invoice & v & Hi & Hrun). unfold q_first, gets in Hi. injection Hi as <- <-.
  destruct (head _) as [i|] eqn:Hh; [|discriminate Hrun]. apply filter_some_head in Hh as [_ Hid%bool_decide_eq_true].
  apply bind_inv_ok in Hrun as (lines & v & Hl & Hrun). unfold q_all, gets in Hl. injection Hl as <- <-.
  cbv zeta in Hrun. apply bind_inv_ok in Hrun as (links & v & Hk & Hrun). unfold links_where, q_all, gets in Hk. injection Hk as <- <-.
  apply bind_inv_ok in Hrun as (sub & v & Hs & Hrun).
  assert (v = s) as -> by (destruct (find _ _); unfold q_first, gets in Hs; by injection Hs).
  apply bind_inv_ok in Hrun as (rows & v & Hr & Hrun). unfold q_all, gets in Hr. injection Hr as <- <-.
  apply bind_inv_ok in Hrun as (metered & v & Hm & Hrun).
  pose proof (reads_should_include sub s) as Hsm. rewrite Hm in Hsm. simpl in Hsm. subst v.
  apply bind_inv_ok in Hrun as (fuel & v & Hf & Hrun).
  assert (v = s) as ->.
  { destruct metered; [|by injection Hf]. apply bind_inv_ok in Hf as (p & w & Hp & Hf). injection Hf as _ <-.
    unfold fuel_payload, _fuel_totals_for_invoice, fuel_between, q_all in Hp. revert Hp. run_steps. intros Hp. by injection Hp. }
  injection Hrun as <- <-. done.
Qed.

Lemma buckets_add t lines : t = summarize_invoice_lines lines ->
  bd_base_fee t + bd_overage t + bd_fuel_usage t + bd_logistics_usage t = sum_of inl_line_amount lines.
Proof.
  intros ->. rewrite four_buckets. change (bd_base_fee ?x) with (bucket_of base_fee x).
  change (bd_overage ?x) with (bucket_of overage x). change (bd_fuel_usage ?x) with (bucket_of fuel_usage x).
  change (bd_logistics_usage ?x) with (bucket_of logistics_usage x). by rewrite !bucket_sum.
Qed.

Definition lines_of (invoice_id : string) (d : Db) : list InvoiceLine :=
  List.filter (fun l => (inl_invoice_id l =? invoice_id)%py) (invoice_lines (billing d)).

(** The amount the replay finds is that of the fuel lines of each invoice. *)
Lemma fuel_summary_run client period s : List.NoDup (map inv_id (period_invoices client period (live s))) ->
  exists volume, _fuel_invoice_summary client period s =
    (Ok (sum_of (fun i => sum_of inl_line_amount (List.filter (in_bucket fuel_usage) (lines_of (inv_id i) (live s))))
           (period_invoices client period (live s)), volume), s).
Proof.
  intros Hn. unfold _fuel_invoice_summary.
  rewrite (bind_ok _ _ s (period_invoices client period (live s)) s) by done.
  destruct (period_invoices client period (live s)) as [|i l] eqn:Hl; [by eexists|]. rewrite <- Hl in *.
  unfold q_all. run_steps. eexists. do 3 f_equal.
  set (ids := map inv_id (period_invoices client period (live s))) in *.
  transitivity (sum_of (fun id => sum_of inl_line_amount (List.filter (fun l => (inl_invoice_id l =? id)%py)
    (List.filter (in_bucket fuel_usage) (invoice_lines (billing (live s)))))) ids).
  - rewrite (sum_by_group inl_invoice_id inl_line_amount ids _ Hn). f_equal. rewrite <- !filter_and.
    apply List.filter_ext. intros a. rewrite fuel_line. apply andb_comm.
  - unfold ids. rewrite sum_of_map. apply sum_of_ext, List.Forall_forall. intros x _. f_equal.
    unfold lines_of. rewrite <- !filter_and. apply List.filter_ext. intros a. apply andb_comm.
Qed.

(** C36 the explanation of an invoice shows every line in one of its four buckets: the
    breakdown adds up to the lines.  Over the invoices of a client in a period, which have
    distinct ids, their fuel buckets add up to the amount that the replay of the period
    finds. *)
Theorem breakdown_conserves `{Timezone} (s : session Db) :
  (forall invoice_id r u, build_cfo_explain invoice_id s = (Ok r, u) ->
     let t := ce_breakdown r in
     u = s /\ ce_invoice_id r = invoice_id /\
     bd_base_fee t + bd_overage t + bd_fuel_usage t + bd_logistics_usage t =
       sum_of inl_line_amount (lines_of invoice_id (live s))) /\
  (forall client period explained,
     List.NoDup (map inv_id (period_invoices client period (live s))) ->
     Forall2 (fun i r => build_cfo_explain (inv_id i) s = (Ok r, s)) (period_invoices client period (live s)) explained ->
     exists volume, _fuel_invoice_summary client period s =
       (Ok (sum_of (fun r => bd_fuel_usage (ce_breakdown r)) explained, volume), s)).
Proof.
  split.
  - intros invoice_id r u Hrun t. destruct (explain_run invoice_id s r u Hrun) as (-> & Hid & Ht).
    split; [done|]. split; [done|]. by apply buckets_add.
  - intros client period explained Hn Hall. destruct (fuel_summary_run client period s Hn) as [v Hv].
    exists v. rewrite Hv. do 3 f_equal. clear Hv Hn. induction Hall as [|i r l rs Hr Hall IH]; [done|].
    rewrite !sum_of_cons, IH. f_equal. destruct (explain_run _ s r s Hr) as (_ & _ & ->).
    change (bd_fuel_usage ?x) with (bucket_of fuel_usage x). by rewrite bucket_sum.
Qed.
End Breakdown.

(** ** Stuck flows *)

Section Health.
Import Diagnostics.

Definition newest_first (l : list MoneyFlowEvent) : list MoneyFlowEvent := sort_on (fun e => - mfe_created_at e) l.

(** The last event of its flow. *)
Definition last_of_flow (l : list MoneyFlowEvent) (e : MoneyFlowEvent) : Prop :=
  In e l /\ forall e', In e' l -> flow_key e' = flow_key e -> mfe_created_at e' <= mfe_created_at e.

Lemma latest_spec l : forall seen,
  StronglySorted (fun a b => mfe_created_at b <= mfe_created_at a) l ->
  List.NoDup (map flow_key (latest_by_flow seen l)) /\
  (forall e, In e (latest_by_flow seen l) -> ~ In (flow_key e) seen /\ last_of_flow l e) /\
  (forall e, In e l -> In (flow_key e) seen \/ In (flow_key e) (map flow_key (latest_by_flow seen l))).
Proof.
  induction l as [|e l IH]; intros seen Hs; [split; [constructor|split; [done|done]]|].
  apply StronglySorted_inv in Hs as [Hs He]. rewrite Forall_forall in He. cbn [latest_by_flow].
  destruct (bool_decide_reflect (flow_key e ∈ seen)) as [Hin|Hout].
  - destruct (IH seen Hs) as (Hn & Hl & Ha). split; [done|]. split.
    + intros x Hx. destruct (Hl x Hx) as [Hx1 [Hx2 Hx3]]. split; [done|]. split; [by right|].
      intros e' [<-|He'] Hk; [|by apply Hx3]. destruct Hx1. rewrite <- Hk. by apply list_elem_of_In.
    + intros x [<-|Hx]; [left; by apply list_elem_of_In|]. by apply Ha.
  - destruct (IH (flow_key e :: seen) Hs) as (Hn & Hl & Ha). split; [|split].
    + simpl. constructor; [|done]. intros (x & Hk & Hx)%in_map_iff. destruct (Hl x Hx) as [Hx1 _]. apply Hx1. by left.
    + intros x [<-|Hx].
      * split; [by rewrite <- list_elem_of_In|]. split; [by left|].
        intros e' [<-|He'] _; [lia|]. apply He. by apply list_elem_of_In.
      * destruct (Hl x Hx) as [Hx1 [Hx2 Hx3]]. split; [intros Hc; apply Hx1; by right|]. split; [by right|].
        intros e' [<-|He'] Hk; [|by apply Hx3]. destruct Hx1. by left.
    + intros x [<-|Hx]; [right; by left|]. destruct (Ha x Hx) as [[Hk|?]|?]; [right; left; exact Hk|by left|right; by right].
Qed.

Lemma newest_sorted l : StronglySorted (fun a b => mfe_created_at b <= mfe_created_at a) (newest_first l).
Proof.
  unfold newest_first, sort_on.
  pose proof (StronglySorted_merge_sort (le_on (fun e => - mfe_created_at e)) l) as Hs.
  induction Hs as [|x m Hs IH Hx]; constructor; [done|]. eapply Forall_impl; [exact Hx|]. unfold le_on. lia.
Qed.

Lemma newest_in l e : In e (newest_first l) <-> In e l.
Proof. rewrite <- !list_elem_of_In. unfold newest_first. by rewrite sort_on_perm. Qed.

Lemma reads_inv {A B} (m : PM A) (f : A -> PM B) s b t : reads m ->
  (m ≫= f) s = (Ok b, t) -> exists a, m s = (Ok a, s) /\ f a s = (Ok b, t).
Proof.
  intros Hm H. apply bind_inv_ok in H as (a & u & Ha & Hf). specialize (Hm s). rewrite Ha in Hm. simpl in Hm. subst u.
  by exists a.
Qed.

Lemma reads_violations : reads count_violations.
Proof. unfold count_violations. reading. Qed.

Lemma reads_fuel_health `{Timezone} : reads _fuel_link_health.
Proof. unfold _fuel_link_health, _fuel_missing_invoice_links, fuel_between, links_where. reading. Qed.
Hint Resolve reads_violations reads_fuel_health : reads.

(** The health report of a flow looks at its last event: of each flow that has events it
    takes exactly one, and none of the flow is later.  The flows it reports as stuck are
    those whose last event left them authorised before the deadline, or pending. *)
Theorem stuck_flows W `{Timezone} stale_hours s r t :
  build_money_health W stale_hours s = (Ok r, t) ->
  let events := flow_events (flow (live s)) in
  let deadline := clock W (ticks s) - stale_hours * hour_us in
  exists latest,
    List.NoDup (map flow_key latest) /\
    (forall e, In e latest -> last_of_flow events e) /\
    (forall e, In e events -> exists e', In e' latest /\ flow_key e' = flow_key e) /\
    stuck_authorized r = count (stuck deadline MoneyFlowState.AUTHORIZED) latest /\
    stuck_pending_settlement r = count (stuck deadline MoneyFlowState.PENDING_SETTLEMENT) latest /\
    live t = live s /\ saved t = saved s.
Proof.
  intros Hrun events deadline. exists (latest_by_flow [] (newest_first events)).
  destruct (latest_spec (newest_first events) [] (newest_sorted events)) as (Hn & Hl & Ha).
  split; [done|]. split; [|split].
  - intros e He. destruct (Hl e He) as [_ [Hin Hall]]. split; [by apply newest_in|].
    intros e' He'. apply Hall. by apply newest_in.
  - intros e He. apply newest_in, Ha in He as [[]|He]. apply in_map_iff in He as (e' & ? & ?). by exists e'.
  - unfold build_money_health in Hrun. apply bind_inv_ok in Hrun as (time & u & Hnow & Hrun).
    unfold now in Hnow. injection Hnow as <- <-.
    unfold _count_missing_links, _count_missing_subscription_links, _count_missing_charge_links, _count_charge_key_duplicates,
      _count_segment_gaps, _count_missing_snapshots, _count_missing_subscription_snapshots, _count_disconnected_graph,
      _count_cfo_not_ready, count_unlinked, links_where in Hrun.
    cbv zeta in Hrun.
    do 4 (apply reads_inv in Hrun as (? & _ & Hrun); [|auto with reads]).
    apply reads_inv in Hrun as (evs & Hev & Hrun); [|auto with reads]. unfold gets in Hev. injection Hev as <-.
    apply reads_inv in Hrun as ([[[? ?] ?] ?] & _ & Hrun); [|auto with reads].
    do 9 (apply reads_inv in Hrun as (? & _ & Hrun); [|reading]).
    injection Hrun as <- <-. done.
Qed.
End Health.

(** ** Instances *)

(** The first of the demonstration postings, settled by a flow. *)
Definition demo_tx : option InternalLedgerTransaction := head (il_transactions (internal demo_posted)).

Definition demo_event (ledger_id : string) : MoneyFlowEvent :=
  MkMoneyFlowEvent "event-1" 1 "client-1" MoneyFlowType.INVOICE_PAYMENT "inv-1" None MoneyFlowState.SETTLED
    MoneyFlowEventType.SETTLE "key-1" (Some ledger_id) None 5000000 None.

Lemma demo_tx_facts :
  match demo_tx with
  | Some tx => negb (eqb (ilt_id tx) "") &&
               forallb (fun e => eqb (ile_currency e) "RUB") (entries_of (ilt_id tx) demo_posted)
  | None => false
  end = true.
Proof. vm_compute. reflexivity. Qed.

Definition demo_entry (direction : InternalLedgerEntryDirection.InternalLedgerEntryDirection)
    (amount : Z) : InternalLedgerEntry :=
  MkInternalLedgerEntry "e" 1 "t" "account" direction amount "RUB" "h" None.

(** A settled event whose posting debits 5 and credits 3. *)
Definition crooked_db : Db :=
  on_flow_events (fun _ => [demo_event "t"])
    (on_internal (fun _ => MkInternalTables [] []
       [demo_entry InternalLedgerEntryDirection.DEBIT 5; demo_entry InternalLedgerEntryDirection.CREDIT 3])
       empty_db).

(** A posting of the ledger passes both checks, the crooked one neither. *)
Lemma ledger_checks_agree_witness :
  (exists tx summary inv, demo_tx = Some tx /\
    Explain.explain_ledger (demo_event (ilt_id tx)) (fresh_session demo_posted) =
      (Ok (Some summary, inv), fresh_session demo_posted) /\
    Explain.passed inv = true) /\
  (exists summary inv n,
    Explain.explain_ledger (demo_event "t") (fresh_session crooked_db) =
      (Ok (Some summary, inv), fresh_session crooked_db) /\
    Explain.passed inv <> true /\
    Diagnostics.count_violations (fresh_session crooked_db) = (Ok n, fresh_session crooked_db) /\ n <> 0).
Proof.
  split.
  - generalize demo_tx_facts, demo_posted_inv. unfold demo_tx. generalize demo_posted. intros d Hf Hi.
    destruct (head (il_transactions (internal d))) as [tx|] eqn:Htx; [|discriminate Hf].
    apply andb_true_iff in Hf as [Hid%negb_true_iff%bool_decide_eq_false Hcur].
    destruct (ledger_checks_agree (demo_event (ilt_id tx)) (ilt_id tx) (fresh_session d) eq_refl Hid)
      as (summary & inv & n & Hrun & Hp & _ & _ & _ & Hone).
    exists tx, summary, inv. split; [reflexivity|]. split; [exact Hrun|]. apply Hp, (Hone demo_world Hi).
    + apply in_map. by apply head_Some_elem_of, list_elem_of_In in Htx.
    + intros e e' He He'. rewrite forallb_forall in Hcur. pose proof (Hcur e He) as H1. pose proof (Hcur e' He') as H2.
      apply bool_decide_eq_true in H1, H2. congruence.
  - assert (~ books_balance (entries_of "t" crooked_db)) as Hb by (intros [H _]; vm_compute in H; discriminate H).
    destruct (ledger_checks_agree (demo_event "t") "t" (fresh_session crooked_db))
      as (summary & inv & n & Hrun & Hp & _ & Hn & Hz & _); [reflexivity|discriminate|].
    exists summary, inv, n. split; [exact Hrun|]. split; [intros H; apply Hb, Hp, H|]. split; [exact Hn|].
    intros H. apply Hb. apply (proj1 Hz H (demo_event "t")); [left; reflexivity|reflexivity|reflexivity].
Defined.

(** A month with two fuel transactions of a client, one of them without a posting. *)
Definition demo_period : BillingPeriod :=
  MkBillingPeriod "p-1" BillingPeriodType.MONTHLY 0 100000000 "UTC" BillingPeriodStatus.OPEN None None.

Definition demo_fuel (id : string) (ledger_id : option string) : FuelTransaction :=
  MkFuelTransaction id 1 "client-1" 50000000 1001 5000 "RUB" FuelTransactionStatus.SETTLED "network" FuelType.DIESEL ledger_id.

Definition fuel_invoice : Invoice :=
  MkInvoice "inv-1" "client-1" "RUB" (Some "p-1") 19844 19874 5000 0 5000 0 5000 0 0
    InvoiceStatus.SENT InvoicePdfStatus.READY (Some 0) (Some 0) None None None.

(** One line of 1.001 litres. *)
Definition fuel_db (txs : list FuelTransaction) : Db :=
  on_fuel_transactions (fun _ => txs) (on_billing_periods (fun _ => [demo_period])
    (on_invoice_lines (fun _ => [MkInvoiceLine "inv-1" "FUEL-AI95" (Some 1001) 5000])
      (on_invoices (fun _ => [fuel_invoice]) empty_db))).

Lemma rebuild_then_compare_witness :
  let s := fresh_session (fuel_db [demo_fuel "tx-1" (Some "led-1"); demo_fuel "tx-2" None]) in
  exists n l rows u d,
    Replay._rebuild_fuel_links "client-1" demo_period s = (Ok (n, l), s) /\
    flush_rows demo_world (Graph.insert_link demo_world) l s = (Ok rows, u) /\
    Replay._compare_fuel_replay "client-1" demo_period (totals_of []) u = (Ok d, u) /\
    Diff.recommended_action d = "REBUILD_LINKS".
Proof.
  cbv zeta. set (s := fresh_session _).
  destruct (rebuild_then_compare demo_world (fun _ _ => eq_refl) "client-1" demo_period (totals_of []) s)
    as (n & l & rows & u & d & Hr & Hf & _ & Hc & _ & Hun).
  - apply List.NoDup_nil.
  - simpl. constructor; [intros [H|[]]; discriminate H|]. constructor; [intros []|constructor].
  - exists n, l, rows, u, d. split; [exact Hr|]. split; [exact Hf|]. split; [exact Hc|].
    apply (Hun (demo_fuel "tx-2" None)); [right; left; reflexivity|discriminate|intros (r & [] & _)].
Defined.

(** The answer to a rebuild counts five links; a comparison then still misses all of them. *)
Lemma replay_changes_nothing_witness :
  let s := fresh_session (fuel_db [demo_fuel "tx-1" (Some "led-1"); demo_fuel "tx-2" None]) in
  let run := AdminMoneyFlow.replay_money_flow demo_world "client-1" "p-1" in
  let after := (run MoneyReplayMode.REBUILD_LINKS MoneyReplayScope.FUEL s).2 in
  match (run MoneyReplayMode.REBUILD_LINKS MoneyReplayScope.FUEL s).1 with
  | Ok r => Replay.links_rebuilt r = Some 5
  | Raise _ => False
  end /\
  run MoneyReplayMode.COMPARE MoneyReplayScope.FUEL after = run MoneyReplayMode.COMPARE MoneyReplayScope.FUEL s.
Proof.
  cbv zeta. split; [vm_compute; reflexivity|].
  apply (replay_changes_nothing demo_world "client-1" "p-1" MoneyReplayMode.REBUILD_LINKS MoneyReplayScope.FUEL _).
Defined.

Definition second_invoice : Invoice :=
  MkInvoice "inv-2" "client-1" "RUB" (Some "p-1") 19844 19874 790 0 790 0 790 0 0
    InvoiceStatus.SENT InvoicePdfStatus.READY (Some 0) (Some 0) None None None.

(** Two invoices of the month. *)
Definition two_invoices : Db :=
  on_invoice_lines (fun l => l ++ [MkInvoiceLine "inv-2" "FUEL-DT" (Some 200) 700; MkInvoiceLine "inv-2" "base" None 90])
    (on_invoices (fun l => l ++ [second_invoice]) (fuel_db [])).

Lemma breakdown_conserves_witness :
  let s := fresh_session two_invoices in
  exists r r' volume,
    CfoExplain.build_cfo_explain (H := utc) "inv-1" s = (Ok r, s) /\
    CfoExplain.build_cfo_explain (H := utc) "inv-2" s = (Ok r', s) /\
    Replay._fuel_invoice_summary "client-1" demo_period s =
      (Ok (CfoExplain.bd_fuel_usage (CfoExplain.ce_breakdown r) +
           (CfoExplain.bd_fuel_usage (CfoExplain.ce_breakdown r') + 0), volume), s).
Proof.
  cbv zeta. set (s := fresh_session _).
  destruct (breakdown_conserves (H := utc) s) as [Hone Hall].
  destruct (ok_run (CfoExplain.build_cfo_explain (H := utc) "inv-1") s) as [r Hr]; [vm_compute; reflexivity|].
  destruct (ok_run (CfoExplain.build_cfo_explain (H := utc) "inv-2") s) as [r' Hr']; [vm_compute; reflexivity|].
  destruct (Hone _ _ _ Hr) as (Hs & _ & _), (Hone _ _ _ Hr') as (Hs' & _ & _). rewrite Hs in Hr. rewrite Hs' in Hr'.
  destruct (Hall "client-1" demo_period [r; r']) as [v Hv].
  - vm_compute. repeat constructor; simpl; intuition discriminate.
  - change (period_invoices "client-1" demo_period (live s)) with [fuel_invoice; second_invoice].
    constructor; [exact Hr|]. constructor; [exact Hr'|constructor].
  - exists r, r', v. split; [exact Hr|]. split; [exact Hr'|exact Hv].
Defined.

(** One flow, authorised a day and an hour before the report. *)
Definition authorised_event : MoneyFlowEvent :=
  MkMoneyFlowEvent "event-1" 1 "client-1" MoneyFlowType.FUEL_TX "tx-1" None MoneyFlowState.AUTHORIZED
    MoneyFlowEventType.AUTHORIZE "key-1" None None (-90000000000) None.

Lemma stuck_flows_witness :
  let s := fresh_session (on_flow_events (fun _ => [authorised_event]) empty_db) in
  exists r t, Diagnostics.build_money_health demo_world (H := utc) 24 s = (Ok r, t) /\
    Diagnostics.stuck_authorized r = 1 /\ live t = live s.
Proof.
  cbv zeta. set (s := fresh_session _).
  destruct (Diagnostics.build_money_health demo_world (H := utc) 24 s) as [[r|e] t] eqn:Hr; [|vm_compute in Hr; discriminate Hr].
  destruct (stuck_flows demo_world (H := utc) 24 s r t Hr) as (_ & _ & _ & _ & _ & _ & Hl & _).
  exists r, t. split; [done|]. split; [|exact Hl]. vm_compute in Hr. injection Hr as <- _. reflexivity.
Defined.

(** 1.001 litres are 1000 millilitres to the replay: the product of the doubles is just
    below 1001, so a period whose books agree is reported as different. *)
Lemma millilitre_lost :
  millilitres 1001 = 1000 /\ millilitres 1002 = 1002 /\
  match (Replay._compare_fuel_replay "client-1" demo_period (totals_of [demo_fuel "tx-1" (Some "led-1")])
           (fresh_session (fuel_db [demo_fuel "tx-1" (Some "led-1")]))).1 with
  | Ok d => Diff.mismatched_invoice_aggregation d = Some ["volume_ml"]
  | Raise _ => False
  end.
Proof. repeat split; vm_compute; reflexivity. Qed.
